(* ===== verification/_CoqProject ===== *)
-Q . S2P
Prelude.v
CString.v
Err.v
Prog.v
SrtpTypes.v
Replay.v
Rdb.v
Rdbx.v
Key.v
Util.v
ByteOrder.v
SrtpPolicy.v
RtpWorker.v
Camera.v
Snapshot.v
Video.v
JsonNumber.v
Json.v
JsonMem.v
JsonParse.v
JsonDouble.v
JsonPrint.v
JsonSafe.v
JsonText.v
JsonRoundtrip.v
HttpTypes.v
HttpUrl.v
HttpParser.v
HttpSafe.v
HttpRequest.v
HttpTheorems.v
HttpServer.v
LiveStream.v
HttpDaemon.v
MmalSetup.v
Sha1.v
Hmac.v
AesTables.v
Aes.v
AesKeys.v
AesIcm.v
Cipher.v
Kernel.v
SelfTest.v
KernelRun.v
SrtpStream.v
SrtpCreate.v
SrtpPacket.v
Srtcp.v
SrtpRun.v
SrtpXtn.v
SrtpProcess.v
SrtpSession.v
SrtpProtect.v
SrtpUnprotect.v
SrtcpRun.v
SrtcpProtect.v
SrtcpUnprotect.v
SrtpSecure.v
SrtpKeys.v
SelfTestRun.v
SrtpCreated.v
SrtpTheorems.v
SrtcpTheorems.v
Sender.v
