(* ===== verification/Prelude.v ===== *)
(** A verification of the camera daemon.

    * The program

    The daemon (camera_daemon.c) drives the Raspberry Pi camera through the
    MMAL library: a camera feeds a splitter, the splitter feeds an H.264 and,
    through a resizer, a JPEG encoder.  Two encoder callbacks hand the encoded
    data over: the JPEG callback to one waiting HTTP client (/snapshot), the
    video callback to live HTTP clients (/live) and to an SRTP session (a POST
    naming the destination and the key).  The HTTP server runs in the main
    thread; the callbacks run in threads of MMAL.  rtpworker.c cuts video
    buffers into RTP packets and protects them with libsrtp; util.c converts
    keys from base64; cJSON and http_parser are embedded in the repository,
    and so is libsrtp with AES counter mode, SHA-1, HMAC and its replay
    databases.

    * Configuration

    The code is modelled as the CMake build compiles it for the 32-bit ARM
    target: little endian, 32-bit [int], [long] and [size_t], unsigned [char],
    libsrtp with CPU_CISC, without OpenSSL, NSS, GCM and debugging output.
    Machine integers are [Z] with the wrap-around written out ([u8], [u16],
    [u32], [u64], [s32]); signed overflow, an access outside a block and the
    use of a NULL pointer are the [None] of the option monad, so a theorem
    that states [= Some _] also states that none of them happens.  Results of
    the allocator, of system calls and of MMAL are inputs of the operations
    that make the calls, so the theorems hold for every answer.

    * The files

    Prelude.v: fixed-width integers, arrays of octets ([aget], [aset],
    [slice], [splice]), counting loops ([for_up]), and the automation the
    components share.  CString.v: strlen, strcmp, strncmp on blocks.

    libsrtp, from the bottom: Err.v (srtp_err_status_t, alloc.c); SrtpTypes.v
    (datatypes.c, datatypes.h: v128_t, bitvector_t, hexadecimal printing,
    constant-time comparison); Replay.v (the interface [ReplayDb] of a replay
    database and what follows from it), implemented by Rdb.v (rdb.c, for
    SRTCP) and Rdbx.v (rdbx.c, for SRTP, with the index estimation); Key.v
    (key.c); Sha1.v and Hmac.v (sha1.c, hmac.c); AesTables.v, Aes.v and
    AesKeys.v (aes.c: tables, rounds, key schedules); AesIcm.v (aes_icm.c, over
    the interface [BlockCipher] that AES implements); SrtpPolicy.v (the
    policies and profiles of srtp.c).
    Prog.v is the monad of library functions (a state, early returns with a
    status, undefined behaviour) with its program logic.  Cipher.v (cipher.c,
    auth.c, the null cipher and the null authenticator) dispatches to the
    algorithms; Kernel.v is the registry of crypto_kernel.c and KernelRun.v its
    invariant; SelfTest.v holds the self tests of cipher.c and auth.c over
    method tables ([srtp_cipher_type_t], [srtp_auth_type_t]) and SelfTestRun.v
    what passing one means.  The session layer of srtp.c: SrtpStream.v (streams, headers,
    index estimation, cloning), SrtpCreate.v (allocation, key derivation,
    srtp_create), SrtpPacket.v (srtp_protect, srtp_unprotect), Srtcp.v
    (srtp_protect_rtcp, srtp_unprotect_rtcp).  Streams that share their objects
    with the template they were cloned from refer to the same entry of a key
    store.  The proofs go up in the same order: SrtpRun.v, SrtpXtn.v and
    SrtpProcess.v (the steps on one stream and one set of keys), SrtpSession.v
    (the session invariant [ses_ok]), SrtpProtect.v, SrtpUnprotect.v,
    SrtpSecure.v (whole calls), SrtcpRun.v, SrtcpProtect.v and SrtcpUnprotect.v
    (the same for SRTCP), SrtpKeys.v, SrtpCreated.v (sessions made by
    srtp_create), SrtpTheorems.v and SrtcpTheorems.v (the properties).
    The daemon: Util.v (util.c); RtpWorker.v (rtpworker.c, over the interface
    [SrtpLib] of the SRTP library); Camera.v (the state [PORT_USERDATA] and
    the two callbacks); Snapshot.v (the interleavings of the server thread and
    the JPEG callback, as a step relation [server_step]); Video.v (what the
    video callback delivers); Json.v (the JSON tree of cJSON.c and its
    queries); HttpServer.v (server_on_url, server_on_body, handle_request and
    the select loop of create_server); LiveStream.v (the runs of callbacks and
    requests that a live client sees); MmalSetup.v (setup_*, connect_ports,
    fill_port_buffer and main).
    Sender.v joins RtpWorker.v to the session layer: it discharges [SrtpLib]
    with srtp_create and srtp_protect, and holds srtp_backend_init.

    cJSON: JsonNumber.v (doubles as IEEE 754 values, strtod and the %g
    conversion), Json.v (the tree and its queries), JsonMem.v (the heap of
    items and strings, cJSON_Delete), JsonParse.v (the parser), JsonPrint.v (the
    printer and its growing buffer); JsonDouble.v (doubles are printed with
    enough digits: [number_text_reads_back]); JsonSafe.v, JsonText.v and JsonRoundtrip.v
    hold the proofs.

    HTTP: HttpTypes.v (http_parser.h: methods, errors, flags, the parser and
    its callbacks; the character classes and states of http_parser.c);
    HttpUrl.v (parse_url_char, http_parser_parse_url, http_parse_host);
    HttpParser.v (http_parser_execute: one definition per case of its switch,
    over the build options [HttpConfig]); HttpSafe.v (weakest preconditions,
    the invariant [parser_ok], every case); HttpRequest.v (the grammar of
    requests and the callbacks a request makes); HttpTheorems.v; HttpDaemon.v
    (the server and the parser together).

    * The theorems

    Concurrency: in every interleaving the snapshot sent to a client is one
    whole frame that began after the request ([snapshot_served_whole_frame]),
    and the request is answered once the encoder delivers a frame
    ([snapshot_response]).

    Cryptography: table-driven AES computes the function of FIPS 197 and its
    inverse ([srtp_aes_encrypt_fips], [srtp_aes_decrypt_encrypt]); counter
    mode in any chunks is xor with one key stream, is undone by the receiver
    and never uses a counter block twice ([srtp_aes_icm_keystream],
    [srtp_aes_icm_decrypts], [srtp_aes_icm_no_counter_reuse]); streaming SHA-1
    and HMAC compute FIPS 180 and RFC 2104 ([sha1_streaming_correct],
    [hmac_sha1_correct]); the standards are written down apart from the code, in
    the Modules [Fips] and [Fips180].

    Replay protection: both databases implement [ReplayDb]; no index is
    accepted twice and the window is exact; the estimated index is the
    nearest one and recovers the sender's.

    Sessions: a kernel hands out objects only of tested types
    ([crypto_kernel_fail_safe]), whatever their implementations only of those
    that gave their known answers ([kernel_types_tested]), and the library comes
    up with the types it has ([srtp_init_succeeds]); srtp_protect builds the packet of RFC 3711
    ([srtp_protect_seals], [srtp_protect_succeeds]); srtp_unprotect is safe on
    every packet, accepts only packets with the tag of the session key and none
    twice ([srtp_unprotect_safe], [srtp_unprotect_authentic],
    [srtp_unprotect_forgery], [srtp_unprotect_no_replay]); and a receiver gets
    back what a sender protected, for sessions in any state
    ([srtp_protect_unprotect]) and from srtp_create on ([srtp_end_to_end]).
    SRTCP has the same properties ([srtp_protect_rtcp_seals],
    [srtp_unprotect_rtcp_authentic], [srtp_unprotect_rtcp_forgery],
    [srtp_unprotect_rtcp_no_replay], [srtcp_end_to_end]).  The camera's frames
    leave the daemon only as packets of the created session
    ([camera_stream_encrypted]).

    Streaming and serving: how frames are cut into packets
    ([srtp_sender_callback_packets]), what a live client is sent from a key frame
    on, and what it is sent when it takes over from another
    ([live_stream_from_key_frame]), the descriptors the server watches and the
    turns it takes ([create_server_serves]), the pipeline main builds
    ([main_setup_pipeline]).

    Round trips: base64 and hexadecimal.
    JSON: the parser returns on every string, within bounds, with a tree or
    with every block freed ([cJSON_Parse_safe]); the printer writes the text
    that a structural definition gives ([cJSON_Print_text]), into a buffer of
    the caller only when it fits ([cJSON_PrintPreallocated_text]); parsing what
    was printed gives the value back, every finite double included
    ([cJSON_print_parse_roundtrip]).

    HTTP: on every input, in pieces of any size and with callbacks that fail
    or pause it, the parser returns, no assertion fails and its invariant
    holds ([http_parser_execute_safe]); a request is told to the callbacks as
    it was written ([http_request_roundtrip]); splitting a URL stays inside it
    ([http_parser_parse_url_safe]); the daemon answers a whole request by its
    method, URL and body ([get_request_answered], [post_request_answered]).

    Errors: the theorems of kind "error" state what the code does on inputs it
    does not handle (a key string that is too short, an image that does not
    fit, a mutex unlocked by a thread that does not own it, and others).

    * Bounds and fuel

    Loops with a counter are [for_up], which is total.
    The walk over header extensions and the skipping of padding have the
    length of the extension as fuel, since every step consumes an octet.  The
    JSON parser recurses with the fuel CJSON_NESTING_LIMIT + 1, which is the
    depth it allows; its loops and those of the printer have the length of
    their input.  The HTTP parser re-reads a character at
    most three times ([REEXECUTE_FUEL]), since every goto to the start of its
    switch lowers a rank of states; its loops have one more than the length of
    the data.

    The other bounds are those of the source: 65535 octets
    per packet for counter mode, 2^48 packet indices, 2^31 for SRTCP.

    * Not modelled

    The operating system, MMAL, pthread scheduling fairness and the C library
    beyond the string functions; printing of logs; the AES code for other
    processors, the OpenSSL and NSS wrappers, EKT and the test drivers, which
    the build leaves out.
    Updating a session with new keys, the editing functions of cJSON, and the
    tables of names and descriptions of http_parser.c that are only printed
    are not modelled.
*)

From stdpp Require Export base tactics list list_numbers numbers option.
From Stdlib Require Export ZArith Lia.

#[global] Open Scope Z_scope.

#[global] Arguments Z.eqb : simpl never.
#[global] Arguments Z.ltb : simpl never.
#[global] Arguments Z.leb : simpl never.
#[global] Arguments Z.of_nat : simpl never.

(** ** Machine integers *)

(** A [w]-bit unsigned value is the [Z] in [0, 2^w); [wrap w] is the
    conversion of C to an unsigned type, [swrap w] the two's-complement
    conversion to a signed type. *)
Definition wrap (w z : Z) : Z := z mod 2 ^ w.

Definition swrap (w z : Z) : Z := (z + 2 ^ (w - 1)) mod 2 ^ w - 2 ^ (w - 1).

Declare Scope cint_scope.
Delimit Scope cint_scope with cint.
Abbreviation u8 := (wrap 8).
Abbreviation u16 := (wrap 16).
Abbreviation u32 := (wrap 32).
Abbreviation u64 := (wrap 64).
Abbreviation s32 := (swrap 32).
Notation "x '<<' n" := (Z.shiftl x n) (at level 45, left associativity) : cint_scope.
Notation "x '>>' n" := (Z.shiftr x n) (at level 45, left associativity) : cint_scope.
Notation "x '&' y" := (Z.land x y) (at level 46, left associativity) : cint_scope.
Notation "x '^^' y" := (Z.lxor x y) (at level 47, left associativity) : cint_scope.
Notation "x '.|' y" := (Z.lor x y) (at level 48, left associativity) : cint_scope.
#[global] Open Scope cint_scope.

(** Signed overflow is undefined behaviour: [sint z] is [z] when an [int] can
    hold it. *)
Definition sint (z : Z) : option Z :=
  if decide (- 2 ^ 31 <= z < 2 ^ 31) then Some z else None.

(** A value fits in [w] unsigned bits. *)
Definition fits (w z : Z) : Prop := 0 <= z < 2 ^ w.

#[global] Instance fits_dec w z : Decision (fits w z) := _.

Abbreviation is_u8 := (fits 8).
Abbreviation is_u16 := (fits 16).
Abbreviation is_u32 := (fits 32).
Abbreviation is_u64 := (fits 64).

(** ** Arrays

    A C array is a list; an access outside it is undefined behaviour, the
    [None] of the option monad in which the memory-touching functions of the
    development live. *)
Definition aget {A} (l : list A) (i : Z) : option A :=
  if decide (0 <= i) then l !! Z.to_nat i else None.

Definition aset {A} (l : list A) (i : Z) (v : A) : option (list A) :=
  if decide (0 <= i < Z.of_nat (length l)) then Some (<[Z.to_nat i := v]> l) else None.

(** The total view of an array of integers, for specifications. *)
Definition znth (l : list Z) (i : Z) : Z := default 0 (aget l i).

Definition zlen {A} (l : list A) : Z := Z.of_nat (length l).

(** ** Loops

    [for_up lo hi body s] is [for (i = lo; i < hi; i++) s = body(i, s)]; the
    number of iterations is fixed on entry, as it is in every loop modelled
    with it. *)
Fixpoint for_nat {S} (n : nat) (lo : Z) (body : Z -> S -> option S) (s : S) : option S :=
  match n with
  | O => Some s
  | S n' => s' ← body lo s; for_nat n' (lo + 1) body s'
  end.

Definition for_up {S} (lo hi : Z) (body : Z -> S -> option S) (s : S) : option S :=
  for_nat (Z.to_nat (hi - lo)) lo body s.

(** ** Automation *)

(** [lia] knows division and remainder. *)
Ltac Zify.zify_post_hook ::= Z.to_euclidean_division_equations.

Create HintDb cint.
Create HintDb carray.

(** Case analysis on the booleans of a C condition, turning each comparison
    into its proposition. *)
Ltac bool_to_prop :=
  repeat match goal with
  | H : (_ && _) = true |- _ => apply andb_prop in H; destruct H
  | H : (_ <? _) = true |- _ => apply Z.ltb_lt in H
  | H : (_ <? _) = false |- _ => apply Z.ltb_ge in H
  | H : (_ <=? _) = true |- _ => apply Z.leb_le in H
  | H : (_ <=? _) = false |- _ => apply Z.leb_gt in H
  | H : (_ =? _) = true |- _ => apply Z.eqb_eq in H
  | H : (_ =? _) = false |- _ => apply Z.eqb_neq in H
  end.

Ltac case_if :=
  match goal with
  | |- context [if ?b then _ else _] => let E := fresh "Eif" in destruct b eqn:E
  | H : context [if ?b then _ else _] |- _ => let E := fresh "Eif" in destruct b eqn:E
  end; bool_to_prop.

(** Invert a successful computation of the option monad. *)
Ltac inv_option :=
  repeat match goal with
  | H : Some _ = Some _ |- _ => injection H; clear H; intros
  | H : None = Some _ |- _ => discriminate H
  | H : Some _ = None |- _ => discriminate H
  | H : mbind _ _ = Some _ |- _ => apply bind_Some in H; destruct H as (? & ? & H)
  end; simplify_eq.

(** ** Facts on machine integers *)

Lemma wrap_fits w z : 0 <= w -> fits w (wrap w z).
Proof. intros. unfold fits, wrap. apply Z.mod_pos_bound. lia. Qed.

Lemma wrap_id w z : fits w z -> wrap w z = z.
Proof. unfold fits, wrap. apply Z.mod_small. Qed.

Lemma wrap_wrap w z : 0 <= w -> wrap w (wrap w z) = wrap w z.
Proof. intros. apply wrap_id, wrap_fits; lia. Qed.

Lemma wrap_add_l w a b : wrap w (wrap w a + b) = wrap w (a + b).
Proof. unfold wrap. apply Zplus_mod_idemp_l. Qed.

Lemma wrap_add_r w a b : wrap w (a + wrap w b) = wrap w (a + b).
Proof. unfold wrap. apply Zplus_mod_idemp_r. Qed.

Lemma swrap_id w z : 0 < w -> - 2 ^ (w - 1) <= z < 2 ^ (w - 1) -> swrap w z = z.
Proof.
  intros Hw Hz. unfold swrap.
  assert (2 ^ w = 2 * 2 ^ (w - 1)) as E by (rewrite <- Z.pow_succ_r by lia; f_equal; lia).
  rewrite Z.mod_small; lia.
Qed.

Lemma fits_testbit w z k : fits w z -> w <= k -> Z.testbit z k = false.
Proof.
  intros [H0 H1] Hk. destruct (decide (0 <= w)).
  - rewrite <- (Z.mod_small z (2 ^ w)) by lia. apply Z.mod_pow2_bits_high. lia.
  - rewrite Z.pow_neg_r in H1; lia.
Qed.

Lemma testbit_fits w z :
  0 <= w -> 0 <= z -> (forall k, w <= k -> Z.testbit z k = false) -> fits w z.
Proof.
  intros Hw Hz H. unfold fits. split; [done|].
  destruct (decide (z < 2 ^ w)) as [|Hge]; [done|exfalso].
  assert (w <= Z.log2 z) as Hl by (apply Z.log2_le_pow2; lia).
  assert (0 < z) by (pose proof (Z.pow_pos_nonneg 2 w); lia).
  pose proof (Z.bit_log2 z ltac:(lia)) as Hb. rewrite H in Hb by lia. done.
Qed.

Lemma testbit_wrap w z k :
  0 <= w -> 0 <= k -> Z.testbit (wrap w z) k = bool_decide (k < w) && Z.testbit z k.
Proof.
  intros. unfold wrap. case_bool_decide; simpl.
  - apply Z.mod_pow2_bits_low. lia.
  - apply Z.mod_pow2_bits_high. lia.
Qed.

Lemma fits_lor w a b : 0 <= w -> fits w a -> fits w b -> fits w (Z.lor a b).
Proof.
  intros Hw Ha Hb. apply testbit_fits; [done| |].
  - apply Z.lor_nonneg. unfold fits in *. lia.
  - intros k Hk. rewrite Z.lor_spec, !(fits_testbit w) by done. done.
Qed.

Lemma fits_lxor w a b : 0 <= w -> fits w a -> fits w b -> fits w (Z.lxor a b).
Proof.
  intros Hw Ha Hb. apply testbit_fits; [done| |].
  - apply Z.lxor_nonneg. unfold fits in *. lia.
  - intros k Hk. rewrite Z.lxor_spec, !(fits_testbit w) by done. done.
Qed.

Lemma fits_land_l w a b : 0 <= w -> fits w a -> fits w (Z.land a b).
Proof.
  intros Hw Ha. apply testbit_fits; [done| |].
  - apply Z.land_nonneg. unfold fits in *. lia.
  - intros k Hk. rewrite Z.land_spec, (fits_testbit w) by done. done.
Qed.

Lemma fits_shiftr w a n : 0 <= w -> 0 <= n -> fits w a -> fits w (Z.shiftr a n).
Proof.
  intros Hw Hn Ha. apply testbit_fits; [done| |].
  - apply Z.shiftr_nonneg. unfold fits in *. lia.
  - intros k Hk. rewrite Z.shiftr_spec by lia. apply (fits_testbit w); [done|lia].
Qed.

Lemma fits_mono w w' a : 0 <= w <= w' -> fits w a -> fits w' a.
Proof. unfold fits. intros. pose proof (Z.pow_le_mono_r 2 w w'). lia. Qed.

(** Prove an equation between integers bit by bit. *)
Ltac bits k Hk := apply Z.bits_inj'; intros k Hk.

Ltac push_bits :=
  repeat first
    [ rewrite Z.lor_spec | rewrite Z.land_spec | rewrite Z.lxor_spec
    | rewrite testbit_wrap by lia | rewrite Z.shiftr_spec by lia
    | rewrite Z.shiftl_spec by lia ].

(** Disjoint fields: an [or] of a [w]-bit value with a value shifted by [w] is
    a sum. *)
Lemma lor_shiftl_add w a b : 0 <= w -> fits w a -> a .| (b << w) = a + b * 2 ^ w.
Proof.
  intros Hw Ha. rewrite <- Z.shiftl_mul_pow2 by done. rewrite Z.add_nocarry_lor; [done|].
  bits k Hk. rewrite Z.land_spec, Z.bits_0.
  destruct (decide (k < w)).
  - rewrite Z.shiftl_spec_low, andb_false_r by lia. done.
  - by rewrite (fits_testbit w a) by (done || lia).
Qed.

#[export] Hint Resolve wrap_fits fits_lor fits_lxor fits_land_l fits_shiftr : cint.
#[export] Hint Extern 2 (_ <= _) => lia : cint.
#[export] Hint Extern 2 (_ < _) => lia : cint.

(** ** Facts on arrays *)

Lemma zlen_nonneg {A} (l : list A) : 0 <= zlen l.
Proof. unfold zlen. lia. Qed.

Lemma aget_Some_iff (l : list Z) i : is_Some (aget l i) <-> 0 <= i < zlen l.
Proof.
  unfold aget, zlen. case_decide.
  - rewrite lookup_lt_is_Some. lia.
  - split; [by intros [? ?]|lia].
Qed.

Lemma aget_znth l i : 0 <= i < zlen l -> aget l i = Some (znth l i).
Proof.
  intros H. unfold znth. apply aget_Some_iff in H as [v ->]. done.
Qed.

Lemma aget_None (l : list Z) i : zlen l <= i -> aget l i = None.
Proof.
  intros H. destruct (aget l i) eqn:E; [|done].
  assert (is_Some (aget l i)) as S by eauto. apply aget_Some_iff in S. lia.
Qed.

Lemma znth_oob l i : zlen l <= i -> znth l i = 0.
Proof. intros. unfold znth. by rewrite aget_None. Qed.

Lemma aset_Some l (i v : Z) :
  0 <= i < zlen l -> aset l i v = Some (<[Z.to_nat i := v]> l).
Proof. intros. unfold aset, zlen in *. by rewrite decide_True by lia. Qed.

(** What a store leaves in an array. *)
Lemma aset_get {A} (l l' : list A) i v :
  aset l i v = Some l' ->
  0 <= i < Z.of_nat (length l) /\ length l' = length l /\ forall j, aget l' j = if decide (j = i) then Some v else aget l j.
Proof.
  unfold aset. case_decide as Hi; [|done]. intros [= <-]. split; [done|]. split; [apply length_insert|]. intros j. unfold aget.
  case_decide as Hj; case_decide as Hji; subst; try done; try lia.
  - apply list_lookup_insert_eq. lia.
  - by rewrite list_lookup_insert_ne by lia.
Qed.

Lemma zlen_insert {A} (l : list A) n v : zlen (<[n := v]> l) = zlen l.
Proof. unfold zlen. by rewrite length_insert. Qed.

Lemma znth_insert l i j v :
  0 <= i < zlen l -> 0 <= j ->
  znth (<[Z.to_nat i := v]> l) j = if decide (i = j) then v else znth l j.
Proof.
  intros Hi Hj. unfold znth, aget, zlen in *. rewrite !(decide_True (P := 0 <= j)) by done.
  case_decide as E.
  - subst. rewrite list_lookup_insert_eq by lia. done.
  - rewrite list_lookup_insert_ne by lia. done.
Qed.

Lemma aget_drop {A} (l : list A) n j :
  0 <= n -> 0 <= j -> aget (drop (Z.to_nat n) l) j = aget l (n + j).
Proof.
  intros. unfold aget. rewrite !decide_True by lia. rewrite lookup_drop. f_equal. lia.
Qed.

(** Two arrays of the same length with the same entries are equal. *)
Lemma znth_ext l l' :
  zlen l = zlen l' -> (forall i, 0 <= i < zlen l -> znth l i = znth l' i) -> l = l'.
Proof.
  intros Hl H. unfold zlen in *. apply (list_eq_same_length _ _ (length l)); [lia|lia|].
  intros i x y Hi Hx Hy. specialize (H (Z.of_nat i) ltac:(lia)).
  unfold znth, aget in H. rewrite !decide_True, Nat2Z.id, Hx, Hy in H by lia. done.
Qed.

(** The prefixes of two arrays agree when their entries do. *)
Lemma znth_take_ext l l' n :
  0 <= n <= zlen l -> n <= zlen l' ->
  take (Z.to_nat n) l = take (Z.to_nat n) l' <->
  forall i, 0 <= i < n -> znth l i = znth l' i.
Proof.
  intros Hl Hl'. unfold zlen in *. split.
  - intros E i Hi. unfold znth, aget. rewrite !decide_True by lia.
    by rewrite <- (lookup_take_lt l (Z.to_nat n)), E, lookup_take_lt by lia.
  - intros H. apply (list_eq_same_length _ _ (Z.to_nat n)); [rewrite length_take; lia..|].
    intros i x y Hi. rewrite !lookup_take_lt by done. intros Hx Hy.
    specialize (H (Z.of_nat i) ltac:(lia)). unfold znth, aget in H.
    rewrite !decide_True, Nat2Z.id, Hx, Hy in H by lia. done.
Qed.

Lemma znth_Forall (P : Z -> Prop) l i : Forall P l -> 0 <= i < zlen l -> P (znth l i).
Proof.
  intros HF Hi. pose proof (aget_znth l i Hi) as E. unfold aget in E.
  rewrite decide_True in E by lia. eapply Forall_lookup_1; eauto.
Qed.

Lemma znth_replicate n (v i : Z) : 0 <= i < Z.of_nat n -> znth (replicate n v) i = v.
Proof.
  intros. unfold znth, aget. rewrite decide_True by lia.
  rewrite lookup_replicate_2 by lia. done.
Qed.

Lemma zlen_replicate {A} n (x : A) : zlen (replicate n x) = Z.of_nat n.
Proof. unfold zlen. by rewrite length_replicate. Qed.

(** ** Facts on loops *)

(** The rule for [for_up]: an invariant indexed by the loop variable that the
    body keeps without undefined behaviour holds at the end, and the loop
    returns. *)
Lemma for_up_inv {S} (I : Z -> S -> Prop) lo hi body s :
  lo <= hi -> I lo s ->
  (forall i s, lo <= i < hi -> I i s -> exists s', body i s = Some s' /\ I (i + 1) s') ->
  exists s', for_up lo hi body s = Some s' /\ I hi s'.
Proof.
  intros Hle H0 Hstep. unfold for_up.
  remember (Z.to_nat (hi - lo)) as n eqn:Hn.
  revert lo s Hle H0 Hstep Hn. induction n as [|n IH]; intros lo s Hle H0 Hstep Hn; simpl.
  - exists s. replace hi with lo by lia. done.
  - destruct (Hstep lo s) as (s1 & -> & H1); [lia|done|]. simpl.
    apply IH; [lia|done| |lia]. intros i s' Hi. apply Hstep. lia.
Qed.

(** What every defined step keeps is kept by a defined loop. *)
Lemma for_up_keeps {S} (I : Z -> S -> Prop) lo hi body s s' :
  I lo s -> (forall i s s', lo <= i < hi -> I i s -> body i s = Some s' -> I (i + 1) s') ->
  for_up lo hi body s = Some s' -> I (Z.max lo hi) s'.
Proof.
  intros Hs Hstep. unfold for_up. remember (Z.to_nat (hi - lo)) as n eqn:Hn.
  revert lo s Hs Hstep Hn. induction n as [|n IH]; intros lo s Hs Hstep Hn E; simpl in E.
  - injection E as <-. by replace (Z.max lo hi) with lo by lia.
  - apply bind_Some in E as (s1 & E1 & E). replace (Z.max lo hi) with (Z.max (lo + 1) hi) by lia.
    apply (IH (lo + 1) s1); [by eapply Hstep; [lia|..]| |lia|done]. intros i s2 s3 Hi. apply Hstep. lia.
Qed.

Lemma for_up_nil {S} lo hi body (s : S) : hi <= lo -> for_up lo hi body s = Some s.
Proof. intros. unfold for_up. replace (Z.to_nat (hi - lo)) with O by lia. done. Qed.

Lemma for_up_ext {S} lo hi body body' (s : S) :
  (forall i s, lo <= i < hi -> body i s = body' i s) -> for_up lo hi body s = for_up lo hi body' s.
Proof.
  unfold for_up. remember (Z.to_nat (hi - lo)) as n eqn:Hn. revert lo s Hn.
  induction n as [|n IH]; intros lo s Hn Hb; [done|]. cbn [for_nat]. rewrite Hb by lia.
  destruct (body' lo s) as [s'|]; [|done]. simpl. apply IH; [lia|]. intros. apply Hb. lia.
Qed.

(** A loop whose body has no undefined behaviour is a fold. *)
Lemma for_up_pure {S} (F : Z -> S -> S) lo hi body (s : S) :
  lo <= hi -> (forall t s, lo <= t < hi -> body t s = Some (F t s)) ->
  for_up lo hi body s = Some (foldl (fun s t => F t s) s (seqZ lo (hi - lo))).
Proof.
  intros Hle Hb. unfold for_up, seqZ. remember (Z.to_nat (hi - lo)) as n eqn:Hn.
  revert lo s Hle Hb Hn. induction n as [|n IH]; intros lo s Hle Hb Hn; [done|].
  cbn [for_nat]. rewrite Hb by lia. simpl. rewrite (IH (lo + 1)) by (lia || (intros; apply Hb; lia)).
  f_equal. replace (lo + Z.of_nat 0) with lo by lia. simpl. f_equal. rewrite <- fmap_S_seq, <- list_fmap_compose.
  apply list_fmap_ext. intros i x Hx. simpl. lia.
Qed.

(** In-place forward map: a loop that overwrites entry [i] with a value that
    depends only on entries not yet overwritten writes [f i] at every [i] of
    its range and leaves the others alone. *)
Lemma for_up_map (g : Z -> list Z -> option Z) (f : Z -> Z) lo hi x :
  0 <= lo <= hi -> hi <= zlen x ->
  (forall i y, lo <= i < hi -> zlen y = zlen x ->
     (forall j, i <= j < zlen x -> znth y j = znth x j) -> g i y = Some (f i)) ->
  exists x', for_up lo hi (fun i y => v ← g i y; aset y i v) x = Some x' /\
    zlen x' = zlen x /\
    forall j, 0 <= j < zlen x ->
      znth x' j = if decide (lo <= j < hi) then f j else znth x j.
Proof.
  intros Hlo Hhi Hg.
  destruct (for_up_inv (fun i y => zlen y = zlen x /\ forall j, 0 <= j < zlen x ->
      znth y j = if decide (lo <= j < i) then f j else znth x j) lo hi
      (fun i y => v ← g i y; aset y i v) x) as (x' & E & Hl & Hx').
  - lia.
  - split; [done|]. intros j Hj. by rewrite decide_False by lia.
  - intros i y Hi [Hl Hy]. rewrite (Hg i y); [|done|done|].
    + simpl. rewrite aset_Some by lia. eexists. split; [done|].
      rewrite zlen_insert. split; [done|]. intros j Hj.
      rewrite znth_insert by lia.
      repeat case_decide; subst; try done; try lia.
      * by rewrite Hy, decide_True by lia.
      * by rewrite Hy, decide_False by lia.
    + intros j Hj. by rewrite Hy, decide_False by lia.
  - eauto.
Qed.

(** The same for a loop that fills a range with a constant. *)
Lemma for_up_fill (c : Z) lo hi x :
  0 <= lo -> lo <= hi -> hi <= zlen x ->
  exists x', for_up lo hi (fun i y => aset y i c) x = Some x' /\
    zlen x' = zlen x /\
    forall j, 0 <= j < zlen x ->
      znth x' j = if decide (lo <= j < hi) then c else znth x j.
Proof. intros. apply (for_up_map (fun _ _ => Some c) (fun _ => c)); auto with lia. Qed.

(** ** Outcomes of code that may end the process

    Functions of the daemon may call [exit]; [Undef] is undefined behaviour,
    which includes a failed access of an array; [Blocked] is a wait for an
    event that never comes. *)
Inductive outcome (A : Type) : Type :=
| Ret (a : A)
| Exit (code : Z)
| Undef
| Blocked.
Arguments Ret {A} a.
Arguments Exit {A} code.
Arguments Blocked {A}.
Arguments Undef {A}.

#[global] Instance outcome_ret : MRet outcome := @Ret.

#[global] Instance outcome_bind : MBind outcome := fun A B f m =>
  match m with
  | Ret a => f a
  | Exit c => Exit c
  | Undef => Undef
  | Blocked => Blocked
  end.

(** A failed [assert] aborts the process (SIGABRT). *)
Definition c_assert (b : bool) : outcome unit := if b then Ret tt else Exit 134.

Definition lift {A} (o : option A) : outcome A :=
  match o with
  | Some a => Ret a
  | None => Undef
  end.

(** ** Slices of memory *)

(** [slice l i n] is the [n] octets at [l + i], when they are all in the
    block. *)
Definition slice (l : list Z) (i n : Z) : option (list Z) :=
  if decide (0 <= i /\ 0 <= n /\ i + n <= zlen l)
  then Some (take (Z.to_nat n) (drop (Z.to_nat i) l)) else None.

(** [memcpy(l + i, s, |s|)]. *)
Definition blit (l : list Z) (i : Z) (s : list Z) : option (list Z) :=
  if decide (0 <= i /\ i + zlen s <= zlen l)
  then Some (take (Z.to_nat i) l ++ s ++ drop (Z.to_nat (i + zlen s)) l) else None.

Lemma zlen_app {A} (l l' : list A) : zlen (l ++ l') = zlen l + zlen l'.
Proof. unfold zlen. rewrite length_app. lia. Qed.

Lemma zlen_take {A} (l : list A) n : 0 <= n -> zlen (take (Z.to_nat n) l) = Z.min n (zlen l).
Proof. intros. unfold zlen. rewrite length_take. lia. Qed.

Lemma zlen_drop {A} (l : list A) n : 0 <= n -> zlen (drop (Z.to_nat n) l) = Z.max 0 (zlen l - n).
Proof. intros. unfold zlen. rewrite length_drop. lia. Qed.

Lemma znth_app l l' i :
  0 <= i -> znth (l ++ l') i = if decide (i < zlen l) then znth l i else znth l' (i - zlen l).
Proof.
  intros Hi. unfold znth, aget, zlen. rewrite decide_True by done. case_decide.
  - rewrite decide_True by lia. by rewrite lookup_app_l by lia.
  - rewrite decide_True by lia. rewrite lookup_app_r by lia. do 2 f_equal. lia.
Qed.

Lemma aget_app {A} (l l' : list A) i :
  0 <= i -> aget (l ++ l') i = if decide (i < zlen l) then aget l i else aget l' (i - zlen l).
Proof.
  intros Hi. unfold aget, zlen. rewrite decide_True by done. case_decide.
  - rewrite decide_True by lia. by rewrite lookup_app_l by lia.
  - rewrite decide_True by lia. rewrite lookup_app_r by lia. f_equal. lia.
Qed.

Lemma znth_take l n i : 0 <= i < n -> znth (take (Z.to_nat n) l) i = znth l i.
Proof.
  intros. unfold znth, aget. rewrite !(decide_True (P := 0 <= i)) by lia.
  by rewrite lookup_take_lt by lia.
Qed.

Lemma znth_drop l n i : 0 <= n -> 0 <= i -> znth (drop (Z.to_nat n) l) i = znth l (n + i).
Proof. intros. unfold znth. by rewrite aget_drop by done. Qed.

Lemma slice_Some l i n :
  0 <= i -> 0 <= n -> i + n <= zlen l ->
  slice l i n = Some (take (Z.to_nat n) (drop (Z.to_nat i) l)).
Proof. intros. unfold slice. by rewrite decide_True by lia. Qed.

Lemma zlen_slice l i n s : slice l i n = Some s -> zlen s = n.
Proof.
  unfold slice. case_decide; [|done]. intros [= <-].
  rewrite zlen_take, zlen_drop by lia. lia.
Qed.

Lemma znth_slice l i n s j : slice l i n = Some s -> 0 <= j < n -> znth s j = znth l (i + j).
Proof.
  unfold slice. case_decide; [|done]. intros [= <-] Hj.
  by rewrite znth_take, znth_drop by lia.
Qed.

Lemma blit_Some l i s :
  0 <= i -> i + zlen s <= zlen l ->
  exists l', blit l i s = Some l' /\ zlen l' = zlen l /\
    forall j, 0 <= j < zlen l ->
      znth l' j = if decide (i <= j < i + zlen s) then znth s (j - i) else znth l j.
Proof.
  intros Hi Hl. unfold blit. rewrite decide_True by lia. eexists. split; [done|].
  pose proof (zlen_nonneg s). rewrite !zlen_app, zlen_take, zlen_drop by lia. split; [lia|].
  intros j Hj. rewrite znth_app, zlen_take, Z.min_l by lia.
  repeat case_decide; try lia; [by rewrite znth_take by lia|..].
  - rewrite znth_app by lia. by rewrite decide_True by lia.
  - rewrite znth_app by lia. rewrite decide_False by lia.
    rewrite znth_drop by lia. f_equal. lia.
Qed.

Lemma Forall_slice (P : Z -> Prop) l i n s : slice l i n = Some s -> Forall P l -> Forall P s.
Proof.
  unfold slice. case_decide; [|done]. intros [= <-] HF. by apply Forall_take, Forall_drop.
Qed.

Lemma Forall_blit (P : Z -> Prop) l i s l' :
  blit l i s = Some l' -> Forall P l -> Forall P s -> Forall P l'.
Proof.
  unfold blit. case_decide; [|done]. intros [= <-] HF HS.
  rewrite !Forall_app. split_and!; [by apply Forall_take|done|by apply Forall_drop].
Qed.
