(* ===== verification/CString.v ===== *)
(** The C library's string functions, on blocks of characters: a string is
    terminated by a 0 inside its block, and reading past the block is the
    [None] of the option monad. *)

From Stdlib Require Ascii String.
From S2P Require Import Prelude.

Import String.StringSyntax.

(** The characters of a literal, without its terminator. *)
Definition str (s : String.string) : list Z :=
  map (fun a => Z.of_N (Ascii.N_of_ascii a)) (String.list_ascii_of_string s).
#[global] Arguments str s%_string_scope.

Definition CRLF : list Z := [13; 10].

Definition strlen (s : list Z) : option Z := Z.of_nat <$> (fst <$> list_find (eq 0) s).

(** [strncmp(a, b, n)]. *)
Fixpoint strncmp (n : nat) (a b : list Z) : option Z :=
  match n with
  | O => Some 0
  | S n' =>
      match a, b with
      | x :: a', y :: b' =>
          if negb (x =? y) then Some (x - y)
          else if x =? 0 then Some 0
          else strncmp n' a' b'
      | _, _ => None
      end
  end.

(** [strcmp(a, b)]: the comparison ends inside the shorter block. *)
Definition strcmp (a b : list Z) : option Z := strncmp (S (List.length a)) a b.

(** [%d] of [printf], for an [int]; ten digits hold every 32-bit value. *)
Fixpoint digits (fuel : nat) (n : Z) (acc : list Z) : list Z :=
  match fuel with
  | O => acc
  | S fuel' =>
      let acc := 48 + n mod 10 :: acc in
      if n / 10 =? 0 then acc else digits fuel' (n / 10) acc
  end.

Definition decimal (z : Z) : list Z :=
  if z <? 0 then 45 :: digits 10 (- z) [] else digits 10 z [].

(** ** Lemmas *)

Lemma strlen_app s rest : Forall (fun c => c <> 0) s -> strlen (s ++ 0 :: rest) = Some (zlen s).
Proof.
  intros HF. unfold strlen, zlen.
  rewrite (proj2 (list_find_Some (eq 0) (s ++ 0 :: rest) (List.length s) 0)); [done|].
  split_and!; [by rewrite list_lookup_middle|done|].
  intros j y Hj Hlt <-. rewrite lookup_app_l in Hj by done.
  by eapply (Forall_lookup_1 _ _ _ _ HF) in Hj.
Qed.

Lemma strlen_None s : Forall (fun c => c <> 0) s -> strlen s = None.
Proof.
  intros HF. unfold strlen. rewrite (proj2 (list_find_None (eq 0) s)); [done|].
  eapply Forall_impl; [|exact HF]. intros c Hc <-. done.
Qed.

Lemma strlen_take s n :
  strlen s = Some n ->
  0 <= n < zlen s /\ znth s n = 0 /\ Forall (fun c => c <> 0) (take (Z.to_nat n) s).
Proof.
  unfold strlen. destruct (list_find (eq 0) s) as [[i x]|] eqn:E; [|done]. intros [= <-].
  apply list_find_Some in E as (Hi & <- & Hlt). pose proof (lookup_lt_Some _ _ _ Hi).
  unfold zlen. split; [simpl; lia|]. simpl. rewrite Nat2Z.id. split.
  - unfold znth, aget. rewrite decide_True, Nat2Z.id, Hi by lia. done.
  - apply Forall_lookup. intros j y Hj. apply lookup_take_Some in Hj as [Hj Hji].
    intros ->. by apply (Hlt j 0).
Qed.

(** Comparing [n] characters of a string without terminator with a literal:
    equality means that the string is a prefix of the literal. *)
Lemma strncmp_prefix u rest lit :
  Forall (fun c => c <> 0) u ->
  exists r, strncmp (List.length u) (u ++ rest) (lit ++ [0]) = Some r /\
    (r = 0 <-> u `prefix_of` lit).
Proof.
  revert lit. induction u as [|x u IH]; intros lit HF.
  - exists 0. split; [done|]. split; [intros _; apply prefix_nil|done].
  - apply Forall_cons_iff in HF as [Hx HF]. destruct lit as [|y lit]; simpl.
    + rewrite (proj2 (Z.eqb_neq x 0)) by done. simpl. eexists. split; [done|].
      split; [lia|]. intros Hp. by apply prefix_nil_not in Hp.
    + destruct (x =? y) eqn:Exy; bool_to_prop; simpl.
      * subst y. rewrite (proj2 (Z.eqb_neq x 0)) by done.
        destruct (IH lit HF) as (r & -> & Hr). exists r. split; [done|]. rewrite Hr.
        split; [by apply prefix_cons|by apply prefix_cons_inv_2].
      * eexists. split; [done|]. split; [lia|]. intros Hp. by apply prefix_cons_inv_1 in Hp.
Qed.

(** The value of a string of decimal digits. *)
Definition decimal_value (ds : list Z) : Z := foldl (fun v d => 10 * v + (d - 48)) 0 ds.

Lemma digits_value fuel : forall n acc,
  0 <= n < 10 ^ Z.of_nat fuel ->
  decimal_value (digits fuel n acc) = foldl (fun v d => 10 * v + (d - 48)) n acc.
Proof.
  unfold decimal_value. induction fuel as [|fuel IH]; intros n acc Hn.
  - replace n with 0 by (simpl in Hn; lia). done.
  - cbn [digits]. rewrite Nat2Z.inj_succ, Z.pow_succ_r in Hn by lia. case_if.
    + simpl. f_equal. lia.
    + rewrite IH by lia. simpl. f_equal. lia.
Qed.
