(* ===== verification/Err.v ===== *)
(** Status codes of libsrtp ([srtp_err_status_t] of include/srtp.h) and its
    allocator (crypto/kernel/alloc.c).  The result of [calloc] is an argument:
    every allocating operation takes a flag saying whether the allocation
    succeeds, so its theorems hold on both outcomes. *)

From S2P Require Import Prelude.

Inductive srtp_err_status_t :=
| srtp_err_status_ok
| srtp_err_status_fail
| srtp_err_status_bad_param
| srtp_err_status_alloc_fail
| srtp_err_status_dealloc_fail
| srtp_err_status_init_fail
| srtp_err_status_terminus
| srtp_err_status_auth_fail
| srtp_err_status_cipher_fail
| srtp_err_status_replay_fail
| srtp_err_status_replay_old
| srtp_err_status_algo_fail
| srtp_err_status_no_such_op
| srtp_err_status_no_ctx
| srtp_err_status_cant_check
| srtp_err_status_key_expired
| srtp_err_status_socket_err
| srtp_err_status_signal_err
| srtp_err_status_nonce_bad
| srtp_err_status_read_fail
| srtp_err_status_write_fail
| srtp_err_status_parse_err
| srtp_err_status_encode_err
| srtp_err_status_semaphore_err
| srtp_err_status_pfkey_err
| srtp_err_status_bad_mki
| srtp_err_status_pkt_idx_old
| srtp_err_status_pkt_idx_adv.

#[global] Instance srtp_err_status_eq_dec : EqDecision srtp_err_status_t.
Proof. solve_decision. Defined.

(** [if (status)]: every code but [srtp_err_status_ok] is non-zero. *)
Definition is_err (s : srtp_err_status_t) : bool :=
  bool_decide (s <> srtp_err_status_ok).

(** [srtp_crypto_alloc(size)]: NULL for a zero size or when [calloc] fails,
    a zeroed block otherwise. *)
Definition srtp_crypto_alloc (calloc_ok : bool) (size : Z) : option (list Z) :=
  if size =? 0 then None
  else if calloc_ok then Some (replicate (Z.to_nat size) 0)
  else None.
