(* ===== verification/Prog.v ===== *)
(** Programs of libsrtp that work on a state and may return early.

    A C function with many [if (status) return ...;] is a [prog S A]: it
    transforms a state of type [S] and either returns early with a status
    ([inl]) or goes on with a value ([inr]).  [None] is undefined behaviour.
    [wp] is its total-correctness program logic. *)

From S2P Require Import Prelude Err.

Definition prog (S A : Type) : Type := S -> option (S * (srtp_err_status_t + A)).

Section Programs.
Context {S : Type}.

Definition pret {A} (a : A) : prog S A := fun s => Some (s, inr a).

(** [return status;] *)
Definition preturn {A} (st : srtp_err_status_t) : prog S A := fun s => Some (s, inl st).

Definition pbind {A B} (m : prog S A) (k : A -> prog S B) : prog S B := fun s =>
  '(s, r) ← m s;
  match r with
  | inl st => Some (s, inl st)
  | inr a => k a s
  end.

(** A step of another component: undefined when it is. *)
Definition plift {A} (o : option A) : prog S A := fun s => a ← o; Some (s, inr a).

Definition pget {A} (f : S -> A) : prog S A := fun s => Some (s, inr (f s)).

Definition pmodify (f : S -> S) : prog S unit := fun s => Some (f s, inr tt).

(** [if (c) return status;] *)
Definition preturn_if (c : bool) (st : srtp_err_status_t) : prog S unit :=
  if c then preturn st else pret tt.

(** [if (status) return status;] *)
Definition pcheck (st : srtp_err_status_t) : prog S unit := preturn_if (is_err st) st.

(** The value a function that ends in [return srtp_err_status_ok] returns. *)
Definition status_of {A} (r : srtp_err_status_t + A) : srtp_err_status_t :=
  match r with inl st => st | inr _ => srtp_err_status_ok end.

End Programs.

Declare Scope prog_scope.
Delimit Scope prog_scope with prog.
Notation "'let*' x ':=' m 'in' k" := (pbind m (fun x => k))
  (at level 10, x name, m at level 200, k at level 200) : prog_scope.
Notation "'let*' ' x ':=' m 'in' k" := (pbind m (fun x => k))
  (at level 10, x strict pattern, m at level 200, k at level 200) : prog_scope.
Notation "m ;; k" := (pbind m (fun _ => k))
  (at level 100, right associativity) : prog_scope.
#[global] Open Scope prog_scope.

(** ** Program logic *)

(** [wp m Q s]: from [s] the program is defined and ends in a state and a
    result with [Q]. *)
Definition wp {S A} (m : prog S A) (Q : S -> srtp_err_status_t + A -> Prop) (s : S) : Prop :=
  exists s' r, m s = Some (s', r) /\ Q s' r.

(** Postconditions of a program that goes on. *)
Definition on_value {S A} (st_post : S -> srtp_err_status_t -> Prop) (Q : S -> A -> Prop)
    : S -> srtp_err_status_t + A -> Prop :=
  fun s r => match r with inl st => st_post s st | inr a => Q s a end.

Section Wp.
Context {S : Type}.

Lemma wp_ret {A} (a : A) (Q : S -> srtp_err_status_t + A -> Prop) s : Q s (inr a) -> wp (pret a) Q s.
Proof. intros. by exists s, (inr a). Qed.

Lemma wp_return {A} st (Q : S -> srtp_err_status_t + A -> Prop) s : Q s (inl st) -> wp (preturn st) Q s.
Proof. intros. by exists s, (inl st). Qed.

Lemma wp_bind {A B} (m : prog S A) (k : A -> prog S B) Q s :
  wp m (on_value (fun s st => Q s (inl st)) (fun s a => wp (k a) Q s)) s -> wp (pbind m k) Q s.
Proof.
  intros (s' & [st|a] & E & HQ); unfold wp, pbind; rewrite E; simpl; [by eexists _, _|].
  exact HQ.
Qed.

Lemma wp_conseq {A} (m : prog S A) (Q Q' : S -> srtp_err_status_t + A -> Prop) s :
  wp m Q s -> (forall s' r, Q s' r -> Q' s' r) -> wp m Q' s.
Proof. intros (s' & r & E & HQ) Hi. exists s', r. auto. Qed.

Lemma wp_lift {A} (o : option A) a (Q : S -> srtp_err_status_t + A -> Prop) s :
  o = Some a -> Q s (inr a) -> wp (plift o) Q s.
Proof. intros -> HQ. by exists s, (inr a). Qed.

Lemma wp_get {A} (f : S -> A) (Q : S -> srtp_err_status_t + A -> Prop) s :
  Q s (inr (f s)) -> wp (pget f) Q s.
Proof. intros. by eexists _, _. Qed.

Lemma wp_modify f (Q : S -> srtp_err_status_t + unit -> Prop) s :
  Q (f s) (inr tt) -> wp (pmodify f) Q s.
Proof. intros. by eexists _, _. Qed.

Lemma wp_return_if c st (Q : S -> srtp_err_status_t + unit -> Prop) s :
  (c = true -> Q s (inl st)) -> (c = false -> Q s (inr tt)) -> wp (preturn_if c st) Q s.
Proof. destruct c; intros H1 H2; unfold preturn_if; [apply wp_return|apply wp_ret]; auto. Qed.

(** Running a program: what it returns is what [wp] says. *)
Lemma wp_run {A} (m : prog S A) Q s s' r : wp m Q s -> m s = Some (s', r) -> Q s' r.
Proof. intros (s1 & r1 & E & HQ) E'. rewrite E in E'. by simplify_eq. Qed.

Lemma bind_ok {A B} (m : prog S A) (k : A -> prog S B) s s' a :
  m s = Some (s', inr a) -> pbind m k s = k a s'.
Proof. unfold pbind. by intros ->. Qed.

Lemma bind_some {A B} (a : A) (k : A -> prog S B) s : pbind (plift (Some a)) k s = k a s.
Proof. done. Qed.

Lemma bind_ret {A B} (a : A) (k : A -> prog S B) s : pbind (pret a) k s = k a s.
Proof. done. Qed.

Lemma bind_get {A B} (f : S -> A) (k : A -> prog S B) s : pbind (pget f) k s = k (f s) s.
Proof. done. Qed.

Lemma bind_modify {B} f (k : unit -> prog S B) s : pbind (pmodify f) k s = k tt (f s).
Proof. done. Qed.

Lemma bind_return {A B} st (k : A -> prog S B) s : pbind (preturn st) k s = Some (s, inl st).
Proof. done. Qed.

Lemma bind_check_ok {B} (k : unit -> prog S B) s : pbind (pcheck srtp_err_status_ok) k s = k tt s.
Proof. done. Qed.

Lemma bind_return_if_ok {B} st (k : unit -> prog S B) s :
  pbind (preturn_if (is_err srtp_err_status_ok) st) k s = k tt s.
Proof. done. Qed.

Lemma bind_assoc {A B C} (m : prog S A) (f : A -> prog S B) (k : B -> prog S C) s :
  pbind (pbind m f) k s = pbind m (fun a => pbind (f a) k) s.
Proof. unfold pbind. by destruct (m s) as [[s' [st|a]]|]. Qed.

End Wp.

(** ** Runs that go on *)

(** A program that goes on, step by step. *)
Lemma bind_value {S A B} (m : prog S A) (k : A -> prog S B) s s' b :
  pbind m k s = Some (s', inr b) -> exists s1 a, m s = Some (s1, inr a) /\ k a s1 = Some (s', inr b).
Proof. unfold pbind. destruct (m s) as [[s1 [st|a]]|]; [done| |done]. intros E. by exists s1, a. Qed.

Lemma lift_value {S A} (o : option A) (s s' : S) a : plift o s = Some (s', inr a) -> s' = s /\ o = Some a.
Proof. unfold plift. destruct o; [|done]. simpl. by intros [= -> ->]. Qed.

Lemma return_if_value {S} b st (s s' : S) u : preturn_if b st s = Some (s', inr u) -> s' = s /\ b = false.
Proof. destruct b; [done|]. by intros [= ->]. Qed.

Lemma check_value {S} st (s s' : S) u : pcheck st s = Some (s', inr u) -> s' = s /\ st = srtp_err_status_ok.
Proof. intros [-> E]%return_if_value. by destruct st. Qed.

Ltac value_steps :=
  repeat match goal with
  | H : pbind _ _ _ = Some (_, inr _) |- _ => apply bind_value in H as (?s & ?a & ? & H)
  | H : plift _ _ = Some (_, inr _) |- _ => apply lift_value in H as [-> ?]
  | H : preturn_if _ _ _ = Some (_, inr _) |- _ => apply return_if_value in H as [-> ?]
  | H : pcheck _ _ = Some (_, inr _) |- _ => apply check_value in H as [-> ?]
  | H : pret _ _ = Some (_, inr _) |- _ => injection H as <- <-
  | H : pget _ _ = Some (_, inr _) |- _ => injection H as <- <-
  | H : pmodify _ _ = Some (_, inr _) |- _ => injection H as <- <-
  | H : (let '(_, _) := ?p in _) _ = Some (_, inr _) |- _ => destruct p as [? ?] eqn:?
  end; subst.

(** ** Errors *)

(** Programs that return early only with errors. *)
Definition fails_with_error {S A} (m : prog S A) : Prop :=
  forall s s' st, m s = Some (s', inl st) -> is_err st = true.

Section Errors.
Context {S : Type}.

Lemma error_ret {A} (a : A) : fails_with_error (S := S) (pret a).
Proof. done. Qed.

Lemma error_return {A} st : is_err st = true -> fails_with_error (S := S) (A := A) (preturn st).
Proof. intros H s s' st' [= _ <-]. done. Qed.

Lemma error_bind {A B} (m : prog S A) (k : A -> prog S B) :
  fails_with_error m -> (forall a, fails_with_error (k a)) -> fails_with_error (pbind m k).
Proof.
  intros Hm Hk s s' st. unfold pbind. destruct (m s) as [[s1 [st1|a]]|] eqn:E; [|apply Hk|done].
  intros [= -> ->]. by apply (Hm s s').
Qed.

Lemma error_lift {A} (o : option A) : fails_with_error (S := S) (plift o).
Proof. intros s s' st. unfold plift. by destruct o. Qed.

Lemma error_get {A} (f : S -> A) : fails_with_error (pget f).
Proof. done. Qed.

Lemma error_modify (f : S -> S) : fails_with_error (pmodify f).
Proof. done. Qed.

Lemma error_return_if c st : is_err st = true -> fails_with_error (S := S) (preturn_if c st).
Proof. intros H. destruct c; [by apply error_return|done]. Qed.

Lemma error_check st : fails_with_error (S := S) (pcheck st).
Proof. unfold pcheck. destruct (is_err st) eqn:E; [by apply error_return|done]. Qed.

End Errors.

Create HintDb errors discriminated.
#[export] Hint Resolve error_ret error_return error_bind error_lift error_get error_modify error_return_if error_check
  : errors.

(** Walking through a program. *)
Ltac error_steps :=
  repeat first
    [ apply error_bind; [|intros ?]
    | solve [eauto with errors]
    | match goal with
      | |- fails_with_error (match ?x with _ => _ end) => destruct x
      | |- fails_with_error (if ?x then _ else _) => destruct x
      end ].

(** The equations of the primitive steps, for symbolic execution. *)
Create Rewrite HintDb prog.
#[export] Hint Rewrite @bind_some @bind_ret @bind_get @bind_modify @bind_return @bind_check_ok
  @bind_return_if_ok @bind_assoc : prog.

(** One step of symbolic execution of a [wp] goal. *)
Ltac wp_step :=
  lazymatch goal with
  | |- wp (pbind _ _) _ _ => apply wp_bind
  | |- wp (pret _) _ _ => apply wp_ret
  | |- wp (preturn _) _ _ => apply wp_return
  | |- wp (pget _) _ _ => apply wp_get
  | |- wp (pmodify _) _ _ => apply wp_modify
  | |- wp (preturn_if _ _) _ _ => apply wp_return_if
  | |- wp (pcheck _) _ _ => unfold pcheck
  | |- on_value _ _ _ _ => cbn [on_value]
  end.
