(* ===== verification/SrtpTypes.v ===== *)
(** Bit and octet containers of libsrtp: crypto/include/datatypes.h and
    crypto/math/datatypes.c.

    A [v128_t] is its view as four 32-bit words ([v32]); the octet view ([v8])
    is the little-endian decomposition of the words.  A [bitvector_t] is a
    length in bits and a heap array of words, NULL being [None].  Functions
    that index memory return [None] when they leave the array. *)

From S2P Require Import Prelude Err.

(** ** Octets *)

Definition octet_weight : list Z :=
  [ 0; 1; 1; 2; 1; 2; 2; 3; 1; 2; 2; 3; 2; 3; 3; 4; 1; 2; 2; 3; 2; 3; 3; 4;
    2; 3; 3; 4; 3; 4; 4; 5; 1; 2; 2; 3; 2; 3; 3; 4; 2; 3; 3; 4; 3; 4; 4; 5;
    2; 3; 3; 4; 3; 4; 4; 5; 3; 4; 4; 5; 4; 5; 5; 6; 1; 2; 2; 3; 2; 3; 3; 4;
    2; 3; 3; 4; 3; 4; 4; 5; 2; 3; 3; 4; 3; 4; 4; 5; 3; 4; 4; 5; 4; 5; 5; 6;
    2; 3; 3; 4; 3; 4; 4; 5; 3; 4; 4; 5; 4; 5; 5; 6; 3; 4; 4; 5; 4; 5; 5; 6;
    4; 5; 5; 6; 5; 6; 6; 7; 1; 2; 2; 3; 2; 3; 3; 4; 2; 3; 3; 4; 3; 4; 4; 5;
    2; 3; 3; 4; 3; 4; 4; 5; 3; 4; 4; 5; 4; 5; 5; 6; 2; 3; 3; 4; 3; 4; 4; 5;
    3; 4; 4; 5; 4; 5; 5; 6; 3; 4; 4; 5; 4; 5; 5; 6; 4; 5; 5; 6; 5; 6; 6; 7;
    2; 3; 3; 4; 3; 4; 4; 5; 3; 4; 4; 5; 4; 5; 5; 6; 3; 4; 4; 5; 4; 5; 5; 6;
    4; 5; 5; 6; 5; 6; 6; 7; 3; 4; 4; 5; 4; 5; 5; 6; 4; 5; 5; 6; 5; 6; 6; 7;
    4; 5; 5; 6; 5; 6; 6; 7; 5; 6; 6; 7; 6; 7; 7; 8 ].

Definition octet_get_weight (octet : Z) : option Z := aget octet_weight octet.

Definition MAX_PRINT_STRING_LEN : Z := 1024.

Definition hex_digits : list Z :=
  [48; 49; 50; 51; 52; 53; 54; 55; 56; 57; 97; 98; 99; 100; 101; 102].

Definition srtp_nibble_to_hex_char (nibble : Z) : option Z :=
  aget hex_digits (nibble & 0xF).

(** One turn of the hexadecimal printing loops: the two digits of octet [b]
    at [buf[i]] and [buf[i + 1]]. *)
Definition put_hex_octet (nibble_to_hex : Z -> option Z) (i b : Z) (buf : list Z)
    : option (list Z) :=
  h ← nibble_to_hex (b >> 4);
  buf ← aset buf i h;
  l ← nibble_to_hex (b & 0xF);
  aset buf (i + 1) l.

(** [srtp_octet_string_hex_string(s, length)] writes into the global
    [bit_string], the first argument here. *)
Definition srtp_octet_string_hex_string (bit_string s : list Z) (length : Z)
    : option (list Z) :=
  length ← sint (length * 2);
  let length := if MAX_PRINT_STRING_LEN <? length then MAX_PRINT_STRING_LEN - 2 else length in
  buf ← for_up 0 ((length + 1) / 2)
    (fun k buf => b ← aget s k; put_hex_octet srtp_nibble_to_hex_char (2 * k) b buf)
    bit_string;
  aset buf (2 * Z.max 0 ((length + 1) / 2)) 0.

Definition srtp_octet_string_is_eq (a b : list Z) (len : Z) : option Z :=
  acc ← for_up 0 len
    (fun i acc => x ← aget a i; y ← aget b i; Some (u8 (acc .| (x ^^ y)))) 0;
  Some (if acc =? 0 then 0 else 1).

Definition srtp_cleanse (s : list Z) (len : Z) : option (list Z) :=
  for_up 0 len (fun i s => aset s i 0) s.

Definition octet_string_set_to_zero (s : list Z) (len : Z) : option (list Z) :=
  srtp_cleanse s len.

(** ** v128_t *)

Abbreviation v128_t := (list Z).

Definition v128_set_to_zero : v128_t := [0; 0; 0; 0].

Definition v128_map2 (f : Z -> Z -> Z) (x y : v128_t) : v128_t := zip_with f x y.

Definition v128_xor (x y : v128_t) : v128_t := v128_map2 Z.lxor x y.
Definition v128_and (x y : v128_t) : v128_t := v128_map2 Z.land x y.
Definition v128_or (x y : v128_t) : v128_t := v128_map2 Z.lor x y.
Definition v128_complement (x : v128_t) : v128_t := (fun w => u32 (Z.lnot w)) <$> x.

Definition v128_is_eq (x y : v128_t) : bool := bool_decide (x = y).

Definition v128_get_bit (x : v128_t) (bit : Z) : option Z :=
  w ← aget x (bit >> 5); Some ((w >> (bit & 31)) & 1).

Definition v128_set_bit (x : v128_t) (bit : Z) : option v128_t :=
  w ← aget x (bit >> 5); aset x (bit >> 5) (w .| u32 (1 << (bit & 31))).

Definition v128_clear_bit (x : v128_t) (bit : Z) : option v128_t :=
  w ← aget x (bit >> 5);
  aset x (bit >> 5) (w & u32 (Z.lnot (u32 (1 << (bit & 31))))).

Definition v128_set_bit_to (x : v128_t) (bit value : Z) : option v128_t :=
  if value =? 0 then v128_clear_bit x bit else v128_set_bit x bit.

(** The octet view [v8] of the word array on a little-endian machine. *)
Definition word_octets (w : Z) : list Z :=
  [u8 w; u8 (w >> 8); u8 (w >> 16); u8 (w >> 24)].

Definition v8 (x : list Z) : list Z := x ≫= word_octets.

(** The word whose little-endian octets are [b0..b3]. *)
Definition octets_word (b0 b1 b2 b3 : Z) : Z :=
  b0 .| (b1 << 8) .| (b2 << 16) .| (b3 << 24).

Fixpoint v32 (s : list Z) : list Z :=
  match s with
  | b0 :: b1 :: b2 :: b3 :: s' => octets_word b0 b1 b2 b3 :: v32 s'
  | _ => []
  end.

(** [v128_copy_octet_string]: the sixteen octets of [s] become the octet view. *)
Definition v128_copy_octet_string (s : list Z) : option v128_t :=
  if decide (16 <= zlen s) then Some (v32 (take 16 s)) else None.

Definition v128_hex_string (bit_string : list Z) (x : v128_t) : option (list Z) :=
  buf ← for_up 0 16
    (fun i buf => b ← aget (v8 x) i; put_hex_octet srtp_nibble_to_hex_char (2 * i) b buf)
    bit_string;
  aset buf 32 0.

Definition v128_bit_string (bit_string : list Z) (x : v128_t) : option (list Z) :=
  buf ← for_up 0 128
    (fun i buf =>
       w ← aget x (i >> 5);
       let mask := 0x80000000 >> (i & 31) in
       aset buf i (if (w & mask) =? 0 then 48 else 49))
    bit_string;
  aset buf 128 0.

(** The common body of the two left shifts, on an array of [n] words; both
    functions spell it out, with 4 and with [word_length] for [n]. *)
Definition words_left_shift (n base_index bit_index : Z) (x : list Z) : option (list Z) :=
  x ← (if bit_index =? 0 then
         for_up 0 (n - base_index) (fun i x => v ← aget x (i + base_index); aset x i v) x
       else
         x ← for_up 0 (n - base_index - 1)
           (fun i x =>
              v ← (a ← aget x (i + base_index);
                   b ← aget x (i + base_index + 1);
                   Some ((a >> bit_index) ^^ u32 (b << (32 - bit_index))));
              aset x i v) x;
         a ← aget x (n - 1);
         aset x (n - base_index - 1) (a >> bit_index));
  for_up (n - base_index) n (fun i x => aset x i 0) x.

Definition v128_left_shift (x : v128_t) (shift : Z) : option v128_t :=
  let base_index := shift >> 5 in
  let bit_index := shift & 31 in
  if 127 <? shift then Some v128_set_to_zero
  else words_left_shift 4 base_index bit_index x.

Definition v128_right_shift (x : v128_t) (shift : Z) : option v128_t :=
  let base_index := shift >> 5 in
  let bit_index := shift & 31 in
  if 127 <? shift then Some v128_set_to_zero
  else
    x ← (if bit_index =? 0 then
           v ← aget x (4 - 1 - base_index);
           x ← aset x (4 - 1) v;
           (* for (i = 4 - 1; i > base_index; i--), with i = 4 - 1 - k *)
           for_up 0 (4 - 1 - base_index)
             (fun k x => let i := 4 - 1 - k in
                v ← aget x (i - 1 - base_index); aset x (i - 1) v) x
         else
           (* for (i = 4; i > base_index; i--), with i = 4 - k *)
           for_up 0 (4 - base_index)
             (fun k x =>
                let i := 4 - k in
                let from := i - 1 - base_index in
                a ← aget x from;
                let b := u32 (a << bit_index) in
                b ← (if 0 <? from then
                       c ← aget x (from - 1); Some (b .| (c >> (32 - bit_index)))
                     else Some b);
                aset x (i - 1) b) x);
    for_up 0 base_index (fun i x => aset x i 0) x.

(** ** bitvector_t *)

Definition bits_per_word : Z := 32.
Definition bytes_per_word : Z := 4.

Record bitvector_t := { bv_length : Z; bv_word : option (list Z) }.

Definition with_word (v : bitvector_t) (w : list Z) : bitvector_t :=
  {| bv_length := bv_length v; bv_word := Some w |}.

Definition bitvector_get_length (v : bitvector_t) : Z := bv_length v.

Definition bitvector_get_bit (v : bitvector_t) (bit_index : Z) : option Z :=
  ws ← bv_word v; v128_get_bit ws bit_index.

Definition bitvector_set_bit (v : bitvector_t) (bit_index : Z) : option bitvector_t :=
  ws ← bv_word v; ws ← v128_set_bit ws bit_index; Some (with_word v ws).

Definition bitvector_clear_bit (v : bitvector_t) (bit_index : Z) : option bitvector_t :=
  ws ← bv_word v; ws ← v128_clear_bit ws bit_index; Some (with_word v ws).

(** [memset(ws, 0, k)] on an array of words: the first [k] octets are zeroed. *)
Definition memset0_word (k : Z) (i : nat) (w : Z) : Z :=
  let done := k - 4 * Z.of_nat i in
  if 4 <=? done then 0
  else if 0 <? done then (w >> (8 * done)) << (8 * done)
  else w.

Definition memset0_words (ws : list Z) (k : Z) : option (list Z) :=
  if decide (0 <= k <= 4 * zlen ws) then Some (imap (memset0_word k) ws) else None.

Definition bitvector_set_to_zero (x : bitvector_t) : option bitvector_t :=
  ws ← bv_word x; ws ← memset0_words ws (bv_length x >> 3); Some (with_word x ws).

(** [bitvector_alloc(v, length)]: the new vector and the returned int. *)
Definition bitvector_alloc (calloc_ok : bool) (len : Z) : option (bitvector_t * Z) :=
  let len := u32 (len + bits_per_word - 1) & u32 (Z.lnot (bits_per_word - 1)) in
  let l := u32 (len / bits_per_word * bytes_per_word) in
  match srtp_crypto_alloc calloc_ok l with
  | None => Some ({| bv_length := 0; bv_word := None |}, -1)
  | Some block =>
      v ← bitvector_set_to_zero {| bv_length := len; bv_word := Some (v32 block) |};
      Some (v, 0)
  end.

Definition bitvector_dealloc (v : bitvector_t) : bitvector_t :=
  {| bv_length := 0; bv_word := None |}.

Definition bitvector_left_shift (x : bitvector_t) (shift : Z) : option bitvector_t :=
  let base_index := shift >> 5 in
  let bit_index := shift & 31 in
  let word_length := s32 (bv_length x >> 5) in
  if s32 (bv_length x) <=? shift then bitvector_set_to_zero x
  else
    ws ← bv_word x;
    ws ← words_left_shift word_length base_index bit_index ws;
    Some (with_word x ws).

(** ** Well-formed word arrays and their bits *)

Definition words_ok (n : Z) (ws : list Z) : Prop := zlen ws = n /\ Forall is_u32 ws.

(** Bit [k] of a word array: bit [k mod 32] of word [k / 32]. *)
Definition wbit (ws : list Z) (k : Z) : bool := Z.testbit (znth ws (k / 32)) (k mod 32).

(** A live bit vector: a positive multiple of 32 bits that an [int] can
    count, backed by that many words. *)
Definition bitvector_ok (v : bitvector_t) : Prop :=
  exists ws, bv_word v = Some ws /\ words_ok (bv_length v / 32) ws /\
    bv_length v mod 32 = 0 /\ 0 < bv_length v < 2 ^ 31.

Definition bv_bit (v : bitvector_t) (k : Z) : bool := wbit (default [] (bv_word v)) k.

(** The integer a bit vector denotes, word 0 the least significant. *)
Definition bv_value (v : bitvector_t) : Z :=
  little_endian_to_Z 32 (default [] (bv_word v)).

Lemma index_split k : (k >> 5) = k / 32 /\ (k & 31) = k mod 32.
Proof.
  split; [apply (Z.shiftr_div_pow2 k 5); lia|].
  change 31 with (Z.ones 5). by rewrite Z.land_ones by lia.
Qed.

Lemma Forall_znth (P : Z -> Prop) ws :
  (forall i, 0 <= i < zlen ws -> P (znth ws i)) -> Forall P ws.
Proof.
  intros H. apply Forall_lookup. intros i x Hx.
  specialize (H (Z.of_nat i)). pose proof (lookup_lt_Some _ _ _ Hx).
  unfold znth, aget, zlen in H. rewrite decide_True, Nat2Z.id, Hx in H by lia.
  simpl in H. apply H. lia.
Qed.

Lemma words_ok_znth n ws i : words_ok n ws -> is_u32 (znth ws i).
Proof.
  intros [Hl HF]. destruct (decide (0 <= i < zlen ws)).
  - by apply znth_Forall.
  - unfold znth, aget. case_decide.
    + rewrite lookup_ge_None_2; [done|unfold zlen in *; lia].
    + done.
Qed.

Lemma v128_get_bit_spec n ws k :
  words_ok n ws -> 0 <= k < 32 * n -> v128_get_bit ws k = Some (Z.b2z (wbit ws k)).
Proof.
  intros [Hl _] Hk. unfold v128_get_bit, wbit.
  destruct (index_split k) as [-> ->].
  rewrite aget_znth by (rewrite Hl; lia). simpl. f_equal.
  change 1 with (Z.ones 1). rewrite Z.land_ones by lia. change (2 ^ 1) with 2.
  rewrite <- Z.bit0_mod, Z.shiftr_spec by lia. do 2 f_equal; lia.
Qed.

Lemma testbit_one_shiftl b k :
  0 <= b < 32 -> 0 <= k -> Z.testbit (u32 (1 << b)) k = bool_decide (k = b).
Proof.
  intros. rewrite testbit_wrap, Z.shiftl_1_l, Z.pow2_bits_eqb by lia.
  repeat case_bool_decide; simpl; lia.
Qed.

Lemma v128_set_bit_spec n ws k :
  words_ok n ws -> 0 <= k < 32 * n ->
  exists ws', v128_set_bit ws k = Some ws' /\ words_ok n ws' /\
    forall j, 0 <= j < 32 * n -> wbit ws' j = if decide (j = k) then true else wbit ws j.
Proof.
  intros Hok Hk. pose proof Hok as [Hl HF]. unfold v128_set_bit, wbit.
  destruct (index_split k) as [-> ->].
  rewrite aget_znth by (rewrite Hl; lia). simpl. rewrite aset_Some by (rewrite Hl; lia).
  eexists. split; [done|]. split.
  - split; [by rewrite zlen_insert|]. apply Forall_insert; [done|].
    apply fits_lor; [lia|by eapply words_ok_znth|]. apply wrap_fits. lia.
  - intros j Hj. rewrite znth_insert by lia. case_decide as E.
    + rewrite Z.lor_spec, testbit_one_shiftl by lia.
      rewrite E. repeat case_decide; repeat case_bool_decide; subst; try lia;
        rewrite ?orb_true_r, ?orb_false_r; done.
    + case_decide; [subst; lia|done].
Qed.

(** The words after the shift, as a function of the words before it. *)
Definition shifted_word (n base b : Z) (ws : list Z) (i : Z) : Z :=
  if decide (i < n - base - 1) then
    if b =? 0 then znth ws (i + base)
    else (znth ws (i + base) >> b) ^^ u32 (znth ws (i + base + 1) << (32 - b))
  else if decide (i = n - base - 1) then znth ws (n - 1) >> b
  else 0.

Lemma words_left_shift_znth n base b ws :
  words_ok n ws -> 0 <= base < n -> 0 <= b < 32 ->
  exists ws', words_left_shift n base b ws = Some ws' /\ zlen ws' = n /\
    forall i, 0 <= i < n -> znth ws' i = shifted_word n base b ws i.
Proof.
  intros [Hl _] Hbase Hb. unfold words_left_shift, shifted_word.
  destruct (Z.eqb_spec b 0) as [->|Hb0].
  - destruct (for_up_map (fun i x => aget x (i + base)) (fun i => znth ws (i + base))
      0 (n - base) ws) as (x1 & -> & Hl1 & H1); [lia|lia| |].
    { intros i y Hi Hy Hsame. rewrite aget_znth by lia. f_equal. apply Hsame. lia. }
    simpl. destruct (for_up_fill 0 (n - base) n x1) as (x2 & -> & Hl2 & H2); [lia..|].
    exists x2. split; [done|]. split; [lia|]. intros i Hi.
    rewrite H2, H1 by lia. repeat case_decide; try lia.
    subst. rewrite Z.shiftr_0_r. f_equal. lia.
  - destruct (for_up_map
      (fun i x => a ← aget x (i + base); c ← aget x (i + base + 1);
                  Some ((a >> b) ^^ u32 (c << (32 - b))))
      (fun i => (znth ws (i + base) >> b) ^^ u32 (znth ws (i + base + 1) << (32 - b)))
      0 (n - base - 1) ws) as (x1 & -> & Hl1 & H1); [lia|lia| |].
    { intros i y Hi Hy Hsame. rewrite !aget_znth by lia. simpl. by rewrite !Hsame by lia. }
    simpl. rewrite aget_znth by lia. simpl. rewrite aset_Some by lia. simpl.
    edestruct (for_up_fill 0 (n - base) n) as (x2 & -> & Hl2 & H2);
      [lia..|rewrite zlen_insert; lia|].
    rewrite zlen_insert in *. exists x2. split; [done|]. split; [lia|]. intros i Hi.
    rewrite H2, znth_insert, !H1 by lia.
    repeat case_decide; try lia; done.
Qed.

Lemma shifted_word_fits n base b ws i :
  words_ok n ws -> 0 <= b < 32 -> is_u32 (shifted_word n base b ws i).
Proof.
  intros Hok Hb. unfold shifted_word.
  repeat case_decide; [destruct (b =? 0)| |done];
    eauto 6 using words_ok_znth with cint.
Qed.

(** The shift moves bit [k + shift] to bit [k] and clears the top. *)
Lemma words_left_shift_spec n ws shift :
  words_ok n ws -> 0 <= shift < 32 * n ->
  exists ws', words_left_shift n (shift / 32) (shift mod 32) ws = Some ws' /\
    words_ok n ws' /\
    forall k, 0 <= k < 32 * n ->
      wbit ws' k = if decide (k + shift < 32 * n) then wbit ws (k + shift) else false.
Proof.
  intros Hok Hs.
  set (base := shift / 32). set (b := shift mod 32).
  assert (shift = 32 * base + b /\ 0 <= b < 32 /\ 0 <= base < n) as (Hdiv & Hb & Hbase)
    by (unfold base, b; lia).
  clearbody base b.
  destruct (words_left_shift_znth n base b ws) as (ws' & -> & Hl' & H'); [done..|].
  exists ws'. split; [done|]. split.
  { split; [done|]. apply Forall_znth. intros i Hi. rewrite H' by lia.
    by apply shifted_word_fits. }
  intros k Hk. unfold wbit. rewrite H' by lia.
  assert (exists i t, k / 32 = i /\ k mod 32 = t /\ k = 32 * i + t /\
    0 <= t < 32 /\ 0 <= i < n) as (i & t & -> & -> & -> & Ht & Hi)
    by (exists (k / 32), (k mod 32); lia).
  subst shift. unfold shifted_word.
  assert (forall j, Z.testbit (znth ws j) (t + b) = false \/ t + b < 32) as Hhigh.
  { intros j. destruct (decide (t + b < 32)); [by right|left].
    eapply fits_testbit; [by eapply words_ok_znth|lia]. }
  destruct (decide (t + b < 32)) as [Hlo|Hhi].
  - replace ((32 * i + t + (32 * base + b)) / 32) with (i + base) by lia.
    replace ((32 * i + t + (32 * base + b)) mod 32) with (t + b) by lia.
    repeat case_decide; try lia; subst.
    + destruct (Z.eqb_spec b 0); subst; [by rewrite Z.add_0_r|].
      push_bits. rewrite (Z.testbit_neg_r _ (t - (32 - b))), andb_false_r, xorb_false_r by lia.
      done.
    + push_bits. f_equal. f_equal. lia.
    + apply Z.bits_0.
  - replace ((32 * i + t + (32 * base + b)) / 32) with (i + base + 1) by lia.
    replace ((32 * i + t + (32 * base + b)) mod 32) with (t + b - 32) by lia.
    repeat case_decide; try lia; subst.
    + destruct (Z.eqb_spec b 0); [lia|].
      push_bits. destruct (Hhigh (i + base)) as [->|]; [|lia].
      rewrite bool_decide_true by lia. simpl. f_equal. lia.
    + push_bits. edestruct Hhigh as [->|]; [done|lia].
    + apply Z.bits_0.
Qed.

(** ** Bit vectors *)

Lemma imap_memset0_all ws k :
  k = 4 * zlen ws -> imap (memset0_word k) ws = replicate (List.length ws) 0.
Proof.
  intros ->. apply list_eq. intros i. rewrite list_lookup_imap.
  destruct (ws !! i) eqn:E; simpl.
  - pose proof (lookup_lt_Some _ _ _ E). rewrite lookup_replicate_2 by done.
    f_equal. unfold memset0_word, zlen. case_if; [done|lia].
  - symmetry. apply lookup_replicate_None. by apply lookup_ge_None.
Qed.

Lemma words_ok_replicate n : 0 <= n -> words_ok n (replicate (Z.to_nat n) 0).
Proof.
  intros. split.
  - unfold zlen. rewrite length_replicate. lia.
  - apply Forall_replicate. done.
Qed.

Lemma wbit_replicate n k : wbit (replicate n 0) k = false.
Proof.
  unfold wbit, znth, aget. case_decide; [|apply Z.bits_0].
  destruct (replicate n 0 !! Z.to_nat (k / 32)) eqn:E; [|apply Z.bits_0].
  apply lookup_replicate in E as [-> _]. apply Z.bits_0.
Qed.

Lemma bitvector_ok_inv v :
  bitvector_ok v ->
  exists n ws, v = {| bv_length := 32 * n; bv_word := Some ws |} /\
    words_ok n ws /\ 0 < n < 2 ^ 26.
Proof.
  intros (ws & Hw & Hok & Hm & Hl). destruct v as [len w]; simpl in *. subst.
  exists (len / 32), ws. split; [f_equal; lia|]. split; [done|lia].
Qed.

Lemma bitvector_ok_intro n ws :
  words_ok n ws -> 0 < n < 2 ^ 26 ->
  bitvector_ok {| bv_length := 32 * n; bv_word := Some ws |}.
Proof.
  intros Hok Hn. exists ws. simpl. replace (32 * n / 32) with n by lia.
  split_and!; try done; lia.
Qed.

Lemma bitvector_set_to_zero_spec v :
  bitvector_ok v ->
  exists v', bitvector_set_to_zero v = Some v' /\ bitvector_ok v' /\
    bv_length v' = bv_length v /\ forall k, bv_bit v' k = false.
Proof.
  intros (n & ws & -> & Hok & Hn)%bitvector_ok_inv.
  unfold bitvector_set_to_zero; simpl. unfold memset0_words.
  assert ((32 * n >> 3) = 4 * n) as -> by (rewrite Z.shiftr_div_pow2; lia).
  pose proof Hok as [Hl _]. rewrite decide_True by lia. simpl. eexists. split; [done|].
  rewrite imap_memset0_all by lia. split.
  - apply bitvector_ok_intro; [|done].
    replace (List.length ws) with (Z.to_nat n) by (unfold zlen in *; lia).
    apply words_ok_replicate. lia.
  - split; [done|]. intros k. apply wbit_replicate.
Qed.

Lemma bitvector_get_bit_spec v k :
  bitvector_ok v -> 0 <= k < bv_length v ->
  bitvector_get_bit v k = Some (Z.b2z (bv_bit v k)).
Proof.
  intros (n & ws & -> & Hok & Hn)%bitvector_ok_inv Hk. simpl in *.
  by apply (v128_get_bit_spec n).
Qed.

Lemma bitvector_set_bit_spec v k :
  bitvector_ok v -> 0 <= k < bv_length v ->
  exists v', bitvector_set_bit v k = Some v' /\ bitvector_ok v' /\
    bv_length v' = bv_length v /\
    forall j, 0 <= j < bv_length v -> bv_bit v' j = if decide (j = k) then true else bv_bit v j.
Proof.
  intros (n & ws & -> & Hok & Hn)%bitvector_ok_inv Hk. simpl in *.
  destruct (v128_set_bit_spec n ws k) as (ws' & E & Hok' & Hbits); [done..|].
  unfold bitvector_set_bit; simpl. rewrite E. simpl. eexists. split; [done|].
  split; [by apply bitvector_ok_intro|]. done.
Qed.

Lemma bitvector_left_shift_spec v shift :
  bitvector_ok v -> 0 <= shift ->
  exists v', bitvector_left_shift v shift = Some v' /\ bitvector_ok v' /\
    bv_length v' = bv_length v /\
    forall k, 0 <= k < bv_length v ->
      bv_bit v' k = if decide (k + shift < bv_length v) then bv_bit v (k + shift) else false.
Proof.
  intros Hv Hs. unfold bitvector_left_shift.
  pose proof Hv as (n & ws & -> & Hok & Hn)%bitvector_ok_inv. simpl.
  destruct (index_split shift) as [-> ->]. destruct (index_split (32 * n)) as [-> _].
  replace (32 * n / 32) with n by lia.
  rewrite !swrap_id by lia. case_if.
  - destruct (bitvector_set_to_zero_spec _ Hv) as (v' & -> & Hok' & Hl & Hz).
    exists v'. split_and!; [done..|]. intros k Hk. rewrite Hz, decide_False by lia. done.
  - destruct (words_left_shift_spec n ws shift) as (ws' & -> & Hok' & Hbits); [done|lia|].
    simpl. eexists. split; [done|]. split; [by apply bitvector_ok_intro|].
    split; [done|]. intros k Hk. by apply Hbits.
Qed.

Lemma bitvector_alloc_spec len :
  0 < len <= 2 ^ 31 - 32 ->
  exists v, bitvector_alloc true len = Some (v, 0) /\ bitvector_ok v /\
    bv_length v = (len + 31) / 32 * 32 /\ forall k, bv_bit v k = false.
Proof.
  intros Hlen. unfold bitvector_alloc, bits_per_word, bytes_per_word.
  assert ((u32 (len + 32 - 1) & u32 (Z.lnot (32 - 1))) = 32 * ((len + 31) / 32)) as ->.
  { rewrite (wrap_id 32 (len + 32 - 1)) by (unfold fits; lia).
    replace (len + 32 - 1) with (len + 31) by lia. set (a := len + 31).
    assert (32 * (a / 32) = (a >> 5) << 5) as ->
      by (rewrite Z.shiftl_mul_pow2, Z.shiftr_div_pow2 by lia; lia).
    assert (is_u32 a) as Ha by (unfold fits; lia).
    bits k Hk. push_bits. change (Z.lnot (32 - 1)) with (Z.lnot (Z.ones 5)).
    rewrite Z.lnot_spec by lia.
    destruct (decide (k < 5)).
    - rewrite Z.ones_spec_low, (Z.testbit_neg_r _ (k - 5)) by lia.
      by rewrite andb_false_r, andb_false_r.
    - rewrite Z.ones_spec_high, andb_true_r, Z.shiftr_spec by lia.
      replace (k - 5 + 5) with k by lia. case_bool_decide.
      + by rewrite andb_true_r.
      + by rewrite (fits_testbit 32 a) by (done || lia). }
  set (n := (len + 31) / 32).
  assert (0 < n < 2 ^ 26) as Hn by (unfold n; lia).
  replace (32 * n / 32 * 4) with (4 * n) by lia.
  rewrite (wrap_id 32 (4 * n)) by (unfold fits; lia).
  unfold srtp_crypto_alloc. case_if; [lia|].
  assert (v32 (replicate (Z.to_nat (4 * n)) 0) = replicate (Z.to_nat n) 0) as ->.
  { replace (Z.to_nat (4 * n)) with (4 * Z.to_nat n)%nat by lia.
    generalize (Z.to_nat n) as m. induction m as [|m IH]; [done|].
    replace (4 * S m)%nat with (S (S (S (S (4 * m))))) by lia.
    cbn [replicate v32]. by rewrite IH. }
  destruct (bitvector_set_to_zero_spec {| bv_length := 32 * n;
    bv_word := Some (replicate (Z.to_nat n) 0) |}) as (v & -> & Hok & Hl & Hz).
  { apply bitvector_ok_intro; [apply words_ok_replicate; lia|done]. }
  simpl. exists v. split_and!; [done..| |done]. simpl in Hl. lia.
Qed.

(** ** Bit vectors as integers *)

Lemma bv_value_testbit v k :
  bitvector_ok v -> 0 <= k ->
  Z.testbit (bv_value v) k = if decide (k < bv_length v) then bv_bit v k else false.
Proof.
  intros (n & ws & -> & [Hl HF] & Hn)%bitvector_ok_inv Hk.
  unfold bv_value, bv_bit, wbit; simpl. case_decide.
  - assert (aget ws (k / 32) = Some (znth ws (k / 32))) as E by (apply aget_znth; lia).
    unfold aget in E. rewrite decide_True in E by lia.
    by apply little_endian_to_Z_spec.
  - apply (fits_testbit (32 * n)); [|lia].
    pose proof (little_endian_to_Z_bound 32 ws ltac:(lia) HF) as Hb.
    unfold fits, zlen in *. by rewrite Hl, Z.mul_comm in Hb.
Qed.

(** [srtp_octet_string_is_eq] accumulates the exclusive ors. *)
Lemma is_eq_loop a b len :
  Forall is_u8 a -> Forall is_u8 b -> 0 <= len <= zlen a -> len <= zlen b ->
  exists acc, for_up 0 len
    (fun i acc => x ← aget a i; y ← aget b i; Some (u8 (acc .| (x ^^ y)))) 0 = Some acc /\
    is_u8 acc /\ (acc = 0 <-> forall i, 0 <= i < len -> znth a i = znth b i).
Proof.
  intros Ha Hb Hla Hlb.
  apply (for_up_inv (fun i acc => is_u8 acc /\
    (acc = 0 <-> forall j, 0 <= j < i -> znth a j = znth b j))); [lia| |].
  - split; [done|]. split; [lia|done].
  - intros i acc Hi [Hacc IH]. rewrite !aget_znth by lia. simpl. eexists. split; [done|].
    assert (is_u8 (acc .| (znth a i ^^ znth b i))) as Hf.
    { apply fits_lor; [lia|done|]. apply fits_lxor; [lia|apply znth_Forall..]; (done || lia). }
    rewrite wrap_id by done. split; [done|].
    rewrite Z.lor_eq_0_iff, IH, Z.lxor_eq_0_iff. split.
    + intros [H E] j Hj. destruct (decide (j = i)); [by subst|apply H; lia].
    + intros H. split; [|apply H; lia]. intros j Hj. apply H. lia.
Qed.

Lemma octet_string_is_eq_spec a b len :
  Forall is_u8 a -> Forall is_u8 b -> 0 <= len <= zlen a -> len <= zlen b ->
  srtp_octet_string_is_eq a b len =
    Some (if decide (take (Z.to_nat len) a = take (Z.to_nat len) b) then 0 else 1).
Proof.
  intros Ha Hb Hla Hlb. unfold srtp_octet_string_is_eq.
  destruct (is_eq_loop a b len) as (acc & -> & _ & Hacc); [done..|]. simpl. f_equal.
  rewrite <- znth_take_ext in Hacc by lia.
  destruct (Z.eqb_spec acc 0); case_decide; tauto.
Qed.

(** The hexadecimal printing loop writes the digits of [s] two by two. *)
Definition hex_of (s : list Z) (i : Z) : Z :=
  znth hex_digits (if i mod 2 =? 0 then (znth s (i / 2) >> 4) & 0xF else znth s (i / 2) & 0xF).

Lemma nibble_to_hex_total c : srtp_nibble_to_hex_char c = Some (znth hex_digits (c & 0xF)).
Proof.
  unfold srtp_nibble_to_hex_char. apply aget_znth. change (zlen hex_digits) with 16.
  change 15 with (Z.ones 4). rewrite Z.land_ones by lia. lia.
Qed.

Lemma hex_loop nib buf s n :
  (forall c, nib c = Some (znth hex_digits (c & 0xF))) ->
  0 <= n -> 2 * n <= zlen buf -> n <= zlen s ->
  exists buf', for_up 0 n (fun k buf => b ← aget s k; put_hex_octet nib (2 * k) b buf) buf
      = Some buf' /\ zlen buf' = zlen buf /\
    forall i, 0 <= i < zlen buf ->
      znth buf' i = if i <? 2 * n then hex_of s i else znth buf i.
Proof.
  intros Hnib Hn Hb Hs.
  apply (for_up_inv (fun k b => zlen b = zlen buf /\ forall i, 0 <= i < zlen buf ->
      znth b i = if i <? 2 * k then hex_of s i else znth buf i)); [done| |].
  - split; [done|]. intros i Hi. case_if; [lia|done].
  - intros k b Hk [Hl Hc]. rewrite aget_znth by lia. simpl. unfold put_hex_octet.
    rewrite !Hnib. simpl. rewrite aset_Some by lia. simpl.
    rewrite aset_Some by (rewrite zlen_insert; lia). eexists. split; [done|].
    rewrite !zlen_insert. split; [done|]. intros i Hi.
    rewrite !znth_insert by (rewrite ?zlen_insert; lia). rewrite Hc by done.
    unfold hex_of. repeat case_decide; try lia; subst; repeat case_if; try lia.
    + replace ((2 * k + 1) / 2) with k by lia. f_equal.
      by rewrite <- Z.land_assoc.
    + replace (2 * k / 2) with k by lia. done.
Qed.

(** ** Properties *)

(** [bitvector_left_shift], on every live bit vector and every
    non-negative shift, stays inside the word array, keeps the length, and
    divides the integer the vector denotes by [2^shift]. *)
Theorem bitvector_left_shift_value v shift :
  bitvector_ok v -> 0 <= shift ->
  exists v', bitvector_left_shift v shift = Some v' /\ bitvector_ok v' /\
    bv_length v' = bv_length v /\ bv_value v' = bv_value v >> shift.
Proof.
  intros Hv Hs.
  destruct (bitvector_left_shift_spec v shift) as (v' & E & Hok & Hl & Hbits); [done..|].
  exists v'. split_and!; [done..|]. bits k Hk.
  rewrite Z.shiftr_spec, !bv_value_testbit, Hl by (done || lia).
  repeat case_decide; try lia.
  - rewrite Hbits, decide_True by lia. done.
  - rewrite Hbits, decide_False by lia. done.
Qed.

Lemma bitvector_left_shift_value_witness :
  exists v', bitvector_left_shift {| bv_length := 64; bv_word := Some [7; 1] |} 33 = Some v' /\
    bitvector_ok v' /\ bv_length v' = 64 /\
    bv_value v' = bv_value {| bv_length := 64; bv_word := Some [7; 1] |} >> 33.
Proof.
  apply (bitvector_left_shift_value {| bv_length := 64; bv_word := Some [7; 1] |} 33).
  - exists [7; 1]. split_and!; try done. split; [done|].
    repeat constructor; by unfold fits.
  - lia.
Defined.

(** [srtp_octet_string_is_eq] reads only the first [len] octets of its
    arguments and returns 0 exactly when they agree there, 1 otherwise. *)
Theorem srtp_octet_string_is_eq_correct a b len :
  Forall is_u8 a -> Forall is_u8 b -> 0 <= len <= zlen a -> len <= zlen b ->
  srtp_octet_string_is_eq a b len =
    Some (if decide (take (Z.to_nat len) a = take (Z.to_nat len) b) then 0 else 1).
Proof. apply octet_string_is_eq_spec. Qed.

Lemma srtp_octet_string_is_eq_correct_witness :
  srtp_octet_string_is_eq [1; 2; 3] [1; 2; 4] 3 =
    Some (if decide (take (Z.to_nat 3) [1; 2; 3] = take (Z.to_nat 3) [1; 2; 4])
          then 0 else 1).
Proof.
  apply srtp_octet_string_is_eq_correct; try (repeat constructor; by unfold fits);
    unfold zlen; simpl; lia.
Defined.

(** [srtp_octet_string_hex_string] prints the lower-case hexadecimal digits
    of its argument, truncated to 511 octets, followed by a terminator, inside
    the 1024-octet [bit_string], except for an argument of exactly 512 octets:
    the truncation test [length > MAX_PRINT_STRING_LEN] lets it through and the
    terminator is written one past the end of the buffer. *)
Theorem srtp_octet_string_hex_string_bounds bit_string s len :
  zlen bit_string = MAX_PRINT_STRING_LEN -> 0 <= len < 2 ^ 30 -> len <= zlen s ->
  if decide (len = 512) then srtp_octet_string_hex_string bit_string s len = None
  else exists buf, srtp_octet_string_hex_string bit_string s len = Some buf /\
    zlen buf = MAX_PRINT_STRING_LEN /\ znth buf (2 * Z.min len 511) = 0 /\
    forall i, 0 <= i < 2 * Z.min len 511 -> znth buf i = hex_of s i.
Proof.
  unfold MAX_PRINT_STRING_LEN. intros Hb Hlen Hs.
  unfold srtp_octet_string_hex_string, sint, MAX_PRINT_STRING_LEN.
  rewrite !(decide_True (P := - 2 ^ 31 <= len * 2 < 2 ^ 31)) by lia. simpl.
  set (n := ((if 1024 <? len * 2 then 1024 - 2 else len * 2) + 1) / 2).
  assert (n = if decide (len = 512) then 512 else Z.min len 511) as Hn.
  { unfold n. repeat case_if; lia. }
  destruct (hex_loop srtp_nibble_to_hex_char bit_string s n) as (buf & -> & Hl & Hc);
    [apply nibble_to_hex_total|case_decide; lia..|]. simpl.
  case_decide.
  - unfold aset. rewrite decide_False; [done|]. fold (zlen buf). lia.
  - rewrite aset_Some by lia. eexists. split; [done|]. rewrite zlen_insert.
    split; [lia|]. split; [rewrite znth_insert by lia; case_decide; [done|lia]|].
    intros i Hi. rewrite znth_insert, Hc by lia. case_decide; [lia|]. case_if; [done|lia].
Qed.

Lemma srtp_octet_string_hex_string_bounds_witness :
  exists buf, srtp_octet_string_hex_string (replicate 1024 7) [0xab; 0x0c] 2 = Some buf /\
    zlen buf = MAX_PRINT_STRING_LEN /\ znth buf (2 * Z.min 2 511) = 0 /\
    forall i, 0 <= i < 2 * Z.min 2 511 -> znth buf i = hex_of [0xab; 0x0c] i.
Proof.
  apply (srtp_octet_string_hex_string_bounds (replicate 1024 7) [0xab; 0x0c] 2).
  - vm_compute. reflexivity.
  - lia.
  - unfold zlen; simpl; lia.
Defined.

(** The 256-entry table of [octet_get_weight] is the Hamming weight. *)
Theorem octet_get_weight_hamming octet :
  is_u8 octet ->
  octet_get_weight octet =
    Some (foldr Z.add 0 ((fun k => Z.b2z (Z.testbit octet k)) <$> seqZ 0 8)).
Proof.
  intros [H0 H1].
  assert (forallb (fun o => bool_decide (octet_get_weight o =
    Some (foldr Z.add 0 ((fun k => Z.b2z (Z.testbit o k)) <$> seqZ 0 8)))) (seqZ 0 256) = true)
    as Hall by (vm_compute; reflexivity).
  rewrite forallb_forall in Hall. specialize (Hall octet).
  apply bool_decide_eq_true in Hall; [done|].
  apply list_elem_of_In, elem_of_seqZ. lia.
Qed.

Lemma octet_get_weight_hamming_witness :
  octet_get_weight 0xb1 =
    Some (foldr Z.add 0 ((fun k => Z.b2z (Z.testbit 0xb1 k)) <$> seqZ 0 8)).
Proof. apply octet_get_weight_hamming. by unfold fits. Defined.
