(* ===== verification/Replay.v ===== *)
(** What a replay database promises to its clients, independently of how it
    stores the received indices, and the consequence the protocol relies on:
    an index is never accepted twice. *)

From S2P Require Import Prelude Err.

(** The interface of a replay database.  [rp_low] is the smallest index the
    database can still decide, [rp_width] how far that is below the highest
    index, [rp_mem] says that an index was recorded and is
    still remembered, and [rp_dom] bounds the indices that may be presented in
    a given state.  [rp_check] and [rp_add] are the code's operations. *)
Class ReplayDb (db : Type) := {
  rp_ok : db -> Prop;
  rp_dom : db -> Z -> Prop;
  rp_low : db -> Z;
  rp_width : db -> Z;
  rp_mem : db -> Z -> Prop;
  rp_check : db -> Z -> option srtp_err_status_t;
  rp_add : db -> Z -> option (db * srtp_err_status_t);
  (** The check is defined and accepts exactly the fresh decidable indices. *)
  rp_check_spec d i :
    rp_ok d -> rp_dom d i ->
    exists st, rp_check d i = Some st /\
      (st = srtp_err_status_ok <-> rp_low d <= i /\ ~ rp_mem d i);
  (** Adding an accepted index succeeds, records it, slides the window just
      enough to cover it, and forgets only what falls below the window. *)
  rp_add_spec d i :
    rp_ok d -> rp_dom d i -> rp_low d <= i ->
    exists d', rp_add d i = Some (d', srtp_err_status_ok) /\ rp_ok d' /\
      rp_width d' = rp_width d /\ rp_low d' = Z.max (rp_low d) (i - rp_width d) /\
      forall j, rp_low d' <= j -> (rp_mem d' j <-> j = i \/ rp_mem d j)
}.

Section Discipline.
Context {db : Type} `{ReplayDb db}.

(** The receiving discipline: every presented index is checked, and added when
    the check accepts it.  [rp_reach d0 d acc] holds when the database went
    from [d0] to [d] while accepting the indices [acc], the latest first. *)
Inductive rp_reach (d0 : db) : db -> list Z -> Prop :=
| rp_start : rp_reach d0 d0 []
| rp_accept d acc i d' :
    rp_reach d0 d acc -> rp_dom d i ->
    rp_check d i = Some srtp_err_status_ok ->
    rp_add d i = Some (d', srtp_err_status_ok) ->
    rp_reach d0 d' (i :: acc)
| rp_reject d acc i st :
    rp_reach d0 d acc -> rp_dom d i ->
    rp_check d i = Some st -> st <> srtp_err_status_ok ->
    rp_reach d0 d acc.

Lemma rp_accepted_fresh d i :
  rp_ok d -> rp_dom d i -> rp_check d i = Some srtp_err_status_ok ->
  rp_low d <= i /\ ~ rp_mem d i.
Proof.
  intros Hok Hd Hc. destruct (rp_check_spec d i) as (st & E & Hst); [done..|].
  rewrite E in Hc. apply Hst. congruence.
Qed.

(** Invariant of the discipline: the database stays well formed, remembers
    exactly the accepted indices that are not below its window, and the window
    is where the highest accepted index puts it. *)
Lemma rp_reach_inv d0 d acc :
  rp_ok d0 -> (forall j, ~ rp_mem d0 j) -> rp_reach d0 d acc ->
  rp_ok d /\ rp_width d = rp_width d0 /\
  rp_low d = foldr (fun q low => Z.max low (q - rp_width d0)) (rp_low d0) acc /\
  forall j, rp_low d <= j -> (rp_mem d j <-> j ∈ acc).
Proof.
  intros H0 Hempty.
  induction 1 as [|d acc i d' _ (Hok & Hw & Hlow & Hm) Hd Hc Ha|d acc i st _ IH _ _ _].
  - split_and!; [done..|]. intros j _. rewrite elem_of_nil. naive_solver.
  - destruct (rp_accepted_fresh d i) as [Hl _]; [done..|].
    destruct (rp_add_spec d i) as (d1 & E & Hok' & Hw' & Hlow' & Hm'); [done..|].
    rewrite E in Ha. simplify_eq. split_and!; [done|congruence|simpl; lia|].
    intros j Hj. rewrite Hm', elem_of_cons, Hm by lia. done.
  - done.
Qed.

(** No index is accepted twice. *)
Lemma rp_reach_NoDup d0 d acc :
  rp_ok d0 -> (forall j, ~ rp_mem d0 j) -> rp_reach d0 d acc -> NoDup acc.
Proof.
  intros H0 Hempty Hr.
  induction Hr as [|d acc i d' Hr IH Hd Hc Ha|d acc i st _ IH _ _ _]; [constructor| |done].
  destruct (rp_reach_inv d0 d acc) as (Hok & _ & _ & Hm); [done..|].
  destruct (rp_accepted_fresh d i) as [Hl Hf]; [done..|].
  constructor; [|done]. intros Hin. by apply Hf, Hm.
Qed.

Lemma foldr_max_le (f : Z -> Z) low acc i :
  foldr (fun q l => Z.max l (f q)) low acc <= i <->
  low <= i /\ forall q, q ∈ acc -> f q <= i.
Proof.
  induction acc as [|q acc IH]; simpl.
  - split; [|by intros []]. intros. split; [done|]. intros q Hq. by apply elem_of_nil in Hq.
  - rewrite Z.max_lub_iff, IH. split.
    + intros [[Hl Ha] Hq]. split; [done|]. intros x Hx.
      apply elem_of_cons in Hx as [->|Hx]; auto.
    + intros [Hl Ha]. split; [split; [done|]|]; intros; apply Ha, elem_of_cons; auto.
Qed.

(** The decision of the database, in terms of what was accepted so far: the
    next index is accepted exactly when it is new, not below the initial
    window, and at most the window's width below every accepted index. *)
Lemma rp_reach_decision d0 d acc i :
  rp_ok d0 -> (forall j, ~ rp_mem d0 j) -> rp_reach d0 d acc -> rp_dom d i ->
  exists st, rp_check d i = Some st /\
    (st = srtp_err_status_ok <->
     (i ∉ acc) /\ rp_low d0 <= i /\ forall q, q ∈ acc -> q <= i + rp_width d0).
Proof.
  intros H0 Hempty Hr Hd.
  destruct (rp_reach_inv d0 d acc) as (Hok & Hw & Hlow & Hm); [done..|].
  destruct (rp_check_spec d i) as (st & E & Hst); [done..|].
  exists st. split; [done|].
  assert (rp_low d <= i <-> rp_low d0 <= i /\ forall q, q ∈ acc -> q <= i + rp_width d0)
    as Hl.
  { rewrite Hlow, foldr_max_le. split; intros [H1 H2]; (split; [done|]); intros q Hq;
      specialize (H2 q Hq); lia. }
  rewrite Hst, <- Hl. split.
  - intros [Hle Hn]. by rewrite <- Hm.
  - intros [Hn Hle]. by rewrite Hm.
Qed.

(** The discipline never gets stuck: whatever index arrives next, it is
    accepted or rejected without undefined behaviour. *)
Lemma rp_reach_progress d0 d acc i :
  rp_ok d0 -> (forall j, ~ rp_mem d0 j) -> rp_reach d0 d acc -> rp_dom d i ->
  exists d' acc', rp_reach d0 d' acc' /\
    (if decide (rp_check d i = Some srtp_err_status_ok) then acc' = i :: acc
     else d' = d /\ acc' = acc).
Proof.
  intros H0 Hempty Hr Hd. destruct (rp_reach_inv d0 d acc) as (Hok & _); [done..|].
  destruct (rp_check_spec d i) as (st & E & Hst); [done..|].
  case_decide as Hc.
  - destruct (rp_accepted_fresh d i) as [Hl _]; [done..|].
    destruct (rp_add_spec d i) as (d1 & Ea & _); [done..|].
    exists d1, (i :: acc). split; [|done]. by eapply rp_accept.
  - exists d, acc. split; [|done]. eapply rp_reject; [done..|]. congruence.
Qed.

End Discipline.
