(* ===== verification/Rdb.v ===== *)
(** The SRTCP replay database: crypto/replay/rdb.c and crypto/include/rdb.h.

    A 32-bit window start and a 128-bit mask whose bit [k] records index
    [window_start + k].  [uint32_t] and the 32-bit [size_t] of
    [rdb_bits_in_bitmask] are kept at their width. *)

From S2P Require Import Prelude Err SrtpTypes Replay.

Record srtp_rdb_t := { window_start : Z; bitmask : v128_t }.

Definition rdb_bits_in_bitmask : Z := 128.

Definition srtp_rdb_init : srtp_rdb_t * srtp_err_status_t :=
  ({| window_start := 0; bitmask := v128_set_to_zero |}, srtp_err_status_ok).

Definition srtp_rdb_check (rdb : srtp_rdb_t) (p_index : Z) : option srtp_err_status_t :=
  if u32 (window_start rdb + rdb_bits_in_bitmask) <=? p_index then
    Some srtp_err_status_ok
  else if p_index <? window_start rdb then Some srtp_err_status_replay_old
  else
    b ← v128_get_bit (bitmask rdb) (u32 (p_index - window_start rdb));
    if b =? 1 then Some srtp_err_status_replay_fail else Some srtp_err_status_ok.

Definition srtp_rdb_add_index (rdb : srtp_rdb_t) (p_index : Z)
    : option (srtp_rdb_t * srtp_err_status_t) :=
  if p_index <? window_start rdb then Some (rdb, srtp_err_status_replay_fail)
  else
    let delta := u32 (p_index - window_start rdb) in
    if delta <? rdb_bits_in_bitmask then
      m ← v128_set_bit (bitmask rdb) delta;
      Some ({| window_start := window_start rdb; bitmask := m |}, srtp_err_status_ok)
    else
      let delta := u32 (delta - (rdb_bits_in_bitmask - 1)) in
      (* the shift amount is an [int] parameter *)
      m ← v128_left_shift (bitmask rdb) (s32 delta);
      m ← v128_set_bit m (rdb_bits_in_bitmask - 1);
      Some ({| window_start := u32 (window_start rdb + delta); bitmask := m |},
            srtp_err_status_ok).

Definition srtp_rdb_increment (rdb : srtp_rdb_t) : srtp_rdb_t * srtp_err_status_t :=
  if 0x7fffffff <=? window_start rdb then (rdb, srtp_err_status_key_expired)
  else ({| window_start := u32 (window_start rdb + 1); bitmask := bitmask rdb |},
        srtp_err_status_ok).

Definition srtp_rdb_get_value (rdb : srtp_rdb_t) : Z := window_start rdb.

(** ** Invariant and refinement *)

(** SRTCP indices have 31 bits, so the window stays below [2^31]. *)
Definition rdb_ok (rdb : srtp_rdb_t) : Prop :=
  words_ok 4 (bitmask rdb) /\ 0 <= window_start rdb < 2 ^ 31.

Definition rdb_mem (rdb : srtp_rdb_t) (j : Z) : Prop :=
  0 <= j - window_start rdb < 128 /\ wbit (bitmask rdb) (j - window_start rdb) = true.

Lemma v128_set_to_zero_ok : words_ok 4 v128_set_to_zero.
Proof. split; [done|]. repeat constructor; done. Qed.

Lemma v128_left_shift_spec x shift :
  words_ok 4 x -> 0 <= shift ->
  exists x', v128_left_shift x shift = Some x' /\ words_ok 4 x' /\
    forall k, 0 <= k < 128 ->
      wbit x' k = if decide (k + shift < 128) then wbit x (k + shift) else false.
Proof.
  intros Hx Hs. unfold v128_left_shift. destruct (index_split shift) as [-> ->]. case_if.
  - exists v128_set_to_zero. split; [done|]. split; [apply v128_set_to_zero_ok|].
    intros k Hk. rewrite decide_False by lia. apply (wbit_replicate 4).
  - apply (words_left_shift_spec 4); [done|lia].
Qed.

(** A negative shift reads below the array. *)
Lemma v128_left_shift_negative x shift :
  shift < 0 -> v128_left_shift x shift = None.
Proof.
  intros Hs. unfold v128_left_shift. case_if; [lia|].
  destruct (index_split shift) as [-> ->]. unfold words_left_shift.
  assert (forall i, i < 0 -> aget x i = None) as Hneg.
  { intros i Hi. unfold aget. by rewrite decide_False by lia. }
  unfold for_up.
  replace (Z.to_nat (4 - shift / 32 - 0)) with (S (Z.to_nat (3 - shift / 32))) by lia.
  replace (Z.to_nat (4 - shift / 32 - 1 - 0)) with (S (Z.to_nat (2 - shift / 32))) by lia.
  destruct (shift mod 32 =? 0); cbn [for_nat]; rewrite (Hneg (0 + shift / 32)) by lia; done.
Qed.

Lemma rdb_check_spec rdb p :
  rdb_ok rdb -> 0 <= p < 2 ^ 31 ->
  exists st, srtp_rdb_check rdb p = Some st /\
    (st = srtp_err_status_ok <-> window_start rdb <= p /\ ~ rdb_mem rdb p).
Proof.
  intros [Hm Hw] Hp. unfold srtp_rdb_check, rdb_bits_in_bitmask, rdb_mem.
  rewrite wrap_id by (unfold fits; lia). case_if; [eexists; split; [done|]; split; [lia|done]|].
  case_if; [eexists; split; [done|]; split; [done|lia]|].
  rewrite wrap_id by (unfold fits; lia).
  rewrite (v128_get_bit_spec 4) by (done || lia). simpl.
  destruct (wbit (bitmask rdb) (p - window_start rdb)) eqn:E; simpl;
    eexists; (split; [done|]); split; try done.
  - intros [_ Hn]. destruct Hn. split; [lia|done].
  - intros _. split; [done|]. by intros [_ ?].
Qed.

Lemma rdb_add_spec rdb p :
  rdb_ok rdb -> 0 <= p < 2 ^ 31 -> window_start rdb <= p ->
  exists rdb', srtp_rdb_add_index rdb p = Some (rdb', srtp_err_status_ok) /\
    rdb_ok rdb' /\ 127 = 127 /\
    window_start rdb' = Z.max (window_start rdb) (p - 127) /\
    forall j, window_start rdb' <= j -> (rdb_mem rdb' j <-> j = p \/ rdb_mem rdb j).
Proof.
  intros [Hm Hw] Hp Hle. unfold srtp_rdb_add_index, rdb_bits_in_bitmask, rdb_mem.
  case_if; [lia|]. rewrite (wrap_id 32 (p - window_start rdb)) by (unfold fits; lia).
  case_if.
  - destruct (v128_set_bit_spec 4 (bitmask rdb) (p - window_start rdb))
      as (m & -> & Hok & Hb); [done|lia|]. simpl.
    eexists. split; [done|]. split; [by split|]. simpl. split; [done|]. split; [lia|].
    intros j Hj. split.
    + intros [Hr Hbit]. rewrite Hb in Hbit by lia. case_decide; [left; lia|by right].
    + intros [->|[Hr Hbit]]; (split; [lia|]); rewrite Hb by lia; case_decide; done.
  - rewrite (wrap_id 32 (p - window_start rdb - (128 - 1))) by (unfold fits; lia).
    set (d := p - window_start rdb - (128 - 1)).
    rewrite (swrap_id 32 d) by (unfold d; lia).
    destruct (v128_left_shift_spec (bitmask rdb) d) as (m & -> & Hok & Hb); [done|unfold d; lia|].
    simpl. destruct (v128_set_bit_spec 4 m (128 - 1)) as (m' & -> & Hok' & Hb'); [done|lia|].
    simpl. rewrite (wrap_id 32 (window_start rdb + d)) by (unfold fits, d; lia).
    eexists. split; [done|]. unfold rdb_ok; simpl. split; [split; [done|unfold d; lia]|].
    split; [done|]. split; [unfold d; lia|]. intros j Hj. split.
    + intros [Hr Hbit]. rewrite Hb' in Hbit by lia. case_decide; [left; unfold d in *; lia|].
      rewrite Hb in Hbit by lia. case_decide; [|done]. right.
      replace (j - (window_start rdb + d) + d) with (j - window_start rdb) in * by lia.
      split; [lia|done].
    + intros [->|[Hr Hbit]].
      * split; [unfold d; lia|]. rewrite Hb' by (unfold d; lia). rewrite decide_True; [done|unfold d; lia].
      * split; [unfold d in *; lia|]. rewrite Hb' by (unfold d in *; lia). case_decide; [done|].
        rewrite Hb by (unfold d in *; lia).
        replace (j - (window_start rdb + d) + d) with (j - window_start rdb) by lia.
        by rewrite decide_True by lia.
Qed.

#[global] Instance rdb_ReplayDb : ReplayDb srtp_rdb_t := {
  rp_ok := rdb_ok;
  rp_dom _ p := 0 <= p < 2 ^ 31;
  rp_low := window_start;
  rp_width _ := 127;
  rp_mem := rdb_mem;
  rp_check := srtp_rdb_check;
  rp_add := srtp_rdb_add_index;
  rp_check_spec := rdb_check_spec;
  rp_add_spec := rdb_add_spec
}.

(** ** Properties *)

Lemma rdb_init_ok : rdb_ok (fst srtp_rdb_init).
Proof. split; [apply v128_set_to_zero_ok|simpl; lia]. Qed.

Lemma rdb_init_empty j : ~ rdb_mem (fst srtp_rdb_init) j.
Proof.
  intros [_ H]. simpl in H. change v128_set_to_zero with (replicate 4 0) in H.
  by rewrite wbit_replicate in H.
Qed.

(** C32: SRTCP replay protection.  Start from [srtp_rdb_init] and present any
    sequence of 31-bit indices, checking each with [srtp_rdb_check] and adding
    it with [srtp_rdb_add_index] when it is accepted.  Then no index is ever
    accepted twice, and the next index is accepted exactly when it is new and
    at most 127 below every index accepted so far. *)
Theorem srtp_rdb_replay_protection rdb acc :
  rp_reach (fst srtp_rdb_init) rdb acc ->
  NoDup acc /\
  forall p, 0 <= p < 2 ^ 31 ->
    exists st, srtp_rdb_check rdb p = Some st /\
      (st = srtp_err_status_ok <-> (p ∉ acc) /\ forall q, q ∈ acc -> q <= p + 127).
Proof.
  intros Hr. split.
  - by apply (rp_reach_NoDup (fst srtp_rdb_init) rdb acc); [apply rdb_init_ok|apply rdb_init_empty|].
  - intros p Hp.
    destruct (rp_reach_decision (fst srtp_rdb_init) rdb acc p) as (st & E & Hst);
      [apply rdb_init_ok|apply rdb_init_empty|done|done|].
    exists st. split; [exact E|]. rewrite Hst. simpl. intuition lia.
Qed.

Lemma srtp_rdb_replay_protection_witness :
  NoDup [200; 3] /\
  forall p, 0 <= p < 2 ^ 31 ->
    exists st,
      srtp_rdb_check {| window_start := 73; bitmask := [0; 0; 0; 0x80000000] |} p = Some st /\
      (st = srtp_err_status_ok <-> (p ∉ [200; 3]) /\ forall q, q ∈ [200; 3] -> q <= p + 127).
Proof.
  apply srtp_rdb_replay_protection.
  eapply (rp_accept _ {| window_start := 0; bitmask := [8; 0; 0; 0] |}).
  - eapply (rp_accept _ (fst srtp_rdb_init)); [constructor|simpl; lia|vm_compute; reflexivity..].
  - simpl; lia.
  - vm_compute; reflexivity.
  - vm_compute; reflexivity.
Defined.

(** The shift amount of [srtp_rdb_add_index] is an [unsigned int] passed as
    an [int]: an index [2^31 + 127] or more ahead of the window (impossible for
    a 31-bit SRTCP index) makes [v128_left_shift] read below the mask, which is
    undefined behaviour. *)
Theorem srtp_rdb_add_index_wide_jump rdb p :
  0 <= window_start rdb -> p < 2 ^ 32 -> window_start rdb + 2 ^ 31 + 127 <= p ->
  srtp_rdb_add_index rdb p = None.
Proof.
  intros Hw Hp Hd. unfold srtp_rdb_add_index, rdb_bits_in_bitmask.
  case_if; [lia|]. rewrite (wrap_id 32 (p - window_start rdb)) by (unfold fits; lia).
  case_if; [lia|]. rewrite (wrap_id 32 (p - window_start rdb - _)) by (unfold fits; lia).
  rewrite v128_left_shift_negative; [done|]. unfold swrap. lia.
Qed.

Lemma srtp_rdb_add_index_wide_jump_witness :
  srtp_rdb_add_index (fst srtp_rdb_init) 0x8000007f = None.
Proof. apply srtp_rdb_add_index_wide_jump; simpl; lia. Defined.

(** The sender side of the SRTCP index: [srtp_rdb_increment] counts up by
    one until [0x7fffffff] is reached, where it reports an expired key and
    leaves the counter alone; the counter therefore never wraps. *)
Theorem srtp_rdb_increment_bounded rdb n :
  0 <= window_start rdb <= 0x7fffffff ->
  window_start (Nat.iter n (fun r => fst (srtp_rdb_increment r)) rdb) =
    Z.min 0x7fffffff (window_start rdb + Z.of_nat n).
Proof.
  intros Hw. induction n as [|n IH]; [simpl; lia|]. rewrite Nat.iter_succ.
  set (r := Nat.iter n _ rdb) in *. unfold srtp_rdb_increment.
  case_if; simpl; [lia|]. rewrite wrap_id by (unfold fits; lia). lia.
Qed.

Lemma srtp_rdb_increment_bounded_witness :
  window_start (Nat.iter 3 (fun r => fst (srtp_rdb_increment r))
    {| window_start := 0x7ffffffe; bitmask := v128_set_to_zero |}) =
    Z.min 0x7fffffff (0x7ffffffe + Z.of_nat 3).
Proof.
  apply (srtp_rdb_increment_bounded {| window_start := 0x7ffffffe; bitmask := v128_set_to_zero |} 3).
  simpl; lia.
Defined.
