(* ===== verification/Rdbx.v ===== *)
(** The SRTP replay database with extended range: crypto/replay/rdbx.c and
    crypto/include/rdbx.h.

    The 64-bit [index] is the highest received packet index (rollover counter
    and 16-bit sequence number); bit [length - 1 - k] of the mask records index
    [index - k].  Sequence numbers travel as 16 bits and the code recovers the
    full index from the local one. *)

From S2P Require Import Prelude Err SrtpTypes Replay.

Definition seq_num_median : Z := 0x8000.
Definition seq_num_max : Z := 0x10000.

Record srtp_rdbx_t := { index : Z; rdbx_bitmask : bitvector_t }.

(** ** Extended sequence numbers *)

Definition srtp_index_init : Z := 0.

(** [*pi += s], with [s] an [srtp_sequence_number_t]: the argument is cut to
    16 bits by the call. *)
Definition srtp_index_advance (pi s : Z) : Z := u64 (pi + u16 s).

(** [srtp_index_guess(local, guess, s)]: the guess and the returned difference. *)
Definition srtp_index_guess (local s : Z) : Z * Z :=
  let local_roc := u32 (local >> 16) in
  let local_seq := u16 local in
  let '(guess_roc, difference) :=
    if local_seq <? seq_num_median then
      if seq_num_median <? s - local_seq then
        (u32 (local_roc - 1), s - local_seq - seq_num_max)
      else (local_roc, s - local_seq)
    else
      if s <? local_seq - seq_num_median then
        (u32 (local_roc + 1), s - local_seq + seq_num_max)
      else (local_roc, s - local_seq) in
  let guess_seq := s in
  (u64 (guess_roc << 16) .| guess_seq, difference).

(** ** The database *)

Definition srtp_rdbx_init (calloc_ok : bool) (rdbx : srtp_rdbx_t) (ws : Z)
    : option (srtp_rdbx_t * srtp_err_status_t) :=
  if ws =? 0 then Some (rdbx, srtp_err_status_bad_param)
  else
    '(v, r) ← bitvector_alloc calloc_ok ws;
    if negb (r =? 0) then
      Some ({| index := index rdbx; rdbx_bitmask := v |}, srtp_err_status_alloc_fail)
    else Some ({| index := srtp_index_init; rdbx_bitmask := v |}, srtp_err_status_ok).

Definition srtp_rdbx_dealloc (rdbx : srtp_rdbx_t) : srtp_rdbx_t * srtp_err_status_t :=
  ({| index := index rdbx; rdbx_bitmask := bitvector_dealloc (rdbx_bitmask rdbx) |},
   srtp_err_status_ok).

(** The mask is cleared before the rollover counter is checked. *)
Definition srtp_rdbx_set_roc (rdbx : srtp_rdbx_t) (roc : Z)
    : option (srtp_rdbx_t * srtp_err_status_t) :=
  m ← bitvector_set_to_zero (rdbx_bitmask rdbx);
  if roc <? (index rdbx >> 16) then
    Some ({| index := index rdbx; rdbx_bitmask := m |}, srtp_err_status_replay_old)
  else
    Some ({| index := (index rdbx & 0xffff) .| u64 (roc << 16); rdbx_bitmask := m |},
          srtp_err_status_ok).

Definition srtp_rdbx_get_packet_index (rdbx : srtp_rdbx_t) : Z := index rdbx.

Definition srtp_rdbx_get_window_size (rdbx : srtp_rdbx_t) : Z :=
  bitvector_get_length (rdbx_bitmask rdbx).

Definition srtp_rdbx_check (rdbx : srtp_rdbx_t) (delta : Z) : option srtp_err_status_t :=
  if 0 <? delta then Some srtp_err_status_ok
  else
    pos ← sint (s32 (u32 (bitvector_get_length (rdbx_bitmask rdbx) - 1)) + delta);
    if pos <? 0 then Some srtp_err_status_replay_old
    else
      b ← bitvector_get_bit (rdbx_bitmask rdbx) pos;
      if b =? 1 then Some srtp_err_status_replay_fail else Some srtp_err_status_ok.

Definition srtp_rdbx_add_index (rdbx : srtp_rdbx_t) (delta : Z)
    : option (srtp_rdbx_t * srtp_err_status_t) :=
  if 0 <? delta then
    let i := srtp_index_advance (index rdbx) delta in
    m ← bitvector_left_shift (rdbx_bitmask rdbx) delta;
    m ← bitvector_set_bit m (u32 (bitvector_get_length m - 1));
    Some ({| index := i; rdbx_bitmask := m |}, srtp_err_status_ok)
  else
    (* length - 1 + delta in unsigned arithmetic *)
    m ← bitvector_set_bit (rdbx_bitmask rdbx)
          (u32 (bitvector_get_length (rdbx_bitmask rdbx) - 1 + delta));
    Some ({| index := index rdbx; rdbx_bitmask := m |}, srtp_err_status_ok).

Definition srtp_rdbx_estimate_index (rdbx : srtp_rdbx_t) (s : Z) : Z * Z :=
  if seq_num_median <? index rdbx then srtp_index_guess (index rdbx) s
  else (s, s - u16 (index rdbx)).

Definition srtp_rdbx_get_roc (rdbx : srtp_rdbx_t) : Z := u32 (index rdbx >> 16).

Definition srtp_rdbx_set_roc_seq (rdbx : srtp_rdbx_t) (roc seq : Z)
    : option (srtp_rdbx_t * srtp_err_status_t) :=
  if roc <? (index rdbx >> 16) then Some (rdbx, srtp_err_status_replay_old)
  else
    m ← bitvector_set_to_zero (rdbx_bitmask rdbx);
    Some ({| index := seq .| u64 (roc << 16); rdbx_bitmask := m |}, srtp_err_status_ok).

(** ** Index arithmetic *)

Lemma pack_index roc seq :
  is_u32 roc -> is_u16 seq -> u64 (roc << 16) .| seq = roc * 2 ^ 16 + seq.
Proof.
  intros Hr Hs. rewrite wrap_id, Z.lor_comm, lor_shiftl_add; [lia|lia|done|].
  rewrite Z.shiftl_mul_pow2 by lia. unfold fits in *. lia.
Qed.

Lemma roc_of_index i : fits 48 i -> u32 (i >> 16) = i / 2 ^ 16.
Proof.
  intros Hi. rewrite Z.shiftr_div_pow2 by lia. apply wrap_id. unfold fits in *. lia.
Qed.

(** Closed form of the guess on 48-bit local indices. *)
Lemma srtp_index_guess_spec local s g d :
  fits 48 local -> is_u16 s -> srtp_index_guess local s = (g, d) ->
  - 2 ^ 15 <= d <= 2 ^ 15 /\ (local + d) mod 2 ^ 16 = s /\ g = (local + d) mod 2 ^ 48.
Proof.
  intros Hl Hs. unfold srtp_index_guess, seq_num_median, seq_num_max.
  rewrite roc_of_index by done. unfold wrap at 1 2 3 4 5 6.
  assert (forall r, is_u32 r -> u64 (r << 16) .| s = r * 2 ^ 16 + s) as Hpack
    by (intros; by apply pack_index).
  unfold fits in *.
  repeat case_if; intros [= <- <-]; rewrite Hpack by (unfold wrap; lia);
    unfold wrap in *; lia.
Qed.

(** ** Invariant and refinement *)

Definition rdbx_ok (rdbx : srtp_rdbx_t) : Prop :=
  bitvector_ok (rdbx_bitmask rdbx) /\ is_u64 (index rdbx).

Definition rdbx_width (rdbx : srtp_rdbx_t) : Z := bv_length (rdbx_bitmask rdbx) - 1.

Definition rdbx_mem (rdbx : srtp_rdbx_t) (j : Z) : Prop :=
  0 <= rdbx_width rdbx + (j - index rdbx) < bv_length (rdbx_bitmask rdbx) /\
  bv_bit (rdbx_bitmask rdbx) (rdbx_width rdbx + (j - index rdbx)) = true.

(** The packet indices that may be presented: 64-bit ones whose difference to
    the local index is what [srtp_rdbx_estimate_index] can return. *)
Definition rdbx_dom (rdbx : srtp_rdbx_t) (i : Z) : Prop :=
  is_u64 i /\ - 2 ^ 16 < i - index rdbx < 2 ^ 16.

(** The operations on absolute indices. *)
Definition rdbx_check_at (rdbx : srtp_rdbx_t) (i : Z) : option srtp_err_status_t :=
  srtp_rdbx_check rdbx (i - index rdbx).

Definition rdbx_add_at (rdbx : srtp_rdbx_t) (i : Z)
    : option (srtp_rdbx_t * srtp_err_status_t) :=
  srtp_rdbx_add_index rdbx (i - index rdbx).

Lemma bitvector_ok_length v : bitvector_ok v -> 32 <= bv_length v < 2 ^ 31.
Proof. intros (n & ws & -> & _ & Hn)%bitvector_ok_inv. simpl. lia. Qed.

Lemma rdbx_check_spec rdbx i :
  rdbx_ok rdbx -> rdbx_dom rdbx i ->
  exists st, rdbx_check_at rdbx i = Some st /\
    (st = srtp_err_status_ok <->
     index rdbx - rdbx_width rdbx <= i /\ ~ rdbx_mem rdbx i).
Proof.
  intros [Hm Hi] [_ Hd]. pose proof (bitvector_ok_length _ Hm) as Hlen.
  unfold rdbx_check_at, srtp_rdbx_check, rdbx_mem, rdbx_width, bitvector_get_length, sint.
  set (len := bv_length (rdbx_bitmask rdbx)) in *.
  case_if; [eexists; split; [done|]; split; [lia|done]|].
  rewrite (wrap_id 32 (len - 1)) by (unfold fits; lia). rewrite swrap_id by lia.
  rewrite decide_True by lia. simpl.
  case_if; [eexists; split; [done|]; split; [done|lia]|].
  rewrite bitvector_get_bit_spec by (done || lia). simpl.
  destruct (bv_bit _ (len - 1 + (i - index rdbx))) eqn:E; simpl;
    eexists; (split; [done|]); split; try done.
  - intros [_ Hn]. destruct Hn. split; [lia|done].
  - intros _. split; [lia|]. by intros [_ ?].
Qed.

Lemma rdbx_add_spec rdbx i :
  rdbx_ok rdbx -> rdbx_dom rdbx i -> index rdbx - rdbx_width rdbx <= i ->
  exists rdbx', rdbx_add_at rdbx i = Some (rdbx', srtp_err_status_ok) /\
    rdbx_ok rdbx' /\ rdbx_width rdbx' = rdbx_width rdbx /\
    index rdbx' - rdbx_width rdbx' =
      Z.max (index rdbx - rdbx_width rdbx) (i - rdbx_width rdbx) /\
    forall j, index rdbx' - rdbx_width rdbx' <= j ->
      (rdbx_mem rdbx' j <-> j = i \/ rdbx_mem rdbx j).
Proof.
  intros [Hm Hi] [Hi64 Hd] Hlow. pose proof (bitvector_ok_length _ Hm) as Hlen.
  unfold rdbx_add_at, srtp_rdbx_add_index, rdbx_mem, rdbx_width, rdbx_ok,
    bitvector_get_length in *.
  set (len := bv_length (rdbx_bitmask rdbx)) in *. case_if.
  - destruct (bitvector_left_shift_spec (rdbx_bitmask rdbx) (i - index rdbx))
      as (m & -> & Hok & Hl & Hb); [done|lia|]. simpl. fold len in Hl, Hb.
    rewrite Hl, (wrap_id 32 (len - 1)) by (unfold fits; lia).
    destruct (bitvector_set_bit_spec m (len - 1)) as (m' & -> & Hok' & Hl' & Hb');
      [done|lia|]. rewrite Hl in Hl', Hb'.
    unfold srtp_index_advance. rewrite (wrap_id 16 (i - index rdbx)) by (unfold fits; lia).
    replace (index rdbx + (i - index rdbx)) with i by lia. rewrite wrap_id by done.
    eexists. split; [done|]. simpl. rewrite Hl'.
    split; [done|]. split; [done|]. split; [lia|]. intros j Hj. split.
    + intros [Hr Hbit]. rewrite Hb' in Hbit by lia. case_decide; [left; lia|right].
      rewrite Hb in Hbit by lia. case_decide; [|done].
      replace (len - 1 + (j - i) + (i - index rdbx)) with (len - 1 + (j - index rdbx)) in * by lia.
      split; [lia|done].
    + intros [->|[Hr Hbit]]; (split; [lia|]); rewrite Hb' by lia; case_decide; try done; try lia.
      rewrite Hb by lia.
      replace (len - 1 + (j - i) + (i - index rdbx)) with (len - 1 + (j - index rdbx)) by lia.
      by rewrite decide_True by lia.
  - rewrite (wrap_id 32 (len - 1 + (i - index rdbx))) by (unfold fits; lia).
    destruct (bitvector_set_bit_spec (rdbx_bitmask rdbx) (len - 1 + (i - index rdbx)))
      as (m & -> & Hok & Hl & Hb); [done|lia|]. simpl. fold len in Hl, Hb.
    eexists. split; [done|]. simpl. rewrite Hl.
    split; [done|]. split; [done|]. split; [lia|]. intros j Hj. split.
    + intros [Hr Hbit]. rewrite Hb in Hbit by lia. case_decide; [left; lia|by right].
    + intros [->|[Hr Hbit]]; (split; [lia|]); rewrite Hb by lia; case_decide; done.
Qed.

(** Without a bound on the index: the database is total on the differences
    that the index estimate can return. *)
Lemma rdbx_check_total rdbx delta :
  rdbx_ok rdbx -> - 2 ^ 16 <= delta < 2 ^ 16 ->
  exists st, srtp_rdbx_check rdbx delta = Some st /\
    (- rdbx_width rdbx <= delta <-> st <> srtp_err_status_replay_old) /\
    (st = srtp_err_status_ok \/ st = srtp_err_status_replay_fail \/ st = srtp_err_status_replay_old).
Proof.
  intros [Hm Hi] Hd. pose proof (bitvector_ok_length _ Hm) as Hlen.
  unfold srtp_rdbx_check, rdbx_width, bitvector_get_length, sint.
  set (len := bv_length (rdbx_bitmask rdbx)) in *.
  case_if; [eexists; split; [done|]; split; [split; [done|lia]|auto]|].
  rewrite (wrap_id 32 (len - 1)) by (unfold fits; lia). rewrite swrap_id by lia.
  rewrite decide_True by lia. simpl. case_if; [eexists; split; [done|]; split; [split; [lia|done]|auto]|].
  rewrite bitvector_get_bit_spec by (done || lia). simpl.
  case_if; eexists; (split; [done|]); (split; [split; [done|lia]|auto]).
Qed.

Lemma rdbx_add_total rdbx delta :
  rdbx_ok rdbx -> - rdbx_width rdbx <= delta < 2 ^ 16 ->
  exists rdbx', srtp_rdbx_add_index rdbx delta = Some (rdbx', srtp_err_status_ok) /\
    rdbx_ok rdbx' /\ rdbx_width rdbx' = rdbx_width rdbx.
Proof.
  intros [Hm Hi] Hd. pose proof (bitvector_ok_length _ Hm) as Hlen.
  unfold srtp_rdbx_add_index, rdbx_width, rdbx_ok, bitvector_get_length in *.
  set (len := bv_length (rdbx_bitmask rdbx)) in *. case_if.
  - destruct (bitvector_left_shift_spec (rdbx_bitmask rdbx) delta)
      as (m & -> & Hok & Hl & _); [done|lia|]. simpl. fold len in Hl.
    rewrite Hl, (wrap_id 32 (len - 1)) by (unfold fits; lia).
    destruct (bitvector_set_bit_spec m (len - 1)) as (m' & -> & Hok' & Hl' & _); [done|lia|].
    eexists. split; [done|]. simpl. rewrite Hl', Hl. split; [|done]. split; [done|]. by apply wrap_fits.
  - rewrite (wrap_id 32 (len - 1 + delta)) by (unfold fits; lia).
    destruct (bitvector_set_bit_spec (rdbx_bitmask rdbx) (len - 1 + delta))
      as (m & -> & Hok & Hl & _); [done|lia|]. eexists. split; [done|]. simpl. by rewrite Hl.
Qed.

Lemma rdbx_set_roc_seq_total rdbx roc seq :
  rdbx_ok rdbx -> is_u32 roc -> is_u16 seq ->
  exists rdbx' st, srtp_rdbx_set_roc_seq rdbx roc seq = Some (rdbx', st) /\
    rdbx_ok rdbx' /\ rdbx_width rdbx' = rdbx_width rdbx.
Proof.
  intros [Hm Hi] Hr Hs. unfold srtp_rdbx_set_roc_seq. case_if; [by eexists _, _|].
  destruct (bitvector_set_to_zero_spec _ Hm) as (m & -> & Hok & Hl & _). simpl.
  eexists _, _. split; [done|]. unfold rdbx_width; simpl. rewrite Hl. split; [|done]. split; [done|].
  cbn [index]. rewrite Z.lor_comm, pack_index by done. unfold fits in *. lia.
Qed.

(** The differences that the estimate can return. *)
Lemma srtp_rdbx_estimate_index_bounds rdbx s :
  is_u16 s -> is_u64 (index rdbx) ->
  exists est delta, srtp_rdbx_estimate_index rdbx s = (est, delta) /\ fits 48 est /\ - 2 ^ 16 < delta < 2 ^ 16.
Proof.
  intros Hs Hi. unfold srtp_rdbx_estimate_index, srtp_index_guess, seq_num_median, seq_num_max.
  assert (is_u16 (u16 (index rdbx))) as Hu by (apply wrap_fits; lia).
  assert (forall r, is_u32 r -> fits 48 (u64 (r << 16) .| s)) as Hp.
  { intros r Hr. rewrite pack_index by done. unfold fits in *. lia. }
  unfold fits in Hs, Hu.
  repeat case_if; eexists _, _; (split; [done|]); (split; [|lia]);
    try (apply Hp; try (apply wrap_fits; lia)). all: unfold fits; lia.
Qed.

#[global] Instance rdbx_ReplayDb : ReplayDb srtp_rdbx_t := {
  rp_ok := rdbx_ok;
  rp_dom := rdbx_dom;
  rp_low rdbx := index rdbx - rdbx_width rdbx;
  rp_width := rdbx_width;
  rp_mem := rdbx_mem;
  rp_check := rdbx_check_at;
  rp_add := rdbx_add_at;
  rp_check_spec := rdbx_check_spec;
  rp_add_spec := rdbx_add_spec
}.

Lemma rdbx_init_spec rdbx0 ws :
  0 < ws <= 2 ^ 31 - 32 ->
  exists rdbx, srtp_rdbx_init true rdbx0 ws = Some (rdbx, srtp_err_status_ok) /\
    rdbx_ok rdbx /\ (forall j, ~ rdbx_mem rdbx j) /\ index rdbx = 0 /\
    srtp_rdbx_get_window_size rdbx = (ws + 31) / 32 * 32.
Proof.
  intros Hws. unfold srtp_rdbx_init. case_if; [lia|].
  destruct (bitvector_alloc_spec ws) as (v & -> & Hok & Hl & Hz); [done|]. simpl.
  eexists. split; [done|]. split_and!; try done.
  intros j [_ Hb]. simpl in Hb. by rewrite Hz in Hb.
Qed.

Lemma rdbx_init_no_memory rdbx0 ws :
  ws <> 0 -> exists rdbx, srtp_rdbx_init false rdbx0 ws = Some (rdbx, srtp_err_status_alloc_fail).
Proof.
  intros Hws. unfold srtp_rdbx_init. rewrite (proj2 (Z.eqb_neq _ _)) by done.
  unfold bitvector_alloc, srtp_crypto_alloc. case_if; by eexists.
Qed.

(** The estimate is the local index plus the difference, modulo the sequence
    numbers. *)
Lemma estimate_index_congruent rdbx s est delta :
  is_u16 s -> srtp_rdbx_estimate_index rdbx s = (est, delta) -> (u16 (index rdbx) + delta) mod 2 ^ 16 = s.
Proof.
  intros Hs. unfold srtp_rdbx_estimate_index, srtp_index_guess, seq_num_median, seq_num_max, fits in *.
  repeat case_if; intros [= <- <-]; unfold wrap in *; lia.
Qed.

Lemma estimate_index_same rdbx s :
  is_u16 s -> u16 (index rdbx) = s -> exists est, srtp_rdbx_estimate_index rdbx s = (est, 0).
Proof.
  intros Hs Hi. unfold srtp_rdbx_estimate_index, srtp_index_guess, seq_num_median, seq_num_max, fits in *.
  rewrite Hi. repeat case_if; try lia; eexists; f_equal; lia.
Qed.

Lemma estimate_index_recovers rdbx i :
  fits 48 (index rdbx) -> fits 48 i -> Z.abs (i - index rdbx) < 2 ^ 15 ->
  srtp_rdbx_estimate_index rdbx (u16 i) = (i, i - index rdbx).
Proof.
  intros Hl Hi Hd. unfold srtp_rdbx_estimate_index, seq_num_median. case_if.
  - destruct (srtp_index_guess (index rdbx) (u16 i)) as [g d] eqn:E.
    apply srtp_index_guess_spec in E as (Hd' & Hs & ->); [|done|apply wrap_fits; lia].
    unfold wrap, fits in *. assert (d = i - index rdbx) as -> by lia.
    f_equal. lia.
  - unfold wrap, fits in *. f_equal; lia.
Qed.

(** The index behind the newest one: found, new, and recorded. *)
Lemma rdbx_next rdbx :
  rdbx_ok rdbx -> fits 48 (index rdbx) -> fits 48 (index rdbx + 1) ->
  srtp_rdbx_estimate_index rdbx (u16 (index rdbx + 1)) = (index rdbx + 1, 1) /\
  srtp_rdbx_check rdbx 1 = Some srtp_err_status_ok /\
  forall rdbx' st, srtp_rdbx_add_index rdbx 1 = Some (rdbx', st) -> index rdbx' = index rdbx + 1.
Proof.
  intros Hok Hi Hi'. split_and!; [rewrite estimate_index_recovers by (done || lia); f_equal; lia|done|].
  intros rdbx' st. unfold srtp_rdbx_add_index. change (0 <? 1) with true. cbv iota. intros E. inv_option. simplify_eq. cbn [index].
  unfold srtp_index_advance. change (u16 1) with 1. unfold wrap, fits in *. lia.
Qed.

(** A recorded sequence number is a replay. *)
Lemma rdbx_added_replays rdbx s est delta rdbx' :
  rdbx_ok rdbx -> is_u16 s -> srtp_rdbx_estimate_index rdbx s = (est, delta) -> - rdbx_width rdbx <= delta < 2 ^ 16 ->
  srtp_rdbx_add_index rdbx delta = Some (rdbx', srtp_err_status_ok) ->
  exists est' delta', srtp_rdbx_estimate_index rdbx' s = (est', delta') /\
    srtp_rdbx_check rdbx' delta' = Some srtp_err_status_replay_fail.
Proof.
  intros [Hm Hi] Hs He Hd Ha. pose proof (bitvector_ok_length _ Hm) as Hlen.
  pose proof (estimate_index_congruent _ _ _ _ Hs He) as Hc.
  unfold srtp_rdbx_add_index, rdbx_width, bitvector_get_length in *. set (len := bv_length (rdbx_bitmask rdbx)) in *.
  assert (forall v d, bitvector_ok v -> bv_length v = len -> d <= 0 -> 0 <= len - 1 + d -> bv_bit v (len - 1 + d) = true ->
    srtp_rdbx_check {| index := index rdbx'; rdbx_bitmask := v |} d = Some srtp_err_status_replay_fail) as Hchk.
  { intros v d Hv Hl Hd0 Hp Hb. unfold srtp_rdbx_check, bitvector_get_length, sint. cbn [rdbx_bitmask]. rewrite Hl.
    rewrite (proj2 (Z.ltb_ge _ _)) by lia. rewrite (wrap_id 32 (len - 1)) by (unfold fits; lia). rewrite swrap_id by lia.
    rewrite decide_True by lia. cbn [mbind option_bind]. rewrite (proj2 (Z.ltb_ge _ _)) by lia.
    rewrite bitvector_get_bit_spec by (done || lia). cbn [mbind option_bind]. by rewrite Hb. }
  destruct (0 <? delta) eqn:E; bool_to_prop.
  - destruct (bitvector_left_shift_spec (rdbx_bitmask rdbx) delta) as (m & Em & Hok & Hl & _); [done|lia|].
    rewrite Em in Ha. cbn [mbind option_bind] in Ha. fold len in Hl. rewrite Hl in Ha.
    rewrite (wrap_id 32 (len - 1)) in Ha by (unfold fits; lia).
    destruct (bitvector_set_bit_spec m (len - 1)) as (m' & Em' & Hok' & Hl' & Hb'); [done|lia|].
    rewrite Em' in Ha. cbn [mbind option_bind] in Ha. injection Ha as <-.
    destruct (estimate_index_same {| index := srtp_index_advance (index rdbx) delta; rdbx_bitmask := m' |} s Hs) as [est' He'].
    { cbn [index]. unfold srtp_index_advance, fits in *. unfold wrap in *. lia. }
    exists est', 0. split; [done|]. apply Hchk; try done; try lia. rewrite Hb' by lia. by rewrite decide_True by lia.
  - rewrite (wrap_id 32 (len - 1 + delta)) in Ha by (unfold fits; lia).
    destruct (bitvector_set_bit_spec (rdbx_bitmask rdbx) (len - 1 + delta)) as (m' & Em' & Hok' & Hl' & Hb'); [done|lia|].
    rewrite Em' in Ha. cbn [mbind option_bind] in Ha. injection Ha as <-.
    exists est, delta. split; [exact He|]. apply Hchk; try done; try lia. rewrite Hb' by lia. by rewrite decide_True by lia.
Qed.

(** ** Properties *)

(** C27: SRTP replay protection.  Initialise a database with any window size an
    [int] can hold, then present packet indices, checking each with
    [srtp_rdbx_check] and adding it with [srtp_rdbx_add_index] when accepted.
    No index is accepted twice, and the next index is accepted exactly when it
    is new and less than the (rounded up) window size below every accepted one. *)
Theorem srtp_rdbx_replay_protection rdbx0 ws rdbx1 rdbx acc :
  0 < ws <= 2 ^ 31 - 32 ->
  srtp_rdbx_init true rdbx0 ws = Some (rdbx1, srtp_err_status_ok) ->
  rp_reach rdbx1 rdbx acc ->
  NoDup acc /\
  forall i, rdbx_dom rdbx i ->
    exists st, srtp_rdbx_check rdbx (i - srtp_rdbx_get_packet_index rdbx) = Some st /\
      (st = srtp_err_status_ok <->
       (i ∉ acc) /\ forall q, q ∈ acc -> q < i + (ws + 31) / 32 * 32).
Proof.
  intros Hws Hinit Hr.
  destruct (rdbx_init_spec rdbx0 ws Hws) as (r1 & E1 & Hok & Hempty & Hidx & Hwin).
  rewrite E1 in Hinit. simplify_eq. split.
  - by apply (rp_reach_NoDup rdbx1 rdbx acc).
  - intros i Hd.
    destruct (rp_reach_decision rdbx1 rdbx acc i) as (st & E & Hst); [done..|].
    exists st. split; [exact E|]. rewrite Hst. simpl.
    unfold srtp_rdbx_get_window_size, bitvector_get_length in Hwin.
    unfold rdbx_width. rewrite Hwin, Hidx. destruct Hd as [[Hi0 _] _].
    split; [intros (H1 & _ & H3)|intros [H1 H3]]; split_and!; try done; try lia;
      intros q Hq; specialize (H3 q Hq); lia.
Qed.

Lemma srtp_rdbx_replay_protection_witness :
  exists rdbx, NoDup [65540; 5] /\
  forall i, rdbx_dom rdbx i ->
    exists st, srtp_rdbx_check rdbx (i - srtp_rdbx_get_packet_index rdbx) = Some st /\
      (st = srtp_err_status_ok <->
       (i ∉ [65540; 5]) /\ forall q, q ∈ [65540; 5] -> q < i + (40 + 31) / 32 * 32).
Proof.
  exists {| index := 65540; rdbx_bitmask := {| bv_length := 64; bv_word := Some [0; 0x80000000] |} |}.
  eapply (srtp_rdbx_replay_protection
    {| index := 0; rdbx_bitmask := {| bv_length := 0; bv_word := None |} |} 40
    {| index := 0; rdbx_bitmask := {| bv_length := 64; bv_word := Some [0; 0] |} |}).
  - lia.
  - vm_compute. reflexivity.
  - eapply (rp_accept _ {| index := 5; rdbx_bitmask :=
        {| bv_length := 64; bv_word := Some [0; 0x80000000] |} |}).
    + eapply rp_accept; [constructor| |vm_compute; reflexivity..].
      unfold rp_dom; simpl. unfold rdbx_dom, fits; simpl. lia.
    + unfold rp_dom; simpl. unfold rdbx_dom, fits; simpl. lia.
    + vm_compute. reflexivity.
    + vm_compute. reflexivity.
Defined.

(** Index recovery.  When the true 48-bit index of a packet differs from
    the receiver's by less than 2^15, [srtp_rdbx_estimate_index] recovers it,
    and the exact difference, from the 16-bit sequence number alone, whatever
    the rollovers in between. *)
Theorem srtp_rdbx_estimate_index_recovers rdbx i :
  fits 48 (index rdbx) -> fits 48 i -> Z.abs (i - index rdbx) < 2 ^ 15 ->
  srtp_rdbx_estimate_index rdbx (u16 i) = (i, i - index rdbx).
Proof. apply estimate_index_recovers. Qed.

Lemma srtp_rdbx_estimate_index_recovers_witness :
  srtp_rdbx_estimate_index
    {| index := 0x1fffe; rdbx_bitmask := {| bv_length := 0; bv_word := None |} |} (u16 0x20003)
  = (0x20003, 0x20003 - 0x1fffe).
Proof.
  apply (srtp_rdbx_estimate_index_recovers
    {| index := 0x1fffe; rdbx_bitmask := {| bv_length := 0; bv_word := None |} |} 0x20003);
    unfold fits; simpl; lia.
Defined.

(** [srtp_index_guess] implements the estimate of RFC 3711: the guess has
    the packet's sequence number, it is [local + difference] (modulo the 48
    bits of an index), and no index with that sequence number is closer to the
    local one. *)
Theorem srtp_index_guess_nearest local s g d :
  fits 48 local -> is_u16 s -> srtp_index_guess local s = (g, d) ->
  g = (local + d) mod 2 ^ 48 /\ g mod 2 ^ 16 = s /\
  forall i, i mod 2 ^ 16 = s -> Z.abs d <= Z.abs (i - local).
Proof.
  intros Hl Hs E. apply srtp_index_guess_spec in E as (Hd & Hm & ->); [|done..].
  split; [done|]. split; [lia|]. intros i Hi. lia.
Qed.

Lemma srtp_index_guess_nearest_witness :
  0x2fff0 = (0x30010 + -0x20) mod 2 ^ 48 /\ 0x2fff0 mod 2 ^ 16 = 0xfff0 /\
  forall i, i mod 2 ^ 16 = 0xfff0 -> Z.abs (-0x20) <= Z.abs (i - 0x30010).
Proof. apply srtp_index_guess_nearest; unfold fits; simpl; try lia. reflexivity. Defined.

(** [srtp_rdbx_set_roc] rejects a rollover counter below the current one,
    but it has already cleared the mask by then: the index is kept and every
    packet index of the window, received or not, is accepted again. *)
Theorem srtp_rdbx_set_roc_rejected_forgets rdbx roc :
  rdbx_ok rdbx -> roc < index rdbx / 2 ^ 16 ->
  exists rdbx', srtp_rdbx_set_roc rdbx roc = Some (rdbx', srtp_err_status_replay_old) /\
    index rdbx' = index rdbx /\
    forall i, rdbx_dom rdbx' i -> index rdbx - rdbx_width rdbx <= i ->
      srtp_rdbx_check rdbx' (i - index rdbx') = Some srtp_err_status_ok.
Proof.
  intros [Hm Hi] Hroc. unfold srtp_rdbx_set_roc.
  destruct (bitvector_set_to_zero_spec _ Hm) as (m & -> & Hok & Hl & Hz). simpl.
  rewrite Z.shiftr_div_pow2 by lia. case_if; [|lia].
  eexists. split; [done|]. split; [done|]. intros i Hd Hlow.
  set (rdbx' := {| index := index rdbx; rdbx_bitmask := m |}) in *.
  destruct (rdbx_check_spec rdbx' i) as (st & E & Hst); [done..|].
  assert (st = srtp_err_status_ok) as ->; [|exact E].
  apply Hst. unfold rdbx_width, rdbx_mem in *; simpl. rewrite Hl. split; [done|].
  intros [_ Hb]. by rewrite Hz in Hb.
Qed.

Lemma srtp_rdbx_set_roc_rejected_forgets_witness :
  let rdbx := {| index := 0x20005; rdbx_bitmask :=
        {| bv_length := 32; bv_word := Some [0x80000000] |} |} in
  srtp_rdbx_check rdbx 0 = Some srtp_err_status_replay_fail /\
  exists rdbx', srtp_rdbx_set_roc rdbx 1 = Some (rdbx', srtp_err_status_replay_old) /\
    index rdbx' = index rdbx /\
    forall i, rdbx_dom rdbx' i -> index rdbx - rdbx_width rdbx <= i ->
      srtp_rdbx_check rdbx' (i - index rdbx') = Some srtp_err_status_ok.
Proof.
  split; [vm_compute; reflexivity|].
  apply (srtp_rdbx_set_roc_rejected_forgets {| index := 0x20005; rdbx_bitmask :=
        {| bv_length := 32; bv_word := Some [0x80000000] |} |} 1).
  - split; [|unfold fits; simpl; lia]. apply (bitvector_ok_intro 1); [|lia].
    split; [done|]. repeat constructor; by unfold fits.
  - simpl. lia.
Defined.
