(* ===== verification/Key.v ===== *)
(** Key usage limits: crypto/kernel/key.c and crypto/include/key.h.  A 64-bit
    countdown and a three-state machine. *)

From S2P Require Import Prelude Err.

Inductive srtp_key_event_t :=
| srtp_key_event_normal
| srtp_key_event_soft_limit
| srtp_key_event_hard_limit.

Inductive srtp_key_state_t :=
| srtp_key_state_normal
| srtp_key_state_past_soft_limit
| srtp_key_state_expired.

#[global] Instance srtp_key_state_eq_dec : EqDecision srtp_key_state_t.
Proof. solve_decision. Defined.

Record srtp_key_limit_ctx_t := { num_left : Z; key_state : srtp_key_state_t }.

#[global] Instance srtp_key_event_eq_dec : EqDecision srtp_key_event_t.
Proof. solve_decision. Defined.

Definition soft_limit : Z := 0x10000.

Definition srtp_key_limit_set (key : srtp_key_limit_ctx_t) (s : Z)
    : srtp_key_limit_ctx_t * srtp_err_status_t :=
  if s <? soft_limit then (key, srtp_err_status_bad_param)
  else ({| num_left := s; key_state := srtp_key_state_normal |}, srtp_err_status_ok).

(** [srtp_key_limit_clone(original, new_key)] copies the pointer, so the two
    names share one countdown; [new_key] is the old target of the copy. *)
Definition srtp_key_limit_clone {ptr : Type} (original : option ptr) (new_key : option ptr)
    : option ptr * srtp_err_status_t :=
  match original with
  | None => (new_key, srtp_err_status_bad_param)
  | Some p => (Some p, srtp_err_status_ok)
  end.

Definition srtp_key_limit_check (key : srtp_key_limit_ctx_t) : srtp_err_status_t :=
  if decide (key_state key = srtp_key_state_expired) then srtp_err_status_key_expired
  else srtp_err_status_ok.

Definition srtp_key_limit_update (key : srtp_key_limit_ctx_t)
    : srtp_key_limit_ctx_t * srtp_key_event_t :=
  let n := u64 (num_left key - 1) in
  if soft_limit <=? n then
    ({| num_left := n; key_state := key_state key |}, srtp_key_event_normal)
  else
    let st := if decide (key_state key = srtp_key_state_normal)
              then srtp_key_state_past_soft_limit else key_state key in
    if n <? 1 then
      ({| num_left := n; key_state := srtp_key_state_expired |}, srtp_key_event_hard_limit)
    else ({| num_left := n; key_state := st |}, srtp_key_event_soft_limit).

(** The context after [n] updates. *)
Definition key_after (key : srtp_key_limit_ctx_t) (n : nat) : srtp_key_limit_ctx_t :=
  Nat.iter n (fun k => fst (srtp_key_limit_update k)) key.

(** The event reported by update number [n], counting from 0. *)
Definition key_event (key : srtp_key_limit_ctx_t) (n : nat) : srtp_key_event_t :=
  snd (srtp_key_limit_update (key_after key n)).

Definition key_state_at (s n : Z) : srtp_key_state_t :=
  if n =? s then srtp_key_state_expired
  else if soft_limit <=? s - n then srtp_key_state_normal
  else srtp_key_state_past_soft_limit.

Lemma key_after_set key s n :
  soft_limit <= s < 2 ^ 64 -> Z.of_nat n <= s ->
  key_after (fst (srtp_key_limit_set key s)) n =
    {| num_left := s - Z.of_nat n; key_state := key_state_at s (Z.of_nat n) |}.
Proof.
  unfold soft_limit. intros Hs Hn. unfold srtp_key_limit_set, soft_limit. case_if; [lia|].
  unfold key_after. induction n as [|n IH].
  - change (Z.of_nat 0) with 0. unfold key_state_at, soft_limit. cbn [Nat.iter nat_rect fst].
    rewrite Z.sub_0_r. repeat case_if; try lia; done.
  - rewrite Nat.iter_succ, IH by lia. unfold srtp_key_limit_update, soft_limit; simpl.
    rewrite wrap_id by (unfold fits; lia). unfold key_state_at, soft_limit.
    replace (s - Z.of_nat n - 1) with (s - Z.of_nat (S n)) by lia.
    repeat (case_if || case_decide); simpl; try lia; try done.
Qed.

(** ** Properties *)

(** Life of a key.  After [srtp_key_limit_set key s], update number [n]
    (of the first [s]) reports [normal] while at least [soft_limit] uses
    remain, then [soft_limit], and [hard_limit] exactly at use [s]; the key
    check passes before that use and fails after it. *)
Theorem srtp_key_limit_lifetime key s n :
  soft_limit <= s < 2 ^ 64 -> Z.of_nat n < s ->
  let key' := fst (srtp_key_limit_set key s) in
  key_event key' n =
    (if soft_limit <=? s - Z.of_nat n - 1 then srtp_key_event_normal
     else if s - Z.of_nat n - 1 =? 0 then srtp_key_event_hard_limit
     else srtp_key_event_soft_limit) /\
  srtp_key_limit_check (key_after key' n) = srtp_err_status_ok /\
  (Z.of_nat n + 1 = s ->
   srtp_key_limit_check (key_after key' (S n)) = srtp_err_status_key_expired).
Proof.
  intros Hs Hn key'. unfold key_event. subst key'.
  split; [|split].
  - rewrite key_after_set by lia. unfold srtp_key_limit_update; simpl.
    rewrite wrap_id by (unfold fits; lia). unfold soft_limit in *.
    repeat case_if; try lia; done.
  - rewrite key_after_set by lia. unfold srtp_key_limit_check, key_state_at; simpl.
    repeat case_if; try lia; try done; case_decide; done.
  - intros Heq. rewrite key_after_set by lia. unfold srtp_key_limit_check, key_state_at; simpl.
    destruct (Z.eqb_spec (Z.of_nat (S n)) s); [done|lia].
Qed.

Lemma srtp_key_limit_lifetime_witness :
  let key' := fst (srtp_key_limit_set {| num_left := 0; key_state := srtp_key_state_expired |}
                     0x10001) in
  key_event key' 1 =
    (if soft_limit <=? 0x10001 - Z.of_nat 1 - 1 then srtp_key_event_normal
     else if 0x10001 - Z.of_nat 1 - 1 =? 0 then srtp_key_event_hard_limit
     else srtp_key_event_soft_limit) /\
  srtp_key_limit_check (key_after key' 1) = srtp_err_status_ok /\
  (Z.of_nat 1 + 1 = 0x10001 ->
   srtp_key_limit_check (key_after key' (S 1)) = srtp_err_status_key_expired).
Proof. apply srtp_key_limit_lifetime; unfold soft_limit; lia. Defined.

(** The countdown is not guarded: the first update after the hard limit
    wraps it to [2^64 - 1] and reports a normal event although the key is
    expired, so a caller that looks only at the event goes on using it. *)
Theorem srtp_key_limit_update_after_expiry key :
  num_left key = 0 -> key_state key = srtp_key_state_expired ->
  snd (srtp_key_limit_update key) = srtp_key_event_normal /\
  num_left (fst (srtp_key_limit_update key)) = 2 ^ 64 - 1 /\
  srtp_key_limit_check (fst (srtp_key_limit_update key)) = srtp_err_status_key_expired.
Proof.
  intros Hn Hs. unfold srtp_key_limit_update. rewrite Hn.
  change (u64 (0 - 1)) with (2 ^ 64 - 1). case_if; [|unfold soft_limit in *; lia].
  split_and!; try done. unfold srtp_key_limit_check; simpl. by rewrite decide_True.
Qed.

Lemma srtp_key_limit_update_after_expiry_witness :
  let key := key_after (fst (srtp_key_limit_set
      {| num_left := 0; key_state := srtp_key_state_normal |} 0x10000)) (Z.to_nat 0x10000) in
  snd (srtp_key_limit_update key) = srtp_key_event_normal /\
  num_left (fst (srtp_key_limit_update key)) = 2 ^ 64 - 1 /\
  srtp_key_limit_check (fst (srtp_key_limit_update key)) = srtp_err_status_key_expired.
Proof.
  intros key. apply srtp_key_limit_update_after_expiry; subst key;
    rewrite key_after_set by (unfold soft_limit; lia); rewrite Z2Nat.id by lia; reflexivity.
Defined.
