(* ===== verification/Util.v ===== *)
(** util.c: hexadecimal and base64 conversions.  [char] is unsigned on the
    target, so a character is an octet.  Output parameters are arrays that the
    functions update; [in] pointers that advance are suffixes of the input. *)

From S2P Require Import Prelude.

Definition MAX_PRINT_STRING_LEN : Z := 1024.

(** ** Hexadecimal *)

(** The value of a hexadecimal digit, -1 for any other character. *)
Definition hex_char_to_nibble (c : Z) : Z :=
  if (48 <=? c) && (c <=? 57) then c - 48
  else if (97 <=? c) && (c <=? 102) then c - 97 + 0xa
  else if (65 <=? c) && (c <=? 70) then c - 65 + 0xa
  else -1.

Definition hex_digits : list Z :=
  [48; 49; 50; 51; 52; 53; 54; 55; 56; 57; 97; 98; 99; 100; 101; 102].

Definition nibble_to_hex_char (nibble : Z) : option Z := aget hex_digits (nibble & 0xF).

(** [hex_string_to_octet_string(raw, hex, len)]: the loop consumes two
    characters a turn, so [len / 2 + 1] turns of fuel are enough.  The result
    is the updated output array and the number of digits read. *)
Fixpoint hex_loop (fuel : nat) (raw : list Z) (k : Z) (hex : list Z) (hex_len len : Z)
    : option (list Z * Z) :=
  match fuel with
  | O => None
  | S fuel' =>
      if hex_len <? len then
        c0 ← aget hex 0;
        let tmp := hex_char_to_nibble c0 in
        if tmp =? -1 then Some (raw, hex_len)
        else
          let x := u8 (tmp << 4) in
          let hex_len := hex_len + 1 in
          c1 ← aget hex 1;
          let tmp := hex_char_to_nibble c1 in
          if tmp =? -1 then Some (raw, hex_len)
          else
            let x := u8 (x .| (tmp & 0xff)) in
            raw ← aset raw k x;
            hex_loop fuel' raw (k + 1) (drop 2 hex) (hex_len + 1) len
      else Some (raw, hex_len)
  end.

Definition hex_string_to_octet_string (raw hex : list Z) (len : Z) : option (list Z * Z) :=
  hex_loop (Z.to_nat (len / 2 + 2)) raw 0 hex 0 len.

(** [octet_string_hex_string(s, length)] into the global [bit_string], which
    here has [MAX_PRINT_STRING_LEN + 1] octets. *)
Definition octet_string_hex_string (bit_string s : list Z) (length : Z) : option (list Z) :=
  length ← sint (length * 2);
  let length := if MAX_PRINT_STRING_LEN <? length then MAX_PRINT_STRING_LEN else length in
  buf ← for_up 0 ((length + 1) / 2)
    (fun k buf =>
       b ← aget s k;
       h ← nibble_to_hex_char (b >> 4);
       buf ← aset buf (2 * k) h;
       l ← nibble_to_hex_char (b & 0xF);
       aset buf (2 * k + 1) l)
    bit_string;
  aset buf (2 * Z.max 0 ((length + 1) / 2)) 0.

(** ** Base64 *)

Definition b64chars : list Z :=
  [ 65; 66; 67; 68; 69; 70; 71; 72; 73; 74; 75; 76; 77; 78; 79; 80; 81; 82; 83; 84; 85; 86;
    87; 88; 89; 90;
    97; 98; 99; 100; 101; 102; 103; 104; 105; 106; 107; 108; 109; 110; 111; 112; 113; 114;
    115; 116; 117; 118; 119; 120; 121; 122;
    48; 49; 50; 51; 52; 53; 54; 55; 56; 57; 43; 47 ].

(** [strchr(s, c)] as an offset, on a string with its terminator: the
    terminator itself is found. *)
Definition strchr (s : list Z) (c : Z) : option nat := fst <$> list_find (eq c) (s ++ [0]).

(** One turn of the loop of [base64_block_to_octet_triple]: the sextet at a
    position, and the number of characters not found so far. *)
Definition sextet_of (c : Z) : option Z :=
  match strchr b64chars c with
  | Some p => Some (u8 (Z.of_nat p))
  | None => None
  end.

Definition base64_block_to_octet_triple (out : list Z) (k : Z) (blk : list Z)
    : option (list Z * Z) :=
  '(sextets, j) ← for_up 0 4
    (fun i '(sextets, j) =>
       c ← aget blk i;
       match sextet_of c with
       | Some v => s' ← aset sextets i v; Some (s', j)
       | None => Some (sextets, j + 1)
       end) (replicate 4 0, 0);
  s0 ← aget sextets 0;
  s1 ← aget sextets 1;
  s2 ← aget sextets 2;
  s3 ← aget sextets 3;
  out ← aset out k (u8 ((s0 << 2) .| (s1 >> 4)));
  out ← (if j <? 2 then aset out (k + 1) (u8 ((s1 << 4) .| (s2 >> 2))) else Some out);
  out ← (if j <? 1 then aset out (k + 2) (u8 ((s2 << 6) .| s3)) else Some out);
  Some (out, j).

(** The loop of [base64_string_to_octet_string]; four characters a turn. *)
Fixpoint base64_loop (fuel : nat) (out : list Z) (inp : list Z) (len k i j : Z)
    : option (list Z * Z * Z) :=
  match fuel with
  | O => None
  | S fuel' =>
      if (i <? len) && (j =? 0) then
        '(out, j) ← base64_block_to_octet_triple out k (drop (Z.to_nat i) inp);
        base64_loop fuel' out inp len (k + 3) (i + 4) j
      else Some (out, i, j)
  end.

(** [base64_string_to_octet_string(out, pad, in, len)]: the output array, the
    new [*pad] (unchanged, hence its old value, when [len] is not a multiple
    of four) and the number of characters consumed. *)
Definition base64_string_to_octet_string (out : list Z) (pad : Z) (inp : list Z) (len : Z)
    : option (list Z * Z * Z) :=
  if negb (Z.rem len 4 =? 0) then Some (out, pad, 0)
  else
    '(out, i, j) ← base64_loop (Z.to_nat (len / 4 + 2)) out inp len 0 0 0;
    Some (out, j, i).

(** ** Hexadecimal lemmas *)

Lemma nibble_to_hex_char_total c : nibble_to_hex_char c = Some (znth hex_digits (c & 0xF)).
Proof.
  unfold nibble_to_hex_char. apply aget_znth. change (zlen hex_digits) with 16.
  change 15 with (Z.ones 4). rewrite Z.land_ones by lia. lia.
Qed.

Lemma octet_nibbles b : is_u8 b -> (b >> 4) & 0xF = b / 16 /\ (b & 0xF) & 0xF = b mod 16.
Proof.
  intros Hb. change 15 with (Z.ones 4). rewrite !Z.land_ones, Z.shiftr_div_pow2 by lia.
  unfold fits in Hb. lia.
Qed.

Lemma hex_char_of_nibble v :
  0 <= v < 16 -> hex_char_to_nibble (znth hex_digits v) = v.
Proof.
  intros Hv.
  assert (forallb (fun v => hex_char_to_nibble (znth hex_digits v) =? v) (seqZ 0 16) = true)
    as Hall by (vm_compute; reflexivity).
  rewrite forallb_forall in Hall. apply Z.eqb_eq, Hall, list_elem_of_In, elem_of_seqZ. lia.
Qed.

(** The characters printed for octet [b]. *)
Definition hex_hi (b : Z) : Z := znth hex_digits (b / 16).
Definition hex_lo (b : Z) : Z := znth hex_digits (b mod 16).

Lemma octet_string_hex_string_spec bit_string s len :
  zlen bit_string = MAX_PRINT_STRING_LEN + 1 -> 0 <= len < 2 ^ 30 -> len <= zlen s ->
  Forall is_u8 s ->
  exists buf, octet_string_hex_string bit_string s len = Some buf /\
    zlen buf = MAX_PRINT_STRING_LEN + 1 /\ znth buf (2 * Z.min len 512) = 0 /\
    forall k, 0 <= k < Z.min len 512 ->
      znth buf (2 * k) = hex_hi (znth s k) /\ znth buf (2 * k + 1) = hex_lo (znth s k).
Proof.
  unfold MAX_PRINT_STRING_LEN. intros Hb Hlen Hs HF.
  unfold octet_string_hex_string, sint, MAX_PRINT_STRING_LEN.
  rewrite decide_True by lia. simpl.
  set (n := ((if 1024 <? len * 2 then 1024 else len * 2) + 1) / 2).
  assert (n = Z.min len 512) as Hn by (unfold n; case_if; lia). clearbody n.
  edestruct (for_up_inv (fun n buf => zlen buf = 1025 /\ forall k, 0 <= k < n ->
    znth buf (2 * k) = hex_hi (znth s k) /\ znth buf (2 * k + 1) = hex_lo (znth s k)) 0 n)
    as (buf & -> & Hl & Hc); [lia|split; [exact Hb|lia]| |].
  - intros i buf Hi [Hl Hc]. rewrite aget_znth by lia. simpl.
    rewrite !nibble_to_hex_char_total. simpl. rewrite aset_Some by lia. simpl.
    rewrite aset_Some by (rewrite zlen_insert; lia). eexists. split; [done|].
    rewrite !zlen_insert. split; [done|]. intros k Hk.
    destruct (octet_nibbles (znth s i)) as [Eh El]; [apply znth_Forall; (done || lia)|].
    rewrite Eh, El, !znth_insert by (rewrite ?zlen_insert; lia).
    repeat case_decide; try lia.
    + assert (k = i) as -> by lia. done.
    + apply Hc. lia.
  - simpl. rewrite Z.max_r, aset_Some by lia. eexists. split; [done|].
    rewrite zlen_insert. split; [lia|]. split.
    + rewrite znth_insert by lia. case_decide; [done|lia].
    + intros k Hk. rewrite !znth_insert by lia. rewrite !decide_False by lia. apply Hc. lia.
Qed.

(** The decoder on two digits. *)
Lemma hex_pair_value b :
  is_u8 b -> u8 (u8 (b / 16 << 4) .| (b mod 16 & 0xff)) = b.
Proof.
  intros Hb. change 0xff with (Z.ones 8). rewrite Z.land_ones by lia.
  rewrite (Z.mod_small (b mod 16)) by lia. pose proof Hb as [H0 H1].
  rewrite (wrap_id 8 (b / 16 << 4)) by (rewrite Z.shiftl_mul_pow2 by lia; unfold fits; lia).
  rewrite Z.lor_comm, lor_shiftl_add by (unfold fits; lia).
  replace (b mod 16 + b / 16 * 2 ^ 4) with b by lia. by apply wrap_id.
Qed.

(** The decoding loop on the digits of [s], from octet [k] on. *)
Lemma hex_loop_digits fuel raw s hex k n :
  Forall is_u8 s -> 0 <= k <= n -> n <= zlen s -> n <= zlen raw -> 2 * n <= zlen hex ->
  (forall i, 0 <= i < n -> znth hex (2 * i) = hex_hi (znth s i) /\
                          znth hex (2 * i + 1) = hex_lo (znth s i)) ->
  (forall i, 0 <= i < k -> znth raw i = znth s i) ->
  (Z.to_nat (n - k) < fuel)%nat ->
  exists raw', hex_loop fuel raw k (drop (Z.to_nat (2 * k)) hex) (2 * k) (2 * n)
      = Some (raw', 2 * n) /\
    zlen raw' = zlen raw /\ forall i, 0 <= i < n -> znth raw' i = znth s i.
Proof.
  intros HF. revert raw k. induction fuel as [|fuel IH]; intros raw k Hk Hs Hr Hh Hd Hdone Hf;
    [lia|]. cbn [hex_loop]. case_if.
  - destruct (Hd k) as [E0 E1]; [lia|].
    assert (forall j, 0 <= j < 2 -> aget (drop (Z.to_nat (2 * k)) hex) j =
      Some (znth hex (2 * k + j))) as Hget.
    { intros j Hj. rewrite aget_drop by lia. apply aget_znth. lia. }
    rewrite (Hget 0), (Hget 1) by lia. rewrite Z.add_0_r, E0, E1. simpl.
    assert (is_u8 (znth s k)) as Hb by (apply znth_Forall; (done || lia)).
    pose proof Hb as [Hb0 Hb1]. unfold hex_hi, hex_lo. rewrite !hex_char_of_nibble by lia.
    case_if; [lia|]. case_if; [lia|]. rewrite hex_pair_value by done.
    rewrite aset_Some by lia. simpl. rewrite drop_drop.
    replace (Z.to_nat (2 * k) + 2)%nat with (Z.to_nat (2 * (k + 1))) by lia.
    replace (2 * k + 1 + 1) with (2 * (k + 1)) by lia.
    destruct (IH (<[Z.to_nat k := znth s k]> raw) (k + 1)) as (raw' & E & Hl & Hc);
      [lia|lia|rewrite zlen_insert; lia|lia|done| |lia|].
    + intros i Hi. rewrite znth_insert by lia. case_decide; [by subst|apply Hdone; lia].
    + exists raw'. rewrite zlen_insert in Hl. done.
  - exists raw. replace k with n in * by lia. done.
Qed.

(** ** Base64 lemmas *)

(** Reference encoder (RFC 4648, no padding): three octets to four characters. *)
Definition b64_char (v : Z) : Z := znth b64chars v.

Definition base64_encode_triple (a b c : Z) : list Z :=
  [ b64_char (a >> 2);
    b64_char ((wrap 2 a << 4) .| (b >> 4));
    b64_char ((wrap 4 b << 2) .| (c >> 6));
    b64_char (wrap 6 c) ].

Fixpoint base64_encode (s : list Z) : list Z :=
  match s with
  | a :: b :: c :: s' => base64_encode_triple a b c ++ base64_encode s'
  | _ => []
  end.

Lemma sextet_of_b64_char v : fits 6 v -> sextet_of (b64_char v) = Some v.
Proof.
  intros Hv.
  assert (forallb (fun v => bool_decide (sextet_of (b64_char v) = Some v)) (seqZ 0 64) = true)
    as Hall by (vm_compute; reflexivity).
  rewrite forallb_forall in Hall. eapply bool_decide_eq_true, Hall.
  apply list_elem_of_In, elem_of_seqZ. unfold fits in Hv. lia.
Qed.

Lemma base64_triple_values a b c :
  is_u8 a -> is_u8 b -> is_u8 c ->
  u8 ((a >> 2 << 2) .| ((wrap 2 a << 4 .| (b >> 4)) >> 4)) = a /\
  u8 (((wrap 2 a << 4 .| (b >> 4)) << 4) .| ((wrap 4 b << 2 .| (c >> 6)) >> 2)) = b /\
  u8 (((wrap 4 b << 2 .| (c >> 6)) << 6) .| wrap 6 c) = c.
Proof.
  intros Ha Hb Hc.
  assert (forall x k, is_u8 x -> 8 <= k -> Z.testbit x k = false) as Hhigh
    by (intros; by eapply (fits_testbit 8)).
  split_and!; bits k Hk; rewrite testbit_wrap by lia.
  all: case_bool_decide as H8; simpl; [|by rewrite Hhigh by (done || lia)].
  all: assert (k = 0 \/ k = 1 \/ k = 2 \/ k = 3 \/ k = 4 \/ k = 5 \/ k = 6 \/ k = 7) as Hcases by lia.
  all: destruct Hcases as [-> | [-> | [-> | [-> | [-> | [-> | [-> | ->]]]]]]]; push_bits.
  all: repeat match goal with
    | |- context [Z.testbit ?x ?n] =>
        first [ rewrite (Z.testbit_neg_r x n) by lia | rewrite (Hhigh x n) by (done || lia)
              | progress push_bits
              | let m := eval vm_compute in n in progress change (Z.testbit x n) with (Z.testbit x m) ]
    end.
  all: repeat case_bool_decide; try lia; cbn [andb].
  all: rewrite ?orb_false_r; done.
Qed.

Lemma base64_block_encode out k a b c rest :
  is_u8 a -> is_u8 b -> is_u8 c -> 0 <= k -> k + 3 <= zlen out ->
  exists out', base64_block_to_octet_triple out k (base64_encode_triple a b c ++ rest)
      = Some (out', 0) /\ zlen out' = zlen out /\
    znth out' k = a /\ znth out' (k + 1) = b /\ znth out' (k + 2) = c /\
    forall i, 0 <= i < k -> znth out' i = znth out i.
Proof.
  intros Ha Hb Hc Hk Hl.
  assert (fits 6 (a >> 2) /\ fits 6 ((wrap 2 a << 4) .| (b >> 4)) /\
          fits 6 ((wrap 4 b << 2) .| (c >> 6)) /\ fits 6 (wrap 6 c)) as (H0 & H1 & H2 & H3).
  { rewrite !Z.shiftr_div_pow2, !Z.shiftl_mul_pow2 by lia. unfold fits, wrap in *.
    assert (forall x y, fits 6 x -> fits 6 y -> fits 6 (x .| y)) as Hlor
      by (intros; apply fits_lor; [lia|done|done]).
    unfold fits in Hlor. split_and!; first [apply Hlor|idtac]; lia. }
  unfold base64_block_to_octet_triple, for_up.
  change (Z.to_nat (4 - 0)) with 4%nat. cbn [for_nat base64_encode_triple app].
  unfold aget at 1. simpl. rewrite sextet_of_b64_char by done. simpl.
  unfold aget at 1. simpl. rewrite sextet_of_b64_char by done. simpl.
  unfold aget at 1. simpl. rewrite sextet_of_b64_char by done. simpl.
  unfold aget at 1. simpl. rewrite sextet_of_b64_char by done. simpl.
  destruct (base64_triple_values a b c) as (-> & -> & ->); [done..|].
  rewrite aset_Some by lia. simpl. rewrite aset_Some by (rewrite zlen_insert; lia). simpl.
  rewrite aset_Some by (rewrite !zlen_insert; lia). simpl.
  eexists. split; [done|]. rewrite !zlen_insert. split; [done|].
  split_and!; [..|intros i Hi]; rewrite !znth_insert by (rewrite ?zlen_insert; lia);
    repeat (case_decide; try lia); done.
Qed.

Lemma length_base64_encode s m :
  List.length s = (3 * m)%nat -> List.length (base64_encode s) = (4 * m)%nat.
Proof.
  revert s. induction m as [|m IH]; intros s Hl.
  - destruct s; [done|simpl in Hl; lia].
  - destruct s as [|a [|b [|c s]]]; simpl in Hl; try lia.
    cbn [base64_encode]. rewrite length_app, IH by lia. simpl. lia.
Qed.

Lemma drop_base64_encode s m :
  drop (4 * m) (base64_encode s) = base64_encode (drop (3 * m) s).
Proof.
  revert s. induction m as [|m IH]; intros s; [done|].
  replace (4 * S m)%nat with (4 + 4 * m)%nat by lia.
  replace (3 * S m)%nat with (3 + 3 * m)%nat by lia.
  destruct s as [|a [|b [|c s]]]; rewrite <- !drop_drop.
  1-3: cbn [base64_encode drop]; rewrite !drop_nil; done.
  cbn [base64_encode]. rewrite drop_app_length'; [|done]. by rewrite IH.
Qed.

Lemma drop_base64_encode_app s m n rest :
  List.length s = (3 * n)%nat -> (m <= n)%nat ->
  drop (4 * m) (base64_encode s ++ rest) = base64_encode (drop (3 * m) s) ++ rest.
Proof.
  intros Hl Hm. rewrite drop_app_le by (rewrite (length_base64_encode s n); lia).
  by rewrite drop_base64_encode.
Qed.

(** The decoding loop on the encoding of [s], from triple [m] on. *)
Lemma base64_loop_encode fuel out s tl m n :
  Forall is_u8 s -> List.length s = (3 * n)%nat -> (m <= n)%nat ->
  3 * Z.of_nat n <= zlen out ->
  (forall i, 0 <= i < 3 * Z.of_nat m -> znth out i = znth s i) ->
  (n - m < fuel)%nat ->
  exists out', base64_loop fuel out (base64_encode s ++ tl) (4 * Z.of_nat n)
      (3 * Z.of_nat m) (4 * Z.of_nat m) 0 = Some (out', 4 * Z.of_nat n, 0) /\
    zlen out' = zlen out /\ forall i, 0 <= i < 3 * Z.of_nat n -> znth out' i = znth s i.
Proof.
  intros HF Hls. revert out m. induction fuel as [|fuel IH]; intros out m Hm Ho Hdone Hf; [lia|].
  cbn [base64_loop]. destruct (decide (m = n)) as [->|Hne].
  - rewrite (proj2 (Z.ltb_ge _ _)) by lia. eauto.
  - rewrite (proj2 (Z.ltb_lt _ _)) by lia. simpl.
    replace (Z.to_nat (4 * Z.of_nat m)) with (4 * m)%nat by lia.
    rewrite (drop_base64_encode_app s m n) by done.
    destruct (drop (3 * m) s) as [|a [|b [|c rest]]] eqn:Ed.
    1-3: apply (f_equal List.length) in Ed; rewrite length_drop in Ed; simpl in Ed; lia.
    cbn [base64_encode]. rewrite <- app_assoc.
    pose proof (Forall_drop _ (3 * m) _ HF) as HF'. rewrite Ed in HF'.
    rewrite !Forall_cons_iff in HF'. destruct HF' as (Ha & Hb & Hc & _).
    destruct (base64_block_encode out (3 * Z.of_nat m) a b c (base64_encode rest ++ tl))
      as (out1 & -> & Hl1 & E0 & E1 & E2 & Hsame); [done..|lia|lia|]. simpl.
    assert (forall j, 0 <= j -> znth s (3 * Z.of_nat m + j) = znth (a :: b :: c :: rest) j)
      as Hnth.
    { intros j Hj. unfold znth. rewrite <- Ed, <- aget_drop by lia. do 3 f_equal. lia. }
    replace (3 * Z.of_nat m + 3) with (3 * Z.of_nat (S m)) by lia.
    replace (4 * Z.of_nat m + 4) with (4 * Z.of_nat (S m)) by lia.
    destruct (IH out1 (S m)) as (out' & E & Hl & Hc'); [lia|lia| |lia|].
    + intros i Hi. destruct (decide (i < 3 * Z.of_nat m)) as [|Hge].
      * rewrite Hsame by lia. apply Hdone. lia.
      * assert (i = 3 * Z.of_nat m + 0 \/ i = 3 * Z.of_nat m + 1 \/ i = 3 * Z.of_nat m + 2)
          as [-> | [-> | ->]] by lia; rewrite Hnth by lia; rewrite ?Z.add_0_r; done.
    + exists out'. split; [done|]. split; [lia|done].
Qed.

Lemma base64_decode_encode out pad s tl n :
  Forall is_u8 s -> List.length s = (3 * n)%nat -> 3 * Z.of_nat n <= zlen out ->
  exists out', base64_string_to_octet_string out pad (base64_encode s ++ tl) (4 * Z.of_nat n)
      = Some (out', 0, 4 * Z.of_nat n) /\
    zlen out' = zlen out /\ take (List.length s) out' = s.
Proof.
  intros HF Hl Ho. unfold base64_string_to_octet_string.
  assert (Z.rem (4 * Z.of_nat n) 4 = 0) as -> by (rewrite Z.mul_comm; apply Z.rem_mul; lia).
  change (negb (0 =? 0)) with false. cbn [negb].
  destruct (base64_loop_encode (Z.to_nat (4 * Z.of_nat n / 4 + 2)) out s tl 0 n)
    as (out' & E & Hlo & Hc); [done|done|lia|lia|lia|lia|].
  change (3 * Z.of_nat 0) with 0 in E. change (4 * Z.of_nat 0) with 0 in E.
  rewrite E. simpl. exists out'. split; [done|]. split; [done|].
  rewrite <- (firstn_all s) at 2.
  replace (List.length s) with (Z.to_nat (zlen s)) by (unfold zlen; lia).
  apply znth_take_ext; unfold zlen in *; try lia. intros i Hi. apply Hc. lia.
Qed.

(** The encoding contains no terminator. *)
Lemma base64_encode_nonzero s : Forall is_u8 s -> Forall (fun c => c <> 0) (base64_encode s).
Proof.
  assert (forall v, fits 6 v -> b64_char v <> 0) as Hc.
  { intros v Hv E. pose proof (sextet_of_b64_char v Hv) as Es. rewrite E in Es.
    vm_compute in Es. injection Es as <-. by destruct Hv. }
  enough (forall n s, (List.length s <= n)%nat -> Forall is_u8 s ->
    Forall (fun c => c <> 0) (base64_encode s)) as Hn by eauto.
  clear s. induction n as [|n IH]; intros s Hl HF; [by destruct s; [|simpl in Hl; lia]|].
  destruct s as [|a [|b [|c s]]]; [done..|]. simpl in Hl.
  rewrite !Forall_cons_iff in HF. destruct HF as (Ha & Hb & Hcc & HF).
  cbn [base64_encode]. rewrite Forall_app. split; [|apply IH; [lia|done]].
  repeat constructor; apply Hc; first [apply fits_lor; [lia|..]|idtac];
    rewrite ?Z.shiftr_div_pow2, ?Z.shiftl_mul_pow2 by lia; unfold fits, wrap in *; lia.
Qed.

(** The decoder does not stop at a terminator: [strchr] finds it. *)
Definition digit (c : Z) : Prop := is_Some (sextet_of c).

Lemma sextet_of_nul : sextet_of 0 = Some 64.
Proof. vm_compute. reflexivity. Qed.

Lemma base64_block_short out k blk : zlen blk < 4 -> base64_block_to_octet_triple out k blk = None.
Proof.
  intros Hl. unfold base64_block_to_octet_triple, for_up. change (Z.to_nat (4 - 0)) with 4%nat.
  destruct blk as [|a [|b [|c [|d blk]]]]; unfold zlen in Hl; simpl in Hl; try lia; cbn [for_nat];
    unfold aget; simpl; repeat (destruct (sextet_of _); simpl); done.
Qed.

Lemma base64_block_digits out k blk out' j :
  Forall digit (take 4 blk) -> base64_block_to_octet_triple out k blk = Some (out', j) -> j = 0.
Proof.
  intros HF E. unfold base64_block_to_octet_triple, for_up in E.
  change (Z.to_nat (4 - 0)) with 4%nat in E.
  destruct (decide (4 <= zlen blk)) as [Hl|Hl].
  2: { pose proof (base64_block_short out k blk ltac:(lia)) as Hn.
       unfold base64_block_to_octet_triple, for_up in Hn. change (Z.to_nat (4 - 0)) with 4%nat in Hn.
       congruence. }
  destruct blk as [|a [|b [|c [|d blk]]]]; unfold zlen in Hl; simpl in Hl; try lia.
  simpl in HF. rewrite !Forall_cons_iff in HF. destruct HF as ([? Ha] & [? Hb] & [? Hc] & [? Hd] & _).
  cbn [for_nat] in E. unfold aget in E. simpl in E.
  rewrite Ha in E. simpl in E. rewrite Hb in E. simpl in E.
  rewrite Hc in E. simpl in E. rewrite Hd in E. simpl in E. by inv_option.
Qed.

(** Digits alone, fewer than asked for, make the decoder read past the block. *)
Lemma base64_loop_short fuel out inp len k i :
  Forall digit inp -> zlen inp < len -> len mod 4 = 0 -> 0 <= i <= zlen inp -> i mod 4 = 0 ->
  base64_loop fuel out inp len k i 0 = None.
Proof.
  intros HF Hl Hm. revert out k i. induction fuel as [|fuel IH]; intros out k i Hi Hi4; [done|].
  cbn [base64_loop]. rewrite (proj2 (Z.ltb_lt _ _)) by lia. change (0 =? 0) with true. cbn [andb].
  destruct (base64_block_to_octet_triple _ _ _) as [[out1 j]|] eqn:E; [|done]. simpl.
  assert (i + 4 <= zlen inp) as Hi'.
  { destruct (decide (i + 4 <= zlen inp)); [done|].
    rewrite base64_block_short in E; [done|]. rewrite zlen_drop; lia. }
  apply base64_block_digits in E as ->; [|by apply Forall_take, Forall_drop].
  apply IH; lia.
Qed.

(** Decoding writes octets. *)
Lemma aset_octets l i v l' : aset l i v = Some l' -> Forall is_u8 l -> is_u8 v -> Forall is_u8 l'.
Proof. unfold aset. case_decide; [|done]. intros [= <-]. by apply Forall_insert. Qed.

Lemma base64_block_octets out k blk out' j :
  base64_block_to_octet_triple out k blk = Some (out', j) -> Forall is_u8 out -> Forall is_u8 out'.
Proof.
  unfold base64_block_to_octet_triple. intros E HF. inv_option. destruct x as [sextets n]. inv_option.
  assert (Forall is_u8 x3) as HF3 by (eapply aset_octets; [done..|by apply wrap_fits]).
  assert (Forall is_u8 x4) as HF4 by (destruct (j <? 2); [eapply aset_octets; [done..|by apply wrap_fits]|by simplify_eq]).
  destruct (j <? 1); [eapply aset_octets; [done..|by apply wrap_fits]|by simplify_eq].
Qed.

Lemma base64_loop_octets fuel out inp len k i j out' i' j' :
  base64_loop fuel out inp len k i j = Some (out', i', j') -> Forall is_u8 out -> Forall is_u8 out'.
Proof.
  revert out k i j. induction fuel as [|fuel IH]; intros out k i j E HF; [done|]. cbn [base64_loop] in E.
  destruct (_ && _); [|by simplify_eq]. inv_option. destruct x as [out1 j1]. eapply IH; [done|]. by eapply base64_block_octets.
Qed.

Lemma base64_octets out pad inp len out' pad' n :
  base64_string_to_octet_string out pad inp len = Some (out', pad', n) -> Forall is_u8 out -> Forall is_u8 out'.
Proof.
  unfold base64_string_to_octet_string. destruct (negb _); [by intros [= <- _ _]|]. intros E HF. inv_option.
  destruct x as [[out1 i1] j1]. simplify_eq. by eapply base64_loop_octets.
Qed.

(** A decoding that reports no padding has consumed the whole input. *)
Lemma base64_loop_nopad fuel out inp len k i out' i' :
  base64_loop fuel out inp len k i 0 = Some (out', i', 0) ->
  0 <= i <= len -> i mod 4 = 0 -> len mod 4 = 0 -> i' = len.
Proof.
  intros E. remember 0 as j eqn:Hj in E at 1. remember 0 as j' eqn:Hj' in E.
  revert out k i j Hj E. induction fuel as [|fuel IH]; intros out k i j Hj E Hi Hm Hl; [done|].
  cbn [base64_loop] in E. destruct (i <? len) eqn:Elt; bool_to_prop.
  - subst j. simpl in E. inv_option. destruct x as [out1 j1].
    destruct (decide (j1 = 0)) as [->|Hj1].
    + eapply IH; [|exact E|..]; lia.
    + destruct fuel as [|fuel]; [done|]. cbn [base64_loop] in *.
      rewrite (proj2 (Z.eqb_neq j1 0)), andb_false_r in * by done. simplify_eq.
  - simpl in E. simplify_eq. lia.
Qed.

(** ** Properties *)

(** Hexadecimal round trip.  Printing up to 512 octets with
    [octet_string_hex_string] and reading the digits back with
    [hex_string_to_octet_string] returns the octets, all digits consumed. *)
Theorem hex_roundtrip bit_string raw s n :
  zlen bit_string = MAX_PRINT_STRING_LEN + 1 -> Forall is_u8 s ->
  0 <= n <= 512 -> n <= zlen s -> n <= zlen raw ->
  exists buf raw', octet_string_hex_string bit_string s n = Some buf /\
    hex_string_to_octet_string raw buf (2 * n) = Some (raw', 2 * n) /\
    take (Z.to_nat n) raw' = take (Z.to_nat n) s.
Proof.
  intros Hb HF Hn Hs Hr.
  destruct (octet_string_hex_string_spec bit_string s n) as (buf & E & Hl & _ & Hd);
    [done|lia|done|done|]. rewrite Z.min_l in Hd by lia.
  destruct (hex_loop_digits (Z.to_nat (2 * n / 2 + 2)) raw s buf 0 n)
    as (raw' & E' & Hl' & Hc); [done|lia|lia|lia|unfold MAX_PRINT_STRING_LEN in *; lia|done|lia|lia|].
  exists buf, raw'. split; [done|]. split; [exact E'|].
  apply znth_take_ext; [lia|lia|done].
Qed.

Lemma hex_roundtrip_witness :
  exists buf raw', octet_string_hex_string (replicate 1025 0) [0xde; 0xad] 2 = Some buf /\
    hex_string_to_octet_string [0; 0; 0] buf (2 * 2) = Some (raw', 2 * 2) /\
    take (Z.to_nat 2) raw' = take (Z.to_nat 2) [0xde; 0xad].
Proof.
  apply hex_roundtrip; try (vm_compute; reflexivity); try (unfold zlen; simpl; lia).
  repeat constructor; by unfold fits.
Defined.

(** [octet_string_hex_string] of util.c never leaves its buffer: whatever
    the length of the input, it writes the digits of at most 512 octets and a
    terminator inside the 1025 octets of [bit_string]. *)
Theorem octet_string_hex_string_in_bounds bit_string s len :
  zlen bit_string = MAX_PRINT_STRING_LEN + 1 -> 0 <= len < 2 ^ 30 -> len <= zlen s ->
  Forall is_u8 s ->
  exists buf, octet_string_hex_string bit_string s len = Some buf /\
    zlen buf = zlen bit_string /\ znth buf (2 * Z.min len 512) = 0 /\
    forall k, 0 <= k < Z.min len 512 ->
      hex_char_to_nibble (znth buf (2 * k)) * 16 +
      hex_char_to_nibble (znth buf (2 * k + 1)) = znth s k.
Proof.
  intros Hb Hlen Hs HF.
  destruct (octet_string_hex_string_spec bit_string s len) as (buf & E & Hl & H0 & Hd); [done..|].
  exists buf. split_and!; [done|congruence|done|]. intros k Hk.
  destruct (Hd k Hk) as [-> ->].
  assert (is_u8 (znth s k)) as [Hu0 Hu1] by (apply znth_Forall; (done || lia)).
  unfold hex_hi, hex_lo. rewrite !hex_char_of_nibble by lia. lia.
Qed.

Lemma octet_string_hex_string_in_bounds_witness :
  exists buf, octet_string_hex_string (replicate 1025 1) (replicate 600 0xa7) 600 = Some buf /\
    zlen buf = zlen (replicate 1025 1) /\ znth buf (2 * Z.min 600 512) = 0 /\
    forall k, 0 <= k < Z.min 600 512 ->
      hex_char_to_nibble (znth buf (2 * k)) * 16 +
      hex_char_to_nibble (znth buf (2 * k + 1)) = znth (replicate 600 0xa7) k.
Proof.
  apply octet_string_hex_string_in_bounds.
  - vm_compute. reflexivity.
  - lia.
  - unfold zlen. rewrite length_replicate. lia.
  - apply Forall_replicate. by unfold fits.
Defined.

(** Base64 round trip.  [base64_string_to_octet_string] applied to the
    RFC 4648 encoding of [3 * n] octets restores them, consumes exactly those
    characters of the input and reports no padding. *)
Theorem base64_roundtrip out pad s tl n :
  Forall is_u8 s -> List.length s = (3 * n)%nat -> 3 * Z.of_nat n <= zlen out ->
  exists out', base64_string_to_octet_string out pad (base64_encode s ++ tl) (4 * Z.of_nat n)
      = Some (out', 0, 4 * Z.of_nat n) /\
    zlen out' = zlen out /\ take (List.length s) out' = s.
Proof. apply base64_decode_encode. Qed.

Lemma base64_roundtrip_witness :
  exists out', base64_string_to_octet_string (replicate 8 0) 7
      (base64_encode [0x4d; 0x61; 0x6e; 0xff; 0; 1] ++ [0]) (4 * Z.of_nat 2)
      = Some (out', 0, 4 * Z.of_nat 2) /\
    zlen out' = zlen (replicate 8 0) /\ take 6 out' = [0x4d; 0x61; 0x6e; 0xff; 0; 1].
Proof.
  apply (base64_roundtrip (replicate 8 0) 7 [0x4d; 0x61; 0x6e; 0xff; 0; 1] [0] 2); try done.
  repeat constructor; by unfold fits.
Defined.
