(* ===== verification/ByteOrder.v ===== *)
(** Byte order on the little-endian target: the swaps behind [ntohs], [htons]
    and [htonl], and 16- and 32-bit fields of a block of octets. *)

From Stdlib Require Import Btauto.
From S2P Require Import Prelude.

Definition bswap16 (v : Z) : Z := (u8 v << 8) .| u8 (v >> 8).

Definition bswap32 (v : Z) : Z :=
  (u8 v << 24) .| (u8 (v >> 8) << 16) .| (u8 (v >> 16) << 8) .| u8 (v >> 24).

(** [ntohs]/[htons] take a [uint16_t]: a wider argument is cut first. *)
Definition ntohs (v : Z) : Z := bswap16 (u16 v).
Definition htons (v : Z) : Z := bswap16 (u16 v).
Definition htonl (v : Z) : Z := bswap32 (u32 v).

Definition get16 (m : list Z) (off : Z) : option Z :=
  b0 ← aget m off; b1 ← aget m (off + 1); Some (b0 .| (b1 << 8)).

Definition put16 (m : list Z) (off v : Z) : option (list Z) :=
  m ← aset m off (u8 v); aset m (off + 1) (u8 (v >> 8)).

Definition get32 (m : list Z) (off : Z) : option Z :=
  lo ← get16 m off; hi ← get16 m (off + 2); Some (lo .| (hi << 16)).

Definition put32 (m : list Z) (off v : Z) : option (list Z) :=
  m ← put16 m off (u16 v); put16 m (off + 2) (u16 (v >> 16)).

(** ** Lemmas *)

(** The big-endian 16-bit field at an offset, as the network reads it. *)
Definition wire16 (m : list Z) (off : Z) : Z := znth m off * 2 ^ 8 + znth m (off + 1).

Lemma bswap16_value v : bswap16 v = (v mod 2 ^ 8) * 2 ^ 8 + (v / 2 ^ 8) mod 2 ^ 8.
Proof.
  unfold bswap16. rewrite Z.lor_comm, lor_shiftl_add by (apply wrap_fits || lia; lia).
  unfold wrap. rewrite Z.shiftr_div_pow2 by lia. lia.
Qed.

Lemma get16_Some m off :
  Forall is_u8 m -> 0 <= off -> off + 1 < zlen m ->
  get16 m off = Some (znth m off + znth m (off + 1) * 2 ^ 8).
Proof.
  intros HF H0 H1. unfold get16. rewrite !aget_znth by lia. simpl.
  by rewrite lor_shiftl_add by (apply znth_Forall || lia; (done || lia)).
Qed.

Lemma put16_Some m off v :
  Forall is_u8 m -> 0 <= off -> off + 1 < zlen m ->
  exists m', put16 m off v = Some m' /\ zlen m' = zlen m /\ Forall is_u8 m' /\
    znth m' off = v mod 2 ^ 8 /\ znth m' (off + 1) = (v / 2 ^ 8) mod 2 ^ 8 /\
    forall j, 0 <= j < zlen m -> j <> off -> j <> off + 1 -> znth m' j = znth m j.
Proof.
  intros HF H0 H1. unfold put16. rewrite aset_Some by lia. simpl.
  rewrite aset_Some by (rewrite zlen_insert; lia). eexists. split; [done|].
  rewrite !zlen_insert. split; [done|]. split.
  { repeat apply Forall_insert; try done; apply wrap_fits; lia. }
  split_and!; [..|intros j Hj Hj1 Hj2];
    rewrite !znth_insert by (rewrite ?zlen_insert; lia); repeat (case_decide; try lia).
  - done.
  - unfold wrap. by rewrite Z.shiftr_div_pow2 by lia.
Qed.

Lemma fits_bswap16 v : is_u16 (bswap16 v).
Proof. rewrite bswap16_value. unfold fits. lia. Qed.

Lemma ntohs_get16 m off :
  Forall is_u8 m -> 0 <= off -> off + 1 < zlen m ->
  exists v, get16 m off = Some v /\ is_u16 v /\ ntohs v = wire16 m off.
Proof.
  intros HF H0 H1. rewrite get16_Some by done. eexists. split; [done|].
  assert (is_u8 (znth m off) /\ is_u8 (znth m (off + 1))) as [Ha Hb]
    by (split; apply znth_Forall; (done || lia)).
  unfold ntohs, wire16. rewrite bswap16_value. unfold wrap, fits in *.
  generalize dependent (znth m off). generalize dependent (znth m (off + 1)).
  intros a Ha b Hb. split; [lia|]. rewrite !(Z.mod_small (b + a * 2 ^ 8) (2 ^ 16)) by lia. lia.
Qed.

Lemma put16_htons m off v :
  Forall is_u8 m -> 0 <= off -> off + 1 < zlen m ->
  exists m', put16 m off (u16 (htons v)) = Some m' /\ zlen m' = zlen m /\ Forall is_u8 m' /\
    wire16 m' off = v mod 2 ^ 16 /\
    forall j, 0 <= j < zlen m -> j <> off -> j <> off + 1 -> znth m' j = znth m j.
Proof.
  intros HF H0 H1.
  destruct (put16_Some m off (u16 (htons v))) as (m' & E & Hl & HF' & A0 & A1 & Aj); [done..|].
  exists m'. split_and!; [done..| |done]. unfold wire16. rewrite A0, A1.
  unfold htons. rewrite (wrap_id 16 (bswap16 _)) by apply fits_bswap16.
  rewrite bswap16_value. unfold wrap. lia.
Qed.

Lemma wire16_same m m' off :
  (forall j, off <= j <= off + 1 -> znth m' j = znth m j) -> wire16 m' off = wire16 m off.
Proof. intros Hs. unfold wire16. by rewrite !Hs by lia. Qed.

(** ** 32-bit words *)

(** The big-endian 32-bit field at an offset. *)
Definition wire32 (m : list Z) (off : Z) : Z := wire16 m off * 2 ^ 16 + wire16 m (off + 2).

Lemma bswap32_value v :
  bswap32 v = (v / 2 ^ 24) mod 2 ^ 8 + ((v / 2 ^ 16) mod 2 ^ 8) * 2 ^ 8
    + ((v / 2 ^ 8) mod 2 ^ 8) * 2 ^ 16 + (v mod 2 ^ 8) * 2 ^ 24.
Proof.
  unfold bswap32. rewrite !(Z.shiftr_div_pow2 v) by lia. unfold wrap.
  assert (forall a b c d : Z, a .| b .| c .| d = d .| c .| b .| a) as ->.
  { intros a b c d. bits k Hk. rewrite !Z.lor_spec. btauto. }
  rewrite (lor_shiftl_add 8), (lor_shiftl_add 16), (lor_shiftl_add 24); unfold fits; lia.
Qed.

(** Base-256 digits of a 32-bit value. *)
Lemma u32_digits v : is_u32 v ->
  exists a b c d, is_u8 a /\ is_u8 b /\ is_u8 c /\ is_u8 d /\
    v = a + b * 2 ^ 8 + c * 2 ^ 16 + d * 2 ^ 24.
Proof.
  intros Hv. exists (v mod 2 ^ 8), ((v / 2 ^ 8) mod 2 ^ 8), ((v / 2 ^ 16) mod 2 ^ 8), (v / 2 ^ 24).
  unfold fits in *. split_and!; lia.
Qed.

Lemma digits_low a b c d : is_u8 a -> is_u8 b -> is_u8 c -> is_u8 d ->
  let v := a + b * 2 ^ 8 + c * 2 ^ 16 + d * 2 ^ 24 in
  v mod 2 ^ 8 = a /\ (v / 2 ^ 8) mod 2 ^ 8 = b /\ (v / 2 ^ 16) mod 2 ^ 8 = c /\
  (v / 2 ^ 24) mod 2 ^ 8 = d.
Proof. unfold fits. intros. split_and!; lia. Qed.

Lemma htonl_octets ssrc : let v := htonl ssrc in
  (((v mod 2 ^ 16) mod 2 ^ 8) * 2 ^ 8 + ((v mod 2 ^ 16) / 2 ^ 8) mod 2 ^ 8) * 2 ^ 16 +
  ((((v / 2 ^ 16) mod 2 ^ 16) mod 2 ^ 8) * 2 ^ 8 + (((v / 2 ^ 16) mod 2 ^ 16) / 2 ^ 8) mod 2 ^ 8)
  = u32 ssrc.
Proof.
  cbv zeta. unfold htonl. destruct (u32_digits (u32 ssrc)) as (a & b & c & d & Ha & Hb & Hc & Hd & ->);
    [apply wrap_fits; lia|].
  rewrite bswap32_value.
  destruct (digits_low a b c d) as (-> & -> & -> & ->); [done..|].
  assert (forall x, (x mod 2 ^ 16) mod 2 ^ 8 = x mod 2 ^ 8) as H1 by (intros; lia).
  assert (forall x, (x mod 2 ^ 16) / 2 ^ 8 mod 2 ^ 8 = (x / 2 ^ 8) mod 2 ^ 8) as H2 by (intros; lia).
  rewrite !H1, !H2, Z.div_div by lia. change (2 ^ 16 * 2 ^ 8) with (2 ^ 24).
  destruct (digits_low d c b a) as (-> & -> & -> & ->); [done..|]. lia.
Qed.

Lemma wire32_same m m' off :
  (forall j, off <= j <= off + 3 -> znth m' j = znth m j) -> wire32 m' off = wire32 m off.
Proof. intros Hs. unfold wire32. by rewrite !(wire16_same m m') by (intros; apply Hs; lia). Qed.

Lemma htonl_get32 m off :
  Forall is_u8 m -> 0 <= off -> off + 3 < zlen m ->
  exists v, get32 m off = Some v /\ htonl v = wire32 m off /\ is_u32 (wire32 m off).
Proof.
  intros HF H0 H1. unfold get32. rewrite !get16_Some by (done || lia). cbn [mbind option_bind].
  assert (is_u8 (znth m off) /\ is_u8 (znth m (off + 1)) /\ is_u8 (znth m (off + 2)) /\ is_u8 (znth m (off + 2 + 1)))
    as (Ha & Hb & Hc & Hd) by (split_and!; apply znth_Forall; (done || lia)).
  rewrite lor_shiftl_add by (unfold fits in *; lia). eexists. split; [done|].
  unfold htonl, wire32, wire16. rewrite bswap32_value.
  replace (znth m off + znth m (off + 1) * 2 ^ 8 + (znth m (off + 2) + znth m (off + 2 + 1) * 2 ^ 8) * 2 ^ 16)
    with (znth m off + znth m (off + 1) * 2 ^ 8 + znth m (off + 2) * 2 ^ 16 + znth m (off + 2 + 1) * 2 ^ 24) by lia.
  rewrite wrap_id by (unfold fits in *; lia).
  destruct (digits_low _ _ _ _ Ha Hb Hc Hd) as (-> & -> & -> & ->). unfold fits in *. split; lia.
Qed.

Lemma put32_htonl m off v :
  Forall is_u8 m -> 0 <= off -> off + 3 < zlen m ->
  exists m', put32 m off (htonl v) = Some m' /\ zlen m' = zlen m /\ Forall is_u8 m' /\
    wire32 m' off = u32 v /\ forall j, 0 <= j < zlen m -> j < off \/ off + 4 <= j -> znth m' j = znth m j.
Proof.
  intros HF H0 H1. unfold put32. rewrite (Z.shiftr_div_pow2 _ 16) by lia.
  destruct (put16_Some m off (u16 (htonl v))) as (m1 & -> & L1 & F1 & A0 & A1 & Aj); [done|lia|lia|]. cbn [mbind option_bind].
  destruct (put16_Some m1 (off + 2) (u16 (htonl v / 2 ^ 16))) as (m2 & -> & L2 & F2 & B0 & B1 & Bj); [done|lia|lia|].
  exists m2. split_and!; [done|lia|done| |].
  - unfold wire32, wire16. rewrite B0, B1, !Bj, A0, A1 by lia. unfold wrap. apply htonl_octets.
  - intros j Hj Hjj. rewrite Bj, Aj by lia. done.
Qed.

(** Setting a high bit that is not set. *)
Lemma htonl_flag v : 0 <= v < 2 ^ 31 -> htonl 0x80000000 .| htonl v = htonl (0x80000000 + v).
Proof.
  intros Hv. change (htonl 0x80000000) with 0x80. unfold htonl. rewrite !wrap_id by (unfold fits; lia). rewrite !bswap32_value.
  destruct (u32_digits v) as (a & b & c & d & Ha & Hb & Hc & Hd & E); [unfold fits; lia|].
  assert (0 <= d < 128) as Hd7 by (unfold fits in *; lia).
  destruct (digits_low a b c d Ha Hb Hc Hd) as (H1 & H2 & H3 & H4). rewrite <- E in H1, H2, H3, H4. rewrite H1, H2, H3, H4.
  destruct (digits_low a b c (d + 128) Ha Hb Hc) as (H5 & H6 & H7 & H8); [unfold fits; lia|].
  replace (a + b * 2 ^ 8 + c * 2 ^ 16 + (d + 128) * 2 ^ 24) with (2147483648 + v) in H5, H6, H7, H8 by lia.
  rewrite H5, H6, H7, H8.
  replace (d + c * 2 ^ 8 + b * 2 ^ 16 + a * 2 ^ 24) with (d + (c + b * 2 ^ 8 + a * 2 ^ 16) * 2 ^ 8) by lia.
  rewrite <- lor_shiftl_add by (unfold fits in *; lia). rewrite Z.lor_assoc.
  replace (128 .| d) with (128 + d).
  - rewrite lor_shiftl_add by (unfold fits in *; lia). lia.
  - rewrite Z.lor_comm. change 128 with (1 << 7). rewrite lor_shiftl_add by (unfold fits; lia). change (1 << 7) with 128. lia.
Qed.
