(* ===== verification/SrtpPolicy.v ===== *)
(** Crypto policies and session policies: include/srtp.h, crypto_types.h and
    the policy setters and profiles of srtp/srtp.c.  The build leaves GCM off,
    so the AEAD profiles take the default branch of the setters. *)

From S2P Require Import Prelude Err.

(** ** Identifiers and key lengths *)

Definition SRTP_NULL_CIPHER : Z := 0.
Definition SRTP_AES_ICM_128 : Z := 1.
Definition SRTP_AES_ICM_192 : Z := 4.
Definition SRTP_AES_ICM_256 : Z := 5.
Definition SRTP_AES_GCM_128 : Z := 6.
Definition SRTP_AES_GCM_256 : Z := 7.
Definition SRTP_NULL_AUTH : Z := 0.
Definition SRTP_HMAC_SHA1 : Z := 3.

Definition SRTP_SALT_LEN : Z := 14.
Definition SRTP_AEAD_SALT_LEN : Z := 12.
Definition SRTP_AES_128_KEY_LEN : Z := 16.
Definition SRTP_AES_192_KEY_LEN : Z := 24.
Definition SRTP_AES_256_KEY_LEN : Z := 32.
Definition SRTP_AES_ICM_128_KEY_LEN_WSALT : Z := SRTP_SALT_LEN + SRTP_AES_128_KEY_LEN.
Definition SRTP_AES_ICM_192_KEY_LEN_WSALT : Z := SRTP_SALT_LEN + SRTP_AES_192_KEY_LEN.
Definition SRTP_AES_ICM_256_KEY_LEN_WSALT : Z := SRTP_SALT_LEN + SRTP_AES_256_KEY_LEN.
Definition SRTP_AES_GCM_128_KEY_LEN_WSALT : Z := SRTP_AEAD_SALT_LEN + SRTP_AES_128_KEY_LEN.
Definition SRTP_AES_GCM_256_KEY_LEN_WSALT : Z := SRTP_AEAD_SALT_LEN + SRTP_AES_256_KEY_LEN.

Inductive srtp_sec_serv_t :=
| sec_serv_none
| sec_serv_conf
| sec_serv_auth
| sec_serv_conf_and_auth.

(** [sec_serv & sec_serv_conf] and [sec_serv & sec_serv_auth]. *)
Definition has_conf (s : srtp_sec_serv_t) : bool :=
  match s with sec_serv_conf | sec_serv_conf_and_auth => true | _ => false end.

Definition has_auth (s : srtp_sec_serv_t) : bool :=
  match s with sec_serv_auth | sec_serv_conf_and_auth => true | _ => false end.

Record srtp_crypto_policy_t := {
  cipher_type : Z;
  cipher_key_len : Z;
  auth_type : Z;
  auth_key_len : Z;
  auth_tag_len : Z;
  sec_serv : srtp_sec_serv_t
}.

Definition with_sec_serv (p : srtp_crypto_policy_t) (s : srtp_sec_serv_t) :=
  {| cipher_type := cipher_type p; cipher_key_len := cipher_key_len p;
     auth_type := auth_type p; auth_key_len := auth_key_len p;
     auth_tag_len := auth_tag_len p; sec_serv := s |}.

(** A policy filled with zeros by [memset]. *)
Definition zero_crypto_policy : srtp_crypto_policy_t :=
  {| cipher_type := 0; cipher_key_len := 0; auth_type := 0; auth_key_len := 0;
     auth_tag_len := 0; sec_serv := sec_serv_none |}.

Inductive srtp_ssrc_type_t :=
| ssrc_undefined
| ssrc_specific
| ssrc_any_inbound
| ssrc_any_outbound.

Record srtp_ssrc_t := { ssrc_type : srtp_ssrc_type_t; ssrc_value : Z }.

(** [srtp_master_key_t]: a key with the identifier that packets carry. *)
Record srtp_master_key_t := { mk_key : option (list Z); mk_mki_id : list Z; mk_mki_size : Z }.

(** [srtp_policy_t].  [pol_keys] is the array [keys] of [num_master_keys]
    entries and [pol_enc_xtn_hdr] the array [enc_xtn_hdr] of
    [enc_xtn_hdr_count] extension ids; NULL pointers are [None] or empty.  A
    list of policies linked by [next] is a list; EKT is not used. *)
Record srtp_policy_t := {
  pol_ssrc : srtp_ssrc_t;
  pol_rtp : srtp_crypto_policy_t;
  pol_rtcp : srtp_crypto_policy_t;
  pol_key : option (list Z);
  pol_keys : list srtp_master_key_t;
  pol_window_size : Z;
  pol_allow_repeat_tx : Z;
  pol_enc_xtn_hdr : list Z
}.

(** ** The policy setters *)

Definition srtp_crypto_policy_set_rtp_default : srtp_crypto_policy_t :=
  {| cipher_type := SRTP_AES_ICM_128; cipher_key_len := SRTP_AES_ICM_128_KEY_LEN_WSALT;
     auth_type := SRTP_HMAC_SHA1; auth_key_len := 20; auth_tag_len := 10;
     sec_serv := sec_serv_conf_and_auth |}.

Definition srtp_crypto_policy_set_rtcp_default : srtp_crypto_policy_t :=
  {| cipher_type := SRTP_AES_ICM_128; cipher_key_len := SRTP_AES_ICM_128_KEY_LEN_WSALT;
     auth_type := SRTP_HMAC_SHA1; auth_key_len := 20; auth_tag_len := 10;
     sec_serv := sec_serv_conf_and_auth |}.

(** A macro of srtp.h for the RTP default. *)
Definition srtp_crypto_policy_set_aes_cm_128_hmac_sha1_80 : srtp_crypto_policy_t :=
  srtp_crypto_policy_set_rtp_default.

Definition srtp_crypto_policy_set_aes_cm_128_hmac_sha1_32 : srtp_crypto_policy_t :=
  {| cipher_type := SRTP_AES_ICM_128; cipher_key_len := SRTP_AES_ICM_128_KEY_LEN_WSALT;
     auth_type := SRTP_HMAC_SHA1; auth_key_len := 20; auth_tag_len := 4;
     sec_serv := sec_serv_conf_and_auth |}.

Definition srtp_crypto_policy_set_aes_cm_128_null_auth : srtp_crypto_policy_t :=
  {| cipher_type := SRTP_AES_ICM_128; cipher_key_len := SRTP_AES_ICM_128_KEY_LEN_WSALT;
     auth_type := SRTP_NULL_AUTH; auth_key_len := 0; auth_tag_len := 0;
     sec_serv := sec_serv_conf |}.

Definition srtp_crypto_policy_set_null_cipher_hmac_sha1_80 : srtp_crypto_policy_t :=
  {| cipher_type := SRTP_NULL_CIPHER; cipher_key_len := 0;
     auth_type := SRTP_HMAC_SHA1; auth_key_len := 20; auth_tag_len := 10;
     sec_serv := sec_serv_auth |}.

Definition srtp_crypto_policy_set_null_cipher_hmac_null : srtp_crypto_policy_t :=
  {| cipher_type := SRTP_NULL_CIPHER; cipher_key_len := 0;
     auth_type := SRTP_NULL_AUTH; auth_key_len := 0; auth_tag_len := 0;
     sec_serv := sec_serv_none |}.

Definition srtp_crypto_policy_set_aes_cm_256_hmac_sha1_80 : srtp_crypto_policy_t :=
  {| cipher_type := SRTP_AES_ICM_256; cipher_key_len := SRTP_AES_ICM_256_KEY_LEN_WSALT;
     auth_type := SRTP_HMAC_SHA1; auth_key_len := 20; auth_tag_len := 10;
     sec_serv := sec_serv_conf_and_auth |}.

Definition srtp_crypto_policy_set_aes_cm_256_hmac_sha1_32 : srtp_crypto_policy_t :=
  {| cipher_type := SRTP_AES_ICM_256; cipher_key_len := SRTP_AES_ICM_256_KEY_LEN_WSALT;
     auth_type := SRTP_HMAC_SHA1; auth_key_len := 20; auth_tag_len := 4;
     sec_serv := sec_serv_conf_and_auth |}.

Definition srtp_crypto_policy_set_aes_cm_256_null_auth : srtp_crypto_policy_t :=
  {| cipher_type := SRTP_AES_ICM_256; cipher_key_len := SRTP_AES_ICM_256_KEY_LEN_WSALT;
     auth_type := SRTP_NULL_AUTH; auth_key_len := 0; auth_tag_len := 0;
     sec_serv := sec_serv_conf |}.

Definition srtp_crypto_policy_set_aes_cm_192_hmac_sha1_80 : srtp_crypto_policy_t :=
  {| cipher_type := SRTP_AES_ICM_192; cipher_key_len := SRTP_AES_ICM_192_KEY_LEN_WSALT;
     auth_type := SRTP_HMAC_SHA1; auth_key_len := 20; auth_tag_len := 10;
     sec_serv := sec_serv_conf_and_auth |}.

Definition srtp_crypto_policy_set_aes_cm_192_hmac_sha1_32 : srtp_crypto_policy_t :=
  {| cipher_type := SRTP_AES_ICM_192; cipher_key_len := SRTP_AES_ICM_192_KEY_LEN_WSALT;
     auth_type := SRTP_HMAC_SHA1; auth_key_len := 20; auth_tag_len := 4;
     sec_serv := sec_serv_conf_and_auth |}.

Definition srtp_crypto_policy_set_aes_cm_192_null_auth : srtp_crypto_policy_t :=
  {| cipher_type := SRTP_AES_ICM_192; cipher_key_len := SRTP_AES_ICM_192_KEY_LEN_WSALT;
     auth_type := SRTP_NULL_AUTH; auth_key_len := 0; auth_tag_len := 0;
     sec_serv := sec_serv_conf |}.

Definition srtp_crypto_policy_set_aes_gcm_128_8_auth : srtp_crypto_policy_t :=
  {| cipher_type := SRTP_AES_GCM_128; cipher_key_len := SRTP_AES_GCM_128_KEY_LEN_WSALT;
     auth_type := SRTP_NULL_AUTH; auth_key_len := 0; auth_tag_len := 8;
     sec_serv := sec_serv_conf_and_auth |}.

Definition srtp_crypto_policy_set_aes_gcm_256_8_auth : srtp_crypto_policy_t :=
  {| cipher_type := SRTP_AES_GCM_256; cipher_key_len := SRTP_AES_GCM_256_KEY_LEN_WSALT;
     auth_type := SRTP_NULL_AUTH; auth_key_len := 0; auth_tag_len := 8;
     sec_serv := sec_serv_conf_and_auth |}.

Definition srtp_crypto_policy_set_aes_gcm_128_8_only_auth : srtp_crypto_policy_t :=
  {| cipher_type := SRTP_AES_GCM_128; cipher_key_len := SRTP_AES_GCM_128_KEY_LEN_WSALT;
     auth_type := SRTP_NULL_AUTH; auth_key_len := 0; auth_tag_len := 8;
     sec_serv := sec_serv_auth |}.

Definition srtp_crypto_policy_set_aes_gcm_256_8_only_auth : srtp_crypto_policy_t :=
  {| cipher_type := SRTP_AES_GCM_256; cipher_key_len := SRTP_AES_GCM_256_KEY_LEN_WSALT;
     auth_type := SRTP_NULL_AUTH; auth_key_len := 0; auth_tag_len := 8;
     sec_serv := sec_serv_auth |}.

Definition srtp_crypto_policy_set_aes_gcm_128_16_auth : srtp_crypto_policy_t :=
  {| cipher_type := SRTP_AES_GCM_128; cipher_key_len := SRTP_AES_GCM_128_KEY_LEN_WSALT;
     auth_type := SRTP_NULL_AUTH; auth_key_len := 0; auth_tag_len := 16;
     sec_serv := sec_serv_conf_and_auth |}.

Definition srtp_crypto_policy_set_aes_gcm_256_16_auth : srtp_crypto_policy_t :=
  {| cipher_type := SRTP_AES_GCM_256; cipher_key_len := SRTP_AES_GCM_256_KEY_LEN_WSALT;
     auth_type := SRTP_NULL_AUTH; auth_key_len := 0; auth_tag_len := 16;
     sec_serv := sec_serv_conf_and_auth |}.

(** ** DTLS-SRTP profiles *)

Inductive srtp_profile_t :=
| srtp_profile_reserved
| srtp_profile_aes128_cm_sha1_80
| srtp_profile_aes128_cm_sha1_32
| srtp_profile_null_sha1_80
| srtp_profile_null_sha1_32
| srtp_profile_aead_aes_128_gcm
| srtp_profile_aead_aes_256_gcm.

(** The policy argument is returned unchanged with an error. *)
Definition srtp_crypto_policy_set_from_profile_for_rtp
    (policy : srtp_crypto_policy_t) (profile : srtp_profile_t)
    : srtp_crypto_policy_t * srtp_err_status_t :=
  match profile with
  | srtp_profile_aes128_cm_sha1_80 =>
      (srtp_crypto_policy_set_aes_cm_128_hmac_sha1_80, srtp_err_status_ok)
  | srtp_profile_aes128_cm_sha1_32 =>
      (srtp_crypto_policy_set_aes_cm_128_hmac_sha1_32, srtp_err_status_ok)
  | srtp_profile_null_sha1_80 =>
      (srtp_crypto_policy_set_null_cipher_hmac_sha1_80, srtp_err_status_ok)
  | _ => (policy, srtp_err_status_bad_param)
  end.

Definition srtp_crypto_policy_set_from_profile_for_rtcp
    (policy : srtp_crypto_policy_t) (profile : srtp_profile_t)
    : srtp_crypto_policy_t * srtp_err_status_t :=
  match profile with
  | srtp_profile_aes128_cm_sha1_80 =>
      (srtp_crypto_policy_set_aes_cm_128_hmac_sha1_80, srtp_err_status_ok)
  | srtp_profile_aes128_cm_sha1_32 =>
      (srtp_crypto_policy_set_aes_cm_128_hmac_sha1_80, srtp_err_status_ok)
  | srtp_profile_null_sha1_80 =>
      (srtp_crypto_policy_set_null_cipher_hmac_sha1_80, srtp_err_status_ok)
  | _ => (policy, srtp_err_status_bad_param)
  end.

Definition srtp_profile_get_master_key_length (profile : srtp_profile_t) : Z :=
  match profile with
  | srtp_profile_aes128_cm_sha1_80 | srtp_profile_aes128_cm_sha1_32
  | srtp_profile_null_sha1_80 | srtp_profile_aead_aes_128_gcm => SRTP_AES_128_KEY_LEN
  | srtp_profile_aead_aes_256_gcm => SRTP_AES_256_KEY_LEN
  | _ => 0
  end.

Definition srtp_profile_get_master_salt_length (profile : srtp_profile_t) : Z :=
  match profile with
  | srtp_profile_aes128_cm_sha1_80 | srtp_profile_aes128_cm_sha1_32
  | srtp_profile_null_sha1_80 => SRTP_SALT_LEN
  | srtp_profile_aead_aes_128_gcm | srtp_profile_aead_aes_256_gcm => SRTP_AEAD_SALT_LEN
  | _ => 0
  end.

(** [srtp_append_salt_to_key(key, bytes_in_key, salt, bytes_in_salt)]. *)
Definition srtp_append_salt_to_key (key : list Z) (bytes_in_key : Z) (salt : list Z)
    (bytes_in_salt : Z) : option (list Z) :=
  for_up 0 bytes_in_salt
    (fun i key => v ← aget salt i; aset key (bytes_in_key + i) v) key.

(** ** Properties *)

(** The policies a profile gives agree: the key material the profile asks for
    is what the cipher consumes, unless the cipher is null; services match the
    algorithms; and SRTCP never gets a truncated 32-bit tag. *)
Definition crypto_policy_consistent (p : srtp_crypto_policy_t) : bool :=
  Bool.eqb (has_conf (sec_serv p)) (negb (cipher_type p =? SRTP_NULL_CIPHER)) &&
  Bool.eqb (has_auth (sec_serv p)) (negb (auth_type p =? SRTP_NULL_AUTH)) &&
  (auth_tag_len p <=? auth_key_len p) &&
  Bool.eqb (cipher_key_len p =? 0) (cipher_type p =? SRTP_NULL_CIPHER).

(** For every profile the two setters accept the same profiles, the policies
    they install are consistent, the profile's master key and salt are as long
    as the cipher's key with salt (when the cipher is not null), and the SRTCP
    policy always has the 80-bit tag. *)
Theorem srtp_profile_policies_consistent profile p q rtp rtcp st st' :
  srtp_crypto_policy_set_from_profile_for_rtp p profile = (rtp, st) ->
  srtp_crypto_policy_set_from_profile_for_rtcp q profile = (rtcp, st') ->
  st = st' /\
  (st = srtp_err_status_ok ->
   crypto_policy_consistent rtp = true /\ crypto_policy_consistent rtcp = true /\
   auth_tag_len rtcp = 10 /\ cipher_type rtp = cipher_type rtcp /\
   (cipher_type rtp <> SRTP_NULL_CIPHER ->
    srtp_profile_get_master_key_length profile +
    srtp_profile_get_master_salt_length profile = cipher_key_len rtp)) /\
  (st <> srtp_err_status_ok -> rtp = p /\ rtcp = q).
Proof.
  destruct profile; intros [= <- <-] [= <- <-];
    (split; [reflexivity|]); (split; [|done]); intros H; try done.
Qed.

Lemma srtp_profile_policies_consistent_witness :
  srtp_err_status_ok = srtp_err_status_ok /\
  (srtp_err_status_ok = srtp_err_status_ok ->
   crypto_policy_consistent srtp_crypto_policy_set_aes_cm_128_hmac_sha1_32 = true /\
   crypto_policy_consistent srtp_crypto_policy_set_aes_cm_128_hmac_sha1_80 = true /\
   auth_tag_len srtp_crypto_policy_set_aes_cm_128_hmac_sha1_80 = 10 /\
   cipher_type srtp_crypto_policy_set_aes_cm_128_hmac_sha1_32 =
     cipher_type srtp_crypto_policy_set_aes_cm_128_hmac_sha1_80 /\
   (cipher_type srtp_crypto_policy_set_aes_cm_128_hmac_sha1_32 <> SRTP_NULL_CIPHER ->
    srtp_profile_get_master_key_length srtp_profile_aes128_cm_sha1_32 +
    srtp_profile_get_master_salt_length srtp_profile_aes128_cm_sha1_32 =
      cipher_key_len srtp_crypto_policy_set_aes_cm_128_hmac_sha1_32)) /\
  (srtp_err_status_ok <> srtp_err_status_ok ->
   srtp_crypto_policy_set_aes_cm_128_hmac_sha1_32 = zero_crypto_policy /\
   srtp_crypto_policy_set_aes_cm_128_hmac_sha1_80 = zero_crypto_policy).
Proof.
  apply (srtp_profile_policies_consistent srtp_profile_aes128_cm_sha1_32
    zero_crypto_policy zero_crypto_policy); reflexivity.
Defined.
