(* ===== verification/RtpWorker.v ===== *)
(** The RTP sender: rtpworker.c and rtpworker.h.

    The message is the 1378 octets of [struct rtp_msg_t] in memory, because
    [srtp_protect] works on it in place; the header fields are read and written
    at their offsets, little-endian.  The SRTP library is used through the
    interface [SrtpLib]; sockets and address parsing are parameters. *)

From S2P Require Import Prelude CString Err SrtpTypes SrtpPolicy Util ByteOrder.

Definition RTP_PKT_SIZE : Z := 1378.
Definition RTP_HEADER_LEN : Z := 12.
Definition RTP_PKT_BODY_SIZE : Z := RTP_PKT_SIZE - RTP_HEADER_LEN.
Definition MAX_KEY_LEN : Z := 96.

(** ** Fields *)

(** [struct srtp_hdr_t]: the bit-fields of the first two octets, then [seq],
    [ts] and [ssrc] at offsets 2, 4 and 8. *)
Definition OFF_SEQ : Z := 2.
Definition OFF_TS : Z := 4.
Definition OFF_SSRC : Z := 8.

Definition hdr_octet0 (version p x cc : Z) : Z :=
  wrap 4 cc .| (wrap 1 x << 4) .| (wrap 1 p << 5) .| (wrap 2 version << 6).

Definition hdr_octet1 (m pt : Z) : Z := wrap 7 pt .| (wrap 1 m << 7).

(** The policy [prepare_srtp_sender] builds. *)
Definition sender_policy (ssrc : Z) (key : list Z) : srtp_policy_t :=
  {| pol_ssrc := {| ssrc_type := ssrc_specific; ssrc_value := u32 ssrc |};
     pol_rtp := with_sec_serv srtp_crypto_policy_set_aes_cm_128_hmac_sha1_80 sec_serv_conf;
     pol_rtcp := with_sec_serv srtp_crypto_policy_set_aes_cm_128_hmac_sha1_80 sec_serv_conf;
     pol_key := Some key; pol_keys := []; pol_window_size := 0; pol_allow_repeat_tx := 0;
     pol_enc_xtn_hdr := [] |}.

(** ** The SRTP library as the sender uses it *)

(** [srtp_create policy] returns the status and the session; [srtp_protect ctx
    pkt len] works in place on the octets at [pkt], of which [len] are the
    packet, and returns the new session, the octets, the new length and the
    status.  What the sender relies on, of the sessions that it creates:
    [srtp_protect] stays inside the octets it is given and leaves the fixed RTP
    header alone. *)
Class SrtpLib := {
  srtp_ctx : Type;
  srtp_ready : srtp_ctx -> Prop;
  srtp_create : srtp_policy_t -> option (srtp_err_status_t * option srtp_ctx);
  srtp_protect : srtp_ctx -> list Z -> Z ->
    option (srtp_ctx * list Z * Z * srtp_err_status_t);
  srtp_create_ok ssrc key :
    zlen key = MAX_KEY_LEN -> Forall is_u8 key ->
    exists st s, srtp_create (sender_policy ssrc key) = Some (st, s) /\
      (st = srtp_err_status_ok -> exists ctx, s = Some ctx /\ srtp_ready ctx);
  srtp_protect_ok ctx pkt len :
    srtp_ready ctx -> zlen pkt = RTP_PKT_SIZE -> Forall is_u8 pkt ->
    RTP_HEADER_LEN <= len <= RTP_PKT_SIZE ->
    exists ctx' pkt' len' st, srtp_protect ctx pkt len = Some (ctx', pkt', len', st) /\
      srtp_ready ctx' /\ zlen pkt' = zlen pkt /\ Forall is_u8 pkt' /\ 0 <= len' <= RTP_PKT_SIZE /\
      forall i, 0 <= i < RTP_HEADER_LEN -> znth pkt' i = znth pkt i
}.

(** Calls to the outside, in order. *)
Inductive rtp_event :=
| EvProtect (plain : list Z)
| EvSendto (sock : Z) (packet : list Z).

Section Sender.
Context `{SrtpLib}.

(** [struct srtp_sender_context]; [srtp_ctx_p] is NULL until a session is
    created. *)
Record srtp_sender_context := {
  message : list Z;
  srtp_ctx_p : option srtp_ctx;
  sock : Z;
  raddr_addr : Z;
  raddr_port : Z
}.

Definition with_message (c : srtp_sender_context) (m : list Z) : srtp_sender_context :=
  {| message := m; srtp_ctx_p := srtp_ctx_p c; sock := sock c;
     raddr_addr := raddr_addr c; raddr_port := raddr_port c |}.

Definition with_session (c : srtp_sender_context) (s : option srtp_ctx) : srtp_sender_context :=
  {| message := message c; srtp_ctx_p := s; sock := sock c;
     raddr_addr := raddr_addr c; raddr_port := raddr_port c |}.

(** A zeroed context, as [calloc] in [srtp_backend_init] returns it. *)
Definition zeroed_sender : srtp_sender_context :=
  {| message := replicate (Z.to_nat RTP_PKT_SIZE) 0; srtp_ctx_p := None; sock := 0;
     raddr_addr := 0; raddr_port := 0 |}.

(** The header update of one packet:
    [hdr->seq = ntohs(hdr->seq) + 1; hdr->seq = htons(hdr->seq)] and the same,
    with the 16-bit functions, on the 32-bit [ts]. *)
Definition update_header (m : list Z) : option (list Z) :=
  seq ← get16 m OFF_SEQ;
  let seq := u16 (ntohs seq + 1) in
  m ← put16 m OFF_SEQ (u16 (htons seq));
  ts ← get32 m OFF_TS;
  let ts := u32 (ntohs ts + 1) in
  put32 m OFF_TS (u32 (htons ts)).

(** One turn of the loop of [srtp_sender_callback], [offset] and [body_len]
    already computed. *)
Definition send_segment (c : srtp_sender_context) (data : list Z) (offset body_len : Z)
    : option (srtp_sender_context * list rtp_event) :=
  let pkt_len := body_len + RTP_HEADER_LEN in
  src ← slice data offset body_len;
  m ← blit (message c) RTP_HEADER_LEN src;
  m ← update_header m;
  plain ← slice m 0 pkt_len;
  s ← srtp_ctx_p c;
  '(s', m', pkt_len', _) ← srtp_protect s m pkt_len;
  pkt ← slice m' 0 pkt_len';
  Some (with_session (with_message c m') (Some s'),
        [EvProtect plain; EvSendto (sock c) pkt]).

(** [srtp_sender_callback(data, length)].  [data] is the memory block at the
    pointer, [length] the argument.  [offset] is an [int] compared with a
    [size_t] after conversion to unsigned; it is advanced before the copy.
    Every turn consumes at least one octet, so [length + 1] turns of fuel are
    enough. *)
Fixpoint sender_loop (fuel : nat) (c : srtp_sender_context) (data : list Z)
    (length offset : Z) : option (srtp_sender_context * list rtp_event) :=
  match fuel with
  | O => None
  | S fuel' =>
      if u32 offset <? length then
        next ← sint (offset + RTP_PKT_BODY_SIZE);
        let '(body_len, offset') :=
          if u32 next <? length then (RTP_PKT_BODY_SIZE, next)
          else (s32 (length - u32 offset), s32 length) in
        '(c, ev) ← send_segment c data offset' body_len;
        '(c, evs) ← sender_loop fuel' c data length offset';
        Some (c, ev ++ evs)
      else Some (c, [])
  end.

Definition srtp_sender_callback (c : srtp_sender_context) (data : list Z) (length : Z)
    : option (srtp_sender_context * list rtp_event) :=
  sender_loop (S (Z.to_nat length)) c data length 0.

(** ** Preparing a session *)

(** The header fields set for a new stream. *)
Definition init_header (m : list Z) (ssrc : Z) : option (list Z) :=
  m ← put32 m OFF_SSRC (htonl ssrc);
  m ← put32 m OFF_TS 0;
  m ← put16 m OFF_SEQ 0;
  m ← aset m 1 (hdr_octet1 0 99);
  aset m 0 (hdr_octet0 2 0 0 0).

(** [prepare_srtp_sender(receiver_ip, receiver_port, ssrc, input_key)].
    [key0] and [pad0] are the uninitialised automatic variables, [rcvr_addr]
    the result of [inet_aton], [new_sock] of [socket], [bind_ok] of [bind]. *)
Definition prepare_srtp_sender (c : srtp_sender_context) (key0 : list Z) (pad0 : Z)
    (rcvr_addr new_sock : Z) (bind_ok : bool) (receiver_port ssrc : Z) (input_key : list Z)
    : outcome srtp_sender_context :=
  m ← lift (init_header (message c) ssrc);
  let key_len := cipher_key_len (pol_rtp (sender_policy ssrc key0)) in
  let expected_len := key_len * 4 / 3 in
  '(key, pad, len) ← lift (base64_string_to_octet_string key0 pad0 input_key expected_len);
  if negb (pad =? 0) then Exit 1
  else if len <? expected_len then Exit 1
  else
    n ← lift (strlen input_key);
    if key_len * 2 <? n then Exit 1
    else
      let c := {| message := m; srtp_ctx_p := srtp_ctx_p c; sock := new_sock;
                  raddr_addr := rcvr_addr; raddr_port := htons receiver_port |} in
      if negb bind_ok then Exit 1
      else
        '(st, s) ← lift (srtp_create (sender_policy ssrc key));
        match st with
        | srtp_err_status_ok => Ret (with_session c s)
        | _ => Exit (-1)
        end.

End Sender.

Arguments srtp_sender_context : clear implicits.
Arguments srtp_sender_context {_}.

(** ** Header arithmetic *)

Lemma update_header_spec m :
  zlen m = RTP_PKT_SIZE -> Forall is_u8 m ->
  exists m', update_header m = Some m' /\ zlen m' = RTP_PKT_SIZE /\ Forall is_u8 m' /\
    wire16 m' OFF_SEQ = (wire16 m OFF_SEQ + 1) mod 2 ^ 16 /\
    wire16 m' OFF_TS = (wire16 m OFF_TS + 1) mod 2 ^ 16 /\ wire16 m' (OFF_TS + 2) = 0 /\
    forall j, 0 <= j < OFF_SEQ \/ OFF_SSRC <= j < RTP_PKT_SIZE -> znth m' j = znth m j.
Proof.
  unfold RTP_PKT_SIZE, OFF_SEQ, OFF_TS, OFF_SSRC. intros Hl HF.
  unfold update_header, OFF_SEQ, OFF_TS, get32, put32.
  destruct (ntohs_get16 m 2) as (seq & -> & _ & Hseq); [done|lia|lia|]. simpl. rewrite Hseq.
  destruct (put16_htons m 2 (u16 (wire16 m 2 + 1))) as (m1 & -> & Hl1 & HF1 & A & Aj);
    [done|lia|lia|]. simpl.
  destruct (ntohs_get16 m1 4) as (lo & -> & Hlo & Hts); [done|lia|lia|]. simpl.
  rewrite (get16_Some m1 (4 + 2)) by (done || lia). simpl.
  set (hi := _ + _ * 2 ^ 8). clearbody hi.
  assert (ntohs (lo .| (hi << 16)) = wire16 m1 4) as ->.
  { rewrite <- Hts. unfold ntohs. f_equal. rewrite lor_shiftl_add by (done || lia).
    unfold wrap. rewrite Z_mod_plus_full. done. }
  rewrite (wire16_same m m1 4) by (intros; apply Aj; lia).
  set (ts := u32 (wire16 m 4 + 1)).
  assert (is_u16 (htons ts)) as Hu by apply fits_bswap16.
  rewrite (wrap_id 32 (htons ts)) by (unfold fits in *; lia).
  destruct (put16_htons m1 4 ts) as (m2 & -> & Hl2 & HF2 & B & Bj); [done|lia|lia|]. simpl.
  destruct (put16_Some m2 (4 + 2) (u16 (htons ts >> 16)))
    as (m3 & E3 & Hl3 & HF3 & C0 & C1 & Cj); [done|lia|lia|].
  exists m3. split; [exact E3|]. split; [lia|]. split; [done|].
  assert (u16 (htons ts >> 16) = 0) as Hz.
  { rewrite Z.shiftr_div_pow2, Z.div_small by (done || lia). done. }
  rewrite Hz in C0, C1. split_and!.
  - rewrite (wire16_same m2), (wire16_same m1), A by (intros; (apply Cj || apply Bj); lia).
    unfold wrap. lia.
  - rewrite (wire16_same m2), B by (intros; apply Cj; lia). unfold ts, wrap.
    assert (0 <= wire16 m 4) by (unfold wire16;
      pose proof (znth_Forall is_u8 m 4 HF); pose proof (znth_Forall is_u8 m (4 + 1) HF);
      unfold fits in *; lia). lia.
  - unfold wire16. rewrite C0, C1. done.
  - intros j Hj. rewrite Cj, Bj, Aj by lia. done.
Qed.


(** ** Segmentation *)

Section Segmentation.
Context `{SrtpLib}.

(** What the callback relies on: a message of the right size and an open
    session. *)
Definition sender_ok (c : srtp_sender_context) : Prop :=
  zlen (message c) = RTP_PKT_SIZE /\ Forall is_u8 (message c) /\
  exists s, srtp_ctx_p c = Some s /\ srtp_ready s.

(** The number of packets, and for packet [k] the length of its body and the
    place of the data it carries. *)
Definition packet_count (length : Z) : Z := (length + (RTP_PKT_BODY_SIZE - 1)) / RTP_PKT_BODY_SIZE.

Definition segment_len (length k : Z) : Z := Z.min RTP_PKT_BODY_SIZE (length - RTP_PKT_BODY_SIZE * k).

Definition segment_start (length k : Z) : Z := Z.min (RTP_PKT_BODY_SIZE * k) length.

(** The octets [plain] handed to [srtp_protect] for packet [k] of a call that
    found the header of [m]: sequence number and timestamp advanced [k + 1]
    times, and [len] octets of [data] from [start]. *)
Record plain_packet (m data : list Z) (start len k : Z) (plain : list Z) : Prop := {
  pp_len : zlen plain = RTP_HEADER_LEN + len;
  pp_seq : wire16 plain OFF_SEQ = (wire16 m OFF_SEQ + k + 1) mod 2 ^ 16;
  pp_ts_high : wire16 plain OFF_TS = (wire16 m OFF_TS + k + 1) mod 2 ^ 16;
  pp_ts_low : wire16 plain (OFF_TS + 2) = 0;
  pp_fixed j : 0 <= j < OFF_SEQ \/ OFF_SSRC <= j < RTP_HEADER_LEN -> znth plain j = znth m j;
  pp_body j : 0 <= j < len -> znth plain (RTP_HEADER_LEN + j) = znth data (start + j)
}.

(** The message with the header and the body of the next packet, and what the
    library makes of it. *)
Lemma send_segment_run c data offset len :
  sender_ok c -> Forall is_u8 data ->
  0 <= len <= RTP_PKT_BODY_SIZE -> 0 <= offset -> offset + len <= zlen data ->
  exists s m s' m' len' st plain pkt, srtp_ctx_p c = Some s /\ srtp_ready s /\
    zlen m = RTP_PKT_SIZE /\ Forall is_u8 m /\ slice m 0 (len + RTP_HEADER_LEN) = Some plain /\
    plain_packet (message c) data offset len 0 plain /\
    srtp_protect s m (len + RTP_HEADER_LEN) = Some (s', m', len', st) /\ srtp_ready s' /\
    zlen m' = RTP_PKT_SIZE /\ Forall is_u8 m' /\ 0 <= len' <= RTP_PKT_SIZE /\
    (forall j, 0 <= j < RTP_HEADER_LEN -> znth m' j = znth plain j) /\ slice m' 0 len' = Some pkt /\
    send_segment c data offset len =
      Some (with_session (with_message c m') (Some s'), [EvProtect plain; EvSendto (sock c) pkt]).
Proof.
  intros (Hl & HF & s & Hs & Hrd) Hd Hlen H0 H1. unfold send_segment, RTP_PKT_SIZE in *.
  change RTP_PKT_BODY_SIZE with 1366 in *. change RTP_HEADER_LEN with 12 in *.
  destruct (slice data offset len) as [src|] eqn:Esrc;
    [|by rewrite slice_Some in Esrc by lia]. simpl.
  pose proof (zlen_slice _ _ _ _ Esrc) as Hsrc.
  destruct (blit_Some (message c) 12 src) as (m1 & E1 & Hl1 & A1); [lia|lia|].
  rewrite E1. simpl.
  destruct (update_header_spec m1) as (m2 & -> & Hl2 & HF2 & Hseq & Hts & Hlow & Hbody);
    [unfold RTP_PKT_SIZE; lia|eapply Forall_blit; eauto using Forall_slice|]. simpl.
  unfold RTP_PKT_SIZE, OFF_SEQ, OFF_SSRC, OFF_TS in *.
  destruct (slice m2 0 (len + 12)) as [plain|] eqn:Ep; [|by rewrite slice_Some in Ep by lia].
  rewrite Hs. simpl.
  destruct (srtp_protect_ok s m2 (len + 12)) as (s' & m3 & len' & st & Epr & Hrd' & Hl3 & HF3 & Hl' & Hh);
    [done|done|done|unfold RTP_HEADER_LEN, RTP_PKT_SIZE; lia|].
  unfold RTP_PKT_SIZE in *. change RTP_HEADER_LEN with 12 in *.
  destruct (slice m3 0 len') as [pkt|] eqn:Ek; [|rewrite slice_Some in Ek by lia; done].
  assert (forall j, 0 <= j < len + 12 -> znth plain j = znth m2 j) as Hpl
    by (intros j Hj; apply (znth_slice _ 0 _ _ _ Ep); lia).
  assert (forall off, 0 <= off < 11 -> wire16 plain off = wire16 m2 off) as Hw
    by (intros off Ho; apply wire16_same; intros j Hj; apply Hpl; lia).
  assert (forall off, 0 <= off < 11 -> wire16 m1 off = wire16 (message c) off) as Hw1.
  { intros off Ho. apply wire16_same. intros j Hj. rewrite A1, decide_False by lia. done. }
  exists s, m2, s', m3, len', st, plain, pkt. split_and!; try done; [|lia|lia|lia| |by rewrite Epr; simpl; rewrite Ek].
  - split; unfold OFF_SEQ, OFF_TS, OFF_SSRC; rewrite ?Hw, ?Hseq, ?Hts, ?Hlow, ?Hw1 by lia; try done.
    + rewrite (zlen_slice _ _ _ _ Ep). unfold RTP_HEADER_LEN. lia.
    + f_equal. lia.
    + f_equal. lia.
    + change RTP_HEADER_LEN with 12. intros j Hj. rewrite Hpl, Hbody, A1, decide_False by lia. done.
    + intros j Hj. change RTP_HEADER_LEN with 12. rewrite Hpl, Hbody, A1, decide_True by lia.
      rewrite (znth_slice _ _ _ _ _ Esrc) by lia. f_equal. lia.
  - intros j Hj. rewrite Hpl by lia. apply Hh. lia.
Qed.

(** A later packet of a run seen from the header the run started with. *)
Lemma plain_packet_shift m m' data start len k k0 plain :
  plain_packet m' data start len k plain ->
  wire16 m' OFF_SEQ = (wire16 m OFF_SEQ + k0) mod 2 ^ 16 ->
  wire16 m' OFF_TS = (wire16 m OFF_TS + k0) mod 2 ^ 16 ->
  (forall j, 0 <= j < OFF_SEQ \/ OFF_SSRC <= j < RTP_HEADER_LEN -> znth m' j = znth m j) ->
  plain_packet m data start len (k + k0) plain.
Proof.
  intros [? Hs Ht ???] Es Et Ef. split; try done; [| |intros j Hj; rewrite <- Ef by done; auto].
  - rewrite Hs, Es, <- Z.add_assoc, Zplus_mod_idemp_l. f_equal. lia.
  - rewrite Ht, Et, <- Z.add_assoc, Zplus_mod_idemp_l. f_equal. lia.
Qed.

(** The loop, entered when packet [k0] is next, for any invariant [I] of the
    sender and any relation [R] of the packets handed to the library to those
    sent. *)
Lemma sender_loop_spec (I : Z -> srtp_sender_context -> Prop) (R : Z -> list Z -> list Z -> Prop) data length fd :
  0 <= length < 2 ^ 31 - RTP_PKT_BODY_SIZE ->
  (forall k c, 0 <= k < packet_count length -> I k c ->
    exists c' plain pkt,
      send_segment c data (segment_start length (k + 1)) (segment_len length k) =
        Some (c', [EvProtect plain; EvSendto fd pkt]) /\ I (k + 1) c' /\ R k plain pkt) ->
  forall fuel c k0, I k0 c -> 0 <= k0 <= packet_count length -> packet_count length - k0 < Z.of_nat fuel ->
  exists c' evs, sender_loop fuel c data length (segment_start length k0) = Some (c', evs) /\
    I (packet_count length) c' /\ zlen evs = 2 * (packet_count length - k0) /\
    forall k, k0 <= k < packet_count length -> exists plain pkt,
      aget evs (2 * (k - k0)) = Some (EvProtect plain) /\ aget evs (2 * (k - k0) + 1) = Some (EvSendto fd pkt) /\
      R k plain pkt.
Proof.
  unfold packet_count. change RTP_PKT_BODY_SIZE with 1366. intros Hlen Hstep.
  induction fuel as [|fuel IH]; intros c k0 HI Hk0 Hfuel; [lia|].
  simpl. unfold segment_start at 1. change RTP_PKT_BODY_SIZE with 1366.
  rewrite (wrap_id 32) by (unfold fits; lia). case_if.
  2: { assert (k0 = (length + (1366 - 1)) / 1366) as -> by lia.
       exists c, []. split_and!; [done|done|change (zlen []) with 0; lia|lia]. }
  assert (segment_start length k0 = 1366 * k0) as E0
    by (unfold segment_start; change RTP_PKT_BODY_SIZE with 1366; lia).
  rewrite E0. unfold sint. rewrite decide_True by lia. simpl. rewrite !(wrap_id 32) by (unfold fits; lia).
  set (p := if _ : bool then _ else _).
  assert (p = (segment_len length k0, segment_start length (k0 + 1))) as ->.
  { unfold p, segment_len, segment_start. change RTP_PKT_BODY_SIZE with 1366.
    case_if; f_equal; rewrite ?swrap_id by lia; lia. }
  simpl. destruct (Hstep k0 c) as (c1 & plain & pkt & -> & HI1 & HR); [lia|done|]. simpl.
  destruct (IH c1 (k0 + 1)) as (c' & evs & -> & HI' & Hl & Hevs); [done|lia|lia|].
  simpl. exists c', (EvProtect plain :: EvSendto fd pkt :: evs).
  split_and!; [done|done|unfold zlen in *; simpl; lia|]. intros k Hk.
  destruct (decide (k = k0)) as [->|Hne]; [exists plain, pkt; by replace (2 * (k0 - k0)) with 0 by lia|].
  destruct (Hevs k) as (plain1 & pkt1 & G1 & G2 & G3); [lia|]. exists plain1, pkt1.
  change (EvProtect plain :: EvSendto fd pkt :: evs) with ([EvProtect plain; EvSendto fd pkt] ++ evs).
  rewrite !aget_app by lia. change (zlen [EvProtect plain; EvSendto fd pkt]) with 2. rewrite !decide_False by lia.
  replace (2 * (k - k0) - 2) with (2 * (k - (k0 + 1))) by lia.
  by replace (2 * (k - k0) + 1 - 2) with (2 * (k - (k0 + 1)) + 1) by lia.
Qed.

(** The sender when it has sent [k] packets since its header was that of
    [c0]. *)
Record sender_at (c0 : srtp_sender_context) (k : Z) (c : srtp_sender_context) : Prop := {
  st_ok : sender_ok c;
  st_sock : sock c = sock c0;
  st_seq : wire16 (message c) OFF_SEQ = (wire16 (message c0) OFF_SEQ + k) mod 2 ^ 16;
  st_ts : wire16 (message c) OFF_TS = (wire16 (message c0) OFF_TS + k) mod 2 ^ 16;
  st_fixed j : 0 <= j < OFF_SEQ \/ OFF_SSRC <= j < RTP_HEADER_LEN -> znth (message c) j = znth (message c0) j
}.

Lemma sender_at_start c : sender_ok c -> sender_at c 0 c.
Proof.
  intros Hok. pose proof Hok as (Hl & HF & _). unfold RTP_PKT_SIZE in Hl.
  assert (forall off, 0 <= off < 100 -> wire16 (message c) off = (wire16 (message c) off + 0) mod 2 ^ 16) as Hw.
  { intros off Ho. unfold wire16. pose proof (znth_Forall is_u8 (message c) off HF). pose proof (znth_Forall is_u8 (message c) (off + 1) HF).
    unfold fits in *. lia. }
  split; try done; by apply Hw.
Qed.

(** The state behind a packet. *)
Lemma sender_at_next c0 k c data start len plain m' s' :
  sender_at c0 k c -> plain_packet (message c) data start len 0 plain ->
  zlen m' = RTP_PKT_SIZE -> Forall is_u8 m' -> srtp_ready s' ->
  (forall j, 0 <= j < RTP_HEADER_LEN -> znth m' j = znth plain j) ->
  sender_at c0 (k + 1) (with_session (with_message c m') (Some s')) /\
  plain_packet (message c0) data start len k plain.
Proof.
  intros [Hok Hsock Hseq Hts Hfix] Hp Hl HF Hrd Hh. unfold OFF_SEQ, OFF_TS, OFF_SSRC, RTP_HEADER_LEN in *.
  assert (forall off, 0 <= off < 11 -> wire16 m' off = wire16 plain off) as Hw.
  { intros off Ho. apply wire16_same. intros j Hj. apply Hh. lia. }
  split; [|replace k with (0 + k) by lia; by eapply plain_packet_shift].
  split; cbn [message sock with_session with_message]; try done; [split_and!; try done; by exists s'|..];
    unfold OFF_SEQ, OFF_TS, OFF_SSRC, RTP_HEADER_LEN.
  - rewrite Hw by lia. pose proof (pp_seq _ _ _ _ _ _ Hp) as Es. unfold OFF_SEQ in Es.
    rewrite Es, Hseq, <- Z.add_assoc, Zplus_mod_idemp_l. f_equal. lia.
  - rewrite Hw by lia. pose proof (pp_ts_high _ _ _ _ _ _ Hp) as Es. unfold OFF_TS in Es.
    rewrite Es, Hts, <- Z.add_assoc, Zplus_mod_idemp_l. f_equal. lia.
  - intros j Hj. rewrite Hh by lia. rewrite (pp_fixed _ _ _ _ _ _ Hp) by (unfold OFF_SEQ, OFF_SSRC, RTP_HEADER_LEN; lia).
    by apply Hfix.
Qed.

Lemma segment_bounds (data : list Z) length k :
  0 <= length -> length + RTP_PKT_BODY_SIZE <= zlen data -> 0 <= k < packet_count length ->
  0 <= segment_len length k <= RTP_PKT_BODY_SIZE /\ 0 <= segment_start length (k + 1) /\
  segment_start length (k + 1) + segment_len length k <= zlen data.
Proof. unfold packet_count, segment_len, segment_start. change RTP_PKT_BODY_SIZE with 1366. lia. Qed.

(** C33: The sender splits a frame of [length] octets, in a block that has at
    least one packet body beyond it, into [ceil(length / 1366)] packets: the
    callback returns, hands each packet to [srtp_protect] and then to
    [sendto], in order, with sequence numbers and (16-bit) timestamps that
    count up from the previous ones modulo 2^16.  The body of packet [k] has
    the length of segment [k] but carries the octets at the START OF SEGMENT
    [k + 1], because the offset is advanced before the copy: the first segment
    of a frame is never sent. *)
Theorem srtp_sender_callback_packets c data length :
  sender_ok c -> Forall is_u8 data ->
  0 <= length < 2 ^ 31 - RTP_PKT_BODY_SIZE -> length + RTP_PKT_BODY_SIZE <= zlen data ->
  exists c' evs, srtp_sender_callback c data length = Some (c', evs) /\
    sender_ok c' /\ zlen evs = 2 * packet_count length /\
    forall k, 0 <= k < packet_count length ->
      exists plain pkt, aget evs (2 * k) = Some (EvProtect plain) /\
        aget evs (2 * k + 1) = Some (EvSendto (sock c) pkt) /\
        plain_packet (message c) data (segment_start length (k + 1)) (segment_len length k) k plain.
Proof.
  intros Hok HF Hlen Hdata.
  destruct (sender_loop_spec (sender_at c)
    (fun k plain _ => plain_packet (message c) data (segment_start length (k + 1)) (segment_len length k) k plain)
    data length (sock c) Hlen) with (fuel := S (Z.to_nat length)) (c := c) (k0 := 0)
    as (c' & evs & E & HI & Hl & Hk); [|by apply sender_at_start|..].
  - intros k c1 Hk Hc1. destruct (segment_bounds data length k) as (B1 & B2 & B3); [lia|done|done|].
    destruct (send_segment_run c1 data (segment_start length (k + 1)) (segment_len length k)) as
      (s & m & s' & m' & len' & st & plain & pkt & _ & _ & _ & _ & _ & Hp & _ & Hrd & Hl' & HF' & _ & Hh & _ & E);
      [apply Hc1|done..|].
    destruct (sender_at_next _ _ _ _ _ _ _ _ _ Hc1 Hp Hl' HF' Hrd Hh) as [Hn Hp']. rewrite (st_sock _ _ _ Hc1) in E.
    by exists (with_session (with_message c1 m') (Some s')), plain, pkt.
  - unfold packet_count. change RTP_PKT_BODY_SIZE with 1366 in *. lia.
  - unfold packet_count. change RTP_PKT_BODY_SIZE with 1366 in *. lia.
  - exists c', evs. unfold srtp_sender_callback. replace (segment_start length 0) with 0 in E by (unfold segment_start; lia).
    split_and!; [done|apply HI|by rewrite Hl; f_equal; lia|]. intros k Hk0.
    destruct (Hk k Hk0) as (plain & pkt & E1 & E2 & Hp). exists plain, pkt. by rewrite Z.sub_0_r in E1, E2.
Qed.

(** The last packet is copied from [&data[length]]. *)
Lemma sender_callback_oob c data :
  0 < zlen data < 2 ^ 31 - RTP_PKT_BODY_SIZE ->
  srtp_sender_callback c data (zlen data) = None.
Proof.
  intros Hlen. unfold srtp_sender_callback.
  assert (forall fuel c k, 0 <= k -> 1366 * k < zlen data ->
    sender_loop fuel c data (zlen data) (1366 * k) = None) as Hloop.
  { change RTP_PKT_BODY_SIZE with 1366 in *.
    induction fuel as [|fuel IH]; intros c0 k Hk Hlt; [done|]. simpl.
    rewrite (wrap_id 32) by (unfold fits; lia). case_if; [|lia].
    change RTP_PKT_BODY_SIZE with 1366. unfold sint. rewrite decide_True by lia. simpl.
    rewrite (wrap_id 32) by (unfold fits; lia). case_if; rewrite ?swrap_id by lia.
    - destruct (send_segment _ _ _ _) as [[c1 ev]|]; [|done]. simpl.
      replace (1366 * k + 1366) with (1366 * (k + 1)) by lia. rewrite IH by lia. done.
    - unfold send_segment, slice. rewrite decide_False by lia. done. }
  apply (Hloop _ c 0); lia.
Qed.

End Segmentation.

(** ** Session set-up *)

Section Session.
Context `{SrtpLib}.

(** The header of a new stream: version 2, payload type 99, sequence number
    and timestamp zero, the source's identifier. *)
Record fresh_header (ssrc : Z) (m : list Z) : Prop := {
  fh_len : zlen m = RTP_PKT_SIZE;
  fh_octets : Forall is_u8 m;
  fh_first : znth m 0 = 0x80;
  fh_second : znth m 1 = 99;
  fh_seq : wire16 m OFF_SEQ = 0;
  fh_ts : wire32 m OFF_TS = 0;
  fh_ssrc : wire32 m OFF_SSRC = u32 ssrc
}.

Lemma init_header_spec m ssrc :
  zlen m = RTP_PKT_SIZE -> Forall is_u8 m ->
  exists m', init_header m ssrc = Some m' /\ fresh_header ssrc m'.
Proof.
  unfold RTP_PKT_SIZE. intros Hl HF. unfold init_header, put32, OFF_SSRC, OFF_TS, OFF_SEQ.
  set (v := htonl ssrc).
  destruct (put16_Some m 8 (u16 v)) as (m1 & -> & Hl1 & HF1 & A0 & A1 & Aj); [done|lia|lia|]. simpl.
  destruct (put16_Some m1 (8 + 2) (u16 (v >> 16))) as (m2 & -> & Hl2 & HF2 & B0 & B1 & Bj);
    [done|lia|lia|]. simpl.
  destruct (put16_Some m2 4 (u16 0)) as (m3 & -> & Hl3 & HF3 & C0 & C1 & Cj); [done|lia|lia|]. simpl.
  destruct (put16_Some m3 (4 + 2) (u16 (0 >> 16))) as (m4 & -> & Hl4 & HF4 & D0 & D1 & Dj);
    [done|lia|lia|]. simpl.
  destruct (put16_Some m4 2 0) as (m5 & -> & Hl5 & HF5 & E0 & E1 & Ej); [done|lia|lia|]. simpl.
  rewrite aset_Some by lia. simpl. rewrite aset_Some by (rewrite zlen_insert; lia).
  eexists. split; [done|].
  set (m6 := <[_ := _]> _).
  assert (forall j, 2 <= j < 1378 -> znth m6 j = znth m5 j) as Fj.
  { intros j Hj. unfold m6. rewrite !znth_insert by (rewrite ?zlen_insert; lia).
    rewrite !decide_False by lia. done. }
  assert (u16 v = v mod 2 ^ 16 /\ u16 (v >> 16) = (v / 2 ^ 16) mod 2 ^ 16) as [Hv0 Hv1]
    by (unfold wrap; rewrite Z.shiftr_div_pow2 by lia; done).
  split; unfold OFF_SSRC, OFF_TS, OFF_SEQ, wire32, wire16.
  - unfold m6. rewrite !zlen_insert. unfold RTP_PKT_SIZE. lia.
  - unfold m6. repeat apply Forall_insert; [done|by vm_compute..].
  - unfold m6. by rewrite !znth_insert by (rewrite ?zlen_insert; lia).
  - unfold m6. by rewrite !znth_insert by (rewrite ?zlen_insert; lia).
  - rewrite !Fj, E0, E1 by lia. done.
  - rewrite !Fj, !(Ej 4), !(Ej (4 + 1)), !(Ej (4 + 2)), !(Ej (4 + 2 + 1)), (Dj 4), (Dj (4 + 1)),
      C0, C1, D0, D1 by lia. done.
  - rewrite !Fj, !Ej, !Dj, !Cj by lia.
    rewrite (Bj 8), (Bj (8 + 1)), A0, A1, B0, B1, Hv0, Hv1 by lia.
    apply htonl_octets.
Qed.

(** The run of the set-up with a key of 30 octets. *)
Lemma prepare_run c key0 pad0 rcvr_addr new_sock port ssrc s rest :
  zlen (message c) = RTP_PKT_SIZE -> Forall is_u8 (message c) -> zlen key0 = MAX_KEY_LEN -> Forall is_u8 key0 ->
  Forall is_u8 s -> List.length s = 30%nat ->
  exists m key st session, fresh_header ssrc m /\ take 30 key = s /\ zlen key = MAX_KEY_LEN /\ Forall is_u8 key /\
    srtp_create (sender_policy ssrc key) = Some (st, session) /\
    (st = srtp_err_status_ok -> exists ctx, session = Some ctx /\ srtp_ready ctx) /\
    prepare_srtp_sender c key0 pad0 rcvr_addr new_sock true port ssrc (base64_encode s ++ 0 :: rest) =
      (if decide (st = srtp_err_status_ok)
       then Ret {| message := m; srtp_ctx_p := session; sock := new_sock; raddr_addr := rcvr_addr;
                   raddr_port := htons port |}
       else Exit (-1)).
Proof.
  intros Hl HF Hk HFk Hs Hls.
  destruct (init_header_spec (message c) ssrc Hl HF) as (m & Em & Hm).
  destruct (base64_decode_encode key0 pad0 s (0 :: rest) 10) as (key & Ek & Hkl & Hks);
    [done|done|unfold MAX_KEY_LEN in *; lia|].
  assert (Forall is_u8 key) as HFkey by (by eapply base64_octets).
  destruct (srtp_create_ok ssrc key) as (st & session & Ec & Hrd); [congruence|done|].
  exists m, key, st, session. rewrite Hls in Hks. split_and!; [done|done|congruence|done|done|done|].
  unfold prepare_srtp_sender. rewrite Em. cbn [lift mbind outcome_bind].
  change (cipher_key_len _ * 4 / 3) with (4 * Z.of_nat 10). rewrite Ek.
  cbn [lift mbind outcome_bind]. change (negb (0 =? 0)) with false. cbn [negb].
  rewrite Z.ltb_irrefl. rewrite strlen_app by (by apply base64_encode_nonzero).
  cbn [lift mbind outcome_bind]. unfold zlen. rewrite (length_base64_encode s 10) by done.
  rewrite Ec. by destruct st.
Qed.

(** C36: Given 30 octets of key and salt in base64, terminated, the set-up of a
    session writes the header of a new RTP stream, decodes exactly those 30
    octets into the master key, and creates the session for the
    confidentiality-only AES-CM-128 policy with that key.  When [srtp_create]
    succeeds the sender is ready to send, towards the receiver; otherwise the
    process ends. *)
Theorem prepare_srtp_sender_session c key0 pad0 rcvr_addr new_sock port ssrc s rest :
  zlen (message c) = RTP_PKT_SIZE -> Forall is_u8 (message c) -> zlen key0 = MAX_KEY_LEN -> Forall is_u8 key0 ->
  Forall is_u8 s -> List.length s = 30%nat ->
  exists m key st session, fresh_header ssrc m /\ take 30 key = s /\ zlen key = MAX_KEY_LEN /\
    srtp_create (sender_policy ssrc key) = Some (st, session) /\
    let c' := {| message := m; srtp_ctx_p := session; sock := new_sock; raddr_addr := rcvr_addr;
                 raddr_port := htons port |} in
    prepare_srtp_sender c key0 pad0 rcvr_addr new_sock true port ssrc (base64_encode s ++ 0 :: rest) =
      (if decide (st = srtp_err_status_ok) then Ret c' else Exit (-1)) /\
    (st = srtp_err_status_ok -> sender_ok c').
Proof.
  intros Hl HF Hk HFk Hs Hls.
  destruct (prepare_run c key0 pad0 rcvr_addr new_sock port ssrc s rest) as (m & key & st & session & Hm & Hks & Hz & _ & Ec & Hrd & E);
    [done..|].
  exists m, key, st, session. split_and!; try done. intros c'. split; [exact E|]. intros Hst. destruct (Hrd Hst) as (ctx & -> & Hctx).
  split_and!; [apply Hm|apply Hm|by exists ctx].
Qed.

(** A key string of fewer than 39 base64 digits is not reported: the
    decoder takes the terminator for a digit and reads past the string. *)
Theorem prepare_srtp_sender_short_key c key0 pad0 rcvr_addr new_sock bind_ok port ssrc ks :
  Forall digit ks -> zlen ks < 39 ->
  prepare_srtp_sender c key0 pad0 rcvr_addr new_sock bind_ok port ssrc (ks ++ [0]) = Undef.
Proof.
  intros HF Hl. unfold prepare_srtp_sender.
  destruct (init_header _ _); [|done]. cbn [lift mbind outcome_bind].
  change (cipher_key_len _ * 4 / 3) with 40. unfold base64_string_to_octet_string.
  change (negb (Z.rem 40 4 =? 0)) with false. cbn iota.
  assert (zlen (ks ++ [0]) = zlen ks + 1) as Hz by (rewrite zlen_app; done).
  pose proof (zlen_nonneg ks).
  rewrite base64_loop_short; [done|..]; try lia; try done.
  apply Forall_app. split; [done|]. repeat constructor. exists 64. apply sextet_of_nul.
Qed.

End Session.

(** ** Instances of the properties *)

(** A library that accepts every policy and leaves packets as they are. *)
Definition plain_create (pol : srtp_policy_t) : option (srtp_err_status_t * option srtp_policy_t) :=
  Some (srtp_err_status_ok, Some pol).

Definition plain_protect (ctx : srtp_policy_t) (pkt : list Z) (len : Z)
    : option (srtp_policy_t * list Z * Z * srtp_err_status_t) := Some (ctx, pkt, len, srtp_err_status_ok).

Lemma plain_create_ok ssrc key :
  zlen key = MAX_KEY_LEN -> Forall is_u8 key ->
  exists st s, plain_create (sender_policy ssrc key) = Some (st, s) /\
    (st = srtp_err_status_ok -> exists ctx, s = Some ctx /\ True).
Proof. intros _ _. eexists _, _. eauto. Qed.

Lemma plain_protect_ok ctx pkt len :
  True -> zlen pkt = RTP_PKT_SIZE -> Forall is_u8 pkt -> RTP_HEADER_LEN <= len <= RTP_PKT_SIZE ->
  exists ctx' pkt' len' st, plain_protect ctx pkt len = Some (ctx', pkt', len', st) /\
    True /\ zlen pkt' = zlen pkt /\ Forall is_u8 pkt' /\ 0 <= len' <= RTP_PKT_SIZE /\
    forall i, 0 <= i < RTP_HEADER_LEN -> znth pkt' i = znth pkt i.
Proof.
  intros _ Hl HF Hlen. exists ctx, pkt, len, srtp_err_status_ok. unfold RTP_HEADER_LEN in *. split_and!; done || lia.
Qed.

Definition plain_srtp : SrtpLib :=
  {| srtp_ready := fun _ : srtp_policy_t => True; srtp_create := plain_create; srtp_protect := plain_protect;
     srtp_create_ok := plain_create_ok; srtp_protect_ok := plain_protect_ok |}.

Definition plain_sender : @srtp_sender_context plain_srtp :=
  {| message := replicate 1378 0; srtp_ctx_p := Some (sender_policy 1 []) : option (@srtp_ctx plain_srtp);
     sock := 3; raddr_addr := 0; raddr_port := 0 |}.

Lemma srtp_sender_callback_packets_witness :
  exists c' evs, @srtp_sender_callback plain_srtp plain_sender (replicate 4000 7) 2000 = Some (c', evs) /\
    @sender_ok plain_srtp c' /\ zlen evs = 2 * packet_count 2000 /\
    forall k, 0 <= k < packet_count 2000 ->
      exists plain pkt, aget evs (2 * k) = Some (EvProtect plain) /\
        aget evs (2 * k + 1) = Some (EvSendto 3 pkt) /\
        plain_packet (replicate 1378 0) (replicate 4000 7) (segment_start 2000 (k + 1))
          (segment_len 2000 k) k plain.
Proof.
  apply (@srtp_sender_callback_packets plain_srtp plain_sender (replicate 4000 7) 2000).
  - split_and!; [by vm_compute|apply Forall_replicate; by unfold fits|eexists; split; exact eq_refl || exact I].
  - apply Forall_replicate. by unfold fits.
  - unfold RTP_PKT_BODY_SIZE, RTP_PKT_SIZE, RTP_HEADER_LEN. lia.
  - by vm_compute.
Defined.

Lemma prepare_srtp_sender_session_witness :
  exists m key st session, fresh_header 42 m /\ take 30 key = replicate 30 5 /\ zlen key = MAX_KEY_LEN /\
    @srtp_create plain_srtp (sender_policy 42 key) = Some (st, session) /\
    let c' := {| message := m; srtp_ctx_p := session; sock := 3; raddr_addr := 7; raddr_port := htons 5004 |} in
    @prepare_srtp_sender plain_srtp (@zeroed_sender plain_srtp) (replicate 96 0) 9 7 3 true 5004 42
      (base64_encode (replicate 30 5) ++ 0 :: []) =
      (if decide (st = srtp_err_status_ok) then Ret c' else Exit (-1)) /\
    (st = srtp_err_status_ok -> sender_ok c').
Proof.
  apply (@prepare_srtp_sender_session plain_srtp).
  - by vm_compute.
  - apply Forall_replicate. by unfold fits.
  - by vm_compute.
  - apply Forall_replicate. by unfold fits.
  - apply Forall_replicate. by unfold fits.
  - done.
Defined.

Lemma prepare_srtp_sender_short_key_witness :
  @prepare_srtp_sender plain_srtp (@zeroed_sender plain_srtp) (replicate 96 0) 0 7 3 true 5004 42
    ([65; 66; 67] ++ [0]) = Undef.
Proof.
  apply (@prepare_srtp_sender_short_key plain_srtp); [|by vm_compute].
  repeat constructor; by eexists.
Defined.
