(* ===== verification/Camera.v ===== *)
(** The camera daemon's state and its two encoder callbacks (camera_daemon.c).

    [PORT_USERDATA] is kept as the groups of fields that are used together:
    the snapshot exchange with the JPEG encoder thread, the live streams fed
    by the video encoder thread, and the last URL seen by the HTTP server.
    The function-local statics of a callback are part of its group.  What the
    MMAL library and the kernel answer is an input of each callback. *)

From S2P Require Import Prelude Err SrtpTypes SrtpPolicy Util RtpWorker.

Definition VIDEO_WIDTH : Z := 1920.
Definition VIDEO_HEIGHT : Z := 1080.
Definition VIDEO_FPS : Z := 30.
Definition SNAPSHOT_WIDTH : Z := 1920.
Definition SNAPSHOT_HEIGHT : Z := 1080.
Definition IMAGE_BUFFER_SIZE : Z := 3 * VIDEO_WIDTH * VIDEO_HEIGHT.
Definition PORT : Z := 7777.

(** ** The mutex *)

(** The two threads that use [img_lock]: the HTTP server and the encoder. *)
Inductive thread := Server | Encoder.

#[global] Instance thread_eq_dec : EqDecision thread.
Proof. solve_decision. Defined.

Definition EBUSY : Z := 16.

(** A default mutex: [trylock] fails on a locked mutex, whoever owns it. *)
Definition pthread_mutex_trylock (self : thread) (m : option thread) : Z * option thread :=
  match m with
  | None => (0, Some self)
  | Some _ => (EBUSY, m)
  end.

(** Unlocking a mutex the caller does not own is undefined. *)
Definition pthread_mutex_unlock (self : thread) (m : option thread) : option (option thread) :=
  if decide (m = Some self) then Some None else None.

(** ** State *)

Record snapshot_state := {
  img_lock : option thread;
  snapshot_request_n : Z;
  image_buffer : list Z;
  image_size : Z;
  already_acquired_lock : Z;
  jpeg_state : Z
}.

Record stream_state := {
  stream_header : option (list Z);
  stream_header_size : Z;
  have_active_client : Z;
  client_fd : Z;
  have_active_srtp_receiver : Z;
  frame_start : Z;
  srtp_frame_start : Z
}.

Record url_state := {
  last_url : list Z;
  last_url_size : Z
}.

(** The fields of a buffer header the callbacks look at; [buf_data] is the
    whole payload block, of which [buf_length] octets are valid. *)
Record MMAL_BUFFER_HEADER_T := {
  buf_data : list Z;
  buf_length : Z;
  flag_FRAME_END : bool;
  flag_KEYFRAME : bool;
  flag_CONFIG : bool;
  flag_CODECSIDEINFO : bool
}.

(** What a callback gets from outside: whether [malloc] finds memory for a
    stream header and, at the end, whether the port is enabled, the pool has a
    buffer and the port takes it. *)
Record mmal_env := {
  malloc_succeeds : bool;
  port_is_enabled : bool;
  queue_has_buffer : bool;
  send_succeeds : bool
}.

Inductive cam_event :=
| EvCondSignal
| EvBufferRelease
| EvPortSend
| EvNoBufferMessage
| EvWrite (fd : Z) (octets : list Z)
| EvRtp (e : rtp_event)
| EvConnectionClosed.

(** ** The JPEG encoder *)

Definition set_lock (s : snapshot_state) (m : option thread) (acquired : Z) : snapshot_state :=
  {| img_lock := m; snapshot_request_n := snapshot_request_n s; image_buffer := image_buffer s;
     image_size := image_size s; already_acquired_lock := acquired; jpeg_state := jpeg_state s |}.

Definition set_image (s : snapshot_state) (img : list Z) (size st : Z) : snapshot_state :=
  {| img_lock := img_lock s; snapshot_request_n := snapshot_request_n s; image_buffer := img;
     image_size := size; already_acquired_lock := already_acquired_lock s; jpeg_state := st |}.

Definition set_request (s : snapshot_state) (n : Z) : snapshot_state :=
  {| img_lock := img_lock s; snapshot_request_n := n; image_buffer := image_buffer s;
     image_size := image_size s; already_acquired_lock := already_acquired_lock s;
     jpeg_state := jpeg_state s |}.

(** [memcpy(&image_buffer[image_size], buffer->data, buffer->length);
    image_size += buffer->length], without a check against [image_max_size]. *)
Definition append_image (s : snapshot_state) (b : MMAL_BUFFER_HEADER_T) : option snapshot_state :=
  src ← slice (buf_data b) 0 (buf_length b);
  img ← blit (image_buffer s) (image_size s) src;
  Some (set_image s img (u32 (image_size s + buf_length b)) (jpeg_state s)).

(** The part of the callback under [if (already_acquired_lock)]. *)
Definition jpeg_locked (s : snapshot_state) (b : MMAL_BUFFER_HEADER_T)
    : option (snapshot_state * list cam_event) :=
  if flag_FRAME_END b && (jpeg_state s =? 0)
  then Some (set_image s (image_buffer s) 0 1, [])
  else
    s ← (if negb (jpeg_state s =? 0) then append_image s b else Some s);
    if flag_FRAME_END b then
      if jpeg_state s =? 1 then
        m ← pthread_mutex_unlock Encoder (img_lock s);
        let s := set_lock (set_request s 0) m 0 in
        Some (set_image s (image_buffer s) (image_size s) 0, [EvCondSignal])
      else Some (set_image s (image_buffer s) (image_size s) 0, [])
    else Some (s, []).

(** The end of the callback: give the buffer back and hand a free one to the
    port; failures are not reported here. *)
Definition jpeg_recycle (env : mmal_env) : list cam_event :=
  EvBufferRelease ::
  (if port_is_enabled env && queue_has_buffer env then [EvPortSend] else []).

Definition jpeg_encoder_output_buffer_callback (env : mmal_env) (s : snapshot_state)
    (b : MMAL_BUFFER_HEADER_T) : option (snapshot_state * list cam_event) :=
  '(s, ev) ←
    (if snapshot_request_n s =? 0 then Some (s, [])
     else
       let s :=
         if already_acquired_lock s =? 0 then
           let '(rc, m) := pthread_mutex_trylock Encoder (img_lock s) in
           if negb (rc =? 0) then set_lock s m 1 else set_lock s m (already_acquired_lock s)
         else s in
       if negb (already_acquired_lock s =? 0) then jpeg_locked s b else Some (s, []));
  Some (s, ev ++ jpeg_recycle env).

(** ** The video encoder *)

Section Video.
Context `{SrtpLib}.

Record video_state := {
  stream : stream_state;
  srtpctx : srtp_sender_context
}.

Definition set_header (s : stream_state) (h : option (list Z)) (size : Z) : stream_state :=
  {| stream_header := h; stream_header_size := size; have_active_client := have_active_client s;
     client_fd := client_fd s; have_active_srtp_receiver := have_active_srtp_receiver s;
     frame_start := frame_start s; srtp_frame_start := srtp_frame_start s |}.

Definition set_client (s : stream_state) (active fd start : Z) : stream_state :=
  {| stream_header := stream_header s; stream_header_size := stream_header_size s;
     have_active_client := active; client_fd := fd;
     have_active_srtp_receiver := have_active_srtp_receiver s;
     frame_start := start; srtp_frame_start := srtp_frame_start s |}.

Definition set_srtp (s : stream_state) (active start : Z) : stream_state :=
  {| stream_header := stream_header s; stream_header_size := stream_header_size s;
     have_active_client := have_active_client s; client_fd := client_fd s;
     have_active_srtp_receiver := active; frame_start := frame_start s;
     srtp_frame_start := start |}.

(** The H.264 header, kept for later connections.  The result of [malloc] is
    not checked: without memory, [memcpy] writes to NULL. *)
Definition video_config (env : mmal_env) (s : stream_state) (b : MMAL_BUFFER_HEADER_T) : outcome stream_state :=
  _ ← c_assert (bool_decide (stream_header s = None));
  if negb (malloc_succeeds env) then Undef else
  h ← lift (slice (buf_data b) 0 (buf_length b));
  Ret (set_header s (Some h) (buf_length b)).

(** The HTTP client: nothing before the first key frame; a failed write ends
    the stream.  [write_ok] is whether [write] returns a non-negative value. *)
Definition video_client (write_ok : bool) (s : stream_state) (b : MMAL_BUFFER_HEADER_T)
    : option (stream_state * list cam_event) :=
  if have_active_client s =? 0 then Some (s, [])
  else
    let start := if flag_KEYFRAME b then 1 else frame_start s in
    let s := set_client s (have_active_client s) (client_fd s) start in
    if frame_start s =? -1 then Some (s, [])
    else
      octets ← slice (buf_data b) 0 (buf_length b);
      if write_ok then Some (s, [EvWrite (client_fd s) octets])
      else Some (set_client s 0 (client_fd s) (-1),
                 [EvWrite (client_fd s) octets; EvConnectionClosed]).

(** The SRTP receiver. *)
Definition video_srtp (v : video_state) (b : MMAL_BUFFER_HEADER_T)
    : option (video_state * list cam_event) :=
  let s := stream v in
  if have_active_srtp_receiver s =? 0
  then Some ({| stream := set_srtp s 0 (-1); srtpctx := srtpctx v |}, [])
  else
    let start := if flag_KEYFRAME b then 1 else srtp_frame_start s in
    let s := set_srtp s (have_active_srtp_receiver s) start in
    if srtp_frame_start s =? -1 then Some ({| stream := s; srtpctx := srtpctx v |}, [])
    else
      '(c, ev) ← srtp_sender_callback (srtpctx v) (buf_data b) (buf_length b);
      Some ({| stream := s; srtpctx := c |}, map EvRtp ev).

Definition video_recycle (env : mmal_env) : list cam_event :=
  EvBufferRelease ::
  (if port_is_enabled env then
     if queue_has_buffer env then
       EvPortSend :: (if send_succeeds env then [] else [EvNoBufferMessage])
     else [EvNoBufferMessage]
   else []).

Definition video_encoder_output_callback (env : mmal_env) (write_ok : bool) (v : video_state)
    (b : MMAL_BUFFER_HEADER_T) : outcome (video_state * list cam_event) :=
  if flag_CONFIG b then
    s ← video_config env (stream v) b;
    Ret ({| stream := s; srtpctx := srtpctx v |}, video_recycle env)
  else if flag_CODECSIDEINFO b then Ret (v, video_recycle env)
  else
    '(s, ev1) ← lift (video_client write_ok (stream v) b);
    '(v, ev2) ← lift (video_srtp {| stream := s; srtpctx := srtpctx v |} b);
    Ret (v, ev1 ++ ev2 ++ video_recycle env).

End Video.

Arguments video_state : clear implicits.
Arguments video_state {_}.
