(* ===== verification/Snapshot.v ===== *)
(** The snapshot exchange between the HTTP server thread and the JPEG encoder
    thread (camera_daemon.c, [server_on_url] and
    [jpeg_encoder_output_buffer_callback]).

    The server thread's actions on the shared state are separate steps; a
    callback of the encoder is one step.  [rs_hist] records the buffers the
    encoder has delivered and [rs_since] how many of them came before the
    current request; both are history variables. *)

From stdpp Require Import relations.
From S2P Require Import Prelude Err SrtpTypes SrtpPolicy Util RtpWorker Camera.

(** ** Frames *)

(** The valid octets of a buffer, and the data of a run of buffers. *)
Definition payload (b : MMAL_BUFFER_HEADER_T) : list Z := take (Z.to_nat (buf_length b)) (buf_data b).

Definition frame_data (bs : list MMAL_BUFFER_HEADER_T) : list Z := concat (map payload bs).

Definition wf_buffer (b : MMAL_BUFFER_HEADER_T) : Prop := 0 <= buf_length b <= zlen (buf_data b).

Definition not_end (b : MMAL_BUFFER_HEADER_T) : Prop := flag_FRAME_END b = false.

(** The image the server would send. *)
Definition image (s : snapshot_state) : list Z := take (Z.to_nat (image_size s)) (image_buffer s).

Definition image_ok (s : snapshot_state) : Prop :=
  0 <= image_size s <= zlen (image_buffer s) /\ zlen (image_buffer s) < 2 ^ 32.

(** ** Appending a buffer *)

Lemma zlen_payload b : wf_buffer b -> zlen (payload b) = buf_length b.
Proof. unfold wf_buffer, payload. intros. rewrite zlen_take by lia. lia. Qed.

Lemma slice_payload b : wf_buffer b -> slice (buf_data b) 0 (buf_length b) = Some (payload b).
Proof. unfold wf_buffer. intros. by rewrite slice_Some by lia. Qed.

Lemma frame_data_snoc bs b : frame_data (bs ++ [b]) = frame_data bs ++ payload b.
Proof. unfold frame_data. rewrite map_app, concat_app. simpl. by rewrite app_nil_r. Qed.

Lemma append_image_Some s b :
  image_ok s -> wf_buffer b -> image_size s + buf_length b <= zlen (image_buffer s) ->
  append_image s b = Some (set_image s
    (take (Z.to_nat (image_size s)) (image_buffer s) ++ payload b ++
     drop (Z.to_nat (image_size s + buf_length b)) (image_buffer s))
    (image_size s + buf_length b) (jpeg_state s)).
Proof.
  intros [Hi Hl] Hb Hfit. unfold append_image. pose proof (zlen_payload b Hb) as Hp.
  rewrite slice_payload by done. simpl. unfold wf_buffer in Hb. unfold blit. rewrite decide_True by lia. simpl.
  rewrite wrap_id by (unfold fits; lia). by rewrite Hp.
Qed.

Lemma append_image_overflow s b :
  0 <= image_size s -> wf_buffer b -> zlen (image_buffer s) < image_size s + buf_length b ->
  append_image s b = None.
Proof.
  intros Hi Hb Hbig. unfold append_image. pose proof (zlen_payload b Hb) as Hp.
  rewrite slice_payload by done. simpl. unfold wf_buffer in Hb. unfold blit. by rewrite decide_False by lia.
Qed.

Lemma append_image_inv s b s' :
  append_image s b = Some s' -> image_ok s -> wf_buffer b ->
  image_ok s' /\ image s' = image s ++ payload b /\
  exists img size, s' = set_image s img size (jpeg_state s) /\ zlen img = zlen (image_buffer s).
Proof.
  intros E Hs Hb. pose proof (zlen_payload b Hb) as Hp. destruct Hs as [Hi Hl].
  destruct (decide (image_size s + buf_length b <= zlen (image_buffer s))).
  2: { rewrite append_image_overflow in E by (done || lia). done. }
  rewrite append_image_Some in E by done. injection E as <-. unfold wf_buffer in Hb.
  assert (forall img : list Z, zlen (take (Z.to_nat (image_size s)) img) = Z.min (image_size s) (zlen img)) as Ht
    by (intros; apply zlen_take; lia).
  split_and!.
  - unfold image_ok. simpl. rewrite !zlen_app, Ht, Hp, zlen_drop by lia. lia.
  - unfold image. simpl. rewrite app_assoc, take_app_length'; [done|].
    pose proof (Ht (image_buffer s)). unfold zlen in *. rewrite length_app. lia.
  - eexists _, _. split; [done|]. rewrite !zlen_app, Ht, Hp, zlen_drop by lia. lia.
Qed.

(** ** The system *)

(** Where the server thread is: outside, holding the lock before the request
    is posted, at the test of the [while] loop (holding the lock), inside
    [pthread_cond_wait], or sending the answer (holding the lock). *)
Inductive server_pc := SIdle | SLocked | STesting | SWaiting | SServing.

#[global] Instance server_pc_eq_dec : EqDecision server_pc.
Proof. solve_decision. Defined.

Record sys := {
  rs_snap : snapshot_state;
  rs_pc : server_pc;
  rs_hist : list MMAL_BUFFER_HEADER_T;
  rs_since : nat
}.

Definition with_lock (s : snapshot_state) (m : option thread) : snapshot_state :=
  set_lock s m (already_acquired_lock s).

(** One action of the server thread; [None] when it cannot go on (a lock that
    is taken) or would be undefined (releasing a lock it does not own).  A
    waiter may wake without a signal. *)
Definition server_step (s : snapshot_state) (pc : server_pc) : option (snapshot_state * server_pc) :=
  match pc with
  | SIdle =>
      match img_lock s with
      | None => Some (with_lock s (Some Server), SLocked)
      | Some _ => None
      end
  | SLocked => Some (set_request s 1, STesting)
  | STesting =>
      if snapshot_request_n s =? 0 then Some (s, SServing)
      else m ← pthread_mutex_unlock Server (img_lock s); Some (with_lock s m, SWaiting)
  | SWaiting =>
      match img_lock s with
      | None => Some (with_lock s (Some Server), STesting)
      | Some _ => None
      end
  | SServing => m ← pthread_mutex_unlock Server (img_lock s); Some (with_lock s m, SIdle)
  end.

Inductive sys_step : sys -> sys -> Prop :=
| step_server x s pc :
    server_step (rs_snap x) (rs_pc x) = Some (s, pc) ->
    sys_step x {| rs_snap := s; rs_pc := pc; rs_hist := rs_hist x;
                  rs_since := if decide (rs_pc x = SLocked) then List.length (rs_hist x) else rs_since x |}
| step_encoder x env b s ev :
    wf_buffer b ->
    jpeg_encoder_output_buffer_callback env (rs_snap x) b = Some (s, ev) ->
    sys_step x {| rs_snap := s; rs_pc := rs_pc x; rs_hist := rs_hist x ++ [b];
                  rs_since := rs_since x |}.

(** [main] leaves a zeroed state with an image buffer of [size] octets. *)
Definition sys_init (size : Z) : sys :=
  {| rs_snap := {| img_lock := None; snapshot_request_n := 0;
                   image_buffer := replicate (Z.to_nat size) 0; image_size := 0;
                   already_acquired_lock := 0; jpeg_state := 0 |};
     rs_pc := SIdle; rs_hist := []; rs_since := 0 |}.

Definition reachable (size : Z) : sys -> Prop := rtc sys_step (sys_init size).

(** ** What the server sends *)

(** [img] is the data of one whole frame of the history: the buffers between
    two consecutive end-of-frame markers, the second included, the first
    marker not older than [since]. *)
Definition whole_frame (since : nat) (h : list MMAL_BUFFER_HEADER_T) (img : list Z) : Prop :=
  exists pre e0 mid e1 post, h = pre ++ e0 :: mid ++ e1 :: post /\
    (since <= List.length pre)%nat /\ flag_FRAME_END e0 = true /\ Forall not_end mid /\
    flag_FRAME_END e1 = true /\ img = frame_data (mid ++ [e1]).

(** The same while the frame is still coming in. *)
Definition partial_frame (since : nat) (h : list MMAL_BUFFER_HEADER_T) (img : list Z) : Prop :=
  exists pre e0 mid, h = pre ++ e0 :: mid /\ (since <= List.length pre)%nat /\
    flag_FRAME_END e0 = true /\ Forall not_end mid /\ img = frame_data mid.

(** The request has been posted and not yet been answered. *)
Definition requested (pc : server_pc) : Prop := pc = STesting \/ pc = SWaiting \/ pc = SServing.

Record snap_inv (x : sys) : Prop := {
  inv_image : image_ok (rs_snap x);
  inv_n : snapshot_request_n (rs_snap x) = 0 \/ snapshot_request_n (rs_snap x) = 1;
  inv_st : jpeg_state (rs_snap x) = 0 \/ jpeg_state (rs_snap x) = 1;
  inv_acq : already_acquired_lock (rs_snap x) = 0 \/ already_acquired_lock (rs_snap x) = 1;
  inv_acq_n : already_acquired_lock (rs_snap x) = 1 -> snapshot_request_n (rs_snap x) = 1;
  inv_st_acq : jpeg_state (rs_snap x) = 1 -> already_acquired_lock (rs_snap x) = 1;
  inv_pc : snapshot_request_n (rs_snap x) = 1 -> rs_pc x = STesting \/ rs_pc x = SWaiting;
  inv_since : (rs_since x <= List.length (rs_hist x))%nat;
  inv_partial : jpeg_state (rs_snap x) = 1 ->
    partial_frame (rs_since x) (rs_hist x) (image (rs_snap x));
  inv_whole : snapshot_request_n (rs_snap x) = 0 -> requested (rs_pc x) ->
    whole_frame (rs_since x) (rs_hist x) (image (rs_snap x))
}.

Lemma whole_frame_later since h b img :
  whole_frame since h img -> whole_frame since (h ++ [b]) img.
Proof.
  intros (pre & e0 & mid & e1 & post & -> & H). exists pre, e0, mid, e1, (post ++ [b]).
  split; [|done]. by rewrite <- app_assoc, <- !app_comm_cons, <- app_assoc, <- app_comm_cons.
Qed.

Lemma partial_frame_start since h b :
  (since <= List.length h)%nat -> flag_FRAME_END b = true -> partial_frame since (h ++ [b]) [].
Proof. intros. exists h, b, []. done. Qed.

Lemma partial_frame_more since h b img :
  partial_frame since h img -> not_end b -> partial_frame since (h ++ [b]) (img ++ payload b).
Proof.
  intros (pre & e0 & mid & -> & Hl & He & Hm & ->) Hb. exists pre, e0, (mid ++ [b]).
  rewrite <- app_assoc, <- app_comm_cons, frame_data_snoc. split_and!; try done.
  apply Forall_app. by repeat constructor.
Qed.

Lemma partial_frame_end since h b img :
  partial_frame since h img -> flag_FRAME_END b = true ->
  whole_frame since (h ++ [b]) (img ++ payload b).
Proof.
  intros (pre & e0 & mid & -> & Hl & He & Hm & ->) Hb. exists pre, e0, mid, b, [].
  rewrite <- app_assoc, <- app_comm_cons, frame_data_snoc. done.
Qed.

Lemma snap_inv_init size : 0 <= size < 2 ^ 32 -> snap_inv (sys_init size).
Proof.
  intros Hs. split; simpl; try (by left); try done; try lia.
  - unfold image_ok, zlen. simpl. rewrite length_replicate. lia.
  - intros _ Hr. by destruct Hr as [? | [? | ?]].
Qed.

Lemma snap_inv_server x s pc since :
  snap_inv x -> server_step (rs_snap x) (rs_pc x) = Some (s, pc) ->
  since = (if decide (rs_pc x = SLocked) then List.length (rs_hist x) else rs_since x) ->
  snap_inv {| rs_snap := s; rs_pc := pc; rs_hist := rs_hist x; rs_since := since |}.
Proof.
  intros [Hi Hn Hst Ha Han Hsa Hpc Hsin Hp Hw] E ->. unfold server_step in E.
  assert (forall m, image (with_lock (rs_snap x) m) = image (rs_snap x)) as Him by done.
  destruct (rs_pc x) eqn:Epc; simpl in *.
  - destruct (img_lock _); [done|]. injection E as <- <-.
    split; simpl; auto.
    + intros H1. by destruct (Hpc H1).
    + intros _ Hr. by destruct Hr as [? | [? | ?]].
  - injection E as <- <-.
    assert (snapshot_request_n (rs_snap x) = 0) as Hz.
    { destruct Hn as [|H1]; [done|]. by destruct (Hpc H1). }
    split; simpl; auto; try lia.
  - case_if.
    + injection E as <- <-. split; simpl; auto; try lia.
      intros _ _. apply Hw; [done|by left].
    + inv_option. split; simpl; auto; intros; try lia.
  - destruct (img_lock _); [done|]. injection E as <- <-.
    split; simpl; auto. intros Hz _. rewrite Him. apply Hw; [done|by right; left].
  - inv_option. split; simpl; auto.
    + intros H1. by destruct (Hpc H1).
    + intros _ Hr. by destruct Hr as [? | [? | ?]].
Qed.

(** The part of the callback that runs once the static flag is set. *)
Lemma jpeg_locked_inv x b s ev m :
  snap_inv x -> wf_buffer b -> snapshot_request_n (rs_snap x) = 1 ->
  jpeg_locked (set_lock (rs_snap x) m 1) b = Some (s, ev) ->
  snap_inv {| rs_snap := s; rs_pc := rs_pc x; rs_hist := rs_hist x ++ [b]; rs_since := rs_since x |}.
Proof.
  intros [Hi Hn Hst Ha Han Hsa Hpc Hsin Hp Hw] Hb H1 E. unfold jpeg_locked in E. simpl in E.
  assert (rs_since x <= List.length (rs_hist x ++ [b]))%nat as Hsin' by (rewrite length_app; lia).
  destruct Hst as [Hst | Hst]; rewrite Hst in E.
  - change (0 =? 0) with true in E. rewrite andb_true_r in E. simpl in E.
    destruct (flag_FRAME_END b) eqn:Eb; simplify_eq; split; simpl; auto; intros; try lia.
    + unfold image_ok in *. simpl. lia.
    + by apply partial_frame_start.
  - change (1 =? 0) with false in E. rewrite andb_false_r in E. simpl in E.
    inv_option. rename H into Ea, x0 into s1.
    destruct (append_image_inv _ b s1 Ea Hi Hb) as (Hi1 & Him & img & size & -> & Hz).
    change (image (set_lock (rs_snap x) m 1)) with (image (rs_snap x)) in Him.
    simpl in E. rewrite Hst in E. change (1 =? 1) with true in E.
    destruct (flag_FRAME_END b) eqn:Eb; inv_option; split; simpl; auto; intros; try lia.
    + unfold image in *. simpl in *. rewrite Him. apply partial_frame_end; [by apply Hp|done].
    + unfold image in *. simpl in *. rewrite Him. apply partial_frame_more; [by apply Hp|done].
Qed.

Lemma snap_inv_encoder x env b s ev :
  snap_inv x -> wf_buffer b ->
  jpeg_encoder_output_buffer_callback env (rs_snap x) b = Some (s, ev) ->
  snap_inv {| rs_snap := s; rs_pc := rs_pc x; rs_hist := rs_hist x ++ [b]; rs_since := rs_since x |}.
Proof.
  intros Hx Hb E. unfold jpeg_encoder_output_buffer_callback in E. inv_option.
  destruct x0 as [s1 ev1]. simplify_eq. rename H into E.
  assert (forall m, snapshot_request_n (rs_snap x) = 0 \/ jpeg_state (rs_snap x) = 0 ->
    snap_inv {| rs_snap := set_lock (rs_snap x) m (already_acquired_lock (rs_snap x));
       rs_pc := rs_pc x; rs_hist := rs_hist x ++ [b]; rs_since := rs_since x |}) as Hkeep.
  { destruct Hx as [Hi Hn Hst Ha Han Hsa Hpc Hsin Hp Hw]. intros m Hor.
    split; simpl; auto; intros.
    - rewrite length_app. lia.
    - destruct Hor; [|lia]. specialize (Han (Hsa H)). lia.
    - apply whole_frame_later. by apply Hw. }
  destruct (rs_snap x) as [lk n img sz acq st] eqn:Es. simpl in E.
  pose proof (inv_acq x Hx) as Ha. pose proof (inv_n x Hx) as Hn. rewrite Es in Ha, Hn. simpl in Ha, Hn.
  destruct (n =? 0) eqn:En; bool_to_prop.
  { simplify_eq. apply (Hkeep lk). by left. }
  destruct Hn as [|Hn1]; [done|]. subst n.
  assert (forall m, jpeg_locked (set_lock (rs_snap x) m 1) b = Some (s, ev1) ->
    snap_inv {| rs_snap := s; rs_pc := rs_pc x; rs_hist := rs_hist x ++ [b]; rs_since := rs_since x |})
    as Hl by (intros m; apply jpeg_locked_inv; [done|done|by rewrite Es]).
  rewrite Es in Hl. destruct Ha as [-> | ->].
  - change (0 =? 0) with true in E. cbn [set_lock] in E.
    destruct lk as [t|]; simpl in E.
    + by apply (Hl (Some t)).
    + simplify_eq. apply (Hkeep (Some Encoder)). right.
      pose proof (inv_st_acq x Hx) as Hsa. pose proof (inv_st x Hx) as Hst. rewrite Es in Hsa, Hst.
      simpl in *. lia.
  - change (1 =? 0) with false in E. simpl in E. by apply (Hl lk).
Qed.

Lemma reachable_inv size x : 0 <= size < 2 ^ 32 -> reachable size x -> snap_inv x.
Proof.
  intros Hs. unfold reachable. intros Hr. pose proof (snap_inv_init size Hs) as H0.
  induction Hr as [y|y z w Hstep _ IH]; [done|]. apply IH. destruct Hstep.
  - by eapply snap_inv_server.
  - by eapply snap_inv_encoder.
Qed.

(** ** A run of callbacks *)

Fixpoint jpeg_run (s : snapshot_state) (bs : list (mmal_env * MMAL_BUFFER_HEADER_T))
    : option (snapshot_state * list cam_event) :=
  match bs with
  | [] => Some (s, [])
  | (env, b) :: bs =>
      '(s, ev) ← jpeg_encoder_output_buffer_callback env s b;
      '(s, evs) ← jpeg_run s bs;
      Some (s, ev ++ evs)
  end.

(** A callback while the encoder holds the lock. *)
Definition collecting (s : snapshot_state) (st : Z) : Prop :=
  img_lock s = Some Encoder /\ snapshot_request_n s = 1 /\ already_acquired_lock s = 1 /\
  jpeg_state s = st /\ image_ok s.

Lemma callback_collecting env s st b :
  collecting s st ->
  jpeg_encoder_output_buffer_callback env s b =
    '(s, ev) ← jpeg_locked s b; Some (s, ev ++ jpeg_recycle env).
Proof.
  intros (_ & Hn & Ha & _). unfold jpeg_encoder_output_buffer_callback. rewrite Hn, Ha.
  change (1 =? 0) with false. cbn iota. by rewrite Ha.
Qed.

Lemma jpeg_run_skip bs s : collecting s 0 -> Forall (fun b => not_end (snd b)) bs ->
  exists evs, jpeg_run s bs = Some (s, evs).
Proof.
  intros Hs. induction 1 as [|[env b] bs Hb _ [evs IH]]; [by eexists|]. simpl.
  rewrite (callback_collecting env s 0) by done.
  destruct Hs as (_ & _ & _ & Hst & _). unfold jpeg_locked. simpl in Hb. rewrite Hb, Hst. simpl.
  rewrite IH. by eexists.
Qed.

Lemma jpeg_locked_append s b :
  collecting s 1 -> wf_buffer b -> not_end b ->
  image_size s + buf_length b <= zlen (image_buffer s) ->
  exists s', jpeg_locked s b = Some (s', []) /\ collecting s' 1 /\
    zlen (image_buffer s') = zlen (image_buffer s) /\ image s' = image s ++ payload b.
Proof.
  intros (Hl & Hn & Ha & Hst & Hi) Hb He Hfit. unfold jpeg_locked, not_end in *. rewrite He, Hst. simpl.
  destruct (append_image s b) as [s1|] eqn:E; [|by rewrite append_image_Some in E].
  destruct (append_image_inv s b s1 E Hi Hb) as (Hi1 & Him & img & size & -> & Hz). simpl.
  eexists. split; [done|]. unfold collecting. by split_and!.
Qed.

Lemma jpeg_locked_finish s b :
  collecting s 1 -> wf_buffer b -> flag_FRAME_END b = true ->
  image_size s + buf_length b <= zlen (image_buffer s) ->
  exists s', jpeg_locked s b = Some (s', [EvCondSignal]) /\ img_lock s' = None /\
    snapshot_request_n s' = 0 /\ already_acquired_lock s' = 0 /\ jpeg_state s' = 0 /\ image_ok s' /\
    zlen (image_buffer s') = zlen (image_buffer s) /\ image s' = image s ++ payload b.
Proof.
  intros (Hl & Hn & Ha & Hst & Hi) Hb He Hfit. unfold jpeg_locked. rewrite He, Hst. simpl.
  destruct (append_image s b) as [s1|] eqn:E; [|by rewrite append_image_Some in E].
  destruct (append_image_inv s b s1 E Hi Hb) as (Hi1 & Him & img & size & -> & Hz). simpl.
  rewrite Hst. simpl. rewrite Hl. simpl. eexists. split; [done|]. by split_and!.
Qed.

Lemma zlen_image s : image_ok s -> zlen (image s) = image_size s.
Proof. intros [Hi _]. unfold image. rewrite zlen_take by lia. lia. Qed.

Lemma jpeg_run_collect env1 e1 mid s :
  collecting s 1 -> Forall (fun b => not_end (snd b)) mid ->
  Forall (fun b => wf_buffer (snd b)) mid -> wf_buffer e1 -> flag_FRAME_END e1 = true ->
  zlen (image s ++ frame_data (map snd mid ++ [e1])) <= zlen (image_buffer s) ->
  exists s' evs, jpeg_run s (mid ++ [(env1, e1)]) = Some (s', evs) /\ img_lock s' = None /\
    snapshot_request_n s' = 0 /\ already_acquired_lock s' = 0 /\ jpeg_state s' = 0 /\ image_ok s' /\
    zlen (image_buffer s') = zlen (image_buffer s) /\
    image s' = image s ++ frame_data (map snd mid ++ [e1]).
Proof.
  revert s. induction mid as [|[env b] mid IH]; intros s Hs Hne Hwf Hw1 He1 Hfit; simpl in *.
  - rewrite (callback_collecting env1 s 1) by done.
    assert (image_size s + buf_length e1 <= zlen (image_buffer s)) as Hf.
    { rewrite zlen_app in Hfit. unfold frame_data in Hfit. simpl in Hfit.
      rewrite app_nil_r, zlen_payload, zlen_image in Hfit by (done || apply Hs). done. }
    destruct (jpeg_locked_finish s e1) as (s' & -> & Hl & Hn & Ha & Hst & Hi & Hz & Him); [done..|].
    simpl. eexists _, _. split; [done|]. split_and!; try done.
    rewrite Him. unfold frame_data. simpl. by rewrite app_nil_r.
  - apply Forall_cons_iff in Hne as [Hb Hne]. apply Forall_cons_iff in Hwf as [Hwb Hwf]. simpl in Hb, Hwb.
    unfold frame_data in *. simpl in Hfit. rewrite app_assoc in Hfit.
    rewrite (callback_collecting env s 1) by done.
    destruct (jpeg_locked_append s b) as (s1 & -> & Hs1 & Hz & Him); [done..| |].
    { rewrite !zlen_app, zlen_payload, zlen_image in Hfit by (done || apply Hs).
      pose proof (zlen_nonneg (concat (map payload (map snd mid ++ [e1])))). lia. }
    simpl. rewrite <- Him, <- Hz in Hfit.
    destruct (IH s1) as (s' & evs & -> & Hl & Hn & Ha & Hst & Hi & Hz' & Him'); [done..|].
    simpl. eexists _, _. split; [done|]. split_and!; try done; [congruence|].
    by rewrite Him', Him, <- app_assoc.
Qed.

Lemma jpeg_run_app s bs bs' :
  jpeg_run s (bs ++ bs') =
    '(s, ev) ← jpeg_run s bs; '(s, evs) ← jpeg_run s bs'; Some (s, ev ++ evs).
Proof.
  revert s. induction bs as [|[env b] bs IH]; intros s; simpl.
  - by destruct (jpeg_run s bs') as [[? ?]|].
  - destruct (jpeg_encoder_output_buffer_callback env s b) as [[s1 ev]|]; [|done]. simpl.
    rewrite IH. destruct (jpeg_run s1 bs) as [[s2 evs]|]; [|done]. simpl.
    destruct (jpeg_run s2 bs') as [[s3 evs']|]; [|done]. simpl. by rewrite app_assoc.
Qed.

(** A lock taken by the encoder on an earlier buffer is noticed by the next
    failing [trylock]. *)
Lemma jpeg_run_acquired s m bs :
  img_lock s = Some m -> already_acquired_lock s = 0 -> snapshot_request_n s = 1 -> bs <> [] ->
  jpeg_run s bs = jpeg_run (set_lock s (Some m) 1) bs.
Proof.
  intros Hl Ha Hn Hb. destruct bs as [|[env b] bs]; [done|]. simpl.
  unfold jpeg_encoder_output_buffer_callback. simpl. rewrite Hl, Ha, Hn. done.
Qed.

(** The whole exchange seen from a waiting server: the first buffer goes to
    taking the lock, buffers up to the end of the current frame are skipped,
    the next frame is collected. *)
Lemma jpeg_run_frame s env0 b0 pre env e0 mid env1 e1 :
  img_lock s = None -> snapshot_request_n s = 1 -> already_acquired_lock s = 0 ->
  jpeg_state s = 0 -> image_ok s ->
  Forall (fun b => not_end (snd b)) pre -> flag_FRAME_END e0 = true ->
  Forall (fun b => not_end (snd b)) mid -> Forall (fun b => wf_buffer (snd b)) mid ->
  wf_buffer e1 -> flag_FRAME_END e1 = true ->
  zlen (frame_data (map snd mid ++ [e1])) <= zlen (image_buffer s) ->
  exists s' evs,
    jpeg_run s ((env0, b0) :: pre ++ (env, e0) :: mid ++ [(env1, e1)]) = Some (s', evs) /\
    img_lock s' = None /\ snapshot_request_n s' = 0 /\ already_acquired_lock s' = 0 /\
    jpeg_state s' = 0 /\ image_ok s' /\ zlen (image_buffer s') = zlen (image_buffer s) /\
    image s' = frame_data (map snd mid ++ [e1]).
Proof.
  intros Hl Hn Ha Hst Hi Hpre He0 Hmid Hwf Hw1 He1 Hfit.
  set (s0 := set_lock s (Some Encoder) 0).
  assert (jpeg_encoder_output_buffer_callback env0 s b0 = Some (s0, jpeg_recycle env0)) as E0.
  { unfold jpeg_encoder_output_buffer_callback. rewrite Hn, Ha, Hl. done. }
  simpl. rewrite E0. simpl.
  rewrite (jpeg_run_acquired s0 Encoder); [|done|done|done|by destruct pre].
  set (s1 := set_lock s0 (Some Encoder) 1).
  assert (collecting s1 0) as Hs1 by (unfold collecting; by split_and!).
  rewrite jpeg_run_app. destruct (jpeg_run_skip pre s1 Hs1 Hpre) as [ev0 ->]. simpl.
  rewrite (callback_collecting env s1 0) by done. unfold jpeg_locked. simpl. rewrite He0, Hst. simpl.
  set (s2 := set_image s1 _ 0 1).
  assert (collecting s2 1) as Hs2.
  { unfold collecting. split_and!; try done. unfold image_ok in *. simpl. lia. }
  destruct (jpeg_run_collect env1 e1 mid s2) as (s' & evs & -> & H'); [done..|].
  simpl. eexists _, _. split; [done|]. exact H'.
Qed.

(** ** Properties *)

(** C5: What the server sends as a snapshot is always one whole frame.  In
    every interleaving of the server thread with the encoder's callbacks, when
    the server sends its answer the image buffer holds exactly the buffers
    between two consecutive end-of-frame markers, concatenated, and the first
    of these markers came after the request was posted (no stale image). *)
Theorem snapshot_served_whole_frame size x :
  0 <= size < 2 ^ 32 -> reachable size x -> rs_pc x = SServing ->
  whole_frame (rs_since x) (rs_hist x) (image (rs_snap x)).
Proof.
  intros Hs Hr Hpc. pose proof (reachable_inv size x Hs Hr) as Hx.
  apply (inv_whole x Hx); [|by right; right].
  destruct (inv_n x Hx) as [|H1]; [done|]. destruct (inv_pc x Hx H1); congruence.
Qed.

(** A small buffer, with or without the end-of-frame mark, and a port that
    asks for nothing more. *)
Definition small_buffer (last : bool) (v : Z) : MMAL_BUFFER_HEADER_T :=
  {| buf_data := [v]; buf_length := 1; flag_FRAME_END := last; flag_KEYFRAME := false;
     flag_CONFIG := false; flag_CODECSIDEINFO := false |}.

Definition idle_port : mmal_env :=
  {| malloc_succeeds := true; port_is_enabled := false; queue_has_buffer := false; send_succeeds := false |}.

Inductive action := AServer | AEncoder (b : MMAL_BUFFER_HEADER_T).

(** A schedule, executed. *)
Definition act (x : sys) (a : action) : option sys :=
  match a with
  | AServer =>
      '(s, pc) ← server_step (rs_snap x) (rs_pc x);
      Some {| rs_snap := s; rs_pc := pc; rs_hist := rs_hist x;
              rs_since := if decide (rs_pc x = SLocked) then List.length (rs_hist x) else rs_since x |}
  | AEncoder b =>
      '(s, _) ← jpeg_encoder_output_buffer_callback idle_port (rs_snap x) b;
      Some {| rs_snap := s; rs_pc := rs_pc x; rs_hist := rs_hist x ++ [b]; rs_since := rs_since x |}
  end.

Definition acts (x : sys) (l : list action) : option sys :=
  foldl (fun x a => x ← x; act x a) (Some x) l.

Definition wf_action (a : action) : Prop :=
  match a with
  | AServer => True
  | AEncoder b => wf_buffer b
  end.

Lemma acts_reachable size l y :
  Forall wf_action l -> acts (sys_init size) l = Some y -> reachable size y.
Proof.
  intros Hl. revert y. induction l as [|a l IH] using rev_ind; intros y E.
  - injection E as <-. constructor.
  - apply Forall_app in Hl as [Hl Ha]. apply Forall_cons_iff in Ha as [Ha _].
    unfold acts in E. rewrite foldl_app in E. simpl in E. inv_option.
    apply rtc_r with x; [by apply IH|]. unfold act in E.
    destruct a as [|b]; inv_option; destruct x0 as [s ev]; simplify_eq.
    + by constructor.
    + by apply (step_encoder x idle_port b s ev).
Qed.

(** A run of the daemon to the point where the server answers. *)
Definition good_schedule : list action :=
  [AServer; AServer; AServer; AEncoder (small_buffer false 1); AEncoder (small_buffer true 2);
   AEncoder (small_buffer false 3); AEncoder (small_buffer true 4); AServer; AServer].

Lemma snapshot_served_whole_frame_witness :
  exists x, acts (sys_init 16) good_schedule = Some x /\
    whole_frame (rs_since x) (rs_hist x) (image (rs_snap x)).
Proof.
  eexists. split; [vm_compute; reflexivity|].
  apply (snapshot_served_whole_frame 16); [lia| |reflexivity].
  apply (acts_reachable 16 good_schedule); [|vm_compute; reflexivity].
  repeat constructor; by vm_compute.
Defined.

(** C40: The test of [pthread_mutex_trylock] is inverted.  When the encoder
    delivers a buffer between the server's [snapshot_request_n = 1] and its
    wait, the failing [trylock] is taken for success: there is a reachable
    state in which the mutex is free, the callback nevertheless believes it
    holds it, and its next end-of-frame buffer, which fits, unlocks a mutex the
    thread does not own (undefined behaviour). *)
Theorem snapshot_unlock_not_owned :
  exists x b, reachable 16 x /\ wf_buffer b /\
    image_size (rs_snap x) + buf_length b <= zlen (image_buffer (rs_snap x)) /\
    img_lock (rs_snap x) = None /\ already_acquired_lock (rs_snap x) = 1 /\
    forall env, jpeg_encoder_output_buffer_callback env (rs_snap x) b = None.
Proof.
  set (l := [AServer; AServer; AEncoder (small_buffer true 1); AServer]).
  destruct (acts (sys_init 16) l) as [x|] eqn:E; [|by vm_compute in E].
  exists x, (small_buffer true 2). split.
  - apply (acts_reachable 16 l); [|done]. repeat constructor; by vm_compute.
  - vm_compute in E. injection E as <-. by repeat split.
Qed.

(** No check against [image_max_size]: while a frame is collected, a
    buffer that does not fit is copied past the end of the image buffer. *)
Theorem jpeg_callback_overflow env s b :
  snapshot_request_n s <> 0 -> already_acquired_lock s = 1 -> jpeg_state s = 1 ->
  0 <= image_size s -> wf_buffer b -> zlen (image_buffer s) < image_size s + buf_length b ->
  jpeg_encoder_output_buffer_callback env s b = None.
Proof.
  intros Hn Ha Hst Hi Hb Hbig. unfold jpeg_encoder_output_buffer_callback, jpeg_locked.
  rewrite (proj2 (Z.eqb_neq _ _) Hn), Ha. change (1 =? 0) with false. cbn iota.
  rewrite Ha, Hst. change (1 =? 0) with false. rewrite andb_false_r. simpl.
  by rewrite append_image_overflow.
Qed.

Lemma jpeg_callback_overflow_witness :
  jpeg_encoder_output_buffer_callback idle_port
    {| img_lock := Some Encoder; snapshot_request_n := 1; image_buffer := [0; 0]; image_size := 2;
       already_acquired_lock := 1; jpeg_state := 1 |} (small_buffer false 7) = None.
Proof. apply jpeg_callback_overflow; by vm_compute. Defined.
