(* ===== verification/Video.v ===== *)
(** Properties of the video encoder's callback: when it writes and sends, and
    what it keeps.  What a live client receives is in LiveStream.v. *)

From S2P Require Import Prelude Err SrtpTypes SrtpPolicy Util RtpWorker Camera Snapshot.

Section VideoRuns.
Context `{SrtpLib}.

(** A run of callbacks, each with MMAL's answers and the result of [write]. *)
Fixpoint video_run (v : video_state) (bs : list (mmal_env * bool * MMAL_BUFFER_HEADER_T))
    : outcome (video_state * list cam_event) :=
  match bs with
  | [] => Ret (v, [])
  | (env, ok, b) :: bs =>
      '(v, ev) ← video_encoder_output_callback env ok v b;
      '(v, evs) ← video_run v bs;
      Ret (v, ev ++ evs)
  end.

(** What was written to descriptors, in order; what was sent over RTP. *)
Definition client_writes (evs : list cam_event) : list (Z * list Z) :=
  omap (fun e => match e with EvWrite fd octets => Some (fd, octets) | _ => None end) evs.

Definition rtp_sent (evs : list cam_event) : list rtp_event :=
  omap (fun e => match e with EvRtp r => Some r | _ => None end) evs.

(** A buffer of encoded video, as opposed to the stream header or side
    information. *)
Definition is_frame (b : MMAL_BUFFER_HEADER_T) : bool :=
  negb (flag_CONFIG b) && negb (flag_CODECSIDEINFO b).

Lemma client_writes_recycle env : client_writes (video_recycle env) = [].
Proof. unfold video_recycle. by repeat case_if. Qed.

Lemma client_writes_write fd o evs : client_writes (EvWrite fd o :: evs) = (fd, o) :: client_writes evs.
Proof. done. Qed.

Lemma client_writes_closed evs : client_writes (EvConnectionClosed :: evs) = client_writes evs.
Proof. done. Qed.

Lemma rtp_sent_recycle env : rtp_sent (video_recycle env) = [].
Proof. unfold video_recycle. by repeat case_if. Qed.

Lemma client_writes_app e1 e2 : client_writes (e1 ++ e2) = client_writes e1 ++ client_writes e2.
Proof. unfold client_writes. apply omap_app. Qed.

Lemma rtp_sent_app e1 e2 : rtp_sent (e1 ++ e2) = rtp_sent e1 ++ rtp_sent e2.
Proof. unfold rtp_sent. apply omap_app. Qed.

(** An HTTP client is connected, no SRTP receiver is. *)
Definition live_only (v : video_state) (fd start : Z) : Prop :=
  have_active_client (stream v) = 1 /\ client_fd (stream v) = fd /\ frame_start (stream v) = start /\
  have_active_srtp_receiver (stream v) = 0.

(** No receiver at all: callbacks write nothing. *)
Lemma video_run_quiet bs : forall v,
  have_active_client (stream v) = 0 -> have_active_srtp_receiver (stream v) = 0 ->
  Forall (fun x => flag_CONFIG (snd x) = false) bs ->
  exists v' evs, video_run v bs = Ret (v', evs) /\ have_active_client (stream v') = 0 /\
    frame_start (stream v') = frame_start (stream v) /\ client_writes evs = [] /\ rtp_sent evs = [].
Proof.
  induction bs as [|[[env ok] b] bs IH]; intros v Ha Hr HF; [by exists v, []|].
  apply Forall_cons_iff in HF as [Hcfg HF]. simpl in Hcfg. cbn [video_run].
  assert (exists v1, video_encoder_output_callback env ok v b = Ret (v1, video_recycle env) /\
    have_active_client (stream v1) = 0 /\ have_active_srtp_receiver (stream v1) = 0 /\
    frame_start (stream v1) = frame_start (stream v)) as (v1 & -> & Ha1 & Hr1 & Hf1).
  { unfold video_encoder_output_callback. rewrite Hcfg. destruct (flag_CODECSIDEINFO b).
    - by exists v.
    - unfold video_client. rewrite Ha. change (0 =? 0) with true. cbn [lift mbind outcome_bind].
      unfold video_srtp. simpl. rewrite Hr. by eexists. }
  cbn [mbind outcome_bind]. destruct (IH v1) as (v' & evs & -> & Ha' & Hf' & Hw' & Hs'); [done..|].
  cbn [mbind outcome_bind]. eexists _, _. split; [done|].
  rewrite client_writes_app, client_writes_recycle, rtp_sent_app, rtp_sent_recycle, Hf', Hf1.
  done.
Qed.

(** A callback whose write fails. *)
Lemma video_step_fails env v b fd :
  live_only v fd 1 -> is_frame b = true -> wf_buffer b ->
  exists v' evs, video_encoder_output_callback env false v b = Ret (v', evs) /\
    have_active_client (stream v') = 0 /\ have_active_srtp_receiver (stream v') = 0 /\
    frame_start (stream v') = -1 /\ client_writes evs = [(fd, payload b)].
Proof.
  intros (Hc & Hf & Hs & Hr) Hb Hw. apply andb_prop in Hb as [H1 H2]. apply negb_true_iff in H1, H2.
  unfold video_encoder_output_callback, video_client. rewrite H1, H2, Hc.
  change (1 =? 0) with false. cbn iota. simpl. rewrite slice_payload, Hs, Hf by done.
  destruct (flag_KEYFRAME b); simpl; unfold video_srtp; simpl; rewrite Hr; simpl;
    eexists _, _; (split; [done|]); rewrite ?client_writes_write, ?client_writes_closed, client_writes_recycle; done.
Qed.

(** A failed write ends the live stream: the client is inactive afterwards
    and later callbacks write nothing to its descriptor. *)
Theorem live_stream_ends_on_error env v b bs fd :
  live_only v fd 1 -> is_frame b = true -> wf_buffer b ->
  Forall (fun x => flag_CONFIG (snd x) = false) bs ->
  exists v' evs, video_run v ((env, false, b) :: bs) = Ret (v', evs) /\
    have_active_client (stream v') = 0 /\ frame_start (stream v') = -1 /\
    client_writes evs = [(fd, payload b)].
Proof.
  intros Hv Hb Hw HF.
  destruct (video_step_fails env v b fd) as (v1 & ev & E & Ha & Hr & Hf & Hev); [done..|].
  destruct (video_run_quiet bs v1 Ha Hr HF) as (v' & evs & E' & Ha' & Hf' & Hw' & _).
  exists v', (ev ++ evs). cbn [video_run]. rewrite E. cbn [mbind outcome_bind]. rewrite E'.
  rewrite client_writes_app, Hev, Hw', Hf', Hf. done.
Qed.

(** Nothing goes out, to either kind of receiver, before a key frame: while
    both streams wait for one, callbacks on other buffers write and send
    nothing, whatever MMAL answers. *)
Theorem no_delivery_before_key_frame v bs :
  frame_start (stream v) = -1 -> srtp_frame_start (stream v) = -1 ->
  Forall (fun x => flag_CONFIG (snd x) = false /\ flag_KEYFRAME (snd x) = false) bs ->
  exists v' evs, video_run v bs = Ret (v', evs) /\ client_writes evs = [] /\ rtp_sent evs = [] /\
    frame_start (stream v') = -1 /\ srtp_frame_start (stream v') = -1 /\ srtpctx v' = srtpctx v.
Proof.
  revert v. induction bs as [|[[env ok] b] bs IH]; intros v Hf Hs HF; [by exists v, []|].
  apply Forall_cons_iff in HF as [[Hcfg Hkey] HF]. simpl in Hcfg, Hkey. cbn [video_run].
  assert (exists v1, video_encoder_output_callback env ok v b = Ret (v1, video_recycle env) /\
    frame_start (stream v1) = -1 /\ srtp_frame_start (stream v1) = -1 /\ srtpctx v1 = srtpctx v)
    as (v1 & -> & Hf1 & Hs1 & Hc1).
  { unfold video_encoder_output_callback. rewrite Hcfg. destruct (flag_CODECSIDEINFO b); [by exists v|].
    unfold video_client, video_srtp. rewrite Hkey.
    destruct (have_active_client (stream v) =? 0); simpl; rewrite ?Hf; simpl;
      destruct (have_active_srtp_receiver (stream v) =? 0); simpl; rewrite ?Hs; simpl; by eexists. }
  cbn [mbind outcome_bind]. destruct (IH v1) as (v' & evs & -> & Hw & Hr & Hf' & Hs' & Hc'); [done..|].
  cbn [mbind outcome_bind]. eexists _, _. split; [done|].
  rewrite client_writes_app, client_writes_recycle, rtp_sent_app, rtp_sent_recycle, Hw, Hr, Hc'.
  done.
Qed.

(** The stream header is stored on the first CONFIG buffer, exactly; a
    second CONFIG buffer, as an encoder sends it after a format change, fails
    the assertion and aborts the daemon. *)
Theorem video_config_once env env' ok ok' v b b' :
  flag_CONFIG b = true -> flag_CONFIG b' = true -> stream_header (stream v) = None -> wf_buffer b ->
  malloc_succeeds env = true ->
  exists v', video_encoder_output_callback env ok v b = Ret (v', video_recycle env) /\
    stream_header (stream v') = Some (payload b) /\
    stream_header_size (stream v') = zlen (payload b) /\
    video_encoder_output_callback env' ok' v' b' = Exit 134.
Proof.
  intros H1 H2 Hh Hw Hm. unfold video_encoder_output_callback, video_config. rewrite H1, H2, Hh, Hm.
  change (bool_decide (None = None)) with true. cbn [c_assert mbind outcome_bind].
  rewrite slice_payload by done. cbn [lift mbind outcome_bind].
  eexists. split; [done|]. simpl. rewrite zlen_payload by done. done.
Qed.

End VideoRuns.

(** ** Instances *)

Definition one_frame (key : bool) (v : Z) : MMAL_BUFFER_HEADER_T :=
  {| buf_data := [v; v]; buf_length := 1; flag_FRAME_END := true; flag_KEYFRAME := key;
     flag_CONFIG := false; flag_CODECSIDEINFO := false |}.

Definition config_buffer : MMAL_BUFFER_HEADER_T :=
  {| buf_data := [9; 8]; buf_length := 2; flag_FRAME_END := false; flag_KEYFRAME := false;
     flag_CONFIG := true; flag_CODECSIDEINFO := false |}.

Definition live_state (client start : Z) : @video_state plain_srtp :=
  {| stream := {| stream_header := None; stream_header_size := 0; have_active_client := client;
                  client_fd := 5; have_active_srtp_receiver := 0; frame_start := start;
                  srtp_frame_start := -1 |};
     srtpctx := plain_sender |}.

Lemma live_stream_ends_on_error_witness :
  exists v' evs, @video_run plain_srtp (live_state 1 1)
      [(idle_port, false, one_frame false 1); (idle_port, true, one_frame true 2)] = Ret (v', evs) /\
    have_active_client (stream v') = 0 /\ frame_start (stream v') = -1 /\
    client_writes evs = [(5, [1])].
Proof.
  apply (@live_stream_ends_on_error plain_srtp idle_port (live_state 1 1) (one_frame false 1)
    [(idle_port, true, one_frame true 2)] 5); [by repeat split|done|by vm_compute|by repeat constructor].
Defined.

Lemma no_delivery_before_key_frame_witness :
  exists v' evs, @video_run plain_srtp (live_state 1 (-1)) [(idle_port, true, one_frame false 1)]
      = Ret (v', evs) /\ client_writes evs = [] /\ rtp_sent evs = [] /\
    frame_start (stream v') = -1 /\ srtp_frame_start (stream v') = -1 /\ srtpctx v' = plain_sender.
Proof.
  apply (@no_delivery_before_key_frame plain_srtp (live_state 1 (-1))); [done..|].
  by repeat constructor.
Defined.

Lemma video_config_once_witness :
  exists v', @video_encoder_output_callback plain_srtp idle_port true (live_state 0 (-1)) config_buffer
      = Ret (v', video_recycle idle_port) /\
    stream_header (stream v') = Some (payload config_buffer) /\
    stream_header_size (stream v') = zlen (payload config_buffer) /\
    video_encoder_output_callback idle_port true v' config_buffer = Exit 134.
Proof.
  apply (@video_config_once plain_srtp idle_port idle_port true true (live_state 0 (-1)) config_buffer
    config_buffer); [done..|by vm_compute|done].
Defined.
