(* ===== verification/JsonNumber.v ===== *)
(** Numbers of the cJSON library: doubles as binary64 numbers of the Standard
    Library's [SpecFloat], and what the C library makes of them: [strtod] and
    [sprintf] with the formats that print_number uses, both correctly rounded,
    in the C locale. *)

From Stdlib Require Import SpecFloat.
From S2P Require Import Prelude CString.

Import String.StringSyntax.

(** ** Doubles *)

Abbreviation double := spec_float.

#[global] Instance double_eq_dec : EqDecision double.
Proof. solve_decision. Defined.

(** The double nearest to [(-1)^neg * m * 10^e], [m < 10^64]; ties to even. *)
Definition decimal_double (neg : bool) (m e : Z) : double :=
  match m with
  | Z.pos p =>
      if e >? 400 then S754_infinity neg
      else if e <? -500 then S754_zero neg
      else if e >=? 0 then
        match m * 10 ^ e with Z.pos q => binary_round 53 1024 neg q 0 | _ => S754_nan end
      else
        let '(q, e', l) := SFdiv_core_binary 53 1024 m 0 (10 ^ (- e)) 0 in
        binary_round_aux 53 1024 neg q e' l
  | _ => S754_zero neg
  end.

(** [(double)n] of an [int]. *)
Definition int_double (n : Z) : double := binary_normalize 53 1024 n 0 false.

(** The order of doubles, by value; NaNs are not ordered. *)
Definition significand (d : double) : Z :=
  match d with S754_finite s m _ => if s then Z.neg m else Z.pos m | _ => 0 end.
Definition exponent (d : double) : Z := match d with S754_finite _ _ e => e | _ => 0 end.

Definition double_compare (a b : double) : option comparison :=
  match a, b with
  | S754_nan, _ | _, S754_nan => None
  | S754_infinity s, S754_infinity s' => Some (if eqb s s' then Eq else if s then Lt else Gt)
  | S754_infinity s, _ => Some (if s then Lt else Gt)
  | _, S754_infinity s => Some (if s then Gt else Lt)
  | _, _ =>
      let e := Z.min (exponent a) (exponent b) in
      Some (significand a * 2 ^ (exponent a - e) ?= significand b * 2 ^ (exponent b - e))
  end.

(** [a >= b], [a <= b] and [a == b]. *)
Definition double_ge (a b : double) : bool :=
  match double_compare a b with Some (Eq | Gt) => true | _ => false end.
Definition double_le (a b : double) : bool :=
  match double_compare a b with Some (Eq | Lt) => true | _ => false end.
Definition double_eq (a b : double) : bool :=
  match double_compare a b with Some Eq => true | _ => false end.

(** [(int)d]: truncation, undefined when the value does not fit. *)
Definition double_int (d : double) : option Z :=
  match d with
  | S754_zero _ => Some 0
  | S754_finite s m e =>
      let a := if e >=? 0 then Z.pos m * 2 ^ e else Z.pos m / 2 ^ (- e) in
      let v := if s then - a else a in
      if decide (- 2 ^ 31 <= v < 2 ^ 31) then Some v else None
  | _ => None
  end.

Definition INT_MAX : Z := 2147483647.
Definition INT_MIN : Z := -2147483648.

(** [item->valueint] of a number: saturated. *)
Definition saturate (number : double) : option Z :=
  if double_ge number (int_double INT_MAX) then Some INT_MAX
  else if double_le number (int_double INT_MIN) then Some INT_MIN
  else double_int number.

(** ** strtod *)

Definition is_digit (c : Z) : bool := (48 <=? c) && (c <=? 57).

(** The leading digits and the rest. *)
Fixpoint span_digits (s : list Z) : list Z * list Z :=
  match s with
  | c :: s' => if is_digit c then let '(d, r) := span_digits s' in (c :: d, r) else ([], s)
  | [] => ([], [])
  end.

Definition digits_value (d : list Z) : Z := fold_left (fun v c => 10 * v + (c - 48)) d 0.

Definition span_sign (s : list Z) : bool * list Z :=
  match s with
  | 45 :: s' => (true, s')
  | 43 :: s' => (false, s')
  | _ => (false, s)
  end.

(** The exponent part, when there is one: its value and the rest. *)
Definition span_exponent (s : list Z) : Z * list Z :=
  match s with
  | c :: s' =>
      if (c =? 101) || (c =? 69) then
        let '(neg, s1) := span_sign s' in
        match span_digits s1 with
        | ([], _) => (0, s)
        | (d, r) => (if neg then - digits_value d else digits_value d, r)
        end
      else (0, s)
  | [] => (0, s)
  end.

(** The fraction behind a decimal point. *)
Definition span_fraction (s : list Z) : list Z * list Z :=
  match s with
  | 46 :: s' => span_digits s'
  | _ => ([], s)
  end.

(** [strtod(s, &end)] on a string of digits, signs, points and exponent marks
    in front of its terminator (so neither hexadecimal numbers nor names): the
    value and the octets from [end]. *)
Definition strtod (s : list Z) : double * list Z :=
  let '(neg, s1) := span_sign s in
  let '(i, s2) := span_digits s1 in
  let '(f, s3) := span_fraction s2 in
  match i ++ f with
  | [] => (S754_zero false, s)
  | d => let '(e, s4) := span_exponent s3 in (decimal_double neg (digits_value d) (e - zlen f), s4)
  end.

(** ** sprintf *)

(** [n / d] rounded to an integer, ties to even. *)
Definition round_div (n d : Z) : Z :=
  let q := n / d in
  let r := n - q * d in
  if (2 * r <? d) || ((2 * r =? d) && Z.even q) then q else q + 1.

(** The decimal exponent of [n / d > 0]: [10^x <= n / d < 10^(x+1)]. *)
Fixpoint exponent_up (fuel : nat) (n d x : Z) : Z :=
  match fuel with
  | O => x
  | S fuel => if n >=? 10 * d then exponent_up fuel n (10 * d) (x + 1) else x
  end.

Fixpoint exponent_down (fuel : nat) (n d x : Z) : Z :=
  match fuel with
  | O => x
  | S fuel => if n <? d then exponent_down fuel (10 * n) d (x - 1) else x
  end.

Definition decimal_exponent (n d : Z) : Z :=
  if n <? d then exponent_down 400 n d 0 else exponent_up 400 n d 0.

(** [p] significant digits of [n / d > 0] and the exponent of the first. *)
Definition significant (p n d : Z) : Z * Z :=
  let x := decimal_exponent n d in
  let k := p - 1 - x in
  let v := if k >=? 0 then round_div (n * 10 ^ k) d else round_div n (d * 10 ^ (- k)) in
  if v =? 10 ^ p then (10 ^ (p - 1), x + 1) else (v, x).

(** The last [n] decimal digits of [v], leading zeroes included. *)
Fixpoint fixed_digits (n : nat) (v : Z) : list Z :=
  match n with
  | O => []
  | S n => fixed_digits n (v / 10) ++ [48 + v mod 10]
  end.

(** Digits without trailing zeroes, after a point when any are left. *)
Fixpoint strip_zeroes (d : list Z) : list Z :=
  match d with
  | [] => []
  | c :: d => match strip_zeroes d with [] => if c =? 48 then [] else [c] | d' => c :: d' end
  end.

Definition fraction_text (d : list Z) : list Z :=
  match strip_zeroes d with [] => [] | d => 46 :: d end.

(** [%1.<p>g] of [n / d > 0]. *)
Definition general_text (p : nat) (n d : Z) : list Z :=
  let '(v, x) := significant (Z.of_nat p) n d in
  let ds := fixed_digits p v in
  if (-4 <=? x) && (x <? Z.of_nat p) then
    if x >=? 0 then take (Z.to_nat (x + 1)) ds ++ fraction_text (drop (Z.to_nat (x + 1)) ds)
    else 48 :: fraction_text (replicate (Z.to_nat (- x - 1)) 48 ++ ds)
  else
    take 1 ds ++ fraction_text (drop 1 ds) ++
    [101; if x <? 0 then 45 else 43] ++ fixed_digits (if Z.abs x <? 100 then 2 else 3) (Z.abs x).

(** [sprintf(buffer, "%1.<p>g", d)] of a finite number. *)
Definition print_double (p : nat) (d : double) : list Z :=
  match d with
  | S754_finite s m e =>
      (if s then [45] else []) ++
      (if e >=? 0 then general_text p (Z.pos m * 2 ^ e) 1 else general_text p (Z.pos m) (2 ^ (- e)))
  | S754_zero true => [45; 48]
  | _ => [48]
  end.

(** [d * 0 != 0]: infinities and NaN. *)
Definition not_finite (d : double) : bool :=
  match d with S754_infinity _ | S754_nan => true | _ => false end.

(** The text of print_number: 15 digits when they read back (which is what
    [sscanf] with [%lg] does), else 17. *)
Definition number_text (d : double) : list Z :=
  if not_finite d then str "null"
  else
    let text := print_double 15 d in
    match strtod (text ++ [0]) with
    | (test, _) => if double_eq test d then text else print_double 17 d
    end.

(** ** Lemmas *)

(** A comparison with an integer [n], given as [c * 2^k]. *)
Lemma scaled_compare v e c k n :
  k <= 0 -> c = n * 2 ^ (- k) ->
  (v * 2 ^ (e - Z.min e k) ?= c * 2 ^ (k - Z.min e k)) =
  (if e >=? 0 then v * 2 ^ e ?= n else v ?= n * 2 ^ (- e)).
Proof.
  intros Hk ->. assert (forall x y z, 0 < z -> (x * z ?= y * z) = (x ?= y)) as Hs.
  { intros x y z Hz. symmetry. apply Zmult_compare_compat_r. lia. }
  destruct (Z.geb_spec e 0) as [He|He].
  - rewrite Z.min_r by lia. rewrite Z.sub_diag, Z.mul_1_r. replace (e - k) with (e + - k) by lia.
    rewrite Z.pow_add_r, Z.mul_assoc by lia. apply Hs. lia.
  - destruct (Z.le_ge_cases e k) as [Hek|Hek].
    + rewrite Z.min_l, Z.sub_diag, Z.mul_1_r, <- Z.mul_assoc, <- Z.pow_add_r by lia. do 3 f_equal. lia.
    + rewrite Z.min_r, Z.sub_diag, Z.mul_1_r by lia. replace (- k) with (- e + (e - k)) by lia.
      rewrite Z.pow_add_r, Z.mul_assoc by lia. apply Hs. lia.
Qed.

(** The number is defined for every double but NaN. *)
Lemma saturate_Some d : d <> S754_nan -> exists i, saturate d = Some i /\ INT_MIN <= i <= INT_MAX.
Proof.
  intros Hd. unfold saturate, double_ge, double_le.
  replace (int_double INT_MAX) with (S754_finite false 9007199250546688 (-22)) by (by vm_compute).
  replace (int_double INT_MIN) with (S754_finite true 4503599627370496 (-21)) by (by vm_compute).
  destruct d as [s|s| |s m e]; [by exists 0|destruct s; by eexists|done|].
  cbn [double_compare significand exponent]. rewrite (scaled_compare _ _ _ _ INT_MAX) by done.
  rewrite (scaled_compare _ _ (Z.neg 4503599627370496) _ INT_MIN) by done.
  set (v := if s then Z.neg m else Z.pos m). unfold double_int.
  assert ((if s then - (if e >=? 0 then Z.pos m * 2 ^ e else Z.pos m / 2 ^ (- e))
    else if e >=? 0 then Z.pos m * 2 ^ e else Z.pos m / 2 ^ (- e)) = if e >=? 0 then v * 2 ^ e else Z.quot v (2 ^ (- e))) as ->.
  { unfold v. destruct (Z.geb_spec e 0); destruct s; try lia.
    - change (Z.neg m) with (- Z.pos m). rewrite Z.quot_opp_l by lia. by rewrite Z.quot_div_nonneg by lia.
    - by rewrite Z.quot_div_nonneg by lia. }
  unfold INT_MAX, INT_MIN in *. destruct (Z.geb_spec e 0) as [He|He].
  - destruct (Z.compare_spec (v * 2 ^ e) 2147483647); [eexists; split; [done|lia]| |eexists; split; [done|lia]].
    destruct (Z.compare_spec (v * 2 ^ e) (-2147483648)); [eexists; split; [done|lia]|eexists; split; [done|lia]|].
    rewrite decide_True by lia. eexists. split; [done|lia].
  - assert (0 < 2 ^ (- e)) by lia. set (p := 2 ^ (- e)) in *.
    destruct (Z.compare_spec v (2147483647 * p)); [eexists; split; [done|lia]| |eexists; split; [done|lia]].
    destruct (Z.compare_spec v (-2147483648 * p)); [eexists; split; [done|lia]|eexists; split; [done|lia]|].
    assert (-2147483648 <= Z.quot v p <= 2147483647) by (split; [apply Z.quot_le_lower_bound|apply Z.quot_le_upper_bound]; lia).
    rewrite decide_True by lia. eexists. by split; [done|].
Qed.

(** Rounding a non-negative mantissa gives no NaN. *)
Lemma shr_nonneg n r : 0 <= shr_m r -> 0 <= shr_m (SpecFloat.iter_pos shr_1 n r).
Proof.
  revert r. induction n as [n IH|n IH|]; intros r Hr; simpl; [apply IH, IH| apply IH, IH|];
    destruct r as [[|[p|p|]|p] x y]; simpl in *; lia.
Qed.

Lemma shr_fexp_nonneg m e l : 0 <= m -> 0 <= shr_m (fst (shr_fexp 53 1024 m e l)).
Proof.
  intros Hm. unfold shr_fexp, shr. assert (0 <= shr_m (shr_record_of_loc m l)) by (by destruct l as [|[]]).
  destruct (fexp _ _ _ - e); simpl; [done| |done]. by apply shr_nonneg.
Qed.

Lemma round_aux_not_nan s m e l : 0 <= m -> binary_round_aux 53 1024 s m e l <> S754_nan.
Proof.
  intros Hm. unfold binary_round_aux. pose proof (shr_fexp_nonneg m e l Hm) as H1.
  destruct (shr_fexp 53 1024 m e l) as [r1 e1]. cbn [fst] in H1.
  set (q := round_nearest_even _ _).
  assert (0 <= q) by (unfold q, round_nearest_even; repeat case_match; lia).
  pose proof (shr_fexp_nonneg q e1 loc_Exact ltac:(done)) as H2.
  destruct (shr_fexp 53 1024 q e1 loc_Exact) as [r2 e2]. cbn [fst] in H2.
  destruct (shr_m r2); [done|by case_match|lia].
Qed.

Lemma decimal_double_not_nan neg m e : decimal_double neg m e <> S754_nan.
Proof.
  unfold decimal_double. destruct m as [|p|p]; try done. do 2 (case_match; [done|]).
  destruct (Z.geb_spec e 0) as [He|He].
  - assert (0 < Z.pos p * 10 ^ e) by lia. destruct (Z.pos p * 10 ^ e) as [|q|q]; try lia.
    unfold binary_round. case_match. by apply round_aux_not_nan.
  - unfold SFdiv_core_binary. set (m' := match _ with Z0 => _ | _ => _ end).
    assert (0 <= m') as Hm by (unfold m'; case_match; try done; apply Z.shiftl_nonneg; lia).
    pose proof (Z_div_mod m' (10 ^ (- e)) ltac:(lia)) as Hd. destruct (Z.div_eucl _ _) as [q r].
    apply round_aux_not_nan. assert (0 < 10 ^ (- e)) by lia. nia.
Qed.

Lemma strtod_not_nan s : fst (strtod s) <> S754_nan.
Proof.
  unfold strtod. repeat case_match; simpl; try done. apply decimal_double_not_nan.
Qed.

(** What [strtod] reads. *)
Lemma span_digits_app s d r : span_digits s = (d, r) -> s = d ++ r /\ Forall (fun c => is_digit c = true) d.
Proof.
  revert d r. induction s as [|c s IH]; simpl; intros d r E; [by injection E as <- <-|].
  destruct (is_digit c) eqn:Ec; [|by injection E as <- <-].
  destruct (span_digits s) as [d' r']. injection E as <- <-. destruct (IH d' r' eq_refl) as [-> HF]. by split; [|constructor].
Qed.

(** [r] is the rest of [s] behind characters of numbers. *)
Definition behind (s r : list Z) : Prop := exists p, s = p ++ r /\ Forall (fun c => c <> 0) p.

Lemma behind_refl s : behind s s.
Proof. by exists []. Qed.

Lemma behind_trans s r t : behind s r -> behind r t -> behind s t.
Proof.
  intros (p & -> & Hp) (q & -> & Hq). exists (p ++ q). split; [by rewrite app_assoc|]. by apply Forall_app.
Qed.

Lemma behind_cons c s : c <> 0 -> behind (c :: s) s.
Proof. intros Hc. exists [c]. split; [done|]. by repeat constructor. Qed.

#[local] Hint Resolve behind_refl behind_cons : core.

Lemma behind_digits s d r : span_digits s = (d, r) -> behind s r.
Proof.
  intros [-> HF]%span_digits_app. exists d. split; [done|]. eapply Forall_impl; [|exact HF].
  intros c Hc ->. done.
Qed.

Lemma behind_sign s n r : span_sign s = (n, r) -> behind s r.
Proof.
  unfold span_sign. intros E. repeat case_match; simplify_eq; auto; by apply behind_cons.
Qed.

Lemma behind_fraction s d r : span_fraction s = (d, r) -> behind s r.
Proof.
  unfold span_fraction. intros E. repeat case_match; simplify_eq; auto.
  eapply behind_trans; [by apply behind_cons|by eapply behind_digits].
Qed.

Lemma behind_exponent s e r : span_exponent s = (e, r) -> behind s r.
Proof.
  unfold span_exponent. destruct s as [|c s]; [by intros [= _ <-]|].
  destruct ((c =? 101) || (c =? 69)) eqn:Ec; [|by intros [= _ <-]].
  destruct (span_sign s) as [n s1] eqn:Es. destruct (span_digits s1) as [[|x d] r'] eqn:Ed; [by intros [= _ <-]|].
  intros [= _ <-]. eapply behind_trans; [apply behind_cons; intros ->; done|].
  eapply behind_trans; [by eapply behind_sign|by eapply behind_digits].
Qed.

Lemma strtod_behind s : behind s (snd (strtod s)).
Proof.
  unfold strtod. destruct (span_sign s) as [n s1] eqn:E1, (span_digits s1) as [i s2] eqn:E2, (span_fraction s2) as [f s3] eqn:E3.
  destruct (i ++ f); [done|]. destruct (span_exponent s3) as [e s4] eqn:E4. simpl.
  eapply behind_trans; [by eapply behind_sign|]. eapply behind_trans; [by eapply behind_digits|].
  eapply behind_trans; [by eapply behind_fraction|]. by eapply behind_exponent.
Qed.

(** It stays in front of the terminator. *)
Lemma strtod_inside t : Forall (fun c => c <> 0) t ->
  exists n, zlen (snd (strtod (t ++ [0]))) = zlen t + 1 - n /\ 0 <= n <= zlen t.
Proof.
  intros Ht. destruct (strtod_behind (t ++ [0])) as (p & E & Hp). set (r := snd _) in *.
  assert (zlen (t ++ [0]) = zlen p + zlen r) as Hz by (rewrite E; apply zlen_app). rewrite zlen_app in Hz. change (zlen [0]) with 1 in Hz.
  exists (zlen p). split; [lia|]. split; [apply zlen_nonneg|]. pose proof (zlen_nonneg r).
  destruct (decide (zlen r = 0)) as [Hr|]; [|lia]. exfalso.
  assert (r = []) as Er by (destruct r; [done|unfold zlen in Hr; simpl in Hr; lia]). rewrite Er, app_nil_r in E.
  rewrite <- E in Hp. apply Forall_app in Hp as [_ Hp]. by apply Forall_cons_iff in Hp as [Hp _].
Qed.
