(* ===== verification/Json.v ===== *)
(** JSON values of the cJSON library (cJSON.h, cJSON.c): the data type and the
    queries the daemon makes. *)

From Stdlib Require Import SpecFloat.
From S2P Require Import Prelude CString JsonNumber.

Definition cJSON_Invalid : Z := 0.
Definition cJSON_False : Z := 1 << 0.
Definition cJSON_True : Z := 1 << 1.
Definition cJSON_NULL : Z := 1 << 2.
Definition cJSON_Number : Z := 1 << 3.
Definition cJSON_String : Z := 1 << 4.
Definition cJSON_Array : Z := 1 << 5.
Definition cJSON_Object : Z := 1 << 6.
Definition cJSON_Raw : Z := 1 << 7.

(** [struct cJSON]: the chain of children through [next] is a list; strings
    are blocks with their terminator. *)
Inductive cJSON := CJson {
  type : Z;
  valuestring : option (list Z);
  valueint : Z;
  valuedouble : double;
  string : option (list Z);
  child : list cJSON
}.

Definition has_type (item : option cJSON) (t : Z) : bool :=
  match item with
  | None => false
  | Some i => (type i & 0xFF) =? t
  end.

Definition cJSON_IsInvalid item := has_type item cJSON_Invalid.
Definition cJSON_IsFalse item := has_type item cJSON_False.
Definition cJSON_IsTrue item := has_type item cJSON_True.
Definition cJSON_IsNull item := has_type item cJSON_NULL.
Definition cJSON_IsNumber item := has_type item cJSON_Number.
Definition cJSON_IsString item := has_type item cJSON_String.
Definition cJSON_IsArray item := has_type item cJSON_Array.
Definition cJSON_IsObject item := has_type item cJSON_Object.

Definition cJSON_IsBool (item : option cJSON) : bool :=
  match item with
  | None => false
  | Some i => negb ((type i & (cJSON_True .| cJSON_False)) =? 0)
  end.

Definition cJSON_GetArraySize (array : option cJSON) : Z :=
  match array with
  | None => 0
  | Some a => s32 (u32 (zlen (child a)))
  end.

(** The loop that walks [index] children; [index] is a [size_t]. *)
Fixpoint walk_children (l : list cJSON) (index : Z) : option cJSON :=
  match l with
  | [] => None
  | c :: l' => if 0 <? index then walk_children l' (index - 1) else Some c
  end.

Definition get_array_item (array : option cJSON) (index : Z) : option cJSON :=
  a ← array; walk_children (child a) index.

Definition cJSON_GetArrayItem (array : option cJSON) (index : Z) : option cJSON :=
  if index <? 0 then None else get_array_item array index.

(** [tolower] of the C locale, on [unsigned char] values. *)
Definition tolower (c : Z) : Z := if (65 <=? c) && (c <=? 90) then c + 32 else c.

(** The comparison loop; it leaves the blocks only on unterminated strings. *)
Fixpoint case_insensitive_loop (s1 s2 : list Z) : option Z :=
  match s1, s2 with
  | a :: s1', b :: s2' =>
      if tolower a =? tolower b then
        if a =? 0 then Some 0 else case_insensitive_loop s1' s2'
      else Some (tolower a - tolower b)
  | _, _ => None
  end.

Definition case_insensitive_strcmp (s1 s2 : option (list Z)) : option Z :=
  match s1, s2 with
  | Some a, Some b => case_insensitive_loop a b
  | _, _ => Some 1
  end.

(** The search loop of [get_object_item]: the outer option is undefined
    behaviour, the inner one is the pointer. *)
Fixpoint find_item (l : list cJSON) (name : list Z) (case_sensitive : bool) : option (option cJSON) :=
  match l with
  | [] => Some None
  | c :: l' =>
      match case_sensitive, string c with
      | true, None => Some (Some c)
      | true, Some n =>
          r ← strcmp name n;
          if r =? 0 then Some (Some c) else find_item l' name case_sensitive
      | false, n =>
          r ← case_insensitive_strcmp (Some name) n;
          if r =? 0 then Some (Some c) else find_item l' name case_sensitive
      end
  end.

Definition get_object_item (object : option cJSON) (name : option (list Z)) (case_sensitive : bool)
    : option (option cJSON) :=
  match object, name with
  | Some o, Some n =>
      current ← find_item (child o) n case_sensitive;
      match current with
      | Some c => Some (match string c with Some _ => Some c | None => None end)
      | None => Some None
      end
  | _, _ => Some None
  end.

Definition cJSON_GetObjectItem (object : option cJSON) (name : list Z) : option (option cJSON) :=
  get_object_item object (Some name) false.

Definition cJSON_GetObjectItemCaseSensitive (object : option cJSON) (name : list Z)
    : option (option cJSON) :=
  get_object_item object (Some name) true.

(** ** Lookup *)

(** A terminated string. *)
Definition cstring (s : list Z) : list Z := s ++ [0].

Definition nul_free (s : list Z) : Prop := Forall (fun c => c <> 0) s.

Lemma strncmp_eq n a b :
  nul_free a -> nul_free b -> (List.length a < n)%nat ->
  exists r, strncmp n (cstring a) (cstring b) = Some r /\ (r = 0 <-> a = b).
Proof.
  unfold cstring. revert n b. induction a as [|x a IH]; intros n b Ha Hb Hn; (destruct n as [|n]; [lia|]).
  - destruct b as [|y b]; simpl; [by exists 0|]. apply Forall_cons_iff in Hb as [Hy _].
    rewrite (proj2 (Z.eqb_neq 0 y)) by done. simpl. eexists. split; [done|].
    split; [lia|done].
  - apply Forall_cons_iff in Ha as [Hx Ha]. destruct b as [|y b]; simpl.
    + rewrite (proj2 (Z.eqb_neq x 0)) by done. simpl. eexists. split; [done|]. split; [lia|done].
    + apply Forall_cons_iff in Hb as [Hy Hb]. destruct (x =? y) eqn:E; bool_to_prop; simpl.
      * subst y. rewrite (proj2 (Z.eqb_neq x 0)) by done. simpl in Hn.
        destruct (IH n b) as (r & -> & Hr); [done|done|lia|]. exists r. split; [done|].
        rewrite Hr. split; [by intros ->|by intros [=]].
      * eexists. split; [done|]. split; [lia|]. intros [= -> _]. done.
Qed.

Lemma strcmp_eq a b : nul_free a -> nul_free b ->
  exists r, strcmp (cstring a) (cstring b) = Some r /\ (r = 0 <-> a = b).
Proof.
  intros. apply strncmp_eq; [done..|]. unfold cstring. rewrite length_app. simpl. lia.
Qed.

(** An object as the parser builds it: every child has a name. *)
Definition named (c : cJSON) (n : list Z) : Prop := string c = Some (cstring n) /\ nul_free n.

(** [cJSON_GetObjectItemCaseSensitive] is lookup of the first child with
    that name: on an object whose children are named it returns the first one
    whose name equals the argument, and NULL when there is none. *)
Theorem GetObjectItemCaseSensitive_lookup o names name :
  Forall2 named (child o) names -> nul_free name ->
  exists r, cJSON_GetObjectItemCaseSensitive (Some o) (cstring name) = Some r /\
    match r with
    | Some c => exists i, child o !! i = Some c /\ names !! i = Some name /\
        forall j n, (j < i)%nat -> names !! j = Some n -> n <> name
    | None => name ∉ names
    end.
Proof.
  unfold cJSON_GetObjectItemCaseSensitive, get_object_item. simpl. generalize (child o) as l.
  intros l HF Hn. induction HF as [|c n l names [Hc Hnf] HF IH]; simpl.
  - exists None. split; [done|]. apply not_elem_of_nil.
  - rewrite Hc. destruct (strcmp_eq name n Hn Hnf) as (r & -> & Hr). simpl. case_if.
    + simpl. rewrite Hc. exists (Some c). split; [done|]. exists 0%nat. simpl.
      rewrite (proj1 Hr) by done. split_and!; try done. intros j n' Hj. lia.
    + destruct IH as (r' & E & Hr'). exists r'. split; [exact E|]. destruct r' as [c'|].
      * destruct Hr' as (i & Hi & Hni & Hj). exists (S i). split_and!; try done.
        intros [|j] n' Hlt Hn'; simpl in Hn'; [|by apply (Hj j); [lia|]].
        injection Hn' as <-. intros ->. by apply Eif, Hr.
      * rewrite not_elem_of_cons. split; [|done]. intros ->. by apply Eif, Hr.
Qed.

Lemma GetObjectItemCaseSensitive_lookup_witness :
  exists r, cJSON_GetObjectItemCaseSensitive
      (Some (CJson 64 None 0 (S754_zero false) None [CJson 8 None 5 (S754_zero false) (Some (cstring [97])) [];
                                   CJson 8 None 6 (S754_zero false) (Some (cstring [98])) []])) (cstring [98]) = Some r /\
    match r with
    | Some c => exists i,
        [CJson 8 None 5 (S754_zero false) (Some (cstring [97])) []; CJson 8 None 6 (S754_zero false) (Some (cstring [98])) []] !! i = Some c /\
        [[97]; [98]] !! i = Some [98] /\
        forall j n, (j < i)%nat -> [[97]; [98]] !! j = Some n -> n <> [98]
    | None => [98] ∉ [[97]; [98]]
    end.
Proof.
  apply (GetObjectItemCaseSensitive_lookup
    (CJson 64 None 0 (S754_zero false) None [CJson 8 None 5 (S754_zero false) (Some (cstring [97])) [];
                           CJson 8 None 6 (S754_zero false) (Some (cstring [98])) []]) [[97]; [98]]);
    repeat constructor; done.
Defined.
