(* ===== verification/JsonMem.v ===== *)
(** Memory of the cJSON library (cJSON.c): its allocator hooks, the
    constructor, the destructor and [cJSON_strdup]. *)

From Stdlib Require Import SpecFloat.
From S2P Require Import Prelude CString JsonNumber Json.

Definition cJSON_IsReference : Z := 256.
Definition cJSON_StringIsConst : Z := 512.

(** The hooks: the number of calls of [allocate] so far and of blocks that are
    not freed. *)
Record internal_hooks := { tick : nat; live : Z }.

Definition deallocate (h : internal_hooks) : internal_hooks := {| tick := tick h; live := live h - 1 |}.

Definition has_flag (item : cJSON) (flag : Z) : bool := negb ((type item & flag) =? 0).

(** [cJSON_Delete] of one item of a chain. *)
Fixpoint delete_item (item : cJSON) (h : internal_hooks) : internal_hooks :=
  let h := if negb (has_flag item cJSON_IsReference) then
             (fix go (l : list cJSON) h := match l with [] => h | c :: l => go l (delete_item c h) end) (child item) h
           else h in
  let h := match valuestring item with
           | Some _ => if negb (has_flag item cJSON_IsReference) then deallocate h else h
           | None => h
           end in
  let h := match string item with
           | Some _ => if negb (has_flag item cJSON_StringIsConst) then deallocate h else h
           | None => h
           end in
  deallocate h.

(** [cJSON_Delete(item)], with the chain of [item]. *)
Fixpoint cJSON_Delete (chain : list cJSON) (h : internal_hooks) : internal_hooks :=
  match chain with
  | [] => h
  | item :: chain => cJSON_Delete chain (delete_item item h)
  end.

(** A new item: zeroed memory. *)
Definition empty_item : cJSON := CJson cJSON_Invalid None 0 (S754_zero false) None [].

Definition with_type (item : cJSON) (t : Z) : cJSON :=
  CJson t (valuestring item) (valueint item) (valuedouble item) (string item) (child item).
Definition with_valuestring (item : cJSON) (s : option (list Z)) : cJSON :=
  CJson (type item) s (valueint item) (valuedouble item) (string item) (child item).
Definition with_number (item : cJSON) (i : Z) (d : double) : cJSON :=
  CJson (type item) (valuestring item) i d (string item) (child item).
Definition with_string (item : cJSON) (s : option (list Z)) : cJSON :=
  CJson (type item) (valuestring item) (valueint item) (valuedouble item) s (child item).
Definition with_child (item : cJSON) (l : list cJSON) : cJSON :=
  CJson (type item) (valuestring item) (valueint item) (valuedouble item) (string item) l.

Section Memory.
Context (ok : nat -> bool).

(** [hooks->allocate(size)]: whether the [n]th call succeeds is up to the
    allocator. *)
Definition allocate (h : internal_hooks) : internal_hooks * bool :=
  ({| tick := S (tick h); live := live h + (if ok (tick h) then 1 else 0) |}, ok (tick h)).

Definition cJSON_New_Item (h : internal_hooks) : internal_hooks * option cJSON :=
  let '(h, r) := allocate h in (h, if r then Some empty_item else None).

(** [cJSON_strdup(string, hooks)]; the copy ends with the terminator. *)
Definition cJSON_strdup (string : option (list Z)) (h : internal_hooks) : option (internal_hooks * option (list Z)) :=
  match string with
  | None => Some (h, None)
  | Some s =>
      n ← strlen s;
      let '(h, r) := allocate h in
      Some (h, if r then Some (take (Z.to_nat (n + 1)) s) else None)
  end.

End Memory.

(** ** Accounting *)

(** The blocks that an item owns. *)
Fixpoint blocks (item : cJSON) : Z :=
  (if has_flag item cJSON_IsReference then 0
   else foldr Z.add 0 (map blocks (child item)) + (if valuestring item is Some _ then 1 else 0)) +
  (if has_flag item cJSON_StringIsConst then 0 else if string item is Some _ then 1 else 0) + 1.

Definition chain_blocks (l : list cJSON) : Z := foldr Z.add 0 (map blocks l).

(** Induction over trees. *)
Lemma cJSON_tree_ind (P : cJSON -> Prop) :
  (forall t vs vi vd s c, Forall P c -> P (CJson t vs vi vd s c)) -> forall item, P item.
Proof.
  intros H. fix IH 1. intros [t vs vi vd s c]. apply H. induction c; constructor; [apply IH|assumption].
Qed.

Lemma chain_blocks_app l l' : chain_blocks (l ++ l') = chain_blocks l + chain_blocks l'.
Proof. unfold chain_blocks. induction l; simpl; lia. Qed.

Lemma chain_blocks_cons i l : chain_blocks (i :: l) = blocks i + chain_blocks l.
Proof. done. Qed.

(** The destructor frees what the item owns. *)
Lemma delete_item_spec item : forall h, delete_item item h = {| tick := tick h; live := live h - blocks item |}.
Proof.
  induction item as [t vs vi vd s c IH] using cJSON_tree_ind. intros h.
  assert (forall l h, Forall (fun i => forall h, delete_item i h = {| tick := tick h; live := live h - blocks i |}) l ->
    (fix go (l : list cJSON) h := match l with [] => h | c :: l => go l (delete_item c h) end) l h =
    {| tick := tick h; live := live h - chain_blocks l |}) as Hgo.
  { clear. intros l. induction l as [|i l IH]; intros h Hl.
    - destruct h. unfold chain_blocks. simpl. by rewrite Z.sub_0_r.
    - apply Forall_cons_iff in Hl as [Hi Hl]. rewrite Hi, IH by done. simpl. f_equal. rewrite chain_blocks_cons. lia. }
  cbn [delete_item blocks child valuestring string]. fold (chain_blocks c).
  destruct (has_flag _ cJSON_IsReference), (has_flag _ cJSON_StringIsConst); cbn [negb]; rewrite ?(Hgo c h IH);
    destruct vs, s; unfold deallocate; simpl; f_equal; lia.
Qed.

Lemma cJSON_Delete_spec l h : cJSON_Delete l h = {| tick := tick h; live := live h - chain_blocks l |}.
Proof.
  revert h. induction l as [|i l IH]; intros h; cbn [cJSON_Delete].
  - destruct h. unfold chain_blocks. simpl. by rewrite Z.sub_0_r.
  - rewrite delete_item_spec, IH, chain_blocks_cons. simpl. f_equal. lia.
Qed.
