(* ===== verification/JsonParse.v ===== *)
(** The parser of the cJSON library (cJSON.c): parse_value and the functions
    below it, and [cJSON_ParseWithOpts].

    Reading outside the input and writing outside a string's block are the
    [None] of the option monad, and so is running out of fuel.  Sums of
    positions do not reach the width of [size_t]. *)

From Stdlib Require Import SpecFloat.
From S2P Require Import Prelude CString JsonNumber Json JsonMem.

Import String.StringSyntax.

Definition CJSON_NESTING_LIMIT : Z := 1000.

(** [parse_buffer]; [length] is that of [content], which ends with the
    terminator of the input. *)
Record parse_buffer := { content : list Z; offset : Z; depth : Z; hooks : internal_hooks }.

Definition with_offset (b : parse_buffer) (o : Z) : parse_buffer :=
  {| content := content b; offset := o; depth := depth b; hooks := hooks b |}.
Definition with_depth (b : parse_buffer) (d : Z) : parse_buffer :=
  {| content := content b; offset := offset b; depth := d; hooks := hooks b |}.
Definition with_hooks (b : parse_buffer) (h : internal_hooks) : parse_buffer :=
  {| content := content b; offset := offset b; depth := depth b; hooks := h |}.

Definition can_read (b : parse_buffer) (size : Z) : bool := offset b + size <=? zlen (content b).
Definition can_access_at_index (b : parse_buffer) (index : Z) : bool := offset b + index <? zlen (content b).

(** [buffer_at_offset(buffer)[i]]. *)
Definition buffer_at_offset (b : parse_buffer) (i : Z) : option Z := aget (content b) (offset b + i).

(** [can_access_at_index(buffer, 0) && (buffer_at_offset(buffer)[0] == c)]. *)
Definition at_char (b : parse_buffer) (c : Z) : option bool :=
  if can_access_at_index b 0 then x ← buffer_at_offset b 0; Some (x =? c) else Some false.

(** [can_read(buffer, n) && (strncmp(buffer_at_offset(buffer), word, n) == 0)]. *)
Definition at_word (b : parse_buffer) (word : list Z) : option bool :=
  if can_read b (zlen word) then
    r ← strncmp (length word) (drop (Z.to_nat (offset b)) (content b)) (word ++ [0]); Some (r =? 0)
  else Some false.

(** ** Numbers *)

Definition get_decimal_point : Z := 46.

Definition number_char (c : Z) : bool :=
  is_digit c || (c =? 43) || (c =? 45) || (c =? 101) || (c =? 69) || (c =? 46).

(** The loop that fills [number_c_string], from character [i]. *)
Fixpoint number_loop (n : nat) (i : Z) (b : parse_buffer) : option (list Z) :=
  match n with
  | O => Some []
  | S n =>
      if can_access_at_index b i then
        c ← buffer_at_offset b i;
        if number_char c then
          r ← number_loop n (i + 1) b;
          Some ((if c =? 46 then get_decimal_point else c) :: r)
        else Some []
      else Some []
  end.

Definition parse_number (item : cJSON) (b : parse_buffer) : option (parse_buffer * cJSON * bool) :=
  s ← number_loop 63 0 b;
  let number_c_string := s ++ [0] in
  let '(number, after_end) := strtod number_c_string in
  let consumed := zlen number_c_string - zlen after_end in
  if consumed =? 0 then Some (b, item, false)
  else
    i ← saturate number;
    Some (with_offset b (offset b + consumed), with_type (with_number item i number) cJSON_Number, true).

(** ** Strings *)

Definition hex_digit (c : Z) : option Z :=
  if (48 <=? c) && (c <=? 57) then Some (c - 48)
  else if (65 <=? c) && (c <=? 70) then Some (10 + c - 65)
  else if (97 <=? c) && (c <=? 102) then Some (10 + c - 97)
  else None.

(** The loop of [parse_hex4], [n] digits before its end. *)
Fixpoint hex4_loop (s : list Z) (n : nat) (p h : Z) : option Z :=
  match n with
  | O => Some h
  | S n =>
      c ← aget s p;
      match hex_digit c with
      | Some d => let h := u32 (h + d) in hex4_loop s n (p + 1) (if (0 <? n)%nat then u32 (h << 4) else h)
      | None => Some 0
      end
  end.

Definition parse_hex4 (s : list Z) (p : Z) : option Z := hex4_loop s 4 p 0.

(** The continuation octets, from the last one to the front. *)
Fixpoint utf8_tail (utf8_position : nat) (codepoint : Z) (out : list Z) : Z * list Z :=
  match utf8_position with
  | O => (codepoint, out)
  | S n => utf8_tail n (codepoint >> 6) (u8 ((codepoint .| 0x80) & 0xBF) :: out)
  end.

Definition utf8_encode (codepoint : Z) : option (list Z) :=
  let enc (utf8_length : nat) first_byte_mark :=
    let '(cp, tail) := utf8_tail (utf8_length - 1) codepoint [] in
    Some ((if (1 <? utf8_length)%nat then u8 ((cp .| first_byte_mark) & 0xFF) else u8 (cp & 0x7F)) :: tail) in
  if codepoint <? 0x80 then enc 1%nat 0
  else if codepoint <? 0x800 then enc 2%nat 0xC0
  else if codepoint <? 0x10000 then enc 3%nat 0xE0
  else if codepoint <=? 0x10FFFF then enc 4%nat 0xF0
  else None.

(** [utf16_literal_to_utf8(input_pointer, input_end, &output)]: the octets
    written and the length of the sequence, 0 for a failure. *)
Definition utf16_literal_to_utf8 (s : list Z) (input_pointer input_end : Z) : option (list Z * Z) :=
  let finish codepoint sequence_length :=
    match utf8_encode codepoint with
    | Some o => Some (o, sequence_length)
    | None => Some ([], 0)
    end in
  if input_end - input_pointer <? 6 then Some ([], 0)
  else
    first_code ← parse_hex4 s (input_pointer + 2);
    if (0xDC00 <=? first_code) && (first_code <=? 0xDFFF) then Some ([], 0)
    else if (0xD800 <=? first_code) && (first_code <=? 0xDBFF) then
      let second_sequence := input_pointer + 6 in
      if input_end - second_sequence <? 6 then Some ([], 0)
      else
        c0 ← aget s second_sequence; c1 ← aget s (second_sequence + 1);
        if negb (c0 =? 92) || negb (c1 =? 117) then Some ([], 0)
        else
          second_code ← parse_hex4 s (second_sequence + 2);
          if (second_code <? 0xDC00) || (0xDFFF <? second_code) then Some ([], 0)
          else finish (0x10000 + (((first_code & 0x3FF) << 10) .| (second_code & 0x3FF))) 12
    else finish first_code 6.

(** The loop that looks for the closing quote: its position and the number of
    escaped characters in front of it, or a failure. *)
Fixpoint scan_loop (fuel : nat) (s : list Z) (input_end skipped_bytes : Z) : option (option (Z * Z)) :=
  match fuel with
  | O => None
  | S fuel =>
      if input_end <? zlen s then
        c ← aget s input_end;
        if c =? 34 then Some (Some (input_end, skipped_bytes))
        else if c =? 92 then
          if zlen s <=? input_end + 1 then Some None
          else scan_loop fuel s (input_end + 2) (skipped_bytes + 1)
        else scan_loop fuel s (input_end + 1) skipped_bytes
      else Some None
  end.

(** Octets written behind [out], inside a block of [size] octets. *)
Definition put_out (size : Z) (out octets : list Z) : option (list Z) :=
  if zlen out + zlen octets <=? size then Some (out ++ octets) else None.

(** The character of a two-character escape sequence. *)
Definition simple_escape (c : Z) : option Z :=
  if c =? 98 then Some 8
  else if c =? 102 then Some 12
  else if c =? 110 then Some 10
  else if c =? 114 then Some 13
  else if c =? 116 then Some 9
  else if (c =? 34) || (c =? 92) || (c =? 47) then Some c
  else None.

(** The loop through the literal: where it stops, and what it has written
    unless it fails. *)
Fixpoint unescape_loop (fuel : nat) (s : list Z) (size input_pointer input_end : Z) (out : list Z)
    : option (Z * option (list Z)) :=
  match fuel with
  | O => None
  | S fuel =>
      if input_pointer <? input_end then
        c ← aget s input_pointer;
        if negb (c =? 92) then
          out ← put_out size out [c]; unescape_loop fuel s size (input_pointer + 1) input_end out
        else if input_end - input_pointer <? 1 then Some (input_pointer, None)
        else
          x ← aget s (input_pointer + 1);
          match simple_escape x with
          | Some y => out ← put_out size out [y]; unescape_loop fuel s size (input_pointer + 2) input_end out
          | None =>
              if x =? 117 then
                '(o, sequence_length) ← utf16_literal_to_utf8 s input_pointer input_end;
                if sequence_length =? 0 then Some (input_pointer, None)
                else
                  out ← put_out size out o;
                  unescape_loop fuel s size (input_pointer + sequence_length) input_end out
              else Some (input_pointer, None)
          end
      else Some (input_pointer, Some out)
  end.

Section Parser.
Context (ok : nat -> bool).

Definition parse_string (item : cJSON) (b : parse_buffer) : option (parse_buffer * cJSON * bool) :=
  let input_pointer := offset b + 1 in
  let s := content b in
  c ← buffer_at_offset b 0;
  if negb (c =? 34) then Some (with_offset b input_pointer, item, false)
  else
    r ← scan_loop (S (length s)) s input_pointer 0;
    match r with
    | None => Some (with_offset b input_pointer, item, false)
    | Some (input_end, skipped_bytes) =>
        let allocation_length := input_end - offset b - skipped_bytes in
        let '(h, r) := allocate ok (hooks b) in
        if negb r then Some (with_offset (with_hooks b h) input_pointer, item, false)
        else
          '(p, r) ← unescape_loop (S (length s)) s (allocation_length + 1) input_pointer input_end [];
          match r with
          | None => Some (with_offset (with_hooks b (deallocate h)) p, item, false)
          | Some out =>
              out ← put_out (allocation_length + 1) out [0];
              Some (with_offset (with_hooks b h) (input_end + 1),
                    with_valuestring (with_type item cJSON_String) (Some out), true)
          end
    end.

(** ** White space *)

Fixpoint skip_loop (fuel : nat) (b : parse_buffer) : option parse_buffer :=
  match fuel with
  | O => None
  | S fuel =>
      if can_access_at_index b 0 then
        c ← buffer_at_offset b 0;
        if c <=? 32 then skip_loop fuel (with_offset b (offset b + 1)) else Some b
      else Some b
  end.

Definition buffer_skip_whitespace (b : parse_buffer) : option parse_buffer :=
  b ← skip_loop (S (length (content b))) b;
  Some (if offset b =? zlen (content b) then with_offset b (u32 (offset b - 1)) else b).

(** [buffer] is not NULL and its offset is 0 in the one call. *)
Definition skip_utf8_bom (b : parse_buffer) : option parse_buffer :=
  if can_access_at_index b 4 then
    r ← strncmp 3 (drop (Z.to_nat (offset b)) (content b)) [0xEF; 0xBB; 0xBF; 0];
    Some (if r =? 0 then with_offset b (offset b + 3) else b)
  else Some b.

(** ** Arrays and objects *)

(** A parser for the values inside, and the result of a parser. *)
Abbreviation parsed := (option (parse_buffer * cJSON * bool)).

(** The [do] loop over the elements: [head] is the chain so far. *)
Fixpoint array_loop (fuel : nat) (value : cJSON -> parse_buffer -> parsed) (head : list cJSON) (b : parse_buffer)
    : option (parse_buffer * list cJSON * bool) :=
  match fuel with
  | O => None
  | S fuel =>
      let '(h, new_item) := cJSON_New_Item ok (hooks b) in
      let b := with_hooks b h in
      match new_item with
      | None => Some (b, head, false)
      | Some current_item =>
          b ← buffer_skip_whitespace (with_offset b (offset b + 1));
          '(b, current_item, r) ← value current_item b;
          let head := head ++ [current_item] in
          if negb r then Some (b, head, false)
          else
            b ← buffer_skip_whitespace b;
            more ← at_char b 44;
            if more : bool then array_loop fuel value head b else Some (b, head, true)
      end
  end.

Fixpoint object_loop (fuel : nat) (value : cJSON -> parse_buffer -> parsed) (head : list cJSON) (b : parse_buffer)
    : option (parse_buffer * list cJSON * bool) :=
  match fuel with
  | O => None
  | S fuel =>
      let '(h, new_item) := cJSON_New_Item ok (hooks b) in
      let b := with_hooks b h in
      match new_item with
      | None => Some (b, head, false)
      | Some current_item =>
          b ← buffer_skip_whitespace (with_offset b (offset b + 1));
          '(b, current_item, r) ← parse_string current_item b;
          if negb r then Some (b, head ++ [current_item], false)
          else
            b ← buffer_skip_whitespace b;
            let current_item := with_valuestring (with_string current_item (valuestring current_item)) None in
            colon ← at_char b 58;
            if negb colon then Some (b, head ++ [current_item], false)
            else
              b ← buffer_skip_whitespace (with_offset b (offset b + 1));
              '(b, current_item, r) ← value current_item b;
              let head := head ++ [current_item] in
              if negb r then Some (b, head, false)
              else
                b ← buffer_skip_whitespace b;
                more ← at_char b 44;
                if more : bool then object_loop fuel value head b else Some (b, head, true)
      end
  end.

(** [success:] and [fail:] of both functions. *)
Definition parsed_children (item : cJSON) (t : Z) (b : parse_buffer) (head : list cJSON) : parsed :=
  let b := with_depth b (depth b - 1) in
  Some (with_offset b (offset b + 1), with_child (with_type item t) head, true).

Definition parse_failed (item : cJSON) (b : parse_buffer) (head : list cJSON) : parsed :=
  Some (with_hooks b (cJSON_Delete head (hooks b)), item, false).

(** What both functions do behind the opening bracket, which is at the
    offset; [loop] is the loop over the elements. *)
Definition parse_elements (loop : nat -> list cJSON -> parse_buffer -> option (parse_buffer * list cJSON * bool))
    (t close : Z) (item : cJSON) (b : parse_buffer) : parsed :=
  b ← buffer_skip_whitespace (with_offset b (offset b + 1));
  empty ← at_char b close;
  if empty : bool then parsed_children item t b []
  else if negb (can_access_at_index b 0) then parse_failed item (with_offset b (offset b - 1)) []
  else
    '(b, head, r) ← loop (length (content b)) [] (with_offset b (offset b - 1));
    if negb r then parse_failed item b head
    else
      closed ← at_char b close;
      if closed : bool then parsed_children item t b head else parse_failed item b head.

Definition parse_array (value : cJSON -> parse_buffer -> parsed) (item : cJSON) (b : parse_buffer) : parsed :=
  if CJSON_NESTING_LIMIT <=? depth b then Some (b, item, false)
  else
    let b := with_depth b (depth b + 1) in
    c ← buffer_at_offset b 0;
    if negb (c =? 91) then parse_failed item b []
    else parse_elements (fun fuel => array_loop fuel value) cJSON_Array 93 item b.

Definition parse_object (value : cJSON -> parse_buffer -> parsed) (item : cJSON) (b : parse_buffer) : parsed :=
  if CJSON_NESTING_LIMIT <=? depth b then Some (b, item, false)
  else
    let b := with_depth b (depth b + 1) in
    opened ← at_char b 123;
    if negb opened then parse_failed item b []
    else parse_elements (fun fuel => object_loop fuel value) cJSON_Object 125 item b.

(** [parse_value(item, input_buffer)]; [fuel] bounds the nesting. *)
Fixpoint parse_value (fuel : nat) (item : cJSON) (b : parse_buffer) : parsed :=
  match fuel with
  | O => None
  | S fuel =>
      is_null ← at_word b (str "null");
      if is_null : bool then Some (with_offset b (offset b + 4), with_type item cJSON_NULL, true)
      else
      is_false ← at_word b (str "false");
      if is_false : bool then Some (with_offset b (offset b + 5), with_type item cJSON_False, true)
      else
      is_true ← at_word b (str "true");
      if is_true : bool then
        Some (with_offset b (offset b + 4), with_number (with_type item cJSON_True) 1 (valuedouble item), true)
      else
      if negb (can_access_at_index b 0) then Some (b, item, false)
      else
      c ← buffer_at_offset b 0;
      if c =? 34 then parse_string item b
      else if (c =? 45) || is_digit c then parse_number item b
      else if c =? 91 then parse_array (parse_value fuel) item b
      else if c =? 123 then parse_object (parse_value fuel) item b
      else Some (b, item, false)
  end.

(** Nesting never exceeds the limit. *)
Definition value_fuel : nat := Z.to_nat (CJSON_NESTING_LIMIT + 1).

(** [global_error] and the hooks. *)
Record json_globals := { error_position : option Z; global_hooks : internal_hooks }.

(** [fail:] of [cJSON_ParseWithOpts]. *)
Definition parse_error (b : parse_buffer) (item : list cJSON) : json_globals * Z * option cJSON :=
  let position := if offset b <? zlen (content b) then offset b
                  else if 0 <? zlen (content b) then zlen (content b) - 1 else 0 in
  ({| error_position := Some position; global_hooks := cJSON_Delete item (hooks b) |}, position, None).

(** [cJSON_ParseWithOpts(value, return_parse_end, require_null_terminated)]:
    the globals, [*return_parse_end] as an offset into [value], and the item. *)
Definition cJSON_ParseWithOpts (g : json_globals) (value : option (list Z)) (require_null_terminated : bool)
    : option (json_globals * Z * option cJSON) :=
  match value with
  | None => Some ({| error_position := None; global_hooks := global_hooks g |}, 0, None)
  | Some value =>
      n ← strlen value;
      let b := {| content := take (Z.to_nat (n + 1)) value; offset := 0; depth := 0; hooks := global_hooks g |} in
      let '(h, item) := cJSON_New_Item ok (hooks b) in
      let b := with_hooks b h in
      match item with
      | None => Some (parse_error b [])
      | Some item =>
          b ← skip_utf8_bom b;
          b ← buffer_skip_whitespace b;
          '(b, item, r) ← parse_value value_fuel item b;
          if negb r then Some (parse_error b [item])
          else if require_null_terminated then
            b ← buffer_skip_whitespace b;
            if zlen (content b) <=? offset b then Some (parse_error b [item])
            else
              c ← buffer_at_offset b 0;
              if negb (c =? 0) then Some (parse_error b [item])
              else Some ({| error_position := None; global_hooks := hooks b |}, offset b, Some item)
          else Some ({| error_position := None; global_hooks := hooks b |}, offset b, Some item)
      end
  end.

Definition cJSON_Parse (g : json_globals) (value : option (list Z)) : option (json_globals * Z * option cJSON) :=
  cJSON_ParseWithOpts g value false.

End Parser.
