(* ===== verification/JsonDouble.v ===== *)
(** The round trip of numbers: [strtod] reads the text that print_number makes
    of a finite double, with 15 digits or with 17, as the same double.

    The rounding of [SpecFloat] is related to the rounding of a quotient of
    integers; seventeen digits are then close enough to single out a double. *)

From Stdlib Require Import SpecFloat.
From S2P Require Import Prelude CString JsonNumber Json JsonMem JsonParse.

(** ** Shifting right with the bits lost *)

(** The record holds the integer part of [n / d], its first binary digit behind
    the point and whether there are more. *)
Definition represents (n d : Z) (r : shr_record) : Prop :=
  shr_m r = n / d /\ shr_r r = Z.odd (2 * n / d) /\ shr_s r = negb ((2 * n) mod d =? 0).

Lemma double_quotient n d : 0 <= n -> 0 < d ->
  let r := n mod d in
  (2 * r < d /\ 2 * n / d = 2 * (n / d) /\ (2 * n) mod d = 2 * r) \/
  (d <= 2 * r /\ 2 * n / d = 2 * (n / d) + 1 /\ (2 * n) mod d = 2 * r - d).
Proof.
  intros Hn Hd r. pose proof (Z.div_mod n d ltac:(lia)) as E. pose proof (Z.mod_pos_bound n d Hd) as Hr. fold r in E, Hr.
  destruct (Z.lt_ge_cases (2 * r) d); [left|right]; (split; [done|]); split.
  - symmetry. apply (Z.div_unique _ _ _ (2 * r)); lia.
  - symmetry. apply (Z.mod_unique _ _ (2 * (n / d))); lia.
  - symmetry. apply (Z.div_unique _ _ _ (2 * r - d)); lia.
  - symmetry. apply (Z.mod_unique _ _ (2 * (n / d) + 1)); lia.
Qed.

Lemma odd_double a : Z.odd (2 * a) = false.
Proof. by rewrite Z.odd_mul. Qed.

Lemma odd_double_1 a : Z.odd (2 * a + 1) = true.
Proof. rewrite Z.odd_add, odd_double. done. Qed.

Lemma represents_location n d : 0 <= n -> 0 < d -> represents n d (shr_record_of_loc (n / d) (new_location d (n mod d))).
Proof.
  intros Hn Hd. pose proof (Z.mod_pos_bound n d Hd) as Hr.
  assert (exists l, new_location d (n mod d) = l /\
    (l = loc_Exact /\ n mod d = 0 \/ l = loc_Inexact Lt /\ 0 < n mod d /\ 2 * (n mod d) < d \/
     l = loc_Inexact Eq /\ 2 * (n mod d) = d \/ l = loc_Inexact Gt /\ d < 2 * (n mod d))) as (l & -> & Hl).
  { eexists. split; [done|]. unfold new_location, new_location_even, new_location_odd.
    destruct (Z.even d) eqn:Ed; destruct (Z.eqb_spec (n mod d) 0); try (left; split; [done|lia]); right.
    - destruct (Z.compare_spec (2 * (n mod d)) d); [right; left; split; [done|lia]|left; split; [done|lia]|right; right; split; [done|lia]].
    - assert (2 * (n mod d) <> d) by (intros Eq; rewrite <- Eq, Z.even_mul in Ed; done).
      destruct (Z.compare_spec (2 * (n mod d) + 1) d); [left; split; [done|lia]|left; split; [done|lia]|right; right; split; [done|lia]]. }
  unfold represents. destruct (double_quotient n d Hn Hd) as [(H1 & -> & ->)|(H1 & -> & ->)].
  - destruct Hl as [[-> H]|[[-> H]|[[-> H]|[-> H]]]]; try lia; rewrite odd_double; (split; [done|]); (split; [done|]).
    + by rewrite H.
    + destruct (Z.eqb_spec (2 * (n mod d)) 0); [lia|done].
  - destruct Hl as [[-> H]|[[-> H]|[[-> H]|[-> H]]]]; try lia; rewrite odd_double_1; (split; [done|]); (split; [done|]).
    + destruct (Z.eqb_spec (2 * (n mod d) - d) 0); [done|lia].
    + destruct (Z.eqb_spec (2 * (n mod d) - d) 0); [lia|done].
Qed.

Lemma represents_exact n : 0 <= n -> represents n 1 (shr_record_of_loc n loc_Exact).
Proof.
  intros Hn. unfold represents. rewrite !Z.div_1_r, Z.mod_1_r, odd_double. done.
Qed.

Lemma represents_shr_1 n d r : 0 <= n -> 0 < d -> represents n d r -> represents n (d * 2) (shr_1 r).
Proof.
  intros Hn Hd (Hm & Hr & Hs). unfold represents.
  assert (shr_m (shr_1 r) = shr_m r / 2 /\ shr_r (shr_1 r) = Z.odd (shr_m r) /\ shr_s (shr_1 r) = shr_r r || shr_s r) as (-> & -> & ->).
  { assert (0 <= shr_m r) as H0 by (rewrite Hm; apply Z.div_pos; lia). destruct r as [[|[p|p|]|p] x y]; simpl in *; try lia;
      split_and!; try done; [by rewrite Pos2Z.inj_xI, (Z.add_comm _ 1), (Z.mul_comm 2), Z.div_add by lia|by rewrite Pos2Z.inj_xO, Z.mul_comm, Z.div_mul by lia]. }
  rewrite Hm, Hr, Hs, Z.div_div by lia. split; [done|].
  replace (2 * n / (d * 2)) with (n / d) by (by rewrite (Z.mul_comm d 2), Z.div_mul_cancel_l by lia). split; [done|].
  rewrite (Z.mul_comm d 2), Z.mul_mod_distr_l by lia.
  pose proof (Z.mod_pos_bound n d Hd).
  destruct (double_quotient n d Hn Hd) as [(H1 & -> & ->)|(H1 & -> & ->)].
  - by rewrite odd_double.
  - rewrite odd_double_1. destruct (Z.eqb_spec (2 * (n mod d)) 0); [lia|done].
Qed.

Lemma represents_iter p : forall n d r, 0 <= n -> 0 < d -> represents n d r ->
  represents n (d * 2 ^ Z.pos p) (SpecFloat.iter_pos shr_1 p r).
Proof.
  induction p as [p IH|p IH|]; intros n d r Hn Hd Hr; cbn [SpecFloat.iter_pos].
  - replace (d * 2 ^ Z.pos p~1) with (d * 2 * 2 ^ Z.pos p * 2 ^ Z.pos p)
      by (replace (Z.pos p~1) with (Z.pos p + Z.pos p + 1) by lia; rewrite !Z.pow_add_r by lia; ring).
    apply IH; [done|lia|]. apply IH; [done|lia|]. by apply represents_shr_1.
  - replace (d * 2 ^ Z.pos p~0) with (d * 2 ^ Z.pos p * 2 ^ Z.pos p)
      by (replace (Z.pos p~0) with (Z.pos p + Z.pos p) by lia; rewrite Z.pow_add_r by lia; ring).
    apply IH; [done|lia|]. by apply IH.
  - by apply represents_shr_1.
Qed.

(** Rounding the record rounds the quotient. *)
Lemma represents_round n d r : 0 <= n -> 0 < d -> represents n d r ->
  round_nearest_even (shr_m r) (loc_of_shr_record r) = round_div n d.
Proof.
  intros Hn Hd (Hm & Hr & Hs). unfold round_div. replace (n - n / d * d) with (n mod d) by (rewrite Z.mod_eq by lia; lia).
  rewrite <- Hm. destruct r as [m x y]. cbn [shr_m shr_r shr_s] in *. subst x y. cbn [loc_of_shr_record].
  pose proof (Z.mod_pos_bound n d Hd).
  destruct (double_quotient n d Hn Hd) as [(H1 & -> & ->)|(H1 & -> & ->)].
  - rewrite odd_double. destruct (Z.ltb_spec (2 * (n mod d)) d); [|lia]. by destruct (2 * (n mod d) =? 0).
  - rewrite odd_double_1. destruct (Z.ltb_spec (2 * (n mod d)) d); [lia|].
    destruct (Z.eqb_spec (2 * (n mod d) - d) 0); destruct (Z.eqb_spec (2 * (n mod d)) d); try lia; simpl; done.
Qed.

(** ** Rounding to a double *)

Abbreviation fx := (fexp 53 1024).

Lemma fx_eq e : fx e = Z.max (e - 53) (-1074).
Proof. done. Qed.

Lemma digits_pos p : 2 ^ (Z.pos (digits2_pos p) - 1) <= Z.pos p < 2 ^ Z.pos (digits2_pos p).
Proof.
  induction p as [p IH|p IH|]; cbn [digits2_pos]; [..|done];
    rewrite Pos2Z.inj_succ, Z.pow_succ_r by lia;
    (replace (Z.succ (Z.pos (digits2_pos p)) - 1) with (Z.succ (Z.pos (digits2_pos p) - 1)) by lia;
     rewrite Z.pow_succ_r by lia); lia.
Qed.

Lemma digits_high m : 0 <= m -> 0 <= Zdigits2 m /\ m < 2 ^ Zdigits2 m.
Proof. intros Hm. destruct m as [|p|p]; [done| |lia]. split; [done|]. apply digits_pos. Qed.

Lemma number_digits_low m : 0 < m -> 2 ^ (Zdigits2 m - 1) <= m /\ 0 < Zdigits2 m.
Proof. intros Hm. destruct m as [|p|p]; [done| |lia]. split; [|done]. apply digits_pos. Qed.

(** A number between two powers has a known number of digits. *)
Lemma digits_unique m k : 0 < k -> 2 ^ (k - 1) <= m < 2 ^ k -> Zdigits2 m = k.
Proof.
  intros Hk [H1 H2]. assert (0 < m) as Hm by (pose proof (Z.pow_pos_nonneg 2 (k - 1)); lia).
  destruct (digits_high m) as [_ H3]; [lia|]. destruct (number_digits_low m Hm) as [H4 H5].
  assert (k - 1 < Zdigits2 m) by (apply (Z.pow_lt_mono_r_iff 2); lia).
  assert (Zdigits2 m - 1 < k) by (apply (Z.pow_lt_mono_r_iff 2); lia). lia.
Qed.

(** The mantissa of a double: at most 53 digits, and 53 unless its exponent is
    the smallest. *)
Lemma bounded_eq m e : bounded 53 1024 m e = true ->
  0 < Z.pos m < 2 ^ 53 /\ -1074 <= e <= 971 /\ (e = -1074 \/ 2 ^ 52 <= Z.pos m).
Proof.
  unfold bounded, canonical_mantissa. intros [H1 H2]%andb_prop. apply Z.eqb_eq in H1. apply Z.leb_le in H2.
  rewrite fx_eq in H1. change (1024 - 53) with 971 in H2. pose proof (digits_pos m) as [H3 H4].
  set (k := Z.pos (digits2_pos m)) in *. assert (k <= 53) by lia.
  assert (2 ^ k <= 2 ^ 53) by (apply Z.pow_le_mono_r; lia). split; [lia|]. split; [lia|].
  destruct (decide (e = -1074)) as [|Hne]; [by left|right]. assert (k = 53) as Ek by lia. rewrite Ek in H3. exact H3.
Qed.

Lemma eq_bounded m e :
  Z.pos m < 2 ^ 53 -> -1074 <= e <= 971 -> e = -1074 \/ 2 ^ 52 <= Z.pos m -> bounded 53 1024 m e = true.
Proof.
  intros Hm He Hd. unfold bounded, canonical_mantissa. apply andb_true_intro. rewrite Z.eqb_eq, Z.leb_le, fx_eq. split; [|lia].
  pose proof (digits_pos m) as [H1 H2]. set (k := Z.pos (digits2_pos m)) in *.
  assert (k - 1 < 53) by (apply (Z.pow_lt_mono_r_iff 2); lia). destruct Hd as [->|Hd]; [lia|].
  assert (52 < k) by (apply (Z.pow_lt_mono_r_iff 2); [lia|lia|]; lia). lia.
Qed.

Lemma shr_fexp_represents n d m e l : 0 <= n -> 0 < d -> represents n d (shr_record_of_loc m l) ->
  let e1 := Z.max e (fx (Zdigits2 m + e)) in
  exists r, shr_fexp 53 1024 m e l = (r, e1) /\ represents n (d * 2 ^ (e1 - e)) r.
Proof.
  intros Hn Hd Hr e1. unfold shr_fexp, shr. fold fx. destruct (fx (Zdigits2 m + e) - e) as [|p|p] eqn:E.
  - exists (shr_record_of_loc m l). replace e1 with e by lia. rewrite Z.sub_diag, Z.mul_1_r. done.
  - eexists. split; [|replace (e1 - e) with (Z.pos p) by lia; by apply represents_iter]. f_equal. lia.
  - exists (shr_record_of_loc m l). replace e1 with e by lia. rewrite Z.sub_diag, Z.mul_1_r. done.
Qed.

(** [binary_round_aux] rounds the quotient it is given, to the exponent that
    its digits allow. *)
Lemma round_aux_quotient s n d m e l : 0 <= n -> 0 < d -> represents n d (shr_record_of_loc m l) -> e <= fx (Zdigits2 m + e) ->
  let e1 := fx (Zdigits2 m + e) in
  let q := round_div n (d * 2 ^ (e1 - e)) in
  let e2 := Z.max e1 (fx (Zdigits2 q + e1)) in
  binary_round_aux 53 1024 s m e l =
    match q / 2 ^ (e2 - e1) with
    | Z0 => S754_zero s
    | Z.pos p => if e2 <=? 971 then S754_finite s p e2 else S754_infinity s
    | Z.neg _ => S754_nan
    end.
Proof.
  intros Hn Hd Hr He e1 q e2. unfold binary_round_aux. destruct (shr_fexp_represents n d m e l Hn Hd Hr) as (r1 & -> & Hr1).
  rewrite Z.max_r in * by done. fold e1 in Hr1 |- *. assert (0 < 2 ^ (e1 - e)) as Hp by (apply Z.pow_pos_nonneg; lia).
  rewrite (represents_round n (d * 2 ^ (e1 - e))) by (done || nia). fold q.
  assert (0 <= q) as Hq by (unfold q, round_div; pose proof (Z.div_pos n (d * 2 ^ (e1 - e))); case_match; nia).
  destruct (shr_fexp_represents q 1 q e1 loc_Exact Hq) as (r2 & -> & Hr2); [done|by apply represents_exact|].
  fold e2 in Hr2 |- *. destruct Hr2 as (-> & _ & _). by rewrite Z.mul_1_l.
Qed.

Lemma round_div_near n d m : 0 < d -> 2 * Z.abs (n - m * d) < d -> round_div n d = m.
Proof.
  intros Hd H. unfold round_div. pose proof (Z.div_mod n d ltac:(lia)) as E. pose proof (Z.mod_pos_bound n d Hd).
  set (q := n / d) in *. set (r := n mod d) in *. replace (n - q * d) with r by lia.
  assert (q = m \/ q = m - 1) as [->| ->] by nia.
  - destruct (Z.ltb_spec (2 * r) d); [done|]. lia.
  - destruct (Z.ltb_spec (2 * r) d); [lia|]. destruct (Z.eqb_spec (2 * r) d); [lia|]. simpl. lia.
Qed.

Lemma round_div_le n d k : 0 < d -> n <= k * d -> round_div n d <= k.
Proof.
  intros Hd H. unfold round_div. pose proof (Z.div_mod n d ltac:(lia)). pose proof (Z.mod_pos_bound n d Hd). case_match eqn:E; [nia|].
  apply orb_false_iff in E as [E _]. apply Z.ltb_ge in E. nia.
Qed.

Lemma round_div_ge n d k : 0 < d -> k * d <= n -> k <= round_div n d.
Proof. intros Hd H. unfold round_div. assert (k <= n / d) by (apply Z.div_le_lower_bound; lia). case_match; lia. Qed.

Lemma represents_quotient n d m l : represents n d (shr_record_of_loc m l) -> m = n / d.
Proof. intros (H & _). by destruct l as [|[]]. Qed.

Section Round.
Context (s : bool) (n d m e : Z) (l : location).
Context (Hn : 0 <= n) (Hd : 0 < d) (Hr : represents n d (shr_record_of_loc m l)) (He : e <= fx (Zdigits2 m + e)).

Lemma quotient_high : 0 <= m /\ n < 2 ^ Zdigits2 m * d.
Proof.
  pose proof (represents_quotient _ _ _ _ Hr) as Em. assert (0 <= m) as Hm by (rewrite Em; apply Z.div_pos; lia).
  split; [done|]. destruct (digits_high m Hm) as [_ H]. pose proof (Z.div_mod n d ltac:(lia)). pose proof (Z.mod_pos_bound n d Hd). nia.
Qed.

Lemma quotient_low : 0 < m -> 2 ^ (Zdigits2 m - 1) * d <= n.
Proof.
  intros Hm. pose proof (represents_quotient _ _ _ _ Hr) as Em. destruct (number_digits_low m Hm) as [H _].
  pose proof (Z.div_mod n d ltac:(lia)). pose proof (Z.mod_pos_bound n d Hd). nia.
Qed.

(** What is not too large is a double. *)
Lemma round_aux_canonical s' p e' : binary_round_aux 53 1024 s m e l = S754_finite s' p e' -> bounded 53 1024 p e' = true.
Proof using All.
  rewrite (round_aux_quotient s n d m e l Hn Hd Hr He). pose proof quotient_high as [Hm Hh]. pose proof quotient_low as Hl.
  set (e1 := fx (Zdigits2 m + e)) in *. set (q := round_div _ _). set (e2 := Z.max _ _). intros E.
  assert (e1 = Z.max (Zdigits2 m + e - 53) (-1074)) as He1 by apply fx_eq.
  assert (0 < 2 ^ (e1 - e)) as Hp by (apply Z.pow_pos_nonneg; lia). destruct (digits_high m Hm) as [Hk _].
  assert (0 <= q <= 2 ^ 53) as Hq.
  { split; [apply round_div_ge; nia|]. apply round_div_le; [nia|]. rewrite (Z.mul_comm d), Z.mul_assoc, <- Z.pow_add_r by lia.
    assert (2 ^ Zdigits2 m <= 2 ^ (53 + (e1 - e))) by (apply Z.pow_le_mono_r; lia). nia. }
  assert (e1 = -1074 \/ 2 ^ 52 <= q) as Hlow.
  { destruct (decide (e1 = -1074)) as [|Hne]; [by left|right]. assert (e1 = Zdigits2 m + e - 53) as He1' by lia.
    apply round_div_ge; [nia|]. assert (0 < m) as Hm0 by (destruct m; simpl in *; lia).
    rewrite (Z.mul_comm d), Z.mul_assoc, <- Z.pow_add_r by lia. replace (52 + (e1 - e)) with (Zdigits2 m - 1) by lia. by apply Hl. }
  destruct (decide (q = 2 ^ 53)) as [Eq|Hne].
  - assert (e2 = e1 + 1) as E2 by (unfold e2; rewrite Eq, fx_eq; change (Zdigits2 (2 ^ 53)) with 54; lia).
    rewrite E2, Eq, Z.add_simpl_l in E. change (2 ^ 53 / 2 ^ 1) with (2 ^ 52) in E. cbv iota in E.
    change (2 ^ 52) with (Z.pos 4503599627370496) in E. cbv iota beta in E. destruct (Z.leb_spec (e1 + 1) 971); [|done]. injection E as _ <- <-.
    apply eq_bounded; [done|lia|by right].
  - destruct (decide (q = 0)) as [E0|Hq0]; [rewrite E0, Z.div_0_l in E by (apply Z.pow_nonzero; lia); done|].
    destruct (number_digits_low q ltac:(lia)) as [Hdq Hdq0]. assert (Zdigits2 q - 1 < 53) by (apply (Z.pow_lt_mono_r_iff 2); lia).
    assert (e2 = e1) as E2 by (unfold e2; rewrite fx_eq; lia).
    rewrite E2, Z.sub_diag, Z.div_1_r in E. destruct q as [|q0|q0]; [done| |lia]. destruct (Z.leb_spec e1 971); [|done]. injection E as _ <- <-.
    apply eq_bounded; [lia|lia|done].
Qed.

(** A quotient within 1/(2 * 10^16) of a double, relatively, is rounded to it;
    the exponents are taken relative to [c]. *)
Lemma round_aux_near mm ee c :
  bounded 53 1024 mm ee = true -> c <= e -> c <= ee ->
  2 * 10 ^ 16 * Z.abs (n * 2 ^ (e - c) - Z.pos mm * 2 ^ (ee - c) * d) <= Z.pos mm * 2 ^ (ee - c) * d ->
  binary_round_aux 53 1024 s m e l = S754_finite s mm ee.
Proof using All.
  intros (Hmm & Hee & Hlow)%bounded_eq Hc1 Hc2 Hnear. rewrite (round_aux_quotient s n d m e l Hn Hd Hr He).
  pose proof quotient_high as [Hm Hh]. pose proof quotient_low as Hl. destruct (digits_high m Hm) as [Hk _].
  set (e1 := fx (Zdigits2 m + e)) in *. assert (e1 = Z.max (Zdigits2 m + e - 53) (-1074)) as He1 by apply fx_eq.
  change (2 * 10 ^ 16) with 20000000000000000 in Hnear. change (2 ^ 53) with 9007199254740992 in *. change (2 ^ 52) with 4503599627370496 in *.
  set (P := 2 ^ (ee - c)) in *. assert (0 < P) as HP by (apply Z.pow_pos_nonneg; lia).
  assert (0 < 2 ^ (e - c)) as HPe by (apply Z.pow_pos_nonneg; lia).
  assert (0 < P * d) as HPd by nia.
  assert (forall x, Z.abs x * 2 ^ (e - c) = Z.abs (x * 2 ^ (e - c))) as Habs by (intros x; rewrite Z.abs_mul, (Z.abs_eq (2 ^ _)); lia).
  assert (e1 <= ee) as Hup.
  { apply Z.nlt_ge. intros Hlt. assert (0 < m) as Hm0 by (destruct m; simpl in *; lia). specialize (Hl Hm0).
    assert (2 ^ (53 + (ee - c)) <= 2 ^ (Zdigits2 m - 1) * 2 ^ (e - c)) as Hpow
      by (rewrite <- Z.pow_add_r by (pose proof (number_digits_low m Hm0); lia); apply Z.pow_le_mono_r; lia).
    rewrite Z.pow_add_r in Hpow by lia. fold P in Hpow. change (2 ^ 53) with 9007199254740992 in Hpow. nia. }
  assert (ee - 1 <= e1) as Hdown.
  { apply Z.nlt_ge. intros Hlt. destruct Hlow as [->|Hlow]; [lia|].
    assert (2 ^ Zdigits2 m * 2 ^ (e - c) <= 2 ^ (51 + (ee - c))) as Hpow
      by (rewrite <- Z.pow_add_r by lia; apply Z.pow_le_mono_r; lia).
    rewrite Z.pow_add_r in Hpow by lia. fold P in Hpow. change (2 ^ 51) with 2251799813685248 in Hpow. nia. }
  assert (0 < 2 ^ (e1 - e)) as Hp by (apply Z.pow_pos_nonneg; lia).
  destruct (decide (e1 = ee)) as [Eq|Hne].
  - assert (2 ^ (e1 - e) * 2 ^ (e - c) = P) as EP by (rewrite <- Z.pow_add_r by lia; unfold P; f_equal; lia).
    rewrite (round_div_near _ _ (Z.pos mm)); [|nia|].
    2: { apply (Zmult_gt_0_lt_reg_r _ _ (2 ^ (e - c))); [lia|]. replace (d * 2 ^ (e1 - e) * 2 ^ (e - c)) with (P * d) by (rewrite <- EP; ring).
         replace (2 * Z.abs (n - Z.pos mm * (d * 2 ^ (e1 - e))) * 2 ^ (e - c)) with (2 * Z.abs (n * 2 ^ (e - c) - Z.pos mm * P * d)).
         { nia. }
         rewrite <- (Z.mul_assoc 2 (Z.abs _)), Habs, <- EP. do 2 f_equal. ring. }
    destruct (number_digits_low (Z.pos mm)) as [Hdq _]; [lia|].
    assert (Zdigits2 (Z.pos mm) - 1 < 53) by (apply (Z.pow_lt_mono_r_iff 2); [lia|lia|]; change (2 ^ 53) with 9007199254740992; lia).
    rewrite fx_eq, Z.max_l, Z.sub_diag, Z.div_1_r by lia. rewrite (proj2 (Z.leb_le e1 971)) by lia. by rewrite Eq.
  - assert (e1 = ee - 1) as Eq by lia. destruct Hlow as [->|Hlow]; [lia|].
    assert (Z.pos mm = 4503599627370496) as Emm.
    { assert (2 ^ Zdigits2 m * 2 ^ (e - c) <= 2 ^ (52 + (ee - c))) as Hpow
        by (rewrite <- Z.pow_add_r by lia; apply Z.pow_le_mono_r; lia).
      rewrite Z.pow_add_r in Hpow by lia. fold P in Hpow. change (2 ^ 52) with 4503599627370496 in Hpow. nia. }
    assert (2 * (2 ^ (e1 - e) * 2 ^ (e - c)) = P) as EP by (rewrite <- Z.pow_add_r, <- Z.pow_succ_r by lia; unfold P; f_equal; lia).
    rewrite (round_div_near _ _ (2 ^ 53)); [|nia|].
    2: { apply (Zmult_gt_0_lt_reg_r _ _ (2 * 2 ^ (e - c))); [lia|].
         replace (d * 2 ^ (e1 - e) * (2 * 2 ^ (e - c))) with (P * d) by (rewrite <- EP; ring).
         replace (2 * Z.abs (n - 2 ^ 53 * (d * 2 ^ (e1 - e))) * (2 * 2 ^ (e - c))) with (4 * Z.abs (n * 2 ^ (e - c) - Z.pos mm * P * d)).
         { nia. }
         replace (2 * Z.abs (n - 2 ^ 53 * (d * 2 ^ (e1 - e))) * (2 * 2 ^ (e - c))) with
           (4 * (Z.abs (n - 2 ^ 53 * (d * 2 ^ (e1 - e))) * 2 ^ (e - c))) by ring.
         rewrite Habs, Emm, <- EP. do 2 f_equal. change (2 ^ 53) with (2 * 4503599627370496). ring. }
    change (Zdigits2 (2 ^ 53)) with 54. rewrite fx_eq. replace (Z.max e1 _) with ee by lia. replace (ee - e1) with 1 by lia.
    change (2 ^ 53 / 2 ^ 1) with 4503599627370496. rewrite <- Emm. cbv iota. rewrite (proj2 (Z.leb_le ee 971)) by lia. done.
Qed.

End Round.

(** ** Decimal numbers *)

(** The value of a finite double as a fraction. *)
Definition numerator (m : positive) (e : Z) : Z := Z.pos m * 2 ^ Z.max 0 e.
Definition denominator (e : Z) : Z := 2 ^ Z.max 0 (- e).

(** The positive decimal number [v * 10^t] is the fraction [n / d] up to a
    relative error of [1 / (2 * 10^(p-1))]. *)
Definition near (p v t n d : Z) : Prop :=
  2 * 10 ^ (p - 1) * Z.abs (v * 10 ^ Z.max 0 t * d - n * 10 ^ Z.max 0 (- t)) <= n * 10 ^ Z.max 0 (- t).

(** The same with the fraction at the exponent [c]. *)
Lemma near_scaled p v t m e c :
  near p v t (numerator m e) (denominator e) -> c <= 0 -> c <= e ->
  2 * 10 ^ (p - 1) * Z.abs (v * 10 ^ Z.max 0 t * 2 ^ (- c) - Z.pos m * 2 ^ (e - c) * 10 ^ Z.max 0 (- t))
    <= Z.pos m * 2 ^ (e - c) * 10 ^ Z.max 0 (- t).
Proof.
  unfold near, numerator, denominator. intros H Hc0 Hce. set (A := 10 ^ Z.max 0 t) in *. set (B := 10 ^ Z.max 0 (- t)) in *.
  set (K := 2 ^ (Z.min 0 e - c)). assert (0 < K) by (apply Z.pow_pos_nonneg; lia).
  assert (2 ^ (- c) = 2 ^ Z.max 0 (- e) * K) as -> by (unfold K; rewrite <- Z.pow_add_r by lia; f_equal; lia).
  assert (2 ^ (e - c) = 2 ^ Z.max 0 e * K) as -> by (unfold K; rewrite <- Z.pow_add_r by lia; f_equal; lia).
  set (U := 2 ^ Z.max 0 e) in *. set (V := 2 ^ Z.max 0 (- e)) in *.
  replace (v * A * (V * K) - Z.pos m * (U * K) * B) with ((v * A * V - Z.pos m * U * B) * K) by ring.
  rewrite Z.abs_mul, (Z.abs_eq K) by lia.
  replace (Z.pos m * (U * K) * B) with (Z.pos m * U * B * K) by ring. rewrite Z.mul_assoc. by apply Z.mul_le_mono_nonneg_r; [lia|].
Qed.

(** Both branches of [decimal_double] round a fraction. *)
Lemma decimal_double_rounds neg v t : 0 < v -> -500 <= t <= 400 ->
  exists n d m e l, decimal_double neg v t = binary_round_aux 53 1024 neg m e l /\
    0 <= n /\ 0 < d /\ represents n d (shr_record_of_loc m l) /\ e <= fx (Zdigits2 m + e) /\
    e <= 0 /\ d = 10 ^ Z.max 0 (- t) /\ n = v * 10 ^ Z.max 0 t * 2 ^ (- e).
Proof.
  intros Hv Ht. destruct v as [|p|p]; try lia. unfold decimal_double. rewrite Z.gtb_ltb, (proj2 (Z.ltb_ge 400 t)), (proj2 (Z.ltb_ge t (-500))) by lia.
  destruct (Z.geb_spec t 0) as [Hge|Hlt].
  - rewrite Z.max_l, Z.max_r by lia. assert (0 < 10 ^ t) by (apply Z.pow_pos_nonneg; lia). destruct (Z.pos p * 10 ^ t) as [|q|q] eqn:Eq; try lia.
    unfold binary_round, shl_align. rewrite Z.add_0_r, Z.sub_0_r. change (Z.pos (digits2_pos q)) with (Zdigits2 (Z.pos q)).
    destruct (fx (Zdigits2 (Z.pos q))) as [|k|k] eqn:Ek.
    + exists (Z.pos q), 1, (Z.pos q), 0, loc_Exact. rewrite Z.add_0_r, Ek. split_and!; try done; [by apply represents_exact|by rewrite Z.mul_1_r].
    + exists (Z.pos q), 1, (Z.pos q), 0, loc_Exact. rewrite Z.add_0_r, Ek. split_and!; try done; [by apply represents_exact|by rewrite Z.mul_1_r].
    + assert (Z.pos (Pos.iter xO q k) = Z.pos q * 2 ^ Z.pos k) as Es by (rewrite <- Z.shiftl_mul_pow2 by done; by apply (Pos.iter_swap_gen _ _ Z.pos xO (Z.mul 2))).
      exists (Z.pos q * 2 ^ Z.pos k), 1, (Z.pos (Pos.iter xO q k)), (Z.neg k), loc_Exact. rewrite Es.
      assert (0 < 2 ^ Z.pos k) by (apply Z.pow_pos_nonneg; lia). split_and!; try done; [lia|by apply represents_exact; lia|].
      rewrite (digits_unique _ (Zdigits2 (Z.pos q) + Z.pos k)); [by replace (_ + Z.pos k + Z.neg k) with (Zdigits2 (Z.pos q)) by lia; rewrite Ek|done|].
      destruct (number_digits_low (Z.pos q)) as [H1 H2]; [done|]. destruct (digits_high (Z.pos q)) as [_ H3]; [done|].
      replace (Zdigits2 (Z.pos q) + Z.pos k - 1) with (Zdigits2 (Z.pos q) - 1 + Z.pos k) by lia. rewrite !Z.pow_add_r by lia. nia.
  - rewrite (Z.max_r 0 (- t)), (Z.max_l 0 t) by lia. assert (0 < 10 ^ (- t)) as Hd by (apply Z.pow_pos_nonneg; lia). set (D := 10 ^ (- t)) in *.
    unfold SFdiv_core_binary. rewrite !Z.add_0_r. change (0 - 0) with 0. set (e' := Z.min _ 0).
    assert (e' = Z.min (Z.max (Zdigits2 (Z.pos p) - Zdigits2 D - 53) (-1074)) 0) as Ee' by (unfold e'; by rewrite fx_eq).
    assert (match 0 - e' with Z0 => Z.pos p | Z.pos _ => Z.shiftl (Z.pos p) (0 - e') | Z.neg _ => 0 end = Z.pos p * 2 ^ (- e')) as ->.
    { rewrite Z.sub_0_l. destruct (- e') as [|k|k] eqn:Ek; [by rewrite Z.mul_1_r|by rewrite Z.shiftl_mul_pow2|lia]. }
    set (N := Z.pos p * 2 ^ (- e')). assert (0 < 2 ^ (- e')) as Hpe by (apply Z.pow_pos_nonneg; lia). assert (0 <= N) as HN by (unfold N; nia).
    pose proof (represents_location N D HN Hd) as HR. unfold Z.div, Z.modulo in HR. destruct (Z.div_eucl N D) as [q r] eqn:Eqr.
    exists N, D, q, e', (new_location D r). split_and!; try done; [|lia|unfold N; ring].
    assert (q = N / D) as -> by (unfold Z.div; by rewrite Eqr).
    rewrite fx_eq. destruct (number_digits_low (Z.pos p)) as [H1 H2]; [done|]. destruct (digits_high D) as [_ H3]; [lia|].
    destruct (number_digits_low D Hd) as [_ H4]. set (dp := Zdigits2 (Z.pos p)) in *. set (dd := Zdigits2 D) in *.
    destruct (Z.le_gt_cases (dp - dd - e') 0) as [Hs|Hs]; [lia|].
    assert (2 ^ (dp - dd - e' - 1) <= N / D) as Hq.
    { apply Z.div_le_lower_bound; [done|]. unfold N. transitivity (2 ^ dd * 2 ^ (dp - dd - e' - 1)); [pose proof (Z.pow_pos_nonneg 2 (dp - dd - e' - 1)); nia|].
      rewrite <- Z.pow_add_r by lia. replace (dd + (dp - dd - e' - 1)) with (dp - 1 + - e') by lia. rewrite Z.pow_add_r by lia. nia. }
    assert (dp - dd - e' - 1 < Zdigits2 (N / D)); [|lia].
    destruct (digits_high (N / D)) as [H5 H6]; [apply Z.div_pos; lia|]. apply (Z.pow_lt_mono_r_iff 2); [lia|lia|]. lia.
Qed.

Lemma decimal_double_canonical neg v t s m e :
  -500 <= t <= 400 -> decimal_double neg v t = S754_finite s m e -> bounded 53 1024 m e = true.
Proof.
  intros Ht E. destruct v as [|p|p]; [done| |done].
  destruct (decimal_double_rounds neg (Z.pos p) t) as (n & d & m' & e' & l & E' & Hn & Hd & Hr & He & _); [done|done|].
  rewrite E' in E. by eapply round_aux_canonical.
Qed.

(** A decimal number that is near enough to a double is read as the double. *)
Lemma decimal_double_near neg v t m e :
  0 < v -> -500 <= t <= 400 -> bounded 53 1024 m e = true -> near 17 v t (numerator m e) (denominator e) ->
  decimal_double neg v t = S754_finite neg m e.
Proof.
  intros Hv Ht Hb Hnear. destruct (decimal_double_rounds neg v t Hv Ht) as (n & d & m' & e' & l & -> & Hn & Hd & Hr & He & He0 & -> & ->).
  set (c := Z.min e' e). apply (round_aux_near neg _ _ m' e' l Hn Hd Hr He m e c Hb); [lia|lia|].
  pose proof (near_scaled _ _ _ _ _ c Hnear ltac:(lia) ltac:(lia)) as H. change (17 - 1) with 16 in H.
  replace (v * 10 ^ Z.max 0 t * 2 ^ (- e') * 2 ^ (e' - c)) with (v * 10 ^ Z.max 0 t * 2 ^ (- c)); [done|].
  rewrite <- (Z.mul_assoc _ (2 ^ (- e'))), <- Z.pow_add_r by lia. do 2 f_equal. lia.
Qed.

(** ** Significant digits *)

Lemma exponent_up_spec fuel : forall n d x, 0 < d -> d <= n < d * 10 ^ Z.of_nat (S fuel) ->
  let x' := exponent_up fuel n d x in
  x <= x' <= x + Z.of_nat fuel /\ d * 10 ^ (x' - x) <= n < 10 * (d * 10 ^ (x' - x)).
Proof.
  induction fuel as [|fuel IH]; intros n d x Hd Hn; cbn [exponent_up].
  - rewrite Z.sub_diag. change (10 ^ Z.of_nat 1) with 10 in Hn. change (10 ^ 0) with 1. lia.
  - rewrite Nat2Z.inj_succ, Z.pow_succ_r in Hn by lia. destruct (Z.geb_spec n (10 * d)) as [Hge|Hlt].
    + destruct (IH n (10 * d) (x + 1)) as [H1 H2]; [lia|lia|]. set (x' := exponent_up _ _ _ _) in *.
      split; [lia|]. replace (x' - x) with (Z.succ (x' - (x + 1))) by lia. rewrite Z.pow_succ_r by lia. lia.
    + rewrite Z.sub_diag. change (10 ^ 0) with 1. lia.
Qed.

Lemma exponent_down_spec fuel : forall n d x, 0 < n -> n < 10 * d -> d <= n * 10 ^ Z.of_nat fuel ->
  let x' := exponent_down fuel n d x in
  x - Z.of_nat fuel <= x' <= x /\ d <= n * 10 ^ (x - x') < 10 * d.
Proof.
  induction fuel as [|fuel IH]; intros n d x Hn Hlt Hd; cbn [exponent_down].
  - rewrite Z.sub_diag. change (10 ^ Z.of_nat 0) with 1 in Hd. change (10 ^ 0) with 1. lia.
  - rewrite Nat2Z.inj_succ, Z.pow_succ_r in Hd by lia. destruct (Z.ltb_spec n d) as [Hnd|Hge].
    + destruct (IH (10 * n) d (x - 1)) as [H1 H2]; [lia|lia|lia|]. set (x' := exponent_down _ _ _ _) in *.
      split; [lia|]. replace (x - x') with (Z.succ (x - 1 - x')) by lia. rewrite Z.pow_succ_r by lia. lia.
    + rewrite Z.sub_diag. change (10 ^ 0) with 1. lia.
Qed.

(** Fractions that the fuel of [decimal_exponent] is enough for. *)
Definition in_range (n d : Z) : Prop := 0 < n /\ 0 < d /\ n < d * 10 ^ 400 /\ d <= n * 10 ^ 400.

Lemma decimal_exponent_spec n d : in_range n d ->
  let x := decimal_exponent n d in
  -400 <= x <= 399 /\
  d * 10 ^ Z.max 0 x <= n * 10 ^ Z.max 0 (- x) < 10 * (d * 10 ^ Z.max 0 x).
Proof.
  intros (Hn & Hd & Hhi & Hlo). unfold decimal_exponent. destruct (Z.ltb_spec n d) as [Hlt|Hge].
  - pose proof (exponent_down_spec 400 n d 0 Hn ltac:(lia) Hlo) as [H1 H2]. set (x := exponent_down _ _ _ _) in *. cbv zeta.
    split; [lia|]. rewrite (Z.max_l 0 x), (Z.max_r 0 (- x)) by lia. rewrite Z.sub_0_l in H2. change (10 ^ 0) with 1. lia.
  - pose proof (exponent_up_spec 400 n d 0 Hd ltac:(lia)) as [H1 H2]. set (x := exponent_up _ _ _ _) in *. cbv zeta.
    rewrite Z.sub_0_r in H2. assert (x < 400) by (apply (Z.pow_lt_mono_r_iff 10); nia). split; [lia|]. rewrite (Z.max_r 0 x), (Z.max_l 0 (- x)) by lia. change (10 ^ 0) with 1. lia.
Qed.

Lemma round_div_error n d : 0 < d -> 2 * Z.abs (round_div n d * d - n) <= d.
Proof.
  intros Hd. unfold round_div. pose proof (Z.div_mod n d ltac:(lia)) as E. pose proof (Z.mod_pos_bound n d Hd).
  set (q := n / d) in *. set (r := n mod d) in *. replace (n - q * d) with r by lia. case_match eqn:C.
  - apply orb_prop in C as [C|C]; [apply Z.ltb_lt in C; lia|]. apply andb_prop in C as [C _]. apply Z.eqb_eq in C. lia.
  - apply orb_false_iff in C as [C _]. apply Z.ltb_ge in C. lia.
Qed.

Lemma pow10_pos k : 0 <= k -> 0 < 10 ^ k.
Proof. intros Hk. by apply Z.pow_pos_nonneg. Qed.

(** [significant] finds the first digit and rounds at the last. *)
Lemma significant_spec p n d : 1 <= p -> in_range n d ->
  let '(v, x) := significant p n d in
  -400 <= x <= 400 /\ 10 ^ (p - 1) <= v < 10 ^ p /\ near p v (x - p + 1) n d.
Proof.
  intros Hp Hr. pose proof Hr as (Hn & Hd & _). unfold significant. pose proof (decimal_exponent_spec n d Hr) as [Hx Hb].
  set (x := decimal_exponent n d) in *. cbv zeta in Hb.
  set (v := if p - 1 - x >=? 0 then _ else _).
  assert (10 ^ (p - 1) <= v <= 10 ^ p /\ near p v (x - p + 1) n d) as [Hv Hnear].
  { unfold near, v. assert (10 ^ p = 10 * 10 ^ (p - 1)) as Epp by (rewrite <- Z.pow_succ_r by lia; f_equal; lia).
    destruct (Z.geb_spec (p - 1 - x) 0) as [Hk|Hk].
    - rewrite (Z.max_l 0 (x - p + 1)), (Z.max_r 0 (- (x - p + 1))) by lia. replace (- (x - p + 1)) with (p - 1 - x) by lia.
      set (N := n * 10 ^ (p - 1 - x)). pose proof (round_div_error N d Hd) as He.
      assert (10 ^ (p - 1) * d <= N < 10 * (10 ^ (p - 1) * d)) as HN.
      { unfold N. destruct (Z.le_gt_cases 0 x) as [H0|H0].
        - rewrite (Z.max_r 0 x), (Z.max_l 0 (- x)), Z.mul_1_r in Hb by lia.
          replace (10 ^ (p - 1)) with (10 ^ x * 10 ^ (p - 1 - x)) by (rewrite <- Z.pow_add_r by lia; f_equal; lia).
          pose proof (pow10_pos (p - 1 - x) ltac:(lia)). nia.
        - rewrite (Z.max_l 0 x), (Z.max_r 0 (- x)) in Hb by lia. change (10 ^ 0) with 1 in Hb.
          replace (10 ^ (p - 1 - x)) with (10 ^ (- x) * 10 ^ (p - 1)) by (rewrite <- Z.pow_add_r by lia; f_equal; lia).
          pose proof (pow10_pos (p - 1) ltac:(lia)). nia. }
      split; [split; [apply round_div_ge; lia|apply round_div_le; lia]|]. change (10 ^ 0) with 1.
      replace (round_div N d * 1 * d - N) with (round_div N d * d - N) by ring. pose proof (pow10_pos (p - 1) ltac:(lia)). nia.
    - rewrite (Z.max_r 0 (x - p + 1)), (Z.max_l 0 (- (x - p + 1))) by lia. replace (- (p - 1 - x)) with (x - p + 1) by lia.
      rewrite (Z.max_r 0 x), (Z.max_l 0 (- x)), Z.mul_1_r in Hb by lia. change (10 ^ 0) with 1. rewrite Z.mul_1_r.
      set (D := d * 10 ^ (x - p + 1)). assert (0 < D) as HD by (unfold D; pose proof (pow10_pos (x - p + 1) ltac:(lia)); nia).
      assert (10 ^ (p - 1) * D = d * 10 ^ x) as ED by (unfold D; replace (10 ^ x) with (10 ^ (p - 1) * 10 ^ (x - p + 1)) by (rewrite <- Z.pow_add_r by lia; f_equal; lia); ring).
      pose proof (round_div_error n D HD) as He.
      split; [split; [apply round_div_ge; lia|apply round_div_le; lia]|].
      replace (round_div n D * 10 ^ (x - p + 1) * d) with (round_div n D * D) by (unfold D; ring). pose proof (pow10_pos (p - 1) ltac:(lia)). nia. }
  assert (10 ^ p = 10 * 10 ^ (p - 1)) as Epp by (rewrite <- Z.pow_succ_r by lia; f_equal; lia).
  pose proof (pow10_pos (p - 1) ltac:(lia)). destruct (Z.eqb_spec v (10 ^ p)) as [Ev|Hne]; [|split_and!; [lia|lia|lia|lia|done]].
  split_and!; [lia|lia|lia|lia|]. unfold near in *. rewrite Ev, Epp in Hnear. replace (x + 1 - p + 1) with (x - p + 1 + 1) by lia.
  set (t := x - p + 1) in *. destruct (Z.le_gt_cases 0 t) as [Ht|Ht].
  - rewrite (Z.max_r 0 (t + 1)), (Z.max_l 0 (- (t + 1))), Z.pow_add_r by lia. rewrite (Z.max_r 0 t), (Z.max_l 0 (- t)) in Hnear by lia.
    replace (10 ^ (p - 1) * (10 ^ t * 10 ^ 1) * d) with (10 * 10 ^ (p - 1) * 10 ^ t * d) by ring. done.
  - rewrite (Z.max_l 0 (t + 1)), (Z.max_r 0 (- (t + 1))) by lia. rewrite (Z.max_l 0 t), (Z.max_r 0 (- t)) in Hnear by lia.
    replace (10 ^ (- t)) with (10 * 10 ^ (- (t + 1))) in Hnear by (rewrite <- Z.pow_succ_r by lia; f_equal; lia). change (10 ^ 0) with 1 in *.
    set (y := n * 10 ^ (- (t + 1))) in *. replace (n * (10 * 10 ^ (- (t + 1)))) with (10 * y) in Hnear by (unfold y; ring).
    replace (10 * 10 ^ (p - 1) * 1 * d - 10 * y) with (10 * (10 ^ (p - 1) * 1 * d - y)) in Hnear by ring. rewrite Z.abs_mul in Hnear. lia.
Qed.

(** Shorter numbers with the same value. *)
Lemma near_shift p v t n d k : 0 <= k -> near p (v * 10 ^ k) t n d -> near p v (t + k) n d.
Proof.
  intros Hk. unfold near. destruct (Z.le_gt_cases 0 t) as [Ht|Ht].
  - rewrite (Z.max_r 0 (t + k)), (Z.max_l 0 (- (t + k))), (Z.max_r 0 t), (Z.max_l 0 (- t)), Z.pow_add_r by lia.
    by replace (v * 10 ^ k * 10 ^ t * d) with (v * (10 ^ t * 10 ^ k) * d) by ring.
  - rewrite (Z.max_l 0 t), (Z.max_r 0 (- t)) by lia. set (A := 10 ^ Z.max 0 (t + k)). set (B := 10 ^ Z.max 0 (- (t + k))).
    set (K := 10 ^ (Z.min k (- t))). assert (0 < K) by (apply pow10_pos; lia). change (10 ^ 0) with 1.
    assert (10 ^ k = A * K) as -> by (unfold A, K; rewrite <- Z.pow_add_r by lia; f_equal; lia).
    assert (10 ^ (- t) = B * K) as -> by (unfold B, K; rewrite <- Z.pow_add_r by lia; f_equal; lia).
    replace (v * (A * K) * 1 * d - n * (B * K)) with ((v * A * d - n * B) * K) by ring. rewrite Z.abs_mul, (Z.abs_eq K) by lia. nia.
Qed.

(** ** Texts of digits *)

Abbreviation digits l := (Forall (fun c => is_digit c = true) l).

Lemma digits_value_app a b : digits_value (a ++ b) = digits_value a * 10 ^ zlen b + digits_value b.
Proof.
  unfold digits_value. rewrite fold_left_app. generalize (fold_left (fun v c => 10 * v + (c - 48)) a 0) as x.
  induction b as [|c b IH] using rev_ind; intros x; [rewrite Z.mul_1_r; simpl; lia|].
  rewrite !fold_left_app, IH, zlen_app. cbn [fold_left]. change (zlen [c]) with 1.
  rewrite Z.pow_add_r by (apply zlen_nonneg || lia). lia.
Qed.

Lemma digits_value_zeroes n : digits_value (replicate n 48) = 0.
Proof. induction n as [|n IH]; [done|]. change (replicate (S n) 48) with ([48] ++ replicate n 48). by rewrite digits_value_app, IH. Qed.

Lemma digits_zeroes n : digits (replicate n 48).
Proof. by apply Forall_replicate. Qed.

Lemma digit_ok x : 0 <= x < 10 -> is_digit (48 + x) = true.
Proof. intros Hx. unfold is_digit. rewrite (proj2 (Z.leb_le _ _)), (proj2 (Z.leb_le _ _)) by lia. done. Qed.

Lemma fixed_digits_ok n : forall v, 0 <= v -> digits (fixed_digits n v) /\ zlen (fixed_digits n v) = Z.of_nat n /\
  digits_value (fixed_digits n v) = v mod 10 ^ Z.of_nat n.
Proof.
  induction n as [|n IH]; intros v Hv; cbn [fixed_digits].
  - change (10 ^ Z.of_nat 0) with 1. by rewrite Z.mod_1_r.
  - destruct (IH (v / 10)) as (H1 & H2 & H3); [apply Z.div_pos; lia|]. pose proof (Z.mod_pos_bound v 10 ltac:(lia)).
    split_and!.
    + apply Forall_app. split; [done|]. constructor; [by apply digit_ok|done].
    + rewrite zlen_app, H2. change (zlen [_]) with 1. lia.
    + rewrite digits_value_app, H3. change (zlen [_]) with 1. change (digits_value [48 + v mod 10]) with (48 + v mod 10 - 48).
      rewrite Nat2Z.inj_succ, Z.pow_succ_r by lia. change (10 ^ 1) with 10.
      rewrite Z.rem_mul_r by (pose proof (pow10_pos (Z.of_nat n)); lia). lia.
Qed.

Lemma fixed_digits_value n v : 0 <= v < 10 ^ Z.of_nat n -> digits_value (fixed_digits n v) = v.
Proof. intros Hv. destruct (fixed_digits_ok n v) as (_ & _ & ->); [lia|]. by apply Z.mod_small. Qed.

(** Stripping takes zeroes from the end. *)
Lemma strip_zeroes_ok l : exists k, l = strip_zeroes l ++ replicate k 48.
Proof.
  induction l as [|c l [k IH]]; [by exists 0%nat|]. cbn [strip_zeroes]. destruct (strip_zeroes l) as [|y l'] eqn:E.
  - destruct (Z.eqb_spec c 48) as [->|]; [exists (S k); by rewrite IH|exists k; by rewrite IH].
  - exists k. by rewrite IH at 1.
Qed.

(** *** What [strtod] reads *)

Lemma span_digits_stop l c r : digits l -> is_digit c = false -> span_digits (l ++ c :: r) = (l, c :: r).
Proof. intros Hl Hc. induction Hl as [|x l Hx Hl IH]; cbn [app span_digits]; [by rewrite Hc|]. by rewrite Hx, IH. Qed.

Lemma digits_nonzero l : digits l -> Forall (fun c => c <> 0) l.
Proof. intros Hl. eapply Forall_impl; [|exact Hl]. intros c Hc ->. done. Qed.

Definition sign_text (neg : bool) : list Z := if neg then [45] else [].

Lemma span_sign_digits neg c l : is_digit c = true -> span_sign (sign_text neg ++ c :: l) = (neg, c :: l).
Proof.
  intros Hc. destruct neg; [done|]. simpl. unfold is_digit in Hc.
  assert (48 <= c <= 57) by (apply andb_prop in Hc as [H1 H2]; apply Z.leb_le in H1, H2; lia).
  repeat (case_match; try done); lia.
Qed.

(** [x] can follow the digits: it is an exponent, or nothing. *)
Definition suffix (x : list Z) (e : Z) : Prop :=
  span_exponent (x ++ [0]) = (e, [0]) /\ exists c r, x ++ [0] = c :: r /\ is_digit c = false /\ c <> 46.

Lemma strtod_text neg i f x e :
  i <> [] -> digits i -> digits f -> suffix x e ->
  strtod ((sign_text neg ++ i ++ fraction_text f ++ x) ++ [0]) =
    (decimal_double neg (digits_value (i ++ strip_zeroes f)) (e - zlen (strip_zeroes f)), [0]).
Proof.
  intros Hne Hi Hf [Hx (c & r & Ec & Hc & H46)]. rewrite <- !app_assoc, Ec. unfold strtod.
  destruct i as [|i0 i]; [done|]. cbn [app]. pose proof Hi as [Hi0 _]%Forall_cons_iff. rewrite span_sign_digits by done.
  destruct (strip_zeroes_ok f) as [k Ek]. unfold fraction_text. destruct (strip_zeroes f) as [|f0 f'] eqn:Ef.
  - cbn [app]. rewrite (span_digits_stop (i0 :: i) c r Hi Hc : span_digits (i0 :: i ++ c :: r) = _).
    assert (span_fraction (c :: r) = ([], c :: r)) as -> by (cbn [span_fraction]; repeat (case_match; try done); lia).
    rewrite app_nil_r. rewrite <- Ec, Hx. cbn [zlen length]. rewrite ?app_nil_r. done.
  - assert (digits (f0 :: f')) as Hf' by (rewrite Ek in Hf; by apply Forall_app in Hf as [? _]).
    change (i0 :: i ++ (46 :: f0 :: f') ++ c :: r) with ((i0 :: i) ++ 46 :: (f0 :: f') ++ c :: r).
    rewrite (span_digits_stop (i0 :: i)) by done. cbn [span_fraction]. rewrite (span_digits_stop (f0 :: f')) by done.
    cbn [app]. rewrite <- Ec, Hx. done.
Qed.

(** The exponent part of a text. *)
Definition exponent_text (x : Z) : list Z :=
  [101; if x <? 0 then 45 else 43] ++ fixed_digits (if Z.abs x <? 100 then 2 else 3) (Z.abs x).

Lemma suffix_exponent x : Z.abs x < 1000 -> suffix (exponent_text x) x.
Proof.
  intros Hx. split; [|by eexists _, _].
  unfold exponent_text. set (n := if Z.abs x <? 100 then 2%nat else 3%nat).
  assert (Z.abs x < 10 ^ Z.of_nat n /\ (0 < n)%nat) as [Hn Hn0] by (unfold n; destruct (Z.ltb_spec (Z.abs x) 100); split; simpl; lia).
  destruct (fixed_digits_ok n (Z.abs x)) as (Hd & Hl & _); [lia|]. pose proof (fixed_digits_value n (Z.abs x) ltac:(lia)) as Hv.
  set (ds := fixed_digits n (Z.abs x)) in *. cbn [app span_exponent]. cbn [Z.eqb Pos.eqb orb].
  assert (span_sign ((if x <? 0 then 45 else 43) :: ds ++ [0]) = (x <? 0, ds ++ [0])) as -> by (by destruct (x <? 0)).
  rewrite span_digits_stop by done. destruct ds as [|d0 ds']; [unfold zlen in Hl; simpl in Hl; lia|]. rewrite Hv.
  destruct (Z.ltb_spec x 0); f_equal; lia.
Qed.

Lemma suffix_nil : suffix [] 0.
Proof. split; [done|]. by eexists _, _. Qed.

(** ** The text of a number *)

(** The three shapes of [%g]: digits, the digits of a fraction, an exponent. *)
Lemma general_text_shape p n d : (1 <= p <= 17)%nat -> in_range n d ->
  exists i f x e v t,
    general_text p n d = i ++ fraction_text f ++ x /\ i <> [] /\ digits i /\ digits f /\ suffix x e /\
    Forall (fun c => number_char c = true) x /\ zlen i + zlen f + zlen x <= Z.of_nat p + 5 /\
    digits_value (i ++ f) = v /\ e - zlen f = t /\ 10 ^ (Z.of_nat p - 1) <= v /\ -450 <= t /\ e <= 400 /\ near (Z.of_nat p) v t n d.
Proof.
  intros Hp Hr. unfold general_text. pose proof (significant_spec (Z.of_nat p) n d ltac:(lia) Hr) as H.
  destruct (significant (Z.of_nat p) n d) as [v x]. destruct H as (Hx & [Hv0 Hv] & Hnear).
  assert (0 < 10 ^ (Z.of_nat p - 1)) by (apply pow10_pos; lia).
  destruct (fixed_digits_ok p v) as (Hd & Hz & _); [lia|]. pose proof (fixed_digits_value p v ltac:(lia)) as Hval.
  set (ds := fixed_digits p v) in *. unfold zlen in Hz.
  assert (forall k, digits (take k ds) /\ digits (drop k ds)) as Hsplit by (intros k; split; [by apply Forall_take|by apply Forall_drop]).
  destruct ((-4 <=? x) && (x <? Z.of_nat p)) eqn:Ec; [apply andb_prop in Ec as [E1%Z.leb_le E2%Z.ltb_lt]; destruct (Z.geb_spec x 0) as [E3|E3]|].
  - exists (take (Z.to_nat (x + 1)) ds), (drop (Z.to_nat (x + 1)) ds), [], 0, v, (x - Z.of_nat p + 1).
    rewrite app_nil_r, take_drop. split_and!; try done; try apply Hsplit; try apply suffix_nil; try lia.
    + intros E. apply (f_equal length) in E. rewrite length_take in E. cbn [length] in E. lia.
    + unfold zlen. rewrite length_take, length_drop. simpl. lia.
    + unfold zlen. rewrite length_drop. lia.
  - exists [48], (replicate (Z.to_nat (- x - 1)) 48 ++ ds), [], 0, v, (x - Z.of_nat p + 1).
    rewrite app_nil_r. split_and!; try done; try apply suffix_nil; try lia.
    + by repeat constructor.
    + apply Forall_app. split; [apply digits_zeroes|done].
    + unfold zlen. rewrite length_app, length_replicate. simpl. lia.
    + rewrite digits_value_app, (digits_value_app (replicate _ _)), digits_value_zeroes, Hval. change (digits_value [48]) with 0. lia.
    + unfold zlen. rewrite length_app, length_replicate. lia.
  - exists (take 1 ds), (drop 1 ds), (exponent_text x), x, v, (x - Z.of_nat p + 1).
    rewrite take_drop. split_and!; try done; try apply Hsplit; try lia.
    + intros E. apply (f_equal length) in E. rewrite length_take in E. cbn [length] in E. lia.
    + apply suffix_exponent. lia.
    + unfold exponent_text. apply Forall_app. split; [by destruct (x <? 0); repeat constructor|].
      eapply Forall_impl; [|apply fixed_digits_ok; lia]. intros c Hc. unfold number_char. by rewrite Hc.
    + unfold exponent_text. unfold zlen. rewrite length_app, length_take, length_drop. set (k := if Z.abs x <? 100 then 2%nat else 3%nat).
      destruct (fixed_digits_ok k (Z.abs x)) as (_ & Hk & _); [lia|]. unfold zlen in Hk. cbn [length]. unfold k in *. case_match; lia.
    + unfold zlen. rewrite length_drop. lia.
Qed.

Lemma double_in_range m e : bounded 53 1024 m e = true -> in_range (numerator m e) (denominator e).
Proof.
  intros (Hm & He & _)%bounded_eq. unfold in_range, numerator, denominator.
  assert (1 <= 2 ^ Z.max 0 e <= 2 ^ 971) by (split; [|apply Z.pow_le_mono_r; lia]; pose proof (Z.pow_pos_nonneg 2 (Z.max 0 e)); lia).
  assert (1 <= 2 ^ Z.max 0 (- e) <= 2 ^ 1074) by (split; [|apply Z.pow_le_mono_r; lia]; pose proof (Z.pow_pos_nonneg 2 (Z.max 0 (- e))); lia).
  assert (2 ^ 53 * 2 ^ 971 < 10 ^ 400) by done. assert (2 ^ 1074 < 10 ^ 400) by done.
  set (U := 2 ^ Z.max 0 e) in *. set (V := 2 ^ Z.max 0 (- e)) in *. set (T := 10 ^ 400) in *. set (A := 2 ^ 971) in *. set (B := 2 ^ 1074) in *.
  split_and!; nia.
Qed.

(** Every text of a number is read back as a number near it. *)
Lemma print_double_reads p s m e : (1 <= p <= 17)%nat -> bounded 53 1024 m e = true ->
  exists v t, let text := print_double p (S754_finite s m e) in
    strtod (text ++ [0]) = (decimal_double s v t, [0]) /\ 0 < v /\ -500 <= t <= 400 /\
    near (Z.of_nat p) v t (numerator m e) (denominator e) /\
    Forall (fun c => number_char c = true) text /\ (exists c r, text = c :: r /\ ((c =? 45) || is_digit c) = true) /\ zlen text <= 25.
Proof.
  intros Hp Hb. pose proof (double_in_range m e Hb) as Hr.
  destruct (general_text_shape p _ _ Hp Hr) as (i & f & x & ex & v & t & E & Hne & Hi & Hf & Hx & Hxc & Hlen & Hv & Ht & Hv0 & Ht0 & Hex & Hnear).
  assert (print_double p (S754_finite s m e) = sign_text s ++ i ++ fraction_text f ++ x) as Et.
  { cbn [print_double]. rewrite <- E. f_equal. unfold numerator, denominator. destruct (Z.geb_spec e 0).
    - by rewrite (Z.max_r 0 e), (Z.max_l 0 (- e)) by lia.
    - rewrite (Z.max_l 0 e), (Z.max_r 0 (- e)) by lia. by rewrite Z.mul_1_r. }
  destruct (strip_zeroes_ok f) as [k Ek]. assert (digits (strip_zeroes f)) as Hsf by (rewrite Ek in Hf; by apply Forall_app in Hf as [? _]).
  assert (zlen f = zlen (strip_zeroes f) + Z.of_nat k) as Hzf by (rewrite Ek at 1; rewrite zlen_app; unfold zlen at 2; by rewrite length_replicate).
  assert (v = digits_value (i ++ strip_zeroes f) * 10 ^ Z.of_nat k) as Evk.
  { rewrite <- Hv. rewrite Ek at 1. rewrite app_assoc, digits_value_app, digits_value_zeroes. unfold zlen. rewrite length_replicate. lia. }
  exists (digits_value (i ++ strip_zeroes f)), (ex - zlen (strip_zeroes f)). cbv zeta. rewrite Et.
  pose proof (pow10_pos (Z.of_nat k) ltac:(lia)). pose proof (pow10_pos (Z.of_nat p - 1) ltac:(lia)).
  pose proof (zlen_nonneg i). pose proof (zlen_nonneg x). pose proof (zlen_nonneg (strip_zeroes f)).
  assert (Forall (fun c => number_char c = true) i /\ Forall (fun c => number_char c = true) (strip_zeroes f)) as [Hic Hfc].
  { split; (eapply Forall_impl; [|eassumption]); intros c Hc; unfold number_char; by rewrite Hc. }
  split_and!.
  - by apply strtod_text.
  - nia.
  - lia.
  - lia.
  - replace (ex - zlen (strip_zeroes f)) with (t + Z.of_nat k) by lia. apply near_shift; [lia|]. by rewrite <- Evk.
  - apply Forall_app. split; [destruct s; by repeat constructor|]. apply Forall_app. split; [done|]. apply Forall_app. split; [|done].
    unfold fraction_text. destruct (strip_zeroes f); [done|]. by constructor.
  - destruct i as [|i0 i']; [done|]. apply Forall_cons_iff in Hi as [Hi0 _]. destruct s; [by eexists _, _|].
    eexists _, _. split; [done|]. by rewrite Hi0, orb_true_r.
  - assert (zlen (fraction_text f) <= 1 + zlen (strip_zeroes f)) by (unfold fraction_text; destruct (strip_zeroes f); unfold zlen; simpl; lia).
    assert (zlen (sign_text s) <= 1) by (by destruct s). rewrite !zlen_app. lia.
Qed.

(** Finite doubles, in the form that computation gives them. *)
Definition finite_double (d : double) : Prop :=
  match d with
  | S754_zero _ => True
  | S754_finite _ m e => bounded 53 1024 m e = true
  | _ => False
  end.

(** Equal doubles in this form are the same. *)
Lemma double_eq_same s m e d : bounded 53 1024 m e = true -> (forall s' m' e', d = S754_finite s' m' e' -> bounded 53 1024 m' e' = true) ->
  double_eq d (S754_finite s m e) = true -> d = S754_finite s m e.
Proof.
  intros (Hm & He & Hl)%bounded_eq Hd E. destruct d as [s'|[]| |s' m' e']; try done.
  - exfalso. revert E. unfold double_eq. cbn [double_compare significand exponent]. rewrite Z.mul_0_l. destruct (Z.compare_spec 0 ((if s then Z.neg m else Z.pos m) * 2 ^ (e - Z.min 0 e))) as [E|E|E]; try done.
    pose proof (Z.pow_pos_nonneg 2 (e - Z.min 0 e)). destruct s; nia.
  - specialize (Hd _ _ _ eq_refl). apply bounded_eq in Hd as (Hm' & He' & Hl').
    unfold double_eq in E. cbn [double_compare significand exponent] in E.
    destruct (Z.compare_spec ((if s' then Z.neg m' else Z.pos m') * 2 ^ (e' - Z.min e' e)) ((if s then Z.neg m else Z.pos m) * 2 ^ (e - Z.min e' e))) as [Ev|Ev|Ev]; try done.
    assert (0 < 2 ^ (e' - Z.min e' e)) by (apply Z.pow_pos_nonneg; lia). assert (0 < 2 ^ (e - Z.min e' e)) by (apply Z.pow_pos_nonneg; lia).
    assert (s' = s) as -> by (destruct s, s'; try done; exfalso; nia).
    assert (Z.pos m' * 2 ^ (e' - Z.min e' e) = Z.pos m * 2 ^ (e - Z.min e' e)) as Ev' by (destruct s; nia).
    assert (e' = e) as ->.
    { change (2 ^ 53) with 9007199254740992 in *. change (2 ^ 52) with 4503599627370496 in *. destruct (Z.lt_trichotomy e' e) as [Hlt|[->|Hlt]]; [|done|].
      - rewrite Z.min_l, Z.sub_diag, Z.mul_1_r in Ev' by lia. replace (e - e') with (Z.succ (e - e' - 1)) in Ev' by lia.
        rewrite Z.pow_succ_r in Ev' by lia. pose proof (Z.pow_pos_nonneg 2 (e - e' - 1)). destruct Hl; [lia|]. nia.
      - rewrite Z.min_r, Z.sub_diag, Z.mul_1_r in Ev' by lia. replace (e' - e) with (Z.succ (e' - e - 1)) in Ev' by lia.
        rewrite Z.pow_succ_r in Ev' by lia. pose proof (Z.pow_pos_nonneg 2 (e' - e - 1)). destruct Hl'; [lia|]. nia. }
    rewrite Z.min_id, Z.sub_diag, !Z.mul_1_r in Ev'. by injection Ev' as ->.
Qed.

(** A number whose text is read as the same number. *)
Record reads_back (d : double) : Prop := {
  rb_value : strtod (number_text d ++ [0]) = (d, [0]);
  rb_chars : Forall (fun c => number_char c = true) (number_text d);
  rb_first : exists c t, number_text d = c :: t /\ ((c =? 45) || is_digit c) = true;
  rb_len : zlen (number_text d) <= 25
}.

(** Every finite double is read back: the text with 15 digits is used when it
    does, and 17 digits are always enough. *)
Lemma number_text_reads_back d : finite_double d -> reads_back d.
Proof.
  destruct d as [s|s| |s m e]; try done.
  { intros _. destruct s; (split; [reflexivity|by repeat constructor|by eexists _, _|done]). }
  intros Hb. cbn [finite_double] in Hb. unfold number_text. cbn [not_finite].
  destruct (print_double_reads 15 s m e ltac:(lia) Hb) as (v & t & E & _ & Ht & _ & Hc & Hf & Hl).
  destruct (print_double_reads 17 s m e ltac:(lia) Hb) as (v' & t' & E' & Hv' & Ht' & Hn' & Hc' & Hf' & Hl').
  cbv zeta in E, Hc, Hf, Hl, E', Hc', Hf', Hl'.
  assert (reads_back (S754_finite s m e)) as H; [|exact H]. split; unfold number_text; cbn [not_finite]; rewrite E.
  all: destruct (double_eq (decimal_double s v t) _) eqn:Eq; try done.
  - rewrite E. f_equal. apply double_eq_same; [done| |done]. intros s' m' e'. by apply decimal_double_canonical.
  - rewrite E'. f_equal. by apply decimal_double_near.
Qed.
