(* ===== verification/JsonPrint.v ===== *)
(** The printer of the cJSON library (cJSON.c): the output buffer, print_value
    and the functions below it, and the public functions on top.

    Writing outside the output buffer is the [None] of the option monad.  Sums
    of sizes do not reach the width of [size_t]. *)

From Stdlib Require Import SpecFloat.
From S2P Require Import Prelude CString JsonNumber Json JsonMem.

Import String.StringSyntax.

(** [printbuffer]: [buffer] is the block, or NULL. *)
Record printbuffer := {
  buffer : option (list Z);
  plength : Z;
  poffset : Z;
  pdepth : Z;
  noalloc : bool;
  format : bool;
  phooks : internal_hooks
}.

Definition set_buffer (p : printbuffer) (b : option (list Z)) (n : Z) (h : internal_hooks) : printbuffer :=
  {| buffer := b; plength := n; poffset := poffset p; pdepth := pdepth p; noalloc := noalloc p; format := format p; phooks := h |}.
Definition set_poffset (p : printbuffer) (o : Z) : printbuffer :=
  {| buffer := buffer p; plength := plength p; poffset := o; pdepth := pdepth p; noalloc := noalloc p; format := format p;
     phooks := phooks p |}.
Definition set_pdepth (p : printbuffer) (d : Z) : printbuffer :=
  {| buffer := buffer p; plength := plength p; poffset := poffset p; pdepth := d; noalloc := noalloc p; format := format p;
     phooks := phooks p |}.

(** [output[k ...] = l], behind the pointer that [ensure] returns. *)
Definition wr (p : printbuffer) (k : Z) (l : list Z) : option printbuffer :=
  b ← buffer p; b ← blit b (poffset p + k) l; Some (set_buffer p (Some b) (plength p) (phooks p)).

(** [update_offset(buffer)]. *)
Definition update_offset (p : printbuffer) : option printbuffer :=
  match buffer p with
  | None => Some p
  | Some b => n ← strlen (drop (Z.to_nat (poffset p)) b); Some (set_poffset p (poffset p + n))
  end.

Section Printer.
(** The allocator: which calls succeed, what a new block holds, and whether
    there is a [reallocate] hook. *)
Context (ok : nat -> bool) (junk : nat -> Z -> list Z) (reallocate : bool).

(** The size for a block that has to hold [needed] octets. *)
Definition newsize (needed : Z) : option Z :=
  if INT_MAX / 2 <? needed then (if needed <=? INT_MAX then Some INT_MAX else None) else Some (needed * 2).

(** [ensure(p, needed)]: whether the pointer, [p->buffer + p->offset], is not
    NULL. *)
Definition ensure (p : printbuffer) (needed : Z) : option (printbuffer * bool) :=
  match buffer p with
  | None => Some (p, false)
  | Some b =>
      if (0 <? plength p) && (plength p <=? poffset p) then Some (p, false)
      else if INT_MAX <? needed then Some (p, false)
      else
        let needed := needed + poffset p + 1 in
        if needed <=? plength p then Some (p, true)
        else if noalloc p then Some (p, false)
        else
          match newsize needed with
          | None => Some (p, false)
          | Some n =>
              let h := phooks p in
              let h' := {| tick := S (tick h); live := live h |} in
              if ok (tick h) then
                if reallocate then
                  Some (set_buffer p (Some (take (Z.to_nat n) (b ++ junk (tick h) n))) n h', true)
                else
                  old ← slice b 0 (poffset p + 1);
                  Some (set_buffer p (Some (old ++ drop (length old) (junk (tick h) n))) n h', true)
              else Some (set_buffer p None 0 (deallocate h'), false)
          end
  end.

(** [if ((output = ensure(p, needed)) == NULL) return false;] and the rest. *)
Definition with_space (p : printbuffer) (needed : Z) (k : printbuffer -> option (printbuffer * bool))
    : option (printbuffer * bool) :=
  '(p, r) ← ensure p needed;
  if r : bool then k p else Some (p, false).

(** [strcpy(output, s)] of a literal. *)
Definition print_word (s : list Z) (p : printbuffer) : option (printbuffer * bool) :=
  with_space p (zlen s + 1) (fun p => p ← wr p 0 (s ++ [0]); Some (p, true)).

(** ** Numbers *)

(** [number_buffer] has 26 octets. *)
Definition print_number (item : cJSON) (p : printbuffer) : option (printbuffer * bool) :=
  let text := number_text (valuedouble item) in
  let length := zlen text in
  if 26 <? length + 1 then None
  else
    with_space p (length + 1) (fun p =>
      p ← wr p 0 (map (fun c => if c =? 46 then 46 else c) text ++ [0]);
      Some (set_poffset p (poffset p + length), true)).

(** ** Strings *)

Definition short_escape (c : Z) : option Z :=
  if c =? 92 then Some 92
  else if c =? 34 then Some 34
  else if c =? 8 then Some 98
  else if c =? 12 then Some 102
  else if c =? 10 then Some 110
  else if c =? 13 then Some 114
  else if c =? 9 then Some 116
  else None.

(** The characters that escaping adds. *)
Fixpoint escape_characters (s : list Z) : Z :=
  match s with
  | [] => 0
  | c :: s => (if short_escape c is Some _ then 1 else if c <? 32 then 5 else 0) + escape_characters s
  end.

Definition hex_char (d : Z) : Z := if d <? 10 then 48 + d else 87 + d.

(** [sprintf(output, "u%04x", c)] of an octet, without the terminator. *)
Definition hex_escape (c : Z) : list Z := [117; 48; 48; hex_char (c / 16); hex_char (c mod 16)].

(** The loop that copies the string; [k] is [output_pointer - output]. *)
Fixpoint escape_loop (s : list Z) (k : Z) (p : printbuffer) : option printbuffer :=
  match s with
  | [] => Some p
  | c :: s =>
      if (31 <? c) && negb (c =? 34) && negb (c =? 92) then
        p ← wr p k [c]; escape_loop s (k + 1) p
      else
        p ← wr p k [92];
        match short_escape c with
        | Some x => p ← wr p (k + 1) [x]; escape_loop s (k + 2) p
        | None => p ← wr p (k + 1) (hex_escape c ++ [0]); escape_loop s (k + 6) p
        end
  end.

Definition print_string_ptr (input : option (list Z)) (p : printbuffer) : option (printbuffer * bool) :=
  match input with
  | None => with_space p 3 (fun p => p ← wr p 0 [34; 34; 0]; Some (p, true))
  | Some input =>
      n ← strlen input;
      let s := take (Z.to_nat n) input in
      let output_length := n + escape_characters s in
      with_space p (output_length + 3) (fun p =>
        if escape_characters s =? 0 then
          p ← wr p 0 [34]; p ← wr p 1 s; p ← wr p (output_length + 1) [34; 0]; Some (p, true)
        else
          p ← wr p 0 [34];
          p ← escape_loop s 1 p;
          p ← wr p (output_length + 1) [34; 0]; Some (p, true))
  end.

Definition print_string (item : cJSON) (p : printbuffer) : option (printbuffer * bool) :=
  print_string_ptr (valuestring item) p.

(** ** Arrays and objects *)

(** The loop over the elements; [value] prints one. *)
Definition print_elements (value : cJSON -> printbuffer -> option (printbuffer * bool)) :=
  fix loop (l : list cJSON) (p : printbuffer) : option (printbuffer * bool) :=
    match l with
    | [] => Some (p, true)
    | current_element :: next =>
        '(p, r) ← value current_element p;
        if negb r then Some (p, false)
        else
          p ← update_offset p;
          match next with
          | [] => loop next p
          | _ =>
              let length := if format p then 2 else 1 in
              with_space p (length + 1) (fun p =>
                p ← wr p 0 (44 :: (if format p then [32] else []) ++ [0]);
                loop next (set_poffset p (poffset p + length)))
          end
    end.

Definition print_array (value : cJSON -> printbuffer -> option (printbuffer * bool)) (children : list cJSON)
    (p : printbuffer) : option (printbuffer * bool) :=
  with_space p 1 (fun p =>
    p ← wr p 0 [91];
    let p := set_pdepth (set_poffset p (poffset p + 1)) (pdepth p + 1) in
    '(p, r) ← print_elements value children p;
    if negb r then Some (p, false)
    else with_space p 2 (fun p => p ← wr p 0 [93; 0]; Some (set_pdepth p (pdepth p - 1), true))).

Definition tabs (n : Z) : list Z := replicate (Z.to_nat n) 9.

(** One member behind its indentation: key, colon, value, comma; [next] are
    the members behind it, and [loop] prints them. *)
Definition print_member (value : cJSON -> printbuffer -> option (printbuffer * bool))
    (loop : printbuffer -> option (printbuffer * bool)) (current_item : cJSON) (next : list cJSON) (p : printbuffer)
    : option (printbuffer * bool) :=
  '(p, r) ← print_string_ptr (string current_item) p;
  if negb r then Some (p, false)
  else
    p ← update_offset p;
    let length := if format p then 2 else 1 in
    with_space p length (fun p =>
      p ← wr p 0 (58 :: (if format p then [9] else []));
      let p := set_poffset p (poffset p + length) in
      '(p, r) ← value current_item p;
      if negb r then Some (p, false)
      else
        p ← update_offset p;
        let comma := match next with [] => [] | _ => [44] end in
        let length := (if format p then 1 else 0) + zlen comma in
        with_space p (length + 1) (fun p =>
          p ← wr p 0 (comma ++ (if format p then [10] else []) ++ [0]);
          loop (set_poffset p (poffset p + length)))).

Definition print_members (value : cJSON -> printbuffer -> option (printbuffer * bool)) :=
  fix loop (l : list cJSON) (p : printbuffer) : option (printbuffer * bool) :=
    match l with
    | [] => Some (p, true)
    | current_item :: next =>
        if format p then
          with_space p (pdepth p) (fun p =>
            p ← wr p 0 (tabs (pdepth p));
            print_member value (loop next) current_item next (set_poffset p (poffset p + pdepth p)))
        else print_member value (loop next) current_item next p
    end.

Definition print_object (value : cJSON -> printbuffer -> option (printbuffer * bool)) (children : list cJSON)
    (p : printbuffer) : option (printbuffer * bool) :=
  let length := if format p then 2 else 1 in
  with_space p (length + 1) (fun p =>
    p ← wr p 0 (123 :: (if format p then [10] else []));
    let p := set_poffset (set_pdepth p (pdepth p + 1)) (poffset p + length) in
    '(p, r) ← print_members value children p;
    if negb r then Some (p, false)
    else
      with_space p (if format p then pdepth p + 1 else 2) (fun p =>
        p ← wr p 0 ((if format p then tabs (pdepth p - 1) else []) ++ [125; 0]);
        Some (set_pdepth p (pdepth p - 1), true))).

(** [print_value(item, output_buffer)]. *)
Fixpoint print_value (item : cJSON) (p : printbuffer) : option (printbuffer * bool) :=
  let t := type item & 0xFF in
  if t =? cJSON_NULL then print_word (str "null") p
  else if t =? cJSON_False then print_word (str "false") p
  else if t =? cJSON_True then print_word (str "true") p
  else if t =? cJSON_Number then print_number item p
  else if t =? cJSON_Raw then
    match valuestring item with
    | None => Some (p, false)
    | Some s =>
        n ← strlen s;
        with_space p (n + 1) (fun p => p ← wr p 0 (take (Z.to_nat (n + 1)) s); Some (p, true))
    end
  else if t =? cJSON_String then print_string item p
  else if t =? cJSON_Array then print_array print_value (child item) p
  else if t =? cJSON_Object then print_object print_value (child item) p
  else Some (p, false).

Definition print_item (item : option cJSON) (p : printbuffer) : option (printbuffer * bool) :=
  match item with None => Some (p, false) | Some item => print_value item p end.

(** [fail:] of [print]. *)
Definition print_fail (p : printbuffer) : internal_hooks :=
  match buffer p with Some _ => deallocate (phooks p) | None => phooks p end.

(** [print(item, format, hooks)]: the hooks and the text, a block of its own. *)
Definition print (h : internal_hooks) (item : option cJSON) (format : bool) : option (internal_hooks * option (list Z)) :=
  let '(h', r) := allocate ok h in
  let p := {| buffer := if r then Some (take 256 (junk (tick h) 256)) else None; plength := 256; poffset := 0; pdepth := 0;
              noalloc := false; format := format; phooks := h' |} in
  if negb r then Some (print_fail p, None)
  else
    '(p, r) ← print_item item p;
    if negb r then Some (print_fail p, None)
    else
      p ← update_offset p;
      let h := phooks p in
      b ← buffer p;
      if reallocate then
        let h' := {| tick := S (tick h); live := live h |} in
        if ok (tick h) then Some (h', Some (take (Z.to_nat (poffset p + 1)) (b ++ junk (tick h) (poffset p + 1))))
        else Some (deallocate h', None)
      else
        let '(h', r) := allocate ok h in
        if negb r then Some (deallocate h', None)
        else
          copy ← slice b 0 (Z.min (plength p) (poffset p + 1));
          printed ← blit (junk (tick h) (poffset p + 1)) 0 copy;
          printed ← aset printed (poffset p) 0;
          Some (deallocate h', Some printed).

Definition cJSON_Print (h : internal_hooks) (item : option cJSON) := print h item true.

Definition cJSON_PrintUnformatted (h : internal_hooks) (item : option cJSON) := print h item false.

Definition cJSON_PrintBuffered (h : internal_hooks) (item : option cJSON) (prebuffer : Z) (fmt : bool)
    : option (internal_hooks * option (list Z)) :=
  if prebuffer <? 0 then Some (h, None)
  else
    let '(h', r) := allocate ok h in
    if negb r then Some (h', None)
    else
      '(p, r) ← print_item item
        {| buffer := Some (take (Z.to_nat prebuffer) (junk (tick h) prebuffer)); plength := prebuffer; poffset := 0; pdepth := 0;
           noalloc := false; format := fmt; phooks := h' |};
      if negb r then Some (print_fail p, None) else Some (phooks p, buffer p).

(** [cJSON_PrintPreallocated(item, buf, len, fmt)], on a block of [len]
    octets; the result and the block. *)
Definition cJSON_PrintPreallocated (h : internal_hooks) (item : option cJSON) (buf : option (list Z)) (len : Z) (fmt : bool)
    : option (internal_hooks * option (list Z) * bool) :=
  match buf with
  | None => Some (h, None, false)
  | Some b =>
      if len <? 0 then Some (h, buf, false)
      else
        '(p, r) ← print_item item
          {| buffer := Some b; plength := len; poffset := 0; pdepth := 0; noalloc := true; format := fmt; phooks := h |};
        Some (phooks p, buffer p, r)
  end.

End Printer.
