(* ===== verification/JsonSafe.v ===== *)
(** The parser of the cJSON library is safe: on every input it returns, reads
    and writes inside its blocks, recurses no deeper than the nesting limit,
    leaks no memory, and what it returns is the tree of a JSON value. *)

From Stdlib Require Import SpecFloat Sorted.
From S2P Require Import Prelude CString JsonNumber Json JsonMem JsonParse.

Import String.StringSyntax.

(** ** JSON values *)

Inductive json :=
| JNull
| JFalse
| JTrue
| JNumber (d : double)
| JString (s : list Z)
| JArray (l : list json)
| JObject (l : list (list Z * json)).

(** The tree of a value, under a name. *)
Fixpoint node (name : option (list Z)) (j : json) : cJSON :=
  match j with
  | JNull => CJson cJSON_NULL None 0 (S754_zero false) name []
  | JFalse => CJson cJSON_False None 0 (S754_zero false) name []
  | JTrue => CJson cJSON_True None 1 (S754_zero false) name []
  | JNumber d => CJson cJSON_Number None (default 0 (saturate d)) d name []
  | JString s => CJson cJSON_String (Some (cstring s)) 0 (S754_zero false) name []
  | JArray l => CJson cJSON_Array None 0 (S754_zero false) name (map (node None) l)
  | JObject l => CJson cJSON_Object None 0 (S754_zero false) name (map (fun kv => node (Some (cstring kv.1)) kv.2) l)
  end.

Fixpoint json_depth (j : json) : Z :=
  match j with
  | JArray l => 1 + foldr (fun v d => Z.max (json_depth v) d) 0 l
  | JObject l => 1 + foldr (fun kv d => Z.max (json_depth kv.2) d) 0 l
  | _ => 0
  end.

(** ** The input *)

(** Octets with the terminator behind them. *)
Record input_ok (s : list Z) : Prop := {
  in_u8 : Forall is_u8 s;
  in_nul : exists t, s = t ++ [0] /\ nul_free t;
  in_size : zlen s < 2 ^ 31
}.

Record buffer_ok (b : parse_buffer) : Prop := {
  bo_input : input_ok (content b);
  bo_offset : 0 <= offset b < zlen (content b);
  bo_depth : 0 <= depth b <= CJSON_NESTING_LIMIT
}.

Lemma with_offset_same b : with_offset b (offset b) = b.
Proof. by destruct b. Qed.

Lemma buffer_ok_offset b o : buffer_ok b -> 0 <= o < zlen (content b) -> buffer_ok (with_offset b o).
Proof. intros [H1 _ H3] Ho. by split. Qed.

Lemma input_pos s : input_ok s -> 0 < zlen s.
Proof. intros [_ (t & -> & _) _]. rewrite zlen_app. pose proof (zlen_nonneg t). change (zlen [0]) with 1. lia. Qed.

Lemma input_at s i : input_ok s -> 0 <= i < zlen s -> aget s i = Some (znth s i) /\ is_u8 (znth s i).
Proof. intros [HF _ _] Hi. split; [by apply aget_znth|]. by apply (znth_Forall is_u8). Qed.

(** The terminator is the last octet and the only zero. *)
Lemma input_last s i : input_ok s -> 0 <= i < zlen s -> znth s i = 0 -> i = zlen s - 1.
Proof.
  intros [_ (t & -> & Ht) _] Hi Hz. rewrite zlen_app in *. change (zlen [0]) with 1 in *.
  destruct (decide (i < zlen t)) as [Hlt|]; [|lia]. exfalso.
  unfold znth in Hz. rewrite aget_app, decide_True in Hz by lia.
  rewrite aget_znth in Hz by lia. simpl in Hz. revert Hz. apply (znth_Forall (fun c => c <> 0) t i Ht). lia.
Qed.

Lemma at_ok b i :
  buffer_ok b -> 0 <= i -> offset b + i < zlen (content b) ->
  buffer_at_offset b i = Some (znth (content b) (offset b + i)).
Proof. intros [Hi Ho _] H0 H1. unfold buffer_at_offset. by apply input_at; [|lia]. Qed.

Lemma can_access_true b i : offset b + i < zlen (content b) -> can_access_at_index b i = true.
Proof. intros. unfold can_access_at_index. by apply Z.ltb_lt. Qed.

(** The comparisons that guard each step are defined. *)
Lemma at_char_run b c : buffer_ok b -> at_char b c = Some (znth (content b) (offset b) =? c).
Proof.
  intros Hb. pose proof Hb as [_ Ho _]. unfold at_char. rewrite can_access_true, at_ok by (done || lia). simpl. by rewrite Z.add_0_r.
Qed.

Lemma strncmp_run n a b : (n <= length a)%nat -> (n <= length b)%nat -> is_Some (strncmp n a b).
Proof.
  revert a b. induction n as [|n IH]; intros a b Ha Hb; [done|]. destruct a, b; simpl in *; try lia.
  do 2 (case_match; [done|]). apply IH; lia.
Qed.

Lemma at_word_run b w : buffer_ok b -> exists r, at_word b w = Some r /\ (r = true -> offset b + zlen w <= zlen (content b)).
Proof.
  intros [_ Ho _]. unfold at_word. destruct (can_read b (zlen w)) eqn:E; [|by exists false].
  unfold can_read in E. bool_to_prop.
  destruct (strncmp_run (length w) (drop (Z.to_nat (offset b)) (content b)) (w ++ [0])) as [r ->].
  - rewrite length_drop. unfold zlen in *. lia.
  - rewrite length_app. lia.
  - by eexists.
Qed.

(** ** White space *)

Lemma skip_loop_run fuel b :
  input_ok (content b) -> 0 <= offset b <= zlen (content b) -> zlen (content b) - offset b < Z.of_nat fuel ->
  exists o, skip_loop fuel b = Some (with_offset b o) /\ offset b <= o <= zlen (content b).
Proof.
  revert b. induction fuel as [|fuel IH]; intros b Hi Ho Hf; [lia|]. simpl. unfold can_access_at_index. rewrite Z.add_0_r.
  destruct (Z.ltb_spec (offset b) (zlen (content b))) as [Hlt|Hge].
  - unfold buffer_at_offset. rewrite Z.add_0_r. destruct (input_at (content b) (offset b) Hi) as [-> _]; [lia|]. simpl. case_if.
    + destruct (IH (with_offset b (offset b + 1))) as (o & -> & Hb); [done|simpl; lia|simpl; lia|].
      exists o. split; [done|]. simpl in Hb. lia.
    + exists (offset b). rewrite with_offset_same. split; [done|lia].
  - exists (offset b). rewrite with_offset_same. split; [done|lia].
Qed.

Lemma skip_whitespace_run b :
  input_ok (content b) -> 0 <= offset b <= zlen (content b) ->
  exists o, buffer_skip_whitespace b = Some (with_offset b o) /\
    Z.min (offset b) (zlen (content b) - 1) <= o < zlen (content b).
Proof.
  intros Hi Ho. pose proof (input_pos _ Hi). pose proof (in_size _ Hi). unfold buffer_skip_whitespace.
  destruct (skip_loop_run (S (length (content b))) b) as (o & -> & Hb); [done|done|unfold zlen in *; lia|].
  cbn [mbind option_bind with_offset content offset]. case_if.
  - exists (o - 1). rewrite wrap_id by (unfold fits; lia). split; [done|lia].
  - exists o. split; [done|lia].
Qed.

(** ** Numbers *)

Lemma number_char_nonzero c : number_char c = true -> c <> 0.
Proof. by intros H ->. Qed.

Lemma number_loop_run n i b :
  buffer_ok b -> 0 <= i -> offset b + i <= zlen (content b) ->
  exists s, number_loop n i b = Some s /\ nul_free s /\ offset b + i + zlen s <= zlen (content b).
Proof.
  intros Hb. revert i. induction n as [|n IH]; intros i Hi Hl; simpl;
    (assert (exists s, Some [] = Some s /\ nul_free s /\ offset b + i + zlen s <= zlen (content b)) as Hnil;
     [exists []; change (zlen []) with 0; split_and!; [done|constructor|lia]|]); [done|].
  unfold can_access_at_index. case_if; [|done]. rewrite at_ok by (done || lia). simpl. case_if; [|done].
  destruct (IH (i + 1)) as (s & -> & Hs & Hz); [lia|lia|]. simpl. eexists. split; [done|]. split.
  - constructor; [|done]. case_if; [done|by apply number_char_nonzero].
  - unfold zlen in *. simpl. lia.
Qed.

(** What a parser leaves of the item it was given: its name. *)
Definition fresh (item : cJSON) (name : option (list Z)) : Prop :=
  exists t, item = CJson t None 0 (S754_zero false) name [] /\ (t = cJSON_Invalid \/ t = cJSON_String).

Lemma parse_number_run item name b :
  buffer_ok b -> fresh item name ->
  exists o item' r, parse_number item b = Some (with_offset b o, item', r) /\
    if r : bool then offset b < o <= zlen (content b) /\ exists d, item' = node name (JNumber d)
    else o = offset b /\ item' = item.
Proof.
  intros Hb (t & -> & _). pose proof Hb as [_ Ho _]. unfold parse_number.
  destruct (number_loop_run 63 0 b) as (s & -> & Hs & Hz); [done|lia|lia|]. cbn [mbind option_bind].
  destruct (strtod_inside s Hs) as (n & En & Hn). pose proof (strtod_not_nan (s ++ [0])) as Hnan.
  destruct (strtod (s ++ [0])) as [d r]. cbn [fst snd] in *. rewrite En, zlen_app. change (zlen [0]) with 1.
  replace (zlen s + 1 - (zlen s + 1 - n)) with n by lia. destruct (Z.eqb_spec n 0) as [->|Hn0].
  - exists (offset b). rewrite with_offset_same. by eexists _, false.
  - destruct (saturate_Some d Hnan) as (i & Ei & _). rewrite Ei. cbn [mbind option_bind].
    eexists _, _, true. split; [done|]. split; [lia|]. exists d. unfold node. by rewrite Ei.
Qed.

(** ** Escape sequences *)

Lemma hex_digit_range c d : hex_digit c = Some d -> 0 <= d < 16.
Proof. unfold hex_digit. intros E. repeat case_match; simplify_eq; bool_to_prop; lia. Qed.

Lemma parse_hex4_run s p :
  input_ok s -> 0 <= p -> p + 4 <= zlen s -> exists h, parse_hex4 s p = Some h /\ 0 <= h < 2 ^ 16.
Proof.
  intros Hi Hp Hl. unfold parse_hex4.
  assert (forall n q h, 0 <= q -> q + Z.of_nat n <= zlen s -> 0 <= h -> h + 16 <= 16 ^ (5 - Z.of_nat n) -> (1 <= n <= 4)%nat ->
    exists h', hex4_loop s n q h = Some h' /\ 0 <= h' < 2 ^ 16) as H; [|apply H; lia].
  induction n as [|n IH]; intros q h Hq Hqn Hh Hb Hn; [lia|]. cbn [hex4_loop].
  destruct (input_at s q Hi) as [-> _]; [lia|]. cbn [mbind option_bind].
  destruct (hex_digit _) as [d|] eqn:Ed; [|by exists 0]. apply hex_digit_range in Ed.
  assert (h + 16 <= 2 ^ 16).
  { assert (16 ^ (5 - Z.of_nat (S n)) <= 16 ^ 4) by (apply Z.pow_le_mono_r; lia). lia. }
  rewrite (wrap_id 32 (h + d)) by (unfold fits; lia). destruct n as [|n].
  - exists (h + d). split; [done|lia].
  - cbn [Nat.ltb Nat.leb]. rewrite Z.shiftl_mul_pow2 by lia.
    assert ((h + 16) * 16 <= 16 ^ (5 - Z.of_nat (S n))).
    { replace (5 - Z.of_nat (S n)) with (1 + (5 - Z.of_nat (S (S n)))) by lia. rewrite Z.pow_add_r by lia. lia. }
    assert (16 ^ (5 - Z.of_nat (S n)) <= 16 ^ 4) by (apply Z.pow_le_mono_r; lia).
    rewrite wrap_id by (unfold fits; lia). apply IH; lia.
Qed.

Lemma utf8_tail_run n cp out :
  0 <= cp -> Forall is_u8 out ->
  exists cp' out', utf8_tail n cp out = (cp', out') /\ 0 <= cp' /\ Forall is_u8 out' /\ zlen out' = zlen out + Z.of_nat n.
Proof.
  revert cp out. induction n as [|n IH]; intros cp out Hc HF; cbn [utf8_tail]; [by eexists _, _; split_and!; try done; lia|].
  destruct (IH (cp >> 6) (u8 ((cp .| 0x80) & 0xBF) :: out)) as (cp' & out' & -> & Hc' & HF' & Hz).
  - by apply Z.shiftr_nonneg.
  - constructor; [apply wrap_fits; lia|done].
  - eexists _, _. split_and!; try done. unfold zlen in *. simpl in Hz. lia.
Qed.

Lemma utf8_encode_run cp : 0 <= cp <= 0x10FFFF ->
  exists o, utf8_encode cp = Some o /\ Forall is_u8 o /\ 1 <= zlen o <= 4 /\ (cp < 0x10000 -> zlen o <= 3).
Proof.
  intros Hc. unfold utf8_encode.
  assert (forall n mark, (1 <= n <= 4)%nat -> exists o,
    (let '(cp, tail) := utf8_tail (n - 1) cp [] in
     Some ((if (1 <? n)%nat then u8 ((cp .| mark) & 0xFF) else u8 (cp & 0x7F)) :: tail)) = Some o /\
    Forall is_u8 o /\ zlen o = Z.of_nat n) as H.
  { intros n mark Hn. destruct (utf8_tail_run (n - 1) cp []) as (cp' & out & -> & _ & HF & Hz); [lia|done|].
    eexists. split; [done|]. split; [constructor; [case_if; apply wrap_fits; lia|done]|].
    unfold zlen in *. simpl in *. lia. }
  destruct (Z.ltb_spec cp 0x80); [|destruct (Z.ltb_spec cp 0x800); [|destruct (Z.ltb_spec cp 0x10000); [|destruct (Z.leb_spec cp 0x10FFFF); [|lia]]]].
  - destruct (H 1%nat 0) as (o & E & HF & Hz); [lia|]. exists o. split; [exact E|]. split_and!; try done; lia.
  - destruct (H 2%nat 0xC0) as (o & E & HF & Hz); [lia|]. exists o. split; [exact E|]. split_and!; try done; lia.
  - destruct (H 3%nat 0xE0) as (o & E & HF & Hz); [lia|]. exists o. split; [exact E|]. split_and!; try done; lia.
  - destruct (H 4%nat 0xF0) as (o & E & HF & Hz); [lia|]. exists o. split; [exact E|]. split_and!; try done; lia.
Qed.

Lemma utf16_literal_run s p e :
  input_ok s -> 0 <= p <= e -> e <= zlen s ->
  exists o n, utf16_literal_to_utf8 s p e = Some (o, n) /\ Forall is_u8 o /\
    (n = 0 \/ (n = 6 /\ zlen o <= 3 \/ n = 12 /\ zlen o <= 4) /\ p + n <= e).
Proof.
  intros Hi Hp He. unfold utf16_literal_to_utf8.
  assert (exists o n, Some ([], 0) = Some (o, n) /\ Forall is_u8 o /\
    (n = 0 \/ (n = 6 /\ zlen o <= 3 \/ n = 12 /\ zlen o <= 4) /\ p + n <= e)) as Hfail by (by eexists _, _; split_and!; auto).
  case_if; [done|]. bool_to_prop. destruct (parse_hex4_run s (p + 2) Hi) as (h & -> & Hh); [lia|lia|]. cbn [mbind option_bind].
  case_if; [done|]. case_if.
  - case_if; [done|]. bool_to_prop. destruct (input_at s (p + 6) Hi) as [-> _]; [lia|]. cbn [mbind option_bind].
    destruct (input_at s (p + 6 + 1) Hi) as [-> _]; [lia|]. cbn [mbind option_bind]. case_if; [done|].
    destruct (parse_hex4_run s (p + 6 + 2) Hi) as (h2 & -> & Hh2); [lia|lia|]. cbn [mbind option_bind]. case_if; [done|].
    assert (forall x, x & 0x3FF = x mod 2 ^ 10) as Hland by (intros x; apply (Z.land_ones x 10); lia).
    set (cp := (_ << _) .| _). assert (0 <= cp < 2 ^ 20).
    { unfold cp. rewrite !Hland. rewrite Z.lor_comm, lor_shiftl_add by (unfold fits; lia). lia. }
    destruct (utf8_encode_run (0x10000 + cp)) as (o & -> & HF & Hz & _); [lia|].
    exists o, 12. split_and!; [done|done|right; split; [right|]; lia].
  - destruct (utf8_encode_run h) as (o & -> & HF & Hz & H3); [lia|].
    exists o, 6. split_and!; [done|done|right; split; [left|]; lia].
Qed.

(** ** String literals *)

(** The backslashes at which the first loop skips a character, and how many
    of them are in front of [k]. *)
Definition separated : list Z -> Prop := StronglySorted (fun x y => x + 2 <= y).

Definition before (l : list Z) (k : Z) : Z := foldr (fun x n => (if x <? k then 1 else 0) + n) 0 l.

Lemma before_all l k : Forall (fun x => x < k) l -> before l k = zlen l.
Proof.
  induction 1 as [|x l Hx _ IH]; [done|]. simpl. rewrite IH. unfold zlen. simpl. destruct (Z.ltb_spec x k); lia.
Qed.

Lemma before_none l k : Forall (fun x => k <= x) l -> before l k = 0.
Proof. induction 1 as [|x l Hx _ IH]; [done|]. simpl. rewrite IH. destruct (Z.ltb_spec x k); lia. Qed.

(** Among two characters in a row at most one is such a backslash. *)
Lemma before_two l k : separated l -> before l k <= before l (k + 1) <= before l (k + 2) /\ before l (k + 2) <= before l k + 1.
Proof.
  induction 1 as [|x l Hl IH HF]; [simpl; lia|]. simpl.
  destruct (Z.ltb_spec x k), (Z.ltb_spec x (k + 1)), (Z.ltb_spec x (k + 2)); try lia;
    rewrite !before_none; try lia; eapply Forall_impl; [|exact HF| |exact HF| |exact HF| |exact HF| |exact HF| |exact HF];
    simpl; lia.
Qed.

Lemma before_step l k : separated l -> before l k <= before l (k + 1) <= before l k + 1.
Proof. intros H. pose proof (before_two l k H). lia. Qed.

Lemma before_plain l k : k ∉ l -> before l (k + 1) = before l k.
Proof.
  induction l as [|x l IH]; [done|]. intros [Hx Hl]%not_elem_of_cons. simpl. rewrite IH by done.
  destruct (Z.ltb_spec x k), (Z.ltb_spec x (k + 1)); lia.
Qed.

(** The slack [k - before l k] never shrinks. *)
Lemma before_mono l k k' : separated l -> k <= k' -> k - before l k <= k' - before l k'.
Proof.
  intros Hl Hk. assert (exists n, k' = k + Z.of_nat n) as [n ->] by (exists (Z.to_nat (k' - k)); lia). clear Hk.
  induction n as [|n IH]; [by rewrite Z.add_0_r|]. pose proof (before_step l (k + Z.of_nat n) Hl).
  replace (k + Z.of_nat (S n)) with (k + Z.of_nat n + 1) by lia. lia.
Qed.

(** The slack grows by half of what is read. *)
Lemma before_even l k n : separated l -> before l (k + 2 * Z.of_nat n) <= before l k + Z.of_nat n.
Proof.
  intros Hl. induction n as [|n IH]; [by rewrite Z.add_0_r, Z.add_0_r|]. pose proof (before_two l (k + 2 * Z.of_nat n) Hl).
  replace (k + 2 * Z.of_nat (S n)) with (k + 2 * Z.of_nat n + 2) by lia. lia.
Qed.

Lemma scan_loop_run fuel s p k :
  input_ok s -> 0 <= p <= zlen s -> zlen s - p < Z.of_nat fuel ->
  exists r, scan_loop fuel s p k = Some r /\
    match r with
    | None => True
    | Some (e, n) => exists l, separated l /\ Forall (fun x => p <= x < e /\ znth s x = 92) l /\ n = k + zlen l /\
        p <= e < zlen s /\ znth s e = 34
    end.
Proof.
  intros Hi. revert p k. induction fuel as [|fuel IH]; intros p k Hp Hf; [lia|]. cbn [scan_loop].
  destruct (Z.ltb_spec p (zlen s)) as [Hlt|]; [|by exists None].
  destruct (input_at s p Hi) as [-> _]; [lia|]. cbn [mbind option_bind].
  destruct (Z.eqb_spec (znth s p) 34) as [Hq|Hq].
  { eexists. split; [done|]. exists []. change (zlen []) with 0. split_and!; try done; try lia; constructor. }
  destruct (Z.eqb_spec (znth s p) 92) as [Hb|Hb].
  - destruct (Z.leb_spec (zlen s) (p + 1)); [by exists None|].
    destruct (IH (p + 2) (k + 1)) as (r & -> & Hr); [lia|lia|]. exists r. split; [done|]. destruct r as [[e n]|]; [|done].
    destruct Hr as (l & Hl & HF & Hn & He & Hqe). exists (p :: l). split_and!; try done; try lia.
    + constructor; [done|]. eapply Forall_impl; [|exact HF]. simpl. lia.
    + constructor; [split; [lia|done]|]. eapply Forall_impl; [|exact HF]. simpl. intros x [? ?]. split; [lia|done].
    + unfold zlen in *. simpl. lia.
  - destruct (IH (p + 1) k) as (r & -> & Hr); [lia|lia|]. exists r. split; [done|]. destruct r as [[e n]|]; [|done].
    destruct Hr as (l & Hl & HF & Hn & He & Hqe). exists l. split_and!; try done; try lia.
    eapply Forall_impl; [|exact HF]. simpl. intros x [? ?]. split; [lia|done].
Qed.

(** The second loop does not outgrow the block that the first one measured. *)
Lemma unescape_loop_run fuel s size start p e l out :
  input_ok s -> separated l -> Forall (fun x => start <= x < e /\ znth s x = 92) l -> e < zlen s -> znth s e = 34 ->
  size = e + 1 - start - zlen l + 1 -> 0 <= start <= p -> p <= e + 1 -> e + 1 - p < Z.of_nat fuel ->
  Forall is_u8 out -> zlen out <= p - start - before l p ->
  exists q r, unescape_loop fuel s size p e out = Some (q, r) /\ start <= q /\
    match r with None => True | Some out' => Forall is_u8 out' /\ zlen out' <= size - 1 end.
Proof.
  intros Hi Hsep Hl He Hq Hsize. revert p out.
  assert (forall k, k <= e + 1 -> k - before l k <= e + 1 - zlen l) as Htop.
  { intros k Hk. pose proof (before_mono l k (e + 1) Hsep Hk) as Hm. rewrite (before_all l (e + 1)) in Hm; [lia|].
    eapply Forall_impl; [|exact Hl]. simpl. lia. }
  induction fuel as [|fuel IH]; intros p out Hp Hpe Hf HF Hout; [lia|]. cbn [unescape_loop].
  assert (forall o p', p < p' <= e + 1 -> Forall is_u8 o -> zlen o <= (p' - p) - (before l p' - before l p) ->
    exists q r, (out0 ← put_out size out o; unescape_loop fuel s size p' e out0) = Some (q, r) /\ start <= q /\
      match r with None => True | Some out' => Forall is_u8 out' /\ zlen out' <= size - 1 end) as Hput.
  { intros o p' Hp' Ho Hz. unfold put_out. pose proof (Htop p' ltac:(lia)). destruct (Z.leb_spec (zlen out + zlen o) size); [|lia].
    cbn [mbind option_bind]. apply IH; [lia|lia|lia|by apply Forall_app|rewrite zlen_app; lia]. }
  assert (forall c p', p < p' <= e + 1 -> is_u8 c -> before l p' < before l p + (p' - p) ->
    exists q r, (out0 ← put_out size out [c]; unescape_loop fuel s size p' e out0) = Some (q, r) /\ start <= q /\
      match r with None => True | Some out' => Forall is_u8 out' /\ zlen out' <= size - 1 end) as Hput1.
  { intros c p' Hp' Hc Hb. apply Hput; [done|by constructor|change (zlen [c]) with 1; lia]. }
  assert (exists q r, Some (p, None) = Some (q, r) /\ start <= q /\
    match r with None => True | Some out' => Forall is_u8 out' /\ zlen out' <= size - 1 end) as Hstop by (exists p, None; split_and!; [done|lia|done]).
  destruct (Z.ltb_spec p e) as [Hlt|Hge].
  2: { eexists _, (Some out). split; [done|]. split; [lia|]. split; [done|]. pose proof (Htop p ltac:(lia)). lia. }
  destruct (input_at s p Hi) as [-> Hc]; [lia|]. cbn [mbind option_bind].
  destruct (Z.eqb_spec (znth s p) 92) as [Hb|Hb]; cbn [negb].
  - destruct (Z.ltb_spec (e - p) 1); [lia|]. destruct (input_at s (p + 1) Hi) as [-> Hx]; [lia|]. cbn [mbind option_bind].
    destruct (simple_escape _) as [y|] eqn:Ey.
    + apply Hput1; [lia| |pose proof (before_two l p Hsep); lia]. unfold simple_escape in Ey.
      repeat case_match; simplify_eq; try (unfold fits; lia).
    + destruct (Z.eqb_spec (znth s (p + 1)) 117); [|done].
      destruct (utf16_literal_run s p e Hi) as (o & n & -> & Ho & Hn); [lia|lia|]. cbn [mbind option_bind].
      destruct (Z.eqb_spec n 0); [done|]. destruct Hn as [|[[[-> Hz]|[-> Hz]] Hpn]]; [done| |].
      * apply Hput; [lia|done|]. pose proof (before_even l p 3 Hsep). change (2 * Z.of_nat 3) with 6 in *. lia.
      * apply Hput; [lia|done|]. pose proof (before_even l p 6 Hsep). change (2 * Z.of_nat 6) with 12 in *. lia.
  - apply Hput1; [lia|done|]. rewrite before_plain; [lia|]. intros Hin.
    apply list_elem_of_lookup in Hin as [j Hj]. by destruct (Forall_lookup_1 _ _ _ _ Hl Hj).
Qed.

(** ** Results *)

(** A parser went from [b] to [b']: the input is the same, and it holds [n]
    more blocks. *)
Record ran (b : parse_buffer) (n : Z) (b' : parse_buffer) : Prop := {
  rn_content : content b' = content b;
  rn_offset : 0 <= offset b';
  rn_live : live (hooks b') = live (hooks b) + n
}.

(** On success it is behind what it read, as deep as before. *)
Record advanced (b b' : parse_buffer) : Prop := {
  ad_offset : offset b < offset b' <= zlen (content b);
  ad_depth : depth b' = depth b
}.

Section Parser.
Context (ok : nat -> bool).

Lemma allocate_run h : exists h' r, allocate ok h = (h', r) /\ live h' = live h + (if r : bool then 1 else 0).
Proof. eexists _, _. by split. Qed.

Lemma new_item_run h : exists h' r, cJSON_New_Item ok h = (h', r) /\
  ((r = None /\ live h' = live h) \/ (r = Some empty_item /\ live h' = live h + 1)).
Proof.
  unfold cJSON_New_Item. destruct (allocate_run h) as (h' & r & -> & Hl). eexists _, _. split; [done|].
  destruct r; [by right|left]. split; [done|lia].
Qed.

Lemma parse_string_run item name b :
  buffer_ok b -> fresh item name ->
  exists b' item' r, parse_string ok item b = Some (b', item', r) /\
    if r : bool then ran b 1 b' /\ advanced b b' /\ exists s, item' = node name (JString s)
    else ran b 0 b' /\ item' = item.
Proof.
  intros Hb (t & -> & _). pose proof Hb as [Hi Ho Hd]. unfold parse_string. rewrite at_ok by (done || lia). cbn [mbind option_bind].
  assert (forall o h, 0 <= o -> live h = live (hooks b) -> ran b 0 (with_offset (with_hooks b h) o)) as Hran
    by (intros o h Ho' Hh; split; simpl; [done|done|lia]).
  assert (forall o, 0 <= o -> ran b 0 (with_offset b o)) as Hran0 by (intros o Ho'; split; simpl; [done|done|lia]).
  case_if; [eexists _, _, false; split; [done|]; split; [apply Hran0; lia|done]|].
  destruct (scan_loop_run (S (length (content b))) (content b) (offset b + 1) 0 Hi) as (r & -> & Hr); [lia|unfold zlen in *; lia|].
  cbn [mbind option_bind]. destruct r as [[e n]|]; [|eexists _, _, false; split; [done|]; split; [apply Hran0; lia|done]].
  destruct Hr as (l & Hl & HF & Hn & He & Hq). destruct (allocate_run (hooks b)) as (h & r & -> & Hh).
  destruct r; cbn [negb] in *; cbn iota in Hh; [|eexists _, _, false; split; [done|]; split; [apply Hran; lia|done]].
  set (size := e - offset b - n + 1).
  destruct (unescape_loop_run (S (length (content b))) (content b) size (offset b + 1) (offset b + 1) e l []) as
    (q & r & -> & Hqq & Hr); try done; try lia; [unfold zlen in *; lia| |].
  { rewrite before_none; [change (zlen []) with 0; lia|]. eapply Forall_impl; [|exact HF]. simpl. lia. }
  cbn [mbind option_bind]. destruct r as [out|].
  - destruct Hr as [HFo Hz]. unfold put_out. change (zlen [0]) with 1. fold size. destruct (Z.leb_spec (zlen out + 1) size); [|lia].
    cbn [mbind option_bind]. eexists _, _, true. split; [done|]. split; [split; simpl; [done|lia|lia]|].
    split; [split; simpl; [lia|done]|]. by exists out.
  - eexists _, _, false. split; [done|]. split; [apply Hran; simpl; lia|done].
Qed.

(** Every block of a tree under construction is counted. *)
Lemma fresh_blocks item name : fresh item name -> blocks item = 1 + (if name is Some _ then 1 else 0).
Proof. intros (t & -> & [-> | ->]); simpl; unfold has_flag; simpl; destruct name; done. Qed.

Lemma node_blocks name j : has_flag (node name j) cJSON_IsReference = false /\ has_flag (node name j) cJSON_StringIsConst = false.
Proof. by destruct j. Qed.

(** What the parser of values does at a depth where [fuel] is enough. *)
Definition value_runs (fuel : nat) (value : cJSON -> parse_buffer -> option (parse_buffer * cJSON * bool)) : Prop :=
  forall item name b, buffer_ok b -> fresh item name -> CJSON_NESTING_LIMIT - depth b < Z.of_nat fuel ->
  exists b' item' r, value item b = Some (b', item', r) /\
    if r : bool then
      ran b (blocks item' - blocks item) b' /\ advanced b b' /\
      exists j, item' = node name j /\ json_depth j + depth b <= CJSON_NESTING_LIMIT
    else ran b 0 b' /\ item' = item.

Lemma input_end s : input_ok s -> znth s (zlen s - 1) = 0.
Proof.
  intros [_ (t & -> & _) _]. rewrite zlen_app. change (zlen [0]) with 1. unfold znth. pose proof (zlen_nonneg t).
  rewrite aget_app, decide_False by lia. by replace (zlen t + 1 - 1 - zlen t) with 0 by lia.
Qed.

(** A character other than the terminator has one behind it. *)
Lemma input_next s i : input_ok s -> 0 <= i < zlen s -> znth s i <> 0 -> i + 1 < zlen s.
Proof.
  intros Hi Hb Hz. destruct (decide (i = zlen s - 1)) as [->|]; [|lia]. by rewrite input_end in Hz.
Qed.

(** A step of white space behind the character at the offset. *)
Lemma skip_next b :
  input_ok (content b) -> 0 <= offset b -> offset b + 1 < zlen (content b) -> 0 <= depth b <= CJSON_NESTING_LIMIT ->
  exists o, buffer_skip_whitespace (with_offset b (offset b + 1)) = Some (with_offset b o) /\
    offset b < o /\ buffer_ok (with_offset b o).
Proof.
  intros Hi H0 H1 Hd. destruct (skip_whitespace_run (with_offset b (offset b + 1))) as (o & E & Ho); [done|simpl; lia|].
  simpl in Ho. exists o. split; [exact E|]. split; [lia|]. split; simpl; [done|lia|done].
Qed.

(** White space behind a value. *)
Lemma skip_after b b' :
  input_ok (content b) -> content b' = content b -> 0 <= offset b -> advanced b b' -> 0 <= depth b <= CJSON_NESTING_LIMIT ->
  exists o, buffer_skip_whitespace b' = Some (with_offset b' o) /\ offset b <= o /\ buffer_ok (with_offset b' o).
Proof.
  intros Hi Hc H0 [Ho Hd] Hd0. destruct (skip_whitespace_run b') as (o & E & Hb); [by rewrite Hc|rewrite Hc; lia|].
  rewrite Hc in Hb. exists o. split; [done|]. split; [lia|]. split; simpl; [by rewrite Hc|rewrite Hc; lia|lia].
Qed.

Lemma json_depth_list {A} (f : A -> Z) l d : 0 <= d -> Forall (fun x => f x <= d) l -> foldr (fun x n => Z.max (f x) n) 0 l <= d.
Proof. intros Hd. induction 1; simpl; lia. Qed.

Lemma fresh_empty : fresh empty_item None.
Proof. exists cJSON_Invalid. auto. Qed.

(** How far a loop over elements has come. *)
Record loop_ok (b : parse_buffer) : Prop := {
  lo_input : input_ok (content b);
  lo_offset : 0 <= offset b;
  lo_next : offset b + 1 < zlen (content b);
  lo_depth : 0 <= depth b <= CJSON_NESTING_LIMIT
}.

(** [n] blocks were added to the chain [head]. *)
Definition looped (b : parse_buffer) (head : list cJSON) (b' : parse_buffer) (head' : list cJSON) : Prop :=
  ran b (chain_blocks head' - chain_blocks head) b'.

Lemma looped_trans b1 h1 b2 h2 b3 h3 : looped b1 h1 b2 h2 -> looped b2 h2 b3 h3 -> looped b1 h1 b3 h3.
Proof. intros [A1 B1 C1] [A2 B2 C2]. split; [congruence|done|lia]. Qed.

Lemma loop_hooks b h : loop_ok b -> loop_ok (with_hooks b h).
Proof. intros [????]. by split. Qed.

(** The loop goes on at a comma. *)
Lemma at_comma b c : buffer_ok b -> depth b <= CJSON_NESTING_LIMIT -> znth (content b) (offset b) = c -> c <> 0 -> loop_ok b.
Proof. intros [Hi Ho Hd] Hl Hc H0. split; [done|lia| |done]. apply input_next; [done|lia|by rewrite Hc]. Qed.

Definition inner (b : parse_buffer) (j : json) : Prop := json_depth j + depth b <= CJSON_NESTING_LIMIT.

Lemma array_loop_run fuel value n head js b :
  value_runs fuel value -> loop_ok b -> CJSON_NESTING_LIMIT - depth b < Z.of_nat fuel ->
  zlen (content b) - 1 - offset b <= Z.of_nat n -> head = map (node None) js -> Forall (inner b) js ->
  exists b' head' r, array_loop ok n value head b = Some (b', head', r) /\ looped b head b' head' /\
    (r = true -> buffer_ok b' /\ offset b < offset b' /\ depth b' = depth b /\
      exists js', head' = map (node None) js' /\ Forall (inner b) js').
Proof.
  intros Hv. revert head js b. induction n as [|n IH]; intros head js b Hb Hf Hn Hh Hjs; [pose proof (lo_next _ Hb); lia|].
  cbn [array_loop]. destruct (new_item_run (hooks b)) as (h & item & -> & Hit).
  destruct Hit as [[-> Hh0]|[-> Hh1]].
  { eexists _, _, false. split; [done|]. split; [|done]. pose proof (lo_offset _ Hb). split; simpl; [done|done|lia]. }
  destruct (skip_next (with_hooks b h)) as (o & E & Ho & Hok); [apply Hb|apply Hb|apply Hb|apply Hb|].
  rewrite E. pose proof (lo_offset _ Hb) as H0. cbn [mbind option_bind offset with_hooks] in *.
  destruct (Hv empty_item None (with_offset (with_hooks b h) o) Hok fresh_empty) as (b1 & item & r & -> & Hr); [done|].
  cbn [mbind option_bind]. destruct r; cbn [negb].
  - destruct Hr as (Hran & Had & j & -> & Hj). pose proof Hran as [Hc _ Hl]. cbn [content hooks depth offset with_hooks with_offset] in *.
    destruct (skip_after (with_offset (with_hooks b h) o) b1) as (o1 & -> & Ho1 & Hok1); [apply Hb|done|simpl; lia|done|apply Hb|].
    cbn [mbind option_bind content hooks depth offset with_hooks with_offset] in *. rewrite at_char_run by done.
    pose proof (ad_depth _ _ Had) as Hd. cbn [content hooks depth offset with_hooks with_offset] in *.
    assert (looped b head (with_offset b1 o1) (head ++ [node None j])) as Hlp.
    { split; simpl; [done|lia|]. rewrite chain_blocks_app, chain_blocks_cons. change (chain_blocks []) with 0.
      change (blocks empty_item) with 1 in Hl. lia. }
    assert (Forall (inner b) (js ++ [j])) as Hjs'.
    { apply Forall_app. split; [done|]. constructor; [|constructor]. unfold inner. pose proof (lo_depth _ Hb). lia. }
    destruct (Z.eqb_spec (znth (content b1) o1) 44) as [Hcm|Hcm]; cbn [mbind option_bind].
    + destruct (IH (head ++ [node None j]) (js ++ [j]) (with_offset b1 o1)) as (b2 & head2 & r2 & -> & Hl2 & Hr2).
      * eapply at_comma; [done|simpl; rewrite Hd; apply Hb|exact Hcm|done].
      * simpl. by rewrite Hd.
      * simpl. rewrite Hc. lia.
      * by rewrite map_app, Hh.
      * eapply Forall_impl; [|exact Hjs']. unfold inner. simpl. by rewrite Hd.
      * eexists _, _, _. split; [done|]. split; [by eapply looped_trans|]. intros Hr. destruct (Hr2 Hr) as (A & B & C & js2 & D & F).
        simpl in B, C. split; [done|]. split; [lia|]. split; [congruence|]. exists js2. split; [done|].
        eapply Forall_impl; [|exact F]. unfold inner. simpl. by rewrite Hd.
    + eexists _, _, true. split; [done|]. split; [done|]. intros _. split; [done|]. split; [simpl; lia|]. split; [done|].
      exists (js ++ [j]). by rewrite map_app, Hh.
  - destruct Hr as [[Hc Hoo Hl] ->]. eexists _, _, false. split; [done|]. split; [|done]. simpl in *.
    split; [done|done|]. rewrite chain_blocks_app. change (chain_blocks [empty_item]) with 1. lia.
Qed.

(** A member of an object. *)
Definition member (kv : list Z * json) : cJSON := node (Some (cstring kv.1)) kv.2.

(** An item with its name, before its value is parsed. *)
Definition named_item (s : list Z) : cJSON := CJson cJSON_String None 0 (S754_zero false) (Some (cstring s)) [].

Lemma fresh_named s : fresh (named_item s) (Some (cstring s)).
Proof. exists cJSON_String. auto. Qed.

Lemma object_loop_run fuel value n head js b :
  value_runs fuel value -> loop_ok b -> CJSON_NESTING_LIMIT - depth b < Z.of_nat fuel ->
  zlen (content b) - 1 - offset b <= Z.of_nat n -> head = map member js -> Forall (fun kv => inner b kv.2) js ->
  exists b' head' r, object_loop ok n value head b = Some (b', head', r) /\ looped b head b' head' /\
    (r = true -> buffer_ok b' /\ offset b < offset b' /\ depth b' = depth b /\
      exists js', head' = map member js' /\ Forall (fun kv => inner b kv.2) js').
Proof.
  intros Hv. revert head js b. induction n as [|n IH]; intros head js b Hb Hf Hn Hh Hjs; [pose proof (lo_next _ Hb); lia|].
  cbn [object_loop]. destruct (new_item_run (hooks b)) as (h & item & -> & Hit).
  destruct Hit as [[-> Hh0]|[-> Hh1]].
  { eexists _, _, false. split; [done|]. split; [|done]. pose proof (lo_offset _ Hb). split; simpl; [done|done|lia]. }
  destruct (skip_next (with_hooks b h)) as (o & E & Ho & Hok); [apply Hb|apply Hb|apply Hb|apply Hb|].
  rewrite E. pose proof (lo_offset _ Hb) as H0. cbn [mbind option_bind offset with_hooks] in *.
  destruct (parse_string_run empty_item None (with_offset (with_hooks b h) o) Hok fresh_empty) as (b1 & item & r & -> & Hr).
  cbn [mbind option_bind]. destruct r; cbn [negb].
  2: { destruct Hr as [[Hc Hoo Hl] ->]. eexists _, _, false. split; [done|]. split; [|done]. simpl in *.
       split; [done|done|]. rewrite chain_blocks_app. change (chain_blocks [empty_item]) with 1. lia. }
  destruct Hr as (Hran & Had & s & ->). pose proof Hran as [Hc _ Hl]. cbn [content hooks depth offset with_hooks with_offset] in *.
  destruct (skip_after (with_offset (with_hooks b h) o) b1) as (o1 & -> & Ho1 & Hok1); [apply Hb|done|simpl; lia|done|apply Hb|].
  pose proof (ad_depth _ _ Had) as Hd. cbn [mbind option_bind content hooks depth offset with_hooks with_offset] in *.
  change (with_valuestring (with_string (node None (JString s)) (valuestring (node None (JString s)))) None) with (named_item s).
  rewrite at_char_run by done. cbn [mbind option_bind].
  assert (chain_blocks (head ++ [named_item s]) = chain_blocks head + 2) as Hnb by (by rewrite chain_blocks_app).
  destruct (Z.eqb_spec (znth (content (with_offset b1 o1)) (offset (with_offset b1 o1))) 58) as [Hcol|Hcol]; cbn [negb].
  2: { eexists _, _, false. split; [done|]. split; [|done]. split; simpl; [done|lia|]. lia. }
  assert (loop_ok (with_offset b1 o1)) as Hlo by (eapply at_comma; [done|simpl; rewrite Hd; apply Hb|exact Hcol|done]).
  destruct (skip_next (with_offset b1 o1)) as (o2 & E2 & Ho2 & Hok2); [apply Hlo|apply Hlo|apply Hlo|apply Hlo|].
  cbn [offset with_offset] in E2 |- *. rewrite E2.
  cbn [mbind option_bind content hooks depth offset with_hooks with_offset] in *.
  change (with_offset (with_offset b1 o1) o2) with (with_offset b1 o2) in *.
  destruct (Hv (named_item s) _ (with_offset b1 o2) Hok2 (fresh_named s)) as (b2 & item & r & -> & Hr); [simpl; by rewrite Hd|].
  cbn [mbind option_bind]. destruct r; cbn [negb].
  2: { destruct Hr as [[Hc2 Hoo Hl2] ->]. eexists _, _, false. split; [done|]. split; [|done]. simpl in *.
       split; [congruence|done|]. lia. }
  destruct Hr as (Hran2 & Had2 & j & -> & Hj). pose proof Hran2 as [Hc2 _ Hl2]. cbn [content hooks depth offset with_hooks with_offset] in *.
  destruct (skip_after (with_offset b1 o2) b2) as (o3 & -> & Ho3 & Hok3); [simpl; rewrite Hc; apply Hb|done|simpl; lia|done|simpl; rewrite Hd; apply Hb|].
  pose proof (ad_depth _ _ Had2) as Hd2. cbn [mbind option_bind content hooks depth offset with_hooks with_offset] in *.
  rewrite at_char_run by done. cbn [mbind option_bind].
  change (node (Some (cstring s)) j) with (member (s, j)) in *.
  assert (looped b head (with_offset b2 o3) (head ++ [member (s, j)])) as Hlp.
  { split; simpl; [congruence|lia|]. rewrite chain_blocks_app, chain_blocks_cons. change (chain_blocks []) with 0.
    change (blocks (named_item s)) with 2 in Hl2. lia. }
  assert (Forall (fun kv => inner b kv.2) (js ++ [(s, j)])) as Hjs'.
  { apply Forall_app. split; [done|]. constructor; [|constructor]. unfold inner. pose proof (lo_depth _ Hb). simpl. lia. }
  destruct (Z.eqb_spec (znth (content (with_offset b2 o3)) (offset (with_offset b2 o3))) 44) as [Hcm|Hcm].
  - destruct (IH (head ++ [member (s, j)]) (js ++ [(s, j)]) (with_offset b2 o3)) as (b3 & head3 & r3 & -> & Hl3 & Hr3).
    + eapply at_comma; [done|simpl; rewrite Hd2, Hd; apply Hb|exact Hcm|done].
    + simpl. by rewrite Hd2, Hd.
    + simpl. rewrite Hc2, Hc. lia.
    + by rewrite map_app, Hh.
    + eapply Forall_impl; [|exact Hjs']. unfold inner. simpl. by rewrite Hd2, Hd.
    + eexists _, _, _. split; [done|]. split; [by eapply looped_trans|]. intros Hr. destruct (Hr3 Hr) as (A & B & C & js3 & D & F).
      simpl in B, C. split; [done|]. split; [lia|]. split; [congruence|]. exists js3. split; [done|].
      eapply Forall_impl; [|exact F]. unfold inner. simpl. by rewrite Hd2, Hd.
  - eexists _, _, true. split; [done|]. split; [done|]. intros _. split; [done|]. split; [simpl; lia|]. split; [simpl; congruence|].
    exists (js ++ [(s, j)]). by rewrite map_app, Hh.
Qed.

(** What [value_runs] says of one call. *)
Definition value_result (item : cJSON) (name : option (list Z)) (b b' : parse_buffer) (item' : cJSON) (r : bool) : Prop :=
  if r then
    ran b (blocks item' - blocks item) b' /\ advanced b b' /\
    exists j, item' = node name j /\ json_depth j + depth b <= CJSON_NESTING_LIMIT
  else ran b 0 b' /\ item' = item.

(** The two ways out of an array or an object. *)
Lemma failed_result item name b b' head :
  ran b (chain_blocks head) b' ->
  exists b'' item' r, parse_failed item b' head = Some (b'', item', r) /\ value_result item name b b'' item' r.
Proof.
  intros [Hc Ho Hl]. eexists _, _, false. split; [done|]. split; [|done]. rewrite cJSON_Delete_spec. split; simpl; [done|done|lia].
Qed.

Lemma children_result item name b b' head t j :
  fresh item name -> ran b (chain_blocks head) b' -> buffer_ok b' -> offset b < offset b' -> depth b' = depth b + 1 ->
  with_child (with_type item t) head = node name j -> chain_blocks head = chain_blocks (child (node name j)) ->
  valuestring (node name j) = None -> string (node name j) = name -> json_depth j + depth b <= CJSON_NESTING_LIMIT ->
  exists b'' item' r, parsed_children item t b' head = Some (b'', item', r) /\ value_result item name b b'' item' r.
Proof.
  intros Hf [Hc Ho Hl] [_ Hob _] Hlt Hd En Hch Hvs Hst Hj. eexists _, _, true. split; [done|]. rewrite En. split; [|split].
  - split; simpl; [done|lia|]. rewrite Hl, (fresh_blocks _ _ Hf), Hch. destruct (node_blocks name j) as [H1 H2].
    destruct (node name j) as [t' vs vi vd st c]. simpl in Hvs, Hst. subst vs st. cbn [blocks child valuestring string].
    rewrite H1, H2. fold (chain_blocks c). simpl. destruct name; lia.
  - split; simpl; [rewrite Hc in Hob; lia|lia].
  - exists j. split; [done|lia].
Qed.

(** A loop over elements: from the chain of no values it makes one of the
    values of [mk]. *)
Definition loop_runs (loop : nat -> list cJSON -> parse_buffer -> option (parse_buffer * list cJSON * bool)) (d : Z)
    (mk : list cJSON -> Z -> Prop) : Prop :=
  forall n b, loop_ok b -> depth b = d -> zlen (content b) - 1 - offset b <= Z.of_nat n ->
  exists b' head r, loop n [] b = Some (b', head, r) /\ looped b [] b' head /\
    (r = true -> buffer_ok b' /\ offset b < offset b' /\ depth b' = d /\ mk head d).

Lemma parse_elements_run loop t close item name b mk :
  loop_runs loop (depth b + 1) mk -> fresh item name -> buffer_ok b -> depth b < CJSON_NESTING_LIMIT ->
  znth (content b) (offset b) <> 0 -> mk [] (depth b + 1) ->
  (forall head, mk head (depth b + 1) -> exists j, with_child (with_type item t) head = node name j /\
    chain_blocks head = chain_blocks (child (node name j)) /\ valuestring (node name j) = None /\ string (node name j) = name /\
    json_depth j + depth b <= CJSON_NESTING_LIMIT) ->
  exists b' item' r, parse_elements loop t close item (with_depth b (depth b + 1)) = Some (b', item', r) /\
    value_result item name b b' item' r.
Proof.
  intros Hloop Hf Hb Hlim Hnz Hnil Hmk. pose proof Hb as [Hi Ho Hd]. unfold parse_elements.
  pose proof (input_next _ _ Hi Ho Hnz) as Hnx.
  destruct (skip_next (with_depth b (depth b + 1))) as (o & E & Hoo & Hok); [done|simpl; lia|simpl; lia|simpl; lia|]. rewrite E.
  cbn [mbind option_bind content hooks depth offset with_hooks with_offset with_depth] in *. rewrite at_char_run by done. cbn [mbind option_bind].
  pose proof (bo_offset _ Hok) as Hob. cbn [content offset with_offset with_depth] in Hob.
  case_if.
  { destruct (Hmk [] Hnil) as (j & A & B & C & D & F). apply (children_result item name b _ [] t j); try done. split; simpl; change (chain_blocks []) with 0; done || lia. }
  unfold can_access_at_index. cbn [content offset with_offset with_depth]. rewrite Z.add_0_r.
  destruct (Z.ltb_spec o (zlen (content b))); cbn [negb]; [|lia].
  destruct (Hloop (length (content b)) (with_offset (with_offset (with_depth b (depth b + 1)) o) (o - 1)))
    as (b' & head & r & -> & [Hc Ho' Hl] & Hr); [split; simpl; lia || done|done|simpl; unfold zlen; lia|].
  cbn [mbind option_bind content hooks depth offset with_hooks with_offset with_depth] in *. change (chain_blocks []) with 0 in Hl.
  assert (ran b (chain_blocks head) b') as Hran by (split; [done|done|lia]).
  destruct r; cbn [negb]; [|by apply failed_result].
  destruct (Hr eq_refl) as (Hok' & Hlt & Hd' & Hm). rewrite at_char_run by done. cbn [mbind option_bind].
  case_if; [|by apply failed_result].
  destruct (Hmk head Hm) as (j & A & B & C & D & F). apply (children_result item name b b' head t j); try done. lia.
Qed.

Lemma parse_array_run fuel value item name b :
  value_runs fuel value -> buffer_ok b -> fresh item name -> CJSON_NESTING_LIMIT - depth b < Z.of_nat (S fuel) ->
  znth (content b) (offset b) <> 0 ->
  exists b' item' r, parse_array ok value item b = Some (b', item', r) /\ value_result item name b b' item' r.
Proof.
  intros Hv Hb Hf Hfu Hnz. pose proof Hb as [Hi Ho Hd]. unfold parse_array.
  destruct (Z.leb_spec CJSON_NESTING_LIMIT (depth b)); [eexists _, _, false; split; [done|]; split; [split; done || lia|done]|].
  assert (buffer_ok (with_depth b (depth b + 1))) as Hbd by (split; simpl; done || lia).
  rewrite at_ok by (done || simpl; lia). cbn [mbind option_bind].
  case_if; [apply failed_result; split; simpl; change (chain_blocks []) with 0; done || lia|].
  apply (parse_elements_run _ _ _ _ _ _ (fun head d => exists js, head = map (node None) js /\
    Forall (fun j => json_depth j + d <= CJSON_NESTING_LIMIT) js)); try done.
  - intros n b1 Hb1 Hd1 Hn1. destruct (array_loop_run fuel value n [] [] b1) as (b' & head & r & E & Hl & Hr); [done..|lia|lia|done|constructor|].
    exists b', head, r. split; [done|]. split; [done|]. intros Er. destruct (Hr Er) as (A & B & C & js & D & F).
    split_and!; try done; [lia|]. exists js. split; [done|]. unfold inner in F. by rewrite Hd1 in F.
  - by exists [].
  - intros head (js & -> & Hjs). exists (JArray js). split_and!; try done; [by destruct Hf as (t & -> & _)|].
    cbn [json_depth]. enough (foldr (fun v d => Z.max (json_depth v) d) 0 js <= CJSON_NESTING_LIMIT - depth b - 1) by lia.
    apply json_depth_list; [lia|].
    eapply Forall_impl; [|exact Hjs]. simpl. lia.
Qed.

Lemma parse_object_run fuel value item name b :
  value_runs fuel value -> buffer_ok b -> fresh item name -> CJSON_NESTING_LIMIT - depth b < Z.of_nat (S fuel) ->
  znth (content b) (offset b) <> 0 ->
  exists b' item' r, parse_object ok value item b = Some (b', item', r) /\ value_result item name b b' item' r.
Proof.
  intros Hv Hb Hf Hfu Hnz. pose proof Hb as [Hi Ho Hd]. unfold parse_object.
  destruct (Z.leb_spec CJSON_NESTING_LIMIT (depth b)); [eexists _, _, false; split; [done|]; split; [split; done || lia|done]|].
  rewrite at_char_run by (split; simpl; done || lia). cbn [mbind option_bind].
  case_if; [apply failed_result; split; simpl; change (chain_blocks []) with 0; done || lia|].
  apply (parse_elements_run _ _ _ _ _ _ (fun head d => exists js, head = map member js /\
    Forall (fun kv => json_depth kv.2 + d <= CJSON_NESTING_LIMIT) js)); try done.
  - intros n b1 Hb1 Hd1 Hn1. destruct (object_loop_run fuel value n [] [] b1) as (b' & head & r & E & Hl & Hr); [done..|lia|lia|done|constructor|].
    exists b', head, r. split; [done|]. split; [done|]. intros Er. destruct (Hr Er) as (A & B & C & js & D & F).
    split_and!; try done; [lia|]. exists js. split; [done|]. unfold inner in F. by rewrite Hd1 in F.
  - by exists [].
  - intros head (js & -> & Hjs). exists (JObject js). split_and!; try done; [by destruct Hf as (t & -> & _)|].
    cbn [json_depth]. enough (foldr (fun kv d => Z.max (json_depth kv.2) d) 0 js <= CJSON_NESTING_LIMIT - depth b - 1) by lia.
    apply (json_depth_list (fun kv => json_depth kv.2)); [lia|].
    eapply Forall_impl; [|exact Hjs]. simpl. lia.
Qed.

(** A value that is one word. *)
Lemma word_result item name b n item' j :
  buffer_ok b -> fresh item name -> 0 < n -> offset b + n <= zlen (content b) -> item' = node name j -> json_depth j = 0 ->
  child item' = [] -> valuestring item' = None -> string item' = name ->
  value_result item name b (with_offset b (offset b + n)) item' true.
Proof.
  intros [Hi Ho Hd] Hf Hn Hb -> Hj Hc Hv Hs. split; [|split].
  - split; simpl; [done|lia|]. rewrite (fresh_blocks _ _ Hf). destruct (node_blocks name j) as [H1 H2].
    destruct (node name j) as [t' vs vi vd st c]. simpl in Hc, Hv, Hs. subst c vs st. cbn [blocks child valuestring string].
    rewrite H1, H2. simpl. destruct name; lia.
  - split; simpl; [lia|done].
  - exists j. split; [done|]. lia.
Qed.

Lemma parse_value_run fuel : value_runs fuel (parse_value ok fuel).
Proof.
  induction fuel as [|fuel IH]; intros item name b Hb Hf Hfu.
  { pose proof (bo_depth _ Hb). lia. }
  cbn [parse_value]. pose proof Hf as (t & Et & _). pose proof Hb as [Hi Ho _].
  destruct (at_word_run b (str "null") Hb) as (r1 & -> & H1). cbn [mbind option_bind].
  destruct r1; [eexists _, _, true; split; [done|]; apply (word_result _ _ _ 4 _ JNull); try done; [by apply H1|by rewrite Et..]|].
  destruct (at_word_run b (str "false") Hb) as (r2 & -> & H2). cbn [mbind option_bind].
  destruct r2; [eexists _, _, true; split; [done|]; apply (word_result _ _ _ 5 _ JFalse); try done; [by apply H2|by rewrite Et..]|].
  destruct (at_word_run b (str "true") Hb) as (r3 & -> & H3). cbn [mbind option_bind].
  destruct r3; [eexists _, _, true; split; [done|]; apply (word_result _ _ _ 4 _ JTrue); try done; [by apply H3|by rewrite Et..]|].
  rewrite can_access_true by lia. cbn [negb]. rewrite at_ok by (done || lia). cbn [mbind option_bind]. rewrite Z.add_0_r.
  destruct (Z.eqb_spec (znth (content b) (offset b)) 34) as [Hc|_].
  { destruct (parse_string_run item name b Hb Hf) as (b' & item' & r & -> & Hr). exists b', item', r. split; [done|].
    destruct r; [|done]. destruct Hr as (Hran & Had & s & ->). split; [|split; [done|]].
    - rewrite (fresh_blocks _ _ Hf). destruct Hran as [A B C]. split; [done|done|]. rewrite C.
      destruct name as [l|]; [change (blocks (node (Some l) (JString s))) with 3|change (blocks (node None (JString s))) with 2]; lia.
    - exists (JString s). split; [done|]. simpl. pose proof (bo_depth _ Hb). lia. }
  destruct ((znth (content b) (offset b) =? 45) || is_digit (znth (content b) (offset b))).
  { destruct (parse_number_run item name b Hb Hf) as (o & item' & r & -> & Hr). eexists _, item', r. split; [done|]. destruct r.
    - destruct Hr as [Hoo [d ->]]. replace o with (offset b + (o - offset b)) by lia.
      apply (word_result _ _ _ _ _ (JNumber d)); try done; lia.
    - destruct Hr as [-> ->]. rewrite with_offset_same. split; [split; done || lia|done]. }
  destruct (Z.eqb_spec (znth (content b) (offset b)) 91) as [Hc|_].
  { apply (parse_array_run fuel _ item name b IH); try done. by rewrite Hc. }
  destruct (Z.eqb_spec (znth (content b) (offset b)) 123) as [Hc|_].
  { apply (parse_object_run fuel _ item name b IH); try done. by rewrite Hc. }
  eexists _, _, false. split; [done|]. split; [split; done || lia|done].
Qed.

(** ** The property *)

(** The input starts at its first octet, or behind a byte order mark. *)
Lemma skip_bom_run b :
  buffer_ok b -> offset b = 0 -> exists o, skip_utf8_bom b = Some (with_offset b o) /\ 0 <= o < zlen (content b).
Proof.
  intros [_ Ho _] H0. unfold skip_utf8_bom, can_access_at_index. rewrite H0. destruct (Z.ltb_spec (0 + 4) (zlen (content b))).
  - destruct (strncmp_run 3 (drop (Z.to_nat 0) (content b)) [0xEF; 0xBB; 0xBF; 0]) as [r ->];
      [rewrite length_drop; unfold zlen in *; lia|simpl; lia|]. cbn [mbind option_bind]. case_if.
    + exists 3. split; [done|lia].
    + exists 0. split; [|lia]. by rewrite <- H0, with_offset_same.
  - exists 0. split; [|lia]. by rewrite <- H0, with_offset_same.
Qed.

(** What [cJSON_ParseWithOpts] leaves behind. *)
Definition parse_outcome (g : json_globals) (n : Z) (g' : json_globals) (e : Z) (r : option cJSON) : Prop :=
  0 <= e <= n + 1 /\
  match r with
  | Some item => exists j, item = node None j /\ json_depth j <= CJSON_NESTING_LIMIT /\ error_position g' = None /\
      live (global_hooks g') = live (global_hooks g) + blocks item
  | None => error_position g' = Some e /\ e <= n /\ live (global_hooks g') = live (global_hooks g)
  end.

Lemma parse_error_outcome g b b' l :
  input_ok (content b) -> ran b (chain_blocks l) b' -> live (hooks b) = live (global_hooks g) ->
  exists g' e r, Some (parse_error b' l) = Some (g', e, r) /\ parse_outcome g (zlen (content b) - 1) g' e r.
Proof.
  intros Hi [Hc Ho Hl] Hg. eexists _, _, None. split; [done|]. rewrite Hc. pose proof (input_pos _ Hi).
  rewrite cJSON_Delete_spec. unfold parse_outcome. simpl.
  destruct (Z.ltb_spec (offset b') (zlen (content b))), (Z.ltb_spec 0 (zlen (content b))); split_and!; done || lia.
Qed.

(** C22: Parsing is safe whatever the input: given a terminated string and any
    allocator, [cJSON_ParseWithOpts] returns (a recursion of at most 1000
    levels is enough), without reading outside the string or writing outside
    a block that it has allocated.  It returns either the tree of a JSON value
    nested at most 1000 deep, and then the blocks it holds are those of the
    tree, or NULL, and then it has freed every block and the error position is
    inside the string. *)
Theorem cJSON_Parse_safe g s rest require_null_terminated :
  Forall is_u8 s -> nul_free s -> zlen s + 1 < 2 ^ 31 ->
  exists g' e r, cJSON_ParseWithOpts ok g (Some (s ++ 0 :: rest)) require_null_terminated = Some (g', e, r) /\
    parse_outcome g (zlen s) g' e r.
Proof.
  intros HF Hnf Hlen. unfold cJSON_ParseWithOpts. rewrite strlen_app by done. cbn [mbind option_bind].
  pose proof (zlen_nonneg s).
  replace (take (Z.to_nat (zlen s + 1)) (s ++ 0 :: rest)) with (s ++ [0]).
  2: { change (0 :: rest) with ([0] ++ rest). rewrite app_assoc, take_app_le, take_ge; try done; rewrite length_app; unfold zlen; simpl; lia. }
  remember {| content := s ++ [0]; offset := 0; depth := 0; hooks := global_hooks g |} as b eqn:Eb.
  assert (zlen (content b) = zlen s + 1) as Hz by (subst b; simpl; by rewrite zlen_app).
  assert (buffer_ok b) as Hb.
  { subst b. split; [split| |done]; simpl; [apply Forall_app; split; [done|by repeat constructor]|by exists s|by rewrite zlen_app|].
    rewrite zlen_app. change (zlen [0]) with 1. lia. }
  assert (hooks b = global_hooks g /\ offset b = 0) as [Hh0 H0] by (by subst b). clear Eb.
  replace (zlen s) with (zlen (content b) - 1) by lia. pose proof (bo_input _ Hb) as Hi. rewrite Hh0.
  destruct (new_item_run (global_hooks g)) as (h & item & -> & [[-> Hh]|[-> Hh]]).
  { apply (parse_error_outcome g b _ []); try done; [|by rewrite Hh0].
    pose proof (bo_offset _ Hb). rewrite <- Hh0 in Hh. split; simpl; change (chain_blocks []) with 0; done || lia. }
  destruct (skip_bom_run (with_hooks b h)) as (o & -> & Ho); [by destruct Hb; split|done|].
  cbn [mbind option_bind content with_hooks with_offset] in *.
  destruct (skip_whitespace_run (with_offset (with_hooks b h) o)) as (o1 & -> & Ho1); [done|simpl; lia|]. cbn [mbind option_bind content offset with_hooks with_offset] in *.
  set (b1 := with_offset (with_offset (with_hooks b h) o) o1).
  assert (buffer_ok b1) as Hb1 by (split; [done|simpl; lia|apply Hb]).
  destruct (parse_value_run value_fuel empty_item None b1 Hb1 fresh_empty) as (b' & item & r & -> & Hr); [simpl; pose proof (bo_depth _ Hb); unfold value_fuel, CJSON_NESTING_LIMIT; lia|].
  cbn [mbind option_bind]. rewrite <- Hh0 in Hh. assert (live (hooks b1) = live (hooks b) + 1) as Hl1 by done.
  destruct r; cbn [negb].
  2: { destruct Hr as [[Hc Hoo Hl] ->]. apply (parse_error_outcome g b b' [empty_item]); try done; [|by rewrite Hh0]. change (chain_blocks [empty_item]) with 1.
       split; [done|done|lia]. }
  destruct Hr as ([Hc Hoo Hl] & [Had _] & j & -> & Hj). change (blocks empty_item) with 1 in Hl.
  change (content b1) with (content b) in *.
  assert (ran b (chain_blocks [node None j]) b') as Hran.
  { split; [done|done|]. rewrite chain_blocks_cons. change (chain_blocks []) with 0. lia. }
  assert (forall e, 0 <= e <= zlen (content b) ->
    exists g' e' r, Some ({| error_position := None; global_hooks := hooks b' |}, e, Some (node None j)) = Some (g', e', r) /\
      parse_outcome g (zlen (content b) - 1) g' e' r) as Hdone.
  { intros e He. eexists _, _, _. split; [done|]. split; [lia|]. exists j. split; [done|]. split; [pose proof (bo_depth _ Hb); simpl in Hj; lia|]. split; [done|].
    simpl. rewrite <- Hh0. lia. }
  destruct require_null_terminated; [|apply Hdone; lia].
  destruct (skip_whitespace_run b') as (o2 & -> & Ho2); [by rewrite Hc|rewrite Hc; lia|]. cbn [mbind option_bind content offset with_hooks with_offset].
  rewrite Hc in Ho2 |- *. destruct (Z.leb_spec (zlen (content b)) o2); [lia|].
  unfold buffer_at_offset. cbn [content offset with_offset]. rewrite Hc, Z.add_0_r. destruct (input_at (content b) o2 Hi) as [-> _]; [lia|].
  cbn [mbind option_bind]. case_if; [|apply Hdone; lia].
  apply (parse_error_outcome g b _ [node None j]); try done; [|by rewrite Hh0]. destruct Hran as [A B C]. split; simpl; [done|lia|done].
Qed.

End Parser.

(** ** An example *)

Definition no_error : json_globals := {| error_position := None; global_hooks := {| tick := 0; live := 0 |} |}.

Lemma cJSON_Parse_safe_witness :
  exists g' e r, cJSON_ParseWithOpts (fun n => (n <? 3)%nat) no_error (Some (str "[1,[true," ++ 0 :: [])) false = Some (g', e, r) /\
    parse_outcome no_error 9 g' e r.
Proof.
  apply (cJSON_Parse_safe (fun n => (n <? 3)%nat) no_error (str "[1,[true,") [] false).
  - repeat (constructor; [by vm_compute|]). constructor.
  - repeat (constructor; [done|]). constructor.
  - reflexivity.
Defined.
