(* ===== verification/JsonText.v ===== *)
(** What the printer of the cJSON library prints: the text of a JSON value,
    and the proof that print_value writes it, inside its buffer, growing the
    buffer when it may. *)

From Stdlib Require Import SpecFloat.
From S2P Require Import Prelude CString JsonNumber Json JsonMem JsonParse JsonSafe JsonPrint.

Import String.StringSyntax.

(** ** The text *)

Definition escape (c : Z) : list Z :=
  if (31 <? c) && negb (c =? 34) && negb (c =? 92) then [c]
  else 92 :: match short_escape c with Some x => [x] | None => hex_escape c end.

Definition quote (s : list Z) : list Z := 34 :: concat (map escape s) ++ [34].

(** Elements with commas between them. *)
Fixpoint elements_text (fmt : bool) (l : list (list Z)) : list Z :=
  match l with
  | [] => []
  | v :: next => v ++ match next with [] => [] | _ => 44 :: (if fmt then [32] else []) end ++ elements_text fmt next
  end.

(** Members, one per line at the depth [d] when formatted. *)
Fixpoint members_text (fmt : bool) (d : Z) (l : list (list Z * list Z)) : list Z :=
  match l with
  | [] => []
  | (k, v) :: next =>
      (if fmt then tabs d else []) ++ quote k ++ (58 :: (if fmt then [9] else [])) ++ v ++
      (match next with [] => [] | _ => [44] end ++ (if fmt then [10] else [])) ++ members_text fmt d next
  end.

Fixpoint text (fmt : bool) (d : Z) (j : json) : list Z :=
  match j with
  | JNull => str "null"
  | JFalse => str "false"
  | JTrue => str "true"
  | JNumber n => number_text n
  | JString s => quote s
  | JArray l => 91 :: elements_text fmt (map (text fmt (d + 1)) l) ++ [93]
  | JObject l =>
      (123 :: (if fmt then [10] else [])) ++
      members_text fmt (d + 1) (map (fun kv => (kv.1, text fmt (d + 1) kv.2)) l) ++ (if fmt then tabs d else []) ++ [125]
  end.

(** Induction over values. *)
Lemma json_tree_ind (P : json -> Prop) :
  P JNull -> P JFalse -> P JTrue -> (forall d, P (JNumber d)) -> (forall s, P (JString s)) ->
  (forall l, Forall P l -> P (JArray l)) -> (forall l, Forall (fun kv => P kv.2) l -> P (JObject l)) -> forall j, P j.
Proof.
  intros H1 H2 H3 H4 H5 H6 H7. fix IH 1. intros [| | |d|s|l|l]; [exact H1|exact H2|exact H3|apply H4|apply H5| |].
  - apply H6. induction l; constructor; [apply IH|assumption].
  - apply H7. induction l as [|[k v] l]; constructor; [apply IH|assumption].
Qed.

(** The characters of a C string. *)
Definition characters (s : list Z) : Prop := Forall is_u8 s /\ nul_free s.

(** Values that can be printed: strings are C strings, and numbers fit the
    buffer of print_number. *)
Fixpoint printable (j : json) : Prop :=
  match j with
  | JNumber d => nul_free (number_text d) /\ zlen (number_text d) <= 25
  | JString s => characters s
  | JArray l => foldr and True (map printable l)
  | JObject l => foldr and True (map (fun kv => characters kv.1 /\ printable kv.2) l)
  | _ => True
  end.

Lemma foldr_and {A} (P : A -> Prop) l : foldr and True (map P l) <-> Forall P l.
Proof.
  induction l as [|x l IH]; simpl; [by split; [constructor|]|]. rewrite IH. split; [by intros []; constructor|by intros ?%Forall_cons_iff].
Qed.

(** ** Texts have no terminators *)

Lemma nul_free_app a b : nul_free (a ++ b) <-> nul_free a /\ nul_free b.
Proof. apply Forall_app. Qed.

Lemma nul_free_cons c a : nul_free (c :: a) <-> c <> 0 /\ nul_free a.
Proof. apply Forall_cons_iff. Qed.

Lemma nul_free_nil : nul_free [].
Proof. constructor. Qed.

#[local] Hint Resolve nul_free_nil : core.

Lemma nul_free_tabs n : nul_free (tabs n).
Proof. apply Forall_replicate. done. Qed.

Lemma hex_char_nonzero d : 0 <= d -> hex_char d <> 0.
Proof. unfold hex_char. intros. case_if; lia. Qed.

Lemma nul_free_escape c : is_u8 c -> c <> 0 -> nul_free (escape c).
Proof.
  intros Hu Hc. unfold escape. case_if; [by repeat constructor|]. unfold fits in Hu.
  destruct (short_escape c) as [x|] eqn:Ex.
  - repeat constructor; [done|]. unfold short_escape in Ex. repeat case_match; simplify_eq; lia.
  - repeat constructor; try done; apply hex_char_nonzero; lia.
Qed.

Lemma nul_free_escaped s : characters s -> nul_free (concat (map escape s)).
Proof.
  intros [HF Hn]. induction s as [|c s IH]; simpl; [done|]. apply Forall_cons_iff in HF as [Hc HF], Hn as [H0 Hn].
  apply nul_free_app. split; [by apply nul_free_escape|auto].
Qed.

Lemma nul_free_quote s : characters s -> nul_free (quote s).
Proof. intros Hs. apply nul_free_cons. split; [done|]. apply nul_free_app. split; [by apply nul_free_escaped|by repeat constructor]. Qed.

(** How many characters escaping adds. *)
Lemma zlen_escaped s : characters s -> zlen (concat (map escape s)) = zlen s + escape_characters s.
Proof.
  intros [HF Hn]. induction s as [|c s IH]; simpl; [done|]. apply Forall_cons_iff in HF as [Hc HF], Hn as [H0 Hn].
  rewrite zlen_app, IH by done. unfold fits in Hc.
  assert (zlen (escape c) = 1 + (if short_escape c is Some _ then 1 else if c <? 32 then 5 else 0)) as ->; [|unfold zlen; simpl; lia].
  unfold escape. destruct (Z.ltb_spec 31 c).
  - destruct (Z.eqb_spec c 34) as [->|]; [done|]. destruct (Z.eqb_spec c 92) as [->|]; [done|]. simpl.
    unfold short_escape. repeat match goal with |- context [c =? ?x] => destruct (Z.eqb_spec c x); [lia|] end. destruct (Z.ltb_spec c 32); [lia|done].
  - simpl. destruct (short_escape c); [done|]. destruct (Z.ltb_spec c 32); [done|lia].
Qed.

Lemma escape_none s : characters s -> escape_characters s = 0 -> concat (map escape s) = s.
Proof.
  intros [HF Hn]. induction s as [|c s IH]; simpl; [done|]. apply Forall_cons_iff in HF as [Hc HF], Hn as [H0 Hn].
  assert (forall s, 0 <= escape_characters s) as Hnn.
  { clear. induction s; simpl; [done|]. destruct (short_escape _); [lia|]. case_if; lia. }
  pose proof (Hnn s). destruct (short_escape c) as [x|] eqn:Ex; [lia|]. destruct (Z.ltb_spec c 32); [lia|]. intros E.
  rewrite IH by (done || lia). unfold escape. rewrite Ex. unfold short_escape in Ex.
  destruct (Z.eqb_spec c 92) as [->|]; [done|]. destruct (Z.eqb_spec c 34) as [->|]; [done|].
  destruct (Z.ltb_spec 31 c); [done|lia].
Qed.

(** The characters a value contributes; the rest of its text is punctuation. *)
Fixpoint leaves (j : json) : list Z :=
  match j with
  | JNumber n => number_text n
  | JString s => quote s
  | JArray l => concat (map leaves l)
  | JObject l => concat (map (fun kv => quote kv.1 ++ leaves kv.2) l)
  | _ => []
  end.

Lemma elements_forall (P : Z -> Prop) fmt l : P 44 -> P 32 -> Forall (Forall P) l -> Forall P (elements_text fmt l).
Proof.
  intros Hc Hs. induction 1 as [|v l Hv _ IH]; [done|]. cbn [elements_text]. rewrite !Forall_app. split_and!; [done| |done].
  destruct l, fmt; auto.
Qed.

Lemma members_forall (P : Z -> Prop) fmt d l :
  (forall c, 9 <= c <= 125 -> P c) -> Forall (fun kv => Forall P (quote kv.1) /\ Forall P kv.2) l -> Forall P (members_text fmt d l).
Proof.
  intros HP. induction 1 as [|[k v] l [Hk Hv] _ IH]; [done|]. cbn [members_text]. rewrite !Forall_app, Forall_cons_iff. cbn [fst snd] in *.
  assert (Forall P (tabs d)) by (apply Forall_replicate, HP; lia). assert (P 9 /\ P 58 /\ P 44 /\ P 10) as (? & ? & ? & ?) by (split_and!; apply HP; lia).
  split_and!; try done; destruct fmt, l; auto.
Qed.

Lemma text_forall (P : Z -> Prop) fmt j :
  (forall c, 9 <= c <= 125 -> P c) -> Forall P (leaves j) -> forall d, Forall P (text fmt d j).
Proof.
  intros HP. induction j as [| | |n|s|l IH|l IH] using json_tree_ind; intros Hl d; try done;
    try (repeat constructor; apply HP; split; vm_compute; congruence).
  - cbn [text]. constructor; [apply HP; lia|]. apply Forall_app. split; [|repeat constructor; apply HP; lia].
    apply elements_forall; [apply HP; lia..|]. apply Forall_map. induction l as [|v l IHl]; [done|].
    apply Forall_cons_iff in IH as [IHv IH]. cbn [leaves map concat] in Hl. apply Forall_app in Hl as [Hv Hl]. constructor; auto.
  - cbn [text]. assert (P 123 /\ P 10 /\ P 125) as (? & ? & ?) by (split_and!; apply HP; lia).
    rewrite !Forall_app. split_and!; [destruct fmt; auto| |destruct fmt; [apply Forall_replicate, HP; lia|done]|auto].
    apply members_forall; [done|]. apply Forall_map. induction l as [|[k v] l IHl]; [done|].
    apply Forall_cons_iff in IH as [IHv IH]. cbn [leaves map concat fst snd] in Hl. rewrite !Forall_app in Hl. destruct Hl as [[Hk Hv] Hl].
    constructor; [split; [done|by apply IHv]|auto].
Qed.

Lemma nul_free_leaves j : printable j -> nul_free (leaves j).
Proof.
  induction j as [| | |n|s|l IH|l IH] using json_tree_ind; intros Hp; try done.
  - apply Hp.
  - by apply nul_free_quote.
  - cbn [printable] in Hp. apply foldr_and in Hp. cbn [leaves]. induction Hp as [|v l Hv Hp IHl]; [done|].
    apply Forall_cons_iff in IH as [IHv IH]. apply nul_free_app. auto.
  - cbn [printable] in Hp. apply foldr_and in Hp. cbn [leaves]. induction Hp as [|[k v] l [Hk Hv] Hp IHl]; [done|].
    apply Forall_cons_iff in IH as [IHv IH]. cbn [map concat fst snd] in *. rewrite !nul_free_app. auto using nul_free_quote.
Qed.

Lemma nul_free_text fmt j : printable j -> forall d, nul_free (text fmt d j).
Proof. intros Hp. apply text_forall; [intros c Hc; simpl; lia|]. by apply nul_free_leaves. Qed.

(** ** The output buffer *)

Section Printer.
Context (ok : nat -> bool) (junk : nat -> Z -> list Z) (reallocate : bool).
Context (Hjunk : forall t n, 0 <= n -> zlen (junk t n) = n).

(** The buffer holds [pre] in front of its offset and [w] behind it. *)
Record wrote (p : printbuffer) (pre w : list Z) : Prop := {
  wt_block : exists b, buffer p = Some b /\ zlen b = plength p /\ take (length (pre ++ w)) b = pre ++ w;
  wt_offset : poffset p = zlen pre;
  wt_inside : zlen pre < plength p;
  wt_size : zlen pre + zlen w <= plength p
}.

(** The buffer holds the text [t] with its terminator, and its offset is
    inside the text. *)
Definition printed (p : printbuffer) (t : list Z) : Prop :=
  exists pre w, pre ++ w = t /\ wrote p pre (w ++ [0]).

(** What a step of the printer keeps. *)
Record same (p p' : printbuffer) : Prop := {
  sm_format : format p' = format p;
  sm_noalloc : noalloc p' = noalloc p;
  sm_live : live (phooks p') = live (phooks p);
  sm_length : plength p <= plength p'
}.

(** After a failure the block is still there, or it has been freed. *)
Definition failed (p p' : printbuffer) : Prop :=
  live (phooks p') + (if buffer p' is Some _ then 0 else 1) = live (phooks p).

(** [n] octets fit the buffer, or it can grow to them. *)
Definition room (p : printbuffer) (n : Z) : Prop :=
  n <= INT_MAX /\ (n <= plength p \/ (noalloc p = false /\ forall k, ok k = true)).

Lemma same_refl p : same p p.
Proof. by split. Qed.

Lemma same_trans p q r : same p q -> same q r -> same p r.
Proof. intros [] []. split; congruence || lia. Qed.

Lemma room_same p q n : same p q -> room p n -> room q n.
Proof. intros [? E ? ?] [? [?|[? ?]]]; (split; [done|]); [left; lia|right; rewrite E; auto]. Qed.

Lemma room_le p n m : n <= m -> room p m -> room p n.
Proof. intros Hn [? [?|[? ?]]]; (split; [lia|]); [left; lia|by right]. Qed.

Lemma failed_same p q r : same p q -> failed q r -> failed p r.
Proof. unfold failed. intros [] ?. lia. Qed.

Lemma wrote_shorter p pre w w' : wrote p pre (w ++ w') -> wrote p pre w.
Proof.
  intros [(b & Hb & Hl & Ht) Ho Hi Hs]. rewrite zlen_app in Hs. pose proof (zlen_nonneg w').
  split; [|done|done|lia]. exists b. split; [done|]. split; [done|].
  rewrite app_assoc in Ht. apply (f_equal (take (length (pre ++ w)))) in Ht. rewrite take_take in Ht.
  rewrite Nat.min_l in Ht by (rewrite (length_app (pre ++ w)); lia). rewrite Ht. by rewrite take_app_length.
Qed.

(** The offset moves over what was written. *)
Lemma wrote_advance p pre w :
  wrote p pre w -> zlen pre + zlen w < plength p -> wrote (set_poffset p (poffset p + zlen w)) (pre ++ w) [].
Proof.
  intros [(b & Hb & Hl & Ht) Ho Hi Hs] Hlt. split; simpl; rewrite ?zlen_app; try (change (zlen []) with 0); try lia.
  exists b. by rewrite app_nil_r.
Qed.

Lemma wrote_advance_to p pre w w' :
  wrote p pre (w ++ w') -> zlen pre + zlen w < plength p -> wrote (set_poffset p (poffset p + zlen w)) (pre ++ w) w'.
Proof.
  intros [(b & Hb & Hl & Ht) Ho Hi Hs] Hlt. rewrite zlen_app in Hs. split; simpl; rewrite ?zlen_app; try lia.
  exists b. by rewrite <- app_assoc.
Qed.

Lemma wrote_depth p pre w d : wrote p pre w -> wrote (set_pdepth p d) pre w.
Proof. intros [(b & H) Ho Hi Hs]. split; simpl; [by exists b|done..]. Qed.

(** Writing behind what was written. *)
Lemma wr_append p pre w l :
  wrote p pre w -> zlen pre + zlen w + zlen l <= plength p ->
  exists p', wr p (zlen w) l = Some p' /\ wrote p' pre (w ++ l) /\ same p p' /\ pdepth p' = pdepth p /\ plength p' = plength p.
Proof.
  intros [(b & Hb & Hl & Ht) Ho Hi Hs] Hfit. unfold wr. rewrite Hb. cbn [mbind option_bind]. unfold blit.
  pose proof (zlen_nonneg pre). pose proof (zlen_nonneg w). rewrite decide_True by lia. cbn [mbind option_bind].
  eexists. split; [done|]. split; [|split; [by split|by split]]. split; simpl; [|done|done|rewrite zlen_app; lia].
  eexists. split; [done|]. split.
  - rewrite !zlen_app. unfold zlen in *. rewrite length_take, length_drop. lia.
  - rewrite Ho. replace (Z.to_nat (zlen pre + zlen w)) with (length (pre ++ w)) by (rewrite length_app; unfold zlen; lia).
    rewrite Ht, !app_assoc. rewrite <- (app_assoc _ l). rewrite take_app_ge by (rewrite !length_app; lia).
    f_equal. rewrite take_app_le by (rewrite !length_app; lia). apply take_ge. rewrite !length_app. lia.
Qed.

Lemma wr_start p pre l :
  wrote p pre [] -> zlen pre + zlen l <= plength p ->
  exists p', wr p 0 l = Some p' /\ wrote p' pre l /\ same p p' /\ pdepth p' = pdepth p /\ plength p' = plength p.
Proof. intros Hw Hl. apply (wr_append p pre [] l Hw). change (zlen []) with 0. lia. Qed.

(** Space for [needed] octets and a terminator. *)
Lemma ensure_run p pre needed :
  wrote p pre [] -> 0 <= needed ->
  exists p' r, ensure ok junk reallocate p needed = Some (p', r) /\
    (if r : bool then wrote p' pre [] /\ same p p' /\ pdepth p' = pdepth p /\ zlen pre + needed + 1 <= plength p' else failed p p') /\
    (room p (zlen pre + needed + 1) -> r = true).
Proof.
  intros [(b & Hb & Hl & Ht) Ho Hi Hs] Hn. rewrite app_nil_r in Ht. unfold ensure. rewrite Hb.
  pose proof (zlen_nonneg pre).
  assert (forall p0, p0 = p -> failed p p0) as Hfail by (intros p0 ->; unfold failed; rewrite Hb; lia).
  destruct (Z.ltb_spec 0 (plength p)), (Z.leb_spec (plength p) (poffset p)); try lia; cbn [andb].
  destruct (Z.ltb_spec INT_MAX needed).
  { eexists _, false. split; [done|]. split; [auto|]. intros [? _]. lia. }
  rewrite Ho. replace (needed + zlen pre + 1) with (zlen pre + needed + 1) by lia.
  destruct (Z.leb_spec (zlen pre + needed + 1) (plength p)) as [Hfit|Hfit].
  { eexists _, true. split; [done|]. split; [|done]. split; [|split; [apply same_refl|by split]].
    split; [exists b; by rewrite app_nil_r|done|done|change (zlen []) with 0; lia]. }
  destruct (noalloc p) eqn:Ena.
  { eexists _, false. split; [done|]. split; [auto|]. intros [_ [?|[? _]]]; [lia|congruence]. }
  destruct (newsize (zlen pre + needed + 1)) as [n|] eqn:En.
  2: { eexists _, false. split; [done|]. split; [auto|]. intros [? _]. unfold newsize in En.
       destruct (INT_MAX / 2 <? _), (Z.leb_spec (zlen pre + needed + 1) INT_MAX); done || lia. }
  assert (zlen pre + needed + 1 <= n) as Hn'.
  { unfold newsize in En. destruct (INT_MAX / 2 <? _); [destruct (Z.leb_spec (zlen pre + needed + 1) INT_MAX); [|done]|]; simplify_eq; lia. }
  assert (forall b' h, zlen b' = n -> take (length pre) b' = pre -> live h = live (phooks p) ->
    wrote (set_buffer p (Some b') n h) pre [] /\ same p (set_buffer p (Some b') n h) /\ pdepth p = pdepth p /\ zlen pre + needed + 1 <= n) as Hnew.
  { intros b' h Hb' Ht' Hh. split; [|split; [split; simpl; done || lia|by split]].
    split; simpl; [exists b'; by rewrite app_nil_r|done|lia|change (zlen []) with 0; lia]. }
  assert (length pre <= length b)%nat by (unfold zlen in *; lia).
  destruct (ok (tick (phooks p))) eqn:Eok.
  - destruct reallocate.
    + eexists _, true. split; [done|]. split; [|done]. apply Hnew; simpl; [| |done].
      * unfold zlen. rewrite length_take, length_app. pose proof (Hjunk (tick (phooks p)) n). unfold zlen in *. lia.
      * rewrite take_take, Nat.min_l by (unfold zlen in *; lia). by rewrite take_app_le.
    + rewrite slice_Some by lia. change (Z.to_nat 0) with 0%nat. rewrite drop_0. cbn [mbind option_bind].
      eexists _, true. split; [done|]. split; [|done]. pose proof (Hjunk (tick (phooks p)) n ltac:(lia)) as Hj.
      apply Hnew; simpl; [| |done].
      * unfold zlen in *. rewrite length_app, length_drop, length_take. lia.
      * rewrite take_app_le by (rewrite length_take; unfold zlen in *; lia). rewrite take_take, Nat.min_l by (unfold zlen; lia). done.
  - eexists _, false. split; [done|]. split; [unfold failed; simpl; lia|]. intros [_ [?|[_ Hall]]]; [lia|congruence].
Qed.

(** The step behind [with_space]. *)
Definition run_ok (p : printbuffer) (n : Z) (x : option (printbuffer * bool)) (Q : printbuffer -> Prop) : Prop :=
  exists p' r, x = Some (p', r) /\ (if r : bool then same p p' /\ Q p' else failed p p') /\ (room p n -> r = true).

Lemma with_space_run p pre needed k n Q :
  wrote p pre [] -> 0 <= needed -> zlen pre + needed + 1 <= n ->
  (forall p', wrote p' pre [] -> same p p' -> pdepth p' = pdepth p -> zlen pre + needed + 1 <= plength p' -> run_ok p' n (k p') Q) ->
  run_ok p n (with_space ok junk reallocate p needed k) Q.
Proof.
  intros Hw Hn Hle Hk. unfold with_space. destruct (ensure_run p pre needed Hw Hn) as (p1 & r & -> & Hr & Hroom).
  cbn [mbind option_bind]. destruct r.
  - destruct Hr as (Hw1 & Hs1 & Hd1 & Hfit). destruct (Hk p1 Hw1 Hs1 Hd1 Hfit) as (p2 & r & E & Hr & Hroom2). exists p2, r. split; [done|].
    split; [|intros Hrm; apply Hroom2; by eapply room_same].
    destruct r; [destruct Hr as [Hs2 HQ]; split; [by eapply same_trans|done]|by eapply failed_same].
  - exists p1, false. split; [done|]. split; [done|]. intros Hrm. apply Hroom. by eapply room_le.
Qed.

(** Sequences of steps. *)
Lemma run_bind p n x k Q R m :
  run_ok p n x Q -> n <= m -> (forall p', same p p' -> Q p' -> run_ok p' m (k p') R) ->
  run_ok p m ('(p, r) ← x; if negb r then Some (p, false) else k p) R.
Proof.
  intros (p1 & r & -> & Hr & Hroom) Hn Hk. cbn [mbind option_bind]. destruct r; cbn [negb].
  - destruct Hr as [Hs HQ]. destruct (Hk p1 Hs HQ) as (p2 & r & E & Hr & Hroom2). exists p2, r. split; [done|].
    split; [|intros Hrm; apply Hroom2; by eapply room_same].
    destruct r; [destruct Hr as [Hs2 HR]; split; [by eapply same_trans|done]|by eapply failed_same].
  - exists p1, false. split; [done|]. split; [done|]. intros Hrm. apply Hroom. by eapply room_le.
Qed.

Lemma run_ret p p' n (Q : printbuffer -> Prop) : same p p' -> Q p' -> run_ok p n (Some (p', true)) Q.
Proof. intros Hs HQ. exists p', true. by split_and!. Qed.

Lemma run_same p q n x Q : same p q -> run_ok q n x Q -> run_ok p n x Q.
Proof.
  intros Hs (p2 & r & E & Hr & Hroom). exists p2, r. split; [done|]. split; [|intros Hrm; apply Hroom; by eapply room_same].
  destruct r; [destruct Hr as [Hs2 HQ]; split; [by eapply same_trans|done]|by eapply failed_same].
Qed.

(** [update_offset] behind a printed text. *)
Lemma update_offset_run p t :
  printed p t -> nul_free t ->
  exists p', update_offset p = Some p' /\ wrote p' t [0] /\ same p p' /\ pdepth p' = pdepth p.
Proof.
  intros (pre & w & <- & Hw) Hn. apply nul_free_app in Hn as [_ Hn]. pose proof Hw as [(b & Hb & Hl & Ht) Ho Hi Hs]. unfold update_offset. rewrite Hb.
  rewrite zlen_app in Hs. change (zlen [0]) with 1 in Hs. pose proof (zlen_nonneg w).
  assert (drop (Z.to_nat (poffset p)) b = w ++ 0 :: drop (length (pre ++ w ++ [0])) b) as ->.
  { rewrite <- (take_drop (length (pre ++ w ++ [0])) b) at 1. rewrite Ht, Ho. unfold zlen. rewrite Nat2Z.id, <- app_assoc, drop_app_length.
    by rewrite <- app_assoc. }
  rewrite strlen_app by done. cbn [mbind option_bind]. eexists. split; [done|]. split; [|by split; [split|]].
  apply wrote_advance_to; [done|lia].
Qed.

(** ** Words, numbers and strings *)

(** What [print_value] leaves. *)
Definition prints (p : printbuffer) (pre t : list Z) (x : option (printbuffer * bool)) : Prop :=
  run_ok p (zlen pre + zlen t + 2) x (fun p' => printed p' (pre ++ t) /\ pdepth p' = pdepth p).

Lemma print_word_run p pre s : wrote p pre [] -> prints p pre s (print_word ok junk reallocate s p).
Proof.
  intros Hw. pose proof (zlen_nonneg s). apply (with_space_run p pre); [done|lia|lia|]. intros p1 Hw1 Hs1 Hd1 Hfit.
  destruct (wr_start p1 pre (s ++ [0])) as (p2 & -> & Hw2 & Hs2 & Hd2 & _); [done|rewrite zlen_app; change (zlen [0]) with 1; lia|].
  apply run_ret; [done|]. split; [by exists pre, s|congruence].
Qed.

Lemma print_number_run p pre d name :
  wrote p pre [] -> zlen (number_text d) <= 25 ->
  prints p pre (number_text d) (print_number ok junk reallocate (node name (JNumber d)) p).
Proof.
  intros Hw Hz. unfold print_number. cbn [node valuedouble]. set (t := number_text d) in *. pose proof (zlen_nonneg t).
  destruct (Z.ltb_spec 26 (zlen t + 1)); [lia|].
  replace (map (fun c => if c =? 46 then 46 else c) t) with t
    by (clear; induction t as [|c t IH]; simpl; [done|]; f_equal; [by destruct (Z.eqb_spec c 46)|done]).
  apply (with_space_run p pre); [done|lia|lia|]. intros p1 Hw1 Hs1 Hd1 Hfit.
  destruct (wr_start p1 pre (t ++ [0])) as (p2 & -> & Hw2 & Hs2 & Hd2 & Hp2); [done|rewrite zlen_app; change (zlen [0]) with 1; lia|].
  apply run_ret; [destruct Hs2; by split|]. split; [|simpl; congruence]. exists (pre ++ t), []. split; [by rewrite app_nil_r|].
  apply wrote_advance_to; [done|lia].
Qed.

Lemma escape_loop_run s p pre w :
  characters s -> wrote p pre w -> zlen pre + zlen w + zlen (concat (map escape s)) + 1 <= plength p ->
  exists p', escape_loop s (zlen w) p = Some p' /\ wrote p' pre (w ++ concat (map escape s)) /\ same p p' /\
    pdepth p' = pdepth p /\ plength p' = plength p.
Proof.
  revert p w. induction s as [|c s IH]; intros p w [HF Hn] Hw Hfit.
  { exists p. rewrite app_nil_r. split_and!; try done. }
  apply Forall_cons_iff in HF as [Hc HF], Hn as [H0 Hn]. cbn [map concat] in Hfit |- *. rewrite zlen_app in Hfit.
  pose proof (zlen_nonneg (concat (map escape s))). pose proof (zlen_nonneg w).
  assert (forall p1 l k, wrote p1 pre (w ++ l) -> escape c = l -> same p p1 -> pdepth p1 = pdepth p -> plength p1 = plength p ->
    k = zlen (w ++ l) ->
    exists p', escape_loop s k p1 = Some p' /\ wrote p' pre (w ++ escape c ++ concat (map escape s)) /\ same p p' /\
      pdepth p' = pdepth p /\ plength p' = plength p) as Hstep.
  { intros p1 l k Hw1 El Hs1 Hd1 Hp1 ->. destruct (IH p1 (w ++ l)) as (p2 & E2 & Hw2 & Hs2 & Hd2 & Hp2); [by split|done| |].
    - rewrite zlen_app, Hp1. rewrite El in Hfit. lia.
    - exists p2. split; [done|]. rewrite El, app_assoc. split_and!; try done; try congruence. by eapply same_trans. }
  cbn [escape_loop]. destruct (_ && _ && _) eqn:Ec.
  - destruct (wr_append p pre w [c]) as (p1 & -> & Hw1 & Hs1 & Hd1 & Hp1); [done|change (zlen [c]) with 1|].
    { assert (escape c = [c]) as E by (unfold escape; by rewrite Ec). rewrite E in Hfit. change (zlen [c]) with 1 in Hfit. lia. }
    cbn [mbind option_bind]. eapply Hstep; try done; [unfold escape; by rewrite Ec|by rewrite zlen_app].
  - assert (escape c = 92 :: match short_escape c with Some x => [x] | None => hex_escape c end) as Ee by (unfold escape; by rewrite Ec).
    rewrite Ee in Hfit.
    destruct (wr_append p pre w [92]) as (p1 & -> & Hw1 & Hs1 & Hd1 & Hp1); [done| |].
    { destruct (short_escape c); unfold zlen in *; simpl in *; lia. }
    cbn [mbind option_bind]. change (zlen w + 1) with (zlen w + zlen [92]). rewrite <- zlen_app.
    destruct (short_escape c) as [x|] eqn:Ex.
    + destruct (wr_append p1 pre (w ++ [92]) [x]) as (p2 & -> & Hw2 & Hs2 & Hd2 & Hp2); [done|unfold zlen in *; rewrite length_app; simpl in *; lia|].
      cbn [mbind option_bind]. eapply Hstep; [by rewrite <- app_assoc in Hw2|done|by eapply same_trans|congruence|congruence|].
      rewrite zlen_app. unfold zlen. simpl. lia.
    + destruct (wr_append p1 pre (w ++ [92]) (hex_escape c ++ [0])) as (p2 & -> & Hw2 & Hs2 & Hd2 & Hp2);
        [done|unfold zlen in *; rewrite !length_app; simpl in *; lia|].
      cbn [mbind option_bind]. rewrite app_assoc in Hw2. apply wrote_shorter in Hw2.
      eapply Hstep; [by rewrite <- app_assoc in Hw2|done|by eapply same_trans|congruence|congruence|].
      rewrite zlen_app. unfold zlen. simpl. lia.
Qed.

Lemma print_string_run p pre s :
  characters s -> wrote p pre [] -> prints p pre (quote s) (print_string_ptr ok junk reallocate (Some (cstring s)) p).
Proof.
  intros Hs Hw. unfold print_string_ptr, cstring. rewrite strlen_app by apply Hs. cbn [mbind option_bind].
  replace (take (Z.to_nat (zlen s)) (s ++ [0])) with s by (unfold zlen; by rewrite Nat2Z.id, take_app_length).
  rewrite <- (zlen_escaped s Hs). set (e := concat (map escape s)). pose proof (zlen_nonneg e).
  assert (zlen (quote s) = zlen e + 2) as Hq by (unfold quote; fold e; unfold zlen; simpl; rewrite length_app; simpl; lia).
  apply (with_space_run p pre); [done|lia|lia|]. intros p1 Hw1 Hs1 Hd1 Hfit.
  assert (forall p3, wrote p3 pre ([34] ++ e) -> same p1 p3 -> pdepth p3 = pdepth p1 -> plength p3 = plength p1 ->
    run_ok p1 (zlen pre + zlen (quote s) + 2) (p ← wr p3 (zlen e + 1) [34; 0]; Some (p, true))
      (fun p' => printed p' (pre ++ quote s) /\ pdepth p' = pdepth p)) as Hend.
  { intros p3 Hw3 Hs3 Hd3 Hp3. replace (zlen e + 1) with (zlen ([34] ++ e)) by (unfold zlen; simpl; lia).
    destruct (wr_append p3 pre ([34] ++ e) [34; 0]) as (p4 & -> & Hw4 & Hs4 & Hd4 & _); [done|unfold zlen in *; simpl in *; lia|].
    apply run_ret; [by eapply same_trans|]. split; [|congruence]. exists pre, (quote s). split; [done|].
    replace (quote s ++ [0]) with (([34] ++ e) ++ [34; 0]); [done|]. unfold quote. fold e. simpl. by rewrite <- app_assoc. }
  case_if.
  - destruct (wr_start p1 pre [34]) as (p2 & -> & Hw2 & Hs2 & Hd2 & Hp2); [done|unfold zlen in *; simpl in *; lia|]. cbn [mbind option_bind].
    assert (e = s) as Es by (by apply escape_none).
    destruct (wr_append p2 pre [34] s) as (p3 & E3 & Hw3 & Hs3 & Hd3 & Hp3); [done|rewrite <- Es; unfold zlen in *; simpl in *; lia|].
    change (zlen [34]) with 1 in E3. rewrite E3. cbn [mbind option_bind]. rewrite <- Es in Hw3. apply Hend; [done|by eapply same_trans|congruence..].
  - destruct (wr_start p1 pre [34]) as (p2 & -> & Hw2 & Hs2 & Hd2 & Hp2); [done|unfold zlen in *; simpl in *; lia|]. cbn [mbind option_bind].
    destruct (escape_loop_run s p2 pre [34]) as (p3 & E3 & Hw3 & Hs3 & Hd3 & Hp3); [done|done|fold e; unfold zlen in *; simpl in *; lia|].
    change (zlen [34]) with 1 in E3. rewrite E3. cbn [mbind option_bind]. apply Hend; [done|by eapply same_trans|congruence..].
Qed.

(** ** Arrays and objects *)

(** Printing [t] and moving behind it. *)
Lemma prints_then p pre t x k Q n :
  prints p pre t x -> nul_free (pre ++ t) -> zlen pre + zlen t + 2 <= n ->
  (forall p', wrote p' (pre ++ t) [] -> same p p' -> pdepth p' = pdepth p -> run_ok p' n (k p') Q) ->
  run_ok p n ('(p, r) ← x; if negb r then Some (p, false) else p ← update_offset p; k p) Q.
Proof.
  intros Hx Hn Hle Hk. eapply run_bind; [exact Hx|done|]. intros p1 Hs1 [Hp1 Hd1].
  destruct (update_offset_run p1 _ Hp1 Hn) as (p2 & -> & Hw2 & Hs2 & Hd2). cbn [mbind option_bind].
  apply (run_same _ p2); [done|]. apply Hk; [by apply (wrote_shorter _ _ [] [0])|by eapply same_trans|congruence].
Qed.

(** Writing [l], and [z] behind it, into new space and moving behind [l]. *)
Lemma emit_run p pre needed f l z m k Q n :
  wrote p pre [] -> zlen l + zlen z <= needed -> zlen pre + needed + 1 <= n ->
  (forall p', same p p' -> pdepth p' = pdepth p -> f p' = l ++ z /\ m p' = zlen l) ->
  (forall p', wrote p' (pre ++ l) [] -> same p p' -> pdepth p' = pdepth p -> run_ok p' n (k p') Q) ->
  run_ok p n (with_space ok junk reallocate p needed (fun p => p ← wr p 0 (f p); k (set_poffset p (poffset p + m p)))) Q.
Proof.
  intros Hw Hl Hle Hf Hk. pose proof (zlen_nonneg l). pose proof (zlen_nonneg z).
  apply (with_space_run p pre); [done|lia|lia|]. intros p1 Hw1 Hs1 Hd1 Hfit. destruct (Hf p1 Hs1 Hd1) as [-> _].
  destruct (wr_start p1 pre (l ++ z)) as (p2 & -> & Hw2 & Hs2 & Hd2 & Hp2); [done|rewrite zlen_app; lia|]. cbn [mbind option_bind].
  assert (same p p2) as Hs by (by eapply same_trans). destruct (Hf p2 Hs) as [_ ->]; [congruence|].
  apply (run_same _ (set_poffset p2 (poffset p2 + zlen l))); [destruct Hs2; by split|].
  apply Hk; [apply wrote_advance; [by apply wrote_shorter in Hw2|lia]|destruct Hs; by split|simpl; congruence].
Qed.

(** The last token of an array or an object, and back to the depth outside. *)
Lemma close_run p pre needed f t n d :
  wrote p pre [] -> zlen t + 1 <= needed -> zlen pre + needed + 1 <= n -> d = pdepth p - 1 ->
  (forall p', same p p' -> pdepth p' = pdepth p -> f p' = t ++ [0]) ->
  run_ok p n (with_space ok junk reallocate p needed (fun p => p ← wr p 0 (f p); Some (set_pdepth p (pdepth p - 1), true)))
    (fun p' => printed p' (pre ++ t) /\ pdepth p' = d).
Proof.
  intros Hw Hl Hle -> Hf. pose proof (zlen_nonneg t). apply (with_space_run p pre); [done|lia|lia|]. intros p1 Hw1 Hs1 Hd1 Hfit.
  rewrite (Hf p1 Hs1 Hd1). destruct (wr_start p1 pre (t ++ [0])) as (p2 & -> & Hw2 & Hs2 & Hd2 & _);
    [done|rewrite zlen_app; change (zlen [0]) with 1; lia|]. cbn [mbind option_bind].
  apply run_ret; [destruct Hs2; by split|]. split; [|simpl; congruence]. exists pre, t. split; [done|]. by apply wrote_depth.
Qed.

(** What [print_value] does with a value. *)
Definition value_prints (fmt : bool) (j : json) : Prop :=
  forall name p pre, wrote p pre [] -> nul_free pre -> format p = fmt -> 0 <= pdepth p ->
    prints p pre (text fmt (pdepth p) j) (print_value ok junk reallocate (node name j) p).

Lemma print_elements_run fmt d js p pre n :
  Forall (value_prints fmt) js -> Forall printable js -> wrote p pre [] -> nul_free pre -> format p = fmt -> pdepth p = d -> 0 <= d ->
  zlen pre + zlen (elements_text fmt (map (text fmt d) js)) + 2 <= n ->
  run_ok p n (print_elements ok junk reallocate (print_value ok junk reallocate) (map (node None) js) p)
    (fun p' => wrote p' (pre ++ elements_text fmt (map (text fmt d) js)) [] /\ pdepth p' = d).
Proof.
  intros Hjs. revert p pre. induction Hjs as [|j js Hj Hjs IH]; intros p pre Hp Hw Hn Hf Hpd Hd Hle.
  { apply run_ret; [apply same_refl|]. cbn [map elements_text]. by rewrite app_nil_r. }
  apply Forall_cons_iff in Hp as [Hpj Hp]. cbn [map] in Hle |- *. set (t := text fmt d j) in *.
  assert (nul_free (pre ++ t)) as Hnt by (apply nul_free_app; split; [done|by apply nul_free_text]).
  cbn [elements_text] in Hle |- *. rewrite !zlen_app in Hle. set (rest := elements_text fmt _) in *.
  pose proof (zlen_nonneg rest) as Hr0. set (sep := match map (text fmt d) js with [] => [] | _ => _ end) in *.
  pose proof (zlen_nonneg sep) as Hs0.
  cbn [print_elements]. eapply (prints_then p pre t); [unfold t; rewrite <- Hpd; apply Hj; by rewrite ?Hpd|done|lia|]. intros p1 Hw1 Hs1 Hd1.
  assert (format p1 = fmt) as Hf1 by (destruct Hs1; congruence).
  destruct js as [|j' js].
  - cbn [map] in *. apply run_ret; [apply same_refl|]. unfold sep, rest. cbn [elements_text map]. rewrite !app_nil_r. split; [done|congruence].
  - cbn [map] in IH |- *. rewrite Hf1.
    assert (sep = 44 :: (if fmt then [32] else [])) as Esep by done.
    apply (emit_run p1 (pre ++ t) _ _ sep [0] (fun _ => if fmt then 2 else 1)); [done| | | |].
    + rewrite Esep. destruct fmt; done.
    + rewrite zlen_app. rewrite Esep in Hle. destruct fmt; unfold zlen in *; simpl in *; lia.
    + intros p' [E _ _ _] _. rewrite E, Hf1, Esep. destruct fmt; done.
    + intros p2 Hw2 Hs2 Hd2. rewrite <- app_assoc in Hw2.
      replace (pre ++ t ++ sep ++ rest) with ((pre ++ t ++ sep) ++ rest) by (by rewrite !app_assoc).
      apply IH; try done; [|destruct Hs2; congruence|congruence|rewrite !zlen_app; unfold rest in *; cbn [map] in *; lia].
      rewrite app_assoc. apply nul_free_app. split; [done|]. rewrite Esep. destruct fmt; by repeat constructor.
Qed.

(** The text of a member behind its indentation. *)
Definition member_text (fmt : bool) (k v : list Z) (last : bool) : list Z :=
  quote k ++ (58 :: (if fmt then [9] else [])) ++ v ++ (if last then [] else [44]) ++ (if fmt then [10] else []).

Lemma print_member_run fmt d key j next loop p pre n Q :
  value_prints fmt j -> characters key -> printable j -> wrote p pre [] -> nul_free pre -> format p = fmt -> pdepth p = d -> 0 <= d ->
  let t := member_text fmt key (text fmt d j) (if next is [] then true else false) in
  zlen pre + zlen t + 2 <= n ->
  (forall p', wrote p' (pre ++ t) [] -> same p p' -> pdepth p' = d -> nul_free (pre ++ t) -> run_ok p' n (loop p') Q) ->
  run_ok p n (print_member ok junk reallocate (print_value ok junk reallocate) loop (member (key, j)) next p) Q.
Proof.
  intros Hj Hkey Hpj Hw Hn Hf Hpd Hd t Hle Hloop. unfold t, member_text in Hle, Hloop. clear t. unfold print_member.
  pose proof (nul_free_quote key Hkey) as Hnq. pose proof (nul_free_text fmt j Hpj d) as Hnt.
  set (v := text fmt d j) in *. set (colon := 58 :: (if fmt then [9] else [])) in *. set (last := if next is [] then true else false) in *.
  assert (zlen colon = if fmt then 2 else 1) as Zc by (by unfold colon; destruct fmt).
  assert (nul_free colon) as Hnc by (unfold colon; destruct fmt; by repeat constructor).
  set (sep := (if last then [] else [44]) ++ (if fmt then [10] else [])) in *.
  assert (nul_free sep) as Hns by (unfold sep; destruct last, fmt; by repeat constructor).
  assert (zlen sep = (if fmt then 1 else 0) + zlen (match next with [] => [] | _ => [44] end)) as Zs
    by (unfold sep, last; by destruct next, fmt).
  rewrite !zlen_app in Hle. pose proof (zlen_nonneg v). pose proof (zlen_nonneg sep). pose proof (zlen_nonneg (quote key)). pose proof (zlen_nonneg colon).
  assert (string (member (key, j)) = Some (cstring key)) as -> by (unfold member; by destruct j).
  assert (forall x, nul_free x -> nul_free (pre ++ x)) as Hpre by (intros x Hx; by apply nul_free_app).
  eapply (prints_then p pre (quote key)); [by apply print_string_run|auto|lia|]. intros p1 Hw1 Hs1 Hd1.
  assert (format p1 = fmt) as Hf1 by (destruct Hs1; congruence). rewrite Hf1.
  apply (emit_run p1 (pre ++ quote key) _ (fun p => 58 :: (if format p then [9] else [])) colon [] (fun _ => if fmt then 2 else 1)
    (fun p => '(p, r) ← print_value ok junk reallocate (member (key, j)) p;
      if negb r then Some (p, false)
      else
        p ← update_offset p;
        let comma := match next with [] => [] | _ => [44] end in
        let length := (if format p then 1 else 0) + zlen comma in
        with_space ok junk reallocate p (length + 1) (fun p =>
          p ← wr p 0 (comma ++ (if format p then [10] else []) ++ [0]); loop (set_poffset p (poffset p + length)))));
    [done|change (zlen []) with 0; lia|rewrite zlen_app; lia| |].
  { intros p' [E _ _ _] _. rewrite E, Hf1, app_nil_r. by rewrite Zc. }
  intros p2 Hw2 Hs2 Hd2. rewrite <- app_assoc in Hw2. assert (format p2 = fmt) as Hf2 by (destruct Hs2; congruence).
  eapply (prints_then p2 (pre ++ quote key ++ colon) v); [| |rewrite !zlen_app; lia|].
  { unfold v. replace d with (pdepth p2) by congruence. apply Hj; try done; [|lia]. apply Hpre. by apply nul_free_app. }
  { rewrite <- !app_assoc. apply Hpre. apply nul_free_app. split; [done|]. by apply nul_free_app. }
  intros p3 Hw3 Hs3 Hd3. assert (format p3 = fmt) as Hf3 by (destruct Hs3; congruence). rewrite Hf3.
  eapply (emit_run p3 ((pre ++ quote key ++ colon) ++ v) _
    (fun p => match next with [] => [] | _ => [44] end ++ (if format p then [10] else []) ++ [0]) sep [0]
    (fun _ => (if fmt then 1 else 0) + zlen (match next with [] => [] | _ => [44] end)));
    [done|change (zlen [0]) with 1; lia|rewrite !zlen_app; lia| |].
  { intros p' [E _ _ _] _. rewrite E, Hf3, Zs. split; [|done]. unfold sep, last. rewrite <- app_assoc. by destruct next. }
  intros p4 Hw4 Hs4 Hd4. apply Hloop.
  - by rewrite <- !app_assoc in Hw4.
  - eapply same_trans; [|exact Hs4]. eapply same_trans; [|exact Hs3]. by eapply same_trans.
  - congruence.
  - apply Hpre. repeat (apply nul_free_app; split; [done|]). done.
Qed.

Lemma print_members_run fmt d js p pre n :
  Forall (fun kv => value_prints fmt kv.2) js -> Forall (fun kv => characters kv.1 /\ printable kv.2) js ->
  wrote p pre [] -> nul_free pre -> format p = fmt -> pdepth p = d -> 0 <= d ->
  zlen pre + zlen (members_text fmt d (map (fun kv => (kv.1, text fmt d kv.2)) js)) + 2 <= n ->
  run_ok p n (print_members ok junk reallocate (print_value ok junk reallocate) (map member js) p)
    (fun p' => wrote p' (pre ++ members_text fmt d (map (fun kv => (kv.1, text fmt d kv.2)) js)) [] /\ pdepth p' = d).
Proof.
  intros Hjs. revert p pre. induction Hjs as [|[key j] js Hj Hjs IH]; intros p pre Hp Hw Hn Hf Hpd Hd Hle.
  { apply run_ret; [apply same_refl|]. cbn [map members_text]. by rewrite app_nil_r. }
  apply Forall_cons_iff in Hp as [[Hkey Hpj] Hp]. cbn [fst snd] in Hj, Hkey, Hpj. cbn [map fst snd members_text] in Hle |- *.
  set (rest := members_text fmt d _) in *. set (ind := if fmt then tabs d else []) in *.
  set (last := if map member js is [] then true else false).
  set (t := member_text fmt key (text fmt d j) last).
  assert (forall x, ind ++ quote key ++ (58 :: (if fmt then [9] else [])) ++ text fmt d j ++
    (match map (fun kv => (kv.1, text fmt d kv.2)) js with [] => [] | _ => [44] end ++ (if fmt then [10] else [])) ++ x = ind ++ t ++ x) as Et.
  { intros x. unfold t, member_text, last. rewrite <- !app_assoc. by destruct js. }
  rewrite Et in Hle |- *. rewrite !zlen_app in Hle. pose proof (zlen_nonneg rest). pose proof (zlen_nonneg t).
  assert (nul_free (pre ++ ind)) as Hni by (apply nul_free_app; split; [done|]; unfold ind; destruct fmt; auto using nul_free_tabs).
  assert (forall p1, wrote p1 (pre ++ ind) [] -> same p p1 -> pdepth p1 = d ->
    run_ok p1 n (print_member ok junk reallocate (print_value ok junk reallocate)
      (print_members ok junk reallocate (print_value ok junk reallocate) (map member js)) (member (key, j)) (map member js) p1)
      (fun p' => wrote p' (pre ++ ind ++ t ++ rest) [] /\ pdepth p' = d)) as Hmember.
  { intros p1 Hw1 Hs1 Hd1. assert (format p1 = fmt) as Hf1 by (destruct Hs1; congruence).
    apply (print_member_run fmt d key j _ _ p1 (pre ++ ind)); try done; [rewrite zlen_app; fold last t; lia|].
    fold last t. intros p2 Hw2 Hs2 Hd2 Hn2. assert (format p2 = fmt) as Hf2 by (destruct Hs2; congruence).
    replace (pre ++ ind ++ t ++ rest) with (((pre ++ ind) ++ t) ++ rest) by (by rewrite <- !app_assoc).
    apply IH; try done. rewrite !zlen_app. unfold rest in *. lia. }
  cbn [print_members]. rewrite Hf. destruct fmt.
  - rewrite Hpd. assert (zlen ind = d) as Zi by (unfold ind, tabs; rewrite zlen_replicate; lia).
    eapply (emit_run p pre d (fun p => tabs (pdepth p)) ind [] pdepth); [done|change (zlen []) with 0; lia|lia| |].
    + intros p' _ Hd'. rewrite Hd', Hpd, app_nil_r. by rewrite Zi.
    + intros p1 Hw1 Hs1 Hd1. apply Hmember; [done|done|congruence].
  - apply Hmember; [by unfold ind; rewrite app_nil_r|apply same_refl|done].
Qed.

Lemma print_array_run fmt js : Forall (value_prints fmt) js -> Forall printable js -> value_prints fmt (JArray js).
Proof.
  intros Hjs Hp name p pre Hw Hn Hf Hd. unfold prints.
  change (print_value ok junk reallocate (node name (JArray js)) p)
    with (print_array ok junk reallocate (print_value ok junk reallocate) (map (node None) js) p). unfold print_array.
  cbn [text]. set (t := elements_text fmt _). assert (zlen (91 :: t ++ [93]) = zlen t + 2) as -> by (unfold zlen; simpl; rewrite length_app; simpl; lia).
  pose proof (zlen_nonneg t).
  apply (emit_run p pre 1 (fun _ => [91]) [91] [] (fun _ => 1)
    (fun p => let p := set_pdepth p (pdepth p + 1) in
      '(p, r) ← print_elements ok junk reallocate (print_value ok junk reallocate) (map (node None) js) p;
      if negb r then Some (p, false)
      else with_space ok junk reallocate p 2 (fun p => p ← wr p 0 [93; 0]; Some (set_pdepth p (pdepth p - 1), true))));
    [done|done|lia|done|]. intros p1 Hw1 Hs1 Hd1. cbv zeta.
  apply (run_same _ (set_pdepth p1 (pdepth p1 + 1))); [by split|].
  assert (nul_free (pre ++ [91])) as Hn1 by (apply nul_free_app; by split; [|repeat constructor]).
  eapply (run_bind _ (zlen pre + (zlen t + 2) + 2)); [apply (print_elements_run fmt (pdepth p + 1) js _ (pre ++ [91])); try done|done|].
  - by apply wrote_depth.
  - destruct Hs1; simpl; congruence.
  - simpl. congruence.
  - lia.
  - fold t. rewrite zlen_app. change (zlen [91]) with 1. lia.
  - intros p2 Hs2 [Hw2 Hd2]. fold t in Hw2.
    replace (pre ++ 91 :: t ++ [93]) with (((pre ++ [91]) ++ t) ++ [93]) by (by rewrite <- !app_assoc).
    apply (close_run p2 ((pre ++ [91]) ++ t) 2 (fun _ => [93; 0]) [93]); try done; [|lia].
    rewrite !zlen_app. change (zlen [91]) with 1. lia.
Qed.

Lemma print_object_run fmt js :
  Forall (fun kv => value_prints fmt kv.2) js -> Forall (fun kv => characters kv.1 /\ printable kv.2) js -> value_prints fmt (JObject js).
Proof.
  intros Hjs Hp name p pre Hw Hn Hf Hd. unfold prints.
  change (print_value ok junk reallocate (node name (JObject js)) p)
    with (print_object ok junk reallocate (print_value ok junk reallocate) (map member js) p). unfold print_object.
  cbn [text]. set (t := members_text fmt _ _). set (opening := 123 :: (if fmt then [10] else [])).
  set (closing := (if fmt then tabs (pdepth p) else []) ++ [125]).
  assert (zlen opening = if fmt then 2 else 1) as Zo by (unfold opening; by destruct fmt).
  assert (zlen closing = (if fmt then pdepth p else 0) + 1) as Zc
    by (unfold closing; rewrite zlen_app; change (zlen [125]) with 1; destruct fmt; [unfold tabs; rewrite zlen_replicate; lia|done]).
  assert (nul_free opening) as Hno by (unfold opening; destruct fmt; by repeat constructor).
  pose proof (zlen_nonneg t). pose proof (zlen_nonneg opening). assert (1 <= zlen closing) by (destruct fmt; lia).
  rewrite !zlen_app. fold closing. rewrite Hf. set (n := zlen pre + _ + 2).
  assert (n = zlen pre + zlen opening + zlen t + zlen closing + 2) as En by (unfold n; lia).
  apply (emit_run p pre _ (fun p => 123 :: (if format p then [10] else [])) opening [] (fun _ => if fmt then 2 else 1)
    (fun p => let p := set_pdepth p (pdepth p + 1) in
      '(p, r) ← print_members ok junk reallocate (print_value ok junk reallocate) (map member js) p;
      if negb r then Some (p, false)
      else
        with_space ok junk reallocate p (if format p then pdepth p + 1 else 2) (fun p =>
          p ← wr p 0 ((if format p then tabs (pdepth p - 1) else []) ++ [125; 0]);
          Some (set_pdepth p (pdepth p - 1), true)))); [done|change (zlen []) with 0; lia|lia| |].
  { intros p' [E _ _ _] _. rewrite E, Hf, app_nil_r. by rewrite Zo. }
  intros p1 Hw1 Hs1 Hd1. cbv zeta.
  apply (run_same _ (set_pdepth p1 (pdepth p1 + 1))); [by split|].
  assert (nul_free (pre ++ opening)) as Hn1 by (by apply nul_free_app).
  eapply (run_bind _ n); [apply (print_members_run fmt (pdepth p + 1) js _ (pre ++ opening)); try done|done|].
  - by apply wrote_depth.
  - destruct Hs1; simpl; congruence.
  - simpl. congruence.
  - lia.
  - fold t. rewrite zlen_app. lia.
  - intros p2 Hs2 [Hw2 Hd2]. fold t in Hw2. assert (format p2 = fmt) as Hf2 by (destruct Hs1, Hs2; simpl in *; congruence).
    replace (pre ++ opening ++ t ++ closing) with (((pre ++ opening) ++ t) ++ closing) by (by rewrite <- !app_assoc).
    apply (close_run p2 ((pre ++ opening) ++ t) _ (fun p => (if format p then tabs (pdepth p - 1) else []) ++ [125; 0]) closing); try done.
    + rewrite Hf2, Zc. destruct fmt; lia.
    + rewrite !zlen_app, Hf2. destruct fmt; lia.
    + lia.
    + intros p3 [E _ _ _] Hd3. rewrite E, Hf2, Hd3, Hd2. unfold closing. rewrite <- app_assoc. by replace (pdepth p + 1 - 1) with (pdepth p) by lia.
Qed.

(** The printer refines the text. *)
Lemma print_value_run fmt j : printable j -> value_prints fmt j.
Proof.
  induction j as [| | |d|s|l IH|l IH] using json_tree_ind; intros Hp.
  - intros name p pre Hw Hn Hf Hd. apply (print_word_run p pre (str "null") Hw).
  - intros name p pre Hw Hn Hf Hd. apply (print_word_run p pre (str "false") Hw).
  - intros name p pre Hw Hn Hf Hd. apply (print_word_run p pre (str "true") Hw).
  - intros name p pre Hw Hn Hf Hd. apply (print_number_run p pre d name Hw). apply Hp.
  - intros name p pre Hw Hn Hf Hd. apply (print_string_run p pre s Hp Hw).
  - cbn [printable] in Hp. apply foldr_and in Hp. apply print_array_run; [|done].
    apply Forall_lookup. intros i v Hv. apply (Forall_lookup_1 _ _ _ _ IH Hv). by eapply Forall_lookup_1 in Hp.
  - cbn [printable] in Hp. apply foldr_and in Hp. apply print_object_run; [|done].
    apply Forall_lookup. intros i v Hv. apply (Forall_lookup_1 _ _ _ _ IH Hv). eapply Forall_lookup_1 in Hp; [|done]. apply Hp.
Qed.

(** ** The public functions *)

(** A buffer at the start. *)
Lemma wrote_nothing p b : buffer p = Some b -> zlen b = plength p -> poffset p = 0 -> 0 < plength p -> wrote p [] [].
Proof. intros Hb Hl Ho Hp. split; [by exists b|done|done|change (zlen []) with 0; lia]. Qed.

(** The whole text in the block, with its terminator. *)
Lemma wrote_take p t b : wrote p t [0] -> buffer p = Some b -> take (Z.to_nat (poffset p + 1)) b = t ++ [0].
Proof.
  intros [(b' & Hb & _ & Ht) Ho _ _] Hb'. rewrite Hb in Hb'. injection Hb' as ->. rewrite <- Ht, Ho. f_equal. rewrite length_app. unfold zlen. simpl. lia.
Qed.

(** What the printers return: the text in a block of its own, or nothing and
    no block. *)
Definition print_outcome (h h' : internal_hooks) (t : list Z) (r : option (list Z)) : Prop :=
  match r with
  | Some out => out = t ++ [0] /\ live h' = live h + 1
  | None => live h' = live h
  end.

Lemma print_fail_live p p' h : failed p p' -> live (phooks p) = live h + 1 -> live (print_fail p') = live h.
Proof. unfold failed, print_fail. destruct (buffer p'); simpl; lia. Qed.

(** What [print] returns: the text of the value, or NULL with every block freed. *)
Lemma print_run h j fmt :
  printable j ->
  exists h' r, print ok junk reallocate h (Some (node None j)) fmt = Some (h', r) /\ print_outcome h h' (text fmt 0 j) r /\
    ((forall n, ok n = true) -> zlen (text fmt 0 j) + 2 <= INT_MAX -> is_Some r).
Proof.
  intros Hp. unfold print, allocate. set (t := text fmt 0 j). pose proof (zlen_nonneg t).
  destruct (ok (tick h)) eqn:E0; cbn [negb].
  2: { eexists _, None. split; [done|]. split; [simpl; lia|]. intros Hall. by rewrite Hall in E0. }
  set (p := {| buffer := _ |}). assert (zlen (take 256 (junk (tick h) 256)) = 256) as Hz.
  { unfold zlen. rewrite length_take. pose proof (Hjunk (tick h) 256). unfold zlen in *. lia. }
  assert (wrote p [] []) as Hw by (by eapply (wrote_nothing p)).
  destruct (print_value_run fmt j Hp None p [] Hw) as (p1 & r & E1 & Hr & Hroom); [constructor|done|done|].
  cbn [print_item]. rewrite E1. cbn [mbind option_bind]. change (pdepth p) with 0 in *. fold t in Hr, Hroom.
  assert (live (phooks p) = live h + 1) as Hl0 by done. change (zlen []) with 0 in Hroom.
  destruct r; cbn [negb].
  2: { eexists _, None. split; [done|]. split; [by eapply print_fail_live|]. intros Hall Hlen.
       by discriminate Hroom; split; [lia|right]. }
  destruct Hr as [Hs1 [Hp1 _]]. destruct (update_offset_run p1 t Hp1) as (p2 & -> & Hw2 & Hs2 & _); [by apply nul_free_text|].
  cbn [mbind option_bind]. assert (live (phooks p2) = live h + 1) as Hl2 by (destruct Hs1, Hs2; lia).
  pose proof Hw2 as [(b & Hb & Hlb & _) Ho Hi Hsz]. rewrite Hb. cbn [mbind option_bind]. pose proof (wrote_take _ _ _ Hw2 Hb) as Ht.
  change (zlen [0]) with 1 in Hsz. destruct reallocate.
  - destruct (ok (tick (phooks p2))) eqn:E2.
    + eexists _, (Some _). split; [done|]. split; [|done]. split; [|simpl; lia]. rewrite take_app_le; [done|unfold zlen in *; lia].
    + eexists _, None. split; [done|]. split; [simpl; lia|]. intros Hall. by rewrite Hall in E2.
  - destruct (ok (tick (phooks p2))) eqn:E2; cbn [negb].
    + rewrite Z.min_r by lia. rewrite slice_Some by lia. change (Z.to_nat 0) with 0%nat. rewrite drop_0, Ht. cbn [mbind option_bind].
      pose proof (Hjunk (tick (phooks p2)) (poffset p2 + 1) ltac:(lia)) as Hj. assert (zlen (t ++ [0]) = poffset p2 + 1) as Hzt by (rewrite zlen_app, Ho; done).
      unfold blit. rewrite decide_True by lia. cbn [mbind option_bind]. change (Z.to_nat 0) with 0%nat. rewrite take_0, app_nil_l, Z.add_0_l.
      rewrite drop_ge by (unfold zlen in *; lia). rewrite app_nil_r. rewrite aset_Some by (rewrite Hzt; lia). cbn [mbind option_bind].
      eexists _, (Some _). split; [done|]. split; [|done]. split; [|simpl; lia].
      rewrite Ho. unfold zlen. rewrite Nat2Z.id. by rewrite insert_app_r_alt, Nat.sub_diag by done.
    + eexists _, None. split; [done|]. split; [simpl; lia|]. intros Hall. by rewrite Hall in E2.
Qed.

(** C24: [cJSON_Print] and [cJSON_PrintUnformatted] print the text of the value,
    terminated, in a block of exactly its size: they return whatever the
    allocator does, write only inside their buffer, and either return the text
    or NULL, in which case every block has been freed.  They do return the text
    when no allocation fails and it is shorter than INT_MAX. *)
Theorem cJSON_Print_text h j :
  printable j ->
  (exists h' r, cJSON_Print ok junk reallocate h (Some (node None j)) = Some (h', r) /\ print_outcome h h' (text true 0 j) r /\
    ((forall n, ok n = true) -> zlen (text true 0 j) + 2 <= INT_MAX -> is_Some r)) /\
  (exists h' r, cJSON_PrintUnformatted ok junk reallocate h (Some (node None j)) = Some (h', r) /\ print_outcome h h' (text false 0 j) r /\
    ((forall n, ok n = true) -> zlen (text false 0 j) + 2 <= INT_MAX -> is_Some r)).
Proof. intros Hp. split; by apply print_run. Qed.

(** [cJSON_PrintPreallocated] prints into the caller's buffer of [len] octets
    and never outside it: when it returns true the buffer starts with the
    terminated text, and it does whenever the text and two more octets fit. *)
Theorem cJSON_PrintPreallocated_text h j b fmt :
  printable j -> 0 < zlen b ->
  exists h' b' r, cJSON_PrintPreallocated ok junk reallocate h (Some (node None j)) (Some b) (zlen b) fmt = Some (h', b', r) /\
    (r = true -> exists out, b' = Some out /\ zlen out >= zlen b /\ take (length (text fmt 0 j) + 1) out = text fmt 0 j ++ [0]) /\
    (zlen (text fmt 0 j) + 2 <= zlen b <= INT_MAX -> r = true).
Proof.
  intros Hp Hb. unfold cJSON_PrintPreallocated. destruct (Z.ltb_spec (zlen b) 0); [lia|]. set (p := {| buffer := _ |}).
  assert (wrote p [] []) as Hw by (by eapply (wrote_nothing p)).
  destruct (print_value_run fmt j Hp None p [] Hw) as (p1 & r & E1 & Hr & Hroom); [constructor|done|done|].
  cbn [print_item]. rewrite E1. cbn [mbind option_bind]. change (pdepth p) with 0 in *. change (zlen []) with 0 in Hroom.
  eexists _, _, r. split; [done|]. split.
  - intros ->. destruct Hr as [Hs1 [(pre & w & Et & [(b' & Hb' & Hl & Ht) _ _ _]) _]]. exists b'. split; [done|]. cbn [app] in Et.
    split; [destruct Hs1 as [_ _ _ Hlen]; simpl in Hlen; lia|].
    rewrite app_assoc, Et in Ht. by rewrite length_app in Ht.
  - intros [H1 H2]. apply Hroom. split; [lia|]. left. simpl. lia.
Qed.

End Printer.

(** ** Examples *)

(** New memory that holds what was there before. *)
Definition stale (t : nat) (n : Z) : list Z := replicate (Z.to_nat n) 170.

Lemma zlen_stale t n : 0 <= n -> zlen (stale t n) = n.
Proof. intros Hn. unfold stale. rewrite zlen_replicate. lia. Qed.

Definition example_json : json :=
  JObject [(str "addr", JString (str "10.0.0.1")); (str "port", JNumber (int_double 5004)); (str "on", JArray [JTrue; JNull])].

Lemma characters_dec s : forallb (fun c => (1 <=? c) && (c <? 256)) s = true -> characters s.
Proof.
  intros H. rewrite forallb_forall in H. split; apply Forall_forall; intros c Hc%H; unfold fits; bool_to_prop; lia.
Qed.

Lemma example_port : number_text (int_double 5004) = str "5004".
Proof. vm_compute. reflexivity. Qed.

Lemma example_printable : printable example_json.
Proof.
  cbn [printable example_json map foldr fst snd]. rewrite example_port.
  split_and!; try done; try (apply characters_dec; reflexivity).
Qed.

Lemma cJSON_Print_text_witness :
  exists h' r, cJSON_Print (fun n => (n <? 5)%nat) stale true {| tick := 0; live := 0 |} (Some (node None example_json)) = Some (h', r) /\
    print_outcome {| tick := 0; live := 0 |} h' (text true 0 example_json) r.
Proof.
  destruct (cJSON_Print_text (fun n => (n <? 5)%nat) stale true zlen_stale {| tick := 0; live := 0 |} example_json example_printable)
    as [(h' & r & E & Ho & _) _].
  exists h', r. by split.
Defined.

Lemma cJSON_PrintPreallocated_text_witness :
  exists h' b' r, cJSON_PrintPreallocated (fun _ => false) stale true {| tick := 0; live := 0 |}
      (Some (node None (JString (str "ab")))) (Some (replicate 20 170)) 20 false = Some (h', b', r) /\ r = true.
Proof.
  destruct (cJSON_PrintPreallocated_text (fun _ => false) stale true
    zlen_stale {| tick := 0; live := 0 |} (JString (str "ab")) (replicate 20 170) false)
    as (h' & b' & r & E & _ & Hr).
  - apply characters_dec. reflexivity.
  - reflexivity.
  - exists h', b', r. split; [exact E|]. apply Hr. vm_compute. split; discriminate.
Defined.
