(* ===== verification/JsonRoundtrip.v ===== *)
(** Printing and parsing of the cJSON library are inverse: the parser reads the
    text of a JSON value, formatted or not, back to the tree of the value. *)

From Stdlib Require Import SpecFloat.
From S2P Require Import Prelude CString JsonNumber Json JsonMem JsonParse JsonDouble JsonSafe JsonPrint JsonText.

Import String.StringSyntax.

(** ** Values that read back *)

(** Strings are C strings and numbers are finite: JSON has no other numbers. *)
Fixpoint readable (j : json) : Prop :=
  match j with
  | JNumber d => finite_double d
  | JString s => characters s
  | JArray l => foldr and True (map readable l)
  | JObject l => foldr and True (map (fun kv => characters kv.1 /\ readable kv.2) l)
  | _ => True
  end.

Lemma readable_printable j : readable j -> printable j.
Proof.
  induction j as [| | |d|s|l IH|l IH] using json_tree_ind; try done.
  - intros [_ Hc _ Hl]%number_text_reads_back. split; [|done]. eapply Forall_impl; [|exact Hc]. simpl. intros c Hn. by apply number_char_nonzero.
  - cbn [readable printable]. rewrite !foldr_and. intros Hl. apply Forall_lookup. intros i v Hv.
    apply (Forall_lookup_1 _ _ _ _ IH Hv). by apply (Forall_lookup_1 _ _ _ _ Hl Hv).
  - cbn [readable printable]. rewrite !foldr_and. intros Hl. apply Forall_lookup. intros i v Hv.
    destruct (Forall_lookup_1 _ _ _ _ Hl Hv) as [Hk Hr]. split; [done|]. by apply (Forall_lookup_1 _ _ _ _ IH Hv).
Qed.

(** ** Reading at a place *)

(** The buffer has [pre] in front of its offset and [post] from there. *)
Record at_text (b : parse_buffer) (pre post : list Z) : Prop := {
  at_content : content b = pre ++ post;
  at_offset : offset b = zlen pre
}.

Lemma znth_app_r pre post i : 0 <= i -> znth (pre ++ post) (zlen pre + i) = znth post i.
Proof.
  intros Hi. unfold znth. pose proof (zlen_nonneg pre). rewrite aget_app, decide_False by lia. do 2 f_equal. lia.
Qed.

Lemma at_text_znth b pre post i : at_text b pre post -> 0 <= i -> znth (content b) (offset b + i) = znth post i.
Proof. intros [-> ->] Hi. by apply znth_app_r. Qed.

Lemma at_text_head b pre c post : at_text b pre (c :: post) -> znth (content b) (offset b) = c.
Proof. intros H. rewrite <- (Z.add_0_r (offset b)), (at_text_znth _ _ _ _ H) by done. done. Qed.

(** Moving over [l]. *)
Lemma at_text_move b b' pre l post :
  at_text b pre (l ++ post) -> content b' = content b -> offset b' = offset b + zlen l -> at_text b' (pre ++ l) post.
Proof. intros [Hc Ho] Hc' Ho'. split; [by rewrite Hc', Hc, app_assoc|by rewrite Ho', Ho, zlen_app]. Qed.

(** White space. *)
Lemma skip_exact b pre ws c post :
  input_ok (content b) -> at_text b pre (ws ++ c :: post) -> Forall (fun x => x <= 32) ws -> 32 < c ->
  buffer_skip_whitespace b = Some (with_offset b (offset b + zlen ws)).
Proof.
  intros Hi Hat Hws Hc. unfold buffer_skip_whitespace.
  assert (forall fuel b1 pre1 ws1, content b1 = content b -> at_text b1 pre1 (ws1 ++ c :: post) -> Forall (fun x => x <= 32) ws1 ->
    (length ws1 < fuel)%nat -> skip_loop fuel b1 = Some (with_offset b1 (offset b1 + zlen ws1)) /\ offset b1 + zlen ws1 < zlen (content b1)) as Hloop.
  { induction fuel as [|fuel IH]; intros b1 pre1 ws1 Hc1 Hat1 Hw1 Hf; [lia|].
    assert (offset b1 + zlen ws1 < zlen (content b1)) as Hin.
    { destruct Hat1 as [-> ->]. rewrite !zlen_app. unfold zlen. simpl. lia. }
    split; [|done]. cbn [skip_loop]. pose proof (zlen_nonneg ws1). rewrite can_access_true by lia.
    assert (0 <= offset b1) by (destruct Hat1 as [_ ->]; apply zlen_nonneg).
    unfold buffer_at_offset. rewrite aget_znth by lia. cbn [mbind option_bind]. rewrite Z.add_0_r.
    destruct ws1 as [|x ws1].
    - rewrite (at_text_head _ _ _ _ Hat1). destruct (Z.leb_spec c 32); [lia|]. change (zlen []) with 0. by rewrite Z.add_0_r, with_offset_same.
    - rewrite (at_text_head _ _ _ _ Hat1). apply Forall_cons_iff in Hw1 as [Hx Hw1]. destruct (Z.leb_spec x 32); [|lia].
      destruct (IH (with_offset b1 (offset b1 + 1)) (pre1 ++ [x]) ws1) as [-> _]; try done.
      + by apply (at_text_move b1 _ _ [x]).
      + simpl in Hf. lia.
      + simpl. f_equal. unfold with_offset. simpl. f_equal. unfold zlen. simpl. lia. }
  destruct (Hloop (S (length (content b))) b pre ws) as [-> Hin]; try done.
  { destruct Hat as [-> _]. rewrite !length_app. lia. }
  cbn [mbind option_bind content offset with_offset]. destruct (Z.eqb_spec (offset b + zlen ws) (zlen (content b))); [lia|done].
Qed.

(** ** Words and numbers *)

Lemma strncmp_word w r r' : nul_free w -> strncmp (length w) (w ++ r) (w ++ r') = Some 0.
Proof.
  induction w as [|c w IH]; [done|]. intros [Hc Hw]%nul_free_cons. simpl. rewrite Z.eqb_refl. simpl.
  destruct (Z.eqb_spec c 0); [done|auto].
Qed.

Lemma drop_at b pre post : at_text b pre post -> drop (Z.to_nat (offset b)) (content b) = post.
Proof. intros [-> ->]. unfold zlen. by rewrite Nat2Z.id, drop_app_length. Qed.

Lemma at_word_self b pre w post : at_text b pre (w ++ post) -> nul_free w -> at_word b w = Some true.
Proof.
  intros Hat Hw. unfold at_word, can_read. rewrite (drop_at _ _ _ Hat), strncmp_word by done.
  destruct Hat as [-> ->]. rewrite !zlen_app. pose proof (zlen_nonneg post). destruct (Z.leb_spec (zlen pre + zlen w) (zlen pre + (zlen w + zlen post))); [done|lia].
Qed.

Lemma at_word_other b pre c x w post : at_text b pre (c :: post) -> c <> x -> at_word b (x :: w) = Some false.
Proof.
  intros Hat Hc. unfold at_word. rewrite (drop_at _ _ _ Hat). case_if; [|done]. simpl.
  destruct (Z.eqb_spec c x); [done|]. simpl. destruct (Z.eqb_spec (c - x) 0); [lia|done].
Qed.

(** The characters of a number up to one that is none. *)
Lemma number_loop_exact n i b pre t c post l :
  buffer_ok b -> at_text b pre (l ++ t ++ c :: post) -> i = zlen l -> Forall (fun x => number_char x = true) t -> number_char c = false ->
  (length t < n)%nat -> number_loop n i b = Some t.
Proof.
  intros Hb. revert i t l. induction n as [|n IH]; intros i t l Hat -> Ht Hc Hn; [lia|]. cbn [number_loop].
  pose proof (zlen_nonneg l). pose proof (zlen_nonneg t). pose proof (bo_offset _ Hb).
  assert (offset b + zlen l < zlen (content b)) as Hin.
  { destruct Hat as [-> ->]. rewrite !zlen_app. unfold zlen. simpl. lia. }
  rewrite can_access_true by done. rewrite at_ok by (done || lia). cbn [mbind option_bind].
  rewrite (at_text_znth _ _ _ _ Hat) by lia. rewrite <- (Z.add_0_r (zlen l)), znth_app_r by lia. destruct t as [|x t].
  - change (znth ([] ++ c :: post) 0) with c. by rewrite Hc.
  - change (znth ((x :: t) ++ c :: post) 0) with x. apply Forall_cons_iff in Ht as [Hx Ht]. rewrite Hx, Z.add_0_r.
    rewrite (IH (zlen l + 1) t (l ++ [x])); try done; [|by rewrite <- app_assoc|by rewrite zlen_app|simpl in Hn; lia].
    cbn [mbind option_bind]. unfold get_decimal_point. by destruct (Z.eqb_spec x 46) as [->|].
Qed.

(** ** Strings *)

Lemma aget_at (pre post : list Z) c : aget (pre ++ c :: post) (zlen pre) = Some c.
Proof. pose proof (zlen_nonneg pre). rewrite aget_app, decide_False by lia. by rewrite Z.sub_diag. Qed.

Lemma zlen_at (pre post : list Z) c : zlen pre < zlen (pre ++ c :: post).
Proof. rewrite zlen_app. unfold zlen. simpl. lia. Qed.

(** Characters that stand for themselves. *)
Lemma scan_plain fuel pre l post k :
  Forall (fun c => c <> 34 /\ c <> 92) l ->
  scan_loop (length l + fuel) (pre ++ l ++ post) (zlen pre) k = scan_loop fuel (pre ++ l ++ post) (zlen (pre ++ l)) k.
Proof.
  revert pre. induction l as [|c l IH]; intros pre Hl; [by rewrite app_nil_r|]. apply Forall_cons_iff in Hl as [[H34 H92] Hl].
  cbn [length Nat.add app scan_loop]. destruct (Z.ltb_spec (zlen pre) (zlen (pre ++ c :: l ++ post))); [|pose proof (zlen_at pre (l ++ post) c); lia].
  rewrite aget_at. cbn [mbind option_bind]. destruct (Z.eqb_spec c 34); [done|]. destruct (Z.eqb_spec c 92); [done|].
  change (c :: l ++ post) with ([c] ++ l ++ post). rewrite !app_assoc.
  replace (zlen pre + 1) with (zlen (pre ++ [c])) by (by rewrite zlen_app). rewrite <- (app_assoc (pre ++ [c])), IH by done.
  change (c :: l) with ([c] ++ l). by rewrite !app_assoc.
Qed.

Lemma scan_escape fuel pre x post k :
  scan_loop (S fuel) (pre ++ 92 :: x :: post) (zlen pre) k = scan_loop fuel (pre ++ 92 :: x :: post) (zlen (pre ++ [92; x])) (k + 1).
Proof.
  cbn [scan_loop]. destruct (Z.ltb_spec (zlen pre) (zlen (pre ++ 92 :: x :: post))); [|pose proof (zlen_at pre (x :: post) 92); lia].
  rewrite aget_at. cbn [mbind option_bind Z.eqb]. destruct (Z.leb_spec (zlen (pre ++ 92 :: x :: post)) (zlen pre + 1)) as [Hle|_].
  - rewrite zlen_app in Hle. unfold zlen in Hle. simpl in Hle. lia.
  - by replace (zlen (pre ++ [92; x])) with (zlen pre + 2) by (by rewrite zlen_app).
Qed.

Lemma hex_char_plain d : 0 <= d < 16 -> hex_char d <> 34 /\ hex_char d <> 92.
Proof. unfold hex_char. intros Hd. case_if; lia. Qed.

(** How a character is escaped. *)
Lemma escape_cases c : is_u8 c -> c <> 0 ->
  (escape c = [c] /\ c <> 34 /\ c <> 92) \/
  (exists x, escape c = [92; x] /\ simple_escape x = Some c) \/
  (0 < c < 32 /\ escape c = [92; 117; 48; 48; hex_char (c / 16); hex_char (c mod 16)]).
Proof.
  intros Hu H0. unfold fits in Hu. unfold escape. destruct (Z.ltb_spec 31 c).
  - destruct (Z.eqb_spec c 34) as [->|]; [right; left; by exists 34|]. destruct (Z.eqb_spec c 92) as [->|]; [right; left; by exists 92|].
    left. done.
  - right. cbn [andb]. unfold short_escape. destruct (Z.eqb_spec c 92); [lia|]. destruct (Z.eqb_spec c 34); [lia|].
    destruct (Z.eqb_spec c 8) as [->|]; [left; by exists 98|]. destruct (Z.eqb_spec c 12) as [->|]; [left; by exists 102|].
    destruct (Z.eqb_spec c 10) as [->|]; [left; by exists 110|]. destruct (Z.eqb_spec c 13) as [->|]; [left; by exists 114|].
    destruct (Z.eqb_spec c 9) as [->|]; [left; by exists 116|]. right. split; [lia|done].
Qed.

Lemma scan_exact fuel pre s post k :
  characters s -> (length (concat (map escape s)) < fuel)%nat ->
  exists n, scan_loop fuel (pre ++ concat (map escape s) ++ 34 :: post) (zlen pre) k =
      Some (Some (zlen (pre ++ concat (map escape s)), k + n)) /\ n + zlen s <= zlen (concat (map escape s)).
Proof.
  revert fuel pre k. induction s as [|c s IH]; intros fuel pre k [HF Hn] Hf.
  - destruct fuel as [|fuel]; [simpl in Hf; lia|]. exists 0. cbn [map concat app scan_loop]. pose proof (zlen_at pre post 34).
    destruct (Z.ltb_spec (zlen pre) (zlen (pre ++ 34 :: post))); [|lia]. rewrite aget_at. cbn. by rewrite app_nil_r, Z.add_0_r.
  - apply Forall_cons_iff in HF as [Hc HF], Hn as [H0 Hn]. cbn [map concat] in Hf |- *. rewrite length_app in Hf.
    set (e := concat (map escape s)) in *. rewrite <- (app_assoc (escape c)).
    assert (zlen (c :: s) = zlen s + 1) as Zs by (unfold zlen; simpl; lia). rewrite Zs.
    assert (forall m fuel' k', scan_loop fuel (pre ++ escape c ++ e ++ 34 :: post) (zlen pre) k =
      scan_loop fuel' (pre ++ escape c ++ e ++ 34 :: post) (zlen (pre ++ escape c)) k' -> (length e < fuel')%nat -> k' = k + m ->
      m + 1 <= zlen (escape c) ->
      exists n, scan_loop fuel (pre ++ escape c ++ e ++ 34 :: post) (zlen pre) k =
        Some (Some (zlen (pre ++ escape c ++ e), k + n)) /\ n + (zlen s + 1) <= zlen (escape c ++ e)) as Hgo.
    { intros m fuel' k' -> Hf' -> Hm. rewrite !app_assoc, <- (app_assoc (pre ++ escape c)).
      destruct (IH fuel' (pre ++ escape c) (k + m)) as (n & -> & Hn'); [by split|done|]. exists (m + n).
      rewrite <- !app_assoc. split; [do 3 f_equal; lia|rewrite zlen_app; lia]. }
    destruct (escape_cases c Hc H0) as [(E & H34 & H92)|[(x & E & _)|(Hr & E)]]; rewrite E in Hgo, Hf |- *.
    + apply (Hgo 0 (length [c] + (fuel - 1) - 1)%nat k); [|simpl in *; lia|lia|done].
      replace fuel with (length [c] + (fuel - 1))%nat at 1 by (simpl in *; lia). rewrite scan_plain by (by repeat constructor).
      f_equal. simpl. lia.
    + apply (Hgo 1 (fuel - 1)%nat (k + 1)); [|simpl in *; lia|lia|done].
      destruct fuel as [|fuel]; [simpl in Hf; lia|]. cbn [app]. rewrite scan_escape. f_equal. lia.
    + set (h := [48; 48; hex_char (c / 16); hex_char (c mod 16)]).
      apply (Hgo 1 (fuel - 5)%nat (k + 1)); [|simpl in *; lia|lia|done].
      destruct fuel as [|fuel]; [simpl in Hf; lia|]. change ([92; 117; 48; 48; hex_char (c / 16); hex_char (c mod 16)]) with ([92; 117] ++ h).
      rewrite <- (app_assoc [92; 117]). cbn [app]. rewrite scan_escape.
      replace fuel with (length h + (S fuel - 5))%nat at 1 by (simpl in *; lia).
      change (92 :: 117 :: h ++ e ++ 34 :: post) with ([92; 117] ++ h ++ e ++ 34 :: post). rewrite (app_assoc pre [92; 117]).
      rewrite scan_plain; [by rewrite <- !app_assoc|].
      repeat constructor; try done; apply hex_char_plain; lia.
Qed.

Lemma aget_nth (pre l : list Z) i : 0 <= i -> aget (pre ++ l) (zlen pre + i) = aget l i.
Proof. intros Hi. pose proof (zlen_nonneg pre). rewrite aget_app, decide_False by lia. f_equal. lia. Qed.

(** A control character in four hexadecimal digits. *)
Lemma hex4_exact pre c rest :
  0 < c < 32 -> parse_hex4 (pre ++ [48; 48; hex_char (c / 16); hex_char (c mod 16)] ++ rest) (zlen pre) = Some c.
Proof.
  intros Hc. unfold parse_hex4. set (s := pre ++ _). cbn [hex4_loop].
  assert (forall i x, 0 <= i -> aget ([48; 48; hex_char (c / 16); hex_char (c mod 16)] ++ rest) i = Some x -> aget s (zlen pre + i) = Some x) as Hg
    by (intros i x Hi E; unfold s; by rewrite aget_nth).
  replace (zlen pre) with (zlen pre + 0) by lia. rewrite (Hg 0 48) by done. cbn [mbind option_bind].
  replace (zlen pre + 0 + 1) with (zlen pre + 1) by lia. rewrite (Hg 1 48) by done.
  replace (zlen pre + 1 + 1) with (zlen pre + 2) by lia. rewrite (Hg 2 (hex_char (c / 16))) by done.
  replace (zlen pre + 2 + 1) with (zlen pre + 3) by lia. rewrite (Hg 3 (hex_char (c mod 16))) by done.
  cbn [mbind option_bind]. clear Hg s. revert Hc.
  assert (forall c, c ∈ seqZ 1 31 -> hex_digit (hex_char (c / 16)) = Some (c / 16) /\ hex_digit (hex_char (c mod 16)) = Some (c mod 16)) as H.
  { intros x Hx. apply list_elem_of_In in Hx. vm_compute in Hx. repeat (destruct Hx as [<-|Hx]; [by split|]). done. }
  intros Hc. destruct (H c) as [-> ->]; [apply elem_of_seqZ; lia|]. change (hex_digit 48) with (Some 0). cbn -[Z.div Z.modulo].
  change (u32 (u32 (u32 (u32 (0 + 0) << 4) + 0) << 4)) with 0.
  rewrite Z.add_0_l, (wrap_id 32 (c / 16)), Z.shiftl_mul_pow2 by (unfold fits; lia).
  rewrite (wrap_id 32 (c / 16 * 2 ^ 4)), wrap_id by (unfold fits; lia). f_equal. lia.
Qed.

Lemma utf8_encode_ascii c : 0 <= c < 128 -> utf8_encode c = Some [c].
Proof.
  intros Hc. unfold utf8_encode. destruct (Z.ltb_spec c 0x80); [|lia]. simpl. do 2 f_equal.
  assert (c & 127 = c) as -> by (change 127 with (Z.ones 7); rewrite Z.land_ones by lia; lia). apply wrap_id. unfold fits. lia.
Qed.

Lemma utf16_exact pre c rest e :
  0 < c < 32 -> zlen pre + 6 <= e ->
  utf16_literal_to_utf8 (pre ++ [92; 117; 48; 48; hex_char (c / 16); hex_char (c mod 16)] ++ rest) (zlen pre) e = Some ([c], 6).
Proof.
  intros Hc He. unfold utf16_literal_to_utf8. destruct (Z.ltb_spec (e - zlen pre) 6); [lia|].
  change ([92; 117; 48; 48; hex_char (c / 16); hex_char (c mod 16)] ++ rest)
    with ([92; 117] ++ [48; 48; hex_char (c / 16); hex_char (c mod 16)] ++ rest). rewrite (app_assoc pre).
  replace (zlen pre + 2) with (zlen (pre ++ [92; 117])) by (by rewrite zlen_app). rewrite hex4_exact by done. cbn [mbind option_bind].
  destruct (Z.leb_spec 0xDC00 c); [lia|]. destruct (Z.leb_spec 0xD800 c); [lia|]. cbn [andb]. by rewrite utf8_encode_ascii by lia.
Qed.

Lemma unescape_exact fuel pre s post size out e :
  characters s -> e = zlen (pre ++ concat (map escape s)) -> (length (concat (map escape s)) < fuel)%nat -> zlen out + zlen s <= size ->
  unescape_loop fuel (pre ++ concat (map escape s) ++ 34 :: post) size (zlen pre) e out = Some (e, Some (out ++ s)).
Proof.
  revert fuel pre out e. induction s as [|c s IH]; intros fuel pre out e [HF Hn] -> Hf Hz; (destruct fuel as [|fuel]; [lia|]).
  - cbn [map concat app unescape_loop]. rewrite !app_nil_r. by rewrite Z.ltb_irrefl.
  - apply Forall_cons_iff in HF as [Hc HF], Hn as [H0 Hn]. cbn [map concat] in Hf |- *. rewrite length_app in Hf.
    set (t := concat (map escape s)) in *. rewrite <- (app_assoc (escape c)).
    assert (zlen (c :: s) = zlen s + 1) as Zs by (unfold zlen; simpl; lia). rewrite Zs in Hz. pose proof (zlen_nonneg s).
    assert (forall n fuel', (length t < fuel')%nat -> n = zlen (pre ++ escape c) ->
      (out0 ← put_out size out [c]; unescape_loop fuel' (pre ++ escape c ++ t ++ 34 :: post) size n (zlen (pre ++ escape c ++ t)) out0) =
      Some (zlen (pre ++ escape c ++ t), Some (out ++ c :: s))) as Hgo.
    { intros n fuel' Hf' ->. unfold put_out. change (zlen [c]) with 1. destruct (Z.leb_spec (zlen out + 1) size); [|lia]. cbn [mbind option_bind].
      rewrite !app_assoc, <- (app_assoc (pre ++ escape c)). rewrite (IH fuel' (pre ++ escape c) (out ++ [c])); [|by split|done|done|rewrite zlen_app; change (zlen [c]) with 1; lia].
      by rewrite <- !app_assoc. }
    assert (zlen pre + zlen (escape c) <= zlen (pre ++ escape c ++ t)) as Hle by (rewrite !zlen_app; pose proof (zlen_nonneg t); lia).
    destruct (escape_cases c Hc H0) as [(E & H34 & H92)|[(x & E & Hx)|(Hr & E)]]; rewrite E in Hgo, Hf, Hle |- *.
    + cbn [unescape_loop]. change (zlen [c]) with 1 in Hle. destruct (Z.ltb_spec (zlen pre) (zlen (pre ++ [c] ++ t))); [|lia].
      cbn [app] in *. rewrite aget_at. cbn [mbind option_bind]. destruct (Z.eqb_spec c 92); [done|]. cbn [negb].
      apply Hgo; [simpl in *; lia|by rewrite zlen_app].
    + cbn [unescape_loop]. change (zlen [92; x]) with 2 in Hle. destruct (Z.ltb_spec (zlen pre) (zlen (pre ++ [92; x] ++ t))); [|lia].
      cbn [app] in *. rewrite aget_at. cbn [mbind option_bind negb Z.eqb]. 
      destruct (Z.ltb_spec (zlen (pre ++ 92 :: x :: t) - zlen pre) 1); [lia|]. rewrite aget_nth by lia. cbn [aget]. 
      change (aget (92 :: x :: t ++ 34 :: post) 1) with (Some x). cbn [mbind option_bind]. rewrite Hx.
      apply Hgo; [simpl in *; lia|by rewrite zlen_app].
    + cbn [unescape_loop]. change (zlen [92; 117; 48; 48; hex_char (c / 16); hex_char (c mod 16)]) with 6 in Hle.
      destruct (Z.ltb_spec (zlen pre) (zlen (pre ++ [92; 117; 48; 48; hex_char (c / 16); hex_char (c mod 16)] ++ t))); [|lia].
      cbn [app] in *. rewrite aget_at. cbn [mbind option_bind negb Z.eqb Pos.eqb].
      match goal with |- context [zlen ?a - zlen pre <? 1] => destruct (Z.ltb_spec (zlen a - zlen pre) 1); [lia|] end.
      rewrite aget_nth by lia.
      match goal with |- context [aget (92 :: 117 :: ?l) 1] => change (aget (92 :: 117 :: l) 1) with (Some 117) end.
      cbn [mbind option_bind]. change (simple_escape 117) with (@None Z). change (117 =? 117) with true. cbn iota.
      pose proof (utf16_exact pre c (t ++ 34 :: post)) as Hu. cbn [app] in Hu. rewrite Hu by (done || lia). cbn [mbind option_bind].
      change (6 =? 0) with false. cbn iota. apply Hgo; [simpl in *; lia|by rewrite zlen_app].
Qed.

(** What a parser does with the text [t] of the value [j]. *)
Definition reads (b b' : parse_buffer) (pre t post : list Z) : Prop :=
  at_text b' (pre ++ t) post /\ content b' = content b /\ depth b' = depth b.

Lemma parse_string_exact ok item name b pre s post :
  (forall n, ok n = true) -> characters s -> buffer_ok b -> at_text b pre (quote s ++ post) -> fresh item name ->
  exists b', parse_string ok item b = Some (b', node name (JString s), true) /\ reads b b' pre (quote s) post.
Proof.
  intros Hok Hs Hb Hat (t & -> & _). pose proof Hb as [Hi Ho Hd]. unfold parse_string. rewrite at_ok by (done || lia).
  rewrite Z.add_0_r, (at_text_head b pre 34 (concat (map escape s) ++ [34] ++ post)) by (by rewrite app_assoc).
  cbn [mbind option_bind negb Z.eqb Pos.eqb].
  set (e := concat (map escape s)). assert (content b = (pre ++ [34]) ++ e ++ 34 :: post) as Hc.
  { destruct Hat as [-> _]. unfold quote. fold e. rewrite <- !app_assoc. cbn [app]. by rewrite <- app_assoc. }
  replace (offset b + 1) with (zlen (pre ++ [34])) by (rewrite zlen_app, (at_offset _ _ _ Hat); done).
  rewrite Hc. set (full := S (length ((pre ++ [34]) ++ e ++ 34 :: post))).
  assert (length e < full)%nat as Hlen by (unfold full; rewrite !length_app; simpl; lia).
  destruct (scan_exact full (pre ++ [34]) s post 0 Hs) as (n & E & Hn); [done|]. fold e in E, Hn.
  rewrite E. cbn [mbind option_bind]. unfold allocate. rewrite Hok. cbn [negb].
  set (size := zlen ((pre ++ [34]) ++ e) - offset b - (0 + n) + 1).
  assert (zlen s + 1 <= size) as Hsz.
  { unfold size. rewrite !zlen_app, (at_offset _ _ _ Hat). change (zlen [34]) with 1. lia. }
  pose proof (unescape_exact full (pre ++ [34]) s post size [] _ Hs eq_refl Hlen) as Eu. fold e in Eu.
  rewrite Eu by (change (zlen []) with 0; lia).
  cbn [mbind option_bind app]. unfold put_out. change (zlen [0]) with 1. destruct (Z.leb_spec (zlen s + 1) size); [|lia]. cbn [mbind option_bind].
  eexists. split; [done|]. split; [|done]. split; simpl.
  - destruct Hat as [-> _]. by rewrite app_assoc.
  - unfold quote. fold e. rewrite !zlen_app. unfold zlen. simpl. rewrite length_app. simpl. lia.
Qed.

(** ** Arrays *)

(** A character that ends a number. *)
Definition ends (post : list Z) : Prop := exists c r, post = c :: r /\ number_char c = false.

Definition value_reads (value : cJSON -> parse_buffer -> option (parse_buffer * cJSON * bool)) (fmt : bool) (d : Z) (j : json) : Prop :=
  forall item name b pre post, buffer_ok b -> at_text b pre (text fmt d j ++ post) -> fresh item name ->
    json_depth j + depth b <= CJSON_NESTING_LIMIT -> ends post ->
    exists b', value item b = Some (b', node name j, true) /\ reads b b' pre (text fmt d j) post.

(** The first character of a text: no white space and no closing bracket. *)
Lemma text_first fmt d j : readable j -> exists c t, text fmt d j = c :: t /\ 32 < c /\ c <> 93 /\ c <> 125 /\ c < 128.
Proof.
  destruct j as [| | |n|s|l|l]; try (by intros _; eexists _, _).
  - intros [_ _ (c & t & Et & Hc) _]%number_text_reads_back. exists c, t. split; [exact Et|]. unfold is_digit in Hc.
    destruct (Z.eqb_spec c 45) as [->|]; [done|]. cbn [orb] in Hc. apply andb_true_iff in Hc as [H1 H2]. apply Z.leb_le in H1, H2. lia.
Qed.

Lemma at_text_char b pre c post x : buffer_ok b -> at_text b pre (c :: post) -> at_char b x = Some (c =? x).
Proof. intros Hb Hat. rewrite at_char_run by done. by rewrite (at_text_head _ _ _ _ Hat). Qed.

Lemma at_text_hooks b h pre post : at_text b pre post -> at_text (with_hooks b h) pre post.
Proof. intros []. by split. Qed.

(** White space, and the state behind it. *)
Lemma skip_to b pre ws c post :
  input_ok (content b) -> 0 <= depth b <= CJSON_NESTING_LIMIT -> at_text b pre (ws ++ c :: post) -> Forall (fun x => x <= 32) ws -> 32 < c ->
  exists b', buffer_skip_whitespace b = Some b' /\ at_text b' (pre ++ ws) (c :: post) /\ buffer_ok b' /\ content b' = content b /\ depth b' = depth b.
Proof.
  intros Hi Hd Hat Hws Hc. rewrite (skip_exact b pre ws c post) by done. eexists. split; [done|].
  assert (at_text (with_offset b (offset b + zlen ws)) (pre ++ ws) (c :: post)) as Hat' by (by eapply at_text_move).
  split; [done|]. split; [|done]. split; [done| |done]. destruct Hat' as [Hc' Ho']. simpl in *. rewrite Ho', Hc'.
  split; [apply zlen_nonneg|apply zlen_at].
Qed.

Section Roundtrip.
Context (ok : nat -> bool) (Hok : forall n, ok n = true).

Lemma new_item_ok h : exists h', cJSON_New_Item ok h = (h', Some empty_item).
Proof. unfold cJSON_New_Item, allocate. rewrite Hok. by eexists. Qed.

(** A step over the character at the offset and white space to a text. *)
Lemma step_to b pre x ws c post :
  input_ok (content b) -> 0 <= depth b <= CJSON_NESTING_LIMIT -> at_text b pre (x :: ws ++ c :: post) -> Forall (fun x => x <= 32) ws -> 32 < c ->
  exists b', buffer_skip_whitespace (with_offset b (offset b + 1)) = Some b' /\ at_text b' (pre ++ x :: ws) (c :: post) /\ buffer_ok b' /\
    content b' = content b /\ depth b' = depth b.
Proof.
  intros Hi Hd Hat Hws Hc. destruct (skip_to (with_offset b (offset b + 1)) (pre ++ [x]) ws c post) as (b' & E & H1 & H2 & H3 & H4); try done.
  - by apply (at_text_move b _ _ [x]).
  - exists b'. rewrite <- app_assoc in H1. by split_and!.
Qed.

Lemma array_loop_exact value fmt d js n head b pre x ws post :
  js <> [] -> Forall (value_reads value fmt d) js -> Forall readable js -> Forall (fun j => json_depth j + depth b <= CJSON_NESTING_LIMIT) js ->
  input_ok (content b) -> 0 <= depth b <= CJSON_NESTING_LIMIT -> Forall (fun x => x <= 32) ws ->
  at_text b pre (x :: ws ++ elements_text fmt (map (text fmt d) js) ++ 93 :: post) -> (length js <= n)%nat ->
  exists b', array_loop ok n value head b = Some (b', head ++ map (node None) js, true) /\
    at_text b' (pre ++ x :: ws ++ elements_text fmt (map (text fmt d) js)) (93 :: post) /\ buffer_ok b' /\ content b' = content b /\ depth b' = depth b.
Proof.
  intros Hne Hv. revert n head b pre x ws Hne. induction Hv as [|j js Hj Hjs IH]; intros n head b pre x ws Hne Hr Hdep Hi Hd Hws Hat Hn; [done|].
  clear Hne. apply Forall_cons_iff in Hr as [Hrj Hr], Hdep as [Hdj Hdep]. destruct n as [|n]; [simpl in Hn; lia|]. cbn [array_loop].
  destruct (new_item_ok (hooks b)) as [h ->]. destruct (text_first fmt d j Hrj) as (c & t & Et & Hc & _).
  set (tail := match js with [] => [] | _ => 44 :: (if fmt then [32] else []) end ++ elements_text fmt (map (text fmt d) js)).
  assert (elements_text fmt (map (text fmt d) (j :: js)) = text fmt d j ++ tail) as Ee by (unfold tail; by destruct js).
  rewrite Ee in Hat |- *. rewrite <- (app_assoc (text fmt d j)) in Hat.
  destruct (step_to (with_hooks b h) pre x ws c (t ++ tail ++ 93 :: post)) as (b1 & -> & Hat1 & Hok1 & Hc1 & Hd1); [done|done| |done|done|].
  { rewrite Et in Hat. by apply at_text_hooks. }
  cbn [mbind option_bind content depth with_hooks] in *. change (c :: t ++ tail ++ 93 :: post) with ((c :: t) ++ tail ++ 93 :: post) in Hat1. rewrite <- Et in Hat1.
  destruct (Hj empty_item None b1 _ _ Hok1 Hat1 fresh_empty) as (b2 & -> & Hat2 & Hc2 & Hd2); [lia|unfold tail; destruct js; by eexists _, _|].
  cbn [mbind option_bind negb].
  assert (exists y rest, tail ++ 93 :: post = y :: rest /\ 32 < y) as (y & rest & Ey & Hy) by (unfold tail; destruct js; by eexists _, _).
  rewrite Ey in Hat2. destruct (skip_to b2 ((pre ++ x :: ws) ++ text fmt d j) [] y rest) as (b3 & -> & Hat3 & Hok3 & Hc3 & Hd3); [by rewrite Hc2, Hc1|lia|exact Hat2|constructor|done|].
  rewrite app_nil_r in Hat3. cbn [mbind option_bind]. rewrite (at_text_char _ _ _ _ _ Hok3 Hat3). cbn [mbind option_bind].
  unfold tail in Ey |- *. clear Ee Hat Hat1. clear tail. destruct js as [|j' js].
  - cbn [map elements_text app] in Ey |- *. injection Ey as <- <-. change (93 =? 44) with false. cbn iota. exists b3. split; [done|].
    rewrite app_nil_r. rewrite <- app_assoc in Hat3. split_and!; try done; congruence.
  - cbn [app] in Ey. injection Ey as <- <-. change (44 =? 44) with true. cbn iota. rewrite <- (app_assoc (if fmt then [32] else [])) in Hat3.
    destruct (IH n (head ++ [node None j]) b3 (((pre ++ x :: ws) ++ text fmt d j)) 44 (if fmt then [32] else [])) as (b4 & -> & Hat4 & Hok4 & Hc4 & Hd4); try done.
    + eapply Forall_impl; [|exact Hdep]. simpl. intros j0. by rewrite Hd3, Hd2, Hd1.
    + congruence.
    + lia.
    + destruct fmt; by repeat constructor.
    + simpl in Hn |- *. lia.
    + exists b4. split; [by rewrite <- app_assoc|]. rewrite <- !app_assoc in Hat4. split; [|split_and!; try done; congruence].
      exact Hat4.
Qed.

(** ** Objects *)

Lemma ends_space ws c post : Forall (fun x => x <= 32) ws -> number_char c = false -> ends (ws ++ c :: post).
Proof.
  intros Hws Hc. destruct ws as [|x ws]; [by eexists _, _|]. apply Forall_cons_iff in Hws as [Hx _]. exists x, (ws ++ c :: post). split; [done|].
  unfold number_char, is_digit. repeat match goal with |- context [x =? ?y] => destruct (Z.eqb_spec x y); [lia|] end.
  destruct (Z.leb_spec 48 x); [lia|done].
Qed.

Definition member_texts (fmt : bool) (d : Z) (js : list (list Z * json)) : list Z :=
  members_text fmt d (map (fun kv => (kv.1, text fmt d kv.2)) js).

Lemma tabs_space n : Forall (fun x => x <= 32) (tabs n).
Proof. apply Forall_replicate. lia. Qed.

(** One member: its name, the colon and its value. *)
Lemma member_exact value fmt d key j b pre x ws post :
  value_reads value fmt d j -> characters key -> readable j -> json_depth j + depth b <= CJSON_NESTING_LIMIT ->
  input_ok (content b) -> 0 <= depth b <= CJSON_NESTING_LIMIT -> Forall (fun x => x <= 32) ws -> ends post ->
  at_text b pre (x :: ws ++ quote key ++ (58 :: (if fmt then [9] else [])) ++ text fmt d j ++ post) ->
  exists b1 b2 b3 b4 b5, buffer_skip_whitespace (with_offset b (offset b + 1)) = Some b1 /\
    parse_string ok empty_item b1 = Some (b2, node None (JString key), true) /\ buffer_skip_whitespace b2 = Some b3 /\
    at_char b3 58 = Some true /\ buffer_skip_whitespace (with_offset b3 (offset b3 + 1)) = Some b4 /\
    value (named_item key) b4 = Some (b5, member (key, j), true) /\
    at_text b5 (pre ++ x :: ws ++ quote key ++ (58 :: (if fmt then [9] else [])) ++ text fmt d j) post /\
    content b5 = content b /\ depth b5 = depth b.
Proof.
  intros Hj Hkey Hrj Hdj Hi Hd Hws Hpost Hat. set (sp := if fmt then [9] else []) in *. destruct (text_first fmt d j Hrj) as (c & t & Et & Hc & _).
  assert (Forall (fun x => x <= 32) sp) as Hsp by (unfold sp; destruct fmt; by repeat constructor).
  destruct (step_to b pre x ws 34 (concat (map escape key) ++ [34] ++ (58 :: sp) ++ text fmt d j ++ post)) as (b1 & E1 & Hat1 & Hok1 & Hc1 & Hd1); try done.
  { unfold quote in Hat. cbn [app] in Hat. by rewrite <- app_assoc in Hat. }
  exists b1. destruct (parse_string_exact ok empty_item None b1 (pre ++ x :: ws) key ((58 :: sp) ++ text fmt d j ++ post) Hok Hkey Hok1)
    as (b2 & E2 & Hat2 & Hc2 & Hd2); [unfold quote; cbn [app]; by rewrite <- app_assoc|apply fresh_empty|].
  exists b2. destruct (skip_to b2 ((pre ++ x :: ws) ++ quote key) [] 58 (sp ++ text fmt d j ++ post)) as (b3 & E3 & Hat3 & Hok3 & Hc3 & Hd3);
    [congruence|lia|done|constructor|done|]. rewrite app_nil_r in Hat3.
  exists b3. destruct (step_to b3 ((pre ++ x :: ws) ++ quote key) 58 sp c (t ++ post)) as (b4 & E4 & Hat4 & Hok4 & Hc4 & Hd4);
    [congruence|lia|by rewrite Et in Hat3|done|done|].
  exists b4. change (c :: t ++ post) with ((c :: t) ++ post) in Hat4. rewrite <- Et in Hat4.
  destruct (Hj (named_item key) _ b4 _ _ Hok4 Hat4 (fresh_named key)) as (b5 & E5 & Hat5 & Hc5 & Hd5); [lia|done|].
  exists b5. split_and!; try done; [by rewrite (at_text_char _ _ _ _ _ Hok3 Hat3)| |congruence|congruence].
  by rewrite <- !app_assoc in Hat5.
Qed.

(** The texts start with the indentation of the first. *)
Definition indent (fmt : bool) (d : Z) : list Z := if fmt then tabs d else [].

Lemma member_texts_cons fmt d key j js :
  member_texts fmt d ((key, j) :: js) = indent fmt d ++ (quote key ++ (58 :: (if fmt then [9] else [])) ++ text fmt d j) ++
    (match js with [] => [] | _ => [44] end ++ (if fmt then [10] else [])) ++ member_texts fmt d js.
Proof. unfold member_texts. cbn [map members_text fst snd]. rewrite <- !app_assoc. cbn [app]. by destruct js. Qed.

Lemma indent_space fmt d : Forall (fun x => x <= 32) (indent fmt d).
Proof. unfold indent. destruct fmt; [apply tabs_space|constructor]. Qed.

Lemma object_loop_exact value fmt d js body n head b pre x ws cw post :
  js <> [] -> member_texts fmt d js = indent fmt d ++ body ->
  Forall (fun kv => value_reads value fmt d kv.2) js -> Forall (fun kv => characters kv.1 /\ readable kv.2) js ->
  Forall (fun kv => json_depth kv.2 + depth b <= CJSON_NESTING_LIMIT) js ->
  input_ok (content b) -> 0 <= depth b <= CJSON_NESTING_LIMIT -> Forall (fun x => x <= 32) ws -> Forall (fun x => x <= 32) cw ->
  at_text b pre (x :: ws ++ body ++ cw ++ 125 :: post) -> (length js <= n)%nat ->
  exists b', object_loop ok n value head b = Some (b', head ++ map member js, true) /\
    at_text b' (pre ++ x :: ws ++ body ++ cw) (125 :: post) /\ buffer_ok b' /\ content b' = content b /\ depth b' = depth b.
Proof.
  intros Hne Hbody Hv. revert body n head b pre x ws Hne Hbody.
  induction Hv as [|[key j] js Hj Hjs IH]; intros body n head b pre x ws Hne Hbody Hr Hdep Hi Hd Hws Hcw Hat Hn; [done|].
  clear Hne. apply Forall_cons_iff in Hr as [[Hkey Hrj] Hr], Hdep as [Hdj Hdep]. cbn [fst snd] in *.
  destruct n as [|n]; [simpl in Hn; lia|]. cbn [object_loop]. destruct (new_item_ok (hooks b)) as [h ->].
  rewrite member_texts_cons in Hbody. apply app_inv_head in Hbody. subst body.
  set (mt := quote key ++ _ ++ _) in *. set (nl := if fmt then [10] else []) in *.
  set (tail := (_ ++ nl) ++ _) in *.
  assert (Forall (fun x => x <= 32) nl) as Hnl by (unfold nl; destruct fmt; by repeat constructor).
  destruct (member_exact value fmt d key j (with_hooks b h) pre x ws (tail ++ cw ++ 125 :: post)) as
    (b1 & b2 & b3 & b4 & b5 & E1 & E2 & E3 & E4 & E5 & E6 & Hat5 & Hc5 & Hd5); try done.
  { unfold tail. destruct js as [|kv js]; [|by eexists _, _]. change (member_texts fmt d []) with (@nil Z). cbn [app]. rewrite app_nil_r.
    rewrite app_assoc. apply ends_space; [by apply Forall_app|done]. }
  { apply at_text_hooks. revert Hat. unfold mt. rewrite <- ?app_assoc. cbn [app]. rewrite <- ?app_assoc. done. }
  rewrite E1. cbn [mbind option_bind]. rewrite E2. cbn [mbind option_bind negb]. rewrite E3. cbn [mbind option_bind].
  change (with_valuestring (with_string (node None (JString key)) (valuestring (node None (JString key)))) None) with (named_item key).
  rewrite E4. cbn [mbind option_bind negb]. rewrite E5. cbn [mbind option_bind]. rewrite E6. cbn [mbind option_bind negb].
  fold mt in Hat5. cbn [content depth with_hooks] in Hc5, Hd5. set (full := pre ++ x :: ws ++ mt) in *.
  assert (forall l, pre ++ x :: ws ++ (mt ++ tail) ++ l = full ++ tail ++ l) as Efull.
  { intros l. unfold full. rewrite <- !app_assoc. cbn [app]. by rewrite <- !app_assoc. }
  rewrite Efull. unfold tail in Hat5 |- *. clear Efull Hat tail. destruct js as [|[key' j'] js].
  - change (member_texts fmt d []) with (@nil Z) in *. cbn [app] in Hat5 |- *. rewrite app_nil_r in Hat5 |- *.
    destruct (skip_to b5 full (nl ++ cw) 125 post) as (b6 & -> & Hat6 & Hok6 & Hc6 & Hd6);
      [congruence|lia|by rewrite <- app_assoc|by apply Forall_app|done|].
    cbn [mbind option_bind]. rewrite (at_text_char _ _ _ _ _ Hok6 Hat6). change (125 =? 44) with false. cbn [mbind option_bind].
    exists b6. split; [done|]. split_and!; try done; congruence.
  - cbn [app] in Hat5. destruct (skip_to b5 full [] 44 ((nl ++ member_texts fmt d ((key', j') :: js)) ++ cw ++ 125 :: post)) as (b6 & -> & Hat6 & Hok6 & Hc6 & Hd6);
      [congruence|lia|exact Hat5|constructor|done|]. rewrite app_nil_r in Hat6.
    cbn [mbind option_bind]. rewrite (at_text_char _ _ _ _ _ Hok6 Hat6). change (44 =? 44) with true. cbn [mbind option_bind].
    assert (exists body, member_texts fmt d ((key', j') :: js) = indent fmt d ++ body) as [body Eb] by (rewrite member_texts_cons; by eexists).
    rewrite Eb in Hat6 |- *.
    rewrite <- (app_assoc nl) in Hat6.
    destruct (IH body n (head ++ [member (key, j)]) b6 full 44 (nl ++ indent fmt d)) as (b7 & -> & Hat7 & Hok7 & Hc7 & Hd7); try done.
    + eapply Forall_impl; [|exact Hdep]. simpl. intros j0. by rewrite Hd6, Hd5.
    + congruence.
    + lia.
    + apply Forall_app. split; [done|apply indent_space].
    + by rewrite <- !app_assoc in Hat6 |- *.
    + simpl in Hn |- *. lia.
    + exists b7. split; [by rewrite <- app_assoc|]. split; [|split_and!; try done; congruence].
      revert Hat7. cbn [app]. rewrite <- ?app_assoc. cbn [app]. rewrite <- ?app_assoc. done.
Qed.

(** ** Values *)

Lemma length_elements fmt d js : Forall readable js -> (length js <= length (elements_text fmt (map (text fmt d) js)))%nat.
Proof.
  induction 1 as [|j js Hj _ IH]; [done|]. cbn [map elements_text]. destruct (text_first fmt d j Hj) as (c & t & -> & _).
  rewrite !length_app. simpl. lia.
Qed.

Lemma length_members fmt d (js : list (list Z * json)) : (length js <= length (member_texts fmt d js))%nat.
Proof.
  induction js as [|[k j] js IH]; [done|]. rewrite member_texts_cons. unfold quote. rewrite !length_app. simpl. rewrite ?length_app. simpl. lia.
Qed.

(** Success of an array or an object. *)
Lemma children_exact b b1 item name t pre txt c post head j :
  fresh item name -> at_text b1 (pre ++ txt) (c :: post) -> content b1 = content b -> depth b1 = depth b + 1 ->
  with_child (with_type item t) head = node name j ->
  exists b', parsed_children item t b1 head = Some (b', node name j, true) /\ reads b b' pre (txt ++ [c]) post.
Proof.
  intros Hf Hat Hc Hd En. unfold parsed_children. rewrite En. eexists. split; [done|]. split; [|split; [done|simpl; lia]].
  rewrite app_assoc. by apply (at_text_move b1 _ _ [c]).
Qed.

(** Both kinds of elements, behind the opening bracket [x]. *)
Lemma parse_elements_exact loop t item name b pre x ws body close post j head :
  fresh item name -> buffer_ok b -> depth b < CJSON_NESTING_LIMIT -> 32 < close -> Forall (fun x => x <= 32) ws ->
  at_text b pre (x :: ws ++ body ++ close :: post) ->
  with_child (with_type item t) head = node name j ->
  (head = [] /\ body = [] \/
   (exists c r, body = c :: r /\ 32 < c /\ c <> close) /\
   forall b1, at_text b1 (removelast (pre ++ x :: ws)) (last (pre ++ x :: ws) 0 :: body ++ close :: post) ->
     content b1 = content b -> depth b1 = depth b + 1 ->
     exists b2, loop (length (content b1)) [] b1 = Some (b2, head, true) /\ at_text b2 (pre ++ x :: ws ++ body) (close :: post) /\
       buffer_ok b2 /\ content b2 = content b /\ depth b2 = depth b + 1) ->
  exists b', parse_elements loop t close item (with_depth b (depth b + 1)) = Some (b', node name j, true) /\
    reads b b' pre ((x :: ws ++ body) ++ [close]) post.
Proof.
  intros Hf Hb Hlim Hcl Hws Hat En Hbody. pose proof Hb as [Hi Ho Hd]. unfold parse_elements.
  assert (exists y r, body ++ close :: post = y :: r /\ 32 < y /\ (y =? close) = (if body is [] then true else false)) as (y & r & Ey & Hy & Hyc).
  { destruct Hbody as [[_ ->]|[(c & r & -> & Hc & Hne) _]]; [exists close, post; by rewrite Z.eqb_refl|].
    exists c, (r ++ close :: post). split_and!; try done. by apply Z.eqb_neq. }
  destruct (step_to (with_depth b (depth b + 1)) pre x ws y r) as (b1 & -> & Hat1 & Hok1 & Hc1 & Hd1); [done|simpl; lia| |done|done|].
  { rewrite Ey in Hat. destruct Hat. by split. }
  cbn [mbind option_bind content depth with_depth] in *. rewrite (at_text_char _ _ _ _ _ Hok1 Hat1), Hyc. cbn [mbind option_bind].
  destruct Hbody as [[-> ->]|[(c & r' & -> & Hc & Hne) Hloop]].
  - cbn [app] in Ey. injection Ey as <- <-. rewrite app_nil_r. by eapply children_exact.
  - rewrite can_access_true by (pose proof (bo_offset _ Hok1); lia). cbn [negb].
    destruct (Hloop (with_offset b1 (offset b1 - 1))) as (b2 & E2 & Hat2 & Hok2 & Hc2 & Hd2); [|done|done|].
    { rewrite <- Ey in Hat1. destruct Hat1 as [A B]. assert (pre ++ x :: ws <> []) as Hn by (by destruct pre).
      rewrite (app_removelast_last 0 Hn) in A, B. split; [by rewrite <- app_assoc in A|]. cbn [offset with_offset]. rewrite B, zlen_app. change (zlen [_]) with 1. lia. }
    change (content (with_offset b1 (offset b1 - 1))) with (content b1) in E2. rewrite E2. cbn [mbind option_bind negb].
    rewrite (at_text_char _ _ _ _ _ Hok2 Hat2), Z.eqb_refl. cbn [mbind option_bind]. by eapply children_exact.
Qed.

Lemma removelast_cons_app (l r : list Z) : l <> [] -> removelast l ++ last l 0 :: r = l ++ r.
Proof. intros Hl. rewrite (app_removelast_last 0 Hl) at 3. by rewrite <- app_assoc. Qed.

(** The depth of an element is below that of the whole. *)
Lemma foldr_max {A} (f : A -> Z) l n :
  1 + foldr (fun x m => Z.max (f x) m) 0 l <= n -> 1 <= n /\ Forall (fun x => f x + 1 <= n) l.
Proof.
  intros H. assert (0 <= foldr (fun x m => Z.max (f x) m) 0 l) as Hn by (clear; induction l; simpl; lia). split; [lia|]. clear Hn.
  induction l as [|x l IH]; [constructor|]. cbn [foldr] in H. constructor; [lia|]. apply IH. lia.
Qed.

Lemma parse_array_exact value fmt d js :
  Forall (value_reads value fmt (d + 1)) js -> Forall readable js -> value_reads (parse_array ok value) fmt d (JArray js).
Proof.
  intros Hv Hr item name b pre post Hb Hat Hf Hdep Hpost. cbn [json_depth] in Hdep. unfold parse_array.
  set (body := elements_text fmt (map (text fmt (d + 1)) js)).
  assert (text fmt d (JArray js) = (91 :: [] ++ body) ++ [93]) as Et by done. rewrite Et in Hat |- *. rewrite <- app_assoc in Hat. cbn [app] in Hat.
  destruct (foldr_max json_depth js (CJSON_NESTING_LIMIT - depth b)) as [Hlim Hjd]; [lia|]. destruct (Z.leb_spec CJSON_NESTING_LIMIT (depth b)); [lia|]. pose proof (bo_offset _ Hb).
  assert (buffer_ok (with_depth b (depth b + 1))) as Hbd by (destruct Hb; split; simpl; done || lia).
  rewrite at_ok by (done || simpl; lia). simpl (content _). simpl (offset _). rewrite Z.add_0_r, (at_text_head _ _ _ _ Hat).
  cbn [mbind option_bind negb Z.eqb Pos.eqb].
  apply (parse_elements_exact _ cJSON_Array item name b pre 91 [] body 93 post (JArray js) (map (node None) js)); try done.
  { by destruct Hf as (t & -> & _). }
  destruct js as [|j js]; [by left|]. right. split.
  - apply Forall_cons_iff in Hr as [Hrj _]. destruct (text_first fmt (d + 1) j Hrj) as (c & t & E & Hc & H93 & _).
    unfold body. cbn [map elements_text]. rewrite E. eexists _, _. by split.
  - intros b1 Hat1 Hc1 Hd1. change (pre ++ [91]) with (pre ++ [91] ++ []) in Hat1. rewrite app_nil_r, removelast_last, last_last in Hat1.
    destruct (array_loop_exact value fmt (d + 1) (j :: js) (length (content b1)) [] b1 pre 91 [] post) as (b2 & E & A & B & C & D); try done.
    + rewrite Hd1. eapply Forall_impl; [|exact Hjd]. simpl. lia.
    + rewrite Hc1. apply Hb.
    + pose proof (bo_depth _ Hb). lia.
    + destruct Hat1 as [-> _]. pose proof (length_elements fmt (d + 1) (j :: js) Hr) as Hle. fold body in Hle.
      change (91 :: body ++ 93 :: post) with ([91] ++ body ++ 93 :: post). rewrite !length_app. lia.
    + exists b2. cbn [app] in E. split; [done|]. split; [exact A|]. split; [done|]. split; congruence.
Qed.

Lemma parse_object_exact value fmt d js :
  Forall (fun kv => value_reads value fmt (d + 1) kv.2) js -> Forall (fun kv => characters kv.1 /\ readable kv.2) js ->
  value_reads (parse_object ok value) fmt d (JObject js).
Proof.
  intros Hv Hr item name b pre post Hb Hat Hf Hdep Hpost. cbn [json_depth] in Hdep. unfold parse_object.
  set (nl := if fmt then [10] else []). set (cw := indent fmt d).
  assert (text fmt d (JObject js) = (123 :: nl ++ member_texts fmt (d + 1) js ++ cw) ++ [125]) as Et
    by (cbn [text]; unfold nl, cw, member_texts, indent; rewrite <- ?app_assoc; cbn [app]; by rewrite <- ?app_assoc).
  rewrite Et in Hat |- *. rewrite <- app_assoc in Hat. cbn [app] in Hat.
  assert (Forall (fun x => x <= 32) nl) as Hnl by (unfold nl; destruct fmt; by repeat constructor).
  pose proof (indent_space fmt d) as Hcw. pose proof (indent_space fmt (d + 1)) as Hind.
  destruct (foldr_max (fun kv => json_depth kv.2) js (CJSON_NESTING_LIMIT - depth b)) as [Hlim Hjd]; [lia|].
  destruct (Z.leb_spec CJSON_NESTING_LIMIT (depth b)); [lia|]. pose proof (bo_depth _ Hb).
  assert (buffer_ok (with_depth b (depth b + 1))) as Hbd by (destruct Hb; split; simpl; done || lia).
  rewrite (at_text_char _ pre 123 ((nl ++ member_texts fmt (d + 1) js ++ cw) ++ 125 :: post)); [|done|by destruct Hat; split].
  cbn [mbind option_bind]. change (negb (123 =? 123)) with false. cbn iota.
  assert (with_child (with_type item cJSON_Object) (map member js) = node name (JObject js)) as En by (by destruct Hf as (t & -> & _)).
  destruct js as [|[key j] js].
  { change (member_texts fmt (d + 1) []) with (@nil Z) in *. cbn [app] in *.
    replace (123 :: (nl ++ cw) ++ [125]) with ((123 :: (nl ++ cw) ++ []) ++ [125]) by (by rewrite app_nil_r).
    apply (parse_elements_exact _ cJSON_Object item name b pre 123 (nl ++ cw) [] 125 post (JObject []) []); try done; [by apply Forall_app|by left]. }
  assert (exists body, member_texts fmt (d + 1) ((key, j) :: js) = indent fmt (d + 1) ++ body /\ exists r, body = 34 :: r) as (body & Eb & r & Er)
    by (rewrite member_texts_cons; eexists; split; [reflexivity|eexists; reflexivity]).
  replace ((123 :: nl ++ member_texts fmt (d + 1) ((key, j) :: js) ++ cw) ++ [125])
    with ((123 :: (nl ++ indent fmt (d + 1)) ++ body ++ cw) ++ [125]) by (rewrite Eb; by rewrite <- !app_assoc).
  apply (parse_elements_exact _ cJSON_Object item name b pre 123 (nl ++ indent fmt (d + 1)) (body ++ cw) 125 post (JObject ((key, j) :: js))
    (map member ((key, j) :: js))); try done; [by apply Forall_app|revert Hat; rewrite Eb, <- ?app_assoc; done|].
  right. split; [rewrite Er; by eexists _, _|]. set (W := pre ++ 123 :: nl ++ indent fmt (d + 1)). intros b1 Hat1 Hc1 Hd1.
  destruct (object_loop_exact value fmt (d + 1) ((key, j) :: js) body (length (content b1)) [] b1 (removelast W) (last W 0) [] cw post)
    as (b2 & E & A & B & C & D); try done.
  - eapply Forall_impl; [|exact Hjd]. simpl. lia.
  - rewrite Hc1. apply Hb.
  - lia.
  - cbn [app]. by rewrite <- app_assoc in Hat1.
  - rewrite Hc1. destruct Hat as [-> _]. rewrite !length_app. pose proof (length_members fmt (d + 1) ((key, j) :: js)) as Hle.
    cbn [length]. rewrite !length_app. simpl in Hle |- *. lia.
  - exists b2. cbn [app] in E, A. split; [done|]. rewrite removelast_cons_app in A by (by unfold W; destruct pre).
    split; [|split; [done|split; congruence]]. unfold W in A. revert A. rewrite <- ?app_assoc. cbn [app]. rewrite <- ?app_assoc. done.
Qed.

(** ** The property *)

Lemma json_depth_nonneg j : 0 <= json_depth j.
Proof.
  assert (forall A (f : A -> Z) l, 0 <= foldr (fun x m => Z.max (f x) m) 0 l) as H by (intros A f l; induction l; simpl; lia).
  destruct j as [| | | | |l|l]; cbn [json_depth]; [lia..|pose proof (H _ json_depth l); lia|pose proof (H _ (fun kv => json_depth kv.2) l); lia].
Qed.

(** A word is read as the value of the word. *)
Lemma word_exact b pre w post item name j n :
  at_text b pre (w ++ post) -> n = zlen w -> item = node name j ->
  exists b', Some (with_offset b (offset b + n), item, true) = Some (b', node name j, true) /\ reads b b' pre w post.
Proof. intros Hat -> ->. eexists. split; [done|]. split; [|done]. by eapply at_text_move. Qed.

Lemma parse_value_exact fuel fmt j : forall d, readable j -> json_depth j < Z.of_nat fuel -> value_reads (parse_value ok fuel) fmt d j.
Proof.
  revert j. induction fuel as [|fuel IH]; intros j d Hr Hfu; [pose proof (json_depth_nonneg j); lia|].
  intros item name b pre post Hb Hat Hf Hdep Hpost. cbn [parse_value]. pose proof Hb as [Hi Ho Hd].
  pose proof (text_first fmt d j Hr) as (c & t & Et & _).
  assert (forall x w, c <> x -> at_word b (x :: w) = Some false) as Hother
    by (intros x w Hx; rewrite Et in Hat; by eapply at_word_other).
  assert (Some (znth (content b) (offset b)) = Some c) as Hc by (rewrite Et in Hat; by rewrite (at_text_head _ _ _ _ Hat)).
  change (str "null") with (110 :: str "ull"). change (str "false") with (102 :: str "alse"). change (str "true") with (116 :: str "rue").
  destruct j as [| | |n|s|l|l].
  - change (text fmt d JNull) with (110 :: str "ull") in *.
    rewrite (at_word_self _ _ _ _ Hat) by (by repeat constructor). cbn [mbind option_bind].
    apply (word_exact _ _ _ _ _ _ _ _ Hat); [done|by destruct Hf as (t0 & -> & _)].
  - rewrite (Hother 110) by (by injection Et as <- _). cbn [mbind option_bind].
    change (text fmt d JFalse) with (102 :: str "alse") in *.
    rewrite (at_word_self _ _ _ _ Hat) by (by repeat constructor). cbn [mbind option_bind].
    apply (word_exact _ _ _ _ _ _ _ _ Hat); [done|by destruct Hf as (t0 & -> & _)].
  - rewrite (Hother 110), (Hother 102) by (by injection Et as <- _). cbn [mbind option_bind].
    change (text fmt d JTrue) with (116 :: str "rue") in *.
    rewrite (at_word_self _ _ _ _ Hat) by (by repeat constructor). cbn [mbind option_bind].
    apply (word_exact _ _ _ _ _ _ _ _ Hat); [done|by destruct Hf as (t0 & -> & _)].
  - destruct (number_text_reads_back n Hr) as [Hv Hch (c' & t' & Et' & Hc') Hl]. cbn [text] in *. rewrite Et' in Et. injection Et as -> ->.
    assert (c <> 110 /\ c <> 102 /\ c <> 116 /\ c <> 34) as (H1 & H2 & H3 & H4) by (repeat split; intros ->; done).
    rewrite !Hother by done. cbn [mbind option_bind]. rewrite can_access_true by lia. cbn [negb]. rewrite at_ok, Z.add_0_r, Hc by (done || lia).
    cbn [mbind option_bind]. destruct (Z.eqb_spec c 34); [done|]. rewrite Hc'. unfold parse_number.
    destruct Hpost as (y & r & -> & Hy).
    rewrite (number_loop_exact 63 0 b pre (number_text n) y r [] Hb Hat eq_refl Hch Hy) by (unfold zlen in Hl; lia).
    cbn [mbind option_bind]. rewrite Hv. rewrite zlen_app. change (zlen [0]) with 1.
    destruct (Z.eqb_spec (zlen (number_text n) + 1 - 1) 0) as [E0|_]; [rewrite Et' in E0; unfold zlen in E0; simpl in E0; lia|].
    assert (n <> S754_nan) as Hnan by (pose proof (strtod_not_nan (number_text n ++ [0])) as Hn; by rewrite Hv in Hn).
    destruct (saturate_Some n Hnan) as (i & Ei & _). rewrite Ei. cbn [mbind option_bind].
    apply (word_exact _ _ _ _ _ _ (JNumber n) _ Hat); [lia|]. destruct Hf as (t0 & -> & _). unfold node. by rewrite Ei.
  - injection Et as <- _. rewrite !Hother by done. cbn [mbind option_bind]. rewrite can_access_true by lia. cbn [negb].
    rewrite at_ok, Z.add_0_r, Hc by (done || lia). cbn [mbind option_bind Z.eqb Pos.eqb]. by apply parse_string_exact.
  - injection Et as <- _. rewrite !Hother by done. cbn [mbind option_bind]. rewrite can_access_true by lia. cbn [negb].
    rewrite at_ok, Z.add_0_r, Hc by (done || lia). cbn [mbind option_bind]. cbn [readable] in Hr. apply foldr_and in Hr.
    cbn [json_depth] in Hfu. destruct (foldr_max json_depth l (Z.of_nat fuel)) as [_ Hjd]; [lia|].
    apply (parse_array_exact (parse_value ok fuel) fmt d l); try done.
    apply Forall_lookup. intros k v Hk. apply IH; [by apply (Forall_lookup_1 _ _ _ _ Hr Hk)|].
    pose proof (Forall_lookup_1 _ _ _ _ Hjd Hk) as Hv. simpl in Hv. lia.
  - assert (c = 123) as -> by (cbn [text] in Et; by injection Et as <- _). rewrite !Hother by done. cbn [mbind option_bind]. rewrite can_access_true by lia. cbn [negb].
    rewrite at_ok, Z.add_0_r, Hc by (done || lia). cbn [mbind option_bind]. cbn [readable] in Hr. apply foldr_and in Hr.
    cbn [json_depth] in Hfu. destruct (foldr_max (fun kv => json_depth kv.2) l (Z.of_nat fuel)) as [_ Hjd]; [lia|].
    apply (parse_object_exact (parse_value ok fuel) fmt d l); try done.
    apply Forall_lookup. intros k v Hk. apply IH; [by apply (Forall_lookup_1 _ _ _ _ Hr Hk)|].
    pose proof (Forall_lookup_1 _ _ _ _ Hjd Hk) as Hv. simpl in Hv. lia.
Qed.

(** The text of a value is a string of octets. *)
Lemma is_u8_quote s : characters s -> Forall is_u8 (quote s).
Proof.
  intros [HF Hn]. constructor; [done|]. apply Forall_app. split; [|by repeat constructor].
  induction s as [|c s IH]; [done|]. apply Forall_cons_iff in HF as [Hc HF], Hn as [H0 Hn].
  cbn [map concat]. apply Forall_app. split; [|auto]. unfold escape. case_if; [by constructor|]. constructor; [done|].
  unfold fits in *. destruct (short_escape c) as [x|] eqn:Ex.
  - constructor; [|done]. unfold short_escape in Ex. repeat case_match; simplify_eq; lia.
  - pose proof (Z.mod_pos_bound c 16 ltac:(lia)). pose proof (Z.div_pos c 16). pose proof (Z.div_lt_upper_bound c 16 16).
    unfold hex_escape, hex_char. repeat constructor; try lia; case_if; lia.
Qed.

Lemma is_u8_leaves j : readable j -> Forall is_u8 (leaves j).
Proof.
  induction j as [| | |n|s|l IH|l IH] using json_tree_ind; intros Hp; try done.
  - eapply Forall_impl; [|apply (rb_chars _ (number_text_reads_back _ Hp))]. simpl. intros c. unfold number_char, is_digit, fits.
    rewrite !orb_true_iff, andb_true_iff, !Z.eqb_eq, !Z.leb_le. lia.
  - by apply is_u8_quote.
  - cbn [readable] in Hp. apply foldr_and in Hp. cbn [leaves]. induction Hp as [|v l Hv Hp IHl]; [done|].
    apply Forall_cons_iff in IH as [IHv IH]. apply Forall_app. auto.
  - cbn [readable] in Hp. apply foldr_and in Hp. cbn [leaves]. induction Hp as [|[k v] l [Hk Hv] Hp IHl]; [done|].
    apply Forall_cons_iff in IH as [IHv IH]. cbn [map concat fst snd] in *. rewrite !Forall_app. auto using is_u8_quote.
Qed.

(** The parser at the terminator. *)
Lemma skip_end b pre : input_ok (content b) -> at_text b pre [0] -> buffer_skip_whitespace b = Some b.
Proof.
  intros Hi Hat. pose proof (in_size _ Hi) as Hs. destruct (skip_whitespace_run b Hi) as (o & -> & Ho).
  - destruct Hat as [-> ->]. rewrite zlen_app. change (zlen [0]) with 1. pose proof (zlen_nonneg pre). lia.
  - replace o with (offset b); [by rewrite with_offset_same|]. destruct Hat as [Hc Hoff]. rewrite Hoff, Hc, zlen_app in Ho. change (zlen [0]) with 1 in Ho. lia.
Qed.

Lemma skip_bom_none b c post : at_text b [] (c :: post) -> c <> 0xEF -> skip_utf8_bom b = Some b.
Proof.
  intros Hat Hc. unfold skip_utf8_bom. rewrite (drop_at _ _ _ Hat). case_if; [|done]. cbn [strncmp].
  destruct (Z.eqb_spec c 239); [done|]. cbn [negb mbind option_bind]. destruct (Z.eqb_spec (c - 239) 0); [lia|done].
Qed.

(** The parser reads the text of a value as the tree of the value. *)
Lemma parse_text g j fmt rest require_null_terminated :
  readable j -> json_depth j <= CJSON_NESTING_LIMIT -> zlen (text fmt 0 j) + 1 < 2 ^ 31 ->
  exists g', cJSON_ParseWithOpts ok g (Some (text fmt 0 j ++ 0 :: rest)) require_null_terminated =
    Some (g', zlen (text fmt 0 j), Some (node None j)).
Proof.
  intros Hr Hd Hlen. set (t := text fmt 0 j) in *. assert (nul_free t) as Hnf by (by apply nul_free_text, readable_printable).
  assert (Forall is_u8 t) as HF by (apply text_forall; [unfold fits; lia|by apply is_u8_leaves]).
  pose proof (zlen_nonneg t). unfold cJSON_ParseWithOpts. rewrite strlen_app by done. cbn [mbind option_bind].
  replace (take (Z.to_nat (zlen t + 1)) (t ++ 0 :: rest)) with (t ++ [0]).
  2: { change (0 :: rest) with ([0] ++ rest). rewrite app_assoc, take_app_le, take_ge; try done; rewrite length_app; unfold zlen; simpl; lia. }
  cbn [hooks]. destruct (new_item_ok (global_hooks g)) as [h ->].
  set (b := with_hooks _ h).
  assert (buffer_ok b) as Hb.
  { split; [split| |done]; simpl; [apply Forall_app; split; [done|by repeat constructor]|by exists t|by rewrite zlen_app|].
    rewrite zlen_app. change (zlen [0]) with 1. lia. }
  assert (at_text b [] (t ++ [0])) as Hat by done.
  destruct (text_first fmt 0 j Hr) as (c & u & Et & Hc & _ & _ & Hbom). fold t in Et.
  rewrite Et in Hat. cbn [app] in Hat. rewrite (skip_bom_none b c (u ++ [0])); [|done|lia].
  cbn [mbind option_bind]. rewrite (skip_exact b [] [] c (u ++ [0])); [|apply Hb|done|done|done]. cbn [mbind option_bind].
  change (zlen []) with 0. rewrite Z.add_0_r, with_offset_same.
  destruct (parse_value_exact value_fuel fmt j 0 Hr ltac:(unfold value_fuel, CJSON_NESTING_LIMIT in *; lia) empty_item None b [] [0] Hb) as (b' & -> & Hat' & Hc' & _);
    [fold t; by rewrite Et|apply fresh_empty|simpl; lia|by exists 0, []|].
  cbn [mbind option_bind negb]. fold t in Hat'. cbn [app] in Hat'. pose proof Hat' as [Hcon Hoff].
  destruct require_null_terminated; [|rewrite Hoff; by eexists].
  assert (input_ok (content b')) as Hi' by (rewrite Hc'; apply Hb). rewrite (skip_end b' t) by done. cbn [mbind option_bind].
  assert (zlen (content b') = zlen t + 1) as Hz by (rewrite Hcon, zlen_app; done). rewrite Hz, Hoff. destruct (Z.leb_spec (zlen t + 1) (zlen t)); [lia|].
  unfold buffer_at_offset. rewrite aget_znth by lia. rewrite Z.add_0_r, (at_text_head _ _ _ _ Hat'). cbn [mbind option_bind Z.eqb negb]. by eexists.
Qed.

(** C23: Parsing is the inverse of printing: when the allocations succeed, a JSON
    value of C strings and finite numbers, nested at most 1000 deep, is printed,
    formatted or not, and the parser makes the tree of the same value from the
    printed block, whether or not it is asked to find the terminator after the
    value.  Every finite double comes back as itself, from 15 digits or from
    17. *)
Theorem cJSON_print_parse_roundtrip junk reallocate h g j fmt require_null_terminated :
  (forall t n, 0 <= n -> zlen (junk t n) = n) ->
  readable j -> json_depth j <= CJSON_NESTING_LIMIT -> zlen (text fmt 0 j) + 2 <= INT_MAX ->
  exists h' t g' e, print ok junk reallocate h (Some (node None j)) fmt = Some (h', Some t) /\
    cJSON_ParseWithOpts ok g (Some t) require_null_terminated = Some (g', e, Some (node None j)) /\ e = zlen t - 1.
Proof.
  intros Hj Hr Hd Hlen. pose proof (readable_printable j Hr) as Hp.
  destruct (print_run ok junk reallocate Hj h j fmt Hp) as (h' & r & E & Ho & Hs). destruct (Hs Hok Hlen) as [t ->].
  destruct Ho as [-> _]. destruct (parse_text g j fmt [] require_null_terminated Hr Hd) as (g' & Eg); [unfold INT_MAX in *; lia|].
  exists h', (text fmt 0 j ++ [0]), g', (zlen (text fmt 0 j)). rewrite zlen_app. change (zlen [0]) with 1. split_and!; [done|done|lia].
Qed.

End Roundtrip.

(** A value with a port and with a number that needs 17 digits, 0.1 + 0.2. *)
Definition reading_json : json :=
  JObject [(str "config", example_json); (str "gain", JNumber (S754_finite false 5404319552844596 (-54)));
           (str "least", JNumber (S754_finite true 1 (-1074)))].

Lemma reading_text : number_text (S754_finite false 5404319552844596 (-54)) = str "0.30000000000000004".
Proof. vm_compute. reflexivity. Qed.

Lemma reading_readable : readable reading_json.
Proof.
  cbn [readable reading_json example_json map foldr fst snd].
  split_and!; try exact I; try (apply characters_dec; reflexivity); reflexivity.
Qed.

Lemma cJSON_print_parse_roundtrip_witness :
  exists h' t g' e, print (fun _ => true) stale true {| tick := 0; live := 0 |} (Some (node None reading_json)) true = Some (h', Some t) /\
    cJSON_ParseWithOpts (fun _ => true) {| error_position := None; global_hooks := {| tick := 0; live := 0 |} |} (Some t) true =
      Some (g', e, Some (node None reading_json)) /\ e = zlen t - 1.
Proof.
  apply (cJSON_print_parse_roundtrip (fun _ => true) (fun _ => eq_refl) stale true); [exact zlen_stale|exact reading_readable|by vm_compute|].
  by vm_compute.
Defined.
