(* ===== verification/HttpTypes.v ===== *)
(** The types and tables of the HTTP parser (http_parser.h, http_parser.c):
    states, errors, methods, character classes, the URL automaton and the
    parser's record with the functions that only look at it.

    The build sets HTTP_PARSER_STRICT to 0; strict mode and the limit on
    headers, a global variable, are the fields of the class [HttpConfig], so
    that both modes are covered.  [char] is unsigned. *)

From Stdlib Require Import Ascii.
From S2P Require Import Prelude CString.

Import String.StringSyntax.

(** A character constant. *)
Abbreviation chr a := (ltac:(let v := eval vm_compute in (Z.of_N (Ascii.N_of_ascii a%char)) in exact v)) (only parsing).

Class HttpConfig := {
  HTTP_PARSER_STRICT : bool;
  max_header_size : Z
}.

Definition HTTP_MAX_HEADER_SIZE : Z := 80 * 1024.

(** ** Enumerations *)

Inductive state :=
  | s_dead | s_start_req_or_res | s_res_or_resp_H | s_start_res | s_res_H | s_res_HT | s_res_HTT | s_res_HTTP |
  s_res_http_major | s_res_http_dot | s_res_http_minor | s_res_http_end | s_res_first_status_code |
  s_res_status_code | s_res_status_start | s_res_status | s_res_line_almost_done | s_start_req | s_req_method |
  s_req_spaces_before_url | s_req_schema | s_req_schema_slash | s_req_schema_slash_slash | s_req_server_start |
  s_req_server | s_req_server_with_at | s_req_path | s_req_query_string_start | s_req_query_string |
  s_req_fragment_start | s_req_fragment | s_req_http_start | s_req_http_H | s_req_http_HT | s_req_http_HTT |
  s_req_http_HTTP | s_req_http_I | s_req_http_IC | s_req_http_major | s_req_http_dot | s_req_http_minor |
  s_req_http_end | s_req_line_almost_done | s_header_field_start | s_header_field | s_header_value_discard_ws |
  s_header_value_discard_ws_almost_done | s_header_value_discard_lws | s_header_value_start | s_header_value |
  s_header_value_lws | s_header_almost_done | s_chunk_size_start | s_chunk_size | s_chunk_parameters |
  s_chunk_size_almost_done | s_headers_almost_done | s_headers_done | s_chunk_data | s_chunk_data_almost_done |
  s_chunk_data_done | s_body_identity | s_body_identity_eof | s_message_done.
#[global] Instance state_eq : EqDecision state.
Proof. solve_decision. Defined.

(** [PARSING_HEADER(state)]. *)
Definition PARSING_HEADER (s : state) : bool :=
  match s with
  | s_chunk_data | s_chunk_data_almost_done | s_chunk_data_done | s_body_identity | s_body_identity_eof
  | s_message_done => false
  | _ => true
  end.

Inductive header_states :=
  | h_general | h_C | h_CO | h_CON | h_matching_connection | h_matching_proxy_connection |
  h_matching_content_length | h_matching_transfer_encoding | h_matching_upgrade | h_connection |
  h_content_length | h_content_length_num | h_content_length_ws | h_transfer_encoding | h_upgrade |
  h_matching_transfer_encoding_chunked | h_matching_connection_token_start | h_matching_connection_keep_alive |
  h_matching_connection_close | h_matching_connection_upgrade | h_matching_connection_token |
  h_transfer_encoding_chunked | h_connection_keep_alive | h_connection_close | h_connection_upgrade.
#[global] Instance header_states_eq : EqDecision header_states.
Proof. solve_decision. Defined.

Inductive http_errno_t :=
  | HPE_OK | HPE_CB_message_begin | HPE_CB_url | HPE_CB_header_field | HPE_CB_header_value |
  HPE_CB_headers_complete | HPE_CB_body | HPE_CB_message_complete | HPE_CB_status | HPE_CB_chunk_header |
  HPE_CB_chunk_complete | HPE_INVALID_EOF_STATE | HPE_HEADER_OVERFLOW | HPE_CLOSED_CONNECTION |
  HPE_INVALID_VERSION | HPE_INVALID_STATUS | HPE_INVALID_METHOD | HPE_INVALID_URL | HPE_INVALID_HOST |
  HPE_INVALID_PORT | HPE_INVALID_PATH | HPE_INVALID_QUERY_STRING | HPE_INVALID_FRAGMENT | HPE_LF_EXPECTED |
  HPE_INVALID_HEADER_TOKEN | HPE_INVALID_CONTENT_LENGTH | HPE_UNEXPECTED_CONTENT_LENGTH | HPE_INVALID_CHUNK_SIZE
  | HPE_INVALID_CONSTANT | HPE_INVALID_INTERNAL_STATE | HPE_STRICT | HPE_PAUSED | HPE_UNKNOWN.
#[global] Instance http_errno_t_eq : EqDecision http_errno_t.
Proof. solve_decision. Defined.

Inductive http_method :=
  | HTTP_DELETE | HTTP_GET | HTTP_HEAD | HTTP_POST | HTTP_PUT | HTTP_CONNECT | HTTP_OPTIONS | HTTP_TRACE |
  HTTP_COPY | HTTP_LOCK | HTTP_MKCOL | HTTP_MOVE | HTTP_PROPFIND | HTTP_PROPPATCH | HTTP_SEARCH | HTTP_UNLOCK |
  HTTP_BIND | HTTP_REBIND | HTTP_UNBIND | HTTP_ACL | HTTP_REPORT | HTTP_MKACTIVITY | HTTP_CHECKOUT | HTTP_MERGE
  | HTTP_MSEARCH | HTTP_NOTIFY | HTTP_SUBSCRIBE | HTTP_UNSUBSCRIBE | HTTP_PATCH | HTTP_PURGE | HTTP_MKCALENDAR |
  HTTP_LINK | HTTP_UNLINK | HTTP_SOURCE.
#[global] Instance http_method_eq : EqDecision http_method.
Proof. solve_decision. Defined.

(** [method_strings]. *)
Definition method_strings (m : http_method) : list Z :=
  match m with
  | HTTP_DELETE => str "DELETE"
  | HTTP_GET => str "GET"
  | HTTP_HEAD => str "HEAD"
  | HTTP_POST => str "POST"
  | HTTP_PUT => str "PUT"
  | HTTP_CONNECT => str "CONNECT"
  | HTTP_OPTIONS => str "OPTIONS"
  | HTTP_TRACE => str "TRACE"
  | HTTP_COPY => str "COPY"
  | HTTP_LOCK => str "LOCK"
  | HTTP_MKCOL => str "MKCOL"
  | HTTP_MOVE => str "MOVE"
  | HTTP_PROPFIND => str "PROPFIND"
  | HTTP_PROPPATCH => str "PROPPATCH"
  | HTTP_SEARCH => str "SEARCH"
  | HTTP_UNLOCK => str "UNLOCK"
  | HTTP_BIND => str "BIND"
  | HTTP_REBIND => str "REBIND"
  | HTTP_UNBIND => str "UNBIND"
  | HTTP_ACL => str "ACL"
  | HTTP_REPORT => str "REPORT"
  | HTTP_MKACTIVITY => str "MKACTIVITY"
  | HTTP_CHECKOUT => str "CHECKOUT"
  | HTTP_MERGE => str "MERGE"
  | HTTP_MSEARCH => str "M-SEARCH"
  | HTTP_NOTIFY => str "NOTIFY"
  | HTTP_SUBSCRIBE => str "SUBSCRIBE"
  | HTTP_UNSUBSCRIBE => str "UNSUBSCRIBE"
  | HTTP_PATCH => str "PATCH"
  | HTTP_PURGE => str "PURGE"
  | HTTP_MKCALENDAR => str "MKCALENDAR"
  | HTTP_LINK => str "LINK"
  | HTTP_UNLINK => str "UNLINK"
  | HTTP_SOURCE => str "SOURCE"
  end.

Inductive http_parser_type := HTTP_REQUEST | HTTP_RESPONSE | HTTP_BOTH.
#[global] Instance http_parser_type_eq : EqDecision http_parser_type.
Proof. solve_decision. Defined.

Definition F_CHUNKED : Z := 1 << 0.
Definition F_CONNECTION_KEEP_ALIVE : Z := 1 << 1.
Definition F_CONNECTION_CLOSE : Z := 1 << 2.
Definition F_CONNECTION_UPGRADE : Z := 1 << 3.
Definition F_TRAILING : Z := 1 << 4.
Definition F_UPGRADE : Z := 1 << 5.
Definition F_SKIPBODY : Z := 1 << 6.
Definition F_CONTENTLENGTH : Z := 1 << 7.

Definition ULLONG_MAX : Z := 2 ^ 64 - 1.

(** ** Character classes *)

(** [tokens], [unhex] and [normal_url_char]: what the source does not list is
    zero. *)
Definition tokens : list Z :=
  [0; 0; 0; 0; 0; 0; 0; 0; 0; 0; 0; 0; 0; 0; 0; 0;
   0; 0; 0; 0; 0; 0; 0; 0; 0; 0; 0; 0; 0; 0; 0; 0;
   32; 33; 0; 35; 36; 37; 38; 39; 0; 0; 42; 43; 0; 45; 46; 0;
   48; 49; 50; 51; 52; 53; 54; 55; 56; 57; 0; 0; 0; 0; 0; 0;
   0; 97; 98; 99; 100; 101; 102; 103; 104; 105; 106; 107; 108; 109; 110; 111;
   112; 113; 114; 115; 116; 117; 118; 119; 120; 121; 122; 0; 0; 0; 94; 95;
   96; 97; 98; 99; 100; 101; 102; 103; 104; 105; 106; 107; 108; 109; 110; 111;
   112; 113; 114; 115; 116; 117; 118; 119; 120; 121; 122; 0; 124; 0; 126; 0]
  ++ replicate 128 0.

Definition unhex : list Z :=
  [-1; -1; -1; -1; -1; -1; -1; -1; -1; -1; -1; -1; -1; -1; -1; -1;
   -1; -1; -1; -1; -1; -1; -1; -1; -1; -1; -1; -1; -1; -1; -1; -1;
   -1; -1; -1; -1; -1; -1; -1; -1; -1; -1; -1; -1; -1; -1; -1; -1;
   0; 1; 2; 3; 4; 5; 6; 7; 8; 9; -1; -1; -1; -1; -1; -1;
   -1; 10; 11; 12; 13; 14; 15; -1; -1; -1; -1; -1; -1; -1; -1; -1;
   -1; -1; -1; -1; -1; -1; -1; -1; -1; -1; -1; -1; -1; -1; -1; -1;
   -1; 10; 11; 12; 13; 14; 15; -1; -1; -1; -1; -1; -1; -1; -1; -1;
   -1; -1; -1; -1; -1; -1; -1; -1; -1; -1; -1; -1; -1; -1; -1; -1]
  ++ replicate 128 0.

Definition CR : Z := 13.
Definition LF : Z := 10.
Definition LOWER (c : Z) : Z := u8 (c .| 0x20).
Definition IS_ALPHA (c : Z) : bool := (chr "a" <=? LOWER c) && (LOWER c <=? chr "z").
Definition IS_NUM (c : Z) : bool := (chr "0" <=? c) && (c <=? chr "9").
Definition IS_ALPHANUM (c : Z) : bool := IS_ALPHA c || IS_NUM c.
Definition IS_HEX (c : Z) : bool := IS_NUM c || ((chr "a" <=? LOWER c) && (LOWER c <=? chr "f")).
Definition IS_MARK (c : Z) : bool :=
  (c =? chr "-") || (c =? chr "_") || (c =? chr ".") || (c =? chr "!") || (c =? chr "~") || (c =? chr "*")
  || (c =? chr "'") || (c =? chr "(") || (c =? chr ")").
Definition IS_USERINFO_CHAR (c : Z) : bool :=
  IS_ALPHANUM c || IS_MARK c || (c =? chr "%") || (c =? chr ";") || (c =? chr ":") || (c =? chr "&") || (c =? chr "=")
  || (c =? chr "+") || (c =? chr "$") || (c =? chr ",").
Definition IS_HEADER_CHAR (ch : Z) : bool := (ch =? CR) || (ch =? LF) || (ch =? 9) || ((31 <? ch) && negb (ch =? 127)).

Definition STRICT_TOKEN (c : Z) : Z := if c =? chr " " then 0 else znth tokens c.

Section Classes.
Context `{HttpConfig}.

(** [T(v)]: bits that only the lenient mode has. *)
Definition T (v : Z) : Z := if HTTP_PARSER_STRICT then 0 else v.

Definition normal_url_char : list Z :=
  [0; T 2 + T 16; 0; 0; 246; 255; 255; 127; 255; 255; 255; 255; 255; 255; 255; 127] ++ replicate 16 0.

Definition BIT_AT (a : list Z) (i : Z) : bool := negb ((znth a (i >> 3) & (1 << (i & 7))) =? 0).

Definition TOKEN (c : Z) : Z := if HTTP_PARSER_STRICT then STRICT_TOKEN c else znth tokens c.
Definition IS_URL_CHAR (c : Z) : bool :=
  BIT_AT normal_url_char c || (negb HTTP_PARSER_STRICT && negb ((c & 0x80) =? 0)).
Definition IS_HOST_CHAR (c : Z) : bool :=
  IS_ALPHANUM c || (c =? chr ".") || (c =? chr "-") || (negb HTTP_PARSER_STRICT && (c =? chr "_")).

(** ** URLs *)

(** [parse_url_char(s, ch)]. *)
Definition parse_url_char (s : state) (ch : Z) : state :=
  if (ch =? chr " ") || (ch =? CR) || (ch =? LF) then s_dead
  else if HTTP_PARSER_STRICT && ((ch =? 9) || (ch =? 12)) then s_dead
  else
    match s with
    | s_req_spaces_before_url =>
        if (ch =? chr "/") || (ch =? chr "*") then s_req_path
        else if IS_ALPHA ch then s_req_schema
        else s_dead
    | s_req_schema => if IS_ALPHA ch then s else if ch =? chr ":" then s_req_schema_slash else s_dead
    | s_req_schema_slash => if ch =? chr "/" then s_req_schema_slash_slash else s_dead
    | s_req_schema_slash_slash => if ch =? chr "/" then s_req_server_start else s_dead
    | s_req_server_with_at | s_req_server_start | s_req_server =>
        if bool_decide (s = s_req_server_with_at) && (ch =? chr "@") then s_dead
        else if ch =? chr "/" then s_req_path
        else if ch =? chr "?" then s_req_query_string_start
        else if ch =? chr "@" then s_req_server_with_at
        else if IS_USERINFO_CHAR ch || (ch =? chr "[") || (ch =? chr "]") then s_req_server
        else s_dead
    | s_req_path =>
        if IS_URL_CHAR ch then s
        else if ch =? chr "?" then s_req_query_string_start
        else if ch =? chr "#" then s_req_fragment_start
        else s_dead
    | s_req_query_string_start | s_req_query_string =>
        if IS_URL_CHAR ch then s_req_query_string
        else if ch =? chr "?" then s_req_query_string
        else if ch =? chr "#" then s_req_fragment_start
        else s_dead
    | s_req_fragment_start =>
        if IS_URL_CHAR ch then s_req_fragment
        else if ch =? chr "?" then s_req_fragment
        else if ch =? chr "#" then s
        else s_dead
    | s_req_fragment =>
        if IS_URL_CHAR ch then s else if (ch =? chr "?") || (ch =? chr "#") then s else s_dead
    | _ => s_dead
    end.

End Classes.

(** ** The parser *)

(** [http_parser]; [user_data] is the application's pointer [data]. *)
Record http_parser := {
  type : http_parser_type;
  flags : Z;
  parser_state : state;
  header_state : header_states;
  index : Z;
  lenient_http_headers : bool;
  nread : Z;
  content_length : Z;
  http_major : Z;
  http_minor : Z;
  status_code : Z;
  method : http_method;
  http_errno : http_errno_t;
  upgrade : bool;
  user_data : Z
}.

Definition with_type (x : http_parser) (v : http_parser_type) : http_parser :=
  {| type := v; flags := flags x; parser_state := parser_state x; header_state := header_state x; index := index x;
     lenient_http_headers := lenient_http_headers x; nread := nread x; content_length := content_length x;
     http_major := http_major x; http_minor := http_minor x; status_code := status_code x; method := method x;
     http_errno := http_errno x; upgrade := upgrade x; user_data := user_data x |}.
Definition with_flags (x : http_parser) (v : Z) : http_parser :=
  {| type := type x; flags := v; parser_state := parser_state x; header_state := header_state x; index := index x;
     lenient_http_headers := lenient_http_headers x; nread := nread x; content_length := content_length x;
     http_major := http_major x; http_minor := http_minor x; status_code := status_code x; method := method x;
     http_errno := http_errno x; upgrade := upgrade x; user_data := user_data x |}.
Definition with_parser_state (x : http_parser) (v : state) : http_parser :=
  {| type := type x; flags := flags x; parser_state := v; header_state := header_state x; index := index x;
     lenient_http_headers := lenient_http_headers x; nread := nread x; content_length := content_length x;
     http_major := http_major x; http_minor := http_minor x; status_code := status_code x; method := method x;
     http_errno := http_errno x; upgrade := upgrade x; user_data := user_data x |}.
Definition with_header_state (x : http_parser) (v : header_states) : http_parser :=
  {| type := type x; flags := flags x; parser_state := parser_state x; header_state := v; index := index x;
     lenient_http_headers := lenient_http_headers x; nread := nread x; content_length := content_length x;
     http_major := http_major x; http_minor := http_minor x; status_code := status_code x; method := method x;
     http_errno := http_errno x; upgrade := upgrade x; user_data := user_data x |}.
Definition with_index (x : http_parser) (v : Z) : http_parser :=
  {| type := type x; flags := flags x; parser_state := parser_state x; header_state := header_state x; index := v;
     lenient_http_headers := lenient_http_headers x; nread := nread x; content_length := content_length x;
     http_major := http_major x; http_minor := http_minor x; status_code := status_code x; method := method x;
     http_errno := http_errno x; upgrade := upgrade x; user_data := user_data x |}.
Definition with_nread (x : http_parser) (v : Z) : http_parser :=
  {| type := type x; flags := flags x; parser_state := parser_state x; header_state := header_state x; index :=
     index x; lenient_http_headers := lenient_http_headers x; nread := v; content_length := content_length x;
     http_major := http_major x; http_minor := http_minor x; status_code := status_code x; method := method x;
     http_errno := http_errno x; upgrade := upgrade x; user_data := user_data x |}.
Definition with_content_length (x : http_parser) (v : Z) : http_parser :=
  {| type := type x; flags := flags x; parser_state := parser_state x; header_state := header_state x; index :=
     index x; lenient_http_headers := lenient_http_headers x; nread := nread x; content_length := v; http_major :=
     http_major x; http_minor := http_minor x; status_code := status_code x; method := method x; http_errno :=
     http_errno x; upgrade := upgrade x; user_data := user_data x |}.
Definition with_http_major (x : http_parser) (v : Z) : http_parser :=
  {| type := type x; flags := flags x; parser_state := parser_state x; header_state := header_state x; index :=
     index x; lenient_http_headers := lenient_http_headers x; nread := nread x; content_length := content_length x;
     http_major := v; http_minor := http_minor x; status_code := status_code x; method := method x; http_errno :=
     http_errno x; upgrade := upgrade x; user_data := user_data x |}.
Definition with_http_minor (x : http_parser) (v : Z) : http_parser :=
  {| type := type x; flags := flags x; parser_state := parser_state x; header_state := header_state x; index :=
     index x; lenient_http_headers := lenient_http_headers x; nread := nread x; content_length := content_length x;
     http_major := http_major x; http_minor := v; status_code := status_code x; method := method x; http_errno :=
     http_errno x; upgrade := upgrade x; user_data := user_data x |}.
Definition with_status_code (x : http_parser) (v : Z) : http_parser :=
  {| type := type x; flags := flags x; parser_state := parser_state x; header_state := header_state x; index :=
     index x; lenient_http_headers := lenient_http_headers x; nread := nread x; content_length := content_length x;
     http_major := http_major x; http_minor := http_minor x; status_code := v; method := method x; http_errno :=
     http_errno x; upgrade := upgrade x; user_data := user_data x |}.
Definition with_method (x : http_parser) (v : http_method) : http_parser :=
  {| type := type x; flags := flags x; parser_state := parser_state x; header_state := header_state x; index :=
     index x; lenient_http_headers := lenient_http_headers x; nread := nread x; content_length := content_length x;
     http_major := http_major x; http_minor := http_minor x; status_code := status_code x; method := v; http_errno
     := http_errno x; upgrade := upgrade x; user_data := user_data x |}.
Definition with_http_errno (x : http_parser) (v : http_errno_t) : http_parser :=
  {| type := type x; flags := flags x; parser_state := parser_state x; header_state := header_state x; index :=
     index x; lenient_http_headers := lenient_http_headers x; nread := nread x; content_length := content_length x;
     http_major := http_major x; http_minor := http_minor x; status_code := status_code x; method := method x;
     http_errno := v; upgrade := upgrade x; user_data := user_data x |}.
Definition with_upgrade (x : http_parser) (v : bool) : http_parser :=
  {| type := type x; flags := flags x; parser_state := parser_state x; header_state := header_state x; index :=
     index x; lenient_http_headers := lenient_http_headers x; nread := nread x; content_length := content_length x;
     http_major := http_major x; http_minor := http_minor x; status_code := status_code x; method := method x;
     http_errno := http_errno x; upgrade := v; user_data := user_data x |}.

(** [parser->flags & f] and [parser->flags |= f]. *)
Definition has_flag (x : http_parser) (f : Z) : bool := negb ((flags x & f) =? 0).
Definition set_flag (x : http_parser) (f : Z) : http_parser := with_flags x (flags x .| f).

(** [http_parser_init(parser, t)]; [memset] makes the enumerators 0. *)
Definition http_parser_init (x : http_parser) (t : http_parser_type) : http_parser :=
  {| type := t; flags := 0;
     parser_state := match t with HTTP_REQUEST => s_start_req | HTTP_RESPONSE => s_start_res | HTTP_BOTH => s_start_req_or_res end;
     header_state := h_general; index := 0; lenient_http_headers := false; nread := 0; content_length := 0;
     http_major := 0; http_minor := 0; status_code := 0; method := HTTP_DELETE; http_errno := HPE_OK; upgrade := false;
     user_data := user_data x |}.

Definition http_message_needs_eof (x : http_parser) : bool :=
  if decide (type x = HTTP_REQUEST) then false
  else if (status_code x / 100 =? 1) || (status_code x =? 204) || (status_code x =? 304) || has_flag x F_SKIPBODY then false
  else if has_flag x F_CHUNKED || negb (content_length x =? ULLONG_MAX) then false
  else true.

Definition http_should_keep_alive (x : http_parser) : bool :=
  if (0 <? http_major x) && (0 <? http_minor x) then
    if has_flag x F_CONNECTION_CLOSE then false else negb (http_message_needs_eof x)
  else if negb (has_flag x F_CONNECTION_KEEP_ALIVE) then false
  else negb (http_message_needs_eof x).

(** [http_parser_pause(parser, paused)]. *)
Definition http_parser_pause (x : http_parser) (paused : bool) : outcome http_parser :=
  if decide (http_errno x = HPE_OK \/ http_errno x = HPE_PAUSED)
  then Ret (with_http_errno x (if paused then HPE_PAUSED else HPE_OK))
  else Exit 134.

Definition http_body_is_final (x : http_parser) : bool := bool_decide (parser_state x = s_message_done).
