(* ===== verification/HttpUrl.v ===== *)
(** Splitting a URL into its fields: http_parser_parse_url and http_parse_host
    of http_parser.c, and why every field stays inside the URL. *)

From Stdlib Require Import Ascii.
From S2P Require Import Prelude CString HttpTypes.

Import String.StringSyntax.

(** ** Data *)

(** [http_parser_url_fields], as indices of [field_data]. *)
Definition UF_SCHEMA : nat := 0.
Definition UF_HOST : nat := 1.
Definition UF_PORT : nat := 2.
Definition UF_PATH : nat := 3.
Definition UF_QUERY : nat := 4.
Definition UF_FRAGMENT : nat := 5.
Definition UF_USERINFO : nat := 6.
Definition UF_MAX : nat := 7.

(** Offset and length of a field. *)
Record url_field := { off : Z; len : Z }.

Record http_parser_url := { field_set : Z; port : Z; field_data : list url_field }.

Definition with_field_data (u : http_parser_url) (v : list url_field) : http_parser_url :=
  {| field_set := field_set u; port := port u; field_data := v |}.
Definition with_field_set (u : http_parser_url) (v : Z) : http_parser_url :=
  {| field_set := v; port := port u; field_data := field_data u |}.
Definition with_port (u : http_parser_url) (v : Z) : http_parser_url :=
  {| field_set := field_set u; port := v; field_data := field_data u |}.

(** [http_parser_url_init(u)]. *)
Definition http_parser_url_init : http_parser_url :=
  {| field_set := 0; port := 0; field_data := replicate UF_MAX {| off := 0; len := 0 |} |}.

Definition field (u : http_parser_url) (uf : nat) : url_field := default {| off := 0; len := 0 |} (field_data u !! uf).
Definition has_field (u : http_parser_url) (uf : nat) : bool := Z.testbit (field_set u) (Z.of_nat uf).

Definition set_off (u : http_parser_url) (uf : nat) (v : Z) : http_parser_url :=
  with_field_data u (<[uf := {| off := u16 v; len := len (field u uf) |}]> (field_data u)).
Definition set_len (u : http_parser_url) (uf : nat) (v : Z) : http_parser_url :=
  with_field_data u (<[uf := {| off := off (field u uf); len := u16 v |}]> (field_data u)).
(** [u->field_set |= (1 << uf)]. *)
Definition add_field (u : http_parser_url) (uf : nat) : http_parser_url :=
  with_field_set u (u16 (field_set u .| (1 << Z.of_nat uf))).
(** [u->field_data[uf].len++]. *)
Definition longer (u : http_parser_url) (uf : nat) : http_parser_url := set_len u uf (len (field u uf) + 1).

(** ** The host *)

Inductive http_host_state :=
| s_http_host_dead
| s_http_userinfo_start
| s_http_userinfo
| s_http_host_start
| s_http_host_v6_start
| s_http_host
| s_http_host_v6
| s_http_host_v6_end
| s_http_host_v6_zone_start
| s_http_host_v6_zone
| s_http_host_port_start
| s_http_host_port.
#[global] Instance http_host_state_eq : EqDecision http_host_state.
Proof. solve_decision. Defined.

Section Url.
Context `{HttpConfig}.

Definition http_parse_host_char (s : http_host_state) (ch : Z) : http_host_state :=
  let v6_end_or_dead := if ch =? chr ":" then s_http_host_port_start else s_http_host_dead in
  let v6 := if IS_HEX ch || (ch =? chr ":") || (ch =? chr ".") then s_http_host_v6
            else if bool_decide (s = s_http_host_v6) && (ch =? chr "%") then s_http_host_v6_zone_start
            else s_http_host_dead in
  let zone := if IS_ALPHANUM ch || (ch =? chr "%") || (ch =? chr ".") || (ch =? chr "-") || (ch =? chr "_") || (ch =? chr "~")
              then s_http_host_v6_zone else s_http_host_dead in
  match s with
  | s_http_userinfo | s_http_userinfo_start =>
      if ch =? chr "@" then s_http_host_start else if IS_USERINFO_CHAR ch then s_http_userinfo else s_http_host_dead
  | s_http_host_start =>
      if ch =? chr "[" then s_http_host_v6_start else if IS_HOST_CHAR ch then s_http_host else s_http_host_dead
  | s_http_host => if IS_HOST_CHAR ch then s_http_host else v6_end_or_dead
  | s_http_host_v6_end => v6_end_or_dead
  | s_http_host_v6 => if ch =? chr "]" then s_http_host_v6_end else v6
  | s_http_host_v6_start => v6
  | s_http_host_v6_zone => if ch =? chr "]" then s_http_host_v6_end else zone
  | s_http_host_v6_zone_start => zone
  | s_http_host_port | s_http_host_port_start => if IS_NUM ch then s_http_host_port else s_http_host_dead
  | s_http_host_dead => s_http_host_dead
  end.

(** A new field at [p], or one more octet of the one under way. *)
Definition host_field (again fresh : bool) (uf : nat) (p : Z) (u : http_parser_url) : http_parser_url :=
  let u := if again then u else let u := set_off u uf p in if fresh then add_field (set_len u uf 0) uf else u in
  longer u uf.

(** [switch(new_s)]. *)
Definition host_step (s new_s : http_host_state) (p : Z) (u : http_parser_url) : http_parser_url :=
  match new_s with
  | s_http_host => host_field (bool_decide (s = s_http_host)) false UF_HOST p u
  | s_http_host_v6 => host_field (bool_decide (s = s_http_host_v6)) false UF_HOST p u
  | s_http_host_v6_zone_start | s_http_host_v6_zone => longer u UF_HOST
  | s_http_host_port => host_field (bool_decide (s = s_http_host_port)) true UF_PORT p u
  | s_http_userinfo => host_field (bool_decide (s = s_http_userinfo)) true UF_USERINFO p u
  | _ => u
  end.

(** The [for] loop on the octets of the host from [p] on; [None]: it returns. *)
Fixpoint host_loop (s : http_host_state) (p : Z) (u : http_parser_url) (rest : list Z) : http_parser_url * option http_host_state :=
  match rest with
  | [] => (u, Some s)
  | ch :: rest =>
      let new_s := http_parse_host_char s ch in
      if decide (new_s = s_http_host_dead) then (u, None)
      else host_loop new_s (p + 1) (host_step s new_s p u) rest
  end.

(** The states in which a host must not end. *)
Definition host_unfinished (s : http_host_state) : bool :=
  match s with
  | s_http_host_start | s_http_host_v6_start | s_http_host_v6 | s_http_host_v6_zone_start | s_http_host_v6_zone
  | s_http_host_port_start | s_http_userinfo | s_http_userinfo_start => true
  | _ => false
  end.

Definition http_parse_host (buf : list Z) (u : http_parser_url) (found_at : bool) : outcome (http_parser_url * Z) :=
  let host := field u UF_HOST in
  if negb (has_field u UF_HOST) then Exit 134
  else
    octets ← lift (slice buf (off host) (len host));
    match host_loop (if found_at then s_http_userinfo_start else s_http_host_start) (off host) (set_len u UF_HOST 0) octets with
    | (u, None) => Ret (u, 1)
    | (u, Some s) => Ret (u, if host_unfinished s then 1 else 0)
    end.

(** ** The URL *)

(** [switch (s)]: what a state of [parse_url_char] is for. *)
Inductive url_class := Url_dead | Url_delimiter | Url_field (uf : nat) | Url_unexpected.

Definition classify (s : state) : url_class :=
  match s with
  | s_dead => Url_dead
  | s_req_schema_slash | s_req_schema_slash_slash | s_req_server_start | s_req_query_string_start | s_req_fragment_start =>
      Url_delimiter
  | s_req_schema => Url_field UF_SCHEMA
  | s_req_server_with_at | s_req_server => Url_field UF_HOST
  | s_req_path => Url_field UF_PATH
  | s_req_query_string => Url_field UF_QUERY
  | s_req_fragment => Url_field UF_FRAGMENT
  | _ => Url_unexpected
  end.

(** An octet of field [uf] at [p]. *)
Definition url_field_step (uf old_uf : nat) (p : Z) (u : http_parser_url) : http_parser_url :=
  if Nat.eqb uf old_uf then longer u uf else add_field (set_len (set_off u uf p) uf 1) uf.

(** The [for] loop; [None]: it returns. *)
Fixpoint url_loop (s : state) (old_uf : nat) (found_at : bool) (p : Z) (u : http_parser_url) (rest : list Z)
    : outcome (http_parser_url * option bool) :=
  match rest with
  | [] => Ret (u, Some found_at)
  | ch :: rest =>
      let s := parse_url_char s ch in
      match classify s with
      | Url_dead => Ret (u, None)
      | Url_delimiter => url_loop s old_uf found_at (p + 1) u rest
      | Url_unexpected => Exit 134
      | Url_field uf =>
          url_loop s uf (found_at || bool_decide (s = s_req_server_with_at)) (p + 1) (url_field_step uf old_uf p u) rest
      end
  end.

(** The digits of the port; [None] when it is above 0xffff.  An [unsigned long]
    has 32 bits on the Raspberry Pi; no width of at least 20 bits makes a
    difference. *)
Fixpoint port_loop (v : Z) (digits : list Z) : option Z :=
  match digits with
  | [] => Some v
  | d :: digits =>
      let v := u32 (u32 (v * 10) + (d - chr "0")) in
      if 0xffff <? v then None else port_loop v digits
  end.

Definition url_port (buf : list Z) (u : http_parser_url) : outcome (http_parser_url * Z) :=
  if has_field u UF_PORT then
    let f := field u UF_PORT in
    if zlen buf <? off f + len f then Exit 134
    else
      digits ← lift (slice buf (off f) (len f));
      match port_loop 0 digits with
      | None => Ret (u, 1)
      | Some v => Ret (with_port u (u16 v), 0)
      end
  else Ret (u, 0).

(** [http_parser_parse_url(buf, buflen, is_connect, u)], [buf] being the
    [buflen] octets. *)
Definition http_parser_parse_url (buf : list Z) (is_connect : bool) (u : http_parser_url) : outcome (http_parser_url * Z) :=
  if zlen buf =? 0 then Ret (u, 1)
  else
    let u := with_field_set (with_port u 0) 0 in
    '(u, found_at) ← url_loop (if is_connect then s_req_server_start else s_req_spaces_before_url) UF_MAX false 0 u buf;
    match found_at with
    | None => Ret (u, 1)
    | Some found_at =>
        if has_field u UF_SCHEMA && negb (has_field u UF_HOST) then Ret (u, 1)
        else
          '(u, rc) ← (if has_field u UF_HOST then http_parse_host buf u found_at else Ret (u, 0));
          if negb (rc =? 0) then Ret (u, 1)
          else if is_connect && negb (field_set u =? (1 << Z.of_nat UF_HOST) .| (1 << Z.of_nat UF_PORT)) then Ret (u, 1)
          else url_port buf u
    end.

End Url.

(** ** Bounds *)

Section Bounds.
Context `{HttpConfig} (size : Z).
Hypothesis size_small : 0 <= size < 2 ^ 16.

Definition field_in (f : url_field) (p : Z) : Prop := 0 <= off f /\ 0 <= len f /\ off f + len f <= p.

(** The fields that are set lie before [p], where [later] may differ. *)
Definition fields_in (p : nat -> Z) (u : http_parser_url) : Prop :=
  length (field_data u) = UF_MAX /\ 0 <= field_set u < 2 ^ 16 /\
  forall uf, (uf < UF_MAX)%nat -> has_field u uf = true -> field_in (field u uf) (p uf).

Lemma field_insert u uf f uf' :
  length (field_data u) = UF_MAX -> (uf < UF_MAX)%nat ->
  field (with_field_data u (<[uf := f]> (field_data u))) uf' = if decide (uf = uf') then f else field u uf'.
Proof.
  intros Hl Hu. unfold field. simpl. case_decide as He.
  - subst uf'. by rewrite list_lookup_insert_eq by lia.
  - by rewrite list_lookup_insert_ne.
Qed.

Lemma has_add u uf uf' :
  (uf < UF_MAX)%nat -> (uf' < UF_MAX)%nat -> has_field (add_field u uf) uf' = has_field u uf' || bool_decide (uf = uf').
Proof.
  intros Hu Hu'. unfold has_field, add_field, wrap, UF_MAX in *. simpl.
  rewrite Z.mod_pow2_bits_low by lia. rewrite Z.lor_spec, Z.shiftl_1_l, Z.pow2_bits_eqb by lia.
  f_equal. apply eq_bool_prop_intro. rewrite !Is_true_true, Z.eqb_eq, bool_decide_eq_true. lia.
Qed.

Lemma add_small u uf : 0 <= field_set (add_field u uf) < 2 ^ 16.
Proof. unfold add_field, wrap. simpl. apply Z.mod_pos_bound. lia. Qed.

Lemma u16_small v : 0 <= v < 2 ^ 16 -> u16 v = v.
Proof. intros Hv. unfold wrap. by apply Z.mod_small. Qed.

(** One more octet in a field that is set. *)
Lemma longer_in p q u uf :
  fields_in p u -> (uf < UF_MAX)%nat -> has_field u uf = true -> p uf < size ->
  (forall uf', p uf' <= q uf') -> p uf + 1 <= q uf -> fields_in q (longer u uf).
Proof.
  intros (Hl & Hs & Hf) Hu Hh Hp Hq Hq1. unfold longer, set_len. split; [simpl; by rewrite length_insert|]. split; [done|].
  intros uf' Hu' Hh'. rewrite field_insert by done. destruct (Hf uf Hu Hh) as (Ho & Hn & Hb). case_decide as He.
  - subst uf'. unfold field_in. simpl. rewrite u16_small by lia. lia.
  - destruct (Hf uf' Hu' Hh') as (? & ? & ?). specialize (Hq uf'). unfold field_in. lia.
Qed.

(** A new field. *)
Lemma fresh_in p q u uf i n :
  fields_in p u -> (uf < UF_MAX)%nat -> 0 <= i < size -> 0 <= n <= 1 -> (forall uf', p uf' <= q uf') -> i + n <= q uf ->
  fields_in q (add_field (set_len (set_off u uf i) uf n) uf).
Proof.
  intros (Hl & Hs & Hf) Hu Hi Hn Hq Hq1. unfold set_len, set_off. split; [simpl; by rewrite !length_insert|]. split; [apply add_small|].
  intros uf' Hu' Hh'. rewrite has_add in Hh' by done. unfold add_field.
  change (field (with_field_set ?x _) uf') with (field x uf').
  rewrite field_insert by (simpl; rewrite ?length_insert; done). case_decide as He.
  - subst uf'. rewrite field_insert, decide_True by done. unfold field_in. simpl. rewrite decide_True by done. simpl.
    rewrite !u16_small by lia. lia.
  - rewrite !field_insert, !decide_False by done. rewrite bool_decide_false, orb_false_r in Hh' by done.
    destruct (Hf uf' Hu' Hh') as (? & ? & ?). specialize (Hq uf'). unfold field_in. lia.
Qed.

(** The loop over a URL. *)
Lemma classify_known s ch : classify (parse_url_char s ch) <> Url_unexpected.
Proof. unfold parse_url_char. by repeat case_match. Qed.

Lemma classify_field s uf : classify s = Url_field uf -> (uf < UF_MAX)%nat /\ uf <> UF_PORT /\ uf <> UF_USERINFO.
Proof. destruct s; simpl; intros [= <-]; unfold UF_MAX, UF_PORT, UF_USERINFO, UF_SCHEMA, UF_HOST, UF_PATH, UF_QUERY, UF_FRAGMENT; lia. Qed.

Definition only_url (u : http_parser_url) : Prop := has_field u UF_PORT = false /\ has_field u UF_USERINFO = false.

Lemma fields_in_mono p q u : (forall uf, p uf <= q uf) -> fields_in p u -> fields_in q u.
Proof.
  intros Hq (Hl & Hs & Hf). split; [done|]. split; [done|]. intros uf Hu Hh. destruct (Hf uf Hu Hh) as (? & ? & ?).
  specialize (Hq uf). unfold field_in. lia.
Qed.

Lemma has_longer u uf uf' : has_field (longer u uf) uf' = has_field u uf'.
Proof. done. Qed.

Lemma url_loop_in rest s old_uf found_at p u :
  fields_in (fun _ => p) u -> only_url u -> old_uf = UF_MAX \/ ((old_uf < UF_MAX)%nat /\ has_field u old_uf = true) ->
  0 <= p -> p + zlen rest = size ->
  exists u' r, url_loop s old_uf found_at p u rest = Ret (u', r) /\ fields_in (fun _ => size) u' /\ only_url u'.
Proof.
  revert s old_uf found_at p u. induction rest as [|ch rest IH]; intros s old_uf found_at p u Hu Ho Hold Hp Hsize.
  - exists u, (Some found_at). split; [done|]. split; [|done]. eapply fields_in_mono; [|exact Hu]. change (zlen []) with 0 in *. intros; lia.
  - cbn [url_loop]. assert (zlen (ch :: rest) = zlen rest + 1) as Hz by (unfold zlen; simpl; lia). pose proof (zlen_nonneg rest).
    assert (fields_in (fun _ => p + 1) u) as Hu1 by (eapply fields_in_mono; [|exact Hu]; intros; lia).
    pose proof (classify_known s ch) as Hk. destruct (classify _) as [| |uf|] eqn:Ec; [| | |done].
    + exists u, None. split; [done|]. split; [|done]. eapply fields_in_mono; [|exact Hu]. intros; lia.
    + apply IH; try done; lia.
    + apply classify_field in Ec as (Huf & Hnp & Hnu). unfold url_field_step. destruct (Nat.eqb_spec uf old_uf) as [<-|Hne].
      * destruct Hold as [->|[_ Hh]]; [by apply Nat.lt_irrefl in Huf|]. apply IH; try lia; [|done|by right].
        eapply longer_in; [exact Hu|done|done|lia|intros; lia|lia].
      * apply IH; try lia.
        -- eapply fresh_in; [exact Hu|done|lia|lia|intros; lia|lia].
        -- destruct Ho as [Ho1 Ho2]. unfold only_url. rewrite !has_add by (done || (unfold UF_PORT, UF_USERINFO, UF_MAX; lia)).
           change (has_field (set_len (set_off u uf p) uf 1)) with (has_field u). rewrite Ho1, Ho2.
           by rewrite !bool_decide_false.
        -- right. split; [done|]. rewrite has_add by done. by rewrite bool_decide_true, orb_true_r.
Qed.

(** Before any octet of the host. *)
Definition no_host_yet (s : http_host_state) : bool :=
  match s with
  | s_http_userinfo_start | s_http_userinfo | s_http_host_start | s_http_host_v6_start => true
  | _ => false
  end.

(** In the host the fields that it sets lie before [p], the others in the URL. *)
Definition host_bound (p : Z) (uf : nat) : Z :=
  if decide (uf = UF_HOST \/ uf = UF_PORT \/ uf = UF_USERINFO) then p else size.

Record host_ok (s : http_host_state) (p : Z) (u : http_parser_url) : Prop := {
  ho_in : fields_in (host_bound p) u;
  ho_host : has_field u UF_HOST = true;
  ho_empty : no_host_yet s = true -> len (field u UF_HOST) = 0;
  ho_port : s = s_http_host_port -> has_field u UF_PORT = true;
  ho_user : s = s_http_userinfo -> has_field u UF_USERINFO = true
}.

Lemma host_bound_mono p : p + 1 <= size -> forall uf, host_bound p uf <= host_bound (p + 1) uf.
Proof. intros Hp uf. unfold host_bound. case_decide; lia. Qed.

(** Placing a field that is set. *)
Lemma place_in p q u uf i n :
  fields_in p u -> (uf < UF_MAX)%nat -> 0 <= i < size -> 0 <= n <= 1 -> (forall uf', p uf' <= q uf') -> i + n <= q uf ->
  fields_in q (set_len (set_off u uf i) uf n).
Proof.
  intros (Hl & Hs & Hf) Hu Hi Hn Hq Hq1. unfold set_len, set_off. split; [simpl; by rewrite !length_insert|]. split; [done|].
  intros uf' Hu' Hh'. rewrite field_insert by (simpl; rewrite ?length_insert; done). case_decide as He.
  - subst uf'. rewrite field_insert, decide_True by done. unfold field_in. simpl. rewrite !u16_small by lia. lia.
  - rewrite field_insert, decide_False by done. destruct (Hf uf' Hu' Hh') as (? & ? & ?). specialize (Hq uf'). unfold field_in. lia.
Qed.

Lemma len_longer u uf uf' :
  length (field_data u) = UF_MAX -> (uf < UF_MAX)%nat -> uf <> uf' -> len (field (longer u uf) uf') = len (field u uf').
Proof. intros Hl Hu Hne. unfold longer, set_len. by rewrite field_insert, decide_False. Qed.

(** The steps on the field of the host. *)
Lemma host_again s new p u :
  host_ok s p u -> 0 <= p -> p + 1 <= size -> no_host_yet new = false -> new <> s_http_host_port -> new <> s_http_userinfo ->
  host_ok new (p + 1) (longer u UF_HOST).
Proof.
  intros [Hin Hh He Hp Hu] H0 H1 Hn Hn1 Hn2. split; try done; [|by rewrite Hn].
  eapply longer_in; [exact Hin|unfold UF_MAX, UF_HOST; lia|done|unfold host_bound; rewrite decide_True by auto; lia|by apply host_bound_mono|].
  unfold host_bound. rewrite !decide_True by auto. lia.
Qed.

Lemma host_first s new p u :
  host_ok s p u -> no_host_yet s = true -> 0 <= p -> p + 1 <= size -> no_host_yet new = false ->
  new <> s_http_host_port -> new <> s_http_userinfo -> host_ok new (p + 1) (longer (set_off u UF_HOST p) UF_HOST).
Proof.
  intros [Hin Hh He Hp Hu] Hs H0 H1 Hn Hn1 Hn2. split; try done; [|by rewrite Hn].
  unfold longer. replace (len (field (set_off u UF_HOST p) UF_HOST) + 1) with 1.
  - eapply place_in; [exact Hin|unfold UF_MAX, UF_HOST; lia|lia|lia|by apply host_bound_mono|].
    unfold host_bound. rewrite decide_True by auto. lia.
  - unfold set_off. rewrite field_insert by (apply Hin || (unfold UF_MAX, UF_HOST; lia)). rewrite decide_True by done. simpl.
    rewrite He by done. lia.
Qed.

(** The steps on the fields of port and user. *)
Lemma host_other s new p u uf :
  host_ok s p u -> uf = UF_PORT \/ uf = UF_USERINFO -> 0 <= p -> p + 1 <= size ->
  (no_host_yet new = true -> no_host_yet s = true) ->
  (new = s_http_host_port -> uf = UF_PORT) -> (new = s_http_userinfo -> uf = UF_USERINFO) ->
  (forall again : bool, (again = true -> has_field u uf = true) -> host_ok new (p + 1) (host_field again true uf p u)).
Proof.
  intros [Hin Hh He Hp Hu] Huf H0 H1 Hn Hn1 Hn2 again Hag.
  assert ((uf < UF_MAX)%nat) as Hlt by (destruct Huf as [-> | ->]; unfold UF_MAX, UF_PORT, UF_USERINFO; lia).
  assert (uf <> UF_HOST) as Hnh by (by destruct Huf as [-> | ->]).
  assert ((UF_HOST < UF_MAX)%nat) as Hh7 by (unfold UF_MAX, UF_HOST; lia).
  assert (forall q, host_bound q uf = q) as Hb by (intros q; unfold host_bound; by rewrite decide_True by (destruct Huf as [-> | ->]; auto)).
  unfold host_field.
  set (v := if again then u else _).
  assert (fields_in (host_bound p) v /\ has_field v uf = true /\ has_field v UF_HOST = true /\ len (field v UF_HOST) = len (field u UF_HOST))
    as (Hv1 & Hv2 & Hv3 & Hv4).
  { subst v. destruct again; [by auto|]. split; [|rewrite !has_add by done; split_and!].
    - eapply fresh_in; [exact Hin|done|lia|lia|done|rewrite Hb; lia].
    - by rewrite bool_decide_true, orb_true_r.
    - change (has_field _ UF_HOST) with (has_field u UF_HOST). by rewrite Hh.
    - unfold add_field, set_len, set_off. change (field (with_field_set ?x _) UF_HOST) with (field x UF_HOST).
      rewrite !field_insert by (simpl; rewrite ?length_insert; apply Hin || done). by rewrite !decide_False. }
  split.
  - eapply longer_in; [exact Hv1|done|done|rewrite Hb; lia|by apply host_bound_mono|rewrite !Hb; lia].
  - done.
  - intros Hnew. rewrite len_longer by (apply Hv1 || done). rewrite Hv4. auto.
  - intros Hnew. by rewrite <- (Hn1 Hnew).
  - intros Hnew. by rewrite <- (Hn2 Hnew).
Qed.

Lemma host_still s new p u :
  host_ok s p u -> p + 1 <= size -> (no_host_yet new = true -> no_host_yet s = true) -> new <> s_http_host_port ->
  new <> s_http_userinfo -> host_ok new (p + 1) u.
Proof.
  intros [Hin Hh He Hp Hu] H1 Hn Hn1 Hn2. split; try done; [|by auto]. eapply fields_in_mono; [|exact Hin]. by apply host_bound_mono.
Qed.

Lemma host_step_ok s ch p u :
  host_ok s p u -> 0 <= p -> p + 1 <= size -> http_parse_host_char s ch <> s_http_host_dead ->
  host_ok (http_parse_host_char s ch) (p + 1) (host_step s (http_parse_host_char s ch) p u).
Proof.
  intros Hok H0 H1. pose proof Hok as [_ _ _ Hport Huser]. unfold http_parse_host_char.
  destruct s; simpl; try done; repeat case_match; try done; intros _; simpl;
    first [by eapply host_still | by eapply host_again | by eapply host_first
          | eapply host_other; try done; auto].
Qed.

Lemma host_loop_ok rest s p u :
  host_ok s p u -> 0 <= p -> p + zlen rest <= size ->
  exists u' r, host_loop s p u rest = (u', r) /\ fields_in (fun _ => size) u'.
Proof.
  revert s p u. induction rest as [|ch rest IH]; intros s p u Hok Hp Hsize.
  - exists u, (Some s). split; [done|]. eapply fields_in_mono; [|apply Hok]. change (zlen []) with 0 in *.
    intros uf. unfold host_bound. case_decide; lia.
  - assert (zlen (ch :: rest) = zlen rest + 1) as Hz by (unfold zlen; simpl; lia). pose proof (zlen_nonneg rest).
    cbn [host_loop]. case_decide as Hd.
    + exists u, None. split; [done|]. eapply fields_in_mono; [|apply Hok]. intros uf. unfold host_bound. case_decide; lia.
    + apply IH; [apply host_step_ok; done || lia|lia|lia].
Qed.

Lemma parse_host_ok buf u found_at :
  zlen buf = size -> fields_in (fun _ => size) u -> only_url u -> has_field u UF_HOST = true ->
  exists u' rc, http_parse_host buf u found_at = Ret (u', rc) /\ fields_in (fun _ => size) u'.
Proof.
  intros Hb Hin [Hp Hu] Hh. unfold http_parse_host. rewrite Hh. cbn [negb].
  assert ((UF_HOST < UF_MAX)%nat) as Hlt by (unfold UF_MAX, UF_HOST; lia).
  destruct Hin as (Hl & Hs & Hf). destruct (Hf UF_HOST Hlt Hh) as (Ho & Hn & Hle).
  rewrite slice_Some by lia. cbn [lift mbind outcome_bind]. set (octets := take _ _).
  assert (zlen octets = len (field u UF_HOST)) as Hz by (subst octets; rewrite zlen_take, zlen_drop by lia; lia).
  destruct (host_loop_ok octets (if found_at then s_http_userinfo_start else s_http_host_start) (off (field u UF_HOST))
    (set_len u UF_HOST 0)) as (u' & r & -> & Hin'); [|lia|lia|].
  - split; [|done| |by destruct found_at|by destruct found_at].
    + unfold set_len. split; [simpl; by rewrite length_insert|]. split; [done|]. intros uf Huf Hhas.
      rewrite field_insert by done. unfold host_bound. case_decide as He.
      * subst uf. rewrite decide_True by auto. unfold field_in. simpl. change (u16 0) with 0. lia.
      * destruct (Hf uf Huf Hhas) as (? & ? & ?). case_decide as Hk; [|done]. exfalso.
        change (has_field u uf = true) in Hhas. destruct Hk as [->|[-> | ->]]; congruence.
    + intros _. unfold set_len. by rewrite field_insert, decide_True.
  - destruct r as [s'|]; eexists _, _; split; try done.
Qed.

Lemma url_port_ok buf u :
  zlen buf = size -> fields_in (fun _ => size) u ->
  exists u' rc, url_port buf u = Ret (u', rc) /\ fields_in (fun _ => size) u'.
Proof.
  intros Hb Hin. unfold url_port. destruct (has_field u UF_PORT) eqn:Hp; [|by eexists _, _].
  destruct Hin as (Hl & Hs & Hf). destruct (Hf UF_PORT) as (Ho & Hn & Hle); [unfold UF_MAX, UF_PORT; lia|done|].
  assert ((zlen buf <? off (field u UF_PORT) + len (field u UF_PORT)) = false) as -> by lia.
  rewrite slice_Some by lia. cbn [lift mbind outcome_bind]. destruct (port_loop _ _); eexists _, _; split; try done.
Qed.

End Bounds.

(** C35: Splitting a URL is safe: for every octet string shorter than 2^16, in
    both modes and with any contents of the result before, no assertion fails,
    nothing outside the string is read, and every field that is reported lies
    inside the string. *)
Theorem http_parser_parse_url_safe `{HttpConfig} buf is_connect u :
  zlen buf < 2 ^ 16 -> length (field_data u) = UF_MAX ->
  exists u' rc, http_parser_parse_url buf is_connect u = Ret (u', rc) /\
    (rc = 0 -> forall uf, (uf < UF_MAX)%nat -> has_field u' uf = true ->
       0 <= off (field u' uf) /\ 0 <= len (field u' uf) /\ off (field u' uf) + len (field u' uf) <= zlen buf).
Proof.
  intros Hlen Hdata. unfold http_parser_parse_url. destruct (zlen buf =? 0) eqn:E0; [by eexists _, _|].
  pose proof (zlen_nonneg buf). assert (0 <= zlen buf < 2 ^ 16) as Hsize by lia.
  set (u0 := with_field_set _ 0).
  destruct (url_loop_in (zlen buf) Hsize buf (if is_connect then s_req_server_start else s_req_spaces_before_url) UF_MAX false 0 u0)
    as (u1 & r & -> & Hin & Honly).
  - split; [done|]. split; [done|]. intros uf _ Hh. unfold has_field in Hh. simpl in Hh. by rewrite Z.bits_0 in Hh.
  - split; done.
  - by left.
  - lia.
  - lia.
  - cbn [mbind outcome_bind]. destruct r as [found_at|]; [|by eexists _, _].
    destruct (_ && _); [by eexists _, _|].
    assert (exists u2 rc, (if has_field u1 UF_HOST then http_parse_host buf u1 found_at else Ret (u1, 0)) = Ret (u2, rc) /\
      fields_in (fun _ => zlen buf) u2) as (u2 & rc & -> & Hin2).
    { destruct (has_field u1 UF_HOST) eqn:Eh; [by eapply parse_host_ok|by eexists _, _]. }
    cbn [mbind outcome_bind]. destruct (negb (rc =? 0)); [by eexists _, _|]. destruct (is_connect && _); [by eexists _, _|].
    destruct (url_port_ok (zlen buf) Hsize buf u2 eq_refl Hin2) as (u3 & rc3 & -> & Hin3).
    eexists _, _. split; [done|]. intros _ uf Huf Hh. destruct Hin3 as (_ & _ & Hf). by apply Hf.
Qed.

#[local] Instance lenient_build : HttpConfig := {| HTTP_PARSER_STRICT := false; max_header_size := HTTP_MAX_HEADER_SIZE |}.

(** The fields that are set, with their text. *)
Definition url_texts (buf : list Z) (u : http_parser_url) : list (nat * option (list Z)) :=
  map (fun uf => (uf, slice buf (off (field u uf)) (len (field u uf)))) (filter (fun uf => has_field u uf = true) (seq 0 UF_MAX)).

Example url_texts_ex :
  ('(u, rc) ← http_parser_parse_url (str "http://me@host:8080/a/b?c=d#e") false http_parser_url_init;
   Ret (rc, port u, url_texts (str "http://me@host:8080/a/b?c=d#e") u)) =
  Ret (0, 8080, [(UF_SCHEMA, Some (str "http")); (UF_HOST, Some (str "host")); (UF_PORT, Some (str "8080"));
                 (UF_PATH, Some (str "/a/b")); (UF_QUERY, Some (str "c=d")); (UF_FRAGMENT, Some (str "e"));
                 (UF_USERINFO, Some (str "me"))]).
Proof. by vm_compute. Qed.

Lemma http_parser_parse_url_safe_witness :
  exists u' rc, http_parser_parse_url (str "http://[::1%eth0]:80/") false http_parser_url_init = Ret (u', rc) /\
    (rc = 0 -> forall uf, (uf < UF_MAX)%nat -> has_field u' uf = true ->
       0 <= off (field u' uf) /\ 0 <= len (field u' uf) /\ off (field u' uf) + len (field u' uf) <= 21).
Proof. apply (http_parser_parse_url_safe (str "http://[::1%eth0]:80/")); by vm_compute. Defined.
