(* ===== verification/HttpParser.v ===== *)
(** The HTTP parser: http_parser_execute of http_parser.c.

    One definition per [case] of the switch.  The macros that leave the function
    or jump to a label are the constructors of [ctl]; the local variables are
    the record [frame].  The callbacks are functions on an application state
    that get the parser, may change it, and get the place of their data as an
    offset into the buffer; a failed [assert] ends the process.  The loops inside
    [s_header_field] and [s_header_value] are functions of the octets from [p]
    on. *)

From Stdlib Require Import Ascii.
From S2P Require Import Prelude CString HttpTypes.

Import String.StringSyntax.

(** ** Callbacks *)

(** The application: each callback gets its state and the parser; a data
    callback also offset and length of its data. *)
Definition http_cb (A : Type) : Type := A -> http_parser -> outcome (A * http_parser * Z).
Definition http_data_cb (A : Type) : Type := A -> http_parser -> Z -> Z -> outcome (A * http_parser * Z).

(** [http_parser_settings]; [None] is a null pointer. *)
Record http_parser_settings (A : Type) := {
  on_message_begin : option (http_cb A);
  on_url : option (http_data_cb A);
  on_status : option (http_data_cb A);
  on_header_field : option (http_data_cb A);
  on_header_value : option (http_data_cb A);
  on_headers_complete : option (http_cb A);
  on_body : option (http_data_cb A);
  on_message_complete : option (http_cb A);
  on_chunk_header : option (http_cb A);
  on_chunk_complete : option (http_cb A)
}.
Arguments on_message_begin {A}.
Arguments on_url {A}.
Arguments on_status {A}.
Arguments on_header_field {A}.
Arguments on_header_value {A}.
Arguments on_headers_complete {A}.
Arguments on_body {A}.
Arguments on_message_complete {A}.
Arguments on_chunk_header {A}.
Arguments on_chunk_complete {A}.

(** [http_parser_settings_init(settings)]. *)
Definition http_parser_settings_init (A : Type) : http_parser_settings A :=
  {| on_message_begin := None; on_url := None; on_status := None; on_header_field := None; on_header_value := None;
     on_headers_complete := None; on_body := None; on_message_complete := None; on_chunk_header := None;
     on_chunk_complete := None |}.

(** The callbacks run by [CALLBACK_NOTIFY] and by [CALLBACK_DATA]. *)
Inductive notify_cb := message_begin | message_complete | chunk_header | chunk_complete.
Inductive data_cb := header_field | header_value | url | body | status.
#[global] Instance data_cb_eq : EqDecision data_cb.
Proof. solve_decision. Defined.

Definition notify_errno (n : notify_cb) : http_errno_t :=
  match n with
  | message_begin => HPE_CB_message_begin
  | message_complete => HPE_CB_message_complete
  | chunk_header => HPE_CB_chunk_header
  | chunk_complete => HPE_CB_chunk_complete
  end.

Definition data_errno (d : data_cb) : http_errno_t :=
  match d with
  | header_field => HPE_CB_header_field
  | header_value => HPE_CB_header_value
  | url => HPE_CB_url
  | body => HPE_CB_body
  | status => HPE_CB_status
  end.

Definition on_notify {A} (s : http_parser_settings A) (n : notify_cb) : option (http_cb A) :=
  match n with
  | message_begin => on_message_begin s
  | message_complete => on_message_complete s
  | chunk_header => on_chunk_header s
  | chunk_complete => on_chunk_complete s
  end.

Definition on_data {A} (s : http_parser_settings A) (d : data_cb) : option (http_data_cb A) :=
  match d with
  | header_field => on_header_field s
  | header_value => on_header_value s
  | url => on_url s
  | body => on_body s
  | status => on_status s
  end.

(** ** The activation of the function *)

(** The parser and the application, [p_state], [nread], the marks,
    [p - data] and [lenient]. *)
Record frame (A : Type) := {
  parser : http_parser;
  app : A;
  p_state : state;
  local_nread : Z;
  header_field_mark : option Z;
  header_value_mark : option Z;
  url_mark : option Z;
  body_mark : option Z;
  status_mark : option Z;
  pos : Z;
  lenient : bool
}.
Arguments parser {A}.
Arguments app {A}.
Arguments p_state {A}.
Arguments local_nread {A}.
Arguments header_field_mark {A}.
Arguments header_value_mark {A}.
Arguments url_mark {A}.
Arguments body_mark {A}.
Arguments status_mark {A}.
Arguments pos {A}.
Arguments lenient {A}.

Definition with_parser {A} (x : frame A) (v : http_parser) : frame A :=
  {| parser := v; app := app x; p_state := p_state x; local_nread := local_nread x; header_field_mark := header_field_mark x;
     header_value_mark := header_value_mark x; url_mark := url_mark x; body_mark := body_mark x; status_mark :=
     status_mark x; pos := pos x; lenient := lenient x |}.
Definition with_app {A} (x : frame A) (v : A) : frame A :=
  {| parser := parser x; app := v; p_state := p_state x; local_nread := local_nread x; header_field_mark := header_field_mark x;
     header_value_mark := header_value_mark x; url_mark := url_mark x; body_mark := body_mark x; status_mark :=
     status_mark x; pos := pos x; lenient := lenient x |}.
Definition with_p_state {A} (x : frame A) (v : state) : frame A :=
  {| parser := parser x; app := app x; p_state := v; local_nread := local_nread x; header_field_mark := header_field_mark x;
     header_value_mark := header_value_mark x; url_mark := url_mark x; body_mark := body_mark x; status_mark :=
     status_mark x; pos := pos x; lenient := lenient x |}.
Definition with_local_nread {A} (x : frame A) (v : Z) : frame A :=
  {| parser := parser x; app := app x; p_state := p_state x; local_nread := v; header_field_mark := header_field_mark x;
     header_value_mark := header_value_mark x; url_mark := url_mark x; body_mark := body_mark x; status_mark :=
     status_mark x; pos := pos x; lenient := lenient x |}.
Definition with_header_field_mark {A} (x : frame A) (v : option Z) : frame A :=
  {| parser := parser x; app := app x; p_state := p_state x; local_nread := local_nread x; header_field_mark := v;
     header_value_mark := header_value_mark x; url_mark := url_mark x; body_mark := body_mark x; status_mark :=
     status_mark x; pos := pos x; lenient := lenient x |}.
Definition with_header_value_mark {A} (x : frame A) (v : option Z) : frame A :=
  {| parser := parser x; app := app x; p_state := p_state x; local_nread := local_nread x; header_field_mark :=
     header_field_mark x; header_value_mark := v; url_mark := url_mark x; body_mark := body_mark x; status_mark :=
     status_mark x; pos := pos x; lenient := lenient x |}.
Definition with_url_mark {A} (x : frame A) (v : option Z) : frame A :=
  {| parser := parser x; app := app x; p_state := p_state x; local_nread := local_nread x; header_field_mark :=
     header_field_mark x; header_value_mark := header_value_mark x; url_mark := v; body_mark := body_mark x;
     status_mark := status_mark x; pos := pos x; lenient := lenient x |}.
Definition with_body_mark {A} (x : frame A) (v : option Z) : frame A :=
  {| parser := parser x; app := app x; p_state := p_state x; local_nread := local_nread x; header_field_mark :=
     header_field_mark x; header_value_mark := header_value_mark x; url_mark := url_mark x; body_mark := v;
     status_mark := status_mark x; pos := pos x; lenient := lenient x |}.
Definition with_status_mark {A} (x : frame A) (v : option Z) : frame A :=
  {| parser := parser x; app := app x; p_state := p_state x; local_nread := local_nread x; header_field_mark :=
     header_field_mark x; header_value_mark := header_value_mark x; url_mark := url_mark x; body_mark := body_mark
     x; status_mark := v; pos := pos x; lenient := lenient x |}.
Definition with_pos {A} (x : frame A) (v : Z) : frame A :=
  {| parser := parser x; app := app x; p_state := p_state x; local_nread := local_nread x; header_field_mark :=
     header_field_mark x; header_value_mark := header_value_mark x; url_mark := url_mark x; body_mark := body_mark
     x; status_mark := status_mark x; pos := v; lenient := lenient x |}.

Definition mark_of {A} (x : frame A) (d : data_cb) : option Z :=
  match d with
  | header_field => header_field_mark x
  | header_value => header_value_mark x
  | url => url_mark x
  | body => body_mark x
  | status => status_mark x
  end.

Definition set_mark {A} (x : frame A) (d : data_cb) (v : option Z) : frame A :=
  match d with
  | header_field => with_header_field_mark x v
  | header_value => with_header_value_mark x v
  | url => with_url_mark x v
  | body => with_body_mark x v
  | status => with_status_mark x v
  end.

(** How a statement ends: with a value, with [goto error], or with a return. *)
Inductive ctl (X : Type) :=
| Next (x : X)
| Goto_error
| Return (v : Z).
Arguments Next {X} x.
Arguments Goto_error {X}.
Arguments Return {X} v.

Definition exec (A X : Type) : Type := frame A -> outcome (frame A * ctl X).

#[global] Instance exec_ret A : MRet (exec A) := fun X x f => Ret (f, Next x).

#[global] Instance exec_bind A : MBind (exec A) := fun X Y k m f =>
  match m f with
  | Ret (f, Next x) => k x f
  | Ret (f, Goto_error) => Ret (f, Goto_error)
  | Ret (f, Return v) => Ret (f, Return v)
  | Exit c => Exit c
  | Undef => Undef
  | Blocked => Blocked
  end.

(** How a case of the switch ends: [break], or [goto reexecute] with the
    character at hand. *)
Inductive jump := Break | Reexecute (ch : Z).

Section Execute.
Context `{HttpConfig} {A : Type} (settings : http_parser_settings A).
Context (data : list Z).

Definition get {X} (g : frame A -> X) : exec A X := fun f => Ret (f, Next (g f)).
Definition modify (g : frame A -> frame A) : exec A unit := fun f => Ret (g f, Next tt).
Definition update (g : http_parser -> http_parser) : exec A unit := modify (fun f => with_parser f (g (parser f))).
Definition assert (b : bool) : exec A unit := fun f => if b then Ret (f, Next tt) else Exit 134.

Definition goto_error {X} : exec A X := fun f => Ret (f, Goto_error).
Definition return_ {X} (v : Z) : exec A X := fun f => Ret (f, Return v).

(** The call itself. *)
Definition enter (call : A -> http_parser -> outcome (A * http_parser * Z)) : exec A Z := fun f =>
  '(a, x, rc) ← call (app f) (parser f); Ret (with_app (with_parser f x) a, Next rc).

(** ** The macros *)

Definition SET_ERRNO (e : http_errno_t) : exec A unit :=
  modify (fun f => with_parser f (with_http_errno (with_nread (parser f) (local_nread f)) e)).

(** [SET_ERRNO(e); goto error]. *)
Definition fail {X} (e : http_errno_t) : exec A X := SET_ERRNO e;; goto_error.

Definition UPDATE_STATE (s : state) : exec A unit := modify (fun f => with_p_state f s).

Definition RETURN {X} (v : Z) : exec A X := fun f =>
  Ret (with_parser f (with_parser_state (with_nread (parser f) (local_nread f)) (p_state f)), Return v).

(** A callback: [parser->state] is stored before the call and loaded after it;
    an error of the callback, or a pause, ends the function with [er]. *)
Definition run_callback (e : http_errno_t) (call : A -> http_parser -> outcome (A * http_parser * Z)) (er : Z)
    : exec A unit :=
  modify (fun f => with_parser f (with_parser_state (parser f) (p_state f)));;
  rc ← enter call;
  (if negb (rc =? 0) then SET_ERRNO e else mret tt);;
  modify (fun f => with_p_state f (parser_state (parser f)));;
  x ← get parser;
  if decide (http_errno x = HPE_OK) then mret tt else return_ er.

Definition CALLBACK_NOTIFY_ (n : notify_cb) (er : Z) : exec A unit :=
  x ← get parser;
  assert (bool_decide (http_errno x = HPE_OK));;
  match on_notify settings n with
  | Some cb => run_callback (notify_errno n) cb er
  | None => mret tt
  end.

Definition CALLBACK_NOTIFY (n : notify_cb) : exec A unit := i ← get pos; CALLBACK_NOTIFY_ n (i + 1).
Definition CALLBACK_NOTIFY_NOADVANCE (n : notify_cb) : exec A unit := i ← get pos; CALLBACK_NOTIFY_ n i.

(** [CALLBACK_DATA_(d, at - mark, er)], where the data ends at [at]. *)
Definition CALLBACK_DATA_ (d : data_cb) (at_ er : Z) : exec A unit :=
  x ← get parser;
  assert (bool_decide (http_errno x = HPE_OK));;
  mark ← get (fun f => mark_of f d);
  match mark with
  | None => mret tt
  | Some m =>
      match on_data settings d with
      | Some cb => run_callback (data_errno d) (fun a ps => cb a ps m (at_ - m)) er
      | None => mret tt
      end;;
      modify (fun f => set_mark f d None)
  end.

Definition CALLBACK_DATA (d : data_cb) : exec A unit := i ← get pos; CALLBACK_DATA_ d i (i + 1).
Definition CALLBACK_DATA_NOADVANCE (d : data_cb) : exec A unit := i ← get pos; CALLBACK_DATA_ d i i.

Definition MARK (d : data_cb) : exec A unit :=
  modify (fun f => match mark_of f d with None => set_mark f d (Some (pos f)) | Some _ => f end).

Definition COUNT_HEADER_SIZE (v : Z) : exec A unit :=
  modify (fun f => with_local_nread f (u32 (local_nread f + u32 v)));;
  n ← get local_nread;
  if max_header_size <? n then fail HPE_HEADER_OVERFLOW else mret tt.

Definition STRICT_CHECK (cond : bool) : exec A unit :=
  if HTTP_PARSER_STRICT && cond then fail HPE_STRICT else mret tt.

Definition start_state (x : http_parser) : state := if decide (type x = HTTP_REQUEST) then s_start_req else s_start_res.

Definition NEW_MESSAGE (x : http_parser) : state :=
  if HTTP_PARSER_STRICT then if http_should_keep_alive x then start_state x else s_dead else start_state x.

Definition break : exec A jump := mret Break.

(** A case that only moves on to [s]. *)
Definition goes_to (s : state) : exec A jump := UPDATE_STATE s;; break.

(** ** Start of a message *)

Definition case_dead (ch : Z) : exec A jump :=
  if (ch =? CR) || (ch =? LF) then break else fail HPE_CLOSED_CONNECTION.

(** What every start state does first. *)
Definition begin_message : exec A unit := update (fun x => with_content_length (with_flags x 0) ULLONG_MAX).

Definition case_start_req_or_res (ch : Z) : exec A jump :=
  if (ch =? CR) || (ch =? LF) then break
  else
    begin_message;;
    if ch =? chr "H" then UPDATE_STATE s_res_or_resp_H;; CALLBACK_NOTIFY message_begin;; break
    else update (fun x => with_type x HTTP_REQUEST);; UPDATE_STATE s_start_req;; mret (Reexecute ch).

Definition case_res_or_resp_H (ch : Z) : exec A jump :=
  if ch =? chr "T" then update (fun x => with_type x HTTP_RESPONSE);; goes_to s_res_HT
  else if negb (ch =? chr "E") then fail HPE_INVALID_CONSTANT
  else
    update (fun x => with_index (with_method (with_type x HTTP_REQUEST) HTTP_HEAD) 2);;
    goes_to s_req_method.

Definition case_start_res (ch : Z) : exec A jump :=
  if (ch =? CR) || (ch =? LF) then break
  else
    begin_message;;
    if ch =? chr "H" then UPDATE_STATE s_res_H;; CALLBACK_NOTIFY message_begin;; break
    else fail HPE_INVALID_CONSTANT.

(** The letters of "HTTP/" and "ICE/". *)
Definition case_letter (c : Z) (s : state) (ch : Z) : exec A jump := STRICT_CHECK (negb (ch =? c));; goes_to s.

(** ** The status line *)

Definition case_major (s : state) (ch : Z) : exec A jump :=
  if negb (IS_NUM ch) then fail HPE_INVALID_VERSION
  else update (fun x => with_http_major x (ch - chr "0"));; goes_to s.

Definition case_dot (s : state) (ch : Z) : exec A jump :=
  if negb (ch =? chr ".") then fail HPE_INVALID_VERSION else goes_to s.

Definition case_minor (s : state) (ch : Z) : exec A jump :=
  if negb (IS_NUM ch) then fail HPE_INVALID_VERSION
  else update (fun x => with_http_minor x (ch - chr "0"));; goes_to s.

Definition case_res_http_end (ch : Z) : exec A jump :=
  if negb (ch =? chr " ") then fail HPE_INVALID_VERSION else goes_to s_res_first_status_code.

Definition case_res_first_status_code (ch : Z) : exec A jump :=
  if negb (IS_NUM ch) then if ch =? chr " " then break else fail HPE_INVALID_STATUS
  else update (fun x => with_status_code x (ch - chr "0"));; goes_to s_res_status_code.

Definition case_res_status_code (ch : Z) : exec A jump :=
  if negb (IS_NUM ch) then
    if ch =? chr " " then goes_to s_res_status_start
    else if (ch =? CR) || (ch =? LF) then UPDATE_STATE s_res_status_start;; mret (Reexecute ch)
    else fail HPE_INVALID_STATUS
  else
    update (fun x => with_status_code x (u16 (u16 (status_code x * 10) + (ch - chr "0"))));;
    x ← get parser;
    if 999 <? status_code x then fail HPE_INVALID_STATUS else break.

Definition case_res_status_start (ch : Z) : exec A jump :=
  MARK status;;
  UPDATE_STATE s_res_status;;
  update (fun x => with_index x 0);;
  if (ch =? CR) || (ch =? LF) then mret (Reexecute ch) else break.

Definition case_res_status (ch : Z) : exec A jump :=
  if ch =? CR then UPDATE_STATE s_res_line_almost_done;; CALLBACK_DATA status;; break
  else if ch =? LF then UPDATE_STATE s_header_field_start;; CALLBACK_DATA status;; break
  else break.

(** ** The request line *)

(** The method for the first letter. *)
Definition first_method (ch : Z) : option http_method :=
  if ch =? chr "A" then Some HTTP_ACL
  else if ch =? chr "B" then Some HTTP_BIND
  else if ch =? chr "C" then Some HTTP_CONNECT
  else if ch =? chr "D" then Some HTTP_DELETE
  else if ch =? chr "G" then Some HTTP_GET
  else if ch =? chr "H" then Some HTTP_HEAD
  else if ch =? chr "L" then Some HTTP_LOCK
  else if ch =? chr "M" then Some HTTP_MKCOL
  else if ch =? chr "N" then Some HTTP_NOTIFY
  else if ch =? chr "O" then Some HTTP_OPTIONS
  else if ch =? chr "P" then Some HTTP_POST
  else if ch =? chr "R" then Some HTTP_REPORT
  else if ch =? chr "S" then Some HTTP_SUBSCRIBE
  else if ch =? chr "T" then Some HTTP_TRACE
  else if ch =? chr "U" then Some HTTP_UNLOCK
  else None.

Definition case_start_req (ch : Z) : exec A jump :=
  if (ch =? CR) || (ch =? LF) then break
  else
    begin_message;;
    if negb (IS_ALPHA ch) then fail HPE_INVALID_METHOD
    else
      update (fun x => with_index (with_method x HTTP_DELETE) 1);;
      match first_method ch with
      | None => fail HPE_INVALID_METHOD
      | Some m =>
          update (fun x => with_method x m);;
          UPDATE_STATE s_req_method;;
          CALLBACK_NOTIFY message_begin;;
          break
      end.

(** [switch (parser->method << 16 | parser->index << 8 | ch)]. *)
Definition next_method (m : http_method) (i ch : Z) : option http_method :=
  match m with
  | HTTP_POST =>
      if i =? 1 then
        if ch =? chr "U" then Some HTTP_PUT
        else if ch =? chr "A" then Some HTTP_PATCH
        else if ch =? chr "R" then Some HTTP_PROPFIND
        else None
      else None
  | HTTP_PUT => if (i =? 2) && (ch =? chr "R") then Some HTTP_PURGE else None
  | HTTP_CONNECT =>
      if (i =? 1) && (ch =? chr "H") then Some HTTP_CHECKOUT
      else if (i =? 2) && (ch =? chr "P") then Some HTTP_COPY
      else None
  | HTTP_MKCOL =>
      if i =? 1 then
        if ch =? chr "O" then Some HTTP_MOVE
        else if ch =? chr "E" then Some HTTP_MERGE
        else if ch =? chr "-" then Some HTTP_MSEARCH
        else None
      else if (i =? 2) && (ch =? chr "A") then Some HTTP_MKACTIVITY
      else if (i =? 3) && (ch =? chr "A") then Some HTTP_MKCALENDAR
      else None
  | HTTP_SUBSCRIBE =>
      if i =? 1 then
        if ch =? chr "E" then Some HTTP_SEARCH else if ch =? chr "O" then Some HTTP_SOURCE else None
      else None
  | HTTP_REPORT => if (i =? 2) && (ch =? chr "B") then Some HTTP_REBIND else None
  | HTTP_PROPFIND => if (i =? 4) && (ch =? chr "P") then Some HTTP_PROPPATCH else None
  | HTTP_LOCK => if (i =? 1) && (ch =? chr "I") then Some HTTP_LINK else None
  | HTTP_UNLOCK =>
      if (i =? 2) && (ch =? chr "S") then Some HTTP_UNSUBSCRIBE
      else if (i =? 2) && (ch =? chr "B") then Some HTTP_UNBIND
      else if (i =? 3) && (ch =? chr "I") then Some HTTP_UNLINK
      else None
  | _ => None
  end.

(** [parser->index + 1] in its seven bits. *)
Definition index_succ (x : http_parser) : http_parser := with_index x (wrap 7 (index x + 1)).

(** [s[i]], the terminator included. *)
Definition char_at (s : list Z) (i : Z) : exec A Z := fun f =>
  c ← lift (aget (s ++ [0]) i); Ret (f, Next c).

Definition case_req_method (ch : Z) : exec A jump :=
  if ch =? 0 then fail HPE_INVALID_METHOD
  else
    x ← get parser;
    m ← char_at (method_strings (method x)) (index x);
    (if (ch =? chr " ") && (m =? 0) then UPDATE_STATE s_req_spaces_before_url
     else if ch =? m then mret tt
     else if ((chr "A" <=? ch) && (ch <=? chr "Z")) || (ch =? chr "-") then
       match next_method (method x) (index x) ch with
       | Some m => update (fun x => with_method x m)
       | None => fail HPE_INVALID_METHOD
       end
     else fail HPE_INVALID_METHOD);;
    update index_succ;;
    break.

(** [UPDATE_STATE(parse_url_char(CURRENT_STATE(), ch))] and the test for
    [s_dead]. *)
Definition url_char (ch : Z) : exec A unit :=
  s ← get p_state;
  UPDATE_STATE (parse_url_char s ch);;
  if decide (parse_url_char s ch = s_dead) then fail HPE_INVALID_URL else mret tt.

Definition case_req_spaces_before_url (ch : Z) : exec A jump :=
  if ch =? chr " " then break
  else
    MARK url;;
    x ← get parser;
    (if decide (method x = HTTP_CONNECT) then UPDATE_STATE s_req_server_start else mret tt);;
    url_char ch;;
    break.

(** [s_req_schema] to [s_req_server_start]. *)
Definition case_req_schema (ch : Z) : exec A jump :=
  if (ch =? chr " ") || (ch =? CR) || (ch =? LF) then fail HPE_INVALID_URL else url_char ch;; break.

(** [s_req_server] to [s_req_fragment]. *)
Definition case_req_url (ch : Z) : exec A jump :=
  if ch =? chr " " then UPDATE_STATE s_req_http_start;; CALLBACK_DATA url;; break
  else if (ch =? CR) || (ch =? LF) then
    update (fun x => with_http_minor (with_http_major x 0) 9);;
    UPDATE_STATE (if ch =? CR then s_req_line_almost_done else s_header_field_start);;
    CALLBACK_DATA url;;
    break
  else url_char ch;; break.

Definition case_req_http_start (ch : Z) : exec A jump :=
  x ← get parser;
  if ch =? chr " " then break
  else if ch =? chr "H" then goes_to s_req_http_H
  else if (ch =? chr "I") && bool_decide (method x = HTTP_SOURCE) then goes_to s_req_http_I
  else fail HPE_INVALID_CONSTANT.

Definition case_req_http_end (ch : Z) : exec A jump :=
  if ch =? CR then goes_to s_req_line_almost_done
  else if ch =? LF then goes_to s_header_field_start
  else fail HPE_INVALID_VERSION.

Definition case_req_line_almost_done (ch : Z) : exec A jump :=
  if negb (ch =? LF) then fail HPE_LF_EXPECTED else goes_to s_header_field_start.

(** ** Header fields *)

Definition case_header_field_start (ch : Z) : exec A jump :=
  if ch =? CR then goes_to s_headers_almost_done
  else if ch =? LF then UPDATE_STATE s_headers_almost_done;; mret (Reexecute ch)
  else
    let c := TOKEN ch in
    if c =? 0 then fail HPE_INVALID_HEADER_TOKEN
    else
      MARK header_field;;
      update (fun x => with_index x 0);;
      UPDATE_STATE s_header_field;;
      update (fun x => with_header_state x
        (if c =? chr "c" then h_C
         else if c =? chr "p" then h_matching_proxy_connection
         else if c =? chr "t" then h_matching_transfer_encoding
         else if c =? chr "u" then h_matching_upgrade
         else h_general));;
      break.

(** One letter of a name: matched up to [i], [c] is the next letter. *)
Definition match_name (name : list Z) (self full other : header_states) (i c : Z) : header_states :=
  if (zlen name <? i) || negb (c =? znth (name ++ [0]) i) then other
  else if i =? zlen name - 1 then full
  else self.

Definition CONNECTION : list Z := str "connection".
Definition PROXY_CONNECTION : list Z := str "proxy-connection".
Definition CONTENT_LENGTH : list Z := str "content-length".
Definition TRANSFER_ENCODING : list Z := str "transfer-encoding".
Definition UPGRADE : list Z := str "upgrade".
Definition CHUNKED : list Z := str "chunked".
Definition KEEP_ALIVE : list Z := str "keep-alive".
Definition CLOSE : list Z := str "close".

(** [switch (parser->header_state)] for a character of a field other than in
    [h_general]: the new header state and index; [None] is the failed
    assertion. *)
Definition field_char (hs : header_states) (i c ch : Z) : option (header_states * Z) :=
  let i' := wrap 7 (i + 1) in
  match hs with
  | h_C => Some (if c =? chr "o" then h_CO else h_general, i')
  | h_CO => Some (if c =? chr "n" then h_CON else h_general, i')
  | h_CON =>
      Some (if c =? chr "n" then h_matching_connection
            else if c =? chr "t" then h_matching_content_length
            else h_general, i')
  | h_matching_connection => Some (match_name CONNECTION hs h_connection h_general i' c, i')
  | h_matching_proxy_connection => Some (match_name PROXY_CONNECTION hs h_connection h_general i' c, i')
  | h_matching_content_length => Some (match_name CONTENT_LENGTH hs h_content_length h_general i' c, i')
  | h_matching_transfer_encoding => Some (match_name TRANSFER_ENCODING hs h_transfer_encoding h_general i' c, i')
  | h_matching_upgrade => Some (match_name UPGRADE hs h_upgrade h_general i' c, i')
  | h_connection | h_content_length | h_transfer_encoding | h_upgrade =>
      Some (if negb (ch =? chr " ") then h_general else hs, i)
  | _ => None
  end.

(** [while (p+1 < pe && TOKEN(p[1])) p++]: the steps, of at most [n]. *)
Fixpoint skip_tokens (n : nat) (rest : list Z) : nat :=
  match n, rest with
  | S n, ch :: rest => if TOKEN ch =? 0 then O else S (skip_tokens n rest)
  | _, _ => O
  end.

(** The [for] loop over the characters of a field: header state, index and the
    octets from [p] on when it ends. *)
Fixpoint field_loop (fuel : nat) (hs : header_states) (i : Z) (rest : list Z)
    : outcome (header_states * Z * list Z) :=
  match fuel, rest with
  | O, _ => Undef
  | S _, [] => Ret (hs, i, [])
  | S fuel, ch :: r =>
      let c := TOKEN ch in
      if c =? 0 then Ret (hs, i, rest)
      else if decide (hs = h_general) then
        let left := zlen rest in
        field_loop fuel hs i (drop (skip_tokens (Z.to_nat (Z.min left max_header_size) - 1) r) r)
      else
        match field_char hs i c ch with
        | Some (hs, i) => field_loop fuel hs i r
        | None => Exit 134
        end
  end.

(** The octets from [p] on. *)
Definition rest_of (f : frame A) : list Z := drop (Z.to_nat (pos f)) data.

(** [p = data + len - |rest|]. *)
Definition move_to (rest : list Z) : exec A unit := modify (fun f => with_pos f (zlen data - zlen rest)).

Definition of_outcome {X} (o : outcome X) : exec A X := fun f => x ← o; Ret (f, Next x).

Definition case_header_field : exec A jump :=
  start ← get pos;
  rest ← get rest_of;
  x ← get parser;
  '(hs, i, rest) ← of_outcome (field_loop (S (length rest)) (header_state x) (index x) rest);
  update (fun x => with_index (with_header_state x hs) i);;
  move_to rest;;
  match rest with
  | [] =>
      modify (fun f => with_pos f (pos f - 1));;
      p ← get pos;
      COUNT_HEADER_SIZE (p - start);;
      break
  | ch :: _ =>
      p ← get pos;
      COUNT_HEADER_SIZE (p - start);;
      if ch =? chr ":" then UPDATE_STATE s_header_value_discard_ws;; CALLBACK_DATA header_field;; break
      else fail HPE_INVALID_HEADER_TOKEN
  end.

(** ** Header values *)

(** [parser->content_length] extended by a digit in base [b]; [None] when the
    source's conservative test says that it overflows. *)
Definition more_digits (b n digit : Z) : option Z :=
  if (ULLONG_MAX - b) / b <? n then None else Some (u64 (u64 (n * b) + digit)).

(** A step in a value: the new [h_state] and parser, or an error with the
    [h_state] that is stored. *)
Inductive value_step :=
| Value_next (hs : header_states) (x : http_parser)
| Value_bad (hs : header_states).

(** The digits of a content length. *)
Definition content_length_char (x : http_parser) (ch : Z) : value_step :=
  if ch =? chr " " then Value_next h_content_length_ws x
  else if negb (IS_NUM ch) then Value_bad h_content_length_num
  else
    match more_digits 10 (content_length x) (ch - chr "0") with
    | None => Value_bad h_content_length_num
    | Some n => Value_next h_content_length_num (with_content_length x n)
    end.

(** The flag of a complete connection token. *)
Definition connection_flag (hs : header_states) (x : http_parser) : http_parser :=
  match hs with
  | h_connection_keep_alive => set_flag x F_CONNECTION_KEEP_ALIVE
  | h_connection_close => set_flag x F_CONNECTION_CLOSE
  | h_connection_upgrade => set_flag x F_CONNECTION_UPGRADE
  | _ => x
  end.

(** [switch (h_state)] for a character of a value other than in [h_general];
    [None] is the failed assertion. *)
Definition value_char (hs : header_states) (x : http_parser) (ch : Z) : option value_step :=
  let c := LOWER ch in
  let matched name full other :=
    let x := index_succ x in Some (Value_next (match_name name hs full other (index x) c) x) in
  match hs with
  | h_connection | h_transfer_encoding => None
  | h_content_length => Some (if ch =? chr " " then Value_next hs x else content_length_char x ch)
  | h_content_length_num => Some (content_length_char x ch)
  | h_content_length_ws => Some (if ch =? chr " " then Value_next hs x else Value_bad hs)
  | h_matching_transfer_encoding_chunked => matched CHUNKED h_transfer_encoding_chunked h_general
  | h_matching_connection_token_start =>
      Some (Value_next
        (if c =? chr "k" then h_matching_connection_keep_alive
         else if c =? chr "c" then h_matching_connection_close
         else if c =? chr "u" then h_matching_connection_upgrade
         else if negb (STRICT_TOKEN c =? 0) then h_matching_connection_token
         else if (c =? chr " ") || (c =? 9) then hs
         else h_general) x)
  | h_matching_connection_keep_alive => matched KEEP_ALIVE h_connection_keep_alive h_matching_connection_token
  | h_matching_connection_close => matched CLOSE h_connection_close h_matching_connection_token
  | h_matching_connection_upgrade => matched UPGRADE h_connection_upgrade h_matching_connection_token
  | h_matching_connection_token =>
      Some (if ch =? chr "," then Value_next h_matching_connection_token_start (with_index x 0) else Value_next hs x)
  | h_transfer_encoding_chunked => Some (Value_next (if negb (ch =? chr " ") then h_general else hs) x)
  | h_connection_keep_alive | h_connection_close | h_connection_upgrade =>
      Some (if ch =? chr "," then Value_next h_matching_connection_token_start (with_index (connection_flag hs x) 0)
            else Value_next (if negb (ch =? chr " ") then h_matching_connection_token else hs) x)
  | _ => Some (Value_next h_general x)
  end.

(** The inner loop of [h_general], over at most [n] characters: stopped before
    a line end, at a bad character, or at the limit. *)
Inductive value_scan :=
| Scan_stop (k : nat)
| Scan_bad (k : nat)
| Scan_limit.

Fixpoint scan_value (lenient : bool) (n k : nat) (rest : list Z) : value_scan :=
  match n, rest with
  | S n, ch :: rest =>
      if (ch =? CR) || (ch =? LF) then Scan_stop k
      else if negb lenient && negb (IS_HEADER_CHAR ch) then Scan_bad k
      else scan_value lenient n (S k) rest
  | _, _ => Scan_limit
  end.

(** How the [for] loop over a value ends: at the end of the data, at a line
    end, or with an error after which [h_state] is stored or not. *)
Inductive value_end :=
| Value_end
| Value_line
| Value_error (e : http_errno_t) (stored : bool).

(** The [for] loop over the characters of a value: how it ends, [h_state], the
    parser and the octets from [p] on. *)
Fixpoint value_loop (fuel : nat) (lenient : bool) (hs : header_states) (x : http_parser) (rest : list Z)
    : outcome (value_end * header_states * http_parser * list Z) :=
  match fuel, rest with
  | O, _ => Undef
  | S _, [] => Ret (Value_end, hs, x, [])
  | S fuel, ch :: r =>
      if (ch =? CR) || (ch =? LF) then Ret (Value_line, hs, x, rest)
      else if negb lenient && negb (IS_HEADER_CHAR ch) then Ret (Value_error HPE_INVALID_HEADER_TOKEN false, hs, x, rest)
      else if decide (hs = h_general) then
        let n := Z.to_nat (Z.min (zlen rest) max_header_size) in
        match scan_value lenient n 0 rest with
        | Scan_stop k => value_loop fuel lenient hs x (drop k rest)
        | Scan_bad k => Ret (Value_error HPE_INVALID_HEADER_TOKEN false, hs, x, drop k rest)
        | Scan_limit => value_loop fuel lenient hs x (drop (if Nat.eqb n (length rest) then n else S n) rest)
        end
      else
        match value_char hs x ch with
        | None => Exit 134
        | Some (Value_bad hs) => Ret (Value_error HPE_INVALID_CONTENT_LENGTH true, hs, x, rest)
        | Some (Value_next hs x) => value_loop fuel lenient hs x r
        end
  end.

Definition case_header_value : exec A jump :=
  start ← get pos;
  rest ← get rest_of;
  x ← get parser;
  lenient ← get lenient;
  '(e, hs, x, rest) ← of_outcome (value_loop (S (length rest)) lenient (header_state x) x rest);
  update (fun _ => x);;
  move_to rest;;
  p ← get pos;
  match e, rest with
  | Value_error e stored, _ =>
      SET_ERRNO e;; (if (stored : bool) then update (fun x => with_header_state x hs) else mret tt);; goto_error
  | Value_line, ch :: _ =>
      if ch =? CR then
        UPDATE_STATE s_header_almost_done;;
        update (fun x => with_header_state x hs);;
        CALLBACK_DATA header_value;;
        update (fun x => with_header_state x hs);;
        COUNT_HEADER_SIZE (p - start);;
        break
      else
        UPDATE_STATE s_header_almost_done;;
        COUNT_HEADER_SIZE (p - start);;
        update (fun x => with_header_state x hs);;
        CALLBACK_DATA_NOADVANCE header_value;;
        mret (Reexecute ch)
  | _, _ =>
      update (fun x => with_header_state x hs);;
      modify (fun f => with_pos f (pos f - 1));;
      COUNT_HEADER_SIZE (p - 1 - start);;
      break
  end.

(** The first character of a value; an error for a bad content length. *)
Definition start_value (x : http_parser) (ch : Z) : http_errno_t + http_parser :=
  let c := LOWER ch in
  match header_state x with
  | h_upgrade => inr (with_header_state (set_flag x F_UPGRADE) h_general)
  | h_transfer_encoding =>
      inr (with_header_state x (if c =? chr "c" then h_matching_transfer_encoding_chunked else h_general))
  | h_content_length =>
      if negb (IS_NUM ch) then inl HPE_INVALID_CONTENT_LENGTH
      else if has_flag x F_CONTENTLENGTH then inl HPE_UNEXPECTED_CONTENT_LENGTH
      else inr (with_header_state (with_content_length (set_flag x F_CONTENTLENGTH) (ch - chr "0")) h_content_length_num)
  | h_content_length_ws => inr x
  | h_connection =>
      inr (with_header_state x
        (if c =? chr "k" then h_matching_connection_keep_alive
         else if c =? chr "c" then h_matching_connection_close
         else if c =? chr "u" then h_matching_connection_upgrade
         else h_matching_connection_token))
  | h_matching_connection_token_start => inr x
  | _ => inr (with_header_state x h_general)
  end.

Definition case_header_value_start (ch : Z) : exec A jump :=
  MARK header_value;;
  UPDATE_STATE s_header_value;;
  update (fun x => with_index x 0);;
  x ← get parser;
  match start_value x ch with
  | inl e => fail e
  | inr x => update (fun _ => x);; break
  end.

Definition case_header_value_discard_ws (ch : Z) : exec A jump :=
  if (ch =? chr " ") || (ch =? 9) then break
  else if ch =? CR then goes_to s_header_value_discard_ws_almost_done
  else if ch =? LF then goes_to s_header_value_discard_lws
  else case_header_value_start ch.

Definition case_header_almost_done (ch : Z) : exec A jump :=
  if negb (ch =? LF) then fail HPE_LF_EXPECTED else goes_to s_header_value_lws.

(** The flag that a finished value sets. *)
Definition value_flag (x : http_parser) : http_parser :=
  match header_state x with
  | h_transfer_encoding_chunked => set_flag x F_CHUNKED
  | hs => connection_flag hs x
  end.

Definition case_header_value_lws (ch : Z) : exec A jump :=
  if (ch =? chr " ") || (ch =? 9) then
    update (fun x => if decide (header_state x = h_content_length_num) then with_header_state x h_content_length_ws else x);;
    UPDATE_STATE s_header_value_start;;
    mret (Reexecute ch)
  else
    update value_flag;;
    UPDATE_STATE s_header_field_start;;
    mret (Reexecute ch).

Definition case_header_value_discard_lws (ch : Z) : exec A jump :=
  if (ch =? chr " ") || (ch =? 9) then goes_to s_header_value_discard_ws
  else
    x ← get parser;
    if decide (header_state x = h_content_length) then fail HPE_INVALID_CONTENT_LENGTH
    else
      update value_flag;;
      MARK header_value;;
      UPDATE_STATE s_header_field_start;;
      CALLBACK_DATA_NOADVANCE header_value;;
      mret (Reexecute ch).

(** ** The end of the headers *)

(** [parser->upgrade], for the callback to see. *)
Definition set_upgrade (x : http_parser) : http_parser :=
  with_upgrade x
    (if has_flag x F_UPGRADE && has_flag x F_CONNECTION_UPGRADE
     then bool_decide (type x = HTTP_REQUEST) || (status_code x =? 101)
     else bool_decide (method x = HTTP_CONNECT)).

(** The [headers_complete] callback; its result can say that there is no
    body. *)
Definition notify_headers_complete : exec A unit :=
  match on_headers_complete settings with
  | None => mret tt
  | Some cb =>
      rc ← enter cb;
      p ← get pos;
      if rc =? 0 then mret tt
      else if rc =? 2 then update (fun x => set_flag (with_upgrade x true) F_SKIPBODY)
      else if rc =? 1 then update (fun x => set_flag x F_SKIPBODY)
      else SET_ERRNO HPE_CB_headers_complete;; RETURN p
  end.

Definition case_headers_almost_done (ch : Z) : exec A jump :=
  STRICT_CHECK (negb (ch =? LF));;
  x ← get parser;
  if has_flag x F_TRAILING then
    UPDATE_STATE s_message_done;;
    CALLBACK_NOTIFY_NOADVANCE chunk_complete;;
    mret (Reexecute ch)
  else if has_flag x F_CHUNKED && has_flag x F_CONTENTLENGTH then fail HPE_UNEXPECTED_CONTENT_LENGTH
  else
    UPDATE_STATE s_headers_done;;
    update set_upgrade;;
    notify_headers_complete;;
    x ← get parser;
    p ← get pos;
    if decide (http_errno x = HPE_OK) then mret (Reexecute ch) else RETURN p.

(** [UPDATE_STATE(NEW_MESSAGE()); CALLBACK_NOTIFY(message_complete)]. *)
Definition end_message : exec A unit :=
  x ← get parser;
  UPDATE_STATE (NEW_MESSAGE x);;
  CALLBACK_NOTIFY message_complete.

(** [parser->nread = 0; nread = 0]. *)
Definition reset_nread : exec A unit :=
  modify (fun f => with_local_nread (with_parser f (with_nread (parser f) 0)) 0).

Definition has_body (x : http_parser) : bool :=
  has_flag x F_CHUNKED || ((0 <? content_length x) && negb (content_length x =? ULLONG_MAX)).

Definition case_headers_done (ch : Z) : exec A jump :=
  STRICT_CHECK (negb (ch =? LF));;
  reset_nread;;
  x ← get parser;
  p ← get pos;
  if upgrade x && (bool_decide (method x = HTTP_CONNECT) || has_flag x F_SKIPBODY || negb (has_body x)) then
    end_message;; RETURN (p + 1)
  else if has_flag x F_SKIPBODY then end_message;; break
  else if has_flag x F_CHUNKED then goes_to s_chunk_size_start
  else if content_length x =? 0 then end_message;; break
  else if negb (content_length x =? ULLONG_MAX) then goes_to s_body_identity
  else if negb (http_message_needs_eof x) then end_message;; break
  else goes_to s_body_identity_eof.

(** ** Bodies *)

(** [to_read] octets of the body: [p] stays on the last of them. *)
Definition read_body : exec A Z :=
  x ← get parser;
  rest ← get rest_of;
  let to_read := Z.min (content_length x) (zlen rest) in
  assert (negb (content_length x =? 0) && negb (content_length x =? ULLONG_MAX));;
  MARK body;;
  update (fun x => with_content_length x (content_length x - to_read));;
  modify (fun f => with_pos f (pos f + (to_read - 1)));;
  mret (content_length x - to_read).

Definition case_body_identity (ch : Z) : exec A jump :=
  left ← read_body;
  if left =? 0 then
    UPDATE_STATE s_message_done;;
    p ← get pos;
    CALLBACK_DATA_ body (p + 1) p;;
    mret (Reexecute ch)
  else break.

Definition case_body_identity_eof : exec A jump :=
  MARK body;; modify (fun f => with_pos f (zlen data - 1));; break.

Definition case_message_done : exec A jump :=
  end_message;;
  x ← get parser;
  p ← get pos;
  if upgrade x then RETURN (p + 1) else break.

(** ** Chunks *)

Definition assert_chunked : exec A unit := x ← get parser; assert (has_flag x F_CHUNKED).

Definition case_chunk_size_start (ch : Z) : exec A jump :=
  n ← get local_nread;
  assert (n =? 1);;
  assert_chunked;;
  let unhex_val := znth unhex ch in
  if unhex_val =? -1 then fail HPE_INVALID_CHUNK_SIZE
  else update (fun x => with_content_length x unhex_val);; goes_to s_chunk_size.

Definition case_chunk_size (ch : Z) : exec A jump :=
  assert_chunked;;
  if ch =? CR then goes_to s_chunk_size_almost_done
  else
    let unhex_val := znth unhex ch in
    if unhex_val =? -1 then
      if (ch =? chr ";") || (ch =? chr " ") then goes_to s_chunk_parameters else fail HPE_INVALID_CHUNK_SIZE
    else
      x ← get parser;
      match more_digits 16 (content_length x) unhex_val with
      | None => fail HPE_INVALID_CONTENT_LENGTH
      | Some n => update (fun x => with_content_length x n);; break
      end.

Definition case_chunk_parameters (ch : Z) : exec A jump :=
  assert_chunked;;
  if ch =? CR then goes_to s_chunk_size_almost_done else break.

Definition case_chunk_size_almost_done (ch : Z) : exec A jump :=
  assert_chunked;;
  STRICT_CHECK (negb (ch =? LF));;
  reset_nread;;
  x ← get parser;
  (if content_length x =? 0
   then update (fun x => set_flag x F_TRAILING);; UPDATE_STATE s_header_field_start
   else UPDATE_STATE s_chunk_data);;
  CALLBACK_NOTIFY chunk_header;;
  break.

Definition case_chunk_data : exec A jump :=
  assert_chunked;;
  left ← read_body;
  (if left =? 0 then UPDATE_STATE s_chunk_data_almost_done else mret tt);;
  break.

Definition case_chunk_data_almost_done (ch : Z) : exec A jump :=
  assert_chunked;;
  x ← get parser;
  assert (content_length x =? 0);;
  STRICT_CHECK (negb (ch =? CR));;
  UPDATE_STATE s_chunk_data_done;;
  CALLBACK_DATA body;;
  break.

Definition case_chunk_data_done (ch : Z) : exec A jump :=
  assert_chunked;;
  STRICT_CHECK (negb (ch =? LF));;
  reset_nread;;
  UPDATE_STATE s_chunk_size_start;;
  CALLBACK_NOTIFY chunk_complete;;
  break.

(** ** The function *)

(** [switch (CURRENT_STATE())]. *)
Definition dispatch (s : state) (ch : Z) : exec A jump :=
  match s with
  | s_dead => case_dead ch
  | s_start_req_or_res => case_start_req_or_res ch
  | s_res_or_resp_H => case_res_or_resp_H ch
  | s_start_res => case_start_res ch
  | s_res_H => case_letter (chr "T") s_res_HT ch
  | s_res_HT => case_letter (chr "T") s_res_HTT ch
  | s_res_HTT => case_letter (chr "P") s_res_HTTP ch
  | s_res_HTTP => case_letter (chr "/") s_res_http_major ch
  | s_res_http_major => case_major s_res_http_dot ch
  | s_res_http_dot => case_dot s_res_http_minor ch
  | s_res_http_minor => case_minor s_res_http_end ch
  | s_res_http_end => case_res_http_end ch
  | s_res_first_status_code => case_res_first_status_code ch
  | s_res_status_code => case_res_status_code ch
  | s_res_status_start => case_res_status_start ch
  | s_res_status => case_res_status ch
  | s_res_line_almost_done => case_letter LF s_header_field_start ch
  | s_start_req => case_start_req ch
  | s_req_method => case_req_method ch
  | s_req_spaces_before_url => case_req_spaces_before_url ch
  | s_req_schema | s_req_schema_slash | s_req_schema_slash_slash | s_req_server_start => case_req_schema ch
  | s_req_server | s_req_server_with_at | s_req_path | s_req_query_string_start | s_req_query_string
  | s_req_fragment_start | s_req_fragment => case_req_url ch
  | s_req_http_start => case_req_http_start ch
  | s_req_http_H => case_letter (chr "T") s_req_http_HT ch
  | s_req_http_HT => case_letter (chr "T") s_req_http_HTT ch
  | s_req_http_HTT => case_letter (chr "P") s_req_http_HTTP ch
  | s_req_http_I => case_letter (chr "C") s_req_http_IC ch
  | s_req_http_IC => case_letter (chr "E") s_req_http_HTTP ch
  | s_req_http_HTTP => case_letter (chr "/") s_req_http_major ch
  | s_req_http_major => case_major s_req_http_dot ch
  | s_req_http_dot => case_dot s_req_http_minor ch
  | s_req_http_minor => case_minor s_req_http_end ch
  | s_req_http_end => case_req_http_end ch
  | s_req_line_almost_done => case_req_line_almost_done ch
  | s_header_field_start => case_header_field_start ch
  | s_header_field => case_header_field
  | s_header_value_discard_ws => case_header_value_discard_ws ch
  | s_header_value_start => case_header_value_start ch
  | s_header_value => case_header_value
  | s_header_almost_done => case_header_almost_done ch
  | s_header_value_lws => case_header_value_lws ch
  | s_header_value_discard_ws_almost_done => case_letter LF s_header_value_discard_lws ch
  | s_header_value_discard_lws => case_header_value_discard_lws ch
  | s_headers_almost_done => case_headers_almost_done ch
  | s_headers_done => case_headers_done ch
  | s_body_identity => case_body_identity ch
  | s_body_identity_eof => case_body_identity_eof
  | s_message_done => case_message_done
  | s_chunk_size_start => case_chunk_size_start ch
  | s_chunk_size => case_chunk_size ch
  | s_chunk_parameters => case_chunk_parameters ch
  | s_chunk_size_almost_done => case_chunk_size_almost_done ch
  | s_chunk_data => case_chunk_data
  | s_chunk_data_almost_done => case_chunk_data_almost_done ch
  | s_chunk_data_done => case_chunk_data_done ch
  end.

(** From the label [reexecute] on. *)
Fixpoint reexecute (fuel : nat) (ch : Z) : exec A unit :=
  match fuel with
  | O => fun _ => Undef
  | S fuel =>
      s ← get p_state;
      j ← dispatch s ch;
      match j with
      | Break => mret tt
      | Reexecute ch => reexecute fuel ch
      end
  end.

(** No character is looked at in more than four states. *)
Definition REEXECUTE_FUEL : nat := 4.

(** One round of the [for] loop, before [p++]. *)
Definition round : exec A unit :=
  p ← get pos;
  ch ← of_outcome (lift (aget data p));
  s ← get p_state;
  (if PARSING_HEADER s then COUNT_HEADER_SIZE 1 else mret tt);;
  reexecute REEXECUTE_FUEL ch.

Fixpoint char_loop (fuel : nat) : exec A unit :=
  match fuel with
  | O => fun _ => Undef
  | S fuel =>
      p ← get pos;
      if p =? zlen data then mret tt
      else round;; modify (fun f => with_pos f (pos f + 1));; char_loop fuel
  end.

Definition is_set (m : option Z) : Z := match m with Some _ => 1 | None => 0 end.

(** The marks that are left, and the end of the function. *)
Definition run_leftover : exec A Z :=
  f ← get id;
  assert (is_set (header_field_mark f) + is_set (header_value_mark f) + is_set (url_mark f) + is_set (body_mark f)
          + is_set (status_mark f) <=? 1);;
  CALLBACK_DATA_NOADVANCE header_field;;
  CALLBACK_DATA_NOADVANCE header_value;;
  CALLBACK_DATA_NOADVANCE url;;
  CALLBACK_DATA_NOADVANCE body;;
  CALLBACK_DATA_NOADVANCE status;;
  RETURN (zlen data).

(** The locals at the start of a call with data: a mark for the callback that
    is under way. *)
Definition entry (x : http_parser) (a : A) : frame A :=
  let s := parser_state x in
  let mark (b : bool) := if b then Some 0 else None in
  {| parser := x; app := a; p_state := s; local_nread := nread x;
     header_field_mark := mark (bool_decide (s = s_header_field));
     header_value_mark := mark (bool_decide (s = s_header_value));
     url_mark :=
       mark (match s with
             | s_req_path | s_req_schema | s_req_schema_slash | s_req_schema_slash_slash | s_req_server_start
             | s_req_server | s_req_server_with_at | s_req_query_string_start | s_req_query_string
             | s_req_fragment_start | s_req_fragment => true
             | _ => false
             end);
     body_mark := None; status_mark := mark (bool_decide (s = s_res_status)); pos := 0;
     lenient := lenient_http_headers x |}.

(** The label [error]. *)
Definition error_exit : exec A Z :=
  x ← get parser;
  (if decide (http_errno x = HPE_OK) then SET_ERRNO HPE_UNKNOWN else mret tt);;
  p ← get pos;
  RETURN p.

(** The parser, the application and the value returned. *)
Definition leave (r : outcome (frame A * ctl Z)) : outcome (http_parser * A * Z) :=
  '(f, c) ← r;
  match c with
  | Next v | Return v => Ret (parser f, app f, v)
  | Goto_error => Undef
  end.

(** A call with no data: the end of the input. *)
Definition execute_eof (x : http_parser) (a : A) : outcome (http_parser * A * Z) :=
  match parser_state x with
  | s_body_identity_eof => leave ((CALLBACK_NOTIFY_NOADVANCE message_complete;; mret 0) (entry x a))
  | s_dead | s_start_req_or_res | s_start_res | s_start_req => Ret (x, a, 0)
  | _ => Ret (with_http_errno x HPE_INVALID_EOF_STATE, a, 1)
  end.

(** [http_parser_execute(parser, settings, data, len)], [len] being the length
    of [data]. *)
Definition http_parser_execute (x : http_parser) (a : A) : outcome (http_parser * A * Z) :=
  if decide (http_errno x = HPE_OK) then
    match data with
    | [] => execute_eof x a
    | _ =>
        '(f, c) ← (char_loop (S (length data));; run_leftover) (entry x a);
        match c with
        | Next v | Return v => Ret (parser f, app f, v)
        | Goto_error => leave (error_exit f)
        end
    end
  else Ret (x, a, 0).

End Execute.
