(* ===== verification/HttpSafe.v ===== *)
(** The HTTP parser is safe: on every input, in pieces of any size, and with
    callbacks that fail or pause it, no assertion fails, every loop ends, and
    the invariant of the parser is kept. *)

From Stdlib Require Import Ascii.
From S2P Require Import Prelude CString HttpTypes HttpParser.

(** The cases of the switch that are safe. *)
Create HintDb http_safe.

(** ** Weakest preconditions *)

(** How a callback may end the call instead of returning: the process exits,
    blocks for ever, or does what is not defined. *)
Class Stops := may_stop : outcome Empty_set -> Prop.

Definition stopped {X} (o : outcome Empty_set) : outcome X :=
  match o with Ret e => match e with end | Exit c => Exit c | Undef => Undef | Blocked => Blocked end.

(** [m] from [f] ends with a value and [Q], with [goto error] and [E], with a
    return and [R], or as callbacks may. *)
Definition wp `{stops : Stops} {A X} (m : exec A X) (f : frame A) (Q : X -> frame A -> Prop) (E : frame A -> Prop)
    (R : Z -> frame A -> Prop) : Prop :=
  match m f with
  | Ret (f', Next x) => Q x f'
  | Ret (f', Goto_error) => E f'
  | Ret (f', Return v) => R v f'
  | Exit c => may_stop (Exit c)
  | Undef => may_stop Undef
  | Blocked => may_stop Blocked
  end.

Section Rules.
Context `{HttpConfig} `{stops : Stops} {A : Type}.
Implicit Types (f : frame A) (E : frame A -> Prop) (R : Z -> frame A -> Prop).

Lemma wp_seq {X Y} (m : exec A X) (k : X -> exec A Y) f Q E R :
  wp m f (fun x f => wp (k x) f Q E R) E R -> wp (m ≫= k) f Q E R.
Proof. unfold wp, mbind, exec_bind. by destruct (m f) as [[f' []]| | |]. Qed.

Lemma wp_mono {X} (m : exec A X) f (Q Q' : X -> frame A -> Prop) E (E' : frame A -> Prop) R (R' : Z -> frame A -> Prop) :
  (forall x f, Q x f -> Q' x f) -> (forall f, E f -> E' f) -> (forall v f, R v f -> R' v f) ->
  wp m f Q E R -> wp m f Q' E' R'.
Proof. unfold wp. intros. destruct (m f) as [[f' []]| | |]; naive_solver. Qed.

Lemma wp_pure {X} (x : X) f (Q : X -> frame A -> Prop) E R : Q x f -> wp (mret x) f Q E R.
Proof. done. Qed.

Lemma wp_look {X} (g : frame A -> X) f (Q : X -> frame A -> Prop) E R : Q (g f) f -> wp (get g) f Q E R.
Proof. done. Qed.

Lemma wp_change g f (Q : unit -> frame A -> Prop) E R : Q tt (g f) -> wp (modify g) f Q E R.
Proof. done. Qed.

Lemma wp_update g f (Q : unit -> frame A -> Prop) E R : Q tt (with_parser f (g (parser f))) -> wp (update g) f Q E R.
Proof. done. Qed.

Lemma wp_UPDATE_STATE s f (Q : unit -> frame A -> Prop) E R : Q tt (with_p_state f s) -> wp (UPDATE_STATE s) f Q E R.
Proof. done. Qed.

Lemma wp_assert b f (Q : unit -> frame A -> Prop) E R : b = true -> Q tt f -> wp (assert b) f Q E R.
Proof. by intros ->. Qed.

Lemma wp_MARK d f (Q : unit -> frame A -> Prop) E R :
  Q tt (match mark_of f d with None => set_mark f d (Some (pos f)) | Some _ => f end) -> wp (MARK d) f Q E R.
Proof. done. Qed.

Lemma wp_stopped {X} (m : exec A X) f o (Q : X -> frame A -> Prop) E R : m f = stopped o -> may_stop o -> wp m f Q E R.
Proof. unfold wp. intros ->. by destruct o. Qed.

Lemma wp_of_outcome {X} (o : outcome X) f (Q : X -> frame A -> Prop) E R x : o = Ret x -> Q x f -> wp (of_outcome o) f Q E R.
Proof. by intros ->. Qed.

Lemma wp_fail {X} e f (Q : X -> frame A -> Prop) E R :
  E (with_parser f (with_http_errno (with_nread (parser f) (local_nread f)) e)) -> wp (fail e) f Q E R.
Proof. done. Qed.

Lemma wp_RETURN {X} v f (Q : X -> frame A -> Prop) E R :
  R v (with_parser f (with_parser_state (with_nread (parser f) (local_nread f)) (p_state f))) -> wp (RETURN v) f Q E R.
Proof. done. Qed.

Lemma wp_if {X} (b : bool) (m m' : exec A X) f Q E R :
  (b = true -> wp m f Q E R) -> (b = false -> wp m' f Q E R) -> wp (if b then m else m') f Q E R.
Proof. destruct b; auto. Qed.

Lemma wp_decide {X} (P : Prop) `{Decision P} (m m' : exec A X) f Q E R :
  (P -> wp m f Q E R) -> (~ P -> wp m' f Q E R) -> wp (if decide P then m else m') f Q E R.
Proof. case_decide; auto. Qed.

End Rules.

Lemma IS_NUM_digit ch : IS_NUM ch = true -> 0 <= ch - chr "0" < 10.
Proof. unfold IS_NUM. simpl. lia. Qed.

(** ** The invariant *)

(** The header states that a field name goes through. *)
Definition field_state (hs : header_states) : bool :=
  match hs with
  | h_general | h_C | h_CO | h_CON | h_matching_connection | h_matching_proxy_connection | h_matching_content_length
  | h_matching_transfer_encoding | h_matching_upgrade | h_connection | h_content_length | h_transfer_encoding | h_upgrade => true
  | _ => false
  end.

(** The header states of a value that is being read. *)
Definition value_state (hs : header_states) : bool :=
  match hs with h_connection | h_transfer_encoding => false | _ => true end.

(** What the parser's fields satisfy in state [s], with [n] header octets
    read; before the first digit of a chunk size they are [k]. *)
Definition state_inv (k : Z) (s : state) (x : http_parser) (n : Z) : Prop :=
  match s with
  | s_req_method => 0 <= index x <= zlen (method_strings (method x))
  | s_header_field => field_state (header_state x) = true
  | s_header_value => value_state (header_state x) = true
  | s_chunk_size_start => n = k /\ has_flag x F_CHUNKED = true
  | s_chunk_size | s_chunk_parameters | s_chunk_size_almost_done =>
      has_flag x F_CHUNKED = true /\ content_length x < ULLONG_MAX
  | s_chunk_data => has_flag x F_CHUNKED = true /\ 0 < content_length x < ULLONG_MAX
  | s_chunk_data_almost_done => has_flag x F_CHUNKED = true /\ content_length x = 0
  | s_chunk_data_done => has_flag x F_CHUNKED = true
  | s_body_identity => 0 < content_length x < ULLONG_MAX
  | _ => True
  end.

(** The states in which the data of a callback is collected. *)
Definition mark_state (d : data_cb) (s : state) : bool :=
  match d, s with
  | header_field, s_header_field | header_value, s_header_value | status, s_res_status => true
  | url, (s_req_path | s_req_schema | s_req_schema_slash | s_req_schema_slash_slash | s_req_server_start
         | s_req_server | s_req_server_with_at | s_req_query_string_start | s_req_query_string
         | s_req_fragment_start | s_req_fragment) => true
  | body, (s_body_identity | s_body_identity_eof | s_chunk_data | s_chunk_data_almost_done) => true
  | _, _ => false
  end.

Section Safe.
Context `{HttpConfig}.
Hypothesis max_size : 0 <= max_header_size < 2 ^ 31.

(** A parser between calls, unless a call has failed on it. *)
Record parser_ok (x : http_parser) : Prop := {
  po_length : fits 64 (content_length x);
  po_nread : 0 <= nread x <= max_header_size;
  po_state : state_inv 0 (parser_state x) x (nread x)
}.

Definition resumable (x : http_parser) : Prop := http_errno x = HPE_OK \/ http_errno x = HPE_PAUSED.

Section Callbacks.
Context `{stops : Stops} {A : Type} (data : list Z).
Hypothesis data_len : zlen data < 2 ^ 31.

(** A frame at the dispatch of a character. *)
Record frame_ok (k : Z) (f : frame A) : Prop := {
  fo_errno : http_errno (parser f) = HPE_OK;
  fo_length : fits 64 (content_length (parser f));
  fo_local : 0 <= local_nread f <= max_header_size;
  fo_nread : 0 <= nread (parser f) <= max_header_size;
  fo_state : state_inv k (p_state f) (parser f) (local_nread f);
  fo_pos : 0 <= pos f < zlen data;
  fo_mark : forall d m, mark_of f d = Some m -> mark_state d (p_state f) = true /\ 0 <= m <= pos f
}.

(** ** Callbacks *)

(** A callback may fail and may pause the parser; it returns and leaves the
    rest of the parser alone. *)
Definition tame (call : A -> http_parser -> outcome (A * http_parser * Z)) : Prop :=
  forall a x, exists a' e rc, call a x = Ret (a', with_http_errno x e, rc).

Record tame_settings (settings : http_parser_settings A) : Prop := {
  ts_notify : forall n cb, on_notify settings n = Some cb -> tame cb;
  ts_data : forall d cb at_ len, on_data settings d = Some cb -> tame (fun a x => cb a x at_ len);
  ts_headers : forall cb, on_headers_complete settings = Some cb -> tame cb
}.

(** How a call may return before its end. *)
Definition returned (v : Z) (f : frame A) : Prop :=
  0 <= v <= zlen data /\ (resumable (parser f) -> parser_ok (parser f)) /\
  (http_errno (parser f) = HPE_OK -> upgrade (parser f) = true).

(** How it jumps to [error]. *)
Definition failed (f : frame A) : Prop := ~ resumable (parser f) /\ 0 <= pos f <= zlen data.

(** The frame after a callback that neither failed nor paused. *)
Definition called (f g : frame A) : Prop :=
  g = f \/ exists a, g = with_app (with_parser f (with_parser_state (parser f) (p_state f))) a.

Lemma with_errno_id x : http_errno x = HPE_OK -> with_http_errno x HPE_OK = x.
Proof. destruct x. simpl. by intros ->. Qed.

Lemma wp_run_callback e call er f (Q : unit -> frame A -> Prop) E :
  tame call -> e <> HPE_OK /\ e <> HPE_PAUSED -> http_errno (parser f) = HPE_OK ->
  parser_ok (with_parser_state (parser f) (p_state f)) -> 0 <= er <= zlen data ->
  (forall g, called f g -> Q tt g) -> wp (run_callback e call er) f Q E returned.
Proof.
  intros Htame [He1 He2] Hok Hpo Her HQ. unfold run_callback. apply wp_seq, wp_change, wp_seq. unfold wp at 1, enter. cbn [app parser with_parser].
  destruct (Htame (app f) (with_parser_state (parser f) (p_state f))) as (a' & e' & rc & ->). cbn [mbind outcome_bind].
  apply wp_seq. apply wp_if; intros Hrc.
  - unfold SET_ERRNO. apply wp_change, wp_seq, wp_change, wp_seq, wp_look, wp_decide; [done|]. intros _. split; [done|].
    simpl. split; [intros [?|?]; done|done].
  - apply wp_pure, wp_seq, wp_change, wp_seq, wp_look, wp_decide; simpl.
    + intros ->. apply wp_pure, HQ. right. exists a'. f_equal. by rewrite with_errno_id.
    + intros Hne. split; [done|]. split; [|done]. intros _. destruct Hpo as [B C D]. by split.
Qed.

Lemma notify_errno_bad n : notify_errno n <> HPE_OK /\ notify_errno n <> HPE_PAUSED.
Proof. by destruct n. Qed.

Lemma data_errno_bad d : data_errno d <> HPE_OK /\ data_errno d <> HPE_PAUSED.
Proof. by destruct d. Qed.

Lemma set_mark_id (f : frame A) d : mark_of f d = None -> set_mark f d None = f.
Proof. destruct f, d; simpl; by intros ->. Qed.

Context (settings : http_parser_settings A).
Hypothesis settings_tame : tame_settings settings.

Lemma wp_CALLBACK_NOTIFY_ n er f (Q : unit -> frame A -> Prop) E :
  http_errno (parser f) = HPE_OK -> parser_ok (with_parser_state (parser f) (p_state f)) -> 0 <= er <= zlen data ->
  (forall g, called f g -> Q tt g) -> wp (CALLBACK_NOTIFY_ settings n er) f Q E returned.
Proof.
  intros Hok Hpo Her HQ. unfold CALLBACK_NOTIFY_. apply wp_seq, wp_look, wp_seq, wp_assert; [by apply bool_decide_eq_true|].
  destruct (on_notify settings n) as [cb|] eqn:Ecb; [|apply wp_pure, HQ; by left].
  apply wp_run_callback; try done; [by eapply ts_notify|apply notify_errno_bad].
Qed.

Lemma wp_CALLBACK_DATA_ d at_ er f (Q : unit -> frame A -> Prop) E :
  http_errno (parser f) = HPE_OK -> parser_ok (with_parser_state (parser f) (p_state f)) -> 0 <= er <= zlen data ->
  (forall g, called f g -> Q tt (set_mark g d None)) ->
  wp (CALLBACK_DATA_ settings d at_ er) f Q E returned.
Proof.
  intros Hok Hpo Her HQ. unfold CALLBACK_DATA_. apply wp_seq, wp_look, wp_seq, wp_assert; [by apply bool_decide_eq_true|].
  apply wp_seq, wp_look. destruct (mark_of f d) as [m|] eqn:Em.
  - apply wp_seq. destruct (on_data settings d) as [cb|] eqn:Ecb.
    + apply wp_run_callback; try done; [by eapply ts_data|apply data_errno_bad].
    + apply wp_pure, wp_change, HQ. by left.
  - apply wp_pure. rewrite <- (set_mark_id f d) by done. apply HQ. by left.
Qed.

(** ** One character *)

(** A character is looked at again in states of smaller rank. *)
Definition rank (s : state) : nat :=
  match s with
  | s_header_value_lws | s_header_value_discard_lws => 3
  | s_header_field_start | s_res_status_code => 2
  | s_headers_almost_done | s_start_req_or_res | s_res_status_start | s_header_value | s_body_identity => 1
  | _ => 0
  end.

Definition step_post (f : frame A) (j : jump) (g : frame A) : Prop :=
  pos f <= pos g /\
  match j with
  | Break => frame_ok 0 g
  | Reexecute _ => frame_ok 1 g /\ (rank (p_state g) < rank (p_state f))%nat
  end.

Definition safe_case (s : state) (m : exec A jump) : Prop :=
  forall f, frame_ok 1 f -> p_state f = s -> wp m f (step_post f) failed returned.

Lemma NEW_MESSAGE_cases x : NEW_MESSAGE x = s_start_req \/ NEW_MESSAGE x = s_start_res \/ NEW_MESSAGE x = s_dead.
Proof. unfold NEW_MESSAGE, start_state. repeat case_match; auto. Qed.

Lemma method_strings_long m : 3 <= zlen (method_strings m) < 127.
Proof. by destruct m. Qed.

Lemma wp_COUNT_HEADER_SIZE v f (Q : unit -> frame A -> Prop) R :
  0 <= local_nread f <= max_header_size -> 0 <= v < 2 ^ 31 -> 0 <= pos f <= zlen data ->
  (local_nread f + v <= max_header_size -> Q tt (with_local_nread f (local_nread f + v))) ->
  wp (COUNT_HEADER_SIZE v) f Q failed R.
Proof.
  intros Hn Hv Hpos HQ. unfold COUNT_HEADER_SIZE.
  assert (u32 (local_nread f + u32 v) = local_nread f + v) as Hw.
  { unfold wrap. rewrite (Z.mod_small v) by lia. apply Z.mod_small. lia. }
  apply wp_seq, wp_change. rewrite Hw. apply wp_seq, wp_look, wp_if; simpl; intros Hm.
  - apply wp_fail. split; [by intros [|]|done].
  - apply wp_pure, HQ. lia.
Qed.

Ltac wp_step :=
  lazymatch goal with
  | |- wp (mbind _ _) _ _ _ _ => apply wp_seq
  | |- wp (mret _) _ _ _ _ => apply wp_pure
  | |- wp (get _) _ _ _ _ => apply wp_look
  | |- wp (modify _) _ _ _ _ => apply wp_change
  | |- wp (update _) _ _ _ _ => apply wp_update
  | |- wp (UPDATE_STATE (NEW_MESSAGE ?x)) _ _ _ _ =>
      apply wp_UPDATE_STATE; destruct (NEW_MESSAGE_cases x) as [->|[->| ->]]
  | |- wp (UPDATE_STATE _) _ _ _ _ => apply wp_UPDATE_STATE
  | |- wp (MARK ?d) ?f _ _ _ => apply wp_MARK; let Hm := fresh "Hm" in destruct (mark_of f d) eqn:Hm; simpl in Hm
  | |- wp (assert _) _ _ _ _ => apply wp_assert
  | |- wp (fail _) _ _ _ _ => apply wp_fail
  | |- wp (RETURN _) _ _ _ _ => apply wp_RETURN
  | |- wp (if decide _ then _ else _) _ _ _ _ => apply wp_decide; let Hd := fresh "Hd" in intros Hd; simpl in Hd
  | |- wp (if _ then _ else _) _ _ _ _ => apply wp_if; let Hb := fresh "Hb" in intros Hb; simpl in Hb
  | |- wp (goes_to _) _ _ _ _ => unfold goes_to
  | |- wp break _ _ _ _ => unfold break
  | |- wp (STRICT_CHECK _) _ _ _ _ => unfold STRICT_CHECK
  | |- wp begin_message _ _ _ _ => unfold begin_message
  | |- wp reset_nread _ _ _ _ => unfold reset_nread
  | |- wp assert_chunked _ _ _ _ => unfold assert_chunked
  | |- wp (COUNT_HEADER_SIZE _) _ _ _ _ =>
      apply wp_COUNT_HEADER_SIZE; [| | |let Hcount := fresh "Hcount" in intros Hcount; simpl in Hcount]
  | |- wp (end_message _) _ _ _ _ => unfold end_message
  | |- wp (CALLBACK_NOTIFY _ _) _ _ _ _ => unfold CALLBACK_NOTIFY
  | |- wp (CALLBACK_NOTIFY_NOADVANCE _ _) _ _ _ _ => unfold CALLBACK_NOTIFY_NOADVANCE
  | |- wp (CALLBACK_DATA _ _) _ _ _ _ => unfold CALLBACK_DATA
  | |- wp (CALLBACK_DATA_NOADVANCE _ _) _ _ _ _ => unfold CALLBACK_DATA_NOADVANCE
  | |- wp (CALLBACK_NOTIFY_ _ _ _) _ _ _ _ => apply wp_CALLBACK_NOTIFY_; [| | |intros ?g [->|[?a ->]]]
  | |- wp (CALLBACK_DATA_ _ _ _ _) _ _ _ _ => apply wp_CALLBACK_DATA_; [| | |intros ?g [->|[?a ->]]]
  end.

(** The marks of a frame that was derived from one whose marks [Hmk] bounds. *)
Ltac marks Hmk :=
  let d := fresh "d" in let m := fresh "m" in let Hm := fresh "Hm" in
  intros d m Hm; destruct d; simpl in Hm |- *; try done;
  lazymatch goal with
  | |- _ => first
    [ destruct (Hmk header_field m Hm) as [?Ha ?Hb]
    | destruct (Hmk header_value m Hm) as [?Ha ?Hb]
    | destruct (Hmk url m Hm) as [?Ha ?Hb]
    | destruct (Hmk body m Hm) as [?Ha ?Hb]
    | destruct (Hmk status m Hm) as [?Ha ?Hb]
    | injection Hm as <- ]
  end; simpl in *; try done; (split; [done|lia]).

(** A frame that differs from [f] in its state and parser. *)
Ltac frame_ok_tac :=
  split; simpl; try done; try lia;
  match goal with Hmk : forall d m, mark_of _ d = Some m -> _ |- forall d m, _ => marks Hmk end.

(** Callbacks keep the frame. *)
Lemma called_ok k f g : called f g -> frame_ok k f -> frame_ok k g.
Proof. by intros [->|[a ->]] []. Qed.

Lemma called_pos f g : called f g -> pos g = pos f /\ p_state g = p_state f.
Proof. by intros [->|[a ->]]. Qed.

Lemma frame_parser_ok k f :
  frame_ok k f -> p_state f <> s_chunk_size_start -> parser_ok (with_parser_state (parser f) (p_state f)).
Proof. intros [He Hl Hn Hpn Hst Hpos Hmk] Hs. split; simpl; [done|done|]. destruct (p_state f); simpl in *; done. Qed.

Lemma fits_ULLONG n : fits 64 n -> 0 <= n <= ULLONG_MAX.
Proof. unfold fits, ULLONG_MAX. lia. Qed.

(** The start of the proof of a case. *)
Ltac start_case f :=
  intros f [He Hl Hn Hpn Hst Hpos Hmk] Hs; pose proof Hs as Hs'; rewrite Hs in Hst, Hmk; simpl in Hst;
  lazymatch type of Hst with
  | has_flag _ _ = true /\ _ => let Hfl := fresh "Hfl" in destruct Hst as [Hfl Hst]
  | _ /\ has_flag _ _ = true => let Hfl := fresh "Hfl" in destruct Hst as [Hst Hfl]
  | _ => idtac
  end;
  pose proof (fits_ULLONG _ Hl) as Hl0; unfold step_post; rewrite Hs'.

Lemma value_flag_flags x : exists fl, value_flag x = with_flags x fl.
Proof. destruct x as [? fl0 ? []]; first [by eexists|exists fl0; done]. Qed.

Lemma value_flag_fields x :
  http_errno (value_flag x) = http_errno x /\ content_length (value_flag x) = content_length x /\
  nread (value_flag x) = nread x.
Proof. by destruct (value_flag_flags x) as [fl ->]. Qed.

(** What is left of a case: arithmetic, and flags that are known. *)
Ltac side :=
  simpl; try match goal with |- context [value_flag ?x] => destruct (value_flag_flags x) as [? ->]; simpl end;
  try case_decide; first [done | lia | split; [done|lia] | idtac].

Ltac frame_tac :=
  split; simpl; repeat match goal with Hs : p_state ?f = _ |- context [p_state ?f] => rewrite Hs end; side;
  match goal with
  | Hmk : forall d m, mark_of _ d = Some m -> _ |- forall d m, _ => marks Hmk
  | _ => idtac
  end.

Ltac finish :=
  lazymatch goal with
  | |- failed _ => split; [by intros [|]|simpl; lia]
  | |- _ <= _ /\ frame_ok _ _ => split; [simpl; lia|frame_tac]
  | |- _ <= _ /\ frame_ok _ _ /\ _ => split; [simpl; lia|split; [frame_tac|side]]
  | |- parser_ok _ => split; side
  | |- returned _ _ => split; [simpl; lia|split; [intros _; split; side|side]]
  | |- _ => side
  end.

Lemma safe_dead ch : safe_case s_dead (case_dead ch).
Proof. start_case f. unfold case_dead. repeat wp_step; finish. Qed.

Lemma safe_start_req_or_res ch : safe_case s_start_req_or_res (case_start_req_or_res settings ch).
Proof. start_case f. unfold case_start_req_or_res. repeat wp_step; finish. Qed.

Lemma safe_start_res ch : safe_case s_start_res (case_start_res settings ch).
Proof. start_case f. unfold case_start_res. repeat wp_step; finish. Qed.

Lemma safe_res_http_end ch : safe_case s_res_http_end (case_res_http_end ch).
Proof. start_case f. unfold case_res_http_end. repeat wp_step; finish. Qed.

Lemma safe_res_first_status_code ch : safe_case s_res_first_status_code (case_res_first_status_code ch).
Proof. start_case f. unfold case_res_first_status_code. repeat wp_step; finish. Qed.

Lemma safe_res_status_code ch : safe_case s_res_status_code (case_res_status_code ch).
Proof. start_case f. unfold case_res_status_code. repeat wp_step; finish. Qed.

Lemma safe_res_status ch : safe_case s_res_status (case_res_status settings ch).
Proof. start_case f. unfold case_res_status. repeat wp_step; finish. Qed.

Lemma safe_req_http_start ch : safe_case s_req_http_start (case_req_http_start ch).
Proof. start_case f. unfold case_req_http_start. repeat wp_step; finish. Qed.

Lemma safe_req_http_end ch : safe_case s_req_http_end (case_req_http_end ch).
Proof. start_case f. unfold case_req_http_end. repeat wp_step; finish. Qed.

Lemma safe_req_line_almost_done ch : safe_case s_req_line_almost_done (case_req_line_almost_done ch).
Proof. start_case f. unfold case_req_line_almost_done. repeat wp_step; finish. Qed.

Lemma safe_header_almost_done ch : safe_case s_header_almost_done (case_header_almost_done ch).
Proof. start_case f. unfold case_header_almost_done. repeat wp_step; finish. Qed.

Lemma safe_chunk_parameters ch : safe_case s_chunk_parameters (case_chunk_parameters ch).
Proof. start_case f. unfold case_chunk_parameters. repeat wp_step; finish. Qed.

Lemma safe_chunk_data_done ch : safe_case s_chunk_data_done (case_chunk_data_done settings ch).
Proof. start_case f. unfold case_chunk_data_done. repeat wp_step; finish. Qed.

Lemma safe_chunk_data_almost_done ch : safe_case s_chunk_data_almost_done (case_chunk_data_almost_done settings ch).
Proof. start_case f. unfold case_chunk_data_almost_done. repeat wp_step; finish. Qed.

Lemma safe_chunk_size_almost_done ch : safe_case s_chunk_size_almost_done (case_chunk_size_almost_done settings ch).
Proof. start_case f. unfold case_chunk_size_almost_done. repeat wp_step; finish. Qed.

Lemma safe_res_status_start ch : safe_case s_res_status_start (case_res_status_start ch).
Proof. start_case f. unfold case_res_status_start. repeat wp_step; finish. Qed.

Lemma safe_header_value_lws ch : safe_case s_header_value_lws (case_header_value_lws ch).
Proof. start_case f. unfold case_header_value_lws. repeat wp_step; finish. Qed.

Lemma safe_header_value_discard_lws ch : safe_case s_header_value_discard_lws (case_header_value_discard_lws settings ch).
Proof. start_case f. unfold case_header_value_discard_lws. repeat wp_step; finish. Qed.

Lemma safe_header_field_start ch : safe_case s_header_field_start (case_header_field_start ch).
Proof. start_case f. unfold case_header_field_start. repeat wp_step; finish. all: by repeat case_match. Qed.

Lemma safe_message_done : safe_case s_message_done (case_message_done settings).
Proof. start_case f. unfold case_message_done. repeat wp_step; finish. Qed.

Lemma safe_res_or_resp_H ch : safe_case s_res_or_resp_H (case_res_or_resp_H ch).
Proof. start_case f. unfold case_res_or_resp_H. repeat wp_step; finish. Qed.

Lemma safe_start_req ch : safe_case s_start_req (case_start_req settings ch).
Proof.
  start_case f. unfold case_start_req. pose proof method_strings_long as Hlong.
  destruct (first_method ch) as [m|]; [specialize (Hlong m)|]; repeat wp_step; finish.
Qed.

(** ** The request line *)

Lemma wp_char_at str i f (Q : Z -> frame A -> Prop) E R :
  0 <= i <= zlen str -> (forall c, c = 0 \/ i < zlen str -> Q c f) -> wp (char_at str i) f Q E R.
Proof.
  intros Hi HQ. unfold wp, char_at.
  rewrite aget_znth by (rewrite zlen_app; change (zlen [0]) with 1; lia). apply HQ.
  destruct (decide (i < zlen str)); [by right|left]. assert (i = zlen str) as -> by lia.
  unfold znth, aget. rewrite decide_True, lookup_app_r by (unfold zlen; lia).
  by replace (Z.to_nat (zlen str) - length str)%nat with O by (unfold zlen; lia).
Qed.

Lemma next_method_long m i ch m' : next_method m i ch = Some m' -> i + 1 <= zlen (method_strings m').
Proof.
  destruct m; simpl; intros ?; repeat case_match; simplify_eq; unfold zlen; simpl; lia.
Qed.

Lemma safe_req_method ch : safe_case s_req_method (case_req_method ch).
Proof.
  start_case f. unfold case_req_method. repeat wp_step; [finish|]. apply wp_char_at; [lia|]. intros c Hc.
  pose proof (method_strings_long (method (parser f))).
  assert (wrap 7 (index (parser f) + 1) = index (parser f) + 1) as Hw by (apply Z.mod_small; lia).
  destruct (next_method _ _ _) as [m'|] eqn:Em; [apply next_method_long in Em|].
  all: repeat wp_step; finish; rewrite Hw; lia.
Qed.

(** The states inside a URL. *)
Lemma parse_url_char_state s ch : parse_url_char s ch <> s_dead -> mark_state url (parse_url_char s ch) = true.
Proof. intros Hs. unfold parse_url_char in *. repeat case_match; done. Qed.

Lemma url_state_inv k s x n : mark_state url s = true -> state_inv k s x n.
Proof. by destruct s. Qed.

Lemma wp_url_char ch f (Q : unit -> frame A -> Prop) R :
  0 <= pos f <= zlen data -> (forall s, mark_state url s = true -> Q tt (with_p_state f s)) -> wp (url_char ch) f Q failed R.
Proof.
  intros Hpos HQ. unfold url_char. repeat wp_step; [finish|]. by apply HQ, parse_url_char_state.
Qed.

(** The cases inside a URL: only [url_mark] can be set. *)
Lemma url_frame k f s :
  http_errno (parser f) = HPE_OK -> fits 64 (content_length (parser f)) ->
  0 <= local_nread f <= max_header_size -> 0 <= nread (parser f) <= max_header_size -> 0 <= pos f < zlen data ->
  (forall d m, mark_of f d = Some m -> d = url /\ 0 <= m <= pos f) ->
  mark_state url s = true -> frame_ok k (with_p_state f s).
Proof.
  intros He Hl Hn Hpn Hpos Hmk Hs. split; try done; [by apply url_state_inv|].
  intros d m Hm. by destruct (Hmk d m Hm) as [-> ?].
Qed.

Lemma mark_state_url d s : mark_state url s = true -> mark_state d s = true -> d = url.
Proof. by destruct s, d. Qed.

Lemma safe_req_spaces_before_url ch : safe_case s_req_spaces_before_url (case_req_spaces_before_url ch).
Proof.
  start_case f. unfold case_req_spaces_before_url. apply wp_if; [intros _; repeat wp_step; finish|intros _].
  assert (forall d, mark_of f d = None) as Hnone.
  { intros d. destruct (mark_of f d) as [m|] eqn:Em; [|done]. by destruct (Hmk d m Em), d. }
  apply wp_seq, wp_MARK. rewrite Hnone. repeat wp_step; (apply wp_url_char; [simpl; lia|]); intros s Hu; apply wp_pure.
  all: split; [done|]; apply url_frame; try done.
  all: intros d m Hm; specialize (Hnone d); destruct d; simpl in Hm, Hnone; try congruence.
  all: injection Hm as <-; split; [done|simpl; lia].
Qed.

Lemma safe_req_schema s ch : mark_state url s = true -> safe_case s (case_req_schema ch).
Proof.
  intros Hu f Hf <-. destruct Hf as [He Hl Hn Hpn Hst Hpos Hmk]. unfold case_req_schema.
  repeat wp_step; [finish|]. apply wp_url_char; [lia|]. intros s' Hs'. apply wp_pure. split; [simpl; lia|].
  apply url_frame; try done. intros d m Hm. destruct (Hmk d m Hm) as [? ?]. split; [|done].
  by apply (mark_state_url d (p_state f)).
Qed.

Lemma safe_req_url s ch : mark_state url s = true -> safe_case s (case_req_url settings ch).
Proof.
  intros Hu f Hf <-. destruct Hf as [He Hl Hn Hpn Hst Hpos Hmk]. unfold case_req_url.
  assert (forall d m, mark_of f d = Some m -> d = url /\ 0 <= m <= pos f) as Hurl.
  { intros d m Hm. destruct (Hmk d m Hm) as [? ?]. split; [|done]. by apply (mark_state_url d (p_state f)). }
  clear Hmk. unfold step_post.
  destruct (ch =? CR); repeat wp_step; finish; (apply wp_url_char; [lia|]); intros s' Hs'; apply wp_pure.
  all: split; [done|by apply url_frame].
Qed.

(** ** The end of the headers *)

Lemma wp_headers_complete f (Q : unit -> frame A -> Prop) :
  http_errno (parser f) = HPE_OK -> 0 <= pos f < zlen data ->
  (forall a e u fl, Q tt (with_app (with_parser f (with_http_errno (with_upgrade (with_flags (parser f) fl) u) e)) a)) ->
  wp (notify_headers_complete settings) f Q failed returned.
Proof.
  intros He Hpos HQ. unfold notify_headers_complete.
  destruct (on_headers_complete settings) as [cb|] eqn:Ecb; [|destruct f as [[] ?]; apply wp_pure, HQ].
  apply wp_seq. unfold wp at 1, enter. destruct (ts_headers _ settings_tame cb Ecb (app f) (parser f)) as (a & e & rc & ->).
  simpl. repeat wp_step.
  - apply (HQ a e (upgrade (parser f)) (flags (parser f))).
  - apply (HQ a e true).
  - apply (HQ a e (upgrade (parser f))).
  - unfold SET_ERRNO. repeat wp_step. split; [simpl; lia|]. simpl. split; [by intros [|]|done].
Qed.

Lemma safe_headers_almost_done ch : safe_case s_headers_almost_done (case_headers_almost_done settings ch).
Proof.
  start_case f. unfold case_headers_almost_done. repeat wp_step; finish.
  apply wp_headers_complete; [done|simpl; lia|]. intros a e u fl. repeat wp_step; finish.
Qed.

Lemma safe_headers_done ch : safe_case s_headers_done (case_headers_done settings ch).
Proof.
  start_case f. unfold case_headers_done. repeat wp_step; finish.
  all: by destruct (upgrade (parser f)).
Qed.

(** ** Bodies and chunks *)

Lemma zlen_rest (f : frame A) : 0 <= pos f < zlen data -> zlen (rest_of data f) = zlen data - pos f.
Proof. intros Hpos. unfold rest_of, zlen in *. rewrite length_drop. lia. Qed.

(** [k] octets of the body are read, the last of them at [p]. *)
Lemma wp_read_body (f : frame A) (Q : Z -> frame A -> Prop) E R :
  0 <= pos f < zlen data -> 0 < content_length (parser f) < ULLONG_MAX ->
  (forall m, body_mark f = Some m -> 0 <= m <= pos f) ->
  (forall n k m, 0 < k <= zlen data - pos f -> n = content_length (parser f) - k /\ fits 64 n -> 0 <= n -> 0 <= m <= pos f ->
     Q n (with_pos (with_parser (with_body_mark f (Some m)) (with_content_length (parser f) n)) (pos f + (k - 1)))) ->
  wp (read_body data) f Q E R.
Proof.
  intros Hpos Hlen Hmk HQ. unfold read_body. apply wp_seq, wp_look, wp_seq, wp_look, wp_seq, wp_assert; [lia|].
  rewrite zlen_rest by done. set (k := Z.min _ _).
  apply wp_seq, wp_MARK. assert (fits 64 (content_length (parser f) - k)) by (unfold fits, ULLONG_MAX in *; lia).
  destruct (mark_of f body) as [m|] eqn:Em; simpl in Em.
  - specialize (HQ (content_length (parser f) - k) k m ltac:(lia) ltac:(done) ltac:(lia) (Hmk m Em)).
    assert (with_body_mark f (Some m) = f) as Hid by (destruct f; simpl in *; by subst). by rewrite Hid in HQ.
  - apply (HQ (content_length (parser f) - k) k (pos f)); lia || done.
Qed.

Lemma safe_body_identity ch : safe_case s_body_identity (case_body_identity settings data ch).
Proof.
  start_case f. unfold case_body_identity. apply wp_seq, wp_read_body; [done|done|apply (Hmk body)|]. intros n k m Hk [Hnk Hn64] Hn0 Hmd.
  repeat wp_step; finish.
Qed.

Lemma safe_body_identity_eof : safe_case s_body_identity_eof (case_body_identity_eof data).
Proof. start_case f. unfold case_body_identity_eof. repeat wp_step; finish. Qed.

Lemma small_fits n : 0 <= n < ULLONG_MAX -> fits 64 n.
Proof. unfold fits, ULLONG_MAX. lia. Qed.

Lemma unhex_bound ch : -1 <= znth unhex ch < 16.
Proof.
  destruct (decide (0 <= ch < zlen unhex)) as [Hc|Hc].
  - assert (Forall (fun v => -1 <= v < 16) unhex) as Hall by (apply (bool_decide_unpack _); by vm_compute).
    by apply (znth_Forall (fun v => -1 <= v < 16) unhex).
  - unfold znth. destruct (aget unhex ch) eqn:E; [|simpl; lia].
    destruct Hc. apply aget_Some_iff. by eexists.
Qed.

(** A length with one more digit stays below the value that stands for no length. *)
Lemma more_digits_bound b n d n' : 0 < b -> 0 <= n -> 0 <= d < b -> more_digits b n d = Some n' -> 0 <= n' < ULLONG_MAX.
Proof.
  intros Hb Hn Hd. unfold more_digits. case_if; [done|]. intros [= <-].
  assert (n * b <= ULLONG_MAX - b).
  { transitivity (b * ((ULLONG_MAX - b) / b)); [nia|]. by apply Z.mul_div_le. }
  unfold wrap, ULLONG_MAX in *. rewrite !Z.mod_small; nia.
Qed.

Lemma safe_chunk_size_start ch : safe_case s_chunk_size_start (case_chunk_size_start ch).
Proof.
  start_case f. unfold case_chunk_size_start. pose proof (unhex_bound ch). pose proof (small_fits (znth unhex ch)).
  assert (16 < ULLONG_MAX) by done. repeat wp_step; finish; auto with lia.
Qed.

Lemma safe_chunk_size ch : safe_case s_chunk_size (case_chunk_size ch).
Proof.
  start_case f. unfold case_chunk_size. pose proof (unhex_bound ch).
  repeat wp_step; finish. destruct (more_digits _ _ _) as [n|] eqn:Em; [|repeat wp_step; finish].
  apply more_digits_bound in Em; [|simpl; lia..]. apply small_fits in Em as Hfit. repeat wp_step; finish.
Qed.

Lemma safe_chunk_data : safe_case s_chunk_data (case_chunk_data data).
Proof.
  start_case f. unfold case_chunk_data. repeat wp_step; finish.
  apply wp_read_body; [done|done|apply (Hmk body)|]. intros n k m Hk [Hnk Hn64] Hn0 Hmd. repeat wp_step; finish.
Qed.

(** ** Header values *)

(** What reading a value can change in the parser. *)
Definition value_step_ok (x x' : http_parser) : Prop :=
  http_errno x' = http_errno x /\ nread x' = nread x /\ (fits 64 (content_length x) -> fits 64 (content_length x')).

Definition bad_errno (e : http_errno_t) : Prop := e <> HPE_OK /\ e <> HPE_PAUSED.

Lemma start_value_ok x ch :
  match start_value x ch with
  | inl e => bad_errno e
  | inr x' => value_step_ok x x' /\ value_state (header_state x') = true
  end.
Proof.
  pose proof (IS_NUM_digit ch) as Hd. unfold start_value, value_step_ok.
  destruct (header_state x) eqn:Eh; repeat case_match; simplify_eq; simpl; rewrite ?Eh; try done.
  repeat split; try done; unfold fits; simpl in Hd; destruct (IS_NUM ch); try done; lia.
Qed.

Lemma marks_none k (f : frame A) : frame_ok k f -> (forall d, mark_state d (p_state f) = false) -> forall d, mark_of f d = None.
Proof.
  intros Hf Hs d. destruct (mark_of f d) as [m|] eqn:Em; [|done].
  destruct (fo_mark _ _ Hf d m Em) as [Hd _]. by rewrite Hs in Hd.
Qed.

Lemma safe_value_start s ch :
  (forall d, mark_state d s = false) -> safe_case s (case_header_value_start ch).
Proof.
  intros Hs f Hf <-. pose proof (marks_none _ _ Hf Hs) as Hnone. destruct Hf as [He Hl Hn Hpn Hst Hpos Hmk].
  unfold case_header_value_start. apply wp_seq, wp_MARK. rewrite Hnone. repeat wp_step.
  simpl. pose proof (start_value_ok (with_index (parser f) 0) ch) as Hok.
  destruct (start_value _ ch) as [e|x']; repeat wp_step.
  - destruct Hok. split; simpl; [by intros [|]|lia].
  - destruct Hok as [(He' & Hn' & Hl') Hv]. simpl in *. split; [simpl; lia|].
    split; simpl; rewrite ?He', ?Hn'; try done; [by apply Hl'|].
    intros d m Hm. specialize (Hnone d). destruct d; simpl in Hm, Hnone; try congruence.
    injection Hm as <-. split; [done|lia].
Qed.

Lemma safe_header_value_discard_ws ch : safe_case s_header_value_discard_ws (case_header_value_discard_ws ch).
Proof.
  intros f Hf Hs. pose proof (safe_value_start s_header_value_discard_ws ch ltac:(by intros []) f Hf Hs) as Hstart.
  destruct Hf as [He Hl Hn Hpn _ Hpos Hmk]. rewrite Hs in Hmk.
  unfold case_header_value_discard_ws, step_post in *. repeat wp_step; [finish..|done].
Qed.

(** ** Header fields *)

Lemma match_name_state name self full other i c P :
  P self = true -> P full = true -> P other = true -> P (match_name name self full other i c) = true.
Proof. intros. unfold match_name. by repeat case_if. Qed.

Lemma field_char_state hs i c ch :
  field_state hs = true -> hs <> h_general -> exists hs' i', field_char hs i c ch = Some (hs', i') /\ field_state hs' = true.
Proof.
  intros Hf Hg. destruct hs; try done; simpl; eexists _, _; split; try done.
  all: first [by apply (match_name_state _ _ _ _ _ _ field_state)|by repeat case_if].
Qed.

Lemma field_loop_ok fuel hs i rest :
  (length rest < fuel)%nat -> field_state hs = true ->
  exists hs' i' k, field_loop fuel hs i rest = Ret (hs', i', drop k rest) /\ field_state hs' = true.
Proof.
  revert hs i rest. induction fuel as [|fuel IH]; intros hs i rest Hfuel Hs; [lia|].
  destruct rest as [|ch r]; simpl; [by exists hs, i, O|]. simpl in Hfuel.
  case_if; [by exists hs, i, O|]. case_decide as Hg.
  - set (n := skip_tokens _ r). destruct (IH hs i (drop n r)) as (hs' & i' & k & -> & ?); [rewrite length_drop; lia|done|].
    exists hs', i', (S (n + k)). split; [|done]. by rewrite drop_drop.
  - destruct (field_char_state hs i (TOKEN ch) ch) as (hs1 & i1 & -> & Hs1); [done..|].
    destruct (IH hs1 i1 r) as (hs' & i' & k & -> & ?); [lia|done|]. by exists hs', i', (S k).
Qed.

(** The place after [k] more octets. *)
Lemma drop_rest (f : frame A) k :
  0 <= pos f < zlen data -> pos f <= zlen data - zlen (drop k (rest_of data f)) <= zlen data.
Proof. intros Hpos. pose proof (zlen_rest f Hpos) as Hr. unfold zlen in *. rewrite length_drop. lia. Qed.

Lemma safe_header_field : safe_case s_header_field (case_header_field settings data).
Proof.
  start_case f. unfold case_header_field. repeat wp_step.
  destruct (field_loop_ok (S (length (rest_of data f))) (header_state (parser f)) (index (parser f)) (rest_of data f))
    as (hs & i & k & Hloop & Hhs); [lia|done|].
  eapply wp_of_outcome; [exact Hloop|]. cbv beta iota. pose proof (drop_rest f k Hpos) as Hrest. unfold move_to.
  destruct (drop k (rest_of data f)) as [|c r]; [change (zlen []) with 0 in *|assert (0 < zlen (c :: r)) by (unfold zlen; simpl; lia)].
  all: repeat wp_step; finish.
Qed.

Lemma value_step_ok_refl x : value_step_ok x x.
Proof. done. Qed.

Lemma value_step_ok_trans x y z : value_step_ok x y -> value_step_ok y z -> value_step_ok x z.
Proof. unfold value_step_ok. naive_solver congruence. Qed.

Lemma content_length_char_ok x ch hs x' :
  content_length_char x ch = Value_next hs x' -> value_state hs = true /\ value_step_ok x x'.
Proof.
  unfold content_length_char. case_if; [intros [= <- <-]; done|]. destruct (IS_NUM ch) eqn:En; [simpl|done].
  apply IS_NUM_digit in En. destruct (more_digits _ _ _) eqn:Em; [|done]. intros [= <- <-]. split; [done|].
  split_and!; [done..|]. simpl. intros [Hl0 _]. by apply small_fits, (more_digits_bound 10 (content_length x) (ch - chr "0")).
Qed.

Lemma value_char_ok hs x ch :
  value_state hs = true ->
  exists r, value_char hs x ch = Some r /\
    match r with Value_next hs' x' => value_state hs' = true /\ value_step_ok x x' | Value_bad _ => True end.
Proof.
  intros Hv. destruct hs; try done; simpl; eexists; (split; [done|]).
  all: repeat case_match; simplify_eq; try done.
  all: first [by eapply content_length_char_ok|split; [by apply (match_name_state _ _ _ _ _ _ value_state)|done]].
Qed.

Lemma scan_value_le l n k rest k' :
  scan_value l n k rest = Scan_stop k' \/ scan_value l n k rest = Scan_bad k' -> (k <= k')%nat.
Proof.
  revert n k. induction rest as [|ch rest IH]; intros [|n] k; simpl; try (by intros [|]).
  repeat case_if; [intros [[= <-]|]; done|intros [|[= <-]]; done|]. intros Hs. apply IH in Hs. lia.
Qed.

(** How the loop over a value ends. *)
Definition value_end_ok (e : value_end) (rest : list Z) : Prop :=
  match e with
  | Value_end => rest = []
  | Value_line => exists ch r, rest = ch :: r
  | Value_error e _ => bad_errno e
  end.

Lemma value_loop_ok fuel l hs x rest :
  (length rest < fuel)%nat -> value_state hs = true ->
  exists e hs' x' k, value_loop fuel l hs x rest = Ret (e, hs', x', drop k rest) /\
    (~ (exists e' b, e = Value_error e' b) -> value_state hs' = true) /\ value_step_ok x x' /\ value_end_ok e (drop k rest).
Proof.
  revert hs x rest. induction fuel as [|fuel IH]; intros hs x rest Hfuel Hs; [lia|].
  destruct rest as [|ch r]; [by exists Value_end, hs, x, O|]. cbn [value_loop]. simpl in Hfuel.
  destruct ((ch =? CR) || (ch =? LF)) eqn:E1; [exists Value_line, hs, x, O; split_and!; try done; by eexists _, _|].
  destruct (negb l && negb (IS_HEADER_CHAR ch)) eqn:E2; [by exists (Value_error HPE_INVALID_HEADER_TOKEN false), hs, x, O|].
  case_decide as Hg.
  - assert (forall k, (0 < k)%nat -> (length (drop k (ch :: r)) < fuel)%nat) as Hk
      by (intros k Hk; rewrite length_drop; simpl; lia).
    set (n := Z.to_nat _). destruct (scan_value l n 0 (ch :: r)) as [k|k|] eqn:Escan.
    + destruct n as [|n]; [done|]. simpl in Escan. rewrite E1, E2 in Escan.
      destruct (IH hs x (drop k (ch :: r))) as (e & hs' & x' & k' & -> & ?); [apply Hk|done|].
      { pose proof (scan_value_le l n 1 r k (or_introl Escan)). lia. }
      exists e, hs', x', (k + k')%nat. by rewrite <- drop_drop.
    + by exists (Value_error HPE_INVALID_HEADER_TOKEN false), hs, x, k.
    + set (k := if Nat.eqb _ _ then _ else _). destruct (IH hs x (drop k (ch :: r))) as (e & hs' & x' & k' & -> & ?); [apply Hk|done|].
      { subst k. destruct (Nat.eqb_spec n (length (ch :: r))) as [->|]; simpl; lia. }
      exists e, hs', x', (k + k')%nat. by rewrite <- drop_drop.
  - destruct (value_char_ok hs x ch Hs) as ([hs1 x1|hs1] & -> & Hr).
    + destruct Hr as [Hs1 Hx1]. destruct (IH hs1 x1 r) as (e & hs' & x' & k & -> & ? & ? & ?); [lia|done|].
      exists e, hs', x', (S k). split_and!; try done. by eapply value_step_ok_trans.
    + exists (Value_error HPE_INVALID_CONTENT_LENGTH true), hs1, x, O. split_and!; try done. intros Hne. destruct Hne. eauto.
Qed.

Lemma safe_header_value : safe_case s_header_value (case_header_value settings data).
Proof.
  start_case f. unfold case_header_value. repeat wp_step.
  destruct (value_loop_ok (S (length (rest_of data f))) (lenient f) (header_state (parser f)) (parser f) (rest_of data f))
    as (e & hs & x' & k & Hloop & Hhs & (He' & Hn' & Hl') & Hend); [lia|done|].
  eapply wp_of_outcome; [exact Hloop|]. cbv beta iota. specialize (Hl' Hl). rewrite He in He'. rewrite <- Hn' in Hpn.
  pose proof (drop_rest f k Hpos) as Hrest. unfold move_to, SET_ERRNO.
  destruct e as [| |e st].
  - rewrite Hend in *. change (zlen []) with 0 in *. specialize (Hhs ltac:(naive_solver)). repeat wp_step; finish.
  - destruct Hend as (c & r & Er). rewrite Er in *. assert (0 < zlen (c :: r)) by (unfold zlen; simpl; lia).
    repeat wp_step; finish.
  - destruct Hend. destruct st; repeat wp_step; (split; [simpl; by intros [|]|simpl; lia]).
Qed.

(** ** The loop over the characters *)

#[local] Hint Resolve safe_dead safe_start_req_or_res safe_start_res safe_res_http_end safe_res_first_status_code
  safe_res_status_code safe_res_status safe_req_http_start safe_req_http_end safe_req_line_almost_done
  safe_header_almost_done safe_chunk_parameters safe_chunk_data_done safe_chunk_data_almost_done
  safe_chunk_size_almost_done safe_res_status_start safe_header_value_lws safe_header_value_discard_lws
  safe_header_field_start safe_message_done safe_res_or_resp_H safe_start_req safe_req_method
  safe_req_spaces_before_url safe_req_schema safe_req_url safe_headers_almost_done safe_headers_done
  safe_body_identity safe_body_identity_eof safe_chunk_size_start safe_chunk_size safe_chunk_data
  safe_header_value_discard_ws safe_header_field safe_header_value : http_safe.

Lemma safe_dispatch s ch : safe_case s (dispatch settings data s ch).
Proof.
  destruct s; simpl; first [by auto with http_safe|apply safe_value_start; by intros []|
    start_case f; unfold case_letter, case_major, case_dot, case_minor; repeat wp_step; finish].
Qed.

(** A character is dealt with in as many steps as the rank of its state and one more. *)
Lemma safe_reexecute fuel ch f :
  frame_ok 1 f -> (rank (p_state f) < fuel)%nat ->
  wp (reexecute settings data fuel ch) f (fun _ g => frame_ok 0 g /\ pos f <= pos g) failed returned.
Proof.
  revert ch f. induction fuel as [|fuel IH]; intros ch f Hf Hr; [lia|].
  simpl. apply wp_seq, wp_look, wp_seq. eapply wp_mono; [..|by apply safe_dispatch]; try done.
  intros [|c] g [Hp Hg]; [by apply wp_pure|]. destruct Hg as [Hg Hrank].
  eapply wp_mono; [..|apply IH; [done|lia]]; try done. intros _ h [Hh Hq]. split; [done|lia].
Qed.

Lemma rank_bound s : (rank s < REEXECUTE_FUEL)%nat.
Proof. destruct s; simpl; unfold REEXECUTE_FUEL; lia. Qed.

Lemma safe_round f :
  frame_ok 0 f -> wp (round settings data) f (fun _ g => frame_ok 0 g /\ pos f <= pos g) failed returned.
Proof.
  intros Hf. pose proof Hf as [He Hl Hn Hpn Hst Hpos Hmk]. unfold round. apply wp_seq, wp_look, wp_seq.
  eapply (wp_of_outcome _ _ _ _ _ (znth data (pos f))); [by rewrite aget_znth|]. apply wp_seq, wp_look, wp_seq, wp_if; intros Hph.
  - apply wp_COUNT_HEADER_SIZE; [lia..|]. intros Hc. eapply wp_mono; [..|apply safe_reexecute; [|apply rank_bound]]; try done.
    split; simpl; try done; [lia|]. destruct (p_state f); simpl in *; try done. destruct Hst as [-> ?]. done.
  - apply wp_pure, safe_reexecute; [|apply rank_bound]. split; try done. by destruct (p_state f).
Qed.

(** A frame at the head of the loop. *)
Record loop_ok (f : frame A) : Prop := {
  lo_errno : http_errno (parser f) = HPE_OK;
  lo_length : fits 64 (content_length (parser f));
  lo_local : 0 <= local_nread f <= max_header_size;
  lo_nread : 0 <= nread (parser f) <= max_header_size;
  lo_state : state_inv 0 (p_state f) (parser f) (local_nread f);
  lo_pos : 0 <= pos f <= zlen data;
  lo_mark : forall d m, mark_of f d = Some m -> mark_state d (p_state f) = true
    /\ 0 <= m <= pos f
}.

Lemma loop_frame f : loop_ok f -> pos f <> zlen data -> frame_ok 0 f.
Proof. intros [] Hp. split; try done. lia. Qed.

Lemma frame_loop f : frame_ok 0 f -> loop_ok (with_pos f (pos f + 1)).
Proof.
  intros [? ? ? ? ? ? Hmk]. split; simpl; try done; [lia|]. intros d m Hm.
  assert (mark_of f d = Some m) as Hd by (by destruct d). destruct (Hmk d m Hd). split; [done|lia].
Qed.

Lemma safe_char_loop fuel f :
  loop_ok f -> zlen data - pos f < Z.of_nat fuel ->
  wp (char_loop settings data fuel) f (fun _ g => loop_ok g /\ pos g = zlen data) failed returned.
Proof.
  revert f. induction fuel as [|fuel IH]; intros f Hf Hfuel; [pose proof (lo_pos _ Hf); lia|].
  simpl. apply wp_seq, wp_look, wp_if; intros Hp; [apply wp_pure; split; [done|lia]|].
  apply wp_seq. eapply wp_mono; [..|apply safe_round, loop_frame; [done|lia]]; try done.
  intros _ g [Hg Hpg]. apply wp_seq, wp_change, IH; [by apply frame_loop|simpl; lia].
Qed.

Lemma mark_state_inj d d' s : mark_state d s = true -> mark_state d' s = true -> d = d'.
Proof. by destruct s, d, d'. Qed.

Lemma one_mark f :
  loop_ok f ->
  is_set (header_field_mark f) + is_set (header_value_mark f) + is_set (url_mark f) + is_set (body_mark f)
    + is_set (status_mark f) <= 1.
Proof.
  intros Hf. assert (forall d d' m m', mark_of f d = Some m -> mark_of f d' = Some m' -> d = d') as Hinj.
  { intros d d' m m' Hm Hm'. apply (lo_mark _ Hf) in Hm as [? _], Hm' as [? _]. by eapply mark_state_inj. }
  pose proof (Hinj header_field) as H1. pose proof (Hinj header_value) as H2. pose proof (Hinj url) as H3.
  pose proof (Hinj body) as H4.
  destruct (header_field_mark f) eqn:E1, (header_value_mark f) eqn:E2, (url_mark f) eqn:E3, (body_mark f) eqn:E4,
    (status_mark f) eqn:E5; simpl; try lia; exfalso.
  all: first [discriminate (H1 header_value _ _ E1 E2)|discriminate (H1 url _ _ E1 E3)|discriminate (H1 body _ _ E1 E4)
    |discriminate (H1 status _ _ E1 E5)|discriminate (H2 url _ _ E2 E3)|discriminate (H2 body _ _ E2 E4)
    |discriminate (H2 status _ _ E2 E5)|discriminate (H3 body _ _ E3 E4)|discriminate (H3 status _ _ E3 E5)
    |discriminate (H4 status _ _ E4 E5)].
Qed.

Lemma loop_called f g d : loop_ok f -> called f g -> loop_ok (set_mark g d None).
Proof.
  intros [? ? ? ? ? ? Hmk] [->|[a ->]]; split; try by destruct d.
  all: intros d' m Hm; assert (mark_of f d' = Some m) as Hd by (by destruct d, d').
  all: destruct (Hmk d' m Hd); by destruct d.
Qed.

Lemma loop_parser_ok f :
  loop_ok f -> parser_ok (with_parser_state (with_nread (parser f) (local_nread f)) (p_state f)).
Proof. intros [? ? ? ? Hst ? ?]. by split. Qed.

(** A mark is left only in states that do not depend on the octets read. *)
Lemma wp_leftover d f (Q : unit -> frame A -> Prop) :
  loop_ok f -> (forall g, loop_ok g -> Q tt g) -> wp (CALLBACK_DATA_NOADVANCE settings d) f Q failed returned.
Proof.
  intros Hf HQ. unfold CALLBACK_DATA_NOADVANCE. apply wp_seq, wp_look. pose proof Hf as [He Hl Hn Hpn Hst Hpos Hmk].
  destruct (mark_of f d) as [m|] eqn:Em.
  - apply wp_CALLBACK_DATA_; [done| |done|intros g Hg; by eapply HQ, loop_called].
    destruct (Hmk d m Em) as [Hd _]. split; simpl; [done|done|]. by destruct (p_state f), d.
  - unfold CALLBACK_DATA_. apply wp_seq, wp_look, wp_seq, wp_assert; [by apply bool_decide_eq_true|].
    apply wp_seq, wp_look. rewrite Em. by apply wp_pure, HQ.
Qed.

(** How the function ends. *)
Definition ended (v : Z) (x : http_parser) : Prop :=
  0 <= v <= zlen data /\ (resumable x -> parser_ok x) /\ (http_errno x = HPE_OK -> v = zlen data \/ upgrade x = true).

Lemma safe_run_leftover f :
  loop_ok f -> pos f = zlen data ->
  wp (run_leftover settings data) f (fun v g => ended v (parser g)) failed (fun v g => ended v (parser g)).
Proof.
  intros Hf Hpos. unfold run_leftover. apply wp_seq, wp_look, wp_seq, wp_assert; [apply Z.leb_le, (one_mark f Hf)|].
  assert (forall v g, returned v g -> ended v (parser g)) as Hret by (unfold returned, ended; naive_solver).
  eapply (wp_mono _ _ (fun v g => ended v (parser g)) _ failed _ (fun v g => returned v g \/ ended v (parser g))); [done|done|naive_solver|].
  do 5 (apply wp_seq; eapply wp_mono; [|done|by left|apply (wp_leftover _ _ (fun _ => loop_ok)); [done|done]]; intros ?u ?f ?Hf).
  apply wp_RETURN. right. simpl. split; [pose proof (zlen_nonneg data); lia|]. split; [intros _; by apply loop_parser_ok|by left].
Qed.

Lemma entry_ok x a : parser_ok x -> http_errno x = HPE_OK -> loop_ok (entry x a).
Proof.
  intros [Hl Hn Hst] He. split; try done; simpl; [pose proof (zlen_nonneg data); lia|].
  intros d m. destruct d; simpl; case_match; try done; intros [= <-]; (split; [|lia]).
  all: try match goal with E : bool_decide _ = true |- _ => apply bool_decide_eq_true in E; by rewrite E end.
  all: by destruct (parser_state x).
Qed.

Lemma safe_error_exit f :
  failed f -> exists g v, error_exit f = Ret (g, Return v) /\ ended v (parser g).
Proof.
  intros [Hbad Hpos]. unfold resumable in *. unfold error_exit, get, mbind, exec_bind, RETURN. rewrite decide_False by tauto.
  eexists _, _. split; [done|]. unfold ended, resumable. simpl. naive_solver.
Qed.

End Callbacks.
End Safe.
