(* ===== verification/HttpRequest.v ===== *)
(** Requests through the parser: a request line, header lines and a body make
    exactly the callbacks that a reader of the request expects, in order and
    with the places of the URL, the names, the values and the body. *)

From Stdlib Require Import Ascii.
From S2P Require Import Prelude CString HttpTypes HttpParser HttpSafe.

Import String.StringSyntax.

Lemma zlen_cons {X} (x : X) l : zlen (x :: l) = zlen l + 1.
Proof. unfold zlen. simpl. lia. Qed.

(** ** Events *)

(** A callback, with the place of its data. *)
Inductive event :=
| Notify (n : notify_cb)
| Headers_complete
| Data (d : data_cb) (off len : Z).

Section Play.
Context `{stops : Stops} {A : Type} (settings : http_parser_settings A).

(** The callback of an event; one that is not set does nothing. *)
Definition fire (e : event) (a : A) (x : http_parser) : outcome (A * http_parser * Z) :=
  match e with
  | Notify n => match on_notify settings n with Some cb => cb a x | None => Ret (a, x, 0) end
  | Headers_complete => match on_headers_complete settings with Some cb => cb a x | None => Ret (a, x, 0) end
  | Data d off len => match on_data settings d with Some cb => cb a x off len | None => Ret (a, x, 0) end
  end.

(** The callback of [e], called by the application [a] on a parser that has no
    error and, but for the first event, is for method [m], succeeds, leaves the
    parser alone and makes the application one of [P], or it stops. *)
Definition happens (m : http_method) (e : event) (a : A) (P : A -> Prop) : Prop :=
  (exists a', (forall x, e = Notify message_begin \/ method x = m -> http_errno x = HPE_OK -> fire e a x = Ret (a', x, 0)) /\ P a') \/
  (exists o, may_stop o /\ forall x, e = Notify message_begin \/ method x = m -> http_errno x = HPE_OK -> fire e a x = stopped o).

(** The same for events one after the other. *)
Fixpoint plays (m : http_method) (es : list event) (a : A) (P : A -> Prop) : Prop :=
  match es with
  | [] => P a
  | e :: es => happens m e a (fun a' => plays m es a' P)
  end.

Lemma happens_mono m e a (P P' : A -> Prop) : (forall a', P a' -> P' a') -> happens m e a P -> happens m e a P'.
Proof. unfold happens. naive_solver. Qed.

Lemma plays_app m es es' a P : plays m (es ++ es') a P <-> plays m es a (fun a' => plays m es' a' P).
Proof.
  revert a. induction es as [|e es IH]; intros a; [done|]. simpl. split; apply happens_mono; intros a'; by rewrite IH.
Qed.

End Play.
(** ** Frames *)

Section Request.
Context `{HttpConfig} `{stops : Stops} {A : Type} (settings : http_parser_settings A) (data : list Z).
Hypothesis max_size : 0 <= max_header_size < 2 ^ 31.

Definition no_marks : data_cb -> option Z := fun _ => None.
Definition marked (d : data_cb) (i : Z) : data_cb -> option Z := fun d' => if decide (d' = d) then Some i else None.

(** Reading a request for [m]: state [s], [k] octets of header, [suf] ahead,
    the marks [mk]; the flags and the content length so far. *)
Record at_ (f : frame A) (s : state) (k : Z) (suf : list Z) (a : A) (m : http_method) (fl cl : Z) (mk : data_cb -> option Z) : Prop := {
  at_type : type (parser f) = HTTP_REQUEST;
  at_flags : flags (parser f) = fl;
  at_length : content_length (parser f) = cl;
  at_method : method (parser f) = m;
  at_errno : http_errno (parser f) = HPE_OK;
  at_app : app f = a;
  at_state : p_state f = s;
  at_nread : local_nread f = k;
  at_pos : 0 <= pos f;
  at_rest : drop (Z.to_nat (pos f)) data = suf;
  at_marks : forall d, mark_of f d = mk d
}.

Lemma drop_next (p : Z) c suf : 0 <= p -> drop (Z.to_nat p) data = c :: suf -> drop (Z.to_nat (p + 1)) data = suf.
Proof.
  intros Hp Hd. replace (Z.to_nat (p + 1)) with (Z.to_nat p + 1)%nat by lia. rewrite <- drop_drop, Hd. done.
Qed.

Lemma drop_aget (p : Z) c suf : 0 <= p -> drop (Z.to_nat p) data = c :: suf -> aget data p = Some c /\ p < zlen data.
Proof.
  intros Hp Hd. unfold aget. rewrite decide_True by done.
  pose proof (f_equal (lookup 0%nat) Hd) as Hl. rewrite lookup_drop, Nat.add_0_r in Hl. split; [done|].
  apply (f_equal length) in Hd. rewrite length_drop in Hd. simpl in Hd. unfold zlen. lia.
Qed.

Lemma drop_more (p : Z) l suf : 0 <= p -> drop (Z.to_nat p) data = l ++ suf -> drop (Z.to_nat (p + zlen l)) data = suf.
Proof.
  intros Hp Hd. unfold zlen. replace (Z.to_nat (p + Z.of_nat (length l))) with (Z.to_nat p + length l)%nat by lia.
  by rewrite <- drop_drop, Hd, drop_app_length.
Qed.

Lemma drop_place (p : Z) suf : 0 <= p -> drop (Z.to_nat p) data = suf -> suf <> [] -> p = zlen data - zlen suf.
Proof.
  intros Hp Hd Hne. assert (length suf <> O) by (by destruct suf). apply (f_equal length) in Hd. rewrite length_drop in Hd.
  unfold zlen. lia.
Qed.

Lemma wp_count_ok v f k (Q : unit -> frame A -> Prop) E R :
  local_nread f = k -> 0 <= k -> 0 <= v -> k + v <= max_header_size -> Q tt (with_local_nread f (k + v)) ->
  wp (COUNT_HEADER_SIZE v) f Q E R.
Proof.
  intros Hn Hk Hv Hmax HQ. unfold COUNT_HEADER_SIZE. apply wp_seq, wp_change, wp_seq, wp_look.
  assert (u32 (local_nread f + u32 v) = k + v) as ->.
  { rewrite Hn. unfold wrap. rewrite (Z.mod_small v) by lia. apply Z.mod_small. lia. }
  apply wp_if; simpl; [lia|]. intros _. by apply wp_pure.
Qed.

(** The next character. *)
Definition counted (s : state) : Z := if PARSING_HEADER s then 1 else 0.

Lemma wp_char n f s k c suf a m fl cl mk Q E R :
  at_ f s k (c :: suf) a m fl cl mk -> 0 <= k -> k + counted s <= max_header_size ->
  (forall g, parser g = parser f -> at_ g s (k + counted s) (c :: suf) a m fl cl mk -> pos g = pos f -> lenient g = lenient f ->
     wp (dispatch settings data s c) g
       (fun j g => match j with
                   | Break => wp (char_loop settings data n) (with_pos g (pos g + 1)) Q E R
                   | Reexecute c =>
                       wp (reexecute settings data 3 c) g (fun _ g => wp (char_loop settings data n) (with_pos g (pos g + 1)) Q E R) E R
                   end) E R) ->
  wp (char_loop settings data (S n)) f Q E R.
Proof.
  intros Hf Hk Hmax HQ. pose proof Hf as [? ? ? ? ? ? Hs Hn Hp Hr ?]. destruct (drop_aget _ _ _ Hp Hr) as [Hg Hlt].
  cbn [char_loop]. apply wp_seq, wp_look, wp_if; [lia|]. intros _. apply wp_seq. unfold round.
  apply wp_seq, wp_look, wp_seq. eapply wp_of_outcome; [by rewrite Hg|]. apply wp_seq, wp_look, wp_seq. rewrite Hs.
  assert (forall g, parser g = parser f -> at_ g s (k + counted s) (c :: suf) a m fl cl mk -> pos g = pos f -> lenient g = lenient f ->
    wp (reexecute settings data REEXECUTE_FUEL c) g
      (fun _ g => wp (modify (fun f => with_pos f (pos f + 1)) ≫= (fun _ => char_loop settings data n)) g Q E R) E R) as Hre.
  { intros g Hpg Hat Hpos Hlen. cbn [reexecute REEXECUTE_FUEL]. apply wp_seq, wp_look. rewrite (at_state _ _ _ _ _ _ _ _ _ Hat).
    apply wp_seq. eapply wp_mono; [| | |by apply HQ]; [|done..]. intros [|c'] h Hh; [apply wp_pure|]; [exact Hh|].
    eapply wp_mono; [| | |exact Hh]; [|done..]. intros u h' Hh'. exact Hh'. }
  unfold counted in *. apply wp_if; intros Eh; rewrite Eh in *.
  - unfold COUNT_HEADER_SIZE. apply wp_seq, wp_change, wp_seq, wp_look.
    assert (u32 (local_nread f + u32 1) = k + 1) as Hu by (rewrite Hn; unfold wrap; rewrite Z.mod_small by (change (1 mod 2 ^ 32) with 1; lia); done).
    simpl. rewrite Hu. apply wp_if; [lia|]. intros _. apply wp_pure, Hre; try done; by split.
  - apply wp_pure, Hre; try done. by rewrite Z.add_0_r.
Qed.

(** ** Callbacks that succeed *)

(** What [called] means when the application becomes [a]. *)
Definition calls_to (f : frame A) (a : A) (g : frame A) : Prop :=
  g = with_app f a \/ g = with_app (with_parser f (with_parser_state (parser f) (p_state f))) a.

Lemma wp_run_ok e (call : A -> http_parser -> outcome (A * http_parser * Z)) er f a' (Q : unit -> frame A -> Prop) E R :
  http_errno (parser f) = HPE_OK ->
  call (app f) (with_parser_state (parser f) (p_state f)) = Ret (a', with_parser_state (parser f) (p_state f), 0) ->
  (forall g, calls_to f a' g -> Q tt g) -> wp (run_callback e call er) f Q E R.
Proof.
  intros He Hc HQ. unfold run_callback. apply wp_seq, wp_change, wp_seq. unfold wp at 1, enter. cbn [app parser with_parser].
  rewrite Hc. cbn [mbind outcome_bind]. apply wp_seq, wp_pure, wp_seq, wp_change, wp_seq, wp_look, wp_decide; [|done].
  intros _. apply wp_pure, HQ. by right.
Qed.

Lemma wp_run_stopped e (call : A -> http_parser -> outcome (A * http_parser * Z)) er f o (Q : unit -> frame A -> Prop) E R :
  call (app f) (with_parser_state (parser f) (p_state f)) = stopped o -> may_stop o -> wp (run_callback e call er) f Q E R.
Proof.
  intros Hc Ho. unfold run_callback. apply wp_seq, wp_change, wp_seq. apply (wp_stopped _ _ o); [|done]. unfold enter.
  cbn [app parser with_parser]. rewrite Hc. by destruct o.
Qed.

Lemma app_same (f : frame A) : with_app f (app f) = f.
Proof. by destruct f. Qed.

(** The events as the callbacks that make them. *)
Lemma wp_notify m n er f P (Q : unit -> frame A -> Prop) E R :
  http_errno (parser f) = HPE_OK -> n = message_begin \/ method (parser f) = m ->
  happens settings m (Notify n) (app f) P ->
  (forall a' g, P a' -> calls_to f a' g -> Q tt g) -> wp (CALLBACK_NOTIFY_ settings n er) f Q E R.
Proof.
  intros He Hm Hfire HQ. unfold CALLBACK_NOTIFY_. apply wp_seq, wp_look, wp_seq, wp_assert; [by apply bool_decide_eq_true|].
  set (x := with_parser_state (parser f) (p_state f)).
  assert (Notify n = Notify message_begin \/ method x = m) as Hx by (destruct Hm as [->|]; [by left|by right]).
  destruct Hfire as [(a' & Hfire & HP)|(o & Ho & Hfire)]; specialize (Hfire x Hx He); simpl in Hfire.
  - destruct (on_notify settings n) as [cb|]; [eapply wp_run_ok; [done..|]; intros g; by apply HQ|].
    injection Hfire as <-. apply wp_pure, (HQ _ _ HP). left. by rewrite app_same.
  - destruct (on_notify settings n) as [cb|]; [by eapply wp_run_stopped|by destruct o].
Qed.

Lemma wp_data m d at_ er f i P (Q : unit -> frame A -> Prop) E R :
  http_errno (parser f) = HPE_OK -> method (parser f) = m -> mark_of f d = Some i ->
  happens settings m (Data d i (at_ - i)) (app f) P ->
  (forall a' g, P a' -> calls_to f a' g -> Q tt (set_mark g d None)) -> wp (CALLBACK_DATA_ settings d at_ er) f Q E R.
Proof.
  intros He Hm Hi Hfire HQ. unfold CALLBACK_DATA_. apply wp_seq, wp_look, wp_seq, wp_assert; [by apply bool_decide_eq_true|].
  apply wp_seq, wp_look. rewrite Hi. apply wp_seq.
  destruct Hfire as [(a' & Hfire & HP)|(o & Ho & Hfire)];
    specialize (Hfire (with_parser_state (parser f) (p_state f)) (or_intror Hm) He); simpl in Hfire.
  - destruct (on_data settings d) as [cb|]; [eapply wp_run_ok; [done..|]; intros g Hg; by apply wp_change, (HQ a')|].
    injection Hfire as <-. apply wp_pure, wp_change, (HQ _ _ HP). left. by rewrite app_same.
  - destruct (on_data settings d) as [cb|]; [by eapply wp_run_stopped|by destruct o].
Qed.

Lemma data_none d at_ er f (Q : unit -> frame A -> Prop) E R :
  http_errno (parser f) = HPE_OK -> mark_of f d = None -> Q tt f -> wp (CALLBACK_DATA_ settings d at_ er) f Q E R.
Proof.
  intros He Hi HQ. unfold CALLBACK_DATA_. apply wp_seq, wp_look, wp_seq, wp_assert; [by apply bool_decide_eq_true|].
  apply wp_seq, wp_look. rewrite Hi. by apply wp_pure.
Qed.

(** ** The method *)

(** A letter of a method. *)
Definition method_step (m : http_method) (i c : Z) : option http_method :=
  if c =? znth (method_strings m ++ [0]) i then Some m
  else if ((chr "A" <=? c) && (c <=? chr "Z")) || (c =? chr "-") then next_method m i c
  else None.

Fixpoint method_walk (m : http_method) (i : Z) (l : list Z) : option http_method :=
  match l with
  | [] => if i =? zlen (method_strings m) then Some m else None
  | c :: l => if c =? 0 then None else m ← method_step m i c; method_walk m (i + 1) l
  end.

(** The trie of the source reaches every method by its name. *)
Lemma method_walk_all m :
  exists c l m1, method_strings m = c :: l /\ IS_ALPHA c = true /\ c <> CR /\ c <> LF /\ first_method c = Some m1 /\
    method_walk m1 1 l = Some m.
Proof. destruct m; eexists _, _, _; repeat split; try by vm_compute. Qed.

(** The steps of a program that do not branch. *)
Ltac run :=
  repeat lazymatch goal with
  | |- wp (mbind _ _) _ _ _ _ => apply wp_seq
  | |- wp (mret _) _ _ _ _ => apply wp_pure
  | |- wp (get _) _ _ _ _ => apply wp_look
  | |- wp (modify _) _ _ _ _ => apply wp_change
  | |- wp (update _) _ _ _ _ => apply wp_update
  | |- wp (UPDATE_STATE _) _ _ _ _ => apply wp_UPDATE_STATE
  | |- wp (goes_to _) _ _ _ _ => unfold goes_to
  | |- wp break _ _ _ _ => unfold break
  | |- wp begin_message _ _ _ _ => unfold begin_message
  | |- wp (STRICT_CHECK false) _ _ _ _ => unfold STRICT_CHECK; rewrite andb_false_r
  end.

(** The branch that is taken. *)
Ltac absurd_branch := intros ?Hb; exfalso; first [discriminate Hb|simpl in Hb; lia].
Ltac yes := apply wp_if; [intros _|absurd_branch]; run.
Ltac no := apply wp_if; [absurd_branch|intros _]; run.

(** There is room for the character. *)
Ltac room := unfold counted; simpl; lia.

(** A frame derived from one of which all is known. *)
Ltac at_tac :=
  repeat match goal with Hat : at_ _ _ _ _ _ _ _ _ _ |- _ => destruct Hat end;
  unfold counted in *; cbn [PARSING_HEADER] in *; split; simpl; try done; try lia; try congruence; try (eapply drop_next; [|eassumption]; lia);
  try match goal with Hmk : forall d, mark_of _ d = _ |- forall d, _ =>
    let d := fresh "d" in intros d; specialize (Hmk d); unfold marked, no_marks in *; destruct d; simpl in *; repeat case_decide; congruence end.

Lemma wp_start n f c suf a m0 fl cl m1 P Q E R :
  at_ f s_start_req 0 (c :: suf) a m0 fl cl no_marks -> 1 <= max_header_size ->
  IS_ALPHA c = true -> c <> CR -> c <> LF -> first_method c = Some m1 ->
  happens settings m1 (Notify message_begin) a P ->
  (forall a' g, P a' -> at_ g s_req_method 1 suf a' m1 0 ULLONG_MAX no_marks -> index (parser g) = 1 -> wp (char_loop settings data n) g Q E R) ->
  wp (char_loop settings data (S n)) f Q E R.
Proof.
  intros Hf Hmax Ha Hc1 Hc2 Hm Hfire HQ. eapply wp_char; [done|lia|room|]. intros g Hpg Hat _ _.
  cbn [dispatch]. unfold case_start_req. rewrite (proj2 (Z.eqb_neq c CR)), (proj2 (Z.eqb_neq c LF)) by done. simpl orb. cbn iota.
  run. rewrite Ha. cbn [negb]. cbn iota. run. rewrite Hm. run. unfold CALLBACK_NOTIFY. run.
  eapply (wp_notify m1); [apply Hat|by left| |].
  - simpl. rewrite (at_app _ _ _ _ _ _ _ _ _ Hat). exact Hfire.
  - intros a' h HP [->| ->]; run; apply (HQ a'); [done|at_tac|done|done|at_tac|done].
Qed.

Lemma wp_char_at_exact l i f (Q : Z -> frame A -> Prop) E R :
  0 <= i <= zlen l -> Q (znth (l ++ [0]) i) f -> wp (char_at l i) f Q E R.
Proof.
  intros Hi HQ. unfold wp, char_at. rewrite aget_znth by (rewrite zlen_app; change (zlen [0]) with 1; lia). exact HQ.
Qed.

Lemma method_step_bound m i c m' :
  method_step m i c = Some m' -> c <> 0 -> 0 <= i <= zlen (method_strings m) -> i + 1 <= zlen (method_strings m').
Proof.
  unfold method_step. intros Hs Hc Hi. destruct (c =? _) eqn:Ec.
  - injection Hs as <-. destruct (decide (i = zlen (method_strings m))) as [->|]; [exfalso|lia].
    apply Z.eqb_eq in Ec. rewrite znth_app, decide_False, Z.sub_diag in Ec by lia. done.
  - destruct (_ || _); [|done]. by eapply next_method_long.
Qed.

(** The rest of the letters, up to the space. *)
Lemma wp_method l n f k i suf a m1 m fl cl Q E R :
  at_ f s_req_method k (l ++ chr " " :: suf) a m1 fl cl no_marks -> index (parser f) = i -> 0 <= i <= zlen (method_strings m1) ->
  0 <= k -> k + zlen l + 1 <= max_header_size -> method_walk m1 i l = Some m ->
  (forall g, at_ g s_req_spaces_before_url (k + zlen l + 1) suf a m fl cl no_marks -> wp (char_loop settings data n) g Q E R) ->
  wp (char_loop settings data (S (length l + n))) f Q E R.
Proof.
  revert f k i m1. induction l as [|c l IH]; intros f k i m1 Hf Hi H0 Hk Hmax Hw HQ; simpl in Hw, Hf.
  - change (zlen []) with 0 in *. destruct (i =? _) eqn:Ei; [|done]. apply Z.eqb_eq in Ei. injection Hw as ->.
    eapply wp_char; [done|lia|room|]. intros g Hpg Hat _ _. cbn [dispatch]. unfold case_req_method. no.
    rewrite Hpg, (at_method _ _ _ _ _ _ _ _ _ Hf), Hi. apply wp_char_at_exact; [lia|].
    rewrite znth_app, decide_False by lia. rewrite Ei, Z.sub_diag. run. apply HQ. replace (k + 0 + 1) with (k + 1) by lia. at_tac.
  - destruct (c =? 0) eqn:Ec; [done|]. destruct (method_step m1 i c) as [m2|] eqn:Em; [|done]. simpl in Hw.
    assert (zlen (c :: l) = zlen l + 1) as Hz by (unfold zlen; simpl; lia). pose proof (zlen_nonneg l).
    pose proof (method_step_bound _ _ _ _ Em ltac:(lia) H0) as Hb. pose proof (method_strings_long m2).
    cbn [length Nat.add]. eapply wp_char; [done|lia|room|]. intros g Hpg Hat _ _. cbn [dispatch]. unfold case_req_method.
    no. rewrite Hpg, (at_method _ _ _ _ _ _ _ _ _ Hf), Hi. apply wp_char_at_exact; [lia|].
    assert (forall h, at_ h s_req_method (k + 1) (c :: l ++ chr " " :: suf) a m2 fl cl no_marks -> index (parser h) = i ->
      wp (char_loop settings data (S (length l + n))) (with_pos (with_parser h (index_succ (parser h))) (pos h + 1)) Q E R) as Hnext.
    { intros h Hh Hih. apply (IH _ (k + 1) (i + 1) m2); [at_tac| | |lia|lia|done|].
      - simpl. rewrite Hih. apply Z.mod_small. lia.
      - lia.
      - intros g' Hg'. apply HQ. by replace (k + zlen (c :: l) + 1) with (k + 1 + zlen l + 1) by lia. }
    unfold method_step in Em. set (ch := znth (method_strings m1 ++ [0]) i) in *.
    assert ((c =? chr " ") && (ch =? 0) = false) as ->.
    { destruct (c =? chr " ") eqn:E1; [|done]. destruct (ch =? 0) eqn:E2; [exfalso|done]. apply Z.eqb_eq in E1, E2. subst c.
      rewrite E2 in Em. simpl in Em. done. }
    destruct (c =? ch) eqn:E1.
    + injection Em as <-. run. apply (Hnext g); [at_tac|by rewrite Hpg].
    + destruct (_ || _); [|done]. rewrite Em. run. apply (Hnext (with_parser g (with_method (parser g) m2))); [at_tac|simpl; by rewrite Hpg].
Qed.

(** ** The URL *)

(** The states in which a URL can end. *)
Definition url_done (s : state) : bool :=
  match s with
  | s_req_server | s_req_server_with_at | s_req_path | s_req_query_string_start | s_req_query_string
  | s_req_fragment_start | s_req_fragment => true
  | _ => false
  end.

Definition valid_url (u : list Z) : bool := url_done (fold_left parse_url_char u s_req_spaces_before_url).

Lemma parse_url_dead c : parse_url_char s_dead c = s_dead.
Proof. unfold parse_url_char. by repeat case_match. Qed.

Lemma url_walk_dead l : fold_left parse_url_char l s_dead = s_dead.
Proof. induction l as [|c l IH]; simpl; [done|]. by rewrite parse_url_dead. Qed.

(** Every character of a URL that ends well is one. *)
Lemma url_walk_alive c l s : url_done (fold_left parse_url_char (c :: l) s) = true -> parse_url_char s c <> s_dead.
Proof. simpl. intros Hd Heq. by rewrite Heq, url_walk_dead in Hd. Qed.

Lemma url_char_visible s c :
  parse_url_char s c <> s_dead -> (c =? chr " ") = false /\ (c =? CR) = false /\ (c =? LF) = false.
Proof. unfold parse_url_char. by destruct (c =? chr " "), (c =? CR), (c =? LF). Qed.

Lemma wp_url_alive s c f (Q : unit -> frame A -> Prop) E R :
  p_state f = s -> parse_url_char s c <> s_dead -> Q tt (with_p_state f (parse_url_char s c)) -> wp (url_char c) f Q E R.
Proof.
  intros Hs Ha HQ. unfold url_char. run. rewrite Hs. apply wp_decide; [done|]. intros _. by apply wp_pure.
Qed.

Lemma wp_url_first n f k c suf a m fl cl Q E R :
  at_ f s_req_spaces_before_url k (c :: suf) a m fl cl no_marks -> m <> HTTP_CONNECT -> 0 <= k -> k + 1 <= max_header_size ->
  parse_url_char s_req_spaces_before_url c <> s_dead ->
  (forall g, at_ g (parse_url_char s_req_spaces_before_url c) (k + 1) suf a m fl cl (marked url (pos f)) ->
     wp (char_loop settings data n) g Q E R) ->
  wp (char_loop settings data (S n)) f Q E R.
Proof.
  intros Hf Hm Hk Hmax Ha HQ. destruct (url_char_visible _ _ Ha) as (E1 & _ & _).
  eapply wp_char; [done|lia|room|]. intros g Hpg Hat Hpos _. cbn [dispatch]. unfold case_req_spaces_before_url.
  rewrite E1. run. apply wp_MARK. rewrite (at_marks _ _ _ _ _ _ _ _ _ Hat). run.
  simpl parser. rewrite (at_method _ _ _ _ _ _ _ _ _ Hat). apply wp_decide; [done|]. intros _. run.
  eapply wp_url_alive; [apply Hat|done|]. run. apply HQ. rewrite <- Hpos. at_tac.
Qed.

(** The characters after the first and the space that ends the URL. *)
Lemma wp_url_rest l n f s k i suf a m fl cl P Q E R :
  at_ f s k (l ++ chr " " :: suf) a m fl cl (marked url i) -> mark_state url s = true ->
  0 <= k -> k + zlen l + 1 <= max_header_size -> url_done (fold_left parse_url_char l s) = true ->
  happens settings m (Data url i (pos f + zlen l - i)) a P ->
  (forall a' g, P a' -> at_ g s_req_http_start (k + zlen l + 1) suf a' m fl cl no_marks -> wp (char_loop settings data n) g Q E R) ->
  wp (char_loop settings data (S (length l + n))) f Q E R.
Proof.
  revert f s k. induction l as [|c l IH]; intros f s k Hf Hs Hk Hmax Hd Hfire HQ; simpl in Hd, Hf.
  - change (zlen []) with 0 in *. eapply wp_char; [done|lia|destruct s; room|]. intros g Hpg Hat Hpos _.
    assert (dispatch settings data s (chr " ") = case_req_url settings (chr " ")) as -> by (by destruct s).
    unfold case_req_url. yes. unfold CALLBACK_DATA. run.
    eapply (wp_data m _ _ _ _ i); [apply Hat|apply Hat|exact (at_marks _ _ _ _ _ _ _ _ _ Hat url)| |].
    + simpl. rewrite (at_app _ _ _ _ _ _ _ _ _ Hat), Hpos. by rewrite Z.add_0_r in Hfire.
    + assert (counted s = 1) as Hc by (by destruct s). rewrite Hc in Hat. replace (k + 0 + 1) with (k + 1) in HQ by lia.
      intros a' h HP [->| ->]; run; apply (HQ a'); try done; at_tac.
  - assert (zlen (c :: l) = zlen l + 1) as Hz by (unfold zlen; simpl; lia). pose proof (zlen_nonneg l).
    pose proof (url_walk_alive c l s Hd) as Ha. destruct (url_char_visible _ _ Ha) as (E1 & E2 & E3).
    assert (counted s = 1) as Hc by (by destruct s). cbn [length Nat.add]. eapply wp_char; [done|lia|lia|].
    intros g Hpg Hat Hpos _. rewrite Hc in Hat.
    assert (dispatch settings data s c = (url_char c;; break)) as ->.
    { destruct s; try done; simpl; unfold case_req_schema, case_req_url; by rewrite E1, E2, E3. }
    run. eapply wp_url_alive; [apply Hat|done|]. run. apply (IH _ (parse_url_char s c) (k + 1)); try done; try lia.
    + at_tac.
    + by apply parse_url_char_state.
    + simpl. rewrite Hpos. replace (pos f + 1 + zlen l - i) with (pos f + zlen (c :: l) - i) by lia. done.
    + intros a' g' HP Hg'. apply (HQ a'); [done|]. by replace (k + zlen (c :: l) + 1) with (k + 1 + zlen l + 1) by lia.
Qed.

(** ** The version *)

(** The fields that a request depends on. *)
Definition same_request (x y : http_parser) : Prop :=
  type y = type x /\ flags y = flags x /\ content_length y = content_length x /\ method y = method x /\
  http_errno y = http_errno x.

(** A character of the header that only moves on. *)
Lemma wp_move s' n f s k c suf a m fl cl Q E R :
  at_ f s k (c :: suf) a m fl cl no_marks -> PARSING_HEADER s = true -> 0 <= k -> k + 1 <= max_header_size ->
  (forall g, parser g = parser f -> exists x, same_request (parser g) x /\
     dispatch settings data s c g = Ret (with_p_state (with_parser g x) s', Next Break)) ->
  (forall g, at_ g s' (k + 1) suf a m fl cl no_marks -> wp (char_loop settings data n) g Q E R) ->
  wp (char_loop settings data (S n)) f Q E R.
Proof.
  intros Hf Hs Hk Hmax Hd HQ. assert (counted s = 1) as Hc by (unfold counted; by rewrite Hs).
  eapply wp_char; [done|lia|lia|]. intros g Hpg Hat _ _. rewrite Hc in Hat. destruct (Hd g Hpg) as (x & Hx & Hg).
  unfold wp at 1. rewrite Hg. apply HQ. destruct Hx as (? & ? & ? & ? & ?), Hat. split; simpl; try congruence; try lia; try done.
  by eapply drop_next.
Qed.

(** Computes such a character. *)
Ltac moves_with g x :=
  exists x; split; [done|]; cbn [dispatch]; unfold case_letter, STRICT_CHECK; rewrite ?andb_false_r; destruct g; reflexivity.
Ltac move_to s' :=
  eapply (wp_move s'); [eassumption|done|lia|lia| |let f' := fresh "f" in let Hf' := fresh "Hf" in intros f' Hf'];
  [intros g Hpg; first [moves_with g (parser g)|moves_with g (with_http_major (parser g) 1)
                       |moves_with g (with_http_minor (parser g) 1)]|].

Lemma wp_version n f k suf a m fl cl Q E R :
  at_ f s_req_http_start k (str "HTTP/1.1" ++ CR :: LF :: suf) a m fl cl no_marks -> 0 <= k -> k + 10 <= max_header_size ->
  (forall g, at_ g s_header_field_start (k + 10) suf a m fl cl no_marks -> wp (char_loop settings data n) g Q E R) ->
  wp (char_loop settings data (10 + n)) f Q E R.
Proof.
  intros Hf Hk Hmax HQ. change (str "HTTP/1.1") with [72; 84; 84; 80; 47; 49; 46; 49] in Hf. cbn [Datatypes.app Nat.add] in Hf |- *.
  move_to s_req_http_H. move_to s_req_http_HT. move_to s_req_http_HTT. move_to s_req_http_HTTP. move_to s_req_http_major.
  move_to s_req_http_dot. move_to s_req_http_minor. move_to s_req_http_end. move_to s_req_line_almost_done.
  move_to s_header_field_start. apply HQ. by replace (k + 10) with (k + 1 + 1 + 1 + 1 + 1 + 1 + 1 + 1 + 1 + 1) by lia.
Qed.

(** ** Header lines *)

(** The start of a line: the first one, or one after a value that sets no
    flag. *)
Definition line_at (f : frame A) (k : Z) (suf : list Z) (a : A) (m : http_method) (fl cl : Z) : Prop :=
  at_ f s_header_field_start k suf a m fl cl no_marks \/
  (at_ f s_header_value_lws k suf a m fl cl no_marks /\ value_flag (parser f) = parser f).

Lemma wp_line n f k c suf a m fl cl Q E R :
  line_at f k (c :: suf) a m fl cl -> 0 <= k -> k + 1 <= max_header_size -> c <> chr " " -> c <> 9 ->
  (forall g, at_ g s_header_field_start (k + 1) (c :: suf) a m fl cl no_marks -> pos g = pos f ->
     wp (dispatch settings data s_header_field_start c) g
       (fun j g => j = Break /\ wp (char_loop settings data n) (with_pos g (pos g + 1)) Q E R) E R) ->
  wp (char_loop settings data (S n)) f Q E R.
Proof.
  intros [Hf|[Hf Hv]] Hk Hmax Hc1 Hc2 HQ; (eapply wp_char; [done|lia|room|]); intros g Hpg Hat Hpos _.
  - eapply wp_mono; [| | |apply HQ; [done|done]]; [|done..]. by intros j h [-> Hh].
  - cbn [dispatch]. unfold case_header_value_lws. rewrite (proj2 (Z.eqb_neq c (chr " "))), (proj2 (Z.eqb_neq c 9)) by done.
    cbn [orb]. run. cbn [reexecute]. run. cbn [p_state with_p_state].
    eapply wp_mono; [| | |apply HQ; [|done]]; [|done..|].
    + intros j h [-> Hh]. by apply wp_pure.
    + rewrite Hpg. simpl. rewrite Hv, <- Hpg. at_tac.
Qed.

(** The header state after the first letter of a name. *)
Definition name_state (c : Z) : header_states :=
  if TOKEN c =? chr "c" then h_C
  else if TOKEN c =? chr "p" then h_matching_proxy_connection
  else if TOKEN c =? chr "t" then h_matching_transfer_encoding
  else if TOKEN c =? chr "u" then h_matching_upgrade
  else h_general.

Lemma TOKEN_end : TOKEN CR = 0 /\ TOKEN LF = 0 /\ TOKEN (chr ":") = 0 /\ TOKEN 9 = 0.
Proof. unfold TOKEN. by destruct HTTP_PARSER_STRICT. Qed.

(** A name and its colon. *)
Lemma wp_field n f k c nm suf a m fl cl hs i P Q E R :
  line_at f k (c :: nm ++ chr ":" :: suf) a m fl cl -> c <> chr " " -> TOKEN c <> 0 ->
  field_loop (S (length (nm ++ chr ":" :: suf))) (name_state c) 0 (nm ++ chr ":" :: suf) = Ret (hs, i, chr ":" :: suf) ->
  0 <= k -> k + zlen nm + 2 <= max_header_size -> zlen data < 2 ^ 31 ->
  happens settings m (Data header_field (pos f) (zlen nm + 1)) a P ->
  (forall a' g, P a' -> at_ g s_header_value_discard_ws (k + zlen nm + 2) suf a' m fl cl no_marks -> header_state (parser g) = hs ->
     wp (char_loop settings data n) g Q E R) ->
  wp (char_loop settings data (S (S n))) f Q E R.
Proof.
  intros Hf Hc Ht Hloop Hk Hmax Hlen Hfire HQ. pose proof (zlen_nonneg nm). destruct TOKEN_end as (T1 & T2 & T3 & T4).
  assert (c <> CR) by (by intros ->). assert (c <> LF) by (by intros ->). assert (c <> 9) by (by intros ->).
  eapply wp_line; [done|done|lia|done|done|]. intros g Hat Hpos. cbn [dispatch]. unfold case_header_field_start.
  rewrite (proj2 (Z.eqb_neq c CR)), (proj2 (Z.eqb_neq c LF)), (proj2 (Z.eqb_neq (TOKEN c) 0)) by done. run.
  apply wp_MARK. rewrite (at_marks _ _ _ _ _ _ _ _ _ Hat). run.
  split; [done|]. fold (name_state c).
  assert (exists c2 r2, nm ++ chr ":" :: suf = c2 :: r2) as (c2 & r2 & Er) by (destruct nm; by eexists _, _).
  eapply (wp_char _ _ s_header_field (k + 1) c2 r2 a m fl cl (marked header_field (pos g))); [rewrite <- Er; at_tac|lia|room|].
  intros h Hph Hath Hposh _. rewrite <- Er in Hath.
  cbn [dispatch]. unfold case_header_field, rest_of. run. rewrite (at_rest _ _ _ _ _ _ _ _ _ Hath), Hph.
  eapply wp_of_outcome; [exact Hloop|]. cbv beta iota. unfold move_to. run.
  pose proof (drop_more (pos h) nm (chr ":" :: suf) ltac:(apply Hath) (at_rest _ _ _ _ _ _ _ _ _ Hath)) as Hcolon.
  pose proof (at_pos _ _ _ _ _ _ _ _ _ Hath) as Hp0.
  assert (zlen data - zlen (chr ":" :: suf) = pos h + zlen nm) as Hend by (symmetry; apply drop_place; [lia|done|done]).
  rewrite Hend. cbn [pos with_pos]. replace (pos h + zlen nm - pos h) with (zlen nm) by lia.
  apply (wp_count_ok _ _ (k + 1 + 1)); [apply Hath|lia|lia|lia|]. apply wp_if; [intros _|done]. run.
  unfold CALLBACK_DATA. run.
  eapply (wp_data m _ _ _ _ (pos f)); [apply Hath|apply Hath| | |].
  - simpl. rewrite <- Hpos. exact (at_marks _ _ _ _ _ _ _ _ _ Hath header_field).
  - simpl. rewrite (at_app _ _ _ _ _ _ _ _ _ Hath). rewrite Hposh. simpl. rewrite Hpos.
    replace (pos f + 1 + zlen nm - pos f) with (zlen nm + 1) by lia. done.
  - replace (k + zlen nm + 2) with (k + 1 + 1 + zlen nm) in HQ by lia.
    intros a' h' HP [->| ->]; run; apply (HQ a'); simpl; try done.
    all: clear Hat; at_tac.
Qed.

(** What a value does to flags and length, its first octet [c] and what is
    ahead after that given: it is read up to its line end and sets no flag
    there. *)
Definition value_effect (hs : header_states) (fl cl c : Z) (rest : list Z) (fl' cl' : Z) (suf : list Z) : Prop :=
  forall x l, header_state x = hs -> flags x = fl -> content_length x = cl ->
  exists x1 x2 hs2, start_value x c = inr x1 /\
    value_loop (S (length rest)) l (header_state x1) x1 rest = Ret (Value_line, hs2, x2, CR :: LF :: suf) /\
    type x2 = type x /\ method x2 = method x /\ http_errno x2 = http_errno x /\ flags x2 = fl' /\ content_length x2 = cl' /\
    value_flag (with_header_state x2 hs2) = with_header_state x2 hs2.

Lemma start_value_request x c x1 :
  start_value x c = inr x1 -> type x1 = type x /\ method x1 = method x /\ http_errno x1 = http_errno x.
Proof. unfold start_value. repeat case_match; intros; simplify_eq; done. Qed.

Lemma value_flag_same x y : value_flag x = x -> header_state y = header_state x -> flags y = flags x -> value_flag y = y.
Proof.
  destruct x as [? ? ? hs], y as [? ? ? hs']. simpl. intros Hx -> ->.
  destruct hs; unfold value_flag, connection_flag, set_flag, with_flags in *; simpl in *; congruence.
Qed.

(** A space, a value and its line end. *)
Lemma wp_header_value n f k c vt suf a m fl cl hs fl' cl' P Q E R :
  at_ f s_header_value_discard_ws k (chr " " :: c :: vt ++ CR :: LF :: suf) a m fl cl no_marks -> header_state (parser f) = hs ->
  c <> chr " " -> c <> 9 -> c <> CR -> c <> LF ->
  value_effect hs fl cl c (vt ++ CR :: LF :: suf) fl' cl' suf ->
  0 <= k -> k + zlen vt + 4 <= max_header_size ->
  happens settings m (Data header_value (pos f + 1) (zlen vt + 1)) a P ->
  (forall a' g, P a' -> line_at g (k + zlen vt + 4) suf a' m fl' cl' -> wp (char_loop settings data n) g Q E R) ->
  wp (char_loop settings data (S (S (S (S n))))) f Q E R.
Proof.
  intros Hf Hhs Hc1 Hc2 Hc3 Hc4 Heff Hk Hmax Hfire HQ. pose proof (zlen_nonneg vt).
  eapply wp_char; [done|lia|room|]. intros g Hpg Hat Hpos _. cbn [dispatch]. unfold case_header_value_discard_ws. yes.
  eapply (wp_char _ _ s_header_value_discard_ws (k + 1) c _ a m fl cl no_marks); [at_tac|lia|room|].
  intros h Hph Hath Hposh _. cbn [dispatch]. unfold case_header_value_discard_ws.
  rewrite (proj2 (Z.eqb_neq c (chr " "))), (proj2 (Z.eqb_neq c 9)), (proj2 (Z.eqb_neq c CR)), (proj2 (Z.eqb_neq c LF)) by done.
  cbn [orb]. unfold case_header_value_start. run. apply wp_MARK. rewrite (at_marks _ _ _ _ _ _ _ _ _ Hath).
  change (no_marks header_value) with (@None Z). run. cbn [parser with_p_state set_mark with_header_value_mark with_parser].
  destruct (Heff (with_index (parser h) 0) (lenient h)) as (x1 & x2 & hs2 & Hstart & Hloop & Ht2 & Hm2 & He2 & Hf2 & Hl2 & Hv2).
  1-3: simpl; first [apply Hath|rewrite Hph; simpl; by rewrite Hpg].
  rewrite Hstart. run. destruct (start_value_request _ _ _ Hstart) as (Ht1 & Hm1 & He1). simpl in Ht1, Hm1, He1, Ht2, Hm2, He2.
  assert (exists c2 r2, vt ++ CR :: LF :: suf = c2 :: r2) as (c2 & r2 & Er) by (destruct vt; by eexists _, _).
  assert (at_ (with_pos (with_parser (with_p_state (with_header_value_mark h (Some (pos h))) s_header_value) x1) (pos h + 1))
    s_header_value (k + 2) (c2 :: r2) a m (flags x1) (content_length x1) (marked header_value (pos h))) as Hat1.
  { rewrite <- Er. clear Hat. at_tac. }
  eapply wp_char; [exact Hat1|lia|room|]. clear Hat1. intros g1 Hp1 Hat1 Hpos1 Hlen1. rewrite <- Er in Hat1.
  cbn [dispatch]. unfold case_header_value, rest_of. run. rewrite (at_rest _ _ _ _ _ _ _ _ _ Hat1), Hp1, Hlen1.
  eapply wp_of_outcome; [exact Hloop|]. cbv beta iota. unfold move_to. run.
  pose proof (drop_more (pos g1) vt (CR :: LF :: suf) ltac:(apply Hat1) (at_rest _ _ _ _ _ _ _ _ _ Hat1)) as Hcr.
  pose proof (at_pos _ _ _ _ _ _ _ _ _ Hat1) as Hp0.
  assert (zlen data - zlen (CR :: LF :: suf) = pos g1 + zlen vt) as Hend by (symmetry; apply drop_place; [lia|done|done]).
  rewrite Hend. cbn [pos with_pos]. replace (pos g1 + zlen vt - pos g1) with (zlen vt) by lia.
  apply wp_if; [intros _|done]. run. unfold CALLBACK_DATA. run.
  assert (pos g1 + zlen vt - pos h = zlen vt + 1) as Hvlen by (rewrite Hpos1; simpl; lia).
  assert (pos h = pos f + 1) as Hph' by (rewrite Hposh; simpl; lia).
  eapply (wp_data m _ _ _ _ (pos h)).
  - simpl. rewrite He2. apply Hath.
  - simpl. rewrite Hm2. apply Hath.
  - exact (at_marks _ _ _ _ _ _ _ _ _ Hat1 header_value).
  - simpl. rewrite (at_app _ _ _ _ _ _ _ _ _ Hat1), Hvlen, Hph'. exact Hfire.
  - intros a' g2' HP. assert (forall g2 x, same_request x2 x -> header_state x = hs2 -> parser g2 = x -> app g2 = a' -> p_state g2 = s_header_almost_done ->
      local_nread g2 = k + 3 + zlen vt -> pos g2 = pos g1 + zlen vt + 1 -> (forall d, mark_of g2 d = None) ->
      wp (char_loop settings data (S n)) g2 Q E R) as Hlast.
    { intros g2 x (Hx1 & Hx2 & Hx3 & Hx4 & Hx5) Hxh Hpx Hag Hsg Hng Hpg2 Hmg. subst x.
      assert (at_ g2 s_header_almost_done (k + 3 + zlen vt) (LF :: suf) a' m fl' cl' no_marks) as Hat2.
      { clear Hat Hf. destruct Hath, Hat1. split; try done; try congruence; [lia|]. rewrite Hpg2. by eapply drop_next; [lia|]. }
      eapply wp_char; [exact Hat2|lia|room|]. intros g3 Hp3 Hat3 _ _. cbn [dispatch]. unfold case_header_almost_done. no.
      apply (HQ a'); [done|]. right. split.
      - clear Hat Hf Hath Hat1 Hat2. replace (k + zlen vt + 4) with (k + 3 + zlen vt + 1) by lia. at_tac.
      - simpl. rewrite Hp3. apply (value_flag_same _ _ Hv2); simpl; [by rewrite Hxh|congruence]. }
    intros [->| ->]; run; (eapply (wp_count_ok _ _ (k + 3)); [simpl; rewrite (at_nread _ _ _ _ _ _ _ _ _ Hat1); room|lia|lia|lia|]).
    all: run; eapply Hlast; try reflexivity; try done.
    all: clear Hat Hf Hath; destruct Hat1; simpl; intros d; specialize (at_marks0 d); unfold marked in *;
      destruct d; simpl in *; repeat case_decide; congruence.
Qed.

(** ** Plain headers *)

(** A name whose first letter is not one of those that the parser looks for. *)
Definition plain_name (nm : list Z) : bool :=
  match nm with
  | [] => false
  | c :: nm => negb (c =? chr " ") && bool_decide (name_state c = h_general) && forallb (fun c => negb (TOKEN c =? 0)) (c :: nm)
  end.

Definition field_octet (c : Z) : bool := negb (c =? CR) && negb (c =? LF) && IS_HEADER_CHAR c.

Definition plain_value (v : list Z) : bool :=
  match v with
  | [] => false
  | c :: _ => negb (c =? chr " ") && negb (c =? 9) && forallb field_octet v
  end.

Definition plain_header (h : list Z * list Z) : bool := plain_name h.1 && plain_value h.2.

Definition header_line (h : list Z * list Z) : list Z := h.1 ++ chr ":" :: chr " " :: h.2 ++ [CR; LF].

Definition header_events (off : Z) (h : list Z * list Z) : list event :=
  [Data header_field off (zlen h.1); Data header_value (off + zlen h.1 + 2) (zlen h.2)].

Lemma skip_tokens_le n nm c r :
  TOKEN c = 0 -> (skip_tokens n (nm ++ c :: r) <= length nm)%nat.
Proof.
  intros Hc. revert n. induction nm as [|d nm IH]; intros [|n]; simpl; try lia; [by rewrite Hc|].
  case_if; [lia|]. specialize (IH n). lia.
Qed.

Lemma field_loop_general fuel i nm c r :
  Forall (fun c => TOKEN c <> 0) nm -> TOKEN c = 0 -> (length (nm ++ c :: r) < fuel)%nat ->
  field_loop fuel h_general i (nm ++ c :: r) = Ret (h_general, i, c :: r).
Proof.
  intros Hnm Hc. revert nm Hnm. induction fuel as [|fuel IH]; intros nm Hnm Hfuel; [lia|].
  destruct Hnm as [|d nm Hd Hnm]; simpl; [by rewrite Hc|].
  rewrite (proj2 (Z.eqb_neq _ _) Hd). set (n := (_ - 1)%nat). pose proof (skip_tokens_le n nm c r Hc) as Hle.
  rewrite drop_app_le by done. apply IH; [by apply Forall_drop|].
  simpl in Hfuel. rewrite length_app in *. rewrite length_drop. simpl in *. lia.
Qed.

Lemma scan_value_stop l n k v r :
  forallb field_octet v = true -> (length v < n)%nat -> scan_value l n k (v ++ CR :: r) = Scan_stop (k + length v).
Proof.
  revert n k. induction v as [|c v IH]; intros [|n] k Hv Hn; simpl in *; try lia; [f_equal; lia|].
  apply andb_true_iff in Hv as [Hc Hv]. unfold field_octet in Hc. rewrite !andb_true_iff, !negb_true_iff in Hc.
  destruct Hc as [[-> ->] ->]. simpl. rewrite andb_false_r. rewrite IH by (done || lia). f_equal. lia.
Qed.

Lemma value_loop_general fuel l x v r :
  forallb field_octet v = true -> zlen v < max_header_size -> (length (v ++ CR :: r) < fuel)%nat ->
  value_loop fuel l h_general x (v ++ CR :: r) = Ret (Value_line, h_general, x, CR :: r).
Proof.
  intros Hv Hmax Hfuel. destruct fuel as [|[|fuel]]; [lia|rewrite length_app in Hfuel; simpl in Hfuel; lia|].
  destruct v as [|c v]; [done|]. pose proof Hv as Hv'. simpl in Hv. apply andb_true_iff in Hv as [Hc Hv]. unfold field_octet in Hc.
  rewrite !andb_true_iff, !negb_true_iff in Hc. destruct Hc as [[E1 E2] E3].
  cbn [value_loop Datatypes.app]. rewrite E1, E2, E3, andb_false_r. cbn [orb].
  rewrite decide_True by done. change (c :: v ++ CR :: r) with ((c :: v) ++ CR :: r).
  rewrite scan_value_stop; [|done|unfold zlen in *; rewrite length_app; simpl in *; lia].
  by rewrite Nat.add_0_l, drop_app_length.
Qed.

Lemma wp_header n f k c nm v vt suf a m fl cl hs i fl' cl' P Q E R :
  line_at f k (header_line (c :: nm, v :: vt) ++ suf) a m fl cl -> c <> chr " " -> TOKEN c <> 0 ->
  (forall r, field_loop (S (length (nm ++ chr ":" :: r))) (name_state c) 0 (nm ++ chr ":" :: r) = Ret (hs, i, chr ":" :: r)) ->
  v <> chr " " -> v <> 9 -> v <> CR -> v <> LF ->
  value_effect hs fl cl v (vt ++ CR :: LF :: suf) fl' cl' suf ->
  0 <= k -> k + zlen (header_line (c :: nm, v :: vt)) <= max_header_size -> zlen data < 2 ^ 31 ->
  plays settings m (header_events (pos f) (c :: nm, v :: vt)) a P ->
  (forall a' g, P a' -> line_at g (k + zlen (header_line (c :: nm, v :: vt))) suf a' m fl' cl' -> wp (char_loop settings data n) g Q E R) ->
  wp (char_loop settings data (6 + n)) f Q E R.
Proof.
  intros Hf Hc Ht Hloop Hv1 Hv2 Hv3 Hv4 Heff Hk Hmax Hlen Hplay HQ.
  assert (header_line (c :: nm, v :: vt) ++ suf = c :: nm ++ chr ":" :: chr " " :: v :: vt ++ CR :: LF :: suf) as Heq.
  { unfold header_line. cbn [fst snd]. cbn [Datatypes.app]. rewrite <- app_assoc. cbn [Datatypes.app]. by rewrite <- app_assoc. }
  assert (zlen (header_line (c :: nm, v :: vt)) = zlen nm + zlen vt + 6) as Hz.
  { unfold header_line, zlen. simpl. rewrite length_app. simpl. rewrite length_app. simpl. lia. }
  pose proof (zlen_nonneg nm). pose proof (zlen_nonneg vt). rewrite Heq in Hf. cbn [Nat.add].
  unfold header_events in *. cbn [fst snd plays] in *. rewrite !zlen_cons in Hplay.
  assert (exists s, at_ f s k (c :: nm ++ chr ":" :: chr " " :: v :: vt ++ CR :: LF :: suf) a m fl cl no_marks) as [s0 Hf0]
    by (destruct Hf as [Hf|[Hf _]]; by eexists).
  pose proof (drop_more (pos f) (c :: nm ++ [chr ":"]) (chr " " :: v :: vt ++ CR :: LF :: suf) ltac:(apply Hf0)) as Hspace.
  rewrite (at_rest _ _ _ _ _ _ _ _ _ Hf0) in Hspace. specialize (Hspace ltac:(simpl; by rewrite <- app_assoc)).
  rewrite zlen_cons, zlen_app in Hspace. change (zlen [chr ":"]) with 1 in Hspace.
  eapply (wp_field _ f k c nm _ a m fl cl hs i); [done|done|done|apply Hloop|done|lia|done|exact Hplay|].
  intros a1 g Hfire2 Hg Hhs. cbv beta in Hfire2. pose proof (drop_place (pos g) _ (at_pos _ _ _ _ _ _ _ _ _ Hg) (at_rest _ _ _ _ _ _ _ _ _ Hg) ltac:(done)) as Hpg.
  pose proof (at_pos _ _ _ _ _ _ _ _ _ Hf0). pose proof (drop_place (pos f + (zlen nm + 1 + 1)) _ ltac:(lia) Hspace ltac:(done)) as Hps.
  assert (pos g = pos f + zlen nm + 2) as Hgp by lia.
  eapply (wp_header_value _ g _ v vt suf a1 m fl cl hs fl' cl' P); [done|done|done..|lia|lia| |].
  - replace (pos g + 1) with (pos f + (zlen nm + 1) + 2) by lia. exact Hfire2.
  - intros a' h HP Hh. apply (HQ a'); [done|]. rewrite Hz. by replace (k + (zlen nm + zlen vt + 6)) with (k + zlen nm + 2 + zlen vt + 4) by lia.
Qed.

Lemma wp_plain_header n f k h suf a m fl cl P Q E R :
  line_at f k (header_line h ++ suf) a m fl cl -> plain_header h = true ->
  0 <= k -> k + zlen (header_line h) <= max_header_size -> zlen data < 2 ^ 31 ->
  plays settings m (header_events (pos f) h) a P ->
  (forall a' g, P a' -> line_at g (k + zlen (header_line h)) suf a' m fl cl -> wp (char_loop settings data n) g Q E R) ->
  wp (char_loop settings data (6 + n)) f Q E R.
Proof.
  destruct h as [[|c nm] [|v vt]]; unfold plain_header; simpl fst; simpl snd; intros Hf Hp; [done..|by rewrite andb_false_r in Hp|].
  intros Hk Hmax Hlen Hplay HQ. apply andb_true_iff in Hp as [Hname Hval]. unfold plain_name in Hname. unfold plain_value in Hval.
  rewrite !andb_true_iff, !negb_true_iff, !Z.eqb_neq, bool_decide_eq_true in Hname. destruct Hname as [[Hc Hgen] Htok].
  rewrite !andb_true_iff, !negb_true_iff, !Z.eqb_neq in Hval. destruct Hval as [[Hv1 Hv2] Hoct].
  assert (Forall (fun c => TOKEN c <> 0) (c :: nm)) as Hall.
  { apply Forall_forall. intros d Hd. apply (proj1 (forallb_forall _ _) Htok) in Hd. simpl in Hd. lia. }
  inversion Hall as [|? ? Hct Hnm]; subst. pose proof Hoct as Hoct'. simpl in Hoct'. apply andb_true_iff in Hoct' as [Hv Hvt].
  unfold field_octet in Hv. rewrite !andb_true_iff, !negb_true_iff, !Z.eqb_neq in Hv. destruct Hv as [[Hv3 Hv4] _].
  assert (zlen (header_line (c :: nm, v :: vt)) = zlen nm + zlen vt + 6) as Hz.
  { unfold header_line, zlen. simpl. rewrite length_app. simpl. rewrite length_app. simpl. lia. }
  pose proof (zlen_nonneg nm).
  eapply (wp_header n f k c nm v vt suf a m fl cl h_general 0 fl cl P); try done.
  - intros r. rewrite Hgen. apply field_loop_general; [done| |lia]. apply TOKEN_end.
  - intros x l Hh Hfl Hcl. exists (with_header_state x h_general), (with_header_state x h_general), h_general.
    unfold start_value. rewrite Hh. split; [done|]. split; [|done]. simpl header_state.
    apply value_loop_general; [done|lia|lia].
Qed.

(** The header lines, and the events they make. *)
Definition headers (hs : list (list Z * list Z)) : list Z := concat (map header_line hs).

Fixpoint headers_events (off : Z) (hs : list (list Z * list Z)) : list event :=
  match hs with
  | [] => []
  | h :: hs => header_events off h ++ headers_events (off + zlen (header_line h)) hs
  end.

Lemma line_place f k l suf a m fl cl :
  line_at f k (l ++ suf) a m fl cl -> suf <> [] -> pos f + zlen l = zlen data - zlen suf.
Proof.
  intros Hf Hne. assert (0 <= pos f /\ drop (Z.to_nat (pos f)) data = l ++ suf) as [Hp Hr]
    by (destruct Hf as [Hf|[Hf _]]; destruct Hf; done).
  pose proof (zlen_nonneg l). apply drop_place; [lia| |done]. by apply drop_more.
Qed.

Lemma wp_headers hs n f k suf a m fl cl P Q E R :
  line_at f k (headers hs ++ suf) a m fl cl -> forallb plain_header hs = true -> suf <> [] ->
  0 <= k -> k + zlen (headers hs) <= max_header_size -> zlen data < 2 ^ 31 ->
  plays settings m (headers_events (pos f) hs) a P ->
  (forall a' g, P a' -> line_at g (k + zlen (headers hs)) suf a' m fl cl -> wp (char_loop settings data n) g Q E R) ->
  wp (char_loop settings data (6 * length hs + n)) f Q E R.
Proof.
  revert f k a. induction hs as [|h hs IH]; intros f k a Hf Hplain Hne Hk Hmax Hlen Hplay HQ.
  - apply (HQ a); [exact Hplay|]. unfold headers. change (zlen _) with 0. by rewrite Z.add_0_r.
  - cbn [headers_events] in Hplay. apply plays_app in Hplay as Hp1. simpl in Hplain.
    apply andb_true_iff in Hplain as [Hh Hhs].
    assert (headers (h :: hs) = header_line h ++ headers hs) as Heq by done. rewrite Heq in *. rewrite zlen_app in *.
    pose proof (zlen_nonneg (headers hs)). pose proof (zlen_nonneg (header_line h)). rewrite <- app_assoc in Hf.
    replace (6 * length (h :: hs) + n)%nat with (6 + (6 * length hs + n))%nat by (simpl; lia).
    eapply wp_plain_header; [exact Hf|done|done|lia|done|exact Hp1|]. intros a1 g Hp2 Hg. cbv beta in Hp2.
    assert (headers hs ++ suf <> []) as Hne' by (intros Hnil; apply app_nil in Hnil as [_ ?]; done).
    pose proof (line_place _ _ _ _ _ _ _ _ Hf Hne') as Hpf. pose proof (line_place _ _ [] _ _ _ _ _ Hg Hne') as Hpg.
    change (zlen []) with 0 in Hpg.
    apply (IH g (k + zlen (header_line h)) a1); try done; try lia.
    + by replace (pos g) with (pos f + zlen (header_line h)) by lia.
    + intros a' g' HP Hg'. apply (HQ a'); [done|]. by rewrite Z.add_assoc.
Qed.

(** ** The content length *)

(** The number that decimal digits stand for. *)
Definition number (ds : list Z) : Z := fold_left (fun n d => n * 10 + (d - chr "0")) ds 0.

Definition number_from (n : Z) (ds : list Z) : Z := fold_left (fun n d => n * 10 + (d - chr "0")) ds n.

Definition digits (ds : list Z) : bool := forallb IS_NUM ds.

Lemma number_from_le n ds : 0 <= n -> digits ds = true -> n <= number_from n ds.
Proof.
  revert n. induction ds as [|d ds IH]; intros n Hn Hd; simpl in *; [unfold number_from; simpl; lia|].
  apply andb_true_iff in Hd as [Hd Hds]. apply IS_NUM_digit in Hd. simpl in Hd.
  change (number_from n (d :: ds)) with (number_from (n * 10 + (d - chr "0")) ds).
  specialize (IH (n * 10 + (d - chr "0")) ltac:(lia) Hds). lia.
Qed.

Lemma value_loop_digits fuel l x ds r :
  digits ds = true -> 0 <= content_length x -> number_from (content_length x) ds < 2 ^ 60 -> (length (ds ++ CR :: r) < fuel)%nat ->
  value_loop fuel l h_content_length_num x (ds ++ CR :: r) =
    Ret (Value_line, h_content_length_num, with_content_length x (number_from (content_length x) ds), CR :: r).
Proof.
  revert fuel x. induction ds as [|d ds IH]; intros [|fuel] x Hd Hx Hn Hfuel; try (simpl in Hfuel; lia).
  - simpl. by destruct x.
  - simpl in Hd. apply andb_true_iff in Hd as [Hd Hds]. pose proof (IS_NUM_digit d Hd) as Hdig.
    assert (content_length x * 10 + (d - chr "0") <= number_from (content_length x * 10 + (d - chr "0")) ds) as Hle
      by (apply number_from_le; [lia|done]).
    change (number_from (content_length x) (d :: ds)) with (number_from (content_length x * 10 + (d - chr "0")) ds) in *.
    cbn [value_loop Datatypes.app]. simpl in Hdig.
    rewrite (proj2 (Z.eqb_neq d CR)), (proj2 (Z.eqb_neq d LF)) by (unfold CR, LF; lia). cbn [orb].
    assert (IS_HEADER_CHAR d = true) as -> by (unfold IS_HEADER_CHAR, CR, LF; lia). rewrite andb_false_r.
    rewrite decide_False by done. cbn [value_char]. unfold content_length_char.
    rewrite (proj2 (Z.eqb_neq d (chr " "))) by (simpl; lia). rewrite Hd. cbn [negb].
    assert (more_digits 10 (content_length x) (d - chr "0") = Some (content_length x * 10 + (d - chr "0"))) as ->.
    { unfold more_digits. assert (((ULLONG_MAX - 10) / 10 <? content_length x) = false) as ->.
      - apply Z.ltb_ge. change ((ULLONG_MAX - 10) / 10) with 1844674407370955160. simpl in *. lia.
      - f_equal. simpl. unfold wrap. rewrite !Z.mod_small; simpl in *; lia. }
    rewrite IH; [|done|simpl; lia|done|simpl in Hfuel; lia]. by destruct x.
Qed.

Definition CL_NAME : list Z := str "Content-Length".

Lemma field_loop_content_length r :
  field_loop (S (length (drop 1 CL_NAME ++ chr ":" :: r))) (name_state (chr "C")) 0 (drop 1 CL_NAME ++ chr ":" :: r) =
    Ret (h_content_length, 13, chr ":" :: r).
Proof. unfold name_state, TOKEN. destruct H as [[] mx]; reflexivity. Qed.

Lemma wp_content_length n f k d ds suf a m cl P Q E R :
  line_at f k (header_line (CL_NAME, d :: ds) ++ suf) a m 0 cl -> digits (d :: ds) = true -> number (d :: ds) < 2 ^ 60 ->
  0 <= k -> k + zlen (header_line (CL_NAME, d :: ds)) <= max_header_size -> zlen data < 2 ^ 31 ->
  plays settings m (header_events (pos f) (CL_NAME, d :: ds)) a P ->
  (forall a' g, P a' -> line_at g (k + zlen (header_line (CL_NAME, d :: ds))) suf a' m F_CONTENTLENGTH (number (d :: ds)) ->
     wp (char_loop settings data n) g Q E R) ->
  wp (char_loop settings data (6 + n)) f Q E R.
Proof.
  intros Hf Hd Hnum Hk Hmax Hlen Hplay HQ. change CL_NAME with (chr "C" :: drop 1 CL_NAME) in *.
  simpl in Hd. apply andb_true_iff in Hd as [Hd Hds]. pose proof (IS_NUM_digit d Hd) as Hdig. simpl in Hdig.
  eapply (wp_header n f k _ _ d ds suf a m 0 cl h_content_length 13 F_CONTENTLENGTH (number (d :: ds)) P);
    [exact Hf|done| |apply field_loop_content_length|simpl; lia|lia|unfold CR; lia|unfold LF; lia| |done|done|done|done|done].
  - unfold TOKEN. by destruct HTTP_PARSER_STRICT.
  - intros x l Hh Hfl Hcl.
    set (x1 := with_header_state (with_content_length (set_flag x F_CONTENTLENGTH) (d - chr "0")) h_content_length_num).
    exists x1, (with_content_length x1 (number_from (content_length x1) ds)), h_content_length_num.
    assert (has_flag x F_CONTENTLENGTH = false) as Hno by (unfold has_flag; by rewrite Hfl).
    unfold start_value. rewrite Hh, Hd, Hno. split; [done|]. split.
    + apply value_loop_digits; [done|simpl; lia|exact Hnum|lia].
    + simpl. rewrite Hfl. done.
Qed.

(** ** The end of the headers and the body *)

Lemma other_flags x f :
  flags x = 0 \/ flags x = F_CONTENTLENGTH -> f = F_TRAILING \/ f = F_CHUNKED \/ f = F_UPGRADE \/ f = F_SKIPBODY -> has_flag x f = false.
Proof. unfold has_flag. intros [-> | ->] [-> |[-> |[-> | ->]]]; done. Qed.

Lemma wp_headers_quiet m f P (Q : unit -> frame A -> Prop) E R :
  http_errno (parser f) = HPE_OK -> method (parser f) = m ->
  happens settings m Headers_complete (app f) P ->
  (forall a', P a' -> Q tt (with_app f a')) -> wp (notify_headers_complete settings) f Q E R.
Proof.
  intros He Hm Hfire HQ. unfold notify_headers_complete.
  destruct Hfire as [(a' & Hfire & HP)|(o & Ho & Hfire)]; specialize (Hfire (parser f) (or_intror Hm) He); simpl in Hfire;
    (destruct (on_headers_complete settings) as [cb|]; [|try by destruct o]).
  - apply wp_seq. unfold wp at 1, enter. rewrite Hfire. simpl. run. cbn iota. run. specialize (HQ a' HP). destruct f. exact HQ.
  - injection Hfire as <-. apply wp_pure. specialize (HQ _ HP). by rewrite app_same in HQ.
  - apply wp_seq, (wp_stopped _ _ o); [|done]. unfold enter. rewrite Hfire. by destruct o.
Qed.

(** The blank line: [case_headers_done] comes next. *)
Lemma wp_blank n f k suf a m fl cl P Q E R :
  line_at f k (CR :: LF :: suf) a m fl cl -> fl = 0 \/ fl = F_CONTENTLENGTH -> m <> HTTP_CONNECT ->
  0 <= k -> k + 2 <= max_header_size ->
  happens settings m Headers_complete a P ->
  (forall a' g, P a' -> at_ g s_headers_done (k + 2) (LF :: suf) a' m fl cl no_marks -> upgrade (parser g) = false ->
     wp (case_headers_done settings LF) g
       (fun j g => j = Break /\ wp (char_loop settings data n) (with_pos g (pos g + 1)) Q E R) E R) ->
  wp (char_loop settings data (S (S n))) f Q E R.
Proof.
  intros Hf Hfl Hm Hk Hmax Hfire HQ.
  eapply wp_line; [done|done|lia|done|done|]. intros g Hat _. cbn [dispatch]. unfold case_header_field_start. yes. split; [done|].
  eapply (wp_char _ _ s_headers_almost_done (k + 1) LF suf a m fl cl no_marks); [at_tac|lia|room|].
  intros h Hph Hath _ _. cbn [dispatch]. unfold case_headers_almost_done, STRICT_CHECK. rewrite andb_false_r. run.
  assert (forall x, flags x = fl -> forall fg, fg = F_TRAILING \/ fg = F_CHUNKED \/ fg = F_UPGRADE \/ fg = F_SKIPBODY ->
    has_flag x fg = false) as Hno by (intros x Hx fg Hfg; apply other_flags; [by rewrite Hx|done]).
  pose proof (at_flags _ _ _ _ _ _ _ _ _ Hath) as Hfh.
  rewrite !(Hno _ Hfh) by auto. cbn [andb]. run.
  assert (set_upgrade (parser h) = with_upgrade (parser h) false) as Hup.
  { unfold set_upgrade. rewrite (Hno _ Hfh) by auto. cbn [andb]. by rewrite bool_decide_false by (by rewrite (at_method _ _ _ _ _ _ _ _ _ Hath)). }
  cbn [parser with_p_state]. rewrite Hup.
  eapply (wp_headers_quiet m); [apply Hath|apply Hath|cbn [app with_parser with_p_state]; by rewrite (at_app _ _ _ _ _ _ _ _ _ Hath)|].
  intros a' HP. run. apply wp_decide; [intros _|intros Hne; destruct Hne; apply Hath]. run. cbn [reexecute]. run. cbn [p_state with_app with_parser with_p_state dispatch].
  eapply wp_mono; [| | |apply (HQ a' _ HP)]; [|done..| |done].
  - intros j g' [-> Hg']. by apply wp_pure.
  - clear Hat Hf. at_tac.
Qed.

(** A frame whose callbacks are all made. *)
Record settled (f : frame A) (a : A) (p : Z) : Prop := {
  se_errno : http_errno (parser f) = HPE_OK;
  se_app : app f = a;
  se_pos : pos f = p;
  se_marks : forall d, mark_of f d = None
}.

Lemma wp_end_message m f a P p (Q : unit -> frame A -> Prop) E R :
  settled f a p -> method (parser f) = m ->
  happens settings m (Notify message_complete) a P ->
  (forall a' g, P a' -> settled g a' p -> upgrade (parser g) = upgrade (parser f) -> Q tt g) -> wp (end_message settings) f Q E R.
Proof.
  intros [He Ha Hp Hmk] Hm Hfire HQ. unfold end_message. run. unfold CALLBACK_NOTIFY. run.
  eapply (wp_notify m); [done|by right|simpl; by rewrite Ha|].
  intros a' g HP [->| ->]; apply (HQ a'); try done; split; simpl; try done; intros d; rewrite <- (Hmk d); by destruct d.
Qed.

(** No body: the message is complete. *)
Lemma wp_no_body g k suf a m fl cl P (Q : jump -> frame A -> Prop) E R :
  at_ g s_headers_done k (LF :: suf) a m fl cl no_marks -> upgrade (parser g) = false -> fl = 0 \/ fl = F_CONTENTLENGTH ->
  cl = 0 \/ cl = ULLONG_MAX ->
  happens settings m (Notify message_complete) a P ->
  (forall a' h, P a' -> settled h a' (pos g) -> Q Break h) -> wp (case_headers_done settings LF) g Q E R.
Proof.
  intros Hat Hup Hfl Hcl Hfire HQ. unfold case_headers_done, STRICT_CHECK. rewrite andb_false_r. unfold reset_nread. run.
  set (g1 := with_local_nread _ 0). pose proof (other_flags (parser g1)) as Hno. cbn [parser g1 with_local_nread with_parser flags with_nread] in Hno.
  rewrite (at_flags _ _ _ _ _ _ _ _ _ Hat) in Hno.
  assert (wp (end_message settings ≫= (fun _ => break)) g1 Q E R) as Hend.
  { apply wp_seq. eapply (wp_end_message m g1 a P (pos g)); [|apply Hat|done|].
    - by destruct Hat.
    - intros a' h HP Hh _. unfold break. by apply wp_pure, (HQ a'). }
  cbn [parser g1 with_local_nread with_parser upgrade with_nread]. rewrite Hup. cbn [andb].
  rewrite !Hno by auto. cbn [content_length with_nread]. rewrite (at_length _ _ _ _ _ _ _ _ _ Hat).
  destruct Hcl as [-> | ->]; [exact Hend|]. cbn. unfold http_message_needs_eof. cbn [type with_nread].
  rewrite (decide_True (P := type (parser g) = HTTP_REQUEST)) by apply Hat. exact Hend.
Qed.

(** A body follows. *)
Lemma wp_has_body g k suf a m fl cl (Q : jump -> frame A -> Prop) E R :
  at_ g s_headers_done k (LF :: suf) a m fl cl no_marks -> upgrade (parser g) = false -> fl = 0 \/ fl = F_CONTENTLENGTH ->
  0 < cl < ULLONG_MAX ->
  (forall h, at_ (with_pos h (pos h + 1)) s_body_identity 0 suf a m fl cl no_marks -> upgrade (parser h) = false -> Q Break h) ->
  wp (case_headers_done settings LF) g Q E R.
Proof.
  intros Hat Hup Hfl Hcl HQ. unfold case_headers_done, STRICT_CHECK. rewrite andb_false_r. unfold reset_nread. run.
  set (g1 := with_local_nread _ 0). pose proof (other_flags (parser g1)) as Hno. cbn [parser g1 with_local_nread with_parser flags with_nread] in Hno.
  rewrite (at_flags _ _ _ _ _ _ _ _ _ Hat) in Hno.
  cbn [parser g1 with_local_nread with_parser upgrade with_nread]. rewrite Hup. cbn [andb].
  rewrite !Hno by auto. cbn [content_length with_nread]. rewrite (at_length _ _ _ _ _ _ _ _ _ Hat).
  rewrite (proj2 (Z.eqb_neq cl 0)), (proj2 (Z.eqb_neq cl ULLONG_MAX)) by lia. cbn [negb]. run. apply HQ; [at_tac|done].
Qed.

(** A body of the announced length. *)
Lemma wp_body n f b a m fl P Q E R :
  at_ f s_body_identity 0 b a m fl (zlen b) no_marks -> upgrade (parser f) = false -> b <> [] -> zlen data < 2 ^ 31 ->
  happens settings m (Data body (pos f) (zlen b)) a (fun a1 => happens settings m (Notify message_complete) a1 P) ->
  (forall a' g, P a' -> settled g a' (zlen data) -> wp (char_loop settings data n) g Q E R) ->
  wp (char_loop settings data (S n)) f Q E R.
Proof.
  intros Hf Hup Hne Hlen Hfire1 HQ. pose proof (drop_place _ _ (at_pos _ _ _ _ _ _ _ _ _ Hf) (at_rest _ _ _ _ _ _ _ _ _ Hf) Hne) as Hp.
  pose proof (at_pos _ _ _ _ _ _ _ _ _ Hf) as Hp0.
  destruct b as [|c r] eqn:Hb; [done|]. rewrite <- Hb in *. assert (0 < zlen b) by (rewrite Hb, zlen_cons; pose proof (zlen_nonneg r); lia).
  rewrite Hb in Hf. eapply wp_char; [exact Hf|lia|room|]. rewrite <- Hb in *. intros g Hpg Hat Hposg _.
  cbn [dispatch]. unfold case_body_identity, read_body, rest_of. run.
  rewrite (at_rest _ _ _ _ _ _ _ _ _ Hat), (at_length _ _ _ _ _ _ _ _ _ Hat), Z.min_id.
  apply wp_assert; [unfold ULLONG_MAX; lia|]. run. apply wp_MARK. rewrite (at_marks _ _ _ _ _ _ _ _ _ Hat).
  change (no_marks body) with (@None Z). run. rewrite Z.sub_diag. yes. cbn [pos with_pos with_parser set_mark with_body_mark with_p_state].
  eapply (wp_data m _ _ _ _ (pos f)); [apply Hat|apply Hat|simpl; by rewrite Hposg| |].
  - simpl. rewrite (at_app _ _ _ _ _ _ _ _ _ Hat), Hposg. replace (pos f + (zlen b - 1) + 1 - pos f) with (zlen b) by lia. exact Hfire1.
  - intros a1 h Hfire2 Hh. cbv beta in Hfire2. run. cbn [reexecute]. run.
    assert (p_state (set_mark h body None) = s_message_done /\ settled (set_mark h body None) a1 (zlen data - 1) /\
      method (parser (set_mark h body None)) = m /\ upgrade (parser (set_mark h body None)) = false) as (Hs & Hset & Hm & Hu).
    { clear Hf. rewrite <- Hpg in Hup. destruct Hat as [? ? ? ? ? ? ? ? ? ? Hmk]. unfold no_marks in Hmk.
      destruct Hh as [->| ->]; (split_and!; try done; split; simpl; try done; try lia; intros d; specialize (Hmk d); by destruct d). }
    rewrite Hs. cbn [dispatch]. unfold case_message_done. run.
    eapply (wp_end_message m _ a1 P (zlen data - 1)); [done|done|done|]. intros a' g2 HP Hg2 Hu2. run. rewrite Hu2, Hu. run. apply (HQ a'); [done|].
    destruct Hg2. split; simpl; done || lia.
Qed.

Lemma wp_loop_end n f (Q : unit -> frame A -> Prop) E R : pos f = zlen data -> Q tt f -> wp (char_loop settings data (S n)) f Q E R.
Proof. intros Hp HQ. cbn [char_loop]. run. rewrite Hp, Z.eqb_refl. by apply wp_pure. Qed.

Lemma wp_leftover_none f a (Q : Z -> frame A -> Prop) E R :
  settled f a (zlen data) -> (forall g, settled g a (zlen data) -> R (zlen data) g) -> wp (run_leftover settings data) f Q E R.
Proof.
  intros [He Ha Hp Hmk] HR. unfold run_leftover. run.
  pose proof (Hmk header_field) as H1. pose proof (Hmk header_value) as H2. pose proof (Hmk url) as H3.
  pose proof (Hmk body) as H4. pose proof (Hmk status) as H5. simpl in H1, H2, H3, H4, H5.
  cbn [id]. rewrite H1, H2, H3, H4, H5. apply wp_assert; [done|]. unfold CALLBACK_DATA_NOADVANCE.
  do 5 (run; apply data_none; [done|done|]). by apply wp_RETURN, HR.
Qed.

(** ** Requests *)

(** A body with the digits of its length. *)
Definition tail (b : option (list Z * list Z)) : list Z :=
  match b with
  | None => [CR; LF]
  | Some (ds, b) => header_line (CL_NAME, ds) ++ CR :: LF :: b
  end.

Definition tail_ok (b : option (list Z * list Z)) : bool :=
  match b with
  | None => true
  | Some (ds, b) => negb (bool_decide (ds = [])) && digits ds && (number ds =? zlen b)
  end.

Definition tail_events (off : Z) (b : option (list Z * list Z)) : list event :=
  match b with
  | None => [Headers_complete; Notify message_complete]
  | Some (ds, b) =>
      header_events off (CL_NAME, ds) ++ Headers_complete ::
      (if decide (b = []) then [] else [Data body (off + zlen (header_line (CL_NAME, ds)) + 2) (zlen b)]) ++
      [Notify message_complete]
  end.

(** The part of it that counts as header. *)
Definition tail_header (b : option (list Z * list Z)) : Z :=
  match b with None => 2 | Some (ds, _) => zlen (header_line (CL_NAME, ds)) + 2 end.

Lemma wp_complete n f k suf a m fl cl P Q E R :
  line_at f k (CR :: LF :: suf) a m fl cl -> suf = [] -> fl = 0 \/ fl = F_CONTENTLENGTH -> m <> HTTP_CONNECT ->
  cl = 0 \/ cl = ULLONG_MAX -> 0 <= k -> k + 2 <= max_header_size ->
  happens settings m Headers_complete a (fun a1 => happens settings m (Notify message_complete) a1 P) ->
  (forall a' g, P a' -> settled g a' (zlen data) -> Q tt g) ->
  wp (char_loop settings data (S (S (S n)))) f Q E R.
Proof.
  intros Hf -> Hfl Hm Hcl Hk Hmax Hfire1 HQ. eapply wp_blank; [done|done|done|done|done|exact Hfire1|]. intros a1 g Hfire2 Hg Hup.
  eapply wp_no_body; [exact Hg|done|done|done|exact Hfire2|]. intros a' h HP Hh. split; [done|].
  pose proof (drop_place _ _ (at_pos _ _ _ _ _ _ _ _ _ Hg) (at_rest _ _ _ _ _ _ _ _ _ Hg) ltac:(done)) as Hp.
  change (zlen [LF]) with 1 in Hp. destruct Hh as [? ? Hph Hmk]. apply wp_loop_end; [simpl; lia|]. apply (HQ a'); [done|].
  split; simpl; done || lia.
Qed.

Lemma wp_tail b n f k a m P Q E R :
  line_at f k (tail b) a m 0 ULLONG_MAX -> m <> HTTP_CONNECT -> tail_ok b = true ->
  0 <= k -> k + tail_header b <= max_header_size -> zlen data < 2 ^ 31 ->
  plays settings m (tail_events (pos f) b) a P ->
  (forall a' g, P a' -> settled g a' (zlen data) -> Q tt g) ->
  wp (char_loop settings data (length (tail b) + S n)) f Q E R.
Proof.
  intros Hf Hm Hok Hk Hmax Hlen Hplay HQ. destruct b as [[ds b]|]; cbn [tail tail_ok tail_events tail_header] in *.
  2: { cbn [plays] in Hplay. cbn [length Nat.add]. eapply wp_complete; try done; auto. }
  destruct ds as [|d ds]; [done|]. rewrite !andb_true_iff in Hok. destruct Hok as [[_ Hd] Hn]. apply Z.eqb_eq in Hn.
  apply plays_app in Hplay as Hp1.
  assert (pos f + zlen (header_line (CL_NAME, d :: ds)) = zlen data - zlen (CR :: LF :: b)) as Hpf
    by (eapply line_place; [exact Hf|done]).
  assert (zlen (CR :: LF :: b) = zlen b + 2) as Hzb by (rewrite !zlen_cons; lia). pose proof (zlen_nonneg b).
  assert (0 <= pos f) as Hp0 by (destruct Hf as [Hf|[Hf _]]; apply Hf). pose proof (zlen_nonneg (header_line (CL_NAME, d :: ds))).
  assert (6 <= length (header_line (CL_NAME, d :: ds)))%nat as H6 by (unfold header_line; simpl; lia).
  rewrite length_app. set (L := length (header_line _)) in *.
  replace (L + length (CR :: LF :: b) + S n)%nat with (6 + (S (S (S (L - 6 + length b + n)))))%nat by (simpl; lia).
  eapply wp_content_length; [exact Hf|done|rewrite Hn; lia|done|lia|done|exact Hp1|]. clear Hplay. intros a1 g Hplay Hg. cbv beta in Hplay. rewrite Hn in Hg.
  pose proof (line_place _ _ [] _ _ _ _ _ Hg ltac:(done)) as Hpg. change (zlen []) with 0 in Hpg.
  case_decide as Hb; cbn [Datatypes.app plays] in Hplay.
  - subst b. eapply (wp_complete _ g _ [] a1 m _ _ P); try done; auto; lia.
  - assert (0 < zlen b) by (destruct b; [done|rewrite zlen_cons; pose proof (zlen_nonneg b); lia]).
    eapply wp_blank; [exact Hg|auto|done|lia|lia|exact Hplay|]. intros a2 h Hbody Hh Hup. cbv beta in Hbody.
    eapply wp_has_body; [exact Hh|done|auto|unfold ULLONG_MAX; lia|]. intros h' Hh' Hup'. split; [done|].
    pose proof (drop_place _ _ (at_pos _ _ _ _ _ _ _ _ _ Hh') (at_rest _ _ _ _ _ _ _ _ _ Hh') Hb) as Hph.
    destruct (L - 6 + length b + n)%nat as [|N] eqn:EN; [destruct b; [done|simpl in EN; lia]|].
    eapply wp_body; [exact Hh'|done|done|done| |].
    + replace (pos (with_pos h' (pos h' + 1))) with (pos f + zlen (header_line (CL_NAME, d :: ds)) + 2) by lia. exact Hbody.
    + intros a' h2 HP Hh2. by apply wp_loop_end; [apply Hh2|apply (HQ a')].
Qed.

(** The text of a request. *)
Definition request (m : http_method) (u : list Z) (hs : list (list Z * list Z)) (b : option (list Z * list Z)) : list Z :=
  method_strings m ++ chr " " :: u ++ chr " " :: str "HTTP/1.1" ++ CR :: LF :: headers hs ++ tail b.

(** The length of the request line. *)
Definition line_size (m : http_method) (u : list Z) : Z := zlen (method_strings m) + zlen u + 12.

Definition request_events (m : http_method) (u : list Z) (hs : list (list Z * list Z)) (b : option (list Z * list Z)) : list event :=
  Notify message_begin :: Data url (zlen (method_strings m) + 1) (zlen u) ::
  headers_events (line_size m u) hs ++ tail_events (line_size m u + zlen (headers hs)) b.

(** What a request that the parser accepts consists of. *)
Definition valid_request (m : http_method) (u : list Z) (hs : list (list Z * list Z)) (b : option (list Z * list Z)) : bool :=
  negb (bool_decide (m = HTTP_CONNECT)) && valid_url u && forallb plain_header hs && tail_ok b &&
  (line_size m u + zlen (headers hs) + tail_header b <=? max_header_size).

Lemma plain_header_long h : plain_header h = true -> (6 <= length (header_line h))%nat.
Proof.
  destruct h as [[|c nm] v]; [done|]. intros Hh. destruct v as [|v vt].
  - unfold plain_header in Hh. cbn [snd plain_value] in Hh. by rewrite andb_false_r in Hh.
  - unfold header_line. simpl. rewrite length_app. simpl. rewrite length_app. simpl. lia.
Qed.

Lemma headers_rounds hs : forallb plain_header hs = true -> (6 * length hs <= length (headers hs))%nat.
Proof.
  induction hs as [|h hs IH]; [done|]. cbn [forallb length]. intros Hh. apply andb_true_iff in Hh as [Hh Hhs].
  apply plain_header_long in Hh. change (headers (h :: hs)) with (header_line h ++ headers hs). rewrite length_app.
  specialize (IH Hhs). lia.
Qed.

Lemma tail_nonempty b : tail b <> [].
Proof. destruct b as [[ds b]|]; simpl; [|done]. unfold header_line. simpl. done. Qed.

(** The first event does not depend on the method. *)
Lemma happens_first m m' a P :
  happens settings m (Notify message_begin) a P -> happens settings m' (Notify message_begin) a P.
Proof.
  intros [(a' & Hfire & HP)|(o & Ho & Hfire)]; [left; exists a'; split; [|done]|right; exists o; split; [done|]];
    intros x _ Hx; apply Hfire; auto.
Qed.

(** The request line. *)
Lemma wp_request_line n m u rest f a P Q E R :
  data = method_strings m ++ chr " " :: u ++ chr " " :: str "HTTP/1.1" ++ CR :: LF :: rest ->
  at_ f s_start_req 0 data a HTTP_DELETE 0 0 no_marks -> rest <> [] -> valid_url u = true -> m <> HTTP_CONNECT ->
  line_size m u <= max_header_size ->
  happens settings m (Notify message_begin) a (fun a => happens settings m (Data url (zlen (method_strings m) + 1) (zlen u)) a P) ->
  (forall a' g, P a' -> at_ g s_header_field_start (line_size m u) rest a' m 0 ULLONG_MAX no_marks -> wp (char_loop settings data n) g Q E R) ->
  wp (char_loop settings data (length (method_strings m) + length u + 12 + n)) f Q E R.
Proof.
  intros Hd Hf Hrest Hu Hm Hmax Hplay HQ. destruct (method_walk_all m) as (c & l & m1 & Hstr & Halpha & Hc1 & Hc2 & Hfirst & Hwalk).
  destruct u as [|uc ut]; [done|]. unfold line_size in *. rewrite Hstr in *. rewrite !zlen_cons in *. rewrite Hd in Hf. cbn [Datatypes.app] in Hf.
  pose proof (zlen_nonneg l). pose proof (zlen_nonneg ut).
  replace (length (c :: l) + length (uc :: ut) + 12 + n)%nat with (S (S (length l + S (S (length ut + (10 + n))))))%nat by (simpl; lia).
  eapply (wp_start _ f c); [exact Hf|lia|done|done|done|exact Hfirst|eapply happens_first, Hplay|].
  intros a2 f2 Hplay2 Hf2 Hi2. cbv beta in Hplay2. eapply wp_method; [exact Hf2|exact Hi2|pose proof (method_strings_long m1); lia|lia|lia|exact Hwalk|].
  intros f3 Hf3. pose proof (url_walk_alive uc ut _ Hu) as Halive.
  eapply wp_url_first; [exact Hf3|done|lia|lia|done|]. intros f4 Hf4.
  pose proof (drop_place _ _ (at_pos _ _ _ _ _ _ _ _ _ Hf3) (at_rest _ _ _ _ _ _ _ _ _ Hf3) ltac:(done)) as Hp3'.
  pose proof (drop_place _ _ (at_pos _ _ _ _ _ _ _ _ _ Hf4) (at_rest _ _ _ _ _ _ _ _ _ Hf4) ltac:(by destruct ut)) as Hp4'.
  rewrite zlen_cons in Hp3'.
  assert (pos f3 = zlen l + 1 + 1) as Hurl.
  { rewrite Hp3'. rewrite Hd at 1. cbn [Datatypes.app]. rewrite zlen_cons, zlen_app, zlen_cons, zlen_cons. lia. }
  eapply wp_url_rest; [exact Hf4|by apply parse_url_char_state|lia|lia|exact Hu| |].
  { replace (pos f4 + zlen ut - pos f3) with (zlen ut + 1) by lia. rewrite Hurl. exact Hplay2. }
  intros a3 f5 HP Hf5. eapply wp_version; [exact Hf5|lia|lia|]. intros f6 Hf6. apply (HQ a3); [done|]. clear -Hf6.
  match type of Hf6 with at_ _ _ ?k _ _ _ _ _ _ => replace (zlen l + 1 + (zlen ut + 1) + 12) with k by lia end. exact Hf6.
Qed.

(** The whole loop on the text of a request. *)
Lemma wp_request m u hs b f a P Q E R :
  data = request m u hs b -> at_ f s_start_req 0 data a HTTP_DELETE 0 0 no_marks -> zlen data < 2 ^ 31 ->
  valid_request m u hs b = true -> plays settings m (request_events m u hs b) a P ->
  (forall a' g, P a' -> settled g a' (zlen data) -> Q tt g) ->
  wp (char_loop settings data (S (length data))) f Q E R.
Proof.
  intros Hdata Hf Hlen Hval Hplay HQ. unfold valid_request in Hval. rewrite !andb_true_iff, negb_true_iff, bool_decide_eq_false in Hval.
  destruct Hval as [[[[Hm Hu] Hhs] Hb] Hmax]. apply Z.leb_le in Hmax. pose proof (headers_rounds hs Hhs) as Hrounds.
  assert (0 <= zlen (headers hs) /\ 2 <= tail_header b /\ 14 <= line_size m u) as (? & ? & ?).
  { pose proof (zlen_nonneg (headers hs)). pose proof (zlen_nonneg u). pose proof (method_strings_long m). unfold line_size.
    destruct b as [[ds b]|]; simpl; [pose proof (zlen_nonneg (header_line (CL_NAME, ds)))|]; lia. }
  assert (headers hs ++ tail b <> []) as Hrest by (intros Hnil; apply app_nil in Hnil as [_ Hnil]; by apply (tail_nonempty b)).
  assert (length data = length (method_strings m) + length u + length (headers hs) + length (tail b) + 12)%nat as Hdl.
  { rewrite Hdata. unfold request. rewrite length_app. cbn [length]. rewrite length_app. cbn [length]. rewrite length_app. cbn [length].
    rewrite length_app. change (length (str "HTTP/1.1")) with 8%nat. lia. }
  replace (S (length data)) with (length (method_strings m) + length u + 12 + (6 * length hs + (length (tail b) + S (length (headers hs) - 6 * length hs))))%nat by lia.
  eapply wp_request_line; [exact Hdata|exact Hf|done|done|done|lia|exact Hplay|].
  intros a3 f6 Hp3 Hf6. cbv beta in Hp3. fold (plays settings m) in Hp3. apply plays_app in Hp3.
  pose proof (drop_place _ _ (at_pos _ _ _ _ _ _ _ _ _ Hf6) (at_rest _ _ _ _ _ _ _ _ _ Hf6) Hrest) as Hp6.
  assert (pos f6 = line_size m u) as Hpos6.
  { rewrite Hp6, Hdata. unfold request, line_size. rewrite zlen_app, zlen_cons, zlen_app, zlen_cons, zlen_app, !zlen_cons.
    change (zlen (str "HTTP/1.1")) with 8. lia. }
  eapply wp_headers; [left; exact Hf6|done|apply tail_nonempty|lia|lia|done|by rewrite Hpos6|].
  intros a4 f7 Hp4 Hf7. cbv beta in Hp4. pose proof (line_place _ _ [] _ _ _ _ _ Hf7 (tail_nonempty b)) as Hp7. change (zlen []) with 0 in Hp7.
  pose proof (line_place _ _ _ _ _ _ _ _ (or_introl Hf6) (tail_nonempty b)) as Hp67.
  eapply wp_tail; [exact Hf7|done|done|lia|lia|done| |exact HQ].
  by replace (pos f7) with (line_size m u + zlen (headers hs)) by lia.
Qed.

End Request.

(** The parser on a request: it reads the whole text, or ends as one of its
    callbacks does. *)
Lemma execute_request `{HttpConfig} `{Stops} {A} (settings : http_parser_settings A) m u hs b x a P :
  0 <= max_header_size < 2 ^ 31 -> zlen (request m u hs b) < 2 ^ 31 -> valid_request m u hs b = true ->
  plays settings m (request_events m u hs b) a P ->
  let res := http_parser_execute settings (request m u hs b) (http_parser_init x HTTP_REQUEST) a in
  (exists x' a', P a' /\ http_errno x' = HPE_OK /\ res = Ret (x', a', zlen (request m u hs b))) \/
  (exists o, may_stop o /\ res = stopped o).
Proof.
  intros Hmax Hlen Hval Hplay. set (data := request m u hs b) in *.
  assert (wp (char_loop settings data (S (length data));; run_leftover settings data) (entry (http_parser_init x HTTP_REQUEST) a)
    (fun _ _ => False) (fun _ => False) (fun v g => exists a', P a' /\ v = zlen data /\ settled g a' (zlen data))) as Hwp.
  { apply wp_seq. eapply (wp_request settings data Hmax m u hs b); [done| |done|done|exact Hplay|].
    - split; try done. by intros [].
    - intros a' g HP Hg. eapply (wp_leftover_none settings data); [exact Hg|]. intros h Hh. by exists a'. }
  unfold http_parser_execute. rewrite decide_True by done.
  assert (data <> []) as Hne by (subst data; by destruct m). clearbody data. destruct data as [|c r]; [done|]. unfold wp in Hwp.
  match type of Hwp with match ?r with _ => _ end => destruct r as [[f [v| |v]]| | |] end; try done.
  2-4: right; eexists; (split; [exact Hwp|done]).
  destruct Hwp as (a' & HP & -> & Hset). left. exists (parser f), a'. simpl. rewrite (se_app _ _ _ Hset). split; [done|].
  split; [apply Hset|done].
Qed.

(** ** Recording *)

(** What a callback tells, with its data. *)
Inductive note :=
| Told (n : notify_cb)
| Told_headers
| Told_data (d : data_cb) (s : list Z).

(** Callbacks that write down what they are told. *)
Definition recorder (data : list Z) : http_parser_settings (list note) :=
  let tell n : option (http_cb (list note)) := Some (fun a x => Ret (a ++ [Told n], x, 0)) in
  let tell_data d : option (http_data_cb (list note)) :=
    Some (fun a x off len => s ← lift (slice data off len); Ret (a ++ [Told_data d s], x, 0)) in
  {| on_message_begin := tell message_begin; on_url := tell_data url; on_status := tell_data status;
     on_header_field := tell_data header_field; on_header_value := tell_data header_value;
     on_headers_complete := Some (fun a x => Ret (a ++ [Told_headers], x, 0)); on_body := tell_data body;
     on_message_complete := tell message_complete; on_chunk_header := tell chunk_header;
     on_chunk_complete := tell chunk_complete |}.

(** [e] tells [n] about the buffer. *)
Definition tells (data : list Z) (e : event) (n : note) : Prop :=
  match e, n with
  | Notify k, Told k' => k = k'
  | Headers_complete, Told_headers => True
  | Data d off len, Told_data d' s => d = d' /\ slice data off len = Some s
  | _, _ => False
  end.

Lemma recorder_plays `{Stops} data m es ns a :
  Forall2 (tells data) es ns -> plays (recorder data) m es a (fun a' => a' = a ++ ns).
Proof.
  intros Hes. revert a. induction Hes as [|e n es ns He Hes IH]; intros a; [by rewrite app_nil_r|].
  left. exists (a ++ [n]). split.
  - intros x _ _. destruct e as [k| |d off len], n as [k'| |d' s]; try done; simpl in He.
    + subst k'. by destruct k.
    + destruct He as [<- Hs]. destruct d; simpl; by rewrite Hs.
  - replace (a ++ n :: ns) with ((a ++ [n]) ++ ns) by (by rewrite <- app_assoc). apply IH.
Qed.

(** The notes of a request. *)
Definition header_notes (h : list Z * list Z) : list note := [Told_data header_field h.1; Told_data header_value h.2].

Definition request_notes (u : list Z) (hs : list (list Z * list Z)) (b : option (list Z * list Z)) : list note :=
  Told message_begin :: Told_data url u :: concat (map header_notes hs) ++
  match b with
  | None => [Told_headers; Told message_complete]
  | Some (ds, b) =>
      header_notes (CL_NAME, ds) ++ Told_headers :: (if decide (b = []) then [] else [Told_data body b]) ++ [Told message_complete]
  end.

Lemma slice_at data pre s post off : data = pre ++ s ++ post -> off = zlen pre -> slice data off (zlen s) = Some s.
Proof.
  intros -> ->. pose proof (zlen_nonneg pre). pose proof (zlen_nonneg s). pose proof (zlen_nonneg post).
  rewrite slice_Some by (rewrite ?zlen_app; lia). f_equal. unfold zlen. by rewrite !Nat2Z.id, drop_app_length, take_app_length.
Qed.

Lemma header_tells data pre h post :
  data = pre ++ header_line h ++ post -> Forall2 (tells data) (header_events (zlen pre) h) (header_notes h).
Proof.
  intros Hd. destruct h as [nm v]. unfold header_line in Hd. simpl in Hd.
  repeat constructor; simpl.
  - apply (slice_at _ pre nm (chr ":" :: chr " " :: v ++ [CR; LF] ++ post)); [|done]. rewrite Hd, <- !app_assoc. simpl. by rewrite <- app_assoc.
  - apply (slice_at _ (pre ++ nm ++ [chr ":"; chr " "]) v ([CR; LF] ++ post)).
    + rewrite Hd, <- !app_assoc. simpl. by rewrite <- app_assoc.
    + rewrite !zlen_app. change (zlen [chr ":"; chr " "]) with 2. lia.
Qed.

Lemma headers_tell data hs pre post :
  data = pre ++ headers hs ++ post -> Forall2 (tells data) (headers_events (zlen pre) hs) (concat (map header_notes hs)).
Proof.
  revert pre. induction hs as [|h hs IH]; intros pre Hd; [constructor|].
  change (headers (h :: hs)) with (header_line h ++ headers hs) in Hd. cbn [headers_events map concat]. apply Forall2_app.
  - apply (header_tells data pre h (headers hs ++ post)). by rewrite Hd, <- app_assoc.
  - rewrite <- zlen_app. apply IH. by rewrite Hd, <- !app_assoc.
Qed.

Lemma tail_tells data b pre :
  data = pre ++ tail b -> Forall2 (tells data) (tail_events (zlen pre) b)
    match b with
    | None => [Told_headers; Told message_complete]
    | Some (ds, b) =>
        header_notes (CL_NAME, ds) ++ Told_headers :: (if decide (b = []) then [] else [Told_data body b]) ++ [Told message_complete]
    end.
Proof.
  intros Hd. destruct b as [[ds b]|]; cbn [tail tail_events] in *; [|by repeat constructor].
  apply Forall2_app; [by eapply header_tells|]. constructor; [done|]. apply Forall2_app; [|by repeat constructor].
  case_decide; constructor; [|constructor]. split; [done|].
  apply (slice_at _ (pre ++ header_line (CL_NAME, ds) ++ [CR; LF]) b []).
  - rewrite Hd, app_nil_r, <- !app_assoc. done.
  - rewrite !zlen_app. change (zlen [CR; LF]) with 2. lia.
Qed.

Lemma request_tells m u hs b :
  Forall2 (tells (request m u hs b)) (request_events m u hs b) (request_notes u hs b).
Proof.
  unfold request_events, request_notes. constructor; [done|]. constructor.
  - split; [done|]. apply (slice_at _ (method_strings m ++ [chr " "]) u (chr " " :: str "HTTP/1.1" ++ CR :: LF :: headers hs ++ tail b)).
    + unfold request. by rewrite <- app_assoc.
    + by rewrite zlen_app.
  - set (pre := method_strings m ++ chr " " :: u ++ chr " " :: str "HTTP/1.1" ++ [CR; LF]).
    assert (line_size m u = zlen pre) as ->.
    { unfold pre, line_size. rewrite zlen_app, zlen_cons, zlen_app, zlen_cons, zlen_app. change (zlen (str "HTTP/1.1")) with 8.
      change (zlen [CR; LF]) with 2. lia. }
    assert (request m u hs b = pre ++ headers hs ++ tail b) as Hreq.
    { unfold pre, request. rewrite <- !app_assoc. simpl. by rewrite <- app_assoc. }
    apply Forall2_app; [by apply (headers_tell _ hs pre (tail b))|]. rewrite <- zlen_app. apply tail_tells.
    by rewrite Hreq, app_assoc.
Qed.
