(* ===== verification/HttpTheorems.v ===== *)
(** The theorems of the HTTP parser. *)

From Stdlib Require Import Ascii.
From S2P Require Import Prelude CString HttpTypes HttpParser HttpSafe HttpRequest.

Import String.StringSyntax.

(** Callbacks that return. *)
#[local] Instance no_stop : Stops := fun _ => False.

Section Execute.
Context `{HttpConfig} {A : Type} (settings : http_parser_settings A) (data : list Z).
Hypotheses (max_size : 0 <= max_header_size < 2 ^ 31) (data_len : zlen data < 2 ^ 31).
Hypothesis settings_tame : tame_settings settings.

(** The loop and what follows it. *)
Lemma execute_data_ok x a :
  parser_ok x -> http_errno x = HPE_OK ->
  wp (char_loop settings data (S (length data));; run_leftover settings data) (entry x a)
    (fun v g => ended data v (parser g)) (failed data) (fun v g => ended data v (parser g)).
Proof.
  intros Hx He. apply wp_seq. eapply wp_mono; [..|apply safe_char_loop; [done..|by apply entry_ok|]].
  - intros u g [Hg Hp]. by apply safe_run_leftover.
  - done.
  - intros v g Hr. unfold returned, ended in *. naive_solver.
  - simpl. unfold zlen. lia.
Qed.

(** The end of the input in a body that ends with it. *)
Lemma eof_complete_ok x a :
  data = [] -> parser_ok x -> http_errno x = HPE_OK -> parser_state x = s_body_identity_eof ->
  wp (CALLBACK_NOTIFY_NOADVANCE settings message_complete;; mret 0) (entry x a)
    (fun v g => ended data v (parser g)) (fun _ => False) (fun v g => ended data v (parser g)).
Proof.
  intros Hd [Hl Hn Hst] He Es. unfold CALLBACK_NOTIFY_NOADVANCE. apply wp_seq, wp_seq, wp_look.
  eapply wp_mono; [..|apply (wp_CALLBACK_NOTIFY_ data settings settings_tame _ _ _ (fun _ g => ended data 0 (parser g)));
    [done|by split|by rewrite Hd|]].
  - intros u g Hg. by apply wp_pure.
  - intros f Hf. exact Hf.
  - intros v g Hr. unfold returned, ended in *. naive_solver.
  - rewrite Hd. intros g [->|[b ->]]; (split; [done|]); simpl; (split; [intros _; by split|by left]).
Qed.

Lemma execute_eof_ok x a :
  data = [] -> parser_ok x -> http_errno x = HPE_OK ->
  exists x' a' n, execute_eof settings x a = Ret (x', a', n) /\
    (ended data n x' \/ n = 1 /\ http_errno x' = HPE_INVALID_EOF_STATE).
Proof.
  intros Hd Hx He. unfold execute_eof.
  destruct (parser_state x) eqn:Es; try by (eexists _, _, _; split; [done|right; done]).
  all: try by (eexists _, _, _; split; [done|left; unfold ended; rewrite Hd; split_and!; try done; by left]).
  pose proof (eof_complete_ok x a Hd Hx He Es) as Hwp. unfold wp, leave in *.
  match type of Hwp with match ?r with _ => _ end => destruct r as [[f [v| |v]]| | |] end; try done.
  all: eexists _, _, _; split; [done|by left].
Qed.

End Execute.

(** C13: A call of the parser on a consistent parser, with any octets and any
    callbacks that return, may fail and may pause the parser, returns: no
    assertion fails and no loop goes on for ever.  It says how many octets were
    read; fewer than all only when an error is set, the parser was paused or the
    connection is upgraded.  Unless it failed the parser is consistent again, so
    the input may come in pieces of any size. *)
Theorem http_parser_execute_safe `{HttpConfig} {A} (settings : http_parser_settings A) data x a :
  0 <= max_header_size < 2 ^ 31 -> zlen data < 2 ^ 31 -> tame_settings settings -> parser_ok x ->
  exists x' a' n, http_parser_execute settings data x a = Ret (x', a', n) /\
    (0 <= n <= zlen data \/ data = [] /\ http_errno x' = HPE_INVALID_EOF_STATE) /\
    (resumable x' -> parser_ok x') /\
    (http_errno x' = HPE_OK -> n = zlen data \/ upgrade x' = true).
Proof.
  intros Hmax Hlen Htame Hx. unfold http_parser_execute. case_decide as He.
  - destruct data as [|c r] eqn:Hd.
    + destruct (execute_eof_ok settings [] Hmax Hlen Htame x a eq_refl Hx He) as (x' & a' & n & -> & Hend). exists x', a', n.
      split; [done|]. destruct Hend as [(? & ? & ?)|[-> Hend]]; [auto|].
      split; [by right|]. split; [intros [|]; congruence|congruence].
    + rewrite <- Hd in *. pose proof (execute_data_ok settings data Hmax Hlen Htame x a Hx He) as Hwp. unfold wp in Hwp.
      match type of Hwp with match ?r with _ => _ end => destruct r as [[f [v| |v]]| | |] end; try done; simpl.
      * destruct Hwp as (? & ? & ?). eexists _, _, _. split; [done|]. auto.
      * destruct (safe_error_exit Hmax data f Hwp) as (g & v & -> & ? & ? & ?). eexists _, _, _. split; [done|]. auto.
      * destruct Hwp as (? & ? & ?). eexists _, _, _. split; [done|]. auto.
  - exists x, a, 0. split; [done|]. split; [left; pose proof (zlen_nonneg data); lia|]. done.
Qed.

(** C14: A request is read back: for every method but CONNECT, every URL of the
    grammar, any plain header lines and an optional body announced by a content
    length, the parser reads the whole text without an error and its callbacks
    tell exactly its parts, in order: the URL, the name and the value of each
    header, the end of the headers, the body, and the end of the message. *)
Theorem http_request_roundtrip `{HttpConfig} m u hs b x :
  0 <= max_header_size < 2 ^ 31 -> zlen (request m u hs b) < 2 ^ 31 -> valid_request m u hs b = true ->
  exists x', http_errno x' = HPE_OK /\
    http_parser_execute (recorder (request m u hs b)) (request m u hs b) (http_parser_init x HTTP_REQUEST) [] =
      Ret (x', request_notes u hs b, zlen (request m u hs b)).
Proof.
  intros Hmax Hlen Hval. pose proof (recorder_plays _ m _ _ [] (request_tells m u hs b)) as Hplay.
  destruct (execute_request _ m u hs b x [] _ Hmax Hlen Hval Hplay) as [(x' & a' & -> & He & Hex)|(o & Ho & _)]; [by exists x'|done].
Qed.

(** ** Instances *)

(** The daemon's build of the parser. *)
#[local] Instance lenient_build : HttpConfig := {| HTTP_PARSER_STRICT := false; max_header_size := HTTP_MAX_HEADER_SIZE |}.

Definition blank_parser : http_parser :=
  {| type := HTTP_BOTH; flags := 0; parser_state := s_dead; header_state := h_general; index := 0;
     lenient_http_headers := false; nread := 0; content_length := 0; http_major := 0; http_minor := 0;
     status_code := 0; method := HTTP_DELETE; http_errno := HPE_OK; upgrade := false; user_data := 0 |}.

Definition test_request : list Z :=
  request HTTP_POST (str "/srtp_cast_to?x=1") [(str "Host", str "camera"); (str "Accept", str "text/html, */*")] (Some (str "2", str "{}")).

(** Fails at a URL. *)
Definition failing : http_parser_settings nat :=
  {| on_message_begin := None; on_url := Some (fun k x _ _ => Ret (S k, x, 1)); on_status := None;
     on_header_field := None; on_header_value := None; on_headers_complete := None; on_body := None;
     on_message_complete := None; on_chunk_header := None; on_chunk_complete := None |}.

Lemma failing_tame : tame_settings failing.
Proof.
  split; [by intros []| |done]. intros [] cb off len Hcb; try done. injection Hcb as <-. intros a x.
  exists (S a), (http_errno x), 1. by destruct x.
Qed.

Lemma init_ok x t : parser_ok (http_parser_init x t).
Proof. split; [done|done|]. by destruct t. Qed.

Lemma http_parser_execute_safe_witness :
  exists x' a' n, http_parser_execute failing test_request (http_parser_init blank_parser HTTP_REQUEST) O = Ret (x', a', n) /\
    (0 <= n <= zlen test_request \/ test_request = [] /\ http_errno x' = HPE_INVALID_EOF_STATE) /\
    (resumable x' -> parser_ok x') /\
    (http_errno x' = HPE_OK -> n = zlen test_request \/ upgrade x' = true).
Proof. apply http_parser_execute_safe; [done|by vm_compute|apply failing_tame|apply init_ok]. Defined.

Lemma http_request_roundtrip_witness :
  exists x', http_errno x' = HPE_OK /\
    http_parser_execute (recorder test_request) test_request (http_parser_init blank_parser HTTP_REQUEST) [] =
      Ret (x', request_notes (str "/srtp_cast_to?x=1") [(str "Host", str "camera"); (str "Accept", str "text/html, */*")]
                 (Some (str "2", str "{}")), zlen test_request).
Proof. apply (http_request_roundtrip HTTP_POST); [done|by vm_compute|by vm_compute]. Defined.
