(* ===== verification/HttpServer.v ===== *)
(** The HTTP front end of the daemon (camera_daemon.c): the parser callbacks
    [server_on_url] and [server_on_body], [handle_request] and the [select]
    loop of [create_server].

    Descriptors, [read], [accept], [select] and the allocator answer through
    environment records; requests go through the HTTP parser of HttpParser.v and
    bodies through the JSON parser of JsonParse.v. *)

From stdpp Require Import gmap.
From Stdlib Require String.
From S2P Require Import Prelude CString HttpTypes HttpParser Err SrtpTypes SrtpPolicy Util RtpWorker Camera Snapshot Json JsonMem JsonParse.

Import String.StringSyntax.

(** ** Responses *)

(** [snprintf(http_header, 1024, ...)] with a [Content-Length] printed by
    [%d]: the [size_t] is read as an [int]. *)
Definition response_header (content_length : Z) : list Z :=
  str "HTTP/1.1 200 OK" ++ CRLF ++ str "Content-Type: image/jpeg" ++ CRLF ++
  str "Content-Length: " ++ decimal (s32 content_length) ++ CRLF ++
  str "Connection: keep-alive" ++ CRLF ++ CRLF.

Definition live_header : list Z :=
  str "HTTP/1.1 200 OK" ++ CRLF ++ str "Content-Type: video/h264" ++ CRLF ++
  str "Connection: keep-alive" ++ CRLF ++ CRLF.

(** No result of [calloc] is checked in this file: [snprintf] into NULL is
    undefined. *)
Definition send_html_response (calloc_ok : bool) (fd : Z) (body : list Z) : outcome (list cam_event) :=
  if calloc_ok then Ret [EvWrite fd (response_header (zlen body)); EvWrite fd body] else Undef.

(** ** The URL callback *)

Section Server.
Context `{SrtpLib} `{HttpConfig}.

(** The globals [userdata] and [srtpctx]. *)
Record daemon := {
  d_snap : snapshot_state;
  d_video : video_state;
  d_url : url_state
}.

Definition with_snap (d : daemon) (s : snapshot_state) : daemon :=
  {| d_snap := s; d_video := d_video d; d_url := d_url d |}.

Definition with_stream (d : daemon) (s : stream_state) : daemon :=
  {| d_snap := d_snap d; d_video := {| stream := s; srtpctx := srtpctx (d_video d) |};
     d_url := d_url d |}.

Definition with_video (d : daemon) (v : video_state) : daemon :=
  {| d_snap := d_snap d; d_video := v; d_url := d_url d |}.

Definition with_url (d : daemon) (u : url_state) : daemon :=
  {| d_snap := d_snap d; d_video := d_video d; d_url := u |}.

(** [!strncmp(data, literal, length)]. *)
Definition url_is (data : list Z) (length : Z) (lit : list Z) : option bool :=
  r ← strncmp (Z.to_nat length) data (lit ++ [0]); Some (r =? 0).

Definition URL_SNAPSHOT : list Z := str "/snapshot".
Definition URL_LIVE : list Z := str "/live".
Definition URL_STOP_SRTP : list Z := str "/stop_srtp".
Definition URL_SRTP_CAST_TO : list Z := str "/srtp_cast_to".

(** Keeping the URL: [realloc] when it does not fit, [None] for the early
    return when that fails.  The octets [realloc] adds are all overwritten. *)
Definition save_url (realloc_ok : bool) (u : url_state) (data : list Z) (length : Z)
    : outcome (option url_state) :=
  let grow := last_url_size u <=? length in
  if grow && negb realloc_ok then Ret None
  else
    let u := if grow then {| last_url := resize (Z.to_nat (u32 (length + 1))) 0 (last_url u);
                             last_url_size := u32 (length + 1) |} else u in
    src ← lift (slice data 0 length);
    url ← lift (blit (last_url u) 0 src);
    url ← lift (aset url length 0);
    Ret (Some {| last_url := url; last_url_size := last_url_size u |}).

(** The loop on [pthread_cond_wait]: the mutex is free while the server waits,
    and [bs] are the callbacks the encoder makes meanwhile. *)
Fixpoint await_snapshot (s : snapshot_state) (bs : list (mmal_env * MMAL_BUFFER_HEADER_T))
    : outcome (snapshot_state * list cam_event) :=
  if (snapshot_request_n s =? 0) && bool_decide (img_lock s = None)
  then Ret (with_lock s (Some Server), [])
  else
    match bs with
    | [] => Blocked
    | (env, b) :: bs =>
        '(s, ev) ← lift (jpeg_encoder_output_buffer_callback env s b);
        '(s, evs) ← await_snapshot s bs;
        Ret (s, ev ++ evs)
    end.

(** The [/snapshot] branch. *)
Definition serve_snapshot (calloc_ok : bool) (fd : Z) (s : snapshot_state) (bs : list (mmal_env * MMAL_BUFFER_HEADER_T))
    : outcome (snapshot_state * list cam_event) :=
  match img_lock s with
  | Some _ => Blocked
  | None =>
      let s := set_request (with_lock s (Some Server)) 1 in
      m ← lift (pthread_mutex_unlock Server (img_lock s));
      '(s, evs) ← await_snapshot (with_lock s m) bs;
      if negb calloc_ok then Undef else
      img ← lift (slice (image_buffer s) 0 (image_size s));
      m ← lift (pthread_mutex_unlock Server (img_lock s));
      Ret (with_lock s m,
           evs ++ [EvWrite fd (response_header (image_size s)); EvWrite fd img])
  end.

(** The [/live] branch: header and stored stream header are written, then the
    descriptor becomes the live client. *)
Definition serve_live (calloc_ok : bool) (fd : Z) (s : stream_state) : outcome (stream_state * list cam_event) :=
  if negb calloc_ok then Undef else
  hdr ← lift (slice (default [] (stream_header s)) 0 (stream_header_size s));
  Ret (set_client s 1 fd (frame_start s), [EvWrite fd live_header; EvWrite fd hdr]).

(** The [/stop_srtp] branch, without the answer. *)
Definition stop_srtp (s : stream_state) : stream_state := set_srtp s 0 (srtp_frame_start s).

(** [server_on_url(parser, data, length)]; [data] is the request from the URL
    on.  Returns the new state, the return value and the writes. *)
Definition server_on_url (realloc_ok calloc_ok : bool) (bs : list (mmal_env * MMAL_BUFFER_HEADER_T))
    (d : daemon) (method : http_method) (filedes : Z) (data : list Z) (length : Z)
    : outcome (daemon * Z * list cam_event) :=
  saved ← save_url realloc_ok (d_url d) data length;
  match saved with
  | None => Ret (d, -1, [])
  | Some u =>
      let d := with_url d u in
      if decide (method = HTTP_GET) then
        snapshot ← lift (url_is data length URL_SNAPSHOT);
        if (snapshot : bool) then
          '(s, ev) ← serve_snapshot calloc_ok filedes (d_snap d) bs;
          Ret (with_snap d s, 0, ev)
        else
          live ← lift (url_is data length URL_LIVE);
          if (live : bool) then
            '(s, ev) ← serve_live calloc_ok filedes (stream (d_video d));
            Ret (with_stream d s, 0, ev)
          else
            stop ← lift (url_is data length URL_STOP_SRTP);
            if (stop : bool) then
              ev ← send_html_response calloc_ok filedes (str "OK");
              Ret (with_stream d (stop_srtp (stream (d_video d))), 0, ev)
            else Ret (d, 0, [])
      else Ret (d, 0, [])
  end.

(** ** The body callback *)

(** What the system answers to [prepare_srtp_sender], the contents of its
    uninitialised variables, and the allocator and globals of the JSON parser. *)
Record prep_env := {
  pe_calloc_ok : bool;
  pe_malloc_ok : bool;
  pe_key0 : list Z;
  pe_pad0 : Z;
  pe_aton : list Z -> Z;
  pe_socket : Z;
  pe_bind_ok : bool;
  pe_json_ok : nat -> bool;
  pe_json : json_globals
}.

(** Reading the configuration: [addr] is dereferenced before it is checked. *)
Definition srtp_config (cfg : option cJSON) : outcome (list Z * Z * Z * list Z) :=
  addr ← lift (cJSON_GetObjectItemCaseSensitive cfg (cstring (str "addr")));
  a ← lift addr;
  _ ← c_assert (cJSON_IsString addr);
  port ← lift (cJSON_GetObjectItemCaseSensitive cfg (cstring (str "port")));
  _ ← c_assert (cJSON_IsNumber port);
  p ← lift port;
  ssrc ← lift (cJSON_GetObjectItemCaseSensitive cfg (cstring (str "ssrc")));
  _ ← c_assert (cJSON_IsNumber ssrc);
  s ← lift ssrc;
  key ← lift (cJSON_GetObjectItemCaseSensitive cfg (cstring (str "key")));
  _ ← c_assert (cJSON_IsString key);
  k ← lift key;
  remote ← lift (valuestring a);
  input_key ← lift (valuestring k);
  Ret (remote, valueint p, valueint s, input_key).

(** The [/srtp_cast_to] branch after the answer has been sent. *)
Definition start_cast (e : prep_env) (v : video_state) (data : list Z) (length : Z)
    : outcome (video_state * list cam_event) :=
  if negb (pe_malloc_ok e) then Undef
  else
    body ← lift (slice data 0 length);
    '(_, _, cfg) ← lift (cJSON_Parse (pe_json_ok e) (pe_json e) (Some (body ++ [0])));
    '(remote, port, ssrc, key) ← srtp_config cfg;
    c ← prepare_srtp_sender (srtpctx v) (pe_key0 e) (pe_pad0 e) (pe_aton e remote) (pe_socket e)
          (pe_bind_ok e) port ssrc key;
    '(c, ev) ← lift (srtp_sender_callback c (default [] (stream_header (stream v)))
                       (stream_header_size (stream v)));
    Ret ({| stream := set_srtp (stream v) 1 (srtp_frame_start (stream v)); srtpctx := c |},
         map EvRtp ev).

(** [server_on_body(parser, data, length)]; the function has no [return]. *)
Definition server_on_body (e : prep_env) (d : daemon) (method : http_method) (filedes : Z) (data : list Z) (length : Z)
    : outcome (daemon * list cam_event) :=
  if decide (method = HTTP_POST) then
    n ← lift (strlen (last_url (d_url d)));
    cast ← lift (url_is (last_url (d_url d)) n URL_SRTP_CAST_TO);
    if (cast : bool) then
      sent ← send_html_response (pe_calloc_ok e) filedes (str "OK");
      '(v, ev) ← start_cast e (d_video d) data length;
      Ret (with_video d v, sent ++ ev)
    else
      sent ← send_html_response (pe_calloc_ok e) filedes (str "unknown command");
      Ret (d, sent)
  else Ret (d, []).

(** ** Requests *)

(** The environment of the [k]-th call: allocator, encoder, [prepare_srtp_sender]
    and what the caller finds in the place of [server_on_body]'s result. *)
Record call_env := {
  ce_realloc_ok : bool;
  ce_calloc_ok : bool;
  ce_buffers : list (mmal_env * MMAL_BUFFER_HEADER_T);
  ce_prep : prep_env;
  ce_garbage : Z
}.

(** What the callbacks work on: the daemon, the writes so far and the number
    of calls made. *)
Record serving := { rq_daemon : daemon; rq_trace : list cam_event; rq_calls : nat }.

(** [site_setting]; [buffer] is what the parser gets a pointer into. *)
Definition site_setting (ce : nat -> call_env) (filedes : Z) (buffer : list Z) : http_parser_settings serving :=
  {| on_message_begin := None;
     on_url := Some (fun r x at_ len =>
       let e := ce (rq_calls r) in
       '(d, rc, ev) ← server_on_url (ce_realloc_ok e) (ce_calloc_ok e) (ce_buffers e) (rq_daemon r) (method x) filedes
                        (drop (Z.to_nat at_) buffer) len;
       Ret ({| rq_daemon := d; rq_trace := rq_trace r ++ ev; rq_calls := S (rq_calls r) |}, x, rc));
     on_status := None; on_header_field := None; on_header_value := None; on_headers_complete := None;
     on_body := Some (fun r x at_ len =>
       let e := ce (rq_calls r) in
       '(d, ev) ← server_on_body (ce_prep e) (rq_daemon r) (method x) filedes (drop (Z.to_nat at_) buffer) len;
       Ret ({| rq_daemon := d; rq_trace := rq_trace r ++ ev; rq_calls := S (rq_calls r) |}, x, ce_garbage e));
     on_message_complete := None; on_chunk_header := None; on_chunk_complete := None |}.

(** The parser on the stack: all but [data] is overwritten by its
    initialisation. *)
Definition stack_parser (filedes : Z) : http_parser :=
  {| HttpTypes.type := HTTP_BOTH; flags := 0; parser_state := s_dead; header_state := h_general; index := 0;
     lenient_http_headers := false; nread := 0; content_length := 0; http_major := 0; http_minor := 0;
     status_code := 0; method := HTTP_DELETE; http_errno := HPE_OK; upgrade := false; user_data := filedes |}.

Definition MAXMSG : Z := 512.

(** [handle_request(filedes)]: [got] is what [read] stores ([None] for an
    error), [stack] the octets the uninitialised [buffer] held before. *)
Definition handle_request (ce : nat -> call_env) (stack : list Z) (got : option (list Z))
    (d : daemon) (filedes : Z) : outcome (daemon * Z * list cam_event) :=
  match got with
  | None => Ret (d, -1, [])
  | Some [] => Ret (d, -1, [])
  | Some data =>
      buffer ← lift (blit stack 0 data);
      len ← lift (strlen buffer);
      let n := if MAXMSG <? len then MAXMSG else len in
      '(_, r, _) ← http_parser_execute (site_setting ce filedes buffer) (take (Z.to_nat n) buffer)
                     (http_parser_init (stack_parser filedes) HTTP_REQUEST)
                     {| rq_daemon := d; rq_trace := []; rq_calls := 0 |};
      Ret (rq_daemon r, 0, rq_trace r)
  end.

(** ** The select loop *)

Definition FD_SETSIZE : Z := 1024.

(** One round: the ready descriptors ([None]: [select] fails), what [accept]
    returns, and per descriptor what [read] delivers and the environment of
    the request. *)
Record round_env := {
  re_ready : option (gset Z);
  re_accept : Z;
  re_read : Z -> option (list Z);
  re_stack : Z -> list Z;
  re_calls : Z -> nat -> call_env
}.

(** What a turn of the loop does: [accept], [handle_request] with what it
    writes and sends, [close]. *)
Inductive server_event :=
| SvAccept (fd : Z)
| SvRequest (fd : Z) (evs : list cam_event)
| SvClose (fd : Z).

Record server_state := {
  ss_daemon : daemon;
  ss_active : gset Z;
  ss_trace : list server_event
}.

(** The body of the [for] loop for descriptor [i].  [FD_SET] has no check: on
    a descriptor that is not below [FD_SETSIZE] it writes behind the set on the
    stack, which is undefined. *)
Definition service_fd (re : round_env) (ready : gset Z) (sock i : Z) (x : server_state)
    : outcome server_state :=
  if decide (i ∈ ready) then
    if i =? sock then
      let new := re_accept re in
      if new <? 0 then Exit 1
      else if FD_SETSIZE <=? new then Undef
      else Ret {| ss_daemon := ss_daemon x; ss_active := {[ new ]} ∪ ss_active x;
                  ss_trace := ss_trace x ++ [SvAccept new] |}
    else
      '(d, rc, ev) ← handle_request (re_calls re i) (re_stack re i) (re_read re i) (ss_daemon x) i;
      Ret {| ss_daemon := d;
             ss_active := if rc <? 0 then ss_active x ∖ {[ i ]} else ss_active x;
             ss_trace := ss_trace x ++ SvRequest i ev :: (if rc <? 0 then [SvClose i] else []) |}
  else Ret x.

Fixpoint service_from (re : round_env) (ready : gset Z) (sock : Z) (n : nat) (i : Z) (x : server_state)
    : outcome server_state :=
  match n with
  | O => Ret x
  | S n' => x ← service_fd re ready sock i x; service_from re ready sock n' (i + 1) x
  end.

Definition server_round (sock : Z) (re : round_env) (x : server_state) : outcome server_state :=
  match re_ready re with
  | None => Exit 1
  | Some ready => service_from re ready sock (Z.to_nat FD_SETSIZE) 0 x
  end.



(** What [main] stores in [userdata] before the pipeline is set up, with the
    initial values of the callbacks' statics; [ctx0] is the sender context,
    which [POST /srtp] prepares.  The two [calloc] succeed. *)
Definition daemon_init (ctx0 : srtp_sender_context) : daemon :=
  {| d_snap := {| img_lock := None; snapshot_request_n := 0;
                  image_buffer := replicate (Z.to_nat IMAGE_BUFFER_SIZE) 0; image_size := 0;
                  already_acquired_lock := 0; jpeg_state := 0 |};
     d_video := {| stream := {| stream_header := None; stream_header_size := 0; have_active_client := 0;
                                client_fd := 0; have_active_srtp_receiver := 0;
                                frame_start := -1; srtp_frame_start := -1 |};
                   srtpctx := ctx0 |};
     d_url := {| last_url := replicate 16 0; last_url_size := 16 |} |}.

End Server.

(** ** URLs *)

Section UrlLemmas.
Context `{SrtpLib}.

Lemma url_is_prefix u rest lit :
  nul_free u -> url_is (u ++ rest) (zlen u) lit = Some (bool_decide (u `prefix_of` lit)).
Proof.
  intros Hu. unfold url_is, zlen. rewrite Nat2Z.id.
  destruct (strncmp_prefix u rest lit Hu) as (r & -> & Hr). simpl. f_equal.
  apply eq_bool_prop_intro. rewrite !Is_true_true, Z.eqb_eq, bool_decide_eq_true. exact Hr.
Qed.

(** The stored URL: its size is recorded. *)
Definition url_ok (u : url_state) : Prop := zlen (last_url u) = last_url_size u /\ 0 < last_url_size u.

Definition url_holds (u : url_state) (s : list Z) : Prop :=
  url_ok u /\ exists rest, last_url u = s ++ 0 :: rest.

Lemma save_url_spec u s rest :
  url_ok u -> zlen s < 2 ^ 32 - 1 ->
  exists u', save_url true u (s ++ rest) (zlen s) = Ret (Some u') /\ url_holds u' s.
Proof.
  intros [Hl Hp] Hs. unfold save_url. rewrite andb_false_r.
  set (u1 := if _ : bool then _ else u).
  assert (url_ok u1 /\ zlen s < last_url_size u1) as [[Hl1 Hp1] Hfit].
  { pose proof (zlen_nonneg s). unfold u1. case_if; [|by split; [split|]].
    rewrite wrap_id by (unfold fits; lia). unfold url_ok, zlen in *. simpl. rewrite length_resize. lia. }
  clearbody u1. rewrite slice_Some by (rewrite ?zlen_app; pose proof (zlen_nonneg rest);
    pose proof (zlen_nonneg s); lia). cbn [lift mbind outcome_bind].
  change (Z.to_nat 0) with 0%nat. change (drop 0 (s ++ rest)) with (s ++ rest).
  assert (take (Z.to_nat (zlen s)) (s ++ rest) = s) as ->
    by (unfold zlen; by rewrite Nat2Z.id, take_app_length).
  unfold blit. pose proof (zlen_nonneg s). rewrite decide_True by lia. cbn [lift mbind outcome_bind].
  change (take (Z.to_nat 0) (last_url u1)) with (@nil Z). cbn [Datatypes.app].
  destruct (drop (Z.to_nat (0 + zlen s)) (last_url u1)) as [|x tl] eqn:Ed.
  { apply (f_equal List.length) in Ed. rewrite length_drop in Ed. unfold zlen in *. simpl in Ed. lia. }
  rewrite aset_Some by (rewrite zlen_app; unfold zlen; simpl; lia). cbn [lift mbind outcome_bind].
  eexists. split; [done|].
  assert (<[Z.to_nat (zlen s) := 0]> (s ++ x :: tl) = s ++ 0 :: tl) as ->.
  { unfold zlen. rewrite Nat2Z.id. by rewrite insert_app_r_alt, Nat.sub_diag by lia. }
  split; [|by eexists]. unfold url_ok. simpl. split; [|lia].
  apply (f_equal List.length) in Ed. rewrite length_drop in Ed. unfold zlen in *.
  rewrite length_app. simpl in *. lia.
Qed.

Lemma url_holds_strlen u s : url_holds u s -> nul_free s -> strlen (last_url u) = Some (zlen s).
Proof. intros [_ [rest ->]] Hs. by apply strlen_app. Qed.

(** The answer to a GET: the first of the three literals that the URL is a
    PREFIX of decides, [strncmp] being limited by the length of the URL. *)
Definition get_answer (calloc_ok : bool) (bs : list (mmal_env * MMAL_BUFFER_HEADER_T)) (d : daemon) (fd : Z) (u : list Z)
    : outcome (daemon * list cam_event) :=
  if decide (u `prefix_of` URL_SNAPSHOT) then
    '(s, ev) ← serve_snapshot calloc_ok fd (d_snap d) bs; Ret (with_snap d s, ev)
  else if decide (u `prefix_of` URL_LIVE) then
    '(s, ev) ← serve_live calloc_ok fd (stream (d_video d)); Ret (with_stream d s, ev)
  else if decide (u `prefix_of` URL_STOP_SRTP) then
    ev ← send_html_response calloc_ok fd (str "OK"); Ret (with_stream d (stop_srtp (stream (d_video d))), ev)
  else Ret (d, []).

Lemma on_url_get calloc_ok bs d fd u rest :
  url_ok (d_url d) -> nul_free u -> zlen u < 2 ^ 32 - 1 ->
  exists u', url_holds u' u /\
    server_on_url true calloc_ok bs d HTTP_GET fd (u ++ rest) (zlen u) =
      '(d, ev) ← get_answer calloc_ok bs (with_url d u') fd u; Ret (d, 0, ev).
Proof.
  intros Hu Hn Hl. destruct (save_url_spec (d_url d) u rest Hu Hl) as (u' & E & Hu').
  exists u'. split; [done|]. unfold server_on_url, get_answer. rewrite E. cbn [mbind outcome_bind].
  rewrite (decide_True (P := HTTP_GET = HTTP_GET)) by done.
  rewrite !url_is_prefix by done. cbn [lift mbind outcome_bind].
  destruct (decide (u `prefix_of` URL_SNAPSHOT)); [rewrite bool_decide_true by done|rewrite bool_decide_false by done].
  { by destruct (serve_snapshot _ _ _ _) as [[]| | |]. }
  cbn [lift mbind outcome_bind]. destruct (decide (u `prefix_of` URL_LIVE)); [rewrite bool_decide_true by done|rewrite bool_decide_false by done].
  { by destruct (serve_live _ _ _) as [[]| | |]. }
  cbn [lift mbind outcome_bind]. destruct (decide (u `prefix_of` URL_STOP_SRTP)); [rewrite bool_decide_true by done|by rewrite bool_decide_false by done].
  by destruct (send_html_response _ _ _).
Qed.

(** Other methods only keep the URL. *)
Lemma on_url_other calloc_ok bs d m fd u rest :
  m <> HTTP_GET -> url_ok (d_url d) -> zlen u < 2 ^ 32 - 1 ->
  exists u', url_holds u' u /\ server_on_url true calloc_ok bs d m fd (u ++ rest) (zlen u) = Ret (with_url d u', 0, []).
Proof.
  intros Hm Hu Hl. destruct (save_url_spec (d_url d) u rest Hu Hl) as (u' & E & Hu').
  exists u'. split; [done|]. unfold server_on_url. rewrite E. cbn [mbind outcome_bind]. by rewrite decide_False.
Qed.

End UrlLemmas.

(** ** Snapshots, end to end *)

Section SnapshotResponse.
Context `{SrtpLib}.

Lemma unlock_own t : pthread_mutex_unlock t (Some t) = Some None.
Proof. unfold pthread_mutex_unlock. by rewrite decide_True. Qed.

Lemma jpeg_run_idle bs s :
  snapshot_request_n s = 0 -> exists evs, jpeg_run s bs = Some (s, evs).
Proof.
  intros Hn. induction bs as [|[env b] bs [evs IH]]; [by eexists|]. simpl.
  unfold jpeg_encoder_output_buffer_callback. rewrite Hn. simpl. rewrite IH. by eexists.
Qed.

Lemma await_run bs : forall s s' evs,
  jpeg_run s bs = Some (s', evs) -> snapshot_request_n s' = 0 -> img_lock s' = None ->
  exists evs', await_snapshot s bs = Ret (with_lock s' (Some Server), evs').
Proof.
  induction bs as [|[env b] bs IH]; intros s s' evs E Hn Hl.
  - simpl in *. simplify_eq. rewrite Hn, Hl. by eexists.
  - cbn [await_snapshot]. destruct (snapshot_request_n s =? 0) eqn:E0; bool_to_prop.
    + destruct (jpeg_run_idle ((env, b) :: bs) s E0) as [evs0 Ei]. rewrite Ei in E. simplify_eq.
      rewrite Hl. by eexists.
    + cbn [andb]. cbn [jpeg_run] in E.
      destruct (jpeg_encoder_output_buffer_callback env s b) as [[s1 ev]|]; [|done]. simpl in E.
      destruct (jpeg_run s1 bs) as [[s2 evs2]|] eqn:E2; [|done]. simpl in E. simplify_eq.
      destruct (IH s1 s' evs2 E2 Hn Hl) as [evs' E']. cbn [lift mbind outcome_bind]. rewrite E'.
      by eexists.
Qed.

(** The state between requests. *)
Definition snap_idle (s : snapshot_state) : Prop :=
  img_lock s = None /\ snapshot_request_n s = 0 /\ already_acquired_lock s = 0 /\
  jpeg_state s = 0 /\ image_ok s.

(** C34: [GET /snapshot] answered.  When the encoder, while the server waits,
    delivers one buffer, the rest of the current frame, and then a frame that
    fits the image buffer, the request ends with a 200 response whose
    [Content-Length] is the size of that frame, followed by exactly its octets,
    and leaves the exchange idle again. *)
Theorem snapshot_response d fd rest env0 b0 pre env e0 mid env1 e1 :
  url_ok (d_url d) -> snap_idle (d_snap d) ->
  Forall (fun b => not_end (snd b)) pre -> flag_FRAME_END e0 = true ->
  Forall (fun b => not_end (snd b)) mid -> Forall (fun b => wf_buffer (snd b)) mid ->
  wf_buffer e1 -> flag_FRAME_END e1 = true ->
  let frame := frame_data (map snd mid ++ [e1]) in
  zlen frame <= zlen (image_buffer (d_snap d)) ->
  exists d' evs,
    server_on_url true true ((env0, b0) :: pre ++ (env, e0) :: mid ++ [(env1, e1)]) d HTTP_GET fd
      (URL_SNAPSHOT ++ rest) (zlen URL_SNAPSHOT)
    = Ret (d', 0, evs ++ [EvWrite fd (response_header (zlen frame)); EvWrite fd frame]) /\
    snap_idle (d_snap d') /\ d_video d' = d_video d /\ url_holds (d_url d') URL_SNAPSHOT.
Proof.
  intros Hu (Hl & Hn & Ha & Hst & Hi) Hpre He0 Hmid Hwf Hw1 He1 frame Hfit.
  assert (nul_free URL_SNAPSHOT) as Hnf by (by repeat constructor).
  destruct (save_url_spec (d_url d) URL_SNAPSHOT rest Hu) as (u' & E & Hu'); [done|].
  unfold server_on_url. rewrite E. cbn [mbind outcome_bind].
  rewrite (decide_True (P := HTTP_GET = HTTP_GET)) by done. rewrite (url_is_prefix URL_SNAPSHOT rest URL_SNAPSHOT) by done.
  rewrite (bool_decide_true (URL_SNAPSHOT `prefix_of` URL_SNAPSHOT)) by reflexivity. cbn [lift mbind outcome_bind]. unfold serve_snapshot.
  cbn [with_url d_snap]. rewrite Hl. cbn [with_lock set_lock set_request img_lock].
  rewrite unlock_own. cbn [lift mbind outcome_bind].
  set (s0 := with_lock _ None).
  destruct (jpeg_run_frame s0 env0 b0 pre env e0 mid env1 e1)
    as (s' & evs & Er & Hl' & Hn' & Ha' & Hst' & Hi' & Hz & Him); [done..|].
  destruct (await_run _ s0 s' evs Er Hn' Hl') as [evs' ->]. cbn [lift mbind outcome_bind].
  cbn [with_lock set_lock img_lock image_size image_buffer].
  pose proof (zlen_image s' Hi') as Hzi. rewrite Him in Hzi. fold frame in Hzi.
  destruct Hi' as [Hi1 Hi2]. rewrite slice_Some by lia. cbn [lift mbind outcome_bind].
  rewrite unlock_own. cbn [lift mbind outcome_bind].
  change (drop (Z.to_nat 0) (image_buffer s')) with (image_buffer s'). fold (image s').
  rewrite Him, <- Hzi. eexists _, evs'. split; [done|].
  split_and!; [|done|done]. unfold snap_idle, image_ok. split_and!; simpl; (done || lia).
Qed.

End SnapshotResponse.

(** ** Casting *)

Section Cast.
Context `{SrtpLib}.

Lemma on_body_cast e d fd data length u :
  url_holds (d_url d) u -> nul_free u -> u `prefix_of` URL_SRTP_CAST_TO ->
  server_on_body e d HTTP_POST fd data length =
    sent ← send_html_response (pe_calloc_ok e) fd (str "OK");
    '(v, ev) ← start_cast e (d_video d) data length;
    Ret (with_video d v, sent ++ ev).
Proof.
  intros Hu Hn Hp. unfold server_on_body. rewrite (decide_True (P := HTTP_POST = HTTP_POST)) by done.
  rewrite (url_holds_strlen _ u) by done. cbn [lift mbind outcome_bind].
  destruct Hu as [_ [rest ->]]. rewrite url_is_prefix by done. by rewrite bool_decide_true.
Qed.

(** Casting reads outside the stream header.  Once the encoder has
    delivered a stream header (stored in a block of exactly its size), no
    request to [/srtp_cast_to] completes, whatever its body and whatever the
    environment answers: sending the header reads past that block, unless the
    process has ended before. *)
Theorem srtp_cast_never_completes e d fd data length u h :
  url_holds (d_url d) u -> nul_free u -> u `prefix_of` URL_SRTP_CAST_TO ->
  stream_header (stream (d_video d)) = Some h -> stream_header_size (stream (d_video d)) = zlen h ->
  0 < zlen h < 2 ^ 31 - RTP_PKT_BODY_SIZE ->
  forall r, server_on_body e d HTTP_POST fd data length <> Ret r.
Proof.
  intros Hu Hn Hp Hh Hs Hz r. rewrite (on_body_cast e d fd data length u) by done.
  unfold start_cast, send_html_response. rewrite Hh, Hs. simpl default.
  destruct (pe_calloc_ok e); [|done]. cbn [mbind outcome_bind].
  destruct (pe_malloc_ok e); [|done]. cbn [negb].
  destruct (slice data 0 length) as [body|]; [|done]. cbn [lift mbind outcome_bind].
  destruct (cJSON_Parse _ _ _) as [[[g n] cfg]|]; [|done]. cbn [lift mbind outcome_bind].
  destruct (srtp_config _) as [[[[remote port] ssrc] key]| | |]; [|done..]. cbn [mbind outcome_bind].
  destruct (prepare_srtp_sender _ _ _ _ _ _ _ _ _) as [c| | |]; [|done..]. cbn [mbind outcome_bind].
  rewrite sender_callback_oob by done. done.
Qed.

(** A body that is not JSON, or has no [addr], makes the daemon
    dereference NULL. *)
Theorem srtp_cast_bad_json e d fd data length u body g n cfg :
  url_holds (d_url d) u -> nul_free u -> u `prefix_of` URL_SRTP_CAST_TO ->
  slice data 0 length = Some body ->
  cJSON_Parse (pe_json_ok e) (pe_json e) (Some (body ++ [0])) = Some (g, n, cfg) ->
  cJSON_GetObjectItemCaseSensitive cfg (cstring (str "addr")) = Some None ->
  server_on_body e d HTTP_POST fd data length = Undef.
Proof.
  intros Hu Hn Hp Hb Hc Ha. rewrite (on_body_cast e d fd data length u) by done.
  unfold start_cast, send_html_response. destruct (pe_calloc_ok e); [|done]. cbn [mbind outcome_bind].
  destruct (pe_malloc_ok e); [|done]. cbn [negb].
  rewrite Hb. cbn [lift mbind outcome_bind]. rewrite Hc. cbn [lift mbind outcome_bind]. unfold srtp_config. by rewrite Ha.
Qed.

End Cast.

(** ** Requests and rounds *)

Section Requests.
Context `{SrtpLib} `{HttpConfig}.

Lemma blit_front stack data :
  zlen data <= zlen stack ->
  blit stack 0 data = Some (data ++ drop (List.length data) stack).
Proof.
  intros Hl. unfold blit. rewrite decide_True by lia. f_equal.
  change (take (Z.to_nat 0) stack) with (@nil Z). cbn [Datatypes.app]. do 2 f_equal. unfold zlen. lia.
Qed.

(** The request buffer is not terminated after [read].  The parser is
    given everything up to the first NUL of the buffer, so octets [stale] that
    an earlier use of the stack left behind the request are parsed as part of
    it. *)
Theorem handle_request_parses_stale ce d fd pre data stale rest :
  data <> [] -> nul_free data -> List.length pre = List.length data -> nul_free stale ->
  zlen (pre ++ stale ++ 0 :: rest) = MAXMSG ->
  handle_request ce (pre ++ stale ++ 0 :: rest) (Some data) d fd =
    '(_, r, _) ← http_parser_execute (site_setting ce fd (data ++ stale ++ 0 :: rest)) (data ++ stale)
                   (http_parser_init (stack_parser fd) HTTP_REQUEST)
                   {| rq_daemon := d; rq_trace := []; rq_calls := 0 |};
    Ret (rq_daemon r, 0, rq_trace r).
Proof.
  intros Hne Hd Hl Hs Hz. unfold handle_request. destruct data as [|x data]; [done|].
  set (dd := x :: data) in *. clearbody dd. unfold zlen, MAXMSG in Hz.
  rewrite !length_app in Hz. simpl in Hz.
  rewrite blit_front by (unfold zlen; rewrite !length_app; simpl; lia). cbn [lift mbind outcome_bind].
  rewrite <- Hl, drop_app_length, app_assoc.
  rewrite strlen_app by (by apply Forall_app). cbn [lift mbind outcome_bind].
  unfold zlen. rewrite length_app. unfold MAXMSG. case_if; [lia|].
  rewrite Nat2Z.id, <- length_app, take_app_length. done.
Qed.

(** A request that fills the buffer without a NUL is read past its end by
    [strlen]. *)
Theorem handle_request_full_buffer ce d fd stack data :
  zlen stack = MAXMSG -> zlen data = MAXMSG -> nul_free data ->
  handle_request ce stack (Some data) d fd = Undef.
Proof.
  intros Hs Hd Hn. unfold handle_request. destruct data as [|x data]; [done|].
  set (dd := x :: data) in *. clearbody dd. rewrite blit_front by lia. cbn [lift mbind outcome_bind].
  rewrite drop_ge by (unfold zlen in *; lia). rewrite app_nil_r.
  by rewrite strlen_None.
Qed.

(** A ready descriptor other than the listening one whose [read] fails or is
    at end of file. *)
Definition dead (re : round_env) (ready : gset Z) (sock i : Z) : Prop :=
  i ∈ ready /\ i <> sock /\ default [] (re_read re i) = [].

#[local] Instance dead_dec re ready sock i : Decision (dead re ready sock i).
Proof. unfold dead. apply _. Defined.

(** What a turn of the loop does to the watched descriptors. *)
Definition next_active (re : round_env) (ready : gset Z) (sock i : Z) (A : gset Z) : gset Z :=
  if decide (i = sock /\ sock ∈ ready) then {[ re_accept re ]} ∪ A
  else if decide (dead re ready sock i) then A ∖ {[ i ]} else A.

Lemma handle_request_result ce stack got d fd d' rc ev :
  handle_request ce stack got d fd = Ret (d', rc, ev) ->
  rc = if decide (default [] got = []) then -1 else 0.
Proof.
  unfold handle_request. destruct got as [[|y data]|]; simpl; try (by intros [= _ <- _]).
  destruct (blit _ _ _) as [b|]; [|done]. simpl. destruct (strlen b); [|done]. simpl.
  destruct (http_parser_execute _ _ _ _) as [[[? ?] ?]| | |]; [|done..]. simpl. by intros [= _ <- _].
Qed.

Lemma service_fd_active re ready sock i x x' :
  service_fd re ready sock i x = Ret x' ->
  ss_active x' = next_active re ready sock i (ss_active x) /\
  (i = sock -> sock ∈ ready -> 0 <= re_accept re < FD_SETSIZE).
Proof.
  unfold service_fd, next_active, dead. case_decide as Hr.
  2: { intros [= <-]. rewrite decide_False by (by intros [-> ?]).
       rewrite decide_False by (by intros [? ?]). split; [done|by intros ->]. }
  case_if.
  - subst i. rewrite (decide_True (P := sock = sock /\ _)) by done.
    destruct (re_accept re <? 0) eqn:E1; [done|]. destruct (FD_SETSIZE <=? re_accept re) eqn:E2; [done|].
    bool_to_prop. intros [= <-]. done.
  - destruct (handle_request _ _ _ _ _) as [[[d rc] ev]| | |] eqn:E; [|done..].
    apply handle_request_result in E as ->. cbn [mbind outcome_bind]. intros [= <-]. simpl.
    rewrite (decide_False (P := i = sock /\ _)) by (by intros [? ?]).
    split; [|done]. repeat case_decide; try done; exfalso; naive_solver.
Qed.

Lemma service_from_active re ready sock n : forall i x x',
  service_from re ready sock n i x = Ret x' ->
  (forall j, j <> re_accept re ->
     j ∈ ss_active x' <-> j ∈ ss_active x /\ ~ (i <= j < i + Z.of_nat n /\ dead re ready sock j)) /\
  (sock ∈ ready -> i <= sock < i + Z.of_nat n -> re_accept re ∉ ready ->
     0 <= re_accept re < FD_SETSIZE /\ re_accept re ∈ ss_active x') /\
  (re_accept re ∉ ready -> re_accept re ∈ ss_active x -> re_accept re ∈ ss_active x').
Proof.
  induction n as [|n IH]; intros i x x' E; cbn [service_from] in E.
  { injection E as <-. split_and!; [|lia|done]. intros j Hj. split; [|by intros [? _]]. split; [done|lia]. }
  destruct (service_fd _ _ _ _ _) as [x1| | |] eqn:E1; [|done..]. cbn [mbind outcome_bind] in E.
  apply service_fd_active in E1 as [E1 Hacc]. apply IH in E as (Hj & Hs & Hk).
  unfold next_active in E1. split_and!.
  - intros j Hne. rewrite (Hj j Hne), E1. clear Hj Hs Hk.
    destruct (decide (j = i)) as [->|Hji].
    + repeat case_decide; rewrite ?elem_of_difference, ?elem_of_union, ?elem_of_singleton;
        unfold dead in *; split; intros; naive_solver lia.
    + assert (j ∈ next_active re ready sock i (ss_active x) <-> j ∈ ss_active x) as Hn.
      { unfold next_active. repeat case_decide;
          rewrite ?elem_of_difference, ?elem_of_union, ?elem_of_singleton; naive_solver. }
      unfold next_active in Hn. rewrite Hn. split; intros [? Hd]; (split; [done|]); intros [? ?];
        apply Hd; (split; [lia|done]).
  - intros Hr Hi Hn. destruct (decide (i = sock)) as [->|Hne].
    + split; [by apply Hacc|]. apply Hk; [done|]. rewrite E1, decide_True by done. set_solver.
    + apply Hs; [done|lia|done].
  - intros Hn Ha. apply Hk; [done|]. rewrite E1. repeat case_decide; [set_solver| |done].
    apply elem_of_difference. split; [done|]. rewrite elem_of_singleton. unfold dead in *. naive_solver.
Qed.

(** One round of the [select] loop.  When it returns, the watched
    descriptors are the old ones, less exactly the ready connections whose
    [read] failed or hit end of file, plus the one accepted if the listening
    socket was ready; an accepted descriptor that [fd_set] cannot hold is never
    watched (the round is undefined instead). *)
Theorem server_round_active re ready sock x x' :
  re_ready re = Some ready -> 0 <= sock < FD_SETSIZE ->
  server_round sock re x = Ret x' ->
  (forall j, j <> re_accept re ->
     j ∈ ss_active x' <-> j ∈ ss_active x /\ ~ (0 <= j < FD_SETSIZE /\ dead re ready sock j)) /\
  (sock ∈ ready -> re_accept re ∉ ready ->
     0 <= re_accept re < FD_SETSIZE /\ re_accept re ∈ ss_active x').
Proof.
  unfold server_round. intros -> Hs E. apply service_from_active in E as (Hj & Ha & _).
  rewrite Z2Nat.id in * by (unfold FD_SETSIZE; lia). rewrite Z.add_0_l in *. auto.
Qed.

(** ** The loop of the server *)



















(** A live client that disconnects stays the live client.  When its
    descriptor is at end of file the server closes it and stops watching it, but
    leaves [have_active_client] and [client_fd]: the next frame is still
    written to that number, by then possibly another connection. *)
Theorem closed_live_client_still_written re ready sock x i env b :
  i ∈ ready -> i <> sock -> re_read re i = Some [] ->
  have_active_client (stream (d_video (ss_daemon x))) = 1 ->
  client_fd (stream (d_video (ss_daemon x))) = i ->
  frame_start (stream (d_video (ss_daemon x))) = 1 ->
  have_active_srtp_receiver (stream (d_video (ss_daemon x))) = 0 ->
  flag_CONFIG b = false -> flag_CODECSIDEINFO b = false -> wf_buffer b ->
  exists x' v' evs, service_fd re ready sock i x = Ret x' /\
    (i ∉ ss_active x') /\
    video_encoder_output_callback env true (d_video (ss_daemon x')) b =
      Ret (v', EvWrite i (payload b) :: evs).
Proof.
  intros Hi Hs Hr Hc Hf Hst Hn Hcfg Hside Hb. unfold service_fd. rewrite decide_True by done.
  rewrite (proj2 (Z.eqb_neq i sock)) by done. rewrite Hr. simpl.
  eexists _, _, _. split; [done|]. split; [simpl; set_solver|]. simpl.
  unfold video_encoder_output_callback. rewrite Hcfg, Hside. unfold video_client. rewrite Hc. simpl.
  rewrite slice_payload, Hst, Hf by done.
  destruct (flag_KEYFRAME b); simpl; unfold video_srtp; simpl; rewrite Hn; done.
Qed.

End Requests.

(** ** Instances *)

Definition test_daemon (header : option (list Z)) (size : Z) (url : list Z) : @daemon plain_srtp :=
  {| d_snap := {| img_lock := None; snapshot_request_n := 0; image_buffer := replicate 16 0;
                  image_size := 0; already_acquired_lock := 0; jpeg_state := 0 |};
     d_video := {| stream := {| stream_header := header; stream_header_size := size;
                                have_active_client := 1; client_fd := 7;
                                have_active_srtp_receiver := 0; frame_start := 1;
                                srtp_frame_start := -1 |};
                   srtpctx := plain_sender |};
     d_url := {| last_url := url; last_url_size := zlen url |} |}.

Definition test_prep : prep_env :=
  {| pe_calloc_ok := true; pe_malloc_ok := true; pe_key0 := replicate 96 0; pe_pad0 := 0; pe_aton := fun _ => 0;
     pe_socket := 9; pe_bind_ok := true; pe_json_ok := fun _ => true;
     pe_json := {| error_position := None; global_hooks := {| tick := 0; live := 0 |} |} |}.

Definition test_call : nat -> call_env := fun _ =>
  {| ce_realloc_ok := true; ce_calloc_ok := true; ce_buffers := []; ce_prep := test_prep; ce_garbage := 0 |}.

(** The daemon's build of the HTTP parser. *)
#[local] Instance lenient_http : HttpConfig := {| HTTP_PARSER_STRICT := false; max_header_size := HTTP_MAX_HEADER_SIZE |}.

Definition test_round : round_env :=
  {| re_ready := Some {[ 3; 7 ]}; re_accept := 8; re_read := fun _ => Some [];
     re_stack := fun _ => replicate 512 0; re_calls := fun _ => test_call |}.

Lemma snapshot_response_witness :
  exists d' evs,
    server_on_url true true
      ((idle_port, small_buffer false 1) :: [] ++ (idle_port, small_buffer true 2) ::
       [(idle_port, small_buffer false 3)] ++ [(idle_port, small_buffer true 4)])
      (test_daemon None 0 (replicate 16 0)) HTTP_GET 5 (URL_SNAPSHOT ++ [32]) (zlen URL_SNAPSHOT)
    = Ret (d', 0, evs ++ [EvWrite 5 (response_header 2); EvWrite 5 [3; 4]]) /\
    snap_idle (d_snap d') /\ d_video d' = d_video (test_daemon None 0 (replicate 16 0)) /\
    url_holds (d_url d') URL_SNAPSHOT.
Proof.
  apply (snapshot_response (test_daemon None 0 (replicate 16 0)) 5 [32] idle_port (small_buffer false 1)
    [] idle_port (small_buffer true 2) [(idle_port, small_buffer false 3)] idle_port (small_buffer true 4)).
  1,2: by vm_compute.
  all: try (by vm_compute); repeat constructor; by vm_compute.
Defined.

Lemma cast_url_holds h n : url_holds (d_url (test_daemon h n (URL_SRTP_CAST_TO ++ [0]))) URL_SRTP_CAST_TO.
Proof. split; [by vm_compute|]. by exists []. Qed.

Lemma srtp_cast_never_completes_witness :
  server_on_body test_prep (test_daemon (Some [1; 2]) 2 (URL_SRTP_CAST_TO ++ [0]))
    HTTP_POST 5 [123; 125] 2 <> Ret (test_daemon None 0 [], []).
Proof.
  apply (srtp_cast_never_completes test_prep _ 5 [123; 125] 2 URL_SRTP_CAST_TO [1; 2]);
    [apply cast_url_holds|by repeat constructor|reflexivity|done|done|by vm_compute].
Defined.

Lemma srtp_cast_bad_json_witness :
  server_on_body test_prep (test_daemon None 0 (URL_SRTP_CAST_TO ++ [0]))
    HTTP_POST 5 [123; 125] 2 = Undef.
Proof.
  eapply (srtp_cast_bad_json test_prep _ 5 [123; 125] 2 URL_SRTP_CAST_TO [123; 125]);
    [apply cast_url_holds|by repeat constructor|reflexivity|done|vm_compute; reflexivity|done].
Defined.

Lemma handle_request_parses_stale_witness :
  handle_request test_call ([0] ++ [88] ++ 0 :: replicate 509 0) (Some [71])
    (test_daemon None 0 [0]) 5 =
    '(_, r, _) ← http_parser_execute (site_setting test_call 5 ([71] ++ [88] ++ 0 :: replicate 509 0)) ([71] ++ [88])
                   (http_parser_init (stack_parser 5) HTTP_REQUEST)
                   {| rq_daemon := test_daemon None 0 [0]; rq_trace := []; rq_calls := 0 |};
    Ret (rq_daemon r, 0, rq_trace r).
Proof.
  apply handle_request_parses_stale; [done|by repeat constructor|done
    |by repeat constructor|by vm_compute].
Defined.

Lemma handle_request_full_buffer_witness :
  handle_request test_call (replicate 512 0) (Some (replicate 512 65))
    (test_daemon None 0 [0]) 5 = Undef.
Proof.
  apply handle_request_full_buffer; [by vm_compute..|].
  apply Forall_replicate. done.
Defined.

Definition test_server : @server_state plain_srtp :=
  {| ss_daemon := test_daemon None 0 [0]; ss_active := {[ 3; 7 ]}; ss_trace := [] |}.

Lemma server_round_active_witness :
  exists x', server_round 3 test_round test_server = Ret x' /\
    (7 ∉ ss_active x') /\ 8 ∈ ss_active x'.
Proof.
  destruct (server_round 3 test_round test_server) as [x'| | |] eqn:E.
  2-4: vm_compute in E; discriminate.
  exists x'. split; [reflexivity|].
  destruct (server_round_active test_round {[ 3; 7 ]} 3 test_server x') as [Hj Ha];
    [reflexivity|unfold FD_SETSIZE; lia|exact E|]. clear E. split.
  - rewrite Hj by done. intros [_ Hd]. apply Hd. split; [by vm_compute|]. by repeat split.
  - apply Ha; [set_solver|]. intros Hin. vm_compute in Hin. discriminate.
Defined.



Lemma closed_live_client_still_written_witness :
  exists x' v' evs, service_fd test_round {[ 3; 7 ]} 3 7 test_server = Ret x' /\
    (7 ∉ ss_active x') /\
    video_encoder_output_callback idle_port true (d_video (ss_daemon x')) (small_buffer true 4) =
      Ret (v', EvWrite 7 (payload (small_buffer true 4)) :: evs).
Proof.
  apply closed_live_client_still_written; done.
Defined.
