(* ===== verification/LiveStream.v ===== *)
(** The life of the live stream: the video encoder's callback
    (video_encoder_output_callback) together with the requests that change its
    state (server_on_url, server_on_body in camera_daemon.c).

    A run is the order in which the two threads get to their turn; a turn is
    one whole callback or one whole request.  No lock protects the memory they
    share, so this is an assumption: a callback in the middle of a request is not
    modelled. *)

From S2P Require Import Prelude Err SrtpTypes SrtpPolicy Util RtpWorker Camera Snapshot Video HttpServer.

Section Live.
Context `{SrtpLib}.

(** A turn: [GET /live], [GET /stop_srtp] and [POST /srtp_cast_to], without
    the answers of the last two, which go to their own client, or a buffer of the encoder with MMAL's answers and the
    result of [write]. *)
Inductive live_step :=
| OnLive (calloc_ok : bool) (fd : Z)
| OnStop
| OnCast (e : prep_env) (data : list Z) (length : Z)
| OnBuffer (env : mmal_env) (write_ok : bool) (b : MMAL_BUFFER_HEADER_T).

Definition live_do (v : video_state) (x : live_step) : outcome (video_state * list cam_event) :=
  match x with
  | OnLive calloc_ok fd =>
      '(s, ev) ← serve_live calloc_ok fd (stream v); Ret ({| stream := s; srtpctx := srtpctx v |}, ev)
  | OnStop => Ret ({| stream := stop_srtp (stream v); srtpctx := srtpctx v |}, [])
  | OnCast e data length => start_cast e v data length
  | OnBuffer env write_ok b => video_encoder_output_callback env write_ok v b
  end.

Fixpoint live_run (v : video_state) (xs : list live_step) : outcome (video_state * list cam_event) :=
  match xs with
  | [] => Ret (v, [])
  | x :: xs => '(v, ev) ← live_do v x; '(v, evs) ← live_run v xs; Ret (v, ev ++ evs)
  end.

(** ** What a client should get *)

(** The frames among the turns, each with the result of writing it. *)
Definition frames (xs : list live_step) : list (bool * MMAL_BUFFER_HEADER_T) :=
  omap (fun x => match x with
                 | OnBuffer _ ok b => if is_frame b then Some (ok, b) else None
                 | _ => None
                 end) xs.

Fixpoint from_key (fs : list (bool * MMAL_BUFFER_HEADER_T)) : list (bool * MMAL_BUFFER_HEADER_T) :=
  match fs with
  | [] => []
  | f :: fs' => if flag_KEYFRAME f.2 then fs else from_key fs'
  end.

(** Up to the write that fails, which is still an attempt. *)
Fixpoint until_failure (fs : list (bool * MMAL_BUFFER_HEADER_T)) : list MMAL_BUFFER_HEADER_T :=
  match fs with
  | [] => []
  | (ok, b) :: fs => b :: (if ok then until_failure fs else [])
  end.

Definition is_connection (x : live_step) : bool := match x with OnLive _ _ => true | _ => false end.

(** ** Invariant *)

(** No client: the stream starts over at the next key frame.  The stored
    header is as long as its size says. *)
Record stream_ok (s : stream_state) : Prop := {
  so_start : frame_start s = -1 \/ frame_start s = 1;
  so_active : have_active_client s = 0 \/ have_active_client s = 1;
  so_idle : have_active_client s = 0 -> frame_start s = -1;
  so_header : stream_header_size s = zlen (default [] (stream_header s))
}.

(** A turn that leaves the client alone. *)
Definition same_client (s s' : stream_state) : Prop :=
  have_active_client s' = have_active_client s /\ client_fd s' = client_fd s /\
  frame_start s' = frame_start s.

Lemma client_writes_rtp evs : client_writes (map EvRtp evs) = [].
Proof. by induction evs. Qed.

Lemma start_cast_stream e v data length v' evs :
  start_cast e v data length = Ret (v', evs) ->
  stream v' = set_srtp (stream v) 1 (srtp_frame_start (stream v)) /\ client_writes evs = [].
Proof.
  unfold start_cast. destruct (pe_malloc_ok e); [|done]. cbn [negb].
  destruct (slice data 0 length) as [body|]; [|done]. cbn [lift mbind outcome_bind].
  destruct (JsonParse.cJSON_Parse _ _ _) as [[[g n] cfg]|]; [|done]. cbn [lift mbind outcome_bind].
  destruct (srtp_config _) as [[[[remote port] ssrc] key]| | |]; [|done..]. cbn [mbind outcome_bind].
  destruct (prepare_srtp_sender _ _ _ _ _ _ _ _ _) as [c| | |]; [|done..]. cbn [mbind outcome_bind].
  destruct (srtp_sender_callback _ _ _) as [[c' ev]|]; [|done]. cbn [lift mbind outcome_bind].
  intros [= <- <-]. split; [done|apply client_writes_rtp].
Qed.

Lemma video_srtp_stream v b v' ev :
  video_srtp v b = Some (v', ev) ->
  (exists a st, stream v' = set_srtp (stream v) a st) /\ client_writes ev = [].
Proof.
  unfold video_srtp. destruct (_ =? 0); [intros [= <- <-]; split; [by eexists _, _|done]|].
  cbn zeta. destruct (_ =? -1); [intros [= <- <-]; split; [by eexists _, _|done]|].
  destruct (srtp_sender_callback _ _ _) as [[c e]|]; [|done]. intros [= <- <-].
  split; [by eexists _, _|apply client_writes_rtp].
Qed.

Lemma slice_payload_Some b o : slice (buf_data b) 0 (buf_length b) = Some o -> o = payload b.
Proof. unfold slice. case_decide; [|done]. by intros [= <-]. Qed.

Lemma stream_ok_same s s' :
  same_client s s' -> stream_header s' = stream_header s -> stream_header_size s' = stream_header_size s ->
  stream_ok s -> stream_ok s'.
Proof. intros (H1 & H2 & H3) H4 H5 [A B C D]. split; by rewrite ?H1, ?H3, ?H4, ?H5. Qed.

Lemma stream_ok_init ctx0 : stream_ok (stream (d_video (daemon_init ctx0))).
Proof. split; simpl; auto. Qed.

(** ** Turns *)

Lemma serve_live_ok calloc_ok fd s s' ev :
  serve_live calloc_ok fd s = Ret (s', ev) -> stream_ok s ->
  stream_ok s' /\ s' = set_client s 1 fd (frame_start s) /\
  ev = [EvWrite fd live_header; EvWrite fd (default [] (stream_header s))].
Proof.
  intros E [A B C D]. unfold serve_live in E. destruct calloc_ok; [|done]. cbn [negb] in E. rewrite D in E.
  rewrite slice_Some in E by (pose proof (zlen_nonneg (default [] (stream_header s))); lia).
  cbn [lift mbind outcome_bind] in E. injection E as <- <-. unfold zlen. change (Z.to_nat 0) with 0%nat.
  rewrite drop_0, Nat2Z.id, firstn_all. split_and!; try done. split; simpl; auto; try done; lia.
Qed.

Lemma serve_live_defined fd s : stream_ok s -> exists ev, serve_live true fd s = Ret (set_client s 1 fd (frame_start s), ev).
Proof.
  intros [A B C D]. unfold serve_live. cbn [negb]. rewrite D.
  rewrite slice_Some by (pose proof (zlen_nonneg (default [] (stream_header s))); lia). by eexists.
Qed.

(** A callback on a buffer that is not a frame. *)
Lemma buffer_quiet env ok v b v' ev :
  video_encoder_output_callback env ok v b = Ret (v', ev) -> is_frame b = false -> stream_ok (stream v) ->
  stream_ok (stream v') /\ same_client (stream v) (stream v') /\ client_writes ev = [].
Proof.
  unfold video_encoder_output_callback, is_frame. intros E Hb Hs. destruct (flag_CONFIG b).
  - unfold video_config in E. destruct (c_assert _) as [[]| | |] in E; [|done..]. cbn [mbind outcome_bind] in E.
    destruct (malloc_succeeds env); [|done]. cbn [negb] in E.
    destruct (slice _ _ _) as [h|] eqn:Eh; [|done]. cbn [lift mbind outcome_bind] in E. injection E as <- <-.
    apply zlen_slice in Eh. destruct Hs as [A B C D].
    split; [by split|]. split; [done|apply client_writes_recycle].
  - destruct (flag_CODECSIDEINFO b); [|done]. injection E as <- <-. split; [done|]. split; [done|apply client_writes_recycle].
Qed.

(** Whether the client is sent a frame. *)
Definition gets (s : stream_state) (b : MMAL_BUFFER_HEADER_T) : bool :=
  negb (have_active_client s =? 0) && (flag_KEYFRAME b || (frame_start s =? 1)).

Lemma video_client_frame ok s b s' ev :
  video_client ok s b = Some (s', ev) -> stream_ok s ->
  stream_ok s' /\ stream_header s' = stream_header s /\
  if gets s b then
    client_writes ev = [(client_fd s, payload b)] /\
    (if ok then have_active_client s' = 1 /\ client_fd s' = client_fd s /\ frame_start s' = 1
     else have_active_client s' = 0)
  else client_writes ev = [] /\ same_client s s'.
Proof.
  intros E Hs. unfold video_client in E. unfold gets.
  destruct Hs.(so_active s) as [B|B]; rewrite B in E |- *.
  { change (0 =? 0) with true in E. injection E as <- <-. by rewrite B. }
  destruct Hs as [A _ C D].
  change (1 =? 0) with false in *. cbn iota in E. cbn [negb andb].
  set (start := if flag_KEYFRAME b then 1 else frame_start s) in E. cbn zeta in E. cbn [set_client frame_start] in E.
  assert ((start =? -1) = negb (flag_KEYFRAME b || (frame_start s =? 1)) /\ (start = -1 \/ start = 1)) as [Hst Hor].
  { unfold start. destruct (flag_KEYFRAME b), A as [-> | ->]; auto. }
  rewrite Hst in E. destruct (flag_KEYFRAME b || (frame_start s =? 1)) eqn:Hg; cbn [negb] in E.
  - destruct (slice _ _ _) as [o|] eqn:Eo; [|done]. apply slice_payload_Some in Eo as ->. cbn [mbind option_bind] in E.
    assert (start = 1) as Hs1 by (cbn [negb] in Hst; lia). rewrite Hs1 in E.
    destruct ok; injection E as <- <-; (split; [split; simpl; auto; done|]); done.
  - injection E as <- <-. cbn [negb] in Hst. assert (start = -1) as Hs1 by lia.
    assert (frame_start s = -1) as Hs2 by (unfold start in Hs1; destruct (flag_KEYFRAME b); lia).
    rewrite Hs1. split; [split; simpl; auto; done|]. split; [done|]. split; [done|]. by split_and!.
Qed.

(** A callback on a frame. *)
Lemma buffer_frame env ok v b v' ev :
  video_encoder_output_callback env ok v b = Ret (v', ev) -> is_frame b = true -> stream_ok (stream v) ->
  stream_ok (stream v') /\
  if gets (stream v) b then
    client_writes ev = [(client_fd (stream v), payload b)] /\
    (if ok then have_active_client (stream v') = 1 /\ client_fd (stream v') = client_fd (stream v) /\
                frame_start (stream v') = 1
     else have_active_client (stream v') = 0)
  else client_writes ev = [] /\ same_client (stream v) (stream v').
Proof.
  unfold video_encoder_output_callback, is_frame. intros E [H1 H2]%andb_prop Hs. apply negb_true_iff in H1, H2.
  rewrite H1, H2 in E. destruct (video_client ok (stream v) b) as [[s ev1]|] eqn:Ec; [|done].
  cbn [lift mbind outcome_bind] in E.
  destruct (video_srtp _ b) as [[v1 ev2]|] eqn:Er; [|done]. cbn [lift mbind outcome_bind] in E. injection E as <- <-.
  apply video_client_frame in Ec as (Hok & Hh & Hg); [|done]. apply video_srtp_stream in Er as [(a & st & Hv) Hw].
  cbn [stream] in Hv. rewrite Hv. rewrite !client_writes_app, Hw, client_writes_recycle, app_nil_r.
  split; [destruct Hok; by split|]. by destruct (gets _ _).
Qed.

(** Every turn keeps the invariant. *)
Lemma live_do_ok x v v' ev : live_do v x = Ret (v', ev) -> stream_ok (stream v) -> stream_ok (stream v').
Proof.
  intros E Hs. destruct x as [c fd| |e data len|env ok b]; cbn [live_do] in E.
  - destruct (serve_live c fd (stream v)) as [[s e]| | |] eqn:El; [|done..]. injection E as <- <-.
    by apply serve_live_ok in El as [? _].
  - injection E as <- <-. destruct Hs. by split.
  - apply start_cast_stream in E as [-> _]. destruct Hs. by split.
  - destruct (is_frame b) eqn:Hb; [by apply buffer_frame in E as [? _]|by apply buffer_quiet in E as [? _]].
Qed.

Lemma live_run_ok xs : forall v v' evs, live_run v xs = Ret (v', evs) -> stream_ok (stream v) -> stream_ok (stream v').
Proof.
  induction xs as [|x xs IH]; intros v v' evs E Hs; cbn [live_run] in E; [by injection E as <- <-|].
  destruct (live_do v x) as [[v1 ev]| | |] eqn:E1; [|done..]. cbn [mbind outcome_bind] in E.
  destruct (live_run v1 xs) as [[v2 evs2]| | |] eqn:E2; [|done..]. injection E as <- <-.
  apply (IH _ _ _ E2). by apply live_do_ok in E1.
Qed.

(** ** Without further connections *)

(** What the present client is still to be sent. *)
Definition expected (s : stream_state) (fs : list (bool * MMAL_BUFFER_HEADER_T)) : list MMAL_BUFFER_HEADER_T :=
  if have_active_client s =? 0 then []
  else until_failure (if frame_start s =? 1 then fs else from_key fs).

Lemma expected_same s s' fs : same_client s s' -> expected s' fs = expected s fs.
Proof. intros (H1 & _ & H3). unfold expected. by rewrite H1, H3. Qed.

(** A turn that is not a frame, nor a connection. *)
Lemma live_do_quiet x v v' ev :
  live_do v x = Ret (v', ev) -> is_connection x = false -> frames [x] = [] -> stream_ok (stream v) ->
  same_client (stream v) (stream v') /\ client_writes ev = [].
Proof.
  intros E Hc Hf Hs. destruct x as [c fd| |e data len|env ok b]; cbn [live_do] in E; [done|..].
  - by injection E as <- <-.
  - by apply start_cast_stream in E as [-> ->].
  - destruct (is_frame b) eqn:Hb; [by cbn in Hf; rewrite Hb in Hf|]. by apply buffer_quiet in E as (_ & ? & ?).
Qed.

Lemma live_run_client xs : forall v v' evs,
  live_run v xs = Ret (v', evs) -> stream_ok (stream v) -> Forall (fun x => is_connection x = false) xs ->
  client_writes evs = map (fun b => (client_fd (stream v), payload b)) (expected (stream v) (frames xs)).
Proof.
  induction xs as [|x xs IH]; intros v v' evs E Hs HF; cbn [live_run] in E.
  { injection E as <- <-. unfold expected. cbn [frames omap list_omap from_key]. by repeat case_if. }
  apply Forall_cons_iff in HF as [Hx HF].
  destruct (live_do v x) as [[v1 ev]| | |] eqn:E1; [|done..]. cbn [mbind outcome_bind] in E.
  destruct (live_run v1 xs) as [[v2 evs2]| | |] eqn:E2; [|done..]. injection E as <- <-.
  pose proof (live_do_ok _ _ _ _ E1 Hs) as Hs1. rewrite client_writes_app, (IH _ _ _ E2 Hs1 HF). clear IH E2 HF.
  destruct (frames [x]) as [|[ok b] r] eqn:Hfx.
  - destruct (live_do_quiet _ _ _ _ E1 Hx Hfx Hs) as [Hsame ->].
    assert (frames (x :: xs) = frames xs) as -> by (change (x :: xs) with ([x] ++ xs); unfold frames in *; by rewrite omap_app, Hfx).
    rewrite (expected_same _ _ _ Hsame). by destruct Hsame as (_ & -> & _).
  - destruct x as [| | |env ok' b']; [done..|]. cbn in Hfx. destruct (is_frame b') eqn:Hb; [|done]. injection Hfx as -> -> <-.
    assert (frames (OnBuffer env ok b :: xs) = (ok, b) :: frames xs) as -> by (unfold frames; cbn; by rewrite Hb).
    cbn [live_do] in E1. apply buffer_frame in E1 as [_ Hg]; [|done..]. unfold gets in Hg. unfold expected at 2.
    destruct (have_active_client (stream v) =? 0) eqn:Ha.
    + cbn [negb andb] in Hg. destruct Hg as [-> (Ha' & Hf' & _)]. unfold expected. by rewrite Ha', Ha.
    + cbn [negb andb] in Hg. cbn [from_key snd].
      destruct (flag_KEYFRAME b) eqn:Hk, (frame_start (stream v) =? 1) eqn:Hst; cbn [orb] in Hg;
        try (destruct Hg as [-> Hg]; unfold expected; cbn [until_failure]; destruct ok;
             [destruct Hg as (-> & -> & ->)|rewrite Hg]; done).
      destruct Hg as [-> (Ha' & Hf' & Hs')]. unfold expected. by rewrite Ha', Hf', Hs', Ha, Hst.
Qed.

(** Turns that cannot end the process when nobody receives SRTP. *)
Definition plain (x : live_step) : Prop :=
  match x with
  | OnStop => True
  | OnBuffer _ _ b => flag_CONFIG b = false /\ wf_buffer b
  | _ => False
  end.

Lemma live_run_defined xs : forall v,
  Forall plain xs -> have_active_srtp_receiver (stream v) = 0 -> exists v' evs, live_run v xs = Ret (v', evs).
Proof.
  induction xs as [|x xs IH]; intros v HF Hr; [by eexists _, _|]. apply Forall_cons_iff in HF as [Hx HF].
  assert (exists v1 ev, live_do v x = Ret (v1, ev) /\ have_active_srtp_receiver (stream v1) = 0) as (v1 & ev & E & Hr1).
  { destruct x as [| | |env ok b]; [done| |done|]; cbn [live_do]; [by eexists _, _|]. destruct Hx as [Hc Hw].
    unfold video_encoder_output_callback. rewrite Hc. destruct (flag_CODECSIDEINFO b); [by eexists _, _|].
    unfold video_client. rewrite slice_payload by done. cbn [mbind option_bind].
    destruct (have_active_client (stream v) =? 0); [|cbn zeta; destruct (frame_start _ =? -1); [|destruct ok]];
      cbn [lift mbind outcome_bind]; unfold video_srtp; simpl; rewrite Hr; by eexists _, _. }
  destruct (IH v1 HF Hr1) as (v' & evs & E'). cbn [live_run]. rewrite E. cbn [mbind outcome_bind]. rewrite E'. by eexists _, _.
Qed.

(** A client is connected and has been, or its predecessor has been, sent a
    key frame. *)
Definition streaming (s : stream_state) : Prop := have_active_client s = 1 /\ frame_start s = 1.

#[global] Instance streaming_dec s : Decision (streaming s).
Proof. unfold streaming. apply _. Defined.

(** C37: What a live client is sent.  After any history of connections, casts
    and callbacks, a client that asks for [/live] is sent the response header and
    the stored stream header and then, whatever else happens as long as no
    other client asks for it, in order and complete: every frame from the first
    key frame on, up to a write that fails, after which nothing more is written.
    Only if it takes over the stream from a client that is being served is every
    frame sent at once, key frame or not: the callback's [frame_start] is not
    reset.  None of this ends the process as long as nobody receives SRTP and no
    further stream header arrives.  (Turns are atomic, see above.) *)
Theorem live_stream_from_key_frame ctx0 before v ev0 fd after :
  live_run (d_video (daemon_init ctx0)) before = Ret (v, ev0) ->
  Forall (fun x => is_connection x = false) after ->
  (forall v' evs, live_run v (OnLive true fd :: after) = Ret (v', evs) ->
     client_writes evs =
       [(fd, live_header); (fd, default [] (stream_header (stream v)))] ++
       map (fun b => (fd, payload b))
         (until_failure (if decide (streaming (stream v)) then frames after else from_key (frames after)))) /\
  (Forall plain after -> have_active_srtp_receiver (stream v) = 0 ->
     exists v' evs, live_run v (OnLive true fd :: after) = Ret (v', evs)).
Proof.
  intros Hb Hc. pose proof (live_run_ok _ _ _ _ Hb (stream_ok_init ctx0)) as Hs. clear Hb. split.
  - intros v' evs E. cbn [live_run live_do] in E.
    destruct (serve_live true fd (stream v)) as [[s ev]| | |] eqn:El; [|done..]. cbn [mbind outcome_bind] in E.
    apply serve_live_ok in El as (Hs1 & -> & ->); [|done].
    destruct (live_run _ after) as [[v2 evs2]| | |] eqn:E2; [|done..]. injection E as <- <-.
    cbn [Datatypes.app]. rewrite !client_writes_write, (live_run_client _ _ _ _ E2 Hs1 Hc). do 2 f_equal.
    unfold expected. cbn [stream set_client have_active_client client_fd frame_start]. change (1 =? 0) with false. cbn iota.
    f_equal. destruct Hs as [A B C _]. f_equal. case_decide as Hd.
    + destruct Hd as [_ ->]. done.
    + assert (frame_start (stream v) = -1) as ->; [|done].
      destruct A as [A|A], B as [B|B]; auto. destruct Hd. by split.
  - intros Hp Hr. cbn [live_run live_do]. destruct (serve_live_defined fd (stream v) Hs) as [ev ->].
    cbn [mbind outcome_bind]. destruct (live_run_defined after {| stream := set_client (stream v) 1 fd (frame_start (stream v)); srtpctx := srtpctx v |})
      as (v' & evs & ->); [done..|]. by eexists _, _.
Qed.

End Live.

(** ** Instances *)

(** The first client waits for a key frame; the one that takes over from it
    does not. *)
Lemma live_stream_from_key_frame_witness :
  let key := OnBuffer idle_port true (one_frame true 2) in
  let other := OnBuffer idle_port true (one_frame false 3) in
  exists v0 v v' ev0 evs evs',
    @live_run plain_srtp (d_video (daemon_init plain_sender)) [] = Ret (v0, []) /\
    live_run v0 [OnLive true 5; other; key; other] = Ret (v, evs) /\
    client_writes evs = [(5, live_header); (5, []); (5, [2]); (5, [3])] /\
    live_run (d_video (daemon_init plain_sender)) [OnLive true 5; key] = Ret (v, ev0) /\
    live_run v [OnLive true 7; other] = Ret (v', evs') /\
    client_writes evs' = [(7, live_header); (7, []); (7, [3])].
Proof.
  intros key other.
  assert (exists v ev0, @live_run plain_srtp (d_video (daemon_init plain_sender)) [OnLive true 5; key] = Ret (v, ev0) /\
    stream v = {| stream_header := None; stream_header_size := 0; have_active_client := 1; client_fd := 5;
      have_active_srtp_receiver := 0; frame_start := 1; srtp_frame_start := -1 |}) as (v & ev0 & E & Hv).
  { eexists _, _. split; reflexivity. }
  destruct (@live_stream_from_key_frame plain_srtp plain_sender [] (d_video (daemon_init plain_sender)) [] 5 [other; key; other])
    as [Hw Hd]; [done|by repeat constructor|].
  destruct Hd as (v1 & evs & E1); [by repeat constructor|done|].
  destruct (@live_stream_from_key_frame plain_srtp plain_sender [OnLive true 5; key] v ev0 7 [other])
    as [Hw' Hd']; [done|by repeat constructor|].
  destruct Hd' as (v' & evs' & E'); [by repeat constructor|by rewrite Hv|].
  exists (d_video (daemon_init plain_sender)), v, v', ev0, evs, evs'. split; [done|]. split.
  { rewrite E1. vm_compute in E, E1. congruence. }
  split; [by rewrite (Hw _ _ E1)|]. split; [done|]. split; [done|]. rewrite (Hw' _ _ E'), Hv. reflexivity.
Defined.
