(* ===== verification/HttpDaemon.v ===== *)
(** The daemon and the HTTP parser together: what a client that sends a request
    gets from [handle_request]. *)

From Stdlib Require Import Ascii.
From S2P Require Import Prelude CString HttpTypes HttpParser HttpSafe HttpRequest Err SrtpTypes SrtpPolicy Util RtpWorker Camera Snapshot Json JsonMem JsonParse HttpServer.

Import String.StringSyntax.

Section Daemon.
Context `{SrtpLib} `{HttpConfig}.
Hypothesis max_size : 0 <= max_header_size < 2 ^ 31.

(** ** The callbacks of the daemon *)

(** The events that the daemon has no callback for. *)
Definition unheard (e : event) : bool :=
  match e with Data url _ _ | Data body _ _ => false | _ => true end.

Lemma plays_unheard `{Stops} ce fd buffer m es a (P : serving -> Prop) :
  Forall (fun e => unheard e = true) es -> P a -> plays (site_setting ce fd buffer) m es a P.
Proof.
  intros Hes HP. induction Hes as [|e es He Hes IH]; [done|]. left. exists a. split; [|exact IH].
  intros x _ _. destruct e as [[]| |[] off len]; done.
Qed.

Lemma headers_unheard off hs : Forall (fun e => unheard e = true) (headers_events off hs).
Proof. revert off. induction hs as [|h hs IH]; intros off; simpl; repeat constructor. apply IH. Qed.

(** The process ends, or waits for ever, as [o] does. *)
Definition ends_as {X} (o : outcome X) : Stops := fun s => o = stopped s.

(** The callbacks on the URL and on the body, [o] being what they come to. *)
Lemma happens_url `{Stops} ce fd buffer m off len d tr k o (P : serving -> Prop) :
  server_on_url (ce_realloc_ok (ce k)) (ce_calloc_ok (ce k)) (ce_buffers (ce k)) d m fd (drop (Z.to_nat off) buffer) len = ('(d', ev) ← o; Ret (d', 0, ev)) ->
  (forall s, o = stopped s -> may_stop s) ->
  (forall d' ev, o = Ret (d', ev) -> P {| rq_daemon := d'; rq_trace := tr ++ ev; rq_calls := S k |}) ->
  happens (site_setting ce fd buffer) m (Data url off len) {| rq_daemon := d; rq_trace := tr; rq_calls := k |} P.
Proof.
  intros Hcall Hstop HP. destruct o as [[d' ev]|c| |]; [left; eexists; split; [|by apply HP]|right..].
  2: exists (Exit c). 3: exists Undef. 4: exists Blocked. 2-4: split; [by apply Hstop|].
  all: intros x [?|Hm] _; [done|]; cbn [fire on_data site_setting on_url rq_calls rq_daemon rq_trace]; by rewrite Hm, Hcall.
Qed.

Lemma happens_body `{Stops} ce fd buffer m off len d tr k o (P : serving -> Prop) :
  server_on_body (ce_prep (ce k)) d m fd (drop (Z.to_nat off) buffer) len = o -> ce_garbage (ce k) = 0 ->
  (forall s, o = stopped s -> may_stop s) ->
  (forall d' ev, o = Ret (d', ev) -> P {| rq_daemon := d'; rq_trace := tr ++ ev; rq_calls := S k |}) ->
  happens (site_setting ce fd buffer) m (Data body off len) {| rq_daemon := d; rq_trace := tr; rq_calls := k |} P.
Proof.
  intros Hcall Hg Hstop HP. destruct o as [[d' ev]|c| |]; [left; eexists; split; [|by apply HP]|right..].
  2: exists (Exit c). 3: exists Undef. 4: exists Blocked. 2-4: split; [by apply Hstop|].
  all: intros x [?|Hm] _; [done|]; cbn [fire on_data site_setting on_body rq_calls rq_daemon rq_trace]; by rewrite Hm, Hcall, ?Hg.
Qed.

(** ** Requests *)

(** What a request comes to, in a buffer that holds a NUL behind it. *)
Lemma handle_request_plays ce d fd pre rest m u hs b (o : outcome (daemon * list cam_event)) :
  let req := request m u hs b in
  valid_request m u hs b = true -> nul_free req -> length pre = length req -> zlen (pre ++ 0 :: rest) = MAXMSG ->
  @plays (ends_as o) _ (site_setting ce fd (req ++ 0 :: rest)) m (request_events m u hs b)
    {| rq_daemon := d; rq_trace := []; rq_calls := 0 |} (fun r => o = Ret (rq_daemon r, rq_trace r)) ->
  handle_request ce (pre ++ 0 :: rest) (Some req) d fd = '(d', ev) ← o; Ret (d', 0, ev).
Proof.
  intros req Hval Hn Hl Hz Hplay. assert (req <> []) as Hne by (subst req; by destruct m).
  assert (zlen req < 512) as Hlen by (unfold zlen, MAXMSG in *; rewrite length_app in Hz; simpl in Hz; lia).
  pose proof (@execute_request _ (ends_as o) _ _ m u hs b (stack_parser fd) _ _ max_size ltac:(fold req; lia) Hval Hplay) as Hex.
  cbv zeta in Hex. fold req in Hex. unfold handle_request. destruct req as [|c r] eqn:Hr; [done|]. rewrite <- Hr in *. clear Hne.
  rewrite blit_front by (unfold zlen; rewrite length_app; lia). cbn [lift mbind outcome_bind].
  rewrite <- Hl, drop_app_length, strlen_app by done. cbn [lift mbind outcome_bind].
  assert (zlen req <= MAXMSG) by (unfold zlen in *; rewrite length_app in Hz; simpl in Hz; lia).
  destruct (MAXMSG <? zlen req) eqn:E; [lia|]. unfold zlen at 1. rewrite Nat2Z.id, take_app_length.
  destruct Hex as [(x' & a' & -> & _ & ->)|(s & -> & ->)]; [done|by destruct s].
Qed.

(** The URL and what follows it in the buffer. *)
Lemma drop_url m u hs b rest :
  exists post, drop (Z.to_nat (zlen (method_strings m) + 1)) (request m u hs b ++ rest) = u ++ post.
Proof.
  exists (chr " " :: str "HTTP/1.1" ++ CR :: LF :: headers hs ++ tail b ++ rest).
  replace (request m u hs b ++ rest) with
    ((method_strings m ++ [chr " "]) ++ u ++ chr " " :: str "HTTP/1.1" ++ CR :: LF :: headers hs ++ tail b ++ rest).
  - replace (Z.to_nat (zlen (method_strings m) + 1)) with (length (method_strings m ++ [chr " "])) by (rewrite length_app; unfold zlen; simpl; lia).
    by rewrite drop_app_length.
  - unfold request. rewrite <- !app_assoc. simpl. rewrite <- !app_assoc. simpl. by rewrite <- app_assoc.
Qed.

(** ** Answers *)

Lemma nul_free_part l s r : nul_free (l ++ s ++ r) -> nul_free s.
Proof. intros Hn. by apply Forall_app in Hn as [_ [? _]%Forall_app]. Qed.

Lemma request_url_part m u hs b : exists pre post, request m u hs b = pre ++ u ++ post.
Proof.
  exists (method_strings m ++ [chr " "]), (chr " " :: str "HTTP/1.1" ++ CR :: LF :: headers hs ++ tail b).
  unfold request. by rewrite <- !app_assoc.
Qed.

(** The answer to a POST with a body. *)
Definition post_answer (e : prep_env) (d : daemon) (fd : Z) (u data : list Z) : outcome (daemon * list cam_event) :=
  if decide (u `prefix_of` URL_SRTP_CAST_TO) then
    sent ← send_html_response (pe_calloc_ok e) fd (str "OK");
    '(v, ev) ← start_cast e (d_video d) data (zlen data);
    Ret (with_video d v, sent ++ ev)
  else
    sent ← send_html_response (pe_calloc_ok e) fd (str "unknown command");
    Ret (d, sent).

Lemma slice_whole data rest : slice (data ++ rest) 0 (zlen data) = slice data 0 (zlen data).
Proof.
  pose proof (zlen_nonneg data). pose proof (zlen_nonneg rest). rewrite !slice_Some by (rewrite ?zlen_app; lia).
  unfold zlen. change (Z.to_nat 0) with 0%nat. rewrite !drop_0, Nat2Z.id, take_app_length. by rewrite firstn_all.
Qed.

Lemma on_body_post e d fd u data rest :
  url_holds (d_url d) u -> nul_free u ->
  server_on_body e d HTTP_POST fd (data ++ rest) (zlen data) = post_answer e d fd u data.
Proof.
  intros Hu Hn. unfold server_on_body, post_answer. rewrite (decide_True (P := HTTP_POST = HTTP_POST)) by done.
  rewrite (url_holds_strlen _ u) by done. cbn [lift mbind outcome_bind].
  destruct Hu as [_ [r Hr]]. rewrite Hr, url_is_prefix by done. cbn [lift mbind outcome_bind].
  unfold start_cast. rewrite slice_whole. case_decide; [by rewrite bool_decide_true|by rewrite bool_decide_false].
Qed.

(** The URL of a request that fits the buffer. *)
Lemma request_url_fits m u hs b (pre rest : list Z) :
  nul_free (request m u hs b) -> length pre = length (request m u hs b) -> zlen (pre ++ 0 :: rest) = MAXMSG ->
  nul_free u /\ zlen u < 512.
Proof.
  intros Hn Hl Hz. destruct (request_url_part m u hs b) as (p & q & Hpq). split; [apply (nul_free_part p _ q); by rewrite <- Hpq|].
  assert (zlen (request m u hs b) < 512) as Hlen by (unfold zlen, MAXMSG in *; rewrite length_app in Hz; simpl in Hz; lia).
  rewrite Hpq, !zlen_app in Hlen. pose proof (zlen_nonneg p). pose proof (zlen_nonneg q). lia.
Qed.

(** C15: What a client gets that asks: a whole GET request, with a NUL behind it
    in the buffer, is parsed, its URL is kept, and the literal that the URL is a
    prefix of decides what is written.  [handle_request] comes to just that: it
    returns 0 with the answer, or waits or ends as the answer does. *)
Theorem get_request_answered ce d fd u hs pre rest :
  let req := request HTTP_GET u hs None in
  valid_request HTTP_GET u hs None = true -> nul_free req -> length pre = length req -> zlen (pre ++ 0 :: rest) = MAXMSG ->
  url_ok (d_url d) -> ce_realloc_ok (ce 0%nat) = true ->
  exists u', url_holds u' u /\
    handle_request ce (pre ++ 0 :: rest) (Some req) d fd =
      '(d', ev) ← get_answer (ce_calloc_ok (ce 0%nat)) (ce_buffers (ce 0%nat)) (with_url d u') fd u; Ret (d', 0, ev).
Proof.
  intros req Hval Hn Hl Hz Hu Hr. destruct (request_url_fits _ _ _ _ _ _ Hn Hl Hz) as [Hnu Hlu].
  destruct (drop_url HTTP_GET u hs None (0 :: rest)) as [post Hpost].
  destruct (on_url_get (ce_calloc_ok (ce 0%nat)) (ce_buffers (ce 0%nat)) d fd u post Hu Hnu ltac:(lia)) as (u' & Hu' & Hurl).
  exists u'. split; [done|]. apply handle_request_plays; [done..|]. unfold request_events. cbn [plays].
  apply (plays_unheard _ _ _ _ [_]); [by repeat constructor|].
  eapply happens_url; [by rewrite Hr, Hpost|done|]. intros d' ev Hans. apply plays_unheard; [|done]. apply Forall_app.
  split; [apply headers_unheard|by repeat constructor].
Qed.

(** The body in the buffer. *)
Lemma drop_body m u hs ds b rest :
  drop (Z.to_nat (line_size m u + zlen (headers hs) + zlen (header_line (CL_NAME, ds)) + 2)) (request m u hs (Some (ds, b)) ++ rest) = b ++ rest.
Proof.
  set (front := method_strings m ++ chr " " :: u ++ chr " " :: str "HTTP/1.1" ++ CR :: LF :: headers hs ++ header_line (CL_NAME, ds) ++ [CR; LF]).
  assert (request m u hs (Some (ds, b)) = front ++ b) as ->.
  { unfold front, request. cbn [tail]. repeat (rewrite <- ?app_assoc; cbn [Datatypes.app]). done. }
  rewrite <- app_assoc.
  replace (Z.to_nat _) with (length front); [by rewrite drop_app_length|].
  unfold front, line_size, zlen. rewrite !length_app. cbn [length]. rewrite !length_app. cbn [length]. rewrite !length_app. cbn [length].
  change (length (str "HTTP/1.1")) with 8%nat. rewrite !length_app. cbn [length]. lia.
Qed.

(** C16: What a client gets that posts: the URL of a whole POST request is kept
    and its body, found at the announced length behind the headers, configures
    the cast or is refused, according to the URL.  [handle_request] comes to
    just that: a body that makes the cast fail ends the process. *)
Theorem post_request_answered ce d fd u hs ds b pre rest :
  let req := request HTTP_POST u hs (Some (ds, b)) in
  valid_request HTTP_POST u hs (Some (ds, b)) = true -> nul_free req -> b <> [] ->
  length pre = length req -> zlen (pre ++ 0 :: rest) = MAXMSG ->
  url_ok (d_url d) -> ce_realloc_ok (ce 0%nat) = true -> ce_garbage (ce 1%nat) = 0 ->
  exists u', url_holds u' u /\
    handle_request ce (pre ++ 0 :: rest) (Some req) d fd =
      '(d', ev) ← post_answer (ce_prep (ce 1%nat)) (with_url d u') fd u b; Ret (d', 0, ev).
Proof.
  intros req Hval Hn Hb Hl Hz Hu Hr Hg. destruct (request_url_fits _ _ _ _ _ _ Hn Hl Hz) as [Hnu Hlu].
  destruct (drop_url HTTP_POST u hs (Some (ds, b)) (0 :: rest)) as [post Hpost].
  destruct (on_url_other (ce_calloc_ok (ce 0%nat)) (ce_buffers (ce 0%nat)) d HTTP_POST fd u post ltac:(done) Hu ltac:(lia)) as (u' & Hu' & Hurl).
  exists u'. split; [done|]. apply handle_request_plays; [done..|]. unfold request_events. cbn [plays].
  apply (plays_unheard _ _ _ _ [_]); [by repeat constructor|].
  eapply (happens_url _ _ _ _ _ _ _ _ _ (Ret (with_url d u', []))); [by rewrite Hr, Hpost|by intros []|]. intros d' ev [= <- <-].
  apply plays_app, plays_unheard; [apply headers_unheard|]. cbn [tail_events].
  rewrite (decide_False (P := b = [])) by done. apply plays_app, plays_unheard; [by repeat constructor|].
  apply (plays_unheard _ _ _ _ [_]); [by repeat constructor|]. cbn [Datatypes.app plays].
  pose proof (drop_body HTTP_POST u hs ds b (0 :: rest)) as Hbody.
  eapply happens_body; [by rewrite Hbody, (on_body_post _ (with_url d u') fd u)|done|done|].
  intros d' ev Hans. by apply (plays_unheard _ _ _ _ [_]); [by repeat constructor|].
Qed.

End Daemon.

(** ** Instances *)

#[local] Instance lenient_http : HttpConfig := {| HTTP_PARSER_STRICT := false; max_header_size := HTTP_MAX_HEADER_SIZE |}.

Definition test_stop : list Z := request HTTP_GET (str "/stop_srtp") [(str "Host", str "camera")] None.
Definition test_post : list Z := request HTTP_POST (str "/srtp_cast_to") [(str "Host", str "camera")] (Some (str "2", str "{}")).

(** What is left of a buffer with one NUL behind the request. *)
Definition behind (req : list Z) : list Z := replicate (511 - length req) 0.

(** A request that is answered. *)
Lemma get_request_answered_witness :
  exists d', have_active_srtp_receiver (stream (d_video d')) = 0 /\
    handle_request test_call (replicate (length test_stop) 65 ++ 0 :: behind test_stop) (Some test_stop) (test_daemon None 0 (replicate 16 0)) 5 =
      Ret (d', 0, [EvWrite 5 (response_header 2); EvWrite 5 (str "OK")]).
Proof.
  destruct (@get_request_answered plain_srtp lenient_http ltac:(by vm_compute) test_call (test_daemon None 0 (replicate 16 0)) 5
    (str "/stop_srtp") [(str "Host", str "camera")] (replicate (length test_stop) 65) (behind test_stop)) as (u' & _ & Hans);
    [by vm_compute|by apply (bool_decide_unpack _); vm_compute|by vm_compute..|done|].
  eexists. split; [|etransitivity; [exact Hans|reflexivity]]. reflexivity.
Defined.

(** A cast without an address: the process dereferences NULL. *)
Lemma post_request_answered_witness :
  handle_request test_call (replicate (length test_post) 65 ++ 0 :: behind test_post) (Some test_post) (test_daemon None 0 (replicate 16 0)) 5 = Undef.
Proof.
  destruct (@post_request_answered plain_srtp lenient_http ltac:(by vm_compute) test_call (test_daemon None 0 (replicate 16 0)) 5
    (str "/srtp_cast_to") [(str "Host", str "camera")] (str "2") (str "{}") (replicate (length test_post) 65) (behind test_post)) as (u' & _ & Hans);
    [by vm_compute|by apply (bool_decide_unpack _); vm_compute|done|by vm_compute..|done|done|].
  etransitivity; [exact Hans|]. vm_compute. reflexivity.
Defined.
