(* ===== verification/MmalSetup.v ===== *)
(** Building the MMAL pipeline (camera_daemon.c, [setup_*], [connect_ports],
    [fill_port_buffer] and [main]).

    The MMAL library is a parameter: every call that returns a status asks the
    oracle [mmal_ok], which sees all calls so far, the sizes a port recommends
    come from [port_info], and any call may change the configuration of any
    port, as [after_call] says: a commit that adjusts a format, a connection
    that hands one on.  The model keeps the calls made, the
    configuration of every port, and which components [userdata] refers to.
    Components that are not yet created cannot be dereferenced. *)

From stdpp Require Import gmap.
From S2P Require Import Prelude Camera.

Inductive component := CCamera | CSplitter | CResizer | CVideoEncoder | CJpegEncoder.

Inductive port :=
| Control (c : component)
| Input (c : component) (i : Z)
| Output (c : component) (i : Z).

#[global] Instance component_eq_dec : EqDecision component.
Proof. solve_decision. Defined.

#[global] Instance port_eq_dec : EqDecision port.
Proof. solve_decision. Defined.

Definition MMAL_CAMERA_VIDEO_PORT : Z := 1.

Inductive encoding_t := ENC_UNKNOWN | ENC_I420 | ENC_H264 | ENC_JPEG.

(** The fields of [MMAL_ES_FORMAT_T] the daemon sets. *)
Record es_format := {
  encoding : encoding_t;
  encoding_variant : encoding_t;
  bitrate : Z;
  width : Z;
  height : Z;
  crop_x : Z;
  crop_y : Z;
  crop_width : Z;
  crop_height : Z;
  frame_rate_num : Z;
  frame_rate_den : Z
}.

Record port_cfg := {
  format : es_format;
  buffer_num : Z;
  buffer_size : Z;
  port_userdata : bool
}.

Record port_info_t := {
  buffer_size_recommended : Z;
  buffer_size_min : Z;
  buffer_num_recommended : Z;
  buffer_num_min : Z
}.

Inductive mmal_call :=
| ComponentCreate (c : component)
| ComponentEnable (c : component)
| ComponentDestroy (c : component)
| FormatCommit (p : port) (f : es_format)
| ParameterSet (p : port)
| ConnectionCreate (src dst : port)
| ConnectionEnable (src dst : port)
| ConnectionDestroy (src dst : port)
| PoolCreate (p : port) (num size : Z)
| PortEnable (p : port)
| QueueGet (p : port)
| PortSendBuffer (p : port)
| StartCapture (p : port).

Section Setup.
Context (mmal_ok : list mmal_call -> bool).
Context (port_info : list mmal_call -> port -> port_info_t).
Context (after_call : list mmal_call -> port -> port_cfg -> port_cfg).
Context (splitter_output_num : nat) (pool_length : port -> nat).

Record mstate := {
  calls : list mmal_call;
  ports : port -> port_cfg;
  userdata_refs : list component
}.

(** ** The monad *)

Definition M (A : Type) : Type := mstate -> outcome (A * mstate).

#[local] Instance M_ret : MRet M := fun A a s => Ret (a, s).

#[local] Instance M_bind : MBind M := fun A B f m s =>
  match m s with
  | Ret (a, s') => f a s'
  | Exit c => Exit c
  | Undef => Undef
  | Blocked => Blocked
  end.

Definition call (c : mmal_call) : M bool := fun s =>
  let calls' := calls s ++ [c] in
  Ret (mmal_ok calls', {| calls := calls'; ports := fun q => after_call calls' q (ports s q);
                          userdata_refs := userdata_refs s |}).

Definition set_port (p : port) (f : port_cfg -> port_cfg) : M unit := fun s =>
  Ret (tt, {| calls := calls s;
              ports := fun q => if decide (q = p) then f (ports s p) else ports s q;
              userdata_refs := userdata_refs s |}).

Definition get_port (p : port) : M port_cfg := fun s => Ret (ports s p, s).

Definition get_info (p : port) : M port_info_t := fun s => Ret (port_info (calls s) p, s).

(** [userdata->x = component], and following such a pointer. *)
Definition store (c : component) : M unit := fun s =>
  Ret (tt, {| calls := calls s; ports := ports s; userdata_refs := c :: userdata_refs s |}).

Definition deref (c : component) : M unit := fun s =>
  if decide (c ∈ userdata_refs s) then Ret (tt, s) else Undef.

Definition undef {A} : M A := fun _ => Undef.

(** ** Port fields *)

Definition with_format (g : es_format -> es_format) (c : port_cfg) : port_cfg :=
  {| format := g (format c); buffer_num := buffer_num c; buffer_size := buffer_size c;
     port_userdata := port_userdata c |}.

Definition with_buffers (num size : Z) (c : port_cfg) : port_cfg :=
  {| format := format c; buffer_num := num; buffer_size := size; port_userdata := port_userdata c |}.

Definition with_num (num : Z) (c : port_cfg) : port_cfg := with_buffers num (buffer_size c) c.

Definition with_userdata (c : port_cfg) : port_cfg :=
  {| format := format c; buffer_num := buffer_num c; buffer_size := buffer_size c;
     port_userdata := true |}.

(** [mmal_port_format_commit(p)]: the call carries the format that is asked
    for. *)
Definition commit (p : port) : M bool := c ← get_port p; call (FormatCommit p (format c)).

Definition mmal_format_copy (dst src : port) : M unit :=
  c ← get_port src; set_port dst (with_format (fun _ => format c)).

(** The camera's format: full crop, I420 at the configured rate; the bitrate
    is left as it was. *)
Definition camera_format (f : es_format) : es_format :=
  {| encoding := ENC_I420; encoding_variant := ENC_I420; bitrate := bitrate f;
     width := VIDEO_WIDTH; height := VIDEO_HEIGHT; crop_x := 0; crop_y := 0;
     crop_width := VIDEO_WIDTH; crop_height := VIDEO_HEIGHT;
     frame_rate_num := VIDEO_FPS; frame_rate_den := 1 |}.

Definition resized_format (w h : Z) (f : es_format) : es_format :=
  {| encoding := encoding f; encoding_variant := encoding_variant f; bitrate := bitrate f;
     width := w; height := h; crop_x := 0; crop_y := 0; crop_width := w; crop_height := h;
     frame_rate_num := frame_rate_num f; frame_rate_den := frame_rate_den f |}.

Definition h264_format (f : es_format) : es_format :=
  {| encoding := ENC_H264; encoding_variant := encoding_variant f; bitrate := 300000;
     width := width f; height := height f; crop_x := crop_x f; crop_y := crop_y f;
     crop_width := VIDEO_WIDTH; crop_height := VIDEO_HEIGHT;
     frame_rate_num := VIDEO_FPS; frame_rate_den := 1 |}.

Definition jpeg_format (f : es_format) : es_format :=
  {| encoding := ENC_JPEG; encoding_variant := encoding_variant f; bitrate := bitrate f;
     width := width f; height := height f; crop_x := crop_x f; crop_y := crop_y f;
     crop_width := crop_width f; crop_height := crop_height f;
     frame_rate_num := frame_rate_num f; frame_rate_den := frame_rate_den f |}.

(** ** Operations *)

(** The loop sends whatever [mmal_queue_get] returned, NULL included; the
    status of each call only decides on a message. *)
Fixpoint fill_loop (p : port) (n : nat) : M unit :=
  match n with
  | O => mret tt
  | S n' =>
      buffer ← call (QueueGet p);
      if (buffer : bool) then _ ← call (PortSendBuffer p); fill_loop p n' else undef
  end.

(** [pool] is whether [mmal_port_pool_create], whose result nobody checks,
    returned a pool. *)
Definition fill_port_buffer (p : port) (pool : bool) : M unit :=
  if pool then fill_loop p (pool_length p) else undef.

Definition connect_ports (src dst : port) : M bool :=
  created ← call (ConnectionCreate src dst);
  if (created : bool) then
    enabled ← call (ConnectionEnable src dst);
    if (enabled : bool) then mret true
    else _ ← call (ConnectionDestroy src dst); mret false
  else mret false.

Definition setup_camera : M Z :=
  created ← call (ComponentCreate CCamera);
  if negb created then mret (-1)
  else
    _ ← store CCamera;
    let video := Output CCamera MMAL_CAMERA_VIDEO_PORT in
    _ ← call (ParameterSet (Control CCamera));
    _ ← set_port video (with_format camera_format);
    info ← get_info video;
    _ ← set_port video (with_buffers (buffer_num_recommended info) (buffer_size_recommended info));
    committed ← commit video;
    if negb committed then mret (-1)
    else
      _ ← set_port video with_userdata;
      enabled ← call (ComponentEnable CCamera);
      if negb enabled then mret (-1) else mret 0.

(** The [for] loop over the splitter's outputs; [false] is the jump to
    [error]. *)
Fixpoint splitter_outputs (n : nat) (i : Z) : M bool :=
  match n with
  | O => mret true
  | S n' =>
      _ ← set_port (Output CSplitter i) (with_num 3);
      _ ← mmal_format_copy (Output CSplitter i) (Input CSplitter 0);
      committed ← commit (Output CSplitter i);
      if negb committed then mret false else splitter_outputs n' (i + 1)
  end.

Definition destroy (c : component) : M Z := _ ← call (ComponentDestroy c); mret (-1).

(** [splitter_component] is not initialised: when the creation fails the
    [error] branch tests, and possibly destroys, an indeterminate pointer. *)
Definition setup_splitter : M Z :=
  _ ← deref CCamera;
  let source := Output CCamera MMAL_CAMERA_VIDEO_PORT in
  created ← call (ComponentCreate CSplitter);
  if negb created then undef
  else
    let input := Input CSplitter 0 in
    _ ← mmal_format_copy input source;
    _ ← set_port input (with_num 3);
    committed ← commit input;
    if negb committed then destroy CSplitter
    else
      outputs ← splitter_outputs splitter_output_num 0;
      if negb outputs then destroy CSplitter
      else
        _ ← store CSplitter;
        connected ← connect_ports source input;
        if negb connected then destroy CSplitter else mret 0.

Definition setup_resizer (w h : Z) : M Z :=
  _ ← deref CSplitter;
  let source := Output CSplitter 1 in
  created ← call (ComponentCreate CResizer);
  if negb created then undef
  else
    _ ← store CResizer;
    let input := Input CResizer 0 in
    _ ← mmal_format_copy input source;
    _ ← set_port input (with_num 3);
    committed ← commit input;
    if negb committed then destroy CResizer
    else
      let output := Output CResizer 0 in
      _ ← set_port output (with_num 3);
      _ ← mmal_format_copy output input;
      _ ← set_port output (with_format (resized_format w h));
      committed ← commit output;
      if negb committed then destroy CResizer
      else
        connected ← connect_ports source input;
        if negb connected then destroy CResizer else mret 0.

(** [buffer_size] and [buffer_num] as recommended, but not below the
    minimum. *)
Definition at_least (recommended min : Z) : Z := if recommended <? min then min else recommended.

Definition setup_video_encoder : M Z :=
  _ ← deref CSplitter;
  let source := Output CSplitter 0 in
  created ← call (ComponentCreate CVideoEncoder);
  if negb created then mret (-1)
  else
    _ ← store CVideoEncoder;
    let input := Input CVideoEncoder 0 in
    let output := Output CVideoEncoder 0 in
    _ ← mmal_format_copy input source;
    _ ← mmal_format_copy output input;
    info ← get_info output;
    _ ← set_port output (with_buffers 2 (buffer_size_recommended info));
    committed ← commit input;
    if negb committed then mret (-1)
    else
      _ ← set_port output (with_format h264_format);
      info ← get_info output;
      _ ← set_port output
            (with_buffers (at_least (buffer_num_recommended info) (buffer_num_min info))
                          (at_least (buffer_size_recommended info) (buffer_size_min info)));
      committed ← commit output;
      if negb committed then mret (-1)
      else
        _ ← call (ParameterSet output);
        _ ← set_port input with_userdata;
        enabled ← call (ComponentEnable CVideoEncoder);
        if negb enabled then mret (-1)
        else
          _ ← connect_ports source input;
          cfg ← get_port output;
          pool ← call (PoolCreate output (buffer_num cfg) (buffer_size cfg));
          _ ← set_port output with_userdata;
          enabled ← call (PortEnable output);
          if negb enabled then mret (-1)
          else _ ← fill_port_buffer output pool; mret 0.

(** The error path of the JPEG set-up tests a pointer that starts as NULL. *)
Definition setup_jpeg_encoder : M Z :=
  _ ← deref CResizer;
  let source := Output CResizer 0 in
  created ← call (ComponentCreate CJpegEncoder);
  if negb created then mret (-1)
  else
    _ ← store CJpegEncoder;
    let input := Input CJpegEncoder 0 in
    let output := Output CJpegEncoder 0 in
    _ ← mmal_format_copy output input;
    _ ← set_port output (with_format jpeg_format);
    info ← get_info output;
    _ ← set_port output
          (with_buffers (at_least (buffer_num_recommended info) (buffer_num_min info))
                        (at_least (buffer_size_recommended info) (buffer_size_min info)));
    committed ← commit output;
    if negb committed then destroy CJpegEncoder
    else
      quality ← call (ParameterSet output);
      if negb quality then destroy CJpegEncoder
      else
        cfg ← get_port output;
        pool ← call (PoolCreate output (buffer_num cfg) (buffer_size cfg));
        _ ← set_port output with_userdata;
        _ ← connect_ports source input;
        enabled ← call (PortEnable output);
        if negb enabled then destroy CJpegEncoder
        else _ ← fill_port_buffer output pool; mret 0.

(** [main] up to the call of [create_server]: [true] when it is reached,
    [false] when [main] returns -1. *)
Definition main_setup : M bool :=
  rc ← setup_camera;
  if negb (rc =? 0) then mret false
  else
    rc ← setup_splitter;
    if negb (rc =? 0) then mret false
    else
      rc ← setup_resizer SNAPSHOT_WIDTH SNAPSHOT_HEIGHT;
      if negb (rc =? 0) then mret false
      else
        rc ← setup_video_encoder;
        if negb (rc =? 0) then mret false
        else
          rc ← setup_jpeg_encoder;
          if negb (rc =? 0) then mret false
          else
            _ ← deref CCamera;
            started ← call (StartCapture (Output CCamera MMAL_CAMERA_VIDEO_PORT));
            mret started.

(** ** Running the monad *)

Lemma M_bind_inv {A B} (m : M A) (f : A -> M B) s b s' :
  (m ≫= f) s = Ret (b, s') -> exists a s1, m s = Ret (a, s1) /\ f a s1 = Ret (b, s').
Proof.
  unfold mbind, M_bind. destruct (m s) as [[a s1]| | |]; [|done..]. eauto.
Qed.

(** A call that was made and succeeded. *)
Definition ok_in (c : mmal_call) (cs : list mmal_call) : Prop :=
  exists before after, cs = before ++ c :: after /\ mmal_ok (before ++ [c]) = true.

Lemma ok_in_last c cs : mmal_ok (cs ++ [c]) = true -> ok_in c (cs ++ [c]).
Proof. intros H. by exists cs, []. Qed.

Lemma ok_in_app c cs l : ok_in c cs -> ok_in c (cs ++ l).
Proof. intros (b & a & -> & H). exists b, (a ++ l). by rewrite <- app_assoc. Qed.

(** No call changes a format. *)
Definition formats_kept : Prop := forall cs q c, format (after_call cs q c) = format c.

(** What a step may do that consists of calls. *)
Record quiet (s s' : mstate) : Prop := {
  q_formats : formats_kept -> forall q, format (ports s' q) = format (ports s q);
  q_refs : userdata_refs s' = userdata_refs s;
  q_calls : exists l, calls s' = calls s ++ l
}.

Lemma quiet_refl s : quiet s s.
Proof. split; [done..|]. exists []. by rewrite app_nil_r. Qed.

Lemma quiet_trans s1 s2 s3 : quiet s1 s2 -> quiet s2 s3 -> quiet s1 s3.
Proof.
  intros [P1 R1 [l1 E1]] [P2 R2 [l2 E2]].
  split; [intros Keep q; by rewrite (P2 Keep), (P1 Keep)|congruence|]. exists (l1 ++ l2). by rewrite E2, E1, app_assoc.
Qed.

Lemma call_run c s r s' : call c s = Ret (r, s') -> quiet s s' /\ calls s' = calls s ++ [c] /\ mmal_ok (calls s ++ [c]) = r.
Proof. unfold call. intros [= <- <-]. split; [|done]. split; [intros Keep q; apply Keep|done|]. by eexists. Qed.

(** Two ports are connected: the connection was made and enabled. *)
Definition linked (src dst : port) (cs : list mmal_call) : Prop :=
  ok_in (ConnectionCreate src dst) cs /\ ok_in (ConnectionEnable src dst) cs.

Lemma connect_ports_run a b s r s' : connect_ports a b s = Ret (r, s') ->
  quiet s s' /\ ConnectionCreate a b ∈ calls s' /\ (r = true -> linked a b (calls s')).
Proof.
  unfold connect_ports. intros E. apply M_bind_inv in E as (c & s1 & E1 & E).
  apply call_run in E1 as (Q1 & C1 & O1). destruct c; [|injection E as <- <-; rewrite C1; split_and!; [done|set_solver|done]].
  apply M_bind_inv in E as (e & s2 & E2 & E). apply call_run in E2 as (Q2 & C2 & O2).
  destruct e; [injection E as <- <-|].
  - split; [by eapply quiet_trans|]. rewrite C2, C1 in *. split; [set_solver|]. intros _.
    split; [apply ok_in_app; by apply ok_in_last|by apply ok_in_last].
  - apply M_bind_inv in E as (x & s3 & E3 & E). apply call_run in E3 as (Q3 & C3 & _). injection E as <- <-.
    split; [eauto using quiet_trans|]. rewrite C3, C2, C1. split; [set_solver|done].
Qed.

Lemma fill_loop_quiet p n : forall s r s', fill_loop p n s = Ret (r, s') -> quiet s s'.
Proof.
  induction n as [|n IH]; intros s r s' E; cbn [fill_loop] in E; [injection E as _ <-; apply quiet_refl|].
  apply M_bind_inv in E as (b & s1 & E1 & E). apply call_run in E1 as [Q1 _]. destruct b; [|done].
  apply M_bind_inv in E as (x & s2 & E2 & E). apply call_run in E2 as [Q2 _].
  apply IH in E. eauto using quiet_trans.
Qed.

Lemma fill_port_buffer_quiet p pool s r s' : fill_port_buffer p pool s = Ret (r, s') -> quiet s s'.
Proof. unfold fill_port_buffer. destruct pool; [apply fill_loop_quiet|done]. Qed.

Lemma commit_run p s b s' : commit p s = Ret (b, s') ->
  let cs := calls s ++ [FormatCommit p (format (ports s p))] in
  mmal_ok cs = b /\ s' = {| calls := cs; ports := fun q => after_call cs q (ports s q); userdata_refs := userdata_refs s |}.
Proof. unfold commit. intros E. apply M_bind_inv in E as (c & s1 & [= <- <-] & E). by injection E as <- <-. Qed.

(** Run a successful computation: one step at a time, taking at each test of
    a status the branch that does not end in an error. *)
Ltac mop H :=
  lazymatch type of H with
  | connect_ports _ _ _ = _ => let Hc := fresh "Hconn" in let Ho := fresh "Hlink" in apply connect_ports_run in H as ([? ? [? ?]] & Hc & Ho)
  | fill_port_buffer _ _ _ = _ => apply fill_port_buffer_quiet in H as [? ? [? ?]]
  | commit _ _ = _ => let Hok := fresh "Hok" in apply commit_run in H as [Hok ->]; simpl in Hok
  | call _ _ = _ => let Hok := fresh "Hok" in unfold call in H; injection H as Hok <-
  | deref _ _ = _ => unfold deref in H; case_decide; [injection H as <- <-|discriminate H]
  | _ => unfold set_port, store, get_port, get_info in H; injection H as <- <-
  end.

Ltac mstep E :=
  let a := fresh "a" in let s := fresh "s" in let H := fresh "H" in
  match type of E with
  | (if negb ?b then _ else _) _ = _ =>
      destruct b; cbn [negb] in E; [|by first [discriminate E | apply M_bind_inv in E as (a & s & H & E); discriminate E]]
  | mret _ _ = _ => injection E as <-
  | _ =>
      apply M_bind_inv in E as (a & s & H & E);
      lazymatch type of H with
      | mmal_format_copy _ _ _ = _ =>
          let b := fresh "a" in let s1 := fresh "s" in let H1 := fresh "H" in
          unfold mmal_format_copy in H; apply M_bind_inv in H as (b & s1 & H1 & H); mop H1; mop H
      | splitter_outputs _ _ _ = _ => idtac
      | _ => mop H
      end
  end.

(** Reading ports and references across quiet steps. *)
Ltac mquiet :=
  repeat match goal with
  | H : userdata_refs ?x = _ |- context [userdata_refs ?x] => rewrite H; simpl
  end.

(** Reading formats, when calls keep them. *)
Ltac mformats Keep :=
  repeat first
    [ rewrite Keep; simpl
    | match goal with H : formats_kept -> forall q, format (ports ?x q) = _ |- context [format (ports ?x _)] => rewrite (H Keep); simpl end ].

(** Finding a call among those made. *)
Ltac logged :=
  simpl; repeat first
    [ assumption
    | apply ok_in_last; assumption
    | match goal with H : calls ?x = _ |- ok_in _ (calls ?x) => rewrite H; simpl end
    | apply ok_in_app ].

(** ** What a successful set-up leaves *)

Definition video_port : port := Output CCamera MMAL_CAMERA_VIDEO_PORT.

Definition extends (s s' : mstate) : Prop := exists l, calls s' = calls s ++ l.

Ltac extended := unfold extends;
  simpl; repeat match goal with H : calls ?x = _ |- context [calls ?x] => rewrite H; simpl end; rewrite <- ?app_assoc; by eexists.

Lemma extends_trans s1 s2 s3 : extends s1 s2 -> extends s2 s3 -> extends s1 s3.
Proof. intros [l1 E1] [l2 E2]. exists (l1 ++ l2). by rewrite E2, E1, app_assoc. Qed.

Lemma extends_ok s s' c : extends s s' -> ok_in c (calls s) -> ok_in c (calls s').
Proof. intros [l ->]. apply ok_in_app. Qed.

Lemma setup_camera_run s s' :
  setup_camera s = Ret (0, s') ->
  extends s s' /\ userdata_refs s' = CCamera :: userdata_refs s /\
  ok_in (ComponentCreate CCamera) (calls s') /\ ok_in (ComponentEnable CCamera) (calls s') /\
  (exists f, ok_in (FormatCommit video_port (camera_format f)) (calls s')) /\
  (formats_kept -> format (ports s' video_port) = camera_format (format (ports s video_port))).
Proof.
  unfold setup_camera. intros E. repeat mstep E. fold video_port in *. simpl in *.
  split_and!; [extended|done|logged..|eexists; logged|]. intros Keep. by mformats Keep.
Qed.

(** The loop over the outputs gives each the input's format. *)
Lemma splitter_outputs_run n : forall i s s',
  splitter_outputs n i s = Ret (true, s') ->
  extends s s' /\ userdata_refs s' = userdata_refs s /\
  (formats_kept ->
    (forall j, i <= j < i + Z.of_nat n ->
       format (ports s' (Output CSplitter j)) = format (ports s (Input CSplitter 0))) /\
    (forall p, (forall j, i <= j -> p <> Output CSplitter j) -> format (ports s' p) = format (ports s p))).
Proof.
  induction n as [|n IH]; intros i s s' E; cbn [splitter_outputs] in E.
  { mstep E. split_and!; [by exists []; rewrite app_nil_r|done|]. intros _. split; [lia|done]. }
  do 4 mstep E. apply IH in E as (Hx & Hr & Hk). split_and!.
  - eapply extends_trans; [|exact Hx]. extended.
  - by rewrite Hr.
  - intros Keep. destruct (Hk Keep) as [Hf Hp]. simpl in *. split.
    + intros j Hj. destruct (decide (j = i)) as [->|Hne].
      * rewrite Hp by (intros j Hj1 [=]; lia). simpl. mformats Keep. by rewrite !decide_True by done.
      * rewrite Hf by lia. simpl. by mformats Keep.
    + intros p Hne. rewrite Hp by (intros j Hj; apply Hne; lia).
      simpl. mformats Keep. by rewrite !decide_False by (apply Hne; lia).
Qed.

Lemma setup_splitter_run s s' :
  setup_splitter s = Ret (0, s') ->
  extends s s' /\ userdata_refs s' = CSplitter :: userdata_refs s /\
  ok_in (ComponentCreate CSplitter) (calls s') /\ linked video_port (Input CSplitter 0) (calls s') /\
  (formats_kept -> forall j, 0 <= j < Z.of_nat splitter_output_num ->
     format (ports s' (Output CSplitter j)) = format (ports s video_port)).
Proof.
  unfold setup_splitter. intros E. repeat mstep E.
  match goal with H : splitter_outputs _ _ _ = _ |- _ =>
    apply splitter_outputs_run in H as ([? ?] & Hr & Hf) end.
  simpl in *. split_and!; [extended|by mquiet|logged|auto|].
  intros Keep j Hj. destruct (Hf Keep) as [Hf' _]. mformats Keep. rewrite Hf' by lia. simpl. by mformats Keep.
Qed.

Lemma setup_resizer_run w h s s' :
  setup_resizer w h s = Ret (0, s') ->
  extends s s' /\ userdata_refs s' = CResizer :: userdata_refs s /\
  ok_in (ComponentCreate CResizer) (calls s') /\ linked (Output CSplitter 1) (Input CResizer 0) (calls s') /\
  (exists f, ok_in (FormatCommit (Output CResizer 0) (resized_format w h f)) (calls s')) /\
  (formats_kept -> format (ports s' (Output CResizer 0)) = resized_format w h (format (ports s (Output CSplitter 1))) /\
    (forall c i, c <> CResizer -> format (ports s' (Output c i)) = format (ports s (Output c i)))).
Proof.
  unfold setup_resizer. intros E. repeat mstep E. simpl in *. split_and!; [extended|by mquiet|logged|auto|eexists; logged|].
  intros Keep. split; [by mformats Keep|].
  intros c i Hc. by repeat (mformats Keep; rewrite decide_False by (by intros [= ? ?])); mformats Keep.
Qed.

Lemma setup_video_encoder_run s s' :
  setup_video_encoder s = Ret (0, s') ->
  extends s s' /\ userdata_refs s' = CVideoEncoder :: userdata_refs s /\
  ok_in (ComponentCreate CVideoEncoder) (calls s') /\ ok_in (ComponentEnable CVideoEncoder) (calls s') /\
  ConnectionCreate (Output CSplitter 0) (Input CVideoEncoder 0) ∈ calls s' /\
  ok_in (PortEnable (Output CVideoEncoder 0)) (calls s') /\
  (exists f, ok_in (FormatCommit (Output CVideoEncoder 0) (h264_format f)) (calls s')) /\
  (formats_kept -> format (ports s' (Output CVideoEncoder 0)) = h264_format (format (ports s (Output CSplitter 0))) /\
    (forall c i, c <> CVideoEncoder -> format (ports s' (Output c i)) = format (ports s (Output c i)))).
Proof.
  unfold setup_video_encoder. intros E. repeat mstep E. simpl in *.
  split_and!; [extended|by mquiet|logged|logged| |logged|eexists; logged|].
  - repeat match goal with H : calls ?x = _ ++ _ |- _ ∈ calls ?x => rewrite H; simpl; apply elem_of_app; left end. set_solver.
  - intros Keep. split; [by mformats Keep|].
    intros c i Hc. by repeat (mformats Keep; rewrite decide_False by (by intros [= ? ?])); mformats Keep.
Qed.

Lemma setup_jpeg_encoder_run s s' :
  setup_jpeg_encoder s = Ret (0, s') ->
  extends s s' /\ userdata_refs s' = CJpegEncoder :: userdata_refs s /\
  ok_in (ComponentCreate CJpegEncoder) (calls s') /\
  ConnectionCreate (Output CResizer 0) (Input CJpegEncoder 0) ∈ calls s' /\
  ok_in (PortEnable (Output CJpegEncoder 0)) (calls s') /\
  (exists f, ok_in (FormatCommit (Output CJpegEncoder 0) (jpeg_format f)) (calls s')) /\
  (formats_kept -> encoding (format (ports s' (Output CJpegEncoder 0))) = ENC_JPEG /\
    (forall c i, c <> CJpegEncoder -> format (ports s' (Output c i)) = format (ports s (Output c i)))).
Proof.
  unfold setup_jpeg_encoder. intros E. repeat mstep E. simpl in *.
  split_and!; [extended|by mquiet|logged| |logged|eexists; logged|].
  - repeat match goal with H : calls ?x = _ ++ _ |- _ ∈ calls ?x => rewrite H; simpl; apply elem_of_app; left end. set_solver.
  - intros Keep. split; [by mformats Keep|].
    intros c i Hc. by repeat (mformats Keep; rewrite decide_False by (by intros [= ? ?])); mformats Keep.
Qed.

(** A call made in an earlier state. *)
Ltac carried :=
  match goal with H : ok_in ?c (calls ?x) |- ok_in ?c (calls _) => apply (extends_ok x); [assumption|exact H] end.

(** [E] is [rc ← m; if negb (rc =? 0) then mret false else k] with result
    [true]: [m] returned 0. *)
Ltac mphase E s1 H :=
  let rc := fresh "rc" in
  apply M_bind_inv in E as (rc & s1 & H & E);
  destruct (rc =? 0) eqn:?; [|discriminate E]; bool_to_prop; subst rc; cbn [negb] in E.

Lemma main_setup_phases s s' :
  main_setup s = Ret (true, s') ->
  exists s1 s2 s3 s4 s5, setup_camera s = Ret (0, s1) /\ setup_splitter s1 = Ret (0, s2) /\
    setup_resizer SNAPSHOT_WIDTH SNAPSHOT_HEIGHT s2 = Ret (0, s3) /\
    setup_video_encoder s3 = Ret (0, s4) /\ setup_jpeg_encoder s4 = Ret (0, s5) /\
    call (StartCapture video_port) s5 = Ret (true, s').
Proof.
  unfold main_setup. intros E.
  mphase E s1 H1. mphase E s2 H2. mphase E s3 H3. mphase E s4 H4. mphase E s5 H5.
  mstep E. apply M_bind_inv in E as (b & s6 & H6 & E). injection E as -> ->.
  exists s1, s2, s3, s4, s5. done.
Qed.

(** The formats that MMAL was asked for and accepted. *)
Definition requested (p : port) (P : es_format -> Prop) (cs : list mmal_call) : Prop :=
  exists f, P f /\ ok_in (FormatCommit p f) cs.

Lemma requested_ok p (P : es_format -> Prop) f cs : P f -> ok_in (FormatCommit p f) cs -> requested p P cs.
Proof. intros HP H. by exists f. Qed.

(** C39: The pipeline [main] serves from.  If [main] gets as far as
    [create_server], then, whatever the ports were configured to before and
    whatever MMAL makes of the formats, the five components were created; the
    camera is connected to the splitter and the splitter to the resizer; the
    encoders' connections to the splitter and the resizer were asked for; the
    camera accepted I420 at the configured size and rate, the resizer the
    snapshot size, the video encoder H.264 at 300 kbit/s and the JPEG encoder
    JPEG; both encoders' output ports are enabled, and the last call of all
    started the capture.  If calls leave formats as they are, the camera's
    size has gone through every stage to the video encoder. *)
Theorem main_setup_pipeline s s' :
  (2 <= splitter_output_num)%nat -> calls s = [] -> main_setup s = Ret (true, s') ->
  let cs := calls s' in
  (forall c, ok_in (ComponentCreate c) cs /\ c ∈ userdata_refs s') /\
  linked video_port (Input CSplitter 0) cs /\ linked (Output CSplitter 1) (Input CResizer 0) cs /\
  ConnectionCreate (Output CSplitter 0) (Input CVideoEncoder 0) ∈ cs /\
  ConnectionCreate (Output CResizer 0) (Input CJpegEncoder 0) ∈ cs /\
  requested video_port (fun f => encoding f = ENC_I420 /\ width f = VIDEO_WIDTH /\ height f = VIDEO_HEIGHT /\
    frame_rate_num f = VIDEO_FPS /\ frame_rate_den f = 1) cs /\
  requested (Output CResizer 0) (fun f => width f = SNAPSHOT_WIDTH /\ height f = SNAPSHOT_HEIGHT /\
    crop_width f = SNAPSHOT_WIDTH /\ crop_height f = SNAPSHOT_HEIGHT) cs /\
  requested (Output CVideoEncoder 0) (fun f => encoding f = ENC_H264 /\ bitrate f = 300000 /\
    crop_width f = VIDEO_WIDTH /\ crop_height f = VIDEO_HEIGHT /\ frame_rate_num f = VIDEO_FPS /\ frame_rate_den f = 1) cs /\
  requested (Output CJpegEncoder 0) (fun f => encoding f = ENC_JPEG) cs /\
  ok_in (PortEnable (Output CVideoEncoder 0)) cs /\ ok_in (PortEnable (Output CJpegEncoder 0)) cs /\
  (exists before, cs = before ++ [StartCapture video_port]) /\ mmal_ok cs = true /\
  (formats_kept ->
    let enc := format (ports s' (Output CVideoEncoder 0)) in
    let resized := format (ports s' (Output CResizer 0)) in
    encoding enc = ENC_H264 /\ width enc = VIDEO_WIDTH /\ height enc = VIDEO_HEIGHT /\
    encoding resized = ENC_I420 /\ width resized = SNAPSHOT_WIDTH /\
    encoding (format (ports s' (Output CJpegEncoder 0))) = ENC_JPEG).
Proof.
  intros Hn _ E. apply main_setup_phases in E as (s1 & s2 & s3 & s4 & s5 & H1 & H2 & H3 & H4 & H5 & H6).
  apply setup_camera_run in H1 as (_ & R1 & C1 & _ & [f1 F1] & K1). apply setup_splitter_run in H2 as (X2 & R2 & C2 & [L2 L2'] & K2).
  apply setup_resizer_run in H3 as (X3 & R3 & C3 & [L3 L3'] & [f3 F3] & K3).
  apply setup_video_encoder_run in H4 as (X4 & R4 & C4 & _ & L4 & P4 & [f4 F4] & K4).
  apply setup_jpeg_encoder_run in H5 as (X5 & R5 & C5 & L5 & P5 & [f5 F5] & K5).
  apply call_run in H6 as ([Q6 R6 X6] & C6 & O6). change (extends s5 s') in X6.
  assert (extends s4 s') as Y4 by eauto using extends_trans. assert (extends s3 s') as Y3 by eauto using extends_trans.
  assert (extends s2 s') as Y2 by eauto using extends_trans. assert (extends s1 s') as Y1 by eauto using extends_trans.
  cbv zeta. split_and!; try carried; try (split; carried).
  - intros c. split; [destruct c; carried|]. rewrite R6, R5, R4, R3, R2, R1. destruct c; set_solver.
  - destruct Y4 as [l ->]. set_solver.
  - destruct X6 as [l ->]. set_solver.
  - eapply requested_ok; [|apply (extends_ok s1); [assumption|exact F1]]. done.
  - eapply requested_ok; [|apply (extends_ok s3); [assumption|exact F3]]. done.
  - eapply requested_ok; [|apply (extends_ok s4); [assumption|exact F4]]. done.
  - eapply requested_ok; [|apply (extends_ok s5); [assumption|exact F5]]. done.
  - by eexists.
  - by rewrite C6.
  - intros Keep. specialize (K1 Keep). specialize (K2 Keep). destruct (K3 Keep) as [K3a K3b], (K4 Keep) as [K4a K4b], (K5 Keep) as [K5a K5b].
    rewrite !(Q6 Keep), (K5b CVideoEncoder), (K5b CResizer), (K4b CResizer), K4a, (K3b CSplitter), K3a, !K2, K1 by (done || lia). done.
Qed.

End Setup.

(** ** Instance *)

Definition blank_port : port_cfg :=
  {| format := {| encoding := ENC_UNKNOWN; encoding_variant := ENC_UNKNOWN; bitrate := 0; width := 0;
                  height := 0; crop_x := 0; crop_y := 0; crop_width := 0; crop_height := 0;
                  frame_rate_num := 0; frame_rate_den := 0 |};
     buffer_num := 0; buffer_size := 0; port_userdata := false |}.

Definition blank_state : mstate := {| calls := []; ports := fun _ => blank_port; userdata_refs := [] |}.

Definition all_ok : list mmal_call -> bool := fun _ => true.

Definition some_info : list mmal_call -> port -> port_info_t := fun _ _ =>
  {| buffer_size_recommended := 65536; buffer_size_min := 2048; buffer_num_recommended := 1;
     buffer_num_min := 1 |}.

(** A library that rounds widths up to multiples of 32. *)
Definition align_width : list mmal_call -> port -> port_cfg -> port_cfg := fun _ _ => with_format (fun f =>
  {| encoding := encoding f; encoding_variant := encoding_variant f; bitrate := bitrate f;
     width := (width f + 31) / 32 * 32; height := height f; crop_x := crop_x f; crop_y := crop_y f; crop_width := crop_width f;
     crop_height := crop_height f; frame_rate_num := frame_rate_num f; frame_rate_den := frame_rate_den f |}).

Lemma main_setup_pipeline_witness :
  exists s', main_setup all_ok some_info align_width 4 (fun _ => 2%nat) blank_state = Ret (true, s') /\
    linked all_ok video_port (Input CSplitter 0) (calls s') /\
    ConnectionCreate (Output CResizer 0) (Input CJpegEncoder 0) ∈ calls s'.
Proof.
  assert (match main_setup all_ok some_info align_width 4 (fun _ => 2%nat) blank_state with Ret (true, _) => true | _ => false end = true)
    as Hr by (vm_compute; reflexivity).
  destruct (main_setup all_ok some_info align_width 4 (fun _ => 2%nat) blank_state) as [[[] s']| | |] eqn:E; try discriminate Hr.
  destruct (main_setup_pipeline all_ok some_info align_width 4 (fun _ => 2%nat) blank_state s')
    as (_ & H1 & _ & _ & H2 & _); [lia|reflexivity|exact E|].
  exists s'. split_and!; [reflexivity|exact H1|exact H2].
Defined.
