(* ===== verification/Sha1.v ===== *)
(** SHA-1 (libsrtp crypto/hash/sha1.c, crypto/include/sha1.h).

    The message buffer [M] of a context is its 64 octets; [be32_to_cpu(M[i])]
    is then the big-endian word at octet [4 i].  The local array [W] starts
    with arbitrary contents [W0], as it is not initialised. *)

From Stdlib Require Import Btauto.
From S2P Require Import Prelude.

Definition SHA_K0 : Z := 0x5A827999.
Definition SHA_K1 : Z := 0x6ED9EBA1.
Definition SHA_K2 : Z := 0x8F1BBCDC.
Definition SHA_K3 : Z := 0xCA62C1D6.

Definition S1 (x : Z) : Z := u32 (x << 1) .| (x >> 31).
Definition S5 (x : Z) : Z := u32 (x << 5) .| (x >> 27).
Definition S30 (x : Z) : Z := u32 (x << 30) .| (x >> 2).

Definition f0 (b c d : Z) : Z := (b & c) .| (u32 (Z.lnot b) & d).
Definition f1 (b c d : Z) : Z := b ^^ c ^^ d.
Definition f2 (b c d : Z) : Z := (b & c) .| (b & d) .| (c & d).
Definition f3 (b c d : Z) : Z := b ^^ c ^^ d.

(** [be32_to_cpu(((uint32_t * )m)[i])]. *)
Definition be32_at (m : list Z) (i : Z) : option Z :=
  b0 ← aget m (4 * i); b1 ← aget m (4 * i + 1); b2 ← aget m (4 * i + 2); b3 ← aget m (4 * i + 3);
  Some ((b0 << 24) .| (b1 << 16) .| (b2 << 8) .| b3).

(** The octets of [be32_to_cpu(w)] stored in memory. *)
Definition be32_octets (w : Z) : list Z := [u8 (w >> 24); u8 (w >> 16); u8 (w >> 8); u8 w].

Record srtp_sha1_ctx_t := {
  H : list Z;
  M : list Z;
  octets_in_buffer : Z;
  num_bits_in_msg : Z
}.

(** ** Compression *)

(** One turn of a round loop, with the round's function and constant. *)
Definition sha1_step (f : Z -> Z -> Z -> Z) (k w : Z) (s : Z * Z * Z * Z * Z) : Z * Z * Z * Z * Z :=
  let '(a, b, c, d, e) := s in
  let temp := u32 (S5 a + f b c d + e + w + k) in
  (temp, a, S30 b, c, d).

Definition round_loop (W : list Z) (f : Z -> Z -> Z -> Z) (k lo hi : Z) (s : Z * Z * Z * Z * Z)
    : option (Z * Z * Z * Z * Z) :=
  for_up lo hi (fun t s => w ← aget W t; Some (sha1_step f k w s)) s.

(** The message schedule, in place. *)
Definition sha1_expand (W : list Z) : option (list Z) :=
  for_up 16 80
    (fun t W =>
       a ← aget W (t - 3); b ← aget W (t - 8); c ← aget W (t - 14); d ← aget W (t - 16);
       aset W t (S1 (a ^^ b ^^ c ^^ d))) W.

(** Schedule, eighty rounds and final additions: the part that
    [srtp_sha1_core] and both halves of [srtp_sha1_final] share. *)
Definition sha1_rounds (W : list Z) (h : list Z) : option (list Z) :=
  W ← sha1_expand W;
  h0 ← aget h 0; h1 ← aget h 1; h2 ← aget h 2; h3 ← aget h 3; h4 ← aget h 4;
  s ← round_loop W f0 SHA_K0 0 20 (h0, h1, h2, h3, h4);
  s ← round_loop W f1 SHA_K1 20 40 s;
  s ← round_loop W f2 SHA_K2 40 60 s;
  '(a, b, c, d, e) ← round_loop W f3 SHA_K3 60 80 s;
  Some [u32 (h0 + a); u32 (h1 + b); u32 (h2 + c); u32 (h3 + d); u32 (h4 + e)].

(** [W[i] = be32_to_cpu(M[i])] for [i < n]. *)
Definition load_words (W m : list Z) (n : Z) : option (list Z) :=
  for_up 0 n (fun i W => w ← be32_at m i; aset W i w) W.

Definition srtp_sha1_core (W0 : list Z) (m h : list Z) : option (list Z) :=
  W ← load_words W0 m 16; sha1_rounds W h.

(** ** Streaming *)

Definition srtp_sha1_init (ctx : srtp_sha1_ctx_t) : srtp_sha1_ctx_t :=
  {| H := [0x67452301; 0xefcdab89; 0x98badcfe; 0x10325476; 0xc3d2e1f0]; M := M ctx;
     octets_in_buffer := 0; num_bits_in_msg := 0 |}.

(** The loop of [srtp_sha1_update] on the octets at [msg]; each turn consumes
    at least one, so [octets_in_msg + 1] turns are enough. *)
Fixpoint update_loop (fuel : nat) (W0 : list Z) (ctx : srtp_sha1_ctx_t) (msg : list Z)
    (octets_in_msg : Z) : option srtp_sha1_ctx_t :=
  match fuel with
  | O => None
  | S fuel' =>
      if 0 <? octets_in_msg then
        if 64 <=? octets_in_msg + octets_in_buffer ctx then
          let n := 64 - octets_in_buffer ctx in
          src ← slice msg 0 n;
          m ← blit (M ctx) (octets_in_buffer ctx) src;
          h ← srtp_sha1_core W0 m (H ctx);
          update_loop fuel' W0
            {| H := h; M := m; octets_in_buffer := 0; num_bits_in_msg := num_bits_in_msg ctx |}
            (drop (Z.to_nat n) msg) (octets_in_msg - n)
        else
          src ← slice msg 0 octets_in_msg;
          m ← blit (M ctx) (octets_in_buffer ctx) src;
          update_loop fuel' W0
            {| H := H ctx; M := m; octets_in_buffer := octets_in_buffer ctx + octets_in_msg;
               num_bits_in_msg := num_bits_in_msg ctx |}
            (drop (Z.to_nat octets_in_msg) msg) 0
      else Some ctx
  end.

(** [octets_in_msg * 8] is a product of [int]s. *)
Definition srtp_sha1_update (W0 : list Z) (ctx : srtp_sha1_ctx_t) (msg : list Z) (octets_in_msg : Z)
    : option srtp_sha1_ctx_t :=
  bits ← sint (octets_in_msg * 8);
  update_loop (S (Z.to_nat octets_in_msg)) W0
    {| H := H ctx; M := M ctx; octets_in_buffer := octets_in_buffer ctx;
       num_bits_in_msg := u32 (num_bits_in_msg ctx + bits) |} msg octets_in_msg.

(** The [switch] on the number of octets in the last partial word. *)
Definition terminate (W m : list Z) (i tail : Z) : option (list Z) :=
  if tail =? 3 then
    w ← be32_at m (i - 1); W ← aset W (i - 1) ((w & 0xffffff00) .| 0x80); aset W i 0
  else if tail =? 2 then
    w ← be32_at m (i - 1); W ← aset W (i - 1) ((w & 0xffff0000) .| 0x8000); aset W i 0
  else if tail =? 1 then
    w ← be32_at m (i - 1); W ← aset W (i - 1) ((w & 0xff000000) .| 0x800000); aset W i 0
  else if tail =? 0 then aset W i 0x80000000
  else Some W.

(** The first 16 words of [W] for the last block of the message. *)
Definition last_block (W0 : list Z) (ctx : srtp_sha1_ctx_t) : option (list Z) :=
  let n := (octets_in_buffer ctx + 3) / 4 in
  W ← load_words W0 (M ctx) n;
  W ← terminate W (M ctx) n (Z.rem (octets_in_buffer ctx) 4);
  W ← for_up (n + 1) 15 (fun i W => aset W i 0) W;
  if octets_in_buffer ctx <? 56 then aset W 15 (num_bits_in_msg ctx)
  else if octets_in_buffer ctx <? 60 then aset W 15 0
  else Some W.

(** The extra block that holds only the length. *)
Definition length_block (W : list Z) (ctx : srtp_sha1_ctx_t) : option (list Z) :=
  W ← for_up 0 15 (fun i W => aset W i 0) W;
  aset W 15 (num_bits_in_msg ctx).

(** [srtp_sha1_final(ctx, output)]: the context and the twenty octets.  [W1]
    is [W] as the first run of the rounds leaves it. *)
Definition srtp_sha1_final (W0 W1 : list Z) (ctx : srtp_sha1_ctx_t)
    : option (srtp_sha1_ctx_t * list Z) :=
  W ← last_block W0 ctx;
  h ← sha1_rounds W (H ctx);
  h ← (if 56 <=? octets_in_buffer ctx then W ← length_block W1 ctx; sha1_rounds W h else Some h);
  h0 ← aget h 0; h1 ← aget h 1; h2 ← aget h 2; h3 ← aget h 3; h4 ← aget h 4;
  Some ({| H := h; M := M ctx; octets_in_buffer := 0; num_bits_in_msg := num_bits_in_msg ctx |},
        be32_octets h0 ++ be32_octets h1 ++ be32_octets h2 ++ be32_octets h3 ++ be32_octets h4).

Definition srtp_sha1 (W0 W1 : list Z) (ctx : srtp_sha1_ctx_t) (msg : list Z) (octets_in_msg : Z)
    : option (list Z) :=
  ctx ← srtp_sha1_update W0 (srtp_sha1_init ctx) msg octets_in_msg;
  '(_, out) ← srtp_sha1_final W0 W1 ctx;
  Some out.

(** ** The standard *)

(** FIPS 180-4, section by section, on words below 2^32: nothing of it is taken
    from the code above. *)
Module Fips180.

(** 3.1: a word from four octets, most significant first, and its octets. *)
Definition word (octets : list Z) : Z := fold_left (fun w x => 256 * w + x) octets 0.
Definition octets (w : Z) : list Z := map (fun k => w / 256 ^ k mod 256) [3; 2; 1; 0].

(** 3.2: rotation, complement and addition of words. *)
Definition ROTL (n x : Z) : Z := (x << n) mod 2 ^ 32 .| (x >> (32 - n)).
Definition complement (x : Z) : Z := 2 ^ 32 - 1 - x mod 2 ^ 32.
Definition add (x y : Z) : Z := (x + y) mod 2 ^ 32.

(** 4.1.1: the functions. *)
Definition Ch (x y z : Z) : Z := (x & y) ^^ (complement x & z).
Definition Parity (x y z : Z) : Z := x ^^ y ^^ z.
Definition Maj (x y z : Z) : Z := (x & y) ^^ (x & z) ^^ (y & z).

Definition f (t : Z) : Z -> Z -> Z -> Z :=
  if t <? 20 then Ch else if t <? 40 then Parity else if t <? 60 then Maj else Parity.

(** 4.2.1: the constants, which are the square roots of 2, 3, 5 and 10 times
    2^30. *)
Definition K (t : Z) : Z :=
  Z.sqrt ((if t <? 20 then 2 else if t <? 40 then 3 else if t <? 60 then 5 else 10) * 2 ^ 60).

(** 5.1.1: padding with a 1 bit, zeros and the length in bits in 64 bits. *)
Definition padded (msg : list Z) : list Z :=
  let l := 8 * zlen msg in
  msg ++ [0x80] ++ replicate (Z.to_nat ((55 - zlen msg) mod 64)) 0 ++ octets (l / 2 ^ 32) ++ octets l.

(** 5.3.1: the initial hash value: the nibbles up and down again, and a third
    pattern, in words with the least octet first. *)
Definition H0 : list Z :=
  map (fun o => word (rev o)) [[0x01; 0x23; 0x45; 0x67]; [0x89; 0xab; 0xcd; 0xef]; [0xfe; 0xdc; 0xba; 0x98];
                               [0x76; 0x54; 0x32; 0x10]; [0xf0; 0xe1; 0xd2; 0xc3]].

(** 6.1.2, step 1: the message schedule, its first [16 + n] words. *)
Fixpoint W (n : nat) (block : list Z) : list Z :=
  match n with
  | O => map (fun t => word (take 4 (drop (4 * t) block))) (seq 0 16)
  | S n =>
      let w := W n block in
      let t := 16 + Z.of_nat n in
      w ++ [ROTL 1 (znth w (t - 3) ^^ znth w (t - 8) ^^ znth w (t - 14) ^^ znth w (t - 16))]
  end.

(** Step 3: one round. *)
Definition round (w : list Z) (s : Z * Z * Z * Z * Z) (t : Z) : Z * Z * Z * Z * Z :=
  let '(a, b, c, d, e) := s in
  let T := add (add (add (add (ROTL 5 a) (f t b c d)) e) (K t)) (znth w t) in
  (T, a, ROTL 30 b, c, d).

(** Steps 2 to 4: the next intermediate hash value. *)
Definition next_hash (h block : list Z) : list Z :=
  let '(a, b, c, d, e) :=
    fold_left (round (W 64 block)) (seqZ 0 80) (znth h 0, znth h 1, znth h 2, znth h 3, znth h 4) in
  [add a (znth h 0); add b (znth h 1); add c (znth h 2); add d (znth h 3); add e (znth h 4)].

(** The blocks of a padded message, in order. *)
Fixpoint hash_blocks (n : nat) (h l : list Z) : list Z :=
  match n with
  | O => h
  | S n => hash_blocks n (next_hash h (take 64 l)) (drop 64 l)
  end.

Definition digest (msg : list Z) : list Z :=
  let l := padded msg in concat (map octets (hash_blocks (Z.to_nat (zlen l / 64)) H0 l)).

End Fips180.

Definition sha1_spec (msg : list Z) : list Z := Fips180.digest msg.

(** ** Whole blocks in the terms of the code *)

(** The word schedule of a block, by extension at the end. *)
Fixpoint schedule (n : nat) (ws : list Z) : list Z :=
  match n with
  | O => ws
  | S n' =>
      let t := zlen ws in
      schedule n' (ws ++ [S1 (znth ws (t - 3) ^^ znth ws (t - 8) ^^ znth ws (t - 14) ^^ znth ws (t - 16))])
  end.

Definition round_function (t : Z) : Z -> Z -> Z -> Z :=
  if t <? 20 then f0 else if t <? 40 then f1 else if t <? 60 then f2 else f3.

Definition round_constant (t : Z) : Z :=
  if t <? 20 then SHA_K0 else if t <? 40 then SHA_K1 else if t <? 60 then SHA_K2 else SHA_K3.

Definition sha1_round (W : list Z) (s : Z * Z * Z * Z * Z) (t : Z) : Z * Z * Z * Z * Z :=
  sha1_step (round_function t) (round_constant t) (znth W t) s.

(** Compression of a block given by its 16 words. *)
Definition compress_words (h ws : list Z) : list Z :=
  let W := schedule 64 ws in
  let '(a, b, c, d, e) :=
    foldl (sha1_round W) (znth h 0, znth h 1, znth h 2, znth h 3, znth h 4) (seqZ 0 80) in
  [u32 (znth h 0 + a); u32 (znth h 1 + b); u32 (znth h 2 + c); u32 (znth h 3 + d); u32 (znth h 4 + e)].

Definition be32 (m : list Z) (i : Z) : Z := default 0 (be32_at m i).

Definition words (block : list Z) : list Z := map (be32 block) (seqZ 0 16).

Definition compress (h block : list Z) : list Z := compress_words h (words block).

(** Hashing a string of [n] blocks. *)
Fixpoint absorb (n : nat) (h l : list Z) : list Z :=
  match n with
  | O => h
  | S n' => absorb n' (compress h (take 64 l)) (drop 64 l)
  end.

(** Padding: a 1 bit, zeros, the length in bits as a 64-bit big-endian value. *)
Definition pad (msg : list Z) : list Z :=
  msg ++ [0x80] ++ replicate (Z.to_nat ((55 - zlen msg) mod 64)) 0 ++
  be32_octets (8 * zlen msg / 2 ^ 32) ++ be32_octets (8 * zlen msg).

Definition sha1_iv : list Z := [0x67452301; 0xefcdab89; 0x98badcfe; 0x10325476; 0xc3d2e1f0].

Definition sha1_blocks (msg : list Z) : list Z :=
  concat (map be32_octets (absorb (Z.to_nat (zlen (pad msg) / 64)) sha1_iv (pad msg))).

(** ** The compression function *)

Lemma schedule_snoc n ws :
  let l := schedule n ws in let t := zlen l in
  schedule (S n) ws =
    l ++ [S1 (znth l (t - 3) ^^ znth l (t - 8) ^^ znth l (t - 14) ^^ znth l (t - 16))].
Proof.
  cbv zeta. revert ws. induction n as [|n IH]; intros ws; [done|]. cbn [schedule] in IH |- *. apply IH.
Qed.

Lemma zlen_schedule n ws : zlen (schedule n ws) = zlen ws + Z.of_nat n.
Proof.
  revert ws. induction n as [|n IH]; intros ws; cbn [schedule]; [lia|].
  rewrite IH, zlen_app. change (zlen [_]) with 1. lia.
Qed.

Lemma take_insert_snoc (l : list Z) (t v : Z) :
  0 <= t < zlen l ->
  take (Z.to_nat (t + 1)) (<[Z.to_nat t := v]> l) = take (Z.to_nat t) l ++ [v].
Proof.
  intros Ht. unfold zlen in Ht. replace (Z.to_nat (t + 1)) with (S (Z.to_nat t)) by lia.
  rewrite (take_S_r _ _ v) by (apply list_lookup_insert_eq; lia).
  by rewrite take_insert_ge by lia.
Qed.

Lemma sha1_expand_spec W :
  zlen W = 80 -> sha1_expand W = Some (schedule 64 (take 16 W)).
Proof.
  intros HW. unfold sha1_expand.
  edestruct (for_up_inv (fun t V => zlen V = 80 /\
    take (Z.to_nat t) V = schedule (Z.to_nat (t - 16)) (take 16 W)) 16 80) as (V & E & HV & Ht);
    [lia|by split| |rewrite E].
  - intros t V Ht [HV Hp].
    assert (zlen (take (Z.to_nat t) V) = t) as Hz by (rewrite zlen_take by lia; lia).
    rewrite !aget_znth by lia. simpl. rewrite aset_Some by lia. eexists. split; [done|].
    rewrite zlen_insert. split; [done|]. rewrite take_insert_snoc by lia.
    replace (Z.to_nat (t + 1 - 16)) with (S (Z.to_nat (t - 16))) by lia.
    rewrite schedule_snoc, <- Hp, Hz. by rewrite !znth_take by lia.
  - f_equal. change (schedule 64 (take 16 W)) with (schedule (Z.to_nat (80 - 16)) (take 16 W)).
    rewrite <- Ht. unfold zlen in HV. by rewrite take_ge by lia.
Qed.

(** A loop over rounds with one function and constant. *)
Lemma round_loop_spec W f k lo hi s :
  0 <= lo <= hi -> hi <= zlen W ->
  (forall t, lo <= t < hi -> round_function t = f /\ round_constant t = k) ->
  round_loop W f k lo hi s = Some (foldl (sha1_round W) s (seqZ lo (hi - lo))).
Proof.
  intros Hlo Hhi Ht. unfold round_loop.
  apply (for_up_pure (fun t s => sha1_round W s t)); [lia|].
  intros t s' Hr. rewrite aget_znth by lia. unfold sha1_round. by destruct (Ht t Hr) as [-> ->].
Qed.

Lemma rounds_80 W s :
  zlen W = 80 ->
  (s ← round_loop W f0 SHA_K0 0 20 s;
   s ← round_loop W f1 SHA_K1 20 40 s;
   s ← round_loop W f2 SHA_K2 40 60 s;
   round_loop W f3 SHA_K3 60 80 s) = Some (foldl (sha1_round W) s (seqZ 0 80)).
Proof.
  intros HW.
  assert (seqZ 0 80 = seqZ 0 (20 - 0) ++ seqZ 20 (40 - 20) ++ seqZ 40 (60 - 40) ++ seqZ 60 (80 - 60)) as ->
    by (vm_compute; reflexivity).
  rewrite !foldl_app.
  rewrite round_loop_spec; [cbn [mbind option_bind]|lia|lia|].
  2: { intros t Ht. unfold round_function, round_constant. by rewrite !(proj2 (Z.ltb_lt t 20)) by lia. }
  rewrite round_loop_spec; [cbn [mbind option_bind]|lia|lia|].
  2: { intros t Ht. unfold round_function, round_constant.
       by rewrite !(proj2 (Z.ltb_ge t 20)), !(proj2 (Z.ltb_lt t 40)) by lia. }
  rewrite round_loop_spec; [cbn [mbind option_bind]|lia|lia|].
  2: { intros t Ht. unfold round_function, round_constant.
       by rewrite !(proj2 (Z.ltb_ge t 20)), !(proj2 (Z.ltb_ge t 40)), !(proj2 (Z.ltb_lt t 60)) by lia. }
  rewrite round_loop_spec; [done|lia|lia|].
  intros t Ht. unfold round_function, round_constant.
  by rewrite !(proj2 (Z.ltb_ge t 20)), !(proj2 (Z.ltb_ge t 40)), !(proj2 (Z.ltb_ge t 60)) by lia.
Qed.

Lemma sha1_rounds_spec W h :
  zlen W = 80 -> zlen h = 5 -> sha1_rounds W h = Some (compress_words h (take 16 W)).
Proof.
  intros HW Hh. unfold sha1_rounds, compress_words. rewrite sha1_expand_spec by done.
  cbn [mbind option_bind].
  assert (zlen (schedule 64 (take 16 W)) = 80) as HV.
  { rewrite zlen_schedule. change 16%nat with (Z.to_nat 16). rewrite zlen_take by lia. lia. }
  generalize dependent (schedule 64 (take 16 W)). intros V HV.
  rewrite !aget_znth by lia. cbn [mbind option_bind].
  pose proof (rounds_80 V (znth h 0, znth h 1, znth h 2, znth h 3, znth h 4) HV) as E.
  destruct (round_loop V f0 _ _ _ _) as [s0|]; [cbn [mbind option_bind] in *|done].
  destruct (round_loop V f1 _ _ _ _) as [s1|]; [cbn [mbind option_bind] in *|done].
  destruct (round_loop V f2 _ _ _ _) as [s2|]; [cbn [mbind option_bind] in *|done].
  rewrite E. cbn [mbind option_bind]. by destruct (foldl _ _ _) as [[[[? ?] ?] ?] ?].
Qed.

(** ** Words *)

Lemma be32_at_Some m i :
  0 <= i -> 4 * i + 3 < zlen m -> be32_at m i = Some (be32 m i).
Proof. intros. unfold be32, be32_at. by rewrite !aget_znth by lia. Qed.

Lemma load_words_spec W m n :
  0 <= n -> 4 * n <= zlen m -> n <= zlen W ->
  exists W', load_words W m n = Some W' /\ zlen W' = zlen W /\
    forall j, 0 <= j < zlen W -> znth W' j = if decide (0 <= j < n) then be32 m j else znth W j.
Proof.
  intros. unfold load_words. apply (for_up_map (fun i _ => be32_at m i) (be32 m)); [lia|lia|].
  intros i y Hi _ _. apply be32_at_Some; lia.
Qed.

Lemma zlen_words b : zlen (words b) = 16.
Proof. done. Qed.

Lemma znth_words b i : 0 <= i < 16 -> znth (words b) i = be32 b i.
Proof.
  intros Hi. unfold words, znth, aget. rewrite decide_True by lia.
  change (map (be32 b) (seqZ 0 16)) with (be32 b <$> seqZ 0 16).
  rewrite list_lookup_fmap, lookup_seqZ_lt by lia. simpl. f_equal. lia.
Qed.

(** The first 16 words of an array are the words of a block when they agree
    entry by entry. *)
Lemma take_words W b :
  zlen W = 80 -> (forall i, 0 <= i < 16 -> znth W i = be32 b i) -> take 16 W = words b.
Proof.
  intros HW Hi. apply znth_ext.
  - rewrite zlen_words. change 16%nat with (Z.to_nat 16). rewrite zlen_take; lia.
  - intros i. change 16%nat with (Z.to_nat 16). rewrite zlen_take, HW by lia. intros Hr.
    rewrite znth_take, znth_words by lia. apply Hi. lia.
Qed.

Lemma srtp_sha1_core_spec W0 m h :
  zlen W0 = 80 -> zlen m = 64 -> zlen h = 5 -> srtp_sha1_core W0 m h = Some (compress h m).
Proof.
  intros HW Hm Hh. unfold srtp_sha1_core.
  destruct (load_words_spec W0 m 16) as (W & -> & Hl & HWi); [lia..|]. simpl.
  rewrite sha1_rounds_spec by lia. unfold compress. do 2 f_equal. apply take_words; [lia|].
  intros i Hi. by rewrite HWi, decide_True by lia.
Qed.

Lemma zlen_compress h b : zlen (compress h b) = 5.
Proof. unfold compress, compress_words. by destruct (foldl _ _ _) as [[[[? ?] ?] ?] ?]. Qed.

(** ** Blocks of a message *)

Lemma zlen_absorb n h l : zlen h = 5 -> zlen (absorb n h l) = 5.
Proof.
  revert h l. induction n as [|n IH]; intros h l Hh; [done|]. cbn [absorb]. apply IH, zlen_compress.
Qed.

Lemma absorb_snoc n h l : absorb (S n) h l = compress (absorb n h l) (take 64 (drop (64 * n) l)).
Proof.
  revert h l. induction n as [|n IH]; intros h l; [done|].
  cbn [absorb] in IH |- *. rewrite IH, drop_drop. replace (64 + 64 * n)%nat with (64 * S n)%nat by lia. reflexivity.
Qed.

Lemma absorb_prefix n h l l' : (64 * n <= List.length l)%nat -> absorb n h (l ++ l') = absorb n h l.
Proof.
  revert h l. induction n as [|n IH]; intros h l Hl; [done|]. cbn [absorb].
  rewrite take_app_le, drop_app_le by lia. apply IH. rewrite length_drop. lia.
Qed.

(** The context holds the hash of the whole blocks of [m] and, in the buffer,
    the octets after them. *)
Definition whole (m : list Z) : nat := Z.to_nat (zlen m / 64).

Lemma whole_rest m : Z.of_nat (List.length m) = 64 * Z.of_nat (whole m) + zlen m mod 64.
Proof. pose proof (zlen_nonneg m). unfold whole, zlen in *. lia. Qed.

Record sha_inv (ctx : srtp_sha1_ctx_t) (m : list Z) : Prop := {
  si_M : zlen (M ctx) = 64;
  si_octets : Forall is_u8 (M ctx);
  si_n : octets_in_buffer ctx = zlen m mod 64;
  si_H : H ctx = absorb (whole m) sha1_iv m;
  si_buf : take (Z.to_nat (octets_in_buffer ctx)) (M ctx) = drop (64 * whole m) m
}.

Lemma blit_buffer b i s :
  0 <= i -> i + zlen s <= zlen b ->
  blit b i s = Some (take (Z.to_nat i) b ++ s ++ drop (Z.to_nat (i + zlen s)) b).
Proof. intros. unfold blit. by rewrite decide_True by lia. Qed.

Lemma slice_front l n : 0 <= n <= zlen l -> slice l 0 n = Some (take (Z.to_nat n) l).
Proof. intros. by rewrite slice_Some by lia. Qed.

(** A block completed by [s] and compressed. *)
Lemma sha_inv_block W0 ctx m s :
  zlen W0 = 80 -> sha_inv ctx m -> Forall is_u8 s -> zlen s = 64 - octets_in_buffer ctx ->
  exists b h, blit (M ctx) (octets_in_buffer ctx) s = Some b /\
    srtp_sha1_core W0 b (H ctx) = Some h /\
    sha_inv {| H := h; M := b; octets_in_buffer := 0; num_bits_in_msg := num_bits_in_msg ctx |} (m ++ s).
Proof.
  intros HW [HM HF Hn HH Hb] Hs Hl. pose proof (zlen_nonneg m) as Hm0.
  rewrite blit_buffer by lia. eexists _, _. split; [done|].
  rewrite (drop_ge (M ctx)) by (unfold zlen in *; lia). rewrite app_nil_r, Hb.
  assert (zlen (drop (64 * whole m) m) = octets_in_buffer ctx) as Hd.
  { rewrite <- Hb, zlen_take by lia. lia. }
  rewrite srtp_sha1_core_spec; [|done|rewrite zlen_app; lia|].
  2: { rewrite HH. by apply zlen_absorb. }
  split; [done|].
  assert (whole (m ++ s) = S (whole m)) as Hw by (unfold whole; rewrite zlen_app; lia).
  assert (64 * whole m <= List.length m)%nat as Hwm by (unfold whole, zlen; lia).
  split; cbn [M H octets_in_buffer num_bits_in_msg].
  - rewrite zlen_app. lia.
  - apply Forall_app. split; [|done]. rewrite <- Hb. by apply Forall_take.
  - rewrite zlen_app. lia.
  - rewrite Hw, absorb_snoc, absorb_prefix, HH by done. f_equal.
    rewrite drop_app_le by done. symmetry. apply take_ge.
    rewrite length_app. unfold zlen in *. lia.
  - rewrite Hw. symmetry. apply drop_ge. rewrite length_app. pose proof (whole_rest m).
    unfold zlen in *. lia.
Qed.

(** Octets that do not fill the buffer. *)
Lemma sha_inv_partial ctx m s :
  sha_inv ctx m -> Forall is_u8 s -> octets_in_buffer ctx + zlen s < 64 ->
  exists b, blit (M ctx) (octets_in_buffer ctx) s = Some b /\
    sha_inv {| H := H ctx; M := b; octets_in_buffer := octets_in_buffer ctx + zlen s;
               num_bits_in_msg := num_bits_in_msg ctx |} (m ++ s).
Proof.
  intros [HM HF Hn HH Hb] Hs Hl. pose proof (zlen_nonneg m) as Hm0. pose proof (zlen_nonneg s) as Hs0.
  rewrite blit_buffer by lia. eexists. split; [done|].
  assert (whole (m ++ s) = whole m) as Hw by (unfold whole; rewrite zlen_app; f_equal; lia).
  assert (64 * whole m <= List.length m)%nat as Hwm by (unfold whole, zlen; lia).
  split; cbn [M H octets_in_buffer num_bits_in_msg].
  - rewrite !zlen_app, zlen_take, zlen_drop by lia. lia.
  - rewrite !Forall_app. split_and!; [by apply Forall_take|done|by apply Forall_drop].
  - rewrite zlen_app. lia.
  - by rewrite Hw, absorb_prefix, HH by done.
  - rewrite Hw, drop_app_le, <- Hb by done. rewrite app_assoc, take_app_length'; [done|].
    rewrite length_app, length_take. unfold zlen in *. lia.
Qed.

Lemma update_loop_spec W0 : forall fuel ctx m msg n,
  zlen W0 = 80 -> sha_inv ctx m -> Forall is_u8 msg -> 0 <= n <= zlen msg -> n < Z.of_nat fuel ->
  exists ctx', update_loop fuel W0 ctx msg n = Some ctx' /\
    sha_inv ctx' (m ++ take (Z.to_nat n) msg) /\ num_bits_in_msg ctx' = num_bits_in_msg ctx.
Proof.
  induction fuel as [|fuel IH]; intros ctx m msg n HW Hi HF Hn Hfuel; [lia|]. cbn [update_loop].
  pose proof (si_n _ _ Hi) as Ho. case_if.
  2: { replace n with 0 by lia. rewrite app_nil_r. eauto. }
  case_if.
  - rewrite slice_front by lia. cbn [mbind option_bind].
    set (k := 64 - octets_in_buffer ctx) in *.
    destruct (sha_inv_block W0 ctx m (take (Z.to_nat k) msg)) as (b & h & -> & Hc & Hi');
      [done|done|by apply Forall_take|rewrite zlen_take by lia; lia|].
    cbn [mbind option_bind]. rewrite Hc. cbn [mbind option_bind].
    destruct (IH _ _ (drop (Z.to_nat k) msg) (n - k) HW Hi') as (ctx' & E & Hi'' & Hb);
      [by apply Forall_drop|rewrite zlen_drop by lia; lia|lia|].
    exists ctx'. split; [done|]. split; [|done].
    rewrite <- app_assoc in Hi''. replace (Z.to_nat (n - k)) with (Z.to_nat n - Z.to_nat k)%nat in Hi'' by lia.
    replace (take (Z.to_nat k) msg ++ take (Z.to_nat n - Z.to_nat k) (drop (Z.to_nat k) msg))
      with (take (Z.to_nat n) msg) in Hi''; [done|].
    rewrite <- (take_drop (Z.to_nat k) (take (Z.to_nat n) msg)).
    rewrite take_take, skipn_firstn_comm. do 2 f_equal. lia.
  - rewrite slice_front by lia. cbn [mbind option_bind].
    assert (zlen (take (Z.to_nat n) msg) = n) as Hz by (rewrite zlen_take by lia; lia).
    destruct (sha_inv_partial ctx m (take (Z.to_nat n) msg)) as (b & -> & Hi');
      [done|by apply Forall_take|lia|]. rewrite Hz in Hi'. cbn [mbind option_bind].
    destruct (IH _ _ (drop (Z.to_nat n) msg) 0 HW Hi') as (ctx' & E & Hi'' & Hb);
      [by apply Forall_drop|pose proof (zlen_nonneg (drop (Z.to_nat n) msg)); lia|lia|].
    exists ctx'. rewrite app_nil_r in Hi''. done.
Qed.

(** A context that has hashed [m]. *)
Definition sha_ok (ctx : srtp_sha1_ctx_t) (m : list Z) : Prop :=
  sha_inv ctx m /\ num_bits_in_msg ctx = u32 (8 * zlen m).

Lemma srtp_sha1_init_ok ctx :
  zlen (M ctx) = 64 -> Forall is_u8 (M ctx) -> sha_ok (srtp_sha1_init ctx) [].
Proof. intros. split; [|done]. split; try done. Qed.

Lemma srtp_sha1_update_ok W0 ctx m msg n :
  zlen W0 = 80 -> sha_ok ctx m -> Forall is_u8 msg -> 0 <= n <= zlen msg -> n < 2 ^ 28 ->
  exists ctx', srtp_sha1_update W0 ctx msg n = Some ctx' /\ sha_ok ctx' (m ++ take (Z.to_nat n) msg).
Proof.
  intros HW [Hi Hb] HF Hn Hmax. unfold srtp_sha1_update, sint. rewrite decide_True by lia.
  cbn [mbind option_bind].
  destruct (update_loop_spec W0 (S (Z.to_nat n))
    {| H := H ctx; M := M ctx; octets_in_buffer := octets_in_buffer ctx;
       num_bits_in_msg := u32 (num_bits_in_msg ctx + n * 8) |} m msg n) as (ctx' & E & Hi' & Hb');
    [done|by destruct Hi|done|done|lia|].
  exists ctx'. split; [done|]. split; [done|]. rewrite Hb'. simpl. rewrite Hb, wrap_add_l.
  rewrite zlen_app, zlen_take by lia. f_equal. lia.
Qed.

(** ** Padding *)

(** The value of four octets, most significant first. *)
Definition v4 (b0 b1 b2 b3 : Z) : Z := b3 + b2 * 2 ^ 8 + b1 * 2 ^ 16 + b0 * 2 ^ 24.

Lemma be32_v4 m i :
  Forall is_u8 m -> 0 <= i -> 4 * i + 3 < zlen m ->
  be32 m i = v4 (znth m (4 * i)) (znth m (4 * i + 1)) (znth m (4 * i + 2)) (znth m (4 * i + 3)).
Proof.
  intros HF Hi Hl. unfold be32, be32_at. rewrite !aget_znth by lia. simpl.
  assert (forall j, 0 <= j < zlen m -> is_u8 (znth m j)) as Hu by (intros; by apply znth_Forall).
  pose proof (Hu (4 * i)). pose proof (Hu (4 * i + 1)). pose proof (Hu (4 * i + 2)).
  pose proof (Hu (4 * i + 3)).
  assert (forall a b c d : Z, a .| b .| c .| d = d .| c .| b .| a) as ->.
  { intros a b c d. bits k Hk. rewrite !Z.lor_spec. btauto. }
  unfold v4. rewrite (lor_shiftl_add 8), (lor_shiftl_add 16), (lor_shiftl_add 24);
    unfold fits in *; lia.
Qed.

Lemma land_high x j : is_u32 x -> 0 <= j <= 32 -> x & (Z.ones (32 - j) << j) = (x / 2 ^ j) << j.
Proof.
  intros Hx Hj. rewrite <- Z.shiftr_div_pow2 by lia. bits k Hk.
  rewrite Z.land_spec. destruct (decide (k < j)).
  - rewrite !Z.shiftl_spec_low by lia. by rewrite andb_false_r.
  - rewrite !Z.shiftl_spec, Z.shiftr_spec by lia. replace (k - j + j) with k by lia.
    destruct (decide (k < 32)).
    + rewrite Z.ones_spec_low by lia. by rewrite andb_true_r.
    + rewrite (fits_testbit 32 x) by (done || lia). done.
Qed.

(** Replacing the low octets of a word: keep the high ones, or in the new. *)
Lemma land_high_lor x j c :
  is_u32 x -> 0 <= j <= 32 -> fits j c ->
  (x & (Z.ones (32 - j) << j)) .| c = c + x / 2 ^ j * 2 ^ j.
Proof. intros. rewrite land_high, Z.lor_comm, lor_shiftl_add by (done || lia). done. Qed.

(** The word with the terminating bit, [tail] octets of message before it. *)
Definition end_word (m : list Z) (i tail : Z) : Z :=
  let b k := if k <? tail then znth m (4 * i + k) else if k =? tail then 0x80 else 0 in
  v4 (b 0) (b 1) (b 2) (b 3).

Lemma end_word_1 m i : end_word m i 1 = v4 (znth m (4 * i)) 0x80 0 0.
Proof. unfold end_word. by rewrite Z.add_0_r. Qed.

Lemma end_word_2 m i : end_word m i 2 = v4 (znth m (4 * i)) (znth m (4 * i + 1)) 0x80 0.
Proof. unfold end_word. by rewrite Z.add_0_r. Qed.

Lemma end_word_3 m i :
  end_word m i 3 = v4 (znth m (4 * i)) (znth m (4 * i + 1)) (znth m (4 * i + 2)) 0x80.
Proof. unfold end_word. by rewrite Z.add_0_r. Qed.

Lemma set_word_then_zero W i v :
  zlen W = 80 -> 0 <= i < 16 ->
  exists W', (W ← aset W i v; aset W (i + 1) 0) = Some W' /\ zlen W' = 80 /\
    forall j, 0 <= j < 80 -> znth W' j =
      if decide (j = i) then v else if decide (j = i + 1) then 0 else znth W j.
Proof.
  intros HW Hi. rewrite aset_Some by lia. cbn [mbind option_bind].
  rewrite aset_Some by (rewrite zlen_insert; lia). eexists. split; [done|].
  rewrite !zlen_insert. split; [done|]. intros j Hj.
  rewrite !znth_insert by (rewrite ?zlen_insert; lia). repeat case_decide; (done || lia).
Qed.

Lemma terminate_spec W m n :
  zlen W = 80 -> zlen m = 64 -> Forall is_u8 m -> 0 <= n < 64 ->
  exists W', terminate W m ((n + 3) / 4) (Z.rem n 4) = Some W' /\ zlen W' = 80 /\
    forall j, 0 <= j < 80 -> znth W' j =
      if decide (j = n / 4) then end_word m (n / 4) (n mod 4)
      else if decide (j = (n + 3) / 4) then 0 else znth W j.
Proof.
  intros HW Hm HF Hn. unfold terminate. rewrite Z.rem_mod_nonneg by lia.
  assert (n mod 4 = 0 \/ n mod 4 = 1 \/ n mod 4 = 2 \/ n mod 4 = 3) as Hc by lia.
  assert (forall i, 0 <= i < 16 -> let w := be32 m i in is_u32 w /\
    w / 2 ^ 8 = znth m (4 * i + 2) + znth m (4 * i + 1) * 2 ^ 8 + znth m (4 * i) * 2 ^ 16 /\
    w / 2 ^ 16 = znth m (4 * i + 1) + znth m (4 * i) * 2 ^ 8 /\ w / 2 ^ 24 = znth m (4 * i)) as Hw.
  { intros i Hi. cbv zeta. rewrite be32_v4 by (done || lia). unfold v4.
    pose proof (znth_Forall is_u8 m (4 * i) HF). pose proof (znth_Forall is_u8 m (4 * i + 1) HF).
    pose proof (znth_Forall is_u8 m (4 * i + 2) HF). pose proof (znth_Forall is_u8 m (4 * i + 3) HF).
    unfold fits in *. split_and!; lia. }
  destruct Hc as [Ht | [Ht | [Ht | Ht]]]; rewrite Ht; cbn [Z.eqb Pos.eqb];
    [replace ((n + 3) / 4) with (n / 4) by lia | replace ((n + 3) / 4) with (n / 4 + 1) by lia ..].
  1: { change (0 =? 3) with false. change (0 =? 2) with false. change (0 =? 1) with false.
       change (0 =? 0) with true. cbn iota. rewrite aset_Some by lia. eexists. split; [done|].
       rewrite zlen_insert. split; [done|]. intros j Hj. rewrite znth_insert by lia.
       repeat case_decide; try lia; done. }
  all: replace (n / 4 + 1 - 1) with (n / 4) by lia; rewrite be32_at_Some by lia;
    destruct (Hw (n / 4)) as (Hu & H8 & H16 & H24); [lia|].
  - change (1 =? 3) with false. change (1 =? 2) with false. change (1 =? 1) with true. cbn iota.
    cbn [mbind option_bind]. change 0xff000000 with (Z.ones (32 - 24) << 24).
    rewrite land_high_lor, H24 by (done || lia).
    replace (end_word m (n / 4) 1) with (0x800000 + znth m (4 * (n / 4)) * 2 ^ 24)
      by (rewrite ?end_word_1, ?end_word_2, ?end_word_3; unfold v4; lia).
    apply set_word_then_zero; lia.
  - change (2 =? 3) with false. change (2 =? 2) with true. cbn iota.
    cbn [mbind option_bind]. change 0xffff0000 with (Z.ones (32 - 16) << 16).
    rewrite land_high_lor, H16 by (done || lia).
    replace (end_word m (n / 4) 2)
      with (0x8000 + (znth m (4 * (n / 4) + 1) + znth m (4 * (n / 4)) * 2 ^ 8) * 2 ^ 16)
      by (rewrite ?end_word_1, ?end_word_2, ?end_word_3; unfold v4; lia).
    apply set_word_then_zero; lia.
  - change (3 =? 3) with true. cbn iota.
    cbn [mbind option_bind]. change 0xffffff00 with (Z.ones (32 - 8) << 8).
    rewrite land_high_lor, H8 by (done || lia).
    replace (end_word m (n / 4) 3)
      with (0x80 + (znth m (4 * (n / 4) + 2) + znth m (4 * (n / 4) + 1) * 2 ^ 8
                    + znth m (4 * (n / 4)) * 2 ^ 16) * 2 ^ 8)
      by (rewrite ?end_word_1, ?end_word_2, ?end_word_3; unfold v4; lia).
    apply set_word_then_zero; lia.
Qed.

(** The last block: message, terminator, zeros and, if it fits, the length. *)
Lemma last_block_spec W0 ctx :
  zlen W0 = 80 -> zlen (M ctx) = 64 -> Forall is_u8 (M ctx) -> 0 <= octets_in_buffer ctx < 64 ->
  exists W, last_block W0 ctx = Some W /\ zlen W = 80 /\
    let n := octets_in_buffer ctx in
    forall j, 0 <= j < 16 -> znth W j =
      if decide (j < n / 4) then be32 (M ctx) j
      else if decide (j = n / 4) then end_word (M ctx) (n / 4) (n mod 4)
      else if decide (j = 15 /\ n < 56) then num_bits_in_msg ctx else 0.
Proof.
  intros HW HM HF Hn. unfold last_block. set (n := octets_in_buffer ctx) in *.
  destruct (load_words_spec W0 (M ctx) ((n + 3) / 4)) as (W1 & -> & Hl1 & A1); [lia..|].
  cbn [mbind option_bind].
  destruct (terminate_spec W1 (M ctx) n) as (W2 & -> & Hl2 & A2); [lia|done|done|lia|].
  cbn [mbind option_bind].
  assert (exists W3, for_up ((n + 3) / 4 + 1) 15 (fun i W => aset W i 0) W2 = Some W3 /\ zlen W3 = 80 /\
    forall j, 0 <= j < 80 -> znth W3 j =
      if decide ((n + 3) / 4 + 1 <= j < 15) then 0 else znth W2 j) as (W3 & -> & Hl3 & A3).
  { destruct (decide ((n + 3) / 4 + 1 <= 15)).
    - destruct (for_up_fill 0 ((n + 3) / 4 + 1) 15 W2) as (W3 & -> & Hl3 & A3); [lia..|].
      exists W3. split_and!; [done|lia|]. intros j Hj. by rewrite A3 by lia.
    - exists W2. rewrite for_up_nil by lia. split_and!; [done..|]. intros j Hj. by rewrite decide_False by lia. }
  cbn [mbind option_bind].
  assert (forall j, 0 <= j < 16 -> j <> 15 \/ 60 <= n -> znth W3 j =
    if decide (j < n / 4) then be32 (M ctx) j
    else if decide (j = n / 4) then end_word (M ctx) (n / 4) (n mod 4) else 0) as A.
  { intros j Hj Hj'. rewrite A3, A2, A1 by lia. repeat case_decide; (done || lia). }
  case_if; [|case_if].
  - rewrite aset_Some by lia. eexists. split; [done|]. rewrite zlen_insert. split; [done|].
    intros j Hj. rewrite znth_insert by lia. case_decide as E; [|rewrite A by lia];
      repeat case_decide; (done || lia).
  - rewrite aset_Some by lia. eexists. split; [done|]. rewrite zlen_insert. split; [done|].
    intros j Hj. rewrite znth_insert by lia. case_decide as E; [|rewrite A by lia];
      repeat case_decide; (done || lia).
  - exists W3. split_and!; [done..|]. intros j Hj. rewrite A by lia. repeat case_decide; (done || lia).
Qed.

Lemma length_block_spec W ctx :
  zlen W = 80 ->
  exists W', length_block W ctx = Some W' /\ zlen W' = 80 /\
    forall j, 0 <= j < 16 -> znth W' j = if decide (j = 15) then num_bits_in_msg ctx else 0.
Proof.
  intros HW. unfold length_block.
  destruct (for_up_fill 0 0 15 W) as (W1 & -> & Hl & A); [lia..|]. cbn [mbind option_bind].
  rewrite aset_Some by lia. eexists. split; [done|]. rewrite zlen_insert. split; [lia|].
  intros j Hj. rewrite znth_insert by lia. repeat case_decide; try lia; try done.
  rewrite A by lia. by rewrite decide_True by lia.
Qed.

Lemma be32_octets_u8 w : Forall is_u8 (be32_octets w).
Proof. repeat constructor; apply wrap_fits; lia. Qed.

Lemma v4_octets w : is_u32 w ->
  v4 (znth (be32_octets w) 0) (znth (be32_octets w) 1) (znth (be32_octets w) 2)
     (znth (be32_octets w) 3) = w.
Proof.
  intros Hw. change (v4 (u8 (w >> 24)) (u8 (w >> 16)) (u8 (w >> 8)) (u8 w) = w).
  rewrite !Z.shiftr_div_pow2 by lia. unfold v4, wrap, fits in *. lia.
Qed.

(** What follows the whole blocks of [m] in its padding, when the length in
    bits fits 32 bits. *)
Definition zeros (m : list Z) : Z := (55 - zlen m) mod 64.

Definition pad_tail (m : list Z) : list Z :=
  drop (64 * whole m) m ++ [0x80] ++ replicate (Z.to_nat (zeros m + 4)) 0 ++ be32_octets (8 * zlen m).

Lemma drop_pad m : 8 * zlen m < 2 ^ 32 -> drop (64 * whole m) (pad m) = pad_tail m.
Proof.
  intros Hb. pose proof (whole_rest m). pose proof (zlen_nonneg m). unfold pad, pad_tail.
  rewrite drop_app_le by lia. do 2 f_equal. unfold zeros.
  rewrite Z.div_small by lia. change (be32_octets 0) with (replicate 4 0).
  rewrite app_assoc, <- replicate_add. do 2 f_equal. lia.
Qed.

Lemma zlen_pad_tail m : zlen (pad_tail m) = zlen m mod 64 + zeros m + 9.
Proof.
  pose proof (whole_rest m) as Hw. unfold pad_tail, zeros. rewrite !zlen_app.
  change (zlen [128]) with 1. change (zlen (be32_octets _)) with 4.
  assert (zlen (drop (64 * whole m) m) = zlen m mod 64) as -> by (unfold zlen in *; rewrite length_drop; lia).
  rewrite zlen_replicate. lia.
Qed.

Lemma znth_pad_tail m j :
  0 <= j < zlen (pad_tail m) ->
  let n := zlen m mod 64 in
  znth (pad_tail m) j =
    if decide (j < n) then znth (drop (64 * whole m) m) j
    else if decide (j = n) then 0x80
    else if decide (j < n + zeros m + 5) then 0
    else znth (be32_octets (8 * zlen m)) (j - (n + zeros m + 5)).
Proof.
  intros Hj n. rewrite zlen_pad_tail in Hj. pose proof (whole_rest m) as Hw.
  assert (zlen (drop (64 * whole m) m) = n) as Hd by (unfold zlen in *; rewrite length_drop; lia).
  unfold pad_tail. rewrite znth_app, Hd by lia. case_decide; [done|].
  rewrite znth_app by lia. change (zlen [128]) with 1. repeat case_decide; try lia.
  - by replace (j - n) with 0 by lia.
  - rewrite znth_app, zlen_replicate by lia.
    rewrite decide_True by (unfold zeros in *; lia). apply znth_replicate. unfold zeros in *. lia.
  - rewrite znth_app, zlen_replicate by lia.
    rewrite decide_False by (unfold zeros in *; lia). f_equal. unfold zeros in *. lia.
Qed.

Lemma pad_tail_u8 m : Forall is_u8 m -> Forall is_u8 (pad_tail m).
Proof.
  intros HF. unfold pad_tail. rewrite !Forall_app. split_and!; [by apply Forall_drop| | |apply be32_octets_u8].
  - by repeat constructor.
  - by apply Forall_replicate.
Qed.

(** The words of the tail, from the buffer of a context that holds [m]. *)
Lemma pad_tail_word ctx m i :
  sha_inv ctx m -> Forall is_u8 m -> 8 * zlen m < 2 ^ 32 -> 0 <= i -> 4 * i + 3 < zlen (pad_tail m) ->
  let n := octets_in_buffer ctx in
  be32 (pad_tail m) i =
    if decide (i < n / 4) then be32 (M ctx) i
    else if decide (i = n / 4) then end_word (M ctx) (n / 4) (n mod 4)
    else if decide (4 * i < n + zeros m + 5) then 0 else u32 (8 * zlen m).
Proof.
  intros [HM HF Hn _ Hb] Hm Hbits Hi Hl n. pose proof (zlen_nonneg m) as Hm0.
  rewrite be32_v4 by (try done; by apply pad_tail_u8). rewrite !znth_pad_tail by lia. cbv zeta.
  rewrite <- Hn. fold n.
  assert (forall j, 0 <= j < n -> znth (drop (64 * whole m) m) j = znth (M ctx) j) as Ht.
  { intros j Hj. rewrite <- Hb. apply znth_take. fold n. lia. }
  rewrite zlen_pad_tail in Hl. rewrite <- Hn in Hl. fold n in Hl.
  assert (n + zeros m + 5 = 60 \/ n + zeros m + 5 = 124) as Hz by (unfold zeros in *; lia).
  assert (0 <= zeros m) by (unfold zeros; lia).
  destruct (decide (i < n / 4)); [|destruct (decide (i = n / 4)) as [->|Hne]].
  - rewrite !decide_True, !Ht by lia. by rewrite be32_v4 by (done || lia).
  - assert (forall k, 0 <= k < 4 ->
      (if decide (4 * (n / 4) + k < n) then znth (drop (64 * whole m) m) (4 * (n / 4) + k)
       else if decide (4 * (n / 4) + k = n) then 128
       else if decide (4 * (n / 4) + k < n + zeros m + 5) then 0
       else znth (be32_octets (8 * zlen m)) (4 * (n / 4) + k - (n + zeros m + 5))) =
      if k <? n mod 4 then znth (M ctx) (4 * (n / 4) + k) else if k =? n mod 4 then 0x80 else 0) as Hb'.
    { intros k Hk. destruct (k <? n mod 4) eqn:E1; [|destruct (k =? n mod 4) eqn:E2]; bool_to_prop;
        repeat case_decide; try lia; rewrite ?Ht by lia; done. }
    unfold end_word. rewrite <- !Hb' by lia. by rewrite !Z.add_0_r.
  - rewrite !(decide_False (P := _ < n)), !(decide_False (P := _ = n)) by lia.
    destruct (decide (4 * i < n + zeros m + 5)).
    + rewrite !(decide_True (P := _ < n + zeros m + 5)) by lia. done.
    + rewrite !(decide_False (P := _ < n + zeros m + 5)) by lia.
      rewrite wrap_id by (unfold fits; lia). etrans; [|apply (v4_octets (8 * zlen m)); unfold fits; lia].
      f_equal; f_equal; lia.
Qed.

Lemma be32_take l i : 0 <= i < 16 -> be32 (take 64 l) i = be32 l i.
Proof.
  intros Hi. unfold be32, be32_at, aget. rewrite !decide_True by lia.
  by rewrite !lookup_take_lt by lia.
Qed.

Lemma be32_drop l i : 0 <= i -> be32 (drop 64 l) i = be32 l (16 + i).
Proof.
  intros Hi. unfold be32, be32_at. change 64%nat with (Z.to_nat 64). rewrite !aget_drop by lia.
  replace (4 * (16 + i)) with (64 + 4 * i) by lia. by rewrite <- !Z.add_assoc.
Qed.

Lemma zlen_pad m : 8 * zlen m < 2 ^ 32 -> zlen (pad m) = 64 * Z.of_nat (whole m) + zlen (pad_tail m).
Proof.
  intros Hb. pose proof (whole_rest m). rewrite <- drop_pad by done. unfold zlen.
  rewrite length_drop. unfold pad. rewrite !length_app. unfold zlen in *. lia.
Qed.

Lemma absorb_pad m k :
  absorb (whole m + S k) sha1_iv (pad m) =
  compress (absorb (whole m + k) sha1_iv (pad m)) (take 64 (drop (64 * k) (drop (64 * whole m) (pad m)))).
Proof.
  rewrite Nat.add_succ_r, absorb_snoc, drop_drop.
  by replace (64 * whole m + 64 * k)%nat with (64 * (whole m + k))%nat by lia.
Qed.

Lemma absorb_whole m : absorb (whole m + 0) sha1_iv (pad m) = absorb (whole m) sha1_iv m.
Proof.
  rewrite Nat.add_0_r. unfold pad. apply absorb_prefix. pose proof (whole_rest m). lia.
Qed.

Lemma octets_of_hash (h : list Z) : zlen h = 5 ->
  exists h0 h1 h2 h3 h4, h = [h0; h1; h2; h3; h4].
Proof.
  intros Hl. destruct h as [|h0 [|h1 [|h2 [|h3 [|h4 [|h5 h]]]]]]; unfold zlen in Hl; simpl in Hl; try lia.
  by exists h0, h1, h2, h3, h4.
Qed.

(** The hash state after the last block or blocks. *)
Lemma final_state W0 W1 ctx m :
  zlen W0 = 80 -> zlen W1 = 80 -> sha_ok ctx m -> Forall is_u8 m -> 8 * zlen m < 2 ^ 32 ->
  (W ← last_block W0 ctx;
   h ← sha1_rounds W (H ctx);
   if 56 <=? octets_in_buffer ctx then W ← length_block W1 ctx; sha1_rounds W h else Some h) =
  Some (absorb (Z.to_nat (zlen (pad m) / 64)) sha1_iv (pad m)).
Proof.
  intros HW0 HW1 [Hi Hb] HF Hbits. pose proof Hi as [HM HMF Hn HH _].
  destruct (last_block_spec W0 ctx) as (W & -> & Hl & A); [done|done|done|lia|].
  cbn [mbind option_bind].
  assert (zlen (H ctx) = 5) as H5 by (rewrite HH; by apply zlen_absorb).
  rewrite sha1_rounds_spec by done. cbn [mbind option_bind].
  pose proof (zlen_pad_tail m) as Ht. pose proof (zlen_pad m Hbits) as Hp.
  pose proof (pad_tail_word ctx m) as Hword. cbv zeta in *. rewrite <- Hn in Ht. set (n := octets_in_buffer ctx) in *.
  assert (n + zeros m + 5 = (if n <? 56 then 60 else 124)) as Hz
    by (unfold zeros; case_if; lia).
  assert (take 16 W = words (take 64 (drop (64 * 0) (drop (64 * whole m) (pad m))))) as E1.
  { rewrite Nat.mul_0_r, drop_0, drop_pad by done. apply take_words; [done|]. intros i Hr.
    rewrite be32_take, A, Hword by (done || (case_if; lia)). rewrite Hb.
    destruct (n <? 56) eqn:E; bool_to_prop; repeat case_decide; (done || lia). }
  assert (compress_words (H ctx) (take 16 W) = absorb (whole m + 1) sha1_iv (pad m)) as ->.
  { rewrite E1, absorb_pad, absorb_whole, <- HH. unfold compress. reflexivity. }
  destruct (56 <=? n) eqn:E; bool_to_prop.
  - rewrite (proj2 (Z.ltb_ge n 56)) in Hz by lia.
    destruct (length_block_spec W1 ctx HW1) as (W' & -> & Hl' & A'). cbn [mbind option_bind].
    rewrite sha1_rounds_spec by (try done; by apply zlen_absorb). f_equal.
    replace (Z.to_nat (zlen (pad m) / 64)) with (whole m + 2)%nat by lia.
    rewrite (absorb_pad m 1). unfold compress. f_equal. apply take_words; [done|]. intros i Hr.
    rewrite drop_pad by done. change (64 * 1)%nat with 64%nat.
    rewrite be32_take, be32_drop, A', Hword by (done || lia). rewrite Hb.
    repeat case_decide; (done || lia).
  - rewrite (proj2 (Z.ltb_lt n 56)) in Hz by lia.
    by replace (Z.to_nat (zlen (pad m) / 64)) with (whole m + 1)%nat by lia.
Qed.

(** ** The code's blocks are those of the standard *)

Lemma octets_eq w : be32_octets w = Fips180.octets w.
Proof.
  unfold be32_octets, Fips180.octets, wrap. cbn [map]. rewrite !Z.shiftr_div_pow2 by lia.
  change (256 ^ 3) with (2 ^ 24). change (256 ^ 2) with (2 ^ 16). change (256 ^ 1) with (2 ^ 8). change (256 ^ 0) with 1.
  rewrite Z.div_1_r. done.
Qed.

Lemma complement_eq x : Fips180.complement x = u32 (Z.lnot x).
Proof. unfold Fips180.complement, wrap, Z.lnot. lia. Qed.

Lemma ch_eq x y z : f0 x y z = Fips180.Ch x y z.
Proof.
  unfold f0, Fips180.Ch. rewrite complement_eq. bits k Hk. rewrite Z.lor_spec, Z.lxor_spec, !Z.land_spec.
  assert (Z.testbit x k && Z.testbit (u32 (Z.lnot x)) k = false) as Hx.
  { unfold wrap. destruct (decide (k < 32)); [rewrite Z.mod_pow2_bits_low, Z.lnot_spec by lia; btauto|].
    rewrite Z.mod_pow2_bits_high by lia. btauto. }
  destruct (Z.testbit x k), (Z.testbit (u32 (Z.lnot x)) k), (Z.testbit y k), (Z.testbit z k); try done.
Qed.

Lemma maj_eq x y z : f2 x y z = Fips180.Maj x y z.
Proof. unfold f2, Fips180.Maj. bits k Hk. rewrite !Z.lor_spec, !Z.lxor_spec, !Z.land_spec. btauto. Qed.

Lemma round_function_eq t x y z : round_function t x y z = Fips180.f t x y z.
Proof. unfold round_function, Fips180.f. repeat case_if; [apply ch_eq|done|apply maj_eq|done]. Qed.

Lemma round_constant_eq t : round_constant t = Fips180.K t.
Proof. unfold round_constant, Fips180.K. repeat case_if; reflexivity. Qed.

Lemma rotl_eq x : S1 x = Fips180.ROTL 1 x /\ S5 x = Fips180.ROTL 5 x /\ S30 x = Fips180.ROTL 30 x.
Proof. done. Qed.

Lemma sha1_round_eq W s t : sha1_round W s t = Fips180.round W s t.
Proof.
  destruct s as [[[[a b] c] d] e]. unfold sha1_round, sha1_step, Fips180.round, Fips180.add.
  rewrite round_function_eq, round_constant_eq. destruct (rotl_eq a) as (_ & -> & _), (rotl_eq b) as (_ & _ & ->).
  do 4 f_equal. unfold wrap. rewrite !Zplus_mod_idemp_l, <- (Z.add_assoc (_ mod _)), Zplus_mod_idemp_l. f_equal. lia.
Qed.

Lemma word_eq b i : Forall is_u8 b -> 64 <= zlen b -> 0 <= i < 16 -> be32 b i = Fips180.word (take 4 (drop (4 * Z.to_nat i) b)).
Proof.
  intros HF Hl Hi. rewrite be32_v4 by (done || lia).
  assert (zlen (take 4 (drop (4 * Z.to_nat i) b)) = 4) as Hz.
  { unfold zlen in *. rewrite length_take, length_drop. lia. }
  assert (forall k, 0 <= k < 4 -> znth b (4 * i + k) = znth (take 4 (drop (4 * Z.to_nat i) b)) k) as Hn.
  { intros k Hk. replace (4 * Z.to_nat i)%nat with (Z.to_nat (4 * i)) by lia. change 4%nat with (Z.to_nat 4).
    rewrite znth_take, znth_drop by (rewrite ?zlen_drop; lia). done. }
  rewrite <- (Z.add_0_r (4 * i)) at 1. rewrite !Hn by lia. destruct (take 4 _) as [|b0 [|b1 [|b2 [|b3 [|b4 l]]]]]; try (unfold zlen in Hz; simpl in Hz; lia).
  change (v4 b0 b1 b2 b3 = Fips180.word [b0; b1; b2; b3]). unfold v4, Fips180.word. cbn [fold_left]. lia.
Qed.

Lemma words_eq b : Forall is_u8 b -> 64 <= zlen b -> words b = Fips180.W 0 b.
Proof.
  intros HF Hl. unfold words, seqZ. cbn [Fips180.W]. change (Z.to_nat 16) with 16%nat. rewrite <- list_fmap_compose.
  change (fmap (M := list)) with (@map nat Z). apply map_ext_in. intros i Hi%in_seq. simpl. rewrite word_eq by (done || lia). do 3 f_equal. lia.
Qed.

Lemma schedule_eq n b : Forall is_u8 b -> 64 <= zlen b -> schedule n (words b) = Fips180.W n b.
Proof.
  intros HF Hl. induction n as [|n IH]; [by apply words_eq|]. rewrite schedule_snoc, IH. cbn [Fips180.W].
  assert (zlen (Fips180.W n b) = 16 + Z.of_nat n) as ->; [|done]. by rewrite <- IH, zlen_schedule.
Qed.

Lemma compress_eq h b : Forall is_u8 b -> 64 <= zlen b -> compress h b = Fips180.next_hash h b.
Proof.
  intros HF Hl. unfold compress, compress_words, Fips180.next_hash. rewrite schedule_eq by done. generalize (Fips180.W 64 b) as W. intros W.
  assert (forall l s, foldl (sha1_round W) s l = fold_left (Fips180.round W) l s) as ->.
  { induction l as [|t l IH]; intros s; [done|]. simpl. by rewrite sha1_round_eq. }
  destruct (fold_left _ _ _) as [[[[? ?] ?] ?] ?]. unfold Fips180.add, wrap. by rewrite !(Z.add_comm (znth h _)).
Qed.

Lemma absorb_eq n : forall h l, Forall is_u8 l -> 64 * Z.of_nat n <= zlen l -> absorb n h l = Fips180.hash_blocks n h l.
Proof.
  induction n as [|n IH]; intros h l HF Hl; [done|]. cbn [absorb Fips180.hash_blocks]. change 64%nat with (Z.to_nat 64).
  rewrite compress_eq by (by apply Forall_take || (rewrite zlen_take; lia)).
  apply IH; [by apply Forall_drop|rewrite zlen_drop; lia].
Qed.

Lemma pad_eq m : pad m = Fips180.padded m.
Proof. unfold pad, Fips180.padded. by rewrite !octets_eq. Qed.

Lemma sha1_blocks_eq m : Forall is_u8 m -> sha1_blocks m = sha1_spec m.
Proof.
  intros HF. unfold sha1_blocks, sha1_spec, Fips180.digest. rewrite <- pad_eq. rewrite absorb_eq.
  - change Fips180.H0 with sha1_iv. f_equal. apply map_ext. apply octets_eq.
  - unfold pad. rewrite !Forall_app. split_and!; try apply be32_octets_u8; [done|by repeat constructor|by apply Forall_replicate].
  - pose proof (zlen_nonneg (pad m)). lia.
Qed.

(** The digest is twenty octets. *)
Lemma sha1_spec_octets m : zlen (sha1_spec m) = 20 /\ Forall is_u8 (sha1_spec m).
Proof.
  unfold sha1_spec, Fips180.digest.
  assert (forall n h l, zlen h = 5 -> zlen (Fips180.hash_blocks n h l) = 5) as H5.
  { induction n as [|n IH]; intros h l Hh; [done|]. cbn [Fips180.hash_blocks]. apply IH.
    unfold Fips180.next_hash. by destruct (fold_left _ _ _) as [[[[? ?] ?] ?] ?]. }
  destruct (octets_of_hash (Fips180.hash_blocks (Z.to_nat (zlen (Fips180.padded m) / 64)) Fips180.H0 (Fips180.padded m)))
    as (h0 & h1 & h2 & h3 & h4 & ->); [by apply H5|].
  split; [done|]. cbn [map concat]. rewrite <- !octets_eq, !Forall_app. split_and!; try apply be32_octets_u8. done.
Qed.

Lemma srtp_sha1_final_ok W0 W1 ctx m :
  zlen W0 = 80 -> zlen W1 = 80 -> sha_ok ctx m -> Forall is_u8 m -> 8 * zlen m < 2 ^ 32 ->
  exists ctx', srtp_sha1_final W0 W1 ctx = Some (ctx', sha1_spec m) /\ M ctx' = M ctx.
Proof.
  intros HW0 HW1 Hok HF Hbits. pose proof (final_state W0 W1 ctx m HW0 HW1 Hok HF Hbits) as E.
  rewrite <- sha1_blocks_eq by done. unfold srtp_sha1_final, sha1_blocks.
  destruct (last_block W0 ctx) as [W|]; [cbn [mbind option_bind] in *|done].
  destruct (sha1_rounds W (H ctx)) as [h|]; [cbn [mbind option_bind] in *|done].
  rewrite E. cbn [mbind option_bind].
  destruct (octets_of_hash (absorb (Z.to_nat (zlen (pad m) / 64)) sha1_iv (pad m)))
    as (h0 & h1 & h2 & h3 & h4 & ->); [by apply zlen_absorb|].
  eexists. split; [done|]. done.
Qed.

(** ** Properties *)

(** Hashing a list of chunks, one [srtp_sha1_update] each. *)
Definition update_all (W0 : list Z) (ctx : srtp_sha1_ctx_t) (chunks : list (list Z))
    : option srtp_sha1_ctx_t :=
  foldl (fun c chunk => c ← c; srtp_sha1_update W0 c chunk (zlen chunk)) (Some ctx) chunks.

Lemma update_all_ok W0 chunks : forall ctx m,
  zlen W0 = 80 -> sha_ok ctx m -> Forall (Forall is_u8) chunks ->
  Forall (fun c => zlen c < 2 ^ 28) chunks ->
  exists ctx', update_all W0 ctx chunks = Some ctx' /\ sha_ok ctx' (m ++ concat chunks).
Proof.
  unfold update_all. induction chunks as [|c chunks IH]; intros ctx m HW Hok HF Hl; simpl.
  - exists ctx. by rewrite app_nil_r.
  - apply Forall_cons_iff in HF as [Hc HF], Hl as [Hlc Hl]. pose proof (zlen_nonneg c).
    destruct (srtp_sha1_update_ok W0 ctx m c (zlen c)) as (ctx1 & -> & Hok1); [done|done|done|lia|done|].
    rewrite take_ge in Hok1 by (unfold zlen; lia).
    destruct (IH ctx1 (m ++ c)) as (ctx' & E & Hok'); [done..|]. exists ctx'.
    by rewrite app_assoc.
Qed.

(** C28: [srtp_sha1] computes SHA-1.  Initialising a context, hashing a message
    in any number of chunks of any sizes and finalising gives the digest that
    FIPS 180 defines for the whole message (up to 2^32 - 1 bits), whatever the
    uninitialised buffers contained. *)
Theorem sha1_streaming_correct W0 W1 ctx chunks :
  zlen W0 = 80 -> zlen W1 = 80 -> zlen (M ctx) = 64 -> Forall is_u8 (M ctx) ->
  Forall (Forall is_u8) chunks -> Forall (fun c => zlen c < 2 ^ 28) chunks ->
  8 * zlen (concat chunks) < 2 ^ 32 ->
  exists ctx' ctx'', update_all W0 (srtp_sha1_init ctx) chunks = Some ctx' /\
    srtp_sha1_final W0 W1 ctx' = Some (ctx'', sha1_spec (concat chunks)).
Proof.
  intros HW0 HW1 HM HMF HF Hl Hb.
  destruct (update_all_ok W0 chunks (srtp_sha1_init ctx) []) as (ctx' & E & Hok);
    [done|by apply srtp_sha1_init_ok|done|done|].
  destruct (srtp_sha1_final_ok W0 W1 ctx' (concat chunks)) as (ctx'' & E' & _);
    [done|done|done|by apply Forall_concat|done|]. eauto.
Qed.

Definition blank_ctx : srtp_sha1_ctx_t :=
  {| H := []; M := replicate 64 0; octets_in_buffer := 0; num_bits_in_msg := 0 |}.

Lemma sha1_streaming_correct_witness :
  exists ctx' ctx'', update_all (replicate 80 7) (srtp_sha1_init blank_ctx) [[97]; [98; 99]] = Some ctx' /\
    srtp_sha1_final (replicate 80 7) (replicate 80 8) ctx' = Some (ctx'', sha1_spec (concat [[97]; [98; 99]])).
Proof.
  apply (sha1_streaming_correct (replicate 80 7) (replicate 80 8) blank_ctx [[97]; [98; 99]]).
  - reflexivity.
  - reflexivity.
  - reflexivity.
  - apply Forall_replicate. by unfold fits.
  - repeat constructor; by unfold fits.
  - repeat constructor; by vm_compute.
  - by vm_compute.
Defined.

(** The digest of "abc" in FIPS 180. *)
Example sha1_abc :
  srtp_sha1 (replicate 80 7) (replicate 80 8) blank_ctx [97; 98; 99] 3 =
  Some [0xa9; 0x99; 0x3e; 0x36; 0x47; 0x06; 0x81; 0x6a; 0xba; 0x3e; 0x25; 0x71; 0x78; 0x50; 0xc2; 0x6c;
        0x9c; 0xd0; 0xd8; 0x9d].
Proof. vm_compute. reflexivity. Qed.
