(* ===== verification/Hmac.v ===== *)
(** HMAC-SHA-1 (libsrtp crypto/hash/hmac.c, crypto/include/hmac.h). *)

From S2P Require Import Prelude Err Sha1.

Record srtp_hmac_ctx_t := {
  opad : list Z;
  ctx : srtp_sha1_ctx_t;
  init_ctx : srtp_sha1_ctx_t
}.

(** The part of [srtp_auth_t] that the allocation fills in; [state] is the
    HMAC context, whose memory [srtp_crypto_alloc] zeroes. *)
Record srtp_auth_t := {
  auth_state : srtp_hmac_ctx_t;
  auth_out_len : Z;
  auth_key_len : Z;
  auth_prefix_len : Z
}.

Definition zero_sha1_ctx : srtp_sha1_ctx_t :=
  {| H := replicate 5 0; M := replicate 64 0; octets_in_buffer := 0; num_bits_in_msg := 0 |}.

Definition zero_hmac_ctx : srtp_hmac_ctx_t :=
  {| opad := replicate 64 0; ctx := zero_sha1_ctx; init_ctx := zero_sha1_ctx |}.

(** [srtp_hmac_alloc(&a, key_len, out_len)]; [alloc_ok] is whether the
    allocator returns memory. *)
Definition srtp_hmac_alloc (alloc_ok : bool) (key_len out_len : Z)
    : srtp_err_status_t * option srtp_auth_t :=
  if 20 <? key_len then (srtp_err_status_bad_param, None)
  else if 20 <? out_len then (srtp_err_status_bad_param, None)
  else if negb alloc_ok then (srtp_err_status_alloc_fail, None)
  else (srtp_err_status_ok,
        Some {| auth_state := zero_hmac_ctx; auth_out_len := out_len; auth_key_len := key_len;
                auth_prefix_len := 0 |}).

(** [srtp_hmac_init(state, key, key_len)]; [ipad0] is the uninitialised local
    array. *)
Definition srtp_hmac_init (W0 ipad0 : list Z) (state : srtp_hmac_ctx_t) (key : list Z) (key_len : Z)
    : option (srtp_err_status_t * srtp_hmac_ctx_t) :=
  if 20 <? key_len then Some (srtp_err_status_bad_param, state)
  else
    '(ipad, op) ← for_up 0 key_len
      (fun i '(ipad, op) =>
         k ← aget key i;
         ipad ← aset ipad i (k ^^ 0x36);
         op ← aset op i (k ^^ 0x5c);
         Some (ipad, op)) (ipad0, opad state);
    '(ipad, op) ← for_up (Z.max 0 key_len) 64
      (fun i '(ipad, op) =>
         ipad ← aset ipad i 0x36;
         op ← aset op i 0x5c;
         Some (ipad, op)) (ipad, op);
    c ← srtp_sha1_update W0 (srtp_sha1_init (init_ctx state)) ipad 64;
    Some (srtp_err_status_ok, {| opad := op; ctx := c; init_ctx := c |}).

Definition srtp_hmac_start (state : srtp_hmac_ctx_t) : srtp_err_status_t * srtp_hmac_ctx_t :=
  (srtp_err_status_ok, {| opad := opad state; ctx := init_ctx state; init_ctx := init_ctx state |}).

Definition srtp_hmac_update (W0 : list Z) (state : srtp_hmac_ctx_t) (message : list Z) (msg_octets : Z)
    : option (srtp_err_status_t * srtp_hmac_ctx_t) :=
  c ← srtp_sha1_update W0 (ctx state) message msg_octets;
  Some (srtp_err_status_ok, {| opad := opad state; ctx := c; init_ctx := init_ctx state |}).

(** [srtp_hmac_compute(state, message, msg_octets, tag_len, result)]: status,
    state and the octets of [result]. *)
Definition srtp_hmac_compute (W0 W1 : list Z) (state : srtp_hmac_ctx_t) (message : list Z)
    (msg_octets tag_len : Z) (result : list Z)
    : option (srtp_err_status_t * srtp_hmac_ctx_t * list Z) :=
  if 20 <? tag_len then Some (srtp_err_status_bad_param, state, result)
  else
    '(_, state) ← srtp_hmac_update W0 state message msg_octets;
    '(c, inner) ← srtp_sha1_final W0 W1 (ctx state);
    c ← srtp_sha1_update W0 (srtp_sha1_init c) (opad state) 64;
    c ← srtp_sha1_update W0 c inner 20;
    '(c, hash_value) ← srtp_sha1_final W0 W1 c;
    result ← for_up 0 tag_len (fun i r => v ← aget hash_value i; aset r i v) result;
    Some (srtp_err_status_ok, {| opad := opad state; ctx := c; init_ctx := init_ctx state |}, result).

(** ** The standard (RFC 2104) *)

(** The key, zero-padded to a block, xored with a constant octet. *)
Definition pad_key (key : list Z) (c : Z) : list Z :=
  map (fun k => k ^^ c) (key ++ replicate (64 - List.length key) 0).

Definition hmac_spec (key msg : list Z) : list Z :=
  sha1_spec (pad_key key 0x5c ++ sha1_spec (pad_key key 0x36 ++ msg)).

(** ** Invariant *)

(** The state after [srtp_hmac_init] with [key] and updates with [msg] since
    the last start. *)
Record hmac_ok (state : srtp_hmac_ctx_t) (key msg : list Z) : Prop := {
  ho_opad : opad state = pad_key key 0x5c;
  ho_init : sha_ok (init_ctx state) (pad_key key 0x36);
  ho_ctx : sha_ok (ctx state) (pad_key key 0x36 ++ msg)
}.

Lemma zlen_pad_key key c : zlen key <= 64 -> zlen (pad_key key c) = 64.
Proof. intros. unfold pad_key, zlen in *. rewrite length_map, length_app, length_replicate. lia. Qed.

Lemma pad_key_u8 key c : Forall is_u8 key -> is_u8 c -> Forall is_u8 (pad_key key c).
Proof.
  intros HF Hc. unfold pad_key. apply Forall_map, Forall_app.
  assert (forall k, is_u8 k -> is_u8 (k ^^ c)) as Hx by (intros; apply fits_lxor; (done || lia)).
  split; [eapply Forall_impl; [exact Hx|exact HF]|]. apply Forall_replicate, Hx. by unfold fits.
Qed.

Lemma znth_pad_key key c i :
  zlen key <= 64 -> 0 <= i < 64 ->
  znth (pad_key key c) i = if decide (i < zlen key) then znth key i ^^ c else c.
Proof.
  intros Hk Hi. unfold pad_key, znth, aget. rewrite !(decide_True (P := 0 <= i)) by lia.
  change (map ?f ?l) with (f <$> l). rewrite list_lookup_fmap. unfold zlen in *. case_decide.
  - rewrite lookup_app_l by lia. destruct (key !! Z.to_nat i) eqn:E; [done|].
    apply lookup_ge_None in E. lia.
  - rewrite lookup_app_r, lookup_replicate_2 by lia. done.
Qed.

(** The two loops of [srtp_hmac_init] build both pads. *)
Lemma pads_spec ipad0 opad0 key (key_len : Z) :
  zlen ipad0 = 64 -> zlen opad0 = 64 -> zlen key = key_len -> key_len <= 20 ->
  ('(ipad, op) ← for_up 0 key_len
      (fun i '(ipad, op) =>
         k ← aget key i;
         ipad ← aset ipad i (k ^^ 0x36);
         op ← aset op i (k ^^ 0x5c);
         Some (ipad, op)) (ipad0, opad0);
   for_up (Z.max 0 key_len) 64
      (fun i '(ipad, op) =>
         ipad ← aset ipad i 0x36;
         op ← aset op i 0x5c;
         Some (ipad, op)) (ipad, op)) = Some (pad_key key 0x36, pad_key key 0x5c).
Proof.
  intros Hi Ho Hk Hl. pose proof (zlen_nonneg key).
  destruct (for_up_inv (fun i '(ip, op) => zlen ip = 64 /\ zlen op = 64 /\
      forall j, 0 <= j < i -> znth ip j = znth (pad_key key 0x36) j /\ znth op j = znth (pad_key key 0x5c) j)
      0 key_len
      (fun i '(ipad, op) => k ← aget key i; ipad ← aset ipad i (k ^^ 0x36);
         op ← aset op i (k ^^ 0x5c); Some (ipad, op)) (ipad0, opad0)) as ([ip op] & -> & Hip & Hop & A).
  - lia.
  - split_and!; [done|done|lia].
  - intros i [ip op] Hr (Hip & Hop & A). rewrite aget_znth by lia. simpl.
    rewrite !aset_Some by lia. simpl. eexists. split; [done|]. cbv beta iota. rewrite !zlen_insert.
    split_and!; [done|done|]. intros j Hj. rewrite !znth_insert by lia.
    case_decide; [subst; by rewrite !znth_pad_key, !decide_True by lia|apply A; lia].
  - simpl. rewrite Z.max_r by lia.
    destruct (for_up_inv (fun i '(ip, op) => zlen ip = 64 /\ zlen op = 64 /\
      forall j, 0 <= j < i -> znth ip j = znth (pad_key key 0x36) j /\ znth op j = znth (pad_key key 0x5c) j)
      key_len 64
      (fun i '(ipad, op) => ipad ← aset ipad i 0x36; op ← aset op i 0x5c; Some (ipad, op)) (ip, op))
      as ([ip' op'] & -> & Hip' & Hop' & A').
    + lia.
    + done.
    + intros i [ip1 op1] Hr (Hip1 & Hop1 & A1). rewrite !aset_Some by lia. simpl.
      eexists. split; [done|]. cbv beta iota. rewrite !zlen_insert. split_and!; [done|done|].
      intros j Hj. rewrite !znth_insert by lia.
      case_decide; [subst; by rewrite !znth_pad_key, !decide_False by lia|apply A1; lia].
    + do 2 f_equal; apply znth_ext; rewrite ?zlen_pad_key by lia; try lia; intros j Hj; apply A'; lia.
Qed.

Section HmacRuns.
Context (W0 : list Z) (HW0 : zlen W0 = 80).

Lemma srtp_hmac_init_ok ipad0 state key :
  zlen ipad0 = 64 -> zlen (opad state) = 64 -> zlen (M (init_ctx state)) = 64 ->
  Forall is_u8 (M (init_ctx state)) -> Forall is_u8 key -> zlen key <= 20 ->
  exists state', srtp_hmac_init W0 ipad0 state key (zlen key) = Some (srtp_err_status_ok, state') /\
    hmac_ok state' key [].
Proof.
  intros Hi Ho HM HMF HF Hk. unfold srtp_hmac_init. rewrite (proj2 (Z.ltb_ge 20 _)) by lia.
  pose proof (pads_spec ipad0 (opad state) key (zlen key) Hi Ho eq_refl Hk) as E.
  destruct (for_up 0 (zlen key) _ _) as [[ip op]|]; [cbn [mbind option_bind] in *|done].
  rewrite E. cbn [mbind option_bind]. pose proof (zlen_pad_key key 0x36 ltac:(lia)) as Hl.
  destruct (srtp_sha1_update_ok W0 (srtp_sha1_init (init_ctx state)) [] (pad_key key 0x36) 64)
    as (c & -> & Hc); [done|by apply srtp_sha1_init_ok|by apply pad_key_u8|lia|lia|].
  cbn [mbind option_bind]. eexists. split; [done|].
  rewrite take_ge in Hc by (unfold zlen in *; lia). split; simpl; [done|done|]. by rewrite app_nil_r.
Qed.

(** Only the first [n] octets of the key are read. *)
Lemma srtp_hmac_init_take ipad0 state key n :
  0 <= n -> srtp_hmac_init W0 ipad0 state key n = srtp_hmac_init W0 ipad0 state (take (Z.to_nat n) key) n.
Proof.
  intros Hn. unfold srtp_hmac_init. destruct (20 <? n); [done|].
  erewrite (for_up_ext 0 n); [done|]. intros i [ip op] Hi. cbv beta iota. unfold aget.
  rewrite !(decide_True (P := 0 <= i)) by lia. by rewrite lookup_take_lt by lia.
Qed.

Lemma srtp_hmac_update_ok state key msg m :
  hmac_ok state key msg -> Forall is_u8 m -> zlen m < 2 ^ 28 ->
  exists state', srtp_hmac_update W0 state m (zlen m) = Some (srtp_err_status_ok, state') /\
    hmac_ok state' key (msg ++ m).
Proof.
  intros [Ho Hi Hc] HF Hl. unfold srtp_hmac_update. pose proof (zlen_nonneg m).
  destruct (srtp_sha1_update_ok W0 (ctx state) (pad_key key 0x36 ++ msg) m (zlen m)) as (c & -> & Hc');
    [done|done|done|lia|done|]. rewrite take_ge in Hc' by (unfold zlen; lia).
  cbn [mbind option_bind]. eexists. split; [done|]. split; simpl; [done|done|]. by rewrite app_assoc.
Qed.

Lemma srtp_hmac_start_ok state key msg :
  hmac_ok state key msg ->
  exists state', srtp_hmac_start state = (srtp_err_status_ok, state') /\ hmac_ok state' key [].
Proof.
  intros [Ho Hi Hc]. eexists. split; [done|]. split; simpl; [done|done|]. by rewrite app_nil_r.
Qed.

Lemma srtp_hmac_compute_ok W1 state key msg m tag_len result :
  zlen W1 = 80 -> hmac_ok state key msg -> Forall is_u8 key -> zlen key <= 20 -> Forall is_u8 msg ->
  Forall is_u8 m -> zlen m < 2 ^ 28 -> 8 * (64 + zlen msg + zlen m) < 2 ^ 32 ->
  0 <= tag_len <= 20 -> tag_len <= zlen result ->
  exists state' result', srtp_hmac_compute W0 W1 state m (zlen m) tag_len result =
      Some (srtp_err_status_ok, state', result') /\
    result' = take (Z.to_nat tag_len) (hmac_spec key (msg ++ m)) ++ drop (Z.to_nat tag_len) result /\
    opad state' = opad state /\ init_ctx state' = init_ctx state.
Proof.
  intros HW1 Hs HFk Hk HFm HF Hl Hb Ht Hr. unfold srtp_hmac_compute.
  rewrite (proj2 (Z.ltb_ge 20 _)) by lia.
  destruct (srtp_hmac_update_ok state key msg m Hs HF Hl) as (s1 & E1 & [Ho1 Hi1 Hc1]).
  assert (init_ctx s1 = init_ctx state /\ opad s1 = opad state) as [Hinit Hop].
  { unfold srtp_hmac_update in E1. by inv_option. }
  rewrite E1. cbn [mbind option_bind].
  assert (zlen (pad_key key 0x36) = 64 /\ zlen (pad_key key 0x5c) = 64) as [L1 L2]
    by (split; apply zlen_pad_key; lia).
  destruct (srtp_sha1_final_ok W0 W1 (ctx s1) (pad_key key 0x36 ++ msg ++ m)) as (c1 & -> & HM1);
    [done|done|done| |rewrite !zlen_app; lia|].
  { rewrite !Forall_app. split_and!; [by apply pad_key_u8|done|done]. }
  cbn [mbind option_bind]. set (inner := sha1_spec _).
  destruct (sha1_spec_octets (pad_key key 0x36 ++ msg ++ m)) as [Li Fi]. fold inner in Li, Fi.
  destruct Hc1 as [Hc1 _].
  destruct (srtp_sha1_update_ok W0 (srtp_sha1_init c1) [] (opad s1) 64) as (c2 & -> & Hc2);
    [done|apply srtp_sha1_init_ok; rewrite HM1; apply Hc1|rewrite Ho1; by apply pad_key_u8|
     rewrite Ho1; lia|lia|].
  cbn [mbind option_bind]. rewrite Ho1, take_ge in Hc2 by (unfold zlen in *; lia). cbn [app] in Hc2.
  destruct (srtp_sha1_update_ok W0 c2 (pad_key key 0x5c) inner 20) as (c3 & -> & Hc3);
    [done|done|done|lia|lia|]. cbn [mbind option_bind].
  rewrite take_ge in Hc3 by (unfold zlen in *; lia).
  destruct (srtp_sha1_final_ok W0 W1 c3 (pad_key key 0x5c ++ inner)) as (c4 & -> & _);
    [done|done|done| |rewrite zlen_app; lia|].
  { apply Forall_app. split; [by apply pad_key_u8|done]. }
  cbn [mbind option_bind]. destruct (sha1_spec_octets (pad_key key 0x5c ++ inner)) as [Lo Fo].
  destruct (for_up_map (fun i _ => aget (sha1_spec (pad_key key 0x5c ++ inner)) i)
    (znth (sha1_spec (pad_key key 0x5c ++ inner))) 0 tag_len result) as (result' & E & Hz & A); [lia|lia| |].
  { intros i y Hi _ _. apply aget_znth. lia. }
  rewrite E. cbn [mbind option_bind]. eexists _, result'. split; [done|]. split; [|by split].
  assert (zlen (hmac_spec key (msg ++ m)) = 20) as Lh by exact Lo.
  assert (zlen (take (Z.to_nat tag_len) (hmac_spec key (msg ++ m))) = tag_len) as Lt
    by (rewrite zlen_take by lia; lia).
  apply znth_ext; [rewrite zlen_app, zlen_drop, Lt by lia; lia|].
  intros i Hi. rewrite A, znth_app, Lt by lia. repeat case_decide; try lia.
  - by rewrite znth_take by lia.
  - rewrite znth_drop by lia. f_equal. lia.
Qed.

End HmacRuns.

(** ** Properties *)

(** C29: HMAC-SHA-1 as RFC 2104 defines it.  Initialised with a key of at most
    twenty octets, started, given any chunks and asked for a tag of up to
    twenty octets over the rest of the message, the functions return the first
    octets of HMAC(key, whole message) and leave the state ready for the next
    message under the same key, whatever earlier messages were. *)
Theorem hmac_sha1_correct W0 W1 state key earlier m0 m1 tag_len result :
  zlen W0 = 80 -> zlen W1 = 80 ->
  hmac_ok state key earlier -> Forall is_u8 key -> zlen key <= 20 ->
  Forall is_u8 m0 -> zlen m0 < 2 ^ 28 -> Forall is_u8 m1 -> zlen m1 < 2 ^ 28 ->
  8 * (64 + zlen m0 + zlen m1) < 2 ^ 32 -> 0 <= tag_len <= 20 -> tag_len <= zlen result ->
  exists s1 s2 s3 result', srtp_hmac_start state = (srtp_err_status_ok, s1) /\
    srtp_hmac_update W0 s1 m0 (zlen m0) = Some (srtp_err_status_ok, s2) /\
    srtp_hmac_compute W0 W1 s2 m1 (zlen m1) tag_len result = Some (srtp_err_status_ok, s3, result') /\
    take (Z.to_nat tag_len) result' = take (Z.to_nat tag_len) (hmac_spec key (m0 ++ m1)) /\
    exists s4, srtp_hmac_start s3 = (srtp_err_status_ok, s4) /\ hmac_ok s4 key [].
Proof.
  intros HW0 HW1 Hs HFk Hk HF0 Hl0 HF1 Hl1 Hb Ht Hr.
  destruct (srtp_hmac_start_ok state key earlier Hs) as (s1 & E1 & H1).
  destruct (srtp_hmac_update_ok W0 HW0 s1 key [] m0 H1 HF0 Hl0) as (s2 & E2 & H2). simpl in H2.
  destruct (srtp_hmac_compute_ok W0 HW0 W1 s2 key m0 m1 tag_len result)
    as (s3 & result' & E3 & Hres & Hop & Hin); [done..|].
  exists s1, s2, s3, result'. split_and!; [done..| |].
  { subst result'. apply take_app_length'. rewrite length_take.
    destruct (sha1_spec_octets (pad_key key 0x5c ++ sha1_spec (pad_key key 0x36 ++ m0 ++ m1))) as [L _].
    unfold zlen in L. unfold hmac_spec. lia. }
  eexists. split; [done|].
  destruct H2 as [Ho Hi _]. split; simpl; [congruence|by rewrite Hin|by rewrite app_nil_r, Hin].
Qed.

Lemma hmac_sha1_correct_witness :
  exists state, srtp_hmac_init (replicate 80 1) (replicate 64 9) zero_hmac_ctx (replicate 20 0x0b) 20 =
      Some (srtp_err_status_ok, state) /\
  exists s1 s2 s3 result', srtp_hmac_start state = (srtp_err_status_ok, s1) /\
    srtp_hmac_update (replicate 80 1) s1 [72; 105] 2 = Some (srtp_err_status_ok, s2) /\
    srtp_hmac_compute (replicate 80 1) (replicate 80 2) s2 [32] 1 10 (replicate 20 0) =
      Some (srtp_err_status_ok, s3, result') /\
    take (Z.to_nat 10) result' = take (Z.to_nat 10) (hmac_spec (replicate 20 0x0b) ([72; 105] ++ [32])) /\
    exists s4, srtp_hmac_start s3 = (srtp_err_status_ok, s4) /\ hmac_ok s4 (replicate 20 0x0b) [].
Proof.
  destruct (srtp_hmac_init_ok (replicate 80 1) eq_refl (replicate 64 9) zero_hmac_ctx (replicate 20 0x0b))
    as (state & E & Hs); try reflexivity; try (apply Forall_replicate; by unfold fits).
  exists state. split; [exact E|]. clear E.
  apply (hmac_sha1_correct (replicate 80 1) (replicate 80 2) state (replicate 20 0x0b) []
    [72; 105] [32] 10 (replicate 20 0) eq_refl eq_refl Hs).
  - apply Forall_replicate. by unfold fits.
  - by vm_compute.
  - repeat constructor; by unfold fits.
  - by vm_compute.
  - repeat constructor; by unfold fits.
  - by vm_compute.
  - by vm_compute.
  - lia.
  - by vm_compute.
Defined.

(** The library's own test case. *)
Example hmac_test_case_0 :
  (r ← srtp_hmac_init (replicate 80 0) (replicate 64 0) zero_hmac_ctx (replicate 20 0x0b) 20;
   r ← srtp_hmac_compute (replicate 80 0) (replicate 80 0) (snd r)
         [0x48; 0x69; 0x20; 0x54; 0x68; 0x65; 0x72; 0x65] 8 20 (replicate 20 0);
   Some (snd r)) =
  Some [0xb6; 0x17; 0x31; 0x86; 0x55; 0x05; 0x72; 0x64; 0xe2; 0x8b; 0xc0; 0xb6; 0xfb; 0x37; 0x8c; 0x8e;
        0xf1; 0x46; 0xbe; 0x00].
Proof. vm_compute. reflexivity. Qed.
