(* ===== verification/Aes.v ===== *)
(** The AES block cipher (libsrtp crypto/cipher/aes.c, crypto/include/aes.h),
    in the configuration CPU_CISC of libsrtp/config_in_cmake.h on a
    little-endian machine, and FIPS 197.

    A [v128_t] is its sixteen octets [v8]; [v32[i]] is the little-endian word
    at octet [4 * i]. *)

From S2P Require Import Prelude Err AesTables.

(** ** Words of an octet block *)

(** Four octets as a little-endian word, and back. *)
Definition word (b0 b1 b2 b3 : Z) : Z := b0 .| (b1 << 8) .| (b2 << 16) .| (b3 << 24).

Definition le32 (l : list Z) (p : Z) : option Z :=
  b0 ← aget l p; b1 ← aget l (p + 1); b2 ← aget l (p + 2); b3 ← aget l (p + 3);
  Some (word b0 b1 b2 b3).

Definition put_le32 (l : list Z) (p w : Z) : option (list Z) :=
  l ← aset l p (u8 w); l ← aset l (p + 1) (u8 (w >> 8)); l ← aset l (p + 2) (u8 (w >> 16));
  aset l (p + 3) (u8 (w >> 24)).

(** [v->v32[i]] and [v->v32[i] = w]. *)
Definition v32 (v : list Z) (i : Z) : option Z := le32 v (4 * i).
Definition set_v32 (v : list Z) (i w : Z) : option (list Z) := put_le32 v (4 * i) w.

Definition xor_octets (a b : list Z) : list Z := zip_with Z.lxor a b.

(** ** The code *)

Record srtp_aes_expanded_key_t := {
  round : list (list Z);
  num_rounds : Z
}.

Definition gf2_8_field_polynomial : Z := 0x1B.

(** [gf2_8_shift(z)], stored in an octet. *)
Definition gf2_8_shift (z : Z) : Z :=
  u8 (if negb ((z & 128) =? 0) then (z << 1) ^^ gf2_8_field_polynomial else z << 1).

(** [r->v8[i] = box[p->v8[j]] ^ c]. *)
Definition sub_octet (box p : list Z) (j c : Z) (r : list Z) (i : Z) : option (list Z) :=
  b ← aget p j; x ← aget box b; aset r i (x ^^ c).

(** First word of a round key: substitution of the last word of the previous
    one, rotated and with the round constant, or plain. *)
Definition munge_rot (box p : list Z) (rc : Z) (r : list Z) : option (list Z) :=
  r ← sub_octet box p 13 rc r 0; r ← sub_octet box p 14 0 r 1;
  r ← sub_octet box p 15 0 r 2; sub_octet box p 12 0 r 3.

Definition munge_plain (box p : list Z) (r : list Z) : option (list Z) :=
  r ← sub_octet box p 12 0 r 0; r ← sub_octet box p 13 0 r 1;
  r ← sub_octet box p 14 0 r 2; sub_octet box p 15 0 r 3.

(** The other words: the one previous xored with the one of the older key. *)
Definition chain_words (old r : list Z) : option (list Z) :=
  a ← v32 r 0; o ← v32 old 0; r ← set_v32 r 0 (a ^^ o);
  a ← v32 r 0; o ← v32 old 1; r ← set_v32 r 1 (a ^^ o);
  a ← v32 r 1; o ← v32 old 2; r ← set_v32 r 2 (a ^^ o);
  a ← v32 r 2; o ← v32 old 3; set_v32 r 3 (a ^^ o).

Definition aes_128_expand_encryption_key (key : list Z) (ek : srtp_aes_expanded_key_t)
    : option srtp_aes_expanded_key_t :=
  k0 ← slice key 0 16;
  rounds ← aset (round ek) 0 k0;
  '(rounds, _) ← for_up 1 11
    (fun i '(rounds, rc) =>
       p ← aget rounds (i - 1); r ← aget rounds i;
       r ← munge_rot aes_sbox p rc r;
       r ← chain_words p r;
       rounds ← aset rounds i r;
       Some (rounds, gf2_8_shift rc)) (rounds, 1);
  Some {| round := rounds; num_rounds := 10 |}.

Definition aes_256_expand_encryption_key (key : list Z) (ek : srtp_aes_expanded_key_t)
    : option srtp_aes_expanded_key_t :=
  k0 ← slice key 0 16; k1 ← slice key 16 16;
  rounds ← aset (round ek) 0 k0; rounds ← aset rounds 1 k1;
  '(rounds, _) ← for_up 2 15
    (fun i '(rounds, rc) =>
       p ← aget rounds (i - 1); r ← aget rounds i;
       '(r, rc) ← (if (i & 1) =? 0 then r ← munge_rot aes_sbox p rc r; Some (r, gf2_8_shift rc)
                   else r ← munge_plain aes_sbox p r; Some (r, rc));
       old ← aget rounds (i - 2);
       r ← chain_words old r;
       rounds ← aset rounds i r;
       Some (rounds, rc)) (rounds, 1);
  Some {| round := rounds; num_rounds := 14 |}.

Definition srtp_aes_expand_encryption_key (key : list Z) (key_len : Z) (ek : srtp_aes_expanded_key_t)
    : option (srtp_err_status_t * srtp_aes_expanded_key_t) :=
  if key_len =? 16 then ek ← aes_128_expand_encryption_key key ek; Some (srtp_err_status_ok, ek)
  else if key_len =? 24 then Some (srtp_err_status_bad_param, ek)
  else if key_len =? 32 then ek ← aes_256_expand_encryption_key key ek; Some (srtp_err_status_ok, ek)
  else Some (srtp_err_status_bad_param, ek).

(** One column from four tables. *)
Definition column (t0 t1 t2 t3 s : list Z) (i0 i1 i2 i3 : Z) : option Z :=
  s0 ← aget s i0; s1 ← aget s i1; s2 ← aget s i2; s3 ← aget s i3;
  x0 ← aget t0 s0; x1 ← aget t1 s1; x2 ← aget t2 s2; x3 ← aget t3 s3;
  Some (x0 ^^ x1 ^^ x2 ^^ x3).

Definition put_columns (s k : list Z) (c0 c1 c2 c3 : Z) : option (list Z) :=
  k0 ← v32 k 0; s ← set_v32 s 0 (c0 ^^ k0);
  k1 ← v32 k 1; s ← set_v32 s 1 (c1 ^^ k1);
  k2 ← v32 k 2; s ← set_v32 s 2 (c2 ^^ k2);
  k3 ← v32 k 3; set_v32 s 3 (c3 ^^ k3).

Definition aes_round (state round_key : list Z) : option (list Z) :=
  column0 ← column T0 T1 T2 T3 state 0 5 10 15;
  column1 ← column T0 T1 T2 T3 state 4 9 14 3;
  column2 ← column T0 T1 T2 T3 state 8 13 2 7;
  column3 ← column T0 T1 T2 T3 state 12 1 6 11;
  put_columns state round_key column0 column1 column2 column3.

Definition aes_inv_round (state round_key : list Z) : option (list Z) :=
  column0 ← column U0 U1 U2 U3 state 0 13 10 7;
  column1 ← column U0 U1 U2 U3 state 4 1 14 11;
  column2 ← column U0 U1 U2 U3 state 8 5 2 15;
  column3 ← column U0 U1 U2 U3 state 12 9 6 3;
  put_columns state round_key column0 column1 column2 column3.

(** [state->v8[i] = box[state->v8[j]]]. *)
Definition box_move (box : list Z) (i j : Z) (s : list Z) : option (list Z) :=
  b ← aget s j; x ← aget box b; aset s i x.

(** [tmp = box[state->v8[j]]]. *)
Definition box_get (box : list Z) (j : Z) (s : list Z) : option Z := b ← aget s j; aget box b.

(** Byte substitutions and row shifts, in place. *)
Definition shift_left_sub (box state : list Z) : option (list Z) :=
  s ← box_move box 0 0 state; s ← box_move box 4 4 s;
  s ← box_move box 8 8 s; s ← box_move box 12 12 s;
  tmp ← box_get box 1 s;
  s ← box_move box 1 5 s; s ← box_move box 5 9 s; s ← box_move box 9 13 s;
  s ← aset s 13 tmp;
  tmp ← box_get box 10 s; s ← box_move box 10 2 s; s ← aset s 2 tmp;
  tmp ← box_get box 14 s; s ← box_move box 14 6 s; s ← aset s 6 tmp;
  tmp ← box_get box 15 s;
  s ← box_move box 15 11 s; s ← box_move box 11 7 s; s ← box_move box 7 3 s;
  aset s 3 tmp.

Definition aes_final_round (state round_key : list Z) : option (list Z) :=
  s ← shift_left_sub aes_sbox state; Some (xor_octets s round_key).

(** The same with the rows shifted right. *)
Definition shift_right_sub (box state : list Z) : option (list Z) :=
  s ← box_move box 0 0 state; s ← box_move box 4 4 s;
  s ← box_move box 8 8 s; s ← box_move box 12 12 s;
  tmp ← box_get box 13 s;
  s ← box_move box 13 9 s; s ← box_move box 9 5 s; s ← box_move box 5 1 s;
  s ← aset s 1 tmp;
  tmp ← box_get box 2 s; s ← box_move box 2 10 s; s ← aset s 10 tmp;
  tmp ← box_get box 6 s; s ← box_move box 6 14 s; s ← aset s 14 tmp;
  tmp ← box_get box 3 s;
  s ← box_move box 3 7 s; s ← box_move box 7 11 s; s ← box_move box 11 15 s;
  aset s 15 tmp.

Definition aes_inv_final_round (state round_key : list Z) : option (list Z) :=
  s ← shift_right_sub aes_inv_sbox state; Some (xor_octets s round_key).

(** Rounds [lo .. hi) with the round function [f]: the code writes them out. *)
Definition rounds_from (f : list Z -> list Z -> option (list Z)) (ek : srtp_aes_expanded_key_t)
    (lo hi : Z) (s : list Z) : option (list Z) :=
  for_up lo hi (fun i s => k ← aget (round ek) i; f s k) s.

(** The body that [srtp_aes_encrypt] and [srtp_aes_decrypt] share: the subkey
    is added, then the middle rounds, then the last one, by the number of
    rounds. *)
Definition aes_rounds (f last : list Z -> list Z -> option (list Z)) (plaintext : list Z)
    (ek : srtp_aes_expanded_key_t) : option (list Z) :=
  k ← aget (round ek) 0;
  s ← rounds_from f ek 1 10 (xor_octets plaintext k);
  if num_rounds ek =? 10 then k ← aget (round ek) 10; last s k
  else if num_rounds ek =? 12 then
    s ← rounds_from f ek 10 12 s; k ← aget (round ek) 12; last s k
  else if num_rounds ek =? 14 then
    s ← rounds_from f ek 10 14 s; k ← aget (round ek) 14; last s k
  else Some s.

Definition srtp_aes_encrypt : list Z -> srtp_aes_expanded_key_t -> option (list Z) :=
  aes_rounds aes_round aes_final_round.

Definition srtp_aes_decrypt : list Z -> srtp_aes_expanded_key_t -> option (list Z) :=
  aes_rounds aes_inv_round aes_inv_final_round.

(** One round key of the decryption schedule: the inverse column mix.  Column
    [i] first. *)
Definition inv_mix_col (k : list Z) (i : Z) : option Z :=
  b0 ← box_get aes_sbox (4 * i) k; b1 ← box_get aes_sbox (4 * i + 1) k;
  b2 ← box_get aes_sbox (4 * i + 2) k; b3 ← box_get aes_sbox (4 * i + 3) k;
  x0 ← aget U0 b0; x1 ← aget U1 b1; x2 ← aget U2 b2; x3 ← aget U3 b3;
  Some (x0 ^^ x1 ^^ x2 ^^ x3).

Definition inv_mix_key (k : list Z) : option (list Z) :=
  c0 ← inv_mix_col k 0; c1 ← inv_mix_col k 1; c2 ← inv_mix_col k 2; c3 ← inv_mix_col k 3;
  k ← set_v32 k 0 c0; k ← set_v32 k 1 c1; k ← set_v32 k 2 c2; set_v32 k 3 c3.

(** [srtp_aes_expand_decryption_key]: the number of rounds is read from the
    expanded key before the expansion sets it. *)
Definition srtp_aes_expand_decryption_key (key : list Z) (key_len : Z) (ek : srtp_aes_expanded_key_t)
    : option (srtp_err_status_t * srtp_aes_expanded_key_t) :=
  let n := num_rounds ek in
  '(status, ek) ← srtp_aes_expand_encryption_key key key_len ek;
  if is_err status then Some (status, ek)
  else
    rounds ← for_up 0 (n ÷ 2)
      (fun i rounds =>
         tmp ← aget rounds (n - i); r ← aget rounds i;
         rounds ← aset rounds (n - i) r; aset rounds i tmp) (round ek);
    rounds ← for_up 1 n (fun i rounds => k ← aget rounds i; k ← inv_mix_key k; aset rounds i k) rounds;
    Some (srtp_err_status_ok, {| round := rounds; num_rounds := num_rounds ek |}).

(** ** FIPS 197 *)

Module Fips.

(** Multiplication by [x] in GF(2^8) modulo x^8 + x^4 + x^3 + x + 1, and
    multiplication by a constant. *)
Definition xtime (b : Z) : Z := if Z.testbit b 7 then u8 (2 * b) ^^ 0x1b else 2 * b.

Definition gmul (c x : Z) : Z :=
  foldr Z.lxor 0 (map (fun k => if Z.testbit c (Z.of_nat k) then Nat.iter k xtime x else 0) (seq 0 8)).

(** The multiplicative inverse, 0 for 0, is the power 254 = 2 + 4 + .. + 128. *)
Definition ginv (x : Z) : Z :=
  let sq y := gmul y y in
  let x2 := sq x in let x4 := sq x2 in let x8 := sq x4 in let x16 := sq x8 in
  let x32 := sq x16 in let x64 := sq x32 in let x128 := sq x64 in
  gmul x2 (gmul x4 (gmul x8 (gmul x16 (gmul x32 (gmul x64 x128))))).

Definition rotl8 (b n : Z) : Z := u8 (b << n) .| (b >> (8 - n)).

(** The S-box: inverse, then the affine map. *)
Definition sbox (x : Z) : Z :=
  let b := ginv x in b ^^ rotl8 b 1 ^^ rotl8 b 2 ^^ rotl8 b 3 ^^ rotl8 b 4 ^^ 0x63.

(** Octet [4 * c + r] of the state is row [r] of column [c]. *)
Definition at_ (s : list Z) (r c : Z) : Z := znth s (4 * (c mod 4) + r mod 4).
Definition tabulate (f : Z -> Z -> Z) : list Z := map (fun i => f (i mod 4) (i / 4)) (seqZ 0 16).

Definition sub_bytes (s : list Z) : list Z := map sbox s.
Definition shift_rows (s : list Z) : list Z := tabulate (fun r c => at_ s r (c + r)).
Definition inv_shift_rows (s : list Z) : list Z := tabulate (fun r c => at_ s r (c - r)).
Definition mix (m0 m1 m2 m3 : Z) (s : list Z) : list Z :=
  tabulate (fun r c => gmul m0 (at_ s r c) ^^ gmul m1 (at_ s (r + 1) c)
                       ^^ gmul m2 (at_ s (r + 2) c) ^^ gmul m3 (at_ s (r + 3) c)).
Definition mix_columns : list Z -> list Z := mix 2 3 1 1.
Definition inv_mix_columns : list Z -> list Z := mix 14 11 13 9.
Definition add_round_key (s k : list Z) : list Z := zip_with Z.lxor s k.

(** The cipher with round keys [k 0 .. k nr]. *)
Definition cipher (nr : nat) (k : nat -> list Z) (input : list Z) : list Z :=
  let s := fold_left (fun s i => add_round_key (mix_columns (shift_rows (sub_bytes s))) (k i))
             (seq 1 (nr - 1)) (add_round_key input (k 0%nat)) in
  add_round_key (shift_rows (sub_bytes s)) (k nr).

(** Key expansion: words of four octets. *)
Definition rot_word (w : list Z) : list Z := drop 1 w ++ take 1 w.
Definition rcon (i : nat) : list Z := [Nat.iter (i - 1) xtime 1; 0; 0; 0].

Definition next_word (nk : nat) (ws : list (list Z)) : list Z :=
  let i := length ws in
  let temp := nth (i - 1) ws [] in
  let temp :=
    if Nat.eqb (i mod nk) 0 then zip_with Z.lxor (map sbox (rot_word temp)) (rcon (i / nk))
    else if Nat.ltb 6 nk && Nat.eqb (i mod nk) 4 then map sbox temp
    else temp in
  zip_with Z.lxor (nth (i - nk) ws []) temp.

Fixpoint expand (n nk : nat) (ws : list (list Z)) : list (list Z) :=
  match n with
  | O => ws
  | S n' => expand n' nk (ws ++ [next_word nk ws])
  end.

(** The words of the key, and the schedule of [nr + 1] round keys. *)
Definition words (key : list Z) (nk : nat) : list (list Z) :=
  map (fun i => take 4 (drop (4 * i) key)) (seq 0 nk).
Definition schedule (nk nr : nat) (key : list Z) : list (list Z) :=
  expand (4 * (nr + 1) - nk) nk (words key nk).
Definition round_key (ws : list (list Z)) (i : nat) : list Z := concat (take 4 (drop (4 * i) ws)).

(** AES-128 and AES-256. *)
Definition aes (nk nr : nat) (key input : list Z) : list Z :=
  cipher nr (round_key (schedule nk nr key)) input.

End Fips.

(** The example of FIPS 197, appendix C.1. *)
Example fips_c1 :
  Fips.aes 4 10 (seqZ 0 16) (map (fun i => 17 * i) (seqZ 0 16)) =
  [0x69; 0xc4; 0xe0; 0xd8; 0x6a; 0x7b; 0x04; 0x30; 0xd8; 0xcd; 0xb7; 0x80; 0x70; 0xb4; 0xc5; 0x5a].
Proof. vm_compute. reflexivity. Qed.

(** ** The tables *)

Lemma u8_all (P : Z -> Prop) `{!forall x, Decision (P x)} :
  forallb (fun x => bool_decide (P x)) (seqZ 0 256) = true -> forall x, is_u8 x -> P x.
Proof.
  intros HP x Hx. rewrite forallb_forall in HP.
  assert (bool_decide (P x) = true) as E; [|by apply bool_decide_eq_true_1 in E].
  apply HP, list_elem_of_In, elem_of_seqZ. unfold fits in Hx. lia.
Qed.

Lemma table_spec (f : Z -> Z) t :
  t = map f (seqZ 0 256) -> forall x, is_u8 x -> aget t x = Some (f x).
Proof.
  intros -> x Hx. unfold fits in Hx. unfold aget. rewrite decide_True by lia.
  change (map f (seqZ 0 256)) with (f <$> seqZ 0 256).
  rewrite list_lookup_fmap, lookup_seqZ_lt by lia. simpl. do 2 f_equal. lia.
Qed.

(** The inverse S-box, by its table. *)
Definition inv_sbox (x : Z) : Z := znth aes_inv_sbox x.

(** The columns the tables hold: a coefficient vector times an octet. *)
Definition col (m0 m1 m2 m3 x : Z) : Z :=
  word (Fips.gmul m0 x) (Fips.gmul m1 x) (Fips.gmul m2 x) (Fips.gmul m3 x).

Ltac table f := intros; apply (table_spec f); [vm_compute; reflexivity|done].

Lemma sbox_table x : is_u8 x -> aget aes_sbox x = Some (Fips.sbox x).
Proof. table Fips.sbox. Qed.

Lemma inv_sbox_table x : is_u8 x -> aget aes_inv_sbox x = Some (inv_sbox x).
Proof. table inv_sbox. Qed.

Lemma T0_table x : is_u8 x -> aget T0 x = Some (col 2 1 1 3 (Fips.sbox x)).
Proof. table (fun x => col 2 1 1 3 (Fips.sbox x)). Qed.

Lemma T1_table x : is_u8 x -> aget T1 x = Some (col 3 2 1 1 (Fips.sbox x)).
Proof. table (fun x => col 3 2 1 1 (Fips.sbox x)). Qed.

Lemma T2_table x : is_u8 x -> aget T2 x = Some (col 1 3 2 1 (Fips.sbox x)).
Proof. table (fun x => col 1 3 2 1 (Fips.sbox x)). Qed.

Lemma T3_table x : is_u8 x -> aget T3 x = Some (col 1 1 3 2 (Fips.sbox x)).
Proof. table (fun x => col 1 1 3 2 (Fips.sbox x)). Qed.

Lemma U0_table x : is_u8 x -> aget U0 x = Some (col 14 9 13 11 (inv_sbox x)).
Proof. table (fun x => col 14 9 13 11 (inv_sbox x)). Qed.

Lemma U1_table x : is_u8 x -> aget U1 x = Some (col 11 14 9 13 (inv_sbox x)).
Proof. table (fun x => col 11 14 9 13 (inv_sbox x)). Qed.

Lemma U2_table x : is_u8 x -> aget U2 x = Some (col 13 11 14 9 (inv_sbox x)).
Proof. table (fun x => col 13 11 14 9 (inv_sbox x)). Qed.

Lemma U3_table x : is_u8 x -> aget U3 x = Some (col 9 13 11 14 (inv_sbox x)).
Proof. table (fun x => col 9 13 11 14 (inv_sbox x)). Qed.

(** Facts about octets that a computation over all of them settles. *)
Ltac octets P := intros; apply (u8_all P); [vm_compute; reflexivity|done].

Lemma sbox_u8 x : is_u8 x -> is_u8 (Fips.sbox x).
Proof. octets (fun x => is_u8 (Fips.sbox x)). Qed.

Lemma inv_sbox_u8 x : is_u8 x -> is_u8 (inv_sbox x).
Proof. octets (fun x => is_u8 (inv_sbox x)). Qed.

Lemma inv_sbox_sbox x : is_u8 x -> inv_sbox (Fips.sbox x) = x.
Proof. octets (fun x => inv_sbox (Fips.sbox x) = x). Qed.

Lemma xtime_u8 x : is_u8 x -> is_u8 (Fips.xtime x).
Proof. octets (fun x => is_u8 (Fips.xtime x)). Qed.

Lemma gf2_8_shift_xtime x : is_u8 x -> gf2_8_shift x = Fips.xtime x.
Proof. octets (fun x => gf2_8_shift x = Fips.xtime x). Qed.

Lemma wrap_lxor w x y : 0 <= w -> wrap w (x ^^ y) = wrap w x ^^ wrap w y.
Proof.
  intros Hw. bits k Hk. rewrite testbit_wrap, !Z.lxor_spec, !testbit_wrap by lia.
  case_bool_decide; done.
Qed.

Lemma xtime_shift x : is_u8 x -> Fips.xtime x = u8 (x << 1) ^^ (if Z.testbit x 7 then 0x1b else 0).
Proof. octets (fun x => Fips.xtime x = u8 (x << 1) ^^ (if Z.testbit x 7 then 0x1b else 0)). Qed.

Lemma xtime_lxor x y : is_u8 x -> is_u8 y -> Fips.xtime (x ^^ y) = Fips.xtime x ^^ Fips.xtime y.
Proof.
  intros Hx Hy. rewrite !xtime_shift by (done || by apply fits_lxor).
  rewrite Z.shiftl_lxor, wrap_lxor, Z.lxor_spec by lia. set (a := u8 (x << 1)). set (b := u8 (y << 1)).
  destruct (Z.testbit x 7), (Z.testbit y 7); simpl xorb; cbv iota; rewrite ?Z.lxor_0_r; [| |by rewrite Z.lxor_assoc|done].
  - rewrite <- !Z.lxor_assoc, (Z.lxor_comm _ 27), (Z.lxor_assoc a 27 b), (Z.lxor_comm a (27 ^^ b)).
    by rewrite <- !Z.lxor_assoc, Z.lxor_nilpotent, Z.lxor_0_l, Z.lxor_comm.
  - by rewrite !Z.lxor_assoc, (Z.lxor_comm b).
Qed.

Create HintDb octets.
#[export] Hint Resolve sbox_u8 inv_sbox_u8 xtime_u8 : octets.

Lemma iter_xtime_u8 n x : is_u8 x -> is_u8 (Nat.iter n Fips.xtime x).
Proof. intros Hx. induction n; simpl; auto with octets. Qed.

Lemma iter_xtime_lxor n x y : is_u8 x -> is_u8 y ->
  Nat.iter n Fips.xtime (x ^^ y) = Nat.iter n Fips.xtime x ^^ Nat.iter n Fips.xtime y.
Proof.
  intros Hx Hy. induction n as [|n IH]; simpl; [done|].
  rewrite IH. apply xtime_lxor; by apply iter_xtime_u8.
Qed.

Lemma lxor_swap a b c d : (a ^^ b) ^^ (c ^^ d) = (a ^^ c) ^^ (b ^^ d).
Proof. rewrite !Z.lxor_assoc. f_equal. rewrite <- !Z.lxor_assoc. f_equal. apply Z.lxor_comm. Qed.

(** Multiplication by a constant is linear and stays in the octets. *)
Lemma gmul_u8 c x : is_u8 x -> is_u8 (Fips.gmul c x).
Proof.
  intros Hx. unfold Fips.gmul. induction (seq 0 8) as [|k l IH]; simpl; [by unfold fits|].
  apply fits_lxor; [lia| |done]. case_if; [by apply iter_xtime_u8|by unfold fits].
Qed.

Lemma gmul_lxor c x y : is_u8 x -> is_u8 y -> Fips.gmul c (x ^^ y) = Fips.gmul c x ^^ Fips.gmul c y.
Proof.
  intros Hx Hy. unfold Fips.gmul. induction (seq 0 8) as [|k l IH]; simpl; [done|].
  rewrite IH, lxor_swap. f_equal. case_if; [by apply iter_xtime_lxor|done].
Qed.

#[export] Hint Resolve gmul_u8 : octets.

(** ** Blocks *)

Definition is_block (b : list Z) : Prop := zlen b = 16 /\ Forall is_u8 b.

(** A block, octet by octet. *)
Lemma is_block_inv b : is_block b ->
  exists b0 b1 b2 b3 b4 b5 b6 b7 b8 b9 b10 b11 b12 b13 b14 b15,
    b = [b0; b1; b2; b3; b4; b5; b6; b7; b8; b9; b10; b11; b12; b13; b14; b15] /\
    is_u8 b0 /\ is_u8 b1 /\ is_u8 b2 /\ is_u8 b3 /\ is_u8 b4 /\ is_u8 b5 /\ is_u8 b6 /\ is_u8 b7 /\
    is_u8 b8 /\ is_u8 b9 /\ is_u8 b10 /\ is_u8 b11 /\ is_u8 b12 /\ is_u8 b13 /\ is_u8 b14 /\ is_u8 b15.
Proof.
  intros [Hl HF]. unfold zlen in Hl.
  do 16 (destruct b as [|? b]; [simpl in Hl; lia|]). destruct b; [|simpl in Hl; lia].
  rewrite !Forall_cons_iff in HF. destruct_and! HF. do 16 eexists. split; [reflexivity|]. by split_and!.
Qed.

Lemma is_block_list b0 b1 b2 b3 b4 b5 b6 b7 b8 b9 b10 b11 b12 b13 b14 b15 :
  is_u8 b0 -> is_u8 b1 -> is_u8 b2 -> is_u8 b3 -> is_u8 b4 -> is_u8 b5 -> is_u8 b6 -> is_u8 b7 ->
  is_u8 b8 -> is_u8 b9 -> is_u8 b10 -> is_u8 b11 -> is_u8 b12 -> is_u8 b13 -> is_u8 b14 -> is_u8 b15 ->
  is_block [b0; b1; b2; b3; b4; b5; b6; b7; b8; b9; b10; b11; b12; b13; b14; b15].
Proof. intros. split; [done|]. repeat (apply Forall_cons; [done|]). apply Forall_nil. Qed.

Lemma lxor_u8 a b : is_u8 a -> is_u8 b -> is_u8 (a ^^ b).
Proof. intros. by apply fits_lxor. Qed.

#[export] Hint Resolve lxor_u8 is_block_list : octets.

Lemma word_octets b0 b1 b2 b3 :
  is_u8 b0 -> is_u8 b1 -> is_u8 b2 -> is_u8 b3 ->
  let w := word b0 b1 b2 b3 in
  u8 w = b0 /\ u8 (w >> 8) = b1 /\ u8 (w >> 16) = b2 /\ u8 (w >> 24) = b3.
Proof.
  intros H0 H1 H2 H3 w. unfold w, word.
  rewrite (lor_shiftl_add 8) by (done || lia).
  rewrite (lor_shiftl_add 16), (lor_shiftl_add 24) by (unfold fits in *; lia).
  rewrite !Z.shiftr_div_pow2 by lia. unfold wrap, fits in *. lia.
Qed.

Lemma lor_shiftl_lxor w a b : 0 <= w -> fits w a -> a .| (b << w) = a ^^ (b << w).
Proof.
  intros Hw Ha. symmetry. apply Z.lxor_lor. bits k Hk.
  rewrite Z.land_spec, Z.shiftl_spec, Z.testbit_0_l by lia.
  destruct (decide (k < w)); [by rewrite (Z.testbit_neg_r b), andb_false_r by lia|].
  by rewrite (fits_testbit w a k) by (done || lia).
Qed.

Lemma word_xor b0 b1 b2 b3 :
  is_u8 b0 -> is_u8 b1 -> is_u8 b2 -> is_u8 b3 ->
  word b0 b1 b2 b3 = b0 ^^ (b1 << 8) ^^ (b2 << 16) ^^ (b3 << 24).
Proof.
  intros H0 H1 H2 H3. unfold word.
  rewrite (lor_shiftl_lxor 24) by (try lia; repeat apply fits_lor; try lia;
    rewrite ?Z.shiftl_mul_pow2 by lia; unfold fits in *; lia).
  rewrite (lor_shiftl_lxor 16) by (try lia; repeat apply fits_lor; try lia;
    rewrite ?Z.shiftl_mul_pow2 by lia; unfold fits in *; lia).
  by rewrite (lor_shiftl_lxor 8) by (done || lia).
Qed.

Lemma word_lxor a0 a1 a2 a3 b0 b1 b2 b3 :
  is_u8 a0 -> is_u8 a1 -> is_u8 a2 -> is_u8 a3 -> is_u8 b0 -> is_u8 b1 -> is_u8 b2 -> is_u8 b3 ->
  word a0 a1 a2 a3 ^^ word b0 b1 b2 b3 = word (a0 ^^ b0) (a1 ^^ b1) (a2 ^^ b2) (a3 ^^ b3).
Proof.
  intros. rewrite !word_xor by auto with octets. rewrite !Z.shiftl_lxor.
  by rewrite (lxor_swap _ (a3 << 24)), (lxor_swap _ (a2 << 16)), (lxor_swap _ (a1 << 8)).
Qed.

(** The octets of a word in memory. *)
Definition octets_of (w : Z) : list Z := [u8 w; u8 (w >> 8); u8 (w >> 16); u8 (w >> 24)].

Lemma octets_of_word b0 b1 b2 b3 :
  is_u8 b0 -> is_u8 b1 -> is_u8 b2 -> is_u8 b3 -> octets_of (word b0 b1 b2 b3) = [b0; b1; b2; b3].
Proof.
  intros. unfold octets_of. destruct (word_octets b0 b1 b2 b3) as (-> & -> & -> & ->); done.
Qed.

(** Storing four columns, key added. *)
Lemma put_columns_spec s k c0 c1 c2 c3 c4 c5 c6 c7 c8 c9 c10 c11 c12 c13 c14 c15 :
  is_block s -> is_block k ->
  let c := [c0; c1; c2; c3; c4; c5; c6; c7; c8; c9; c10; c11; c12; c13; c14; c15] in
  Forall is_u8 c ->
  put_columns s k (word c0 c1 c2 c3) (word c4 c5 c6 c7) (word c8 c9 c10 c11) (word c12 c13 c14 c15)
  = Some (zip_with Z.lxor c k).
Proof.
  intros Hs (k0 & k1 & k2 & k3 & k4 & k5 & k6 & k7 & k8 & k9 & k10 & k11 & k12 & k13 & k14 & k15 & -> & Hk)%is_block_inv
    c Hc. destruct_and! Hk. unfold c in *. rewrite !Forall_cons_iff in Hc. destruct_and! Hc.
  apply is_block_inv in Hs as (s0 & s1 & s2 & s3 & s4 & s5 & s6 & s7 & s8 & s9 & s10 & s11 & s12 & s13 & s14 & s15 & -> & _).
  transitivity (Some (octets_of (word c0 c1 c2 c3 ^^ word k0 k1 k2 k3) ++
    octets_of (word c4 c5 c6 c7 ^^ word k4 k5 k6 k7) ++ octets_of (word c8 c9 c10 c11 ^^ word k8 k9 k10 k11) ++
    octets_of (word c12 c13 c14 c15 ^^ word k12 k13 k14 k15))); [reflexivity|].
  rewrite !word_lxor, !octets_of_word by auto with octets. reflexivity.
Qed.

(** *** The round functions *)

Ltac block_vars H :=
  apply is_block_inv in H as (? & ? & ? & ? & ? & ? & ? & ? & ? & ? & ? & ? & ? & ? & ? & ? & -> & H);
  destruct_and! H.

Lemma column_spec (f : Z -> Z) m0 m1 m2 m3 t0 t1 t2 t3 s i0 i1 i2 i3 x0 x1 x2 x3 :
  (forall x, is_u8 x -> is_u8 (f x)) ->
  (forall x, is_u8 x -> aget t0 x = Some (col m0 m3 m2 m1 (f x))) ->
  (forall x, is_u8 x -> aget t1 x = Some (col m1 m0 m3 m2 (f x))) ->
  (forall x, is_u8 x -> aget t2 x = Some (col m2 m1 m0 m3 (f x))) ->
  (forall x, is_u8 x -> aget t3 x = Some (col m3 m2 m1 m0 (f x))) ->
  aget s i0 = Some x0 -> aget s i1 = Some x1 -> aget s i2 = Some x2 -> aget s i3 = Some x3 ->
  is_u8 x0 -> is_u8 x1 -> is_u8 x2 -> is_u8 x3 ->
  column t0 t1 t2 t3 s i0 i1 i2 i3
  = Some (word (Fips.gmul m0 (f x0) ^^ Fips.gmul m1 (f x1) ^^ Fips.gmul m2 (f x2) ^^ Fips.gmul m3 (f x3))
               (Fips.gmul m3 (f x0) ^^ Fips.gmul m0 (f x1) ^^ Fips.gmul m1 (f x2) ^^ Fips.gmul m2 (f x3))
               (Fips.gmul m2 (f x0) ^^ Fips.gmul m3 (f x1) ^^ Fips.gmul m0 (f x2) ^^ Fips.gmul m1 (f x3))
               (Fips.gmul m1 (f x0) ^^ Fips.gmul m2 (f x1) ^^ Fips.gmul m3 (f x2) ^^ Fips.gmul m0 (f x3))).
Proof.
  intros Hf Ht0 Ht1 Ht2 Ht3 E0 E1 E2 E3 H0 H1 H2 H3. unfold column.
  rewrite E0, E1, E2, E3. cbn [mbind option_bind]. rewrite Ht0, Ht1, Ht2, Ht3 by done.
  cbn [mbind option_bind]. unfold col. by rewrite !word_lxor by auto 8 with octets.
Qed.

Lemma lxor_rot a b c d : b ^^ c ^^ d ^^ a = a ^^ b ^^ c ^^ d.
Proof. bits k Hk. rewrite !Z.lxor_spec. by repeat destruct (Z.testbit _ _). Qed.

Lemma lxor_rot2 a b c d : c ^^ d ^^ a ^^ b = a ^^ b ^^ c ^^ d.
Proof. bits k Hk. rewrite !Z.lxor_spec. by repeat destruct (Z.testbit _ _). Qed.

Lemma lxor_rot3 a b c d : d ^^ a ^^ b ^^ c = a ^^ b ^^ c ^^ d.
Proof. bits k Hk. rewrite !Z.lxor_spec. by repeat destruct (Z.testbit _ _). Qed.

Lemma shift_rows_eval s0 s1 s2 s3 s4 s5 s6 s7 s8 s9 s10 s11 s12 s13 s14 s15 :
  Fips.shift_rows [s0; s1; s2; s3; s4; s5; s6; s7; s8; s9; s10; s11; s12; s13; s14; s15] = [s0; s5; s10; s15; s4; s9; s14; s3; s8; s13; s2; s7; s12; s1; s6; s11].
Proof. reflexivity. Qed.

Lemma inv_shift_rows_eval s0 s1 s2 s3 s4 s5 s6 s7 s8 s9 s10 s11 s12 s13 s14 s15 :
  Fips.inv_shift_rows [s0; s1; s2; s3; s4; s5; s6; s7; s8; s9; s10; s11; s12; s13; s14; s15] = [s0; s13; s10; s7; s4; s1; s14; s11; s8; s5; s2; s15; s12; s9; s6; s3].
Proof. reflexivity. Qed.

Lemma mix_eval m0 m1 m2 m3 s0 s1 s2 s3 s4 s5 s6 s7 s8 s9 s10 s11 s12 s13 s14 s15 :
  Fips.mix m0 m1 m2 m3 [s0; s1; s2; s3; s4; s5; s6; s7; s8; s9; s10; s11; s12; s13; s14; s15] =
    [Fips.gmul m0 s0 ^^ Fips.gmul m1 s1 ^^ Fips.gmul m2 s2 ^^ Fips.gmul m3 s3;
     Fips.gmul m3 s0 ^^ Fips.gmul m0 s1 ^^ Fips.gmul m1 s2 ^^ Fips.gmul m2 s3;
     Fips.gmul m2 s0 ^^ Fips.gmul m3 s1 ^^ Fips.gmul m0 s2 ^^ Fips.gmul m1 s3;
     Fips.gmul m1 s0 ^^ Fips.gmul m2 s1 ^^ Fips.gmul m3 s2 ^^ Fips.gmul m0 s3;
     Fips.gmul m0 s4 ^^ Fips.gmul m1 s5 ^^ Fips.gmul m2 s6 ^^ Fips.gmul m3 s7;
     Fips.gmul m3 s4 ^^ Fips.gmul m0 s5 ^^ Fips.gmul m1 s6 ^^ Fips.gmul m2 s7;
     Fips.gmul m2 s4 ^^ Fips.gmul m3 s5 ^^ Fips.gmul m0 s6 ^^ Fips.gmul m1 s7;
     Fips.gmul m1 s4 ^^ Fips.gmul m2 s5 ^^ Fips.gmul m3 s6 ^^ Fips.gmul m0 s7;
     Fips.gmul m0 s8 ^^ Fips.gmul m1 s9 ^^ Fips.gmul m2 s10 ^^ Fips.gmul m3 s11;
     Fips.gmul m3 s8 ^^ Fips.gmul m0 s9 ^^ Fips.gmul m1 s10 ^^ Fips.gmul m2 s11;
     Fips.gmul m2 s8 ^^ Fips.gmul m3 s9 ^^ Fips.gmul m0 s10 ^^ Fips.gmul m1 s11;
     Fips.gmul m1 s8 ^^ Fips.gmul m2 s9 ^^ Fips.gmul m3 s10 ^^ Fips.gmul m0 s11;
     Fips.gmul m0 s12 ^^ Fips.gmul m1 s13 ^^ Fips.gmul m2 s14 ^^ Fips.gmul m3 s15;
     Fips.gmul m3 s12 ^^ Fips.gmul m0 s13 ^^ Fips.gmul m1 s14 ^^ Fips.gmul m2 s15;
     Fips.gmul m2 s12 ^^ Fips.gmul m3 s13 ^^ Fips.gmul m0 s14 ^^ Fips.gmul m1 s15;
     Fips.gmul m1 s12 ^^ Fips.gmul m2 s13 ^^ Fips.gmul m3 s14 ^^ Fips.gmul m0 s15].
Proof.
  unfold Fips.mix, Fips.tabulate. change (seqZ 0 16) with [0; 1; 2; 3; 4; 5; 6; 7; 8; 9; 10; 11; 12; 13; 14; 15].
  cbn [map]. repeat apply (f_equal2 cons); try reflexivity;
    first [exact (lxor_rot _ _ _ _) | exact (lxor_rot2 _ _ _ _) | exact (lxor_rot3 _ _ _ _)].
Qed.

Ltac block_octets := auto 10 with octets.

Definition column_T := fun s i0 i1 i2 i3 x0 x1 x2 x3 =>
  column_spec Fips.sbox 2 3 1 1 T0 T1 T2 T3 s i0 i1 i2 i3 x0 x1 x2 x3 sbox_u8 T0_table T1_table T2_table T3_table.

Definition column_U := fun s i0 i1 i2 i3 x0 x1 x2 x3 =>
  column_spec inv_sbox 14 11 13 9 U0 U1 U2 U3 s i0 i1 i2 i3 x0 x1 x2 x3
    inv_sbox_u8 U0_table U1_table U2_table U3_table.

Lemma aes_round_spec s k :
  is_block s -> is_block k ->
  aes_round s k = Some (Fips.add_round_key (Fips.mix_columns (Fips.shift_rows (Fips.sub_bytes s))) k).
Proof.
  intros Hs Hk. pose proof Hs as Hs'.
  apply is_block_inv in Hs' as (s0 & s1 & s2 & s3 & s4 & s5 & s6 & s7 & s8 & s9 & s10 & s11 & s12 & s13 & s14 & s15 & -> & Hs');
  destruct_and! Hs'.
  set (s := [s0; s1; s2; s3; s4; s5; s6; s7; s8; s9; s10; s11; s12; s13; s14; s15]) in *. unfold aes_round.
  rewrite (column_T s 0 5 10 15 s0 s5 s10 s15 eq_refl eq_refl eq_refl eq_refl) by assumption.
  rewrite (column_T s 4 9 14 3 s4 s9 s14 s3 eq_refl eq_refl eq_refl eq_refl) by assumption.
  rewrite (column_T s 8 13 2 7 s8 s13 s2 s7 eq_refl eq_refl eq_refl eq_refl) by assumption.
  rewrite (column_T s 12 1 6 11 s12 s1 s6 s11 eq_refl eq_refl eq_refl eq_refl) by assumption.
  cbn [mbind option_bind].
  rewrite put_columns_spec; [|assumption|assumption|repeat apply Forall_cons; try apply Forall_nil; block_octets].
  unfold Fips.sub_bytes, s. cbn [map]. unfold Fips.mix_columns. rewrite shift_rows_eval, mix_eval. reflexivity.
Qed.

Definition inv_sub_bytes (s : list Z) : list Z := map inv_sbox s.

Lemma aes_inv_round_spec s k :
  is_block s -> is_block k ->
  aes_inv_round s k
  = Some (Fips.add_round_key (Fips.inv_mix_columns (Fips.inv_shift_rows (inv_sub_bytes s))) k).
Proof.
  intros Hs Hk. pose proof Hs as Hs'.
  apply is_block_inv in Hs' as (s0 & s1 & s2 & s3 & s4 & s5 & s6 & s7 & s8 & s9 & s10 & s11 & s12 & s13 & s14 & s15 & -> & Hs');
  destruct_and! Hs'.
  set (s := [s0; s1; s2; s3; s4; s5; s6; s7; s8; s9; s10; s11; s12; s13; s14; s15]) in *. unfold aes_inv_round.
  rewrite (column_U s 0 13 10 7 s0 s13 s10 s7 eq_refl eq_refl eq_refl eq_refl) by assumption.
  rewrite (column_U s 4 1 14 11 s4 s1 s14 s11 eq_refl eq_refl eq_refl eq_refl) by assumption.
  rewrite (column_U s 8 5 2 15 s8 s5 s2 s15 eq_refl eq_refl eq_refl eq_refl) by assumption.
  rewrite (column_U s 12 9 6 3 s12 s9 s6 s3 eq_refl eq_refl eq_refl eq_refl) by assumption.
  cbn [mbind option_bind].
  rewrite put_columns_spec; [|assumption|assumption|repeat apply Forall_cons; try apply Forall_nil; block_octets].
  unfold inv_sub_bytes, s. cbn [map]. unfold Fips.inv_mix_columns. rewrite inv_shift_rows_eval, mix_eval. reflexivity.
Qed.

Section Boxes.
Context (box : list Z) (f : Z -> Z) (Hbox : forall x, is_u8 x -> aget box x = Some (f x)).

Lemma box_move_spec i j s b :
  aget s j = Some b -> is_u8 b -> 0 <= i < zlen s ->
  box_move box i j s = Some (<[Z.to_nat i := f b]> s).
Proof.
  intros E Hb Hi. unfold box_move. rewrite E. cbn [mbind option_bind].
  rewrite Hbox by done. cbn [mbind option_bind]. by apply aset_Some.
Qed.

Lemma box_get_spec j s b : aget s j = Some b -> is_u8 b -> box_get box j s = Some (f b).
Proof. intros E Hb. unfold box_get. rewrite E. by apply Hbox. Qed.

(** Evaluation of one substitution on a block given octet by octet. *)
Ltac box_step :=
  first [ erewrite box_move_spec; [|reflexivity|assumption|done]
        | erewrite box_get_spec; [|reflexivity|assumption]
        | rewrite aset_Some by done ];
  repeat match goal with |- context [Z.to_nat ?z] =>
    let n := eval vm_compute in (Z.to_nat z) in change (Z.to_nat z) with n end;
  cbn [insert list_insert mbind option_bind].

Lemma shift_left_sub_spec s :
  is_block s -> shift_left_sub box s = Some (Fips.shift_rows (map f s)).
Proof.
  intros Hs. block_vars Hs. unfold shift_left_sub. do 20 box_step.
  cbn [map]. rewrite shift_rows_eval. reflexivity.
Qed.

Lemma shift_right_sub_spec s :
  is_block s -> shift_right_sub box s = Some (Fips.inv_shift_rows (map f s)).
Proof.
  intros Hs. block_vars Hs. unfold shift_right_sub. do 20 box_step.
  cbn [map]. rewrite inv_shift_rows_eval. reflexivity.
Qed.

End Boxes.

Lemma aes_final_round_spec s k :
  is_block s ->
  aes_final_round s k = Some (Fips.add_round_key (Fips.shift_rows (Fips.sub_bytes s)) k).
Proof. intros Hs. unfold aes_final_round. by rewrite (shift_left_sub_spec _ _ sbox_table). Qed.

Lemma aes_inv_final_round_spec s k :
  is_block s ->
  aes_inv_final_round s k = Some (Fips.add_round_key (Fips.inv_shift_rows (inv_sub_bytes s)) k).
Proof. intros Hs. unfold aes_inv_final_round. by rewrite (shift_right_sub_spec _ _ inv_sbox_table). Qed.

(** *** Whole blocks *)

Lemma add_round_key_block s k : is_block s -> is_block k -> is_block (Fips.add_round_key s k).
Proof. intros Hs Hk. block_vars Hs. block_vars Hk. unfold Fips.add_round_key. cbn [zip_with]. block_octets. Qed.

Lemma map_block f s : (forall x, is_u8 x -> is_u8 (f x)) -> is_block s -> is_block (map f s).
Proof.
  intros Hf [Hl HF]. split; [unfold zlen in *; by rewrite length_map|].
  apply Forall_map. eapply Forall_impl; [exact Hf|exact HF].
Qed.

Lemma shift_rows_block s : is_block s -> is_block (Fips.shift_rows s).
Proof. intros Hs. block_vars Hs. rewrite shift_rows_eval. block_octets. Qed.

Lemma inv_shift_rows_block s : is_block s -> is_block (Fips.inv_shift_rows s).
Proof. intros Hs. block_vars Hs. rewrite inv_shift_rows_eval. block_octets. Qed.

Lemma mix_block m0 m1 m2 m3 s : is_block s -> is_block (Fips.mix m0 m1 m2 m3 s).
Proof. intros Hs. block_vars Hs. rewrite mix_eval. block_octets. Qed.

#[export] Hint Resolve add_round_key_block shift_rows_block inv_shift_rows_block mix_block : octets.

Lemma sub_bytes_block s : is_block s -> is_block (Fips.sub_bytes s).
Proof. apply map_block. apply sbox_u8. Qed.

Lemma inv_sub_bytes_block s : is_block s -> is_block (inv_sub_bytes s).
Proof. apply map_block. apply inv_sbox_u8. Qed.

Lemma mix_columns_block s : is_block s -> is_block (Fips.mix_columns s).
Proof. apply mix_block. Qed.

Lemma inv_mix_columns_block s : is_block s -> is_block (Fips.inv_mix_columns s).
Proof. apply mix_block. Qed.

#[export] Hint Resolve sub_bytes_block inv_sub_bytes_block mix_columns_block inv_mix_columns_block : octets.

(** The middle rounds and the last one, forwards and backwards. *)
Definition enc_round (s k : list Z) : list Z :=
  Fips.add_round_key (Fips.mix_columns (Fips.shift_rows (Fips.sub_bytes s))) k.
Definition dec_round (s k : list Z) : list Z :=
  Fips.add_round_key (Fips.inv_mix_columns (Fips.inv_shift_rows (inv_sub_bytes s))) k.
Definition dec_last (s k : list Z) : list Z := Fips.add_round_key (Fips.inv_shift_rows (inv_sub_bytes s)) k.

Definition inv_cipher (nr : nat) (k : nat -> list Z) (input : list Z) : list Z :=
  dec_last (fold_left (fun s i => dec_round s (k i)) (seq 1 (nr - 1)) (Fips.add_round_key input (k 0%nat))) (k nr).

(** An expanded key: fifteen blocks and a number of rounds the code knows. *)
Definition keys_wf (ek : srtp_aes_expanded_key_t) : Prop :=
  Forall is_block (round ek) /\ length (round ek) = 15%nat /\
  (num_rounds ek = 10 \/ num_rounds ek = 12 \/ num_rounds ek = 14).

Definition key_of (ek : srtp_aes_expanded_key_t) (i : nat) : list Z := nth i (round ek) [].

Lemma aget_key ek i :
  keys_wf ek -> (i < 15)%nat -> aget (round ek) (Z.of_nat i) = Some (key_of ek i) /\ is_block (key_of ek i).
Proof.
  intros (HF & Hl & _) Hi. unfold aget, key_of. rewrite decide_True, Nat2Z.id by lia.
  destruct (lookup_lt_is_Some_2 (round ek) i) as [k Hk]; [lia|].
  rewrite Hk. rewrite (nth_lookup_Some _ _ _ _ Hk). split; [done|]. by eapply (Forall_lookup_1 _ _ _ _ HF).
Qed.

Section Rounds.
Context (f : list Z -> list Z -> option (list Z)) (F : list Z -> list Z -> list Z).
Context (Hf : forall s k, is_block s -> is_block k -> f s k = Some (F s k)).
Context (HF : forall s k, is_block s -> is_block k -> is_block (F s k)).

Lemma rounds_from_spec ek lo n s :
  keys_wf ek -> is_block s -> (lo + n <= 15)%nat ->
  let r := fold_left (fun s i => F s (key_of ek i)) (seq lo n) s in
  rounds_from f ek (Z.of_nat lo) (Z.of_nat (lo + n)) s = Some r /\ is_block r.
Proof.
  intros Hk Hs Hn. unfold rounds_from, for_up. replace (Z.to_nat (Z.of_nat (lo + n) - Z.of_nat lo)) with n by lia.
  revert lo s Hs Hn. induction n as [|n IH]; intros lo s Hs Hn; [done|]. cbn [for_nat seq fold_left].
  destruct (aget_key ek lo Hk) as [-> Hb]; [lia|]. cbn [mbind option_bind]. rewrite Hf by done.
  cbn [mbind option_bind]. replace (Z.of_nat lo + 1) with (Z.of_nat (S lo)) by lia. apply IH; [auto|lia].
Qed.

Context (g : list Z -> list Z -> option (list Z)) (G : list Z -> list Z -> list Z).
Context (Hg : forall s k, is_block s -> g s k = Some (G s k)).
Context (HG : forall s k, is_block s -> is_block k -> is_block (G s k)).

Lemma fold_rounds_split k n s :
  fold_left (fun s i => F s (k i)) (seq 1 (9 + n)) s
  = fold_left (fun s i => F s (k i)) (seq 10 n) (fold_left (fun s i => F s (k i)) (seq 1 9) s).
Proof. by rewrite seq_app, fold_left_app. Qed.

(** The last [n] middle rounds, and the final one with key [10 + n]. *)
Lemma last_rounds ek n s :
  keys_wf ek -> is_block s -> (n <= 4)%nat ->
  let r := G (fold_left (fun s i => F s (key_of ek i)) (seq 10 n) s) (key_of ek (10 + n)) in
  (s ← rounds_from f ek 10 (Z.of_nat (10 + n)) s; k ← aget (round ek) (Z.of_nat (10 + n)); g s k) = Some r /\
  is_block r.
Proof.
  intros Hk Hs Hn. destruct (rounds_from_spec ek 10 n s Hk Hs) as [E B]; [lia|].
  change (Z.of_nat 10) with 10 in E. rewrite E. cbn [mbind option_bind].
  destruct (aget_key ek (10 + n) Hk) as [-> Bk]; [lia|]. cbn [mbind option_bind]. rewrite Hg by done. auto.
Qed.

Lemma aes_rounds_spec ek b :
  keys_wf ek -> is_block b ->
  let nr := Z.to_nat (num_rounds ek) in
  let c := G (fold_left (fun s i => F s (key_of ek i)) (seq 1 (nr - 1)) (Fips.add_round_key b (key_of ek 0)))
             (key_of ek nr) in
  aes_rounds f g b ek = Some c /\ is_block c.
Proof.
  intros Hk Hb. unfold aes_rounds.
  destruct (aget_key ek 0 Hk) as [E0 B0]; [lia|]. change (Z.of_nat 0) with 0 in E0. rewrite E0.
  cbn [mbind option_bind]. change (xor_octets b (key_of ek 0)) with (Fips.add_round_key b (key_of ek 0)).
  set (s0 := Fips.add_round_key b (key_of ek 0)).
  assert (is_block s0) as Bs0 by (unfold s0; block_octets).
  destruct (rounds_from_spec ek 1 9 s0 Hk Bs0) as [E1 B1]; [lia|].
  change (Z.of_nat 1) with 1 in E1. change (Z.of_nat (1 + 9)) with 10 in E1. rewrite E1. cbn [mbind option_bind].
  destruct (Hk) as (_ & _ & [Hn|[Hn|Hn]]); rewrite Hn; cbn [Z.eqb Pos.eqb].
  - destruct (last_rounds ek 0 _ Hk B1) as [E B]; [lia|]. split; [exact E|exact B].
  - destruct (last_rounds ek 2 _ Hk B1) as [E B]; [lia|]. rewrite <- fold_rounds_split in E, B. by split.
  - destruct (last_rounds ek 4 _ Hk B1) as [E B]; [lia|]. rewrite <- fold_rounds_split in E, B. by split.
Qed.

End Rounds.

Lemma enc_round_block s k : is_block s -> is_block k -> is_block (enc_round s k).
Proof. intros. unfold enc_round. block_octets. Qed.

Lemma dec_round_block s k : is_block s -> is_block k -> is_block (dec_round s k).
Proof. intros. unfold dec_round. block_octets. Qed.

Lemma encrypt_spec ek b :
  keys_wf ek -> is_block b ->
  let c := Fips.cipher (Z.to_nat (num_rounds ek)) (key_of ek) b in
  srtp_aes_encrypt b ek = Some c /\ is_block c.
Proof.
  intros Hk Hb. apply (aes_rounds_spec aes_round enc_round aes_round_spec enc_round_block aes_final_round
    (fun s k => Fips.add_round_key (Fips.shift_rows (Fips.sub_bytes s)) k) aes_final_round_spec); [|done|done].
  intros. block_octets.
Qed.

Lemma decrypt_spec ek b :
  keys_wf ek -> is_block b ->
  let c := inv_cipher (Z.to_nat (num_rounds ek)) (key_of ek) b in
  srtp_aes_decrypt b ek = Some c /\ is_block c.
Proof.
  intros Hk Hb. apply (aes_rounds_spec aes_inv_round dec_round aes_inv_round_spec dec_round_block aes_inv_final_round
    dec_last aes_inv_final_round_spec); [|done|done].
  intros. unfold dec_last. block_octets.
Qed.

(** *** The inverse cipher *)

Lemma sub_bytes_inv s : is_block s -> inv_sub_bytes (Fips.sub_bytes s) = s.
Proof.
  intros [_ HF]. unfold inv_sub_bytes, Fips.sub_bytes. rewrite map_map. rewrite <- (map_id s) at 2.
  apply map_ext_in. intros x Hx. apply inv_sbox_sbox. rewrite Forall_forall in HF. auto.
Qed.

Lemma shift_rows_inv s : is_block s -> Fips.inv_shift_rows (Fips.shift_rows s) = s.
Proof. intros Hs. block_vars Hs. by rewrite shift_rows_eval, inv_shift_rows_eval. Qed.

Lemma inv_sub_shift s : is_block s -> inv_sub_bytes (Fips.shift_rows s) = Fips.shift_rows (inv_sub_bytes s).
Proof. intros Hs. block_vars Hs. unfold inv_sub_bytes. cbn [map]. rewrite !shift_rows_eval. done. Qed.

Lemma add_round_key_inv s k : is_block s -> is_block k -> Fips.add_round_key (Fips.add_round_key s k) k = s.
Proof.
  intros Hs Hk. block_vars Hs. block_vars Hk. unfold Fips.add_round_key. cbn [zip_with].
  by rewrite !Z.lxor_assoc, !Z.lxor_nilpotent, !Z.lxor_0_r.
Qed.

Lemma lxor_swap4 a b c d a' b' c' d' :
  (a ^^ b ^^ c ^^ d) ^^ (a' ^^ b' ^^ c' ^^ d') = (a ^^ a') ^^ (b ^^ b') ^^ (c ^^ c') ^^ (d ^^ d').
Proof. by rewrite (lxor_swap _ d), (lxor_swap _ c), (lxor_swap _ b). Qed.

Lemma lxor_transpose a0 a1 a2 a3 b0 b1 b2 b3 c0 c1 c2 c3 d0 d1 d2 d3 :
  (a0 ^^ a1 ^^ a2 ^^ a3) ^^ (b0 ^^ b1 ^^ b2 ^^ b3) ^^ (c0 ^^ c1 ^^ c2 ^^ c3) ^^ (d0 ^^ d1 ^^ d2 ^^ d3)
  = (a0 ^^ b0 ^^ c0 ^^ d0) ^^ (a1 ^^ b1 ^^ c1 ^^ d1) ^^ (a2 ^^ b2 ^^ c2 ^^ d2) ^^ (a3 ^^ b3 ^^ c3 ^^ d3).
Proof. by rewrite (lxor_swap4 a0), (lxor_swap4 (a0 ^^ b0)), (lxor_swap4 (a0 ^^ b0 ^^ c0)). Qed.

Lemma inv_mix_columns_lxor s k : is_block s -> is_block k ->
  Fips.inv_mix_columns (Fips.add_round_key s k)
  = Fips.add_round_key (Fips.inv_mix_columns s) (Fips.inv_mix_columns k).
Proof.
  intros Hs Hk. block_vars Hs. block_vars Hk. unfold Fips.inv_mix_columns, Fips.add_round_key. cbn [zip_with].
  rewrite !mix_eval. cbn [zip_with]. rewrite !gmul_lxor by done.
  repeat apply (f_equal2 cons); try done; by rewrite lxor_swap4.
Qed.

(** The two coefficient matrices are inverse to each other. *)
Lemma mix_coefficients x : is_u8 x ->
  Fips.gmul 14 (Fips.gmul 2 x) ^^ Fips.gmul 11 (Fips.gmul 1 x) ^^ Fips.gmul 13 (Fips.gmul 1 x) ^^ Fips.gmul 9 (Fips.gmul 3 x) = x /\
  Fips.gmul 14 (Fips.gmul 3 x) ^^ Fips.gmul 11 (Fips.gmul 2 x) ^^ Fips.gmul 13 (Fips.gmul 1 x) ^^ Fips.gmul 9 (Fips.gmul 1 x) = 0 /\
  Fips.gmul 14 (Fips.gmul 1 x) ^^ Fips.gmul 11 (Fips.gmul 3 x) ^^ Fips.gmul 13 (Fips.gmul 2 x) ^^ Fips.gmul 9 (Fips.gmul 1 x) = 0 /\
  Fips.gmul 14 (Fips.gmul 1 x) ^^ Fips.gmul 11 (Fips.gmul 1 x) ^^ Fips.gmul 13 (Fips.gmul 3 x) ^^ Fips.gmul 9 (Fips.gmul 2 x) = 0 /\
  Fips.gmul 9 (Fips.gmul 2 x) ^^ Fips.gmul 14 (Fips.gmul 1 x) ^^ Fips.gmul 11 (Fips.gmul 1 x) ^^ Fips.gmul 13 (Fips.gmul 3 x) = 0 /\
  Fips.gmul 9 (Fips.gmul 3 x) ^^ Fips.gmul 14 (Fips.gmul 2 x) ^^ Fips.gmul 11 (Fips.gmul 1 x) ^^ Fips.gmul 13 (Fips.gmul 1 x) = x /\
  Fips.gmul 9 (Fips.gmul 1 x) ^^ Fips.gmul 14 (Fips.gmul 3 x) ^^ Fips.gmul 11 (Fips.gmul 2 x) ^^ Fips.gmul 13 (Fips.gmul 1 x) = 0 /\
  Fips.gmul 9 (Fips.gmul 1 x) ^^ Fips.gmul 14 (Fips.gmul 1 x) ^^ Fips.gmul 11 (Fips.gmul 3 x) ^^ Fips.gmul 13 (Fips.gmul 2 x) = 0 /\
  Fips.gmul 13 (Fips.gmul 2 x) ^^ Fips.gmul 9 (Fips.gmul 1 x) ^^ Fips.gmul 14 (Fips.gmul 1 x) ^^ Fips.gmul 11 (Fips.gmul 3 x) = 0 /\
  Fips.gmul 13 (Fips.gmul 3 x) ^^ Fips.gmul 9 (Fips.gmul 2 x) ^^ Fips.gmul 14 (Fips.gmul 1 x) ^^ Fips.gmul 11 (Fips.gmul 1 x) = 0 /\
  Fips.gmul 13 (Fips.gmul 1 x) ^^ Fips.gmul 9 (Fips.gmul 3 x) ^^ Fips.gmul 14 (Fips.gmul 2 x) ^^ Fips.gmul 11 (Fips.gmul 1 x) = x /\
  Fips.gmul 13 (Fips.gmul 1 x) ^^ Fips.gmul 9 (Fips.gmul 1 x) ^^ Fips.gmul 14 (Fips.gmul 3 x) ^^ Fips.gmul 11 (Fips.gmul 2 x) = 0 /\
  Fips.gmul 11 (Fips.gmul 2 x) ^^ Fips.gmul 13 (Fips.gmul 1 x) ^^ Fips.gmul 9 (Fips.gmul 1 x) ^^ Fips.gmul 14 (Fips.gmul 3 x) = 0 /\
  Fips.gmul 11 (Fips.gmul 3 x) ^^ Fips.gmul 13 (Fips.gmul 2 x) ^^ Fips.gmul 9 (Fips.gmul 1 x) ^^ Fips.gmul 14 (Fips.gmul 1 x) = 0 /\
  Fips.gmul 11 (Fips.gmul 1 x) ^^ Fips.gmul 13 (Fips.gmul 3 x) ^^ Fips.gmul 9 (Fips.gmul 2 x) ^^ Fips.gmul 14 (Fips.gmul 1 x) = 0 /\
  Fips.gmul 11 (Fips.gmul 1 x) ^^ Fips.gmul 13 (Fips.gmul 1 x) ^^ Fips.gmul 9 (Fips.gmul 3 x) ^^ Fips.gmul 14 (Fips.gmul 2 x) = x.
Proof.
  octets (fun x =>
  Fips.gmul 14 (Fips.gmul 2 x) ^^ Fips.gmul 11 (Fips.gmul 1 x) ^^ Fips.gmul 13 (Fips.gmul 1 x) ^^ Fips.gmul 9 (Fips.gmul 3 x) = x /\
  Fips.gmul 14 (Fips.gmul 3 x) ^^ Fips.gmul 11 (Fips.gmul 2 x) ^^ Fips.gmul 13 (Fips.gmul 1 x) ^^ Fips.gmul 9 (Fips.gmul 1 x) = 0 /\
  Fips.gmul 14 (Fips.gmul 1 x) ^^ Fips.gmul 11 (Fips.gmul 3 x) ^^ Fips.gmul 13 (Fips.gmul 2 x) ^^ Fips.gmul 9 (Fips.gmul 1 x) = 0 /\
  Fips.gmul 14 (Fips.gmul 1 x) ^^ Fips.gmul 11 (Fips.gmul 1 x) ^^ Fips.gmul 13 (Fips.gmul 3 x) ^^ Fips.gmul 9 (Fips.gmul 2 x) = 0 /\
  Fips.gmul 9 (Fips.gmul 2 x) ^^ Fips.gmul 14 (Fips.gmul 1 x) ^^ Fips.gmul 11 (Fips.gmul 1 x) ^^ Fips.gmul 13 (Fips.gmul 3 x) = 0 /\
  Fips.gmul 9 (Fips.gmul 3 x) ^^ Fips.gmul 14 (Fips.gmul 2 x) ^^ Fips.gmul 11 (Fips.gmul 1 x) ^^ Fips.gmul 13 (Fips.gmul 1 x) = x /\
  Fips.gmul 9 (Fips.gmul 1 x) ^^ Fips.gmul 14 (Fips.gmul 3 x) ^^ Fips.gmul 11 (Fips.gmul 2 x) ^^ Fips.gmul 13 (Fips.gmul 1 x) = 0 /\
  Fips.gmul 9 (Fips.gmul 1 x) ^^ Fips.gmul 14 (Fips.gmul 1 x) ^^ Fips.gmul 11 (Fips.gmul 3 x) ^^ Fips.gmul 13 (Fips.gmul 2 x) = 0 /\
  Fips.gmul 13 (Fips.gmul 2 x) ^^ Fips.gmul 9 (Fips.gmul 1 x) ^^ Fips.gmul 14 (Fips.gmul 1 x) ^^ Fips.gmul 11 (Fips.gmul 3 x) = 0 /\
  Fips.gmul 13 (Fips.gmul 3 x) ^^ Fips.gmul 9 (Fips.gmul 2 x) ^^ Fips.gmul 14 (Fips.gmul 1 x) ^^ Fips.gmul 11 (Fips.gmul 1 x) = 0 /\
  Fips.gmul 13 (Fips.gmul 1 x) ^^ Fips.gmul 9 (Fips.gmul 3 x) ^^ Fips.gmul 14 (Fips.gmul 2 x) ^^ Fips.gmul 11 (Fips.gmul 1 x) = x /\
  Fips.gmul 13 (Fips.gmul 1 x) ^^ Fips.gmul 9 (Fips.gmul 1 x) ^^ Fips.gmul 14 (Fips.gmul 3 x) ^^ Fips.gmul 11 (Fips.gmul 2 x) = 0 /\
  Fips.gmul 11 (Fips.gmul 2 x) ^^ Fips.gmul 13 (Fips.gmul 1 x) ^^ Fips.gmul 9 (Fips.gmul 1 x) ^^ Fips.gmul 14 (Fips.gmul 3 x) = 0 /\
  Fips.gmul 11 (Fips.gmul 3 x) ^^ Fips.gmul 13 (Fips.gmul 2 x) ^^ Fips.gmul 9 (Fips.gmul 1 x) ^^ Fips.gmul 14 (Fips.gmul 1 x) = 0 /\
  Fips.gmul 11 (Fips.gmul 1 x) ^^ Fips.gmul 13 (Fips.gmul 3 x) ^^ Fips.gmul 9 (Fips.gmul 2 x) ^^ Fips.gmul 14 (Fips.gmul 1 x) = 0 /\
  Fips.gmul 11 (Fips.gmul 1 x) ^^ Fips.gmul 13 (Fips.gmul 1 x) ^^ Fips.gmul 9 (Fips.gmul 3 x) ^^ Fips.gmul 14 (Fips.gmul 2 x) = x).
Qed.

Lemma inv_mix_column x0 x1 x2 x3 :
  is_u8 x0 -> is_u8 x1 -> is_u8 x2 -> is_u8 x3 ->
  let y0 := Fips.gmul 2 x0 ^^ Fips.gmul 3 x1 ^^ Fips.gmul 1 x2 ^^ Fips.gmul 1 x3 in
  let y1 := Fips.gmul 1 x0 ^^ Fips.gmul 2 x1 ^^ Fips.gmul 3 x2 ^^ Fips.gmul 1 x3 in
  let y2 := Fips.gmul 1 x0 ^^ Fips.gmul 1 x1 ^^ Fips.gmul 2 x2 ^^ Fips.gmul 3 x3 in
  let y3 := Fips.gmul 3 x0 ^^ Fips.gmul 1 x1 ^^ Fips.gmul 1 x2 ^^ Fips.gmul 2 x3 in
  Fips.gmul 14 y0 ^^ Fips.gmul 11 y1 ^^ Fips.gmul 13 y2 ^^ Fips.gmul 9 y3 = x0 /\
  Fips.gmul 9 y0 ^^ Fips.gmul 14 y1 ^^ Fips.gmul 11 y2 ^^ Fips.gmul 13 y3 = x1 /\
  Fips.gmul 13 y0 ^^ Fips.gmul 9 y1 ^^ Fips.gmul 14 y2 ^^ Fips.gmul 11 y3 = x2 /\
  Fips.gmul 11 y0 ^^ Fips.gmul 13 y1 ^^ Fips.gmul 9 y2 ^^ Fips.gmul 14 y3 = x3.
Proof.
  intros H0 H1 H2 H3 y0 y1 y2 y3. unfold y0, y1, y2, y3. rewrite !gmul_lxor by block_octets.
  pose proof (mix_coefficients x0 H0) as C0. pose proof (mix_coefficients x1 H1) as C1.
  pose proof (mix_coefficients x2 H2) as C2. pose proof (mix_coefficients x3 H3) as C3.
  destruct_and! C0. destruct_and! C1. destruct_and! C2. destruct_and! C3.
  split_and!; rewrite lxor_transpose;
  repeat match goal with E : ?l = _ |- context [?l] => rewrite E; clear E end;
  by rewrite ?Z.lxor_0_r, ?Z.lxor_0_l.
Qed.

Lemma mix_columns_inv s : is_block s -> Fips.inv_mix_columns (Fips.mix_columns s) = s.
Proof.
  intros Hs. apply is_block_inv in Hs as (s0 & s1 & s2 & s3 & s4 & s5 & s6 & s7 & s8 & s9 & s10 & s11 & s12 & s13 &
    s14 & s15 & -> & Hs). destruct_and! Hs. unfold Fips.inv_mix_columns, Fips.mix_columns. rewrite !mix_eval.
  destruct (inv_mix_column s0 s1 s2 s3) as (-> & -> & -> & ->); [done..|].
  destruct (inv_mix_column s4 s5 s6 s7) as (-> & -> & -> & ->); [done..|].
  destruct (inv_mix_column s8 s9 s10 s11) as (-> & -> & -> & ->); [done..|].
  by destruct (inv_mix_column s12 s13 s14 s15) as (-> & -> & -> & ->).
Qed.

(** Undoing substitution and shift. *)
Lemma unsub_unshift s : is_block s -> Fips.inv_shift_rows (inv_sub_bytes (Fips.shift_rows (Fips.sub_bytes s))) = s.
Proof.
  intros Hs. rewrite inv_sub_shift by block_octets. rewrite shift_rows_inv by block_octets.
  by apply sub_bytes_inv.
Qed.

Section Inverse.
Context (nr : nat) (k d : nat -> list Z).
Context (Hk : forall i, (i <= nr)%nat -> is_block (k i)).
Context (Hd : forall i, (0 < i < nr)%nat -> d i = Fips.inv_mix_columns (k (nr - i)%nat)).

(** The state after [j] middle rounds. *)
Definition middle (b : list Z) (j : nat) : list Z :=
  fold_left (fun s i => enc_round s (k i)) (seq 1 j) (Fips.add_round_key b (k 0%nat)).

Lemma middle_S b j : middle b (S j) = enc_round (middle b j) (k (S j)).
Proof. unfold middle. rewrite seq_S, fold_left_app. done. Qed.

Lemma middle_block b j : is_block b -> (j <= nr)%nat -> is_block (middle b j).
Proof.
  intros Hb. induction j as [|j IH]; intros Hj; [apply add_round_key_block; [done|apply Hk; lia]|].
  rewrite middle_S. apply enc_round_block; [apply IH; lia|apply Hk; lia].
Qed.

(** Each inverse round takes one forward round back. *)
Lemma unwind b j :
  is_block b -> (S j <= nr)%nat ->
  fold_left (fun s i => dec_round s (d i)) (seq 1 j) (Fips.shift_rows (Fips.sub_bytes (middle b (nr - 1))))
  = Fips.shift_rows (Fips.sub_bytes (middle b (nr - 1 - j))).
Proof.
  intros Hb. induction j as [|j IH]; intros Hj; [by rewrite Nat.sub_0_r|].
  rewrite seq_S, fold_left_app. simpl. rewrite IH, Hd by lia.
  replace (nr - 1 - j)%nat with (S (nr - 1 - S j)) by lia. set (m := (nr - 1 - S j)%nat).
  replace (nr - S j)%nat with (S m) by lia.
  assert (is_block (middle b m)) as Bm by (apply middle_block; [done|lia]).
  assert (is_block (k (S m))) as Bk by (apply Hk; lia).
  unfold dec_round. rewrite unsub_unshift by (apply middle_block; [done|lia]).
  rewrite <- inv_mix_columns_lxor by (done || (apply middle_block; [done|lia])).
  rewrite middle_S. unfold enc_round. rewrite add_round_key_inv by block_octets.
  apply mix_columns_inv. block_octets.
Qed.

Lemma inv_cipher_cipher b :
  is_block b -> (1 <= nr)%nat -> d 0%nat = k nr -> d nr = k 0%nat -> inv_cipher nr d (Fips.cipher nr k b) = b.
Proof.
  intros Hb Hn H0 Hlast. unfold inv_cipher, Fips.cipher. fold enc_round. rewrite H0, Hlast.
  change (fold_left _ (seq 1 (nr - 1)) (Fips.add_round_key b (k 0%nat))) with (middle b (nr - 1)).
  assert (is_block (middle b (nr - 1))) as Bm by (apply middle_block; [done|lia]).
  rewrite add_round_key_inv by (try (apply Hk; lia); block_octets).
  rewrite unwind by (done || lia). rewrite Nat.sub_diag. unfold dec_last.
  rewrite unsub_unshift by (apply middle_block; [done|lia]). unfold middle. simpl.
  apply add_round_key_inv; [done|apply Hk; lia].
Qed.

End Inverse.
