(* ===== verification/AesKeys.v ===== *)
(** The AES key schedules of crypto/cipher/aes.c and the block cipher as a
    whole: the expanded key is the schedule of FIPS 197, encryption under it is
    AES, and decryption under the inverted schedule undoes it. *)

From S2P Require Import Prelude Err AesTables Aes.

(** ** Key expansion *)

Section Munge.
Context (box : list Z) (f : Z -> Z) (Hbox : forall x, is_u8 x -> aget box x = Some (f x)).

Lemma sub_octet_spec p j c r i b :
  aget p j = Some b -> is_u8 b -> 0 <= i < zlen r ->
  sub_octet box p j c r i = Some (<[Z.to_nat i := f b ^^ c]> r).
Proof.
  intros E Hb Hi. unfold sub_octet. rewrite E. cbn [mbind option_bind]. rewrite Hbox by done.
  cbn [mbind option_bind]. by apply aset_Some.
Qed.

Ltac sub_step :=
  erewrite sub_octet_spec; [|reflexivity|assumption|done];
  repeat match goal with |- context [Z.to_nat ?z] =>
    let n := eval vm_compute in (Z.to_nat z) in change (Z.to_nat z) with n end;
  cbn [insert list_insert mbind option_bind].

Lemma munge_rot_spec p rc r :
  is_block p -> is_block r ->
  munge_rot box p rc r
  = Some (zip_with Z.lxor (map f (Fips.rot_word (drop 12 p))) [rc; 0; 0; 0] ++ drop 4 r).
Proof. intros Hp Hr. block_vars Hp. block_vars Hr. unfold munge_rot. do 4 sub_step. reflexivity. Qed.

Lemma munge_plain_spec p r :
  is_block p -> is_block r -> munge_plain box p r = Some (map f (drop 12 p) ++ drop 4 r).
Proof.
  intros Hp Hr. block_vars Hp. block_vars Hr. unfold munge_plain. do 4 sub_step.
  rewrite !Z.lxor_0_r. reflexivity.
Qed.

End Munge.

(** Reading and storing a word of a block of sixteen octets. *)
Lemma v32_0 b0 b1 b2 b3 b4 b5 b6 b7 b8 b9 b10 b11 b12 b13 b14 b15 :
  v32 [b0; b1; b2; b3; b4; b5; b6; b7; b8; b9; b10; b11; b12; b13; b14; b15] 0 = Some (word b0 b1 b2 b3).
Proof. reflexivity. Qed.

Lemma v32_1 b0 b1 b2 b3 b4 b5 b6 b7 b8 b9 b10 b11 b12 b13 b14 b15 :
  v32 [b0; b1; b2; b3; b4; b5; b6; b7; b8; b9; b10; b11; b12; b13; b14; b15] 1 = Some (word b4 b5 b6 b7).
Proof. reflexivity. Qed.

Lemma v32_2 b0 b1 b2 b3 b4 b5 b6 b7 b8 b9 b10 b11 b12 b13 b14 b15 :
  v32 [b0; b1; b2; b3; b4; b5; b6; b7; b8; b9; b10; b11; b12; b13; b14; b15] 2 = Some (word b8 b9 b10 b11).
Proof. reflexivity. Qed.

Lemma v32_3 b0 b1 b2 b3 b4 b5 b6 b7 b8 b9 b10 b11 b12 b13 b14 b15 :
  v32 [b0; b1; b2; b3; b4; b5; b6; b7; b8; b9; b10; b11; b12; b13; b14; b15] 3 = Some (word b12 b13 b14 b15).
Proof. reflexivity. Qed.

Lemma set_v32_0 b0 b1 b2 b3 b4 b5 b6 b7 b8 b9 b10 b11 b12 b13 b14 b15 w0 w1 w2 w3 :
  is_u8 w0 -> is_u8 w1 -> is_u8 w2 -> is_u8 w3 ->
  set_v32 [b0; b1; b2; b3; b4; b5; b6; b7; b8; b9; b10; b11; b12; b13; b14; b15] 0 (word w0 w1 w2 w3)
  = Some [w0; w1; w2; w3; b4; b5; b6; b7; b8; b9; b10; b11; b12; b13; b14; b15].
Proof. intros. transitivity (Some (octets_of (word w0 w1 w2 w3) ++ [b4; b5; b6; b7; b8; b9; b10; b11; b12; b13; b14; b15])); [reflexivity|by rewrite octets_of_word]. Qed.

Lemma set_v32_1 b0 b1 b2 b3 b4 b5 b6 b7 b8 b9 b10 b11 b12 b13 b14 b15 w0 w1 w2 w3 :
  is_u8 w0 -> is_u8 w1 -> is_u8 w2 -> is_u8 w3 ->
  set_v32 [b0; b1; b2; b3; b4; b5; b6; b7; b8; b9; b10; b11; b12; b13; b14; b15] 1 (word w0 w1 w2 w3)
  = Some [b0; b1; b2; b3; w0; w1; w2; w3; b8; b9; b10; b11; b12; b13; b14; b15].
Proof. intros. transitivity (Some ([b0; b1; b2; b3] ++ octets_of (word w0 w1 w2 w3) ++ [b8; b9; b10; b11; b12; b13; b14; b15])); [reflexivity|by rewrite octets_of_word]. Qed.

Lemma set_v32_2 b0 b1 b2 b3 b4 b5 b6 b7 b8 b9 b10 b11 b12 b13 b14 b15 w0 w1 w2 w3 :
  is_u8 w0 -> is_u8 w1 -> is_u8 w2 -> is_u8 w3 ->
  set_v32 [b0; b1; b2; b3; b4; b5; b6; b7; b8; b9; b10; b11; b12; b13; b14; b15] 2 (word w0 w1 w2 w3)
  = Some [b0; b1; b2; b3; b4; b5; b6; b7; w0; w1; w2; w3; b12; b13; b14; b15].
Proof. intros. transitivity (Some ([b0; b1; b2; b3; b4; b5; b6; b7] ++ octets_of (word w0 w1 w2 w3) ++ [b12; b13; b14; b15])); [reflexivity|by rewrite octets_of_word]. Qed.

Lemma set_v32_3 b0 b1 b2 b3 b4 b5 b6 b7 b8 b9 b10 b11 b12 b13 b14 b15 w0 w1 w2 w3 :
  is_u8 w0 -> is_u8 w1 -> is_u8 w2 -> is_u8 w3 ->
  set_v32 [b0; b1; b2; b3; b4; b5; b6; b7; b8; b9; b10; b11; b12; b13; b14; b15] 3 (word w0 w1 w2 w3)
  = Some [b0; b1; b2; b3; b4; b5; b6; b7; b8; b9; b10; b11; w0; w1; w2; w3].
Proof. intros. transitivity (Some ([b0; b1; b2; b3; b4; b5; b6; b7; b8; b9; b10; b11] ++ octets_of (word w0 w1 w2 w3))); [reflexivity|by rewrite octets_of_word]. Qed.

(** The words of a round key from the first one before the xor, [g], and the
    older round key. *)
Definition next_words (o0 o1 o2 o3 g : list Z) : list (list Z) :=
  let w0 := zip_with Z.lxor g o0 in let w1 := zip_with Z.lxor w0 o1 in
  let w2 := zip_with Z.lxor w1 o2 in let w3 := zip_with Z.lxor w2 o3 in [w0; w1; w2; w3].

Definition is_word (w : list Z) : Prop := length w = 4%nat /\ Forall is_u8 w.

Lemma is_word_inv w : is_word w ->
  exists a b c d, w = [a; b; c; d] /\ is_u8 a /\ is_u8 b /\ is_u8 c /\ is_u8 d.
Proof.
  intros [Hl HF]. do 4 (destruct w as [|? w]; [simpl in Hl; lia|]). destruct w; [|simpl in Hl; lia].
  rewrite !Forall_cons_iff in HF. destruct_and! HF. do 4 eexists. split_and!; done.
Qed.

Lemma chain_words_spec o0 o1 o2 o3 g r :
  is_word o0 -> is_word o1 -> is_word o2 -> is_word o3 -> is_word g -> is_block r ->
  chain_words (o0 ++ o1 ++ o2 ++ o3) (g ++ drop 4 r) = Some (concat (next_words o0 o1 o2 o3 g)).
Proof.
  intros (a0 & a1 & a2 & a3 & -> & Ha)%is_word_inv (b0 & b1 & b2 & b3 & -> & Hb)%is_word_inv
    (c0 & c1 & c2 & c3 & -> & Hc)%is_word_inv (d0 & d1 & d2 & d3 & -> & Hd)%is_word_inv
    (g0 & g1 & g2 & g3 & -> & Hg)%is_word_inv Hr.
  destruct_and! Ha. destruct_and! Hb. destruct_and! Hc. destruct_and! Hd. destruct_and! Hg. block_vars Hr.
  cbn [app drop]. unfold chain_words.
  do 4 (rewrite ?v32_0, ?v32_1, ?v32_2, ?v32_3; cbn [mbind option_bind]; rewrite word_lxor by block_octets;
        rewrite ?set_v32_0, ?set_v32_1, ?set_v32_2, ?set_v32_3 by block_octets; cbn [mbind option_bind]).
  reflexivity.
Qed.

(** *** The schedule of FIPS 197, four words at a time *)

Definition wd (ws : list (list Z)) (j : nat) : list Z := nth j ws [].

Lemma round_key_words ws j :
  (4 * j + 4 <= length ws)%nat ->
  Fips.round_key ws j = wd ws (4 * j) ++ wd ws (4 * j + 1) ++ wd ws (4 * j + 2) ++ wd ws (4 * j + 3).
Proof.
  intros Hl. unfold Fips.round_key, wd. set (n := (4 * j)%nat) in *.
  rewrite <- (take_drop n ws) at 2 3 4 5.
  rewrite !app_nth2 by (rewrite length_take; lia). rewrite length_take, Nat.min_l by lia.
  replace (n - n)%nat with 0%nat by lia. replace (n + 1 - n)%nat with 1%nat by lia.
  replace (n + 2 - n)%nat with 2%nat by lia. replace (n + 3 - n)%nat with 3%nat by lia.
  assert (4 <= length (drop n ws))%nat as Hd by (rewrite length_drop; lia).
  destruct (drop n ws) as [|w0 [|w1 [|w2 [|w3 ?]]]]; simpl in Hd |- *; try lia. by rewrite app_nil_r.
Qed.

Lemma wd_word ws j : Forall is_word ws -> (j < length ws)%nat -> is_word (wd ws j).
Proof. intros HF Hj. rewrite Forall_forall in HF. by apply HF, nth_In. Qed.

Lemma round_key_block ws j : Forall is_word ws -> (4 * j + 4 <= length ws)%nat -> is_block (Fips.round_key ws j).
Proof.
  intros HF Hl. rewrite round_key_words by done.
  destruct (wd_word ws (4 * j) HF) as [L0 F0]; [lia|]. destruct (wd_word ws (4 * j + 1) HF) as [L1 F1]; [lia|].
  destruct (wd_word ws (4 * j + 2) HF) as [L2 F2]; [lia|]. destruct (wd_word ws (4 * j + 3) HF) as [L3 F3]; [lia|].
  split; [unfold zlen; rewrite !length_app; lia|]. rewrite !Forall_app. done.
Qed.

Lemma round_key_app ws t j : (4 * j + 4 <= length ws)%nat -> Fips.round_key (ws ++ t) j = Fips.round_key ws j.
Proof. intros Hl. rewrite !round_key_words by (rewrite ?length_app; lia). unfold wd. by rewrite !app_nth1 by lia. Qed.

Lemma expand_add n m nk ws : Fips.expand (n + m) nk ws = Fips.expand m nk (Fips.expand n nk ws).
Proof. revert ws. induction n as [|n IH]; intros ws; [done|]. apply IH. Qed.

Lemma lxor_words_comm (a b : list Z) : zip_with Z.lxor a b = zip_with Z.lxor b a.
Proof. revert b. induction a as [|x a IH]; intros [|y b]; simpl; [done..|]. by rewrite IH, Z.lxor_comm. Qed.

(** The value that is xored into the first word of a round key. *)
Definition key_core (nk : nat) (ws : list (list Z)) : list Z :=
  let temp := wd ws (length ws - 1) in
  if Nat.eqb (length ws mod nk) 0
  then zip_with Z.lxor (map Fips.sbox (Fips.rot_word temp)) (Fips.rcon (length ws / nk))
  else map Fips.sbox temp.

Ltac nat_mod n :=
  pose proof (Nat.div_mod_eq n 4); pose proof (Nat.mod_upper_bound n 4);
  pose proof (Nat.div_mod_eq n 8); pose proof (Nat.mod_upper_bound n 8); lia.

Lemma next_word_other nk ws :
  nk = 4%nat \/ nk = 8%nat -> (length ws mod 4 <> 0)%nat ->
  Fips.next_word nk ws = zip_with Z.lxor (wd ws (length ws - 1)) (wd ws (length ws - nk)).
Proof.
  intros Hnk Hl. unfold Fips.next_word, wd.
  assert (length ws mod nk <> 0 /\ length ws mod nk <> 4)%nat as [H0 H4]
    by (destruct Hnk as [-> | ->]; nat_mod (length ws)).
  rewrite (proj2 (Nat.eqb_neq _ 0)), (proj2 (Nat.eqb_neq _ 4)) by done. rewrite andb_false_r.
  apply lxor_words_comm.
Qed.

Lemma next_word_first nk ws :
  nk = 4%nat \/ nk = 8%nat -> (length ws mod 4 = 0)%nat ->
  Fips.next_word nk ws = zip_with Z.lxor (key_core nk ws) (wd ws (length ws - nk)).
Proof.
  intros Hnk Hl. unfold Fips.next_word, key_core, wd. destruct (Nat.eqb (length ws mod nk) 0) eqn:E.
  - apply lxor_words_comm.
  - apply Nat.eqb_neq in E. assert (nk = 8 /\ length ws mod nk = 4)%nat as [-> ->]
      by (destruct Hnk as [-> | ->]; nat_mod (length ws)).
    apply lxor_words_comm.
Qed.

Lemma nth_app_end (ws t : list (list Z)) j : nth (length ws + j) (ws ++ t) [] = nth j t [].
Proof. rewrite app_nth2 by lia. f_equal. lia. Qed.

Lemma expand_four nk ws i :
  nk = 4%nat \/ nk = 8%nat -> length ws = (4 * i)%nat -> (nk <= 4 * i)%nat ->
  let o j := wd ws (4 * i - nk + j) in
  Fips.expand 4 nk ws = ws ++ next_words (o 0%nat) (o 1%nat) (o 2%nat) (o 3%nat) (key_core nk ws).
Proof.
  intros Hnk Hl Hi o. unfold wd in o. cbn [Fips.expand]. rewrite (next_word_first nk ws) by (done || nat_mod (length ws)).
  set (w0 := zip_with Z.lxor (key_core nk ws) _).
  rewrite (next_word_other nk (ws ++ [w0])) by (try done; rewrite length_app, Hl; cbn [length]; nat_mod (4 * i + 1)%nat).
  set (w1 := zip_with Z.lxor _ (wd (ws ++ [w0]) _)). rewrite <- !app_assoc. cbn [app].
  rewrite (next_word_other nk (ws ++ [w0; w1])) by (try done; rewrite length_app, Hl; cbn [length]; nat_mod (4 * i + 2)%nat).
  set (w2 := zip_with Z.lxor _ (wd (ws ++ [w0; w1]) _)).
  rewrite (next_word_other nk (ws ++ [w0; w1; w2])) by (try done; rewrite length_app, Hl; cbn [length]; nat_mod (4 * i + 3)%nat).
  f_equal. unfold next_words.
  assert (w0 = zip_with Z.lxor (key_core nk ws) (o 0%nat)) as E0 by (unfold w0, o, wd; do 2 f_equal; lia).
  assert (w1 = zip_with Z.lxor w0 (o 1%nat)) as E1.
  { unfold w1, o, wd. rewrite length_app. cbn [length]. f_equal; [|rewrite app_nth1 by lia; f_equal; lia].
    replace (length ws + 1 - 1)%nat with (length ws + 0)%nat by lia. apply nth_app_end. }
  assert (w2 = zip_with Z.lxor w1 (o 2%nat)) as E2.
  { unfold w2, o, wd. rewrite length_app. cbn [length]. f_equal; [|rewrite app_nth1 by lia; f_equal; lia].
    replace (length ws + 2 - 1)%nat with (length ws + 1)%nat by lia. apply nth_app_end. }
  rewrite <- E0, <- E1, <- E2. do 3 f_equal. f_equal. rewrite length_app. cbn [length]. unfold o, wd.
  f_equal; [|rewrite app_nth1 by lia; f_equal; lia].
  replace (length ws + 3 - 1)%nat with (length ws + 2)%nat by lia. apply nth_app_end.
Qed.

Lemma zip_word a b : is_word a -> is_word b -> is_word (zip_with Z.lxor a b).
Proof.
  intros (? & ? & ? & ? & -> & Ha)%is_word_inv (? & ? & ? & ? & -> & Hb)%is_word_inv.
  destruct_and! Ha. destruct_and! Hb. split; [done|]. cbn [zip_with].
  repeat apply Forall_cons; try apply Forall_nil; block_octets.
Qed.

Lemma sub_word w : is_word w -> is_word (map Fips.sbox w).
Proof.
  intros (? & ? & ? & ? & -> & Hw)%is_word_inv. destruct_and! Hw. split; [done|]. cbn [map].
  repeat apply Forall_cons; try apply Forall_nil; block_octets.
Qed.

Lemma rot_word_word w : is_word w -> is_word (Fips.rot_word w).
Proof. intros (? & ? & ? & ? & -> & Hw)%is_word_inv. destruct_and! Hw. split; [done|]. by repeat apply Forall_cons. Qed.

Lemma rcon_word i : is_word (Fips.rcon i).
Proof.
  split; [done|]. repeat apply Forall_cons; try apply Forall_nil; try (by unfold fits).
  by apply iter_xtime_u8.
Qed.

Lemma next_words_words o0 o1 o2 o3 g :
  is_word o0 -> is_word o1 -> is_word o2 -> is_word o3 -> is_word g -> Forall is_word (next_words o0 o1 o2 o3 g).
Proof. intros. unfold next_words. repeat apply Forall_cons; try apply Forall_nil; repeat apply zip_word; done. Qed.

Lemma key_core_word nk ws : Forall is_word ws -> (1 <= length ws)%nat -> is_word (key_core nk ws).
Proof.
  intros HF Hl. unfold key_core. assert (is_word (wd ws (length ws - 1))) by (apply wd_word; [done|lia]).
  case_if; [apply zip_word; [by apply sub_word, rot_word_word|apply rcon_word]|by apply sub_word].
Qed.

(** The first [i] round keys are those of the schedule. *)
Record sched_inv (nk : nat) (key : list Z) (i : nat) (rounds : list (list Z)) : Prop := {
  si_rounds : length rounds = 15%nat;
  si_blocks : Forall is_block rounds;
  si_len : length (Fips.expand (4 * i - nk) nk (Fips.words key nk)) = (4 * i)%nat;
  si_words : Forall is_word (Fips.expand (4 * i - nk) nk (Fips.words key nk));
  si_keys : forall j, (j < i)%nat ->
    rounds !! j = Some (Fips.round_key (Fips.expand (4 * i - nk) nk (Fips.words key nk)) j)
}.

Lemma sched_step nk q key i rounds r :
  nk = (4 * q)%nat -> q = 1%nat \/ q = 2%nat -> (q <= i < 15)%nat -> sched_inv nk key i rounds -> is_block r ->
  let ws := Fips.expand (4 * i - nk) nk (Fips.words key nk) in
  exists r', chain_words (Fips.round_key ws (i - q)) (key_core nk ws ++ drop 4 r) = Some r' /\
    sched_inv nk key (S i) (<[i := r']> rounds).
Proof.
  intros Hq Hq12 Hi [Hr Hb Hl Hw Hk] Hrb ws.
  assert (nk = 4 \/ nk = 8)%nat as Hnk by lia.
  set (o j := wd ws (4 * i - nk + j)).
  assert (forall j, (j < 4)%nat -> is_word (o j)) as Ho by (intros j Hj; apply wd_word; [done|unfold ws; lia]).
  assert (is_word (key_core nk ws)) as Hc by (apply key_core_word; [done|unfold ws; lia]).
  set (new := next_words (o 0%nat) (o 1%nat) (o 2%nat) (o 3%nat) (key_core nk ws)).
  assert (Fips.expand (4 * S i - nk) nk (Fips.words key nk) = ws ++ new) as Ee.
  { replace (4 * S i - nk)%nat with (4 * i - nk + 4)%nat by lia. rewrite expand_add.
    by apply expand_four; [done|exact Hl|lia]. }
  assert (Forall is_word new) as Hn by (apply next_words_words; try apply Ho; done || lia).
  assert (length (ws ++ new) = (4 * S i)%nat) as Hl' by (rewrite length_app; unfold ws; rewrite Hl; simpl; lia).
  assert (Forall is_word (ws ++ new)) as Hw' by (apply Forall_app; done).
  assert (Fips.round_key (ws ++ new) i = concat new) as Hrk.
  { unfold Fips.round_key. rewrite drop_app_length' by (symmetry; exact Hl). done. }
  exists (concat new). split.
  - rewrite round_key_words by (unfold ws; lia).
    replace (4 * (i - q))%nat with (4 * i - nk)%nat by lia.
    rewrite <- (Nat.add_0_r (4 * i - nk)) at 1. apply chain_words_spec; try apply Ho; done || lia.
  - split; rewrite ?Ee; [by rewrite length_insert| |done|done|].
    + apply Forall_insert; [done|]. rewrite <- Hrk. apply round_key_block; [done|lia].
    + intros j Hj. destruct (decide (j = i)) as [->|Hne]; [by rewrite list_lookup_insert_eq, Hrk by lia|].
      rewrite list_lookup_insert_ne by done. rewrite Hk by lia. fold ws. f_equal. symmetry. apply round_key_app.
      unfold ws. lia.
Qed.

Lemma words_spec key q :
  Forall is_u8 key -> 16 * Z.of_nat q <= zlen key ->
  let ws := Fips.words key (4 * q) in
  length ws = (4 * q)%nat /\ Forall is_word ws /\
  forall j, (j < q)%nat -> Fips.round_key ws j = take 16 (drop (16 * j) key).
Proof.
  intros HF Hl ws. unfold zlen in Hl.
  assert (length ws = (4 * q)%nat) as Hlen by (unfold ws, Fips.words; by rewrite length_map, length_seq).
  assert (forall i, (i < 4 * q)%nat -> wd ws i = take 4 (drop (4 * i) key)) as Hwd.
  { intros i Hi. unfold wd, ws, Fips.words.
    rewrite (nth_indep _ [] (take 4 (drop (4 * 0) key))) by (rewrite length_map, length_seq; lia).
    rewrite (map_nth (fun i => take 4 (drop (4 * i) key))), seq_nth by lia. done. }
  split_and!; [done| |].
  - unfold ws, Fips.words. apply Forall_map, Forall_forall. intros i Hi%in_seq. split.
    + rewrite length_take, length_drop. lia.
    + by apply Forall_take, Forall_drop.
  - intros j Hj. rewrite round_key_words by lia. rewrite !Hwd by lia.
    replace (4 * (4 * j + 1))%nat with (16 * j + 4)%nat by lia.
    replace (4 * (4 * j + 2))%nat with (16 * j + 8)%nat by lia.
    replace (4 * (4 * j + 3))%nat with (16 * j + 12)%nat by lia.
    replace (4 * (4 * j))%nat with (16 * j)%nat by lia. rewrite <- !drop_drop.
    assert (16 <= length (drop (16 * j) key))%nat as H16 by (rewrite length_drop; lia).
    destruct (drop (16 * j) key) as [|? [|? [|? [|? [|? [|? [|? [|? [|? [|? [|? [|? [|? [|? [|? [|? ?]]]]]]]]]]]]]]]];
      simpl in H16; try lia. done.
Qed.

Lemma aget_key_inv nk key i rounds j :
  sched_inv nk key i rounds -> (j < i)%nat ->
  aget rounds (Z.of_nat j) = Some (Fips.round_key (Fips.expand (4 * i - nk) nk (Fips.words key nk)) j).
Proof. intros H Hj. unfold aget. rewrite decide_True, Nat2Z.id by lia. by apply (si_keys _ _ _ _ H). Qed.

Lemma aget_block (rounds : list (list Z)) i :
  Forall is_block rounds -> (i < length rounds)%nat -> exists r, aget rounds (Z.of_nat i) = Some r /\ is_block r.
Proof.
  intros HF Hi. unfold aget. rewrite decide_True, Nat2Z.id by lia.
  destruct (lookup_lt_is_Some_2 rounds i Hi) as [r Hr]. exists r. split; [done|]. by eapply (Forall_lookup_1 _ _ _ _ HF).
Qed.

Lemma aset_nat {A} (l : list A) i v : (i < length l)%nat -> aset l (Z.of_nat i) v = Some (<[i := v]> l).
Proof. intros Hi. unfold aset, zlen. rewrite decide_True by lia. by rewrite Nat2Z.id. Qed.

(** The word before the one to be computed, in the previous round key. *)
Lemma last_word ws i :
  length ws = (4 * i)%nat -> (0 < i)%nat -> Forall is_word ws ->
  drop 12 (Fips.round_key ws (i - 1)) = wd ws (length ws - 1).
Proof.
  intros Hl Hi HF. rewrite round_key_words by lia.
  destruct (wd_word ws (4 * (i - 1)) HF) as [L0 _]; [lia|].
  destruct (wd_word ws (4 * (i - 1) + 1) HF) as [L1 _]; [lia|].
  destruct (wd_word ws (4 * (i - 1) + 2) HF) as [L2 _]; [lia|].
  rewrite !app_assoc, drop_app_length' by (rewrite !length_app; lia). f_equal. lia.
Qed.

Lemma expand_128_loop key rounds0 :
  sched_inv 4 key 1 rounds0 ->
  exists rounds rc, for_up 1 11
    (fun i '(rounds, rc) =>
       p ← aget rounds (i - 1); r ← aget rounds i;
       r ← munge_rot aes_sbox p rc r;
       r ← chain_words p r;
       rounds ← aset rounds i r;
       Some (rounds, gf2_8_shift rc)) (rounds0, 1) = Some (rounds, rc) /\
    sched_inv 4 key 11 rounds.
Proof.
  intros H0.
  destruct (for_up_inv (fun i '(rounds, rc) => sched_inv 4 key (Z.to_nat i) rounds /\
      rc = Nat.iter (Z.to_nat i - 1) Fips.xtime 1) 1 11
    (fun i '(rounds, rc) =>
       p ← aget rounds (i - 1); r ← aget rounds i;
       r ← munge_rot aes_sbox p rc r;
       r ← chain_words p r;
       rounds ← aset rounds i r;
       Some (rounds, gf2_8_shift rc)) (rounds0, 1)) as ([rounds rc] & E & H1); [lia|done| |exists rounds, rc; split; [exact E|apply H1]].
  intros z [rounds rc] Hz [Hs ->]. assert (exists i, z = Z.of_nat i) as [i ->] by (exists (Z.to_nat z); lia).
  rewrite Nat2Z.id in *. replace (Z.of_nat i - 1) with (Z.of_nat (i - 1)) by lia.
  rewrite (aget_key_inv 4 key i rounds (i - 1) Hs) by lia. cbn [mbind option_bind].
  destruct (aget_block rounds i (si_blocks _ _ _ _ Hs)) as (r & -> & Hr); [rewrite (si_rounds _ _ _ _ Hs); lia|].
  cbn [mbind option_bind]. set (ws := Fips.expand (4 * i - 4) 4 (Fips.words key 4)).
  pose proof (si_len _ _ _ _ Hs) as Hl. pose proof (si_words _ _ _ _ Hs) as Hw. fold ws in Hl, Hw.
  rewrite (munge_rot_spec _ _ sbox_table) by (done || (apply round_key_block; [done|lia])).
  cbn [mbind option_bind]. rewrite last_word by (done || lia).
  assert (zip_with Z.lxor (map Fips.sbox (Fips.rot_word (wd ws (length ws - 1))))
            [Nat.iter (i - 1) Fips.xtime 1; 0; 0; 0] = key_core 4 ws) as ->.
  { unfold key_core. rewrite Hl, (Nat.mul_comm 4), Nat.Div0.mod_mul, Nat.div_mul by lia. done. }
  destruct (sched_step 4 1 key i rounds r) as (r' & E & Hs'); [done|by left|lia|done|done|].
  fold ws in E. rewrite E. cbn [mbind option_bind].
  rewrite aset_nat by (rewrite (si_rounds _ _ _ _ Hs); lia). cbn [mbind option_bind].
  eexists. split; [done|]. cbv beta iota. replace (Z.to_nat (Z.of_nat i + 1)) with (S i) by lia. split; [done|].
  replace (S i - 1)%nat with (S (i - 1)) by lia. apply gf2_8_shift_xtime. by apply iter_xtime_u8.
Qed.

(** The core of a round key of AES-256: rotated, with the constant, for an even
    one, plain for an odd one. *)
Lemma core_256_even ws m :
  length ws = (4 * (2 * m))%nat ->
  key_core 8 ws
  = zip_with Z.lxor (map Fips.sbox (Fips.rot_word (wd ws (length ws - 1)))) [Nat.iter (m - 1) Fips.xtime 1; 0; 0; 0].
Proof.
  intros Hl. unfold key_core. rewrite Hl. replace (4 * (2 * m))%nat with (m * 8)%nat by lia.
  rewrite Nat.Div0.mod_mul, Nat.div_mul by lia. done.
Qed.

Lemma core_256_odd ws m :
  length ws = (4 * (2 * m + 1))%nat -> key_core 8 ws = map Fips.sbox (wd ws (length ws - 1)).
Proof.
  intros Hl. unfold key_core. rewrite Hl. replace (4 * (2 * m + 1))%nat with (4 + m * 8)%nat by lia.
  rewrite Nat.Div0.mod_add. done.
Qed.

Definition expand_256_body : Z -> list (list Z) * Z -> option (list (list Z) * Z) :=
  fun i '(rounds, rc) =>
    p ← aget rounds (i - 1); r ← aget rounds i;
    '(r, rc) ← (if (i & 1) =? 0 then r ← munge_rot aes_sbox p rc r; Some (r, gf2_8_shift rc)
                else r ← munge_plain aes_sbox p r; Some (r, rc));
    old ← aget rounds (i - 2);
    r ← chain_words old r;
    rounds ← aset rounds i r;
    Some (rounds, rc).

Lemma land_1_even n : (Z.of_nat (2 * n) & 1) = 0 /\ (Z.of_nat (2 * n + 1) & 1) = 1.
Proof. rewrite !(Z.land_ones _ 1) by lia. change (2 ^ 1) with 2. lia. Qed.

Lemma expand_256_step key i rounds :
  sched_inv 8 key i rounds -> (2 <= i < 15)%nat ->
  exists rounds', expand_256_body (Z.of_nat i) (rounds, Nat.iter ((i - 1) / 2) Fips.xtime 1)
    = Some (rounds', Nat.iter (i / 2) Fips.xtime 1) /\ sched_inv 8 key (S i) rounds'.
Proof.
  intros Hs Hi. unfold expand_256_body.
  replace (Z.of_nat i - 1) with (Z.of_nat (i - 1)) by lia. replace (Z.of_nat i - 2) with (Z.of_nat (i - 2)) by lia.
  rewrite (aget_key_inv 8 key i rounds (i - 1)), (aget_key_inv 8 key i rounds (i - 2)) by (done || lia).
  cbn [mbind option_bind].
  destruct (aget_block rounds i (si_blocks _ _ _ _ Hs)) as (r & -> & Hr); [rewrite (si_rounds _ _ _ _ Hs); lia|].
  cbn [mbind option_bind]. set (ws := Fips.expand (4 * i - 8) 8 (Fips.words key 8)).
  pose proof (si_len _ _ _ _ Hs) as Hl. pose proof (si_words _ _ _ _ Hs) as Hw. fold ws in Hl, Hw.
  assert (is_block (Fips.round_key ws (i - 1))) as Hp by (apply round_key_block; [done|lia]).
  destruct (sched_step 8 2 key i rounds r) as (r' & E & Hs'); [done|by right|lia|done|done|]. fold ws in E.
  exists (<[i := r']> rounds). split; [|done].
  assert (aset rounds (Z.of_nat i) r' = Some (<[i := r']> rounds)) as Eset
    by (apply aset_nat; rewrite (si_rounds _ _ _ _ Hs); lia).
  destruct (Nat.Even_or_Odd i) as [[m ->]|[m ->]].
  - rewrite (proj1 (land_1_even m)). change (0 =? 0) with true. cbv iota.
    rewrite (munge_rot_spec _ _ sbox_table) by done. cbn [mbind option_bind]. rewrite last_word by (done || lia).
    replace ((2 * m - 1) / 2)%nat with (m - 1)%nat by (apply (Nat.div_unique _ 2 _ 1); lia).
    rewrite <- core_256_even by done. rewrite E. cbn [mbind option_bind]. rewrite Eset. cbn [mbind option_bind].
    do 2 f_equal. rewrite (Nat.mul_comm 2), Nat.div_mul by lia. rewrite gf2_8_shift_xtime by (by apply iter_xtime_u8).
    transitivity (Nat.iter (S (m - 1)) Fips.xtime 1); [done|f_equal; lia].
  - rewrite (proj2 (land_1_even m)). change (1 =? 0) with false. cbv iota.
    rewrite (munge_plain_spec _ _ sbox_table) by done. cbn [mbind option_bind]. rewrite last_word by (done || lia).
    rewrite <- (core_256_odd ws m) by done. rewrite E. cbn [mbind option_bind]. rewrite Eset. cbn [mbind option_bind].
    do 3 f_equal. replace (2 * m + 1 - 1)%nat with (m * 2)%nat by lia. rewrite Nat.div_mul by lia.
    apply (Nat.div_unique _ 2 _ 1); lia.
Qed.

Lemma expand_256_loop key rounds0 :
  sched_inv 8 key 2 rounds0 ->
  exists rounds rc, for_up 2 15 expand_256_body (rounds0, 1) = Some (rounds, rc) /\ sched_inv 8 key 15 rounds.
Proof.
  intros H0.
  destruct (for_up_inv (fun i '(rounds, rc) => sched_inv 8 key (Z.to_nat i) rounds /\
      rc = Nat.iter ((Z.to_nat i - 1) / 2) Fips.xtime 1) 2 15 expand_256_body (rounds0, 1))
    as ([rounds rc] & E & H1); [lia|done| |exists rounds, rc; split; [exact E|apply H1]].
  intros z [rounds rc] Hz [Hs ->]. assert (exists i, z = Z.of_nat i) as [i ->] by (exists (Z.to_nat z); lia).
  rewrite Nat2Z.id in *. destruct (expand_256_step key i rounds Hs) as (rounds' & E & Hs'); [lia|].
  eexists. split; [exact E|]. cbv beta iota. replace (Z.to_nat (Z.of_nat i + 1)) with (S i) by lia.
  split; [done|]. do 3 f_equal. lia.
Qed.

(** *** The expanded key as a whole *)

(** [ek] holds the round keys of the schedule for [nk] words of [key]. *)
Record expanded (nk nr : nat) (key : list Z) (ek : srtp_aes_expanded_key_t) : Prop := {
  ex_wf : keys_wf ek;
  ex_rounds : num_rounds ek = Z.of_nat nr;
  ex_keys : forall i, (i <= nr)%nat -> key_of ek i = Fips.round_key (Fips.schedule nk nr key) i
}.

(** Memory for an expanded key. *)
Definition key_memory (ek : srtp_aes_expanded_key_t) : Prop :=
  length (round ek) = 15%nat /\ Forall is_block (round ek).

Lemma sched_expanded nk nr key rounds :
  sched_inv nk key (S nr) rounds -> (nr = 10 \/ nr = 14)%nat ->
  expanded nk nr key {| round := rounds; num_rounds := Z.of_nat nr |}.
Proof.
  intros [Hr Hb Hl Hw Hk] Hn. split; cbn [num_rounds round]; [|done|].
  - unfold keys_wf. simpl. split_and!; [done|done|lia].
  - intros i Hi. unfold key_of. simpl. apply nth_lookup_Some. rewrite Hk by lia.
    unfold Fips.schedule. do 3 f_equal. lia.
Qed.

Lemma sched_start key q rounds :
  (q = 1 \/ q = 2)%nat -> length rounds = 15%nat -> Forall is_block rounds -> Forall is_u8 key ->
  16 * Z.of_nat q <= zlen key ->
  (forall j, (j < q)%nat -> rounds !! j = Some (take 16 (drop (16 * j) key))) ->
  sched_inv (4 * q) key q rounds.
Proof.
  intros Hq Hr Hb HF Hl Hk. destruct (words_spec key q HF Hl) as (Hlw & Hw & Hrk).
  split; rewrite ?Nat.sub_diag; cbn [Fips.expand]; try done.
  intros j Hj. rewrite Hk, Hrk by done. done.
Qed.

Lemma slice_block key i :
  Forall is_u8 key -> 0 <= i -> i + 16 <= zlen key -> is_block (take 16 (drop (Z.to_nat i) key)).
Proof.
  intros HF Hi Hl. split; [|by apply Forall_take, Forall_drop].
  change 16%nat with (Z.to_nat 16). rewrite zlen_take, zlen_drop by lia. lia.
Qed.

Lemma expand_128_spec key ek :
  key_memory ek -> Forall is_u8 key -> 16 <= zlen key ->
  exists ek', aes_128_expand_encryption_key key ek = Some ek' /\ expanded 4 10 key ek'.
Proof.
  intros [Hr Hb] HF Hl. unfold aes_128_expand_encryption_key. rewrite slice_Some by lia. cbn [mbind option_bind].
  change (Z.to_nat 16) with 16%nat. set (k0 := take 16 _).
  assert (is_block k0) as Bk by (apply slice_block; [done|lia|lia]).
  rewrite (aset_nat (round ek) 0) by lia. cbn [mbind option_bind].
  destruct (expand_128_loop key (<[0%nat := k0]> (round ek))) as (rounds & rc & E & Hs).
  { apply (sched_start key 1); [by left|by rewrite length_insert|by apply Forall_insert|done|lia|].
    intros j Hj. replace j with 0%nat by lia. by rewrite list_lookup_insert_eq by lia. }
  rewrite E. cbn [mbind option_bind]. eexists. split; [done|]. apply (sched_expanded 4 10); [exact Hs|by left].
Qed.

Lemma expand_256_spec key ek :
  key_memory ek -> Forall is_u8 key -> 32 <= zlen key ->
  exists ek', aes_256_expand_encryption_key key ek = Some ek' /\ expanded 8 14 key ek'.
Proof.
  intros [Hr Hb] HF Hl. unfold aes_256_expand_encryption_key. rewrite !slice_Some by lia. cbn [mbind option_bind].
  change (Z.to_nat 16) with 16%nat. set (k0 := take 16 (drop (Z.to_nat 0) key)). set (k1 := take 16 (drop 16 key)).
  assert (is_block k0) as Bk0 by (apply slice_block; [done|lia|lia]).
  assert (is_block k1) as Bk1 by (apply (slice_block key 16); [done|lia|lia]).
  rewrite (aset_nat (round ek) 0) by lia. cbn [mbind option_bind].
  rewrite (aset_nat _ 1) by (rewrite length_insert; lia). cbn [mbind option_bind]. fold expand_256_body.
  destruct (expand_256_loop key (<[1%nat := k1]> (<[0%nat := k0]> (round ek)))) as (rounds & rc & E & Hs).
  { apply (sched_start key 2); [by right|by rewrite !length_insert|by repeat apply Forall_insert|done|lia|].
    intros j Hj. destruct (decide (j = 1%nat)) as [->|].
    - by rewrite list_lookup_insert_eq by (rewrite length_insert; lia).
    - replace j with 0%nat by lia. rewrite list_lookup_insert_ne by done. by rewrite list_lookup_insert_eq by lia. }
  rewrite E. cbn [mbind option_bind]. eexists. split; [done|]. apply (sched_expanded 8 14); [exact Hs|by right].
Qed.

(** The two key lengths. *)
Definition aes_size (key_len : Z) (nk nr : nat) : Prop :=
  (key_len = 16 /\ nk = 4%nat /\ nr = 10%nat) \/ (key_len = 32 /\ nk = 8%nat /\ nr = 14%nat).

Lemma expand_encryption_spec key key_len nk nr ek :
  aes_size key_len nk nr -> key_memory ek -> Forall is_u8 key -> key_len <= zlen key ->
  exists ek', srtp_aes_expand_encryption_key key key_len ek = Some (srtp_err_status_ok, ek') /\
    expanded nk nr key ek'.
Proof.
  intros [(-> & -> & ->)|(-> & -> & ->)] Hm HF Hl; unfold srtp_aes_expand_encryption_key.
  - destruct (expand_128_spec key ek Hm HF Hl) as (ek' & E & H). exists ek'. split; [|done].
    change (16 =? 16) with true. cbv iota. by rewrite E.
  - destruct (expand_256_spec key ek Hm HF Hl) as (ek' & E & H). exists ek'. split; [|done].
    change (32 =? 16) with false. change (32 =? 24) with false. change (32 =? 32) with true. cbv iota. by rewrite E.
Qed.

Lemma cipher_ext nr k k' b :
  (forall i, (i <= nr)%nat -> k i = k' i) -> Fips.cipher nr k b = Fips.cipher nr k' b.
Proof.
  intros Hk. unfold Fips.cipher. rewrite !Hk by lia. do 3 f_equal.
  assert (forall l s, Forall (fun i => (i <= nr)%nat) l ->
    fold_left (fun s i => Fips.add_round_key (Fips.mix_columns (Fips.shift_rows (Fips.sub_bytes s))) (k i)) l s
    = fold_left (fun s i => Fips.add_round_key (Fips.mix_columns (Fips.shift_rows (Fips.sub_bytes s))) (k' i)) l s) as H.
  { induction l as [|i l IH]; intros s Hl; [done|]. apply Forall_cons_iff in Hl as [Hi Hl]. simpl.
    rewrite Hk by done. by apply IH. }
  apply H, Forall_forall. intros i Hi%in_seq. lia.
Qed.

Lemma encrypt_expanded nk nr key ek b :
  expanded nk nr key ek -> is_block b ->
  srtp_aes_encrypt b ek = Some (Fips.aes nk nr key b) /\ is_block (Fips.aes nk nr key b).
Proof.
  intros [Hwf Hn Hk] Hb. destruct (encrypt_spec ek b Hwf Hb) as [E B]. rewrite Hn, Nat2Z.id in E, B.
  rewrite (cipher_ext nr (key_of ek) (Fips.round_key (Fips.schedule nk nr key))) in E, B by done. done.
Qed.

(** ** The decryption schedule *)

Lemma inv_mix_col_eval k i s0 s1 s2 s3 c0 c1 c2 c3 :
  box_get aes_sbox (4 * i) k = Some s0 -> box_get aes_sbox (4 * i + 1) k = Some s1 ->
  box_get aes_sbox (4 * i + 2) k = Some s2 -> box_get aes_sbox (4 * i + 3) k = Some s3 ->
  aget U0 s0 = Some c0 -> aget U1 s1 = Some c1 -> aget U2 s2 = Some c2 -> aget U3 s3 = Some c3 ->
  inv_mix_col k i = Some (c0 ^^ c1 ^^ c2 ^^ c3).
Proof.
  intros E0 E1 E2 E3 F0 F1 F2 F3. unfold inv_mix_col. rewrite E0, E1, E2, E3. cbn [mbind option_bind].
  rewrite F0, F1, F2, F3. reflexivity.
Qed.

Lemma inv_mix_col_spec k i x0 x1 x2 x3 :
  aget k (4 * i) = Some x0 -> aget k (4 * i + 1) = Some x1 -> aget k (4 * i + 2) = Some x2 ->
  aget k (4 * i + 3) = Some x3 -> is_u8 x0 -> is_u8 x1 -> is_u8 x2 -> is_u8 x3 ->
  inv_mix_col k i
  = Some (word (Fips.gmul 14 x0 ^^ Fips.gmul 11 x1 ^^ Fips.gmul 13 x2 ^^ Fips.gmul 9 x3)
               (Fips.gmul 9 x0 ^^ Fips.gmul 14 x1 ^^ Fips.gmul 11 x2 ^^ Fips.gmul 13 x3)
               (Fips.gmul 13 x0 ^^ Fips.gmul 9 x1 ^^ Fips.gmul 14 x2 ^^ Fips.gmul 11 x3)
               (Fips.gmul 11 x0 ^^ Fips.gmul 13 x1 ^^ Fips.gmul 9 x2 ^^ Fips.gmul 14 x3)).
Proof.
  intros E0 E1 E2 E3 H0 H1 H2 H3.
  rewrite (inv_mix_col_eval k i _ _ _ _ _ _ _ _
    (box_get_spec _ _ sbox_table _ _ _ E0 H0) (box_get_spec _ _ sbox_table _ _ _ E1 H1)
    (box_get_spec _ _ sbox_table _ _ _ E2 H2) (box_get_spec _ _ sbox_table _ _ _ E3 H3)
    (U0_table _ (sbox_u8 _ H0)) (U1_table _ (sbox_u8 _ H1)) (U2_table _ (sbox_u8 _ H2)) (U3_table _ (sbox_u8 _ H3))).
  rewrite !inv_sbox_sbox by assumption. unfold col. by rewrite !word_lxor by auto 8 with octets.
Qed.

Lemma inv_mix_key_spec k : is_block k -> inv_mix_key k = Some (Fips.inv_mix_columns k).
Proof.
  intros Hk. apply is_block_inv in Hk as (k0 & k1 & k2 & k3 & k4 & k5 & k6 & k7 & k8 & k9 & k10 & k11 & k12 & k13 &
    k14 & k15 & -> & Hk). destruct_and! Hk.
  set (k := [k0; k1; k2; k3; k4; k5; k6; k7; k8; k9; k10; k11; k12; k13; k14; k15]). unfold inv_mix_key.
  rewrite (inv_mix_col_spec k 0 k0 k1 k2 k3 eq_refl eq_refl eq_refl eq_refl) by assumption.
  rewrite (inv_mix_col_spec k 1 k4 k5 k6 k7 eq_refl eq_refl eq_refl eq_refl) by assumption.
  rewrite (inv_mix_col_spec k 2 k8 k9 k10 k11 eq_refl eq_refl eq_refl eq_refl) by assumption.
  rewrite (inv_mix_col_spec k 3 k12 k13 k14 k15 eq_refl eq_refl eq_refl eq_refl) by assumption.
  cbn [mbind option_bind]. unfold k.
  rewrite set_v32_0 by block_octets. cbn [mbind option_bind]. rewrite set_v32_1 by block_octets. cbn [mbind option_bind].
  rewrite set_v32_2 by block_octets. cbn [mbind option_bind]. rewrite set_v32_3 by block_octets.
  unfold Fips.inv_mix_columns. by rewrite mix_eval.
Qed.

(** The loop that mixes the round keys but the first and the last. *)
Lemma inv_mix_loop n rounds :
  1 <= n -> n <= zlen rounds -> Forall is_block rounds ->
  exists rounds', for_up 1 n (fun i rounds => k ← aget rounds i; k ← inv_mix_key k; aset rounds i k) rounds
    = Some rounds' /\ Forall is_block rounds' /\ length rounds' = length rounds /\
    forall j, (j < length rounds)%nat ->
      nth j rounds' [] = if decide (1 <= Z.of_nat j < n) then Fips.inv_mix_columns (nth j rounds []) else nth j rounds [].
Proof.
  intros Hn Hl HF. unfold zlen in Hl.
  edestruct (for_up_inv (fun i r => Forall is_block r /\ length r = length rounds /\
    forall j, (j < length rounds)%nat ->
      nth j r [] = if decide (1 <= Z.of_nat j < i) then Fips.inv_mix_columns (nth j rounds []) else nth j rounds [])
    1 n (fun i rounds => k ← aget rounds i; k ← inv_mix_key k; aset rounds i k)) as (r & E & H);
    [lia| | |exists r; split; [exact E|exact H]].
  - split_and!; [done|done|]. intros j Hj. by rewrite decide_False by lia.
  - intros z r Hz (HFr & Hlr & A). assert (exists i, z = Z.of_nat i) as [i ->] by (exists (Z.to_nat z); lia).
    destruct (aget_block r i HFr) as (k & E & Hk); [lia|]. rewrite E. cbn [mbind option_bind].
    assert (nth i r [] = k) as Enth.
    { unfold aget in E. rewrite decide_True, Nat2Z.id in E by lia. by apply nth_lookup_Some. }
    rewrite inv_mix_key_spec by done. cbn [mbind option_bind]. rewrite aset_nat by lia.
    eexists. split; [done|]. split_and!; [apply Forall_insert; [done|block_octets]|by rewrite length_insert|].
    intros j Hj. destruct (decide (j = i)) as [->|Hne].
    + rewrite decide_True by lia. rewrite (nth_lookup_Some _ _ _ (Fips.inv_mix_columns k));
        [|by rewrite list_lookup_insert_eq by lia].
      rewrite <- Enth, A, decide_False by lia. done.
    + rewrite !nth_lookup, list_lookup_insert_ne by done. rewrite <- !nth_lookup, A by done.
      repeat case_decide; done || lia.
Qed.

(** Reversing the round keys, for the two numbers of rounds. *)
Lemma reverse_loop n (rounds : list (list Z)) :
  n = 10%nat \/ n = 14%nat -> length rounds = 15%nat -> Forall is_block rounds ->
  exists rounds', for_up 0 (Z.of_nat n ÷ 2)
      (fun i rounds =>
         tmp ← aget rounds (Z.of_nat n - i); r ← aget rounds i;
         rounds ← aset rounds (Z.of_nat n - i) r; aset rounds i tmp) rounds = Some rounds' /\
    length rounds' = 15%nat /\ Forall is_block rounds' /\
    forall j, (j <= n)%nat -> nth j rounds' [] = nth (n - j) rounds [].
Proof.
  intros Hn Hl HF.
  do 15 (destruct rounds as [|? rounds]; [simpl in Hl; lia|]). destruct rounds; [|simpl in Hl; lia].
  rewrite !Forall_cons_iff in HF. destruct_and! HF.
  destruct Hn as [-> | ->]; (eexists; split; [reflexivity|]; split_and!;
    [done|repeat apply Forall_cons; done|]); intros j Hj.
  - do 11 (destruct j as [|j]; [done|]). lia.
  - do 15 (destruct j as [|j]; [done|]). lia.
Qed.

Lemma expand_decryption_spec key key_len nk nr ek :
  aes_size key_len nk nr -> key_memory ek -> num_rounds ek = Z.of_nat nr -> Forall is_u8 key -> key_len <= zlen key ->
  exists dk, srtp_aes_expand_decryption_key key key_len ek = Some (srtp_err_status_ok, dk) /\ keys_wf dk /\
    num_rounds dk = Z.of_nat nr /\
    let k := Fips.round_key (Fips.schedule nk nr key) in
    key_of dk 0 = k nr /\ key_of dk nr = k 0%nat /\
    forall i, (0 < i < nr)%nat -> key_of dk i = Fips.inv_mix_columns (k (nr - i)%nat).
Proof.
  intros Hsz Hm Hn HF Hl. unfold srtp_aes_expand_decryption_key.
  destruct (expand_encryption_spec key key_len nk nr ek Hsz Hm HF Hl) as (ek1 & -> & [(HFk & Hl15 & Hnr) Hnum Hk]).
  cbn [mbind option_bind]. change (is_err srtp_err_status_ok) with false. cbv iota. rewrite Hn.
  assert (nr = 10 \/ nr = 14)%nat as Hnr' by (destruct Hsz as [(_ & _ & ->)|(_ & _ & ->)]; lia).
  destruct (reverse_loop nr (round ek1) Hnr' Hl15 HFk) as (r1 & E1 & L1 & F1 & A1). rewrite E1. cbn [mbind option_bind].
  destruct (inv_mix_loop (Z.of_nat nr) r1) as (r2 & E2 & F2 & L2 & A2); [lia|unfold zlen; lia|done|].
  rewrite E2. cbn [mbind option_bind]. eexists. split; [done|].
  unfold keys_wf, key_of. cbn [round num_rounds]. split_and!; [done|congruence|done|done|..].
  - rewrite A2, decide_False, A1, Nat.sub_0_r by lia. by apply Hk.
  - rewrite A2, decide_False, A1, Nat.sub_diag by lia. apply Hk. lia.
  - intros i Hi. rewrite A2, decide_True, A1 by lia. f_equal. apply Hk. lia.
Qed.

(** ** Properties *)

(** C26: libsrtp's AES is AES.  For both key lengths it supports, the table-driven
    key expansion succeeds on whatever the memory held, and encrypting a block
    under the result is the cipher of FIPS 197 (substitution by field inversion
    and affine map, row shift, column mix, key addition, over the schedule of
    the standard).  Any other key length is refused and the key left alone. *)
Theorem srtp_aes_encrypt_fips key key_len nk nr ek b :
  key_memory ek -> Forall is_u8 key -> is_block b ->
  (aes_size key_len nk nr -> key_len <= zlen key ->
   exists ek', srtp_aes_expand_encryption_key key key_len ek = Some (srtp_err_status_ok, ek') /\
     srtp_aes_encrypt b ek' = Some (Fips.aes nk nr key b)) /\
  (key_len <> 16 -> key_len <> 32 ->
   srtp_aes_expand_encryption_key key key_len ek = Some (srtp_err_status_bad_param, ek)).
Proof.
  intros Hm HF Hb. split.
  - intros Hsz Hl. destruct (expand_encryption_spec key key_len nk nr ek Hsz Hm HF Hl) as (ek' & E & Hex).
    exists ek'. split; [done|]. by apply (encrypt_expanded nk nr key ek').
  - intros H16 H32. unfold srtp_aes_expand_encryption_key.
    rewrite (proj2 (Z.eqb_neq _ 16)), (proj2 (Z.eqb_neq _ 32)) by done. by case_if.
Qed.

(** Decryption undoes encryption: when the memory of the decryption key
    already says how many rounds there are, the schedule that
    [srtp_aes_expand_decryption_key] builds inverts every block that
    [srtp_aes_encrypt] produces under the same key. *)
Theorem srtp_aes_decrypt_encrypt key key_len nk nr ek dk b :
  aes_size key_len nk nr -> Forall is_u8 key -> key_len <= zlen key ->
  key_memory ek -> key_memory dk -> num_rounds dk = Z.of_nat nr -> is_block b ->
  exists ek' dk' c, srtp_aes_expand_encryption_key key key_len ek = Some (srtp_err_status_ok, ek') /\
    srtp_aes_expand_decryption_key key key_len dk = Some (srtp_err_status_ok, dk') /\
    srtp_aes_encrypt b ek' = Some c /\ srtp_aes_decrypt c dk' = Some b.
Proof.
  intros Hsz HF Hl Hm Hm' Hn Hb.
  destruct (expand_encryption_spec key key_len nk nr ek Hsz Hm HF Hl) as (ek' & E & Hex).
  destruct (expand_decryption_spec key key_len nk nr dk Hsz Hm' Hn HF Hl) as (dk' & E' & Hwf & Hnr & H0 & Hlast & Hi).
  destruct (encrypt_expanded nk nr key ek' b Hex Hb) as [Ec Bc].
  exists ek', dk', (Fips.aes nk nr key b). split_and!; [done|done|done|].
  destruct (decrypt_spec dk' _ Hwf Bc) as [-> _]. f_equal. rewrite Hnr, Nat2Z.id. unfold Fips.aes.
  apply inv_cipher_cipher; [|exact Hi|done|destruct Hsz as [(_ & _ & ->)|(_ & _ & ->)]; lia|done|done].
  intros i Hle. rewrite <- (ex_keys _ _ _ _ Hex) by done. apply (aget_key ek' i (ex_wf _ _ _ _ Hex)).
  destruct Hsz as [(_ & _ & ->)|(_ & _ & ->)]; lia.
Qed.

(** [srtp_aes_expand_decryption_key] reads the number of rounds before the
    expansion has set it: in fresh (zeroed) memory it inverts nothing, and the
    "decryption" key it returns is the encryption key. *)
Theorem srtp_aes_expand_decryption_key_fresh key key_len ek :
  num_rounds ek = 0 ->
  srtp_aes_expand_decryption_key key key_len ek = srtp_aes_expand_encryption_key key key_len ek.
Proof.
  intros Hn. unfold srtp_aes_expand_decryption_key. rewrite Hn.
  destruct (srtp_aes_expand_encryption_key key key_len ek) as [[st ek']|] eqn:E; [|done].
  cbn [mbind option_bind]. destruct (is_err st) eqn:Est; [done|].
  assert (st = srtp_err_status_ok) as -> by (unfold is_err in Est; apply bool_decide_eq_false_1 in Est; by apply dec_stable).
  rewrite !for_up_nil by done. cbn [mbind option_bind]. by destruct ek'.
Qed.

(** ** Instances *)

Definition zero_key : srtp_aes_expanded_key_t :=
  {| round := replicate 15 (replicate 16 0); num_rounds := 0 |}.
Definition used_key : srtp_aes_expanded_key_t :=
  {| round := replicate 15 (replicate 16 0); num_rounds := 10 |}.
Definition c1_key : list Z := seqZ 0 16.
Definition c1_plain : list Z := map (fun i => 17 * i) (seqZ 0 16).

Lemma u8_list_dec l : bool_decide (Forall (fun x => 0 <= x < 2 ^ 8) l) = true -> Forall is_u8 l.
Proof. intros ?%bool_decide_eq_true_1. done. Qed.

Lemma zero_memory n : key_memory {| round := replicate 15 (replicate 16 0); num_rounds := n |}.
Proof.
  split; [done|]. apply Forall_replicate. split; [done|]. by apply u8_list_dec.
Qed.

(** FIPS 197, appendix C.1, on the code's side. *)
Lemma srtp_aes_encrypt_fips_witness :
  exists ek', srtp_aes_expand_encryption_key c1_key 16 zero_key = Some (srtp_err_status_ok, ek') /\
    srtp_aes_encrypt c1_plain ek' =
      Some [0x69; 0xc4; 0xe0; 0xd8; 0x6a; 0x7b; 0x04; 0x30; 0xd8; 0xcd; 0xb7; 0x80; 0x70; 0xb4; 0xc5; 0x5a].
Proof.
  destruct (srtp_aes_encrypt_fips c1_key 16 4 10 zero_key c1_plain) as [H _];
    [apply zero_memory|by apply u8_list_dec|split; [done|by apply u8_list_dec]|].
  destruct H as (ek' & E & E'); [by left|done|]. exists ek'. split; [exact E|]. rewrite E'. vm_compute. reflexivity.
Defined.

Lemma srtp_aes_decrypt_encrypt_witness :
  exists ek' dk' c, srtp_aes_expand_encryption_key c1_key 16 zero_key = Some (srtp_err_status_ok, ek') /\
    srtp_aes_expand_decryption_key c1_key 16 used_key = Some (srtp_err_status_ok, dk') /\
    srtp_aes_encrypt c1_plain ek' = Some c /\ srtp_aes_decrypt c dk' = Some c1_plain.
Proof.
  apply (srtp_aes_decrypt_encrypt c1_key 16 4 10 zero_key used_key c1_plain);
    [by left|by apply u8_list_dec|done|apply zero_memory|apply zero_memory|done|split; [done|by apply u8_list_dec]].
Defined.

(** In fresh memory the round trip fails. *)
Lemma srtp_aes_expand_decryption_key_fresh_witness :
  exists ek', srtp_aes_expand_decryption_key c1_key 16 zero_key = Some (srtp_err_status_ok, ek') /\
    (c ← srtp_aes_encrypt c1_plain ek'; srtp_aes_decrypt c ek') <> Some c1_plain.
Proof.
  rewrite (srtp_aes_expand_decryption_key_fresh c1_key 16 zero_key eq_refl).
  destruct (srtp_aes_expand_encryption_key c1_key 16 zero_key) as [[st ek']|] eqn:E; [|vm_compute in E; discriminate E].
  vm_compute in E. injection E as <- <-. eexists. split; [reflexivity|]. vm_compute. discriminate.
Defined.
