(* ===== verification/AesIcm.v ===== *)
(** AES integer counter mode (libsrtp crypto/cipher/aes_icm.c,
    crypto/include/aes_icm.h).

    A [v128_t] is kept as its sixteen octets ([v8]).  The block cipher is used
    through the interface [BlockCipher]. *)

From S2P Require Import Prelude Err SrtpPolicy Aes AesKeys.

(** What counter mode needs of the cipher (crypto/cipher/aes.c): key expansion
    into the memory of a key, and the encryption of one block.  [bc_E n key] is
    the permutation the cipher computes for the first [n] octets of [key];
    expansion of a key of either length succeeds in any key memory, which can
    be used again, and encryption under the result is that permutation. *)
Class BlockCipher := {
  bc_key : Type;
  bc_memory : bc_key -> Prop;
  bc_expand : list Z -> Z -> bc_key -> option (srtp_err_status_t * bc_key);
  bc_encrypt : list Z -> bc_key -> option (list Z);
  bc_E : Z -> list Z -> list Z -> list Z;
  bc_law n key old :
    n = 16 \/ n = 32 -> bc_memory old -> Forall is_u8 key -> n <= zlen key ->
    exists k, bc_expand key n old = Some (srtp_err_status_ok, k) /\ bc_memory k /\
      forall b, is_block b -> bc_encrypt b k = Some (bc_E n key b) /\ is_block (bc_E n key b);
  (** Zeroed memory can hold a key. *)
  bc_zero : bc_key;
  bc_zero_memory : bc_memory bc_zero
}.

(** AES is such a cipher. *)
#[export, program] Instance aes_cipher : BlockCipher := {
  bc_key := srtp_aes_expanded_key_t;
  bc_memory := key_memory;
  bc_expand := srtp_aes_expand_encryption_key;
  bc_encrypt := srtp_aes_encrypt;
  bc_E n key b := if n =? 16 then Fips.aes 4 10 key b else Fips.aes 8 14 key b;
  bc_zero := zero_key;
  bc_zero_memory := zero_memory _
}.
Next Obligation.
  intros n key old Hn Hm HF Hl.
  destruct (expand_encryption_spec key n (if n =? 16 then 4 else 8) (if n =? 16 then 10 else 14) old) as (k & E & Hex);
    [|done|done|done|].
  { destruct Hn as [-> | ->]; [by left|by right]. }
  exists k. split; [done|]. split; [split; apply (ex_wf _ _ _ _ Hex)|]. intros b Hb. destruct Hn as [-> | ->]; by apply (encrypt_expanded _ _ key k b).
Qed.

Section Icm.
Context `{BlockCipher}.

Record srtp_aes_icm_ctx_t := {
  counter : list Z;
  offset : list Z;
  keystream_buffer : list Z;
  expanded_key : bc_key;
  bytes_in_buffer : Z;
  key_size : Z
}.

(** The cipher object that the allocation fills in. *)
Record srtp_cipher_t := {
  cipher_state : srtp_aes_icm_ctx_t;
  cipher_algorithm : Z;
  cipher_key_len' : Z
}.

(** [srtp_aes_icm_alloc]: [ok1] and [ok2] tell whether the two allocations
    succeed; [zero_key] is the expanded key in zeroed memory. *)
Definition srtp_aes_icm_alloc (zero_key : bc_key) (ok1 ok2 : bool) (key_len : Z)
    : srtp_err_status_t * option srtp_cipher_t :=
  if negb (key_len =? SRTP_AES_ICM_128_KEY_LEN_WSALT) && negb (key_len =? SRTP_AES_ICM_256_KEY_LEN_WSALT)
  then (srtp_err_status_bad_param, None)
  else if negb ok1 then (srtp_err_status_alloc_fail, None)
  else if negb ok2 then (srtp_err_status_alloc_fail, None)
  else
    (srtp_err_status_ok,
     Some {| cipher_state :=
               {| counter := replicate 16 0; offset := replicate 16 0; keystream_buffer := replicate 16 0;
                  expanded_key := zero_key; bytes_in_buffer := 0; key_size := key_len |};
             cipher_algorithm :=
               if key_len =? SRTP_AES_ICM_256_KEY_LEN_WSALT then SRTP_AES_ICM_256 else SRTP_AES_ICM_128;
             cipher_key_len' := key_len |}).

(** [srtp_aes_icm_dealloc(c)], with the contents of the context's block as it
    is freed: the key material is gone from it. *)
Definition srtp_aes_icm_dealloc (zero_key : bc_key) (c : option srtp_cipher_t)
    : srtp_err_status_t * option srtp_aes_icm_ctx_t :=
  match c with
  | None => (srtp_err_status_bad_param, None)
  | Some _ =>
      (srtp_err_status_ok,
       Some {| counter := replicate 16 0; offset := replicate 16 0; keystream_buffer := replicate 16 0;
               expanded_key := zero_key; bytes_in_buffer := 0; key_size := 0 |})
  end.

(** [srtp_aes_icm_context_init(c, key)]. *)
Definition srtp_aes_icm_context_init (c : srtp_aes_icm_ctx_t) (key : list Z)
    : option (srtp_err_status_t * srtp_aes_icm_ctx_t) :=
  if (key_size c =? SRTP_AES_ICM_128_KEY_LEN_WSALT) || (key_size c =? SRTP_AES_ICM_256_KEY_LEN_WSALT) then
    let base_key_len := key_size c - SRTP_SALT_LEN in
    let zero := replicate 16 0 in
    let copy_len := key_size c - base_key_len in
    let copy_len := if SRTP_SALT_LEN <? copy_len then SRTP_SALT_LEN else copy_len in
    salt ← slice key base_key_len copy_len;
    ctr ← blit zero 0 salt;
    '(status, k) ← bc_expand key base_key_len (expanded_key c);
    if is_err status
    then Some (status, {| counter := zero; offset := zero; keystream_buffer := keystream_buffer c;
                          expanded_key := k; bytes_in_buffer := bytes_in_buffer c;
                          key_size := key_size c |})
    else Some (srtp_err_status_ok,
               {| counter := ctr; offset := ctr; keystream_buffer := keystream_buffer c;
                  expanded_key := k; bytes_in_buffer := 0; key_size := key_size c |})
  else Some (srtp_err_status_bad_param, c).

(** [srtp_aes_icm_set_iv(c, iv, direction)]: [iv] has sixteen octets. *)
Definition srtp_aes_icm_set_iv (c : srtp_aes_icm_ctx_t) (iv : list Z)
    : option (srtp_err_status_t * srtp_aes_icm_ctx_t) :=
  nonce ← slice iv 0 16;
  Some (srtp_err_status_ok,
        {| counter := xor_octets (offset c) nonce; offset := offset c;
           keystream_buffer := keystream_buffer c; expanded_key := expanded_key c;
           bytes_in_buffer := 0; key_size := key_size c |}).

(** [srtp_aes_icm_advance(c)]: the last two octets count, with a carry from
    the last to the one before. *)
Definition srtp_aes_icm_advance (c : srtp_aes_icm_ctx_t) : option srtp_aes_icm_ctx_t :=
  ks ← bc_encrypt (counter c) (expanded_key c);
  c15 ← aget (counter c) 15;
  ctr ← aset (counter c) 15 (u8 (c15 + 1));
  ctr ← (if u8 (c15 + 1) =? 0
         then c14 ← aget ctr 14; aset ctr 14 (u8 (c14 + 1)) else Some ctr);
  Some {| counter := ctr; offset := offset c; keystream_buffer := ks;
          expanded_key := expanded_key c; bytes_in_buffer := 16; key_size := key_size c |}.

(** [for (i = lo; i < hi; i++) *buf++ ^= ks[i]] from offset [p] of the buffer. *)
Definition xor_loop (buf ks : list Z) (p lo hi : Z) : option (list Z) :=
  for_up lo hi
    (fun i buf => b ← aget buf (p + (i - lo)); k ← aget ks i; aset buf (p + (i - lo)) (b ^^ k)) buf.

(** One whole block: octet by octet when the address of the data is not a
    multiple of four, else word by word. *)
Definition xor_block (addr : Z) (buf ks : list Z) (p : Z) : option (list Z) :=
  if negb (((addr + p) & 3) =? 0) then xor_loop buf ks p 0 16
  else
    for_up 0 4
      (fun i buf => b ← le32 buf (p + 4 * i); k ← le32 ks (4 * i); put_le32 buf (p + 4 * i) (b ^^ k)) buf.

(** [htons(c->counter.v16[7])]: the block counter. *)
Definition block_index (ctr : list Z) : option Z :=
  hi ← aget ctr 14; lo ← aget ctr 15; Some ((hi << 8) .| lo).

(** [srtp_aes_icm_encrypt(c, buf, &enc_len)] on the octets at [buf], which lie
    at address [addr]. *)
Definition srtp_aes_icm_encrypt (addr : Z) (c : srtp_aes_icm_ctx_t) (buf : list Z) (enc_len : Z)
    : option (srtp_err_status_t * srtp_aes_icm_ctx_t * list Z) :=
  index ← block_index (counter c);
  if 0xffff <? u32 (enc_len + index) then Some (srtp_err_status_terminus, c, buf)
  else
    let set_bytes (c : srtp_aes_icm_ctx_t) (n : Z) :=
      {| counter := counter c; offset := offset c; keystream_buffer := keystream_buffer c;
         expanded_key := expanded_key c; bytes_in_buffer := n; key_size := key_size c |} in
    let bib := bytes_in_buffer c in
    if enc_len <=? bib then
      buf ← xor_loop buf (keystream_buffer c) 0 (16 - bib) (16 - bib + enc_len);
      Some (srtp_err_status_ok, set_bytes c (bib - enc_len), buf)
    else
      buf ← xor_loop buf (keystream_buffer c) 0 (16 - bib) 16;
      let n := enc_len - bib in
      '(c, buf) ← for_up 0 (n / 16)
        (fun i '(c, buf) =>
           c ← srtp_aes_icm_advance c;
           buf ← xor_block addr buf (keystream_buffer c) (bib + 16 * i);
           Some (c, buf)) (set_bytes c 0, buf);
      if negb ((n & 0xf) =? 0) then
        c ← srtp_aes_icm_advance c;
        buf ← xor_loop buf (keystream_buffer c) (bib + 16 * (n / 16)) 0 (n & 0xf);
        Some (srtp_err_status_ok, set_bytes c (16 - (n & 0xf)), buf)
      else Some (srtp_err_status_ok, set_bytes c 0, buf).

(** ** The key stream *)

(** The counter block of key stream block [n] from the counter block [c0]: the
    16-bit big-endian field at the end is advanced by [n]. *)
Definition low16 (c0 : list Z) : Z := znth c0 14 * 2 ^ 8 + znth c0 15.

Definition ctr (c0 : list Z) (n : Z) : list Z :=
  take 14 c0 ++ [((low16 c0 + n) / 2 ^ 8) mod 2 ^ 8; (low16 c0 + n) mod 2 ^ 8].

(** Octet [k] of the key stream. *)
Definition stream_octet (E : list Z -> list Z) (c0 : list Z) (k : Z) : Z :=
  znth (E (ctr c0 (k / 16))) (k mod 16).

(** Encryption under the expanded key [k] is the permutation [E] of blocks. *)
Definition enciphers (k : bc_key) (E : list Z -> list Z) : Prop :=
  forall b, is_block b -> bc_encrypt b k = Some (E b) /\ is_block (E b).

(** The context is at position [pos] of the stream of [c0]: [n] blocks have
    been produced and [bytes_in_buffer] octets of the last are unused. *)
Record icm_at (E : list Z -> list Z) (c0 : list Z) (pos : Z) (c : srtp_aes_icm_ctx_t) : Prop := {
  ia_key : enciphers (expanded_key c) E;
  ia_n : 0 <= pos;
  ia_bytes : bytes_in_buffer c = (- pos) mod 16;
  ia_counter : counter c = ctr c0 ((pos + 15) / 16);
  ia_len : zlen (keystream_buffer c) = 16;
  ia_u8 : Forall is_u8 (keystream_buffer c);
  ia_buffer : bytes_in_buffer c <> 0 -> keystream_buffer c = E (ctr c0 (pos / 16))
}.

(** Octets [lo .. hi) of [buf] xored with the stream at [pos]. *)
Definition xored (E : list Z -> list Z) (c0 : list Z) (pos len : Z) (buf buf' : list Z) : Prop :=
  zlen buf' = zlen buf /\
  forall j, 0 <= j < zlen buf ->
    znth buf' j = if decide (j < len) then znth buf j ^^ stream_octet E c0 (pos + j) else znth buf j.

(** ** Lemmas *)

Lemma ctr_block c0 n : is_block c0 -> is_block (ctr c0 n).
Proof.
  intros [Hl HF]. unfold ctr. split.
  - rewrite zlen_app. change 14%nat with (Z.to_nat 14). rewrite zlen_take by lia.
    change (zlen [_; _]) with 2. lia.
  - apply Forall_app. split; [by apply Forall_take|].
    repeat constructor; unfold fits; lia.
Qed.

Lemma low16_bound c0 : is_block c0 -> 0 <= low16 c0 < 2 ^ 16.
Proof.
  intros [Hl HF]. unfold low16.
  pose proof (znth_Forall is_u8 c0 14 HF). pose proof (znth_Forall is_u8 c0 15 HF). unfold fits in *. lia.
Qed.

Lemma ctr_octets c0 n : is_block c0 ->
  znth (ctr c0 n) 14 = ((low16 c0 + n) / 2 ^ 8) mod 2 ^ 8 /\ znth (ctr c0 n) 15 = (low16 c0 + n) mod 2 ^ 8.
Proof.
  intros [Hl HF]. unfold ctr.
  assert (zlen (take 14 c0) = 14) as Ht.
  { change 14%nat with (Z.to_nat 14). rewrite zlen_take by lia. lia. }
  rewrite !znth_app, Ht by lia. rewrite !decide_False by lia. done.
Qed.

Lemma ctr_0 c0 : is_block c0 -> ctr c0 0 = c0.
Proof.
  intros Hb. pose proof (low16_bound c0 Hb) as Hlow. destruct (ctr_octets c0 0 Hb) as [E14 E15].
  destruct (ctr_block c0 0 Hb) as [Hl0 _]. pose proof Hb as [Hl HF].
  apply znth_ext; [lia|]. intros i Hi. rewrite Hl0 in Hi.
  assert (znth (ctr c0 0) 14 = znth c0 14 /\ znth (ctr c0 0) 15 = znth c0 15) as [A B].
  { pose proof (znth_Forall is_u8 c0 14 HF). pose proof (znth_Forall is_u8 c0 15 HF).
    rewrite E14, E15. unfold low16, fits in *. lia. }
  destruct (decide (i = 14)) as [->|]; [done|]. destruct (decide (i = 15)) as [->|]; [done|].
  unfold ctr. change 14%nat with (Z.to_nat 14). rewrite znth_app, zlen_take by lia.
  rewrite decide_True, znth_take by lia. done.
Qed.

Lemma block_index_ctr c0 n : is_block c0 ->
  block_index (ctr c0 n) = Some ((low16 c0 + n) mod 2 ^ 16).
Proof.
  intros Hb. destruct (ctr_octets c0 n Hb) as [E14 E15]. destruct (ctr_block c0 n Hb) as [Hl _].
  unfold block_index. rewrite !aget_znth, E14, E15 by lia. simpl.
  rewrite Z.lor_comm, lor_shiftl_add by (unfold fits; lia). f_equal. lia.
Qed.

Lemma set_ctr_octets (p : list Z) (a b v : Z) :
  List.length p = 14%nat ->
  aset (p ++ [a; b]) 15 v = Some (p ++ [a; v]) /\ aset (p ++ [a; b]) 14 v = Some (p ++ [v; b]).
Proof.
  intros Hp. split; rewrite aset_Some by (rewrite zlen_app; unfold zlen; rewrite Hp; simpl; lia); f_equal;
    rewrite insert_app_r_alt, Hp by (rewrite Hp; lia); done.
Qed.

(** Clocking the counter. *)
Lemma advance_spec E c c0 n :
  is_block c0 -> enciphers (expanded_key c) E -> counter c = ctr c0 n ->
  srtp_aes_icm_advance c = Some
    {| counter := ctr c0 (n + 1); offset := offset c;
       keystream_buffer := E (ctr c0 n);
       expanded_key := expanded_key c; bytes_in_buffer := 16; key_size := key_size c |}.
Proof.
  intros Hb Hen Ec. unfold srtp_aes_icm_advance. rewrite Ec.
  rewrite (proj1 (Hen _ (ctr_block c0 n Hb))). cbn [mbind option_bind].
  destruct (ctr_block c0 n Hb) as [Hl _]. destruct (ctr_octets c0 n Hb) as [E14 E15].
  rewrite (aget_znth _ 15), E15 by lia. cbn [mbind option_bind].
  assert (List.length (take 14 c0) = 14%nat) as Ht
    by (rewrite length_take; destruct Hb as [Hb _]; unfold zlen in Hb; lia).
  set (ks := E (ctr c0 n)). clearbody ks.
  unfold ctr at 1. rewrite (proj1 (set_ctr_octets _ _ _ _ Ht)). cbn [mbind option_bind].
  set (l := low16 c0 + n) in *. set (p := take 14 c0) in *.
  assert (u8 (l mod 2 ^ 8 + 1) = (l + 1) mod 2 ^ 8) as E1 by (unfold wrap; lia). rewrite E1.
  assert (ctr c0 (n + 1) = p ++ [((l + 1) / 2 ^ 8) mod 2 ^ 8; (l + 1) mod 2 ^ 8]) as ->
    by (unfold ctr, l, p; by rewrite Z.add_assoc).
  case_if.
  - rewrite aget_app by lia. unfold zlen. rewrite Ht. rewrite decide_False by lia.
    change (aget [(l / 2 ^ 8) mod 2 ^ 8; (l + 1) mod 2 ^ 8] (14 - Z.of_nat 14)) with (Some ((l / 2 ^ 8) mod 2 ^ 8)).
    cbn [mbind option_bind]. rewrite (proj2 (set_ctr_octets _ _ _ _ Ht)). cbn [mbind option_bind].
    assert (u8 ((l / 2 ^ 8) mod 2 ^ 8 + 1) = ((l + 1) / 2 ^ 8) mod 2 ^ 8) as -> by (unfold wrap; lia). done.
  - cbn [mbind option_bind].
    assert ((l / 2 ^ 8) mod 2 ^ 8 = ((l + 1) / 2 ^ 8) mod 2 ^ 8) as -> by lia. done.
Qed.

Lemma xor_loop_spec buf ks p lo hi :
  0 <= p -> 0 <= lo <= hi -> hi <= zlen ks -> p + (hi - lo) <= zlen buf ->
  exists buf', xor_loop buf ks p lo hi = Some buf' /\ zlen buf' = zlen buf /\
    forall j, 0 <= j < zlen buf ->
      znth buf' j = if decide (p <= j < p + (hi - lo)) then znth buf j ^^ znth ks (lo + (j - p))
                    else znth buf j.
Proof.
  intros Hp Hlo Hhi Hl. unfold xor_loop.
  edestruct (for_up_inv (fun i b => zlen b = zlen buf /\ forall j, 0 <= j < zlen buf ->
      znth b j = if decide (p <= j < p + (i - lo)) then znth buf j ^^ znth ks (lo + (j - p))
                 else znth buf j) lo hi) as (b & E & Hb); [lia| | |rewrite E; eauto].
  - split; [done|]. intros j Hj. by rewrite decide_False by lia.
  - intros i b Hi [Hz A]. rewrite !aget_znth by lia. simpl. rewrite aset_Some by lia.
    eexists. split; [done|]. rewrite zlen_insert. split; [done|]. intros j Hj.
    rewrite znth_insert by lia. rewrite !A by lia.
    repeat case_decide; subst; try lia; try done. do 2 f_equal. lia.
Qed.

(** *** The word-wise branch *)

Lemma xor_word buf ks p q :
  Forall is_u8 buf -> Forall is_u8 ks -> 0 <= p -> p + 4 <= zlen buf -> 0 <= q -> q + 4 <= zlen ks ->
  exists buf', (b ← le32 buf p; k ← le32 ks q; put_le32 buf p (b ^^ k)) = Some buf' /\
    zlen buf' = zlen buf /\ Forall is_u8 buf' /\
    forall j, 0 <= j < zlen buf ->
      znth buf' j = if decide (p <= j < p + 4) then znth buf j ^^ znth ks (q + (j - p)) else znth buf j.
Proof.
  intros HFb HFk Hp Hpl Hq Hql. unfold le32, put_le32. rewrite !aget_znth by lia.
  cbn [mbind option_bind].
  assert (forall i, 0 <= i < zlen buf -> is_u8 (znth buf i)) as Hub by (intros; by apply znth_Forall).
  assert (forall i, 0 <= i < zlen ks -> is_u8 (znth ks i)) as Huk by (intros; by apply znth_Forall).
  destruct (word_octets (znth buf p) (znth buf (p + 1)) (znth buf (p + 2)) (znth buf (p + 3)))
    as (B0 & B1 & B2 & B3); [apply Hub; lia..|].
  destruct (word_octets (znth ks q) (znth ks (q + 1)) (znth ks (q + 2)) (znth ks (q + 3)))
    as (K0 & K1 & K2 & K3); [apply Huk; lia..|].
  rewrite !Z.shiftr_lxor, !wrap_lxor, B0, B1, B2, B3, K0, K1, K2, K3 by lia.
  rewrite aset_Some by lia. cbn [mbind option_bind].
  rewrite aset_Some by (rewrite zlen_insert; lia). cbn [mbind option_bind].
  rewrite aset_Some by (rewrite !zlen_insert; lia). cbn [mbind option_bind].
  rewrite aset_Some by (rewrite !zlen_insert; lia).
  eexists. split; [done|]. rewrite !zlen_insert. split; [done|]. split.
  - repeat apply Forall_insert; try done; apply fits_lxor; try lia; (apply Hub || apply Huk); lia.
  - intros j Hj. rewrite !znth_insert by (rewrite ?zlen_insert; lia).
    repeat case_decide; subst; try lia; try done; do 2 f_equal; lia.
Qed.

Lemma xor_block_spec addr buf ks p :
  Forall is_u8 buf -> Forall is_u8 ks -> zlen ks = 16 -> 0 <= p -> p + 16 <= zlen buf ->
  exists buf', xor_block addr buf ks p = Some buf' /\ zlen buf' = zlen buf /\
    forall j, 0 <= j < zlen buf ->
      znth buf' j = if decide (p <= j < p + 16) then znth buf j ^^ znth ks (j - p) else znth buf j.
Proof.
  intros HFb HFk Hk Hp Hl. unfold xor_block. case_if.
  - destruct (xor_loop_spec buf ks p 0 16) as (buf' & -> & Hz & A); [lia..|].
    exists buf'. split_and!; [done|done|]. intros j Hj. rewrite A by done.
    replace (p + (16 - 0)) with (p + 16) by lia. by rewrite Z.add_0_l.
  - edestruct (for_up_inv (fun i b => zlen b = zlen buf /\ Forall is_u8 b /\
      forall j, 0 <= j < zlen buf ->
        znth b j = if decide (p <= j < p + 4 * i) then znth buf j ^^ znth ks (j - p) else znth buf j) 0 4)
      as (b & E & Hz & _ & A); [lia| | |rewrite E; exists b; split_and!; [done|done|done]].
    + split_and!; [done|done|]. intros j Hj. by rewrite decide_False by lia.
    + intros i b Hi (Hz & HF & A).
      destruct (xor_word b ks (p + 4 * i) (4 * i)) as (b' & -> & Hz' & HF' & A'); [done|done|lia..|].
      eexists. split; [done|]. split_and!; [lia|done|]. intros j Hj. rewrite A', !A by lia.
      repeat case_decide; try lia; try done. do 2 f_equal. lia.
Qed.

(** *** Positions in the stream *)

Lemma xored_refl E c0 pos buf : xored E c0 pos 0 buf buf.
Proof. split; [done|]. intros j Hj. by rewrite decide_False by lia. Qed.

(** One more run of octets. *)
Lemma xored_extend E c0 pos len d ks lo buf buf1 buf2 :
  0 <= len -> 0 <= d -> xored E c0 pos len buf buf1 -> zlen buf2 = zlen buf1 ->
  (forall j, 0 <= j < zlen buf1 -> znth buf2 j =
     if decide (len <= j < len + d) then znth buf1 j ^^ znth ks (lo + (j - len)) else znth buf1 j) ->
  (forall j, 0 <= j < d -> znth ks (lo + j) = stream_octet E c0 (pos + len + j)) ->
  xored E c0 pos (len + d) buf buf2.
Proof.
  intros Hl Hd [Hz A] Hz2 A2 Hs. split; [congruence|]. intros j Hj. rewrite A2, A by congruence || lia.
  repeat case_decide; try lia; try done. rewrite Hs by lia. do 2 f_equal. lia.
Qed.

Lemma xored_u8 k E c0 pos len buf buf' :
  enciphers k E -> is_block c0 -> xored E c0 pos len buf buf' -> Forall is_u8 buf -> Forall is_u8 buf'.
Proof.
  intros Hen Hb [Hz A] HF. apply Forall_lookup. intros i x Hx. pose proof (lookup_lt_Some _ _ _ Hx) as Hi.
  assert (x = znth buf' (Z.of_nat i)) as ->.
  { unfold znth, aget. rewrite decide_True, Nat2Z.id, Hx by lia. done. }
  unfold zlen in *. rewrite A by lia.
  assert (is_u8 (znth buf (Z.of_nat i))) by (apply znth_Forall; unfold zlen; (done || lia)).
  case_decide; [|done]. apply fits_lxor; [lia|done|]. unfold stream_octet.
  destruct (proj2 (Hen _ (ctr_block c0 ((pos + Z.of_nat i) / 16) Hb))) as [Hl HF']. apply znth_Forall; [done|lia].
Qed.

(** The loop over whole blocks: from a context whose next counter block is
    [m], [i] blocks later the counter is [m + i] and the data up to there is
    done. *)
Lemma block_loop addr E c0 pos bib m n c buf buf0 :
  is_block c0 -> enciphers (expanded_key c) E -> counter c = ctr c0 m -> pos + bib = 16 * m ->
  0 <= bib -> 0 <= n -> bib + 16 * n <= zlen buf0 -> Forall is_u8 buf0 ->
  zlen (keystream_buffer c) = 16 -> Forall is_u8 (keystream_buffer c) ->
  xored E c0 pos bib buf0 buf ->
  exists c' buf', for_up 0 n
      (fun i '(c, buf) =>
         c ← srtp_aes_icm_advance c;
         buf ← xor_block addr buf (keystream_buffer c) (bib + 16 * i);
         Some (c, buf)) (c, buf) = Some (c', buf') /\
    expanded_key c' = expanded_key c /\ counter c' = ctr c0 (m + n) /\ offset c' = offset c /\
    key_size c' = key_size c /\ zlen (keystream_buffer c') = 16 /\ Forall is_u8 (keystream_buffer c') /\
    xored E c0 pos (bib + 16 * n) buf0 buf'.
Proof.
  intros Hb Hk Hc Hpos Hbib Hn Hl HF Hks HFks Hx.
  destruct (for_up_inv (fun i '(c1, b) => expanded_key c1 = expanded_key c /\ counter c1 = ctr c0 (m + i) /\
      offset c1 = offset c /\ key_size c1 = key_size c /\ zlen (keystream_buffer c1) = 16 /\
      Forall is_u8 (keystream_buffer c1) /\ xored E c0 pos (bib + 16 * i) buf0 b) 0 n
      (fun i '(c, buf) =>
         c ← srtp_aes_icm_advance c;
         buf ← xor_block addr buf (keystream_buffer c) (bib + 16 * i);
         Some (c, buf)) (c, buf)) as ([c' buf'] & Eloop & H').
  - lia.
  - rewrite Z.mul_0_r, !Z.add_0_r. done.
  - intros i [c1 b] Hi (Hk1 & Hc1 & Ho1 & Hs1 & Hz1 & HF1 & Hx1).
    rewrite (advance_spec E c1 c0 (m + i)) by (rewrite ?Hk1; done). cbn [mbind option_bind keystream_buffer].
    destruct (proj2 (Hk _ (ctr_block c0 (m + i) Hb))) as [Hel HeF].
    destruct (xor_block_spec addr b (E (ctr c0 (m + i))) (bib + 16 * i))
      as (b' & -> & Hz & A); [by eapply xored_u8|done|done|lia|destruct Hx1; lia|].
    cbn [mbind option_bind]. eexists. split; [done|]. cbv beta iota. simpl.
    split_and!; try done; [f_equal; lia|].
    replace (bib + 16 * (i + 1)) with (bib + 16 * i + 16) by lia.
    eapply (xored_extend E c0 pos (bib + 16 * i) 16 (E (ctr c0 (m + i))) 0);
      [lia|lia|done|done| |].
    + intros j Hj. rewrite A by done. by rewrite Z.add_0_l.
    + intros j Hj. unfold stream_octet. rewrite Z.add_0_l.
      replace ((pos + (bib + 16 * i) + j) / 16) with (m + i) by lia.
      by replace ((pos + (bib + 16 * i) + j) mod 16) with j by lia.
  - exists c', buf'. rewrite Eloop. done.
Qed.

(** The tail of an encryption, after [n / 16] whole blocks. *)
Lemma encrypt_tail E c0 pos bib m n c buf0 buf o ks :
  is_block c0 -> enciphers (expanded_key c) E -> counter c = ctr c0 (m + n / 16) -> pos + bib = 16 * m ->
  0 <= pos -> 0 <= bib < 16 -> 0 < n -> bib + n <= zlen buf0 ->
  zlen (keystream_buffer c) = 16 -> Forall is_u8 (keystream_buffer c) -> offset c = o -> key_size c = ks ->
  xored E c0 pos (bib + 16 * (n / 16)) buf0 buf ->
  exists c' buf',
    (if negb (n mod 16 =? 0) then
       c ← srtp_aes_icm_advance c;
       buf ← xor_loop buf (keystream_buffer c) (bib + 16 * (n / 16)) 0 (n mod 16);
       Some (srtp_err_status_ok,
             {| counter := counter c; offset := offset c; keystream_buffer := keystream_buffer c;
                expanded_key := expanded_key c; bytes_in_buffer := 16 - n mod 16; key_size := key_size c |}, buf)
     else Some (srtp_err_status_ok,
                {| counter := counter c; offset := offset c; keystream_buffer := keystream_buffer c;
                   expanded_key := expanded_key c; bytes_in_buffer := 0; key_size := key_size c |}, buf))
    = Some (srtp_err_status_ok, c', buf') /\
    icm_at E c0 (pos + (bib + n)) c' /\ xored E c0 pos (bib + n) buf0 buf' /\
    offset c' = o /\ key_size c' = ks.
Proof.
  intros Hb Hk Hc Hpos Hp Hbib Hn Hl Hz HF Ho Hs Hx.
  destruct (n mod 16 =? 0) eqn:En; cbn [negb]; bool_to_prop.
  - replace (bib + 16 * (n / 16)) with (bib + n) in Hx by lia.
    eexists _, buf. split; [done|]. split; [|done].
    split; cbn [expanded_key bytes_in_buffer counter keystream_buffer]; try done; try lia.
    rewrite Hc. f_equal. lia.
  - rewrite (advance_spec E c c0 _ Hb Hk Hc). cbn [mbind option_bind keystream_buffer].
    set (j0 := m + n / 16) in *.
    destruct (proj2 (Hk _ (ctr_block c0 j0 Hb))) as [Hel HeF].
    destruct (xor_loop_spec buf (E (ctr c0 j0)) (bib + 16 * (n / 16)) 0 (n mod 16))
      as (buf' & -> & Hz' & A); [lia..|destruct Hx; lia|]. cbn [mbind option_bind].
    eexists _, buf'. split; [done|]. split_and!; [| |done|done].
    + split; cbn [expanded_key bytes_in_buffer counter keystream_buffer]; try done; try lia;
        [f_equal; lia|]. intros _. do 2 f_equal. lia.
    + replace (bib + n) with (bib + 16 * (n / 16) + n mod 16) by lia.
      eapply (xored_extend E c0 pos _ _ (E (ctr c0 j0)) 0); [lia|lia|exact Hx|done| |].
      * intros j Hj. rewrite A by done. by replace (n mod 16 - 0) with (n mod 16) by lia.
      * intros j Hj. unfold stream_octet. rewrite Z.add_0_l.
        replace ((pos + (bib + 16 * (n / 16)) + j) / 16) with j0 by lia.
        by replace ((pos + (bib + 16 * (n / 16)) + j) mod 16) with j by lia.
Qed.

(** Encryption of [len] octets at stream position [pos]. *)
Lemma encrypt_at addr E c0 pos c buf len :
  is_block c0 -> icm_at E c0 pos c -> Forall is_u8 buf -> 0 <= len <= zlen buf ->
  len + (low16 c0 + (pos + 15) / 16) mod 2 ^ 16 <= 0xffff ->
  exists c' buf', srtp_aes_icm_encrypt addr c buf len = Some (srtp_err_status_ok, c', buf') /\
    icm_at E c0 (pos + len) c' /\ xored E c0 pos len buf buf' /\
    offset c' = offset c /\ key_size c' = key_size c.
Proof.
  intros Hb [Hk Hp Hbib Hc Hz HFk Hbuf] HF Hlen Hguard. unfold srtp_aes_icm_encrypt.
  rewrite Hc, block_index_ctr by done. cbn [mbind option_bind].
  rewrite wrap_id by (unfold fits; lia). rewrite (proj2 (Z.ltb_ge 0xffff _)) by lia.
  set (bib := bytes_in_buffer c) in *.
  assert (forall j, 0 <= j < bib -> znth (keystream_buffer c) (16 - bib + j) = stream_octet E c0 (pos + 0 + j))
    as Hks.
  { intros j Hj. rewrite Hbuf by lia. unfold stream_octet.
    replace ((pos + 0 + j) / 16) with (pos / 16) by lia.
    by replace ((pos + 0 + j) mod 16) with (16 - bib + j) by lia. }
  destruct (len <=? bib) eqn:Ele; bool_to_prop.
  - destruct (xor_loop_spec buf (keystream_buffer c) 0 (16 - bib) (16 - bib + len))
      as (buf' & -> & Hz' & A); [lia..|]. cbn [mbind option_bind].
    eexists _, buf'. split; [done|]. split_and!; [|
      rewrite <- (Z.add_0_l len); eapply (xored_extend E c0 pos 0 len (keystream_buffer c) (16 - bib));
        [lia|lia|apply xored_refl|done| |intros; apply Hks; lia]|done|done].
    + split; simpl; try done; try lia; [rewrite <- Hc, ?Hc; f_equal; lia|].
      intros Hne. rewrite Hbuf by lia. do 2 f_equal. lia.
    + intros j Hj. rewrite A by done. by replace (16 - bib + len - (16 - bib)) with len by lia.
  - destruct (xor_loop_spec buf (keystream_buffer c) 0 (16 - bib) 16) as (buf1 & -> & Hz1 & A1); [lia..|].
    cbn [mbind option_bind].
    assert (xored E c0 pos bib buf buf1) as Hx1.
    { rewrite <- (Z.add_0_l bib) at 1.
      eapply (xored_extend E c0 pos 0 bib (keystream_buffer c) (16 - bib));
        [lia|lia|apply xored_refl|done| |intros; apply Hks; lia].
      intros j Hj. rewrite A1 by done. by replace (16 - (16 - bib)) with bib by lia. }
    set (n := len - bib) in *. set (m := (pos + 15) / 16) in *.
    destruct (block_loop addr E c0 pos bib m (n / 16)
        {| counter := counter c; offset := offset c; keystream_buffer := keystream_buffer c;
           expanded_key := expanded_key c; bytes_in_buffer := 0; key_size := key_size c |} buf1 buf)
      as (c2 & buf2 & E2 & Hk2 & Hc2 & Ho2 & Hs2 & Hz2 & HF2 & Hx2);
      [exact Hb|exact Hk|exact Hc|lia|lia|lia|lia|exact HF|exact Hz|exact HFk|exact Hx1|].
    rewrite <- Hc, E2. cbn [mbind option_bind]. clear E2.
    assert ((n & 0xf) = n mod 16) as Hand by (apply (Z.land_ones n 4); lia). rewrite Hand.
    replace len with (bib + n) by lia.
    apply (encrypt_tail E c0 pos bib m n c2 buf buf2); try done; try lia. by rewrite Hk2.
Qed.

(** Setting a key and an IV puts the context at the start of the stream whose
    first counter block is the salt, two zero octets behind it, xored with the
    IV. *)
Definition first_counter (key : list Z) (base : Z) (iv : list Z) : list Z :=
  xor_octets (take 14 (drop (Z.to_nat base) key) ++ [0; 0]) iv.

Lemma xor_octets_block a b : is_block a -> is_block b -> is_block (xor_octets a b).
Proof.
  intros [La Fa] [Lb Fb]. unfold xor_octets. split.
  - unfold zlen in *. rewrite length_zip_with. lia.
  - apply Forall_lookup. intros i x (y & z & -> & Hy & Hz)%lookup_zip_with_Some.
    apply fits_lxor; [lia| |]; [by eapply (Forall_lookup_1 is_u8 a)|by eapply (Forall_lookup_1 is_u8 b)].
Qed.

Lemma blit_salt salt : zlen salt = 14 -> blit (replicate 16 0) 0 salt = Some (salt ++ [0; 0]).
Proof. intros Hl. unfold blit. rewrite Hl, decide_True by (rewrite zlen_replicate; lia). done. Qed.

Lemma take_block n (l : list Z) : zlen l = n -> take (Z.to_nat n) l = l.
Proof. intros <-. apply take_ge. unfold zlen. lia. Qed.

(** The contexts that [srtp_aes_icm_alloc] can hand out: one of the two key
    sizes, a key stream buffer of one block and memory for an expanded key. *)
Definition icm_wf (c : srtp_aes_icm_ctx_t) : Prop :=
  (key_size c = SRTP_AES_ICM_128_KEY_LEN_WSALT \/ key_size c = SRTP_AES_ICM_256_KEY_LEN_WSALT) /\
  is_block (keystream_buffer c) /\ bc_memory (expanded_key c).

Lemma context_init_ok c key :
  icm_wf c -> key_size c <= zlen key -> Forall is_u8 key ->
  exists c', srtp_aes_icm_context_init c key = Some (srtp_err_status_ok, c') /\
    offset c' = take 14 (drop (Z.to_nat (key_size c - SRTP_SALT_LEN)) key) ++ [0; 0] /\
    enciphers (expanded_key c') (bc_E (key_size c - SRTP_SALT_LEN) key) /\
    key_size c' = key_size c /\ keystream_buffer c' = keystream_buffer c.
Proof.
  intros (Hks & _ & Hm) Hl HF. unfold srtp_aes_icm_context_init.
  rewrite (proj2 (orb_true_iff _ _)) by (rewrite !Z.eqb_eq; exact Hks).
  assert (key_size c - SRTP_SALT_LEN = 16 \/ key_size c - SRTP_SALT_LEN = 32) as Hb.
  { destruct Hks as [-> | ->]; [by left|by right]. }
  replace (key_size c - (key_size c - SRTP_SALT_LEN)) with 14 by (unfold SRTP_SALT_LEN; lia).
  change (SRTP_SALT_LEN <? 14) with false. cbv iota zeta.
  assert (SRTP_SALT_LEN = 14) as Hsalt by done.
  set (base := key_size c - SRTP_SALT_LEN) in *.
  assert (base + 14 <= zlen key) as Hl' by (unfold base; lia). clearbody base.
  rewrite slice_Some by lia. cbn [mbind option_bind].
  rewrite blit_salt by (rewrite zlen_take, zlen_drop by lia; lia). cbn [mbind option_bind].
  destruct (bc_law base key (expanded_key c)) as (k & -> & _ & Hk); [done|done|done|lia|].
  cbn [mbind option_bind]. change (is_err srtp_err_status_ok) with false. cbv iota.
  eexists. split; [done|]. done.
Qed.

(** A context that can be given a key again: setting a key, setting an IV and
    encrypting leave it one. *)
Lemma context_init_wf c key st c' :
  icm_wf c -> key_size c <= zlen key -> Forall is_u8 key -> srtp_aes_icm_context_init c key = Some (st, c') ->
  icm_wf c' /\ key_size c' = key_size c.
Proof.
  intros (Hw1 & Hw2 & Hm) Hl HF. unfold srtp_aes_icm_context_init.
  destruct (_ || _); [|by intros [= <- <-]]. assert (key_size c - SRTP_SALT_LEN = 16 \/ key_size c - SRTP_SALT_LEN = 32) as Hb
    by (destruct Hw1 as [-> | ->]; [by left|by right]).
  destruct (bc_law (key_size c - SRTP_SALT_LEN) key (expanded_key c)) as (k & -> & Hm' & _);
    [done|done|done|unfold SRTP_SALT_LEN in *; lia|].
  destruct (slice _ _ _) as [salt|]; [|done]. cbn [mbind option_bind].
  destruct (blit _ _ _) as [ctr0|]; [|done]. cbn [mbind option_bind]. by intros [= <- <-].
Qed.

Lemma set_iv_wf c iv st c' : icm_wf c -> srtp_aes_icm_set_iv c iv = Some (st, c') -> icm_wf c' /\ key_size c' = key_size c.
Proof. intros Hw E. unfold srtp_aes_icm_set_iv in E. by inv_option. Qed.

(** Clocking and encrypting keep the key. *)
Lemma advance_key c c' : srtp_aes_icm_advance c = Some c' -> expanded_key c' = expanded_key c /\ key_size c' = key_size c.
Proof. intros E. unfold srtp_aes_icm_advance in E. by inv_option. Qed.

Lemma encrypt_key addr c buf len st c' buf' :
  srtp_aes_icm_encrypt addr c buf len = Some (st, c', buf') -> expanded_key c' = expanded_key c /\ key_size c' = key_size c.
Proof.
  unfold srtp_aes_icm_encrypt. intros E. apply bind_Some in E as (index & _ & E).
  destruct (0xffff <? _); [by inv_option|]. destruct (len <=? _); [by inv_option|].
  apply bind_Some in E as (buf1 & _ & E). apply bind_Some in E as ([c1 buf2] & Eloop & E).
  apply (for_up_keeps (fun _ r => expanded_key r.1 = expanded_key c /\ key_size r.1 = key_size c)) in Eloop as [Hk Hs]; [|done|].
  - cbn [fst] in *. destruct (negb _); [|by inv_option].
    apply bind_Some in E as (c2 & E2 & E). apply advance_key in E2 as [Hk2 Hs2]. inv_option. simpl. split; congruence.
  - intros i [ca ba] [cb bb] _ [Hk Hs] Eb. cbn [fst] in *. apply bind_Some in Eb as (c2 & E2 & Eb).
    apply advance_key in E2 as [Hk2 Hs2]. inv_option. split; congruence.
Qed.

Lemma set_iv_at c E iv :
  is_block (offset c) -> is_block iv -> is_block (keystream_buffer c) -> enciphers (expanded_key c) E ->
  exists c', srtp_aes_icm_set_iv c iv = Some (srtp_err_status_ok, c') /\
    icm_at E (xor_octets (offset c) iv) 0 c' /\
    offset c' = offset c /\ key_size c' = key_size c.
Proof.
  intros Ho Hiv [Hz HF] Hen. pose proof (xor_octets_block _ _ Ho Hiv) as Hb. destruct Hiv as [Hl HFi].
  unfold srtp_aes_icm_set_iv. rewrite slice_Some by lia.
  change (Z.to_nat 0) with 0%nat. rewrite drop_0, take_block by done. cbn [mbind option_bind].
  eexists. split; [done|]. split_and!; [|done|done].
  split; cbn [expanded_key bytes_in_buffer counter keystream_buffer]; try done; try lia.
  by rewrite ctr_0.
Qed.

(** ** A run of encryptions *)

(** A client that encrypts several buffers, at any addresses, with one
    context. *)
Fixpoint encrypt_chunks (c : srtp_aes_icm_ctx_t) (chunks : list (Z * list Z))
    : option (srtp_err_status_t * srtp_aes_icm_ctx_t * list Z) :=
  match chunks with
  | [] => Some (srtp_err_status_ok, c, [])
  | (addr, buf) :: rest =>
      '(status, c, out) ← srtp_aes_icm_encrypt addr c buf (zlen buf);
      if is_err status then Some (status, c, out)
      else '(status, c, outs) ← encrypt_chunks c rest; Some (status, c, out ++ outs)
  end.

Fixpoint stream_xor (E : list Z -> list Z) (c0 : list Z) (pos : Z) (l : list Z) : list Z :=
  match l with
  | [] => []
  | x :: r => (x ^^ stream_octet E c0 pos) :: stream_xor E c0 (pos + 1) r
  end.

Lemma stream_xor_app E c0 pos l l' :
  stream_xor E c0 pos (l ++ l') = stream_xor E c0 pos l ++ stream_xor E c0 (pos + zlen l) l'.
Proof.
  revert pos. induction l as [|x l IH]; intros pos; simpl; [by rewrite Z.add_0_r|].
  rewrite IH. do 3 f_equal. unfold zlen. simpl. lia.
Qed.

Lemma stream_xor_invol E c0 pos l : stream_xor E c0 pos (stream_xor E c0 pos l) = l.
Proof.
  revert pos. induction l as [|x l IH]; intros pos; simpl; [done|].
  by rewrite IH, Z.lxor_assoc, Z.lxor_nilpotent, Z.lxor_0_r.
Qed.

Lemma zlen_stream_xor E c0 pos l : zlen (stream_xor E c0 pos l) = zlen l.
Proof. unfold zlen. f_equal. revert pos. induction l; intros; simpl; auto. Qed.

Lemma znth_stream_xor E c0 pos l j :
  0 <= j < zlen l -> znth (stream_xor E c0 pos l) j = znth l j ^^ stream_octet E c0 (pos + j).
Proof.
  revert pos j. induction l as [|x l IH]; intros pos j Hj; [unfold zlen in Hj; simpl in Hj; lia|].
  destruct (decide (j = 0)) as [->|]; [by rewrite Z.add_0_r|]. simpl.
  change (?a :: ?b) with ([a] ++ b). change (x :: l) with ([x] ++ l).
  change (zlen (x :: l)) with (Z.of_nat (S (List.length l))) in Hj.
  rewrite !znth_app by lia. change (zlen [_]) with 1. rewrite !decide_False by lia.
  rewrite IH by (unfold zlen; lia). do 2 f_equal. lia.
Qed.

Lemma xored_stream E c0 pos buf buf' :
  xored E c0 pos (zlen buf) buf buf' -> buf' = stream_xor E c0 pos buf.
Proof.
  intros [Hz A]. apply znth_ext; [by rewrite zlen_stream_xor|]. intros j Hj. rewrite Hz in Hj.
  rewrite A, znth_stream_xor by done. by rewrite decide_True by lia.
Qed.

Lemma stream_xor_u8 k E c0 pos buf :
  enciphers k E -> is_block c0 -> Forall is_u8 buf -> Forall is_u8 (stream_xor E c0 pos buf).
Proof.
  intros Hen Hb. apply (xored_u8 k E c0 pos (zlen buf)); [done|done|]. split; [apply zlen_stream_xor|].
  intros j Hj. by rewrite znth_stream_xor, decide_True by lia.
Qed.

Lemma encrypt_chunks_at E c0 pos c chunks :
  is_block c0 -> icm_at E c0 pos c -> Forall is_u8 (chunks ≫= snd) ->
  low16 c0 + pos + zlen (chunks ≫= snd) <= 0xffff ->
  exists c', encrypt_chunks c chunks = Some (srtp_err_status_ok, c', stream_xor E c0 pos (chunks ≫= snd)) /\
    icm_at E c0 (pos + zlen (chunks ≫= snd)) c' /\ offset c' = offset c /\ key_size c' = key_size c.
Proof.
  intros Hb. revert pos c. induction chunks as [|[addr buf] chunks IH]; intros pos c Hat HF Hlen.
  - exists c. simpl. by rewrite Z.add_0_r.
  - cbn [encrypt_chunks] in *. rewrite bind_cons in *. cbn [snd] in *. rewrite zlen_app in Hlen |- *. apply Forall_app in HF as [HF HF'].
    pose proof (low16_bound c0 Hb). pose proof (ia_n _ _ _ _ Hat).
    pose proof (zlen_nonneg buf). pose proof (zlen_nonneg (chunks ≫= snd)).
    assert (0 <= (pos + 15) / 16 <= pos) as Hdiv by (clear Hlen; lia).
    assert (zlen buf + (low16 c0 + (pos + 15) / 16) mod 2 ^ 16 <= 0xffff) as Hg
      by (rewrite Z.mod_small by lia; lia).
    destruct (encrypt_at addr E c0 pos c buf (zlen buf)) as (c1 & buf1 & -> & Hat1 & Hx & Ho & Hs);
      [done|done|done|lia|lia|].
    cbn [mbind option_bind]. change (is_err srtp_err_status_ok) with false. cbv iota.
    destruct (IH (pos + zlen buf) c1) as (c' & -> & Hat' & Ho' & Hs'); [done|done|lia|].
    cbn [mbind option_bind]. exists c'. rewrite stream_xor_app, (xored_stream _ _ _ _ _ Hx).
    split_and!; [done| |congruence|congruence]. by rewrite Z.add_assoc.
Qed.

Section Keyed.
Context (key iv : list Z) (size : Z).
Context (Hsize : size = SRTP_AES_ICM_128_KEY_LEN_WSALT \/ size = SRTP_AES_ICM_256_KEY_LEN_WSALT).
Context (Hkey : Forall is_u8 key) (Hlen : size <= zlen key) (Hiv : is_block iv).

(** The permutation and the first counter block. *)
#[local] Abbreviation E := (bc_E (size - SRTP_SALT_LEN) key).
#[local] Abbreviation c0 := (first_counter key (size - SRTP_SALT_LEN) iv).

Lemma size_bound : 16 <= size - SRTP_SALT_LEN.
Proof. destruct Hsize as [-> | ->]; vm_compute; done. Qed.

Lemma offset_block : is_block (take 14 (drop (Z.to_nat (size - SRTP_SALT_LEN)) key) ++ [0; 0]).
Proof.
  pose proof size_bound as Hb. unfold SRTP_SALT_LEN in *. split.
  - rewrite zlen_app. change 14%nat with (Z.to_nat 14). rewrite zlen_take, zlen_drop by lia.
    change (zlen [_; _]) with 2. lia.
  - apply Forall_app. split; [by apply Forall_take, Forall_drop|]. repeat constructor; unfold fits; lia.
Qed.

Lemma start_at c :
  icm_wf c -> key_size c = size ->
  exists c1 c2, srtp_aes_icm_context_init c key = Some (srtp_err_status_ok, c1) /\
    srtp_aes_icm_set_iv c1 iv = Some (srtp_err_status_ok, c2) /\ is_block c0 /\ icm_at E c0 0 c2.
Proof.
  intros Hwf Hcs.
  destruct (context_init_ok c key) as (c1 & E1 & Ho & Hk & Hs & Hb); [done|by rewrite Hcs|done|].
  rewrite Hcs in Ho, Hk.
  destruct (set_iv_at c1 E iv) as (c2 & E2 & Hat & _);
    [rewrite Ho; apply offset_block|done|rewrite Hb; apply Hwf|done|].
  exists c1, c2. rewrite Ho in Hat. split_and!; [done|done| |exact Hat].
  apply xor_octets_block; [apply offset_block|done].
Qed.

(** A keyed context started on [iv] encrypts any chunks with the one stream. *)
Lemma start_encrypt c chunks :
  icm_wf c -> key_size c = size -> Forall is_u8 (chunks ≫= snd) ->
  low16 c0 + zlen (chunks ≫= snd) <= 0xffff ->
  exists c1 c2 c3, srtp_aes_icm_context_init c key = Some (srtp_err_status_ok, c1) /\
    srtp_aes_icm_set_iv c1 iv = Some (srtp_err_status_ok, c2) /\
    encrypt_chunks c2 chunks = Some (srtp_err_status_ok, c3, stream_xor E c0 0 (chunks ≫= snd)).
Proof.
  intros Hwf Hs HF Hl. destruct (start_at c Hwf Hs) as (c1 & c2 & E1 & E2 & Hb & Hat).
  destruct (encrypt_chunks_at _ _ 0 c2 chunks Hb Hat HF) as (c3 & E3 & _); [lia|].
  exists c1, c2, c3. done.
Qed.

End Keyed.

(** Distinct blocks have distinct counters as long as the 16-bit field does not
    wrap. *)
Lemma ctr_inj c0 i j :
  is_block c0 -> 0 <= i -> 0 <= j -> low16 c0 + i < 2 ^ 16 -> low16 c0 + j < 2 ^ 16 ->
  ctr c0 i = ctr c0 j -> i = j.
Proof.
  intros Hb Hi Hj Hi' Hj' E. pose proof (low16_bound c0 Hb).
  destruct (ctr_octets c0 i Hb) as [A B], (ctr_octets c0 j Hb) as [A' B']. rewrite E in A, B. lia.
Qed.

Lemma encrypt_terminus addr c0 n c buf len :
  is_block c0 -> counter c = ctr c0 n -> 0 <= len < 2 ^ 32 - 2 ^ 16 ->
  0xffff < len + (low16 c0 + n) mod 2 ^ 16 ->
  srtp_aes_icm_encrypt addr c buf len = Some (srtp_err_status_terminus, c, buf).
Proof.
  intros Hb Hc Hl Hg. unfold srtp_aes_icm_encrypt. rewrite Hc, block_index_ctr by done.
  cbn [mbind option_bind]. rewrite wrap_id by (unfold fits; lia).
  by rewrite (proj2 (Z.ltb_lt 0xffff _)) by lia.
Qed.

(** ** Properties *)

(** C25: Counter mode is the key stream, however the data is cut.  After
    [srtp_aes_icm_context_init] and [srtp_aes_icm_set_iv] on a context that the
    allocator hands out, encrypting any sequence of buffers, of any lengths and
    at any alignments (the branch on the remaining key stream, the byte-wise
    and the word-wise loop, the tail), succeeds and yields the concatenation of
    the buffers xored octet by octet with one key stream: block [n] of it is
    the encryption of the first counter (salt, two zero octets, xored with the
    IV) with its last 16 bits advanced by [n].  The bound is the segment the
    code allows. *)
Theorem srtp_aes_icm_keystream key iv c chunks :
  icm_wf c -> Forall is_u8 key -> key_size c <= zlen key -> is_block iv -> Forall is_u8 (chunks ≫= snd) ->
  let base := key_size c - SRTP_SALT_LEN in
  let c0 := first_counter key base iv in
  low16 c0 + zlen (chunks ≫= snd) <= 0xffff ->
  exists c1 c2 c3, srtp_aes_icm_context_init c key = Some (srtp_err_status_ok, c1) /\
    srtp_aes_icm_set_iv c1 iv = Some (srtp_err_status_ok, c2) /\
    encrypt_chunks c2 chunks
    = Some (srtp_err_status_ok, c3, stream_xor (bc_E base key) c0 0 (chunks ≫= snd)).
Proof. intros. by apply start_encrypt; [apply H0|..]. Qed.

(** C30: Decryption.  A receiver's context with the same key and IV, given the
    ciphertext of the sender in whatever pieces, recovers the plaintext. *)
Theorem srtp_aes_icm_decrypts key iv c c' chunks :
  icm_wf c -> icm_wf c' -> key_size c' = key_size c -> Forall is_u8 key -> key_size c <= zlen key ->
  is_block iv -> Forall is_u8 (chunks ≫= snd) ->
  low16 (first_counter key (key_size c - SRTP_SALT_LEN) iv) + zlen (chunks ≫= snd) <= 0xffff ->
  exists c1 c2 c3 out, srtp_aes_icm_context_init c key = Some (srtp_err_status_ok, c1) /\
    srtp_aes_icm_set_iv c1 iv = Some (srtp_err_status_ok, c2) /\
    encrypt_chunks c2 chunks = Some (srtp_err_status_ok, c3, out) /\
    forall pieces, (pieces ≫= snd) = out ->
      exists d1 d2 d3, srtp_aes_icm_context_init c' key = Some (srtp_err_status_ok, d1) /\
        srtp_aes_icm_set_iv d1 iv = Some (srtp_err_status_ok, d2) /\
        encrypt_chunks d2 pieces = Some (srtp_err_status_ok, d3, chunks ≫= snd).
Proof.
  intros Hc Hc' Hcs Hk Hl Hiv HF Hlen. pose proof (proj1 Hc) as Hs.
  destruct (start_at key iv _ Hs Hk Hl Hiv c Hc eq_refl) as (_ & c2' & _ & _ & Hb & Hat).
  destruct (start_encrypt key iv _ Hs Hk Hl Hiv c chunks Hc eq_refl HF Hlen) as (c1 & c2 & c3 & E1 & E2 & E3).
  eexists c1, c2, c3, _. split_and!; [exact E1|exact E2|exact E3|]. intros pieces Hp.
  set (E := bc_E (key_size c - SRTP_SALT_LEN) key) in *.
  set (c0 := first_counter key (key_size c - SRTP_SALT_LEN) iv) in *.
  rewrite <- (stream_xor_invol E c0 0 (chunks ≫= snd)), <- Hp.
  apply start_encrypt; try done; rewrite Hp; [|by rewrite zlen_stream_xor].
  eapply stream_xor_u8; [apply (ia_key _ _ _ _ Hat)|done|done].
Qed.

(** C31: No key stream block is used twice.  From a context that has produced
    the stream up to [pos] without wrapping its 16-bit block counter, a call of
    [srtp_aes_icm_encrypt] either refuses with [srtp_err_status_terminus],
    leaving context and data alone, exactly when the octet count plus the block
    index exceeds 0xffff; or it succeeds, the counters of all blocks up to the
    new position are distinct, and the block counter has not wrapped. *)
Theorem srtp_aes_icm_no_counter_reuse addr E c0 pos c buf len :
  is_block c0 -> icm_at E c0 pos c -> low16 c0 + (pos + 15) / 16 < 2 ^ 16 ->
  Forall is_u8 buf -> 0 <= len <= zlen buf -> len < 2 ^ 32 - 2 ^ 16 ->
  let index := low16 c0 + (pos + 15) / 16 in
  (0xffff < len + index /\
   srtp_aes_icm_encrypt addr c buf len = Some (srtp_err_status_terminus, c, buf)) \/
  (len + index <= 0xffff /\
   exists c' buf', srtp_aes_icm_encrypt addr c buf len = Some (srtp_err_status_ok, c', buf') /\
     icm_at E c0 (pos + len) c' /\ low16 c0 + (pos + len + 15) / 16 < 2 ^ 16 /\
     forall i j, 0 <= i < (pos + len + 15) / 16 -> 0 <= j < (pos + len + 15) / 16 ->
       ctr c0 i = ctr c0 j -> i = j).
Proof.
  intros Hb Hat Hw HF Hl Hl32 index. pose proof (low16_bound c0 Hb) as Hlow.
  pose proof (ia_n _ _ _ _ Hat) as Hpos.
  assert (0 <= (pos + 15) / 16) as Hd by lia.
  assert (index mod 2 ^ 16 = index) as Hm by (unfold index; apply Z.mod_small; lia).
  destruct (decide (0xffff < len + index)) as [Hg|Hg]; [left|right].
  - split; [done|]. eapply encrypt_terminus; [exact Hb|apply (ia_counter _ _ _ _ Hat)|lia|].
    fold index. by rewrite Hm.
  - split; [lia|]. destruct (encrypt_at addr E c0 pos c buf len) as (c' & buf' & Eok & Hat' & _);
      [done|done|done|lia|fold index; rewrite Hm; lia|].
    assert ((pos + len + 15) / 16 <= (pos + 15) / 16 + len) as Hle by (clear Hm Hg Hw; lia).
    exists c', buf'. split_and!; [exact Eok|exact Hat'|unfold index in *; lia|].
    intros i j Hi Hj Eij. apply (ctr_inj c0); try done; unfold index in *; lia.
Qed.

End Icm.

(** ** Instances: AES, on the test case that libsrtp runs at start-up *)

Definition srtp_aes_icm_128_test_case_0_key : list Z :=
  [0x2b; 0x7e; 0x15; 0x16; 0x28; 0xae; 0xd2; 0xa6; 0xab; 0xf7; 0x15; 0x88; 0x09; 0xcf; 0x4f; 0x3c;
   0xf0; 0xf1; 0xf2; 0xf3; 0xf4; 0xf5; 0xf6; 0xf7; 0xf8; 0xf9; 0xfa; 0xfb; 0xfc; 0xfd].
Definition srtp_aes_icm_128_test_case_0_nonce : list Z := replicate 16 0.
Definition srtp_aes_icm_128_test_case_0_plaintext : list Z := replicate 32 0.
Definition srtp_aes_icm_128_test_case_0_ciphertext : list Z :=
  [0xe0; 0x3e; 0xad; 0x09; 0x35; 0xc9; 0x5e; 0x80; 0xe1; 0x66; 0xb1; 0x6d; 0xd9; 0x2b; 0x4e; 0xb4;
   0xd2; 0x35; 0x13; 0x16; 0x2b; 0x02; 0xd0; 0xf7; 0x2a; 0x43; 0xa2; 0xfe; 0x4a; 0x5f; 0x97; 0xab].

Definition fresh_ctx : srtp_aes_icm_ctx_t :=
  {| counter := replicate 16 0; offset := replicate 16 0; keystream_buffer := replicate 16 0;
     expanded_key := zero_key; bytes_in_buffer := 0; key_size := 30 |}.

(** The plaintext in three pieces, one of them misaligned. *)
Definition test_chunks : list (Z * list Z) := [(0, replicate 5 0); (5, replicate 20 0); (25, replicate 7 0)].

Lemma fresh_wf : icm_wf fresh_ctx.
Proof. split_and!; [by left|split; [done|by apply u8_list_dec]|apply zero_memory]. Qed.

(** The self-test of [srtp_aes_icm_128], with its plaintext in those pieces. *)
Example icm_128_test_case_0 :
  ('(_, c) ← srtp_aes_icm_context_init fresh_ctx srtp_aes_icm_128_test_case_0_key;
   '(_, c) ← srtp_aes_icm_set_iv c srtp_aes_icm_128_test_case_0_nonce;
   '(_, _, out) ← encrypt_chunks c test_chunks; Some out) = Some srtp_aes_icm_128_test_case_0_ciphertext.
Proof. vm_compute. reflexivity. Qed.

Lemma srtp_aes_icm_keystream_witness :
  exists c1 c2 c3,
    srtp_aes_icm_context_init fresh_ctx srtp_aes_icm_128_test_case_0_key = Some (srtp_err_status_ok, c1) /\
    srtp_aes_icm_set_iv c1 srtp_aes_icm_128_test_case_0_nonce = Some (srtp_err_status_ok, c2) /\
    encrypt_chunks c2 test_chunks
    = Some (srtp_err_status_ok, c3,
            stream_xor (bc_E 16 srtp_aes_icm_128_test_case_0_key)
              (first_counter srtp_aes_icm_128_test_case_0_key 16 srtp_aes_icm_128_test_case_0_nonce) 0
              srtp_aes_icm_128_test_case_0_plaintext).
Proof.
  apply (srtp_aes_icm_keystream srtp_aes_icm_128_test_case_0_key srtp_aes_icm_128_test_case_0_nonce
    fresh_ctx test_chunks);
    [apply fresh_wf|by apply u8_list_dec|done|split; [done|by apply u8_list_dec]|by apply u8_list_dec|done].
Defined.

Lemma srtp_aes_icm_decrypts_witness :
  exists c1 c2 c3 out,
    srtp_aes_icm_context_init fresh_ctx srtp_aes_icm_128_test_case_0_key = Some (srtp_err_status_ok, c1) /\
    srtp_aes_icm_set_iv c1 srtp_aes_icm_128_test_case_0_nonce = Some (srtp_err_status_ok, c2) /\
    encrypt_chunks c2 test_chunks = Some (srtp_err_status_ok, c3, out) /\
    forall pieces, (pieces ≫= snd) = out ->
      exists d1 d2 d3,
        srtp_aes_icm_context_init fresh_ctx srtp_aes_icm_128_test_case_0_key = Some (srtp_err_status_ok, d1) /\
        srtp_aes_icm_set_iv d1 srtp_aes_icm_128_test_case_0_nonce = Some (srtp_err_status_ok, d2) /\
        encrypt_chunks d2 pieces = Some (srtp_err_status_ok, d3, test_chunks ≫= snd).
Proof.
  apply (srtp_aes_icm_decrypts srtp_aes_icm_128_test_case_0_key srtp_aes_icm_128_test_case_0_nonce
    fresh_ctx fresh_ctx test_chunks);
    [apply fresh_wf|apply fresh_wf|done|by apply u8_list_dec|done|split; [done|by apply u8_list_dec]
    |by apply u8_list_dec|done].
Defined.

(** At the end of the segment: block index 0xfff0, sixteen octets are one too
    many. *)
Definition late_key : srtp_aes_expanded_key_t := {| round := replicate 15 (replicate 16 0); num_rounds := 10 |}.
Definition late_ctx : srtp_aes_icm_ctx_t :=
  {| counter := replicate 14 7 ++ [0xff; 0xf0]; offset := replicate 16 0; keystream_buffer := replicate 16 0;
     expanded_key := late_key; bytes_in_buffer := 0; key_size := 30 |}.

Lemma late_enciphers : enciphers late_key (Fips.cipher 10 (key_of late_key)).
Proof.
  intros b Hb. apply (encrypt_spec late_key b); [|done].
  split_and!; [apply (zero_memory 10)|done|by left].
Qed.

Lemma srtp_aes_icm_no_counter_reuse_witness :
  srtp_aes_icm_encrypt 0 late_ctx (replicate 16 9) 16
  = Some (srtp_err_status_terminus, late_ctx, replicate 16 9).
Proof.
  destruct (srtp_aes_icm_no_counter_reuse 0 (Fips.cipher 10 (key_of late_key)) (replicate 14 7 ++ [0xff; 0xf0]) 0
    late_ctx (replicate 16 9) 16) as [[_ Eq]|[Hle _]].
  - split; [done|by apply u8_list_dec].
  - split; [apply late_enciphers|lia|reflexivity|reflexivity|reflexivity|by apply u8_list_dec|].
    intros []. reflexivity.
  - done.
  - by apply u8_list_dec.
  - done.
  - done.
  - exact Eq.
  - exfalso. vm_compute in Hle. done.
Defined.
