(* ===== verification/Cipher.v ===== *)
(** Cipher and authentication objects of libsrtp: crypto/cipher/cipher.c,
    null_cipher.c, crypto/hash/auth.c, null_auth.c and the headers cipher.h,
    auth.h.

    An object is a type with its state; dispatch through the method table of
    the type is dispatch on the constructor.  The build has the null cipher and
    counter mode, and null authentication and HMAC-SHA-1. *)

From S2P Require Import Prelude Err SrtpPolicy Sha1 Hmac Aes AesKeys AesIcm.

(** Automatic arrays that are not initialised: the message schedules of SHA-1,
    the inner pad of HMAC, and in packet processing the key stream of extension
    headers and the computed tag, at the addresses [ks_addr] and [tag_addr].  The
    derived keys are at [key_addr].  Nothing
    is known of their contents. *)
Class Locals := {
  W0 : list Z;
  W1 : list Z;
  ipad0 : list Z;
  keystream0 : list Z;
  ks_addr : Z;
  tmp_tag0 : list Z;
  tag_addr : Z;
  key_addr : Z;
  W0_len : zlen W0 = 80;
  W1_len : zlen W1 = 80;
  ipad0_len : zlen ipad0 = 64;
  keystream0_len : zlen keystream0 = 257;
  keystream0_u8 : Forall is_u8 keystream0;
  tmp_tag0_len : zlen tmp_tag0 = 16;
  tmp_tag0_u8 : Forall is_u8 tmp_tag0
}.

Section Objects.
Context `{BC : BlockCipher} `{LV : Locals}.

(** ** Ciphers *)

(** [srtp_cipher_t] with its type and state. *)
Inductive cipher_t :=
| null_cipher (key_len : Z)
| icm_cipher (c : srtp_cipher_t).

(** [srtp_null_cipher_alloc(&c, key_len, tlen)]. *)
Definition srtp_null_cipher_alloc (alloc_ok : bool) (key_len : Z) : srtp_err_status_t * option cipher_t :=
  if alloc_ok then (srtp_err_status_ok, Some (null_cipher key_len)) else (srtp_err_status_alloc_fail, None).

(** [c->type->id]. *)
Definition cipher_type_id (c : cipher_t) : Z :=
  match c with null_cipher _ => SRTP_NULL_CIPHER | icm_cipher c => cipher_algorithm c end.

(** [srtp_cipher_get_key_length(c)]. *)
Definition srtp_cipher_get_key_length (c : cipher_t) : Z :=
  match c with null_cipher n => n | icm_cipher c => cipher_key_len' c end.

Definition with_state (c : srtp_cipher_t) (s : srtp_aes_icm_ctx_t) : srtp_cipher_t :=
  {| cipher_state := s; cipher_algorithm := cipher_algorithm c; cipher_key_len' := cipher_key_len' c |}.

Definition srtp_cipher_init (c : cipher_t) (key : list Z) : option (srtp_err_status_t * cipher_t) :=
  match c with
  | null_cipher _ => Some (srtp_err_status_ok, c)
  | icm_cipher c =>
      '(st, s) ← srtp_aes_icm_context_init (cipher_state c) key;
      Some (st, icm_cipher (with_state c s))
  end.

Definition srtp_cipher_set_iv (c : cipher_t) (iv : list Z) : option (srtp_err_status_t * cipher_t) :=
  match c with
  | null_cipher _ => Some (srtp_err_status_ok, c)
  | icm_cipher c =>
      '(st, s) ← srtp_aes_icm_set_iv (cipher_state c) iv;
      Some (st, icm_cipher (with_state c s))
  end.

(** [srtp_cipher_encrypt(c, buffer, &len)], the octets at [buffer] lying at
    address [addr]; both types decrypt with the same function. *)
Definition srtp_cipher_encrypt (addr : Z) (c : cipher_t) (buf : list Z) (len : Z)
    : option (srtp_err_status_t * cipher_t * list Z) :=
  match c with
  | null_cipher _ => Some (srtp_err_status_ok, c, buf)
  | icm_cipher c =>
      '(st, s, buf) ← srtp_aes_icm_encrypt addr (cipher_state c) buf len;
      Some (st, icm_cipher (with_state c s), buf)
  end.

Definition srtp_cipher_decrypt (addr : Z) (c : cipher_t) (buf : list Z) (len : Z)
    : option (srtp_err_status_t * cipher_t * list Z) :=
  srtp_cipher_encrypt addr c buf len.

(** [srtp_cipher_output(c, buffer, &n)]: zeroes, then the key stream. *)
Definition srtp_cipher_output (addr : Z) (c : cipher_t) (buf : list Z) (n : Z)
    : option (srtp_err_status_t * cipher_t * list Z) :=
  buf ← blit buf 0 (replicate (Z.to_nat n) 0);
  srtp_cipher_encrypt addr c buf n.

(** ** Authentication functions *)

Inductive auth_t :=
| null_auth (key_len out_len : Z)
| hmac_auth (a : srtp_auth_t).

(** [srtp_null_auth_alloc(&a, key_len, out_len)]: the prefix is as long as the
    tag. *)
Definition srtp_null_auth_alloc (alloc_ok : bool) (key_len out_len : Z)
    : srtp_err_status_t * option auth_t :=
  if alloc_ok then (srtp_err_status_ok, Some (null_auth key_len out_len))
  else (srtp_err_status_alloc_fail, None).

Definition srtp_auth_get_key_length (a : auth_t) : Z :=
  match a with null_auth n _ => n | hmac_auth a => auth_key_len a end.

Definition srtp_auth_get_tag_length (a : auth_t) : Z :=
  match a with null_auth _ n => n | hmac_auth a => auth_out_len a end.

Definition srtp_auth_get_prefix_length (a : auth_t) : Z :=
  match a with null_auth _ n => n | hmac_auth a => auth_prefix_len a end.

Definition with_auth_state (a : srtp_auth_t) (s : srtp_hmac_ctx_t) : srtp_auth_t :=
  {| auth_state := s; auth_out_len := auth_out_len a; Hmac.auth_key_len := Hmac.auth_key_len a;
     auth_prefix_len := auth_prefix_len a |}.

(** The macros [srtp_auth_init], [srtp_auth_start], [srtp_auth_update] and
    [srtp_auth_compute]. *)
Definition srtp_auth_init (a : auth_t) (key : list Z) : option (srtp_err_status_t * auth_t) :=
  match a with
  | null_auth _ _ => Some (srtp_err_status_ok, a)
  | hmac_auth a =>
      '(st, s) ← srtp_hmac_init W0 ipad0 (auth_state a) key (Hmac.auth_key_len a);
      Some (st, hmac_auth (with_auth_state a s))
  end.

Definition srtp_auth_start (a : auth_t) : srtp_err_status_t * auth_t :=
  match a with
  | null_auth _ _ => (srtp_err_status_ok, a)
  | hmac_auth a =>
      let '(st, s) := srtp_hmac_start (auth_state a) in (st, hmac_auth (with_auth_state a s))
  end.

Definition srtp_auth_update (a : auth_t) (message : list Z) (octets : Z)
    : option (srtp_err_status_t * auth_t) :=
  match a with
  | null_auth _ _ => Some (srtp_err_status_ok, a)
  | hmac_auth a =>
      '(st, s) ← srtp_hmac_update W0 (auth_state a) message octets;
      Some (st, hmac_auth (with_auth_state a s))
  end.

Definition srtp_auth_compute (a : auth_t) (message : list Z) (octets : Z) (result : list Z)
    : option (srtp_err_status_t * auth_t * list Z) :=
  match a with
  | null_auth _ _ => Some (srtp_err_status_ok, a, result)
  | hmac_auth a =>
      '(st, s, result) ← srtp_hmac_compute W0 W1 (auth_state a) message octets (auth_out_len a) result;
      Some (st, hmac_auth (with_auth_state a s), result)
  end.

(** ** What the objects compute *)

(** A counter-mode key: the permutation and the salt block. *)
Record stream_key := { sk_E : list Z -> list Z; sk_offset : list Z }.

(** Initialised cipher objects; the null cipher has no key. *)
Definition keyed_cipher (k : option stream_key) (c : cipher_t) : Prop :=
  match k, c with
  | None, null_cipher _ => True
  | Some k, icm_cipher c =>
      enciphers (expanded_key (cipher_state c)) (sk_E k) /\ offset (cipher_state c) = sk_offset k /\
      is_block (sk_offset k) /\ is_block (keystream_buffer (cipher_state c))
  | _, _ => False
  end.

(** The first counter block for an IV. *)
Definition start_block (k : stream_key) (iv : list Z) : list Z := xor_octets (sk_offset k) iv.

(** The object has been given [iv] and has produced [pos] octets since. *)
Definition cipher_at (k : option stream_key) (iv : list Z) (pos : Z) (c : cipher_t) : Prop :=
  match k, c with
  | None, null_cipher _ => True
  | Some k, icm_cipher c =>
      icm_at (sk_E k) (start_block k iv) pos (cipher_state c) /\
      offset (cipher_state c) = sk_offset k /\ is_block (sk_offset k)
  | _, _ => False
  end.

(** The octets [l] at position [pos] of the stream for [iv], encrypted. *)
Definition crypt (k : option stream_key) (iv : list Z) (pos : Z) (l : list Z) : list Z :=
  match k with
  | None => l
  | Some k => stream_xor (sk_E k) (start_block k iv) pos l
  end.

(** The stream for [iv] has [len] more octets at [pos]. *)
Definition room (k : option stream_key) (iv : list Z) (pos len : Z) : bool :=
  match k with
  | None => true
  | Some k => len + (low16 (start_block k iv) + (pos + 15) / 16) mod 2 ^ 16 <=? 0xffff
  end.

Lemma zlen_crypt k iv pos l : zlen (crypt k iv pos l) = zlen l.
Proof. destruct k; [apply zlen_stream_xor|done]. Qed.

Lemma crypt_invol k iv pos l : crypt k iv pos (crypt k iv pos l) = l.
Proof. destruct k; [apply stream_xor_invol|done]. Qed.

Lemma cipher_at_u8 k iv pos c p l :
  cipher_at k iv pos c -> is_block iv -> Forall is_u8 l -> Forall is_u8 (crypt k iv p l).
Proof.
  destruct k as [k|], c as [|c]; simpl; try done. intros (Hat & _ & Ho) Hiv.
  apply (stream_xor_u8 _ _ _ _ _ (ia_key _ _ _ _ Hat)). by apply xor_octets_block.
Qed.

(** A used object takes the next IV. *)
Lemma cipher_at_keyed k iv pos c : cipher_at k iv pos c -> keyed_cipher k c.
Proof.
  destruct k as [k|], c as [|c]; simpl; try done. intros ([] & Ho & Hb). by split_and!.
Qed.

Lemma cipher_set_iv_ok k c iv :
  keyed_cipher k c -> is_block iv ->
  exists c', srtp_cipher_set_iv c iv = Some (srtp_err_status_ok, c') /\ cipher_at k iv 0 c' /\
    cipher_type_id c' = cipher_type_id c.
Proof.
  destruct k as [k|], c as [|c]; simpl; try done; [|by intros _ _; eexists].
  intros (Hen & Ho & Hb & Hk) Hiv.
  destruct (set_iv_at (cipher_state c) (sk_E k) iv) as (s & -> & Hat & Hoff & _); [by rewrite Ho|done..|].
  simpl. eexists. split; [done|]. simpl. rewrite Ho in Hat. by rewrite Hoff.
Qed.

Lemma xored_app E c0 pos len buf buf' :
  0 <= len <= zlen buf -> xored E c0 pos len buf buf' ->
  buf' = stream_xor E c0 pos (take (Z.to_nat len) buf) ++ drop (Z.to_nat len) buf.
Proof.
  intros Hl [Hz A]. pose proof (zlen_take buf len ltac:(lia)) as Ht.
  apply znth_ext; [rewrite zlen_app, zlen_stream_xor, Ht, zlen_drop by lia; lia|].
  intros j Hj. rewrite A by lia. rewrite znth_app, zlen_stream_xor, Ht by lia.
  rewrite Z.min_l by lia. case_decide.
  - rewrite znth_stream_xor by lia. by rewrite znth_take by lia.
  - rewrite znth_drop by lia. f_equal. lia.
Qed.

Lemma cipher_encrypt_at addr k iv pos c buf len :
  cipher_at k iv pos c -> is_block iv -> Forall is_u8 buf -> 0 <= len <= zlen buf -> len < 2 ^ 31 ->
  exists st c' buf', srtp_cipher_encrypt addr c buf len = Some (st, c', buf') /\
    cipher_type_id c' = cipher_type_id c /\
    if room k iv pos len
    then st = srtp_err_status_ok /\ cipher_at k iv (pos + len) c' /\
         buf' = crypt k iv pos (take (Z.to_nat len) buf) ++ drop (Z.to_nat len) buf
    else st = srtp_err_status_terminus /\ c' = c /\ buf' = buf.
Proof.
  destruct k as [k|], c as [|c]; simpl; try done.
  2:{ intros. eexists _, _, _. split; [done|]. by rewrite take_drop. }
  intros (Hat & Ho & Hb) Hiv HF Hl Hl31.
  pose proof (xor_octets_block _ _ Hb Hiv) as Hc0. fold (start_block k iv) in Hc0.
  destruct (_ <=? 0xffff) eqn:Hr; bool_to_prop.
  - destruct (encrypt_at addr (sk_E k) (start_block k iv) pos (cipher_state c) buf len)
      as (s & buf' & -> & Hat' & Hx & Ho' & _); [done..|].
    simpl. eexists _, _, _. split; [done|]. simpl. split; [done|]. split_and!; [done|done|congruence|done|].
    by apply xored_app.
  - rewrite (encrypt_terminus addr (start_block k iv) ((pos + 15) / 16)); [|done|apply Hat|lia|lia].
    simpl. eexists _, _, _. split; [done|]. split; [done|]. split_and!; [done| |done]. by destruct c.
Qed.

(** An HMAC state that has been given [key]. *)
Definition hmac_keyed (s : srtp_hmac_ctx_t) (key : list Z) : Prop :=
  opad s = pad_key key 0x5c /\ sha_ok (init_ctx s) (pad_key key 0x36).

(** Initialised authentication objects with tags of [tag] octets; null
    authentication has no key. *)
Definition keyed_auth (k : option (list Z)) (tag : Z) (a : auth_t) : Prop :=
  match k, a with
  | None, null_auth _ n => n = tag
  | Some key, hmac_auth a =>
      hmac_keyed (auth_state a) key /\ Forall is_u8 key /\ zlen key <= 20 /\
      auth_out_len a = tag /\ tag <= 20 /\ auth_prefix_len a = 0
  | _, _ => False
  end.

(** The tag of a message, where [prefix] is in its place before. *)
Definition tag_of (k : option (list Z)) (tag : Z) (msg prefix : list Z) : list Z :=
  match k with
  | None => prefix
  | Some key => take (Z.to_nat tag) (hmac_spec key msg)
  end.

Definition prefix_length (k : option (list Z)) (tag : Z) : Z :=
  match k with None => tag | Some _ => 0 end.

Lemma keyed_auth_lengths k tag a :
  keyed_auth k tag a ->
  srtp_auth_get_tag_length a = tag /\ srtp_auth_get_prefix_length a = prefix_length k tag.
Proof. destruct k, a; simpl; try done. naive_solver. Qed.

Lemma zlen_hmac_spec key msg : zlen (hmac_spec key msg) = 20.
Proof. apply sha1_spec_octets. Qed.

Lemma zlen_tag_of k tag a msg prefix :
  keyed_auth k tag a -> 0 <= tag -> zlen prefix = tag -> zlen (tag_of k tag msg prefix) = tag.
Proof.
  destruct k, a; simpl; try done. intros (_ & _ & _ & _ & Ht & _) Hnn _.
  rewrite zlen_take, zlen_hmac_spec by done. lia.
Qed.

Lemma tag_of_u8 k tag msg prefix : Forall is_u8 prefix -> Forall is_u8 (tag_of k tag msg prefix).
Proof. destruct k; simpl; [|done]. intros _. apply Forall_take, sha1_spec_octets. Qed.

Lemma hmac_start_keyed s key :
  hmac_keyed s key -> exists s', srtp_hmac_start s = (srtp_err_status_ok, s') /\ hmac_ok s' key [].
Proof. intros [Ho Hi]. eexists. split; [done|]. split; simpl; [done|done|]. by rewrite app_nil_r. Qed.

(** Start, update with [msg] and compute with [m]. *)
Lemma auth_run k tag a msg m result :
  keyed_auth k tag a -> Forall is_u8 msg -> zlen msg < 2 ^ 28 -> Forall is_u8 m -> zlen m < 2 ^ 10 ->
  0 <= tag <= zlen result ->
  exists a1 a2 a3, srtp_auth_start a = (srtp_err_status_ok, a1) /\
    srtp_auth_update a1 msg (zlen msg) = Some (srtp_err_status_ok, a2) /\
    srtp_auth_compute a2 m (zlen m) result = Some (srtp_err_status_ok, a3,
      tag_of k tag (msg ++ m) (take (Z.to_nat tag) result) ++ drop (Z.to_nat tag) result) /\
    keyed_auth k tag a3.
Proof.
  destruct k as [key|], a as [|a]; cbn [keyed_auth]; try done.
  2:{ intros -> **. eexists _, _, _. simpl. by rewrite take_drop. }
  intros (Hk & HFk & Hlk & Ht & Ht20 & Hp) HF Hl HFm Hm Hr. unfold srtp_auth_start.
  destruct (hmac_start_keyed _ _ Hk) as (s1 & -> & H1).
  destruct (srtp_hmac_update_ok W0 W0_len s1 key [] msg H1 HF Hl) as (s2 & E2 & H2). simpl in H2.
  destruct (srtp_hmac_compute_ok W0 W0_len W1 s2 key msg m tag result)
    as (s3 & result' & E3 & Hres & Hop & Hin); [apply W1_len|done|done|done|done|done|lia| |lia|lia|].
  { pose proof (zlen_nonneg msg). lia. }
  eexists _, _, _. split; [done|]. simpl. rewrite E2. simpl. split; [done|]. simpl. rewrite Ht, E3. simpl.
  subst result'. split; [done|]. simpl. split_and!; try done.
  destruct H2 as [Ho Hi _]. split; [congruence|by rewrite Hin].
Qed.

(** A key goes into an object the allocator has filled in. *)
Definition fresh_auth (a : auth_t) (tag : Z) : Prop :=
  match a with
  | null_auth _ n => n = tag
  | hmac_auth a =>
      auth_out_len a = tag /\ tag <= 20 /\ auth_prefix_len a = 0 /\ 0 <= auth_key_len a <= 20 /\
      auth_state a = zero_hmac_ctx
  end.

Definition auth_key_of (a : auth_t) (key : list Z) : option (list Z) :=
  match a with
  | null_auth _ _ => None
  | hmac_auth a => Some (take (Z.to_nat (auth_key_len a)) key)
  end.

Lemma auth_init_keyed a key tag :
  fresh_auth a tag -> Forall is_u8 key -> srtp_auth_get_key_length a <= zlen key ->
  exists a', srtp_auth_init a key = Some (srtp_err_status_ok, a') /\
    keyed_auth (auth_key_of a key) tag a' /\
    srtp_auth_get_key_length a' = srtp_auth_get_key_length a.
Proof.
  destruct a as [|a]; simpl; [by intros; eexists|].
  intros (Ho & Ht & Hp & Hk & Hs) HF Hl. rewrite srtp_hmac_init_take by lia.
  set (k := take (Z.to_nat (auth_key_len a)) key).
  assert (zlen k = auth_key_len a) as Hz by (unfold k; rewrite zlen_take by lia; lia).
  destruct (srtp_hmac_init_ok W0 W0_len ipad0 (auth_state a) k) as (s & E & Hs');
    try (rewrite Hs; try done; by apply Forall_replicate); [apply ipad0_len|by apply Forall_take|lia|].
  rewrite <- Hz, E. simpl. eexists. split; [done|]. split; [|done]. simpl.
  destruct Hs' as [Ho' Hi _]. split_and!; try done; [by apply Forall_take|lia].
Qed.

(** The same for ciphers: the key is the permutation of its leading octets and
    the salt behind them. *)
Definition fresh_cipher (c : cipher_t) : Prop :=
  match c with
  | null_cipher _ => True
  | icm_cipher c => icm_wf (cipher_state c) /\ key_size (cipher_state c) = cipher_key_len' c
  end.

Definition stream_key_of (c : cipher_t) (key : list Z) : option stream_key :=
  match c with
  | null_cipher _ => None
  | icm_cipher c =>
      let base := cipher_key_len' c - SRTP_SALT_LEN in
      Some {| sk_E := bc_E base key; sk_offset := take 14 (drop (Z.to_nat base) key) ++ [0; 0] |}
  end.

Lemma cipher_init_keyed c key :
  fresh_cipher c -> Forall is_u8 key -> srtp_cipher_get_key_length c <= zlen key ->
  exists c', srtp_cipher_init c key = Some (srtp_err_status_ok, c') /\
    keyed_cipher (stream_key_of c key) c' /\ cipher_type_id c' = cipher_type_id c.
Proof.
  destruct c as [|c]; simpl; [by intros; eexists|]. intros [Hw Hs] HF Hl.
  destruct (context_init_ok (cipher_state c) key) as (s & -> & Ho & Hen & _ & Hb); [done|lia|done|].
  simpl. eexists. split; [done|]. split; [|done]. simpl. rewrite <- Hs. split_and!; [done|done| |].
  - apply offset_block; [apply Hw|done|lia].
  - rewrite Hb. apply Hw.
Qed.

End Objects.
