(* ===== verification/Kernel.v ===== *)
(** The crypto kernel of libsrtp: crypto/kernel/crypto_kernel.c and
    crypto/include/crypto_kernel.h.

    The registry of cipher types, authentication types and debug modules is a
    global variable, here the state [srtp_crypto_kernel_t].  The verdicts of
    the self tests, which draw random numbers, and the answers of the
    allocator are inputs. *)

From Stdlib Require Import String.
From S2P Require Import Prelude Err Prog SrtpPolicy Hmac Aes AesKeys AesIcm Cipher.
#[local] Open Scope Z_scope.

Inductive cipher_type_t := srtp_null_cipher | srtp_aes_icm_128 | srtp_aes_icm_256.
Inductive auth_type_t := srtp_null_auth | srtp_hmac.

#[global] Instance cipher_type_eq_dec : EqDecision cipher_type_t.
Proof. solve_decision. Defined.
#[global] Instance auth_type_eq_dec : EqDecision auth_type_t.
Proof. solve_decision. Defined.

(** The field [id] of the method tables. *)
Definition cipher_id (t : cipher_type_t) : Z :=
  match t with
  | srtp_null_cipher => SRTP_NULL_CIPHER
  | srtp_aes_icm_128 => SRTP_AES_ICM_128
  | srtp_aes_icm_256 => SRTP_AES_ICM_256
  end.

Definition auth_id (t : auth_type_t) : Z :=
  match t with srtp_null_auth => SRTP_NULL_AUTH | srtp_hmac => SRTP_HMAC_SHA1 end.

Inductive srtp_crypto_kernel_state_t :=
| srtp_crypto_kernel_state_insecure
| srtp_crypto_kernel_state_secure.

#[global] Instance kernel_state_eq_dec : EqDecision srtp_crypto_kernel_state_t.
Proof. solve_decision. Defined.

Record srtp_crypto_kernel_t := {
  kernel_state : srtp_crypto_kernel_state_t;
  cipher_type_list : list (Z * cipher_type_t);
  auth_type_list : list (Z * auth_type_t);
  debug_module_list : list string
}.

(** The initial value of the global variable. *)
Definition crypto_kernel : srtp_crypto_kernel_t :=
  {| kernel_state := srtp_crypto_kernel_state_insecure; cipher_type_list := []; auth_type_list := [];
     debug_module_list := [] |}.

(** What the outside answers to one call: self tests of a type, tests of a type
    on the test data of another, and the allocations of list entries, by what
    they are for. *)
Record kernel_env := {
  cipher_self_test : cipher_type_t -> srtp_err_status_t;
  cipher_cross_test : cipher_type_t -> cipher_type_t -> srtp_err_status_t;
  auth_self_test : auth_type_t -> srtp_err_status_t;
  auth_cross_test : auth_type_t -> auth_type_t -> srtp_err_status_t;
  cipher_entry_alloc : cipher_type_t -> bool;
  auth_entry_alloc : auth_type_t -> bool;
  module_entry_alloc : string -> bool
}.

(** ** Registration *)

(** The walk down the list and the update of an entry, for ciphers and
    authentication functions alike.  The walk stops at the entry with the id;
    before it, an entry with the same type is an error. *)
Section Registry.
Context {T : Type} `{EqDecision T} (type_id : T -> Z).
Context (self_test : T -> srtp_err_status_t) (cross_test : T -> T -> srtp_err_status_t) (alloc : T -> bool).

Fixpoint walk_types (new : T) (id : Z) (replace : bool) (l : list (Z * T))
    : srtp_err_status_t + option (list (Z * T)) :=
  match l with
  | [] => inr None
  | (i, t) :: l =>
      if id =? i then
        if negb replace then inl srtp_err_status_bad_param
        else let st := cross_test new t in
             if is_err st then inl st else inr (Some ((id, new) :: l))
      else if decide (new = t) then inl srtp_err_status_bad_param
      else match walk_types new id replace l with
           | inr (Some l) => inr (Some ((i, t) :: l))
           | r => r
           end
  end.

Definition do_load_type (new : T) (id : Z) (replace : bool) (l : list (Z * T))
    : srtp_err_status_t * list (Z * T) :=
  if negb (type_id new =? id) then (srtp_err_status_bad_param, l)
  else
    let st := self_test new in
    if is_err st then (st, l)
    else match walk_types new id replace l with
         | inl st => (st, l)
         | inr (Some l) => (srtp_err_status_ok, l)
         | inr None => if alloc new then (srtp_err_status_ok, (id, new) :: l) else (srtp_err_status_alloc_fail, l)
         end.

(** The first entry with the id. *)
Fixpoint get_type (l : list (Z * T)) (id : Z) : option T :=
  match l with
  | [] => None
  | (i, t) :: l => if id =? i then Some t else get_type l id
  end.

End Registry.

Section Kernel.
Context (env : kernel_env).

Definition with_ciphers (k : srtp_crypto_kernel_t) (l : list (Z * cipher_type_t)) : srtp_crypto_kernel_t :=
  {| kernel_state := kernel_state k; cipher_type_list := l; auth_type_list := auth_type_list k;
     debug_module_list := debug_module_list k |}.

Definition with_auths (k : srtp_crypto_kernel_t) (l : list (Z * auth_type_t)) : srtp_crypto_kernel_t :=
  {| kernel_state := kernel_state k; cipher_type_list := cipher_type_list k; auth_type_list := l;
     debug_module_list := debug_module_list k |}.

Definition with_modules (k : srtp_crypto_kernel_t) (l : list string) : srtp_crypto_kernel_t :=
  {| kernel_state := kernel_state k; cipher_type_list := cipher_type_list k;
     auth_type_list := auth_type_list k; debug_module_list := l |}.

Definition with_kernel_state (k : srtp_crypto_kernel_t) (s : srtp_crypto_kernel_state_t)
    : srtp_crypto_kernel_t :=
  {| kernel_state := s; cipher_type_list := cipher_type_list k; auth_type_list := auth_type_list k;
     debug_module_list := debug_module_list k |}.

Definition do_load_cipher_type (ct : cipher_type_t) (id : Z) (replace : bool)
    : prog srtp_crypto_kernel_t unit := fun k =>
  let '(st, l) := do_load_type cipher_id (cipher_self_test env) (cipher_cross_test env) (cipher_entry_alloc env)
                    ct id replace (cipher_type_list k) in
  Some (with_ciphers k l, if is_err st then inl st else inr tt).

Definition do_load_auth_type (at_ : auth_type_t) (id : Z) (replace : bool)
    : prog srtp_crypto_kernel_t unit := fun k =>
  let '(st, l) := do_load_type auth_id (auth_self_test env) (auth_cross_test env) (auth_entry_alloc env)
                    at_ id replace (auth_type_list k) in
  Some (with_auths k l, if is_err st then inl st else inr tt).

Definition srtp_crypto_kernel_load_cipher_type ct id := do_load_cipher_type ct id false.
Definition srtp_replace_cipher_type ct id := do_load_cipher_type ct id true.
Definition srtp_crypto_kernel_load_auth_type t id := do_load_auth_type t id false.
Definition srtp_replace_auth_type t id := do_load_auth_type t id true.

(** The walk down the list of debug modules: names are compared in their first
    64 characters. *)
Definition has_debug_module (k : srtp_crypto_kernel_t) (name : string) : bool :=
  existsb (fun n => String.eqb (substring 0 64 name) (substring 0 64 n)) (debug_module_list k).

(** [srtp_crypto_kernel_load_debug_module(dm)]. *)
Definition srtp_crypto_kernel_load_debug_module (name : string) : prog srtp_crypto_kernel_t unit := fun k =>
  if has_debug_module k name then Some (k, inl srtp_err_status_bad_param)
  else if module_entry_alloc env name then Some (with_modules k (name :: debug_module_list k), inr tt)
  else Some (k, inl srtp_err_status_alloc_fail).

(** [srtp_crypto_kernel_status()] re-runs the self tests; a failure ends the
    process, which is the [None] of the result. *)
Definition srtp_crypto_kernel_status : prog srtp_crypto_kernel_t unit := fun k =>
  if forallb (fun '(_, t) => negb (is_err (cipher_self_test env t))) (cipher_type_list k) &&
     forallb (fun '(_, t) => negb (is_err (auth_self_test env t))) (auth_type_list k)
  then Some (k, inr tt) else None.

(** [srtp_crypto_kernel_init()]. *)
Definition srtp_crypto_kernel_init : prog srtp_crypto_kernel_t unit :=
  let* s := pget kernel_state in
  if decide (s = srtp_crypto_kernel_state_secure) then srtp_crypto_kernel_status
  else
    srtp_crypto_kernel_load_debug_module "crypto kernel" ;;
    srtp_crypto_kernel_load_debug_module "auth func" ;;
    srtp_crypto_kernel_load_debug_module "cipher" ;;
    srtp_crypto_kernel_load_debug_module "stat test" ;;
    srtp_crypto_kernel_load_debug_module "alloc" ;;
    srtp_crypto_kernel_load_cipher_type srtp_null_cipher SRTP_NULL_CIPHER ;;
    srtp_crypto_kernel_load_cipher_type srtp_aes_icm_128 SRTP_AES_ICM_128 ;;
    srtp_crypto_kernel_load_cipher_type srtp_aes_icm_256 SRTP_AES_ICM_256 ;;
    srtp_crypto_kernel_load_debug_module "aes icm" ;;
    srtp_crypto_kernel_load_auth_type srtp_null_auth SRTP_NULL_AUTH ;;
    srtp_crypto_kernel_load_auth_type srtp_hmac SRTP_HMAC_SHA1 ;;
    srtp_crypto_kernel_load_debug_module "hmac sha-1" ;;
    pmodify (fun k => with_kernel_state k srtp_crypto_kernel_state_secure).

(** [srtp_crypto_kernel_shutdown()]. *)
Definition srtp_crypto_kernel_shutdown : prog srtp_crypto_kernel_t unit :=
  pmodify (fun _ => crypto_kernel).

(** [srtp_init()] and [srtp_shutdown()] of srtp.c. *)
Definition srtp_init : prog srtp_crypto_kernel_t unit :=
  srtp_crypto_kernel_init ;; srtp_crypto_kernel_load_debug_module "srtp".

Definition srtp_shutdown : prog srtp_crypto_kernel_t unit := srtp_crypto_kernel_shutdown.

End Kernel.

(** ** Allocation *)

Definition srtp_crypto_kernel_get_cipher_type (k : srtp_crypto_kernel_t) (id : Z) : option cipher_type_t :=
  get_type (cipher_type_list k) id.

Definition srtp_crypto_kernel_get_auth_type (k : srtp_crypto_kernel_t) (id : Z) : option auth_type_t :=
  get_type (auth_type_list k) id.

Section Allocation.
Context `{BC : BlockCipher} `{LV : Locals}.

(** [srtp_crypto_kernel_alloc_cipher(id, &c, key_len, tag_len)]; [ok1] and
    [ok2] answer the allocations of the object and of its state. *)
Definition srtp_crypto_kernel_alloc_cipher (k : srtp_crypto_kernel_t) (ok1 ok2 : bool) (id key_len : Z)
    : srtp_err_status_t * option cipher_t :=
  if decide (kernel_state k <> srtp_crypto_kernel_state_secure) then (srtp_err_status_init_fail, None)
  else
    match srtp_crypto_kernel_get_cipher_type k id with
    | None => (srtp_err_status_fail, None)
    | Some srtp_null_cipher => srtp_null_cipher_alloc ok1 key_len
    | Some (srtp_aes_icm_128 | srtp_aes_icm_256) =>
        let '(st, c) := srtp_aes_icm_alloc bc_zero ok1 ok2 key_len in (st, icm_cipher <$> c)
    end.

Definition srtp_crypto_kernel_alloc_auth (k : srtp_crypto_kernel_t) (ok : bool) (id key_len tag_len : Z)
    : srtp_err_status_t * option auth_t :=
  if decide (kernel_state k <> srtp_crypto_kernel_state_secure) then (srtp_err_status_init_fail, None)
  else
    match srtp_crypto_kernel_get_auth_type k id with
    | None => (srtp_err_status_fail, None)
    | Some srtp_null_auth => srtp_null_auth_alloc ok key_len tag_len
    | Some srtp_hmac => let '(st, a) := srtp_hmac_alloc ok key_len tag_len in (st, hmac_auth <$> a)
    end.

End Allocation.
