(* ===== verification/SelfTest.v ===== *)
(** The self tests of libsrtp: srtp_cipher_type_test of crypto/cipher/cipher.c
    and srtp_auth_type_test of crypto/hash/auth.c, over the method tables of
    cipher.h and auth.h, with the test data of null_cipher.c, aes_icm.c,
    null_auth.c and hmac.c.

    A method table is a record of operations on objects of some type, so the
    tests are modelled for every implementation, a faulty one too, and with the steps for
    AES-GCM, which this build has no type for.  Debugging output is off. *)

From S2P Require Import Prelude Err Prog SrtpPolicy Sha1 Hmac Aes AesKeys AesIcm Cipher Kernel.

(** ** Method tables *)

(** [srtp_cipher_direction_t]. *)
Inductive srtp_cipher_direction_t := srtp_direction_encrypt | srtp_direction_decrypt | srtp_direction_any.

(** [srtp_cipher_test_case_t]: a NULL pointer is the empty array; the list of
    cases is the list of the links. *)
Record srtp_cipher_test_case_t := {
  tc_key_length : Z;
  tc_key : list Z;
  tc_idx : list Z;
  tc_plaintext_length : Z;
  tc_plaintext : list Z;
  tc_ciphertext_length : Z;
  tc_ciphertext : list Z;
  tc_aad_length : Z;
  tc_aad : list Z;
  tc_tag_length : Z
}.

(** [srtp_cipher_type_t] with objects [C].  [ct_alloc] gets the answers of the
    two allocations; encryption works on the octets at an address and may
    change the length; [ct_get_tag] writes the tag into an array from an offset
    on and gives its length.  The two optional methods may be NULL.
    [ct_algorithm] is the field of the object. *)
Record srtp_cipher_type_t (C : Type) := {
  ct_alloc : bool -> bool -> Z -> Z -> srtp_err_status_t * option C;
  ct_dealloc : C -> srtp_err_status_t;
  ct_init : C -> list Z -> option (srtp_err_status_t * C);
  ct_encrypt : Z -> C -> list Z -> Z -> option (srtp_err_status_t * C * list Z * Z);
  ct_decrypt : Z -> C -> list Z -> Z -> option (srtp_err_status_t * C * list Z * Z);
  ct_set_iv : C -> list Z -> srtp_cipher_direction_t -> option (srtp_err_status_t * C);
  ct_set_aad : option (C -> list Z -> Z -> option (srtp_err_status_t * C));
  ct_get_tag : option (C -> list Z -> Z -> option (srtp_err_status_t * C * list Z * Z));
  ct_algorithm : C -> Z;
  ct_test_data : list srtp_cipher_test_case_t
}.
Arguments ct_alloc {C}. Arguments ct_dealloc {C}. Arguments ct_init {C}. Arguments ct_encrypt {C}.
Arguments ct_decrypt {C}. Arguments ct_set_iv {C}. Arguments ct_set_aad {C}. Arguments ct_get_tag {C}.
Arguments ct_algorithm {C}. Arguments ct_test_data {C}.

(** [srtp_auth_test_case_t]. *)
Record srtp_auth_test_case_t := {
  tca_key_length : Z;
  tca_key : list Z;
  tca_data_length : Z;
  tca_data : list Z;
  tca_tag_length : Z;
  tca_tag : list Z
}.

(** [srtp_auth_type_t] with objects [A]. *)
Record srtp_auth_type_t (A : Type) := {
  at_alloc : bool -> Z -> Z -> srtp_err_status_t * option A;
  at_dealloc : A -> srtp_err_status_t;
  at_init : A -> list Z -> option (srtp_err_status_t * A);
  at_compute : A -> list Z -> Z -> list Z -> option (srtp_err_status_t * A * list Z);
  at_test_data : list srtp_auth_test_case_t
}.
Arguments at_alloc {A}. Arguments at_dealloc {A}. Arguments at_init {A}. Arguments at_compute {A}.
Arguments at_test_data {A}.

(** ** Loops over arrays *)

(** [for (k = 0; k < n; k++) if (a[k] != b[k]) status = algo_fail;], with a
    [break] when [stop] is set; the result says whether there was a
    difference. *)
Fixpoint compare_loop (stop : bool) (n : nat) (k : Z) (a b : list Z) (differ : bool) : option bool :=
  match n with
  | O => Some differ
  | S n =>
      x ← aget a k; y ← aget b k;
      if x =? y then compare_loop stop n (k + 1) a b differ
      else if stop then Some true
      else compare_loop stop n (k + 1) a b true
  end.

(** [for (k = 0; k < n; k++) dst[k] = src[k];] *)
Definition copy_loop (n : Z) (dst src : list Z) : option (list Z) :=
  for_up 0 n (fun k dst => x ← aget src k; aset dst k x) dst.

(** ** The test of a cipher type *)

Definition SELF_TEST_BUF_OCTETS : Z := 128.
Definition NUM_RAND_TESTS : nat := 128.
Definition MAX_KEY_LEN : Z := 64.

(** What a test meets: the numbers [rand] yields, the answers of the allocator,
    the address of [buffer] and what [key] holds before. *)
Record test_env := {
  te_rand : nat -> Z;
  te_alloc : nat -> bool;
  te_addr : Z;
  te_key : list Z
}.

(** The numbers of calls of [rand] and of the allocator so far, and [buffer]. *)
Record test_state := { ts_rands : nat; ts_allocs : nat; ts_buffer : list Z }.

Definition put_buffer (b : list Z) : prog test_state unit :=
  pmodify (fun s => {| ts_rands := ts_rands s; ts_allocs := ts_allocs s; ts_buffer := b |}).

Section CipherTest.
Context {C : Type} (env : test_env) (ct : srtp_cipher_type_t C).

(** [rand()]. *)
Definition next_rand : prog test_state Z :=
  let* i := pget ts_rands in
  pmodify (fun s => {| ts_rands := S (ts_rands s); ts_allocs := ts_allocs s; ts_buffer := ts_buffer s |}) ;;
  pret (te_rand env i).

(** The octets that [srtp_cipher_rand_for_tests(dest, len)] stores. *)
Fixpoint srtp_cipher_rand_for_tests (len : nat) : prog test_state (list Z) :=
  match len with
  | O => pret []
  | S len =>
      let* val := next_rand in
      let* dst := srtp_cipher_rand_for_tests len in
      pret ((val & 0xff) :: dst)
  end.

Definition srtp_cipher_rand_u32_for_tests : prog test_state Z :=
  let* r := srtp_cipher_rand_for_tests 4 in
  plift (le32 r 0).

(** [srtp_cipher_type_alloc(ct, &c, key_len, tlen)]. *)
Definition srtp_cipher_type_alloc (key_len tlen : Z) : prog test_state C :=
  let* i := pget ts_allocs in
  pmodify (fun s => {| ts_rands := ts_rands s; ts_allocs := S (S (ts_allocs s)); ts_buffer := ts_buffer s |}) ;;
  let '(st, c) := ct_alloc ct (te_alloc env i) (te_alloc env (S i)) key_len tlen in
  pcheck st ;; plift c.

Definition init_cipher (c : C) (key : list Z) : prog test_state C :=
  let* ' (st, c) := plift (ct_init ct c key) in
  pcheck st ;; pret c.

Definition set_test_iv (c : C) (iv : list Z) (d : srtp_cipher_direction_t) : prog test_state C :=
  let* ' (st, c) := plift (ct_set_iv ct c iv d) in
  pcheck st ;; pret c.

(** [srtp_cipher_encrypt(c, buffer, &len)] and [srtp_cipher_decrypt]. *)
Definition crypt_buffer (f : Z -> C -> list Z -> Z -> option (srtp_err_status_t * C * list Z * Z)) (c : C) (len : Z)
    : prog test_state (C * Z) :=
  let* b := pget ts_buffer in
  let* ' (st, c, b, len) := plift (f (te_addr env) c b len) in
  put_buffer b ;; pcheck st ;; pret (c, len).

(** [srtp_cipher_set_aad(c, aad, aad_len)] and [srtp_cipher_get_tag(c, buffer +
    off, &tag_len)]. *)
Definition srtp_cipher_set_aad (c : C) (aad : list Z) (aad_len : Z) : option (srtp_err_status_t * C) :=
  match ct_set_aad ct with None => Some (srtp_err_status_no_such_op, c) | Some f => f c aad aad_len end.

Definition srtp_cipher_get_tag (c : C) (buffer : list Z) (off tag_len : Z) : option (srtp_err_status_t * C * list Z * Z) :=
  match ct_get_tag ct with None => Some (srtp_err_status_no_such_op, c, buffer, tag_len) | Some f => f c buffer off end.

Definition is_gcm (c : C) : bool := (ct_algorithm ct c =? SRTP_AES_GCM_128) || (ct_algorithm ct c =? SRTP_AES_GCM_256).

(** The steps for AES-GCM: the additional data of the case, and the tag behind
    the [len] octets of ciphertext.  A failing [get_tag] leaves [tag_len] unused. *)
Definition set_test_aad (c : C) (tc : srtp_cipher_test_case_t) : prog test_state C :=
  if is_gcm c then
    let* ' (st, c) := plift (srtp_cipher_set_aad c (tc_aad tc) (tc_aad_length tc)) in
    pcheck st ;; pret c
  else pret c.

Definition append_tag (c : C) (len : Z) : prog test_state (C * Z) :=
  if is_gcm c then
    let* b := pget ts_buffer in
    let* ' (st, c, b, tag_len) := plift (srtp_cipher_get_tag c b len 0) in
    put_buffer b ;; pcheck st ;; pret (c, u32 (len + tag_len))
  else pret (c, len).

(** [buffer] gets the first [n] octets of [src]. *)
Definition copy_to_buffer (n : Z) (src : list Z) : prog test_state unit :=
  let* b := pget ts_buffer in
  let* b := plift (copy_loop n b src) in
  put_buffer b.

(** The comparison of [buffer] with what is expected. *)
Definition check_buffer (stop : bool) (n : Z) (expected : list Z) : prog test_state unit :=
  let* b := pget ts_buffer in
  let* differ := plift (compare_loop stop (Z.to_nat n) 0 b expected false) in
  preturn_if differ srtp_err_status_algo_fail.

Definition test_encryption (c : C) (tc : srtp_cipher_test_case_t) : prog test_state C :=
  let* c := init_cipher c (tc_key tc) in
  preturn_if (SELF_TEST_BUF_OCTETS <? tc_ciphertext_length tc) srtp_err_status_bad_param ;;
  copy_to_buffer (tc_plaintext_length tc) (tc_plaintext tc) ;;
  let* c := set_test_iv c (tc_idx tc) srtp_direction_encrypt in
  let* c := set_test_aad c tc in
  let* ' (c, len) := crypt_buffer (ct_encrypt ct) c (tc_plaintext_length tc) in
  let* ' (c, len) := append_tag c len in
  preturn_if (negb (len =? tc_ciphertext_length tc)) srtp_err_status_algo_fail ;;
  check_buffer true (tc_ciphertext_length tc) (tc_ciphertext tc) ;;
  pret c.

Definition test_decryption (c : C) (tc : srtp_cipher_test_case_t) : prog test_state C :=
  let* c := init_cipher c (tc_key tc) in
  preturn_if (SELF_TEST_BUF_OCTETS <? tc_ciphertext_length tc) srtp_err_status_bad_param ;;
  copy_to_buffer (tc_ciphertext_length tc) (tc_ciphertext tc) ;;
  let* c := set_test_iv c (tc_idx tc) srtp_direction_decrypt in
  let* c := set_test_aad c tc in
  let* ' (c, len) := crypt_buffer (ct_decrypt ct) c (tc_ciphertext_length tc) in
  preturn_if (negb (len =? tc_plaintext_length tc)) srtp_err_status_algo_fail ;;
  check_buffer false (tc_plaintext_length tc) (tc_plaintext tc) ;;
  pret c.

(** The loop over the test cases. *)
Fixpoint known_answer_tests (cases : list srtp_cipher_test_case_t) : prog test_state unit :=
  match cases with
  | [] => pret tt
  | tc :: cases =>
      let* c := srtp_cipher_type_alloc (tc_key_length tc) (tc_tag_length tc) in
      let* c := test_encryption c tc in
      let* c := test_decryption c tc in
      pcheck (ct_dealloc ct c) ;;
      known_answer_tests cases
  end.

(** [buffer], which holds the [length] octets [text], is encrypted and
    decrypted again. *)
Definition test_inversion (c : C) (tc : srtp_cipher_test_case_t) (key : list Z) (length : Z) (text : list Z) : prog test_state C :=
  let* c := init_cipher c key in
  let* c := set_test_iv c (tc_idx tc) srtp_direction_encrypt in
  let* c := set_test_aad c tc in
  let* ' (c, len) := crypt_buffer (ct_encrypt ct) c length in
  let* ' (c, len) := append_tag c len in
  let* c := init_cipher c key in
  let* c := set_test_iv c (tc_idx tc) srtp_direction_decrypt in
  let* c := set_test_aad c tc in
  let* ' (c, len) := crypt_buffer (ct_decrypt ct) c len in
  preturn_if (negb (len =? length)) srtp_err_status_algo_fail ;;
  check_buffer false length text ;;
  pret c.

(** One random test: the IV that is drawn is not the one that is set. *)
Definition random_test (c : C) (tc : srtp_cipher_test_case_t) : prog test_state C :=
  let* r := srtp_cipher_rand_u32_for_tests in
  let length := r mod (SELF_TEST_BUF_OCTETS - 64) in
  let* text := srtp_cipher_rand_for_tests (Z.to_nat length) in
  copy_to_buffer length text ;;
  preturn_if (MAX_KEY_LEN <? tc_key_length tc) srtp_err_status_cant_check ;;
  let* k := srtp_cipher_rand_for_tests (Z.to_nat (tc_key_length tc)) in
  let* key := plift (blit (te_key env) 0 k) in
  let* iv := srtp_cipher_rand_for_tests (Z.to_nat MAX_KEY_LEN) in
  test_inversion c tc key length text.

Fixpoint random_tests (n : nat) (c : C) (tc : srtp_cipher_test_case_t) : prog test_state C :=
  match n with
  | O => pret c
  | S n => let* c := random_test c tc in random_tests n c tc
  end.

(** [srtp_cipher_type_test(ct, test_data)]. *)
Definition srtp_cipher_type_test (test_data : list srtp_cipher_test_case_t) : prog test_state unit :=
  match test_data with
  | [] => preturn srtp_err_status_cant_check
  | tc :: _ =>
      known_answer_tests test_data ;;
      let* c := srtp_cipher_type_alloc (tc_key_length tc) (tc_tag_length tc) in
      let* c := random_tests NUM_RAND_TESTS c tc in
      pcheck (ct_dealloc ct c)
  end.

Definition srtp_cipher_type_self_test : prog test_state unit := srtp_cipher_type_test (ct_test_data ct).

End CipherTest.

(** ** The test of an authentication type *)

Definition SELF_TEST_TAG_BUF_OCTETS : Z := 32.

Section AuthTest.
Context {A : Type} (alloc : nat -> bool) (at_ : srtp_auth_type_t A).

(** One test case, the [i]-th; [tag] is the automatic array. *)
Definition auth_test_case (i : nat) (tc : srtp_auth_test_case_t) : prog (list Z) unit :=
  preturn_if (SELF_TEST_TAG_BUF_OCTETS <? tca_tag_length tc) srtp_err_status_bad_param ;;
  let '(st, a) := at_alloc at_ (alloc i) (tca_key_length tc) (tca_tag_length tc) in
  pcheck st ;;
  let* a := plift a in
  let* ' (st, a) := plift (at_init at_ a (tca_key tc)) in
  pcheck st ;;
  let* tag := pget id in
  let* tag := plift (blit tag 0 (replicate (Z.to_nat (tca_tag_length tc)) 0)) in
  let* ' (st, a, tag) := plift (at_compute at_ a (tca_data tc) (tca_data_length tc) tag) in
  pmodify (fun _ => tag) ;;
  pcheck st ;;
  let* differ := plift (compare_loop false (Z.to_nat (tca_tag_length tc)) 0 tag (tca_tag tc) false) in
  preturn_if differ srtp_err_status_algo_fail ;;
  pcheck (at_dealloc at_ a).

Fixpoint auth_test_cases (i : nat) (cases : list srtp_auth_test_case_t) : prog (list Z) unit :=
  match cases with
  | [] => pret tt
  | tc :: cases => auth_test_case i tc ;; auth_test_cases (S i) cases
  end.

(** [srtp_auth_type_test(at, test_data)]. *)
Definition srtp_auth_type_test (test_data : list srtp_auth_test_case_t) : prog (list Z) unit :=
  match test_data with
  | [] => preturn srtp_err_status_cant_check
  | _ => auth_test_cases 0 test_data
  end.

Definition srtp_auth_type_self_test : prog (list Z) unit := srtp_auth_type_test (at_test_data at_).

End AuthTest.

(** ** The types of the library *)

Section Library.
Context `{BC : BlockCipher} `{LV : Locals}.

Definition srtp_null_cipher_test_0 : srtp_cipher_test_case_t :=
  {| tc_key_length := 0; tc_key := []; tc_idx := []; tc_plaintext_length := 0; tc_plaintext := [];
     tc_ciphertext_length := 0; tc_ciphertext := []; tc_aad_length := 0; tc_aad := []; tc_tag_length := 0 |}.

Definition srtp_aes_icm_128_test_case_0 : srtp_cipher_test_case_t :=
  {| tc_key_length := SRTP_AES_ICM_128_KEY_LEN_WSALT; tc_key := srtp_aes_icm_128_test_case_0_key;
     tc_idx := srtp_aes_icm_128_test_case_0_nonce; tc_plaintext_length := 32;
     tc_plaintext := srtp_aes_icm_128_test_case_0_plaintext; tc_ciphertext_length := 32;
     tc_ciphertext := srtp_aes_icm_128_test_case_0_ciphertext; tc_aad_length := 0; tc_aad := []; tc_tag_length := 0 |}.

Definition srtp_aes_icm_256_test_case_0 : srtp_cipher_test_case_t :=
  {| tc_key_length := SRTP_AES_ICM_256_KEY_LEN_WSALT;
     tc_key := [0x57; 0xf8; 0x2f; 0xe3; 0x61; 0x3f; 0xd1; 0x70; 0xa8; 0x5e; 0xc9; 0x3c; 0x40; 0xb1; 0xf0; 0x92;
                0x2e; 0xc4; 0xcb; 0x0d; 0xc0; 0x25; 0xb5; 0x82; 0x72; 0x14; 0x7c; 0xc4; 0x38; 0x94; 0x4a; 0x98;
                0xf0; 0xf1; 0xf2; 0xf3; 0xf4; 0xf5; 0xf6; 0xf7; 0xf8; 0xf9; 0xfa; 0xfb; 0xfc; 0xfd];
     tc_idx := replicate 16 0; tc_plaintext_length := 32; tc_plaintext := replicate 32 0; tc_ciphertext_length := 32;
     tc_ciphertext := [0x92; 0xbd; 0xd2; 0x8a; 0x93; 0xc3; 0xf5; 0x25; 0x11; 0xc6; 0x77; 0xd0; 0x8b; 0x55; 0x15; 0xa4;
                       0x9d; 0xa7; 0x1b; 0x23; 0x78; 0xa8; 0x54; 0xf6; 0x70; 0x50; 0x75; 0x6d; 0xed; 0x16; 0x5b; 0xac];
     tc_aad_length := 0; tc_aad := []; tc_tag_length := 0 |}.

(** The encryption functions leave the length alone. *)
Definition encrypt_method (addr : Z) (c : cipher_t) (b : list Z) (len : Z)
    : option (srtp_err_status_t * cipher_t * list Z * Z) :=
  '(st, c, b) ← srtp_cipher_encrypt addr c b len; Some (st, c, b, len).

Definition cipher_dealloc (c : cipher_t) : srtp_err_status_t :=
  match c with null_cipher _ => srtp_err_status_ok | icm_cipher c => fst (srtp_aes_icm_dealloc bc_zero (Some c)) end.

(** The method tables [srtp_null_cipher], [srtp_aes_icm_128] and
    [srtp_aes_icm_256]. *)
Definition cipher_methods (t : cipher_type_t) : srtp_cipher_type_t cipher_t :=
  {| ct_alloc := fun ok1 ok2 key_len _ =>
       match t with
       | srtp_null_cipher => srtp_null_cipher_alloc ok1 key_len
       | _ => let '(st, c) := srtp_aes_icm_alloc bc_zero ok1 ok2 key_len in (st, icm_cipher <$> c)
       end;
     ct_dealloc := cipher_dealloc;
     ct_init := srtp_cipher_init;
     ct_encrypt := encrypt_method;
     ct_decrypt := encrypt_method;
     ct_set_iv := fun c iv _ => srtp_cipher_set_iv c iv;
     ct_set_aad := None;
     ct_get_tag := None;
     ct_algorithm := cipher_type_id;
     ct_test_data :=
       match t with
       | srtp_null_cipher => [srtp_null_cipher_test_0]
       | srtp_aes_icm_128 => [srtp_aes_icm_128_test_case_0]
       | srtp_aes_icm_256 => [srtp_aes_icm_256_test_case_0]
       end |}.

Definition srtp_null_auth_test_case_0 : srtp_auth_test_case_t :=
  {| tca_key_length := 0; tca_key := []; tca_data_length := 0; tca_data := []; tca_tag_length := 0; tca_tag := [] |}.

Definition srtp_hmac_test_case_0 : srtp_auth_test_case_t :=
  {| tca_key_length := 20; tca_key := replicate 20 0x0b; tca_data_length := 8;
     tca_data := [0x48; 0x69; 0x20; 0x54; 0x68; 0x65; 0x72; 0x65]; tca_tag_length := 20;
     tca_tag := [0xb6; 0x17; 0x31; 0x86; 0x55; 0x05; 0x72; 0x64; 0xe2; 0x8b; 0xc0; 0xb6; 0xfb; 0x37; 0x8c; 0x8e;
                 0xf1; 0x46; 0xbe; 0x00] |}.

(** The method tables [srtp_null_auth] and [srtp_hmac]. *)
Definition auth_methods (t : auth_type_t) : srtp_auth_type_t auth_t :=
  {| at_alloc := fun ok key_len out_len =>
       match t with
       | srtp_null_auth => srtp_null_auth_alloc ok key_len out_len
       | srtp_hmac => let '(st, a) := srtp_hmac_alloc ok key_len out_len in (st, hmac_auth <$> a)
       end;
     at_dealloc := fun _ => srtp_err_status_ok;
     at_init := srtp_auth_init;
     at_compute := srtp_auth_compute;
     at_test_data :=
       match t with srtp_null_auth => [srtp_null_auth_test_case_0] | srtp_hmac => [srtp_hmac_test_case_0] end |}.

End Library.
