(* ===== verification/KernelRun.v ===== *)
(** Runs of the crypto kernel: what [srtp_init] leaves behind, and the
    invariant of the registries under every sequence of calls.

    A self test is trusted to be sound for some predicate on the types; the
    kernel then only hands out objects of types with the predicate. *)

From Stdlib Require Import String.
From S2P Require Import Prelude Err Prog SrtpPolicy Hmac Aes AesKeys AesIcm Cipher Kernel.
#[local] Open Scope Z_scope.

(** The kernel after [srtp_init]: secure, with the types that the library
    looks up. *)
Record kernel_ready (k : srtp_crypto_kernel_t) : Prop := {
  kr_secure : kernel_state k = srtp_crypto_kernel_state_secure;
  kr_null : srtp_crypto_kernel_get_cipher_type k SRTP_NULL_CIPHER = Some srtp_null_cipher;
  kr_icm_128 : srtp_crypto_kernel_get_cipher_type k SRTP_AES_ICM_128 = Some srtp_aes_icm_128;
  kr_icm_256 : srtp_crypto_kernel_get_cipher_type k SRTP_AES_ICM_256 = Some srtp_aes_icm_256;
  kr_null_auth : srtp_crypto_kernel_get_auth_type k SRTP_NULL_AUTH = Some srtp_null_auth;
  kr_hmac : srtp_crypto_kernel_get_auth_type k SRTP_HMAC_SHA1 = Some srtp_hmac
}.

(** ** The registries *)

Section Registry.
Context {T : Type} `{EqDecision T} (type_id : T -> Z) (Hinj : forall t u, type_id t = type_id u -> t = u).
Context (P : T -> Prop).

(** Every id is registered at most once, for the type that has it, and the
    type passed its test. *)
Definition registry_ok (l : list (Z * T)) : Prop :=
  NoDup l.*1 /\ Forall (fun e => e.1 = type_id e.2 /\ P e.2) l.

Lemma get_type_elem l i t : registry_ok l -> get_type l i = Some t <-> (i, t) ∈ l.
Proof.
  intros [HN HF]. induction l as [|[j u] l IH]; simpl; [split; [done|by rewrite elem_of_nil]|].
  inversion HN as [|?? Hj HN']; inversion HF as [|?? Hu HF']; subst. rewrite elem_of_cons.
  destruct (Z.eqb_spec i j) as [->|Hne].
  - split; [intros [= ->]; by left|]. intros [[= ->]|Hin]; [done|].
    destruct Hj. apply list_elem_of_fmap. by exists (j, t).
  - rewrite (IH HN' HF'). split; [by right|]. intros [[= -> ->]|?]; done.
Qed.

Lemma get_type_ok l i t : registry_ok l -> get_type l i = Some t -> i = type_id t /\ P t.
Proof. intros Hl Hg. apply (get_type_elem l i t Hl) in Hg. destruct Hl as [_ HF].
  apply list_elem_of_lookup in Hg as [j Hj]. exact (Forall_lookup_1 _ _ _ _ HF Hj). Qed.

Context (self_test : T -> srtp_err_status_t) (cross_test : T -> T -> srtp_err_status_t) (alloc : T -> bool).

(** The walk finds the id with its own type, or nothing. *)
Lemma walk_types_ok new replace l :
  registry_ok l ->
  match walk_types cross_test new (type_id new) replace l with
  | inl _ => True
  | inr (Some l') => l' = l /\ (type_id new, new) ∈ l
  | inr None => type_id new ∉ l.*1
  end.
Proof.
  intros [HN HF]. induction l as [|[j u] l IH]; simpl; [apply not_elem_of_nil|].
  inversion HN as [|?? Hj HN']; inversion HF as [|?? Hu HF']; subst. simpl in Hu. destruct Hu as [-> _].
  destruct (Z.eqb_spec (type_id new) (type_id u)) as [Heq|Hne].
  - apply Hinj in Heq as ->. destruct replace; simpl; [|done]. destruct (is_err _); [done|].
    split; [done|by rewrite elem_of_cons; left].
  - case_decide; [done|]. specialize (IH HN' HF').
    destruct (walk_types cross_test new (type_id new) replace l) as [|[l'|]]; [done| |].
    + destruct IH as [-> IH]. rewrite elem_of_cons. by auto.
    + by rewrite not_elem_of_cons.
Qed.

(** The walk only gives up with an error. *)
Lemma walk_types_err new id replace l st : walk_types cross_test new id replace l = inl st -> is_err st = true.
Proof.
  induction l as [|[j u] l IH]; simpl; [done|]. destruct (id =? j).
  - destruct replace; simpl; [|by intros [= <-]]. destruct (is_err (cross_test new u)) eqn:Ec; [|done]. by intros [= <-].
  - case_decide; [by intros [= <-]|]. destruct (walk_types _ _ _ _ l) as [|[]]; done.
Qed.

(** Loading keeps the registry in order and every entry in place; when it
    succeeds, the type is registered. *)
Lemma do_load_type_ok new id replace l st l' :
  registry_ok l -> (is_err (self_test new) = false -> P new) ->
  do_load_type type_id self_test cross_test alloc new id replace l = (st, l') ->
  registry_ok l' /\ (forall i t, get_type l i = Some t -> get_type l' i = Some t) /\
  (is_err st = false -> id = type_id new /\ get_type l' id = Some new).
Proof.
  intros Hl Hst. unfold do_load_type. destruct (Z.eqb_spec (type_id new) id) as [<-|Hne]; simpl; [|by intros [= <- <-]].
  destruct (is_err (self_test new)) eqn:Et; [intros [= <- <-]; by split_and!; [..|congruence]|].
  pose proof (walk_types_ok new replace l Hl) as Hw.
  destruct (walk_types cross_test new (type_id new) replace l) as [st0|[l0|]] eqn:Ew.
  - intros [= <- <-]. split_and!; try done. intros Hs. apply walk_types_err in Ew. congruence.
  - destruct Hw as [-> Hin]. intros [= <- <-]. split_and!; try done. intros _. split; [done|]. by apply get_type_elem.
  - destruct (alloc new); intros [= <- <-]; [|by split_and!].
    assert (registry_ok ((type_id new, new) :: l)) as Hl'.
    { destruct Hl as [HN HF]. split; [by constructor|]. constructor; [split; [done|by apply Hst]|done]. }
    split_and!; [done| |].
    + intros i t Hg. apply get_type_elem; [done|]. right. by apply (get_type_elem l i t Hl).
    + intros _. split; [done|]. simpl. by rewrite Z.eqb_refl.
Qed.

End Registry.

Lemma cipher_id_inj t u : cipher_id t = cipher_id u -> t = u.
Proof. by destruct t, u. Qed.

Lemma auth_id_inj t u : auth_id t = auth_id u -> t = u.
Proof. by destruct t, u. Qed.

(** ** Calls *)

(** The calls that change the registries. *)
Inductive kernel_call :=
| call_init
| call_shutdown
| call_load_cipher (t : cipher_type_t) (id : Z)
| call_replace_cipher (t : cipher_type_t) (id : Z)
| call_load_auth (t : auth_type_t) (id : Z)
| call_replace_auth (t : auth_type_t) (id : Z)
| call_load_module (name : string).

Definition run_call (env : kernel_env) (c : kernel_call) : prog srtp_crypto_kernel_t unit :=
  match c with
  | call_init => srtp_init env
  | call_shutdown => srtp_shutdown
  | call_load_cipher t id => srtp_crypto_kernel_load_cipher_type env t id
  | call_replace_cipher t id => srtp_replace_cipher_type env t id
  | call_load_auth t id => srtp_crypto_kernel_load_auth_type env t id
  | call_replace_auth t id => srtp_replace_auth_type env t id
  | call_load_module name => srtp_crypto_kernel_load_debug_module env name
  end.

Section Invariant.
Context (PC : cipher_type_t -> Prop) (PA : auth_type_t -> Prop).

(** Self tests that only pass for types with the predicates. *)
Definition sound_tests (env : kernel_env) : Prop :=
  (forall t, is_err (cipher_self_test env t) = false -> PC t) /\
  (forall t, is_err (auth_self_test env t) = false -> PA t).

(** The states of the global variable after any sequence of calls, in sound
    but otherwise arbitrary environments. *)
Inductive kernel_reachable : srtp_crypto_kernel_t -> Prop :=
| reachable_start : kernel_reachable crypto_kernel
| reachable_call k env c k' r :
    kernel_reachable k -> sound_tests env -> run_call env c k = Some (k', r) -> kernel_reachable k'.

Record kernel_inv (k : srtp_crypto_kernel_t) : Prop := {
  ki_ciphers : registry_ok cipher_id PC (cipher_type_list k);
  ki_auths : registry_ok auth_id PA (auth_type_list k);
  ki_secure : kernel_state k = srtp_crypto_kernel_state_secure -> kernel_ready k
}.

(** What a step of the kernel keeps: the security state, and every entry. *)
Record kernel_grows (k k' : srtp_crypto_kernel_t) : Prop := {
  kg_inv : registry_ok cipher_id PC (cipher_type_list k') /\ registry_ok auth_id PA (auth_type_list k');
  kg_state : kernel_state k' = kernel_state k;
  kg_ciphers i t : srtp_crypto_kernel_get_cipher_type k i = Some t -> srtp_crypto_kernel_get_cipher_type k' i = Some t;
  kg_auths i t : srtp_crypto_kernel_get_auth_type k i = Some t -> srtp_crypto_kernel_get_auth_type k' i = Some t
}.

Context (env : kernel_env) (Henv : sound_tests env).

Lemma load_cipher_grows t id replace k :
  kernel_inv k -> exists k' r, do_load_cipher_type env t id replace k = Some (k', r) /\ kernel_grows k k' /\
    (r = inr tt -> srtp_crypto_kernel_get_cipher_type k' id = Some t).
Proof.
  intros [Hc Ha _]. unfold do_load_cipher_type. destruct (do_load_type _ _ _ _ _ _ _ _) as [st l] eqn:E.
  eapply (do_load_type_ok cipher_id cipher_id_inj PC) in E as (Hl & Hg & Hok); [|done|apply Henv].
  eexists _, _. split_and!; [done|by split|]. destruct (is_err st) eqn:Es; [done|]. intros _. by apply Hok.
Qed.

Lemma load_auth_grows t id replace k :
  kernel_inv k -> exists k' r, do_load_auth_type env t id replace k = Some (k', r) /\ kernel_grows k k' /\
    (r = inr tt -> srtp_crypto_kernel_get_auth_type k' id = Some t).
Proof.
  intros [Hc Ha _]. unfold do_load_auth_type. destruct (do_load_type _ _ _ _ _ _ _ _) as [st l] eqn:E.
  eapply (do_load_type_ok auth_id auth_id_inj PA) in E as (Hl & Hg & Hok); [|done|apply Henv].
  eexists _, _. split_and!; [done|by split|]. destruct (is_err st) eqn:Es; [done|]. intros _. by apply Hok.
Qed.

Lemma load_module_grows name k :
  kernel_inv k -> exists k' r, srtp_crypto_kernel_load_debug_module env name k = Some (k', r) /\ kernel_grows k k'.
Proof.
  intros [Hc Ha _]. unfold srtp_crypto_kernel_load_debug_module.
  destruct (has_debug_module k name); [|destruct (module_entry_alloc env name)]; eexists _, _; (split; [done|by split]).
Qed.

Lemma kernel_grows_inv k k' : kernel_inv k -> kernel_grows k k' -> kernel_inv k'.
Proof.
  intros [Hc Ha Hs] [[Hc' Ha'] Hst Hgc Hga]. split; try done. rewrite Hst. intros Hsec.
  destruct (Hs Hsec) as [A B C D E F]. split; auto. congruence.
Qed.

(** A step that grows the kernel, in front of the rest of a program. *)
Lemma bind_grows {A} (m : prog srtp_crypto_kernel_t unit) (K : prog srtp_crypto_kernel_t A)
    (Q : srtp_crypto_kernel_t -> Prop) k s r :
  kernel_inv k -> (exists k' r', m k = Some (k', r') /\ kernel_grows k k' /\ (r' = inr tt -> Q k')) ->
  (m ;; K) k = Some (s, r) ->
  kernel_inv s /\ (exists st, r = inl st) \/
  exists k', kernel_grows k k' /\ kernel_inv k' /\ Q k' /\ K k' = Some (s, r).
Proof.
  intros Hk (k' & r' & E & Hg & HQ). unfold pbind. rewrite E. cbn [mbind option_bind].
  pose proof (kernel_grows_inv k k' Hk Hg) as Hk'. destruct r' as [st|[]]; [|intros EK; right; by exists k'; auto].
  intros [= <- <-]. left. eauto.
Qed.

Lemma bind_load_cipher {A} t id (K : prog srtp_crypto_kernel_t A) k s r :
  kernel_inv k -> (srtp_crypto_kernel_load_cipher_type env t id ;; K) k = Some (s, r) ->
  kernel_inv s /\ (exists st, r = inl st) \/ exists k', kernel_grows k k' /\ kernel_inv k' /\
    srtp_crypto_kernel_get_cipher_type k' id = Some t /\ K k' = Some (s, r).
Proof.
  intros Hk.
  apply (bind_grows _ _ (fun k' => srtp_crypto_kernel_get_cipher_type k' id = Some t)); [done|by apply load_cipher_grows].
Qed.

Lemma bind_load_auth {A} t id (K : prog srtp_crypto_kernel_t A) k s r :
  kernel_inv k -> (srtp_crypto_kernel_load_auth_type env t id ;; K) k = Some (s, r) ->
  kernel_inv s /\ (exists st, r = inl st) \/ exists k', kernel_grows k k' /\ kernel_inv k' /\
    srtp_crypto_kernel_get_auth_type k' id = Some t /\ K k' = Some (s, r).
Proof.
  intros Hk. apply (bind_grows _ _ (fun k' => srtp_crypto_kernel_get_auth_type k' id = Some t)); [done|by apply load_auth_grows].
Qed.

Lemma bind_load_module {A} name (K : prog srtp_crypto_kernel_t A) k s r :
  kernel_inv k -> (srtp_crypto_kernel_load_debug_module env name ;; K) k = Some (s, r) ->
  kernel_inv s /\ (exists st, r = inl st) \/ exists k', kernel_grows k k' /\ kernel_inv k' /\ K k' = Some (s, r).
Proof.
  intros Hk E. destruct (load_module_grows name k Hk) as (k1 & r1 & E1 & Hg).
  apply (bind_grows _ K (fun _ => True)) in E as [?|(k' & ? & ? & _ & ?)]; eauto 10.
Qed.

Lemma kernel_init_inv k k' r : kernel_inv k -> srtp_crypto_kernel_init env k = Some (k', r) -> kernel_inv k'.
Proof.
  intros Hk. unfold srtp_crypto_kernel_init. autorewrite with prog. case_decide.
  { unfold srtp_crypto_kernel_status. destruct (_ && _); [by intros [= <- _]|done]. }
  intros E.
  repeat first
    [ apply bind_load_module in E as [[? _]|(? & ? & ? & E)]; [assumption| |assumption]
    | apply bind_load_cipher in E as [[? _]|(? & ? & ? & ? & E)]; [assumption| |assumption]
    | apply bind_load_auth in E as [[? _]|(? & ? & ? & ? & E)]; [assumption| |assumption] ].
  injection E as <- _.
  match goal with H : kernel_inv ?k |- kernel_inv (with_kernel_state ?k _) => destruct H as [Hc Ha _] end.
  split; [exact Hc|exact Ha|]. intros _.
  split; [done|unfold srtp_crypto_kernel_get_cipher_type, srtp_crypto_kernel_get_auth_type; cbn [cipher_type_list auth_type_list with_kernel_state]..];
    eauto 12 using kg_ciphers, kg_auths.
Qed.

Lemma run_call_inv c k k' r : kernel_inv k -> run_call env c k = Some (k', r) -> kernel_inv k'.
Proof.
  intros Hk. destruct c as [| |t id|t id|t id|t id|name]; simpl.
  - unfold srtp_init, pbind. destruct (srtp_crypto_kernel_init env k) as [[k1 r1]|] eqn:E; [|done]. simpl.
    apply (kernel_init_inv k) in E; [|done]. destruct r1 as [st|[]]; [by intros [= <- _]|]. intros E'.
    destruct (load_module_grows "srtp" k1 E) as (k2 & r2 & E2 & Hg). simplify_eq. by eapply kernel_grows_inv.
  - intros [= <- _]. split; [..|done]; (split; [constructor|constructor]).
  - intros E. destruct (load_cipher_grows t id false k Hk) as (k1 & r1 & E1 & Hg & _). unfold srtp_crypto_kernel_load_cipher_type in E.
    simplify_eq. by eapply kernel_grows_inv.
  - intros E. destruct (load_cipher_grows t id true k Hk) as (k1 & r1 & E1 & Hg & _). unfold srtp_replace_cipher_type in E.
    simplify_eq. by eapply kernel_grows_inv.
  - intros E. destruct (load_auth_grows t id false k Hk) as (k1 & r1 & E1 & Hg & _). unfold srtp_crypto_kernel_load_auth_type in E.
    simplify_eq. by eapply kernel_grows_inv.
  - intros E. destruct (load_auth_grows t id true k Hk) as (k1 & r1 & E1 & Hg & _). unfold srtp_replace_auth_type in E.
    simplify_eq. by eapply kernel_grows_inv.
  - intros E. destruct (load_module_grows name k Hk) as (k1 & r1 & E1 & Hg). simplify_eq. by eapply kernel_grows_inv.
Qed.

End Invariant.

Lemma kernel_reachable_inv PC PA k : kernel_reachable PC PA k -> kernel_inv PC PA k.
Proof.
  induction 1 as [|k env c k' r _ IH Hs E]; [split; [..|done]; (split; [constructor|constructor])|].
  by eapply run_call_inv.
Qed.

(** ** The first initialisation *)

(** Every self test of [srtp_crypto_kernel_init] passes and every entry can be
    allocated. *)
Definition env_passes (env : kernel_env) : bool :=
  forallb (module_entry_alloc env) ["crypto kernel"; "auth func"; "cipher"; "stat test"; "alloc"; "aes icm"; "hmac sha-1"]%string &&
  forallb (fun t => negb (is_err (cipher_self_test env t)) && cipher_entry_alloc env t)
    [srtp_null_cipher; srtp_aes_icm_128; srtp_aes_icm_256] &&
  forallb (fun t => negb (is_err (auth_self_test env t)) && auth_entry_alloc env t) [srtp_null_auth; srtp_hmac].


(** The steps of the first initialisation. *)
Section Steps.
Context (env : kernel_env) {A : Type} (K : prog srtp_crypto_kernel_t A) (k : srtp_crypto_kernel_t).

Lemma load_module_step name :
  has_debug_module k name = false ->
  (srtp_crypto_kernel_load_debug_module env name ;; K) k =
  if module_entry_alloc env name then K (with_modules k (name :: debug_module_list k))
  else Some (k, inl srtp_err_status_alloc_fail).
Proof. intros H. unfold srtp_crypto_kernel_load_debug_module, pbind. rewrite H. by destruct (module_entry_alloc env name). Qed.

Lemma load_cipher_step t id :
  cipher_id t = id -> walk_types (cipher_cross_test env) t id false (cipher_type_list k) = inr None ->
  (srtp_crypto_kernel_load_cipher_type env t id ;; K) k =
  if negb (is_err (cipher_self_test env t)) && cipher_entry_alloc env t
  then K (with_ciphers k ((id, t) :: cipher_type_list k))
  else Some (with_ciphers k (cipher_type_list k), inl (if is_err (cipher_self_test env t) then cipher_self_test env t else srtp_err_status_alloc_fail)).
Proof.
  intros <- H. unfold srtp_crypto_kernel_load_cipher_type, do_load_cipher_type, do_load_type, pbind. rewrite H, Z.eqb_refl. simpl.
  destruct (is_err (cipher_self_test env t)) eqn:E; simpl; [by rewrite E|]. by destruct (cipher_entry_alloc env t).
Qed.

Lemma load_auth_step t id :
  auth_id t = id -> walk_types (auth_cross_test env) t id false (auth_type_list k) = inr None ->
  (srtp_crypto_kernel_load_auth_type env t id ;; K) k =
  if negb (is_err (auth_self_test env t)) && auth_entry_alloc env t
  then K (with_auths k ((id, t) :: auth_type_list k))
  else Some (with_auths k (auth_type_list k), inl (if is_err (auth_self_test env t) then auth_self_test env t else srtp_err_status_alloc_fail)).
Proof.
  intros <- H. unfold srtp_crypto_kernel_load_auth_type, do_load_auth_type, do_load_type, pbind. rewrite H, Z.eqb_refl. simpl.
  destruct (is_err (auth_self_test env t)) eqn:E; simpl; [by rewrite E|]. by destruct (auth_entry_alloc env t).
Qed.

End Steps.

(** A failing step ends the initialisation, with the kernel insecure. *)
Ltac init_fails := eexists _, _; split; [reflexivity|]; rewrite ?andb_false_r; cbn [andb]; split_and!; eauto; done.

Ltac init_step :=
  first [ rewrite load_module_step by reflexivity
        | rewrite load_cipher_step by reflexivity
        | rewrite load_auth_step by reflexivity ];
  cbn [crypto_kernel with_modules with_ciphers with_auths kernel_state cipher_type_list auth_type_list debug_module_list];
  match goal with
  | |- context [if ?b then ?x else Some (_, inl _)] => destruct b eqn:?; [|init_fails]
  end.

(** What one call of [srtp_crypto_kernel_init] makes of a fresh kernel. *)
Lemma kernel_init_fresh env :
  exists k r, srtp_crypto_kernel_init env crypto_kernel = Some (k, r) /\
    (if env_passes env then r = inr tt /\ kernel_ready k
     else (exists st, r = inl st) /\ kernel_state k = srtp_crypto_kernel_state_insecure) /\
    has_debug_module k "srtp" = false /\
    (module_entry_alloc env "crypto kernel" = true -> has_debug_module k "crypto kernel" = true).
Proof.
  unfold env_passes, srtp_crypto_kernel_init. autorewrite with prog. rewrite decide_False by done. cbn [forallb].
  repeat init_step. eexists _, _. split; [reflexivity|]. by repeat split.
Qed.

(** Loading a module again. *)
Lemma load_module_again env name k :
  has_debug_module k name = true -> srtp_crypto_kernel_load_debug_module env name k = Some (k, inl srtp_err_status_bad_param).
Proof. intros H. unfold srtp_crypto_kernel_load_debug_module. by rewrite H. Qed.

(** Initialising again, with a module in the list. *)
Lemma kernel_init_again env k :
  kernel_state k = srtp_crypto_kernel_state_insecure -> has_debug_module k "crypto kernel" = true ->
  srtp_crypto_kernel_init env k = Some (k, inl srtp_err_status_bad_param).
Proof.
  intros Hk Hm. unfold srtp_crypto_kernel_init. autorewrite with prog. rewrite decide_False by (by rewrite Hk).
  unfold pbind at 1. by rewrite load_module_again.
Qed.

(** ** Properties *)

Section Properties.
Context `{BC : BlockCipher} `{LV : Locals}.

(** C10: After any sequence of calls to srtp_init, srtp_shutdown and the
    functions that load and replace types, in environments whose self tests
    and allocations may fail at any point, a kernel that is in the secure state has all
    the types that the library looks up, and a cipher or an authentication
    object is only handed out by a secure kernel, for the type of the id, and
    only when a self test of that type has passed. *)
Theorem crypto_kernel_fail_safe PC PA k :
  kernel_reachable PC PA k ->
  (kernel_state k = srtp_crypto_kernel_state_secure -> kernel_ready k) /\
  (forall ok1 ok2 id key_len st c,
     srtp_crypto_kernel_alloc_cipher k ok1 ok2 id key_len = (st, Some c) ->
     kernel_state k = srtp_crypto_kernel_state_secure /\
     exists t, cipher_id t = id /\ srtp_crypto_kernel_get_cipher_type k id = Some t /\ PC t) /\
  (forall ok id key_len tag_len st a,
     srtp_crypto_kernel_alloc_auth k ok id key_len tag_len = (st, Some a) ->
     kernel_state k = srtp_crypto_kernel_state_secure /\
     exists t, auth_id t = id /\ srtp_crypto_kernel_get_auth_type k id = Some t /\ PA t).
Proof.
  intros Hk. destruct (kernel_reachable_inv _ _ _ Hk) as [Hc Ha Hs]. split_and!; [done| |].
  - intros ok1 ok2 id key_len st c. unfold srtp_crypto_kernel_alloc_cipher. case_decide as Hsec; [done|].
    destruct (srtp_crypto_kernel_get_cipher_type k id) as [t|] eqn:Et; [|done]. intros _.
    destruct (get_type_ok cipher_id PC _ _ _ Hc Et) as [-> HP].
    split; [by destruct (kernel_state k)|]. eauto.
  - intros ok id key_len tag_len st a. unfold srtp_crypto_kernel_alloc_auth. case_decide as Hsec; [done|].
    destruct (srtp_crypto_kernel_get_auth_type k id) as [t|] eqn:Et; [|done]. intros _.
    destruct (get_type_ok auth_id PA _ _ _ Ha Et) as [-> HP].
    split; [by destruct (kernel_state k)|]. eauto.
Qed.

End Properties.

(** The first srtp_init makes the kernel secure and ready exactly when
    every self test passes and every list entry can be allocated; otherwise it
    reports an error and leaves the kernel insecure.  It cannot be repeated:
    after a success the next one reports bad_param (or ends the process, when
    a self test fails then), and so does the next one after a failure behind
    the first debug module, whatever the tests say by then. *)
Theorem srtp_init_once env :
  exists k r, srtp_init env crypto_kernel = Some (k, r) /\
    (r = inr tt <-> env_passes env = true /\ module_entry_alloc env "srtp" = true) /\
    (if env_passes env then kernel_ready k else kernel_state k = srtp_crypto_kernel_state_insecure) /\
    (r = inr tt -> forall env', srtp_init env' k = None \/ srtp_init env' k = Some (k, inl srtp_err_status_bad_param)) /\
    (env_passes env = false -> module_entry_alloc env "crypto kernel" = true ->
     forall env', srtp_init env' k = Some (k, inl srtp_err_status_bad_param)).
Proof.
  destruct (kernel_init_fresh env) as (k & r & E & Hpass & Hno & Hck). unfold srtp_init at 1, pbind. rewrite E. cbn [mbind option_bind].
  destruct (env_passes env).
  - destruct Hpass as [-> Hr]. unfold srtp_crypto_kernel_load_debug_module at 1. rewrite Hno.
    destruct (module_entry_alloc env "srtp") eqn:Hm; eexists _, _; (split; [reflexivity|]); [|by split_and!; [split; [|intros []]|..]].
    split_and!; [done|by destruct Hr; split| |done]. intros _ env'. unfold srtp_init, srtp_crypto_kernel_init.
    autorewrite with prog. rewrite decide_True by apply Hr. unfold srtp_crypto_kernel_status, pbind.
    destruct (_ && _); [right|by left]. cbn [mbind option_bind]. unfold srtp_crypto_kernel_load_debug_module.
    by replace (has_debug_module _ "srtp") with true by done.
  - destruct Hpass as [[st ->] Hk]. eexists _, _. split; [reflexivity|].
    split_and!; [split; [done|by intros [? _]]|done|done|]. intros _ Hm env'. unfold srtp_init, pbind.
    by rewrite (kernel_init_again env' k Hk (Hck Hm)).
Qed.

(** An environment in which every test passes. *)
Definition passing_env : kernel_env :=
  {| cipher_self_test := fun _ => srtp_err_status_ok; cipher_cross_test := fun _ _ => srtp_err_status_ok;
     auth_self_test := fun _ => srtp_err_status_ok; auth_cross_test := fun _ _ => srtp_err_status_ok;
     cipher_entry_alloc := fun _ => true; auth_entry_alloc := fun _ => true; module_entry_alloc := fun _ => true |}.

(** One in which the test of the 256-bit cipher fails. *)
Definition failing_env : kernel_env :=
  {| cipher_self_test := fun t => if decide (t = srtp_aes_icm_256) then srtp_err_status_algo_fail else srtp_err_status_ok;
     cipher_cross_test := fun _ _ => srtp_err_status_ok;
     auth_self_test := fun _ => srtp_err_status_ok; auth_cross_test := fun _ _ => srtp_err_status_ok;
     cipher_entry_alloc := fun _ => true; auth_entry_alloc := fun _ => true; module_entry_alloc := fun _ => true |}.

Definition init_in (env : kernel_env) (k : srtp_crypto_kernel_t) : srtp_crypto_kernel_t :=
  match srtp_init env k with Some (k, _) => k | None => k end.

(** A first initialisation that fails, a shutdown and a second one that
    succeeds. *)
Definition restarted_kernel : srtp_crypto_kernel_t := init_in passing_env crypto_kernel.

Lemma crypto_kernel_fail_safe_witness :
  kernel_state (init_in failing_env crypto_kernel) = srtp_crypto_kernel_state_insecure /\ kernel_ready restarted_kernel.
Proof.
  split; [reflexivity|].
  assert (kernel_reachable (fun _ => True) (fun _ => True) restarted_kernel) as Hr.
  { eapply (reachable_call _ _ crypto_kernel passing_env call_init); [|by split|reflexivity].
    eapply (reachable_call _ _ (init_in failing_env crypto_kernel) passing_env call_shutdown); [|by split|reflexivity].
    eapply (reachable_call _ _ crypto_kernel failing_env call_init); [apply reachable_start|by split|reflexivity]. }
  destruct (crypto_kernel_fail_safe _ _ _ Hr) as [Hready _]. apply Hready. reflexivity.
Defined.
