(* ===== verification/SrtpStream.v ===== *)
(** Sessions and streams of libsrtp: include/srtp_priv.h and the stream
    functions of srtp/srtp.c.

    A stream's session keys hold pointers to cipher, authentication and key
    limit objects.  A stream cloned from the template shares all of them with
    the template, so they live in a store of the session ([key_store]) and the
    keys of a stream name an entry of it.  EKT is not used, and no cipher type
    of the build is an AEAD cipher. *)

From S2P Require Import Prelude Err Prog SrtpTypes Replay Rdb Rdbx Key SrtpPolicy ByteOrder.
From S2P Require Import Sha1 Hmac Aes AesKeys AesIcm Cipher.

Definition SRTP_MAX_TAG_LEN : Z := 16.
Definition SRTP_MAX_MKI_LEN : Z := 128.
Definition SRTP_MAX_NUM_MASTER_KEYS : Z := 16.

Inductive direction_t := dir_unknown | dir_srtp_sender | dir_srtp_receiver.

#[global] Instance direction_eq_dec : EqDecision direction_t.
Proof. solve_decision. Defined.

Inductive srtp_event_t :=
| event_ssrc_collision
| event_key_soft_limit
| event_key_hard_limit
| event_packet_index_limit.

Section Streams.
Context `{BC : BlockCipher} `{LV : Locals}.

(** The objects behind the pointers of an [srtp_session_keys_t]. *)
Record key_objs := {
  rtp_cipher : cipher_t;
  rtp_xtn_hdr_cipher : option cipher_t;
  rtp_auth : auth_t;
  rtcp_cipher : cipher_t;
  rtcp_auth : auth_t;
  limit : srtp_key_limit_ctx_t
}.

(** [objs] stands for the six pointers. *)
Record srtp_session_keys_t := {
  objs : nat;
  salt : list Z;
  c_salt : list Z;
  mki_id : list Z;
  mki_size : Z
}.

(** [session_keys] is the array of [num_master_keys] entries. *)
Record srtp_stream_ctx_t := {
  ssrc : Z;
  session_keys : list srtp_session_keys_t;
  rtp_rdbx : srtp_rdbx_t;
  rtp_services : srtp_sec_serv_t;
  rtcp_rdb : srtp_rdb_t;
  rtcp_services : srtp_sec_serv_t;
  direction : direction_t;
  allow_repeat_tx : Z;
  enc_xtn_hdr : list Z;
  pending_roc : Z
}.

Definition num_master_keys (s : srtp_stream_ctx_t) : Z := zlen (session_keys s).

Record srtp_ctx_t := {
  key_store : list key_objs;
  stream_list : list srtp_stream_ctx_t;
  stream_template : option srtp_stream_ctx_t
}.

(** ** Field updates *)

Definition with_rtp_cipher (o : key_objs) (c : cipher_t) : key_objs :=
  {| rtp_cipher := c; rtp_xtn_hdr_cipher := rtp_xtn_hdr_cipher o; rtp_auth := rtp_auth o;
     rtcp_cipher := rtcp_cipher o; rtcp_auth := rtcp_auth o; limit := limit o |}.

Definition with_xtn_cipher (o : key_objs) (c : cipher_t) : key_objs :=
  {| rtp_cipher := rtp_cipher o; rtp_xtn_hdr_cipher := Some c; rtp_auth := rtp_auth o;
     rtcp_cipher := rtcp_cipher o; rtcp_auth := rtcp_auth o; limit := limit o |}.

Definition with_rtp_auth (o : key_objs) (a : auth_t) : key_objs :=
  {| rtp_cipher := rtp_cipher o; rtp_xtn_hdr_cipher := rtp_xtn_hdr_cipher o; rtp_auth := a;
     rtcp_cipher := rtcp_cipher o; rtcp_auth := rtcp_auth o; limit := limit o |}.

Definition with_rtcp_cipher (o : key_objs) (c : cipher_t) : key_objs :=
  {| rtp_cipher := rtp_cipher o; rtp_xtn_hdr_cipher := rtp_xtn_hdr_cipher o; rtp_auth := rtp_auth o;
     rtcp_cipher := c; rtcp_auth := rtcp_auth o; limit := limit o |}.

Definition with_rtcp_auth (o : key_objs) (a : auth_t) : key_objs :=
  {| rtp_cipher := rtp_cipher o; rtp_xtn_hdr_cipher := rtp_xtn_hdr_cipher o; rtp_auth := rtp_auth o;
     rtcp_cipher := rtcp_cipher o; rtcp_auth := a; limit := limit o |}.

Definition with_limit (o : key_objs) (l : srtp_key_limit_ctx_t) : key_objs :=
  {| rtp_cipher := rtp_cipher o; rtp_xtn_hdr_cipher := rtp_xtn_hdr_cipher o; rtp_auth := rtp_auth o;
     rtcp_cipher := rtcp_cipher o; rtcp_auth := rtcp_auth o; limit := l |}.

Definition with_rdbx (s : srtp_stream_ctx_t) (r : srtp_rdbx_t) : srtp_stream_ctx_t :=
  {| ssrc := ssrc s; session_keys := session_keys s; rtp_rdbx := r; rtp_services := rtp_services s;
     rtcp_rdb := rtcp_rdb s; rtcp_services := rtcp_services s; direction := direction s;
     allow_repeat_tx := allow_repeat_tx s; enc_xtn_hdr := enc_xtn_hdr s; pending_roc := pending_roc s |}.

Definition with_rdb (s : srtp_stream_ctx_t) (r : srtp_rdb_t) : srtp_stream_ctx_t :=
  {| ssrc := ssrc s; session_keys := session_keys s; rtp_rdbx := rtp_rdbx s; rtp_services := rtp_services s;
     rtcp_rdb := r; rtcp_services := rtcp_services s; direction := direction s;
     allow_repeat_tx := allow_repeat_tx s; enc_xtn_hdr := enc_xtn_hdr s; pending_roc := pending_roc s |}.

Definition with_direction (s : srtp_stream_ctx_t) (d : direction_t) : srtp_stream_ctx_t :=
  {| ssrc := ssrc s; session_keys := session_keys s; rtp_rdbx := rtp_rdbx s; rtp_services := rtp_services s;
     rtcp_rdb := rtcp_rdb s; rtcp_services := rtcp_services s; direction := d;
     allow_repeat_tx := allow_repeat_tx s; enc_xtn_hdr := enc_xtn_hdr s; pending_roc := pending_roc s |}.

Definition with_pending_roc (s : srtp_stream_ctx_t) (r : Z) : srtp_stream_ctx_t :=
  {| ssrc := ssrc s; session_keys := session_keys s; rtp_rdbx := rtp_rdbx s; rtp_services := rtp_services s;
     rtcp_rdb := rtcp_rdb s; rtcp_services := rtcp_services s; direction := direction s;
     allow_repeat_tx := allow_repeat_tx s; enc_xtn_hdr := enc_xtn_hdr s; pending_roc := r |}.

Definition with_streams (c : srtp_ctx_t) (l : list srtp_stream_ctx_t) : srtp_ctx_t :=
  {| key_store := key_store c; stream_list := l; stream_template := stream_template c |}.

Definition with_template (c : srtp_ctx_t) (t : option srtp_stream_ctx_t) : srtp_ctx_t :=
  {| key_store := key_store c; stream_list := stream_list c; stream_template := t |}.

Definition with_store (c : srtp_ctx_t) (k : list key_objs) : srtp_ctx_t :=
  {| key_store := k; stream_list := stream_list c; stream_template := stream_template c |}.

(** ** RTP headers *)

Definition octets_in_rtp_header : Z := 12.
Definition uint32s_in_rtp_header : Z := 3.
Definition octets_in_rtp_extn_hdr : Z := 4.

(** The fields of [srtp_hdr_t]: the bit-fields [cc] and [x] of the first
    octet, [ntohs(hdr->seq)], and [hdr->ssrc] as it is in memory. *)
Definition hdr_cc (p : list Z) : option Z := b ← aget p 0; Some (b & 0xf).
Definition hdr_x (p : list Z) : option Z := b ← aget p 0; Some ((b >> 4) & 1).
Definition hdr_seq (p : list Z) : option Z := v ← get16 p 2; Some (ntohs v).
Definition hdr_ssrc (p : list Z) : option Z := get32 p 8.

(** [ntohs(xtn_hdr->length)] and [ntohs(xtn_hdr->profile_specific)] of the
    extension at offset [o]. *)
Definition xtn_length (p : list Z) (o : Z) : option Z := v ← get16 p (o + 2); Some (ntohs v).
Definition xtn_profile (p : list Z) (o : Z) : option Z := v ← get16 p o; Some (ntohs v).

(** [srtp_validate_rtp_header(hdr, &len)]. *)
Definition srtp_validate_rtp_header (p : list Z) (len : Z) : option srtp_err_status_t :=
  if len <? octets_in_rtp_header then Some srtp_err_status_bad_param
  else
    cc ← hdr_cc p; x ← hdr_x p;
    let n := octets_in_rtp_header + 4 * cc in
    let n := if x =? 1 then n + octets_in_rtp_extn_hdr else n in
    if len <? n then Some srtp_err_status_bad_param
    else if x =? 1 then
      profile_len ← xtn_length p (4 * (uint32s_in_rtp_header + cc));
      if len <? n + profile_len * 4 then Some srtp_err_status_bad_param else Some srtp_err_status_ok
    else Some srtp_err_status_ok.

(** Where the encrypted portion starts, and where the extension header is. *)
Definition enc_portion (p : list Z) : option (Z * option Z) :=
  cc ← hdr_cc p; x ← hdr_x p;
  let start := 4 * (uint32s_in_rtp_header + cc) in
  if x =? 1 then l ← xtn_length p start; Some (start + 4 * (l + 1), Some start)
  else Some (start, None).

(** ** Packet indices *)

(** [srtp_estimate_index(rdbx, roc, &est, seq, &delta)]: status, [est] and
    [delta]; the difference is cut to an [int]. *)
Definition srtp_estimate_index (rdbx : srtp_rdbx_t) (roc seq : Z) : srtp_err_status_t * Z * Z :=
  let est := u64 (roc << 16) .| seq in
  let delta := s32 (u64 (est - index rdbx)) in
  if index rdbx <? est then
    if seq_num_median <? u64 (est - index rdbx) then (srtp_err_status_pkt_idx_adv, est, 0)
    else (srtp_err_status_ok, est, delta)
  else if est <? index rdbx then
    if seq_num_median <? u64 (index rdbx - est) then (srtp_err_status_pkt_idx_old, est, 0)
    else (srtp_err_status_ok, est, delta)
  else (srtp_err_status_ok, est, delta).

(** [srtp_get_est_pkt_index(hdr, stream, &est, &delta)]. *)
Definition srtp_get_est_pkt_index (p : list Z) (s : srtp_stream_ctx_t)
    : option (srtp_err_status_t * Z * Z) :=
  seq ← hdr_seq p;
  if negb (pending_roc s =? 0) then Some (srtp_estimate_index (rtp_rdbx s) (pending_roc s) seq)
  else let '(est, delta) := srtp_rdbx_estimate_index (rtp_rdbx s) seq in
       Some (srtp_err_status_ok, est, delta).

(** ** Looking up streams and keys *)

(** A pointer to a stream of a session: an element of the list or the
    template. *)
Inductive sref := InList (n : nat) | Template.

Definition stream_at (c : srtp_ctx_t) (r : sref) : option srtp_stream_ctx_t :=
  match r with InList n => stream_list c !! n | Template => stream_template c end.

Definition set_stream (c : srtp_ctx_t) (r : sref) (s : srtp_stream_ctx_t) : srtp_ctx_t :=
  match r with
  | InList n => with_streams c (<[n := s]> (stream_list c))
  | Template => with_template c (Some s)
  end.

(** [srtp_get_stream(srtp, ssrc)]: the first stream of the list with the SSRC. *)
Definition srtp_get_stream (c : srtp_ctx_t) (x : Z) : option sref :=
  '(n, _) ← list_find (fun s => ssrc s = x) (stream_list c); Some (InList n).

Definition srtp_get_session_keys_with_mki_index (s : srtp_stream_ctx_t) (use_mki : bool) (mki_index : Z)
    : option srtp_session_keys_t :=
  if use_mki then if num_master_keys s <=? mki_index then None else aget (session_keys s) mki_index
  else aget (session_keys s) 0.

(** [srtp_inject_mki(location, keys, use_mki)] with the location at offset
    [o] of the packet. *)
Definition srtp_inject_mki (p : list Z) (o : Z) (k : srtp_session_keys_t) (use_mki : bool)
    : option (list Z * Z) :=
  if use_mki then
    if negb (mki_size k =? 0) then
      m ← slice (mki_id k) 0 (mki_size k); p ← blit p o m; Some (p, mki_size k)
    else Some (p, mki_size k)
  else Some (p, 0).

(** The loop of [srtp_get_session_keys]: the first key whose identifier ends
    the packet at [base]. *)
Fixpoint find_mki (p : list Z) (base : Z) (l : list srtp_session_keys_t)
    : option (option (srtp_session_keys_t * Z)) :=
  match l with
  | [] => Some None
  | k :: l =>
      if negb (mki_size k =? 0) && (mki_size k <=? base) then
        m ← slice p (base - mki_size k) (mki_size k);
        id ← slice (mki_id k) 0 (mki_size k);
        if decide (m = id) then Some (Some (k, mki_size k)) else find_mki p base l
      else find_mki p base l
  end.

(** [srtp_get_session_keys(stream, hdr, &len, &mki_size)]; [tag_len] is the
    tag length of the first key. *)
Definition srtp_get_session_keys (tag_len : Z) (s : srtp_stream_ctx_t) (p : list Z) (len : Z)
    : option (option (srtp_session_keys_t * Z)) :=
  if u32 len <? tag_len then Some None else find_mki p (u32 len - tag_len) (session_keys s).

(** ** Cloning the template *)

(** A stream context in zeroed memory has an empty replay database. *)
Definition zero_rdbx : srtp_rdbx_t :=
  {| index := 0; rdbx_bitmask := {| bv_length := 0; bv_word := None |} |}.

(** The copies of the session keys; [ok i] tells whether the allocation of the
    identifier of key [i] succeeds. *)
Fixpoint clone_keys (ok : Z -> bool) (i : Z) (l : list srtp_session_keys_t) : option (list srtp_session_keys_t) :=
  match l with
  | [] => Some []
  | k :: l =>
      if negb (mki_size k =? 0) && negb (ok i) then None
      else l ← clone_keys ok (i + 1) l; Some (k :: l)
  end.

(** [srtp_stream_clone(template, ssrc, &new)].  [ok n] is whether the [n]-th
    allocation succeeds: the stream, the key array, the identifiers, the
    replay mask.  The limit of a template is never NULL. *)
Definition srtp_stream_clone (ok : Z -> bool) (t : srtp_stream_ctx_t) (x : Z)
    : option (srtp_err_status_t * option srtp_stream_ctx_t) :=
  if negb (ok 0) then Some (srtp_err_status_alloc_fail, None)
  else if negb (ok 1) || (num_master_keys t =? 0) then Some (srtp_err_status_alloc_fail, None)
  else
    match clone_keys ok 2 (session_keys t) with
    | None => Some (srtp_err_status_init_fail, None)
    | Some keys =>
        '(r, st) ← srtp_rdbx_init (ok (2 + num_master_keys t)) zero_rdbx
                     (srtp_rdbx_get_window_size (rtp_rdbx t));
        if is_err st then Some (st, None)
        else Some (srtp_err_status_ok,
          Some {| ssrc := x; session_keys := keys; rtp_rdbx := r; rtp_services := rtp_services t;
                  rtcp_rdb := fst (srtp_rdb_init); rtcp_services := rtcp_services t;
                  direction := direction t; allow_repeat_tx := allow_repeat_tx t;
                  enc_xtn_hdr := enc_xtn_hdr t; pending_roc := 0 |})
    end.

End Streams.
