(* ===== verification/SrtpCreate.v ===== *)
(** Key derivation and the creation of sessions: the functions
    srtp_kdf_*, srtp_stream_alloc, srtp_stream_init_keys, srtp_stream_init,
    srtp_add_stream, srtp_create and srtp_remove_stream of srtp/srtp.c.

    [ok] answers allocations by a number that is fixed in each function.  The
    cipher for header extensions is allocated with the type and key length of
    the RTP cipher, so the branch of srtp_stream_init_keys for another type is
    not reached. *)

From S2P Require Import Prelude Err Prog SrtpTypes Replay Rdb Rdbx Key SrtpPolicy ByteOrder.
From S2P Require Import Sha1 Hmac Aes AesKeys AesIcm Cipher Kernel SrtpStream.

Definition label_rtp_encryption : Z := 0.
Definition label_rtp_msg_auth : Z := 1.
Definition label_rtp_salt : Z := 2.
Definition label_rtcp_encryption : Z := 3.
Definition label_rtcp_msg_auth : Z := 4.
Definition label_rtcp_salt : Z := 5.
Definition label_rtp_header_encryption : Z := 6.
Definition label_rtp_header_salt : Z := 7.

Definition MAX_SRTP_KEY_LEN : Z := 256.

Section Create.
Context `{BC : BlockCipher} `{LV : Locals}.
Context (kernel : srtp_crypto_kernel_t).

(** ** Key derivation *)

(** [srtp_kdf_init(&kdf, key, key_len)]: the counter-mode cipher of that key
    length. *)
Definition srtp_kdf_init (ok1 ok2 : bool) (key : list Z) (key_len : Z)
    : option (srtp_err_status_t * option cipher_t) :=
  let init id :=
    match srtp_crypto_kernel_alloc_cipher kernel ok1 ok2 id key_len with
    | (srtp_err_status_ok, Some c) =>
        '(st, c) ← srtp_cipher_init c key;
        if is_err st then Some (st, None) else Some (srtp_err_status_ok, Some c)
    | (st, _) => Some (st, None)
    end in
  if key_len =? SRTP_AES_ICM_256_KEY_LEN_WSALT then init SRTP_AES_ICM_256
  else if key_len =? SRTP_AES_ICM_192_KEY_LEN_WSALT then init SRTP_AES_ICM_192
  else if key_len =? SRTP_AES_ICM_128_KEY_LEN_WSALT then init SRTP_AES_ICM_128
  else Some (srtp_err_status_bad_param, None).

(** [srtp_kdf_generate(&kdf, label, key, length)] on the [length] octets at
    [addr]. *)
Definition srtp_kdf_generate (kdf : cipher_t) (label addr : Z) (key : list Z)
    : option (srtp_err_status_t * cipher_t * list Z) :=
  let nonce := replicate 7 0 ++ [label] ++ replicate 8 0 in
  '(st, kdf) ← srtp_cipher_set_iv kdf nonce;
  if is_err st then Some (st, kdf, key)
  else
    '(st, kdf, key) ← srtp_cipher_encrypt addr kdf (replicate (length key) 0) (zlen key);
    Some (st, kdf, key).

(** [base_key_length(type, key_length)]. *)
Definition base_key_length (id key_length : Z) : Z :=
  if (id =? SRTP_AES_ICM_128) || (id =? SRTP_AES_ICM_192) || (id =? SRTP_AES_ICM_256)
  then key_length - SRTP_SALT_LEN
  else if (id =? SRTP_AES_GCM_128) || (id =? SRTP_AES_GCM_256) then key_length - SRTP_AEAD_SALT_LEN
  else key_length.

(** The state of [srtp_stream_init_keys]: the objects and the session keys
    being set up, the buffer [tmp_key] and the derivation context. *)
Record istate := {
  i_objs : key_objs;
  i_keys : srtp_session_keys_t;
  tmp_key : list Z;
  kdf : cipher_t
}.

Definition put_i_objs (o : key_objs) : prog istate unit :=
  pmodify (fun s => {| i_objs := o; i_keys := i_keys s; tmp_key := tmp_key s; kdf := kdf s |}).

Definition put_i_keys (k : srtp_session_keys_t) : prog istate unit :=
  pmodify (fun s => {| i_objs := i_objs s; i_keys := k; tmp_key := tmp_key s; kdf := kdf s |}).

Definition put_tmp (t : list Z) (c : cipher_t) : prog istate unit :=
  pmodify (fun s => {| i_objs := i_objs s; i_keys := i_keys s; tmp_key := t; kdf := c |}).

(** One call of [srtp_kdf_generate] into [n] octets of [tmp_key] from [off]. *)
Definition generate (label off n : Z) : prog istate unit :=
  let* t := pget tmp_key in
  let* c := pget kdf in
  let* buf := plift (slice t off n) in
  let* '(st, c, buf) := plift (srtp_kdf_generate c label (key_addr + off) buf) in
  let* t := plift (blit t off buf) in
  put_tmp t c ;;
  preturn_if (is_err st) srtp_err_status_init_fail.

(** A key of [base] octets and a salt behind it when [salt_len] is positive. *)
Definition generate_key_salt (label_key label_salt base salt_len : Z) : prog istate unit :=
  generate label_key 0 base ;;
  if 0 <? salt_len then generate label_salt base salt_len else pret tt.

(** A status other than ok is reported as [srtp_err_status_init_fail]. *)
Definition init_or_fail {A} (r : option (srtp_err_status_t * A)) : prog istate A :=
  let* '(st, a) := plift r in
  preturn_if (is_err st) srtp_err_status_init_fail ;;
  pret a.

Definition with_salt (k : srtp_session_keys_t) (s : list Z) : srtp_session_keys_t :=
  {| objs := objs k; salt := s; c_salt := c_salt k; mki_id := mki_id k; mki_size := mki_size k |}.

Definition with_c_salt (k : srtp_session_keys_t) (s : list Z) : srtp_session_keys_t :=
  {| objs := objs k; salt := salt k; c_salt := s; mki_id := mki_id k; mki_size := mki_size k |}.

Definition with_mki (k : srtp_session_keys_t) (id : list Z) (n : Z) : srtp_session_keys_t :=
  {| objs := objs k; salt := salt k; c_salt := c_salt k; mki_id := id; mki_size := n |}.

(** The first octets of a derived salt are kept with the session keys. *)
Definition keep_salt (base salt_len : Z) (old : list Z) : prog istate (list Z) :=
  let* t := pget tmp_key in
  plift (if 0 <? salt_len then slice t base SRTP_AEAD_SALT_LEN else Some old).

(** RTP encryption key and salt. *)
Definition init_rtp_cipher (base salt_len : Z) : prog istate unit :=
  generate_key_salt label_rtp_encryption label_rtp_salt base salt_len ;;
  let* k := pget i_keys in
  let* s := keep_salt base salt_len (salt k) in
  put_i_keys (with_salt k s) ;;
  let* o := pget i_objs in
  let* t := pget tmp_key in
  let* c := init_or_fail (srtp_cipher_init (rtp_cipher o) t) in
  put_i_objs (with_rtp_cipher o c).

(** Header extension key and salt. *)
Definition init_xtn_cipher (base salt_len : Z) : prog istate unit :=
  let* o := pget i_objs in
  match rtp_xtn_hdr_cipher o with
  | None => pret tt
  | Some x =>
      generate_key_salt label_rtp_header_encryption label_rtp_header_salt base salt_len ;;
      let* t := pget tmp_key in
      let* x := init_or_fail (srtp_cipher_init x t) in
      put_i_objs (with_xtn_cipher o x)
  end.

(** RTP authentication key. *)
Definition init_rtp_auth : prog istate unit :=
  let* o := pget i_objs in
  generate label_rtp_msg_auth 0 (srtp_auth_get_key_length (rtp_auth o)) ;;
  let* t := pget tmp_key in
  let* a := init_or_fail (srtp_auth_init (rtp_auth o) t) in
  put_i_objs (with_rtp_auth o a).

(** SRTCP encryption key and salt, and authentication key. *)
Definition init_rtcp_cipher : prog istate unit :=
  let* o := pget i_objs in
  let rtcp_keylen := srtp_cipher_get_key_length (rtcp_cipher o) in
  let base := base_key_length (cipher_type_id (rtcp_cipher o)) rtcp_keylen in
  generate_key_salt label_rtcp_encryption label_rtcp_salt base (rtcp_keylen - base) ;;
  let* k := pget i_keys in
  let* s := keep_salt base (rtcp_keylen - base) (c_salt k) in
  put_i_keys (with_c_salt k s) ;;
  let* t := pget tmp_key in
  let* c := init_or_fail (srtp_cipher_init (rtcp_cipher o) t) in
  put_i_objs (with_rtcp_cipher o c).

Definition init_rtcp_auth : prog istate unit :=
  let* o := pget i_objs in
  generate label_rtcp_msg_auth 0 (srtp_auth_get_key_length (rtcp_auth o)) ;;
  let* t := pget tmp_key in
  let* a := init_or_fail (srtp_auth_init (rtcp_auth o) t) in
  put_i_objs (with_rtcp_auth o a).

(** All session keys. *)
Definition init_session_keys (base salt_len : Z) : prog istate unit :=
  init_rtp_cipher base salt_len ;;
  init_xtn_cipher base salt_len ;;
  init_rtp_auth ;;
  init_rtcp_cipher ;;
  init_rtcp_auth.

(** The length of the derivation key: that of the longer cipher, AES-256 or
    AES-128 with salt. *)
Definition kdf_length (o : key_objs) : Z :=
  let kdf_keylen := if 30 <? srtp_cipher_get_key_length (rtp_cipher o) then 46 else 30 in
  if kdf_keylen <? srtp_cipher_get_key_length (rtcp_cipher o) then 46 else kdf_keylen.

(** [srtp_stream_init_keys(stream, master_key, i)] on the objects and keys of
    entry [i]; the master key is copied to [tmp_key], zero appended. *)
Definition srtp_stream_init_keys (ok : Z -> bool) (m : srtp_master_key_t) : prog istate unit :=
  let* o := pget i_objs in
  let* k := pget i_keys in
  put_i_objs (with_limit o (fst (srtp_key_limit_set (limit o) 0xffffffffffff))) ;;
  preturn_if (negb (mk_mki_size m =? 0) && negb (ok 0)) srtp_err_status_init_fail ;;
  let* id := plift (slice (mk_mki_id m) 0 (mk_mki_size m)) in
  put_i_keys (with_mki k id (mk_mki_size m)) ;;
  let rtp_keylen := srtp_cipher_get_key_length (rtp_cipher o) in
  let rtp_base_key_len := base_key_length (cipher_type_id (rtp_cipher o)) rtp_keylen in
  let rtp_salt_len := rtp_keylen - rtp_base_key_len in
  let* key := plift (mk_key m) in
  let* key := plift (slice key 0 (rtp_base_key_len + rtp_salt_len)) in
  let* t := plift (blit (replicate (Z.to_nat MAX_SRTP_KEY_LEN) 0) 0 key) in
  let* c := init_or_fail (srtp_kdf_init (ok 1) (ok 2) t (kdf_length o)) in
  let* c := plift c in
  put_tmp t c ;;
  init_session_keys rtp_base_key_len rtp_salt_len ;;
  let* c := pget kdf in
  put_tmp (replicate (Z.to_nat MAX_SRTP_KEY_LEN) 0) c.

(** ** Streams *)

(** [srtp_validate_policy_master_keys(policy)]. *)
Definition srtp_validate_policy_master_keys (p : srtp_policy_t) : bool :=
  match pol_key p with
  | Some _ => true
  | None =>
      (0 <? zlen (pol_keys p)) && (zlen (pol_keys p) <=? SRTP_MAX_NUM_MASTER_KEYS) &&
      forallb (fun m => bool_decide (is_Some (mk_key m)) && (mk_mki_size m <=? SRTP_MAX_MKI_LEN)) (pol_keys p)
  end.

(** A key limit in zeroed memory. *)
Definition zero_limit : srtp_key_limit_ctx_t := {| num_left := 0; key_state := srtp_key_state_normal |}.

(** The objects of one key; [b] is the number of its first allocation. *)
Definition alloc_objs (ok : Z -> bool) (b : Z) (p : srtp_policy_t) : srtp_err_status_t + key_objs :=
  match srtp_crypto_kernel_alloc_cipher kernel (ok b) (ok (b + 1))
          (cipher_type (pol_rtp p)) (cipher_key_len (pol_rtp p)) with
  | (srtp_err_status_ok, Some rc) =>
      match srtp_crypto_kernel_alloc_auth kernel (ok (b + 2))
              (auth_type (pol_rtp p)) (SrtpPolicy.auth_key_len (pol_rtp p)) (auth_tag_len (pol_rtp p)) with
      | (srtp_err_status_ok, Some ra) =>
          match srtp_crypto_kernel_alloc_cipher kernel (ok (b + 3)) (ok (b + 4))
                  (cipher_type (pol_rtcp p)) (cipher_key_len (pol_rtcp p)) with
          | (srtp_err_status_ok, Some cc) =>
              match srtp_crypto_kernel_alloc_auth kernel (ok (b + 5))
                      (auth_type (pol_rtcp p)) (SrtpPolicy.auth_key_len (pol_rtcp p))
                      (auth_tag_len (pol_rtcp p)) with
              | (srtp_err_status_ok, Some ca) =>
                  if ok (b + 6)
                  then inr {| rtp_cipher := rc; rtp_xtn_hdr_cipher := None; rtp_auth := ra;
                              rtcp_cipher := cc; rtcp_auth := ca; limit := zero_limit |}
                  else inl srtp_err_status_alloc_fail
              | (st, _) => inl st
              end
          | (st, _) => inl st
          end
      | (st, _) => inl st
      end
  | (st, _) => inl st
  end.

(** The loops over the keys: [f i] for [i] from [i] to [i + n], stopping at the
    first failure. *)
Fixpoint collect {A} (f : Z -> srtp_err_status_t + A) (i : Z) (n : nat) : srtp_err_status_t + list A :=
  match n with
  | O => inr []
  | S n =>
      match f i with
      | inl st => inl st
      | inr a => match collect f (i + 1) n with inl st => inl st | inr l => inr (a :: l) end
      end
  end.

(** The cipher for header extensions of the [i]-th key. *)
Definition alloc_xtn (ok : Z -> bool) (b : Z) (p : srtp_policy_t) (i : Z) (o : key_objs)
    : srtp_err_status_t + key_objs :=
  match srtp_crypto_kernel_alloc_cipher kernel (ok (b + 2 * i)) (ok (b + 2 * i + 1))
          (cipher_type (pol_rtp p)) (cipher_key_len (pol_rtp p)) with
  | (srtp_err_status_ok, Some x) => inr (with_xtn_cipher o x)
  | (st, _) => inl st
  end.

(** [srtp_stream_alloc(&str, p)]: the objects of the keys.  The rest of the
    stream is zeroed memory and the extension ids of the policy. *)
Definition srtp_stream_alloc (ok : Z -> bool) (p : srtp_policy_t)
    : srtp_err_status_t + list key_objs :=
  let n := match pol_key p with Some _ => 1 | None => zlen (pol_keys p) end in
  if negb (ok 0) then inl srtp_err_status_alloc_fail
  else if negb (ok 1) || (n =? 0) then inl srtp_err_status_alloc_fail
  else
    match collect (fun i => alloc_objs ok (2 + 7 * i) p) 0 (Z.to_nat n) with
    | inl st => inl st
    | inr l =>
        match pol_enc_xtn_hdr p with
        | [] => inr l
        | _ =>
            if negb (ok (2 + 7 * n)) then inl srtp_err_status_alloc_fail
            else collect (fun i => match aget l i with
                                   | Some o => alloc_xtn ok (3 + 7 * n) p i o
                                   | None => inl srtp_err_status_fail
                                   end) 0 (Z.to_nat n)
        end
    end.

(** A stream under construction: the objects and the stream. *)
Record sstate := { s_objs : list key_objs; s_strm : srtp_stream_ctx_t }.

(** [srtp_stream_init_keys] for entry [i] of the stream; [tmp_key] and the
    derivation context are automatic variables. *)
Definition init_entry (ok : Z -> bool) (i : nat) (m : srtp_master_key_t) : prog sstate unit := fun s =>
  o ← s_objs s !! i;
  k ← session_keys (s_strm s) !! i;
  '(ist, r) ← srtp_stream_init_keys ok m
    {| i_objs := o; i_keys := k; tmp_key := replicate (Z.to_nat MAX_SRTP_KEY_LEN) 0; kdf := null_cipher 0 |};
  Some ({| s_objs := <[i := i_objs ist]> (s_objs s);
           s_strm := let x := s_strm s in
             {| ssrc := ssrc x; session_keys := <[i := i_keys ist]> (session_keys x); rtp_rdbx := rtp_rdbx x;
                rtp_services := rtp_services x; rtcp_rdb := rtcp_rdb x; rtcp_services := rtcp_services x;
                direction := direction x; allow_repeat_tx := allow_repeat_tx x;
                enc_xtn_hdr := enc_xtn_hdr x; pending_roc := pending_roc x |} |}, r).

(** The loop over the master keys. *)
Fixpoint init_entries (ok : Z -> Z -> bool) (i : nat) (l : list srtp_master_key_t) : prog sstate unit :=
  match l with
  | [] => pret tt
  | m :: l => init_entry (ok (Z.of_nat i)) i m ;; init_entries ok (S i) l
  end.

(** [srtp_stream_init_all_master_keys(stream, key, keys, n)]. *)
Definition srtp_stream_init_all_master_keys (ok : Z -> Z -> bool) (p : srtp_policy_t) : prog sstate unit :=
  match pol_key p with
  | Some key => init_entry (ok 0) 0 {| mk_key := Some key; mk_mki_id := []; mk_mki_size := 0 |}
  | None => init_entries ok 0 (take (Z.to_nat SRTP_MAX_NUM_MASTER_KEYS) (pol_keys p))
  end.

Definition put_strm_s (x : srtp_stream_ctx_t) : prog sstate unit :=
  pmodify (fun s => {| s_objs := s_objs s; s_strm := x |}).

(** [srtp_stream_init(stream, p)]; [rok] answers the allocation of the replay
    mask. *)
Definition srtp_stream_init (rok : bool) (ok : Z -> Z -> bool) (p : srtp_policy_t) : prog sstate unit :=
  let ws := pol_window_size p in
  preturn_if (negb (ws =? 0) && ((ws <? 64) || (0x8000 <=? ws))) srtp_err_status_bad_param ;;
  let* x := pget s_strm in
  let* '(r, st) := plift (srtp_rdbx_init rok (rtp_rdbx x) (if ws =? 0 then 128 else ws)) in
  pcheck st ;;
  put_strm_s {| ssrc := htonl (ssrc_value (pol_ssrc p)); session_keys := session_keys x; rtp_rdbx := r;
                rtp_services := sec_serv (pol_rtp p); rtcp_rdb := fst srtp_rdb_init;
                rtcp_services := sec_serv (pol_rtcp p); direction := dir_unknown;
                allow_repeat_tx := allow_repeat_tx x; enc_xtn_hdr := enc_xtn_hdr x; pending_roc := 0 |} ;;
  preturn_if (negb (pol_allow_repeat_tx p =? 0) && negb (pol_allow_repeat_tx p =? 1)) srtp_err_status_bad_param ;;
  let* x := pget s_strm in
  put_strm_s {| ssrc := ssrc x; session_keys := session_keys x; rtp_rdbx := rtp_rdbx x;
                rtp_services := rtp_services x; rtcp_rdb := rtcp_rdb x; rtcp_services := rtcp_services x;
                direction := direction x; allow_repeat_tx := pol_allow_repeat_tx p;
                enc_xtn_hdr := enc_xtn_hdr x; pending_roc := pending_roc x |} ;;
  srtp_stream_init_all_master_keys ok p.

(** ** Sessions *)

(** The stream in zeroed memory, whose keys name the entries from [base] on. *)
Definition zero_stream (base : nat) (n : nat) (ids : list Z) : srtp_stream_ctx_t :=
  {| ssrc := 0;
     session_keys := map (fun i => {| objs := base + i; salt := replicate 12 0; c_salt := replicate 12 0;
                                      mki_id := []; mki_size := 0 |}) (seq 0 n);
     rtp_rdbx := zero_rdbx; rtp_services := sec_serv_none; rtcp_rdb := fst srtp_rdb_init;
     rtcp_services := sec_serv_none; direction := dir_unknown; allow_repeat_tx := 0;
     enc_xtn_hdr := ids; pending_roc := 0 |}.

(** The answers to the allocations of one [srtp_add_stream]. *)
Record alloc_answers := {
  stream_ok : Z -> bool;
  mask_ok : bool;
  keys_ok : Z -> Z -> bool
}.

Definition all_allocs : alloc_answers :=
  {| stream_ok := fun _ => true; mask_ok := true; keys_ok := fun _ _ => true |}.

(** [srtp_add_stream(session, policy)]; what a failing call has allocated is
    freed. *)
Definition srtp_add_stream (al : alloc_answers) (p : srtp_policy_t) : prog srtp_ctx_t unit := fun c =>
  if negb (srtp_validate_policy_master_keys p) then Some (c, inl srtp_err_status_bad_param)
  else
    match srtp_stream_alloc (stream_ok al) p with
    | inl st => Some (c, inl st)
    | inr l =>
        '(s, r) ← srtp_stream_init (mask_ok al) (keys_ok al) p
          {| s_objs := l; s_strm := zero_stream (length (key_store c)) (length l) (pol_enc_xtn_hdr p) |};
        match r with
        | inl st => Some (c, inl st)
        | inr _ =>
            let store := key_store c ++ s_objs s in
            match ssrc_type (pol_ssrc p) with
            | (ssrc_any_outbound | ssrc_any_inbound) as ty =>
                match stream_template c with
                | Some _ => Some (c, inl srtp_err_status_bad_param)
                | None =>
                    let d := match ty with ssrc_any_outbound => dir_srtp_sender | _ => dir_srtp_receiver end in
                    Some ({| key_store := store; stream_list := stream_list c;
                             stream_template := Some (with_direction (s_strm s) d) |}, inr tt)
                end
            | ssrc_specific =>
                Some ({| key_store := store; stream_list := s_strm s :: stream_list c;
                         stream_template := stream_template c |}, inr tt)
            | ssrc_undefined => Some (c, inl srtp_err_status_bad_param)
            end
        end
    end.

(** [srtp_create(&session, policy)]: a stream for every policy of the list;
    [cok] answers the allocation of the context. *)
Fixpoint add_streams (al : list alloc_answers) (l : list srtp_policy_t) : prog srtp_ctx_t unit :=
  match l with
  | [] => pret tt
  | p :: l => srtp_add_stream (default all_allocs (head al)) p ;; add_streams (tail al) l
  end.

Definition srtp_create (cok : bool) (al : list alloc_answers) (l : list srtp_policy_t)
    : option (srtp_err_status_t * option srtp_ctx_t) :=
  if negb cok then Some (srtp_err_status_alloc_fail, None)
  else
    '(c, r) ← add_streams al l {| key_store := []; stream_list := []; stream_template := None |};
    match r with
    | inl st => Some (st, None)
    | inr _ => Some (srtp_err_status_ok, Some c)
    end.

(** [srtp_remove_stream(session, ssrc)]: the first stream with that SSRC. *)
Definition srtp_remove_stream (x : Z) : prog srtp_ctx_t unit := fun c =>
  match list_find (fun s => ssrc s = x) (stream_list c) with
  | None => Some (c, inl srtp_err_status_no_ctx)
  | Some (n, _) => Some (with_streams c (delete n (stream_list c)), inr tt)
  end.

End Create.
