(* ===== verification/SrtpPacket.v ===== *)
(** Protecting and unprotecting RTP packets: srtp_protect_mki and
    srtp_unprotect_mki of srtp/srtp.c, with the encryption of header
    extensions.

    The packet is a block of octets that starts at the 32-bit address [addr];
    pointers into it are offsets.  [ok] answers the allocations of a call.  The
    event handler only prints, so events are recorded in order. *)

From S2P Require Import Prelude Err Prog SrtpTypes Replay Rdb Rdbx Key SrtpPolicy ByteOrder.
From S2P Require Import Sha1 Hmac Aes AesKeys AesIcm Cipher SrtpStream.

(** [htonl]-ordered octets of a 64-bit and a 32-bit value. *)
Definition be_octets (n : nat) (v : Z) : list Z :=
  map (fun i => u8 (v >> (8 * Z.of_nat i))) (rev (seq 0 n)).

Section Packets.
Context `{BC : BlockCipher} `{LV : Locals}.

(** ** Encrypted header extensions (RFC 6904) *)

(** [srtp_protect_extension_header(stream, id)]. *)
Definition srtp_protect_extension_header (ids : list Z) (id : Z) : bool := bool_decide (id ∈ ids).

(** [while (data < end && *data == 0) data++]. *)
Fixpoint skip_padding (fuel : nat) (p : list Z) (pos e : Z) : option Z :=
  match fuel with
  | O => None
  | S fuel =>
      if pos <? e then b ← aget p pos; if b =? 0 then skip_padding fuel p (pos + 1) e else Some pos
      else Some pos
  end.

(** The element at [pos] with [n] octets: xored with the key stream from [k]
    on when its id is to be encrypted, and the padding behind it skipped. *)
Definition crypt_element (protected : bool) (p ks : list Z) (pos n k e : Z) : option (list Z * Z) :=
  p ← (if protected
       then for_up 0 n (fun i p => b ← aget p (pos + i); x ← aget ks (k + i); aset p (pos + i) (b ^^ x)) p
       else Some p);
  pos ← skip_padding (S (Z.to_nat e)) p (pos + n) e;
  Some (p, pos).

(** Id and length of the element at [pos], by the size of its header: one
    octet with both, or two octets. *)
Definition element_header (h : Z) (p : list Z) (pos : Z) : option (Z * Z) :=
  if h =? 1 then b ← aget p pos; Some ((b & 0xf0) >> 4, (b & 0x0f) + 1)
  else xid ← aget p pos; xlen ← aget p (pos + 1); Some (xid, xlen).

(** The loops over the elements from [pos] to [e], which differ in the size [h]
    of the element headers: a whole header must be left, id 15 stops the walk
    over one-byte headers, and the key stream covers header and data. *)
Fixpoint extension_loop (fuel : nat) (h : Z) (ids : list Z) (c : cipher_t) (ks p : list Z) (pos e : Z)
    : option (srtp_err_status_t * cipher_t * list Z) :=
  match fuel with
  | O => None
  | S fuel =>
      if pos + (h - 1) <? e then
        '(xid, xlen) ← element_header h p pos;
        let pos := pos + h in
        if e <? pos + xlen then Some (srtp_err_status_parse_err, c, p)
        else if (h =? 1) && (xid =? 15) then Some (srtp_err_status_ok, c, p)
        else
          '(st, c, ks) ← srtp_cipher_output ks_addr c ks (h + xlen);
          if is_err st then Some (srtp_err_status_cipher_fail, c, p)
          else
            '(p, pos) ← crypt_element ((0 <? xlen) && srtp_protect_extension_header ids xid)
                          p ks pos xlen h e;
            extension_loop fuel h ids c ks p pos e
      else Some (srtp_err_status_ok, c, p)
  end.

(** [srtp_process_header_encryption(stream, xtn_hdr, session_keys)] with the
    extension at offset [o]: every element has at least two octets, so the
    length of the extension is enough fuel. *)
Definition srtp_process_header_encryption (ids : list Z) (c : cipher_t) (p : list Z) (o : Z)
    : option (srtp_err_status_t * cipher_t * list Z) :=
  l ← xtn_length p o;
  let data := o + octets_in_rtp_extn_hdr in
  let e := data + l * 4 in
  let fuel := S (Z.to_nat (l * 4)) in
  profile ← xtn_profile p o;
  if profile =? 0xbede then extension_loop fuel 1 ids c keystream0 p data e
  else if (profile & 0x1fff) =? 0x100 then extension_loop fuel 2 ids c keystream0 p data e
  else Some (srtp_err_status_parse_err, c, p).

(** ** The state of a call *)

Record pstate := {
  ses : srtp_ctx_t;
  pkt : list Z;
  pkt_octet_len : Z;
  events : list (Z * srtp_event_t)
}.

Definition with_ses (s : pstate) (c : srtp_ctx_t) : pstate :=
  {| ses := c; pkt := pkt s; pkt_octet_len := pkt_octet_len s; events := events s |}.

Definition with_pkt (s : pstate) (p : list Z) : pstate :=
  {| ses := ses s; pkt := p; pkt_octet_len := pkt_octet_len s; events := events s |}.

Definition with_len (s : pstate) (n : Z) : pstate :=
  {| ses := ses s; pkt := pkt s; pkt_octet_len := n; events := events s |}.

Definition log_event (s : pstate) (x : Z) (e : srtp_event_t) : pstate :=
  {| ses := ses s; pkt := pkt s; pkt_octet_len := pkt_octet_len s; events := events s ++ [(x, e)] |}.

Definition get_strm (r : sref) : prog pstate srtp_stream_ctx_t :=
  fun s => x ← stream_at (ses s) r; Some (s, inr x).

Definition put_strm (r : sref) (x : srtp_stream_ctx_t) : prog pstate unit :=
  pmodify (fun s => with_ses s (set_stream (ses s) r x)).

Definition get_objs (i : nat) : prog pstate key_objs :=
  fun s => o ← key_store (ses s) !! i; Some (s, inr o).

Definition put_objs (i : nat) (o : key_objs) : prog pstate unit :=
  pmodify (fun s => with_ses s (with_store (ses s) (<[i := o]> (key_store (ses s))))).

Definition put_pkt (p : list Z) : prog pstate unit := pmodify (fun s => with_pkt s p).

(** [srtp_handle_event(ctx, stream, event)]. *)
Definition srtp_handle_event (r : sref) (e : srtp_event_t) : prog pstate unit :=
  let* x := get_strm r in pmodify (fun s => log_event s (bswap32 (ssrc x)) e).

(** ** Steps that protect and unprotect share *)

(** The SSRC collision check, for the given direction. *)
Definition check_direction (r : sref) (d : direction_t) : prog pstate unit :=
  let* x := get_strm r in
  if decide (direction x = d) then pret tt
  else if decide (direction x = dir_unknown) then put_strm r (with_direction x d)
  else srtp_handle_event r event_ssrc_collision.

(** The switch on [srtp_key_limit_update]. *)
Definition use_key (r : sref) (i : nat) : prog pstate unit :=
  let* o := get_objs i in
  let '(l, ev) := srtp_key_limit_update (limit o) in
  put_objs i (with_limit o l) ;;
  match ev with
  | srtp_key_event_normal => pret tt
  | srtp_key_event_soft_limit => srtp_handle_event r event_key_soft_limit
  | srtp_key_event_hard_limit => srtp_handle_event r event_key_hard_limit ;; preturn srtp_err_status_key_expired
  end.

(** The IV: SSRC and packet index for counter mode, else the index alone. *)
Definition packet_iv (id x est : Z) : list Z :=
  if (id =? SRTP_AES_ICM_128) || (id =? SRTP_AES_ICM_192) || (id =? SRTP_AES_ICM_256)
  then replicate 4 0 ++ rev (be_octets 4 x) ++ be_octets 8 (u64 (est << 16))
  else replicate 8 0 ++ be_octets 8 est.

(** Both ciphers of the stream get the IV. *)
Definition set_ivs (i : nat) (x est : Z) : prog pstate unit :=
  let* o := get_objs i in
  let iv := packet_iv (cipher_type_id (rtp_cipher o)) x est in
  let* '(st, c) := plift (srtp_cipher_set_iv (rtp_cipher o) iv) in
  put_objs i (with_rtp_cipher o c) ;;
  let* st :=
    match rtp_xtn_hdr_cipher o with
    | Some xc =>
        if is_err st then pret st
        else
          let* '(st, xc) := plift (srtp_cipher_set_iv xc iv) in
          put_objs i (with_xtn_cipher (with_rtp_cipher o c) xc) ;;
          pret st
    | None => pret st
    end in
  preturn_if (is_err st) srtp_err_status_cipher_fail.

(** The header extension at [o], when there is a cipher for it. *)
Definition crypt_extension (i : nat) (ids : list Z) (o : option Z) : prog pstate unit :=
  let* k := get_objs i in
  match o, rtp_xtn_hdr_cipher k with
  | Some o, Some xc =>
      let* p := pget pkt in
      let* '(st, xc, p) := plift (srtp_process_header_encryption ids xc p o) in
      put_objs i (with_xtn_cipher k xc) ;;
      put_pkt p ;;
      pcheck st
  | _, _ => pret tt
  end.

(** [len] octets of the packet from [start] through the cipher. *)
Definition crypt_payload (addr : Z) (i : nat) (start len : Z) : prog pstate unit :=
  let* k := get_objs i in
  let* p := pget pkt in
  let* '(st, c, buf) := plift (srtp_cipher_encrypt (addr + start) (rtp_cipher k) (drop (Z.to_nat start) p) len) in
  put_objs i (with_rtp_cipher k c) ;;
  put_pkt (take (Z.to_nat start) p ++ buf) ;;
  preturn_if (is_err st) srtp_err_status_cipher_fail.

(** The replay database takes the index: set anew when the index was advanced
    by a pending rollover counter, else by the difference. *)
Definition add_packet_index (r : sref) (adv : bool) (est delta : Z) : prog pstate unit :=
  let* x := get_strm r in
  if adv then
    let* '(rx, _) := plift (srtp_rdbx_set_roc_seq (rtp_rdbx x) (u32 (est >> 16)) (u16 (est & 0xffff))) in
    let* '(rx, _) := plift (srtp_rdbx_add_index rx 0) in
    put_strm r (with_pending_roc (with_rdbx x rx) 0)
  else
    let* '(rx, _) := plift (srtp_rdbx_add_index (rtp_rdbx x) delta) in
    put_strm r (with_rdbx x rx).

(** The first four octets of [est] shifted and in network order: the rollover
    counter. *)
Definition roc_octets (est : Z) : list Z := take 4 (be_octets 8 (u64 (est << 16))).

(** ** srtp_protect *)

(** The stream of an outgoing packet: looked up by SSRC, or cloned from the
    template. *)
Definition outbound_stream (ok : Z -> bool) (x : Z) : prog pstate sref :=
  let* c := pget ses in
  match srtp_get_stream c x, stream_template c with
  | Some r, _ => pret r
  | None, None => preturn srtp_err_status_no_ctx
  | None, Some t =>
      let* '(st, new) := plift (srtp_stream_clone ok t x) in
      pcheck st ;;
      let* new := plift new in
      pmodify (fun s => with_ses s
        (with_streams (ses s) (with_direction new dir_srtp_sender :: stream_list (ses s)))) ;;
      pret (InList 0)
  end.

(** The index of an outgoing packet must be new, unless retransmission is
    allowed. *)
Definition claim_index (r : sref) (st : srtp_err_status_t) (est delta : Z) : prog pstate unit :=
  let adv := bool_decide (st = srtp_err_status_pkt_idx_adv) in
  preturn_if (is_err st && negb adv) st ;;
  (if adv then pret tt
   else
     let* x := get_strm r in
     let* c := plift (srtp_rdbx_check (rtp_rdbx x) delta) in
     preturn_if (is_err c && (bool_decide (c <> srtp_err_status_replay_fail) || (allow_repeat_tx x =? 0))) c) ;;
  add_packet_index r adv est delta.

(** The key stream prefix goes to the place of the tag, at [tag]. *)
Definition put_prefix (addr : Z) (i : nat) (tag : Z) : prog pstate unit :=
  let* o := get_objs i in
  let prefix_len := srtp_auth_get_prefix_length (rtp_auth o) in
  if prefix_len =? 0 then pret tt
  else
    let* p := pget pkt in
    let* '(st, c, buf) :=
      plift (srtp_cipher_output (addr + tag) (rtp_cipher o) (drop (Z.to_nat tag) p) prefix_len) in
    put_objs i (with_rtp_cipher o c) ;;
    put_pkt (take (Z.to_nat tag) p ++ buf) ;;
    preturn_if (is_err st) srtp_err_status_cipher_fail.

(** The tag over the first [len] octets and the rollover counter, written at
    [tag]. *)
Definition put_tag (i : nat) (len tag est : Z) : prog pstate unit :=
  let* o := get_objs i in
  let* p := pget pkt in
  let '(st, a) := srtp_auth_start (rtp_auth o) in
  put_objs i (with_rtp_auth o a) ;;
  pcheck st ;;
  let* msg := plift (slice p 0 len) in
  let* '(st, a) := plift (srtp_auth_update a msg len) in
  put_objs i (with_rtp_auth o a) ;;
  pcheck st ;;
  let* '(st, a, buf) := plift (srtp_auth_compute a (roc_octets est) 4 (drop (Z.to_nat tag) p)) in
  put_objs i (with_rtp_auth o a) ;;
  put_pkt (take (Z.to_nat tag) p ++ buf) ;;
  preturn_if (is_err st) srtp_err_status_auth_fail.

(** The encrypted portion of an outgoing packet and the place of the
    extension; none without confidentiality. *)
Definition protect_portion (addr : Z) (s : srtp_sec_serv_t) (p : list Z) (len : Z)
    : prog pstate (option (Z * Z) * option Z) :=
  if has_conf s then
    let* '(start, xtn) := plift (enc_portion p) in
    preturn_if (negb (u32 (addr + start) <=? u32 (addr + len))) srtp_err_status_parse_err ;;
    preturn_if (len - start <? 0) srtp_err_status_parse_err ;;
    pret (Some (start, len - start), xtn)
  else pret (None, None).

(** Encryption and authentication: the prefix of the tag, the extension, the
    encrypted portion and the tag. *)
Definition seal_packet (addr : Z) (i : nat) (s : srtp_sec_serv_t) (ids : list Z) (enc : option (Z * Z))
    (xtn : option Z) (len tag est : Z) : prog pstate unit :=
  (if has_auth s then put_prefix addr i tag else pret tt) ;;
  crypt_extension i ids xtn ;;
  match enc with Some (start, n) => crypt_payload addr i start n | None => pret tt end ;;
  if has_auth s then put_tag i len tag est else pret tt.

(** [srtp_protect_mki] with the stream [s] and its keys [k] at hand: the new
    length. *)
Definition protect_with_keys (addr : Z) (use_mki : bool) (x : Z) (p : list Z) (len : Z) (r : sref)
    (s : srtp_stream_ctx_t) (k : srtp_session_keys_t) : prog pstate Z :=
  use_key r (objs k) ;;
  let* o := get_objs (objs k) in
  let tag_len := srtp_auth_get_tag_length (rtp_auth o) in
  let* '(enc, xtn) := protect_portion addr (rtp_services s) p len in
  let* '(p, mki_size) := plift (srtp_inject_mki p len k use_mki) in
  put_pkt p ;;
  let* '(st, est, delta) := plift (srtp_get_est_pkt_index p s) in
  claim_index r st est delta ;;
  set_ivs (objs k) x est ;;
  seal_packet addr (objs k) (rtp_services s) (enc_xtn_hdr s) enc xtn len (len + mki_size) est ;;
  pret (len + (if has_auth (rtp_services s) then tag_len else 0) + (if use_mki then mki_size else 0)).

(** [srtp_protect_mki] once the stream is found. *)
Definition protect_stream (addr : Z) (use_mki : bool) (mki_index x : Z) (p : list Z) (len : Z) (r : sref)
    : prog pstate Z :=
  check_direction r dir_srtp_sender ;;
  let* s := get_strm r in
  match srtp_get_session_keys_with_mki_index s use_mki mki_index with
  | Some k => protect_with_keys addr use_mki x p len r s k
  | None => preturn srtp_err_status_bad_mki
  end.

(** [srtp_protect_mki(ctx, hdr, &len, use_mki, mki_index)]. *)
Definition srtp_protect_mki (addr : Z) (ok : Z -> bool) (use_mki : bool) (mki_index : Z)
    : prog pstate unit :=
  let* p := pget pkt in
  let* len := pget pkt_octet_len in
  let* st := plift (srtp_validate_rtp_header p len) in
  pcheck st ;;
  preturn_if (len <? octets_in_rtp_header) srtp_err_status_bad_param ;;
  let* x := plift (hdr_ssrc p) in
  let* r := outbound_stream ok x in
  let* n := protect_stream addr use_mki mki_index x p len r in
  pmodify (fun st => with_len st n).

(** [srtp_protect(ctx, hdr, &len)]. *)
Definition srtp_protect (addr : Z) (ok : Z -> bool) : prog pstate unit :=
  srtp_protect_mki addr ok false 0.

(** ** srtp_unprotect *)

(** The stream of an incoming packet, whether the index is advanced, the index
    and its difference to the local one; the template serves provisionally. *)
Definition inbound_stream (p : list Z) (x : Z) : prog pstate (sref * bool * Z * Z) :=
  let* c := pget ses in
  match srtp_get_stream c x, stream_template c with
  | Some r, _ =>
      let* s := get_strm r in
      let* '(st, est, delta) := plift (srtp_get_est_pkt_index p s) in
      let adv := bool_decide (st = srtp_err_status_pkt_idx_adv) in
      preturn_if (is_err st && negb adv) st ;;
      (if adv then pret tt
       else let* c := plift (srtp_rdbx_check (rtp_rdbx s) delta) in pcheck c) ;;
      pret (r, adv, est, delta)
  | None, Some _ =>
      let* seq := plift (hdr_seq p) in
      pret (Template, false, seq, seq)
  | None, None => preturn srtp_err_status_no_ctx
  end.

(** The keys of an incoming packet, and the length of the identifier in it. *)
Definition inbound_keys (use_mki : bool) (s : srtp_stream_ctx_t) (p : list Z) (len : Z)
    : prog pstate (srtp_session_keys_t * Z) :=
  let* k0 := plift (aget (session_keys s) 0) in
  if use_mki then
    let* o := get_objs (objs k0) in
    let* found := plift (srtp_get_session_keys (srtp_auth_get_tag_length (rtp_auth o)) s p len) in
    match found with
    | Some km => pret km
    | None => preturn srtp_err_status_bad_mki
    end
  else pret (k0, 0).

(** The portion to decrypt and the place of the extension.  [rest] is the
    length without tag and identifier, as an unsigned number. *)
Definition unprotect_portion (addr : Z) (s : srtp_sec_serv_t) (p : list Z) (rest : Z)
    : prog pstate (option (Z * Z) * option Z) :=
  if has_conf s then
    let* '(start, xtn) := plift (enc_portion p) in
    preturn_if (negb (u32 (addr + start) <=? u32 (addr + rest))) srtp_err_status_parse_err ;;
    pret (Some (start, u32 (rest - start)), xtn)
  else pret (None, None).

(** [tmp_tag], with the key stream prefix when the authenticator needs one. *)
Definition tag_prefix (i : nat) : prog pstate (list Z) :=
  let* o := get_objs i in
  let prefix_len := srtp_auth_get_prefix_length (rtp_auth o) in
  if prefix_len =? 0 then pret tmp_tag0
  else
    let* '(st, c, tmp) := plift (srtp_cipher_output tag_addr (rtp_cipher o) tmp_tag0 prefix_len) in
    put_objs i (with_rtp_cipher o c) ;;
    preturn_if (is_err st) srtp_err_status_cipher_fail ;;
    pret tmp.

(** Recomputing the tag over the first [n] octets and comparing it with the
    octets at [tag]; the result of the update is not looked at. *)
Definition verify_tag (i : nat) (n tag tag_len est : Z) : prog pstate unit :=
  let* tmp := tag_prefix i in
  let* o := get_objs i in
  let* p := pget pkt in
  let '(st, a) := srtp_auth_start (rtp_auth o) in
  put_objs i (with_rtp_auth o a) ;;
  pcheck st ;;
  let* msg := plift (slice p 0 n) in
  let* '(_, a) := plift (srtp_auth_update a msg n) in
  let* '(st, a, tmp) := plift (srtp_auth_compute a (roc_octets est) 4 tmp) in
  put_objs i (with_rtp_auth o a) ;;
  preturn_if (is_err st) srtp_err_status_auth_fail ;;
  let* sent := plift (slice p tag tag_len) in
  let* differ := plift (srtp_octet_string_is_eq tmp sent tag_len) in
  preturn_if (negb (differ =? 0)) srtp_err_status_auth_fail.

(** A stream that served provisionally is cloned, at the head of the list. *)
Definition settle_stream (ok : Z -> bool) (r : sref) (x : Z) : prog pstate sref :=
  match r with
  | InList _ => pret r
  | Template =>
      let* t := get_strm Template in
      let* '(st, new) := plift (srtp_stream_clone ok t x) in
      pcheck st ;;
      let* new := plift new in
      pmodify (fun s => with_ses s (with_streams (ses s) (new :: stream_list (ses s)))) ;;
      pret (InList 0)
  end.

(** [srtp_unprotect_mki] with the stream [s] and its keys [k] at hand, up to
    the direction check: the lengths of tag and identifier. *)
Definition unprotect_with_keys (addr x : Z) (p : list Z) (len : Z) (r : sref) (est : Z)
    (s : srtp_stream_ctx_t) (k : srtp_session_keys_t) (mki_size : Z) : prog pstate (Z * Z) :=
  let* o := get_objs (objs k) in
  let tag_len := srtp_auth_get_tag_length (rtp_auth o) in
  set_ivs (objs k) x est ;;
  let* '(enc, xtn) := unprotect_portion addr (rtp_services s) p (u32 (len - tag_len - mki_size)) in
  (if has_auth (rtp_services s)
   then verify_tag (objs k) (len - tag_len - mki_size) (len - tag_len) tag_len est else pret tt) ;;
  use_key r (objs k) ;;
  crypt_extension (objs k) (enc_xtn_hdr s) xtn ;;
  match enc with Some (start, n) => crypt_payload addr (objs k) start n | None => pret tt end ;;
  check_direction r dir_srtp_receiver ;;
  pret (tag_len, mki_size).

(** [srtp_unprotect_mki] on the stream it found. *)
Definition unprotect_stream (addr : Z) (use_mki : bool) (x : Z) (p : list Z) (len : Z) (r : sref) (est : Z)
    : prog pstate (Z * Z) :=
  let* s := get_strm r in
  let* '(k, mki_size) := inbound_keys use_mki s p len in
  unprotect_with_keys addr x p len r est s k mki_size.

(** [srtp_unprotect_mki(ctx, hdr, &len, use_mki)]. *)
Definition srtp_unprotect_mki (addr : Z) (ok : Z -> bool) (use_mki : bool) : prog pstate unit :=
  let* p := pget pkt in
  let* len := pget pkt_octet_len in
  let* st := plift (srtp_validate_rtp_header p len) in
  pcheck st ;;
  preturn_if (len <? octets_in_rtp_header) srtp_err_status_bad_param ;;
  let* x := plift (hdr_ssrc p) in
  let* '(r, adv, est, delta) := inbound_stream p x in
  let* '(tag_len, mki_size) := unprotect_stream addr use_mki x p len r est in
  let* r := settle_stream ok r x in
  add_packet_index r adv est delta ;;
  pmodify (fun st => with_len st (len - tag_len - mki_size)).

(** [srtp_unprotect(ctx, hdr, &len)]. *)
Definition srtp_unprotect (addr : Z) (ok : Z -> bool) : prog pstate unit :=
  srtp_unprotect_mki addr ok false.

End Packets.
