(* ===== verification/Srtcp.v ===== *)
(** Protecting and unprotecting RTCP packets: srtp_protect_rtcp_mki and
    srtp_unprotect_rtcp_mki of srtp/srtp.c.

    An SRTCP packet carries its index: behind the encrypted octets come a word
    with the encryption flag and the 31-bit index, the key identifier and the
    tag.  The state of a call is that of SRTP, [pstate]. *)

From S2P Require Import Prelude Err Prog SrtpTypes Replay Rdb Rdbx Key SrtpPolicy ByteOrder.
From S2P Require Import Sha1 Hmac Aes AesKeys AesIcm Cipher SrtpStream SrtpPacket.

Definition octets_in_rtcp_header : Z := 8.
Definition uint32s_in_rtcp_header : Z := 2.

(** [sizeof(srtcp_trailer_t)]. *)
Definition srtcp_trailer_t : Z := 4.

Definition SRTCP_E_BIT : Z := 0x80000000.
Definition SRTCP_E_BYTE_BIT : Z := 0x80.
Definition SRTCP_INDEX_MASK : Z := 0x7fffffff.

(** [hdr->ssrc] of an [srtcp_hdr_t], as it is in memory. *)
Definition rtcp_ssrc (p : list Z) : option Z := get32 p 4.

Section Packets.
Context `{BC : BlockCipher} `{LV : Locals}.

(** ** Steps that protect and unprotect share *)

(** The IV: SSRC and index for counter mode, else the index alone. *)
Definition rtcp_iv (id x seq_num : Z) : list Z :=
  if (id =? SRTP_AES_ICM_128) || (id =? SRTP_AES_ICM_192) || (id =? SRTP_AES_ICM_256)
  then replicate 4 0 ++ rev (be_octets 4 x) ++ be_octets 4 (u32 (seq_num >> 16)) ++ be_octets 4 (u32 (seq_num << 16))
  else replicate 12 0 ++ be_octets 4 seq_num.

Definition set_rtcp_iv (i : nat) (x seq_num : Z) : prog pstate unit :=
  let* o := get_objs i in
  let iv := rtcp_iv (cipher_type_id (rtcp_cipher o)) x seq_num in
  let* '(st, c) := plift (srtp_cipher_set_iv (rtcp_cipher o) iv) in
  put_objs i (with_rtcp_cipher o c) ;;
  preturn_if (is_err st) srtp_err_status_cipher_fail.

(** The key stream prefix goes to the place of the tag, at [tag]. *)
Definition put_rtcp_prefix (addr : Z) (i : nat) (tag : Z) : prog pstate unit :=
  let* o := get_objs i in
  let prefix_len := srtp_auth_get_prefix_length (rtcp_auth o) in
  let* p := pget pkt in
  let* '(st, c, buf) :=
    plift (srtp_cipher_output (addr + tag) (rtcp_cipher o) (drop (Z.to_nat tag) p) prefix_len) in
  put_objs i (with_rtcp_cipher o c) ;;
  put_pkt (take (Z.to_nat tag) p ++ buf) ;;
  preturn_if (is_err st) srtp_err_status_cipher_fail.

(** [len] octets of the packet from [start] through the cipher. *)
Definition crypt_rtcp (addr : Z) (i : nat) (start len : Z) : prog pstate unit :=
  let* o := get_objs i in
  let* p := pget pkt in
  let* '(st, c, buf) := plift (srtp_cipher_encrypt (addr + start) (rtcp_cipher o) (drop (Z.to_nat start) p) len) in
  put_objs i (with_rtcp_cipher o c) ;;
  put_pkt (take (Z.to_nat start) p ++ buf) ;;
  preturn_if (is_err st) srtp_err_status_cipher_fail.

(** The tag over the first [n] octets of the packet, written to [result]; the
    status of the start is not looked at. *)
Definition compute_rtcp_tag (i : nat) (n : Z) (result : list Z) : prog pstate (srtp_err_status_t * list Z) :=
  let* o := get_objs i in
  let* p := pget pkt in
  let '(_, a) := srtp_auth_start (rtcp_auth o) in
  let* msg := plift (slice p 0 n) in
  let* '(st, a, result) := plift (srtp_auth_compute a msg n result) in
  put_objs i (with_rtcp_auth o a) ;;
  pret (st, result).

(** ** srtp_protect_rtcp *)

(** The stream of an outgoing packet: looked up by SSRC, or cloned from the
    template. *)
Definition rtcp_outbound_stream (ok : Z -> bool) (x : Z) : prog pstate sref :=
  let* c := pget ses in
  match srtp_get_stream c x, stream_template c with
  | Some r, _ => pret r
  | None, None => preturn srtp_err_status_no_ctx
  | None, Some t =>
      let* '(st, new) := plift (srtp_stream_clone ok t x) in
      pcheck st ;;
      let* new := plift new in
      pmodify (fun s => with_ses s (with_streams (ses s) (new :: stream_list (ses s)))) ;;
      pret (InList 0)
  end.

(** The next index of the stream. *)
Definition next_rtcp_index (r : sref) : prog pstate Z :=
  let* x := get_strm r in
  let '(rdb, st) := srtp_rdb_increment (rtcp_rdb x) in
  put_strm r (with_rdb x rdb) ;;
  pcheck st ;;
  pret (srtp_rdb_get_value rdb).

(** The tag over packet and trailer, [n] octets, written at [tag]. *)
Definition put_rtcp_tag (i : nat) (n tag : Z) : prog pstate unit :=
  let* p := pget pkt in
  let* '(st, buf) := compute_rtcp_tag i n (drop (Z.to_nat tag) p) in
  put_pkt (take (Z.to_nat tag) p ++ buf) ;;
  preturn_if (is_err st) srtp_err_status_auth_fail.

(** The prefix of the tag, the encrypted portion and the tag. *)
Definition seal_rtcp (addr : Z) (i : nat) (enc : option (Z * Z)) (n auth_tag : Z) : prog pstate unit :=
  put_rtcp_prefix addr i auth_tag ;;
  match enc with Some (enc_start, enc_octet_len) => crypt_rtcp addr i enc_start enc_octet_len | None => pret tt end ;;
  put_rtcp_tag i n auth_tag.

(** [srtp_protect_rtcp_mki] with the stream [s] and its keys [k] at hand: the
    new length. *)
Definition protect_rtcp_with_keys (addr : Z) (use_mki : bool) (x len : Z) (r : sref) (s : srtp_stream_ctx_t)
    (k : srtp_session_keys_t) : prog pstate Z :=
  let i := objs k in
  let* o := get_objs i in
  let tag_len := srtp_auth_get_tag_length (rtcp_auth o) in
  let conf := has_conf (rtcp_services s) in
  let enc_start := 4 * uint32s_in_rtcp_header in
  let enc_octet_len := len - octets_in_rtcp_header in
  let trailer_p := enc_start + enc_octet_len in
  let trailer := if conf then htonl SRTCP_E_BIT else 0 in
  let* p := pget pkt in
  let* '(p, mki_size) := plift (srtp_inject_mki p (len + srtcp_trailer_t) k use_mki) in
  put_pkt p ;;
  let auth_tag := len + srtcp_trailer_t + mki_size in
  let* seq_num := next_rtcp_index r in
  let* p := plift (put32 p trailer_p (trailer .| htonl seq_num)) in
  put_pkt p ;;
  set_rtcp_iv i x seq_num ;;
  seal_rtcp addr i (if conf then Some (enc_start, enc_octet_len) else None) (len + srtcp_trailer_t) auth_tag ;;
  pret (len + (tag_len + srtcp_trailer_t) + mki_size).

(** [srtp_protect_rtcp_mki] once the stream is found. *)
Definition protect_rtcp_stream (addr : Z) (use_mki : bool) (mki_index x len : Z) (r : sref) : prog pstate Z :=
  check_direction r dir_srtp_sender ;;
  let* s := get_strm r in
  match srtp_get_session_keys_with_mki_index s use_mki mki_index with
  | Some k => protect_rtcp_with_keys addr use_mki x len r s k
  | None => preturn srtp_err_status_bad_mki
  end.

(** [srtp_protect_rtcp_mki(ctx, hdr, &len, use_mki, mki_index)]. *)
Definition srtp_protect_rtcp_mki (addr : Z) (ok : Z -> bool) (use_mki : bool) (mki_index : Z) : prog pstate unit :=
  let* p := pget pkt in
  let* len := pget pkt_octet_len in
  preturn_if (len <? octets_in_rtcp_header) srtp_err_status_bad_param ;;
  let* x := plift (rtcp_ssrc p) in
  let* r := rtcp_outbound_stream ok x in
  let* n := protect_rtcp_stream addr use_mki mki_index x len r in
  pmodify (fun st => with_len st n).

(** [srtp_protect_rtcp(ctx, hdr, &len)]. *)
Definition srtp_protect_rtcp (addr : Z) (ok : Z -> bool) : prog pstate unit :=
  srtp_protect_rtcp_mki addr ok false 0.

(** ** srtp_unprotect_rtcp *)

(** The stream of an incoming packet; the template serves provisionally. *)
Definition rtcp_inbound_stream (x : Z) : prog pstate sref :=
  let* c := pget ses in
  match srtp_get_stream c x, stream_template c with
  | Some r, _ => pret r
  | None, Some _ => pret Template
  | None, None => preturn srtp_err_status_no_ctx
  end.

(** The trailer at [o]: the encryption flag must be the one of the policy; the
    index must be new to the stream. *)
Definition check_trailer (s : srtp_stream_ctx_t) (p : list Z) (o : Z) : prog pstate (bool * Z) :=
  let conf := match rtcp_services s with sec_serv_conf | sec_serv_conf_and_auth => true | _ => false end in
  let* trailer := plift (get32 p o) in
  let* b := plift (aget p o) in
  let e_bit_in_packet := (b & SRTCP_E_BYTE_BIT) =? SRTCP_E_BYTE_BIT in
  preturn_if (negb (Bool.eqb e_bit_in_packet conf)) srtp_err_status_cant_check ;;
  let seq_num := htonl trailer & SRTCP_INDEX_MASK in
  let* st := plift (srtp_rdb_check (rtcp_rdb s) seq_num) in
  pcheck st ;;
  pret (conf, seq_num).

(** Recomputing the tag over the first [n] octets and comparing it with the
    octets at [tag]. *)
Definition verify_rtcp_tag (i : nat) (n tag tag_len : Z) : prog pstate unit :=
  let* '(st, tmp) := compute_rtcp_tag i n tmp_tag0 in
  preturn_if (is_err st) srtp_err_status_auth_fail ;;
  let* p := pget pkt in
  let* sent := plift (slice p tag tag_len) in
  let* differ := plift (srtp_octet_string_is_eq tmp sent tag_len) in
  preturn_if (negb (differ =? 0)) srtp_err_status_auth_fail.

(** [srtp_unprotect_rtcp_mki] with the stream [s] and its keys [k] at hand, up
    to the direction check: the index and the length of tag and trailer. *)
Definition unprotect_rtcp_with_keys (addr x : Z) (p : list Z) (len : Z) (r : sref)
    (s : srtp_stream_ctx_t) (k : srtp_session_keys_t) (mki_size : Z) : prog pstate (Z * Z) :=
  let i := objs k in
  let* o := get_objs i in
  let tag_len := srtp_auth_get_tag_length (rtcp_auth o) in
  preturn_if (len <? s32 (u32 (octets_in_rtcp_header + tag_len + mki_size + srtcp_trailer_t))) srtp_err_status_bad_param ;;
  let enc_octet_len := u32 (len - (octets_in_rtcp_header + tag_len + mki_size + srtcp_trailer_t)) in
  let trailer_p := len - (tag_len + mki_size + srtcp_trailer_t) in
  let auth_len := u32 (len - tag_len - mki_size) in
  let auth_tag := auth_len + mki_size in
  let* '(conf, seq_num) := check_trailer s p trailer_p in
  set_rtcp_iv i x seq_num ;;
  verify_rtcp_tag i auth_len auth_tag tag_len ;;
  let* o := get_objs i in
  (if srtp_auth_get_prefix_length (rtcp_auth o) =? 0 then pret tt else put_rtcp_prefix addr i auth_tag) ;;
  (if conf then crypt_rtcp addr i (4 * uint32s_in_rtcp_header) enc_octet_len else pret tt) ;;
  check_direction r dir_srtp_receiver ;;
  pret (seq_num, tag_len + srtcp_trailer_t).

(** [srtp_unprotect_rtcp_mki] on the stream it found: the index and the length
    of what follows the packet. *)
Definition unprotect_rtcp_stream (addr : Z) (use_mki : bool) (x : Z) (p : list Z) (len : Z) (r : sref)
    : prog pstate (Z * Z) :=
  let* s := get_strm r in
  let* '(k, mki_size) := inbound_keys use_mki s p len in
  let* '(seq_num, n) := unprotect_rtcp_with_keys addr x p len r s k mki_size in
  pret (seq_num, n + mki_size).

(** The index goes into the replay database; the status is not looked at. *)
Definition add_rtcp_index (r : sref) (seq_num : Z) : prog pstate unit :=
  let* x := get_strm r in
  let* '(rdb, _) := plift (srtp_rdb_add_index (rtcp_rdb x) seq_num) in
  put_strm r (with_rdb x rdb).

(** [srtp_unprotect_rtcp_mki(ctx, hdr, &len, use_mki)]. *)
Definition srtp_unprotect_rtcp_mki (addr : Z) (ok : Z -> bool) (use_mki : bool) : prog pstate unit :=
  let* p := pget pkt in
  let* len := pget pkt_octet_len in
  preturn_if (len <? 0) srtp_err_status_bad_param ;;
  preturn_if (len <? octets_in_rtcp_header + srtcp_trailer_t) srtp_err_status_bad_param ;;
  let* x := plift (rtcp_ssrc p) in
  let* r := rtcp_inbound_stream x in
  let* '(seq_num, n) := unprotect_rtcp_stream addr use_mki x p len r in
  pmodify (fun st => with_len st (len - n)) ;;
  let* r := settle_stream ok r x in
  add_rtcp_index r seq_num.

(** [srtp_unprotect_rtcp(ctx, hdr, &len)]. *)
Definition srtp_unprotect_rtcp (addr : Z) (ok : Z -> bool) : prog pstate unit :=
  srtp_unprotect_rtcp_mki addr ok false.

End Packets.
