(* ===== verification/SrtpRun.v ===== *)
(** The steps of packet processing on sessions with initialised keys.

    [keymat] is what the objects behind a session key compute; the objects
    change with every packet, the key material never does.  A call works on one
    stream and one set of objects, so its states are written [focus x o p evs]:
    the session with stream [x] and objects [o] in their places, the packet
    octets [p] and the events [evs]. *)

From S2P Require Import Prelude Err Prog SrtpTypes Replay Rdb Rdbx Key SrtpPolicy ByteOrder.
From S2P Require Import Sha1 Hmac Aes AesKeys AesIcm Cipher SrtpStream SrtpPacket.

(** ** Octets of integers *)

Lemma zlen_be_octets n v : zlen (be_octets n v) = Z.of_nat n.
Proof. unfold be_octets, zlen. by rewrite length_map, length_rev, length_seq. Qed.

Lemma be_octets_u8 n v : Forall is_u8 (be_octets n v).
Proof. apply Forall_map, Forall_true. intros. by apply wrap_fits. Qed.

Lemma packet_iv_block id x est : is_block (packet_iv id x est).
Proof.
  unfold packet_iv. case_match; (split; [rewrite !zlen_app, ?zlen_be_octets; try done|]).
  - rewrite !Forall_app. split_and!; [by apply Forall_replicate| |apply be_octets_u8].
    apply Forall_rev. apply be_octets_u8.
  - rewrite Forall_app. split; [by apply Forall_replicate|apply be_octets_u8].
Qed.

Lemma roc_octets_u8 est : Forall is_u8 (roc_octets est).
Proof. apply Forall_take, be_octets_u8. Qed.

Lemma zlen_roc_octets est : zlen (roc_octets est) = 4.
Proof.
  unfold roc_octets. change 4%nat with (Z.to_nat 4). rewrite zlen_take, zlen_be_octets by lia. done.
Qed.

Section Run.
Context `{BC : BlockCipher} `{LV : Locals}.

(** ** Key material *)

Record keymat := {
  km_id : Z;
  km_rtp : option stream_key;
  km_xtn : option (option stream_key);
  km_auth : option (list Z);
  km_tag : Z;
  km_cid : Z;
  km_rtcp : option stream_key;
  km_cauth : option (list Z);
  km_ctag : Z
}.

(** A property of the optional cipher for header extensions. *)
Definition opt_cipher (P : option stream_key -> cipher_t -> Prop) (k : option (option stream_key))
    (c : option cipher_t) : Prop :=
  match k, c with
  | None, None => True
  | Some k, Some c => P k c
  | _, _ => False
  end.

Record objs_ok (m : keymat) (o : key_objs) : Prop := {
  oo_id : cipher_type_id (rtp_cipher o) = km_id m;
  oo_rtp : keyed_cipher (km_rtp m) (rtp_cipher o);
  oo_xtn : opt_cipher keyed_cipher (km_xtn m) (rtp_xtn_hdr_cipher o);
  oo_auth : keyed_auth (km_auth m) (km_tag m) (rtp_auth o);
  oo_cid : cipher_type_id (rtcp_cipher o) = km_cid m;
  oo_rtcp : keyed_cipher (km_rtcp m) (rtcp_cipher o);
  oo_cauth : keyed_auth (km_cauth m) (km_ctag m) (rtcp_auth o)
}.

(** The ciphers have been given [iv]; the packet cipher is at [pos]. *)
Record objs_iv (m : keymat) (iv : list Z) (pos : Z) (o : key_objs) : Prop := {
  oi_ok : objs_ok m o;
  oi_block : is_block iv;
  oi_rtp : cipher_at (km_rtp m) iv pos (rtp_cipher o);
  oi_xtn : opt_cipher (fun k => cipher_at k iv 0) (km_xtn m) (rtp_xtn_hdr_cipher o)
}.

Lemma objs_ok_rtp m o c :
  objs_ok m o -> keyed_cipher (km_rtp m) c -> cipher_type_id c = cipher_type_id (rtp_cipher o) ->
  objs_ok m (with_rtp_cipher o c).
Proof. intros [] Hc Hid. split; simpl; congruence || done. Qed.

Lemma objs_ok_xtn m o c k :
  objs_ok m o -> km_xtn m = Some k -> keyed_cipher k c -> objs_ok m (with_xtn_cipher o c).
Proof. intros [] Hk Hc. split; simpl; try done. by rewrite Hk. Qed.

Lemma objs_ok_auth m o a : objs_ok m o -> keyed_auth (km_auth m) (km_tag m) a -> objs_ok m (with_rtp_auth o a).
Proof. intros [] Ha. by split. Qed.

Lemma objs_ok_limit m o l : objs_ok m o -> objs_ok m (with_limit o l).
Proof. intros []. by split. Qed.

(** ** Focus *)

Lemma set_stream_id c r x : stream_at c r = Some x -> set_stream c r x = c.
Proof.
  destruct c, r; simpl; intros Hx; unfold with_streams, with_template; simpl.
  - by rewrite list_insert_id.
  - by rewrite Hx.
Qed.

Lemma with_store_id c i o : key_store c !! i = Some o -> with_store c (<[i := o]> (key_store c)) = c.
Proof. destruct c; simpl; intros Ho. unfold with_store. simpl. by rewrite list_insert_id. Qed.

Section Focus.
Context (c0 : srtp_ctx_t) (r : sref) (i : nat) (n : Z).
Context (Hr : is_Some (stream_at c0 r)) (Hi : is_Some (key_store c0 !! i)).

Definition focus (x : srtp_stream_ctx_t) (o : key_objs) (p : list Z) (evs : list (Z * srtp_event_t)) : pstate :=
  {| ses := with_store (set_stream c0 r x) (<[i := o]> (key_store c0));
     pkt := p; pkt_octet_len := n; events := evs |}.

Lemma stream_at_focus x o p evs : stream_at (ses (focus x o p evs)) r = Some x.
Proof.
  unfold focus. cbn [ses]. destruct r as [j|]; [|done]. destruct Hr as [y Hy]. simpl in *.
  apply list_lookup_insert_eq. by eapply lookup_lt_Some.
Qed.

Lemma store_focus x o p evs : key_store (ses (focus x o p evs)) !! i = Some o.
Proof. destruct Hi as [y Hy]. apply list_lookup_insert_eq. by eapply lookup_lt_Some. Qed.

Lemma get_strm_focus x o p evs : get_strm r (focus x o p evs) = Some (focus x o p evs, inr x).
Proof. unfold get_strm. by rewrite stream_at_focus. Qed.

Lemma get_objs_focus x o p evs : get_objs i (focus x o p evs) = Some (focus x o p evs, inr o).
Proof. unfold get_objs. by rewrite store_focus. Qed.

Lemma put_strm_focus x x' o p evs : put_strm r x' (focus x o p evs) = Some (focus x' o p evs, inr tt).
Proof.
  clear Hr Hi.
  unfold put_strm, pmodify, focus, with_ses. simpl. do 2 f_equal. f_equal.
  destruct r as [j|]; unfold with_store, set_stream, with_streams, with_template; simpl; [|done].
  f_equal. apply list_insert_insert_eq.
Qed.

Lemma put_objs_focus x o o' p evs : put_objs i o' (focus x o p evs) = Some (focus x o' p evs, inr tt).
Proof.
  unfold put_objs, pmodify, focus, with_ses. simpl. do 2 f_equal. f_equal.
  unfold with_store. simpl. f_equal. apply list_insert_insert_eq.
Qed.

Lemma put_pkt_focus x o p p' evs : put_pkt p' (focus x o p evs) = Some (focus x o p' evs, inr tt).
Proof. done. Qed.

Lemma log_focus x o p evs e y : log_event (focus x o p evs) y e = focus x o p (evs ++ [(y, e)]).
Proof. done. Qed.

Lemma focus_self s x o :
  ses s = c0 -> pkt_octet_len s = n -> stream_at c0 r = Some x -> key_store c0 !! i = Some o ->
  s = focus x o (pkt s) (events s).
Proof.
  intros Hs Hn Hx Ho. unfold focus. rewrite set_stream_id, with_store_id by done.
  destruct s; simpl in *. by subst.
Qed.

Lemma handle_event_focus x o p evs e :
  srtp_handle_event r e (focus x o p evs) =
    Some (focus x o p (evs ++ [(bswap32 (ssrc x), e)]), inr tt).
Proof. unfold srtp_handle_event, pbind. by rewrite get_strm_focus. Qed.

(** Symbolic execution of the primitive steps. *)
Ltac run :=
  repeat first
    [ progress autorewrite with prog
    | rewrite (bind_ok _ _ _ _ _ (get_strm_focus _ _ _ _))
    | rewrite (bind_ok _ _ _ _ _ (get_objs_focus _ _ _ _))
    | rewrite (bind_ok _ _ _ _ _ (put_strm_focus _ _ _ _ _))
    | rewrite (bind_ok _ _ _ _ _ (put_objs_focus _ _ _ _ _))
    | rewrite (bind_ok _ _ _ _ _ (put_pkt_focus _ _ _ _ _))
    | rewrite (bind_ok _ _ _ _ _ (handle_event_focus _ _ _ _ _)) ].

(** The direction check ends with the stream in the direction, or in its own
    with an event. *)
Lemma check_direction_focus d x o p evs :
  exists d' evs', check_direction r d (focus x o p evs) = Some (focus (with_direction x d') o p evs', inr tt) /\
    (direction x = d \/ direction x = dir_unknown -> d' = d /\ evs' = evs).
Proof.
  unfold check_direction. run. case_decide as Hd.
  { exists d, evs. rewrite <- Hd. by destruct x. }
  case_decide as Hu.
  - exists d, evs. split; [apply put_strm_focus|done].
  - exists (direction x), (evs ++ [(bswap32 (ssrc x), event_ssrc_collision)]).
    rewrite handle_event_focus. split; [by destruct x|]. by intros [].
Qed.

(** Using the key: it is refused at the last use only. *)
Lemma use_key_focus x o p evs :
  exists o' evs' res, use_key r i (focus x o p evs) = Some (focus x o' p evs', res) /\
    o' = with_limit o (fst (srtp_key_limit_update (limit o))) /\
    (if decide (snd (srtp_key_limit_update (limit o)) = srtp_key_event_hard_limit)
     then res = inl srtp_err_status_key_expired else res = inr tt).
Proof.
  unfold use_key. run. destruct (srtp_key_limit_update (limit o)) as [l ev] eqn:E. simpl. run.
  destruct ev; simpl.
  - eexists _, _, _. split; [done|]. done.
  - rewrite handle_event_focus. eexists _, _, _. split; [done|]. done.
  - run. eexists _, _, _. split; [done|]. done.
Qed.

(** Both ciphers take the IV of the packet. *)
Lemma set_ivs_focus m x o p evs y est :
  objs_ok m o ->
  exists o', set_ivs i y est (focus x o p evs) = Some (focus x o' p evs, inr tt) /\
    objs_iv m (packet_iv (km_id m) y est) 0 o' /\ limit o' = limit o /\ rtp_auth o' = rtp_auth o.
Proof.
  intros Hok. unfold set_ivs. run. rewrite (oo_id _ _ Hok).
  pose proof (packet_iv_block (km_id m) y est) as Hb. set (iv := packet_iv _ _ _) in *.
  destruct (cipher_set_iv_ok _ _ iv (oo_rtp _ _ Hok) Hb) as (c & -> & Hc & Hid).
  run.
  cbv beta iota. run. pose proof (cipher_at_keyed _ _ _ _ Hc) as Hkc.
  pose proof (objs_ok_rtp m o c Hok Hkc Hid) as Hok1. pose proof (oo_xtn _ _ Hok) as Hx.
  destruct (rtp_xtn_hdr_cipher o) as [xc|] eqn:Ex, (km_xtn m) as [k|] eqn:Ek; try done.
  - change (is_err srtp_err_status_ok) with false. cbv iota.
    destruct (cipher_set_iv_ok _ _ iv Hx Hb) as (xc' & -> & Hxc & _).
    run. cbv beta iota. run.
    exists (with_xtn_cipher (with_rtp_cipher o c) xc').
    split; [done|]. split; [|done]. split; [by eapply objs_ok_xtn, cipher_at_keyed|done|done|].
    simpl. by rewrite Ek.
  - exists (with_rtp_cipher o c). split; [done|]. split; [|done].
    split; [done|done|done|]. simpl. by rewrite Ex, Ek.
Qed.

End Focus.
End Run.
