(* ===== verification/SrtpXtn.v ===== *)
(** Encryption of header extensions (RFC 6904): the walk over the elements
    stays inside the extension, ends, touches only the data of the elements,
    and undoes itself. *)

From S2P Require Import Prelude Err Prog SrtpTypes Replay Rdb Rdbx Key SrtpPolicy ByteOrder.
From S2P Require Import Sha1 Hmac Aes AesKeys AesIcm Cipher SrtpStream SrtpPacket SrtpRun.

Section Xtn.
Context `{BC : BlockCipher} `{LV : Locals}.

(** ** Padding *)

(** [q] is the first octet from [pos] on that is not padding. *)
Definition skips (p : list Z) (pos e q : Z) : Prop :=
  pos <= q <= Z.max pos e /\ (forall j, pos <= j < q -> znth p j = 0) /\ (q < e -> znth p q <> 0).

Lemma skip_padding_spec fuel p pos e :
  0 <= pos -> e <= zlen p -> Z.max 0 (e - pos) < Z.of_nat fuel ->
  exists q, skip_padding fuel p pos e = Some q /\ skips p pos e q.
Proof.
  revert pos. induction fuel as [|fuel IH]; intros pos H0 He Hf; [simpl in Hf; lia|]. simpl.
  destruct (pos <? e) eqn:E; bool_to_prop.
  - rewrite aget_znth by lia. simpl. destruct (znth p pos =? 0) eqn:Ez; bool_to_prop.
    + destruct (IH (pos + 1)) as (q & -> & Hq1 & Hq2 & Hq3); [lia..|]. exists q. split; [done|].
      split_and!; [lia|lia| |done]. intros j Hj. destruct (decide (j = pos)) as [->|]; [done|].
      apply Hq2. lia.
    + exists pos. split; [done|]. split_and!; [lia|lia|lia|done].
  - exists pos. split; [done|]. split_and!; lia.
Qed.

Lemma skips_unique p pos e q q' : skips p pos e q -> skips p pos e q' -> q = q'.
Proof.
  intros (A1 & A2 & A3) (B1 & B2 & B3). destruct (Z.lt_trichotomy q q') as [Hl|[|Hl]]; [|done|].
  - destruct A3; [lia|]. apply B2. lia.
  - destruct B3; [lia|]. apply A2. lia.
Qed.

Lemma skips_within p p' pos e q :
  (forall j, pos <= j <= q /\ j < e -> znth p' j = znth p j) -> skips p pos e q -> skips p' pos e q.
Proof.
  intros Hs (A1 & A2 & A3). split_and!; try lia; [intros j Hj; rewrite Hs by lia; by apply A2|].
  intros Hq. rewrite Hs by lia. by apply A3.
Qed.

(** ** One element *)

(** The octets [n] from [pos] xored with [ks] from [k]. *)
Definition xored_range (ks p p' : list Z) (pos n k : Z) : Prop :=
  zlen p' = zlen p /\
  forall j, 0 <= j < zlen p ->
    znth p' j = if decide (pos <= j < pos + n) then znth p j ^^ znth ks (k + (j - pos)) else znth p j.

Lemma xor_range_loop p ks pos n k :
  0 <= pos -> 0 <= n -> pos + n <= zlen p -> 0 <= k -> k + n <= zlen ks ->
  exists p', for_up 0 n (fun i p => b ← aget p (pos + i); x ← aget ks (k + i); aset p (pos + i) (b ^^ x)) p
      = Some p' /\ xored_range ks p p' pos n k.
Proof.
  intros Hp Hn Hz Hk Hks.
  destruct (for_up_inv (fun i q => xored_range ks p q pos i k) 0 n
    (fun i p => b ← aget p (pos + i); x ← aget ks (k + i); aset p (pos + i) (b ^^ x)) p)
    as (p' & E & Hp'); [lia| | |by exists p'].
  - split; [done|]. intros j Hj. by rewrite decide_False by lia.
  - intros i q Hi [Hq A]. rewrite !aget_znth by lia. simpl. rewrite aset_Some by lia.
    eexists. split; [done|]. split; [by rewrite zlen_insert|]. intros j Hj.
    rewrite znth_insert by lia. case_decide.
    + subst j. rewrite A by lia. rewrite decide_False, decide_True by lia. do 2 f_equal. lia.
    + rewrite A by lia. repeat case_decide; try done; lia.
Qed.

Lemma xored_range_u8 ks p p' pos n k :
  xored_range ks p p' pos n k -> Forall is_u8 p -> Forall is_u8 ks -> 0 <= k -> k + n <= zlen ks ->
  Forall is_u8 p'.
Proof.
  intros [Hz A] HF HK Hk Hn. apply Forall_lookup. intros j x Hj. pose proof (lookup_lt_Some _ _ _ Hj) as Hlt.
  assert (znth p' (Z.of_nat j) = x) as <-.
  { unfold znth, aget. rewrite decide_True by lia. by rewrite Nat2Z.id, Hj. }
  rewrite A by (unfold zlen in *; lia). case_decide.
  - apply fits_lxor; [lia| |]; apply znth_Forall; try done; unfold zlen in *; lia.
  - apply znth_Forall; [done|]. unfold zlen in *. lia.
Qed.

(** Octet [j] of the key stream. *)
Definition ks_octet (k : option stream_key) (iv : list Z) (j : Z) : Z :=
  match k with None => 0 | Some k => stream_octet (sk_E k) (start_block k iv) j end.

Lemma znth_crypt_zeros k iv pos n j :
  0 <= j < n -> znth (crypt k iv pos (replicate (Z.to_nat n) 0)) j = ks_octet k iv (pos + j).
Proof.
  intros Hj. destruct k; simpl.
  - rewrite znth_stream_xor by (rewrite zlen_replicate; lia). rewrite znth_replicate by lia. done.
  - apply znth_replicate. lia.
Qed.

(** [srtp_cipher_output] writes the key stream. *)
Lemma cipher_output_at addr k iv pos c buf n :
  cipher_at k iv pos c -> is_block iv -> Forall is_u8 buf -> 0 <= n <= zlen buf -> n < 2 ^ 31 ->
  exists st c' buf', srtp_cipher_output addr c buf n = Some (st, c', buf') /\
    zlen buf' = zlen buf /\ Forall is_u8 buf' /\ cipher_type_id c' = cipher_type_id c /\
    if room k iv pos n
    then st = srtp_err_status_ok /\ cipher_at k iv (pos + n) c' /\
         buf' = crypt k iv pos (replicate (Z.to_nat n) 0) ++ drop (Z.to_nat n) buf
    else st = srtp_err_status_terminus /\ c' = c /\ buf' = replicate (Z.to_nat n) 0 ++ drop (Z.to_nat n) buf.
Proof.
  intros Hat Hiv HF Hn Hn31. unfold srtp_cipher_output, blit.
  rewrite decide_True by (rewrite zlen_replicate; lia). cbn [mbind option_bind].
  rewrite zlen_replicate, Z.add_0_l, Z2Nat.id by lia. change (Z.to_nat 0) with 0%nat. rewrite take_0, app_nil_l.
  set (z := replicate (Z.to_nat n) 0). assert (zlen z = n) as Hz by (unfold z; rewrite zlen_replicate; lia).
  assert (Forall is_u8 (z ++ drop (Z.to_nat n) buf)) as HFz.
  { apply Forall_app. split; [by apply Forall_replicate|by apply Forall_drop]. }
  assert (zlen (z ++ drop (Z.to_nat n) buf) = zlen buf) as Hlz by (rewrite zlen_app, zlen_drop by lia; lia).
  destruct (cipher_encrypt_at addr k iv pos c (z ++ drop (Z.to_nat n) buf) n)
    as (st & c' & buf' & E & Hid & HR); [done|done|done|lia|lia|].
  exists st, c', buf'. split; [exact E|]. destruct (room k iv pos n).
  - destruct HR as (-> & Hat' & ->).
    rewrite take_app_length', drop_app_length' by (unfold z; by rewrite length_replicate).
    split_and!; [rewrite zlen_app, zlen_crypt, zlen_drop by lia; lia| |done|done|done|done].
    apply Forall_app. split; [|by apply Forall_drop].
    eapply cipher_at_u8; [done|done|]. by apply Forall_replicate.
  - by destruct HR as (-> & -> & ->).
Qed.

(** ** The walk *)

Section Walk.
Context (k : option stream_key) (iv : list Z) (Hiv : is_block iv) (ids : list Z).
Context (h e : Z) (Hh : h = 1 \/ h = 2).

(** The data of an element, [n] octets from [a], with the stream from [kpos]. *)
Definition element_xored (b : bool) (p p' : list Z) (a n kpos : Z) : Prop :=
  zlen p' = zlen p /\
  forall j, 0 <= j < zlen p ->
    znth p' j = if decide (b = true /\ a <= j < a + n) then znth p j ^^ ks_octet k iv (kpos + (j - a))
                else znth p j.

Lemma element_header_spec p pos :
  Forall is_u8 p -> 0 <= pos -> pos + (h - 1) < e -> e <= zlen p ->
  exists xid xlen, element_header h p pos = Some (xid, xlen) /\ 0 <= xlen <= 255 /\ 2 <= h + xlen.
Proof.
  intros HF Hp He Hz. unfold element_header. destruct Hh as [-> | ->]; simpl.
  - rewrite aget_znth by lia. simpl. eexists _, _. split; [done|].
    pose proof (Z.land_ones (znth p pos) 4 ltac:(lia)) as E. change (Z.ones 4) with 15 in E. rewrite E. lia.
  - rewrite !aget_znth by lia. simpl. eexists _, _. split; [done|].
    pose proof (znth_Forall is_u8 p (pos + 1) HF ltac:(lia)). unfold fits in *. lia.
Qed.

Lemma element_header_same p q pos :
  0 <= pos -> pos + (h - 1) < e -> e <= zlen p -> e <= zlen q ->
  (forall j, pos <= j < pos + h -> znth q j = znth p j) -> element_header h q pos = element_header h p pos.
Proof.
  intros Hp He Hz Hq Hs. unfold element_header. destruct Hh as [-> | ->]; simpl;
    rewrite !aget_znth by lia; by rewrite !Hs by lia.
Qed.

Lemma crypt_element_spec b p ks a n kpos ks0 :
  Forall is_u8 p -> zlen ks = 257 -> Forall is_u8 ks -> 0 <= a -> 0 <= n <= 255 -> a + n <= e -> e <= zlen p ->
  ks = crypt k iv kpos (replicate (Z.to_nat (h + n)) 0) ++ ks0 ->
  exists p' q, crypt_element b p ks a n h e = Some (p', q) /\ Forall is_u8 p' /\
    element_xored b p p' a n (kpos + h) /\ skips p' (a + n) e q.
Proof.
  intros HF Hks HFk Ha Hn He Hz Eks. unfold crypt_element.
  assert (exists p', (if b then for_up 0 n (fun i p => v ← aget p (a + i); x ← aget ks (h + i); aset p (a + i) (v ^^ x)) p
      else Some p) = Some p' /\ Forall is_u8 p' /\ element_xored b p p' a n (kpos + h)) as (p' & -> & HF' & Hx).
  { destruct b.
    - destruct (xor_range_loop p ks a n h) as (p' & E & Hx); [lia..|]. exists p'. split; [done|]. split.
      { apply (xored_range_u8 _ _ _ _ _ _ Hx); try done; lia. }
      destruct Hx as [Hzp A]. split; [done|]. intros j Hj. rewrite A by done.
      destruct (decide (a <= j < a + n)); [rewrite decide_True by done|by rewrite decide_False by tauto].
      f_equal. rewrite Eks, znth_app, zlen_crypt, zlen_replicate by lia. rewrite decide_True by lia.
      rewrite znth_crypt_zeros by lia. f_equal. lia.
    - exists p. split; [done|]. split; [done|]. split; [done|]. intros j Hj. by rewrite decide_False by naive_solver. }
  cbn [mbind option_bind]. pose proof (proj1 Hx) as Hzp.
  destruct (skip_padding_spec (S (Z.to_nat e)) p' (a + n) e) as (q & -> & Hq); [lia..|].
  exists p', q. done.
Qed.

(** One turn: the walk ends here, or goes on behind the element. *)
Lemma extension_turn fuel c ks p pos spos :
  cipher_at k iv spos c -> zlen ks = 257 -> Forall is_u8 ks -> Forall is_u8 p -> 0 <= pos -> e <= zlen p ->
  pos + (h - 1) < e ->
  exists xid xlen, element_header h p pos = Some (xid, xlen) /\ 0 <= xlen <= 255 /\ 2 <= h + xlen /\
    if decide (pos + h + xlen <= e /\ ~ (h = 1 /\ xid = 15) /\ room k iv spos (h + xlen) = true)
    then exists c' ks' p' pos', extension_loop (S fuel) h ids c ks p pos e = extension_loop fuel h ids c' ks' p' pos' e /\
      cipher_at k iv (spos + (h + xlen)) c' /\ zlen ks' = 257 /\ Forall is_u8 ks' /\ Forall is_u8 p' /\
      element_xored ((0 <? xlen) && srtp_protect_extension_header ids xid) p p' (pos + h) xlen (spos + h) /\
      skips p' (pos + h + xlen) e pos'
    else exists st c', extension_loop (S fuel) h ids c ks p pos e = Some (st, c', p) /\ keyed_cipher k c' /\
      (st = srtp_err_status_ok <-> pos + h + xlen <= e /\ h = 1 /\ xid = 15).
Proof.
  intros Hat Hks HFk HF H0 Hz Hpos.
  destruct (element_header_spec p pos) as (xid & xlen & E & Hx & H2); [done..|].
  exists xid, xlen. split; [done|]. split; [done|]. split; [done|]. cbn [extension_loop].
  rewrite (proj2 (Z.ltb_lt _ _)) by lia. rewrite E. cbn [mbind option_bind].
  destruct (e <? pos + h + xlen) eqn:Ee; bool_to_prop.
  { rewrite decide_False by lia. eexists _, _. split; [done|]. split; [by eapply cipher_at_keyed|]. split; [done|lia]. }
  destruct ((h =? 1) && (xid =? 15)) eqn:E15; bool_to_prop.
  { rewrite decide_False by lia. eexists _, _. split; [done|]. split; [by eapply cipher_at_keyed|]. done. }
  assert (~ (h = 1 /\ xid = 15)) as Hn15.
  { intros [-> ->]. done. }
  destruct (cipher_output_at ks_addr k iv spos c ks (h + xlen)) as (st & c' & ks' & -> & Hks' & HFk' & _ & HR);
    [done|done|done|lia|lia|]. cbn [mbind option_bind].
  destruct (room k iv spos (h + xlen)).
  - destruct HR as (-> & Hat' & Eks). change (is_err srtp_err_status_ok) with false. cbv iota.
    rewrite decide_True by done.
    destruct (crypt_element_spec ((0 <? xlen) && srtp_protect_extension_header ids xid) p ks' (pos + h) xlen
      spos (drop (Z.to_nat (h + xlen)) ks)) as (p' & q & -> & HF' & Hxo & Hq); [done|lia|done|lia|lia|lia|lia|done|].
    cbn [mbind option_bind]. exists c', ks', p', q. split; [done|]. split_and!; try done. lia.
  - destruct HR as (-> & -> & _). rewrite decide_False by naive_solver. eexists _, _. split; [done|].
    split; [by eapply cipher_at_keyed|]. split; [done|]. tauto.
Qed.

(** The walk ends within the extension and leaves everything in front of the
    first data and behind the extension alone. *)
Lemma extension_loop_safe fuel c ks p pos spos :
  cipher_at k iv spos c -> zlen ks = 257 -> Forall is_u8 ks -> Forall is_u8 p -> 0 <= pos -> e <= zlen p ->
  Z.max 0 (e - pos) < Z.of_nat fuel ->
  exists st c' p', extension_loop fuel h ids c ks p pos e = Some (st, c', p') /\ keyed_cipher k c' /\
    zlen p' = zlen p /\ Forall is_u8 p' /\
    forall j, 0 <= j < zlen p -> j < pos + h \/ e <= j -> znth p' j = znth p j.
Proof.
  revert c ks p pos spos. induction fuel as [|fuel IH]; intros c ks p pos spos Hat Hks HFk HF H0 Hz Hf; [lia|].
  destruct (decide (pos + (h - 1) < e)) as [Hpos|Hpos].
  - destruct (extension_turn fuel c ks p pos spos) as (xid & xlen & _ & Hx & H2 & HT); [done..|].
    case_decide as Hgo.
    + destruct HT as (c' & ks' & p' & pos' & -> & Hat' & Hks' & HFk' & HF' & [Hzp Hxo] & (Hs & _)).
      destruct (IH c' ks' p' pos' (spos + (h + xlen))) as (st & c1 & p1 & -> & Hk1 & Hz1 & HF1 & A);
        [done|done|done|done|lia|lia|lia|].
      exists st, c1, p1. split; [done|]. split_and!; [done|lia|done|]. intros j Hj Hjj.
      rewrite A, Hxo by lia. by rewrite decide_False by lia.
    + destruct HT as (st & c' & -> & Hk & _). exists st, c', p. done.
  - cbn [extension_loop]. rewrite (proj2 (Z.ltb_ge _ _)) by lia. eexists _, _, _. split; [done|].
    split; [by eapply cipher_at_keyed|]. done.
Qed.

(** Walking with the same key stream over a packet [q] that agrees with the
    result inside the extension restores the original there. *)
Lemma extension_loop_invol fuel c ks p pos spos c1 p1 c2 ks2 q :
  cipher_at k iv spos c -> zlen ks = 257 -> Forall is_u8 ks -> Forall is_u8 p -> 0 <= pos -> e <= zlen p ->
  Z.max 0 (e - pos) < Z.of_nat fuel ->
  extension_loop fuel h ids c ks p pos e = Some (srtp_err_status_ok, c1, p1) ->
  cipher_at k iv spos c2 -> zlen ks2 = 257 -> Forall is_u8 ks2 -> Forall is_u8 q -> e <= zlen q ->
  (forall j, pos <= j < e -> znth q j = znth p1 j) ->
  exists c3 q1, extension_loop fuel h ids c2 ks2 q pos e = Some (srtp_err_status_ok, c3, q1) /\
    keyed_cipher k c3 /\ zlen q1 = zlen q /\ Forall is_u8 q1 /\
    (forall j, 0 <= j < zlen q -> j < pos \/ e <= j -> znth q1 j = znth q j) /\
    (forall j, pos <= j < e -> znth q1 j = znth p j).
Proof.
  revert c ks p pos spos c2 ks2 q. induction fuel as [|fuel IH];
    intros c ks p pos spos c2 ks2 q Hat Hks HFk HF H0 Hz Hf E Hat2 Hks2 HFk2 HFq Hzq Hq; [lia|].
  destruct (extension_loop_safe (S fuel) c ks p pos spos) as (st0 & c1' & p1' & E' & _ & Hz1 & HF1 & A); [done..|].
  assert (p1' = p1) as -> by congruence. clear c1' E'.
  destruct (extension_loop_safe (S fuel) c2 ks2 q pos spos)
    as (stq & c3 & q1 & Eq & Hk3 & Hzq1 & HFq1 & Aq); [done|done|done|done|lia|lia|done|].
  destruct (decide (pos + (h - 1) < e)) as [Hpos|Hpos].
  - destruct (extension_turn fuel c ks p pos spos) as (xid & xlen & Eh & Hx & H2 & HT); [done..|].
    destruct (extension_turn fuel c2 ks2 q pos spos) as (xid' & xlen' & Eh' & _ & _ & HT'); [done|done|done|done|lia|lia|done|].
    rewrite (element_header_same p q pos), Eh in Eh'; [simplify_eq|done|done|done|done|].
    2:{ intros j Hj. rewrite Hq by lia. apply A; lia. }
    case_decide as Hgo.
    + destruct HT as (c' & ks' & p' & pos' & EL & Hat' & Hks' & HFk' & HF' & [Hzp Hxo] & Hs).
      destruct HT' as (c2' & ks2' & q' & posq & EL' & Hat2' & Hks2' & HFk2' & HFq' & [Hzq' Hxo'] & Hs').
      rewrite EL in E. rewrite EL' in Eq |- *. pose proof (proj1 Hs) as Hb.
      destruct (extension_loop_safe fuel c' ks' p' pos' (spos + (h + xlen')))
        as (st' & c1' & p1' & E1 & _ & Hz1' & _ & A'); [done|done|done|done|lia|lia|lia|].
      assert (p1' = p1) as -> by congruence. clear E1.
      (* the data of the element decrypts, the padding behind it is the same *)
      assert (forall j, pos <= j < pos' -> znth q' j = znth p j) as Hd.
      { intros j Hj. rewrite Hxo', Hq, A', Hxo by lia.
        match goal with |- context [decide ?P] => destruct (decide P) end; [|done].
        by rewrite Z.lxor_assoc, Z.lxor_nilpotent, Z.lxor_0_r. }
      assert (forall j, pos + h + xlen' <= j < e -> znth q' j = znth p1 j) as Hrest.
      { intros j Hj. rewrite Hxo', Hq by lia. by rewrite decide_False by lia. }
      assert (posq = pos') as ->.
      { eapply skips_unique; [exact Hs'|]. apply (skips_within p'); [|exact Hs]. intros j Hj.
        rewrite Hrest by lia. apply A'; lia. }
      destruct (IH c' ks' p' pos' (spos + (h + xlen')) c2' ks2' q')
        as (c3' & q1' & E3 & _ & _ & _ & B1 & B2); try done; try lia.
      { intros j Hj. apply Hrest. lia. }
      rewrite E3 in Eq. simplify_eq. exists c3, q1. split; [done|]. split_and!; try done.
      * intros j Hj Hjj. apply Aq; lia.
      * intros j Hj. destruct (decide (j < pos')); [rewrite B1 by lia; apply Hd; lia|].
        rewrite B2, Hxo by lia. by rewrite decide_False by lia.
    + destruct HT as (st & c' & EL & _ & Hst). rewrite EL in E. simplify_eq.
      destruct HT' as (st' & c2' & EL' & Hk' & Hst'). exists c2', q. rewrite EL'.
      assert (st' = srtp_err_status_ok) as -> by tauto. split; [done|]. split_and!; try done.
  - cbn [extension_loop] in E |- *. rewrite (proj2 (Z.ltb_ge _ _)) in E |- * by lia. simplify_eq.
    eexists _, _. split; [done|]. split_and!; try done. by eapply cipher_at_keyed.
Qed.

End Walk.

(** ** The whole extension *)

(** The extension at [o] lies within the packet. *)
Definition xtn_inside (p : list Z) (o : Z) : Prop :=
  0 <= o /\ exists l, xtn_length p o = Some l /\ is_u16 l /\ o + 4 + 4 * l <= zlen p.

Lemma process_header_safe k iv ids c p o :
  cipher_at k iv 0 c -> is_block iv -> Forall is_u8 p -> xtn_inside p o ->
  exists st c' p', srtp_process_header_encryption ids c p o = Some (st, c', p') /\ keyed_cipher k c' /\
    zlen p' = zlen p /\ Forall is_u8 p' /\
    forall l j, xtn_length p o = Some l -> 0 <= j < zlen p -> j < o + 4 \/ o + 4 + 4 * l <= j ->
      znth p' j = znth p j.
Proof.
  intros Hat Hiv HF (Ho & l & El & Hl & He). unfold srtp_process_header_encryption, xtn_profile.
  unfold fits in Hl. rewrite El. cbn [mbind option_bind]. rewrite get16_Some by (done || lia).
  cbn [mbind option_bind]. unfold octets_in_rtp_extn_hdr.
  assert (forall h, h = 1 \/ h = 2 -> exists st c' p',
    extension_loop (S (Z.to_nat (l * 4))) h ids c keystream0 p (o + 4) (o + 4 + l * 4) = Some (st, c', p') /\
    keyed_cipher k c' /\ zlen p' = zlen p /\ Forall is_u8 p' /\
    forall l' j, Some l = Some l' -> 0 <= j < zlen p -> j < o + 4 \/ o + 4 + 4 * l' <= j -> znth p' j = znth p j)
    as Hloop.
  { intros h Hh. destruct (extension_loop_safe k iv Hiv ids h (o + 4 + l * 4) Hh (S (Z.to_nat (l * 4)))
      c keystream0 p (o + 4) 0) as (st & c' & p' & E & Hk & Hz & HF' & A);
      [done|apply keystream0_len|apply keystream0_u8|done|lia|lia|lia|].
    exists st, c', p'. split_and!; try done. intros l' j [= <-] Hj Hjj. apply A; [done|]. lia. }
  case_match; [by apply Hloop; left|]. case_match; [by apply Hloop; right|].
  eexists _, _, _. split; [done|]. split; [by eapply cipher_at_keyed|]. done.
Qed.

(** Processing a packet [q] whose header, up to the end of the extension, is
    the result of processing [p] restores the header of [p]. *)
Lemma process_header_invol k iv ids c p o l c1 p1 c2 q :
  cipher_at k iv 0 c -> is_block iv -> Forall is_u8 p -> xtn_inside p o -> xtn_length p o = Some l ->
  srtp_process_header_encryption ids c p o = Some (srtp_err_status_ok, c1, p1) ->
  cipher_at k iv 0 c2 -> Forall is_u8 q -> o + 4 + 4 * l <= zlen q ->
  (forall j, 0 <= j < o + 4 + 4 * l -> znth q j = znth p1 j) ->
  exists c3 q1, srtp_process_header_encryption ids c2 q o = Some (srtp_err_status_ok, c3, q1) /\ keyed_cipher k c3 /\
    zlen q1 = zlen q /\ Forall is_u8 q1 /\ (forall j, 0 <= j < o + 4 + 4 * l -> znth q1 j = znth p j) /\
    (forall j, o + 4 + 4 * l <= j < zlen q -> znth q1 j = znth q j).
Proof.
  intros Hat Hiv HF Hin El E Hat2 HFq Hzq Hq.
  destruct (process_header_safe k iv ids c p o) as (st & c1' & p1' & E' & _ & Hz & HF1 & A); [done..|].
  assert (p1' = p1) as -> by congruence. clear E'. specialize (A l).
  destruct Hin as (Ho & l' & El' & Hl & He). rewrite El in El'. simplify_eq. unfold fits in Hl.
  unfold srtp_process_header_encryption, xtn_profile, xtn_length in *.
  assert (forall d, 0 <= d <= 2 -> get16 q (o + d) = get16 p (o + d)) as Hg.
  { intros d Hd. rewrite !get16_Some by (done || lia). by rewrite !Hq, !A by (done || lia). }
  rewrite (Hg 2) by lia. replace (get16 q o) with (get16 p o) by (rewrite <- (Z.add_0_r o) at 1 2; symmetry; apply Hg; lia).
  destruct (get16 p (o + 2)) as [v|]; [|done]. cbn [mbind option_bind] in *. injection El as El. rewrite El in *.
  destruct (get16 p o) as [w|]; [|done]. cbn [mbind option_bind] in *. unfold octets_in_rtp_extn_hdr in *.
  assert (forall h, h = 1 \/ h = 2 ->
    extension_loop (S (Z.to_nat (l' * 4))) h ids c keystream0 p (o + 4) (o + 4 + l' * 4) = Some (srtp_err_status_ok, c1, p1) ->
    exists c3 q1, extension_loop (S (Z.to_nat (l' * 4))) h ids c2 keystream0 q (o + 4) (o + 4 + l' * 4)
      = Some (srtp_err_status_ok, c3, q1) /\ keyed_cipher k c3 /\
      zlen q1 = zlen q /\ Forall is_u8 q1 /\ (forall j, 0 <= j < o + 4 + 4 * l' -> znth q1 j = znth p j) /\
      (forall j, o + 4 + 4 * l' <= j < zlen q -> znth q1 j = znth q j)) as Hloop.
  { intros h Hh E1. destruct (extension_loop_invol k iv Hiv ids h (o + 4 + l' * 4) Hh (S (Z.to_nat (l' * 4)))
      c keystream0 p (o + 4) 0 c1 p1 c2 keystream0 q) as (c3 & q1 & E3 & Hk3 & Hz3 & HF3 & B1 & B2);
      try done; try lia; try apply keystream0_len; try apply keystream0_u8.
    { intros j Hj. apply Hq. lia. }
    exists c3, q1. rewrite E3. split_and!; try done.
    - intros j Hj. destruct (decide (j < o + 4)); [|apply B2; lia].
      rewrite B1, Hq by lia. apply A; [done|lia|lia].
    - intros j Hj. apply B1; lia. }
  case_match; [by apply Hloop; [left|]|]. case_match; [by apply Hloop; [right|]|]. done.
Qed.

End Xtn.
