(* ===== verification/SrtpProcess.v ===== *)
(** The steps of packet processing that touch the packet: encryption, tags and
    packet indices, and the invariant of sessions. *)

From S2P Require Import Prelude Err Prog SrtpTypes Replay Rdb Rdbx Key SrtpPolicy ByteOrder.
From S2P Require Import Sha1 Hmac Aes AesKeys AesIcm Cipher SrtpStream SrtpPacket SrtpRun SrtpXtn.

(** [s] written over the octets from [i]. *)
Definition over (p : list Z) (i : Z) (s : list Z) : list Z :=
  take (Z.to_nat i) p ++ s ++ drop (Z.to_nat (i + zlen s)) p.

Lemma zlen_over p i s : 0 <= i -> i + zlen s <= zlen p -> zlen (over p i s) = zlen p.
Proof.
  intros. unfold over. pose proof (zlen_nonneg s). rewrite !zlen_app, zlen_take, zlen_drop by lia. lia.
Qed.

Lemma over_u8 p i s : Forall is_u8 p -> Forall is_u8 s -> Forall is_u8 (over p i s).
Proof. intros. unfold over. rewrite !Forall_app. split_and!; [by apply Forall_take|done|by apply Forall_drop]. Qed.

Lemma znth_over p i s j :
  0 <= i -> i + zlen s <= zlen p -> 0 <= j < zlen p ->
  znth (over p i s) j = if decide (i <= j < i + zlen s) then znth s (j - i) else znth p j.
Proof.
  intros Hi Hz Hj. pose proof (zlen_nonneg s). unfold over.
  rewrite znth_app, zlen_take, Z.min_l by lia. repeat case_decide; try lia; [by rewrite znth_take by lia|..].
  - rewrite znth_app by lia. by rewrite decide_True by lia.
  - rewrite znth_app by lia. rewrite decide_False, znth_drop by lia. f_equal. lia.
Qed.

Lemma over_nil p i : 0 <= i -> over p i [] = p.
Proof. intros. unfold over. change (zlen []) with 0. rewrite Z.add_0_r. simpl. apply take_drop. Qed.

Lemma over_tail p i n s :
  0 <= i -> 0 <= n -> zlen s = n -> take (Z.to_nat i) p ++ s ++ drop (Z.to_nat n) (drop (Z.to_nat i) p) = over p i s.
Proof. intros Hi Hn <-. unfold over. rewrite drop_drop. do 3 f_equal. lia. Qed.

Section Process.
Context `{BC : BlockCipher} `{LV : Locals}.

(** The tag of a message under the key material and the IV. *)
Definition packet_tag (m : keymat) (iv msg : list Z) : list Z :=
  tag_of (km_auth m) (km_tag m) msg (crypt (km_rtp m) iv 0 (replicate (Z.to_nat (km_tag m)) 0)).

(** The key stream that goes into the tag before the payload is encrypted. *)
Definition prefix_of (m : keymat) : Z := prefix_length (km_auth m) (km_tag m).

Lemma zlen_packet_tag m o iv msg : objs_ok m o -> 0 <= km_tag m -> zlen (packet_tag m iv msg) = km_tag m.
Proof.
  intros Hok H0. apply (zlen_tag_of _ _ (rtp_auth o)); [apply Hok|done|].
  rewrite zlen_crypt, zlen_replicate. lia.
Qed.

Section Steps.
Context (c0 : srtp_ctx_t) (r : sref) (i : nat) (n : Z).
Context (Hr : is_Some (stream_at c0 r)) (Hi : is_Some (key_store c0 !! i)).
#[local] Abbreviation focus := (focus c0 r i n).

Ltac run :=
  repeat first
    [ progress autorewrite with prog
    | rewrite (bind_ok _ _ _ _ _ (get_strm_focus c0 r i n Hr _ _ _ _))
    | rewrite (bind_ok _ _ _ _ _ (get_objs_focus c0 r i n Hi _ _ _ _))
    | rewrite (bind_ok _ _ _ _ _ (put_strm_focus c0 r i n _ _ _ _ _))
    | rewrite (bind_ok _ _ _ _ _ (put_objs_focus c0 r i n _ _ _ _ _))
    | rewrite (bind_ok _ _ _ _ _ (put_pkt_focus c0 r i n _ _ _ _ _)) ].

(** Encrypting [len] octets from [start]. *)
Lemma crypt_payload_focus m iv pos addr start len x o p evs :
  objs_ok m o -> is_block iv -> cipher_at (km_rtp m) iv pos (rtp_cipher o) -> Forall is_u8 p -> 0 <= start -> 0 <= len -> start + len <= zlen p -> len < 2 ^ 31 ->
  exists o' res, crypt_payload addr i start len (focus x o p evs) =
      Some (focus x o' (if room (km_rtp m) iv pos len
                        then over p start (crypt (km_rtp m) iv pos (take (Z.to_nat len) (drop (Z.to_nat start) p)))
                        else p) evs, res) /\
    objs_ok m o' /\ limit o' = limit o /\
    res = (if room (km_rtp m) iv pos len then inr tt else inl srtp_err_status_cipher_fail).
Proof.
  intros Hok Hiv Hat HF Hs Hl Hz Hl31. unfold crypt_payload. run.
  destruct (cipher_encrypt_at (addr + start) (km_rtp m) iv pos (rtp_cipher o) (drop (Z.to_nat start) p) len)
    as (st & c & buf & E & Hid & HR);
    [done|done|by apply Forall_drop|rewrite zlen_drop by lia; lia|done|].
  cbn [pkt SrtpRun.focus]. rewrite E. run. cbv beta iota. run. destruct (room (km_rtp m) iv pos len).
  - destruct HR as (-> & Hat' & ->). change (is_err srtp_err_status_ok) with false.
    eexists _, _. split; [|split; [by apply objs_ok_rtp; [|by eapply cipher_at_keyed|]|by split]].
    unfold preturn_if, pret. do 3 f_equal. unfold over.
    rewrite zlen_crypt, zlen_take, zlen_drop by lia. rewrite drop_drop. do 3 f_equal. lia.
  - destruct HR as (-> & -> & ->). change (is_err srtp_err_status_terminus) with true.
    eexists _, _. split; [|split; [by apply objs_ok_rtp; [|by eapply cipher_at_keyed|]|by split]].
    unfold preturn_if, preturn. by rewrite take_drop.
Qed.

(** The prefix goes where the tag will be. *)
Lemma put_prefix_focus m iv addr tag x o p evs :
  objs_iv m iv 0 o -> Forall is_u8 p -> 0 <= tag -> 0 <= km_tag m -> tag + km_tag m <= zlen p -> km_tag m < 2 ^ 31 ->
  exists o' p' res, put_prefix addr i tag (focus x o p evs) = Some (focus x o' p' evs, res) /\
    objs_ok m o' /\ limit o' = limit o /\ Forall is_u8 p' /\ zlen p' = zlen p /\
    (forall j, 0 <= j < zlen p -> j < tag \/ tag + km_tag m <= j -> znth p' j = znth p j) /\
    if room (km_rtp m) iv 0 (prefix_of m)
    then res = inr tt /\ objs_iv m iv (prefix_of m) o' /\
         p' = over p tag (crypt (km_rtp m) iv 0 (replicate (Z.to_nat (prefix_of m)) 0))
    else res = inl srtp_err_status_cipher_fail.
Proof.
  intros Hoi HF Ht Htag Hz Ht31. pose proof Hoi as [Hok Hiv Hat Hx]. unfold put_prefix. run.
  destruct (keyed_auth_lengths _ _ _ (oo_auth _ _ Hok)) as [_ ->]. fold (prefix_of m).
  assert (0 <= prefix_of m <= km_tag m) as Hp by (unfold prefix_of, prefix_length; destruct (km_auth m); lia).
  destruct (prefix_of m =? 0) eqn:E0; bool_to_prop.
  { rewrite E0. eexists o, p, _. split; [done|]. split; [done|]. split; [done|]. split; [done|]. split; [done|].
    split; [done|]. replace (room (km_rtp m) iv 0 0) with true.
    - split; [done|]. split; [done|]. simpl. replace (crypt (km_rtp m) iv 0 []) with (@nil Z) by (by destruct (km_rtp m)).
      by rewrite over_nil.
    - unfold room. destruct (km_rtp m); [|done]. symmetry. apply Z.leb_le. lia. }
  run. destruct (cipher_output_at (addr + tag) (km_rtp m) iv 0 (rtp_cipher o) (drop (Z.to_nat tag) p) (prefix_of m))
    as (st & c & buf & E & Hzb & HFb & Hid & HR);
    [done|done|by apply Forall_drop|rewrite zlen_drop by lia; lia|lia|].
  cbn [pkt SrtpRun.focus]. rewrite E. run. cbv beta iota. run.
  set (z := replicate (Z.to_nat (prefix_of m)) 0) in *.
  assert (zlen z = prefix_of m) as Lz by (unfold z; rewrite zlen_replicate; lia).
  set (pre := if room (km_rtp m) iv 0 (prefix_of m) then crypt (km_rtp m) iv 0 z else z).
  assert (zlen pre = prefix_of m) as Lp by (unfold pre; destruct (room _ _ _ _); rewrite ?zlen_crypt; done).
  assert (Forall is_u8 z) as Fz by (by apply Forall_replicate).
  assert (Forall is_u8 pre) as Fp.
  { unfold pre. destruct (room _ _ _ _); [|done]. by eapply cipher_at_u8. }
  assert (buf = pre ++ drop (Z.to_nat (prefix_of m)) (drop (Z.to_nat tag) p)) as Eb.
  { unfold pre. destruct (room _ _ _ _); apply HR. }
  assert (keyed_cipher (km_rtp m) c) as Hk.
  { destruct (room (km_rtp m) iv 0 (prefix_of m)); destruct HR as (_ & HR & _);
      [|subst c]; by eapply cipher_at_keyed. }
  assert (objs_ok m (with_rtp_cipher o c)) as Hok' by (by apply objs_ok_rtp).
  exists (with_rtp_cipher o c), (over p tag pre),
    (if room (km_rtp m) iv 0 (prefix_of m) then inr tt else inl srtp_err_status_cipher_fail).
  rewrite Eb, over_tail by lia.
  split; [destruct (room _ _ _ _); by destruct HR as (-> & _)|].
  split; [done|]. split; [done|]. split; [by apply over_u8|]. split; [apply zlen_over; lia|]. split.
  { intros j Hj Hjj. rewrite znth_over by lia. by rewrite decide_False by lia. }
  unfold pre in *. destruct (room (km_rtp m) iv 0 (prefix_of m)); [|done].
  destruct HR as (-> & Hat' & _). split; [done|]. split; [|done]. by split.
Qed.

(** The tag over the first [len] octets. *)
Lemma put_tag_focus m len tag est x o p evs :
  objs_ok m o -> Forall is_u8 p -> 0 <= len <= zlen p -> len < 2 ^ 28 -> 0 <= tag -> 0 <= km_tag m ->
  tag + km_tag m <= zlen p ->
  exists o', put_tag i len tag est (focus x o p evs) =
      Some (focus x o' (over p tag (tag_of (km_auth m) (km_tag m) (take (Z.to_nat len) p ++ roc_octets est)
              (take (Z.to_nat (km_tag m)) (drop (Z.to_nat tag) p)))) evs, inr tt) /\
    objs_ok m o' /\ limit o' = limit o.
Proof.
  intros Hok HF Hl Hl28 Ht Htag Hz. unfold put_tag. run. cbn [pkt SrtpRun.focus].
  assert (zlen (take (Z.to_nat len) p) = len) as Hzl by (rewrite zlen_take by lia; lia).
  destruct (auth_run (km_auth m) (km_tag m) (rtp_auth o) (take (Z.to_nat len) p) (roc_octets est)
    (drop (Z.to_nat tag) p)) as (a1 & a2 & a3 & -> & E2 & E3 & Hk);
    [apply Hok|by apply Forall_take|lia|apply roc_octets_u8|rewrite zlen_roc_octets; lia|
     rewrite zlen_drop by lia; lia|].
  rewrite Hzl in E2. rewrite zlen_roc_octets in E3. run.
  rewrite slice_Some by lia. change (Z.to_nat 0) with 0%nat. rewrite drop_0. run. rewrite E2. run. cbv beta iota. run.
  rewrite E3. run. cbv beta iota. run. unfold preturn_if, pret.
  eexists. rewrite over_tail; [split; [done|]|lia|lia|].
  - split; [|done]. by apply objs_ok_auth.
  - apply (zlen_tag_of _ _ (rtp_auth o)); [apply Hok|done|]. rewrite zlen_take, zlen_drop by lia. lia.
Qed.

Lemma room_0 k iv : room k iv 0 0 = true.
Proof. unfold room. destruct k; [|done]. apply Z.leb_le. lia. Qed.

Lemma tag_prefix_focus m iv x o p evs :
  objs_iv m iv 0 o -> 0 <= km_tag m <= 16 ->
  exists o' tmp res, tag_prefix i (focus x o p evs) = Some (focus x o' p evs, res) /\
    objs_ok m o' /\ limit o' = limit o /\
    if room (km_rtp m) iv 0 (prefix_of m)
    then res = inr tmp /\ objs_iv m iv (prefix_of m) o' /\ zlen tmp = 16 /\ Forall is_u8 tmp /\
      (km_auth m = None ->
       take (Z.to_nat (km_tag m)) tmp = crypt (km_rtp m) iv 0 (replicate (Z.to_nat (km_tag m)) 0))
    else res = inl srtp_err_status_cipher_fail.
Proof.
  intros Hoi Htag. pose proof Hoi as [Hok Hiv Hat Hx]. unfold tag_prefix. run.
  destruct (keyed_auth_lengths _ _ _ (oo_auth _ _ Hok)) as [_ ->]. fold (prefix_of m).
  set (z := replicate (Z.to_nat (km_tag m)) 0).
  assert (km_auth m = None -> prefix_of m = km_tag m) as Hpn by (unfold prefix_of; by intros ->).
  assert (0 <= prefix_of m <= 16) as Hp by (unfold prefix_of, prefix_length; destruct (km_auth m); lia).
  destruct (prefix_of m =? 0) eqn:E0; bool_to_prop.
  - rewrite E0, room_0. exists o, tmp_tag0, (inr tmp_tag0). split_and!; try done;
      [apply tmp_tag0_len|apply tmp_tag0_u8|].
    intros Ha%Hpn. assert (km_tag m = 0) as Ht0 by lia. unfold z. rewrite Ht0. by destruct (km_rtp m).
  - destruct (cipher_output_at tag_addr (km_rtp m) iv 0 (rtp_cipher o) tmp_tag0 (prefix_of m))
      as (st & c & buf & E & Hzb & HFb & Hid & HR);
      [done|done|apply tmp_tag0_u8|rewrite tmp_tag0_len; lia|lia|].
    rewrite E. run. cbv beta iota. run.
    assert (keyed_cipher (km_rtp m) c) as Hk.
    { destruct (room _ _ _ _); destruct HR as (_ & HR & _); [|subst c]; by eapply cipher_at_keyed. }
    assert (objs_ok m (with_rtp_cipher o c)) as Hok' by (by apply objs_ok_rtp).
    destruct (room (km_rtp m) iv 0 (prefix_of m)); destruct HR as (-> & HR & Eb); run.
    + eexists _, buf, _. split; [done|]. split_and!; try done; [by rewrite Hzb, tmp_tag0_len|].
      intros Ha%Hpn. subst buf. rewrite Ha. fold z. apply take_app_length'.
      pose proof (zlen_crypt (km_rtp m) iv 0 z) as Hzc. unfold zlen in Hzc.
      unfold z in *. rewrite length_replicate in Hzc. lia.
    + eexists _, tmp_tag0, _. split; [done|]. done.
Qed.

(** Verification compares with the octets at [tag]. *)
Lemma verify_tag_focus m iv len tag est x o p evs :
  objs_iv m iv 0 o -> Forall is_u8 p -> 0 <= len <= zlen p -> len < 2 ^ 28 -> 0 <= tag -> 0 <= km_tag m <= 16 ->
  tag + km_tag m <= zlen p ->
  exists o' res, verify_tag i len tag (km_tag m) est (focus x o p evs) = Some (focus x o' p evs, res) /\
    objs_ok m o' /\ limit o' = limit o /\
    if room (km_rtp m) iv 0 (prefix_of m)
    then objs_iv m iv (prefix_of m) o' /\
      res = (if decide (take (Z.to_nat (km_tag m)) (drop (Z.to_nat tag) p) =
                        packet_tag m iv (take (Z.to_nat len) p ++ roc_octets est))
             then inr tt else inl srtp_err_status_auth_fail)
    else res = inl srtp_err_status_cipher_fail.
Proof.
  intros Hoi HF Hl Hl28 Ht Htag Hz. unfold verify_tag.
  destruct (tag_prefix_focus m iv x o p evs Hoi Htag) as (o1 & tmp & res & E1 & Hok1 & Hl1 & HR).
  destruct (room (km_rtp m) iv 0 (prefix_of m)).
  2:{ subst res. eexists _, _. split; [unfold pbind at 1; by rewrite E1|]. done. }
  destruct HR as (-> & Hoi1 & Lt & Ft & Hpre). rewrite (bind_ok _ _ _ _ _ E1). run. cbn [pkt SrtpRun.focus].
  assert (zlen (take (Z.to_nat len) p) = len) as Hzl by (rewrite zlen_take by lia; lia).
  destruct (auth_run (km_auth m) (km_tag m) (rtp_auth o1) (take (Z.to_nat len) p) (roc_octets est) tmp)
    as (a1 & a2 & a3 & -> & E2 & E3 & Hk);
    [apply Hok1|by apply Forall_take|lia|apply roc_octets_u8|rewrite zlen_roc_octets; lia|lia|].
  rewrite Hzl in E2. rewrite zlen_roc_octets in E3. run.
  rewrite slice_Some by lia. change (Z.to_nat 0) with 0%nat. rewrite drop_0. run. rewrite E2. run. cbv beta iota. run.
  rewrite E3. run. cbv beta iota. run. rewrite slice_Some by lia. run.
  set (msg := take (Z.to_nat len) p ++ roc_octets est) in *.
  assert (tag_of (km_auth m) (km_tag m) msg (take (Z.to_nat (km_tag m)) tmp) = packet_tag m iv msg) as ->.
  { unfold packet_tag, tag_of. destruct (km_auth m); [done|]. by apply Hpre. }
  pose proof (zlen_packet_tag m o1 iv msg Hok1 ltac:(lia)) as Lpt.
  assert (Forall is_u8 (packet_tag m iv msg)) as Fpt.
  { apply tag_of_u8. eapply cipher_at_u8; [apply Hoi1|apply Hoi1|]. by apply Forall_replicate. }
  rewrite octet_string_is_eq_spec; first last.
  { rewrite zlen_take, zlen_drop by lia. lia. }
  { rewrite zlen_app, zlen_drop, Lpt by lia. lia. }
  { by apply Forall_take, Forall_drop. }
  { apply Forall_app. split; [done|by apply Forall_drop]. }
  run. rewrite take_app_length', take_take, Nat.min_id by (unfold zlen in Lpt; lia).
  exists (with_rtp_auth o1 a3).
  exists (if decide (take (Z.to_nat (km_tag m)) (drop (Z.to_nat tag) p) = packet_tag m iv msg)
          then inr tt else inl srtp_err_status_auth_fail).
  split; [by repeat case_decide; try congruence|]. split; [by apply objs_ok_auth|]. split; [done|].
  split; [|done]. destruct Hoi1 as [_ Hb Hc Hxx]. split; [by apply objs_ok_auth|done|done|done].
Qed.

(** The header extension. *)
Lemma crypt_extension_focus m iv pos ids xo x o p evs :
  objs_iv m iv pos o -> Forall is_u8 p -> (forall a, xo = Some a -> xtn_inside p a) ->
  exists o' p' res, crypt_extension i ids xo (focus x o p evs) = Some (focus x o' p' evs, res) /\
    objs_ok m o' /\ limit o' = limit o /\ rtp_cipher o' = rtp_cipher o /\ zlen p' = zlen p /\ Forall is_u8 p' /\
    (forall l a j, xo = Some a -> xtn_length p a = Some l -> 0 <= j < zlen p -> j < a + 4 \/ a + 4 + 4 * l <= j ->
      znth p' j = znth p j) /\ (xo = None -> p' = p) /\ (xo = None \/ km_xtn m = None -> res = inr tt /\ p' = p).
Proof.
  intros Hoi HF Hin. pose proof Hoi as [Hok Hiv Hat Hx]. unfold crypt_extension. run.
  destruct xo as [a|].
  2:{ exists o, p, (inr tt). split_and!; done. }
  destruct (rtp_xtn_hdr_cipher o) as [xc|] eqn:Ex, (km_xtn m) as [k|] eqn:Ek; try done.
  2:{ exists o, p, (inr tt). split_and!; done. }
  run. cbn [pkt SrtpRun.focus].
  destruct (process_header_safe k iv ids xc p a) as (st & xc' & p' & E & Hk & Hz & HF' & A); [done|done|done|by apply Hin|].
  rewrite E. run. cbv beta iota. run.
  exists (with_xtn_cipher o xc'), p', (if is_err st then inl st else inr tt).
  split; [unfold pcheck, preturn_if; by destruct (is_err st)|].
  split; [by eapply objs_ok_xtn|]. split_and!; try done; [|by intros [|]].
  intros l a' j [= <-]. apply A.
Qed.

(** The first [start] octets of [p'] are those of [p] with the extension at
    [xo] encrypted. *)
Definition ext_crypted (m : keymat) (iv ids : list Z) (xo : option Z) (start : Z) (p p' : list Z) : Prop :=
  match xo, km_xtn m with
  | Some a, Some k => exists c c' q q' l, cipher_at k iv 0 c /\
      srtp_process_header_encryption ids c q a = Some (srtp_err_status_ok, c', q') /\
      Forall is_u8 q /\ xtn_inside q a /\ xtn_length q a = Some l /\ a + 4 + 4 * l = start /\
      (forall j, 0 <= j < start -> znth q j = znth p j) /\ (forall j, 0 <= j < start -> znth q' j = znth p' j)
  | _, _ => forall j, 0 <= j < start -> znth p' j = znth p j
  end.

Lemma ext_crypted_agree m iv ids xo start p p' q q' :
  (forall j, 0 <= j < start -> znth q j = znth p j) -> (forall j, 0 <= j < start -> znth q' j = znth p' j) ->
  ext_crypted m iv ids xo start p p' -> ext_crypted m iv ids xo start q q'.
Proof.
  intros Hq Hq'. unfold ext_crypted. destruct xo as [a|], (km_xtn m) as [k|];
    try (intros HE j Hj; rewrite Hq', HE, Hq by done; done).
  intros (c & c' & u & u' & l & Hc & E & HF & Hin & Hl & He & Hu & Hu').
  exists c, c', u, u', l. split_and!; try done; intros j Hj; [rewrite Hq by done|rewrite Hq' by done]; auto.
Qed.

(** An extension that ends where the payload starts. *)
Definition xtn_fits (p : list Z) (xo : option Z) (start : Z) : Prop :=
  forall a, xo = Some a -> xtn_inside p a /\ xtn_length p a = Some ((start - a - 4) / 4) /\
    a + 4 + 4 * ((start - a - 4) / 4) = start.

Lemma crypt_extension_crypted m iv pos ids xo start x o p evs s' :
  objs_iv m iv pos o -> Forall is_u8 p -> xtn_fits p xo start ->
  crypt_extension i ids xo (focus x o p evs) = Some (s', inr tt) -> ext_crypted m iv ids xo start p (pkt s').
Proof.
  intros [Hok Hiv Hat Hx] HF Hin. unfold crypt_extension, ext_crypted. run.
  destruct xo as [a|]; [|by intros [= <-]].
  destruct (rtp_xtn_hdr_cipher o) as [xc|] eqn:Ex, (km_xtn m) as [k|] eqn:Ek; try done; [|by intros [= <-]].
  run. cbn [pkt SrtpRun.focus].
  destruct (srtp_process_header_encryption ids xc p a) as [[[st xc'] p']|] eqn:E; [|done].
  run. cbv beta iota. run. unfold pcheck, preturn_if. intros Hs.
  destruct (is_err st) eqn:Est; [done|]. unfold pret in Hs. simplify_eq. unfold is_err in Est.
  apply bool_decide_eq_false in Est. apply dec_stable in Est as ->.
  destruct (Hin a eq_refl) as (Hi1 & Hi2 & Hi3). eexists xc, xc', p, p', _. split_and!; done.
Qed.

Lemma crypt_extension_restores m iv pos ids xo start x o p p' q evs :
  ext_crypted m iv ids xo start p p' -> objs_iv m iv pos o -> Forall is_u8 q -> start <= zlen q ->
  (forall j, 0 <= j < start -> znth q j = znth p' j) ->
  exists o' q', crypt_extension i ids xo (focus x o q evs) = Some (focus x o' q' evs, inr tt) /\
    objs_ok m o' /\ limit o' = limit o /\ rtp_cipher o' = rtp_cipher o /\ zlen q' = zlen q /\ Forall is_u8 q' /\
    (forall j, 0 <= j < start -> znth q' j = znth p j) /\ (forall j, start <= j < zlen q -> znth q' j = znth q j).
Proof.
  intros Hc [Hok Hiv Hat Hx] HF Hz Hq. unfold crypt_extension, ext_crypted in *. run.
  assert (forall j, 0 <= j < start -> znth p' j = znth p j -> znth q j = znth p j) as Hsame
    by (intros; rewrite Hq by done; done).
  destruct xo as [a|]; [|exists o, q; split_and!; try done; auto].
  destruct (rtp_xtn_hdr_cipher o) as [xc|] eqn:Ex, (km_xtn m) as [k|] eqn:Ek; try done;
    [|exists o, q; split_and!; try done; auto].
  destruct Hc as (c & c' & u & u' & l & Hac & E & HFu & Hin & Hl & He & Hu & Hu'). run. cbn [pkt SrtpRun.focus].
  destruct (process_header_invol k iv ids c u a l c' u' xc q) as (c3 & q1 & -> & Hk3 & Hz1 & HF1 & B1 & B2);
    try done; try lia.
  { intros j Hj. rewrite Hq by lia. symmetry. apply Hu'. lia. }
  run. cbv beta iota. run. exists (with_xtn_cipher o c3), q1. split; [done|].
  split; [by eapply objs_ok_xtn|]. split_and!; try done.
  - intros j Hj. rewrite B1 by lia. by apply Hu.
  - intros j Hj. apply B2. lia.
Qed.

(** ** Packet indices *)

(** The stream with its index recorded. *)
Definition indexed (x x' : srtp_stream_ctx_t) : Prop :=
  rdbx_ok (rtp_rdbx x') /\ rdbx_width (rtp_rdbx x') = rdbx_width (rtp_rdbx x) /\
  (pending_roc x' = pending_roc x \/ pending_roc x' = 0) /\
  x' = with_pending_roc (with_rdbx x (rtp_rdbx x')) (pending_roc x').

Lemma add_packet_index_focus adv est delta x o p evs :
  rdbx_ok (rtp_rdbx x) -> fits 48 est -> (adv = false -> - rdbx_width (rtp_rdbx x) <= delta < 2 ^ 16) ->
  exists x', add_packet_index r adv est delta (focus x o p evs) = Some (focus x' o p evs, inr tt) /\ indexed x x' /\
    (adv = false -> exists rx, srtp_rdbx_add_index (rtp_rdbx x) delta = Some (rx, srtp_err_status_ok) /\
      x' = with_rdbx x rx).
Proof.
  intros Hok Hest Hd. unfold add_packet_index. run. destruct adv.
  - destruct (rdbx_set_roc_seq_total (rtp_rdbx x) (u32 (est >> 16)) (u16 (est & 0xffff)))
      as (rx & st & -> & Hok1 & Hw1); [done|by apply wrap_fits|by apply wrap_fits|]. run. cbv beta iota.
    pose proof (bitvector_ok_length _ (proj1 Hok1)) as Hlen.
    destruct (rdbx_add_total rx 0) as (rx' & -> & Hok2 & Hw2); [done|unfold rdbx_width; lia|]. run. cbv beta iota.
    rewrite put_strm_focus. eexists. split; [done|]. split; [|done]. simpl. split_and!; first [done | by right | simpl; congruence].
  - specialize (Hd eq_refl). destruct (rdbx_add_total (rtp_rdbx x) delta) as (rx & E & Hok1 & Hw1); [done|done|].
    rewrite E. run. cbv beta iota. rewrite put_strm_focus. eexists. split; [done|]. split; [|by eexists].
    simpl. split_and!; first [done | by left | by destruct x].
Qed.

End Steps.

Lemma hdr_seq_Some p : Forall is_u8 p -> 12 <= zlen p -> hdr_seq p = Some (wire16 p 2) /\ is_u16 (wire16 p 2).
Proof.
  intros HF Hz. unfold hdr_seq. destruct (ntohs_get16 p 2) as (v & -> & _ & Hv); [done|lia|lia|].
  simpl. rewrite Hv. split; [done|]. rewrite <- Hv. apply fits_bswap16.
Qed.

(** The index estimate. *)
Lemma est_pkt_index_spec p x :
  rdbx_ok (rtp_rdbx x) -> is_u32 (pending_roc x) -> Forall is_u8 p -> 12 <= zlen p ->
  exists st est delta, srtp_get_est_pkt_index p x = Some (st, est, delta) /\ fits 48 est /\
    (pending_roc x = 0 -> st = srtp_err_status_ok /\
       srtp_rdbx_estimate_index (rtp_rdbx x) (wire16 p 2) = (est, delta)) /\
    (st = srtp_err_status_ok /\ - 2 ^ 16 < delta < 2 ^ 16 \/ st = srtp_err_status_pkt_idx_adv \/
     st = srtp_err_status_pkt_idx_old).
Proof.
  intros [_ Hi] Hroc HF Hz. unfold srtp_get_est_pkt_index.
  destruct (hdr_seq_Some p HF Hz) as [-> Hs]. cbn [mbind option_bind].
  destruct (pending_roc x =? 0) eqn:E0; bool_to_prop; cbn [negb].
  - destruct (srtp_rdbx_estimate_index_bounds (rtp_rdbx x) (wire16 p 2) Hs Hi) as (est & delta & -> & He & Hd).
    eexists _, _, _. split; [done|]. split; [done|]. split; [done|]. by left.
  - unfold srtp_estimate_index. rewrite pack_index by done.
    set (est := pending_roc x * 2 ^ 16 + wire16 p 2).
    assert (fits 48 est) as He by (unfold est, fits in *; lia).
    unfold fits, seq_num_median in *.
    set (ix := index (rtp_rdbx x)) in *. clearbody ix est.
    repeat case_if; eexists _, _, _; (split; [done|]); (split; [done|]); (split; [done|]); auto; left; (split; [done|]).
    + rewrite (wrap_id 64) in * by (unfold fits; lia). rewrite swrap_id by lia. lia.
    + assert (u64 (est - ix) = est - ix + 2 ^ 64) as ->.
      { unfold wrap. rewrite <- (Z_mod_plus_full _ 1), Z.mod_small by lia. lia. }
      rewrite (wrap_id 64) in * by (unfold fits; lia). unfold swrap, wrap. lia.
    + assert (est = ix) as -> by lia. rewrite Z.sub_diag. done.
Qed.

End Process.
