(* ===== verification/SrtpSession.v ===== *)
(** The invariant of sessions, and the lookups that a packet starts with:
    where its header ends, its stream, its keys and its index. *)

From S2P Require Import Prelude Err Prog SrtpTypes Replay Rdb Rdbx Key SrtpPolicy ByteOrder.
From S2P Require Import Sha1 Hmac Aes AesKeys AesIcm Cipher SrtpStream SrtpPacket SrtpRun SrtpXtn SrtpProcess.

(** ** Headers *)

Lemma hdr_cc_Some p : Forall is_u8 p -> 1 <= zlen p -> hdr_cc p = Some (znth p 0 & 0xf) /\ 0 <= (znth p 0 & 0xf) <= 15.
Proof.
  intros HF Hz. unfold hdr_cc. rewrite aget_znth by lia. split; [done|].
  rewrite (Z.land_ones _ 4 ltac:(lia)). lia.
Qed.

Lemma hdr_x_Some p : 1 <= zlen p -> hdr_x p = Some ((znth p 0 >> 4) & 1).
Proof. intros Hz. unfold hdr_x. by rewrite aget_znth by lia. Qed.

Lemma xtn_length_Some p o :
  Forall is_u8 p -> 0 <= o -> o + 4 <= zlen p -> xtn_length p o = Some (wire16 p (o + 2)) /\ is_u16 (wire16 p (o + 2)).
Proof.
  intros HF Ho Hz. unfold xtn_length. destruct (ntohs_get16 p (o + 2)) as (v & -> & _ & Hv); [done|lia|lia|].
  simpl. rewrite Hv. split; [done|]. rewrite <- Hv. apply fits_bswap16.
Qed.

(** The checks of the header say that the encrypted portion starts within the
    packet. *)
Lemma validate_portion p len :
  Forall is_u8 p -> 0 <= len <= zlen p ->
  exists st, srtp_validate_rtp_header p len = Some st /\
    (st = srtp_err_status_ok \/ st = srtp_err_status_bad_param) /\
    (st = srtp_err_status_ok <-> exists start xo, enc_portion p = Some (start, xo) /\ start <= len).
Proof.
  intros HF Hl. unfold srtp_validate_rtp_header, enc_portion.
  unfold octets_in_rtp_header, octets_in_rtp_extn_hdr, uint32s_in_rtp_header.
  destruct (len <? 12) eqn:E12; bool_to_prop.
  { eexists. split; [done|]. split; [auto|]. split; [done|]. intros (start & xo & E & Hs). exfalso.
    destruct (decide (zlen p = 0)) as [Hz|Hz].
    { unfold hdr_cc, aget in E. rewrite decide_True in E by done. destruct p; [done|]. unfold zlen in Hz. simpl in Hz. lia. }
    destruct (hdr_cc_Some p) as [Ec Hc]; [done|pose proof (zlen_nonneg p); lia|]. rewrite Ec in E.
    rewrite hdr_x_Some in E by (pose proof (zlen_nonneg p); lia). cbn [mbind option_bind] in E.
    destruct (_ =? 1); [|simplify_eq; lia].
    destruct (xtn_length p _) as [l|] eqn:El; [|done]. simplify_eq/=.
    unfold xtn_length in El. destruct (get16 p _) as [v|]; simplify_eq/=.
    pose proof (fits_bswap16 (u16 v)) as Hv. unfold ntohs, fits in *. lia. }
  destruct (hdr_cc_Some p) as [-> Hc]; [done|lia|]. rewrite hdr_x_Some by lia. cbn [mbind option_bind].
  set (cc := znth p 0 & 0xf) in *. destruct (_ =? 1) eqn:Ex.
  - destruct (len <? 12 + 4 * cc + 4) eqn:E1; bool_to_prop.
    { eexists. split; [done|]. split; [auto|]. split; [done|]. intros (start & xo & E & Hs). exfalso.
      destruct (xtn_length p _) as [l|] eqn:El; [|done]. simplify_eq/=.
      unfold xtn_length in El. destruct (get16 p _) as [v|]; simplify_eq/=.
      pose proof (fits_bswap16 (u16 v)) as Hv. unfold ntohs, fits in *. lia. }
    destruct (xtn_length_Some p (4 * (3 + cc))) as [-> Hu]; [done|lia|lia|]. cbn [mbind option_bind].
    set (l := wire16 p _) in *. case_if.
    + eexists. split; [done|]. split; [auto|]. split; [done|]. intros (start & xo & E & Hs). simplify_eq. lia.
    + eexists. split; [done|]. split; [auto|]. split; [|done]. intros _. eexists _, _. split; [done|]. lia.
  - destruct (len <? 12 + 4 * cc) eqn:E1; bool_to_prop.
    + eexists. split; [done|]. split; [auto|]. split; [done|]. intros (start & xo & E & Hs). simplify_eq. lia.
    + eexists. split; [done|]. split; [auto|]. split; [|done]. intros _. eexists _, _. split; [done|]. lia.
Qed.

(** The place of the extension and of the payload. *)
Lemma enc_portion_inside p start xo :
  Forall is_u8 p -> enc_portion p = Some (start, xo) -> start <= zlen p ->
  12 <= start /\ xtn_fits p xo start /\ forall a, xo = Some a -> 12 <= a /\ a + 4 <= start.
Proof.
  intros HF. unfold enc_portion, uint32s_in_rtp_header.
  destruct (hdr_cc p) as [cc|] eqn:Ec; [|done]. destruct (hdr_x p) as [x|]; [|done]. cbn [mbind option_bind].
  assert (0 <= cc) as Hcc.
  { unfold hdr_cc in Ec. destruct (aget p 0) as [b|]; simplify_eq/=. apply Z.land_nonneg. by right. }
  destruct (x =? 1).
  - destruct (xtn_length p _) as [l|] eqn:El; [|done]. cbn [mbind option_bind]. intros [= <- <-] Hz.
    assert (is_u16 l) as Hl.
    { unfold xtn_length in El. destruct (get16 p _) as [v|]; simplify_eq/=. apply fits_bswap16. }
    pose proof Hl as Hl'. unfold fits in Hl'. split; [lia|]. split; [|intros a [= <-]; lia].
    intros a [= <-]. replace (_ / 4) with l by lia. split; [|split; [done|lia]]. split; [lia|].
    exists l. split_and!; [done|done|lia].
  - intros [= <- <-] Hz. split; [lia|]. by split.
Qed.

(** The places depend on the first octet and the header of the extension. *)
Lemma enc_portion_same p q start xo :
  Forall is_u8 p -> Forall is_u8 q -> enc_portion p = Some (start, xo) -> start <= zlen p -> start <= zlen q ->
  (forall j, 0 <= j < 12 -> znth q j = znth p j) ->
  (forall a j, xo = Some a -> a <= j < a + 4 -> znth q j = znth p j) ->
  enc_portion q = Some (start, xo).
Proof.
  intros HF HFq E Hp Hq H12 Hx. destruct (enc_portion_inside p start xo HF E Hp) as (H0 & _ & Ha).
  unfold enc_portion, hdr_cc, hdr_x, uint32s_in_rtp_header in *.
  rewrite aget_znth in E |- * by lia. cbn [mbind option_bind] in *. rewrite H12 by lia.
  set (cc := znth p 0 & 0xf) in *. destruct (_ =? 1); [|done].
  destruct (xtn_length p _) as [l|] eqn:El; [|done]. cbn [mbind option_bind] in E. injection E as Es <-.
  destruct (Ha _ eq_refl). destruct (xtn_length_Some p (4 * (3 + cc))) as [El' _]; [done|lia|lia|].
  destruct (xtn_length_Some q (4 * (3 + cc))) as [-> _]; [done|lia|lia|].
  rewrite El' in El. injection El as <-. cbn [mbind option_bind].
  rewrite (wire16_same p q) by (intros j Hj; eapply Hx; [done|lia]). by rewrite Es.
Qed.

Section Sessions.
Context `{BC : BlockCipher} `{LV : Locals}.

(** ** The invariant *)

(** Session keys refer to one of [n] sets of objects. *)
Record keys_wf (n : nat) (k : srtp_session_keys_t) : Prop := {
  kw_objs : (objs k < n)%nat;
  kw_mki : zlen (mki_id k) = mki_size k;
  kw_mki_max : mki_size k <= SRTP_MAX_MKI_LEN;
  kw_mki_u8 : Forall is_u8 (mki_id k)
}.

(** [ms] is the key material behind the objects of the store; the keys of a
    stream have tags of one length. *)
Record strm_wf (ms : list keymat) (x : srtp_stream_ctx_t) : Prop := {
  sw_some : session_keys x <> [];
  sw_keys : Forall (keys_wf (length ms)) (session_keys x);
  sw_tag : exists t, forall k m, k ∈ session_keys x -> ms !! objs k = Some m -> km_tag m = t;
  sw_rdbx : rdbx_ok (rtp_rdbx x);
  sw_rdb : rdb_ok (rtcp_rdb x);
  sw_roc : is_u32 (pending_roc x)
}.

Record ses_ok (ms : list keymat) (c : srtp_ctx_t) : Prop := {
  so_store : Forall2 objs_ok ms (key_store c);
  so_list : Forall (strm_wf ms) (stream_list c);
  so_template : forall t, stream_template c = Some t -> strm_wf ms t
}.

Lemma ses_ok_stream ms c r x : ses_ok ms c -> stream_at c r = Some x -> strm_wf ms x.
Proof.
  intros [_ Hl Ht]. destruct r as [j|]; simpl; [|by apply Ht]. intros Hx. by eapply Forall_lookup_1 in Hl.
Qed.

(** The objects behind well-formed keys. *)
Lemma ses_ok_objs ms c n k :
  ses_ok ms c -> keys_wf (length ms) k -> n = objs k ->
  exists m o, ms !! n = Some m /\ key_store c !! n = Some o /\ objs_ok m o.
Proof.
  intros [Hs _ _] Hk ->. destruct (lookup_lt_is_Some_2 ms (objs k)) as [m Hm]; [apply Hk|].
  destruct (Forall2_lookup_l _ _ _ _ _ Hs Hm) as (o & Ho & Hok). by exists m, o.
Qed.

Lemma ses_ok_focus ms c r i n m x o p evs :
  ses_ok ms c -> is_Some (stream_at c r) -> ms !! i = Some m -> strm_wf ms x -> objs_ok m o ->
  ses_ok ms (ses (focus c r i n x o p evs)).
Proof.
  intros [Hs Hl Ht] Hr Hm Hx Ho. unfold focus. cbn [ses]. split.
  - simpl. rewrite <- (list_insert_id ms i m) by done. by apply Forall2_insert.
  - destruct r as [j|]; simpl; [|done]. by apply Forall_insert.
  - destruct r as [j|]; simpl; [done|]. by intros t [= <-].
Qed.

(** What packet processing may change of a stream. *)
Definition strm_step (x x' : srtp_stream_ctx_t) : Prop :=
  ssrc x' = ssrc x /\ session_keys x' = session_keys x /\ rtp_services x' = rtp_services x /\
  enc_xtn_hdr x' = enc_xtn_hdr x /\ allow_repeat_tx x' = allow_repeat_tx x /\ rtcp_rdb x' = rtcp_rdb x.

Lemma strm_wf_direction ms x d : strm_wf ms x -> strm_wf ms (with_direction x d).
Proof. by intros []. Qed.

Lemma strm_wf_indexed ms x x' : strm_wf ms x -> indexed x x' -> strm_wf ms x'.
Proof.
  intros [Hs Hk Htg Hx Hb Hp] (Hr & _ & Hpr & E). rewrite E. split; simpl; try done.
  destruct Hpr as [->| ->]; [done|]. unfold fits. lia.
Qed.

(** ** Streams and keys *)

Lemma get_stream_Some c x r :
  srtp_get_stream c x = Some r -> exists j s, r = InList j /\ stream_at c r = Some s /\ ssrc s = x.
Proof.
  unfold srtp_get_stream. destruct (list_find _ _) as [[j s]|] eqn:E; [|done]. intros [= <-].
  apply list_find_Some in E as (Hj & Hs & _). by exists j, s.
Qed.

Lemma mki_index_keys ms x use_mki mki_index k :
  strm_wf ms x -> srtp_get_session_keys_with_mki_index x use_mki mki_index = Some k ->
  keys_wf (length ms) k /\ k ∈ session_keys x.
Proof.
  intros [_ Hk _ _ _ _]. unfold srtp_get_session_keys_with_mki_index.
  assert (forall j, aget (session_keys x) j = Some k -> keys_wf (length ms) k /\ k ∈ session_keys x) as Ha.
  { intros j. unfold aget. case_decide; [|done]. intros Hj. split; [by eapply Forall_lookup_1 in Hk|].
    by eapply list_elem_of_lookup_2. }
  destruct use_mki; [|by apply Ha]. case_if; [done|]. by apply Ha.
Qed.

Lemma first_key ms x :
  strm_wf ms x -> exists k, aget (session_keys x) 0 = Some k /\ keys_wf (length ms) k /\ k ∈ session_keys x.
Proof.
  intros [Hs Hk _ _ _ _]. unfold aget. rewrite decide_True by done.
  destruct (session_keys x) as [|k l]; [done|]. exists k. split; [done|]. split; [by inversion Hk|by constructor].
Qed.

(** The identifier goes behind the packet. *)
Definition mki_octets (use_mki : bool) (k : srtp_session_keys_t) : list Z := if use_mki then mki_id k else [].

Lemma inject_mki_spec n p len k use_mki :
  keys_wf n k -> 0 <= len -> len + zlen (mki_octets use_mki k) <= zlen p ->
  srtp_inject_mki p len k use_mki = Some (over p len (mki_octets use_mki k), zlen (mki_octets use_mki k)).
Proof.
  intros [_ Hm _ _] Hl Hz. unfold srtp_inject_mki, mki_octets in *. destruct use_mki; [|by rewrite over_nil].
  pose proof (zlen_nonneg (mki_id k)). destruct (mki_size k =? 0) eqn:E; bool_to_prop; cbn [negb].
  - destruct (mki_id k); [by rewrite over_nil, E|]. unfold zlen in Hm. simpl in Hm. lia.
  - rewrite slice_Some by lia. change (Z.to_nat 0) with 0%nat. rewrite drop_0. cbn [mbind option_bind].
    rewrite (take_ge (mki_id k)) by (unfold zlen in Hm; lia). unfold blit.
    rewrite decide_True by lia. cbn [mbind option_bind]. unfold over. by rewrite !Hm.
Qed.

(** The key whose identifier precedes the tag. *)
Lemma find_mki_spec n p base l :
  Forall (keys_wf n) l -> 0 <= base <= zlen p ->
  exists r, find_mki p base l = Some r /\
    forall k sz, r = Some (k, sz) -> keys_wf n k /\ k ∈ l /\ sz = mki_size k /\ 0 <= sz <= base /\
      take (Z.to_nat sz) (drop (Z.to_nat (base - sz)) p) = mki_id k.
Proof.
  intros Hl Hb. induction Hl as [|k l Hk Hl IH]; [by exists None|]. destruct IH as (r & E & HR). simpl. rewrite E.
  assert (forall k' sz, r = Some (k', sz) -> keys_wf n k' /\ k' ∈ k :: l /\ sz = mki_size k' /\ 0 <= sz <= base /\
      take (Z.to_nat sz) (drop (Z.to_nat (base - sz)) p) = mki_id k') as HR'.
  { intros k' sz (A1 & A2 & A3 & A4 & A5)%HR. split_and!; try done; try lia. by constructor. }
  destruct (negb _ && _) eqn:E0; [|by exists r]. apply andb_true_iff in E0 as [_ E1%Z.leb_le].
  pose proof (zlen_nonneg (mki_id k)) as H0. pose proof (kw_mki _ _ Hk) as Hm.
  rewrite !slice_Some by lia. cbn [mbind option_bind]. change (Z.to_nat 0) with 0%nat. rewrite drop_0.
  rewrite (take_ge (mki_id k)) by (unfold zlen in Hm; lia).
  case_decide as Hd; [|by exists r]. eexists. split; [done|]. intros k' sz [= <- <-].
  split_and!; try done; try lia. by constructor.
Qed.

(** ** Cloning the template *)

Lemma clone_keys_same ok i l l' : clone_keys ok i l = Some l' -> l' = l.
Proof.
  revert i l'. induction l as [|k l IH]; intros i l'; simpl; [congruence|]. case_match; [done|].
  destruct (clone_keys ok (i + 1) l) as [l1|] eqn:E; [|done]. intros [= <-]. f_equal. by eapply IH.
Qed.

Lemma clone_keys_all l i : clone_keys (fun _ => true) i l = Some l.
Proof. revert i. induction l as [|k l IH]; intros i; [done|]. simpl. rewrite andb_false_r. by rewrite IH. Qed.

Definition empty_rdbx (x : srtp_stream_ctx_t) : Prop := index (rtp_rdbx x) = 0 /\ forall j, ~ rdbx_mem (rtp_rdbx x) j.

(** A clone has the keys and services of the template and an empty replay
    database of its window. *)
Lemma clone_spec ok ms t x :
  strm_wf ms t ->
  exists st new, srtp_stream_clone ok t x = Some (st, new) /\
    ((forall i, ok i = true) -> is_Some new) /\
    match new with
    | None => is_err st = true
    | Some s => st = srtp_err_status_ok /\ strm_wf ms s /\ ssrc s = x /\ session_keys s = session_keys t /\
        rtp_services s = rtp_services t /\ enc_xtn_hdr s = enc_xtn_hdr t /\ direction s = direction t /\
        pending_roc s = 0 /\ rdbx_width (rtp_rdbx s) = rdbx_width (rtp_rdbx t) /\ empty_rdbx s
    end.
Proof.
  intros [Hs Hk Htg [Hx Hi] Hb Hp]. unfold srtp_stream_clone.
  destruct (ok 0) eqn:E0; cbn [negb].
  2:{ eexists _, _. split; [done|]. split; [|done]. intros H. specialize (H 0). congruence. }
  assert (num_master_keys t <> 0) as Hn.
  { unfold num_master_keys, zlen. destruct (session_keys t); [done|]. simpl. lia. }
  destruct (negb (ok 1) || _) eqn:E1.
  { eexists _, _. split; [done|]. split; [|done]. intros H. rewrite (H 1) in E1. simpl in E1. bool_to_prop. lia. }
  destruct (clone_keys ok 2 (session_keys t)) as [l|] eqn:Ec.
  2:{ eexists _, _. split; [done|]. split; [|done]. intros H. exfalso.
      assert (forall j, clone_keys ok j (session_keys t) = Some (session_keys t)) as Ha; [|by rewrite Ha in Ec].
      clear Ec Hs Hk Htg Hn E1. induction (session_keys t) as [|k' l' IH]; intros j; [done|]. simpl.
      by rewrite H, andb_false_r, IH. }
  apply clone_keys_same in Ec as ->. pose proof (bitvector_ok_length _ Hx) as Hlen.
  destruct Hx as (ws & _ & _ & Hmod & Hbnd).
  unfold srtp_rdbx_get_window_size, bitvector_get_length.
  destruct (ok (2 + num_master_keys t)) eqn:E2.
  - destruct (rdbx_init_spec zero_rdbx (bv_length (rdbx_bitmask (rtp_rdbx t)))) as (r & -> & Hr & He & Hi0 & Hw); [lia|].
    cbn [mbind option_bind]. change (is_err srtp_err_status_ok) with false. cbv iota.
    eexists _, _. split; [done|]. split; [done|]. split; [done|]. split.
    { split; simpl; try done. apply rdb_init_ok. }
    split_and!; try done.
    unfold rdbx_width. simpl. unfold srtp_rdbx_get_window_size, bitvector_get_length in Hw. rewrite Hw. lia.
  - destruct (rdbx_init_no_memory zero_rdbx (bv_length (rdbx_bitmask (rtp_rdbx t)))) as (r & ->); [lia|].
    cbn [mbind option_bind]. eexists _, _. split; [done|]. split; [|done]. intros H. by rewrite H in E2.
Qed.

(** The stream is the one of the session after the call that has its SSRC. *)
Lemma set_stream_get c r x x' y :
  srtp_get_stream c y = Some r -> stream_at c r = Some x -> ssrc x' = ssrc x -> srtp_get_stream (set_stream c r x') y = Some r.
Proof.
  unfold srtp_get_stream. destruct (list_find _ (stream_list c)) as [[j z]|] eqn:E; [|done]. intros [= <-] Hx Hs.
  apply list_find_Some in E as (Hj & Hz & Hlt). simpl in Hx. rewrite Hj in Hx. injection Hx as ->.
  assert (list_find (fun s => ssrc s = y) (<[j := x']> (stream_list c)) = Some (j, x')) as E'.
  { apply list_find_Some. split_and!; [|congruence|].
    - apply list_lookup_insert_eq. by eapply lookup_lt_Some.
    - intros j1 z1 Hz1 Hlt1. rewrite list_lookup_insert_ne in Hz1 by lia. by eapply Hlt. }
  simpl. by rewrite E'.
Qed.

Lemma stream_at_set c r x x' : stream_at c r = Some x -> stream_at (set_stream c r x') r = Some x'.
Proof. destruct r as [j|]; [|done]. simpl. intros Hx. apply list_lookup_insert_eq. by eapply lookup_lt_Some. Qed.

(** The stream of an outgoing packet is there, or cloned to the head of the
    list, or the call fails with the session as it was. *)
Lemma outbound_stream_run ms ok x s :
  ses_ok ms (ses s) ->
  exists s' res, outbound_stream ok x s = Some (s', res) /\ ses_ok ms (ses s') /\ pkt s' = pkt s /\
    pkt_octet_len s' = pkt_octet_len s /\ events s' = events s /\ key_store (ses s') = key_store (ses s) /\
    match res with
    | inl _ => s' = s /\ srtp_get_stream (ses s) x = None /\
        ((forall i, ok i = true) -> stream_template (ses s) = None)
    | inr r => exists y, stream_at (ses s') r = Some y /\ ssrc y = x /\
        (srtp_get_stream (ses s) x = Some r /\ s' = s \/
         srtp_get_stream (ses s) x = None /\ exists t, stream_template (ses s) = Some t /\ r = InList 0 /\
           ses s' = with_streams (ses s) (y :: stream_list (ses s)) /\ session_keys y = session_keys t /\ rtp_services y = rtp_services t /\ enc_xtn_hdr y = enc_xtn_hdr t /\
           pending_roc y = 0 /\ direction y = dir_srtp_sender /\ empty_rdbx y)
    end.
Proof.
  intros Hok. unfold outbound_stream. autorewrite with prog.
  destruct (srtp_get_stream (ses s) x) as [r|] eqn:Eg.
  { destruct (get_stream_Some _ _ _ Eg) as (j & y & -> & Hy & Hx). exists s, (inr (InList j)).
    split_and!; try done. exists y. split_and!; auto. }
  destruct (stream_template (ses s)) as [t|] eqn:Et.
  2:{ exists s, (inl srtp_err_status_no_ctx). by split_and!. }
  destruct (clone_spec ok ms t x) as (st & new & -> & Hall & Hn); [by eapply so_template|].
  autorewrite with prog. destruct new as [y|].
  - destruct Hn as (-> & Hw & Hx & Hk & Hsv & He & Hd & Hp & _ & Hem). autorewrite with prog.
    eexists _, (inr (InList 0)). split; [done|]. split.
    { destruct Hok as [A B C]. split; simpl; [done| |by rewrite Et in C |- *].
      constructor; [by apply strm_wf_direction|done]. }
    split_and!; try done. eexists. split; [done|]. split; [done|]. right. split; [done|]. exists t. by split_and!.
  - exists s, (inl st). split; [unfold pcheck; by rewrite Hn|]. split_and!; try done. intros H. by destruct (Hall H).
Qed.

End Sessions.

Section Claim.
Context `{BC : BlockCipher} `{LV : Locals}.
Context (c0 : srtp_ctx_t) (r : sref) (i : nat) (n : Z).
Context (Hr : is_Some (stream_at c0 r)) (Hi : is_Some (key_store c0 !! i)).
#[local] Abbreviation focus := (focus c0 r i n).

(** The index of an outgoing packet: taken, or refused with the stream as it
    was.  Without a pending rollover counter it is taken when it is new or
    repetition is allowed. *)
Lemma claim_index_focus x o p evs q :
  rdbx_ok (rtp_rdbx x) -> is_u32 (pending_roc x) -> Forall is_u8 q -> 12 <= zlen q ->
  exists st est delta x' res, srtp_get_est_pkt_index q x = Some (st, est, delta) /\ fits 48 est /\
    claim_index r st est delta (focus x o p evs) = Some (focus x' o p evs, res) /\
    match res with
    | inl _ => x' = x
    | inr _ => indexed x x'
    end /\
    (pending_roc x = 0 ->
      srtp_rdbx_estimate_index (rtp_rdbx x) (wire16 q 2) = (est, delta) /\
      exists c, srtp_rdbx_check (rtp_rdbx x) delta = Some c /\
        if decide (c = srtp_err_status_ok \/ c = srtp_err_status_replay_fail /\ allow_repeat_tx x <> 0)
        then res = inr tt /\ exists rx, srtp_rdbx_add_index (rtp_rdbx x) delta = Some (rx, srtp_err_status_ok) /\
               x' = with_rdbx x rx
        else res = inl c).
Proof.
  intros Hok Hroc HF Hz. destruct (est_pkt_index_spec q x Hok Hroc HF Hz) as (st & est & delta & E & He & Hp & Hc).
  exists st, est, delta. unfold claim_index. destruct Hc as [[-> Hd]|[-> | ->]].
  - change (bool_decide (srtp_err_status_ok = srtp_err_status_pkt_idx_adv)) with false.
    autorewrite with prog. change (is_err srtp_err_status_ok && negb false) with false. unfold preturn_if at 1.
    autorewrite with prog. rewrite (bind_ok _ _ _ _ _ (get_strm_focus c0 r i n Hr _ _ _ _)).
    destruct (rdbx_check_total (rtp_rdbx x) delta) as (c & Ec & Hold & Hcs); [done|lia|]. rewrite Ec. autorewrite with prog.
    destruct (decide (c = srtp_err_status_ok \/ c = srtp_err_status_replay_fail /\ allow_repeat_tx x <> 0)) as [Hd1|Hd1].
    + destruct (add_packet_index_focus c0 r i n Hr false est delta x o p evs) as (x' & Ea & Hix & Hrx);
        [done|done|intros _; split; [|lia]; apply Hold; destruct Hd1 as [->|[-> _]]; done|].
      exists x', (inr tt). split; [done|]. split; [done|].
      assert (is_err c && (bool_decide (c <> srtp_err_status_replay_fail) || (allow_repeat_tx x =? 0)) = false) as ->.
      { destruct Hd1 as [->|[-> Hat]]; [done|]. simpl. by apply Z.eqb_neq. }
      unfold preturn_if.
      autorewrite with prog. split; [done|]. split; [done|]. intros Hp0.
      split; [by apply Hp|]. exists c. split; [done|]. rewrite decide_True by done. split; [done|]. by apply Hrx.
    + exists x, (inl c). split; [done|]. split; [done|].
      assert (is_err c && (bool_decide (c <> srtp_err_status_replay_fail) || (allow_repeat_tx x =? 0)) = true) as ->.
      { destruct Hcs as [->|[->| ->]]; [by destruct Hd1; left| |done]. simpl. apply Z.eqb_eq.
        destruct (decide (allow_repeat_tx x = 0)); [done|]. destruct Hd1. by right. }
      unfold preturn_if.
      autorewrite with prog. split; [done|]. split; [done|]. intros Hp0.
      split; [by apply Hp|]. exists c. split; [done|]. by rewrite decide_False by done.
  - change (bool_decide (srtp_err_status_pkt_idx_adv = srtp_err_status_pkt_idx_adv)) with true. autorewrite with prog. 
    destruct (add_packet_index_focus c0 r i n Hr true est delta x o p evs) as (x' & Ea & Hix & _); [done|done|done|].
    exists x', (inr tt). split; [done|]. split; [done|]. split; [done|]. split; [done|].
    intros Hp0. destruct (Hp Hp0) as [? _]. done.
  - exists x, (inl srtp_err_status_pkt_idx_old). split; [done|]. split; [done|]. split; [done|]. split; [done|].
    intros Hp0. destruct (Hp Hp0) as [? _]. done.
Qed.

End Claim.
