(* ===== verification/SrtpProtect.v ===== *)
(** srtp_protect: it is safe on every session with initialised keys and builds
    the packet of RFC 3711. *)

From S2P Require Import Prelude Err Prog SrtpTypes Replay Rdb Rdbx Key SrtpPolicy ByteOrder.
From S2P Require Import Sha1 Hmac Aes AesKeys AesIcm Cipher SrtpStream SrtpPacket SrtpRun SrtpXtn SrtpProcess SrtpSession.

(** Octets that [over] leaves alone. *)
Lemma znth_over_out p i s j :
  0 <= i -> i + zlen s <= zlen p -> 0 <= j < zlen p -> j < i \/ i + zlen s <= j -> znth (over p i s) j = znth p j.
Proof. intros. rewrite znth_over by lia. by rewrite decide_False by lia. Qed.

(** A block of a packet, octet by octet. *)
Lemma block_ext p q i n :
  0 <= i -> 0 <= n -> i + n <= zlen p -> i + n <= zlen q -> (forall j, i <= j < i + n -> znth p j = znth q j) ->
  take (Z.to_nat n) (drop (Z.to_nat i) p) = take (Z.to_nat n) (drop (Z.to_nat i) q).
Proof.
  intros Hi Hn Hp Hq HE. apply znth_ext; [rewrite !zlen_take, !zlen_drop by lia; lia|].
  intros j. rewrite zlen_take, zlen_drop by lia. intros Hj. rewrite !znth_take, !znth_drop by lia. apply HE. lia.
Qed.

Lemma prefix_ext p q n :
  0 <= n -> n <= zlen p -> n <= zlen q -> (forall j, 0 <= j < n -> znth p j = znth q j) ->
  take (Z.to_nat n) p = take (Z.to_nat n) q.
Proof. intros Hn Hp Hq HE. rewrite <- (drop_0 p), <- (drop_0 q). apply (block_ext p q 0 n); done. Qed.

Lemma block_over p i s : 0 <= i -> i + zlen s <= zlen p -> take (Z.to_nat (zlen s)) (drop (Z.to_nat i) (over p i s)) = s.
Proof.
  intros Hi Hz. unfold over. pose proof (zlen_nonneg s).
  assert (length (take (Z.to_nat i) p) = Z.to_nat i) as Hl by (rewrite length_take; unfold zlen in *; lia).
  rewrite drop_app_length' by done. apply take_app_length'. unfold zlen. lia.
Qed.

Section Protect.
Context `{BC : BlockCipher} `{LV : Locals}.

(** The position in the key stream where the payload starts. *)
Definition payload_pos (m : keymat) (s : srtp_sec_serv_t) : Z := if has_auth s then prefix_of m else 0.

Definition tag_octets (m : keymat) (s : srtp_sec_serv_t) : Z := if has_auth s then km_tag m else 0.

(** The [len'] octets of [q] are the SRTP packet with index [est] for the
    [len] octets of the RTP packet [p]: the payload encrypted from the end of
    the header on, the key identifier, and the tag over header, encrypted
    payload and rollover counter. *)
Record sealed (m : keymat) (s : srtp_sec_serv_t) (ids mki : list Z) (y est : Z) (p : list Z) (len : Z)
    (q : list Z) (len' : Z) : Prop := {
  sl_len : len' = len + tag_octets m s + zlen mki;
  sl_body :
    let iv := packet_iv (km_id m) y est in
    if has_conf s
    then exists start xo, enc_portion p = Some (start, xo) /\ start <= len /\
      room (km_rtp m) iv (payload_pos m s) (len - start) = true /\ ext_crypted m iv ids xo start p q /\
      take (Z.to_nat (len - start)) (drop (Z.to_nat start) q) =
        crypt (km_rtp m) iv (payload_pos m s) (take (Z.to_nat (len - start)) (drop (Z.to_nat start) p))
    else take (Z.to_nat len) q = take (Z.to_nat len) p;
  sl_mki : take (Z.to_nat (zlen mki)) (drop (Z.to_nat len) q) = mki;
  sl_tag : has_auth s = true ->
    room (km_rtp m) (packet_iv (km_id m) y est) 0 (prefix_of m) = true /\
    take (Z.to_nat (km_tag m)) (drop (Z.to_nat (len + zlen mki)) q) =
      packet_tag m (packet_iv (km_id m) y est) (take (Z.to_nat len) q ++ roc_octets est)
}.

(** When the stream can take the packet: the key has uses left, the index is
    new, and the key stream is long enough. *)
Record can_send (m : keymat) (o : key_objs) (x : srtp_stream_ctx_t) (y : Z) (p : list Z) (len est delta : Z)
    : Prop := {
  cs_limit : snd (srtp_key_limit_update (limit o)) <> srtp_key_event_hard_limit;
  cs_roc : pending_roc x = 0;
  cs_index : srtp_rdbx_estimate_index (rtp_rdbx x) (wire16 p 2) = (est, delta);
  cs_new : srtp_rdbx_check (rtp_rdbx x) delta = Some srtp_err_status_ok;
  cs_prefix : has_auth (rtp_services x) = true ->
    room (km_rtp m) (packet_iv (km_id m) y est) 0 (prefix_of m) = true;
  cs_room : forall start xo, has_conf (rtp_services x) = true -> enc_portion p = Some (start, xo) ->
    room (km_rtp m) (packet_iv (km_id m) y est) (payload_pos m (rtp_services x)) (len - start) = true /\
    (xo = None \/ km_xtn m = None)
}.

(** The index of a packet is recorded in the replay database. *)
Definition recorded (x : srtp_stream_ctx_t) (p : list Z) (est : Z) (x' : srtp_stream_ctx_t) : Prop :=
  pending_roc x = 0 -> exists delta rx, srtp_rdbx_estimate_index (rtp_rdbx x) (wire16 p 2) = (est, delta) /\
    (allow_repeat_tx x = 0 -> srtp_rdbx_check (rtp_rdbx x) delta = Some srtp_err_status_ok) /\
    srtp_rdbx_add_index (rtp_rdbx x) delta = Some (rx, srtp_err_status_ok) /\ rtp_rdbx x' = rx /\ pending_roc x' = 0.

(** A use of the key of object [i] is counted. *)
Definition counted (i : nat) (c c' : srtp_ctx_t) : Prop :=
  forall o, key_store c !! i = Some o -> exists o', key_store c' !! i = Some o' /\
    limit o' = fst (srtp_key_limit_update (limit o)).

Lemma protect_portion_focus addr s (p : list Z) len st :
  Forall is_u8 p -> 0 <= len <= zlen p -> 0 <= addr -> addr + zlen p < 2 ^ 32 ->
  srtp_validate_rtp_header p len = Some srtp_err_status_ok ->
  exists start xo, enc_portion p = Some (start, xo) /\ start <= len /\
    protect_portion addr s p len st =
      Some (st, inr (if has_conf s then (Some (start, len - start), xo) else (None, None))).
Proof.
  intros HF Hl Ha Hb Hv. destruct (validate_portion p len HF Hl) as (st' & Ev & _ & Hiff).
  rewrite Hv in Ev. simplify_eq. destruct (proj1 Hiff eq_refl) as (start & xo & Ep & Hs).
  destruct (enc_portion_inside p start xo HF Ep) as (H12 & _); [lia|].
  exists start, xo. split; [done|]. split; [done|]. unfold protect_portion.
  destruct (has_conf s); [|done]. rewrite Ep. autorewrite with prog.
  rewrite (wrap_id 32 (addr + start)), (wrap_id 32 (addr + len)) by (unfold fits; lia).
  rewrite (proj2 (Z.leb_le _ _)), (proj2 (Z.ltb_ge _ _)) by lia. done.
Qed.

Section Seal.
Context (c0 : srtp_ctx_t) (r : sref) (i : nat) (n : Z).
Context (Hr : is_Some (stream_at c0 r)) (Hi : is_Some (key_store c0 !! i)).
#[local] Abbreviation focus := (focus c0 r i n).

(** The encrypted portion and the extension, as the service says. *)
Definition portion (s : srtp_sec_serv_t) (start len : Z) (xo : option Z) : option (Z * Z) * option Z :=
  if has_conf s then (Some (start, len - start), xo) else (None, None).

(** The body of a sealed packet. *)
Definition body_sealed (m : keymat) (s : srtp_sec_serv_t) (iv ids : list Z) (xo : option Z) (start : Z)
    (p : list Z) (len : Z) (q : list Z) : Prop :=
  if has_conf s
  then ext_crypted m iv ids xo start p q /\
    take (Z.to_nat (len - start)) (drop (Z.to_nat start) q) =
      crypt (km_rtp m) iv (payload_pos m s) (take (Z.to_nat (len - start)) (drop (Z.to_nat start) p))
  else take (Z.to_nat len) q = take (Z.to_nat len) p.

(** Extension and payload. *)
Lemma crypt_body_focus m s iv ids start xo addr len x o p evs :
  objs_iv m iv (payload_pos m s) o -> Forall is_u8 p -> enc_portion p = Some (start, xo) -> start <= zlen p ->
  (has_conf s = true -> start <= len) -> len <= zlen p -> len < 2 ^ 31 ->
  exists o' p' res,
    (crypt_extension i ids (snd (portion s start len xo)) ;;
     match fst (portion s start len xo) with Some (start, n) => crypt_payload addr i start n | None => pret tt end)
      (focus x o p evs) = Some (focus x o' p' evs, res) /\
    objs_ok m o' /\ limit o' = limit o /\ zlen p' = zlen p /\ Forall is_u8 p' /\
    (forall j, len <= j < zlen p -> znth p' j = znth p j) /\ (forall j, 0 <= j < 12 -> znth p' j = znth p j) /\
    (res = inr tt -> body_sealed m s iv ids xo start p len p' /\
      (has_conf s = true -> room (km_rtp m) iv (payload_pos m s) (len - start) = true)) /\
    (has_conf s = true -> room (km_rtp m) iv (payload_pos m s) (len - start) = true /\ (xo = None \/ km_xtn m = None) ->
     res = inr tt) /\ (has_conf s = false -> res = inr tt).
Proof.
  intros Hoi HF Ep Hsz Hs Hl Hl31. destruct (enc_portion_inside p start xo HF Ep) as (H12 & Hfit & Hx12); [lia|].
  unfold portion, body_sealed. destruct (has_conf s); [specialize (Hs eq_refl)|]; cbn [fst snd].
  2:{ exists o, p, (inr tt). unfold crypt_extension. autorewrite with prog.
      rewrite (bind_ok _ _ _ _ _ (get_objs_focus c0 r i n Hi _ _ _ _)). autorewrite with prog.
      split_and!; try done. apply Hoi. }
  destruct (crypt_extension_focus c0 r i n Hi m iv (payload_pos m s) ids xo x o p evs)
    as (o1 & p1 & res1 & E1 & Hok1 & Hl1 & Hc1 & Hz1 & HF1 & A1 & _ & B1); [done|done|intros a Ha; by apply Hfit|].
  assert (forall j, 0 <= j < 12 -> znth p1 j = znth p j) as A12.
  { intros j Hj. destruct xo as [a|]; [|by destruct B1 as [_ ->]; [left|]].
    destruct (Hfit a eq_refl) as (_ & Ea & He), (Hx12 a eq_refl). eapply A1; [done|done|lia|lia]. }
  destruct res1 as [st|[]].
  { exists o1, p1, (inl st). split; [unfold pbind; by rewrite E1|]. split_and!; try done.
    - intros j Hj. destruct xo as [a|]; [|by destruct B1 as [_ ->]; [left|]].
      destruct (Hfit a eq_refl) as (_ & Ea & He). eapply A1; [done|done|lia|lia].
    - intros _ [_ Hx]. by destruct B1. }
  rewrite (bind_ok _ _ _ _ _ E1).
  assert (ext_crypted m iv ids xo start p p1) as Hext.
  { change p1 with (pkt (focus x o1 p1 evs)). by eapply crypt_extension_crypted. }
  assert (forall j, start <= j < zlen p -> znth p1 j = znth p j) as A.
  { intros j Hj. destruct xo as [a|]; [|by destruct B1 as [_ ->]; [left|]].
    destruct (Hfit a eq_refl) as (_ & Ea & He). eapply A1; [done|done|lia|lia]. }
  destruct (crypt_payload_focus c0 r i n Hi m iv (payload_pos m s) addr start (len - start) x o1 p1 evs)
    as (o2 & res & E2 & Hok2 & Hl2 & Hres); [done|apply Hoi|rewrite Hc1; apply Hoi|done|lia|lia|lia|lia|].
  rewrite E2. eexists _, _, _. split; [done|]. split; [done|]. split; [congruence|].
  assert (take (Z.to_nat (len - start)) (drop (Z.to_nat start) p1) = take (Z.to_nat (len - start)) (drop (Z.to_nat start) p))
    as -> by (apply block_ext; try lia; intros j Hj; apply A; lia).
  set (ct := crypt (km_rtp m) iv (payload_pos m s) (take (Z.to_nat (len - start)) (drop (Z.to_nat start) p))) in *.
  assert (zlen ct = len - start) as Lc by (unfold ct; rewrite zlen_crypt, zlen_take, zlen_drop by lia; lia).
  assert (Forall is_u8 ct) as Fc.
  { unfold ct. eapply cipher_at_u8; [apply Hoi|apply Hoi|]. by apply Forall_take, Forall_drop. }
  destruct (room _ _ _ _); subst res.
  - split; [rewrite zlen_over; lia|]. split; [by apply over_u8|]. split.
    { intros j Hj. rewrite znth_over_out by lia. apply A. lia. }
    split; [intros j Hj; rewrite znth_over_out by lia; by apply A12|].
    split; [|done]. intros _. split; [|done]. split.
    + eapply ext_crypted_agree; [done| |exact Hext]. intros j Hj. apply znth_over_out; lia.
    + rewrite <- Lc at 1. apply block_over; lia.
  - split; [done|]. split; [done|]. split; [intros j Hj; apply A; lia|]. split; [done|]. split; [done|]. split; [by intros _ []|done].
Qed.

(** The prefix in the place of the tag, and its effect on the key stream. *)
Lemma maybe_prefix_focus m s iv addr tag x o p evs :
  objs_iv m iv 0 o -> Forall is_u8 p -> 0 <= tag -> 0 <= km_tag m < 2 ^ 31 -> tag + tag_octets m s <= zlen p ->
  exists o' p' res, (if has_auth s then put_prefix addr i tag else pret tt) (focus x o p evs) =
      Some (focus x o' p' evs, res) /\
    objs_ok m o' /\ limit o' = limit o /\ Forall is_u8 p' /\ zlen p' = zlen p /\
    (forall j, 0 <= j < zlen p -> j < tag \/ tag + tag_octets m s <= j -> znth p' j = znth p j) /\
    (res = inr tt -> objs_iv m iv (payload_pos m s) o' /\
      (has_auth s = true -> room (km_rtp m) iv 0 (prefix_of m) = true) /\
      (has_auth s = true -> km_auth m = None ->
       take (Z.to_nat (km_tag m)) (drop (Z.to_nat tag) p') = crypt (km_rtp m) iv 0 (replicate (Z.to_nat (km_tag m)) 0))) /\
    ((has_auth s = true -> room (km_rtp m) iv 0 (prefix_of m) = true) -> res = inr tt).
Proof.
  intros Hoi HF Ht [H0 H31] Hz. unfold payload_pos, tag_octets in *. destruct (has_auth s).
  2:{ exists o, p, (inr tt). split_and!; try done. apply Hoi. }
  destruct (put_prefix_focus c0 r i n Hi m iv addr tag x o p evs)
    as (o1 & p1 & res & E & Hok1 & Hl1 & HF1 & Hz1 & A & HR); [done..|].
  exists o1, p1, res. rewrite E. split_and!; try done.
  - intros ->. destruct (room _ _ _ _); [|done]. destruct HR as (_ & Hoi1 & ->). split; [done|]. split; [done|]. intros _ Ha.
    unfold prefix_of, prefix_length. rewrite Ha. set (z := crypt _ _ _ _).
    assert (zlen z = km_tag m) as Lz by (unfold z; rewrite zlen_crypt, zlen_replicate; lia).
    rewrite <- Lz at 1. apply block_over; lia.
  - intros Hroom. rewrite Hroom in HR by done. by destruct HR as [-> _].
Qed.

(** Sealing: [p] is the packet with the identifier behind it. *)
Lemma seal_packet_focus m s iv ids start xo addr len tag est x o p evs :
  objs_iv m iv 0 o -> Forall is_u8 p -> enc_portion p = Some (start, xo) ->
  0 <= start <= len -> len < 2 ^ 28 -> len <= tag -> 0 <= km_tag m < 2 ^ 31 -> tag + tag_octets m s <= zlen p ->
  exists o' p' res,
    seal_packet addr i s ids (fst (portion s start len xo)) (snd (portion s start len xo)) len tag est
      (focus x o p evs) = Some (focus x o' p' evs, res) /\
    objs_ok m o' /\ limit o' = limit o /\ zlen p' = zlen p /\ Forall is_u8 p' /\
    (forall j, len <= j < zlen p -> j < tag \/ tag + tag_octets m s <= j -> znth p' j = znth p j) /\
    (forall j, 0 <= j < 12 -> znth p' j = znth p j) /\
    (res = inr tt -> body_sealed m s iv ids xo start p len p' /\
      (has_auth s = true -> room (km_rtp m) iv 0 (prefix_of m) = true) /\
      (has_conf s = true -> room (km_rtp m) iv (payload_pos m s) (len - start) = true) /\
      (has_auth s = true -> take (Z.to_nat (km_tag m)) (drop (Z.to_nat tag) p') =
         packet_tag m iv (take (Z.to_nat len) p' ++ roc_octets est))) /\
    ((has_auth s = true -> room (km_rtp m) iv 0 (prefix_of m) = true) ->
     (has_conf s = true -> room (km_rtp m) iv (payload_pos m s) (len - start) = true /\ (xo = None \/ km_xtn m = None)) ->
     res = inr tt).
Proof.
  intros Hoi HF Ep Hs Hl28 Hlt Htag Hz. unfold seal_packet.
  assert (0 <= tag_octets m s) as Hto by (unfold tag_octets; destruct (has_auth s); lia).
  destruct (enc_portion_inside p start xo HF Ep) as (H12 & _ & Hx); [lia|].
  destruct (maybe_prefix_focus m s iv addr tag x o p evs)
    as (o1 & p1 & res1 & E1 & Hok1 & Hl1 & HF1 & Hz1 & A1 & B1 & C1); [done|done|lia|lia|lia|].
  destruct res1 as [st|[]].
  { exists o1, p1, (inl st). split; [unfold pbind at 1; by rewrite E1|]. split_and!; try done.
    - intros j Hj Hjj. apply A1; lia.
    - intros j Hj. apply A1; lia.
    - intros Hrm. by specialize (C1 Hrm). }
  destruct (B1 eq_refl) as (Hoi1 & Hrm1 & Hpre). rewrite (bind_ok _ _ _ _ _ E1).
  rewrite <- bind_assoc.
  assert (enc_portion p1 = Some (start, xo)) as Ep1.
  { apply (enc_portion_same p); try done; try lia; [intros j Hj; apply A1; lia|].
    intros a j Ha Hj. destruct (Hx a Ha). apply A1; lia. }
  destruct (crypt_body_focus m s iv ids start xo addr len x o1 p1 evs)
    as (o2 & p2 & res2 & E2 & Hok2 & Hl2 & Hz2 & HF2 & A2 & A12 & B2 & C2 & D2); [done|done|done|lia|lia|lia|lia|].
  destruct res2 as [st|[]].
  { exists o2, p2, (inl st). split; [unfold pbind at 1; by rewrite E2|]. split_and!; try done; [congruence|lia|..].
    - intros j Hj Hjj. rewrite A2, A1 by lia. done.
    - intros j Hj. rewrite A12, A1 by lia. done.
    - intros _ Hc. destruct (has_conf s); [by specialize (C2 eq_refl (Hc eq_refl))|by specialize (D2 eq_refl)]. }
  rewrite (bind_ok _ _ _ _ _ E2). destruct (B2 eq_refl) as [B2' Hrm2].
  assert (body_sealed m s iv ids xo start p len p2) as Hb.
  { unfold body_sealed in *. destruct (has_conf s).
    - destruct B2' as [B3 B4]. split.
      + eapply ext_crypted_agree; [..|exact B3]; [intros j Hj; symmetry; apply A1; lia|done].
      + rewrite B4. f_equal. apply block_ext; try lia. intros j Hj. apply A1; lia.
    - rewrite B2'. apply prefix_ext; try lia. intros j Hj. apply A1; lia. }
  destruct (has_auth s) eqn:Ea.
  2:{ exists o2, p2, (inr tt). split_and!; try done; [congruence|lia|..].
      - intros j Hj Hjj. rewrite A2, A1 by lia. done.
      - intros j Hj. rewrite A12, A1 by lia. done. }
  assert (tag_octets m s = km_tag m) as Eto by (unfold tag_octets; by rewrite Ea). rewrite Eto in *.
  destruct (put_tag_focus c0 r i n Hi m len tag est x o2 p2 evs) as (o3 & -> & Hok3 & Hl3); [done|done|lia..|].
  set (t := tag_of _ _ _ _).
  assert (t = packet_tag m iv (take (Z.to_nat len) p2 ++ roc_octets est)) as Et.
  { unfold t, packet_tag, tag_of. destruct (km_auth m) eqn:Eau; [done|]. rewrite <- Hpre by done.
    apply block_ext; try lia. intros j Hj. apply A2. lia. }
  assert (zlen t = km_tag m) as Lt by (rewrite Et; eapply zlen_packet_tag; [done|lia]).
  assert (Forall is_u8 t) as Ft.
  { rewrite Et. apply tag_of_u8. eapply cipher_at_u8; [apply Hoi|apply Hoi|]. by apply Forall_replicate. }
  assert (forall j, 0 <= j < zlen p -> j < tag \/ tag + km_tag m <= j -> znth (over p2 tag t) j = znth p2 j) as A3
    by (intros; apply znth_over_out; lia).
  exists o3, (over p2 tag t), (inr tt). split_and!; try done; [congruence|rewrite zlen_over; lia|by apply over_u8|..].
  - intros j Hj Hjj. rewrite A3, A2, A1 by lia. done.
  - intros j Hj. rewrite A3, A12, A1 by lia. done.
  - intros _. split; [|split; [done|split; [done|]]].
    + unfold body_sealed in *. destruct (has_conf s).
      * destruct Hb as [Hb1 Hb2]. split; [eapply ext_crypted_agree; [..|exact Hb1]; [done|intros j Hj; apply A3; lia]|].
        rewrite <- Hb2. apply block_ext; rewrite ?zlen_over by lia; try lia. intros j Hj. apply A3; lia.
      * rewrite <- Hb. apply prefix_ext; rewrite ?zlen_over by lia; try lia. intros j Hj. apply A3; lia.
    + intros _. rewrite <- Lt at 1. rewrite block_over by lia. etransitivity; [exact Et|]. do 2 f_equal.
      apply prefix_ext; rewrite ?zlen_over by lia; try lia. intros j Hj. symmetry. apply A3; lia.
Qed.

End Seal.
(** ** The whole call *)

(** The trailer the caller leaves room for. *)
Definition SRTP_MAX_TRAILER_LEN : Z := SRTP_MAX_TAG_LEN + SRTP_MAX_MKI_LEN.

(** [len] octets of packet in a block at [addr] with room for [t] more. *)
Record packet_room_for (t addr : Z) (p : list Z) (len : Z) : Prop := {
  pr_u8 : Forall is_u8 p;
  pr_len : 0 <= len < 2 ^ 28;
  pr_trailer : len + t <= zlen p;
  pr_addr : 0 <= addr /\ addr + zlen p < 2 ^ 32
}.

(** What [srtp_protect] asks of its caller: room for the longest trailer. *)
Definition packet_room : Z -> list Z -> Z -> Prop := packet_room_for SRTP_MAX_TRAILER_LEN.

(** Tags of at most [n] octets. *)
Definition tags_within (n : Z) (ms : list keymat) : Prop := Forall (fun m => 0 <= km_tag m <= n) ms.

(** Identifier and tag take at most [t] octets, for the keys [ks] and the
    services [sv]. *)
Definition trailer_within (t : Z) (use_mki : bool) (ms : list keymat) (ks : list srtp_session_keys_t)
    (sv : srtp_sec_serv_t) : Prop :=
  forall k m, k ∈ ks -> ms !! objs k = Some m -> tag_octets m sv + zlen (mki_octets use_mki k) <= t.

Lemma trailer_within_max use_mki ms x :
  strm_wf ms x -> tags_within SRTP_MAX_TAG_LEN ms -> trailer_within SRTP_MAX_TRAILER_LEN use_mki ms (session_keys x) (rtp_services x).
Proof.
  intros Hwf Ht k m Hk Hm. unfold SRTP_MAX_TRAILER_LEN.
  pose proof (Forall_lookup_1 _ _ _ _ Ht Hm) as Htag. simpl in Htag.
  assert (zlen (mki_octets use_mki k) <= SRTP_MAX_MKI_LEN) as Hmki.
  { unfold mki_octets. apply list_elem_of_lookup in Hk as [j Hj].
    destruct (Forall_lookup_1 _ _ _ _ (sw_keys _ _ Hwf) Hj) as [_ Hz Hmax _]. destruct use_mki; [lia|]. by unfold SRTP_MAX_MKI_LEN. }
  unfold tag_octets. destruct (has_auth _); unfold SRTP_MAX_TAG_LEN in *; lia.
Qed.

(** What a call leaves alone, from the session [c] with stream [x] and packet
    [p] on. *)
Record protect_frame (t : Z) (ms : list keymat) (c : srtp_ctx_t) (r : sref) (x : srtp_stream_ctx_t) (n : Z) (p : list Z) (len : Z)
    (s' : pstate) : Prop := {
  pf_ok : ses_ok ms (ses s');
  pf_len : pkt_octet_len s' = n;
  pf_zlen : zlen (pkt s') = zlen p;
  pf_u8 : Forall is_u8 (pkt s');
  pf_beyond : forall j, len + t <= j < zlen p -> znth (pkt s') j = znth p j;
  pf_header : forall j, 0 <= j < 12 -> znth (pkt s') j = znth p j;
  pf_ses : exists i x' o', ses s' = with_store (set_stream c r x') (<[i := o']> (key_store c)) /\ strm_step x x'
}.

Lemma protect_frame_focus t ms c r i n m x x' o p p' len evs :
  ses_ok ms c -> is_Some (stream_at c r) -> ms !! i = Some m -> strm_wf ms x' -> objs_ok m o ->
  strm_step x x' -> zlen p' = zlen p -> Forall is_u8 p' ->
  (forall j, len + t <= j < zlen p -> znth p' j = znth p j) -> (forall j, 0 <= j < 12 -> znth p' j = znth p j) ->
  protect_frame t ms c r x n p len (focus c r i n x' o p' evs).
Proof. intros. split; try done; [by eapply ses_ok_focus|]. by exists i, x', o. Qed.

Lemma strm_step_direction x d : strm_step x (with_direction x d).
Proof. by split_and!. Qed.

Lemma strm_step_indexed x d x' : indexed (with_direction x d) x' -> strm_step x x'.
Proof. intros (_ & _ & _ & ->). by split_and!. Qed.

(** A sealed body with identifier and tag is a sealed packet. *)
Lemma sealed_over m s ids use_mki k y p len q start xo est :
  let mki := mki_octets use_mki k in
  let p1 := over p len mki in
  0 <= start <= len -> len + zlen mki <= zlen p -> len + zlen mki <= zlen q -> enc_portion p = Some (start, xo) ->
  (forall j, len <= j < len + zlen mki -> znth q j = znth p1 j) ->
  body_sealed m s (packet_iv (km_id m) y est) ids xo start p1 len q ->
  (has_auth s = true -> room (km_rtp m) (packet_iv (km_id m) y est) 0 (prefix_of m) = true) ->
  (has_conf s = true -> room (km_rtp m) (packet_iv (km_id m) y est) (payload_pos m s) (len - start) = true) ->
  (has_auth s = true -> take (Z.to_nat (km_tag m)) (drop (Z.to_nat (len + zlen mki)) q) =
     packet_tag m (packet_iv (km_id m) y est) (take (Z.to_nat len) q ++ roc_octets est)) ->
  sealed m s ids mki y est p len q
    (len + (if has_auth s then km_tag m else 0) + (if use_mki then zlen mki else 0)).
Proof.
  intros mki p1 Hs Hz Hzq Ep Hmki Hb Hr1 Hr2 Ht. pose proof (zlen_nonneg mki).
  assert (zlen p1 = zlen p) as Hz1 by (apply zlen_over; lia).
  assert (forall j, 0 <= j < len -> znth p1 j = znth p j) as A by (intros; apply znth_over_out; lia).
  split; [|..|intros Ha; split; [by apply Hr1|by apply Ht]].
  - unfold tag_octets. by destruct use_mki.
  - unfold body_sealed in Hb. cbv zeta. destruct (has_conf s).
    + destruct Hb as [Hb1 Hb2]. exists start, xo. split; [done|]. split; [lia|]. split; [by apply Hr2|]. split.
      * eapply ext_crypted_agree; [..|exact Hb1]; [intros j Hj; symmetry; apply A; lia|done].
      * rewrite Hb2. f_equal. apply block_ext; try lia. intros j Hj. apply A. lia.
    + rewrite Hb. apply prefix_ext; try lia. intros j Hj. by apply A.
  - transitivity (take (Z.to_nat (zlen mki)) (drop (Z.to_nat len) p1)); [|apply block_over; lia].
    apply block_ext; try lia. intros j Hj. by apply Hmki.
Qed.

(** The call with its keys: sealed, when it succeeds, and it succeeds when the
    stream can send. *)
Lemma protect_with_keys_focus t ms addr use_mki y len c r n k m x x0 o p evs :
  ses_ok ms c -> is_Some (stream_at c r) -> keys_wf (length ms) k -> ms !! objs k = Some m ->
  is_Some (key_store c !! objs k) -> objs_ok m o -> strm_wf ms x -> strm_step x0 x ->
  packet_room_for t addr p len -> 0 <= km_tag m <= SRTP_MAX_TAG_LEN ->
  tag_octets m (rtp_services x) + zlen (mki_octets use_mki k) <= t ->
  srtp_validate_rtp_header p len = Some srtp_err_status_ok ->
  exists s' res, protect_with_keys addr use_mki y p len r x k (focus c r (objs k) n x o p evs) = Some (s', res) /\
    protect_frame t ms c r x0 n p len s' /\
    (forall len', res = inr len' -> exists est x', fits 48 est /\
      sealed m (rtp_services x) (enc_xtn_hdr x) (mki_octets use_mki k) y est p len (pkt s') len' /\
      stream_at (ses s') r = Some x' /\ recorded x p est x' /\ 
      exists o', key_store (ses s') !! objs k = Some o' /\ limit o' = fst (srtp_key_limit_update (limit o))) /\
    (forall est delta, can_send m o x y p len est delta -> exists len', res = inr len').
Proof.
  intros Hses Hr Hk Hm Hi Hok Hwf Hst [HF Hlen Htr [Ha0 Ha]] Htag Hfit Hv.
  unfold SRTP_MAX_TAG_LEN in *. unfold protect_with_keys.
  assert (0 <= tag_octets m (rtp_services x)) as Hto by (unfold tag_octets; destruct (has_auth _); lia).
  pose proof (zlen_nonneg (mki_octets use_mki k)) as Lm.
  destruct (use_key_focus c r (objs k) n Hr Hi x o p evs) as (o1 & evs1 & res1 & E1 & Eo1 & Hres1).
  assert (objs_ok m o1) as Hok1 by (rewrite Eo1; by apply objs_ok_limit).
  destruct (decide _) as [Hhard|_].
  { subst res1. exists (focus c r (objs k) n x o1 p evs1), (inl srtp_err_status_key_expired).
    split; [unfold pbind at 1; by rewrite E1|]. split; [by eapply protect_frame_focus|]. split; [done|].
    intros est delta []. done. }
  subst res1. rewrite (bind_ok _ _ _ _ _ E1). clear E1.
  rewrite (bind_ok _ _ _ _ _ (get_objs_focus c r (objs k) n Hi _ _ _ _)).
  destruct (keyed_auth_lengths _ _ _ (oo_auth _ _ Hok1)) as [-> _].
  destruct (protect_portion_focus addr (rtp_services x) p len (focus c r (objs k) n x o1 p evs1))
    as (start & xo & Ep & Hs & E2); [done|lia|done|done|done|].
  rewrite (bind_ok _ _ _ _ _ E2). clear E2.
  rewrite (surjective_pairing (if has_conf (rtp_services x) then _ else _)). fold (portion (rtp_services x) start len xo).
  destruct (enc_portion_inside p start xo HF Ep) as (H12 & _ & Hxo); [lia|].
  rewrite (inject_mki_spec (length ms)) by (done || lia). autorewrite with prog. cbv beta iota.
  set (mki := mki_octets use_mki k) in *.
  assert (Forall is_u8 mki) as Fm by (unfold mki, mki_octets; destruct use_mki; [apply Hk|done]).
  set (p1 := over p len mki). assert (zlen p1 = zlen p) as Hz1 by (apply zlen_over; lia).
  assert (Forall is_u8 p1) as HF1 by (by apply over_u8).
  assert (forall j, 0 <= j < zlen p -> j < len \/ len + zlen mki <= j -> znth p1 j = znth p j) as A1
    by (intros; apply znth_over_out; lia).
  rewrite (bind_ok _ _ _ _ _ (put_pkt_focus c r (objs k) n _ _ _ _ _)).
  destruct (claim_index_focus c r (objs k) n Hr x o1 p1 evs1 p1) as (st & est & delta & x' & res2 & Ei & Hest & Ec & Hx' & Hnp);
    [apply Hwf|apply Hwf|done|lia|].
  rewrite Ei. autorewrite with prog. cbv beta iota.
  replace (wire16 p1 2) with (wire16 p 2) in Hnp by (symmetry; apply wire16_same; intros j Hj; apply A1; lia).
  assert (forall j, len + t <= j < zlen p -> znth p1 j = znth p j) as Hbey by (intros; apply A1; lia).
  assert (forall j, 0 <= j < 12 -> znth p1 j = znth p j) as A12 by (intros; apply A1; lia).
  destruct res2 as [st2|[]].
  { subst x'. exists (focus c r (objs k) n x o1 p1 evs1), (inl st2). split; [unfold pbind at 1; by rewrite Ec|].
    split; [by eapply protect_frame_focus|]. split; [done|]. intros e dl [_ Hroc Hix Hnew _ _]. exfalso.
    destruct (Hnp Hroc) as (Hix' & cc & Hcc & Hdec). rewrite Hix in Hix'. simplify_eq.
    rewrite decide_True in Hdec by auto. by destruct Hdec. }
  rewrite (bind_ok _ _ _ _ _ Ec). clear Ec.
  assert (strm_wf ms x') as Hwf' by (by eapply strm_wf_indexed).
  destruct (set_ivs_focus c r (objs k) n Hi m x' o1 p1 evs1 y est Hok1) as (o2 & E3 & Hoi & Hl2 & _).
  rewrite (bind_ok _ _ _ _ _ E3). clear E3.
  assert (enc_portion p1 = Some (start, xo)) as Ep1.
  { apply (enc_portion_same p); try done; try lia.
    intros a j Haa Hj. destruct (Hxo a Haa). apply A1; lia. }
  destruct (seal_packet_focus c r (objs k) n Hi m (rtp_services x) (packet_iv (km_id m) y est) (enc_xtn_hdr x) start xo
    addr len (len + zlen mki) est x' o2 p1 evs1) as (o3 & p3 & res3 & E4 & Hok3 & Hl3 & Hz3 & HF3 & A3 & A312 & HS & HC);
    [done|done|done|lia|lia|lia|lia|lia|].
  assert (strm_step x0 x') as Hst'.
  { destruct Hx' as (_ & _ & _ & ->). exact Hst. }
  exists (focus c r (objs k) n x' o3 p3 evs1),
    (match res3 with inl st => inl st | inr _ =>
       inr (len + (if has_auth (rtp_services x) then km_tag m else 0) + (if use_mki then zlen mki else 0)) end).
  split; [unfold pbind; rewrite E4; by destruct res3|].
  split.
  { eapply protect_frame_focus; try done; [lia|..]; intros j Hj; [rewrite A3, A1 by lia|rewrite A312, A1 by lia]; done. }
  split.
  - intros len' Hres. destruct res3 as [|[]]; [done|]. injection Hres as <-. destruct (HS eq_refl) as (HS1 & HS2 & HS3 & HS4).
    exists est, x'. split; [done|]. split; [|split; [by apply stream_at_focus|split]].
    + apply (sealed_over _ _ _ _ _ _ p len p3 start xo); try done; fold mki; fold p1; try lia. intros j Hj. apply A3; lia.
    + intros Hroc. destruct (Hnp Hroc) as (Hix & cc & Hcc & Hdec). exists delta.
      destruct (decide _) as [Hd|]; [|done]. destruct Hdec as (_ & rx & Hrx & ->). exists rx.
      split_and!; try done. intros Hrep. by destruct Hd as [->|[_ ?]].
    + exists o3. split; [by apply store_focus|]. by rewrite Hl3, Hl2, Eo1.
  - intros e dl [_ Hroc Hix Hnew Hpre Hrm]. destruct (Hnp Hroc) as (Hix' & _). rewrite Hix in Hix'. simplify_eq.
    destruct res3 as [st3|]; [|by eexists]. discriminate HC; [done|]. intros Hc. by apply (Hrm start xo).
Qed.

Lemma protect_stream_run t ms addr use_mki mki_index y len r x s :
  ses_ok ms (ses s) -> stream_at (ses s) r = Some x -> packet_room_for t addr (pkt s) len -> tags_within SRTP_MAX_TAG_LEN ms ->
  trailer_within t use_mki ms (session_keys x) (rtp_services x) -> srtp_validate_rtp_header (pkt s) len = Some srtp_err_status_ok ->
  exists s' res, protect_stream addr use_mki mki_index y (pkt s) len r s = Some (s', res) /\
    protect_frame t ms (ses s) r x (pkt_octet_len s) (pkt s) len s' /\
    (forall len', res = inr len' -> exists k m est x',
      srtp_get_session_keys_with_mki_index x use_mki mki_index = Some k /\ ms !! objs k = Some m /\ fits 48 est /\
      sealed m (rtp_services x) (enc_xtn_hdr x) (mki_octets use_mki k) y est (pkt s) len (pkt s') len' /\
      stream_at (ses s') r = Some x' /\ recorded x (pkt s) est x' /\ counted (objs k) (ses s) (ses s')) /\
    (forall k m o est delta, srtp_get_session_keys_with_mki_index x use_mki mki_index = Some k ->
      ms !! objs k = Some m -> key_store (ses s) !! objs k = Some o -> can_send m o x y (pkt s) len est delta ->
      exists len', res = inr len').
Proof.
  intros Hses Hx Hroom Htags Hfit Hv. set (p := pkt s) in *.
  pose proof (ses_ok_stream _ _ _ _ Hses Hx) as Hwf. assert (is_Some (stream_at (ses s) r)) as Hr by done.
  set (keys := srtp_get_session_keys_with_mki_index x use_mki mki_index).
  assert (exists k, (keys_wf (length ms) k /\ k ∈ session_keys x) /\ (keys = None \/ keys = Some k)) as (k & [Hk Hin] & Hkeys).
  { destruct keys as [k|] eqn:Ek; [exists k; split; [by eapply mki_index_keys|by right]|].
    destruct (first_key _ _ Hwf) as (k & _ & Hk & Hin). exists k. auto. }
  destruct (ses_ok_objs ms (ses s) (objs k) k Hses Hk eq_refl) as (m & o & Hm & Ho & Hok).
  set (F := focus (ses s) r (objs k) (pkt_octet_len s)).
  replace (protect_stream addr use_mki mki_index y p len r s)
    with (protect_stream addr use_mki mki_index y p len r (F x o p (events s)))
    by (f_equal; symmetry; by apply focus_self).
  unfold protect_stream.
  destruct (check_direction_focus (ses s) r (objs k) (pkt_octet_len s) Hr dir_srtp_sender x o p (events s))
    as (d & evs & E1 & _). fold F in E1. rewrite (bind_ok _ _ _ _ _ E1). clear E1.
  rewrite (bind_ok _ _ _ _ _ (get_strm_focus (ses s) r (objs k) (pkt_octet_len s) Hr _ _ _ _)).
  change (srtp_get_session_keys_with_mki_index (with_direction x d) use_mki mki_index) with keys.
  assert (strm_wf ms (with_direction x d)) as Hwfd by (by apply strm_wf_direction).
  destruct Hkeys as [-> | ->].
  { eexists _, _. split; [done|]. split; [|split; [done|naive_solver]]. eapply protect_frame_focus; try done; apply Hroom. }
  destruct (protect_with_keys_focus t ms addr use_mki y len (ses s) r (pkt_octet_len s) k m (with_direction x d) x o p evs)
    as (s' & res & -> & Hf & HS & HC); try done; [by eapply Forall_lookup_1 in Htags|by apply Hfit|].
  exists s', res. split; [done|]. split; [done|]. split.
  - intros len' Hlen'. destruct (HS len' Hlen') as (est & x' & H1 & H2 & H3 & H4 & o' & H5 & H6). exists k, m, est, x'.
    split_and!; try done. intros o1 Ho1. rewrite Ho in Ho1. injection Ho1 as <-. by exists o'.
  - intros k' m' o' est delta [= <-] Hm' Ho' Hc. simplify_eq. apply (HC est delta). by destruct Hc.
Qed.

End Protect.
