(* ===== verification/SrtpUnprotect.v ===== *)
(** srtp_unprotect: it is safe on every packet, accepts only packets whose tag
    verifies and whose index is new, and undoes srtp_protect. *)

From S2P Require Import Prelude Err Prog SrtpTypes Replay Rdb Rdbx Key SrtpPolicy ByteOrder.
From S2P Require Import Sha1 Hmac Aes AesKeys AesIcm Cipher SrtpStream SrtpPacket SrtpRun SrtpXtn SrtpProcess.
From S2P Require Import SrtpSession SrtpProtect.

Section Unprotect.
Context `{BC : BlockCipher} `{LV : Locals}.

Section Open.
Context (c0 : srtp_ctx_t) (r : sref) (i : nat) (n : Z).
Context (Hr : is_Some (stream_at c0 r)) (Hi : is_Some (key_store c0 !! i)).
#[local] Abbreviation focus := (focus c0 r i n).

(** The portion to decrypt: refused when it starts behind [rest]. *)
Lemma unprotect_portion_focus addr s (p : list Z) rest st :
  Forall is_u8 p -> 0 <= rest <= zlen p -> 0 <= addr -> addr + zlen p < 2 ^ 32 ->
  forall start xo, enc_portion p = Some (start, xo) -> start <= zlen p ->
  unprotect_portion addr s p (u32 rest) st =
    Some (st, if has_conf s && negb (start <=? rest) then inl srtp_err_status_parse_err
              else inr (portion s start rest xo)).
Proof.
  intros HF Hl Ha Hb start xo Ep Hs. destruct (enc_portion_inside p start xo HF Ep) as (H12 & _); [lia|].
  unfold unprotect_portion, portion. destruct (has_conf s); [|done]. rewrite Ep. autorewrite with prog.
  rewrite (wrap_id 32 rest), (wrap_id 32 (addr + start)), (wrap_id 32 (addr + rest)) by (unfold fits; lia).
  replace (addr + start <=? addr + rest) with (start <=? rest) by (destruct (Z.leb_spec start rest); symmetry;
    [apply Z.leb_le; lia|apply Z.leb_gt; lia]).
  destruct (start <=? rest) eqn:E; cbn [negb andb]; unfold preturn_if; autorewrite with prog; [|done].
  bool_to_prop. by rewrite wrap_id by (unfold fits; lia).
Qed.

(** Decrypting what was encrypted restores the packet. *)
Lemma crypt_body_restores m s iv ids start xo addr len x o p q evs :
  objs_iv m iv (payload_pos m s) o -> Forall is_u8 q -> 0 <= start -> (has_conf s = true -> start <= len) -> len <= zlen p -> len <= zlen q -> len < 2 ^ 31 ->
  body_sealed m s iv ids xo start p len q ->
  (has_conf s = true -> room (km_rtp m) iv (payload_pos m s) (len - start) = true) ->
  exists o' q',
    (crypt_extension i ids (snd (portion s start len xo)) ;;
     match fst (portion s start len xo) with Some (start, n) => crypt_payload addr i start n | None => pret tt end)
      (focus x o q evs) = Some (focus x o' q' evs, inr tt) /\
    objs_ok m o' /\ limit o' = limit o /\ zlen q' = zlen q /\ Forall is_u8 q' /\
    take (Z.to_nat len) q' = take (Z.to_nat len) p /\ (forall j, len <= j < zlen q -> znth q' j = znth q j).
Proof.
  intros Hoi HF H0 Hs Hp Hq Hl31. unfold portion, body_sealed.
  destruct (has_conf s); [specialize (Hs eq_refl)|]; cbn [fst snd].
  2:{ intros Hb _. exists o, q. unfold crypt_extension. autorewrite with prog.
      rewrite (bind_ok _ _ _ _ _ (get_objs_focus c0 r i n Hi _ _ _ _)). autorewrite with prog.
      split_and!; try done. apply Hoi. }
  intros [Hb1 Hb2] Hroom.
  destruct (crypt_extension_restores c0 r i n Hi m iv (payload_pos m s) ids xo start x o p q q evs)
    as (o1 & q1 & E1 & Hok1 & Hl1 & Hc1 & Hz1 & HF1 & A1 & B1); [done|done|done|lia|done|].
  rewrite (bind_ok _ _ _ _ _ E1).
  destruct (crypt_payload_focus c0 r i n Hi m iv (payload_pos m s) addr start (len - start) x o1 q1 evs)
    as (o2 & res & E2 & Hok2 & Hl2 & Hres); [done|apply Hoi|rewrite Hc1; apply Hoi|done|lia|lia|lia|lia|].
  rewrite Hroom in E2, Hres by done. subst res.
  assert (take (Z.to_nat (len - start)) (drop (Z.to_nat start) q1) = take (Z.to_nat (len - start)) (drop (Z.to_nat start) q))
    as Eq by (apply block_ext; try lia; intros j Hj; apply B1; lia).
  rewrite Eq, Hb2, crypt_invol in E2. set (pt := take (Z.to_nat (len - start)) (drop (Z.to_nat start) p)) in *.
  assert (zlen pt = len - start) as Lp by (unfold pt; rewrite zlen_take, zlen_drop by lia; lia).
  assert (Forall is_u8 pt) as Fp.
  { rewrite <- (crypt_invol (km_rtp m) iv (payload_pos m s) pt), <- Hb2.
    eapply cipher_at_u8; [apply Hoi|apply Hoi|]. by apply Forall_take, Forall_drop. }
  eexists _, _. split; [exact E2|]. split; [done|]. split; [congruence|].
  split; [rewrite zlen_over; lia|]. split; [by apply over_u8|]. split.
  - apply prefix_ext; rewrite ?zlen_over by lia; try lia. intros j Hj. rewrite znth_over by lia. case_decide.
    + unfold pt. rewrite znth_take, znth_drop by lia. f_equal. lia.
    + apply A1. lia.
  - intros j Hj. rewrite znth_over_out by lia. apply B1. lia.
Qed.

(** The tag of a packet of [len] octets, of which [rest] are before tag and
    identifier, verifies. *)
Definition tag_verifies (m : keymat) (s : srtp_sec_serv_t) (iv : list Z) (est : Z) (p : list Z) (len rest : Z) : Prop :=
  has_auth s = true ->
  take (Z.to_nat (km_tag m)) (drop (Z.to_nat (len - km_tag m)) p) =
    packet_tag m iv (take (Z.to_nat rest) p ++ roc_octets est).

Lemma maybe_verify_focus m s iv len rest est x o p evs :
  objs_iv m iv 0 o -> Forall is_u8 p -> 0 <= rest -> rest <= len <= zlen p -> len < 2 ^ 28 -> 0 <= km_tag m <= 16 ->
  km_tag m <= len ->
  exists o' res, (if has_auth s then verify_tag i rest (len - km_tag m) (km_tag m) est else pret tt) (focus x o p evs) =
      Some (focus x o' p evs, res) /\
    objs_ok m o' /\ limit o' = limit o /\
    (res = inr tt -> tag_verifies m s iv est p len rest /\ objs_iv m iv (payload_pos m s) o') /\
    (tag_verifies m s iv est p len rest ->
     (has_auth s = true -> room (km_rtp m) iv 0 (prefix_of m) = true) -> res = inr tt).
Proof.
  intros Hoi HF H0 Hl Hl28 Htag Htl. unfold tag_verifies, payload_pos. destruct (has_auth s).
  2:{ exists o, (inr tt). split_and!; try done. apply Hoi. }
  destruct (verify_tag_focus c0 r i n Hi m iv rest (len - km_tag m) est x o p evs)
    as (o1 & res & E & Hok1 & Hl1 & HR); [done|done|lia|lia|lia|lia|lia|].
  exists o1, res. rewrite E. split_and!; try done.
  - intros ->. destruct (room _ _ _ _); [|done]. destruct HR as [Hoi1 HR]. case_decide; [|done]. by split.
  - intros Ht Hroom. rewrite Hroom in HR by done. destruct HR as [_ ->]. rewrite decide_True by auto. done.
Qed.

End Open.

Lemma objs_iv_limit m iv pos o l : objs_iv m iv pos o -> objs_iv m iv pos (with_limit o l).
Proof. intros [H1 H2 H3 H4]. split; try done. by apply objs_ok_limit. Qed.

Section Open.
Context (c0 : srtp_ctx_t) (r : sref) (n : Z) (k : srtp_session_keys_t) (m : keymat).
Context (Hr : is_Some (stream_at c0 r)) (Hi : is_Some (key_store c0 !! objs k)).
#[local] Abbreviation focus := (focus c0 r (objs k) n).

(** What [srtp_unprotect] asks of its caller, and its own checks of the
    header. *)
Record packet_in (addr : Z) (p : list Z) (len : Z) : Prop := {
  pi_u8 : Forall is_u8 p;
  pi_len : 0 <= len < 2 ^ 28;
  pi_zlen : len <= zlen p;
  pi_addr : 0 <= addr /\ addr + zlen p < 2 ^ 32
}.

(** A call on one stream: a failure leaves the stream as it was; before the
    tag has verified nothing but cipher states has changed; what is accepted has
    a tag that verifies and is decrypted. *)
Record opened (x : srtp_stream_ctx_t) (o : key_objs) (p : list Z) (evs : list (Z * srtp_event_t))
    (iv : list Z) (est len rest mki start : Z) (xo : option Z)
    (x' : srtp_stream_ctx_t) (o' : key_objs) (p' : list Z) (evs' : list (Z * srtp_event_t))
    (res : srtp_err_status_t + Z * Z) : Prop := {
  op_ok : objs_ok m o';
  op_zlen : zlen p' = zlen p;
  op_u8 : Forall is_u8 p';
  op_beyond : forall j, rest <= j < zlen p -> znth p' j = znth p j;
  op_dir : exists d, x' = with_direction x d;
  op_fail : forall st, res = inl st -> x' = x;
  op_value : forall v, res = inr v -> v = (km_tag m, mki) /\ tag_verifies m (rtp_services x) iv est p len rest /\
    (has_conf (rtp_services x) = true -> start <= rest) /\
    body_sealed m (rtp_services x) iv (enc_xtn_hdr x) xo start p rest p';
  op_forged : ~ tag_verifies m (rtp_services x) iv est p len rest ->
    p' = p /\ x' = x /\ evs' = evs /\ limit o' = limit o /\ exists st, res = inl st;
  op_restores : forall p0, body_sealed m (rtp_services x) iv (enc_xtn_hdr x) xo start p0 rest p -> rest <= zlen p0 ->
    tag_verifies m (rtp_services x) iv est p len rest -> (has_conf (rtp_services x) = true -> start <= rest) ->
    snd (srtp_key_limit_update (limit o)) <> srtp_key_event_hard_limit ->
    (has_auth (rtp_services x) = true -> room (km_rtp m) iv 0 (prefix_of m) = true) ->
    (has_conf (rtp_services x) = true -> room (km_rtp m) iv (payload_pos m (rtp_services x)) (rest - start) = true) ->
    res = inr (km_tag m, mki) /\ take (Z.to_nat rest) p' = take (Z.to_nat rest) p0
}.

Lemma unprotect_with_keys_focus addr y len est mki start xo x o p evs :
  objs_ok m o -> packet_in addr p len -> enc_portion p = Some (start, xo) -> start <= len ->
  0 <= km_tag m <= SRTP_MAX_TAG_LEN -> 0 <= mki -> 0 <= len - km_tag m - mki ->
  exists x' o' p' evs' res,
    unprotect_with_keys addr y p len r est x k mki (focus x o p evs) = Some (focus x' o' p' evs', res) /\
    opened x o p evs (packet_iv (km_id m) y est) est len (len - km_tag m - mki) mki start xo x' o' p' evs' res.
Proof.
  intros Hok [HF Hlen Hz [Ha0 Ha]] Ep Hsl Htag Hmki Hrest. unfold SRTP_MAX_TAG_LEN in Htag.
  set (rest := len - km_tag m - mki) in *. set (iv := packet_iv (km_id m) y est).
  destruct (enc_portion_inside p start xo HF Ep) as (H12 & _); [lia|]. unfold unprotect_with_keys.
  rewrite (bind_ok _ _ _ _ _ (get_objs_focus c0 r (objs k) n Hi _ _ _ _)).
  destruct (keyed_auth_lengths _ _ _ (oo_auth _ _ Hok)) as [-> _]. fold rest.
  destruct (set_ivs_focus c0 r (objs k) n Hi m x o p evs y est Hok) as (o1 & E1 & Hoi & Hl1 & _). fold iv in Hoi.
  rewrite (bind_ok _ _ _ _ _ E1). clear E1.
  pose proof (unprotect_portion_focus addr (rtp_services x) p rest (focus x o1 p evs) HF ltac:(lia) Ha0 Ha start xo Ep
    ltac:(lia)) as E2.
  destruct (has_conf (rtp_services x) && negb (start <=? rest)) eqn:Ec.
  { apply andb_true_iff in Ec as [Ec Es]. apply negb_true_iff, Z.leb_gt in Es.
    exists x, o1, p, evs, (inl srtp_err_status_parse_err). split; [unfold pbind at 1; by rewrite E2|].
    split; try done; [apply Hoi|by exists (direction x); destruct x|naive_solver|].
    intros p0 _ _ _ Hc. specialize (Hc Ec). lia. }
  rewrite (bind_ok _ _ _ _ _ E2). clear E2. rewrite (surjective_pairing (portion _ _ _ _)).
  assert (has_conf (rtp_services x) = true -> start <= rest) as Hsr.
  { intros Hc. rewrite Hc in Ec. apply negb_false_iff, Z.leb_le in Ec. done. }
  destruct (maybe_verify_focus c0 r (objs k) n Hi m (rtp_services x) iv len rest est x o1 p evs)
    as (o2 & res2 & E2 & Hok2 & Hl2 & HV & HW); [done|done|lia|lia|lia|lia|lia|].
  destruct res2 as [st|[]].
  { exists x, o2, p, evs, (inl st). split; [unfold pbind at 1; by rewrite E2|].
    split; try done; [by exists (direction x); destruct x|naive_solver congruence|].
    intros p0 _ _ Ht _ _ Hrm _. by specialize (HW Ht Hrm). }
  rewrite (bind_ok _ _ _ _ _ E2). clear E2. destruct (HV eq_refl) as [Ht Hoi2].
  destruct (use_key_focus c0 r (objs k) n Hr Hi x o2 p evs) as (o3 & evs3 & res3 & E3 & Eo3 & Hres3).
  assert (objs_iv m iv (payload_pos m (rtp_services x)) o3) as Hoi3 by (rewrite Eo3; by apply objs_iv_limit).
  rewrite Hl2, Hl1 in Hres3. destruct (decide _) as [Hhard|_]; subst res3.
  { exists x, o3, p, evs3, (inl srtp_err_status_key_expired). split; [unfold pbind at 1; by rewrite E3|].
    split; try done; [apply Hoi3|by exists (direction x); destruct x]. }
  rewrite (bind_ok _ _ _ _ _ E3). clear E3. rewrite <- bind_assoc.
  destruct (crypt_body_focus c0 r (objs k) n Hi m (rtp_services x) iv (enc_xtn_hdr x) start xo addr rest x o3 p evs3)
    as (o4 & p4 & res4 & E4 & Hok4 & Hl4 & Hz4 & HF4 & A4 & _ & B4 & _); [done|done|done|lia|done|lia|lia|].
  assert (forall p0, body_sealed m (rtp_services x) iv (enc_xtn_hdr x) xo start p0 rest p -> rest <= zlen p0 ->
    (has_conf (rtp_services x) = true -> room (km_rtp m) iv (payload_pos m (rtp_services x)) (rest - start) = true) ->
    res4 = inr tt /\ take (Z.to_nat rest) p4 = take (Z.to_nat rest) p0) as HR.
  { intros p0 Hb Hz0 Hrm. destruct (crypt_body_restores c0 r (objs k) n Hi m (rtp_services x) iv (enc_xtn_hdr x) start xo
      addr rest x o3 p0 p evs3) as (o5 & q' & E5 & _ & _ & _ & _ & Hq & _); try done; try lia.
    rewrite E5 in E4. injection E4 as _ Hpk <-. split; [done|]. by rewrite <- Hpk. }
  destruct res4 as [st|[]].
  { exists x, o4, p4, evs3, (inl st). split; [unfold pbind at 1; by rewrite E4|].
    split; try done; [by exists (direction x); destruct x|].
    intros p0 Hb Hz0 _ _ _ _ Hrm. by destruct (HR p0 Hb Hz0 Hrm). }
  rewrite (bind_ok _ _ _ _ _ E4). clear E4. specialize (B4 eq_refl).
  destruct (check_direction_focus c0 r (objs k) n Hr dir_srtp_receiver x o4 p4 evs3) as (d & evs5 & E5 & _).
  rewrite (bind_ok _ _ _ _ _ E5). exists (with_direction x d), o4, p4, evs5, (inr (km_tag m, mki)).
  split; [done|]. split; try done; [by exists d|intros v [= <-]; split_and!; try done; apply B4|].
  intros p0 Hb Hz0 _ _ _ _ Hrm. split; [done|]. by apply (HR p0 Hb Hz0 Hrm).
Qed.

End Open.

(** ** The keys and the stream of an incoming packet *)

(** Tags no longer than the shortest packet. *)
#[local] Abbreviation MAX_SAFE_TAG := octets_in_rtp_header.

(** The keys of a packet of [len] octets and the length of the identifier. *)
Definition keys_at (ms : list keymat) (use_mki : bool) (x : srtp_stream_ctx_t) (p : list Z) (len : Z)
    (k : srtp_session_keys_t) (m : keymat) (mki : Z) : Prop :=
  keys_wf (length ms) k /\ k ∈ session_keys x /\ ms !! objs k = Some m /\ 0 <= mki /\ 0 <= len - km_tag m - mki /\
  if use_mki then mki = mki_size k /\ take (Z.to_nat mki) (drop (Z.to_nat (len - km_tag m - mki)) p) = mki_id k
  else mki = 0 /\ aget (session_keys x) 0 = Some k.

Lemma inbound_keys_run ms use_mki x p len s :
  ses_ok ms (ses s) -> strm_wf ms x -> tags_within MAX_SAFE_TAG ms -> 12 <= len <= zlen p -> len < 2 ^ 28 ->
  exists res, inbound_keys use_mki x p len s = Some (s, res) /\
    (forall st, res = inl st -> st = srtp_err_status_bad_mki /\ use_mki = true) /\
    forall k mki, res = inr (k, mki) -> exists m, keys_at ms use_mki x p len k m mki.
Proof.
  intros Hses Hwf Htags Hl Hl28. destruct (first_key _ _ Hwf) as (k0 & E0 & Hk0 & Hin0).
  destruct (ses_ok_objs ms (ses s) (objs k0) k0 Hses Hk0 eq_refl) as (m0 & o0 & Hm0 & Ho0 & Hok0).
  assert (0 <= km_tag m0 <= 12) as Ht0 by (by eapply Forall_lookup_1 in Htags).
  unfold inbound_keys. rewrite E0. autorewrite with prog. destruct use_mki.
  2:{ exists (inr (k0, 0)). split; [done|]. split; [done|]. intros k mki [= <- <-]. exists m0.
      unfold keys_at. split_and!; try done; lia. }
  unfold get_objs. rewrite (bind_ok _ _ s s o0) by (by rewrite Ho0).
  destruct (keyed_auth_lengths _ _ _ (oo_auth _ _ Hok0)) as [-> _]. unfold srtp_get_session_keys.
  rewrite (wrap_id 32 len) by (unfold fits; lia). rewrite (proj2 (Z.ltb_ge _ _)) by lia.
  destruct (find_mki_spec (length ms) p (len - km_tag m0) (session_keys x)) as (f & -> & Hf); [apply Hwf|lia|].
  autorewrite with prog. destruct f as [[k sz]|]; [|eexists; split; [done|]; split; [by intros st [= <-]|done]].
  exists (inr (k, sz)). split; [done|]. split; [done|]. intros k' mki [= <- <-].
  destruct (Hf k sz eq_refl) as (Hk & Hin & Hsz & Hbnd & Hmki).
  destruct (ses_ok_objs ms (ses s) (objs k) k Hses Hk eq_refl) as (m & o & Hm & _). exists m.
  destruct (sw_tag _ _ Hwf) as [t Ht]. assert (km_tag m = km_tag m0) as Htt by (rewrite (Ht k m), (Ht k0 m0); done).
  unfold keys_at. rewrite Htt. split_and!; try done; lia.
Qed.

(** The call on the stream [x] at [r]: no keys, or one of the outcomes of
    [opened]. *)
Lemma unprotect_stream_run ms addr use_mki y len r est x s :
  ses_ok ms (ses s) -> stream_at (ses s) r = Some x -> packet_in addr (pkt s) len -> tags_within MAX_SAFE_TAG ms ->
  srtp_validate_rtp_header (pkt s) len = Some srtp_err_status_ok ->
  exists s' res, unprotect_stream addr use_mki y (pkt s) len r est s = Some (s', res) /\
    (s' = s /\ res = inl srtp_err_status_bad_mki /\ use_mki = true \/
     exists k m o mki start xo x' o' p' evs', keys_at ms use_mki x (pkt s) len k m mki /\
       key_store (ses s) !! objs k = Some o /\ enc_portion (pkt s) = Some (start, xo) /\ start <= len /\
       s' = focus (ses s) r (objs k) (pkt_octet_len s) x' o' p' evs' /\
       opened m x o (pkt s) (events s) (packet_iv (km_id m) y est) est len (len - km_tag m - mki) mki start xo
         x' o' p' evs' res).
Proof.
  intros Hses Hx Hpkt Htags Hv. pose proof (ses_ok_stream _ _ _ _ Hses Hx) as Hwf.
  pose proof Hpkt as [HF Hlen Hz _].
  destruct (validate_portion (pkt s) len HF ltac:(lia)) as (st' & Ev & _ & Hiff).
  rewrite Hv in Ev. simplify_eq. destruct (proj1 Hiff eq_refl) as (start & xo & Ep & Hs).
  destruct (enc_portion_inside (pkt s) start xo HF Ep) as (H12 & _); [lia|].
  unfold unprotect_stream, get_strm. rewrite (bind_ok _ _ s s x) by (by rewrite Hx).
  destruct (inbound_keys_run ms use_mki x (pkt s) len s) as (res & E & Hno & HK); [done|done|done|lia|lia|].
  destruct res as [st|[k mki]].
  { exists s, (inl st). split; [unfold pbind; by rewrite E|]. left. split; [done|].
    by destruct (Hno st eq_refl) as [-> ->]. }
  rewrite (bind_ok _ _ _ _ _ E). destruct (HK k mki eq_refl) as [m Hk]. pose proof Hk as (Hkw & _ & Hm & H0 & Hr & _).
  destruct (ses_ok_objs ms (ses s) (objs k) k Hses Hkw eq_refl) as (m' & o & Hm' & Ho & Hok). simplify_eq.
  destruct (unprotect_with_keys_focus (ses s) r (pkt_octet_len s) k m ltac:(done) ltac:(done) addr y len est mki start xo x o
    (pkt s) (events s)) as (x' & o' & p' & evs' & res & E' & Hop); try done.
  { unfold SRTP_MAX_TAG_LEN. eapply Forall_lookup_1 in Htags; [|done]. unfold octets_in_rtp_header in *. lia. }
  rewrite <- (focus_self (ses s) r (objs k) (pkt_octet_len s) s x o eq_refl eq_refl Hx Ho) in E'.
  eexists _, res. split; [exact E'|].
  right. exists k, m, o, mki, start, xo, x', o', p', evs'. by split_and!.
Qed.

(** The stream of a packet with the SSRC [y], and its index: a stream of the
    list accepts an index that is new, the template starts at the sequence
    number. *)
Definition inbound_at (c : srtp_ctx_t) (y : Z) (p : list Z) (r : sref) (x : srtp_stream_ctx_t) (adv : bool)
    (est delta : Z) : Prop :=
  stream_at c r = Some x /\ fits 48 est /\
  match r with
  | InList _ => srtp_get_stream c y = Some r /\
      (adv = false -> - rdbx_width (rtp_rdbx x) <= delta < 2 ^ 16 /\
        srtp_rdbx_check (rtp_rdbx x) delta = Some srtp_err_status_ok) /\
      (pending_roc x = 0 -> adv = false /\ srtp_rdbx_estimate_index (rtp_rdbx x) (wire16 p 2) = (est, delta))
  | Template => srtp_get_stream c y = None /\ adv = false /\ est = wire16 p 2 /\ delta = wire16 p 2
  end.

Lemma inbound_stream_run ms p y s :
  ses_ok ms (ses s) -> Forall is_u8 p -> 12 <= zlen p ->
  exists res, inbound_stream p y s = Some (s, res) /\
    (forall r adv est delta, res = inr (r, adv, est, delta) -> exists x, inbound_at (ses s) y p r x adv est delta) /\
    (forall r x est delta, stream_at (ses s) r = Some x -> pending_roc x = 0 -> inbound_at (ses s) y p r x false est delta ->
      res = inr (r, false, est, delta)).
Proof.
  intros Hses HF Hz. unfold inbound_stream. autorewrite with prog.
  destruct (srtp_get_stream (ses s) y) as [r|] eqn:Eg.
  - destruct (get_stream_Some _ _ _ Eg) as (j & x & -> & Hx & Hy).
    pose proof (ses_ok_stream _ _ _ _ Hses Hx) as Hwf.
    unfold get_strm. rewrite (bind_ok _ _ s s x) by (by rewrite Hx).
    destruct (est_pkt_index_spec p x) as (st & est & delta & E & He & Hp & Hc); [apply Hwf|apply Hwf|done|done|].
    rewrite E. autorewrite with prog. cbv beta iota.
    assert (forall r x' e d, stream_at (ses s) r = Some x' -> pending_roc x' = 0 ->
      inbound_at (ses s) y p r x' false e d -> r = InList j /\ x' = x /\ e = est /\ d = delta /\
      st = srtp_err_status_ok /\ srtp_rdbx_check (rtp_rdbx x) delta = Some srtp_err_status_ok) as Hconv.
    { intros r x' e d Hx' Hp0 (_ & _ & Hr). destruct r as [j'|]; [|naive_solver].
      destruct Hr as (Eg' & Hchk & Hix). rewrite Eg in Eg'. simplify_eq. destruct (Hix Hp0) as [_ Hix'].
      destruct (Hp Hp0) as [-> Hix2]. rewrite Hix2 in Hix'. simplify_eq. destruct (Hchk eq_refl). by split_and!. }
    destruct Hc as [[-> Hd]|[-> | ->]].
    + change (bool_decide (srtp_err_status_ok = srtp_err_status_pkt_idx_adv)) with false in *.
      cbn [is_err bool_decide decide negb andb]. autorewrite with prog.
      destruct (rdbx_check_total (rtp_rdbx x) delta) as (c & Ec & Hold & Hcs); [apply Hwf|lia|]. rewrite Ec.
      autorewrite with prog. destruct (decide (c = srtp_err_status_ok)) as [->|Hne].
      * exists (inr (InList j, false, est, delta)). split; [done|]. split.
        { intros r adv e d [= <- <- <- <-]. exists x. unfold inbound_at. split_and!; try done; [|naive_solver].
          intros _. split; [|done]. split; [by apply Hold|lia]. }
        intros r x' e d Hx' Hp0 Hin. destruct (Hconv r x' e d Hx' Hp0 Hin) as (-> & _ & -> & -> & _). done.
      * exists (inl c). split; [|split; [done|]].
        { unfold pcheck, is_err. by rewrite bool_decide_eq_true_2 by done. }
        intros r x' e d Hx' Hp0 Hin. destruct (Hconv r x' e d Hx' Hp0 Hin) as (_ & _ & _ & _ & _ & Hck). congruence.
    + exists (inr (InList j, true, est, delta)). split; [done|]. split.
      { intros r adv e d [= <- <- <- <-]. exists x. unfold inbound_at. split_and!; try done. naive_solver. }
      intros r x' e d Hx' Hp0 Hin. destruct (Hconv r x' e d Hx' Hp0 Hin) as (_ & _ & _ & _ & Hst & _). done.
    + exists (inl srtp_err_status_pkt_idx_old). split; [done|]. split; [done|].
      intros r x' e d Hx' Hp0 Hin. destruct (Hconv r x' e d Hx' Hp0 Hin) as (_ & _ & _ & _ & Hst & _). done.
  - destruct (stream_template (ses s)) as [t|] eqn:Et.
    + destruct (hdr_seq_Some p HF Hz) as [-> Hs]. autorewrite with prog.
      exists (inr (Template, false, wire16 p 2, wire16 p 2)). split; [done|]. split.
      * intros r adv e d [= <- <- <- <-]. exists t. unfold inbound_at. split_and!; try done. unfold fits in *. lia.
      * intros r x' e d Hx' Hp0 (_ & _ & Hin). destruct r as [j|]; [naive_solver congruence|naive_solver].
    + exists (inl srtp_err_status_no_ctx). split; [done|]. split; [done|].
      intros r x' e d Hx' Hp0 (_ & _ & Hin). destruct r as [j|]; [naive_solver congruence|]. simpl in Hx'. congruence.
Qed.

(** ** Recording the packet *)

Lemma ses_ok_set_stream ms c r x : ses_ok ms c -> strm_wf ms x -> ses_ok ms (set_stream c r x).
Proof.
  intros [Hs Hl Ht] Hx. destruct r as [j|]; split; simpl; try done; [by apply Forall_insert|by intros t [= <-]].
Qed.

Lemma ses_ok_cons ms c x : ses_ok ms c -> strm_wf ms x -> ses_ok ms (with_streams c (x :: stream_list c)).
Proof. intros [Hs Hl Ht] Hx. by split; simpl; [|constructor|]. Qed.

(** The index goes into the stream of the list. *)
Lemma add_packet_index_run ms j adv est delta x s :
  ses_ok ms (ses s) -> stream_list (ses s) !! j = Some x -> fits 48 est ->
  (adv = false -> - rdbx_width (rtp_rdbx x) <= delta < 2 ^ 16) ->
  exists x', add_packet_index (InList j) adv est delta s = Some (with_ses s (set_stream (ses s) (InList j) x'), inr tt) /\
    ses_ok ms (set_stream (ses s) (InList j) x') /\ indexed x x' /\
    (adv = false -> exists rx, srtp_rdbx_add_index (rtp_rdbx x) delta = Some (rx, srtp_err_status_ok) /\
      x' = with_rdbx x rx).
Proof.
  intros Hses Hx He Hd. assert (stream_at (ses s) (InList j) = Some x) as Hx' by done.
  pose proof (ses_ok_stream _ _ _ _ Hses Hx') as Hwf. destruct (first_key _ _ Hwf) as (k & _ & Hk & _).
  destruct (ses_ok_objs ms (ses s) (objs k) k Hses Hk eq_refl) as (m & o & _ & Ho & _).
  destruct (add_packet_index_focus (ses s) (InList j) (objs k) (pkt_octet_len s) ltac:(done) adv est delta x o (pkt s)
    (events s)) as (x' & E & Hix & Hrx); [apply Hwf|done|done|].
  rewrite <- (focus_self (ses s) _ (objs k) (pkt_octet_len s) s x o eq_refl eq_refl Hx' Ho) in E.
  exists x'. split; [|split; [|done]].
  - rewrite E. unfold focus, with_ses. do 3 f_equal. unfold with_store, set_stream, with_streams. simpl.
    by rewrite list_insert_id.
  - apply ses_ok_set_stream; [done|]. by eapply strm_wf_indexed.
Qed.

(** The stream of the list that records the packet, after a provisional use of
    the template. *)
Definition settled (ms : list keymat) (ok : Z -> bool) (y : Z) (c : srtp_ctx_t) (r : sref) (x : srtp_stream_ctx_t)
    (adv : bool) (delta : Z) (c' : srtp_ctx_t) (res : srtp_err_status_t + unit) : Prop :=
  match r with
  | InList j => res = inr tt /\ exists x', c' = set_stream c r x' /\ indexed x x' /\
      (adv = false -> exists rx, srtp_rdbx_add_index (rtp_rdbx x) delta = Some (rx, srtp_err_status_ok) /\
        x' = with_rdbx x rx)
  | Template => ((forall i, ok i = true) -> res = inr tt) /\
      match res with
      | inl _ => c' = c
      | inr _ => exists new rx, c' = with_streams c (with_rdbx new rx :: stream_list c) /\ strm_wf ms new /\
          srtp_rdbx_add_index (rtp_rdbx new) delta = Some (rx, srtp_err_status_ok) /\ ssrc new = y /\
          session_keys new = session_keys x /\ rtp_services new = rtp_services x /\ enc_xtn_hdr new = enc_xtn_hdr x /\
          direction new = direction x /\ pending_roc new = 0 /\ empty_rdbx new
      end
  end.

Lemma finish_run ms ok r y adv est delta x s :
  ses_ok ms (ses s) -> stream_at (ses s) r = Some x -> fits 48 est ->
  (adv = false -> - rdbx_width (rtp_rdbx x) <= delta < 2 ^ 16) ->
  match r with InList _ => True | Template => adv = false /\ 0 <= delta end ->
  exists c' res, (let* r := settle_stream ok r y in add_packet_index r adv est delta) s = Some (with_ses s c', res) /\
    ses_ok ms c' /\ key_store c' = key_store (ses s) /\ settled ms ok y (ses s) r x adv delta c' res.
Proof.
  intros Hses Hx He Hd Ht. destruct r as [j|]; unfold settle_stream.
  - autorewrite with prog. destruct (add_packet_index_run ms j adv est delta x s Hses Hx He Hd) as (x' & E & Hok & Hix & Hrx).
    exists (set_stream (ses s) (InList j) x'), (inr tt). rewrite E. split_and!; try done. split; [done|]. by exists x'.
  - destruct Ht as [-> Hd0]. specialize (Hd eq_refl). autorewrite with prog.
    unfold get_strm. rewrite (bind_ok _ _ s s x) by (by rewrite Hx).
    destruct (clone_spec ok ms x y) as (st & new & E & Hall & Hn); [by eapply ses_ok_stream|]. rewrite E.
    autorewrite with prog. cbv beta iota. destruct new as [new|].
    + destruct Hn as (-> & Hw & Hy & Hk & Hsv & Hxe & Hdi & Hp & Hwd & Hem). autorewrite with prog.
      set (s1 := with_ses s (with_streams (ses s) (new :: stream_list (ses s)))).
      destruct (add_packet_index_run ms 0 false est delta new s1) as (x' & E1 & Hok & Hix & Hrx);
        [by apply ses_ok_cons|done|done|intros _; lia|].
      destruct (Hrx eq_refl) as (rx & Erx & ->).
      exists (set_stream (ses s1) (InList 0) (with_rdbx new rx)), (inr tt). rewrite E1. split_and!; try done.
      split; [done|]. exists new, rx. split_and!; done.
    + exists (ses s), (inl st). split; [unfold pcheck; rewrite Hn; by destruct s|]. split_and!; try done.
      split; [|done]. intros H. by destruct (Hall H).
Qed.

(** ** The whole call *)

(** The outcomes of a call: refused with nothing changed, or processed on a
    stream and then recorded. *)
Definition refused (use_mki : bool) (s s' : pstate) (res : srtp_err_status_t + unit) : Prop :=
  s' = s /\ (exists st, res = inl st) /\
  (use_mki = false -> srtp_validate_rtp_header (pkt s) (pkt_octet_len s) = Some srtp_err_status_ok ->
   forall y r x est delta, hdr_ssrc (pkt s) = Some y -> pending_roc x = 0 -> ~ inbound_at (ses s) y (pkt s) r x false est delta).

Definition processed (ms : list keymat) (ok : Z -> bool) (use_mki : bool) (s s' : pstate)
    (res : srtp_err_status_t + unit) : Prop :=
  exists y r x adv est delta k m o mki start xo x' o' p' evs' res0,
    let len := pkt_octet_len s in
    let f := focus (ses s) r (objs k) len x' o' p' evs' in
    hdr_ssrc (pkt s) = Some y /\ inbound_at (ses s) y (pkt s) r x adv est delta /\
    keys_at ms use_mki x (pkt s) len k m mki /\ key_store (ses s) !! objs k = Some o /\
    enc_portion (pkt s) = Some (start, xo) /\ start <= len /\
    opened m x o (pkt s) (events s) (packet_iv (km_id m) y est) est len (len - km_tag m - mki) mki start xo
      x' o' p' evs' res0 /\
    match res0 with
    | inl st => s' = f /\ res = inl st
    | inr _ => exists c' res1, settled ms ok y (ses f) r x' adv delta c' res1 /\ res = res1 /\
        s' = match res1 with inl st => with_ses f c' | inr _ => with_len (with_ses f c') (len - km_tag m - mki) end
    end.

Lemma hdr_ssrc_Some p : Forall is_u8 p -> 12 <= zlen p -> is_Some (hdr_ssrc p).
Proof. intros HF Hz. unfold hdr_ssrc, get32. rewrite !get16_Some by (done || lia). by eexists. Qed.

Lemma srtp_unprotect_run ms addr ok use_mki s :
  ses_ok ms (ses s) -> packet_in addr (pkt s) (pkt_octet_len s) -> tags_within MAX_SAFE_TAG ms ->
  exists s' res, srtp_unprotect_mki addr ok use_mki s = Some (s', res) /\
    ses_ok ms (ses s') /\ zlen (pkt s') = zlen (pkt s) /\ Forall is_u8 (pkt s') /\
    (refused use_mki s s' res \/ processed ms ok use_mki s s' res).
Proof.
  intros Hses Hpkt Htags. pose proof Hpkt as [HF Hlen Hz _]. unfold srtp_unprotect_mki. autorewrite with prog.
  set (p := pkt s) in *. set (len := pkt_octet_len s) in *.
  destruct (validate_portion p len HF ltac:(lia)) as (st & Ev & Hst & Hiff). rewrite Ev. autorewrite with prog.
  destruct Hst as [-> | ->]; autorewrite with prog.
  2:{ exists s, (inl srtp_err_status_bad_param). split_and!; try done. left. split_and!; try done; [by eexists|].
      intros _ Hv. fold p len in Hv. congruence. }
  destruct (proj1 Hiff eq_refl) as (start & xo & Ep & Hs).
  destruct (enc_portion_inside p start xo HF Ep) as (H12 & _); [lia|]. unfold octets_in_rtp_header.
  rewrite (proj2 (Z.ltb_ge _ _)) by lia. unfold preturn_if. autorewrite with prog.
  destruct (hdr_ssrc_Some p) as [y Hy]; [done|lia|]. rewrite Hy. autorewrite with prog.
  destruct (inbound_stream_run ms p y s) as (res1 & E1 & Hin & Hconv); [done|done|lia|].
  destruct res1 as [st1|[[[r adv] est] delta]].
  { exists s, (inl st1). split; [unfold pbind at 1; by rewrite E1|]. split_and!; try done. left.
    split_and!; try done; [by eexists|]. intros _ _ y' r x est delta Hy' Hp0 Hx. fold p in Hy', Hx. simplify_eq.
    specialize (Hconv r x est delta (proj1 Hx) Hp0 Hx). done. }
  rewrite (bind_ok _ _ _ _ _ E1). destruct (Hin r adv est delta eq_refl) as [x Hx].
  destruct (unprotect_stream_run ms addr use_mki y len r est x s) as (s2 & res2 & E2 & Hout);
    [done|apply Hx|done|done|done|]. fold p in E2, Hout.
  destruct Hout as [(-> & -> & ->)|(k & m & o & mki & start' & xo' & x' & o' & p' & evs' & Hk & Ho & Ep' & Hs' & -> & Hop)].
  { exists s, (inl srtp_err_status_bad_mki). split; [unfold pbind at 1; by rewrite E2|]. split_and!; try done. left.
    split_and!; try done. by eexists. }
  set (f := focus (ses s) r (objs k) (pkt_octet_len s) x' o' p' evs') in *.
  assert (is_Some (stream_at (ses s) r)) as Hr by (destruct Hx as [Hx _]; done).
  assert (ses_ok ms (ses f)) as Hsf.
  { destruct (op_dir _ _ _ _ _ _ _ _ _ _ _ _ _ _ _ _ _ Hop) as [d Hd]. destruct Hk as (_ & _ & Hm & _).
    eapply ses_ok_focus; try done; [|apply Hop]. rewrite Hd. apply strm_wf_direction. eapply ses_ok_stream; [done|apply Hx]. }
  assert (zlen p' = zlen p /\ Forall is_u8 p') as [Hzp HFp] by (split; apply Hop).
  destruct res2 as [st2|v].
  { exists f, (inl st2). split; [unfold pbind at 1; by rewrite E2|]. split_and!; try done. right.
    exists y, r, x, adv, est, delta, k, m, o, mki, start', xo', x', o', p', evs', (inl st2). by split_and!. }
  rewrite (bind_ok _ _ _ _ _ E2). destruct (op_value _ _ _ _ _ _ _ _ _ _ _ _ _ _ _ _ _ Hop v eq_refl) as [-> _].
  rewrite <- bind_assoc.
  assert (rtp_rdbx x' = rtp_rdbx x) as Hrx.
  { by destruct (op_dir _ _ _ _ _ _ _ _ _ _ _ _ _ _ _ _ _ Hop) as [d ->]. }
  pose proof (proj1 (hdr_seq_Some p HF ltac:(lia))) as Hsq. pose proof (proj2 (hdr_seq_Some p HF ltac:(lia))) as Hu16.
  pose proof (bitvector_ok_length _ (proj1 (sw_rdbx _ _ (ses_ok_stream _ _ _ _ Hses (proj1 Hx))))) as Hbl.
  unfold fits in Hu16.
  destruct (finish_run ms ok r y adv est delta x' f) as (c' & res3 & E3 & Hc' & _ & Hset); [done| |apply Hx| | |].
  { by apply stream_at_focus. }
  { rewrite Hrx. unfold rdbx_width. intros ->. destruct Hx as (_ & _ & Hx). destruct r; [by apply Hx|].
    destruct Hx as (_ & _ & _ & ->). lia. }
  { destruct r; [done|]. destruct Hx as (_ & _ & _ & -> & _ & ->). split; [done|lia]. }
  exists (match res3 with inl st => with_ses f c' | inr _ => with_len (with_ses f c') (len - km_tag m - mki) end), res3.
  split; [unfold pbind at 1; rewrite E3; by destruct res3 as [|[]]|].
  split; [by destruct res3|]. split; [by destruct res3|]. split; [by destruct res3|]. right.
  exists y, r, x, adv, est, delta, k, m, o, mki, start', xo', x', o', p', evs', (inr (km_tag m, mki)). split_and!; try done.
  by exists c', res3.
Qed.

End Unprotect.
