(* ===== verification/SrtcpRun.v ===== *)
(** The steps of SRTCP processing on one stream and one set of keys. *)

From S2P Require Import Prelude Err Prog SrtpTypes Replay Rdb Rdbx Key SrtpPolicy ByteOrder.
From S2P Require Import Sha1 Hmac Aes AesKeys AesIcm Cipher SrtpStream SrtpPacket SrtpRun SrtpXtn SrtpProcess.
From S2P Require Import SrtpSession SrtpProtect SrtpUnprotect Srtcp.

Section Steps.
Context `{BC : BlockCipher} `{LV : Locals}.

Lemma rtcp_iv_block id x seq_num : is_block (rtcp_iv id x seq_num).
Proof.
  unfold rtcp_iv. case_match; (split; [rewrite !zlen_app, ?zlen_be_octets; try done|]).
  - rewrite !Forall_app. split_and!; [by apply Forall_replicate|apply Forall_rev, be_octets_u8|apply be_octets_u8..].
  - rewrite Forall_app. split; [by apply Forall_replicate|apply be_octets_u8].
Qed.

(** Start and compute with the whole message. *)
Lemma auth_once k tag a msg result :
  keyed_auth k tag a -> Forall is_u8 msg -> zlen msg < 2 ^ 28 -> 0 <= tag <= zlen result ->
  exists st a1 a2, srtp_auth_start a = (st, a1) /\
    srtp_auth_compute a1 msg (zlen msg) result = Some (srtp_err_status_ok, a2,
      tag_of k tag msg (take (Z.to_nat tag) result) ++ drop (Z.to_nat tag) result) /\
    keyed_auth k tag a2.
Proof.
  destruct k as [key|], a as [|a]; cbn [keyed_auth]; try done.
  2:{ intros -> **. eexists _, _, _. simpl. by rewrite take_drop. }
  intros (Hk & HFk & Hlk & Ht & Ht20 & Hp) HF Hl Hr. unfold srtp_auth_start.
  destruct (hmac_start_keyed _ _ Hk) as (s1 & -> & H1).
  destruct (srtp_hmac_compute_ok W0 W0_len W1 s1 key [] msg tag result)
    as (s3 & result' & E3 & Hres & Hop & Hin); [apply W1_len|done|done|done|constructor|done|lia|change (zlen []) with 0; lia|lia|lia|].
  eexists _, _, _. split; [done|]. simpl. rewrite Ht, E3. simpl. subst result'. split; [done|]. simpl. split_and!; try done.
  destruct H1 as [Ho Hi _]. split; [congruence|by rewrite Hin].
Qed.

(** The tag of a message, and the key stream in its place before. *)
Definition rtcp_tag (m : keymat) (iv msg : list Z) : list Z :=
  tag_of (km_cauth m) (km_ctag m) msg (crypt (km_rtcp m) iv 0 (replicate (Z.to_nat (km_ctag m)) 0)).

Definition rtcp_prefix (m : keymat) : Z := prefix_length (km_cauth m) (km_ctag m).

(** The RTCP cipher has been given [iv] and is at [pos]. *)
Record rtcp_at (m : keymat) (iv : list Z) (pos : Z) (o : key_objs) : Prop := {
  ra_ok : objs_ok m o;
  ra_block : is_block iv;
  ra_cipher : cipher_at (km_rtcp m) iv pos (rtcp_cipher o)
}.

Lemma objs_ok_rtcp m o c :
  objs_ok m o -> keyed_cipher (km_rtcp m) c -> cipher_type_id c = cipher_type_id (rtcp_cipher o) ->
  objs_ok m (with_rtcp_cipher o c).
Proof. intros [] Hc Hid. split; simpl; congruence || done. Qed.

Lemma objs_ok_cauth m o a : objs_ok m o -> keyed_auth (km_cauth m) (km_ctag m) a -> objs_ok m (with_rtcp_auth o a).
Proof. intros [] Ha. by split. Qed.

Lemma rtcp_prefix_bounds m n : 0 <= km_ctag m <= n -> 0 <= rtcp_prefix m <= n.
Proof. unfold rtcp_prefix, prefix_length. destruct (km_cauth m); lia. Qed.

Context (c0 : srtp_ctx_t) (r : sref) (i : nat) (n : Z).
Context (Hr : is_Some (stream_at c0 r)) (Hi : is_Some (key_store c0 !! i)).
#[local] Abbreviation focus := (focus c0 r i n).

Ltac run :=
  repeat first
    [ progress autorewrite with prog
    | rewrite (bind_ok _ _ _ _ _ (get_strm_focus c0 r i n Hr _ _ _ _))
    | rewrite (bind_ok _ _ _ _ _ (get_objs_focus c0 r i n Hi _ _ _ _))
    | rewrite (bind_ok _ _ _ _ _ (put_strm_focus c0 r i n _ _ _ _ _))
    | rewrite (bind_ok _ _ _ _ _ (put_objs_focus c0 r i n _ _ _ _ _))
    | rewrite (bind_ok _ _ _ _ _ (put_pkt_focus c0 r i n _ _ _ _ _)) ].

Lemma set_rtcp_iv_focus m x o p evs y seq_num :
  objs_ok m o ->
  exists o', set_rtcp_iv i y seq_num (focus x o p evs) = Some (focus x o' p evs, inr tt) /\
    rtcp_at m (rtcp_iv (km_cid m) y seq_num) 0 o' /\ rtcp_auth o' = rtcp_auth o.
Proof.
  intros Hok. unfold set_rtcp_iv. run. rewrite (oo_cid _ _ Hok).
  pose proof (rtcp_iv_block (km_cid m) y seq_num) as Hb. set (iv := rtcp_iv _ _ _) in *.
  destruct (cipher_set_iv_ok _ _ iv (oo_rtcp _ _ Hok) Hb) as (c & -> & Hc & Hid). run. cbv beta iota. run.
  exists (with_rtcp_cipher o c). split; [done|]. split; [|done]. split; [|done|done].
  apply objs_ok_rtcp; [done|by eapply cipher_at_keyed|done].
Qed.

(** The prefix goes where the tag will be. *)
Lemma put_rtcp_prefix_focus m iv addr tag x o p evs :
  rtcp_at m iv 0 o -> Forall is_u8 p -> 0 <= tag -> 0 <= km_ctag m < 2 ^ 31 -> tag + km_ctag m <= zlen p ->
  exists o' pre res, put_rtcp_prefix addr i tag (focus x o p evs) = Some (focus x o' (over p tag pre) evs, res) /\
    objs_ok m o' /\ rtcp_auth o' = rtcp_auth o /\ zlen pre = rtcp_prefix m /\ Forall is_u8 pre /\
    if room (km_rtcp m) iv 0 (rtcp_prefix m)
    then res = inr tt /\ rtcp_at m iv (rtcp_prefix m) o' /\
         pre = crypt (km_rtcp m) iv 0 (replicate (Z.to_nat (rtcp_prefix m)) 0)
    else res = inl srtp_err_status_cipher_fail.
Proof.
  intros [Hok Hiv Hat] HF Ht Htag Hz. unfold put_rtcp_prefix. run.
  destruct (keyed_auth_lengths _ _ _ (oo_cauth _ _ Hok)) as [_ ->]. fold (rtcp_prefix m).
  pose proof (rtcp_prefix_bounds m (km_ctag m) ltac:(lia)) as Hp.
  destruct (cipher_output_at (addr + tag) (km_rtcp m) iv 0 (rtcp_cipher o) (drop (Z.to_nat tag) p) (rtcp_prefix m))
    as (st & c & buf & E & Hzb & HFb & Hid & HR);
    [done|done|by apply Forall_drop|rewrite zlen_drop by lia; lia|lia|].
  cbn [pkt SrtpRun.focus]. rewrite E. run. cbv beta iota. run.
  set (z := replicate (Z.to_nat (rtcp_prefix m)) 0) in *.
  assert (zlen z = rtcp_prefix m) as Lz by (unfold z; rewrite zlen_replicate; lia).
  set (pre := if room (km_rtcp m) iv 0 (rtcp_prefix m) then crypt (km_rtcp m) iv 0 z else z).
  assert (zlen pre = rtcp_prefix m) as Lp by (unfold pre; destruct (room _ _ _ _); rewrite ?zlen_crypt; done).
  assert (Forall is_u8 pre) as Fp.
  { unfold pre. destruct (room _ _ _ _); [eapply cipher_at_u8; [done..|]|]; by apply Forall_replicate. }
  assert (buf = pre ++ drop (Z.to_nat (rtcp_prefix m)) (drop (Z.to_nat tag) p)) as Eb
    by (unfold pre; destruct (room _ _ _ _); apply HR).
  assert (keyed_cipher (km_rtcp m) c) as Hk.
  { destruct (room (km_rtcp m) iv 0 (rtcp_prefix m)); destruct HR as (_ & HR & _); [|subst c]; by eapply cipher_at_keyed. }
  assert (objs_ok m (with_rtcp_cipher o c)) as Hok' by (by apply objs_ok_rtcp).
  exists (with_rtcp_cipher o c), pre, (if room (km_rtcp m) iv 0 (rtcp_prefix m) then inr tt else inl srtp_err_status_cipher_fail).
  rewrite Eb, over_tail by lia. split; [destruct (room _ _ _ _); by destruct HR as (-> & _)|]. split_and!; try done.
  unfold pre in *. destruct (room (km_rtcp m) iv 0 (rtcp_prefix m)); [|done].
  destruct HR as (-> & Hat' & _). split; [done|]. split; [|done]. by split.
Qed.

(** Encrypting [len] octets from [start]. *)
Lemma crypt_rtcp_focus m iv pos addr start len x o p evs :
  rtcp_at m iv pos o -> Forall is_u8 p -> 0 <= start -> 0 <= len -> start + len <= zlen p -> len < 2 ^ 31 ->
  exists o' res, crypt_rtcp addr i start len (focus x o p evs) =
      Some (focus x o' (if room (km_rtcp m) iv pos len
                        then over p start (crypt (km_rtcp m) iv pos (take (Z.to_nat len) (drop (Z.to_nat start) p)))
                        else p) evs, res) /\
    objs_ok m o' /\ res = (if room (km_rtcp m) iv pos len then inr tt else inl srtp_err_status_cipher_fail).
Proof.
  intros [Hok Hiv Hat] HF Hs Hl Hz Hl31. unfold crypt_rtcp. run.
  destruct (cipher_encrypt_at (addr + start) (km_rtcp m) iv pos (rtcp_cipher o) (drop (Z.to_nat start) p) len)
    as (st & c & buf & E & Hid & HR);
    [done|done|by apply Forall_drop|rewrite zlen_drop by lia; lia|done|].
  cbn [pkt SrtpRun.focus]. rewrite E. run. cbv beta iota. run. destruct (room (km_rtcp m) iv pos len).
  - destruct HR as (-> & Hat' & ->). change (is_err srtp_err_status_ok) with false.
    eexists _, _. split; [|split; [by apply objs_ok_rtcp; [|by eapply cipher_at_keyed|]|done]].
    unfold preturn_if, pret. do 3 f_equal. unfold over.
    rewrite zlen_crypt, zlen_take, zlen_drop by lia. rewrite drop_drop. do 3 f_equal. lia.
  - destruct HR as (-> & -> & ->). change (is_err srtp_err_status_terminus) with true.
    eexists _, _. split; [|split; [by apply objs_ok_rtcp; [|by eapply cipher_at_keyed|]|done]].
    unfold preturn_if, preturn. by rewrite take_drop.
Qed.

(** The tag over the first [len] octets. *)
Lemma compute_rtcp_tag_focus m len result x o p evs :
  objs_ok m o -> Forall is_u8 p -> 0 <= len <= zlen p -> len < 2 ^ 28 -> 0 <= km_ctag m <= zlen result ->
  exists o', compute_rtcp_tag i len result (focus x o p evs) =
      Some (focus x o' p evs, inr (srtp_err_status_ok,
        tag_of (km_cauth m) (km_ctag m) (take (Z.to_nat len) p) (take (Z.to_nat (km_ctag m)) result) ++
        drop (Z.to_nat (km_ctag m)) result)) /\
    objs_ok m o' /\ rtcp_cipher o' = rtcp_cipher o.
Proof.
  intros Hok HF Hl Hl28 Htag. unfold compute_rtcp_tag. run. cbn [pkt SrtpRun.focus].
  assert (zlen (take (Z.to_nat len) p) = len) as Hzl by (rewrite zlen_take by lia; lia).
  destruct (auth_once (km_cauth m) (km_ctag m) (rtcp_auth o) (take (Z.to_nat len) p) result)
    as (st & a1 & a2 & -> & E & Hk); [apply Hok|by apply Forall_take|lia|lia|].
  rewrite Hzl in E. rewrite slice_Some by lia. change (Z.to_nat 0) with 0%nat. rewrite drop_0. run. rewrite E. run. cbv beta iota. run.
  exists (with_rtcp_auth o a2). split; [done|]. split; [by apply objs_ok_cauth|done].
Qed.

Lemma zlen_rtcp_tag m o msg prefix :
  objs_ok m o -> 0 <= km_ctag m -> zlen prefix = km_ctag m -> zlen (tag_of (km_cauth m) (km_ctag m) msg prefix) = km_ctag m.
Proof. intros Hok H0. apply (zlen_tag_of _ _ (rtcp_auth o)); [apply Hok|done]. Qed.

Lemma put_rtcp_tag_focus m len tag x o p evs :
  objs_ok m o -> Forall is_u8 p -> 0 <= len <= zlen p -> len < 2 ^ 28 -> 0 <= tag -> 0 <= km_ctag m -> tag + km_ctag m <= zlen p ->
  exists o', put_rtcp_tag i len tag (focus x o p evs) =
      Some (focus x o' (over p tag (tag_of (km_cauth m) (km_ctag m) (take (Z.to_nat len) p)
              (take (Z.to_nat (km_ctag m)) (drop (Z.to_nat tag) p)))) evs, inr tt) /\ objs_ok m o'.
Proof.
  intros Hok HF Hl Hl28 Ht Htag Hz. unfold put_rtcp_tag. run. cbn [pkt SrtpRun.focus].
  destruct (compute_rtcp_tag_focus m len (drop (Z.to_nat tag) p) x o p evs) as (o' & E & Hok' & _);
    [done|done|lia|lia|rewrite zlen_drop by lia; lia|].
  rewrite (bind_ok _ _ _ _ _ E). run. exists o'. rewrite over_tail; [done|lia|lia|].
  eapply zlen_rtcp_tag; [done|done|]. rewrite zlen_take, zlen_drop by lia. lia.
Qed.

(** Verification compares with the octets at [tag].  Null authentication
    compares with what is on the stack. *)
Definition rtcp_verifies (m : keymat) (p : list Z) (len tag : Z) : Prop :=
  take (Z.to_nat (km_ctag m)) (drop (Z.to_nat tag) p) =
    tag_of (km_cauth m) (km_ctag m) (take (Z.to_nat len) p) (take (Z.to_nat (km_ctag m)) tmp_tag0).

Lemma verify_rtcp_tag_focus m iv pos len tag x o p evs :
  rtcp_at m iv pos o -> Forall is_u8 p -> 0 <= len <= zlen p -> len < 2 ^ 28 -> 0 <= tag -> 0 <= km_ctag m <= 16 ->
  tag + km_ctag m <= zlen p ->
  exists o' res, verify_rtcp_tag i len tag (km_ctag m) (focus x o p evs) = Some (focus x o' p evs, res) /\
    rtcp_at m iv pos o' /\
    (rtcp_verifies m p len tag -> res = inr tt) /\ (~ rtcp_verifies m p len tag -> res = inl srtp_err_status_auth_fail).
Proof.
  intros [Hok Hiv Hat] HF Hl Hl28 Ht Htag Hz. unfold verify_rtcp_tag.
  destruct (compute_rtcp_tag_focus m len tmp_tag0 x o p evs) as (o' & E & Hok' & Hc'); [done|done|lia|lia|rewrite tmp_tag0_len; lia|].
  rewrite (bind_ok _ _ _ _ _ E). run. cbn [pkt SrtpRun.focus]. rewrite slice_Some by lia. run. unfold rtcp_verifies.
  set (t := tag_of _ _ _ _). assert (zlen t = km_ctag m) as Lt.
  { eapply zlen_rtcp_tag; [done|lia|]. rewrite zlen_take, tmp_tag0_len by lia. lia. }
  rewrite octet_string_is_eq_spec; first last.
  { rewrite zlen_take, zlen_drop by lia. lia. }
  { rewrite zlen_app, zlen_drop, tmp_tag0_len, Lt by (rewrite ?tmp_tag0_len; lia). lia. }
  { by apply Forall_take, Forall_drop. }
  { apply Forall_app. split; [apply tag_of_u8, Forall_take, tmp_tag0_u8|apply Forall_drop, tmp_tag0_u8]. }
  run. rewrite take_app_length', take_take, Nat.min_id by (unfold zlen in Lt; lia). unfold preturn_if.
  exists o', (if decide (take (Z.to_nat (km_ctag m)) (drop (Z.to_nat tag) p) = t) then inr tt else inl srtp_err_status_auth_fail).
  split; [by repeat case_decide; try congruence|]. split; [split; [done|done|by rewrite Hc']|].
  split; intros Hv; [by rewrite decide_True|by rewrite decide_False].
Qed.

End Steps.
