(* ===== verification/SrtcpProtect.v ===== *)
(** srtp_protect_rtcp: it is safe on every session with initialised keys and
    builds the SRTCP packet of RFC 3711. *)

From S2P Require Import Prelude Err Prog SrtpTypes Replay Rdb Rdbx Key SrtpPolicy ByteOrder.
From S2P Require Import Sha1 Hmac Aes AesKeys AesIcm Cipher SrtpStream SrtpPacket SrtpRun SrtpXtn SrtpProcess.
From S2P Require Import SrtpSession SrtpProtect SrtpUnprotect Srtcp SrtcpRun.

Section Protect.
Context `{BC : BlockCipher} `{LV : Locals}.

(** The word behind the packet: flag and index. *)
Definition trailer_word (conf : bool) (seq_num : Z) : Z := (if conf then 2 ^ 31 else 0) + seq_num.

(** The key stream is long enough for prefix and packet. *)
Definition rtcp_rooms (m : keymat) (conf : bool) (iv : list Z) (len : Z) : Prop :=
  room (km_rtcp m) iv 0 (rtcp_prefix m) = true /\
  (conf = true -> room (km_rtcp m) iv (rtcp_prefix m) (len - octets_in_rtcp_header) = true).

(** Octets behind the header, encrypted when [conf]. *)
Definition rtcp_body (m : keymat) (conf : bool) (iv : list Z) (p : list Z) (len : Z) (q : list Z) : Prop :=
  take (Z.to_nat (len - octets_in_rtcp_header)) (drop (Z.to_nat octets_in_rtcp_header) q) =
    (if conf then crypt (km_rtcp m) iv (rtcp_prefix m) else id)
      (take (Z.to_nat (len - octets_in_rtcp_header)) (drop (Z.to_nat octets_in_rtcp_header) p)).

(** The [len'] octets of [q] are the SRTCP packet with index [seq_num] for the
    [len] octets of the RTCP packet [p]: the header, the encrypted octets, flag
    and index, the key identifier, and the tag over everything up to the
    index. *)
Record rtcp_sealed (m : keymat) (conf : bool) (mki : list Z) (y seq_num : Z) (p : list Z) (len : Z)
    (q : list Z) (len' : Z) : Prop := {
  rs_len : len' = len + srtcp_trailer_t + zlen mki + km_ctag m;
  rs_header : forall j, 0 <= j < octets_in_rtcp_header -> znth q j = znth p j;
  rs_rooms : rtcp_rooms m conf (rtcp_iv (km_cid m) y seq_num) len;
  rs_body : rtcp_body m conf (rtcp_iv (km_cid m) y seq_num) p len q;
  rs_trailer : wire32 q len = trailer_word conf seq_num;
  rs_mki : take (Z.to_nat (zlen mki)) (drop (Z.to_nat (len + srtcp_trailer_t)) q) = mki;
  rs_tag : take (Z.to_nat (km_ctag m)) (drop (Z.to_nat (len + srtcp_trailer_t + zlen mki)) q) =
    rtcp_tag m (rtcp_iv (km_cid m) y seq_num) (take (Z.to_nat (len + srtcp_trailer_t)) q)
}.

Lemma put_trailer (conf : bool) seq_num p o :
  Forall is_u8 p -> 0 <= o -> o + 4 <= zlen p -> 0 <= seq_num < 2 ^ 31 ->
  exists p', put32 p o ((if conf then htonl SRTCP_E_BIT else 0) .| htonl seq_num) = Some p' /\ zlen p' = zlen p /\
    Forall is_u8 p' /\ wire32 p' o = trailer_word conf seq_num /\
    forall j, 0 <= j < zlen p -> j < o \/ o + 4 <= j -> znth p' j = znth p j.
Proof.
  intros HF Ho Hz Hs. destruct (put32_htonl p o (trailer_word conf seq_num)) as (p' & E & L & F & Hw & A); [done|lia|lia|].
  exists p'. split_and!; try done.
  - rewrite <- E. f_equal. unfold trailer_word, SRTCP_E_BIT. destruct conf; [|done]. by apply htonl_flag.
  - rewrite Hw. apply wrap_id. unfold trailer_word, fits. destruct conf; lia.
Qed.

Section Seal.
Context (c0 : srtp_ctx_t) (r : sref) (i : nat) (n : Z).
Context (Hr : is_Some (stream_at c0 r)) (Hi : is_Some (key_store c0 !! i)).
#[local] Abbreviation focus := (focus c0 r i n).

(** The next index is one more than the last, below 2^31. *)
Lemma next_rtcp_index_focus x o p evs :
  rdb_ok (rtcp_rdb x) ->
  let ws := window_start (rtcp_rdb x) in
  exists rdb, rdb_ok rdb /\
    next_rtcp_index r (focus x o p evs) =
      Some (focus (with_rdb x rdb) o p evs,
            if ws + 1 <? 2 ^ 31 then inr (ws + 1) else inl srtp_err_status_key_expired) /\
    (ws + 1 < 2 ^ 31 -> window_start rdb = ws + 1).
Proof.
  intros [Hm Hw] ws. unfold next_rtcp_index. rewrite (bind_ok _ _ _ _ _ (get_strm_focus c0 r i n Hr _ _ _ _)).
  unfold srtp_rdb_increment. fold ws in Hw |- *. destruct (Z.leb_spec 0x7fffffff ws); destruct (Z.ltb_spec (ws + 1) (2 ^ 31)); try lia.
  - exists (rtcp_rdb x). split; [by split|]. rewrite (bind_ok _ _ _ _ _ (put_strm_focus c0 r i n _ _ _ _ _)). split; [done|lia].
  - rewrite wrap_id by (unfold fits; lia). exists {| window_start := ws + 1; bitmask := bitmask (rtcp_rdb x) |}.
    split; [split; [exact Hm|simpl; lia]|]. split; [|done].
    by rewrite (bind_ok _ _ _ _ _ (put_strm_focus c0 r i n _ _ _ _ _)).
Qed.

(** From the trailer on: prefix, encryption and tag. *)
Lemma seal_rtcp_focus m (conf : bool) iv addr len tag x o p evs :
  rtcp_at m iv 0 o -> Forall is_u8 p -> octets_in_rtcp_header <= len < 2 ^ 28 - 4 -> len + srtcp_trailer_t <= tag ->
  0 <= km_ctag m < 2 ^ 31 -> tag + km_ctag m <= zlen p ->
  exists o' p' res,
    seal_rtcp addr i (if conf then Some (4 * uint32s_in_rtcp_header, len - octets_in_rtcp_header) else None)
      (len + srtcp_trailer_t) tag (focus x o p evs) = Some (focus x o' p' evs, res) /\
    objs_ok m o' /\ zlen p' = zlen p /\ Forall is_u8 p' /\
    (forall j, 0 <= j < zlen p -> j < octets_in_rtcp_header \/ len <= j < tag \/ tag + km_ctag m <= j -> znth p' j = znth p j) /\
    (res = inr tt -> rtcp_rooms m conf iv len /\ rtcp_body m conf iv p len p' /\
       take (Z.to_nat (km_ctag m)) (drop (Z.to_nat tag) p') = rtcp_tag m iv (take (Z.to_nat (len + srtcp_trailer_t)) p')) /\
    (rtcp_rooms m conf iv len -> res = inr tt).
Proof.
  unfold octets_in_rtcp_header, srtcp_trailer_t, uint32s_in_rtcp_header. change (4 * 2) with 8.
  intros Hat HF Hl Htag Hct Hz. unfold seal_rtcp, rtcp_rooms, rtcp_body, octets_in_rtcp_header.
  pose proof (rtcp_prefix_bounds m (km_ctag m) ltac:(lia)) as Hpre.
  destruct (put_rtcp_prefix_focus c0 r i n Hi m iv addr tag x o p evs) as (o1 & pre & res1 & E1 & Hok1 & _ & Lp & Fp & HR);
    [done|done|lia|lia|lia|].
  set (p1 := over p tag pre) in *. assert (zlen p1 = zlen p) as Hz1 by (apply zlen_over; lia).
  assert (Forall is_u8 p1) as F1 by (by apply over_u8).
  assert (forall j, 0 <= j < zlen p -> j < tag \/ tag + km_ctag m <= j -> znth p1 j = znth p j) as A1
    by (intros; apply znth_over_out; lia).
  destruct (room (km_rtcp m) iv 0 (rtcp_prefix m)) eqn:Erm.
  2:{ subst res1. exists o1, p1, (inl srtp_err_status_cipher_fail). split; [unfold pbind at 1; by rewrite E1|].
      split_and!; try done; [intros j Hj Hjj; apply A1; lia|by intros [? _]]. }
  destruct HR as (-> & Hat1 & Epre). rewrite (bind_ok _ _ _ _ _ E1). clear E1.
  assert (exists o2 p2 res2, match (if conf then Some (8, len - 8) else None) with Some (a, l) => crypt_rtcp addr i a l | None => pret tt end (focus x o1 p1 evs) = Some (focus x o2 p2 evs, res2) /\
    objs_ok m o2 /\ zlen p2 = zlen p /\ Forall is_u8 p2 /\
    (forall j, 0 <= j < zlen p -> j < 8 \/ len <= j -> znth p2 j = znth p1 j) /\
    (res2 = inr tt -> (conf = true -> room (km_rtcp m) iv (rtcp_prefix m) (len - 8) = true) /\
       take (Z.to_nat (len - 8)) (drop (Z.to_nat 8) p2) =
       (if conf then crypt (km_rtcp m) iv (rtcp_prefix m) else id) (take (Z.to_nat (len - 8)) (drop (Z.to_nat 8) p1))) /\
    ((conf = true -> room (km_rtcp m) iv (rtcp_prefix m) (len - 8) = true) -> res2 = inr tt))
    as (o2 & p2 & res2 & E2 & Hok2 & Hz2 & F2 & A2 & B2 & C2).
  { destruct conf; [|exists o1, p1, (inr tt); split_and!; done].
    destruct (crypt_rtcp_focus c0 r i n Hi m iv (rtcp_prefix m) addr 8 (len - 8) x o1 p1 evs) as (o2 & res2 & E2 & Hok2 & Hres);
      [done|done|lia|lia|lia|lia|].
    set (ct := crypt (km_rtcp m) iv (rtcp_prefix m) (take (Z.to_nat (len - 8)) (drop (Z.to_nat 8) p1))) in *. assert (zlen ct = len - 8) as Lc by (unfold ct; rewrite zlen_crypt, zlen_take, zlen_drop by lia; lia).
    assert (Forall is_u8 ct) as Fc.
    { unfold ct. eapply cipher_at_u8; [apply Hat1|apply Hat1|]. by apply Forall_take, Forall_drop. }
    destruct (room (km_rtcp m) iv (rtcp_prefix m) (len - 8)) eqn:Er2; subst res2; eexists _, _, _; (split; [exact E2|]); (split; [done|]).
    - split; [rewrite zlen_over; lia|]. split; [by apply over_u8|]. split; [intros j Hj Hjj; apply znth_over_out; lia|].
      split; [|done]. intros _. split; [done|]. rewrite <- Lc at 1. apply block_over; lia.
    - split_and!; try done. intros Hc. by specialize (Hc eq_refl). }
  destruct res2 as [st|[]].
  { exists o2, p2, (inl st). split; [unfold pbind at 1; by rewrite E2|]. split_and!; try done.
    - intros j Hj Hjj. rewrite A2, A1 by lia. done.
    - intros [_ Hc]. by specialize (C2 Hc). }
  rewrite (bind_ok _ _ _ _ _ E2). destruct (B2 eq_refl) as [Hrm2 Hb2].
  destruct (put_rtcp_tag_focus c0 r i n Hi m (len + 4) tag x o2 p2 evs) as (o3 & -> & Hok3); [done|done|lia|lia|lia|lia|lia|].
  set (t := tag_of _ _ _ _).
  assert (t = rtcp_tag m iv (take (Z.to_nat (len + 4)) p2)) as Et.
  { unfold t, rtcp_tag, tag_of. destruct (km_cauth m) eqn:Eau; [done|].
    unfold rtcp_prefix, prefix_length in Epre, Lp. rewrite Eau in Epre, Lp. rewrite <- Epre.
    transitivity (take (Z.to_nat (km_ctag m)) (drop (Z.to_nat tag) p1)); [apply block_ext; try lia; intros j Hj; apply A2; lia|].
    rewrite <- Lp. apply block_over; lia. }
  assert (zlen t = km_ctag m) as Lt.
  { eapply zlen_rtcp_tag; [done|lia|]. rewrite zlen_take, zlen_drop by lia. lia. }
  assert (Forall is_u8 t) as Ft by (apply tag_of_u8; by apply Forall_take, Forall_drop).
  assert (forall j, 0 <= j < zlen p -> j < tag \/ tag + km_ctag m <= j -> znth (over p2 tag t) j = znth p2 j) as A3
    by (intros; apply znth_over_out; lia).
  exists o3, (over p2 tag t), (inr tt). split_and!; try done; [rewrite zlen_over; lia|by apply over_u8|..].
  - intros j Hj Hjj. rewrite A3, A2, A1 by lia. done.
  - intros _. split; [done|]. split.
    + transitivity (take (Z.to_nat (len - 8)) (drop (Z.to_nat 8) p2)).
      { apply block_ext; rewrite ?zlen_over by lia; try lia. intros j Hj. apply A3; lia. }
      rewrite Hb2. f_equal. apply block_ext; try lia. intros j Hj. apply A1; lia.
    + rewrite <- Lt at 1. rewrite block_over by lia. etransitivity; [exact Et|]. f_equal.
      apply prefix_ext; rewrite ?zlen_over by lia; try lia. intros j Hj. symmetry. apply A3; lia.
Qed.

End Seal.

(** ** The whole call *)

(** What [srtp_protect_rtcp] asks of its caller. *)
Definition SRTCP_MAX_TRAILER_LEN : Z := SRTP_MAX_TRAILER_LEN + srtcp_trailer_t.

Record rtcp_room (p : list Z) (len : Z) : Prop := {
  cr_u8 : Forall is_u8 p;
  cr_len : 0 <= len < 2 ^ 28 - 4;
  cr_trailer : len + SRTCP_MAX_TRAILER_LEN <= zlen p
}.

Definition ctags_within (n : Z) (ms : list keymat) : Prop := Forall (fun m => 0 <= km_ctag m <= n) ms.

Lemma strm_wf_rdb ms x rdb : strm_wf ms x -> rdb_ok rdb -> strm_wf ms (with_rdb x rdb).
Proof. by intros [] ?. Qed.

(** What a call leaves alone, from the session [c] with stream [x] and packet
    [p] on. *)
Record rtcp_frame (ms : list keymat) (c : srtp_ctx_t) (r : sref) (x : srtp_stream_ctx_t) (n : Z) (p : list Z) (len : Z)
    (s' : pstate) : Prop := {
  cf_ok : ses_ok ms (ses s');
  cf_len : pkt_octet_len s' = n;
  cf_zlen : zlen (pkt s') = zlen p;
  cf_u8 : Forall is_u8 (pkt s');
  cf_beyond : forall j, len + SRTCP_MAX_TRAILER_LEN <= j < zlen p -> znth (pkt s') j = znth p j;
  cf_ses : exists i d rdb o', ses s' = with_store (set_stream c r (with_rdb (with_direction x d) rdb)) (<[i := o']> (key_store c)) /\
    (window_start (rtcp_rdb x) + 1 < 2 ^ 31 -> rdb = rtcp_rdb x \/ window_start rdb = window_start (rtcp_rdb x) + 1)
}.

Lemma rtcp_frame_focus ms c r i n m x d rdb o p p' len evs :
  ses_ok ms c -> is_Some (stream_at c r) -> ms !! i = Some m -> strm_wf ms x -> rdb_ok rdb -> objs_ok m o ->
  (window_start (rtcp_rdb x) + 1 < 2 ^ 31 -> rdb = rtcp_rdb x \/ window_start rdb = window_start (rtcp_rdb x) + 1) ->
  zlen p' = zlen p -> Forall is_u8 p' -> (forall j, len + SRTCP_MAX_TRAILER_LEN <= j < zlen p -> znth p' j = znth p j) ->
  rtcp_frame ms c r x n p len (focus c r i n (with_rdb (with_direction x d) rdb) o p' evs).
Proof.
  intros. split; try done; [|by exists i, d, rdb, o]. eapply ses_ok_focus; try done. apply strm_wf_rdb; [|done]. by apply strm_wf_direction.
Qed.

(** The call with its keys: sealed with the next index, when it succeeds, and
    it succeeds while there is an index and key stream. *)
Lemma protect_rtcp_with_keys_focus ms addr use_mki y len c r n k m x d o p evs :
  ses_ok ms c -> is_Some (stream_at c r) -> keys_wf (length ms) k -> ms !! objs k = Some m ->
  is_Some (key_store c !! objs k) -> objs_ok m o -> strm_wf ms x -> rtcp_room p len -> octets_in_rtcp_header <= len ->
  0 <= km_ctag m <= SRTP_MAX_TAG_LEN ->
  let ws := window_start (rtcp_rdb x) in
  exists s' res, protect_rtcp_with_keys addr use_mki y len r (with_direction x d) k
      (focus c r (objs k) n (with_direction x d) o p evs) = Some (s', res) /\
    rtcp_frame ms c r x n p len s' /\
    (forall len', res = inr len' -> ws + 1 < 2 ^ 31 /\
      (exists d rdb, stream_at (ses s') r = Some (with_rdb (with_direction x d) rdb) /\ window_start rdb = ws + 1) /\
      rtcp_sealed m (has_conf (rtcp_services x)) (mki_octets use_mki k) y (ws + 1) p len (pkt s') len') /\
    (ws + 1 < 2 ^ 31 -> rtcp_rooms m (has_conf (rtcp_services x)) (rtcp_iv (km_cid m) y (ws + 1)) len -> exists len', res = inr len').
Proof.
  intros Hses Hr Hk Hm Hi Hok Hwf [HF Hlen Htr] Hl8 Htag ws.
  unfold SRTP_MAX_TAG_LEN, SRTCP_MAX_TRAILER_LEN, SRTP_MAX_TRAILER_LEN, srtcp_trailer_t, SRTP_MAX_TAG_LEN, SRTP_MAX_MKI_LEN in *.
  unfold protect_rtcp_with_keys, srtcp_trailer_t, octets_in_rtcp_header in *. change (4 * uint32s_in_rtcp_header) with 8.
  rewrite (bind_ok _ _ _ _ _ (get_objs_focus c r (objs k) n Hi _ _ _ _)). autorewrite with prog.
  destruct (keyed_auth_lengths _ _ _ (oo_cauth _ _ Hok)) as [-> _]. cbn [pkt focus]. set (mki := mki_octets use_mki k).
  assert (0 <= zlen mki <= 128) as Lm.
  { unfold mki, mki_octets. pose proof (kw_mki _ _ Hk). pose proof (kw_mki_max _ _ Hk). unfold SRTP_MAX_MKI_LEN in *.
    pose proof (zlen_nonneg (mki_id k)). destruct use_mki; [lia|]. by change (zlen []) with 0. }
  assert (Forall is_u8 mki) as Fm by (unfold mki, mki_octets; destruct use_mki; [apply Hk|done]).
  rewrite (inject_mki_spec (length ms)) by (fold mki; done || lia). autorewrite with prog. cbv beta iota. fold mki.
  set (p1 := over p (len + 4) mki). assert (zlen p1 = zlen p) as Hz1 by (apply zlen_over; lia).
  assert (Forall is_u8 p1) as HF1 by (by apply over_u8).
  assert (forall j, 0 <= j < zlen p -> j < len + 4 \/ len + 4 + zlen mki <= j -> znth p1 j = znth p j) as A1
    by (intros; apply znth_over_out; lia).
  rewrite (bind_ok _ _ _ _ _ (put_pkt_focus c r (objs k) n _ _ _ _ _)).
  destruct (next_rtcp_index_focus c r (objs k) n Hr (with_direction x d) o p1 evs) as (rdb & Hrdb & E1 & Hws); [apply Hwf|].
  cbv zeta in E1, Hws. change (window_start (rtcp_rdb (with_direction x d))) with ws in *.
  destruct (Z.ltb_spec (ws + 1) (2 ^ 31)) as [Hw|Hw].
  2:{ exists (focus c r (objs k) n (with_rdb (with_direction x d) rdb) o p1 evs), (inl srtp_err_status_key_expired).
      split; [unfold pbind at 1; by rewrite E1|]. split; [|split; [done|lia]].
      eapply rtcp_frame_focus; try done; [fold ws; lia|]. intros j Hj. change SRTCP_MAX_TRAILER_LEN with 148 in Hj. apply A1; lia. }
  rewrite (bind_ok _ _ _ _ _ E1). clear E1. specialize (Hws Hw). set (seq_num := ws + 1) in *.
  assert (0 <= ws) as Hws0 by apply Hwf.
  destruct (put_trailer (has_conf (rtcp_services x)) seq_num p1 len) as (p2 & E2 & Hz2 & HF2 & Htw & A2); [done|lia|lia|lia|].
  replace (8 + (len - 8)) with len by lia. change (rtcp_services (with_direction x d)) with (rtcp_services x).
  rewrite E2. autorewrite with prog. cbv beta iota. rewrite (bind_ok _ _ _ _ _ (put_pkt_focus c r (objs k) n _ _ _ _ _)).
  destruct (set_rtcp_iv_focus c r (objs k) n Hi m (with_rdb (with_direction x d) rdb) o p2 evs y seq_num Hok) as (o1 & E3 & Hat & _).
  rewrite (bind_ok _ _ _ _ _ E3). clear E3. set (iv := rtcp_iv (km_cid m) y seq_num) in *.
  destruct (seal_rtcp_focus c r (objs k) n Hi m (has_conf (rtcp_services x)) iv addr len (len + 4 + zlen mki)
    (with_rdb (with_direction x d) rdb) o1 p2 evs) as (o3 & p3 & res & E4 & Hok3 & Hz3 & HF3 & A3 & HS & HC);
    [done|done|unfold octets_in_rtcp_header; lia|unfold srtcp_trailer_t; lia|lia|lia|].
  unfold octets_in_rtcp_header, srtcp_trailer_t in E4, A3, HS, HC. change (4 * uint32s_in_rtcp_header) with 8 in E4.
  exists (focus c r (objs k) n (with_rdb (with_direction x d) rdb) o3 p3 evs),
    (match res with inl st => inl st | inr _ => inr (len + (km_ctag m + 4) + zlen mki) end).
  split; [unfold pbind; rewrite E4; by destruct res as [|[]]|].
  split; [eapply rtcp_frame_focus; try done; [by fold ws; right|lia|]; intros j Hj; change SRTCP_MAX_TRAILER_LEN with 148 in Hj; rewrite A3, A2, A1 by lia; done|].
  split.
  - intros len' Hres. destruct res as [|[]]; [done|]. injection Hres as <-. destruct (HS eq_refl) as (Hrm & Hb & Ht).
    split; [lia|]. split; [exists d, rdb; split; [by apply stream_at_focus|done]|]. cbn [pkt focus].
    split; unfold octets_in_rtcp_header, srtcp_trailer_t; try done.
    + lia.
    + intros j Hj. rewrite A3, A2, A1 by lia. done.
    + unfold rtcp_body, octets_in_rtcp_header in *. rewrite Hb. f_equal. apply block_ext; try lia.
      intros j Hj. rewrite A2, A1 by lia. done.
    + rewrite <- Htw. apply wire32_same. intros j Hj. apply A3; lia.
    + transitivity (take (Z.to_nat (zlen mki)) (drop (Z.to_nat (len + 4)) p1)); [|apply block_over; lia].
      apply block_ext; try lia. intros j Hj. rewrite A3, A2 by lia. done.
  - intros _ Hrm. destruct res as [st|]; [|by eexists]. by discriminate HC.
Qed.

(** ** The stream *)

Lemma clone_rtcp ok t x st new :
  srtp_stream_clone ok t x = Some (st, Some new) ->
  rtcp_services new = rtcp_services t /\ rtcp_rdb new = fst srtp_rdb_init.
Proof.
  unfold srtp_stream_clone. destruct (negb (ok 0)); [done|]. destruct (_ || _); [done|]. destruct (clone_keys _ _ _); [|done].
  destruct (srtp_rdbx_init _ _ _) as [[rx st']|]; [|done]. cbn [mbind option_bind]. destruct (is_err st'); [done|]. by intros [= _ <-].
Qed.

(** The stream that serves an RTCP packet with the SSRC [y]: one of the list,
    or a clone of the template. *)
Definition rtcp_outbound_at (c : srtp_ctx_t) (y : Z) (x : srtp_stream_ctx_t) : Prop :=
  ssrc x = y /\
  ((exists r, srtp_get_stream c y = Some r /\ stream_at c r = Some x) \/
   srtp_get_stream c y = None /\ exists t, stream_template c = Some t /\ session_keys x = session_keys t /\
     rtcp_services x = rtcp_services t /\ rtcp_rdb x = fst srtp_rdb_init).

Lemma rtcp_outbound_stream_run ms ok y s :
  ses_ok ms (ses s) ->
  exists s' res, rtcp_outbound_stream ok y s = Some (s', res) /\ ses_ok ms (ses s') /\ pkt s' = pkt s /\
    pkt_octet_len s' = pkt_octet_len s /\ key_store (ses s') = key_store (ses s) /\
    match res with
    | inl _ => s' = s /\ ((forall i, ok i = true) -> ~ exists x, rtcp_outbound_at (ses s) y x)
    | inr r => exists x, stream_at (ses s') r = Some x /\ srtp_get_stream (ses s') y = Some r /\ rtcp_outbound_at (ses s) y x
    end.
Proof.
  intros Hok. unfold rtcp_outbound_stream. autorewrite with prog. unfold rtcp_outbound_at.
  destruct (srtp_get_stream (ses s) y) as [r|] eqn:Eg.
  { destruct (get_stream_Some _ _ _ Eg) as (j & x & -> & Hx & Hy). exists s, (inr (InList j)).
    split_and!; try done. exists x. split_and!; eauto. }
  destruct (stream_template (ses s)) as [t|] eqn:Et.
  2:{ exists s, (inl srtp_err_status_no_ctx). split_and!; try done. naive_solver. }
  destruct (clone_spec ok ms t y) as (st & new & Ec & Hall & Hn); [by eapply so_template|]. rewrite Ec.
  autorewrite with prog. destruct new as [x|].
  - destruct (clone_rtcp _ _ _ _ _ Ec) as [Hsv Hrdb].
    destruct Hn as (-> & Hw & Hx & Hk & _). autorewrite with prog.
    eexists _, (inr (InList 0)). split; [done|]. split.
    { destruct Hok as [A B C]. split; simpl; [done| |by rewrite Et in C |- *]. by constructor. }
    split_and!; try done. eexists. split; [done|]. split; [unfold srtp_get_stream; simpl; by rewrite decide_True by done|].
    split; [done|]. right. split; [done|]. by exists t.
  - exists s, (inl st). split; [unfold pcheck; by rewrite Hn|]. split_and!; try done. intros H. by destruct (Hall H).
Qed.

(** What a successful call does: the packet is sealed with the keys of its
    stream, under the index after the last. *)
Definition rtcp_protected (ms : list keymat) (use_mki : bool) (mki_index : Z) (s s' : pstate) : Prop :=
  exists y x k m, rtcp_ssrc (pkt s) = Some y /\ rtcp_outbound_at (ses s) y x /\
    srtp_get_session_keys_with_mki_index x use_mki mki_index = Some k /\ ms !! objs k = Some m /\
    let seq_num := window_start (rtcp_rdb x) + 1 in
    seq_num < 2 ^ 31 /\
    rtcp_sealed m (has_conf (rtcp_services x)) (mki_octets use_mki k) y seq_num (pkt s) (pkt_octet_len s)
      (pkt s') (pkt_octet_len s') /\
    exists r x', srtp_get_stream (ses s') y = Some r /\ stream_at (ses s') r = Some x' /\
      session_keys x' = session_keys x /\ rtcp_services x' = rtcp_services x /\ window_start (rtcp_rdb x') = seq_num.

(** When a call succeeds: there is a stream for the packet, with keys, an index
    and key stream left. *)
Definition can_protect_rtcp (ms : list keymat) (use_mki : bool) (mki_index : Z) (s : pstate) : Prop :=
  exists y, rtcp_ssrc (pkt s) = Some y /\ (exists x, rtcp_outbound_at (ses s) y x) /\
  forall x, rtcp_outbound_at (ses s) y x -> exists k m,
    srtp_get_session_keys_with_mki_index x use_mki mki_index = Some k /\ ms !! objs k = Some m /\
    let seq_num := window_start (rtcp_rdb x) + 1 in
    seq_num < 2 ^ 31 /\ rtcp_rooms m (has_conf (rtcp_services x)) (rtcp_iv (km_cid m) y seq_num) (pkt_octet_len s).

Lemma rtcp_ssrc_Some p : Forall is_u8 p -> 8 <= zlen p -> is_Some (rtcp_ssrc p).
Proof. intros HF Hz. unfold rtcp_ssrc, get32. rewrite !get16_Some by (done || lia). by eexists. Qed.

Lemma protect_rtcp_stream_run ms addr use_mki mki_index y len r x s :
  ses_ok ms (ses s) -> stream_at (ses s) r = Some x -> rtcp_room (pkt s) len -> octets_in_rtcp_header <= len ->
  ctags_within SRTP_MAX_TAG_LEN ms ->
  exists s' res, protect_rtcp_stream addr use_mki mki_index y len r s = Some (s', res) /\
    rtcp_frame ms (ses s) r x (pkt_octet_len s) (pkt s) len s' /\
    (forall len', res = inr len' -> exists k m, let seq_num := window_start (rtcp_rdb x) + 1 in
      srtp_get_session_keys_with_mki_index x use_mki mki_index = Some k /\ ms !! objs k = Some m /\ seq_num < 2 ^ 31 /\
      (exists d rdb, stream_at (ses s') r = Some (with_rdb (with_direction x d) rdb) /\ window_start rdb = seq_num) /\
      rtcp_sealed m (has_conf (rtcp_services x)) (mki_octets use_mki k) y seq_num (pkt s) len (pkt s') len') /\
    (forall k m, let seq_num := window_start (rtcp_rdb x) + 1 in
      srtp_get_session_keys_with_mki_index x use_mki mki_index = Some k -> ms !! objs k = Some m -> seq_num < 2 ^ 31 ->
      rtcp_rooms m (has_conf (rtcp_services x)) (rtcp_iv (km_cid m) y seq_num) len -> exists len', res = inr len').
Proof.
  intros Hses Hx Hroom Hl8 Htags. pose proof (ses_ok_stream _ _ _ _ Hses Hx) as Hwf.
  assert (is_Some (stream_at (ses s) r)) as Hr by done.
  set (keys := srtp_get_session_keys_with_mki_index x use_mki mki_index).
  assert (exists k, keys_wf (length ms) k /\ (keys = None \/ keys = Some k)) as (k & Hk & Hkeys).
  { destruct keys as [k|] eqn:Ek; [exists k; split; [by eapply mki_index_keys|by right]|].
    destruct (first_key _ _ Hwf) as (k & _ & Hk & _). exists k. auto. }
  destruct (ses_ok_objs ms (ses s) (objs k) k Hses Hk eq_refl) as (m & o & Hm & Ho & Hok).
  replace (protect_rtcp_stream addr use_mki mki_index y len r s)
    with (protect_rtcp_stream addr use_mki mki_index y len r (focus (ses s) r (objs k) (pkt_octet_len s) x o (pkt s) (events s)))
    by (f_equal; symmetry; by apply focus_self).
  unfold protect_rtcp_stream.
  destruct (check_direction_focus (ses s) r (objs k) (pkt_octet_len s) Hr dir_srtp_sender x o (pkt s) (events s))
    as (d & evs & E1 & _). rewrite (bind_ok _ _ _ _ _ E1). clear E1.
  rewrite (bind_ok _ _ _ _ _ (get_strm_focus (ses s) r (objs k) (pkt_octet_len s) Hr _ _ _ _)).
  change (srtp_get_session_keys_with_mki_index (with_direction x d) use_mki mki_index) with keys.
  destruct Hkeys as [-> | ->].
  { eexists _, _. split; [done|]. split; [|split; [done|naive_solver]].
    replace (with_direction x d) with (with_rdb (with_direction x d) (rtcp_rdb x)) by (by destruct x).
    eapply rtcp_frame_focus; try done; [apply Hwf|by left|apply Hroom]. }
  destruct (protect_rtcp_with_keys_focus ms addr use_mki y len (ses s) r (pkt_octet_len s) k m x d o (pkt s) evs)
    as (s' & res & -> & Hf & HS & HC); try done; [by eapply Forall_lookup_1 in Htags|].
  exists s', res. split; [done|]. split; [done|]. split.
  - intros len' Hlen'. destruct (HS len' Hlen') as (H1 & H2 & H3). exists k, m. by split_and!.
  - intros k' m' [= <-] Hm'. rewrite Hm in Hm'. injection Hm' as <-. apply HC.
Qed.

Lemma srtp_protect_rtcp_run ms addr ok use_mki mki_index s :
  ses_ok ms (ses s) -> rtcp_room (pkt s) (pkt_octet_len s) -> ctags_within SRTP_MAX_TAG_LEN ms ->
  exists s' res, srtp_protect_rtcp_mki addr ok use_mki mki_index s = Some (s', res) /\
    ses_ok ms (ses s') /\ zlen (pkt s') = zlen (pkt s) /\ Forall is_u8 (pkt s') /\
    (forall j, pkt_octet_len s + SRTCP_MAX_TRAILER_LEN <= j < zlen (pkt s) -> znth (pkt s') j = znth (pkt s) j) /\
    (res = inr tt -> octets_in_rtcp_header <= pkt_octet_len s /\ rtcp_protected ms use_mki mki_index s s') /\
    (octets_in_rtcp_header <= pkt_octet_len s -> (forall i, ok i = true) -> can_protect_rtcp ms use_mki mki_index s -> res = inr tt).
Proof.
  intros Hses Hroom Htags. pose proof Hroom as [HF Hlen Htr]. unfold srtp_protect_rtcp_mki. autorewrite with prog.
  destruct (Z.ltb_spec (pkt_octet_len s) octets_in_rtcp_header) as [H8|H8]; unfold preturn_if; autorewrite with prog.
  { exists s, (inl srtp_err_status_bad_param). split_and!; try done. lia. }
  change SRTCP_MAX_TRAILER_LEN with 148 in Htr. unfold octets_in_rtcp_header in H8.
  destruct (rtcp_ssrc_Some (pkt s)) as [y Hy]; [done|lia|]. rewrite Hy. autorewrite with prog.
  destruct (rtcp_outbound_stream_run ms ok y s Hses) as (s1 & res1 & E1 & Hok1 & Hp1 & Hl1 & Hst1 & Hres1).
  destruct res1 as [st1|r].
  { destruct Hres1 as (-> & Hno). exists s, (inl st1). split; [unfold pbind at 1; by rewrite E1|]. split_and!; try done.
    intros _ Hall (y' & Hy' & Hex & _). rewrite Hy in Hy'. injection Hy' as <-. by destruct (Hno Hall). }
  destruct Hres1 as (x & Hx & Hg & Hout). rewrite (bind_ok _ _ _ _ _ E1).
  destruct (protect_rtcp_stream_run ms addr use_mki mki_index y (pkt_octet_len s) r x s1) as (s2 & res2 & E2 & Hf & HS & HC);
    [done|done|by rewrite Hp1|done|done|]. rewrite Hp1 in *. destruct Hf as [F1 F0 F2 F3 F4 (i2 & d2 & rdb2 & o2 & F6 & _)].
  exists (match res2 with inl _ => s2 | inr n => with_len s2 n end), (match res2 with inl st => inl st | inr _ => inr tt end).
  split; [unfold pbind; rewrite E2; by destruct res2|].
  split_and!; try by destruct res2.
  - intros Hr. split; [done|]. destruct res2 as [|len']; [done|].
    destruct (HS len' eq_refl) as (k & m & Hk & Hm & Hw & (d & rdb & Hx' & Hws) & Hse).
    exists y, x, k, m. cbv zeta. split_and!; try done. eexists r, _. split; [|split; [exact Hx'|by split_and!]].
    cbn [ses with_len]. rewrite F6. by apply (set_stream_get (ses s1) r x).
  - intros _ _ (y' & Hy' & _ & Hcan). rewrite Hy in Hy'. injection Hy' as <-. destruct (Hcan x Hout) as (k & m & Hk & Hm & Hw & Hrm).
    by destruct (HC k m) as [len' ->].
Qed.

End Protect.
