(* ===== verification/SrtcpUnprotect.v ===== *)
(** srtp_unprotect_rtcp: it is safe on every packet, accepts only packets whose
    tag verifies and whose index is new, and undoes srtp_protect_rtcp. *)

From S2P Require Import Prelude Err Prog SrtpTypes Replay Rdb Rdbx Key SrtpPolicy ByteOrder.
From S2P Require Import Sha1 Hmac Aes AesKeys AesIcm Cipher SrtpStream SrtpPacket SrtpRun SrtpXtn SrtpProcess.
From S2P Require Import SrtpSession SrtpProtect SrtpUnprotect Srtcp SrtcpRun SrtcpProtect.

(** ** The trailer *)

(** Flag and index of the word at [o]. *)
Definition trailer_flag (p : list Z) (o : Z) : bool := 2 ^ 31 <=? wire32 p o.
Definition trailer_index (p : list Z) (o : Z) : Z := wire32 p o mod 2 ^ 31.

Lemma wire32_bound p o : Forall is_u8 p -> 0 <= o -> o + 4 <= zlen p -> is_u32 (wire32 p o).
Proof. intros HF Ho Hz. by destruct (htonl_get32 p o) as (v & _ & _ & Hw); [done|lia|lia|]. Qed.

Lemma flag_octet p o :
  Forall is_u8 p -> 0 <= o -> o + 4 <= zlen p ->
  ((znth p o & SRTCP_E_BYTE_BIT) =? SRTCP_E_BYTE_BIT) = trailer_flag p o.
Proof.
  intros HF Ho Hz. unfold trailer_flag, SRTCP_E_BYTE_BIT, wire32, wire16.
  assert (is_u8 (znth p o) /\ is_u8 (znth p (o + 1)) /\ is_u8 (znth p (o + 2)) /\ is_u8 (znth p (o + 2 + 1))) as (Ha & Hb & Hc & Hd)
    by (split_and!; apply znth_Forall; (done || lia)). unfold fits in *.
  destruct (Z.leb_spec (2 ^ 31) ((znth p o * 2 ^ 8 + znth p (o + 1)) * 2 ^ 16 + (znth p (o + 2) * 2 ^ 8 + znth p (o + 2 + 1)))) as [H|H].
  - apply Z.eqb_eq. replace (znth p o) with ((znth p o - 128) .| (1 << 7)) by (rewrite lor_shiftl_add by (unfold fits; lia); lia).
    change (1 << 7) with 128. bits b Hb0. rewrite Z.land_spec, Z.lor_spec. by destruct (Z.testbit _ b), (Z.testbit 128 b).
  - apply Z.eqb_neq. change 128 with (2 ^ 7). intros E.
    assert (Z.testbit (znth p o) 7 = true) as Ht.
    { apply (f_equal (fun z => Z.testbit z 7)) in E. rewrite Z.land_spec, Z.pow2_bits_true, andb_true_r in E by lia. done. }
    rewrite Z.testbit_true in Ht by lia. rewrite Z.div_small in Ht by lia. done.
Qed.

Lemma index_mask v : v & SRTCP_INDEX_MASK = v mod 2 ^ 31.
Proof. unfold SRTCP_INDEX_MASK. change 2147483647 with (Z.ones 31). by apply Z.land_ones. Qed.

Lemma trailer_word_flag p o conf seq_num : wire32 p o = trailer_word conf seq_num -> 0 <= seq_num < 2 ^ 31 ->
  trailer_flag p o = conf /\ trailer_index p o = seq_num.
Proof.
  unfold trailer_flag, trailer_index, trailer_word. intros -> Hs. destruct conf; (split; [|lia]).
  - apply Z.leb_le. lia.
  - apply Z.leb_gt. lia.
Qed.

Section Unprotect.
Context `{BC : BlockCipher} `{LV : Locals}.

Lemma check_trailer_run (x : srtp_stream_ctx_t) p o s :
  Forall is_u8 p -> 0 <= o -> o + 4 <= zlen p -> rdb_ok (rtcp_rdb x) ->
  exists st, srtp_rdb_check (rtcp_rdb x) (trailer_index p o) = Some st /\
    check_trailer x p o s = Some (s,
      if Bool.eqb (trailer_flag p o) (has_conf (rtcp_services x))
      then if is_err st then inl st else inr (has_conf (rtcp_services x), trailer_index p o)
      else inl srtp_err_status_cant_check).
Proof.
  intros HF Ho Hz Hr. pose proof (wire32_bound p o HF Ho Hz) as Hw. unfold fits in Hw.
  destruct (rdb_check_spec (rtcp_rdb x) (trailer_index p o) Hr) as (st & Est & _); [unfold trailer_index; lia|].
  exists st. split; [done|]. unfold check_trailer.
  destruct (htonl_get32 p o) as (v & -> & Hv & _); [done|lia|lia|]. autorewrite with prog.
  rewrite aget_znth by lia. autorewrite with prog. rewrite flag_octet by (done || lia).
  change (match rtcp_services x with sec_serv_conf | sec_serv_conf_and_auth => true | _ => false end) with (has_conf (rtcp_services x)).
  destruct (Bool.eqb _ _); unfold preturn_if; cbn [negb]; autorewrite with prog; [|done].
  rewrite Hv, index_mask. fold (trailer_index p o). rewrite Est. autorewrite with prog. unfold pcheck, preturn_if.
  by destruct (is_err st); autorewrite with prog.
Qed.

Section Open.
Context (c0 : srtp_ctx_t) (r : sref) (n : Z) (k : srtp_session_keys_t) (m : keymat).
Context (Hr : is_Some (stream_at c0 r)) (Hi : is_Some (key_store c0 !! objs k)).
#[local] Abbreviation focus := (focus c0 r (objs k) n).

(** What [srtp_unprotect_rtcp] asks of its caller. *)
Record rtcp_in (p : list Z) (len : Z) : Prop := {
  ci_u8 : Forall is_u8 p;
  ci_len : len < 2 ^ 28;
  ci_zlen : len <= zlen p
}.

(** The prefix, when there is one. *)
Lemma maybe_rtcp_prefix_focus iv addr tag x o p evs :
  rtcp_at m iv 0 o -> Forall is_u8 p -> 0 <= tag -> 0 <= km_ctag m < 2 ^ 31 -> tag + km_ctag m <= zlen p ->
  exists o' pre res,
    (let* o := get_objs (objs k) in
     if srtp_auth_get_prefix_length (rtcp_auth o) =? 0 then pret tt else put_rtcp_prefix addr (objs k) tag) (focus x o p evs) =
      Some (focus x o' (over p tag pre) evs, res) /\
    objs_ok m o' /\ zlen pre = rtcp_prefix m /\ Forall is_u8 pre /\
    (res = inr tt -> rtcp_at m iv (rtcp_prefix m) o') /\ (room (km_rtcp m) iv 0 (rtcp_prefix m) = true -> res = inr tt).
Proof.
  intros Hat HF Ht Htag Hz. rewrite (bind_ok _ _ _ _ _ (get_objs_focus c0 r (objs k) n Hi _ _ _ _)).
  destruct (keyed_auth_lengths _ _ _ (oo_cauth _ _ (ra_ok _ _ _ _ Hat))) as [_ ->]. fold (rtcp_prefix m).
  destruct (Z.eqb_spec (rtcp_prefix m) 0) as [E0|_].
  { exists o, [], (inr tt). rewrite over_nil, E0 by lia. split_and!; try done. apply Hat. }
  destruct (put_rtcp_prefix_focus c0 r (objs k) n Hi m iv addr tag x o p evs) as (o' & pre & res & E & Hok & _ & Lp & Fp & HR);
    [done..|].
  exists o', pre, res. split_and!; try done.
  - intros ->. destruct (room _ _ _ _); [by destruct HR as (_ & ? & _)|done].
  - intros Hrm. rewrite Hrm in HR. by destruct HR as [-> _].
Qed.

(** Prefix and decryption. *)
Lemma open_rtcp_focus (conf : bool) iv addr len rest x o p evs :
  rtcp_at m iv 0 o -> Forall is_u8 p -> octets_in_rtcp_header <= rest < 2 ^ 28 -> 0 <= km_ctag m < 2 ^ 28 ->
  rest + km_ctag m <= len <= zlen p ->
  exists o' p' res,
    (let* _ := (let* o := get_objs (objs k) in
                if srtp_auth_get_prefix_length (rtcp_auth o) =? 0 then pret tt
                else put_rtcp_prefix addr (objs k) (len - km_ctag m)) in
     if conf then crypt_rtcp addr (objs k) 8 (rest - 8) else pret tt) (focus x o p evs) = Some (focus x o' p' evs, res) /\
    objs_ok m o' /\ zlen p' = zlen p /\ Forall is_u8 p' /\
    (forall j, 0 <= j < zlen p -> j < octets_in_rtcp_header \/ len <= j -> znth p' j = znth p j) /\
    (res = inr tt -> rtcp_body m conf iv p rest p') /\ (rtcp_rooms m conf iv rest -> res = inr tt).
Proof.
  unfold octets_in_rtcp_header. intros Hat HF H8 Htag Hz.
  destruct (maybe_rtcp_prefix_focus iv addr (len - km_ctag m) x o p evs) as (o3 & pre & res3 & E4 & Hok3 & Lp & Fp & HP & HQ);
    [done|done|lia|lia|lia|].
  pose proof (rtcp_prefix_bounds m (km_ctag m) ltac:(lia)) as Hpre.
  set (p1 := over p (len - km_ctag m) pre) in *. assert (zlen p1 = zlen p) as Hz1 by (apply zlen_over; lia).
  assert (Forall is_u8 p1) as HF1 by (by apply over_u8).
  assert (forall j, 0 <= j < zlen p -> j < len - km_ctag m \/ len <= j -> znth p1 j = znth p j) as A1 by (intros; apply znth_over_out; lia).
  destruct res3 as [st|[]].
  { exists o3, p1, (inl st). split; [unfold pbind at 1; by rewrite E4|].
    split_and!; try done; [intros j Hj Hjj; apply A1; lia|]. intros [Hrm _]. by specialize (HQ Hrm). }
  rewrite (bind_ok _ _ _ _ _ E4). clear E4. specialize (HP eq_refl). unfold rtcp_body, rtcp_rooms, octets_in_rtcp_header.
  assert (take (Z.to_nat (rest - 8)) (drop (Z.to_nat 8) p1) = take (Z.to_nat (rest - 8)) (drop (Z.to_nat 8) p)) as Eb
    by (apply block_ext; try lia; intros j Hj; apply A1; lia).
  destruct conf; [|exists o3, p1, (inr tt); split_and!; try done; intros j Hj Hjj; apply A1; lia].
  destruct (crypt_rtcp_focus c0 r (objs k) n Hi m iv (rtcp_prefix m) addr 8 (rest - 8) x o3 p1 evs) as (o4 & res4 & E5 & Hok4 & Hres);
    [done|done|lia|lia|lia|lia|]. rewrite Eb in E5.
  set (ct := crypt (km_rtcp m) iv (rtcp_prefix m) (take (Z.to_nat (rest - 8)) (drop (Z.to_nat 8) p))) in *.
  assert (zlen ct = rest - 8) as Lc by (unfold ct; rewrite zlen_crypt, zlen_take, zlen_drop by lia; lia).
  assert (Forall is_u8 ct) as Fc.
  { unfold ct. eapply cipher_at_u8; [apply HP|apply HP|]. by apply Forall_take, Forall_drop. }
  destruct (room (km_rtcp m) iv (rtcp_prefix m) (rest - 8)) eqn:Er2; subst res4; eexists _, _, _; (split; [exact E5|]); (split; [done|]).
  - split; [rewrite zlen_over; lia|]. split; [by apply over_u8|]. split; [intros j Hj Hjj; rewrite znth_over_out, A1 by lia; done|].
    split; [|done]. intros _. rewrite <- Lc at 1. apply block_over; lia.
  - split_and!; try done; [intros j Hj Hjj; apply A1; lia|]. intros [_ Hc]. by specialize (Hc eq_refl).
Qed.

(** The packet of [len] octets that ends at [rest], before trailer, identifier
    and tag, is taken for what its trailer says. *)
Record rtcp_accepted (x : srtp_stream_ctx_t) (p : list Z) (len rest mki : Z) : Prop := {
  ac_rest : octets_in_rtcp_header <= rest;
  ac_flag : trailer_flag p rest = has_conf (rtcp_services x);
  ac_new : srtp_rdb_check (rtcp_rdb x) (trailer_index p rest) = Some srtp_err_status_ok;
  ac_tag : rtcp_verifies m p (rest + srtcp_trailer_t) (len - km_ctag m)
}.

(** A call on one stream: a failure leaves the stream as it was; a packet that
    is not acceptable changes nothing but cipher states; what is accepted is
    decrypted. *)
Record rtcp_opened (x : srtp_stream_ctx_t) (o : key_objs) (p : list Z) (evs : list (Z * srtp_event_t))
    (y len rest mki : Z) (x' : srtp_stream_ctx_t) (o' : key_objs) (p' : list Z) (evs' : list (Z * srtp_event_t))
    (res : srtp_err_status_t + Z * Z) : Prop := {
  ro_ok : objs_ok m o';
  ro_zlen : zlen p' = zlen p;
  ro_u8 : Forall is_u8 p';
  ro_outside : forall j, 0 <= j < zlen p -> j < octets_in_rtcp_header \/ len <= j -> znth p' j = znth p j;
  ro_dir : exists d, x' = with_direction x d;
  ro_fail : forall st, res = inl st -> x' = x;
  ro_value : forall v, res = inr v -> v = (trailer_index p rest, km_ctag m + srtcp_trailer_t) /\ rtcp_accepted x p len rest mki /\
    rtcp_body m (has_conf (rtcp_services x)) (rtcp_iv (km_cid m) y (trailer_index p rest)) p rest p';
  ro_forged : ~ rtcp_accepted x p len rest mki -> p' = p /\ x' = x /\ evs' = evs /\ exists st, res = inl st;
  ro_replay : forall st, octets_in_rtcp_header <= rest -> trailer_flag p rest = has_conf (rtcp_services x) ->
    srtp_rdb_check (rtcp_rdb x) (trailer_index p rest) = Some st -> is_err st = true ->
    x' = x /\ o' = o /\ p' = p /\ evs' = evs /\ res = inl st;
  ro_accepts : rtcp_accepted x p len rest mki ->
    rtcp_rooms m (has_conf (rtcp_services x)) (rtcp_iv (km_cid m) y (trailer_index p rest)) rest ->
    res = inr (trailer_index p rest, km_ctag m + srtcp_trailer_t)
}.

Lemma unprotect_rtcp_with_keys_focus addr y len mki x o p evs :
  objs_ok m o -> rtcp_in p len -> octets_in_rtcp_header + srtcp_trailer_t <= len -> 0 <= km_ctag m <= SRTP_MAX_TAG_LEN ->
  0 <= mki < 2 ^ 28 -> rdb_ok (rtcp_rdb x) ->
  exists x' o' p' evs' res,
    unprotect_rtcp_with_keys addr y p len r x k mki (focus x o p evs) = Some (focus x' o' p' evs', res) /\
    rtcp_opened x o p evs y len (len - km_ctag m - mki - srtcp_trailer_t) mki x' o' p' evs' res.
Proof.
  intros Hok [HF Hlen Hz] Hl12 Htag Hmki Hrdb. unfold SRTP_MAX_TAG_LEN, octets_in_rtcp_header, srtcp_trailer_t in *.
  unfold unprotect_rtcp_with_keys, octets_in_rtcp_header, srtcp_trailer_t. change (4 * uint32s_in_rtcp_header) with 8.
  assert (exists d, x = with_direction x d) as Hdx by (exists (direction x); by destruct x).
  set (rest := len - km_ctag m - mki - 4). rewrite (bind_ok _ _ _ _ _ (get_objs_focus c0 r (objs k) n Hi _ _ _ _)).
  destruct (keyed_auth_lengths _ _ _ (oo_cauth _ _ Hok)) as [-> _].
  rewrite (wrap_id 32 (8 + km_ctag m + mki + 4)), swrap_id by (unfold fits; lia).
  destruct (Z.ltb_spec len (8 + km_ctag m + mki + 4)) as [Hshort|Hrest]; unfold preturn_if at 1; autorewrite with prog.
  { eexists x, o, p, evs, _. split; [done|].
    split; unfold octets_in_rtcp_header, srtcp_trailer_t; try done; [by eauto|lia|]. intros [Hc _ _ _]. unfold octets_in_rtcp_header in Hc. lia. }
  rewrite (wrap_id 32 (len - (8 + km_ctag m + mki + 4))), (wrap_id 32 (len - km_ctag m - mki)) by (unfold fits; lia).
  replace (len - (km_ctag m + mki + 4)) with rest by (unfold rest; lia).
  replace (len - km_ctag m - mki) with (rest + 4) by (unfold rest; lia).
  replace (rest + 4 + mki) with (len - km_ctag m) by (unfold rest; lia).
  replace (len - (8 + km_ctag m + mki + 4)) with (rest - 8) by (unfold rest; lia).
  assert (8 <= rest) as H8 by (unfold rest; lia). assert (rest + 4 + km_ctag m + mki = len) as Hre by (unfold rest; lia). clearbody rest.
  destruct (check_trailer_run x p rest (focus x o p evs)) as (st & Est & E1); [done|lia|lia|done|].
  set (seq_num := trailer_index p rest) in *. set (conf := has_conf (rtcp_services x)) in *.
  destruct (decide (trailer_flag p rest = conf)) as [Hfl|Hfl].
  2:{ assert (Bool.eqb (trailer_flag p rest) conf = false) as Eb by (by apply eqb_false_iff). rewrite Eb in E1.
      exists x, o, p, evs, (inl srtp_err_status_cant_check). split; [unfold pbind at 1; by rewrite E1|].
      split; unfold octets_in_rtcp_header, srtcp_trailer_t; try done; [by eauto|]. by intros [_ Hc _ _]. }
  rewrite Hfl, eqb_reflx in E1. destruct (is_err st) eqn:Ese.
  { exists x, o, p, evs, (inl st). split; [unfold pbind at 1; by rewrite E1|].
    split; unfold octets_in_rtcp_header, srtcp_trailer_t; try done; [by eauto| |].
    - intros st' _ _ Est' _. fold seq_num in Est'. rewrite Est in Est'. by injection Est' as <-.
    - intros [_ _ Hc _]. fold seq_num in Hc. rewrite Est in Hc. by injection Hc as ->. }
  assert (st = srtp_err_status_ok) as ->.
  { unfold is_err in Ese. apply bool_decide_eq_false in Ese. by apply dec_stable in Ese. }
  rewrite (bind_ok _ _ _ _ _ E1). clear E1. cbv beta iota.
  destruct (set_rtcp_iv_focus c0 r (objs k) n Hi m x o p evs y seq_num Hok) as (o1 & E2 & Hat1 & _).
  rewrite (bind_ok _ _ _ _ _ E2). clear E2. set (iv := rtcp_iv (km_cid m) y seq_num) in *.
  destruct (verify_rtcp_tag_focus c0 r (objs k) n Hi m iv 0 (rest + 4) (len - km_ctag m) x o1 p evs)
    as (o2 & res2 & E3 & Hat2 & HV & HW); [done|done|lia|lia|lia|lia|lia|].
  assert (forall st, srtp_rdb_check (rtcp_rdb x) seq_num = Some st -> is_err st = true -> False) as Hnorep
    by (intros st Hst Hse; rewrite Est in Hst; by injection Hst as <-).
  destruct res2 as [st|[]].
  { assert (~ rtcp_verifies m p (rest + 4) (len - km_ctag m)) as Hno by (intros Hv; by specialize (HV Hv)).
    exists x, o2, p, evs, (inl st). split; [unfold pbind at 1; by rewrite E3|].
    split; unfold octets_in_rtcp_header, srtcp_trailer_t; try done; [apply Hat2|by eauto| |].
    - intros st' _ _ Hs Hse. destruct (Hnorep st' Hs Hse).
    - by intros [_ _ _ Hc]. }
  rewrite (bind_ok _ _ _ _ _ E3). clear E3.
  assert (rtcp_verifies m p (rest + 4) (len - km_ctag m)) as Hver.
  { destruct (decide (take (Z.to_nat (km_ctag m)) (drop (Z.to_nat (len - km_ctag m)) p) =
      tag_of (km_cauth m) (km_ctag m) (take (Z.to_nat (rest + 4)) p) (take (Z.to_nat (km_ctag m)) tmp_tag0))) as [Hd|Hd]; [done|].
    by specialize (HW Hd). }
  assert (rtcp_accepted x p len rest mki) as Hacc by (by split).
  rewrite <- bind_assoc, <- bind_assoc.
  destruct (open_rtcp_focus conf iv addr len rest x o2 p evs) as (o4 & p2 & res4 & E5 & Hok4 & Hz2 & HF2 & A12 & HB & HC);
    [done|done|unfold octets_in_rtcp_header; lia|lia|lia|].
  destruct res4 as [st|[]].
  { exists x, o4, p2, evs, (inl st). split; [unfold pbind at 1; by rewrite E5|].
    split; unfold octets_in_rtcp_header, srtcp_trailer_t; try done.
    - intros st' _ _ Hs Hse. destruct (Hnorep st' Hs Hse).
    - intros _ Hrm. by specialize (HC Hrm). }
  rewrite (bind_ok _ _ _ _ _ E5). clear E5. specialize (HB eq_refl).
  destruct (check_direction_focus c0 r (objs k) n Hr dir_srtp_receiver x o4 p2 evs) as (d & evs5 & E6 & _).
  rewrite (bind_ok _ _ _ _ _ E6). exists (with_direction x d), o4, p2, evs5, (inr (seq_num, km_ctag m + 4)). split; [done|].
  split; unfold octets_in_rtcp_header, srtcp_trailer_t; try done; [by eauto|by intros v [= <-]|].
  intros st' _ _ Hs Hse. destruct (Hnorep st' Hs Hse).
Qed.

End Open.

(** ** The stream of an incoming packet *)

(** The stream that serves an RTCP packet with the SSRC [y]; the template
    serves provisionally. *)
Definition rtcp_inbound_at (c : srtp_ctx_t) (y : Z) (r : sref) (x : srtp_stream_ctx_t) : Prop :=
  stream_at c r = Some x /\ srtp_get_stream c y = match r with InList _ => Some r | Template => None end.

Lemma rtcp_inbound_stream_run y s :
  exists res, rtcp_inbound_stream y s = Some (s, res) /\
    match res with
    | inl _ => forall r x, ~ rtcp_inbound_at (ses s) y r x
    | inr r => exists x, rtcp_inbound_at (ses s) y r x
    end.
Proof.
  unfold rtcp_inbound_stream, rtcp_inbound_at. autorewrite with prog.
  destruct (srtp_get_stream (ses s) y) as [r|] eqn:Eg.
  - destruct (get_stream_Some _ _ _ Eg) as (j & x & -> & Hx & Hy). exists (inr (InList j)). split; [done|]. by exists x.
  - destruct (stream_template (ses s)) as [t|] eqn:Et.
    + exists (inr Template). split; [done|]. by exists t.
    + exists (inl srtp_err_status_no_ctx). split; [done|]. intros [j|] x [Hx Hg]; [done|]. simpl in Hx. congruence.
Qed.

Lemma rtcp_inbound_unique c y r x r' x' : rtcp_inbound_at c y r x -> rtcp_inbound_at c y r' x' -> r' = r /\ x' = x.
Proof. intros [H1 H2] [H3 H4]. rewrite H2 in H4. destruct r, r'; simplify_eq; by split; congruence. Qed.

(** ** Recording the index *)

(** An index that was added is a replay. *)
Lemma rdb_added_replays rdb p rdb' :
  rdb_ok rdb -> 0 <= p < 2 ^ 31 -> window_start rdb <= p -> srtp_rdb_add_index rdb p = Some (rdb', srtp_err_status_ok) ->
  srtp_rdb_check rdb' p = Some srtp_err_status_replay_fail.
Proof.
  intros Hok Hp Hw E. destruct (rdb_add_spec rdb p Hok Hp Hw) as (rdb1 & E1 & [Hm' Hw'] & _ & Hws & Hmem).
  rewrite E in E1. injection E1 as <-. destruct (proj2 (Hmem p ltac:(lia)) (or_introl eq_refl)) as [Hb Hbit].
  unfold srtp_rdb_check, rdb_bits_in_bitmask. rewrite wrap_id by (unfold fits; lia). do 2 (case_if; [lia|]).
  rewrite wrap_id by (unfold fits; lia). rewrite (v128_get_bit_spec 4) by (done || lia). simpl. by rewrite Hbit.
Qed.

Lemma add_rtcp_index_run ms j seq_num x s :
  ses_ok ms (ses s) -> stream_list (ses s) !! j = Some x -> 0 <= seq_num < 2 ^ 31 -> window_start (rtcp_rdb x) <= seq_num ->
  exists rdb, srtp_rdb_add_index (rtcp_rdb x) seq_num = Some (rdb, srtp_err_status_ok) /\ rdb_ok rdb /\
    add_rtcp_index (InList j) seq_num s = Some (with_ses s (set_stream (ses s) (InList j) (with_rdb x rdb)), inr tt).
Proof.
  intros Hses Hx Hs Hw. assert (stream_at (ses s) (InList j) = Some x) as Hx' by done.
  pose proof (ses_ok_stream _ _ _ _ Hses Hx') as Hwf.
  destruct (rdb_add_spec (rtcp_rdb x) seq_num (sw_rdb _ _ Hwf) Hs Hw) as (rdb & E & Hok & _).
  exists rdb. split; [done|]. split; [done|]. unfold add_rtcp_index, get_strm. rewrite (bind_ok _ _ s s x) by (by rewrite Hx').
  rewrite E. autorewrite with prog. done.
Qed.

(** The stream of the list that records the packet, after a provisional use of
    the template. *)
Definition rtcp_settled (ms : list keymat) (ok : Z -> bool) (y : Z) (c : srtp_ctx_t) (r : sref) (x : srtp_stream_ctx_t)
    (seq_num : Z) (c' : srtp_ctx_t) (res : srtp_err_status_t + unit) : Prop :=
  match r with
  | InList j => res = inr tt /\ exists rdb, c' = set_stream c r (with_rdb x rdb) /\
      srtp_rdb_add_index (rtcp_rdb x) seq_num = Some (rdb, srtp_err_status_ok)
  | Template => ((forall i, ok i = true) -> res = inr tt) /\
      match res with
      | inl _ => c' = c
      | inr _ => exists new rdb, c' = with_streams c (with_rdb new rdb :: stream_list c) /\ strm_wf ms new /\ ssrc new = y /\
          session_keys new = session_keys x /\ rtcp_services new = rtcp_services x /\ rtcp_rdb new = fst srtp_rdb_init /\
          srtp_rdb_add_index (rtcp_rdb new) seq_num = Some (rdb, srtp_err_status_ok)
      end
  end.

Lemma finish_rtcp_run ms ok r y seq_num x s :
  ses_ok ms (ses s) -> stream_at (ses s) r = Some x -> 0 <= seq_num < 2 ^ 31 ->
  match r with InList _ => window_start (rtcp_rdb x) <= seq_num | Template => True end ->
  exists c' res, (let* r := settle_stream ok r y in add_rtcp_index r seq_num) s = Some (with_ses s c', res) /\
    ses_ok ms c' /\ rtcp_settled ms ok y (ses s) r x seq_num c' res.
Proof.
  intros Hses Hx Hs Hw. pose proof (ses_ok_stream _ _ _ _ Hses Hx) as Hwf. destruct r as [j|]; unfold settle_stream.
  - autorewrite with prog. destruct (add_rtcp_index_run ms j seq_num x s Hses Hx Hs Hw) as (rdb & E & Hok & ->).
    eexists _, (inr tt). split; [done|]. split; [apply ses_ok_set_stream; [done|]; by apply strm_wf_rdb|]. split; [done|]. by exists rdb.
  - autorewrite with prog. unfold get_strm. rewrite (bind_ok _ _ s s x) by (by rewrite Hx).
    destruct (clone_spec ok ms x y Hwf) as (st & new & E & Hall & Hn). rewrite E.
    autorewrite with prog. cbv beta iota. destruct new as [new|].
    + destruct (clone_rtcp _ _ _ _ _ E) as [Hsv Hrdb]. destruct Hn as (-> & Hwn & Hy & Hk & _). autorewrite with prog.
      set (s1 := with_ses s (with_streams (ses s) (new :: stream_list (ses s)))).
      destruct (add_rtcp_index_run ms 0 seq_num new s1) as (rdb & E1 & Hok & E2);
        [by apply ses_ok_cons|done|done|rewrite Hrdb; simpl; lia|].
      rewrite E2. eexists _, (inr tt). split; [done|]. split; [by apply (ses_ok_cons ms (ses s)), strm_wf_rdb|].
      split; [done|]. exists new, rdb. by split_and!.
    + exists (ses s), (inl st). split; [unfold pcheck; rewrite Hn; by destruct s|]. split_and!; try done.
      split; [|done]. intros H. by destruct (Hall H).
Qed.

(** ** The whole call *)

(** The outcomes of a call: refused with nothing changed, or processed on a
    stream and then recorded. *)
Definition rtcp_refused (use_mki : bool) (s s' : pstate) (res : srtp_err_status_t + unit) : Prop :=
  s' = s /\ (exists st, res = inl st) /\
  (octets_in_rtcp_header + srtcp_trailer_t <= pkt_octet_len s ->
   forall y r x, rtcp_ssrc (pkt s) = Some y -> rtcp_inbound_at (ses s) y r x ->
   use_mki = true /\ exists st, inbound_keys use_mki x (pkt s) (pkt_octet_len s) s = Some (s, inl st)).

Definition rtcp_processed (ms : list keymat) (ok : Z -> bool) (use_mki : bool) (s s' : pstate)
    (res : srtp_err_status_t + unit) : Prop :=
  exists y r x k m o mki x' o' p' evs' res0,
    let len := pkt_octet_len s in
    let rest := len - km_ctag m - mki - srtcp_trailer_t in
    let f := focus (ses s) r (objs k) len x' o' p' evs' in
    octets_in_rtcp_header + srtcp_trailer_t <= len /\
    rtcp_ssrc (pkt s) = Some y /\ rtcp_inbound_at (ses s) y r x /\ keys_at ms use_mki x (pkt s) len k m mki /\
    inbound_keys use_mki x (pkt s) len s = Some (s, inr (k, mki)) /\
    key_store (ses s) !! objs k = Some o /\ rtcp_opened m x o (pkt s) (events s) y len rest mki x' o' p' evs' res0 /\
    match res0 with
    | inl st => s' = f /\ res = inl st
    | inr _ => exists c', rtcp_settled ms ok y (ses f) r x' (trailer_index (pkt s) rest) c' res /\
        s' = with_len (with_ses f c') rest
    end.

Lemma srtp_unprotect_rtcp_run ms addr ok use_mki s :
  ses_ok ms (ses s) -> rtcp_in (pkt s) (pkt_octet_len s) -> tags_within octets_in_rtp_header ms ->
  ctags_within SRTP_MAX_TAG_LEN ms ->
  exists s' res, srtp_unprotect_rtcp_mki addr ok use_mki s = Some (s', res) /\
    ses_ok ms (ses s') /\ zlen (pkt s') = zlen (pkt s) /\ Forall is_u8 (pkt s') /\
    (rtcp_refused use_mki s s' res \/ rtcp_processed ms ok use_mki s s' res).
Proof.
  intros Hses Hpkt Htags Hctags. pose proof Hpkt as [HF Hlen Hz]. unfold srtp_unprotect_rtcp_mki. autorewrite with prog.
  set (p := pkt s) in *. set (len := pkt_octet_len s) in *.
  assert (forall st, len < 12 -> exists s' res, Some (s, inl st) = Some (s', res) /\ ses_ok ms (ses s') /\ zlen (pkt s') = zlen p /\
    Forall is_u8 (pkt s') /\ (rtcp_refused use_mki s s' res \/ rtcp_processed ms ok use_mki s s' res)) as Hshort.
  { intros st Hl. exists s, (inl st). split_and!; try done. left. split_and!; [done|by eexists|]. intros Hl'.
    fold len in Hl'. unfold octets_in_rtcp_header, srtcp_trailer_t in Hl'. lia. }
  destruct (Z.ltb_spec len 0); unfold preturn_if at 1; autorewrite with prog; [apply Hshort; lia|].
  destruct (Z.ltb_spec len (octets_in_rtcp_header + srtcp_trailer_t)) as [H12|H12]; unfold preturn_if at 1; autorewrite with prog;
    unfold octets_in_rtcp_header, srtcp_trailer_t in H12; [apply Hshort; lia|].
  destruct (rtcp_ssrc_Some p) as [y Hy]; [done|lia|]. rewrite Hy. autorewrite with prog.
  destruct (rtcp_inbound_stream_run y s) as (res1 & E1 & Hres1). destruct res1 as [st1|r].
  { exists s, (inl st1). split; [unfold pbind at 1; by rewrite E1|]. split_and!; try done. left. split_and!; [done|by eexists|].
    intros _ y' r x Hy' Hin. fold p in Hy'. rewrite Hy in Hy'. injection Hy' as <-. by destruct (Hres1 r x). }
  rewrite (bind_ok _ _ _ _ _ E1). destruct Hres1 as [x Hin]. pose proof (ses_ok_stream _ _ _ _ Hses (proj1 Hin)) as Hwf.
  unfold unprotect_rtcp_stream. autorewrite with prog. unfold get_strm at 1. rewrite (bind_ok _ _ s s x) by (by rewrite (proj1 Hin)). autorewrite with prog.
  destruct (inbound_keys_run ms use_mki x p len s) as (resk & Ek & Hno & HK); [done|done|done|lia|lia|].
  destruct resk as [st|[k mki]].
  { exists s, (inl st). split; [unfold pbind at 1; by rewrite Ek|]. split_and!; try done. left. split_and!; [done|by eexists|].
    intros _ y' r' x' Hy' Hin'. fold p in Hy'. rewrite Hy in Hy'. injection Hy' as <-.
    destruct (rtcp_inbound_unique _ _ _ _ _ _ Hin Hin') as [-> ->]. split; [by apply (Hno st)|by exists st]. }
  rewrite (bind_ok _ _ _ _ _ Ek). cbv beta iota. autorewrite with prog. destruct (HK k mki eq_refl) as [m Hk]. pose proof Hk as (Hkw & _ & Hm & H0 & Hrest & _).
  destruct (ses_ok_objs ms (ses s) (objs k) k Hses Hkw eq_refl) as (m' & o & Hm' & Ho & Hok). rewrite Hm in Hm'. injection Hm' as <-.
  assert (is_Some (stream_at (ses s) r)) as Hr by (rewrite (proj1 Hin); done).
  assert (0 <= km_ctag m <= SRTP_MAX_TAG_LEN) as Hct by (by eapply Forall_lookup_1 in Hctags).
  assert (0 <= km_tag m <= octets_in_rtp_header) as Hmt by (by eapply Forall_lookup_1 in Htags).
  destruct (unprotect_rtcp_with_keys_focus (ses s) r len k m Hr ltac:(done) addr y len mki x o p (events s))
    as (x' & o' & p' & evs' & res & E' & Hop);
    [done|done|unfold octets_in_rtcp_header, srtcp_trailer_t; lia|done|unfold octets_in_rtp_header in Hmt; lia|apply Hwf|].
  pose proof (focus_self (ses s) r (objs k) len s x o eq_refl eq_refl (proj1 Hin) Ho) as Hfs. fold p in Hfs. rewrite <- Hfs in E'.
  set (rest := len - km_ctag m - mki - srtcp_trailer_t) in *. set (f := focus (ses s) r (objs k) len x' o' p' evs') in *.
  destruct (ro_dir _ _ _ _ _ _ _ _ _ _ _ _ _ _ Hop) as [d Hd].
  assert (ses_ok ms (ses f)) as Hsf by (eapply ses_ok_focus; try done; [rewrite Hd; by apply strm_wf_direction|apply Hop]).
  assert (zlen p' = zlen p /\ Forall is_u8 p') as [Hzp HFp] by (split; apply Hop).
  destruct res as [st|v].
  { exists f, (inl st). split; [unfold pbind at 1; by rewrite E'|]. split_and!; try done. right.
    exists y, r, x, k, m, o, mki, x', o', p', evs', (inl st). cbv zeta. split_and!; try done. }
  rewrite (bind_ok _ _ _ _ _ E'). destruct (ro_value _ _ _ _ _ _ _ _ _ _ _ _ _ _ Hop v eq_refl) as (-> & Hacc & _).
  autorewrite with prog. cbv beta iota.
  assert (0 <= trailer_index p rest < 2 ^ 31) as Hsq by (unfold trailer_index; lia).
  assert (rtcp_rdb x' = rtcp_rdb x) as Hrx by (by rewrite Hd).
  replace (len - (km_ctag m + srtcp_trailer_t + mki)) with rest by (unfold rest; lia).
  destruct (finish_rtcp_run ms ok r y (trailer_index p rest) x' (with_len f rest)) as (c' & res3 & E3 & Hc' & Hset);
    [done|by apply stream_at_focus|done| |].
  { destruct r; [|done]. rewrite Hrx. destruct (rdb_check_spec (rtcp_rdb x) (trailer_index p rest)) as (st & Est & Hst); [apply Hwf|done|].
    rewrite (ac_new _ _ _ _ _ _ Hacc) in Est. injection Est as <-. by apply Hst. }
  exists (with_len (with_ses f c') rest), res3. split; [exact E3|]. split_and!; try done. right.
  exists y, r, x, k, m, o, mki, x', o', p', evs', (inr (trailer_index p rest, km_ctag m + srtcp_trailer_t)). cbv zeta. split_and!; try done.
  by exists c'.
Qed.

End Unprotect.
