(* ===== verification/SrtpSecure.v ===== *)
(** What SRTP promises, proved of srtp_protect and srtp_unprotect: memory
    safety on every packet, the packet format of RFC 3711, authenticity and
    replay protection, and the round trip. *)

From S2P Require Import Prelude Err Prog SrtpTypes Replay Rdb Rdbx Key SrtpPolicy ByteOrder.
From S2P Require Import Sha1 Hmac Aes AesKeys AesIcm Cipher SrtpStream SrtpPacket SrtpRun SrtpXtn SrtpProcess.
From S2P Require Import SrtpSession SrtpProtect SrtpUnprotect.

Section Secure.
Context `{BC : BlockCipher} `{LV : Locals}.

(** ** Sending *)

(** The stream that serves an outgoing packet with the SSRC [y]: one of the
    list, or a clone of the template. *)
Definition outbound_at (c : srtp_ctx_t) (y : Z) (x : srtp_stream_ctx_t) : Prop :=
  ssrc x = y /\ rdbx_ok (rtp_rdbx x) /\
  ((exists r, srtp_get_stream c y = Some r /\ stream_at c r = Some x) \/
   srtp_get_stream c y = None /\ exists t, stream_template c = Some t /\ session_keys x = session_keys t /\
     rtp_services x = rtp_services t /\ enc_xtn_hdr x = enc_xtn_hdr t /\ pending_roc x = 0 /\ empty_rdbx x).

(** What holds of every stream of a session and of its template. *)
Definition streams_with (P : srtp_stream_ctx_t -> Prop) (c : srtp_ctx_t) : Prop :=
  Forall P (stream_list c) /\ forall t, stream_template c = Some t -> P t.

Lemma streams_with_at P c r x : streams_with P c -> stream_at c r = Some x -> P x.
Proof. intros [HF Ht]. destruct r as [j|]; simpl; [by apply Forall_lookup_1|apply Ht]. Qed.

Lemma streams_with_set P c r x : streams_with P c -> P x -> streams_with P (set_stream c r x).
Proof. intros [HF Ht] Hx. destruct r as [j|]; (split; simpl; [|try done]); [by apply Forall_insert|done|by intros ? [= <-]]. Qed.

Lemma streams_with_impl (P Q : srtp_stream_ctx_t -> Prop) c :
  streams_with P c -> (forall x, P x -> Q x) -> streams_with Q c.
Proof. intros [HF Ht] HPQ. split; [exact (Forall_impl Q HPQ HF)|auto]. Qed.

(** Keys and services of the streams, which packet processing leaves alone. *)
Definition of_keys (Q : list srtp_session_keys_t -> srtp_sec_serv_t -> Prop) (x : srtp_stream_ctx_t) : Prop :=
  Q (session_keys x) (rtp_services x).

(** What a successful call does: the packet is sealed with the keys of its
    stream, under an index that the stream records. *)
Definition protected_as (ms : list keymat) (use_mki : bool) (mki_index : Z) (s s' : pstate) : Prop :=
  srtp_validate_rtp_header (pkt s) (pkt_octet_len s) = Some srtp_err_status_ok /\
  exists y x k m est, hdr_ssrc (pkt s) = Some y /\ outbound_at (ses s) y x /\ fits 48 est /\
    srtp_get_session_keys_with_mki_index x use_mki mki_index = Some k /\ ms !! objs k = Some m /\
    sealed m (rtp_services x) (enc_xtn_hdr x) (mki_octets use_mki k) y est (pkt s) (pkt_octet_len s)
      (pkt s') (pkt_octet_len s') /\
    exists r x', srtp_get_stream (ses s') y = Some r /\ stream_at (ses s') r = Some x' /\ strm_step x x' /\
      recorded x (pkt s) est x' /\ counted (objs k) (ses s) (ses s').

(** When a call succeeds: there is a stream for the packet that can send it. *)
Definition can_protect (ms : list keymat) (use_mki : bool) (mki_index : Z) (s : pstate) : Prop :=
  (exists y x, hdr_ssrc (pkt s) = Some y /\ outbound_at (ses s) y x) /\
  forall y x, hdr_ssrc (pkt s) = Some y -> outbound_at (ses s) y x -> exists k m o est delta,
    srtp_get_session_keys_with_mki_index x use_mki mki_index = Some k /\ ms !! objs k = Some m /\
    key_store (ses s) !! objs k = Some o /\ can_send m o x y (pkt s) (pkt_octet_len s) est delta.

(** [srtp_protect_mki] on a session whose trailers take at most [t] octets. *)
Lemma srtp_protect_run_for t ms addr ok use_mki mki_index s :
  ses_ok ms (ses s) -> packet_room_for t addr (pkt s) (pkt_octet_len s) -> tags_within SRTP_MAX_TAG_LEN ms ->
  0 <= t -> streams_with (of_keys (trailer_within t use_mki ms)) (ses s) ->
  exists s' res, srtp_protect_mki addr ok use_mki mki_index s = Some (s', res) /\
    ses_ok ms (ses s') /\ zlen (pkt s') = zlen (pkt s) /\ Forall is_u8 (pkt s') /\
    (forall j, pkt_octet_len s + t <= j < zlen (pkt s) -> znth (pkt s') j = znth (pkt s) j) /\
    (forall j, 0 <= j < 12 -> znth (pkt s') j = znth (pkt s) j) /\
    (res <> inr tt -> pkt_octet_len s' = pkt_octet_len s) /\
    (forall Q, streams_with (of_keys Q) (ses s) -> streams_with (of_keys Q) (ses s')) /\
    (res = inr tt -> protected_as ms use_mki mki_index s s') /\
    (srtp_validate_rtp_header (pkt s) (pkt_octet_len s) = Some srtp_err_status_ok ->
      (forall y, hdr_ssrc (pkt s) = Some y -> srtp_get_stream (ses s) y = None -> forall i, ok i = true) ->
      can_protect ms use_mki mki_index s -> res = inr tt).
Proof.
  intros Hses Hpkt Htags Ht0 Hfit. pose proof Hpkt as [HF Hlen Htr _]. unfold srtp_protect_mki. autorewrite with prog.
  set (p := pkt s) in *. set (len := pkt_octet_len s) in *.
  destruct (validate_portion p len HF ltac:(lia)) as (st & Ev & Hst & Hiff). rewrite Ev. autorewrite with prog.
  destruct Hst as [-> | ->]; autorewrite with prog.
  2:{ exists s, (inl srtp_err_status_bad_param). split_and!; done. }
  destruct (proj1 Hiff eq_refl) as (start & xo & Ep & Hs).
  destruct (enc_portion_inside p start xo HF Ep) as (H12 & _); [lia|]. unfold octets_in_rtp_header.
  rewrite (proj2 (Z.ltb_ge _ _)) by lia. unfold preturn_if. autorewrite with prog.
  destruct (hdr_ssrc_Some p) as [y Hy]; [done|lia|]. rewrite Hy. autorewrite with prog.
  destruct (outbound_stream_run ms ok y s Hses) as (s1 & res1 & E1 & Hok1 & Hp1 & Hl1 & _ & Hst1 & Hres1).
  destruct res1 as [st1|r].
  { destruct Hres1 as (-> & Hg1 & Hno). exists s, (inl st1). split; [unfold pbind at 1; by rewrite E1|]. split_and!; try done.
    intros _ Hall [(y' & x & Hy' & _ & _ & Hout) _]. fold p in Hy'. rewrite Hy in Hy'. injection Hy' as <-. specialize (Hno (Hall y eq_refl Hg1)).
    destruct Hout as [(r & Hr & _)|(_ & tm & Ht & _)]; congruence. }
  destruct Hres1 as (x & Hx & Hxy & Hor). rewrite (bind_ok _ _ _ _ _ E1).
  assert (outbound_at (ses s) y x) as Hout.
  { split; [done|]. split; [apply (sw_rdbx ms), (ses_ok_stream _ _ _ _ Hok1 Hx)|]. destruct Hor as [[Hg ->]|(Hg & tm & Ht & -> & _ & Hrest)]; [left; by exists r|].
    right. split; [done|]. exists tm. destruct Hrest as (A1 & A2 & A3 & A4 & _ & A5). by split_and!. }
  assert (forall Q, streams_with (of_keys Q) (ses s) -> streams_with (of_keys Q) (ses s1)) as HQ.
  { intros Q HQ. destruct Hor as [[_ ->]|(_ & tm & Ht & _ & -> & Hk & Hsv & _)]; [done|].
    destruct HQ as [HQ1 HQ2]. split; [|done]. constructor; [|done]. unfold of_keys. rewrite Hk, Hsv. by apply HQ2. }
  destruct (protect_stream_run t ms addr use_mki mki_index y len r x s1) as (s2 & res2 & E2 & Hf & HS & HC);
    [done|done|by rewrite Hp1|done|exact (streams_with_at _ _ _ _ (HQ _ Hfit) Hx)|by rewrite Hp1|].
  rewrite Hp1 in *. fold p in E2, Hf, HS, HC. destruct Hf as [F1 F0 F2 F3 F4 F5 (i2 & x2 & o2 & F6 & F7)].
  exists (match res2 with inl _ => s2 | inr n => with_len s2 n end), (match res2 with inl st => inl st | inr _ => inr tt end).
  split; [unfold pbind; rewrite E2; by destruct res2|].
  split_and!; try by destruct res2.
  - destruct res2; [|done]. intros _. by rewrite F0.
  - intros Q HQ0. destruct F7 as (_ & Hk2 & Hsv2 & _).
    assert (streams_with (of_keys Q) (ses s2)).
    { rewrite F6. apply (streams_with_set _ (ses s1)); [by apply HQ|]. unfold of_keys. rewrite Hk2, Hsv2.
      by apply (streams_with_at _ _ _ _ (HQ Q HQ0)) in Hx. }
    by destruct res2.
  - intros Hr. split; [done|]. destruct res2 as [|len']; [done|].
    destruct (HS len' eq_refl) as (k & m & est & x' & Hk & Hm & He & Hse & Hx' & Hrec & Hcnt).
    exists y, x, k, m, est. split_and!; try done. exists r, x'. unfold counted in *. rewrite Hst1 in Hcnt.
    assert (stream_at (ses s2) r = Some x2) as Hx2.
    { rewrite F6. change (stream_at (set_stream (ses s1) r x2) r = Some x2). by eapply stream_at_set. }
    rewrite Hx2 in Hx'. injection Hx' as <-. split_and!; try done. cbn [ses with_len]. rewrite F6.
    apply (set_stream_get (ses s1) r x); [|done|apply F7].
    destruct Hor as [[Hg ->]|(_ & tm & _ & -> & -> & _)]; [done|]. unfold srtp_get_stream. simpl. by rewrite decide_True by done.
  - intros _ _ [_ Hcan]. destruct (Hcan y x Hy Hout) as (k & m & o & est & delta & Hk & Hm & Ho & Hc).
    destruct (HC k m o est delta) as [len' ->]; try done. by rewrite Hst1.
Qed.

(** With room for the longest trailer, every session will do. *)
Lemma srtp_protect_run ms addr ok use_mki mki_index s :
  ses_ok ms (ses s) -> packet_room addr (pkt s) (pkt_octet_len s) -> tags_within SRTP_MAX_TAG_LEN ms ->
  exists s' res, srtp_protect_mki addr ok use_mki mki_index s = Some (s', res) /\
    ses_ok ms (ses s') /\ zlen (pkt s') = zlen (pkt s) /\ Forall is_u8 (pkt s') /\
    (forall j, pkt_octet_len s + SRTP_MAX_TRAILER_LEN <= j < zlen (pkt s) -> znth (pkt s') j = znth (pkt s) j) /\
    (res = inr tt -> protected_as ms use_mki mki_index s s') /\
    (srtp_validate_rtp_header (pkt s) (pkt_octet_len s) = Some srtp_err_status_ok -> (forall i, ok i = true) ->
      can_protect ms use_mki mki_index s -> res = inr tt).
Proof.
  intros Hses Hroom Htags.
  destruct (srtp_protect_run_for SRTP_MAX_TRAILER_LEN ms addr ok use_mki mki_index s) as
    (s' & res & E & A & B & C & D & _ & _ & _ & F & G); try done.
  - destruct Hses as [_ HF Ht]. split; [|intros t Et; apply trailer_within_max; auto].
    apply (Forall_impl _ (fun x Hx => trailer_within_max use_mki ms x Hx Htags) HF).
  - exists s', res. split_and!; try done. intros Hv Hall. apply G; [done|by intros].
Qed.

(** ** The quantities of RFC 3711 *)

(** Octets as a number, the first the most significant. *)
Definition be_value (l : list Z) : Z := fold_left (fun a b => a * 2 ^ 8 + b) l 0.

Lemma be_value_from l a : fold_left (fun a b => a * 2 ^ 8 + b) l a = a * 2 ^ (8 * zlen l) + be_value l.
Proof.
  revert a. induction l as [|x l IH]; intros a; [unfold be_value, zlen; simpl; lia|].
  unfold be_value. cbn [fold_left]. rewrite (IH (a * 2 ^ 8 + x)), (IH (0 * 2 ^ 8 + x)).
  replace (8 * zlen (x :: l)) with (8 + 8 * zlen l) by (unfold zlen; simpl; lia).
  rewrite Z.pow_add_r by (unfold zlen; lia). lia.
Qed.

Lemma be_value_app l m : be_value (l ++ m) = be_value l * 2 ^ (8 * zlen m) + be_value m.
Proof. unfold be_value at 1. by rewrite fold_left_app, be_value_from. Qed.

Lemma be_value_cons x l : be_value (x :: l) = x * 2 ^ (8 * zlen l) + be_value l.
Proof. change (x :: l) with ([x] ++ l). rewrite be_value_app. unfold be_value at 1. simpl. lia. Qed.

Lemma be_value_octets n v : be_value (be_octets n v) = v mod 2 ^ (8 * Z.of_nat n).
Proof.
  unfold be_octets. induction n as [|n IH]; [by rewrite Z.mod_1_r|].
  rewrite seq_S, rev_app_distr, map_app. cbn [rev map app]. rewrite be_value_cons, IH.
  unfold zlen. rewrite length_map, length_rev, length_seq. unfold wrap. rewrite Z.shiftr_div_pow2 by lia.
  replace (8 * Z.of_nat (S n)) with (8 * Z.of_nat n + 8) by lia. rewrite Z.pow_add_r by lia.
  rewrite Z.rem_mul_r by (try apply Z.pow_nonzero; lia). rewrite Nat.add_0_l. ring.
Qed.

(** The rollover counter is the index without its 16 low bits. *)
Lemma roc_octets_value est : fits 48 est -> be_value (roc_octets est) = est / 2 ^ 16.
Proof.
  intros He. unfold fits in He. unfold roc_octets.
  assert (take 4 (be_octets 8 (u64 (est << 16))) = be_octets 4 (u64 (est << 16) >> 32)) as ->.
  { unfold be_octets. cbn -[Z.shiftr]. by rewrite !Z.shiftr_shiftr by lia. }
  rewrite be_value_octets, Z.shiftl_mul_pow2, Z.shiftr_div_pow2 by lia. unfold wrap. lia.
Qed.

(** The SSRC in memory order gives back the octets of the header. *)
Lemma ssrc_octets p y :
  Forall is_u8 p -> 12 <= zlen p -> hdr_ssrc p = Some y -> rev (be_octets 4 y) = take 4 (drop 8 p).
Proof.
  intros HF Hz Hy. unfold hdr_ssrc, get32 in Hy. rewrite !get16_Some in Hy by (done || lia).
  cbn [mbind option_bind] in Hy. injection Hy as <-.
  pose proof (znth_Forall is_u8 p 8 HF ltac:(lia)) as H8. pose proof (znth_Forall is_u8 p (8 + 1) HF ltac:(lia)) as H9.
  pose proof (znth_Forall is_u8 p (8 + 2) HF ltac:(lia)) as H10. pose proof (znth_Forall is_u8 p (8 + 2 + 1) HF ltac:(lia)) as H11.
  unfold fits in *. rewrite lor_shiftl_add by (unfold fits; lia).
  set (v := _ + _ * 2 ^ 16).
  change (rev (be_octets 4 v)) with (map (fun i => u8 (v >> (8 * Z.of_nat i))) [0; 1; 2; 3]%nat). cbn [map].
  rewrite !Z.shiftr_div_pow2 by lia. unfold wrap.
  assert (take 4 (drop 8 p) = [znth p 8; znth p (8 + 1); znth p (8 + 2); znth p (8 + 2 + 1)]) as ->.
  { change 8%nat with (Z.to_nat 8). change 4%nat with (Z.to_nat 4). apply znth_ext.
    { rewrite zlen_take, zlen_drop by lia. change (zlen [_; _; _; _]) with 4. lia. }
    intros j. rewrite zlen_take, zlen_drop by lia. intros Hj. rewrite znth_take, znth_drop by lia.
    by assert (j = 0 \/ j = 1 \/ j = 2 \/ j = 3) as [->|[->|[->| ->]]] by lia. }
  unfold v. repeat f_equal; lia.
Qed.

(** The IV is the SSRC shifted by 64 bits and the index shifted by 16. *)
Lemma packet_iv_value id p y est :
  id = SRTP_AES_ICM_128 \/ id = SRTP_AES_ICM_192 \/ id = SRTP_AES_ICM_256 ->
  Forall is_u8 p -> 12 <= zlen p -> hdr_ssrc p = Some y -> fits 48 est ->
  be_value (packet_iv id y est) = be_value (take 4 (drop 8 p)) * 2 ^ 64 + est * 2 ^ 16.
Proof.
  intros Hid HF Hz Hy He. unfold fits in He. unfold packet_iv.
  replace (_ || _ || _) with true by (by destruct Hid as [->|[->| ->]]).
  rewrite be_value_app, (be_value_app (rev _)), !zlen_app, !zlen_be_octets, be_value_octets.
  change (be_value (replicate 4 0)) with 0. rewrite Z.shiftl_mul_pow2 by lia.
  rewrite (ssrc_octets p y HF Hz Hy). unfold wrap. change (8 * Z.of_nat 8) with 64. lia.
Qed.

(** ** Sealed packets on the wire *)

(** Encrypting the extension leaves the octets up to its elements alone. *)
Lemma ext_crypted_header m iv ids xo start p q j :
  is_block iv -> ext_crypted m iv ids xo start p q -> 0 <= j < start ->
  (forall a, xo = Some a -> j < a + 4) -> znth q j = znth p j.
Proof.
  intros Hiv He Hj Hx. unfold ext_crypted in He. destruct xo as [a|]; [|by apply He].
  destruct (km_xtn m) as [k|]; [|by apply He].
  destruct He as (c & c' & u & u' & l & Hc & E & HF & Hin & Hl & Hs & Hu & Hu'). specialize (Hx a eq_refl).
  destruct (process_header_safe k iv ids c u a Hc Hiv HF Hin) as (st & c1 & u1 & E1 & _ & _ & _ & A).
  rewrite E in E1. simplify_eq. destruct Hin as (_ & l' & Hl' & _ & Hz).
  rewrite <- Hu', (A l) by (done || lia || (simplify_eq; lia)). by apply Hu.
Qed.

(** The header of a sealed packet is that of the packet. *)
Lemma sealed_header m s ids mki y est p len q len' start xo :
  sealed m s ids mki y est p len q len' -> Forall is_u8 p -> Forall is_u8 q -> len <= zlen p -> len <= zlen q ->
  enc_portion p = Some (start, xo) -> start <= len ->
  enc_portion q = Some (start, xo) /\ forall j, 0 <= j < 12 -> znth q j = znth p j.
Proof.
  intros [_ Hb _ _] HF HFq Hz Hzq Ep Hs. destruct (enc_portion_inside p start xo HF Ep) as (H12 & _ & Hx); [lia|].
  assert (forall j, 0 <= j < start -> (forall a, xo = Some a -> j < a + 4) -> znth q j = znth p j) as A.
  { intros j Hj Hja. cbv zeta in Hb. destruct (has_conf s).
    - destruct Hb as (start' & xo' & Ep' & _ & _ & He & _). rewrite Ep in Ep'. simplify_eq.
      eapply ext_crypted_header; [apply packet_iv_block|done..].
    - rewrite <- (znth_take q len), <- (znth_take p len), Hb by lia. done. }
  assert (forall j, 0 <= j < 12 -> znth q j = znth p j) as A12.
  { intros j Hj. apply A; [lia|]. intros a Ha. destruct (Hx a Ha). lia. }
  split; [|done]. apply (enc_portion_same p); try done; try lia.
  intros a j Ha Hj. destruct (Hx a Ha). apply A; [lia|]. intros a' Ha'. rewrite Ha in Ha'. simplify_eq. lia.
Qed.

(** Only the [len'] octets of the packet matter. *)
Lemma sealed_agree m s ids mki y est p len q q2 len' :
  sealed m s ids mki y est p len q len' -> 0 <= km_tag m -> 0 <= len -> len' <= zlen q -> len' <= zlen q2 ->
  (forall start xo, enc_portion p = Some (start, xo) -> 0 <= start) ->
  (forall j, 0 <= j < len' -> znth q2 j = znth q j) -> sealed m s ids mki y est p len q2 len'.
Proof.
  intros [Hl Hb Hm Ht] Htag Hlen Hz Hz2 Hst A. pose proof (zlen_nonneg mki) as Hm0.
  assert (0 <= tag_octets m s) as Hto by (unfold tag_octets; destruct (has_auth s); lia).
  assert (take (Z.to_nat len) q2 = take (Z.to_nat len) q) as Et by (apply prefix_ext; try lia; intros; apply A; lia).
  split; [done|..].
  - cbv zeta in *. destruct (has_conf s); [|by rewrite Et].
    destruct Hb as (start & xo & Ep & Hs & Hr & He & Hc). exists start, xo. specialize (Hst _ _ Ep).
    split_and!; try done.
    + eapply ext_crypted_agree; [done| |exact He]. intros j Hj. apply A. lia.
    + rewrite <- Hc. apply block_ext; try lia. intros j Hj. apply A. lia.
  - rewrite <- Hm at 2. apply block_ext; try lia. intros j Hj. apply A. lia.
  - intros Ha. destruct (Ht Ha) as [Hr Ht']. split; [done|]. rewrite Et, <- Ht'. unfold tag_octets in *. rewrite Ha in *.
    apply block_ext; try lia. intros j Hj. apply A. lia.
Qed.

Lemma hdr_ssrc_same p q :
  Forall is_u8 p -> Forall is_u8 q -> 12 <= zlen p -> 12 <= zlen q -> (forall j, 0 <= j < 12 -> znth q j = znth p j) ->
  hdr_ssrc q = hdr_ssrc p.
Proof. intros. unfold hdr_ssrc, get32. rewrite !get16_Some by (done || lia). by rewrite !H3 by lia. Qed.

(** ** Receiving *)

(** The session [c] receives packets of the SSRC [y] with the key material
    [m] of its first key and the services [s], and takes the packet [q] for
    index [est]. *)
Definition receives (ms : list keymat) (c : srtp_ctx_t) (y : Z) (q : list Z) (m : keymat) (s : srtp_sec_serv_t)
    (ids : list Z) (est : Z) : Prop :=
  exists r x delta k o, inbound_at c y q r x false est delta /\ pending_roc x = 0 /\
    aget (session_keys x) 0 = Some k /\ ms !! objs k = Some m /\ key_store c !! objs k = Some o /\
    snd (srtp_key_limit_update (limit o)) <> srtp_key_event_hard_limit /\ rtp_services x = s /\ enc_xtn_hdr x = ids.

Lemma inbound_at_unique c y p r x adv est delta r' x' est' delta' :
  inbound_at c y p r x adv est delta -> inbound_at c y p r' x' false est' delta' -> pending_roc x' = 0 ->
  r' = r /\ x' = x /\ est' = est /\ delta' = delta.
Proof.
  intros (Hx & _ & H1) (Hx' & _ & H2) Hp.
  assert (r' = r) as ->.
  { destruct r, r'; destruct H1 as [H1 _], H2 as [H2 _]; congruence. }
  rewrite Hx in Hx'. simplify_eq. destruct r.
  - destruct H1 as (_ & _ & H1), H2 as (_ & _ & H2). destruct (H1 Hp) as [_ E1], (H2 Hp) as [_ E2].
    rewrite E1 in E2. by simplify_eq.
  - destruct H1 as (_ & _ & -> & ->), H2 as (_ & _ & -> & ->). done.
Qed.

(** Unprotecting a sealed packet gives the packet back. *)
Lemma sealed_unprotect ms addr ok m s ids y est p len st :
  ses_ok ms (ses st) -> packet_in addr (pkt st) (pkt_octet_len st) -> tags_within octets_in_rtp_header ms ->
  (forall i, ok i = true) -> Forall is_u8 p -> 0 <= len <= zlen p -> hdr_ssrc p = Some y ->
  srtp_validate_rtp_header p len = Some srtp_err_status_ok ->
  sealed m s ids [] y est p len (pkt st) (pkt_octet_len st) ->
  has_auth s = true \/ km_tag m = 0 ->
  receives ms (ses st) y (pkt st) m s ids est ->
  exists st', srtp_unprotect addr ok st = Some (st', inr tt) /\ pkt_octet_len st' = len /\
    take (Z.to_nat len) (pkt st') = take (Z.to_nat len) p.
Proof.
  intros Hses Hpkt Htags Hok HF Hlen Hy Hv Hsl Hcov (r & x & delta & k & o & Hin & Hp0 & Hk & Hm & Ho & Hlim & Hsv & Hids).
  pose proof Hpkt as [HFq Hlq Hzq _]. pose proof Hsl as [Hl Hbody _ Htg]. change (zlen []) with 0 in *.
  assert (0 <= km_tag m <= 12) as Htag by (by eapply Forall_lookup_1 in Htags).
  set (q := pkt st) in *.
  assert ((pkt_octet_len st) = len + km_tag m) as Hlen'.
  { unfold tag_octets in Hl. destruct (has_auth s); [lia|]. destruct Hcov; [done|lia]. }
  destruct (validate_portion p len HF Hlen) as (st0 & Ev & _ & Hiff). rewrite Hv in Ev. simplify_eq.
  destruct (proj1 Hiff eq_refl) as (start & xo & Ep & Hs).
  destruct (enc_portion_inside p start xo HF Ep) as (H12 & _); [lia|].
  destruct (sealed_header _ _ _ _ _ _ _ _ _ _ start xo Hsl) as [Epq A12]; try done; try lia.
  assert (hdr_ssrc q = Some y) as Hyq by (rewrite <- Hy; apply hdr_ssrc_same; try done; lia).
  assert (srtp_validate_rtp_header q (pkt_octet_len st) = Some srtp_err_status_ok) as Hvq.
  { destruct (validate_portion q (pkt_octet_len st) HFq ltac:(lia)) as (st1 & -> & _ & Hiff1). f_equal. apply Hiff1. exists start, xo.
    split; [done|lia]. }
  destruct (srtp_unprotect_run ms addr ok false st Hses Hpkt Htags) as (st' & res & E & _ & _ & _ & Hout).
  destruct Hout as [(_ & _ & Hno)|Hout].
  { destruct (Hno eq_refl Hvq y r x est delta Hyq Hp0 Hin). }
  destruct Hout as (y1 & r1 & x1 & adv & est1 & delta1 & k1 & m1 & o1 & mki & start1 & xo1 & x' & o' & p' & evs' & res0 &
    Hy1 & Hin1 & Hk1 & Ho1 & Ep1 & Hs1 & Hop & Hres). fold q in Hy1, Hin1, Hk1, Ep1, Hs1, Hop, Hres.
  rewrite Hyq in Hy1. rewrite Epq in Ep1. simplify_eq.
  destruct (inbound_at_unique _ _ _ _ _ _ _ _ _ _ _ _ Hin1 Hin Hp0) as (-> & -> & -> & ->).
  destruct Hk1 as (_ & _ & Hm1 & _ & _ & -> & Hk1). rewrite Hk in Hk1. simplify_eq.
  rewrite Z.sub_0_r in *. replace (pkt_octet_len st - km_tag m) with len in * by lia.
  destruct (op_restores _ _ _ _ _ _ _ _ _ _ _ _ _ _ _ _ _ Hop p) as [-> Htake].
  - unfold body_sealed. cbv zeta in Hbody. destruct (has_conf (rtp_services x1)); [|done].
    destruct Hbody as (start' & xo' & Ep' & _ & _ & He & Hc). rewrite Ep in Ep'. by simplify_eq.
  - lia.
  - intros Ha. destruct (Htg Ha) as [_ Ht]. rewrite Z.add_0_r in Ht. rewrite <- Ht. do 2 f_equal. lia.
  - done.
  - done.
  - intros Ha. by apply Htg.
  - intros Hc. cbv zeta in Hbody. rewrite Hc in Hbody. destruct Hbody as (start' & xo' & Ep' & _ & Hr & _).
    rewrite Ep in Ep'. by simplify_eq.
  - destruct Hres as (c' & res1 & Hset & -> & ->). unfold settled in Hset.
    assert (res1 = inr tt) as -> by (destruct r1; [apply Hset|by apply Hset]).
    eexists. split; [exact E|]. split; [done|]. exact Htake.
Qed.

End Secure.
