(* ===== verification/SrtpKeys.v ===== *)
(** Key derivation: srtp_stream_init_keys gives the objects of a stream the
    session keys that RFC 3711 derives from the master key. *)

From S2P Require Import Prelude Err Prog SrtpTypes Replay Rdb Rdbx Key SrtpPolicy ByteOrder.
From S2P Require Import Sha1 Hmac Aes AesKeys AesIcm Cipher Kernel KernelRun SrtpStream SrtpCreate SrtpPacket SrtpRun SrtpXtn SrtpProcess.

Section Keys.
Context `{BC : BlockCipher} `{LV : Locals}.
Context (kernel : srtp_crypto_kernel_t) (Hkernel : kernel_ready kernel).

(** ** The derivation function *)

(** The counter-mode key in [key], of [L] octets with the salt. *)
Definition icm_key (L : Z) (key : list Z) : stream_key :=
  {| sk_E := bc_E (L - SRTP_SALT_LEN) key;
     sk_offset := take 14 (drop (Z.to_nat (L - SRTP_SALT_LEN)) key) ++ [0; 0] |}.

Definition kdf_nonce (label : Z) : list Z := replicate 7 0 ++ [label] ++ replicate 8 0.

(** [n] octets for [label], derived from the [L] octets of master key and salt
    in [t]: the key stream for the nonce. *)
Definition derive (L : Z) (t : list Z) (label n : Z) : list Z :=
  crypt (Some (icm_key L t)) (kdf_nonce label) 0 (replicate (Z.to_nat n) 0).

Lemma zlen_derive L t label n : 0 <= n -> zlen (derive L t label n) = n.
Proof. intros. unfold derive. rewrite zlen_crypt, zlen_replicate. lia. Qed.

Lemma kdf_nonce_block label : is_u8 label -> is_block (kdf_nonce label).
Proof.
  intros Hl. split; [done|]. unfold kdf_nonce. rewrite !Forall_app.
  split_and!; [by apply Forall_replicate|by constructor|by apply Forall_replicate].
Qed.

Lemma znth_xor_octets a b j :
  0 <= j < zlen a -> j < zlen b -> znth (xor_octets a b) j = znth a j ^^ znth b j.
Proof.
  intros Ha Hb. unfold znth, aget, xor_octets. rewrite decide_True by lia. rewrite lookup_zip_with.
  destruct (lookup_lt_is_Some_2 a (Z.to_nat j)) as [x ->]; [unfold zlen in *; lia|].
  destruct (lookup_lt_is_Some_2 b (Z.to_nat j)) as [y ->]; [unfold zlen in *; lia|].
  simpl. by rewrite !decide_True by lia.
Qed.

(** The block counter starts at zero when offset and IV end with zeroes. *)
Lemma start_block_low16 k iv :
  is_block (sk_offset k) -> is_block iv -> low16 (sk_offset k) = 0 -> low16 iv = 0 -> low16 (start_block k iv) = 0.
Proof.
  intros [Ho HFo] [Hi HFi] Hlo Hli. unfold low16, start_block in *. rewrite !znth_xor_octets by lia.
  assert (forall l, Forall is_u8 l -> zlen l = 16 -> znth l 14 * 2 ^ 8 + znth l 15 = 0 -> znth l 14 = 0 /\ znth l 15 = 0)
    as Hz.
  { intros l HF Hl. pose proof (znth_Forall is_u8 l 14 HF). pose proof (znth_Forall is_u8 l 15 HF). unfold fits in *. lia. }
  destruct (Hz _ HFo Ho Hlo) as [-> ->], (Hz _ HFi Hi Hli) as [-> ->]. done.
Qed.

Lemma low16_icm_key L t : zlen (sk_offset (icm_key L t)) = 16 -> low16 (sk_offset (icm_key L t)) = 0.
Proof.
  cbn [icm_key sk_offset]. set (l := take 14 _). rewrite zlen_app. change (zlen [0; 0]) with 2. intros Hl.
  unfold low16. rewrite !znth_app by lia. rewrite !decide_False by lia.
  replace (14 - zlen l) with 0 by lia. by replace (15 - zlen l) with 1 by lia.
Qed.

(** A derivation context for the master key in [t]. *)
Definition kdf_at (L : Z) (t : list Z) (c : cipher_t) : Prop :=
  keyed_cipher (Some (icm_key L t)) c /\ is_block (sk_offset (icm_key L t)).

Lemma kdf_generate_at L t label addr c key :
  kdf_at L t c -> is_u8 label -> zlen key <= MAX_SRTP_KEY_LEN ->
  exists c', srtp_kdf_generate c label addr key = Some (srtp_err_status_ok, c', derive L t label (zlen key)) /\ kdf_at L t c'.
Proof.
  intros [Hc Ho] Hl Hz. unfold MAX_SRTP_KEY_LEN in Hz. pose proof (zlen_nonneg key) as Hk0.
  unfold srtp_kdf_generate. fold (kdf_nonce label). pose proof (kdf_nonce_block label Hl) as Hb.
  destruct (cipher_set_iv_ok _ _ (kdf_nonce label) Hc Hb) as (c1 & -> & Hat & _). cbn [mbind option_bind].
  change (is_err srtp_err_status_ok) with false. cbv iota.
  assert (replicate (length key) 0 = replicate (Z.to_nat (zlen key)) 0) as -> by (unfold zlen; by rewrite Nat2Z.id).
  set (z := replicate (Z.to_nat (zlen key)) 0). assert (zlen z = zlen key) as Lz by (unfold z; rewrite zlen_replicate; lia).
  destruct (cipher_encrypt_at addr (Some (icm_key L t)) (kdf_nonce label) 0 c1 z (zlen key))
    as (st & c2 & buf & -> & _ & HR); [done|done|by apply Forall_replicate|lia|lia|]. cbn [mbind option_bind].
  assert (low16 (start_block (icm_key L t) (kdf_nonce label)) = 0) as H0.
  { apply start_block_low16; [done|done| |done]. apply low16_icm_key, Ho. }
  cbn [room] in HR. rewrite H0 in HR. rewrite (proj2 (Z.leb_le _ _)) in HR by lia. destruct HR as (-> & Hat2 & ->).
  exists c2. split.
  - rewrite (take_ge z), (drop_ge z), app_nil_r by (unfold zlen in *; lia). done.
  - split; [by eapply cipher_at_keyed|done].
Qed.

(** The counter-mode cipher types of the build. *)
Definition is_icm (id : Z) : Prop := id = SRTP_AES_ICM_128 \/ id = SRTP_AES_ICM_256.

(** Objects that the kernel hands out. *)
Lemma icm_alloc_spec ok1 ok2 L :
  exists st c, srtp_aes_icm_alloc bc_zero ok1 ok2 L = (st, c) /\
    match c with
    | None => is_err st = true /\ (L = 30 \/ L = 46 -> ok1 && ok2 = false)
    | Some c => st = srtp_err_status_ok /\ fresh_cipher (icm_cipher c) /\ cipher_key_len' c = L /\ (L = 30 \/ L = 46) /\
        is_icm (cipher_algorithm c)
    end.
Proof.
  unfold srtp_aes_icm_alloc. destruct (negb _ && negb _) eqn:E.
  { eexists _, _. split; [done|]. split; [done|]. intros [-> | ->]; done. }
  apply andb_false_iff in E. rewrite !negb_false_iff, !Z.eqb_eq in E.
  destruct ok1, ok2; simpl; eexists _, _; (split; [done|]); try done.
  unfold fresh_cipher, icm_wf. simpl. split_and!; try done; [|apply bc_zero_memory|].
  - split; [done|]. by apply u8_list_dec.
  - unfold is_icm. case_if; auto.
Qed.

Lemma alloc_cipher_spec ok1 ok2 id key_len :
  exists st c, srtp_crypto_kernel_alloc_cipher kernel ok1 ok2 id key_len = (st, c) /\
    match c with
    | None => is_err st = true
    | Some c => st = srtp_err_status_ok /\ fresh_cipher c /\ srtp_cipher_get_key_length c = key_len /\
        match c with null_cipher _ => True | icm_cipher c => is_icm (cipher_algorithm c) end
    end.
Proof.
  unfold srtp_crypto_kernel_alloc_cipher. rewrite decide_False by (rewrite (kr_secure _ Hkernel); congruence).
  destruct (srtp_crypto_kernel_get_cipher_type kernel id) as [ty|]; [|by eexists _, _].
  destruct (icm_alloc_spec ok1 ok2 key_len) as (st & c & -> & Hc).
  destruct ty; [unfold srtp_null_cipher_alloc; destruct ok1; by eexists _, _|..];
    (eexists _, _; split; [done|]; destruct c; simpl; [|by destruct Hc]; destruct Hc as (-> & Hf & Hl & _ & Hid); split_and!; done || apply Hf).
Qed.

Lemma alloc_auth_spec ok id key_len tag_len :
  exists st a, srtp_crypto_kernel_alloc_auth kernel ok id key_len tag_len = (st, a) /\
    match a with
    | None => is_err st = true
    | Some a => st = srtp_err_status_ok /\ srtp_auth_get_key_length a = key_len /\
        (0 <= key_len -> fresh_auth a tag_len)
    end.
Proof.
  unfold srtp_crypto_kernel_alloc_auth. rewrite decide_False by (rewrite (kr_secure _ Hkernel); congruence).
  destruct (srtp_crypto_kernel_get_auth_type kernel id) as [[]|]; [|..|by eexists _, _].
  - unfold srtp_null_auth_alloc. destruct ok; by eexists _, _.
  - unfold srtp_hmac_alloc. case_if; [by eexists _, _|]. case_if; [by eexists _, _|].
    destruct ok; [|by eexists _, _]. simpl. eexists _, _. split; [done|]. simpl. split_and!; try done.
Qed.

(** The counter-mode cipher of the given key length. *)
Lemma kdf_init_spec ok1 ok2 t L :
  L = 30 \/ L = 46 -> Forall is_u8 t -> L <= zlen t ->
  exists st c, srtp_kdf_init kernel ok1 ok2 t L = Some (st, c) /\
    match c with None => is_err st = true /\ (ok1 && ok2 = false) | Some c => st = srtp_err_status_ok /\ kdf_at L t c end.
Proof.
  intros HL HF Hz. unfold srtp_kdf_init, SRTP_AES_ICM_256_KEY_LEN_WSALT, SRTP_AES_ICM_192_KEY_LEN_WSALT,
    SRTP_AES_ICM_128_KEY_LEN_WSALT.
  assert (forall ty id, srtp_crypto_kernel_get_cipher_type kernel id = Some ty -> ty <> srtp_null_cipher ->
    exists st c, match srtp_crypto_kernel_alloc_cipher kernel ok1 ok2 id L with
      | (srtp_err_status_ok, Some c) =>
          '(st, c) ← srtp_cipher_init c t; if is_err st then Some (st, None) else Some (srtp_err_status_ok, Some c)
      | (st, _) => Some (st, None)
      end = Some (st, c) /\
      match c with None => is_err st = true /\ (ok1 && ok2 = false) | Some c => st = srtp_err_status_ok /\ kdf_at L t c end)
    as Hinit.
  { intros ty id Hty Hne. unfold srtp_crypto_kernel_alloc_cipher.
    rewrite decide_False by (rewrite (kr_secure _ Hkernel); congruence). rewrite Hty.
    destruct (icm_alloc_spec ok1 ok2 L) as (st & c & E & Hc).
    assert (match ty with
      | srtp_null_cipher => srtp_null_cipher_alloc ok1 L
      | _ => let '(st, c) := srtp_aes_icm_alloc bc_zero ok1 ok2 L in (st, icm_cipher <$> c)
      end = (st, icm_cipher <$> c)) as -> by (rewrite E; by destruct ty).
    destruct c as [c|]; simpl.
    - destruct Hc as (-> & Hf & Hcl & _). destruct (cipher_init_keyed (icm_cipher c) t Hf HF) as (c' & Ei & Hk & _);
        [simpl; lia|]. simpl in Ei. rewrite Ei. cbn [mbind option_bind]. eexists _, (Some c'). split; [done|].
      split; [done|]. cbn [stream_key_of] in Hk. rewrite Hcl in Hk. split; [done|].
      by destruct c' as [|c']; [|destruct Hk as (_ & _ & Hb & _)].
    - destruct Hc as [He Hok]. exists st, None. split; [by destruct st|]. split; [done|]. by apply Hok. }
  destruct HL as [-> | ->]; simpl; [apply (Hinit _ _ (kr_icm_128 _ Hkernel))|apply (Hinit _ _ (kr_icm_256 _ Hkernel))]; done.
Qed.

(** ** The buffer of derived keys *)

Section Buffer.
Context (L : Z) (t : list Z) (HFt : Forall is_u8 t).

Definition buffer_ok (b : list Z) : Prop := zlen b = MAX_SRTP_KEY_LEN /\ Forall is_u8 b.

(** A key of [base] octets and a salt of [sl] behind it. *)
Definition key_salt (lk ls base sl : Z) (b : list Z) : list Z :=
  let b := over b 0 (derive L t lk base) in
  if 0 <? sl then over b base (derive L t ls sl) else b.

Lemma derive_u8 c label n : kdf_at L t c -> is_u8 label -> Forall is_u8 (derive L t label n).
Proof.
  intros [Hc Ho] Hl. destruct (cipher_set_iv_ok _ _ _ Hc (kdf_nonce_block label Hl)) as (c1 & _ & Hat & _).
  eapply cipher_at_u8; [done|by apply kdf_nonce_block|]. by apply Forall_replicate.
Qed.

Lemma over_buffer c b off label n :
  kdf_at L t c -> is_u8 label -> buffer_ok b -> 0 <= off -> 0 <= n -> off + n <= MAX_SRTP_KEY_LEN ->
  buffer_ok (over b off (derive L t label n)).
Proof.
  intros Hc Hl [Hz HF] Ho Hn Hb. split; [rewrite zlen_over; rewrite ?zlen_derive; lia|].
  apply over_u8; [done|by eapply derive_u8].
Qed.

Lemma generate_at o k b c label off n :
  kdf_at L t c -> is_u8 label -> buffer_ok b -> 0 <= off -> 0 <= n -> off + n <= MAX_SRTP_KEY_LEN ->
  exists c', generate label off n {| i_objs := o; i_keys := k; tmp_key := b; kdf := c |} =
      Some ({| i_objs := o; i_keys := k; tmp_key := over b off (derive L t label n); kdf := c' |}, inr tt) /\ kdf_at L t c'.
Proof.
  intros Hc Hl [Hz HF] Ho Hn Hb. unfold generate. autorewrite with prog. cbn [tmp_key SrtpCreate.kdf].
  rewrite slice_Some by lia. autorewrite with prog.
  set (buf := take (Z.to_nat n) (drop (Z.to_nat off) b)).
  assert (zlen buf = n) as Lb by (unfold buf; rewrite zlen_take, zlen_drop by lia; lia).
  destruct (kdf_generate_at L t label (key_addr + off) c buf) as (c' & E & Hc'); [done|done|lia|].
  rewrite E, Lb. autorewrite with prog. cbv beta iota. unfold blit. rewrite zlen_derive by done.
  rewrite decide_True by lia. autorewrite with prog. unfold put_tmp. autorewrite with prog. exists c'. split; [|done].
  unfold over. by rewrite zlen_derive by done.
Qed.

Lemma key_salt_at o k b c lk ls base sl :
  kdf_at L t c -> is_u8 lk -> is_u8 ls -> buffer_ok b -> 0 <= base -> 0 <= sl -> base + sl <= MAX_SRTP_KEY_LEN ->
  exists c', generate_key_salt lk ls base sl {| i_objs := o; i_keys := k; tmp_key := b; kdf := c |} =
      Some ({| i_objs := o; i_keys := k; tmp_key := key_salt lk ls base sl b; kdf := c' |}, inr tt) /\
    kdf_at L t c' /\ buffer_ok (key_salt lk ls base sl b).
Proof.
  intros Hc Hlk Hls Hb Hba Hsl Hm. unfold generate_key_salt, key_salt.
  destruct (generate_at o k b c lk 0 base) as (c1 & E1 & Hc1); [done..|lia|]. rewrite (bind_ok _ _ _ _ _ E1).
  assert (buffer_ok (over b 0 (derive L t lk base))) as Hb1 by (eapply over_buffer; done || lia).
  destruct (0 <? sl) eqn:E; bool_to_prop; [|by exists c1].
  destruct (generate_at o k (over b 0 (derive L t lk base)) c1 ls base sl) as (c2 & E2 & Hc2); [done..|].
  rewrite E2. exists c2. split; [done|]. split; [done|]. by eapply over_buffer.
Qed.

End Buffer.

(** ** Session keys *)

(** The lengths of the key and of the salt of a cipher. *)
Definition base_of (c : cipher_t) : Z := base_key_length (cipher_type_id c) (srtp_cipher_get_key_length c).
Definition salt_of (c : cipher_t) : Z := srtp_cipher_get_key_length c - base_of c.

Definition auth_derived (a : auth_t) (key : list Z) : option (list Z) :=
  match a with null_auth _ _ => None | hmac_auth _ => Some key end.

(** The session keys of the objects [o] for the master key [t]. *)
Definition session_keymat (o : key_objs) (t : list Z) : keymat :=
  let L := kdf_length o in
  let b1 := key_salt L t label_rtp_encryption label_rtp_salt (base_of (rtp_cipher o)) (salt_of (rtp_cipher o)) t in
  let b2 := key_salt L t label_rtp_header_encryption label_rtp_header_salt
              (base_of (rtp_cipher o)) (salt_of (rtp_cipher o)) b1 in
  let akey := derive L t label_rtp_msg_auth (srtp_auth_get_key_length (rtp_auth o)) in
  let b3 := over (match rtp_xtn_hdr_cipher o with Some _ => b2 | None => b1 end) 0 akey in
  let b4 := key_salt L t label_rtcp_encryption label_rtcp_salt (base_of (rtcp_cipher o)) (salt_of (rtcp_cipher o)) b3 in
  let cakey := derive L t label_rtcp_msg_auth (srtp_auth_get_key_length (rtcp_auth o)) in
  {| km_id := cipher_type_id (rtp_cipher o);
     km_rtp := stream_key_of (rtp_cipher o) b1;
     km_xtn := x ← rtp_xtn_hdr_cipher o; Some (stream_key_of x b2);
     km_auth := auth_derived (rtp_auth o) akey;
     km_tag := srtp_auth_get_tag_length (rtp_auth o);
     km_cid := cipher_type_id (rtcp_cipher o);
     km_rtcp := stream_key_of (rtcp_cipher o) b4;
     km_cauth := auth_derived (rtcp_auth o) cakey;
     km_ctag := srtp_auth_get_tag_length (rtcp_auth o) |}.

(** Objects as [srtp_stream_alloc] makes them. *)
Record fresh_objs (o : key_objs) : Prop := {
  fo_rtp : fresh_cipher (rtp_cipher o);
  fo_xtn : forall x, rtp_xtn_hdr_cipher o = Some x -> fresh_cipher x /\
    srtp_cipher_get_key_length x = srtp_cipher_get_key_length (rtp_cipher o);
  fo_auth : fresh_auth (rtp_auth o) (srtp_auth_get_tag_length (rtp_auth o));
  fo_rtcp : fresh_cipher (rtcp_cipher o);
  fo_cauth : fresh_auth (rtcp_auth o) (srtp_auth_get_tag_length (rtcp_auth o));
  fo_lengths : 0 <= srtp_cipher_get_key_length (rtp_cipher o) <= MAX_SRTP_KEY_LEN /\
    0 <= srtp_cipher_get_key_length (rtcp_cipher o) <= MAX_SRTP_KEY_LEN /\
    0 <= srtp_auth_get_key_length (rtp_auth o) <= MAX_SRTP_KEY_LEN /\
    0 <= srtp_auth_get_key_length (rtcp_auth o) <= MAX_SRTP_KEY_LEN
}.

(** A master key of a policy, with enough octets for the RTP cipher. *)
Record master_ok (o : key_objs) (mk : srtp_master_key_t) (key : list Z) : Prop := {
  mo_key : mk_key mk = Some key;
  mo_u8 : Forall is_u8 key;
  mo_len : srtp_cipher_get_key_length (rtp_cipher o) <= zlen key;
  mo_mki : 0 <= mk_mki_size mk <= zlen (mk_mki_id mk);
  mo_mki_u8 : Forall is_u8 (mk_mki_id mk)
}.

(** The key in the buffer, zero appended. *)
Definition padded_key (o : key_objs) (key : list Z) : list Z :=
  over (replicate (Z.to_nat MAX_SRTP_KEY_LEN) 0) 0 (take (Z.to_nat (srtp_cipher_get_key_length (rtp_cipher o))) key).

Lemma base_salt c :
  fresh_cipher c -> 0 <= srtp_cipher_get_key_length c <= MAX_SRTP_KEY_LEN ->
  0 <= base_of c /\ base_of c + salt_of c = srtp_cipher_get_key_length c /\ (salt_of c = 0 \/ 12 <= salt_of c).
Proof.
  intros Hf Hl. unfold salt_of, base_of, base_key_length, SRTP_SALT_LEN, SRTP_AEAD_SALT_LEN.
  destruct c as [n|c]; simpl in *; [lia|]. destruct Hf as [[Hk _] Hf].
  assert (cipher_key_len' c = 30 \/ cipher_key_len' c = 46) as Hn by (rewrite <- Hf; exact Hk).
  repeat case_match; lia.
Qed.

Lemma padded_key_ok o key :
  Forall is_u8 key -> 0 <= srtp_cipher_get_key_length (rtp_cipher o) <= MAX_SRTP_KEY_LEN -> buffer_ok (padded_key o key).
Proof.
  intros HF Hl. unfold padded_key, MAX_SRTP_KEY_LEN in *. split.
  - rewrite zlen_over; [by rewrite zlen_replicate|lia|]. rewrite zlen_take, zlen_replicate by lia. lia.
  - apply over_u8; [by apply Forall_replicate|by apply Forall_take].
Qed.

(** What [srtp_stream_init_keys] leaves behind. *)
Record keys_set (o : key_objs) (k : srtp_session_keys_t) (mk : srtp_master_key_t) (key : list Z) (s : istate) : Prop := {
  ks_objs : objs_ok (session_keymat o (padded_key o key)) (i_objs s);
  ks_limit : limit (i_objs s) = {| num_left := 0xffffffffffff; key_state := srtp_key_state_normal |};
  ks_index : objs (i_keys s) = objs k;
  ks_mki : mki_id (i_keys s) = take (Z.to_nat (mk_mki_size mk)) (mk_mki_id mk);
  ks_mki_size : mki_size (i_keys s) = mk_mki_size mk
}.

(** ** The steps *)

Section Steps.
Context (L : Z) (t : list Z).
#[local] Abbreviation ist o k b c := {| i_objs := o; i_keys := k; tmp_key := b; kdf := c |}.

(** Nothing but the salts of the session keys changes. *)
Definition same_keys (k k' : srtp_session_keys_t) : Prop :=
  objs k' = objs k /\ mki_id k' = mki_id k /\ mki_size k' = mki_size k.

Lemma keep_salt_at base sl old o k b c :
  buffer_ok b -> 0 <= base -> base + sl <= MAX_SRTP_KEY_LEN -> sl = 0 \/ 12 <= sl ->
  exists s, keep_salt base sl old (ist o k b c) = Some (ist o k b c, inr s).
Proof.
  intros [Hz _] Hb Hm Hs. unfold keep_salt. autorewrite with prog. cbn [tmp_key]. unfold MAX_SRTP_KEY_LEN in *.
  destruct (0 <? sl) eqn:E; bool_to_prop; [|by eexists].
  unfold SRTP_AEAD_SALT_LEN. rewrite slice_Some by lia. by eexists.
Qed.

Lemma init_rtp_cipher_at o k b c :
  kdf_at L t c -> buffer_ok b -> fresh_cipher (rtp_cipher o) ->
  0 <= srtp_cipher_get_key_length (rtp_cipher o) <= MAX_SRTP_KEY_LEN ->
  let b' := key_salt L t label_rtp_encryption label_rtp_salt (base_of (rtp_cipher o)) (salt_of (rtp_cipher o)) b in
  exists rc k' c', init_rtp_cipher (base_of (rtp_cipher o)) (salt_of (rtp_cipher o)) (ist o k b c) =
      Some (ist (with_rtp_cipher o rc) k' b' c', inr tt) /\
    keyed_cipher (stream_key_of (rtp_cipher o) b') rc /\ cipher_type_id rc = cipher_type_id (rtp_cipher o) /\
    kdf_at L t c' /\ buffer_ok b' /\ same_keys k k'.
Proof.
  intros Hc Hb Hf Hl b'. destruct (base_salt _ Hf Hl) as (B1 & B2 & B3). unfold init_rtp_cipher.
  destruct (key_salt_at L t o k b c label_rtp_encryption label_rtp_salt (base_of (rtp_cipher o)) (salt_of (rtp_cipher o)))
    as (c1 & E1 & Hc1 & Hb1); try done; try lia. fold b' in E1, Hb1.
  rewrite (bind_ok _ _ _ _ _ E1). autorewrite with prog. cbn [i_keys].
  destruct (keep_salt_at (base_of (rtp_cipher o)) (salt_of (rtp_cipher o)) (salt k) o k b' c1) as (s & Es); [done|lia..|done|].
  rewrite (bind_ok _ _ _ _ _ Es). unfold put_i_keys, put_i_objs, init_or_fail. autorewrite with prog.
  cbn [i_objs i_keys tmp_key SrtpCreate.kdf].
  destruct (cipher_init_keyed (rtp_cipher o) b' Hf) as (rc & -> & Hk & Hid); [apply Hb1|destruct Hb1; lia|].
  autorewrite with prog. cbv beta iota. autorewrite with prog.
  exists rc, (with_salt k s), c1. by split_and!.
Qed.

Lemma init_xtn_cipher_at o k b c base sl :
  kdf_at L t c -> buffer_ok b -> 0 <= base -> 0 <= sl -> base + sl <= MAX_SRTP_KEY_LEN ->
  (forall x, rtp_xtn_hdr_cipher o = Some x -> fresh_cipher x /\ srtp_cipher_get_key_length x <= MAX_SRTP_KEY_LEN) ->
  let b1 := key_salt L t label_rtp_header_encryption label_rtp_header_salt base sl b in
  let b' := match rtp_xtn_hdr_cipher o with Some _ => b1 | None => b end in
  exists o' c', init_xtn_cipher base sl (ist o k b c) = Some (ist o' k b' c', inr tt) /\
    kdf_at L t c' /\ buffer_ok b' /\
    match rtp_xtn_hdr_cipher o with
    | None => o' = o
    | Some x => exists x', o' = with_xtn_cipher o x' /\ keyed_cipher (stream_key_of x b1) x'
    end.
Proof.
  intros Hc Hb B1 B2 B3 Hx b1 b'. unfold init_xtn_cipher. autorewrite with prog. cbn [i_objs].
  destruct (rtp_xtn_hdr_cipher o) as [x|]; [|by exists o, c].
  destruct (Hx x eq_refl) as [Hf Hl].
  destruct (key_salt_at L t o k b c label_rtp_header_encryption label_rtp_header_salt base sl)
    as (c1 & E1 & Hc1 & Hb1); try done. fold b1 in E1, Hb1. autorewrite with prog.
  rewrite (bind_ok _ _ _ _ _ E1). unfold put_i_objs, init_or_fail. autorewrite with prog. cbn [tmp_key].
  destruct (cipher_init_keyed x b1 Hf) as (x' & -> & Hk & _); [apply Hb1|destruct Hb1; lia|].
  autorewrite with prog. cbv beta iota. autorewrite with prog. cbn [i_objs i_keys tmp_key SrtpCreate.kdf].
  exists (with_xtn_cipher o x'), c1. split_and!; try done. by exists x'.
Qed.

Lemma auth_key_over a b d :
  buffer_ok b -> 0 <= srtp_auth_get_key_length a <= MAX_SRTP_KEY_LEN -> zlen d = srtp_auth_get_key_length a ->
  auth_key_of a (over b 0 d) = auth_derived a d.
Proof.
  intros [Hz _] Hl Hd. destruct a as [|a]; [done|]. simpl in *. f_equal. unfold over.
  change (Z.to_nat 0) with 0%nat. rewrite take_0, app_nil_l. apply take_app_length'. unfold zlen in Hd. lia.
Qed.

Lemma init_rtp_auth_at o k b c tag :
  kdf_at L t c -> buffer_ok b -> fresh_auth (rtp_auth o) tag -> 0 <= srtp_auth_get_key_length (rtp_auth o) <= MAX_SRTP_KEY_LEN ->
  let d := derive L t label_rtp_msg_auth (srtp_auth_get_key_length (rtp_auth o)) in
  exists a' c', init_rtp_auth (ist o k b c) = Some (ist (with_rtp_auth o a') k (over b 0 d) c', inr tt) /\
    keyed_auth (auth_derived (rtp_auth o) d) tag a' /\ kdf_at L t c' /\ buffer_ok (over b 0 d).
Proof.
  intros Hc Hb Hf Hl d. unfold init_rtp_auth. autorewrite with prog. cbn [i_objs].
  destruct (generate_at L t o k b c label_rtp_msg_auth 0 (srtp_auth_get_key_length (rtp_auth o))) as (c1 & E1 & Hc1);
    try done; try lia. fold d in E1. rewrite (bind_ok _ _ _ _ _ E1).
  assert (buffer_ok (over b 0 d)) as Hb1 by (eapply over_buffer; done || lia).
  unfold put_i_objs, init_or_fail. autorewrite with prog. cbn [tmp_key].
  destruct (auth_init_keyed (rtp_auth o) (over b 0 d) tag Hf) as (a' & -> & Hk & _); [apply Hb1|destruct Hb1; lia|].
  rewrite auth_key_over in Hk by (done || (unfold d; rewrite zlen_derive; lia)).
  autorewrite with prog. cbv beta iota. autorewrite with prog. cbn [i_objs i_keys tmp_key SrtpCreate.kdf].
  exists a', c1. by split_and!.
Qed.

Lemma init_rtcp_cipher_at o k b c :
  kdf_at L t c -> buffer_ok b -> fresh_cipher (rtcp_cipher o) ->
  0 <= srtp_cipher_get_key_length (rtcp_cipher o) <= MAX_SRTP_KEY_LEN ->
  let b' := key_salt L t label_rtcp_encryption label_rtcp_salt (base_of (rtcp_cipher o)) (salt_of (rtcp_cipher o)) b in
  exists rc k' c', init_rtcp_cipher (ist o k b c) = Some (ist (with_rtcp_cipher o rc) k' b' c', inr tt) /\
    keyed_cipher (stream_key_of (rtcp_cipher o) b') rc /\ cipher_type_id rc = cipher_type_id (rtcp_cipher o) /\
    kdf_at L t c' /\ buffer_ok b' /\ same_keys k k'.
Proof.
  intros Hc Hb Hf Hl b'. destruct (base_salt _ Hf Hl) as (B1 & B2 & B3). unfold init_rtcp_cipher.
  autorewrite with prog. cbn [i_objs]. fold (base_of (rtcp_cipher o)). fold (salt_of (rtcp_cipher o)).
  destruct (key_salt_at L t o k b c label_rtcp_encryption label_rtcp_salt (base_of (rtcp_cipher o)) (salt_of (rtcp_cipher o)))
    as (c1 & E1 & Hc1 & Hb1); try done; try lia. fold b' in E1, Hb1.
  rewrite (bind_ok _ _ _ _ _ E1). autorewrite with prog. cbn [i_keys].
  destruct (keep_salt_at (base_of (rtcp_cipher o)) (salt_of (rtcp_cipher o)) (c_salt k) o k b' c1) as (s & Es); [done|lia..|done|].
  rewrite (bind_ok _ _ _ _ _ Es). unfold put_i_keys, put_i_objs, init_or_fail. autorewrite with prog.
  cbn [i_objs i_keys tmp_key SrtpCreate.kdf].
  destruct (cipher_init_keyed (rtcp_cipher o) b' Hf) as (rc & -> & Hk & Hid); [apply Hb1|destruct Hb1; lia|].
  autorewrite with prog. cbv beta iota. autorewrite with prog.
  exists rc, (with_c_salt k s), c1. by split_and!.
Qed.

Lemma init_rtcp_auth_at o k b c tag :
  kdf_at L t c -> buffer_ok b -> fresh_auth (rtcp_auth o) tag -> 0 <= srtp_auth_get_key_length (rtcp_auth o) <= MAX_SRTP_KEY_LEN ->
  let d := derive L t label_rtcp_msg_auth (srtp_auth_get_key_length (rtcp_auth o)) in
  exists a' c', init_rtcp_auth (ist o k b c) = Some (ist (with_rtcp_auth o a') k (over b 0 d) c', inr tt) /\
    keyed_auth (auth_derived (rtcp_auth o) d) tag a'.
Proof.
  intros Hc Hb Hf Hl d. unfold init_rtcp_auth. autorewrite with prog. cbn [i_objs].
  destruct (generate_at L t o k b c label_rtcp_msg_auth 0 (srtp_auth_get_key_length (rtcp_auth o))) as (c1 & E1 & Hc1);
    try done; try lia. fold d in E1. rewrite (bind_ok _ _ _ _ _ E1).
  assert (buffer_ok (over b 0 d)) as Hb1 by (eapply over_buffer; done || lia).
  unfold put_i_objs, init_or_fail. autorewrite with prog. cbn [tmp_key].
  destruct (auth_init_keyed (rtcp_auth o) (over b 0 d) tag Hf) as (a' & -> & Hk & _); [apply Hb1|destruct Hb1; lia|].
  rewrite auth_key_over in Hk by (done || (unfold d; rewrite zlen_derive; lia)).
  autorewrite with prog. cbv beta iota. autorewrite with prog. cbn [i_objs i_keys tmp_key SrtpCreate.kdf].
  exists a', c1. by split_and!.
Qed.

End Steps.

(** The five derivations from the master key in [t]. *)
Lemma init_steps_at o k t c lim :
  fresh_objs o -> buffer_ok t -> kdf_at (kdf_length o) t c ->
  exists o' k' b' c',
    init_session_keys (base_of (rtp_cipher o)) (salt_of (rtp_cipher o))
      {| i_objs := with_limit o lim; i_keys := k; tmp_key := t; kdf := c |} =
      Some ({| i_objs := o'; i_keys := k'; tmp_key := b'; kdf := c' |}, inr tt) /\
    objs_ok (session_keymat o t) o' /\ limit o' = lim /\ same_keys k k'.
Proof.
  intros [Hrtp Hxtn Hauth Hrtcp Hcauth (Hl1 & Hl2 & Hl3 & Hl4)] Hb Hc.
  destruct (base_salt _ Hrtp Hl1) as (B1 & B2 & B3). set (o1 := with_limit o lim). unfold init_session_keys.
  destruct (init_rtp_cipher_at (kdf_length o) t o1 k t c) as (rc & k2 & c1 & E1 & Hrc & Hid1 & Hc1 & Hb1 & Hk2); try done.
  rewrite (bind_ok _ _ _ _ _ E1). clear E1. cbn [rtp_cipher o1 with_limit] in Hrc, Hid1, Hb1 |- *.
  set (b1 := key_salt _ _ _ _ _ _ _) in *.
  destruct (init_xtn_cipher_at (kdf_length o) t (with_rtp_cipher o1 rc) k2 b1 c1 (base_of (rtp_cipher o)) (salt_of (rtp_cipher o)))
    as (o2 & c2 & E2 & Hc2 & Hb2 & Ho2); [done|done|done|lia|lia|..].
  { intros x Hx. destruct (Hxtn x Hx) as [Hf ->]. split; [done|lia]. }
  cbn [rtp_xtn_hdr_cipher with_rtp_cipher o1 with_limit] in E2, Hb2, Ho2.
  rewrite (bind_ok _ _ _ _ _ E2). clear E2. set (b2 := key_salt _ _ _ _ _ _ b1) in *.
  set (b2' := match rtp_xtn_hdr_cipher o with Some _ => b2 | None => b1 end) in *.
  assert (rtp_auth o2 = rtp_auth o /\ rtcp_cipher o2 = rtcp_cipher o /\ rtcp_auth o2 = rtcp_auth o /\ limit o2 = lim /\
    rtp_cipher o2 = rc) as (Eo1 & Eo2 & Eo3 & Eo4 & Eo5).
  { destruct (rtp_xtn_hdr_cipher o); [|by rewrite Ho2]. by destruct Ho2 as (x' & -> & _). }
  destruct (init_rtp_auth_at (kdf_length o) t o2 k2 b2' c2 (srtp_auth_get_tag_length (rtp_auth o)))
    as (a & c3 & E3 & Ha & Hc3 & Hb3); [done|done|by rewrite Eo1|by rewrite Eo1|].
  rewrite (bind_ok _ _ _ _ _ E3). clear E3. rewrite Eo1 in Ha, Hb3 |- *.
  destruct (init_rtcp_cipher_at (kdf_length o) t (with_rtp_auth o2 a) k2
    (over b2' 0 (derive (kdf_length o) t label_rtp_msg_auth (srtp_auth_get_key_length (rtp_auth o)))) c3)
    as (cc & k4 & c4 & E4 & Hcc & Hcid & Hc4 & Hb4 & Hk4); [done|done|simpl; by rewrite Eo2|simpl; by rewrite Eo2|].
  rewrite (bind_ok _ _ _ _ _ E4). clear E4. cbn [rtcp_cipher with_rtp_auth] in Hcc, Hcid, Hb4 |- *.
  rewrite Eo2 in Hcc, Hcid, Hb4 |- *.
  destruct (init_rtcp_auth_at (kdf_length o) t (with_rtcp_cipher (with_rtp_auth o2 a) cc) k4 _ c4
    (srtp_auth_get_tag_length (rtcp_auth o)) Hc4 Hb4) as (ca & c5 & E5 & Hca); [simpl; by rewrite Eo3|simpl; by rewrite Eo3|].
  rewrite E5. eexists _, _, _, _. split; [done|]. cbn [rtcp_auth with_rtcp_cipher with_rtp_auth] in Hca. rewrite Eo3 in Hca.
  split; [|split; [done|destruct Hk2 as (? & ? & ?), Hk4 as (? & ? & ?); split_and!; congruence]].
  split; simpl; rewrite ?Eo5; try done.
  destruct (rtp_xtn_hdr_cipher o) as [x|] eqn:Ex; simpl.
  - destruct Ho2 as (x' & -> & Hx'). exact Hx'.
  - subst o2. simpl. by rewrite Ex.
Qed.

Lemma init_keys_run ok mk key o k b c :
  fresh_objs o -> master_ok o mk key ->
  exists s res, srtp_stream_init_keys kernel ok mk {| i_objs := o; i_keys := k; tmp_key := b; kdf := c |} = Some (s, res) /\
    (res = inr tt -> keys_set o k mk key s) /\ ((forall i, ok i = true) -> res = inr tt).
Proof.
  intros Hfresh [Hkey HF Hkl Hmki _]. pose proof Hfresh as [Hrtp _ _ _ _ (Hl1 & _)].
  unfold srtp_stream_init_keys, put_i_objs, put_i_keys. autorewrite with prog. cbn [i_objs i_keys tmp_key SrtpCreate.kdf].
  assert (fst (srtp_key_limit_set (limit o) 0xffffffffffff)
    = {| num_left := 0xffffffffffff; key_state := srtp_key_state_normal |}) as -> by done.
  set (lim := {| num_left := _; key_state := _ |}).
  destruct (negb (mk_mki_size mk =? 0) && negb (ok 0)) eqn:E0.
  { eexists _, _. split; [done|]. split; [done|]. intros Hok. rewrite (Hok 0), andb_false_r in E0. done. }
  unfold preturn_if at 1. autorewrite with prog. rewrite slice_Some by lia. change (Z.to_nat 0) with 0%nat. rewrite drop_0.
  autorewrite with prog. cbn [i_objs i_keys tmp_key SrtpCreate.kdf]. rewrite Hkey. autorewrite with prog.
  fold (base_of (rtp_cipher o)). fold (salt_of (rtp_cipher o)).
  destruct (base_salt _ Hrtp Hl1) as (B1 & B2 & _). rewrite B2. rewrite slice_Some by lia.
  change (Z.to_nat 0) with 0%nat. rewrite drop_0. autorewrite with prog. unfold blit.
  set (key0 := take _ key).
  assert (zlen key0 = srtp_cipher_get_key_length (rtp_cipher o)) as Lk by (unfold key0; rewrite zlen_take by lia; lia).
  rewrite decide_True by (rewrite zlen_replicate; unfold MAX_SRTP_KEY_LEN in *; lia). autorewrite with prog.
  change (take (Z.to_nat 0) _ ++ key0 ++ _) with (padded_key o key). set (t := padded_key o key).
  pose proof (padded_key_ok o key HF Hl1) as Hb. fold t in Hb.
  assert (kdf_length o = 30 \/ kdf_length o = 46) as HL by (unfold kdf_length; repeat case_if; lia).
  set (L := kdf_length o) in *.
  destruct (kdf_init_spec (ok 1) (ok 2) t L HL) as (st & kc & -> & Hkc); [apply Hb|destruct Hb; unfold MAX_SRTP_KEY_LEN in *; lia|].
  unfold init_or_fail at 1. autorewrite with prog. cbv beta iota. autorewrite with prog.
  destruct kc as [kc|].
  2:{ destruct Hkc as [Hst Hal]. rewrite Hst. eexists _, _. split; [done|]. split; [done|].
      intros Hok. by rewrite !Hok in Hal. }
  destruct Hkc as [-> Hkc]. autorewrite with prog. unfold put_tmp at 1. autorewrite with prog.
  cbn [i_objs i_keys tmp_key SrtpCreate.kdf].
  set (k1 := with_mki k _ _).
  destruct (init_steps_at o k1 t kc lim) as (o' & k' & b' & c' & E & Ho & Hlim & Hk1 & Hk2 & Hk3); [done..|].
  rewrite (bind_ok _ _ _ _ _ E).
  eexists _, (inr tt). split; [done|]. split; [|done]. intros _. by split.
Qed.

End Keys.
