(* ===== verification/SelfTestRun.v ===== *)
(** The self tests run: a type that passes gives the known answers, and the
    types of the library pass, whatever numbers [rand] yields, so that srtp_init
    succeeds where memory can be had. *)

From Stdlib Require Import String.
From S2P Require Import Prelude Err Prog SrtpPolicy Sha1 Hmac Aes AesKeys AesIcm Cipher Kernel SelfTest KernelRun SrtpKeys.
#[local] Open Scope Z_scope.

(** ** Loops *)

Lemma compare_equal stop n k a b :
  (forall i, k <= i < k + Z.of_nat n -> exists x, aget a i = Some x /\ aget b i = Some x) ->
  compare_loop stop n k a b false = Some false.
Proof.
  revert k. induction n as [|n IH]; intros k Hi; [done|]. cbn [compare_loop].
  destruct (Hi k ltac:(lia)) as (x & -> & ->). cbn [mbind option_bind]. rewrite Z.eqb_refl. apply IH. intros i Hr. apply Hi. lia.
Qed.

Lemma compare_differ stop n k a b r : compare_loop stop n k a b true = Some r -> r = true.
Proof.
  revert k. induction n as [|n IH]; intros k E; simpl in E; [congruence|]. inv_option.
  repeat case_match; try congruence; eauto.
Qed.

Lemma compare_same stop n k a b :
  compare_loop stop n k a b false = Some false ->
  forall i, k <= i < k + Z.of_nat n -> exists x, aget a i = Some x /\ aget b i = Some x.
Proof.
  revert k. induction n as [|n IH]; intros k E i Hi; [lia|]. cbn [compare_loop] in E.
  apply bind_Some in E as (x & Ea & E). apply bind_Some in E as (y & Eb & E).
  destruct (Z.eqb_spec x y) as [<-|Hne]; [|destruct stop; [done|by apply compare_differ in E]].
  destruct (decide (i = k)) as [->|]; [by exists x|]. apply (IH (k + 1)); [done|lia].
Qed.

(** Equal in the first [n] octets. *)
Definition agree (n : Z) (a b : list Z) : Prop := forall i, 0 <= i < n -> exists x, aget a i = Some x /\ aget b i = Some x.

Lemma copy_agrees n dst src dst' : copy_loop n dst src = Some dst' -> agree n dst' src.
Proof.
  intros E. apply (for_up_keeps (fun i d => agree i d src)) in E; [intros i Hi; apply E; lia|intros i Hi; lia|].
  intros i d d' Hi Hd Ed k Hk. apply bind_Some in Ed as (x & Ex & Ed). pose proof Ed as Ed'.
  apply aset_get in Ed as (Hlen & _ & Hget). rewrite Hget. case_decide as Hki; [subst k; by exists x|]. apply Hd. lia.
Qed.

(** ** Soundness *)

Section Sound.
Context {C : Type} (ct : srtp_cipher_type_t C).

(** The tag of AES-GCM, behind the [n] octets of ciphertext; other ciphers
    have none. *)
Definition tagged (c : C) (b : list Z) (n : Z) (c' : C) (b' : list Z) (m : Z) : Prop :=
  if is_gcm ct c then exists k, srtp_cipher_get_tag ct c b n 0 = Some (srtp_err_status_ok, c', b', k) /\ m = u32 (n + k)
  else c' = c /\ b' = b /\ m = n.

Definition untagged (c : C) (b : list Z) (n : Z) (c' : C) (b' : list Z) (m : Z) : Prop := c' = c /\ b' = b /\ m = n.

(** The object [c], given the key, the IV and the additional data of the case,
    takes the [n] octets [src] to the [m] octets [dst] and becomes [c']. *)
Definition answers (f : Z -> C -> list Z -> Z -> option (srtp_err_status_t * C * list Z * Z))
    (finish : C -> list Z -> Z -> C -> list Z -> Z -> Prop) (d : srtp_cipher_direction_t)
    (tc : srtp_cipher_test_case_t) (n : Z) (src : list Z) (m : Z) (dst : list Z) (c c' : C) : Prop :=
  exists addr c1 c2 c3 c4 b b1 n1 b2,
    ct_init ct c (tc_key tc) = Some (srtp_err_status_ok, c1) /\
    ct_set_iv ct c1 (tc_idx tc) d = Some (srtp_err_status_ok, c2) /\
    (if is_gcm ct c2 then srtp_cipher_set_aad ct c2 (tc_aad tc) (tc_aad_length tc) = Some (srtp_err_status_ok, c3) else c3 = c2) /\
    agree n b src /\ f addr c3 b n = Some (srtp_err_status_ok, c4, b1, n1) /\ finish c4 b1 n1 c' b2 m /\ agree m b2 dst.

(** A new object encrypts the plaintext of the case to its ciphertext with its
    tag, and decrypts it after that. *)
Definition known_answer (tc : srtp_cipher_test_case_t) : Prop :=
  exists ok1 ok2 c c' c'',
    ct_alloc ct ok1 ok2 (tc_key_length tc) (tc_tag_length tc) = (srtp_err_status_ok, Some c) /\
    answers (ct_encrypt ct) tagged srtp_direction_encrypt tc (tc_plaintext_length tc) (tc_plaintext tc)
      (tc_ciphertext_length tc) (tc_ciphertext tc) c c' /\
    answers (ct_decrypt ct) untagged srtp_direction_decrypt tc (tc_ciphertext_length tc) (tc_ciphertext tc)
      (tc_plaintext_length tc) (tc_plaintext tc) c' c''.

Lemma init_value c key s s' c' : init_cipher ct c key s = Some (s', inr c') -> s' = s /\ ct_init ct c key = Some (srtp_err_status_ok, c').
Proof. unfold init_cipher. intros E. by value_steps. Qed.

Lemma set_iv_value c iv d s s' c' :
  set_test_iv ct c iv d s = Some (s', inr c') -> s' = s /\ ct_set_iv ct c iv d = Some (srtp_err_status_ok, c').
Proof. unfold set_test_iv. intros E. by value_steps. Qed.

Lemma aad_value c tc s s' c' :
  set_test_aad ct c tc s = Some (s', inr c') ->
  s' = s /\ if is_gcm ct c then srtp_cipher_set_aad ct c (tc_aad tc) (tc_aad_length tc) = Some (srtp_err_status_ok, c') else c' = c.
Proof. unfold set_test_aad. case_match; intros E; by value_steps. Qed.

Lemma tag_value c n s s' c' m :
  append_tag ct c n s = Some (s', inr (c', m)) -> tagged c (ts_buffer s) n c' (ts_buffer s') m.
Proof.
  unfold append_tag, tagged, put_buffer. case_match; intros E; value_steps; [|done]. by eexists.
Qed.

Lemma crypt_value env (f : Z -> C -> list Z -> Z -> option (srtp_err_status_t * C * list Z * Z)) c n s s' c' m :
  crypt_buffer env f c n s = Some (s', inr (c', m)) ->
  exists b', f (te_addr env) c (ts_buffer s) n = Some (srtp_err_status_ok, c', b', m) /\ ts_buffer s' = b'.
Proof. unfold crypt_buffer. intros E. value_steps. unfold put_buffer in *. value_steps. by eexists. Qed.

Lemma copy_value n src s s' u : copy_to_buffer n src s = Some (s', inr u) -> agree n (ts_buffer s') src.
Proof. unfold copy_to_buffer, put_buffer. intros E. value_steps. by eapply copy_agrees. Qed.

Lemma check_buffer_value stop n l s s' u :
  check_buffer stop n l s = Some (s', inr u) -> s' = s /\ agree n (ts_buffer s) l.
Proof.
  unfold check_buffer. intros E. value_steps. split; [done|]. intros i Hi.
  match goal with H : compare_loop _ _ _ _ _ _ = _ |- _ => eapply compare_same in H; [exact H|lia] end.
Qed.

Ltac part_steps :=
  repeat match goal with
  | H : init_cipher _ _ _ _ = _ |- _ => apply init_value in H as [-> H]
  | H : set_test_iv _ _ _ _ _ = _ |- _ => apply set_iv_value in H as [-> H]
  | H : set_test_aad _ _ _ _ = _ |- _ => apply aad_value in H as [-> H]
  | H : append_tag _ _ _ _ = _ |- _ => apply tag_value in H
  | H : copy_to_buffer _ _ _ = _ |- _ => apply copy_value in H
  | H : check_buffer _ _ _ _ = _ |- _ => apply check_buffer_value in H as [-> H]
  | H : crypt_buffer _ _ _ _ _ = _ |- _ => apply crypt_value in H as (?b & H & <-)
  | H : negb (_ =? _) = false |- _ => apply negb_false_iff, Z.eqb_eq in H; subst
  end.

Lemma encryption_value env c tc s s' c' :
  test_encryption env ct c tc s = Some (s', inr c') ->
  answers (ct_encrypt ct) tagged srtp_direction_encrypt tc (tc_plaintext_length tc) (tc_plaintext tc)
    (tc_ciphertext_length tc) (tc_ciphertext tc) c c'.
Proof. unfold test_encryption. intros E. value_steps. part_steps. by eexists _, _, _, _, _, _, _, _, _. Qed.

Lemma decryption_value env c tc s s' c' :
  test_decryption env ct c tc s = Some (s', inr c') ->
  answers (ct_decrypt ct) untagged srtp_direction_decrypt tc (tc_ciphertext_length tc) (tc_ciphertext tc)
    (tc_plaintext_length tc) (tc_plaintext tc) c c'.
Proof. unfold test_decryption. intros E. value_steps. part_steps. by eexists _, _, _, _, _, _, _, _, _. Qed.

Lemma known_answers_value env cases s s' u : known_answer_tests env ct cases s = Some (s', inr u) -> Forall known_answer cases.
Proof.
  revert s. induction cases as [|tc cases IH]; intros s E; [done|]. cbn [known_answer_tests] in E.
  unfold srtp_cipher_type_alloc in E. value_steps. constructor; [|by eapply IH].
  eexists _, _, _, _, _. split_and!; [eassumption|by eapply encryption_value|by eapply decryption_value].
Qed.

(** A type that passes gives the known answers. *)
Lemma type_test_value env data s s' u :
  srtp_cipher_type_test env ct data s = Some (s', inr u) -> data <> [] /\ Forall known_answer data.
Proof.
  destruct data as [|tc data]; [done|]. unfold srtp_cipher_type_test. intros E. split; [done|].
  apply bind_value in E as (? & ? & E & _). by eapply known_answers_value.
Qed.

End Sound.

Section SoundAuth.
Context {A : Type} (at_ : srtp_auth_type_t A).

(** A new object computes the tag of the case. *)
Definition known_tag (tc : srtp_auth_test_case_t) : Prop :=
  exists ok a a1 a2 tag tag',
    at_alloc at_ ok (tca_key_length tc) (tca_tag_length tc) = (srtp_err_status_ok, Some a) /\
    at_init at_ a (tca_key tc) = Some (srtp_err_status_ok, a1) /\
    at_compute at_ a1 (tca_data tc) (tca_data_length tc) tag = Some (srtp_err_status_ok, a2, tag') /\
    agree (tca_tag_length tc) tag' (tca_tag tc).

Lemma auth_case_value alloc i tc s s' u : auth_test_case alloc at_ i tc s = Some (s', inr u) -> known_tag tc.
Proof.
  unfold auth_test_case. intros E. value_steps. eexists _, _, _, _, _, _. split_and!; [eassumption..|].
  intros j Hj. match goal with H : compare_loop _ _ _ _ _ _ = _ |- _ => eapply compare_same in H; [exact H|lia] end.
Qed.

Lemma auth_type_test_value alloc data s s' u :
  srtp_auth_type_test alloc at_ data s = Some (s', inr u) -> data <> [] /\ Forall known_tag data.
Proof.
  unfold srtp_auth_type_test. destruct data as [|tc data]; [done|]. intros E. split; [done|].
  revert E. generalize (tc :: data) as cases. clear. intros cases. generalize 0%nat as i. revert s.
  induction cases as [|tc cases IH]; intros s i E; [done|]. cbn [auth_test_cases] in E. value_steps.
  constructor; [by eapply auth_case_value|by eapply IH].
Qed.

End SoundAuth.

(** ** The kernel with its tests *)

(** The test returns [st] in some run. *)
Definition returns {S} (m : prog S unit) (st : srtp_err_status_t) : Prop :=
  exists s s' r, m s = Some (s', r) /\ status_of r = st.

(** The verdicts of the kernel's environment are those of the self tests of the
    types, as they are implemented; the numbers drawn, the memory and the
    contents of the stack are arbitrary. *)
Definition runs_tests {C A} (ciphers : cipher_type_t -> srtp_cipher_type_t C) (auths : auth_type_t -> srtp_auth_type_t A)
    (env : kernel_env) : Prop :=
  (forall t, exists te, returns (srtp_cipher_type_self_test te (ciphers t)) (cipher_self_test env t)) /\
  (forall t, exists alloc, returns (srtp_auth_type_self_test alloc (auths t)) (auth_self_test env t)).

(** The types give the answers of their test data. *)
Definition cipher_answers {C} (ct : srtp_cipher_type_t C) : Prop := ct_test_data ct <> [] /\ Forall (known_answer ct) (ct_test_data ct).
Definition auth_answers {A} (at_ : srtp_auth_type_t A) : Prop := at_test_data at_ <> [] /\ Forall (known_tag at_) (at_test_data at_).

(** The tests return early only with errors. *)
Lemma rand_for_tests_errors env n : fails_with_error (srtp_cipher_rand_for_tests env n).
Proof. induction n as [|n IH]; cbn [srtp_cipher_rand_for_tests]; unfold next_rand; error_steps. Qed.

Lemma test_parts_errors {C} env (ct : srtp_cipher_type_t C) :
  (forall c key, fails_with_error (init_cipher ct c key)) /\ (forall c iv d, fails_with_error (set_test_iv ct c iv d)) /\
  (forall f (c : C) n, fails_with_error (crypt_buffer env f c n)) /\ (forall n src, fails_with_error (copy_to_buffer n src)) /\
  (forall b n l, fails_with_error (check_buffer b n l)) /\ (forall c tc, fails_with_error (set_test_aad ct c tc)) /\
  (forall c n, fails_with_error (append_tag ct c n)) /\ (forall k t, fails_with_error (srtp_cipher_type_alloc env ct k t)).
Proof.
  split_and!; intros; unfold init_cipher, set_test_iv, crypt_buffer, copy_to_buffer, check_buffer, set_test_aad, append_tag, srtp_cipher_type_alloc, put_buffer;
    error_steps.
Qed.


Section TestErrors.
Context {C : Type} (env : test_env) (ct : srtp_cipher_type_t C).

Lemma known_answers_errors cases : fails_with_error (known_answer_tests env ct cases).
Proof.
  destruct (test_parts_errors env ct) as (H1 & H2 & H3 & H4 & H5 & H6 & H7 & H8).
  induction cases as [|tc cases IH]; cbn [known_answer_tests]; unfold test_encryption, test_decryption; error_steps.
Qed.

Lemma random_test_errors c tc : fails_with_error (random_test env ct c tc).
Proof.
  destruct (test_parts_errors env ct) as (H1 & H2 & H3 & H4 & H5 & H8 & H9 & _). pose proof (rand_for_tests_errors env) as H6.
  assert (fails_with_error (srtp_cipher_rand_u32_for_tests env)) as H7 by (apply error_bind; [done|intros r; apply error_lift]).
  unfold random_test, test_inversion. generalize (srtp_cipher_rand_for_tests env) as rand, H6, (srtp_cipher_rand_u32_for_tests env), H7.
  intros. error_steps.
Qed.

Lemma random_tests_errors n c tc : fails_with_error (random_tests env ct n c tc).
Proof.
  revert c. induction n as [|n IH]; intros c; [apply error_ret|]. apply error_bind; [apply random_test_errors|done].
Qed.

Lemma cipher_test_errors data : fails_with_error (srtp_cipher_type_test env ct data).
Proof.
  destruct data as [|tc data]; [by apply error_return|]. apply error_bind; [apply known_answers_errors|]. intros _.
  apply error_bind; [apply test_parts_errors|]. intros c. apply error_bind; [apply random_tests_errors|]. intros c'. apply error_check.
Qed.

End TestErrors.

Lemma auth_test_errors {A} alloc (at_ : srtp_auth_type_t A) data : fails_with_error (srtp_auth_type_test alloc at_ data).
Proof.
  assert (forall cases i, fails_with_error (auth_test_cases alloc at_ i cases)) as Hc.
  { induction cases as [|tc cases IH]; intros i; cbn [auth_test_cases]; unfold auth_test_case; error_steps. }
  unfold srtp_auth_type_test. error_steps.
Qed.

Lemma returns_ok {S} (m : prog S unit) st :
  fails_with_error m -> returns m st -> is_err st = false -> exists s s', m s = Some (s', inr tt).
Proof.
  intros Hm (s & s' & [st'|[]] & E & <-) Hst; [|by exists s, s']. apply Hm in E. simpl in Hst. congruence.
Qed.

(** Self tests are sound for the answers of the types. *)
Lemma tests_sound {C A} (ciphers : cipher_type_t -> srtp_cipher_type_t C) (auths : auth_type_t -> srtp_auth_type_t A) env :
  runs_tests ciphers auths env -> sound_tests (fun t => cipher_answers (ciphers t)) (fun t => auth_answers (auths t)) env.
Proof.
  intros [Hc Ha]. split; intros t Hst.
  - destruct (Hc t) as [te Hr]. apply returns_ok in Hr as (s & s' & E); [|apply cipher_test_errors|done]. by eapply type_test_value.
  - destruct (Ha t) as [alloc Hr]. apply returns_ok in Hr as (s & s' & E); [|apply auth_test_errors|done].
    by eapply auth_type_test_value.
Qed.

(** A sequence of calls, each in its environment. *)
Fixpoint run_kernel (calls : list (kernel_env * kernel_call)) (k : srtp_crypto_kernel_t) : option srtp_crypto_kernel_t :=
  match calls with
  | [] => Some k
  | (env, c) :: calls => '(k, _) ← run_call env c k; run_kernel calls k
  end.

Lemma run_kernel_reachable PC PA calls k k' :
  kernel_reachable PC PA k -> Forall (fun e => sound_tests PC PA e.1) calls -> run_kernel calls k = Some k' -> kernel_reachable PC PA k'.
Proof.
  intros Hk Hs. revert k Hk. induction Hs as [|[env c] calls Hs _ IH]; intros k Hk E; simpl in E; [by injection E as <-|].
  apply bind_Some in E as ([k1 r] & E1 & E). apply (IH k1); [|done]. by eapply reachable_call.
Qed.

(** ** The types of the library pass *)

Section Pass.
Context `{BC : BlockCipher} `{LV : Locals}.

Lemma copy_all n dst src :
  0 <= n <= zlen dst -> n <= zlen src ->
  copy_loop n dst src = Some (take (Z.to_nat n) src ++ drop (Z.to_nat n) dst).
Proof.
  intros Hd Hs. unfold copy_loop. destruct (for_up_map (fun k _ => aget src k) (fun k => znth src k) 0 n dst) as (d & -> & Hl & Hz);
    [lia|lia|intros; apply aget_znth; lia|]. f_equal.
  assert (zlen (take (Z.to_nat n) src) = n) as Ht by (rewrite zlen_take by lia; lia).
  apply znth_ext; [rewrite zlen_app, Ht, zlen_drop by lia; lia|]. intros i Hi. rewrite Hz, znth_app, Ht by lia.
  case_decide as H1; case_decide as H2; try lia; [by rewrite znth_take by lia|].
  rewrite znth_drop by lia. f_equal. lia.
Qed.

Lemma compare_front stop n a b c : zlen a = n -> zlen b = n -> a = b -> compare_loop stop (Z.to_nat n) 0 (a ++ c) b false = Some false.
Proof.
  intros Ha Hb <-. apply compare_equal. intros i Hi. rewrite aget_app, decide_True by lia.
  rewrite aget_znth by lia. by exists (znth a i).
Qed.

(** The numbers drawn are octets, and nothing else changes. *)
Lemma rand_octets env n s :
  wp (srtp_cipher_rand_for_tests env n)
    (fun s' r => exists l, r = inr l /\ zlen l = Z.of_nat n /\ Forall is_u8 l /\ ts_buffer s' = ts_buffer s) s.
Proof.
  revert s. induction n as [|n IH]; intros s; [apply wp_ret; by exists []|]. cbn [srtp_cipher_rand_for_tests].
  unfold next_rand. do 3 wp_step. cbn [on_value]. do 2 wp_step. cbn [on_value]. wp_step. cbn [on_value]. wp_step.
  eapply wp_conseq; [apply IH|]. intros s' r (l & -> & Hl & HF & Hb). cbn [on_value]. wp_step.
  eexists. split; [done|]. split; [unfold zlen in *; simpl; lia|]. split; [|by rewrite Hb].
  constructor; [|done]. unfold fits. rewrite (Z.land_ones _ 8) by lia. change (2 ^ 8) with 256. lia.
Qed.

Lemma rand_u32 env s :
  wp (srtp_cipher_rand_u32_for_tests env) (fun s' r => exists v, r = inr v /\ ts_buffer s' = ts_buffer s) s.
Proof.
  unfold srtp_cipher_rand_u32_for_tests. wp_step. eapply wp_conseq; [apply rand_octets|].
  intros s' r (l & -> & Hl & _ & Hb). cbn [on_value]. destruct l as [|b0 [|b1 [|b2 [|b3 []]]]]; try (exfalso; unfold zlen in Hl; simpl in Hl; lia).
  eapply wp_lift; [reflexivity|]. by eexists.
Qed.

(** Objects of type [t] for keys of [L] octets that can be given a key. *)
Definition ready (t : cipher_type_t) (L : Z) (c : cipher_t) : Prop :=
  fresh_cipher c /\ srtp_cipher_get_key_length c = L /\
  match t, c with
  | srtp_null_cipher, null_cipher _ => True
  | srtp_aes_icm_128, icm_cipher c | srtp_aes_icm_256, icm_cipher c => is_icm (cipher_algorithm c)
  | _, _ => False
  end.

Definition type_key (t : cipher_type_t) (L : Z) (key : list Z) : option stream_key :=
  match t with srtp_null_cipher => None | _ => Some (icm_key L key) end.

Definition test_iv (t : cipher_type_t) (iv : list Z) : Prop :=
  match t with srtp_null_cipher => True | _ => is_block iv /\ low16 iv = 0 end.

Lemma ready_init t L c key :
  ready t L c -> Forall is_u8 key -> L <= zlen key ->
  exists c1, srtp_cipher_init c key = Some (srtp_err_status_ok, c1) /\ keyed_cipher (type_key t L key) c1 /\ ready t L c1.
Proof.
  intros (Hf & HL & Ht) HF Hl. destruct (cipher_init_keyed c key) as (c1 & E & Hk & _); [done|done|lia|].
  exists c1. split; [done|]. destruct c as [n|c]; cbn [srtp_cipher_init] in E.
  { injection E as <-. by destruct t. }
  apply bind_Some in E as ([st s] & E & Ec). injection Ec as -> <-. cbn [stream_key_of srtp_cipher_get_key_length fresh_cipher] in *.
  destruct Hf as [Hw Hs]. apply context_init_wf in E as [Hw' Hs']; [|done|lia|done].
  split; [destruct t; by rewrite HL in Hk|]. split; [split; [done|simpl; congruence]|done].
Qed.

Lemma ready_set_iv t L c key iv :
  keyed_cipher (type_key t L key) c -> ready t L c -> test_iv t iv ->
  exists c1, srtp_cipher_set_iv c iv = Some (srtp_err_status_ok, c1) /\ cipher_at (type_key t L key) iv 0 c1 /\ ready t L c1.
Proof.
  intros Hk (Hf & HL & Ht) Hiv. destruct c as [n|c]; [exists (null_cipher n); by destruct t|].
  assert (is_block iv) as Hb by (by destruct t; [|destruct Hiv..]).
  destruct (cipher_set_iv_ok _ _ iv Hk Hb) as (c1 & E & Hat & _). exists c1. split; [done|]. split; [done|].
  cbn [srtp_cipher_set_iv] in E. apply bind_Some in E as ([st s] & E & Ec). injection Ec as -> <-. destruct Hf as [Hw Hs].
  apply set_iv_wf in E as [Hw' Hs']; [|done]. split; [split; [done|simpl; congruence]|done].
Qed.

Lemma ready_crypt t L c key iv addr buf len :
  cipher_at (type_key t L key) iv 0 c -> ready t L c -> test_iv t iv -> Forall is_u8 buf -> 0 <= len <= zlen buf -> len <= 0xffff ->
  exists c1, encrypt_method addr c buf len =
      Some (srtp_err_status_ok, c1, crypt (type_key t L key) iv 0 (take (Z.to_nat len) buf) ++ drop (Z.to_nat len) buf, len) /\
    ready t L c1 /\ Forall is_u8 (crypt (type_key t L key) iv 0 (take (Z.to_nat len) buf) ++ drop (Z.to_nat len) buf).
Proof.
  intros Hat (Hf & HL & Ht) Hiv HF Hlen Hmax.
  assert (Forall is_u8 (crypt (type_key t L key) iv 0 (take (Z.to_nat len) buf) ++ drop (Z.to_nat len) buf)) as HF'.
  { apply Forall_app. split; [|by apply Forall_drop]. destruct t; [by apply Forall_take|..];
      (eapply cipher_at_u8; [exact Hat|apply Hiv|by apply Forall_take]). }
  destruct c as [n|c].
  { destruct t; try done. exists (null_cipher n). cbn [type_key crypt encrypt_method]. unfold encrypt_method. simpl. rewrite take_drop. by split_and!. }
  assert (is_block iv /\ low16 iv = 0) as [Hb H16] by (by destruct t).
  destruct (cipher_encrypt_at addr _ iv 0 (icm_cipher c) buf len Hat Hb HF Hlen ltac:(lia)) as (st & c1 & b & E & _ & HR).
  assert (room (type_key t L key) iv 0 len = true) as Hroom.
  { assert (type_key t L key = Some (icm_key L key)) as Hk by (by destruct t). rewrite Hk in *. simpl.
    destruct Hat as (_ & _ & Ho). rewrite start_block_low16; [apply Z.leb_le; change ((0 + (0 + 15) / 16) mod 2 ^ 16) with 0; lia|done|done| |done].
    apply low16_icm_key, Ho. }
  rewrite Hroom in HR. destruct HR as (-> & Hat' & ->). exists c1. unfold encrypt_method. rewrite E. split; [done|].
  cbn [srtp_cipher_encrypt] in E. apply bind_Some in E as ([[st s] b'] & E & Ec). injection Ec as -> <- _.
  apply encrypt_key in E as [Ek Es]. destruct Hf as [(Hw1 & Hw2 & Hw3) Hs].
  assert (type_key t L key = Some (icm_key L key)) as Hk by (by destruct t). rewrite Hk in Hat'. destruct Hat' as (Hat' & _ & _).
  split; [|exact HF']. split; [|done]. split; [|simpl; congruence]. split; [simpl; by rewrite Es|]. split; [|simpl; by rewrite Ek].
  split; apply Hat'.
Qed.

Lemma ready_no_gcm t L c : ready t L c -> is_gcm (cipher_methods t) c = false.
Proof. intros (_ & _ & Ht). destruct c as [n|c]; [done|]. destruct t; [done|destruct Ht as [E|E]..]; unfold is_gcm; simpl; by rewrite E. Qed.

(** The buffer is whole. *)
Definition test_ok (s : test_state) : Prop := zlen (ts_buffer s) = SELF_TEST_BUF_OCTETS /\ Forall is_u8 (ts_buffer s).

(** The steps of a test. *)
Section Steps.
Context (env : test_env) (t : cipher_type_t) (L : Z).

Lemma wp_init c key (Q : test_state -> srtp_err_status_t + cipher_t -> Prop) s :
  ready t L c -> Forall is_u8 key -> L <= zlen key ->
  (forall c1, keyed_cipher (type_key t L key) c1 -> ready t L c1 -> Q s (inr c1)) -> wp (init_cipher (cipher_methods t) c key) Q s.
Proof.
  intros Hr HF Hl HQ. destruct (ready_init _ _ _ _ Hr HF Hl) as (c1 & E & Hk & Hr1). unfold init_cipher. wp_step.
  eapply wp_lift; [exact E|]. cbn [on_value]. wp_step. eapply wp_return_if; [done|]. intros _. cbn [on_value]. by apply wp_ret, HQ.
Qed.

Lemma wp_iv c key iv d (Q : test_state -> srtp_err_status_t + cipher_t -> Prop) s :
  keyed_cipher (type_key t L key) c -> ready t L c -> test_iv t iv ->
  (forall c1, cipher_at (type_key t L key) iv 0 c1 -> ready t L c1 -> Q s (inr c1)) -> wp (set_test_iv (cipher_methods t) c iv d) Q s.
Proof.
  intros Hk Hr Hiv HQ. destruct (ready_set_iv _ _ _ _ _ Hk Hr Hiv) as (c1 & E & Hat & Hr1). unfold set_test_iv. wp_step.
  eapply wp_lift; [exact E|]. cbn [on_value]. wp_step. eapply wp_return_if; [done|]. intros _. cbn [on_value]. by apply wp_ret, HQ.
Qed.

(** No type of the library is GCM. *)
Lemma wp_aad c tc (Q : test_state -> srtp_err_status_t + cipher_t -> Prop) s :
  ready t L c -> Q s (inr c) -> wp (set_test_aad (cipher_methods t) c tc) Q s.
Proof. intros Hr HQ. unfold set_test_aad. rewrite (ready_no_gcm t L) by done. by apply wp_ret. Qed.

Lemma wp_tag c n (Q : test_state -> srtp_err_status_t + (cipher_t * Z) -> Prop) s :
  ready t L c -> Q s (inr (c, n)) -> wp (append_tag (cipher_methods t) c n) Q s.
Proof. intros Hr HQ. unfold append_tag. rewrite (ready_no_gcm t L) by done. by apply wp_ret. Qed.

Lemma wp_crypt c key iv len (Q : test_state -> srtp_err_status_t + (cipher_t * Z) -> Prop) s :
  cipher_at (type_key t L key) iv 0 c -> ready t L c -> test_iv t iv -> test_ok s -> 0 <= len <= SELF_TEST_BUF_OCTETS ->
  (forall c1 s', ready t L c1 -> test_ok s' ->
     ts_buffer s' = crypt (type_key t L key) iv 0 (take (Z.to_nat len) (ts_buffer s)) ++ drop (Z.to_nat len) (ts_buffer s) ->
     Q s' (inr (c1, len))) ->
  wp (crypt_buffer env encrypt_method c len) Q s.
Proof.
  intros Hat Hr Hiv [Hz HF] Hlen HQ. unfold SELF_TEST_BUF_OCTETS in *.
  destruct (ready_crypt t L c key iv (te_addr env) (ts_buffer s) len) as (c1 & E & Hr1 & HF1); [done..|lia|lia|].
  unfold crypt_buffer. do 2 wp_step. cbn [on_value]. wp_step. eapply wp_lift; [exact E|]. cbn [on_value]. unfold put_buffer. do 2 wp_step.
  cbn [on_value]. wp_step. eapply wp_return_if; [done|]. intros _. cbn [on_value]. wp_step. apply HQ; [done| |done].
  split; [|done]. simpl. rewrite zlen_app, zlen_crypt, zlen_take, zlen_drop by lia. unfold SELF_TEST_BUF_OCTETS. lia.
Qed.

Lemma wp_copy n src (Q : test_state -> srtp_err_status_t + unit -> Prop) s :
  test_ok s -> 0 <= n <= SELF_TEST_BUF_OCTETS -> zlen src = n -> Forall is_u8 src ->
  (forall s', test_ok s' -> ts_buffer s' = src ++ drop (Z.to_nat n) (ts_buffer s) -> Q s' (inr tt)) ->
  wp (copy_to_buffer n src) Q s.
Proof.
  intros [Hz HF] Hn Hs HFs HQ. unfold SELF_TEST_BUF_OCTETS in *. unfold copy_to_buffer, put_buffer. do 2 wp_step. cbn [on_value]. wp_step.
  eapply wp_lift; [apply copy_all; lia|]. cbn [on_value]. wp_step. rewrite (take_ge src) by (unfold zlen in *; lia).
  apply HQ; [|done]. split; simpl; [rewrite zlen_app, zlen_drop by lia; unfold SELF_TEST_BUF_OCTETS; lia|].
  apply Forall_app. split; [done|by apply Forall_drop].
Qed.

Lemma wp_check stop n l rest (Q : test_state -> srtp_err_status_t + unit -> Prop) s :
  ts_buffer s = l ++ rest -> zlen l = n -> Q s (inr tt) -> wp (check_buffer stop n l) Q s.
Proof.
  intros Hb Hl HQ. unfold check_buffer. do 2 wp_step. cbn [on_value]. wp_step.
  eapply wp_lift; [by rewrite Hb; apply compare_front|]. cbn [on_value]. by apply wp_return_if.
Qed.

Lemma wp_alloc key_len tag_len (Q : test_state -> srtp_err_status_t + cipher_t -> Prop) s :
  (forall i, te_alloc env i = true) -> match t with srtp_null_cipher => True | _ => L = 30 \/ L = 46 end -> key_len = L ->
  (forall c s', ready t L c -> ts_buffer s' = ts_buffer s -> Q s' (inr c)) ->
  wp (srtp_cipher_type_alloc env (cipher_methods t) key_len tag_len) Q s.
Proof.
  intros Hal HL -> HQ. unfold srtp_cipher_type_alloc. do 2 wp_step. cbn [on_value]. do 2 wp_step. cbn [on_value].
  rewrite !Hal. cbn [cipher_methods ct_alloc].
  destruct (icm_alloc_spec true true L) as (st & c & E & Hc).
  assert (exists c, match t with
     | srtp_null_cipher => srtp_null_cipher_alloc true L
     | _ => let '(st, c) := srtp_aes_icm_alloc bc_zero true true L in (st, icm_cipher <$> c)
     end = (srtp_err_status_ok, Some c) /\ ready t L c) as (c' & -> & Hr).
  { destruct t; [by exists (null_cipher L)|..]; rewrite E; (destruct c as [c|]; [|destruct Hc as [_ Hc]; by specialize (Hc HL)]);
      destruct Hc as (-> & Hf & Hk & _ & Ha); exists (icm_cipher c); by split_and!. }
  wp_step. eapply wp_return_if; [done|]. intros _. cbn [on_value]. eapply wp_lift; [done|]. by apply HQ.
Qed.

End Steps.

(** A test case of the type whose ciphertext is right. *)
Record case_ok (t : cipher_type_t) (tc : srtp_cipher_test_case_t) : Prop := {
  co_length : match t with srtp_null_cipher => True | _ => tc_key_length tc = 30 \/ tc_key_length tc = 46 end;
  co_key_size : 0 <= tc_key_length tc <= MAX_KEY_LEN;
  co_key : Forall is_u8 (tc_key tc) /\ tc_key_length tc <= zlen (tc_key tc);
  co_iv : test_iv t (tc_idx tc);
  co_size : 0 <= tc_plaintext_length tc <= SELF_TEST_BUF_OCTETS /\ tc_ciphertext_length tc = tc_plaintext_length tc;
  co_plain : zlen (tc_plaintext tc) = tc_plaintext_length tc /\ Forall is_u8 (tc_plaintext tc);
  co_cipher : Forall is_u8 (tc_ciphertext tc) /\
    tc_ciphertext tc = crypt (type_key t (tc_key_length tc) (tc_key tc)) (tc_idx tc) 0 (tc_plaintext tc)
}.

Section Tests.
Context (env : test_env) (t : cipher_type_t).

(** What a test leaves: a usable object. *)
Definition passes (L : Z) (s : test_state) (r : srtp_err_status_t + cipher_t) : Prop :=
  exists c, r = inr c /\ ready t L c /\ test_ok s.

Lemma encryption_passes c tc s :
  ready t (tc_key_length tc) c -> test_ok s -> case_ok t tc ->
  wp (test_encryption env (cipher_methods t) c tc) (passes (tc_key_length tc)) s.
Proof.
  intros Hr Hs [_ _ [HFk Hk] Hiv [Hn Hm] [Hp HFp] [HFc Hc]]. unfold test_encryption. wp_step.
  apply (wp_init t (tc_key_length tc) c); [done..|]. intros c1 Hk1 Hr1. cbn [on_value]. wp_step. apply wp_return_if; [lia|]. intros _. cbn [on_value].
  wp_step. apply wp_copy; [done|done|done|done|]. intros s1 Hs1 Hb1. cbn [on_value]. wp_step. eapply wp_iv; [done..|].
  intros c2 Hat Hr2. cbn [on_value]. wp_step. eapply wp_aad; [done|]. cbn [on_value]. wp_step. eapply wp_crypt; [done..|]. intros c3 s2 Hr3 Hs2 Hb2. cbn [on_value]. wp_step.
  eapply wp_tag; [done|]. cbn [on_value]. wp_step.
  apply wp_return_if; [rewrite negb_true_iff, Z.eqb_neq; lia|]. intros _. cbn [on_value]. wp_step.
  rewrite Hb1, take_app_le, take_ge, <- Hc in Hb2 by (unfold zlen in *; lia).
  eapply wp_check; [exact Hb2|by rewrite Hc, zlen_crypt, Hm|]. cbn [on_value]. wp_step. by exists c3.
Qed.

Lemma decryption_passes c tc s :
  ready t (tc_key_length tc) c -> test_ok s -> case_ok t tc ->
  wp (test_decryption env (cipher_methods t) c tc) (passes (tc_key_length tc)) s.
Proof.
  intros Hr Hs [_ _ [HFk Hk] Hiv [Hn Hm] [Hp HFp] [HFc Hc]]. unfold test_decryption. wp_step.
  assert (zlen (tc_ciphertext tc) = tc_plaintext_length tc) as Hzc by (by rewrite Hc, zlen_crypt). rewrite Hm.
  apply (wp_init t (tc_key_length tc) c); [done..|]. intros c1 Hk1 Hr1. cbn [on_value]. wp_step. apply wp_return_if; [lia|]. intros _. cbn [on_value].
  wp_step. apply wp_copy; [done|done|done|done|]. intros s1 Hs1 Hb1. cbn [on_value]. wp_step. eapply wp_iv; [done..|].
  intros c2 Hat Hr2. cbn [on_value]. wp_step. eapply wp_aad; [done|]. cbn [on_value]. wp_step. eapply wp_crypt; [done..|]. intros c3 s2 Hr3 Hs2 Hb2. cbn [on_value]. wp_step.
  apply wp_return_if; [rewrite negb_true_iff, Z.eqb_neq; lia|]. intros _. cbn [on_value]. wp_step.
  rewrite Hb1, take_app_le, take_ge, Hc, crypt_invol in Hb2 by (unfold zlen in *; lia).
  eapply wp_check; [exact Hb2|done|]. cbn [on_value]. wp_step. by exists c3.
Qed.

Lemma inversion_passes c L tc key len text rest s :
  ready t L c -> test_ok s -> Forall is_u8 key -> L <= zlen key -> test_iv t (tc_idx tc) ->
  ts_buffer s = text ++ rest -> zlen text = len -> len <= SELF_TEST_BUF_OCTETS ->
  wp (test_inversion env (cipher_methods t) c tc key len text) (passes L) s.
Proof.
  intros Hr Hs HF HL Hiv Hb Hzt Hlen. pose proof (zlen_nonneg text). unfold test_inversion. wp_step.
  apply (wp_init t L c); [done..|]. intros c1 Hk1 Hr1. cbn [on_value]. wp_step. eapply wp_iv; [done..|].
  intros c2 Hat Hr2. cbn [on_value]. wp_step. eapply wp_aad; [done|]. cbn [on_value]. wp_step. eapply wp_crypt; [done..|lia|]. intros c3 s1 Hr3 Hs1 Hb1. cbn [on_value]. wp_step.
  eapply wp_tag; [done|]. cbn [on_value]. wp_step.
  apply (wp_init t L c3); [done..|]. intros c4 Hk4 Hr4. cbn [on_value]. wp_step. eapply wp_iv; [done..|].
  intros c5 Hat5 Hr5. cbn [on_value]. wp_step. eapply wp_aad; [done|]. cbn [on_value]. wp_step. eapply wp_crypt; [done..|lia|]. intros c6 s2 Hr6 Hs2 Hb2. cbn [on_value]. wp_step.
  apply wp_return_if; [by rewrite Z.eqb_refl|]. intros _. cbn [on_value]. wp_step.
  rewrite Hb, take_app_le, take_ge in Hb1 by (unfold zlen in *; lia).
  pose proof (zlen_crypt (type_key t L key) (tc_idx tc) 0 text) as Hzc.
  rewrite Hb1, take_app_le, take_ge, crypt_invol in Hb2 by (unfold zlen in *; lia).
  eapply wp_check; [exact Hb2|done|]. cbn [on_value]. wp_step. by exists c6.
Qed.

Lemma random_passes c tc s :
  zlen (te_key env) = MAX_KEY_LEN -> Forall is_u8 (te_key env) ->
  ready t (tc_key_length tc) c -> test_ok s -> case_ok t tc ->
  wp (random_test env (cipher_methods t) c tc) (passes (tc_key_length tc)) s.
Proof.
  intros Hzk HFk0 Hr Hs [_ HL _ Hiv _ _ _]. unfold random_test. wp_step.
  eapply wp_conseq; [apply rand_u32|]. intros s1 r (v & -> & Hb1). cbn [on_value]. set (len := v mod _).
  assert (0 <= len < 64) as Hlen by (apply Z.mod_pos_bound; done). wp_step.
  eapply wp_conseq; [apply rand_octets|]. intros s2 r (text & -> & Hzt & HFt & Hb2). cbn [on_value]. wp_step.
  assert (test_ok s2) as Hs2 by (destruct Hs; split; rewrite Hb2, Hb1; done).
  apply wp_copy; [done|unfold SELF_TEST_BUF_OCTETS; lia|lia|done|]. intros s3 Hs3 Hb3. cbn [on_value]. wp_step.
  apply wp_return_if; [unfold MAX_KEY_LEN in *; lia|]. intros _. cbn [on_value]. wp_step.
  eapply wp_conseq; [apply rand_octets|]. intros s4 r (k & -> & Hzk4 & HFk4 & Hb4). cbn [on_value]. wp_step.
  destruct (blit_Some (te_key env) 0 k) as (key & Ekey & Hzkey & _); [lia|unfold MAX_KEY_LEN in *; lia|].
  pose proof (Forall_blit _ _ _ _ _ Ekey HFk0 HFk4) as HFkey. rewrite Hzk in Hzkey.
  eapply wp_lift; [exact Ekey|]. cbn [on_value]. wp_step.
  eapply wp_conseq; [apply rand_octets|]. intros s5 r (iv & -> & _ & _ & Hb5). cbn [on_value].
  assert (test_ok s5) as Hs5 by (destruct Hs3; split; rewrite Hb5, Hb4; done).
  eapply inversion_passes; [done|done|done|lia|done|by rewrite Hb5, Hb4, Hb3|lia|unfold SELF_TEST_BUF_OCTETS; lia].
Qed.

Lemma randoms_pass n c tc s :
  zlen (te_key env) = MAX_KEY_LEN -> Forall is_u8 (te_key env) ->
  ready t (tc_key_length tc) c -> test_ok s -> case_ok t tc ->
  wp (random_tests env (cipher_methods t) n c tc) (passes (tc_key_length tc)) s.
Proof.
  intros Hzk HF Hr Hs Htc. revert c s Hr Hs. induction n as [|n IH]; intros c s Hr Hs; [apply wp_ret; by exists c|].
  cbn [random_tests]. wp_step. eapply wp_conseq; [by apply random_passes|]. intros s1 r (c1 & -> & Hr1 & Hs1). by apply IH.
Qed.

(** What a test finds: octets in its arrays, and memory. *)
Definition test_env_ok : Prop :=
  zlen (te_key env) = MAX_KEY_LEN /\ Forall is_u8 (te_key env) /\ forall i, te_alloc env i = true.

Lemma known_answers_pass cases s :
  test_env_ok -> test_ok s -> Forall (case_ok t) cases ->
  wp (known_answer_tests env (cipher_methods t) cases) (fun s' r => r = inr tt /\ test_ok s') s.
Proof.
  intros (_ & _ & Hal) Hs Hc. revert s Hs. induction Hc as [|tc cases Htc _ IH]; intros s Hs; [by apply wp_ret|].
  cbn [known_answer_tests]. wp_step. apply (wp_alloc env t (tc_key_length tc)); [done|apply Htc|done|].
  intros c s1 Hr Hb. cbn [on_value]. assert (test_ok s1) as Hs1 by (destruct Hs; split; by rewrite Hb). wp_step.
  eapply wp_conseq; [by apply encryption_passes|]. intros s2 r (c2 & -> & Hr2 & Hs2). cbn [on_value]. wp_step.
  eapply wp_conseq; [by apply decryption_passes|]. intros s3 r (c3 & -> & Hr3 & Hs3). cbn [on_value]. wp_step. wp_step.
  apply wp_return_if; [by destruct c3|]. intros _. by apply IH.
Qed.

Lemma type_test_passes data s :
  test_env_ok -> test_ok s -> data <> [] -> Forall (case_ok t) data ->
  wp (srtp_cipher_type_test env (cipher_methods t) data) (fun _ r => r = inr tt) s.
Proof.
  intros Henv Hs Hne Hdata. destruct data as [|tc data]; [done|]. unfold srtp_cipher_type_test. wp_step.
  eapply wp_conseq; [by apply known_answers_pass|]. intros s1 r [-> Hs1]. cbn [on_value]. inversion Hdata as [|? ? Htc _]; subst.
  destruct Henv as (Hzk & HF & Hal). wp_step. apply (wp_alloc env t (tc_key_length tc)); [done|apply Htc|done|].
  intros c s2 Hr Hb. cbn [on_value]. assert (test_ok s2) as Hs2 by (destruct Hs1; split; by rewrite Hb). wp_step.
  eapply wp_conseq; [by apply randoms_pass|]. intros s3 r (c3 & -> & Hr3 & Hs3). cbn [on_value]. wp_step.
  by apply wp_return_if; [destruct c3|].
Qed.

End Tests.

(** *** Authentication *)

(** A case whose tag is right: [P] finds the object and the first octets of the
    tag. *)
Lemma auth_case_passes alloc t i tc tag (a a1 : auth_t) rest :
  (forall i, alloc i = true) -> 0 <= tca_tag_length tc <= SELF_TEST_TAG_BUF_OCTETS -> zlen (tca_tag tc) = tca_tag_length tc ->
  at_alloc (auth_methods t) true (tca_key_length tc) (tca_tag_length tc) = (srtp_err_status_ok, Some a) ->
  srtp_auth_init a (tca_key tc) = Some (srtp_err_status_ok, a1) ->
  zlen tag = SELF_TEST_TAG_BUF_OCTETS ->
  (forall tag0, zlen tag0 = SELF_TEST_TAG_BUF_OCTETS ->
     exists a2, srtp_auth_compute a1 (tca_data tc) (tca_data_length tc) tag0 = Some (srtp_err_status_ok, a2, tca_tag tc ++ rest tag0)) ->
  wp (auth_test_case alloc (auth_methods t) i tc) (fun _ r => r = inr tt) tag.
Proof.
  intros Hal Htl Ht Ealloc Einit Hz Hcomp. unfold auth_test_case. wp_step. apply wp_return_if; [lia|]. intros _. cbn [on_value].
  rewrite Hal, Ealloc. wp_step. apply wp_return_if; [done|]. intros _. cbn [on_value]. wp_step. eapply wp_lift; [done|]. cbn [on_value].
  wp_step. eapply wp_lift; [exact Einit|]. cbn [on_value]. wp_step. apply wp_return_if; [done|]. intros _. cbn [on_value]. do 2 wp_step.
  cbn [on_value]. wp_step. destruct (blit_Some tag 0 (replicate (Z.to_nat (tca_tag_length tc)) 0)) as (tag0 & E0 & Hz0 & _);
    [lia|rewrite zlen_replicate; lia|]. eapply wp_lift; [exact E0|]. cbn [on_value]. wp_step.
  destruct (Hcomp tag0 ltac:(lia)) as [a2 Ec]. eapply wp_lift; [exact Ec|]. cbn [on_value]. do 2 wp_step. cbn [on_value]. wp_step. apply wp_return_if; [done|]. intros _.
  cbn [on_value]. wp_step. eapply wp_lift; [by apply compare_front|]. cbn [on_value]. wp_step. apply wp_return_if; [done|]. intros _.
  cbn [on_value]. by apply wp_return_if.
Qed.

Lemma auth_type_passes alloc t tag :
  zlen tag = SELF_TEST_TAG_BUF_OCTETS -> (forall i, alloc i = true) ->
  wp (srtp_auth_type_self_test alloc (auth_methods t)) (fun _ r => r = inr tt) tag.
Proof.
  intros Hz Hal. unfold srtp_auth_type_self_test, srtp_auth_type_test. destruct t; cbn [auth_methods at_test_data auth_test_cases]; wp_step.
  - eapply wp_conseq; [eapply (auth_case_passes _ srtp_null_auth _ _ _ (null_auth 0 0) (null_auth 0 0) id); try done; by eexists|].
    intros s r ->. by apply wp_ret.
  - set (key := tca_key srtp_hmac_test_case_0). set (data := tca_data srtp_hmac_test_case_0).
    assert (Forall is_u8 key /\ Forall is_u8 data) as [HFk HFd] by (by split; apply u8_list_dec; vm_compute).
    destruct (srtp_hmac_init_ok W0 W0_len ipad0 zero_hmac_ctx key) as (h1 & E1 & H1); try done; [apply ipad0_len|by apply Forall_replicate|].
    set (a := {| auth_state := zero_hmac_ctx; auth_out_len := 20; Hmac.auth_key_len := 20; auth_prefix_len := 0 |}).
    apply (wp_conseq _ (fun _ r => r = inr tt)); [|intros s r ->; by apply wp_ret].
    eapply (auth_case_passes _ srtp_hmac _ _ _ (hmac_auth a) (hmac_auth (with_auth_state a h1)) (drop 20)); try done.
    + cbn [srtp_auth_init]. change (srtp_hmac_init W0 ipad0 (auth_state a) _ _) with (srtp_hmac_init W0 ipad0 zero_hmac_ctx key (zlen key)).
      by rewrite E1.
    + intros tag0 Hz0. destruct (srtp_hmac_compute_ok W0 W0_len W1 h1 key [] data 20 tag0) as (h2 & tag' & E2 & -> & _);
        [apply W1_len|done|done|done|constructor|done|done|done|done|rewrite Hz0; done|].
      exists (hmac_auth (with_auth_state (with_auth_state a h1) h2)). cbn [srtp_auth_compute].
      change (srtp_hmac_compute W0 W1 (auth_state (with_auth_state a h1)) _ _ _ _)
        with (srtp_hmac_compute W0 W1 h1 data (zlen data) 20 tag0). rewrite E2. cbn [mbind option_bind].
      assert (take (Z.to_nat 20) (hmac_spec key ([] ++ data)) = tca_tag srtp_hmac_test_case_0) as -> by by vm_compute. done.
Qed.

End Pass.

(** AES gives the answers of the test data. *)
Lemma null_case_ok : case_ok srtp_null_cipher srtp_null_cipher_test_0.
Proof. by split. Qed.

Ltac aes_case := split;
  [by (left + right)|done|split; [by apply u8_list_dec; vm_compute|done]|split; [split; [done|by apply u8_list_dec; vm_compute]|done]
  |by split|split; [done|by apply u8_list_dec; vm_compute]|split; [by apply u8_list_dec; vm_compute|vm_compute; reflexivity]].

Lemma icm_128_case_ok : case_ok srtp_aes_icm_128 srtp_aes_icm_128_test_case_0.
Proof. aes_case. Qed.

Lemma icm_256_case_ok : case_ok srtp_aes_icm_256 srtp_aes_icm_256_test_case_0.
Proof. aes_case. Qed.

Lemma aes_cases_ok t : ct_test_data (cipher_methods t) <> [] /\ Forall (case_ok t) (ct_test_data (cipher_methods t)).
Proof.
  destruct t; (split; [done|]); constructor; try apply Forall_nil; [apply null_case_ok|apply icm_128_case_ok|apply icm_256_case_ok].
Qed.

(** ** Properties *)

(** C12: What the self tests vouch for.  Whatever the implementations of the
    types are, after any sequence of calls that initialise, shut down, load and
    replace, each with the verdicts of the self tests as they run, a cipher or
    an authentication object is only handed out for a type that encrypts and
    decrypts its test data, or computes their tags, as they say. *)
Theorem kernel_types_tested `{BlockCipher} {C A} (ciphers : cipher_type_t -> srtp_cipher_type_t C)
    (auths : auth_type_t -> srtp_auth_type_t A) calls k :
  Forall (fun e => runs_tests ciphers auths e.1) calls -> run_kernel calls crypto_kernel = Some k ->
  (forall ok1 ok2 id key_len st c, srtp_crypto_kernel_alloc_cipher k ok1 ok2 id key_len = (st, Some c) ->
     exists t, cipher_id t = id /\ cipher_answers (ciphers t)) /\
  (forall ok id key_len tag_len st a, srtp_crypto_kernel_alloc_auth k ok id key_len tag_len = (st, Some a) ->
     exists t, auth_id t = id /\ auth_answers (auths t)).
Proof.
  intros Hcalls Hrun.
  assert (Forall (fun e => sound_tests (fun t => cipher_answers (ciphers t)) (fun t => auth_answers (auths t)) e.1) calls) as Hs
    by (eapply Forall_impl; [|exact Hcalls]; intros e; apply tests_sound).
  pose proof (run_kernel_reachable _ _ _ _ _ (reachable_start _ _) Hs Hrun) as Hk.
  destruct (kernel_reachable_inv _ _ _ Hk) as [Hc Ha _]. split.
  - intros ok1 ok2 id key_len st c. unfold srtp_crypto_kernel_alloc_cipher. case_decide; [done|].
    destruct (srtp_crypto_kernel_get_cipher_type k id) as [t|] eqn:Et; [|done]. intros _.
    apply (get_type_ok cipher_id _ _ _ _ Hc) in Et as [-> ?]. by exists t.
  - intros ok id key_len tag_len st a. unfold srtp_crypto_kernel_alloc_auth. case_decide; [done|].
    destruct (srtp_crypto_kernel_get_auth_type k id) as [t|] eqn:Et; [|done]. intros _.
    apply (get_type_ok auth_id _ _ _ _ Ha) in Et as [-> ?]. by exists t.
Qed.

(** Every list entry can be allocated. *)
Definition entries_allocated (env : kernel_env) : Prop :=
  (forall t, cipher_entry_alloc env t = true) /\ (forall t, auth_entry_alloc env t = true) /\ forall n, module_entry_alloc env n = true.

Lemma kernel_init_passes env :
  (forall t, cipher_self_test env t = srtp_err_status_ok) -> (forall t, auth_self_test env t = srtp_err_status_ok) ->
  entries_allocated env -> exists k, srtp_init env crypto_kernel = Some (k, inr tt) /\ kernel_ready k.
Proof.
  intros Hc Ha (Hce & Hae & Hm). destruct (kernel_init_fresh env) as (k & r & E & Hpass & Hno & _).
  assert (env_passes env = true) as Hp by (unfold env_passes; cbn [forallb]; by rewrite !Hc, !Ha, !Hce, !Hae, !Hm).
  rewrite Hp in Hpass. destruct Hpass as [-> Hr]. unfold srtp_init, pbind. rewrite E. cbn [mbind option_bind].
  unfold srtp_crypto_kernel_load_debug_module. rewrite Hno, Hm. eexists. split; [done|]. by destruct Hr.
Qed.

(** C11: The library comes up.  Every self test of a type of the library, AES
    in counter mode with keys of both lengths and HMAC-SHA-1 included, is
    defined and passes, whatever [rand] yields and whatever the stack holds,
    when memory can be had; with these verdicts srtp_init succeeds and leaves a
    kernel that is secure and has all the types. *)
Theorem srtp_init_succeeds `{Locals} (ce : cipher_type_t -> test_env * test_state) (ae : auth_type_t -> (nat -> bool) * list Z) env :
  (forall t, test_env_ok (ce t).1 /\ test_ok (ce t).2) ->
  (forall t, (forall i, (ae t).1 i = true) /\ zlen (ae t).2 = SELF_TEST_TAG_BUF_OCTETS) ->
  entries_allocated env ->
  (forall t s r, srtp_cipher_type_self_test (ce t).1 (cipher_methods t) (ce t).2 = Some (s, r) -> cipher_self_test env t = status_of r) ->
  (forall t s r, srtp_auth_type_self_test (ae t).1 (auth_methods t) (ae t).2 = Some (s, r) -> auth_self_test env t = status_of r) ->
  (forall t, exists s, srtp_cipher_type_self_test (ce t).1 (cipher_methods t) (ce t).2 = Some (s, inr tt)) /\
  (forall t, exists s, srtp_auth_type_self_test (ae t).1 (auth_methods t) (ae t).2 = Some (s, inr tt)) /\
  exists k, srtp_init env crypto_kernel = Some (k, inr tt) /\ kernel_ready k.
Proof.
  intros Hce Hae Hent Hcv Hav.
  assert (forall t, exists s, srtp_cipher_type_self_test (ce t).1 (cipher_methods t) (ce t).2 = Some (s, inr tt)) as Hc.
  { intros t. destruct (Hce t) as [He Hs], (aes_cases_ok t) as [Hne Hd].
    destruct (type_test_passes (ce t).1 t _ (ce t).2 He Hs Hne Hd) as (s & r & E & ->). by exists s. }
  assert (forall t, exists s, srtp_auth_type_self_test (ae t).1 (auth_methods t) (ae t).2 = Some (s, inr tt)) as Ha.
  { intros t. destruct (Hae t) as [He Hz]. destruct (auth_type_passes _ t _ Hz He) as (s & r & E & ->). by exists s. }
  split; [done|]. split; [done|]. apply kernel_init_passes; [..|done].
  - intros t. destruct (Hc t) as [s E]. by rewrite (Hcv t _ _ E).
  - intros t. destruct (Ha t) as [s E]. by rewrite (Hav t _ _ E).
Qed.

(** ** Instances *)

#[local, program] Instance test_locals : Locals := {|
  W0 := replicate 80 7; W1 := replicate 80 9; ipad0 := replicate 64 1; keystream0 := replicate 257 5; ks_addr := 1;
  tmp_tag0 := replicate 16 3; tag_addr := 2; key_addr := 3 |}.
Solve All Obligations with try done; by apply Forall_replicate.

(** A weak generator, and a stack full of ones. *)
Definition test_inputs : test_env :=
  {| te_rand := fun i => 41 * Z.of_nat i + 3; te_alloc := fun _ => true; te_addr := 2; te_key := replicate 64 1 |}.
Definition test_start : test_state := {| ts_rands := 0; ts_allocs := 0; ts_buffer := replicate 128 1 |}.

Lemma test_start_ok : test_env_ok test_inputs /\ test_ok test_start.
Proof. split; [split; [done|split; [by apply Forall_replicate|done]]|split; [done|by apply Forall_replicate]]. Qed.

Lemma library_runs_tests : runs_tests cipher_methods auth_methods passing_env.
Proof.
  destruct test_start_ok as [He Hs]. split; intros t.
  - exists test_inputs, test_start. destruct (aes_cases_ok t) as [Hne Hd].
    destruct (type_test_passes test_inputs t _ test_start He Hs Hne Hd) as (s & r & E & ->). by exists s, (inr tt).
  - exists (fun _ => true), (replicate 32 1). destruct (auth_type_passes (fun _ => true) t (replicate 32 1)) as (s & r & E & ->); [done..|].
    by exists s, (inr tt).
Qed.

Lemma kernel_types_tested_witness :
  srtp_crypto_kernel_alloc_cipher restarted_kernel true true SRTP_AES_ICM_256 46 <> (srtp_err_status_fail, None) /\
  exists t, cipher_id t = SRTP_AES_ICM_256 /\ cipher_answers (cipher_methods t).
Proof.
  split; [done|].
  destruct (kernel_types_tested cipher_methods auth_methods [(passing_env, call_init)] (init_in passing_env crypto_kernel)) as [Hc _];
    [by constructor; [apply library_runs_tests|]|reflexivity|].
  apply (Hc true true SRTP_AES_ICM_256 46 srtp_err_status_ok (icm_cipher
    {| cipher_state := {| counter := replicate 16 0; offset := replicate 16 0; keystream_buffer := replicate 16 0;
         expanded_key := bc_zero; bytes_in_buffer := 0; key_size := 46 |};
       cipher_algorithm := SRTP_AES_ICM_256; cipher_key_len' := 46 |})). reflexivity.
Defined.

Lemma srtp_init_succeeds_witness :
  (forall t, exists s, srtp_cipher_type_self_test test_inputs (cipher_methods t) test_start = Some (s, inr tt)) /\
  (forall t, exists s, srtp_auth_type_self_test (fun _ => true) (auth_methods t) (replicate 32 1) = Some (s, inr tt)) /\
  exists k, srtp_init passing_env crypto_kernel = Some (k, inr tt) /\ kernel_ready k.
Proof.
  apply (srtp_init_succeeds (fun _ => (test_inputs, test_start)) (fun _ => (fun _ => true, replicate 32 1)) passing_env).
  - intros _. apply test_start_ok.
  - intros _. done.
  - by split.
  - intros t s r E. destruct test_start_ok as [He Hs], (aes_cases_ok t) as [Hne Hd].
    destruct (type_test_passes test_inputs t _ test_start He Hs Hne Hd) as (s' & r' & E' & Hr).
    unfold srtp_cipher_type_self_test in E. simpl fst in E. simpl snd in E. rewrite E' in E. injection E as _ <-. by rewrite Hr.
  - intros t s r E. destruct (auth_type_passes (fun _ => true) t (replicate 32 1)) as (s' & r' & E' & Hr); [done..|].
    assert (Some (s', r') = Some (s, r)) as E2 by (etrans; [exact (eq_sym E')|exact E]). injection E2 as _ <-. by rewrite Hr.
Defined.
