(* ===== verification/SrtpCreated.v ===== *)
(** srtp_create and srtp_add_stream: every policy with keys of the length it
    asks for gives a session that satisfies the invariant of packet processing,
    with the key material that its master keys determine. *)

From S2P Require Import Prelude Err Prog SrtpTypes Replay Rdb Rdbx Key SrtpPolicy ByteOrder.
From S2P Require Import Sha1 Hmac Aes AesKeys AesIcm Cipher Kernel KernelRun SrtpStream SrtpCreate SrtpPacket SrtpRun SrtpXtn SrtpProcess.
From S2P Require Import SrtpSession SrtpKeys.

Section Created.
Context `{BC : BlockCipher} `{LV : Locals}.
Context (kernel : srtp_crypto_kernel_t) (Hkernel : kernel_ready kernel).

(** ** Policies *)

(** The master keys of a policy. *)
Definition policy_keys (p : srtp_policy_t) : list srtp_master_key_t :=
  match pol_key p with
  | Some key => [{| mk_key := Some key; mk_mki_id := []; mk_mki_size := 0 |}]
  | None => pol_keys p
  end.

(** What the caller owes: lengths that an [int] of the API can have and that
    the derivation buffer holds, and keys and identifiers as long as the policy
    says. *)
Record policy_ok (p : srtp_policy_t) : Prop := {
  po_rtp : 0 <= cipher_key_len (pol_rtp p) <= MAX_SRTP_KEY_LEN /\ 0 <= SrtpPolicy.auth_key_len (pol_rtp p) <= MAX_SRTP_KEY_LEN;
  po_rtcp : 0 <= cipher_key_len (pol_rtcp p) <= MAX_SRTP_KEY_LEN /\ 0 <= SrtpPolicy.auth_key_len (pol_rtcp p) <= MAX_SRTP_KEY_LEN;
  po_keys : forall mk key, mk ∈ policy_keys p -> mk_key mk = Some key ->
    Forall is_u8 key /\ cipher_key_len (pol_rtp p) <= zlen key;
  po_mki : forall mk, mk ∈ policy_keys p -> 0 <= mk_mki_size mk <= zlen (mk_mki_id mk) /\ Forall is_u8 (mk_mki_id mk)
}.

(** ** Allocation *)

Lemma alloc_cipher_mono ok1 ok2 id n c :
  srtp_crypto_kernel_alloc_cipher kernel ok1 ok2 id n = (srtp_err_status_ok, Some c) ->
  srtp_crypto_kernel_alloc_cipher kernel true true id n = (srtp_err_status_ok, Some c).
Proof.
  unfold srtp_crypto_kernel_alloc_cipher, srtp_null_cipher_alloc, srtp_aes_icm_alloc.
  destruct ok1, ok2; repeat case_match; simpl in *; try done; congruence.
Qed.

Lemma alloc_auth_mono ok id n tag a :
  srtp_crypto_kernel_alloc_auth kernel ok id n tag = (srtp_err_status_ok, Some a) ->
  srtp_crypto_kernel_alloc_auth kernel true id n tag = (srtp_err_status_ok, Some a).
Proof.
  unfold srtp_crypto_kernel_alloc_auth, srtp_null_auth_alloc, srtp_hmac_alloc.
  destruct ok; repeat case_match; simpl in *; try done; congruence.
Qed.

Lemma alloc_auth_tag ok id n tag a :
  srtp_crypto_kernel_alloc_auth kernel ok id n tag = (srtp_err_status_ok, Some a) -> srtp_auth_get_tag_length a = tag.
Proof.
  unfold srtp_crypto_kernel_alloc_auth, srtp_null_auth_alloc, srtp_hmac_alloc.
  destruct ok; repeat case_match; simpl in *; intros; simplify_eq/=; done.
Qed.

Lemma alloc_auth_hmac ok id n tag a :
  srtp_crypto_kernel_alloc_auth kernel ok id n tag = (srtp_err_status_ok, Some a) ->
  srtp_crypto_kernel_get_auth_type kernel id = Some srtp_hmac -> exists h, a = hmac_auth h.
Proof.
  unfold srtp_crypto_kernel_alloc_auth. intros H E. rewrite E in H. case_decide; [done|].
  destruct (srtp_hmac_alloc _ _ _) as [st [h|]]; [|done]. injection H as _ <-. by exists h.
Qed.

(** The objects of a key are those of the policy, whatever the allocator
    answers, or none. *)
Record objs_of (p : srtp_policy_t) (o : key_objs) : Prop := {
  of_fresh : fresh_objs o;
  of_key_len : srtp_cipher_get_key_length (rtp_cipher o) = cipher_key_len (pol_rtp p);
  of_tag : srtp_auth_get_tag_length (rtp_auth o) = auth_tag_len (pol_rtp p);
  of_icm : match rtp_cipher o with null_cipher _ => True | icm_cipher c => is_icm (cipher_algorithm c) end;
  of_ctag : srtp_auth_get_tag_length (rtcp_auth o) = auth_tag_len (pol_rtcp p);
  of_cicm : match rtcp_cipher o with null_cipher _ => True | icm_cipher c => is_icm (cipher_algorithm c) end;
  of_cauth : srtp_crypto_kernel_get_auth_type kernel (auth_type (pol_rtcp p)) = Some srtp_hmac ->
    exists h, rtcp_auth o = hmac_auth h
}.

Lemma alloc_objs_spec ok b p o :
  policy_ok p -> alloc_objs kernel ok b p = inr o ->
  alloc_objs kernel (fun _ => true) 0 p = inr o /\ objs_of p o /\ rtp_xtn_hdr_cipher o = None.
Proof.
  intros [[P1 P2] [P3 P4] _ _]. unfold alloc_objs.
  destruct (alloc_cipher_spec kernel Hkernel (ok b) (ok (b + 1)) (cipher_type (pol_rtp p)) (cipher_key_len (pol_rtp p)))
    as (st1 & c1 & E1 & H1). rewrite E1. destruct c1 as [c1|]; [|by destruct st1]. destruct H1 as (-> & F1 & L1 & I1).
  rewrite (alloc_cipher_mono _ _ _ _ _ E1).
  destruct (alloc_auth_spec kernel Hkernel (ok (b + 2)) (auth_type (pol_rtp p)) (SrtpPolicy.auth_key_len (pol_rtp p))
    (auth_tag_len (pol_rtp p))) as (st2 & a1 & E2 & H2). rewrite E2. destruct a1 as [a1|]; [|by destruct st2].
  destruct H2 as (-> & L2 & F2). rewrite (alloc_auth_mono _ _ _ _ _ E2). pose proof (alloc_auth_tag _ _ _ _ _ E2) as T2.
  destruct (alloc_cipher_spec kernel Hkernel (ok (b + 3)) (ok (b + 4)) (cipher_type (pol_rtcp p)) (cipher_key_len (pol_rtcp p)))
    as (st3 & c2 & E3 & H3). rewrite E3. destruct c2 as [c2|]; [|by destruct st3]. destruct H3 as (-> & F3 & L3 & I3).
  rewrite (alloc_cipher_mono _ _ _ _ _ E3).
  destruct (alloc_auth_spec kernel Hkernel (ok (b + 5)) (auth_type (pol_rtcp p)) (SrtpPolicy.auth_key_len (pol_rtcp p))
    (auth_tag_len (pol_rtcp p))) as (st4 & a2 & E4 & H4). rewrite E4. destruct a2 as [a2|]; [|by destruct st4].
  destruct H4 as (-> & L4 & F4). rewrite (alloc_auth_mono _ _ _ _ _ E4). pose proof (alloc_auth_tag _ _ _ _ _ E4) as T4.
  pose proof (alloc_auth_hmac _ _ _ _ _ E4) as K4.
  destruct (ok (b + 6)); [|done]. intros [= <-]. split; [done|]. split; [|done]. split; simpl; try done.
  split; simpl; try done; [rewrite T2; apply F2; lia|rewrite T4; apply F4; lia|lia].
Qed.

Lemma alloc_xtn_spec ok b p i o o' :
  policy_ok p -> objs_of p o -> alloc_xtn kernel ok b p i o = inr o' ->
  (forall j, alloc_xtn kernel (fun _ => true) j p i o = inr o') /\ objs_of p o'.
Proof.
  intros _ [F L T Ic CT CIc CA]. unfold alloc_xtn.
  destruct (alloc_cipher_spec kernel Hkernel (ok (b + 2 * i)) (ok (b + 2 * i + 1)) (cipher_type (pol_rtp p))
    (cipher_key_len (pol_rtp p))) as (st1 & x & E1 & H1). rewrite E1. destruct x as [x|]; [|by destruct st1].
  destruct H1 as (-> & F1 & L1 & _). rewrite (alloc_cipher_mono _ _ _ _ _ E1). intros [= <-]. split; [done|].
  split; [|done..]. destruct F. split; simpl; try done. intros x' [= <-]. split; [done|]. congruence.
Qed.

Lemma collect_spec {A} (f g : Z -> srtp_err_status_t + A) (P : A -> Prop) i n l :
  (forall j a, f j = inr a -> g j = inr a /\ P a) -> collect f i n = inr l ->
  collect g i n = inr l /\ Forall P l /\ length l = n.
Proof.
  intros Hfg. revert i l. induction n as [|n IH]; intros i l; simpl; [by intros [= <-]|].
  destruct (f i) as [|a] eqn:Ef; [done|]. destruct (Hfg _ _ Ef) as [-> Ha].
  destruct (collect f (i + 1) n) as [|l'] eqn:El; [done|]. intros [= <-].
  destruct (IH _ _ El) as (-> & HP & Hl). split; [done|]. split; [by constructor|]. simpl. congruence.
Qed.

Lemma stream_alloc_spec ok p l :
  policy_ok p -> srtp_stream_alloc kernel ok p = inr l ->
  srtp_stream_alloc kernel (fun _ => true) p = inr l /\ Forall (objs_of p) l /\ length l = length (policy_keys p) /\ l <> [].
Proof.
  intros Hp. unfold srtp_stream_alloc.
  set (n := match pol_key p with Some _ => 1 | None => zlen (pol_keys p) end).
  assert (Z.to_nat n = length (policy_keys p)) as Hn.
  { unfold n, policy_keys. destruct (pol_key p); [done|]. unfold zlen. by rewrite Nat2Z.id. }
  destruct (ok 0); [|done]. destruct (ok 1); [|done]. simpl. destruct (n =? 0) eqn:En; [done|]. bool_to_prop.
  destruct (collect _ 0 _) as [|l1] eqn:E1; [done|].
  apply (collect_spec _ (fun i => alloc_objs kernel (fun _ => true) (2 + 7 * i) p) (objs_of p)) in E1 as (-> & F1 & L1).
  2:{ intros j o Ho. destruct (alloc_objs_spec _ _ _ _ Hp Ho) as (E & Hof & _). by split. }
  assert (Z.to_nat n <> 0%nat) as Hn0 by (unfold n in *; destruct (pol_key p); [done|unfold zlen in *; lia]).
  destruct (pol_enc_xtn_hdr p).
  { intros [= <-]. split_and!; try done; [lia|]. intros ->. simpl in L1. lia. }
  destruct (ok (2 + 7 * n)); [|done]. simpl. intros E2.
  apply (collect_spec _ (fun i => match aget l1 i with
                                  | Some o => alloc_xtn kernel (fun _ => true) (3 + 7 * n) p i o
                                  | None => inl srtp_err_status_fail
                                  end) (objs_of p)) in E2 as (-> & F2 & L2).
  - split_and!; try done; [lia|]. intros ->. simpl in L2. lia.
  - intros j o. unfold aget. case_decide; [|done]. destruct (l1 !! Z.to_nat j) as [o1|] eqn:Ej; [|done]. intros Ho.
    destruct (alloc_xtn_spec ok (3 + 7 * n) p j o1 o) as [E Hof]; [done|by eapply Forall_lookup_1 in F1|done|]. by split.
Qed.

(** ** Initialisation *)

(** The stream with other session keys. *)
Definition with_keys (x : srtp_stream_ctx_t) (l : list srtp_session_keys_t) : srtp_stream_ctx_t :=
  {| ssrc := ssrc x; session_keys := l; rtp_rdbx := rtp_rdbx x; rtp_services := rtp_services x; rtcp_rdb := rtcp_rdb x;
     rtcp_services := rtcp_services x; direction := direction x; allow_repeat_tx := allow_repeat_tx x;
     enc_xtn_hdr := enc_xtn_hdr x; pending_roc := pending_roc x |}.

(** The entries from [i] on have been given the master keys [l]. *)
Definition entries_set (i : nat) (l : list srtp_master_key_t) (s s' : sstate) : Prop :=
  (exists ks, s_strm s' = with_keys (s_strm s) ks /\ length ks = length (session_keys (s_strm s))) /\
  length (s_objs s') = length (s_objs s) /\
  (forall j, (j < i)%nat -> s_objs s' !! j = s_objs s !! j /\ session_keys (s_strm s') !! j = session_keys (s_strm s) !! j) /\
  forall j mk key o k, l !! j = Some mk -> mk_key mk = Some key -> s_objs s !! (i + j)%nat = Some o ->
    session_keys (s_strm s) !! (i + j)%nat = Some k ->
    exists ist, keys_set o k mk key ist /\ s_objs s' !! (i + j)%nat = Some (i_objs ist) /\
      session_keys (s_strm s') !! (i + j)%nat = Some (i_keys ist).

Lemma init_entry_run p ok i mk s o k :
  policy_ok p -> mk ∈ policy_keys p -> is_Some (mk_key mk) -> s_objs s !! i = Some o -> objs_of p o ->
  session_keys (s_strm s) !! i = Some k ->
  exists ist res, init_entry kernel ok i mk s =
      Some ({| s_objs := <[i := i_objs ist]> (s_objs s);
               s_strm := with_keys (s_strm s) (<[i := i_keys ist]> (session_keys (s_strm s))) |}, res) /\
    (res = inr tt -> forall key, mk_key mk = Some key -> keys_set o k mk key ist) /\
    ((forall b, ok b = true) -> res = inr tt).
Proof.
  intros Hp Hmk [key Hkey] Ho Hof Hk. unfold init_entry. rewrite Ho, Hk. cbn [mbind option_bind].
  destruct (init_keys_run kernel Hkernel ok mk key o k (replicate (Z.to_nat MAX_SRTP_KEY_LEN) 0) (null_cipher 0))
    as (ist & res & E & HS & HC); [apply Hof|..].
  { destruct (po_keys _ Hp mk key Hmk Hkey) as [HF Hl]. destruct (po_mki _ Hp mk Hmk) as [Hm HFm].
    split; try done. by rewrite (of_key_len _ _ Hof). }
  rewrite E. exists ist, res. split; [done|]. split; [|done]. intros Hr key' Hkey'. simplify_eq. by apply HS.
Qed.

Lemma init_entries_run p ok i l s :
  policy_ok p -> (forall mk, mk ∈ l -> mk ∈ policy_keys p /\ is_Some (mk_key mk)) ->
  Forall (objs_of p) (drop i (s_objs s)) -> (i + length l <= length (s_objs s))%nat ->
  (i + length l <= length (session_keys (s_strm s)))%nat ->
  exists s' res, init_entries kernel ok i l s = Some (s', res) /\
    (res = inr tt -> entries_set i l s s') /\ ((forall a b, ok a b = true) -> res = inr tt).
Proof.
  intros Hp. revert i s. induction l as [|mk l IH]; intros i s Hl Hfr Hlo Hlk.
  { exists s, (inr tt). split; [done|]. split; [|done]. intros _. split_and!; try done.
    exists (session_keys (s_strm s)). split; [by destruct (s_strm s)|done]. }
  simpl in Hlo, Hlk. destruct (lookup_lt_is_Some_2 (s_objs s) i) as [o Ho]; [lia|].
  destruct (lookup_lt_is_Some_2 (session_keys (s_strm s)) i) as [k Hk]; [lia|].
  assert (objs_of p o) as Hof.
  { eapply (Forall_lookup_1 _ _ 0 _ Hfr). by rewrite lookup_drop, Nat.add_0_r. }
  destruct (Hl mk) as [Hmk Hsome]; [by constructor|].
  destruct (init_entry_run p (ok (Z.of_nat i)) i mk s o k) as (ist & res & E & HS & HC); [done..|]. simpl.
  set (s1 := {| s_objs := _; s_strm := _ |}) in E. destruct res as [st|[]].
  { exists s1, (inl st). split; [unfold pbind; by rewrite E|]. split; [done|]. intros Hok. specialize (HC (Hok _)). done. }
  rewrite (bind_ok _ _ _ _ _ E).
  destruct (IH (S i) s1) as (s2 & res & E2 & HS2 & HC2).
  { intros mk' Hin. apply Hl. by constructor. }
  { simpl. rewrite drop_insert_lt by lia. by apply (Forall_drop _ 1) in Hfr; rewrite drop_drop, Nat.add_1_r in Hfr. }
  { simpl. rewrite length_insert. lia. }
  { simpl. rewrite length_insert. lia. }
  exists s2, res. split; [done|]. split; [|done]. intros Hr. destruct (HS2 Hr) as ((ks & Eks & Lks) & Lo & Hlow & Hset).
  unfold s1 in *. cbn [s_objs s_strm session_keys with_keys] in Eks, Lks, Lo, Hlow, Hset.
  rewrite length_insert in Lks. rewrite length_insert in Lo.
  destruct (Hlow i ltac:(lia)) as [Ho1 Hk1].
  rewrite list_lookup_insert_eq in Ho1 by lia. rewrite list_lookup_insert_eq in Hk1 by lia.
  split_and!; [by exists ks|done|..].
  - intros j Hj. destruct (Hlow j ltac:(lia)) as [-> ->]. by rewrite !list_lookup_insert_ne by lia.
  - intros [|j] mk' key o' k' Hmk' Hkey' Ho' Hk'; simpl in Hmk'.
    + simplify_eq. rewrite Nat.add_0_r in *. simplify_eq. exists ist. split; [by apply HS|]. by split.
    + replace (i + S j)%nat with (S i + j)%nat in * by lia. eapply Hset; try done.
      * rewrite list_lookup_insert_ne by lia. done.
      * rewrite list_lookup_insert_ne by lia. done.
Qed.

Lemma init_all_eq ok p s :
  (length (policy_keys p) <= 16)%nat ->
  srtp_stream_init_all_master_keys kernel ok p s = init_entries kernel ok 0 (policy_keys p) s.
Proof.
  unfold srtp_stream_init_all_master_keys, policy_keys. destruct (pol_key p) as [key|]; intros Hl.
  - simpl. unfold pbind. change (Z.of_nat 0) with 0. by destruct (init_entry _ _ _ _ _) as [[s' [|[]]]|].
  - by rewrite take_ge by (unfold SRTP_MAX_NUM_MASTER_KEYS; lia).
Qed.

(** The key material of the objects [l] of a policy. *)
Definition policy_mats (p : srtp_policy_t) (l : list key_objs) : list keymat :=
  zip_with (fun mk o => session_keymat o (padded_key o (default [] (mk_key mk)))) (policy_keys p) l.

(** The window of a policy: 128 when it is left zero. *)
Definition policy_window (p : srtp_policy_t) : Z :=
  if pol_window_size p =? 0 then 128 else pol_window_size p.

(** A stream as it starts out. *)
Record strm_new (p : srtp_policy_t) (ms : list keymat) (x : srtp_stream_ctx_t) : Prop := {
  sn_wf : strm_wf ms x;
  sn_ssrc : ssrc x = htonl (ssrc_value (pol_ssrc p));
  sn_services : rtp_services x = sec_serv (pol_rtp p);
  sn_direction : direction x = dir_unknown;
  sn_ids : enc_xtn_hdr x = pol_enc_xtn_hdr p;
  sn_roc : pending_roc x = 0;
  sn_repeat : allow_repeat_tx x = pol_allow_repeat_tx p;
  sn_empty : empty_rdbx x;
  sn_window : rdbx_width (rtp_rdbx x) = (policy_window p + 31) / 32 * 32 - 1;
  sn_rtcp_services : rtcp_services x = sec_serv (pol_rtcp p);
  sn_rdb : rtcp_rdb x = fst srtp_rdb_init
}.

(** Keys that [srtp_validate_policy_master_keys] lets through. *)
Lemma validate_keys p :
  srtp_validate_policy_master_keys p = true ->
  (0 < length (policy_keys p) <= 16)%nat /\
  forall mk, mk ∈ policy_keys p -> is_Some (mk_key mk) /\ mk_mki_size mk <= SRTP_MAX_MKI_LEN.
Proof.
  unfold srtp_validate_policy_master_keys, policy_keys, SRTP_MAX_NUM_MASTER_KEYS, SRTP_MAX_MKI_LEN.
  destruct (pol_key p) as [key|].
  - intros _. simpl. split; [lia|]. intros mk ->%list_elem_of_singleton. simpl. split; [by eexists|lia].
  - rewrite !andb_true_iff. intros [[Hlo%Z.ltb_lt Hhi%Z.leb_le] Hall]. unfold zlen in *. split; [lia|].
    intros mk Hin. rewrite forallb_forall in Hall. apply list_elem_of_In, Hall in Hin.
    rewrite andb_true_iff in Hin. destruct Hin as [Hk%bool_decide_eq_true_1 Hm%Z.leb_le]. done.
Qed.

Lemma zero_stream_keys base n ids j :
  (j < n)%nat -> session_keys (zero_stream base n ids) !! j =
    Some {| objs := base + j; salt := replicate 12 0; c_salt := replicate 12 0; mki_id := []; mki_size := 0 |}.
Proof. intros Hj. simpl. rewrite list_lookup_fmap, lookup_seq_lt by done. done. Qed.

(** Initialised entries give the objects their key material. *)
Lemma entries_mats p pre l x s :
  policy_ok p -> srtp_validate_policy_master_keys p = true -> Forall (objs_of p) l -> length l = length (policy_keys p) ->
  session_keys x = session_keys (zero_stream (length pre) (length l) (pol_enc_xtn_hdr p)) ->
  entries_set 0 (policy_keys p) {| s_objs := l; s_strm := x |} s ->
  Forall2 objs_ok (policy_mats p l) (s_objs s) /\
  Forall (keys_wf (length (pre ++ policy_mats p l))) (session_keys (s_strm s)) /\
  (forall k m, k ∈ session_keys (s_strm s) -> (pre ++ policy_mats p l) !! objs k = Some m -> km_tag m = auth_tag_len (pol_rtp p)) /\
  (forall j o, s_objs s !! j = Some o -> limit o = {| num_left := 0xffffffffffff; key_state := srtp_key_state_normal |}) /\
  length (session_keys (s_strm s)) = length l /\
  forall j k, session_keys (s_strm s) !! j = Some k -> objs k = (length pre + j)%nat.
Proof.
  intros Hp Hv Hl Hll Hkeys ((ks & Eks & Lks) & Lo & _ & Hset). cbn [s_objs s_strm] in *.
  destruct (validate_keys _ Hv) as [Hlen Hmks].
  assert (length (session_keys x) = length l) as Lx by (rewrite Hkeys; simpl; by rewrite length_fmap, length_seq).
  assert (length (policy_mats p l) = length l) as Lm by (unfold policy_mats; rewrite length_zip_with; lia).
  assert (forall j, (j < length l)%nat -> exists mk key o k ist, policy_keys p !! j = Some mk /\ mk_key mk = Some key /\
    l !! j = Some o /\ objs_of p o /\ keys_set o k mk key ist /\ s_objs s !! j = Some (i_objs ist) /\
    session_keys (s_strm s) !! j = Some (i_keys ist) /\ objs k = (length pre + j)%nat /\ mk ∈ policy_keys p) as Hj.
  { intros j Hj. destruct (lookup_lt_is_Some_2 (policy_keys p) j) as [mk Hmk]; [lia|].
    pose proof (list_elem_of_lookup_2 _ _ _ Hmk) as Hin. destruct (Hmks mk Hin) as [[key Hkey] _].
    destruct (lookup_lt_is_Some_2 l j) as [o Ho]; [lia|].
    destruct (Hset j mk key o _ Hmk Hkey Ho ltac:(rewrite Hkeys; by apply zero_stream_keys)) as (ist & Hks & Ho' & Hk').
    eexists mk, key, o, _, ist. split_and!; try done. by eapply Forall_lookup_1 in Hl. }
  assert (length (session_keys (s_strm s)) = length l) as Lsk by (rewrite Eks; simpl; lia).
  assert (forall j mk key o, policy_keys p !! j = Some mk -> mk_key mk = Some key -> l !! j = Some o ->
    policy_mats p l !! j = Some (session_keymat o (padded_key o key))) as Hmat.
  { intros j mk key o Hmk Hkey Ho. unfold policy_mats. rewrite lookup_zip_with, Hmk. simpl. rewrite Ho. simpl. by rewrite Hkey. }
  split_and!; [..|done|].
  - apply Forall2_same_length_lookup_2; [lia|]. intros j m o' Hm Ho'. pose proof (lookup_lt_Some _ _ _ Hm) as Hlt.
    destruct (Hj j) as (mk & key & o & k & ist & Hmk & Hkey & Ho & _ & Hks & Hso & _); [lia|].
    rewrite (Hmat j mk key o) in Hm by done. simplify_eq. apply Hks.
  - apply Forall_lookup. intros j k' Hk'. pose proof (lookup_lt_Some _ _ _ Hk') as Hlt.
    destruct (Hj j) as (mk & key & o & k & ist & Hmk & Hkey & Ho & _ & Hks & _ & Hsk & Hob & Hin); [lia|]. simplify_eq.
    destruct (Hmks mk Hin) as [_ Hmax]. destruct (po_mki _ Hp mk Hin) as [Hm HFm]. destruct Hks as [_ _ Hi Hmi Hms].
    split; [rewrite length_app, Hi, Hob; lia|rewrite Hmi, Hms, zlen_take; lia|by rewrite Hms|].
    rewrite Hmi. by apply Forall_take.
  - intros k' m Hk' Hm. apply list_elem_of_lookup in Hk' as [j Hk']. pose proof (lookup_lt_Some _ _ _ Hk') as Hlt.
    destruct (Hj j) as (mk & key & o & k & ist & Hmk & Hkey & Ho & Hof & Hks & _ & Hsk & Hob & _); [lia|]. simplify_eq.
    rewrite (ks_index _ _ _ _ _ Hks), Hob, lookup_app_r in Hm by lia.
    replace (length pre + j - length pre)%nat with j in Hm by lia. rewrite (Hmat j mk key o) in Hm by done. simplify_eq.
    apply Hof.
  - intros j o' Ho'. pose proof (lookup_lt_Some _ _ _ Ho') as Hlt.
    destruct (Hj j) as (mk & key & o & k & ist & _ & _ & _ & _ & Hks & Hso & _); [lia|]. simplify_eq. apply Hks.
  - intros j k' Hk'. pose proof (lookup_lt_Some _ _ _ Hk') as Hlt.
    destruct (Hj j) as (mk & key & o & k & ist & _ & _ & _ & _ & Hks & _ & Hsk & Hob & _); [lia|]. simplify_eq.
    rewrite <- Hob. apply Hks.
Qed.

(** [srtp_stream_init] on freshly allocated objects. *)
Lemma stream_alloc_plain ok p l :
  policy_ok p -> srtp_stream_alloc kernel ok p = inr l -> pol_enc_xtn_hdr p = [] ->
  Forall (fun o => rtp_xtn_hdr_cipher o = None) l.
Proof.
  intros Hp. unfold srtp_stream_alloc. destruct (negb _); [done|]. destruct (negb _ || _); [done|].
  destruct (collect _ 0 _) as [|l1] eqn:E1; [done|]. intros El Hx. rewrite Hx in El. injection El as <-.
  eapply (collect_spec _ _ (fun o => rtp_xtn_hdr_cipher o = None)) in E1 as (_ & F & _); [exact F|].
  intros j o Ho. split; [exact Ho|]. by destruct (alloc_objs_spec _ _ _ _ Hp Ho) as (_ & _ & ?).
Qed.

Lemma stream_init_run rok ok p pre l :
  policy_ok p -> srtp_validate_policy_master_keys p = true -> Forall (objs_of p) l -> length l = length (policy_keys p) ->
  exists s res, srtp_stream_init kernel rok ok p
      {| s_objs := l; s_strm := zero_stream (length pre) (length l) (pol_enc_xtn_hdr p) |} = Some (s, res) /\
    (res = inr tt -> Forall2 objs_ok (policy_mats p l) (s_objs s) /\ strm_new p (pre ++ policy_mats p l) (s_strm s) /\
      (forall j o, s_objs s !! j = Some o -> limit o = {| num_left := 0xffffffffffff; key_state := srtp_key_state_normal |}) /\
      (forall j k, session_keys (s_strm s) !! j = Some k -> objs k = (length pre + j)%nat)) /\
    (rok = true -> (forall a b, ok a b = true) ->
     pol_window_size p = 0 \/ 64 <= pol_window_size p < 0x8000 -> pol_allow_repeat_tx p = 0 \/ pol_allow_repeat_tx p = 1 ->
     res = inr tt).
Proof.
  intros Hp Hv Hl Hll. destruct (validate_keys _ Hv) as [Hlen Hmks]. unfold srtp_stream_init.
  destruct (negb (pol_window_size p =? 0) && _) eqn:Ew.
  { eexists _, _. split; [done|]. split; [done|]. intros _ _ Hws _. exfalso.
    apply andb_true_iff in Ew as [E1 E2]. apply negb_true_iff, Z.eqb_neq in E1. apply orb_true_iff in E2.
    rewrite Z.ltb_lt, Z.leb_le in E2. lia. }
  assert (pol_window_size p = 0 \/ 64 <= pol_window_size p < 0x8000) as Hws.
  { apply andb_false_iff in Ew. rewrite negb_false_iff, Z.eqb_eq, orb_false_iff, Z.ltb_ge, Z.leb_gt in Ew. lia. }
  unfold preturn_if at 1. autorewrite with prog. cbn [s_strm]. fold (policy_window p).
  assert (64 <= policy_window p < 0x8000) as Hpw by (unfold policy_window; case_if; lia).
  destruct rok.
  2:{ destruct (rdbx_init_no_memory (rtp_rdbx (zero_stream (length pre) (length l) (pol_enc_xtn_hdr p))) (policy_window p))
        as (rx & ->); [lia|]. autorewrite with prog. cbv beta iota. eexists _, _. split; [done|]. by split. }
  destruct (rdbx_init_spec (rtp_rdbx (zero_stream (length pre) (length l) (pol_enc_xtn_hdr p))) (policy_window p))
    as (rx & -> & Hrx & Hem & Hi0 & Hwin); [lia|].
  autorewrite with prog. cbv beta iota. autorewrite with prog. unfold put_strm_s. autorewrite with prog. cbn [s_objs s_strm].
  destruct (negb (pol_allow_repeat_tx p =? 0) && _) eqn:Er.
  { eexists _, _. split; [done|]. split; [done|]. intros _ _ _ Hrep. exfalso.
    rewrite andb_true_iff, !negb_true_iff, !Z.eqb_neq in Er. lia. }
  unfold preturn_if. autorewrite with prog. cbn [s_objs s_strm]. rewrite init_all_eq by lia.
  set (x := {| ssrc := _; session_keys := _ |}).
  assert (session_keys x = session_keys (zero_stream (length pre) (length l) (pol_enc_xtn_hdr p))) as Hx by done.
  assert (length (session_keys x) = length l) as Lx by (rewrite Hx; simpl; by rewrite length_fmap, length_seq).
  destruct (init_entries_run p ok 0 (policy_keys p) {| s_objs := l; s_strm := x |}) as (s & res & E & HS & HC);
    [done| |done|cbn [s_objs s_strm]; lia|cbn [s_objs s_strm]; lia|].
  { intros mk Hin. split; [done|]. by apply Hmks. }
  exists s, res. split; [exact E|]. split; [|intros _ Hok _ _; by apply HC]. intros Hr. specialize (HS Hr).
  destruct (entries_mats p pre l x s Hp Hv Hl Hll Hx HS) as (F1 & F2 & F3 & F4 & F5 & F6).
  split; [done|]. split; [|done]. destruct HS as ((ks & Eks & Lks) & _). cbn [s_strm] in Eks.
  assert (session_keys (s_strm s) <> []) as Hne by (intros Hnil; rewrite Hnil in F5; simpl in F5; lia).
  split; [split; [done|done|by eexists|..]|..]; rewrite Eks in *; simpl; try done.
  - apply rdb_init_ok.
  - unfold rdbx_width. unfold srtp_rdbx_get_window_size, bitvector_get_length in Hwin. by rewrite Hwin.
Qed.

(** ** Sessions *)

Lemma strm_wf_app ms ms' x : strm_wf ms x -> strm_wf (ms ++ ms') x.
Proof.
  intros [Hs Hk [t Ht] Hr Hb Hp]. split; try done.
  - eapply Forall_impl; [|exact Hk]. intros k [A B C D]. split; try done. rewrite length_app. lia.
  - exists t. intros k m Hin. rewrite lookup_app_l; [by apply Ht|].
    apply list_elem_of_lookup in Hin as [j Hj]. by destruct (Forall_lookup_1 _ _ _ _ Hk Hj).
Qed.

(** The direction of a stream for the kind of SSRC it is made for. *)
Definition start_direction (ty : srtp_ssrc_type_t) : direction_t :=
  match ty with ssrc_any_outbound => dir_srtp_sender | ssrc_any_inbound => dir_srtp_receiver | _ => dir_unknown end.

(** [c'] is [c] with a stream [x] for the policy. *)
Record stream_added (p : srtp_policy_t) (ms : list keymat) (c : srtp_ctx_t) (ms' : list keymat) (c' : srtp_ctx_t)
    (x : srtp_stream_ctx_t) : Prop := {
  sa_alloc : exists l, srtp_stream_alloc kernel (fun _ => true) p = inr l /\ ms' = ms ++ policy_mats p l /\
    length l = length (policy_keys p);
  sa_ok : ses_ok ms' c';
  sa_new : strm_new p ms' x;
  sa_keys : forall j k, session_keys x !! j = Some k -> objs k = (length ms + j)%nat;
  sa_limits : forall j o, (length ms <= j)%nat -> key_store c' !! j = Some o ->
    limit o = {| num_left := 0xffffffffffff; key_state := srtp_key_state_normal |};
  sa_streams :
    match ssrc_type (pol_ssrc p) with
    | ssrc_specific => stream_list c' = x :: stream_list c /\ stream_template c' = stream_template c
    | ty => stream_list c' = stream_list c /\ stream_template c' = Some (with_direction x (start_direction ty)) /\
        stream_template c = None
    end
}.

(** A policy that a session can be created with. *)
Definition usable (p : srtp_policy_t) : Prop :=
  srtp_validate_policy_master_keys p = true /\ (exists l, srtp_stream_alloc kernel (fun _ => true) p = inr l) /\
  (pol_window_size p = 0 \/ 64 <= pol_window_size p < 0x8000) /\
  (pol_allow_repeat_tx p = 0 \/ pol_allow_repeat_tx p = 1) /\ ssrc_type (pol_ssrc p) <> ssrc_undefined.

Lemma add_stream_run al p ms c :
  policy_ok p -> ses_ok ms c ->
  exists c' res, srtp_add_stream kernel al p c = Some (c', res) /\
    match res with inl _ => c' = c | inr _ => exists ms' x, stream_added p ms c ms' c' x end /\
    (al = all_allocs -> usable p -> ssrc_type (pol_ssrc p) = ssrc_specific \/ stream_template c = None -> res = inr tt).
Proof.
  intros Hp Hc. unfold srtp_add_stream. unfold usable.
  destruct (srtp_validate_policy_master_keys p) eqn:Hv; [|eexists _, _; split; [done|]; split; [done|naive_solver]].
  cbn [negb]. destruct (srtp_stream_alloc kernel (stream_ok al) p) as [st|l] eqn:Ea.
  { eexists _, _. split; [done|]. split; [done|]. intros -> (_ & [l El] & _). simpl in Ea. congruence. }
  destruct (stream_alloc_spec _ _ _ Hp Ea) as (Eall & Hl & Hll & Hne).
  pose proof (Forall2_length (so_store _ _ Hc)) as Hlen. rewrite <- Hlen.
  destruct (stream_init_run (mask_ok al) (keys_ok al) p ms l Hp Hv Hl Hll) as (s & res & -> & HS & HC).
  cbn [mbind option_bind]. destruct res as [st|[]].
  { eexists _, _. split; [done|]. split; [done|]. intros -> (_ & _ & U1 & U2 & _). by discriminate HC. }
  destruct (HS eq_refl) as (F1 & F2 & F3 & F4). pose proof Hc as [G1 G2 G3].
  assert (Forall2 objs_ok (ms ++ policy_mats p l) (key_store c ++ s_objs s)) as Hstore by (by apply Forall2_app).
  assert (forall c', key_store c' = key_store c ++ s_objs s ->
    Forall (strm_wf (ms ++ policy_mats p l)) (stream_list c') ->
    (forall t, stream_template c' = Some t -> strm_wf (ms ++ policy_mats p l) t) ->
    ses_ok (ms ++ policy_mats p l) c' /\ forall j o, (length ms <= j)%nat -> key_store c' !! j = Some o ->
      limit o = {| num_left := 0xffffffffffff; key_state := srtp_key_state_normal |}) as Hnew.
  { intros c' Es Hls Htm. split; [by split; rewrite ?Es|]. intros j o Hj. rewrite Es, lookup_app_r by lia. apply F3. }
  assert (Forall (strm_wf (ms ++ policy_mats p l)) (stream_list c)) as Hlist
    by (eapply Forall_impl; [|exact G2]; intros; by apply strm_wf_app).
  assert (forall t, stream_template c = Some t -> strm_wf (ms ++ policy_mats p l) t) as Htmpl
    by (intros; apply strm_wf_app; auto).
  pose proof (sn_wf _ _ _ F2) as Hw.
  destruct (ssrc_type (pol_ssrc p)) eqn:Ety; [eexists _, _; split; [done|]; split; [done|]; naive_solver|..].
  - set (c' := {| key_store := _ |}). destruct (Hnew c') as [N1 N2]; [done|by constructor|done|].
    exists c', (inr tt). split; [done|]. split; [|done]. exists (ms ++ policy_mats p l), (s_strm s).
    split; try done; [by exists l|]. by rewrite Ety.
  - destruct (stream_template c) eqn:Et; [eexists _, _; split; [done|]; split; [done|]; naive_solver|]. set (c' := {| key_store := _ |}).
    destruct (Hnew c') as [N1 N2]; [done|done|by intros t [= <-]; apply strm_wf_direction|].
    exists c', (inr tt). split; [done|]. split; [|done]. exists (ms ++ policy_mats p l), (s_strm s).
    split; try done; [by exists l|]. by rewrite Ety.
  - destruct (stream_template c) eqn:Et; [eexists _, _; split; [done|]; split; [done|]; naive_solver|]. set (c' := {| key_store := _ |}).
    destruct (Hnew c') as [N1 N2]; [done|done|by intros t [= <-]; apply strm_wf_direction|].
    exists c', (inr tt). split; [done|]. split; [|done]. exists (ms ++ policy_mats p l), (s_strm s).
    split; try done; [by exists l|]. by rewrite Ety.
Qed.

(** ** Errors *)

(** A call that does not succeed reports an error. *)
Lemma alloc_cipher_error ok1 ok2 id n st c :
  srtp_crypto_kernel_alloc_cipher kernel ok1 ok2 id n = (st, c) -> is_err st = false -> is_Some c.
Proof.
  unfold srtp_crypto_kernel_alloc_cipher, srtp_null_cipher_alloc, srtp_aes_icm_alloc.
  repeat case_match; intros; simplify_eq; try done; by eexists.
Qed.

Lemma alloc_auth_error ok id n tag st a :
  srtp_crypto_kernel_alloc_auth kernel ok id n tag = (st, a) -> is_err st = false -> is_Some a.
Proof.
  unfold srtp_crypto_kernel_alloc_auth, srtp_null_auth_alloc, srtp_hmac_alloc.
  repeat case_match; intros; simplify_eq; try done; by eexists.
Qed.

(** The next allocation of a goal: an error is reported, or there is an
    object. *)
Ltac alloc_step :=
  let E := fresh "E" in
  lazymatch goal with
  | |- match srtp_crypto_kernel_alloc_cipher ?k ?o1 ?o2 ?id ?n with _ => _ end = _ -> _ =>
      destruct (srtp_crypto_kernel_alloc_cipher k o1 o2 id n) as [[] ?] eqn:E; try (by intros [= <-]);
      destruct (alloc_cipher_error _ _ _ _ _ _ E eq_refl) as [? ->]; clear E
  | |- match srtp_crypto_kernel_alloc_auth ?k ?o ?id ?n ?t with _ => _ end = _ -> _ =>
      destruct (srtp_crypto_kernel_alloc_auth k o id n t) as [[] ?] eqn:E; try (by intros [= <-]);
      destruct (alloc_auth_error _ _ _ _ _ _ E eq_refl) as [? ->]; clear E
  end.

Lemma alloc_objs_error ok b p st : alloc_objs kernel ok b p = inl st -> is_err st = true.
Proof. unfold alloc_objs. do 4 alloc_step. destruct (ok (b + 6)); [done|by intros [= <-]]. Qed.

Lemma alloc_xtn_error ok b p i o st : alloc_xtn kernel ok b p i o = inl st -> is_err st = true.
Proof. unfold alloc_xtn. by alloc_step. Qed.

Lemma collect_error {A} (f : Z -> srtp_err_status_t + A) i n st :
  (forall i st, f i = inl st -> is_err st = true) -> collect f i n = inl st -> is_err st = true.
Proof.
  intros Hf. revert i. induction n as [|n IH]; intros i; simpl; [done|]. destruct (f i) eqn:Ef; [intros [= <-]; eauto|].
  specialize (IH (i + 1)). destruct (collect f (i + 1) n); [|done]. intros [= <-]. by apply IH.
Qed.

Lemma stream_alloc_error ok p st : srtp_stream_alloc kernel ok p = inl st -> is_err st = true.
Proof.
  unfold srtp_stream_alloc. destruct (negb (ok 0)); [by intros [= <-]|]. destruct (_ || _); [by intros [= <-]|].
  destruct (collect _ _ _) as [st1|l] eqn:E.
  { intros [= <-]. eapply collect_error; [|exact E]. intros i st2 H. exact (alloc_objs_error _ _ _ _ H). }
  destruct (pol_enc_xtn_hdr p); [done|]. destruct (negb _); [by intros [= <-]|]. apply collect_error.
  intros i st1. destruct (aget l i); [apply alloc_xtn_error|by intros [= <-]].
Qed.

Lemma generate_error label off n : fails_with_error (generate label off n).
Proof. unfold generate, put_tmp. error_steps. Qed.

Lemma generate_key_salt_error l1 l2 b n : fails_with_error (generate_key_salt l1 l2 b n).
Proof. unfold generate_key_salt. pose proof generate_error. error_steps. Qed.

Lemma init_or_fail_error {A} (r : option (srtp_err_status_t * A)) : fails_with_error (init_or_fail r).
Proof. unfold init_or_fail. error_steps. Qed.

#[local] Hint Resolve generate_error generate_key_salt_error init_or_fail_error : errors.

Lemma init_keys_error ok m : fails_with_error (srtp_stream_init_keys kernel ok m).
Proof.
  unfold srtp_stream_init_keys, init_session_keys, init_rtp_cipher, init_xtn_cipher, init_rtp_auth, init_rtcp_cipher,
    init_rtcp_auth, keep_salt, put_i_objs, put_i_keys, put_tmp. error_steps.
Qed.

Lemma init_entry_error ok i m : fails_with_error (init_entry kernel ok i m).
Proof.
  intros s s' st. unfold init_entry. destruct (s_objs s !! i); [|done]. destruct (session_keys (s_strm s) !! i); [|done]. simpl.
  destruct (srtp_stream_init_keys _ _ _ _) as [[ist r]|] eqn:E; [|done]. simpl. intros [= _ ->]. by apply init_keys_error in E.
Qed.

#[local] Hint Resolve init_entry_error : errors.

Lemma stream_init_error rok ok p : fails_with_error (srtp_stream_init kernel rok ok p).
Proof.
  assert (forall l i, fails_with_error (init_entries kernel ok i l)).
  { induction l as [|m l IH]; intros i; simpl; error_steps. }
  unfold srtp_stream_init, srtp_stream_init_all_master_keys, put_strm_s. error_steps.
Qed.

Lemma add_stream_error al p : fails_with_error (srtp_add_stream kernel al p).
Proof.
  intros c c' st. unfold srtp_add_stream. destruct (negb _); [by intros [= _ <-]|].
  destruct (srtp_stream_alloc _ _ _) as [st1|l] eqn:Ea; [intros [= _ <-]; by apply stream_alloc_error in Ea|].
  destruct (srtp_stream_init _ _ _ _ _) as [[s [st1|]]|] eqn:Ei; simpl; [|..|done].
  - intros [= _ <-]. by apply stream_init_error in Ei.
  - repeat case_match; intros; by simplify_eq.
Qed.

Definition empty_ctx : srtp_ctx_t := {| key_store := []; stream_list := []; stream_template := None |}.

Lemma empty_ctx_ok : ses_ok [] empty_ctx.
Proof. by split; simpl. Qed.

Lemma add_streams_run al l ms c :
  Forall policy_ok l -> ses_ok ms c ->
  exists c' res, add_streams kernel al l c = Some (c', res) /\ exists ms', ses_ok ms' c'.
Proof.
  revert al ms c. induction l as [|p l IH]; intros al ms c Hl Hc; simpl; [by eexists _, _; split; [|eexists]|].
  inversion Hl as [|? ? Hp Hl']; subst.
  destruct (add_stream_run (default all_allocs (head al)) p ms c Hp Hc) as (c1 & res & E & HR & _).
  destruct res as [st|[]].
  - exists c1, (inl st). split; [unfold pbind; by rewrite E|]. subst c1. by exists ms.
  - rewrite (bind_ok _ _ _ _ _ E). destruct HR as (ms' & x & HR). apply (IH _ ms' c1 Hl' (sa_ok _ _ _ _ _ _ HR)).
Qed.

(** [srtp_create] with one policy. *)
Lemma create_one_run al p :
  policy_ok p ->
  exists st c, srtp_create kernel true [al] [p] = Some (st, c) /\
    match c with
    | None => is_err st = true
    | Some c => st = srtp_err_status_ok /\ exists ms x, stream_added p [] empty_ctx ms c x
    end /\ (al = all_allocs -> usable p -> is_Some c).
Proof.
  intros Hp. unfold srtp_create. cbn [negb add_streams head tail default].
  destruct (add_stream_run al p [] empty_ctx Hp empty_ctx_ok) as (c & res & E & HR & HC).
  unfold pbind. change (id al) with al. unfold empty_ctx in E at 1. rewrite E.
  destruct res as [st|[]]; cbn [mbind option_bind].
  - eexists _, None. split; [done|]. split; [by apply add_stream_error in E|]. intros Hal Hu. by discriminate HC; [..|right].
  - exists srtp_err_status_ok, (Some c). split; [done|]. split; [done|]. by eexists.
Qed.

(** ** Key material of a policy *)

Lemma policy_mats_lookup p l j m :
  policy_mats p l !! j = Some m -> exists mk o, policy_keys p !! j = Some mk /\ l !! j = Some o /\
    m = session_keymat o (padded_key o (default [] (mk_key mk))).
Proof.
  unfold policy_mats. rewrite lookup_zip_with. destruct (policy_keys p !! j) as [mk|]; [|done]. simpl.
  destruct (l !! j) as [o|]; [|done]. intros [= <-]. by exists mk, o.
Qed.

Lemma policy_mats_tag p l j m :
  Forall (objs_of p) l -> policy_mats p l !! j = Some m -> km_tag m = auth_tag_len (pol_rtp p).
Proof.
  intros Hl (mk & o & _ & Ho & ->)%policy_mats_lookup. simpl. by destruct (Forall_lookup_1 _ _ _ _ Hl Ho).
Qed.

Lemma policy_mats_ctag p l j m :
  Forall (objs_of p) l -> policy_mats p l !! j = Some m ->
  km_ctag m = auth_tag_len (pol_rtcp p) /\
  (srtp_crypto_kernel_get_auth_type kernel (auth_type (pol_rtcp p)) = Some srtp_hmac -> km_cauth m <> None).
Proof.
  intros Hl (mk & o & _ & Ho & ->)%policy_mats_lookup. destruct (Forall_lookup_1 _ _ _ _ Hl Ho) as [_ _ _ _ CT _ CA].
  split; [done|]. intros E. simpl. by destruct (CA E) as [h ->].
Qed.

Lemma policy_mats_plain p l j m :
  Forall (fun o => rtp_xtn_hdr_cipher o = None) l -> policy_mats p l !! j = Some m -> km_xtn m = None.
Proof. intros Hl (mk & o & _ & Ho & ->)%policy_mats_lookup. simpl. by rewrite (Forall_lookup_1 _ _ _ _ Hl Ho). Qed.

(** ** Key streams long enough *)

Lemma packet_iv_low16 id y est : is_icm id -> low16 (packet_iv id y est) = 0.
Proof.
  intros Hid. unfold packet_iv.
  assert ((id =? SRTP_AES_ICM_128) || (id =? SRTP_AES_ICM_192) || (id =? SRTP_AES_ICM_256) = true) as ->
    by (by destruct Hid as [-> | ->]).
  change (be_octets 8 (u64 (est << 16))) with (map (fun i => u8 (u64 (est << 16) >> (8 * Z.of_nat i))) [7; 6; 5; 4; 3; 2; 1; 0]%nat).
  change (be_octets 4 y) with (map (fun i => u8 (y >> (8 * Z.of_nat i))) [3; 2; 1; 0]%nat).
  cbn [map rev app replicate]. unfold low16, znth, aget. simpl.
  unfold wrap. rewrite Z.shiftl_mul_pow2, !Z.shiftr_div_pow2 by lia. lia.
Qed.

(** A created stream has key stream for packets of up to 65534 octets. *)
Lemma created_room p l j m o y est pos n :
  policy_mats p l !! j = Some m -> Forall (objs_of p) l -> objs_ok m o -> 0 <= pos <= 16 -> n <= 65534 ->
  room (km_rtp m) (packet_iv (km_id m) y est) pos n = true.
Proof.
  intros (mk & o0 & _ & Ej & ->)%policy_mats_lookup Hl Hok Hpos Hn.
  pose proof (of_icm _ _ (Forall_lookup_1 _ _ _ _ Hl Ej)) as Hid. pose proof (oo_rtp _ _ Hok) as Hk. simpl in *.
  destruct (rtp_cipher o0) as [|c0]; [done|]. destruct (rtp_cipher o) as [|c]; [done|].
  cbn [stream_key_of keyed_cipher] in Hk |- *. destruct Hk as (_ & _ & Hb & _). cbn [room].
  set (k := {| sk_E := _; sk_offset := _ |}) in *.
  assert (low16 (start_block k (packet_iv (cipher_type_id (icm_cipher c0)) y est)) = 0) as ->.
  { apply start_block_low16; [done|apply packet_iv_block| |by apply packet_iv_low16].
    apply (low16_icm_key (cipher_key_len' c0)), Hb. }
  apply Z.leb_le. rewrite Z.add_0_l. pose proof (Z.mod_le ((pos + 15) / 16) (2 ^ 16)). lia.
Qed.

End Created.
