(* ===== verification/SrtpTheorems.v ===== *)
(** The properties of packet processing, with a session of the library's
    default policy as the example. *)

From S2P Require Import Prelude Err Prog SrtpTypes Replay Rdb Rdbx Key SrtpPolicy ByteOrder.
From S2P Require Import Sha1 Hmac Aes AesKeys AesIcm Cipher Kernel KernelRun SrtpStream SrtpCreate SrtpPacket SrtpRun SrtpXtn SrtpProcess.
From S2P Require Import SrtpSession SrtpProtect SrtpUnprotect SrtpSecure SrtpKeys SrtpCreated.

Section Lemmas.
Context `{BC : BlockCipher} `{LV : Locals}.

(** No stream waits for a rollover counter. *)
Definition no_pending (c : srtp_ctx_t) : Prop := Forall (fun x => pending_roc x = 0) (stream_list c).

(** The stream of the SSRC [y] has recorded the sequence number [seq]. *)
Definition knows (c : srtp_ctx_t) (y seq : Z) : Prop :=
  exists r x est delta, srtp_get_stream c y = Some r /\ stream_at c r = Some x /\ pending_roc x = 0 /\
    srtp_rdbx_estimate_index (rtp_rdbx x) seq = (est, delta) /\
    srtp_rdbx_check (rtp_rdbx x) delta = Some srtp_err_status_replay_fail.

Lemma with_store_get c k y : srtp_get_stream (with_store c k) y = srtp_get_stream c y.
Proof. done. Qed.

Lemma list_stream_get c j x y :
  srtp_get_stream c y = Some (InList j) -> stream_list c !! j = Some x -> ssrc x = y.
Proof. intros Hg Hx. destruct (get_stream_Some _ _ _ Hg) as (j' & x' & [= <-] & Hx' & Hy). simpl in Hx'. congruence. Qed.

(** Processing leaves the octets behind the packet alone and does not make it
    longer. *)
Lemma processed_frame ms ok use_mki s s' res :
  tags_within octets_in_rtp_header ms -> 0 <= pkt_octet_len s -> processed ms ok use_mki s s' res ->
  0 <= pkt_octet_len s' <= pkt_octet_len s /\
  forall j, pkt_octet_len s <= j < zlen (pkt s) -> znth (pkt s') j = znth (pkt s) j.
Proof.
  intros Htags Hl (y & r & x & adv & est & delta & k & m & o & mki & start & xo & x' & o' & p' & evs' & res0 &
    _ & _ & Hk & _ & _ & _ & Hop & Hres).
  destruct Hk as (_ & _ & Hm & Hmki & Hrest & _).
  assert (0 <= km_tag m) as Htag by (by eapply Forall_lookup_1 in Htags as [? _]).
  assert (forall j, pkt_octet_len s <= j < zlen (pkt s) -> znth p' j = znth (pkt s) j) as Hb.
  { intros j Hj. apply (op_beyond _ _ _ _ _ _ _ _ _ _ _ _ _ _ _ _ _ Hop). lia. }
  destruct res0 as [|v]; [destruct Hres as [-> _]|destruct Hres as (c' & res1 & _ & _ & ->)].
  - split; [simpl; lia|done].
  - destruct res1; (split; [simpl; lia|done]).
Qed.

Lemma processed_long ms ok use_mki s s' res :
  Forall is_u8 (pkt s) -> pkt_octet_len s <= zlen (pkt s) -> processed ms ok use_mki s s' res ->
  srtp_validate_rtp_header (pkt s) (pkt_octet_len s) = Some srtp_err_status_ok /\ 12 <= pkt_octet_len s.
Proof.
  intros HF Hz (y & r & x & adv & est & delta & k & m & o & mki & start & xo & x' & o' & p' & evs' & res0 &
    _ & _ & _ & _ & Ep & Hs & _).
  destruct (enc_portion_inside (pkt s) start xo HF Ep) as (H12 & _); [lia|]. split; [|lia].
  destruct (validate_portion (pkt s) (pkt_octet_len s) HF) as (st & -> & _ & Hiff); [lia|]. f_equal. apply Hiff.
  by exists start, xo.
Qed.

(** A packet that was accepted is known. *)
Lemma processed_known ms ok use_mki s s' :
  ses_ok ms (ses s) -> Forall is_u8 (pkt s) -> 12 <= zlen (pkt s) -> no_pending (ses s) ->
  processed ms ok use_mki s s' (inr tt) ->
  exists y, hdr_ssrc (pkt s) = Some y /\ knows (ses s') y (wire16 (pkt s) 2).
Proof.
  intros Hses HF Hz Hnp (y & r & x & adv & est & delta & k & m & o & mki & start & xo & x' & o' & p' & evs' & res0 &
    Hy & Hin & Hk & Ho & Ep & Hs & Hop & Hres).
  exists y. split; [done|]. destruct (hdr_seq_Some (pkt s) HF Hz) as [_ Hu].
  destruct res0 as [|v]; [by destruct Hres|]. destruct Hres as (c' & res1 & Hset & <- & ->).
  destruct (op_dir _ _ _ _ _ _ _ _ _ _ _ _ _ _ _ _ _ Hop) as [d ->]. cbn [ses with_len with_ses].
  destruct Hin as (Hx & _ & Hin). pose proof (ses_ok_stream _ _ _ _ Hses Hx) as Hwf.
  destruct r as [j|]; unfold settled in Hset.
  - destruct Hset as (_ & x2 & -> & _ & Hrx). destruct Hin as (Hg & Hchk & Hix).
    assert (pending_roc x = 0) as Hp0 by (by eapply Forall_lookup_1 in Hnp).
    destruct (Hix Hp0) as [-> Hest]. destruct (Hchk eq_refl) as [Hd _]. destruct (Hrx eq_refl) as (rx & Ea & ->).
    destruct (rdbx_added_replays (rtp_rdbx x) (wire16 (pkt s) 2) est delta rx) as (est' & delta' & E1 & E2); try done;
      [apply Hwf|].
    exists (InList j), (with_rdbx (with_direction x d) rx), est', delta'. split_and!; try done.
    + apply (set_stream_get _ _ (with_direction x d)); [|by apply stream_at_focus|done]. unfold focus. cbn [ses].
      rewrite with_store_get. by apply (set_stream_get _ _ x).
    + simpl. apply list_lookup_insert_eq. rewrite length_insert. by eapply lookup_lt_Some.
  - destruct Hset as (_ & new & rx & -> & Hw & Ea & Hny & _ & _ & _ & _ & Hp0 & Hi0 & _).
    destruct Hin as (_ & _ & _ & ->).
    assert (exists e, srtp_rdbx_estimate_index (rtp_rdbx new) (wire16 (pkt s) 2) = (e, wire16 (pkt s) 2)) as [e He].
    { unfold srtp_rdbx_estimate_index. rewrite Hi0. change (seq_num_median <? 0) with false. eexists. f_equal.
      change (u16 0) with 0. lia. }
    pose proof (bitvector_ok_length _ (proj1 (sw_rdbx _ _ Hw))) as Hbl. unfold fits in Hu.
    destruct (rdbx_added_replays (rtp_rdbx new) (wire16 (pkt s) 2) e (wire16 (pkt s) 2) rx) as (est' & delta' & E1 & E2); try done;
      [apply Hw|unfold rdbx_width; lia|].
    exists (InList 0), (with_rdbx new rx), est', delta'. split_and!; try done.
    unfold srtp_get_stream. simpl. by rewrite decide_True by done.
Qed.

(** A known packet is refused. *)
Lemma known_refused ms addr ok use_mki s y :
  ses_ok ms (ses s) -> packet_in addr (pkt s) (pkt_octet_len s) ->
  srtp_validate_rtp_header (pkt s) (pkt_octet_len s) = Some srtp_err_status_ok ->
  hdr_ssrc (pkt s) = Some y -> knows (ses s) y (wire16 (pkt s) 2) ->
  srtp_unprotect_mki addr ok use_mki s = Some (s, inl srtp_err_status_replay_fail).
Proof.
  intros Hses [HF Hl Hz _] Hv Hy (r & x & est & delta & Hg & Hx & Hp0 & He & Hc).
  destruct (validate_portion (pkt s) (pkt_octet_len s) HF ltac:(lia)) as (st & Ev & _ & Hiff). rewrite Hv in Ev.
  injection Ev as <-. destruct (proj1 Hiff eq_refl) as (start & xo & Ep & Hs).
  destruct (enc_portion_inside (pkt s) start xo HF Ep) as (H12 & _); [lia|].
  unfold srtp_unprotect_mki. autorewrite with prog. rewrite Hv. autorewrite with prog. unfold octets_in_rtp_header.
  rewrite (proj2 (Z.ltb_ge _ _)) by lia. unfold preturn_if at 1. autorewrite with prog. rewrite Hy. autorewrite with prog.
  unfold inbound_stream. autorewrite with prog. rewrite Hg.
  unfold get_strm. autorewrite with prog. rewrite (bind_ok _ _ s s x) by (by rewrite Hx).
  unfold srtp_get_est_pkt_index. destruct (hdr_seq_Some (pkt s) HF ltac:(lia)) as [-> _]. cbn [mbind option_bind].
  rewrite Hp0, He. change (negb (0 =? 0)) with false. cbv iota. autorewrite with prog. cbv beta iota.
  change (bool_decide (srtp_err_status_ok = srtp_err_status_pkt_idx_adv)) with false.
  cbn [is_err bool_decide decide negb andb]. autorewrite with prog. rewrite Hc. done.
Qed.

(** ** Fresh sessions *)

(** The first index of an empty database. *)
Lemma fresh_index x seq :
  rdbx_ok (rtp_rdbx x) -> empty_rdbx x -> is_u16 seq ->
  srtp_rdbx_estimate_index (rtp_rdbx x) seq = (seq, seq) /\ srtp_rdbx_check (rtp_rdbx x) seq = Some srtp_err_status_ok.
Proof.
  intros Hok [Hi0 Hem] Hs. unfold fits in Hs. split.
  - unfold srtp_rdbx_estimate_index. rewrite Hi0. change (seq_num_median <? 0) with false. f_equal. change (u16 0) with 0. lia.
  - destruct (rdbx_check_spec (rtp_rdbx x) seq Hok) as (st & E & Hst).
    { unfold rdbx_dom, fits. rewrite Hi0. lia. }
    unfold rdbx_check_at in E. rewrite Hi0, Z.sub_0_r in E. rewrite E. f_equal. apply Hst. split; [|apply Hem].
    pose proof (bitvector_ok_length _ (proj1 Hok)). unfold rdbx_width. lia.
Qed.

Section Kernel.
Context (kernel : srtp_crypto_kernel_t) (Hkernel : kernel_ready kernel).

(** Two policies for the ends of one stream. *)
Definition same_crypto (p q : srtp_policy_t) : Prop :=
  pol_rtp q = pol_rtp p /\ pol_rtcp q = pol_rtcp p /\ pol_key q = pol_key p /\ pol_keys q = pol_keys p /\
  pol_enc_xtn_hdr q = pol_enc_xtn_hdr p.

Lemma same_crypto_alloc ok p q : same_crypto p q -> srtp_stream_alloc kernel ok q = srtp_stream_alloc kernel ok p.
Proof. destruct p, q. intros (A & B & C & D & E). simpl in *. by subst. Qed.

Lemma same_crypto_mats p q l : same_crypto p q -> policy_mats q l = policy_mats p l.
Proof. destruct p, q. intros (A & B & C & D & E). simpl in *. by subst. Qed.

(** The first key of a new session. *)
Lemma added_first_key p ms c x :
  policy_ok p -> stream_added kernel p [] empty_ctx ms c x ->
  exists l k m o, srtp_stream_alloc kernel (fun _ => true) p = inr l /\ ms = policy_mats p l /\
    Forall (objs_of kernel p) l /\ aget (session_keys x) 0 = Some k /\ objs k = 0%nat /\ policy_mats p l !! 0%nat = Some m /\
    key_store c !! 0%nat = Some o /\ objs_ok m o /\
    snd (srtp_key_limit_update (limit o)) = srtp_key_event_normal /\ km_tag m = auth_tag_len (pol_rtp p).
Proof.
  intros Hp [(l & El & Ems & Hll) Hok Hnew Hkeys Hlim _]. simpl in Ems.
  destruct (stream_alloc_spec kernel Hkernel _ _ _ Hp El) as (_ & Hof & _ & Hne).
  destruct (first_key _ _ (sn_wf _ _ _ Hnew)) as (k & Ek & Hkw & Hin).
  assert (session_keys x !! 0%nat = Some k) as Ek0 by done.
  pose proof (Hkeys 0%nat k Ek0) as Hob. simpl in Hob.
  destruct (ses_ok_objs ms c 0%nat k Hok Hkw) as (m & o & Hm & Ho & Hoo); [done|].
  exists l, k, m, o. rewrite <- Ems. split_and!; try done.
  - by rewrite (Hlim 0%nat o ltac:(simpl; lia) Ho).
  - rewrite Ems in Hm. by eapply policy_mats_tag.
Qed.

(** The policy serves the SSRC [y] (as it is in memory) when sending, and when
    receiving. *)
Definition serves (ty : srtp_ssrc_type_t) (p : srtp_policy_t) (y : Z) : Prop :=
  ssrc_type (pol_ssrc p) = ty \/ ssrc_type (pol_ssrc p) = ssrc_specific /\ htonl (ssrc_value (pol_ssrc p)) = y.

(** The stream that a new session sends with. *)
Lemma added_outbound p ms c x0 y :
  stream_added kernel p [] empty_ctx ms c x0 -> serves ssrc_any_outbound p y ->
  (exists x, outbound_at c y x) /\
  forall x, outbound_at c y x -> session_keys x = session_keys x0 /\ rtp_services x = sec_serv (pol_rtp p) /\
    enc_xtn_hdr x = pol_enc_xtn_hdr p /\ pending_roc x = 0 /\ rdbx_ok (rtp_rdbx x) /\ empty_rdbx x.
Proof.
  intros [_ Hok [Hwf Hss Hsv _ Hids Hroc _ Hem _] _ _ Hst] Hserve. destruct Hserve as [Hty|[Hty Hy]]; rewrite Hty in Hst.
  - destruct Hst as (Hsl & Htm & _). simpl in Hsl.
    assert (srtp_get_stream c y = None) as Hg by (unfold srtp_get_stream; by rewrite Hsl). split.
    + destruct (clone_spec (fun _ => true) ms _ y (so_template _ _ Hok _ Htm)) as (st & new & _ & Hall & Hn).
      destruct Hall as [x ->]; [done|].
      destruct Hn as (_ & Hw & Hxy & Hk & Hs & He & _ & Hp & _ & Hemp). exists x. split; [done|]. split; [apply Hw|].
      right. split; [done|]. eexists. by split_and!.
    + intros x (_ & Hrx & [(r & Hr & _)|(_ & t & Ht & Hk & Hs & He & Hp & Hemp)]); [congruence|].
      rewrite Htm in Ht. simplify_eq. simpl in Hk, Hs, He. split_and!; try done; congruence.
  - destruct Hst as (Hsl & _). simpl in Hsl.
    assert (srtp_get_stream c y = Some (InList 0)) as Hg.
    { unfold srtp_get_stream. rewrite Hsl. simpl. by rewrite decide_True by congruence. }
    assert (stream_at c (InList 0) = Some x0) as Hx0 by (simpl; by rewrite Hsl). split.
    + exists x0. split; [congruence|]. split; [apply Hwf|]. left. by exists (InList 0).
    + intros x (_ & Hrx & [(r & Hr & Hx)|(Hr & _)]); [|congruence]. rewrite Hg in Hr. injection Hr as <-.
      rewrite Hx0 in Hx. injection Hx as <-. by split_and!.
Qed.

(** A new session receives the first packet of the other end. *)
Lemma added_receives p ms c x0 y q m k o :
  stream_added kernel p [] empty_ctx ms c x0 -> serves ssrc_any_inbound p y -> Forall is_u8 q -> 12 <= zlen q ->
  aget (session_keys x0) 0 = Some k -> ms !! objs k = Some m -> key_store c !! objs k = Some o ->
  snd (srtp_key_limit_update (limit o)) = srtp_key_event_normal ->
  receives ms c y q m (sec_serv (pol_rtp p)) (pol_enc_xtn_hdr p) (wire16 q 2).
Proof.
  intros [_ Hok [Hwf Hss Hsv _ Hids Hroc _ Hem _] _ _ Hst] Hserve HF Hz Hk Hm Ho Hlim.
  destruct (hdr_seq_Some q HF Hz) as [_ Hu]. assert (fits 48 (wire16 q 2)) as Hf by (unfold fits in *; lia).
  destruct Hserve as [Hty|[Hty Hy]]; rewrite Hty in Hst.
  - destruct Hst as (Hsl & Htm & _). simpl in Hsl.
    exists Template, (with_direction x0 dir_srtp_receiver), (wire16 q 2), k, o. split_and!; try done; [|congruence].
    unfold inbound_at. split_and!; try done. unfold srtp_get_stream. by rewrite Hsl.
  - destruct Hst as (Hsl & _). simpl in Hsl. destruct (fresh_index x0 (wire16 q 2)) as [He Hc]; [apply Hwf|done|done|].
    exists (InList 0), x0, (wire16 q 2), k, o. split_and!; try done; [|congruence].
    unfold inbound_at. split_and!; try done; [simpl; by rewrite Hsl| |].
    + unfold srtp_get_stream. rewrite Hsl. simpl. by rewrite decide_True by congruence.
    + intros _. pose proof (bitvector_ok_length _ (proj1 (sw_rdbx _ _ Hwf))). unfold rdbx_width, fits in *. split; [lia|done].
Qed.

Lemma added_no_pending p ms c x : stream_added kernel p [] empty_ctx ms c x -> no_pending c.
Proof.
  intros [_ _ Hnew _ _ Hst]. unfold no_pending. destruct (ssrc_type (pol_ssrc p)); destruct Hst as [-> _]; simpl;
    repeat constructor. apply Hnew.
Qed.

(** Extensions are left in the clear: the packet has none or the policy
    encrypts none. *)
Definition plain_extension (p : srtp_policy_t) (packet : list Z) : Prop :=
  pol_enc_xtn_hdr p = [] \/ exists start, enc_portion packet = Some (start, None).

Definition call (c : srtp_ctx_t) (p : list Z) (len : Z) : pstate :=
  {| ses := c; pkt := p; pkt_octet_len := len; events := [] |}.

(** What the first packet of a new session has to meet. *)
Record first_packet (p : srtp_policy_t) (y addr : Z) (packet : list Z) (len : Z) : Prop := {
  fp_room : packet_room addr packet len;
  fp_len : len <= 65534;
  fp_valid : srtp_validate_rtp_header packet len = Some srtp_err_status_ok;
  fp_ssrc : hdr_ssrc packet = Some y;
  fp_extension : plain_extension p packet
}.

Lemma first_packet_start p y addr packet len start xo :
  first_packet p y addr packet len -> enc_portion packet = Some (start, xo) -> 12 <= start <= len.
Proof.
  intros [[HF Hl Htr _] _ Hv _ _] Ep. unfold SRTP_MAX_TRAILER_LEN, SRTP_MAX_TAG_LEN, SRTP_MAX_MKI_LEN in Htr.
  destruct (validate_portion packet len HF ltac:(lia)) as (st & Ev & _ & Hiff). rewrite Hv in Ev. injection Ev as <-.
  destruct (proj1 Hiff eq_refl) as (start' & xo' & Ep' & Hs). rewrite Ep in Ep'. injection Ep' as <- <-.
  destruct (enc_portion_inside packet start xo HF Ep); lia.
Qed.

(** A new session can send its first packet. *)
Lemma created_can_send p ms c x0 y addr packet len :
  policy_ok p -> stream_added kernel p [] empty_ctx ms c x0 -> serves ssrc_any_outbound p y ->
  first_packet p y addr packet len -> 0 <= auth_tag_len (pol_rtp p) <= SRTP_MAX_TAG_LEN ->
  tags_within SRTP_MAX_TAG_LEN ms /\ (exists x, outbound_at c y x) /\
  exists k m o, aget (session_keys x0) 0 = Some k /\ ms !! objs k = Some m /\ key_store c !! objs k = Some o /\
    forall x, outbound_at c y x -> srtp_get_session_keys_with_mki_index x false 0 = Some k /\
      rtp_services x = sec_serv (pol_rtp p) /\ enc_xtn_hdr x = pol_enc_xtn_hdr p /\
      can_send m o x y packet len (wire16 packet 2) (wire16 packet 2).
Proof.
  intros Hp Hadd Hserve Hfp Htag. pose proof Hfp as [Hroom Hlen Hv Hy Hplain].
  destruct (added_first_key _ _ _ _ Hp Hadd) as (l & k & m & o & El & Ems & Hof & Hk & Hob & Hm & Ho & Hoo & Hlim & Hmt).
  destruct (added_outbound _ _ _ _ _ Hadd Hserve) as [Hex Hall]. pose proof Hroom as [HF Hl Htr _].
  unfold SRTP_MAX_TRAILER_LEN, SRTP_MAX_TAG_LEN, SRTP_MAX_MKI_LEN in *.
  destruct (hdr_seq_Some packet HF ltac:(lia)) as [_ Hu].
  assert (0 <= prefix_of m <= 16) as Hpre by (unfold prefix_of, prefix_length; destruct (km_auth m); lia).
  split.
  { apply Forall_lookup. intros j m' Hm'. rewrite Ems in Hm'. by rewrite (policy_mats_tag _ _ _ _ _ Hof Hm'). }
  split; [done|]. exists k, m, o. rewrite Hob, Ems. split_and!; try done. intros x Hx.
  destruct (Hall x Hx) as (Hks & Hsv & Hids & Hroc & Hrx & Hem).
  destruct (fresh_index x (wire16 packet 2) Hrx Hem Hu) as [He Hc].
  unfold srtp_get_session_keys_with_mki_index. rewrite Hks. split_and!; try done. split; try done.
  - by rewrite Hlim.
  - intros _. eapply created_room; try done; lia.
  - intros start xo _ Ep. pose proof (first_packet_start _ _ _ _ _ _ _ Hfp Ep). split.
    + eapply created_room; try done; [unfold payload_pos; destruct (has_auth _); lia|lia].
    + destruct Hplain as [Hx0|(st & Ep')]; [right|left; congruence].
      eapply policy_mats_plain; [by eapply stream_alloc_plain|done].
Qed.

(** A new session sends its first packet. *)
Lemma created_protects p ms c x0 y addr packet len :
  policy_ok p -> stream_added kernel p [] empty_ctx ms c x0 -> serves ssrc_any_outbound p y ->
  first_packet p y addr packet len -> 0 <= auth_tag_len (pol_rtp p) <= SRTP_MAX_TAG_LEN ->
  exists k m s', aget (session_keys x0) 0 = Some k /\ ms !! objs k = Some m /\
    srtp_protect addr (fun _ => true) (call c packet len) = Some (s', inr tt) /\ ses_ok ms (ses s') /\
    Forall is_u8 (pkt s') /\ zlen (pkt s') = zlen packet /\
    sealed m (sec_serv (pol_rtp p)) (pol_enc_xtn_hdr p) [] y (wire16 packet 2) packet len (pkt s') (pkt_octet_len s').
Proof.
  intros Hp Hadd Hserve Hfp Htag. pose proof Hfp as [Hroom _ Hv Hy _].
  destruct (created_can_send _ _ _ _ _ _ _ _ Hp Hadd Hserve Hfp Htag) as (Htags & [x0' Hx0'] & k & m & o & Hk & Hm & Ho & Hcan).
  destruct (srtp_protect_run ms addr (fun _ => true) false 0 (call c packet len)) as (s' & res & E & Hok & Hz & HF' & _ & HS & HC);
    [apply Hadd|done|done|]. cbn [pkt ses pkt_octet_len call] in *.
  assert (res = inr tt) as ->.
  { apply HC; try done. split; [by exists y, x0'|]. cbn [pkt ses pkt_octet_len call]. intros y' x Hy' Hx. rewrite Hy in Hy'. injection Hy' as <-.
    destruct (Hcan x Hx) as (Hkx & _ & _ & Hcs). by exists k, m, o, (wire16 packet 2), (wire16 packet 2). }
  destruct (HS eq_refl) as (_ & y' & x & k' & m' & est & Hy' & Hx & _ & Hk' & Hm' & Hsl & r & x' & _ & _ & _ & Hrec & _).
  cbn [pkt ses pkt_octet_len call] in *. rewrite Hy in Hy'. injection Hy' as <-. destruct (Hcan x Hx) as (Hkx & Hsv & Hids & [_ Hroc He _ _ _]).
  rewrite Hkx in Hk'. injection Hk' as <-. rewrite Hm in Hm'. injection Hm' as <-.
  destruct (Hrec Hroc) as (delta & rx & He' & _). rewrite He in He'. injection He' as <- <-. rewrite Hsv, Hids in Hsl.
  exists k, m, s'. split_and!; done.
Qed.

End Kernel.
End Lemmas.

Section Linked.
Context `{BC : BlockCipher} `{LV : Locals}.

(** A sender and a receiver that are set up for each other. *)
Record linked (kernel : srtp_crypto_kernel_t) (p q : srtp_policy_t) (y : Z) : Prop := {
  li_sender : policy_ok p /\ usable kernel p /\ serves ssrc_any_outbound p y;
  li_receiver : policy_ok q /\ usable kernel q /\ serves ssrc_any_inbound q y;
  li_crypto : same_crypto p q;
  li_tag : 0 <= auth_tag_len (pol_rtp p) <= octets_in_rtp_header;
  li_auth : has_auth (sec_serv (pol_rtp p)) = true \/ auth_tag_len (pol_rtp p) = 0
}.

(** What the first packet of a linked pair goes through: sessions [c] and [d]
    with key material [ms] and [ms'], the session key [m] of both, the protected
    packet in [s] and the received one in [r]. *)
Record first_run (kernel : srtp_crypto_kernel_t) (p q : srtp_policy_t) (y addr : Z) (packet : list Z) (len : Z)
    (c d : srtp_ctx_t) (ms ms' : list keymat) (m : keymat) (s r : pstate) : Prop := {
  fr_sender : srtp_create kernel true [all_allocs] [p] = Some (srtp_err_status_ok, Some c) /\ ses_ok ms c;
  fr_receiver : srtp_create kernel true [all_allocs] [q] = Some (srtp_err_status_ok, Some d) /\ ses_ok ms' d;
  fr_tags : tags_within octets_in_rtp_header ms' /\ km_tag m = auth_tag_len (pol_rtp p);
  fr_pending : no_pending d;
  fr_protect : srtp_protect addr (fun _ => true) (call c packet len) = Some (s, inr tt);
  fr_sealed : sealed m (sec_serv (pol_rtp p)) (pol_enc_xtn_hdr p) [] y (wire16 packet 2) packet len (pkt s) (pkt_octet_len s);
  fr_packet : packet_in addr (pkt s) (pkt_octet_len s);
  fr_receives : receives ms' d y (pkt s) m (sec_serv (pol_rtp p)) (pol_enc_xtn_hdr p) (wire16 packet 2);
  fr_unprotect : srtp_unprotect addr (fun _ => true) (call d (pkt s) (pkt_octet_len s)) = Some (r, inr tt);
  fr_restored : pkt_octet_len r = len /\ take (Z.to_nat len) (pkt r) = take (Z.to_nat len) packet;
  fr_ok : ses_ok ms' (ses r);
  fr_processed : processed ms' (fun _ => true) false (call d (pkt s) (pkt_octet_len s)) r (inr tt);
  fr_header : srtp_validate_rtp_header (pkt s) (pkt_octet_len s) = Some srtp_err_status_ok /\ 12 <= zlen (pkt s) /\
    12 <= len /\ hdr_ssrc (pkt s) = Some y;
  fr_outbound : tags_within SRTP_MAX_TAG_LEN ms /\ exists k, ms !! objs k = Some m /\
    forall x, outbound_at c y x -> aget (session_keys x) 0 = Some k /\ rtp_services x = sec_serv (pol_rtp p) /\
      enc_xtn_hdr x = pol_enc_xtn_hdr p /\ pending_roc x = 0 /\
      srtp_rdbx_estimate_index (rtp_rdbx x) (wire16 packet 2) = (wire16 packet 2, wire16 packet 2)
}.

Lemma linked_run kernel p q y addr packet len :
  kernel_ready kernel -> linked kernel p q y -> first_packet p y addr packet len ->
  exists c d ms ms' m s r, first_run kernel p q y addr packet len c d ms ms' m s r.
Proof.
  intros Hker [(Hp & Hup & Hsp) (Hq & Huq & Hsq) Hsame Htag Hauth] Hfp. pose proof Hfp as [Hroom Hlen Hv Hy Hplain].
  destruct (create_one_run kernel Hker all_allocs p Hp) as (st1 & c & Ec & Hc & Hcs).
  destruct (Hcs eq_refl Hup) as [c' ->]. destruct Hc as (-> & ms & x & Hadd).
  destruct (create_one_run kernel Hker all_allocs q Hq) as (st2 & d & Ed & Hd & Hds).
  destruct (Hds eq_refl Huq) as [d' ->]. destruct Hd as (-> & ms' & x' & Hadd').
  pose proof Hroom as [HF Hl Htr [Ha0 Ha]]. unfold SRTP_MAX_TRAILER_LEN, SRTP_MAX_TAG_LEN, SRTP_MAX_MKI_LEN in Htr.
  unfold octets_in_rtp_header in Htag.
  destruct (created_protects kernel Hker p ms c' x y addr packet len) as (k & m & s & Hk & Hm & Es & _ & HFs & Hzs & Hsl);
    try done; [unfold SRTP_MAX_TAG_LEN; lia|].
  destruct (created_can_send kernel Hker p ms c' x y addr packet len) as (Htags & _ & k3 & m3 & o3 & Hk3 & _ & _ & Hcan);
    try done; [unfold SRTP_MAX_TAG_LEN; lia|]. rewrite Hk in Hk3. injection Hk3 as <-.
  (* the receiver has the same key *)
  destruct (added_first_key kernel Hker _ _ _ _ Hp Hadd) as (l & k1 & m1 & o1 & El & Ems & Hof & Hk1 & Hob & Hm1 & _ & _ & _ & Hmt).
  rewrite Hk in Hk1. injection Hk1 as <-. rewrite Ems, Hob in Hm. rewrite Hm1 in Hm. injection Hm as <-.
  destruct (added_first_key kernel Hker _ _ _ _ Hq Hadd') as (l' & k2 & m2 & o2 & El' & Ems' & Hof' & Hk2 & Hob2 & Hm2 & Ho2 & _ & Hlim2 & _).
  rewrite (same_crypto_alloc _ _ _ _ Hsame), El in El'. injection El' as <-. rewrite (same_crypto_mats _ _ _ Hsame) in *.
  rewrite Hm1 in Hm2. injection Hm2 as <-. destruct Hsame as (Hrtp & _ & _ & _ & Hids).
  assert (pkt_octet_len s = len + tag_octets m1 (sec_serv (pol_rtp p)) + 0) as Hls by apply Hsl.
  assert (0 <= tag_octets m1 (sec_serv (pol_rtp p)) <= 12) as Hto by (unfold tag_octets; destruct (has_auth _); lia).
  destruct (validate_portion packet len HF ltac:(lia)) as (st & Ev & _ & Hiff). rewrite Hv in Ev. injection Ev as <-.
  destruct (proj1 Hiff eq_refl) as (start & xo & Ep & Hst).
  destruct (enc_portion_inside packet start xo HF Ep) as (H12 & _); [lia|].
  destruct (sealed_header _ _ _ _ _ _ _ _ _ _ start xo Hsl) as [_ A12]; try done; try lia.
  assert (packet_in addr (pkt s) (pkt_octet_len s)) as Hpin by (split; [done|lia|lia|rewrite Hzs; lia]).
  assert (tags_within octets_in_rtp_header ms') as Htags'.
  { apply Forall_lookup. intros j m' Hm'. rewrite Ems' in Hm'. by rewrite (policy_mats_tag _ _ _ _ _ Hof Hm'). }
  assert (receives ms' d' y (pkt s) m1 (sec_serv (pol_rtp p)) (pol_enc_xtn_hdr p) (wire16 packet 2)) as Hrecv.
  { replace (wire16 packet 2) with (wire16 (pkt s) 2) by (apply wire16_same; intros; apply A12; lia).
    rewrite <- Hrtp, <- Hids. apply (added_receives kernel q ms' d' x' y (pkt s) m1 k2 o2); try done; [lia| |];
      rewrite Hob2; [by rewrite Ems'|done]. }
  destruct (sealed_unprotect ms' addr (fun _ => true) m1 (sec_serv (pol_rtp p)) (pol_enc_xtn_hdr p) y (wire16 packet 2) packet
    len (call d' (pkt s) (pkt_octet_len s))) as (r & Er & Hlr & Hpr); try done; try lia; [apply Hadd'|by rewrite Hmt|].
  destruct (srtp_unprotect_run ms' addr (fun _ => true) false (call d' (pkt s) (pkt_octet_len s))) as
    (r1 & res & E1 & Hok1 & _ & _ & Hout); [apply Hadd'|done|done|].
  unfold srtp_unprotect in Er. rewrite Er in E1. injection E1 as <- <-.
  destruct Hout as [(_ & [st' Hst'] & _)|Hout]; [done|].
  destruct (processed_long ms' _ _ (call d' (pkt s) (pkt_octet_len s)) _ _ HFs (pi_zlen _ _ _ Hpin) Hout) as [Hvs _].
  exists c', d', ms, ms', m1, s, r. split; try done; [split; [done|apply Hadd]|split; [done|apply Hadd']|..].
  - by eapply added_no_pending.
  - split_and!; [done|lia|lia|]. rewrite <- Hy. apply hdr_ssrc_same; try done; lia.
  - split; [done|]. exists k. rewrite Hob, Ems. split; [done|]. intros x1 Hx1.
    destruct (Hcan x1 Hx1) as (Hkx & Hsvx & Hidx & [_ Hroc He _ _ _]). by split_and!.
Qed.

(** Changing the first octet of the tag makes a packet that does not verify. *)
Lemma tampered_tag kernel p q y addr packet len c d ms ms' m s r :
  first_run kernel p q y addr packet len c d ms ms' m s r -> has_auth (sec_serv (pol_rtp p)) = true -> 0 < km_tag m ->
  exists bad, bad <> pkt s /\ packet_in addr bad (pkt_octet_len s) /\
    forall y r x adv est delta k m mki, hdr_ssrc bad = Some y -> inbound_at d y bad r x adv est delta ->
      keys_at ms' false x bad (pkt_octet_len s) k m mki ->
      ~ tag_verifies m (rtp_services x) (packet_iv (km_id m) y est) est bad (pkt_octet_len s)
          (pkt_octet_len s - km_tag m - mki).
Proof.
  intros [_ [_ Hd] [Htags _] _ Es Hsl Hpin Hrecv Eu _ _ Hpr (Hvs & H12 & Hln & Hy) _] Hau Htag.
  pose proof (sl_len _ _ _ _ _ _ _ _ _ _ Hsl) as Hlen. change (zlen []) with 0 in Hlen.
  unfold tag_octets in Hlen. rewrite Hau in Hlen. pose proof Hpin as [HF Hl Hz Ha].
  destruct Hrecv as (r0 & x0 & delta0 & k0 & o0 & Hin0 & Hp0 & Hk0 & Hm0 & _ & _ & Hsv0 & _).
  set (v := (znth (pkt s) len + 1) mod 256). set (bad := <[Z.to_nat len := v]> (pkt s)).
  assert (v <> znth (pkt s) len) as Hv.
  { unfold v. pose proof (znth_Forall is_u8 (pkt s) len HF ltac:(lia)) as Hb. unfold fits in Hb. lia. }
  assert (znth bad len = v) as Hbv by (unfold bad; rewrite znth_insert by lia; by rewrite decide_True by done).
  assert (forall j, 0 <= j < zlen (pkt s) -> j <> len -> znth bad j = znth (pkt s) j) as Hbj.
  { intros j Hj Hne. unfold bad. rewrite znth_insert by lia. by rewrite decide_False by lia. }
  assert (zlen bad = zlen (pkt s)) as Hbz by apply zlen_insert.
  assert (Forall is_u8 bad) as HFb by (apply Forall_insert; [exact HF|unfold v, fits; lia]).
  exists bad. split; [intros Heq; by rewrite <- Heq, Hbv in Hv|]. split; [split; rewrite ?Hbz; done|].
  intros y1 r1 x1 adv est1 delta1 k1 m1 mki Hy1 Hin1 (_ & _ & Hm1 & _ & _ & -> & Hk1) Hver.
  assert (hdr_ssrc bad = hdr_ssrc (pkt s)) as Eb by (apply hdr_ssrc_same; try done; try lia; intros; apply Hbj; lia).
  rewrite Eb, Hy in Hy1. injection Hy1 as <-.
  assert (wire16 bad 2 = wire16 (pkt s) 2) as Eq by (apply wire16_same; intros; apply Hbj; lia).
  assert (inbound_at d y bad r0 x0 false (wire16 packet 2) delta0) as Hin0' by (unfold inbound_at in *; by rewrite Eq).
  destruct (inbound_at_unique _ _ _ _ _ _ _ _ _ _ _ _ Hin1 Hin0' Hp0) as (-> & -> & <- & ->).
  rewrite Hk0 in Hk1. injection Hk1 as <-. rewrite Hm0 in Hm1. injection Hm1 as <-. rewrite Hsv0 in Hver.
  specialize (Hver Hau). destruct (sl_tag _ _ _ _ _ _ _ _ _ _ Hsl Hau) as [_ Ht]. change (zlen []) with 0 in Ht.
  rewrite Z.sub_0_r, Z.add_0_r in *. replace (pkt_octet_len s - km_tag m) with len in * by lia.
  replace (take (Z.to_nat len) bad) with (take (Z.to_nat len) (pkt s)) in Hver
    by (apply prefix_ext; try lia; intros; symmetry; apply Hbj; lia).
  rewrite <- Ht in Hver. apply Hv. rewrite <- Hbv. apply (f_equal (fun l => znth l 0)) in Hver.
  rewrite !znth_take, !znth_drop in Hver by lia. by rewrite Z.add_0_r in Hver.
Qed.

End Linked.

Section Properties.
Context `{BC : BlockCipher} `{LV : Locals}.

(** ** Receiving *)

(** C6: Memory safety of the receiver.  On a session whose keys are
    initialised, [srtp_unprotect_mki] is defined for every packet an attacker
    can send: it returns with a status, stays within the packet, keeps the
    octets behind it and the invariant of the session, and never makes the
    packet longer. *)
Theorem srtp_unprotect_safe ms addr ok use_mki s :
  ses_ok ms (ses s) -> packet_in addr (pkt s) (pkt_octet_len s) -> tags_within octets_in_rtp_header ms ->
  exists s' res, srtp_unprotect_mki addr ok use_mki s = Some (s', res) /\ ses_ok ms (ses s') /\
    packet_in addr (pkt s') (pkt_octet_len s') /\ zlen (pkt s') = zlen (pkt s) /\
    pkt_octet_len s' <= pkt_octet_len s /\
    forall j, pkt_octet_len s <= j < zlen (pkt s) -> znth (pkt s') j = znth (pkt s) j.
Proof.
  intros Hses Hpkt Htags. pose proof Hpkt as [HF Hl Hz Ha].
  destruct (srtp_unprotect_run ms addr ok use_mki s Hses Hpkt Htags) as (s' & res & E & Hok & Hz' & HF' & Hout).
  exists s', res. split; [done|]. split; [done|].
  assert (0 <= pkt_octet_len s' <= pkt_octet_len s /\
    forall j, pkt_octet_len s <= j < zlen (pkt s) -> znth (pkt s') j = znth (pkt s) j) as [Hl' Hb].
  { destruct Hout as [(-> & _)|Hout]; [split; [lia|done]|]. eapply processed_frame; [done|lia|done]. }
  split; [|split_and!; [done|lia|done]]. split; rewrite ?Hz'; done || lia.
Qed.

(** C2: Authenticity.  When [srtp_unprotect_mki] accepts a packet, it has
    found a stream for its SSRC and keys for it, the packet index is new to the
    stream, the tag in the packet is the one computed over the authenticated
    octets and the rollover counter when the stream is authenticated, and the
    packet it returns is the decryption, without tag and key identifier. *)
Theorem srtp_unprotect_authentic ms addr ok use_mki s s' :
  ses_ok ms (ses s) -> packet_in addr (pkt s) (pkt_octet_len s) -> tags_within octets_in_rtp_header ms ->
  srtp_unprotect_mki addr ok use_mki s = Some (s', inr tt) ->
  exists y r x adv est delta k m mki start xo, hdr_ssrc (pkt s) = Some y /\
    inbound_at (ses s) y (pkt s) r x adv est delta /\ keys_at ms use_mki x (pkt s) (pkt_octet_len s) k m mki /\
    pkt_octet_len s' = pkt_octet_len s - km_tag m - mki /\
    tag_verifies m (rtp_services x) (packet_iv (km_id m) y est) est (pkt s) (pkt_octet_len s) (pkt_octet_len s') /\
    enc_portion (pkt s) = Some (start, xo) /\
    body_sealed m (rtp_services x) (packet_iv (km_id m) y est) (enc_xtn_hdr x) xo start (pkt s) (pkt_octet_len s') (pkt s').
Proof.
  intros Hses Hpkt Htags E.
  destruct (srtp_unprotect_run ms addr ok use_mki s Hses Hpkt Htags) as (s1 & res & E1 & _ & _ & _ & Hout).
  rewrite E in E1. injection E1 as <- <-. destruct Hout as [(_ & [st Hst] & _)|Hout]; [done|].
  destruct Hout as (y & r & x & adv & est & delta & k & m & o & mki & start & xo & x' & o' & p' & evs' & res0 &
    Hy & Hin & Hk & _ & Ep & _ & Hop & Hres).
  destruct res0 as [st|v]; [by destruct Hres|]. destruct Hres as (c' & res1 & _ & <- & ->).
  destruct (op_value _ _ _ _ _ _ _ _ _ _ _ _ _ _ _ _ _ Hop v eq_refl) as (_ & Ht & _ & Hb).
  exists y, r, x, adv, est, delta, k, m, mki, start, xo. by split_and!.
Qed.

(** C8: Forgeries leave no trace.  When the tag of a packet does not verify
    under the keys and the index that the receiver takes it for, the call fails,
    and packet, length, streams with their replay databases, template and
    reported events are as before. *)
Theorem srtp_unprotect_forgery ms addr ok use_mki s :
  ses_ok ms (ses s) -> packet_in addr (pkt s) (pkt_octet_len s) -> tags_within octets_in_rtp_header ms ->
  (forall y r x adv est delta k m mki, hdr_ssrc (pkt s) = Some y -> inbound_at (ses s) y (pkt s) r x adv est delta ->
    keys_at ms use_mki x (pkt s) (pkt_octet_len s) k m mki ->
    ~ tag_verifies m (rtp_services x) (packet_iv (km_id m) y est) est (pkt s) (pkt_octet_len s)
        (pkt_octet_len s - km_tag m - mki)) ->
  exists s' st, srtp_unprotect_mki addr ok use_mki s = Some (s', inl st) /\ pkt s' = pkt s /\
    pkt_octet_len s' = pkt_octet_len s /\ stream_list (ses s') = stream_list (ses s) /\
    stream_template (ses s') = stream_template (ses s) /\ events s' = events s.
Proof.
  intros Hses Hpkt Htags Hbad.
  destruct (srtp_unprotect_run ms addr ok use_mki s Hses Hpkt Htags) as (s' & res & E & _ & _ & _ & Hout).
  destruct Hout as [(-> & [st ->] & _)|Hout]; [by exists s, st|].
  destruct Hout as (y & r & x & adv & est & delta & k & m & o & mki & start & xo & x' & o' & p' & evs' & res0 &
    Hy & Hin & Hk & Ho & _ & _ & Hop & Hres).
  destruct (op_forged _ _ _ _ _ _ _ _ _ _ _ _ _ _ _ _ _ Hop) as (-> & -> & -> & _ & st & ->); [by eapply Hbad|].
  destruct Hres as [-> ->]. exists (focus (ses s) r (objs k) (pkt_octet_len s) x o' (pkt s) (events s)), st.
  split; [done|]. unfold focus. cbn [ses pkt pkt_octet_len events]. rewrite set_stream_id by apply Hin. done.
Qed.

(** C3: Replays are refused.  After a packet was accepted, every packet with
    the same SSRC and sequence number presented to the session next is refused
    with [srtp_err_status_replay_fail], and nothing changes. *)
Theorem srtp_unprotect_no_replay ms addr ok use_mki s s' addr2 ok2 use_mki2 s2 :
  ses_ok ms (ses s) -> packet_in addr (pkt s) (pkt_octet_len s) -> tags_within octets_in_rtp_header ms ->
  no_pending (ses s) -> srtp_unprotect_mki addr ok use_mki s = Some (s', inr tt) ->
  ses s2 = ses s' -> packet_in addr2 (pkt s2) (pkt_octet_len s2) ->
  srtp_validate_rtp_header (pkt s2) (pkt_octet_len s2) = Some srtp_err_status_ok ->
  hdr_ssrc (pkt s2) = hdr_ssrc (pkt s) -> wire16 (pkt s2) 2 = wire16 (pkt s) 2 ->
  srtp_unprotect_mki addr2 ok2 use_mki2 s2 = Some (s2, inl srtp_err_status_replay_fail).
Proof.
  intros Hses Hpkt Htags Hnp E Hs2 Hpkt2 Hv2 Hy2 Hq2. pose proof Hpkt as [HF Hl Hz _].
  destruct (srtp_unprotect_run ms addr ok use_mki s Hses Hpkt Htags) as (s1 & res & E1 & Hok & _ & _ & Hout).
  rewrite E in E1. injection E1 as <- <-. destruct Hout as [(_ & [st Hst] & _)|Hout]; [done|].
  assert (12 <= zlen (pkt s)) as H12 by (pose proof (processed_long _ _ _ _ _ _ HF Hz Hout); lia).
  destruct (processed_known ms ok use_mki s s' Hses HF H12 Hnp Hout) as (y & Hy & Hkn).
  apply (known_refused ms addr2 ok2 use_mki2 s2 y); try done; [by rewrite Hs2|congruence|]. by rewrite Hs2, Hq2.
Qed.

(** ** Sending *)

(** C4: The SRTP packet.  On a session whose keys are initialised, with
    the room behind the packet that the API asks for, [srtp_protect_mki] is
    defined and writes nowhere else; when it succeeds, the result is the packet
    that RFC 3711 defines for the header, payload and index, the index comes
    from the sequence number, it is new to the stream unless repetition is
    allowed, and the stream has recorded it.  Its IV is SSRC * 2^64 + index *
    2^16 for counter mode, and the tag covers the rollover counter index / 2^16. *)
Theorem srtp_protect_seals ms addr ok use_mki mki_index s :
  ses_ok ms (ses s) -> packet_room addr (pkt s) (pkt_octet_len s) -> tags_within SRTP_MAX_TAG_LEN ms ->
  exists s' res, srtp_protect_mki addr ok use_mki mki_index s = Some (s', res) /\ ses_ok ms (ses s') /\
    (forall j, pkt_octet_len s + SRTP_MAX_TRAILER_LEN <= j < zlen (pkt s) -> znth (pkt s') j = znth (pkt s) j) /\
    (res = inr tt -> exists y x k m est, hdr_ssrc (pkt s) = Some y /\ outbound_at (ses s) y x /\
       srtp_get_session_keys_with_mki_index x use_mki mki_index = Some k /\ ms !! objs k = Some m /\
       sealed m (rtp_services x) (enc_xtn_hdr x) (mki_octets use_mki k) y est (pkt s) (pkt_octet_len s)
         (pkt s') (pkt_octet_len s') /\
       (km_id m = SRTP_AES_ICM_128 \/ km_id m = SRTP_AES_ICM_192 \/ km_id m = SRTP_AES_ICM_256 ->
        be_value (packet_iv (km_id m) y est) = be_value (take 4 (drop 8 (pkt s))) * 2 ^ 64 + est * 2 ^ 16) /\
       be_value (roc_octets est) = est / 2 ^ 16 /\
       exists r x', srtp_get_stream (ses s') y = Some r /\ stream_at (ses s') r = Some x' /\ recorded x (pkt s) est x').
Proof.
  intros Hses Hpkt Htags.
  destruct (srtp_protect_run ms addr ok use_mki mki_index s Hses Hpkt Htags) as (s' & res & E & Hok & _ & _ & Hb & HS & _).
  exists s', res. split_and!; try done. intros Hr. destruct (HS Hr) as (_ & y & x & k & m & est & A1 & A2 & A0 & A3 & A4 & A5 & q & x' & A6 & A7 & _ & A8 & _).
  pose proof Hpkt as [HF Hl Htr _]. exists y, x, k, m, est. split_and!; try done; [|by apply roc_octets_value|by exists q, x'].
  intros Hid. apply packet_iv_value; try done. unfold SRTP_MAX_TRAILER_LEN, SRTP_MAX_TAG_LEN, SRTP_MAX_MKI_LEN in Htr. lia.
Qed.

(** C9: Sending succeeds.  With a valid header, memory, a stream or a
    template for the SSRC, and a stream that can send the packet (key uses left,
    a new index, key stream enough, no extension to encrypt), [srtp_protect_mki]
    returns ok. *)
Theorem srtp_protect_succeeds ms addr use_mki mki_index s y :
  ses_ok ms (ses s) -> packet_room addr (pkt s) (pkt_octet_len s) -> tags_within SRTP_MAX_TAG_LEN ms ->
  srtp_validate_rtp_header (pkt s) (pkt_octet_len s) = Some srtp_err_status_ok -> hdr_ssrc (pkt s) = Some y ->
  (exists x, outbound_at (ses s) y x) ->
  (forall x, outbound_at (ses s) y x -> exists k m o est delta,
     srtp_get_session_keys_with_mki_index x use_mki mki_index = Some k /\ ms !! objs k = Some m /\
     key_store (ses s) !! objs k = Some o /\ can_send m o x y (pkt s) (pkt_octet_len s) est delta) ->
  exists s', srtp_protect_mki addr (fun _ => true) use_mki mki_index s = Some (s', inr tt) /\ ses_ok ms (ses s').
Proof.
  intros Hses Hpkt Htags Hv Hy [x Hx] Hcan.
  destruct (srtp_protect_run ms addr (fun _ => true) use_mki mki_index s Hses Hpkt Htags)
    as (s' & res & E & Hok & _ & _ & _ & _ & HC).
  exists s'. rewrite E. split; [|done]. rewrite HC; try done. split; [by exists y, x|].
  intros y' x' Hy' Hx'. rewrite Hy in Hy'. injection Hy' as <-. by apply Hcan.
Qed.

(** ** Both ends *)

(** C7: Round trip.  What [srtp_protect] makes of a packet, a receiver with
    the same session key and services that takes it for the index the sender
    used gives back: [srtp_unprotect] succeeds, with the length and the octets of
    the packet that went in, header extensions included.  The receiver needs
    only the octets of the packet.  (The stream is authenticated, or its tag is
    empty.) *)
Theorem srtp_protect_unprotect ms addr ok s s' ms' addr' r :
  ses_ok ms (ses s) -> packet_room addr (pkt s) (pkt_octet_len s) -> tags_within SRTP_MAX_TAG_LEN ms ->
  srtp_protect addr ok s = Some (s', inr tt) ->
  ses_ok ms' (ses r) -> tags_within octets_in_rtp_header ms' -> packet_in addr' (pkt r) (pkt_octet_len r) ->
  pkt_octet_len r = pkt_octet_len s' ->
  (forall j, 0 <= j < pkt_octet_len s' -> znth (pkt r) j = znth (pkt s') j) ->
  (forall y x k m est, hdr_ssrc (pkt s) = Some y -> outbound_at (ses s) y x -> aget (session_keys x) 0 = Some k ->
    ms !! objs k = Some m -> (exists x', recorded x (pkt s) est x') ->
    (has_auth (rtp_services x) = true \/ km_tag m = 0) /\
    receives ms' (ses r) y (pkt r) m (rtp_services x) (enc_xtn_hdr x) est) ->
  exists r', srtp_unprotect addr' (fun _ => true) r = Some (r', inr tt) /\
    pkt_octet_len r' = pkt_octet_len s /\
    take (Z.to_nat (pkt_octet_len s)) (pkt r') = take (Z.to_nat (pkt_octet_len s)) (pkt s).
Proof.
  intros Hses Hpkt Htags E Hses' Htags' Hpkt' Hlen Hsame Hrecv. pose proof Hpkt as [HF Hl Htr _].
  unfold SRTP_MAX_TRAILER_LEN, SRTP_MAX_TAG_LEN, SRTP_MAX_MKI_LEN in Htr, Htags.
  destruct (srtp_protect_run ms addr ok false 0 s Hses Hpkt Htags) as (s1 & res & E1 & _ & Hz & _ & _ & HS & _).
  unfold srtp_protect in E. rewrite E in E1. injection E1 as <- <-.
  destruct (HS eq_refl) as (Hv & y & x & k & m & est & Hy & Hx & _ & Hk & Hm & Hsl & q & x' & _ & _ & _ & Hrec & _).
  destruct (Hrecv y x k m est Hy Hx Hk Hm (ex_intro _ x' Hrec)) as [Hcov Hr]. cbn [mki_octets] in Hsl.
  assert (0 <= km_tag m <= 16) as Htag by (by eapply Forall_lookup_1 in Htags).
  apply (sealed_unprotect ms' addr' (fun _ => true) m (rtp_services x) (enc_xtn_hdr x) y est); try done; try lia.
  rewrite Hlen. eapply sealed_agree; try done; try lia.
  - pose proof (sl_len _ _ _ _ _ _ _ _ _ _ Hsl) as Hsz. change (zlen []) with 0 in Hsz.
    unfold tag_octets in Hsz. rewrite Hz. destruct (has_auth _); lia.
  - rewrite <- Hlen. apply Hpkt'.
  - intros start xo Ep. destruct (validate_portion (pkt s) (pkt_octet_len s) HF ltac:(lia)) as (st & Ev & _ & Hiff).
    rewrite Hv in Ev. injection Ev as <-. destruct (proj1 Hiff eq_refl) as (start' & xo' & Ep' & Hs).
    rewrite Ep in Ep'. injection Ep' as <- <-. destruct (enc_portion_inside (pkt s) start xo HF Ep); lia.
Qed.

(** C1: End to end.  From policies with the same keys, [srtp_create] makes
    a sending and a receiving session; the sender protects its first packet of
    up to 65534 octets, the receiver gets that packet back, and a second copy of
    it is refused as a replay. *)
Theorem srtp_end_to_end kernel p q y addr packet len :
  kernel_ready kernel -> linked kernel p q y -> first_packet p y addr packet len ->
  exists c d s r,
    srtp_create kernel true [all_allocs] [p] = Some (srtp_err_status_ok, Some c) /\
    srtp_create kernel true [all_allocs] [q] = Some (srtp_err_status_ok, Some d) /\
    srtp_protect addr (fun _ => true) (call c packet len) = Some (s, inr tt) /\
    srtp_unprotect addr (fun _ => true) (call d (pkt s) (pkt_octet_len s)) = Some (r, inr tt) /\
    pkt_octet_len r = len /\ take (Z.to_nat len) (pkt r) = take (Z.to_nat len) packet /\
    let again := call (ses r) (pkt s) (pkt_octet_len s) in
    srtp_unprotect addr (fun _ => true) again = Some (again, inl srtp_err_status_replay_fail).
Proof.
  intros Hker Hli Hfp. destruct (linked_run kernel p q y addr packet len Hker Hli Hfp) as (c & d & ms & ms' & m & s & r & HE).
  destruct HE as [[Ec _] [Ed Hd] [_ _] Hnp Ep _ Hpin _ Eu [Hl Ht] Hok Hpr (Hv & H12 & _) _].
  exists c, d, s, r. split_and!; try done. cbv zeta.
  destruct (processed_known ms' (fun _ => true) false (call d (pkt s) (pkt_octet_len s)) r) as (y1 & Hy1 & Hkn);
    try done; [apply Hpin|].
  by apply (known_refused ms' addr (fun _ => true) false _ y1).
Qed.

End Properties.

(** ** An example *)

(** Uninitialised arrays that happen to hold zeroes. *)
#[local, program] Instance example_locals : Locals := {|
  W0 := replicate 80 0; W1 := replicate 80 0; ipad0 := replicate 64 0; keystream0 := replicate 257 0; ks_addr := 0;
  tmp_tag0 := replicate 16 0; tag_addr := 0; key_addr := 0
|}.
Solve Obligations with first [reflexivity | apply Forall_replicate; unfold fits; lia].

(** A kernel whose self tests pass. *)
Definition example_kernel : srtp_crypto_kernel_t := init_in passing_env crypto_kernel.

Lemma example_kernel_ready : kernel_ready example_kernel.
Proof. split; reflexivity. Qed.

(** The default policy with the key and the packet of the library's own
    test. *)
Definition example_key : list Z :=
  [0xe1; 0xf9; 0x7a; 0x0d; 0x3e; 0x01; 0x8b; 0xe0; 0xd6; 0x4f; 0xa3; 0x2c; 0x06; 0xde; 0x41;
   0x39; 0x0e; 0xc6; 0x75; 0xad; 0x49; 0x8a; 0xfe; 0xeb; 0xb6; 0x96; 0x0b; 0x3a; 0xab; 0xe6].

Definition example_policy (ty : srtp_ssrc_type_t) : srtp_policy_t :=
  {| pol_ssrc := {| ssrc_type := ty; ssrc_value := 0xcafebabe |};
     pol_rtp := srtp_crypto_policy_set_rtp_default; pol_rtcp := srtp_crypto_policy_set_rtcp_default;
     pol_key := Some example_key; pol_keys := []; pol_window_size := 128; pol_allow_repeat_tx := 0;
     pol_enc_xtn_hdr := [] |}.

Definition example_packet : list Z :=
  [0x80; 0x0f; 0x12; 0x34; 0xde; 0xca; 0xfb; 0xad; 0xca; 0xfe; 0xba; 0xbe] ++ replicate 16 0xab ++ replicate 144 0.

Lemma example_policy_ok ty : policy_ok (example_policy ty).
Proof.
  split; [by split|by split|..]; simpl.
  - intros mk key ->%list_elem_of_singleton [= <-]. split; [by apply u8_list_dec|done].
  - intros mk ->%list_elem_of_singleton. simpl. split; [done|by constructor].
Qed.

Lemma example_usable ty : ty <> ssrc_undefined -> usable example_kernel (example_policy ty).
Proof.
  intros Hty. split; [done|]. split; [|split; [right; simpl; lia|split; [by left|done]]].
  eexists. reflexivity.
Qed.

Lemma example_room : packet_room 0 example_packet 28.
Proof. split; [by apply u8_list_dec|lia|done|split; [lia|done]]. Qed.

Lemma example_first_packet : first_packet (example_policy ssrc_specific) 0xbebafeca 0 example_packet 28.
Proof. split; [exact example_room|lia|reflexivity|reflexivity|by left]. Qed.

Lemma example_linked : linked example_kernel (example_policy ssrc_specific) (example_policy ssrc_any_inbound) 0xbebafeca.
Proof.
  split.
  - split; [apply example_policy_ok|]. split; [by apply example_usable|]. right. split; reflexivity.
  - split; [apply example_policy_ok|]. split; [by apply example_usable|]. by left.
  - by split_and!.
  - simpl. done.
  - by left.
Qed.

Lemma srtp_end_to_end_witness :
  exists c d s r,
    srtp_create example_kernel true [all_allocs] [example_policy ssrc_specific] = Some (srtp_err_status_ok, Some c) /\
    srtp_create example_kernel true [all_allocs] [example_policy ssrc_any_inbound] = Some (srtp_err_status_ok, Some d) /\
    srtp_protect 0 (fun _ => true) (call c example_packet 28) = Some (s, inr tt) /\
    srtp_unprotect 0 (fun _ => true) (call d (pkt s) (pkt_octet_len s)) = Some (r, inr tt) /\
    pkt_octet_len r = 28 /\ take (Z.to_nat 28) (pkt r) = take (Z.to_nat 28) example_packet /\
    let again := call (ses r) (pkt s) (pkt_octet_len s) in
    srtp_unprotect 0 (fun _ => true) again = Some (again, inl srtp_err_status_replay_fail).
Proof.
  apply (srtp_end_to_end example_kernel _ _ 0xbebafeca 0 example_packet 28).
  - exact example_kernel_ready.
  - exact example_linked.
  - exact example_first_packet.
Defined.

Lemma example_run :
  exists c d ms ms' m s r, first_run example_kernel (example_policy ssrc_specific) (example_policy ssrc_any_inbound)
    0xbebafeca 0 example_packet 28 c d ms ms' m s r.
Proof. apply linked_run; [exact example_kernel_ready|exact example_linked|exact example_first_packet]. Qed.

Lemma srtp_unprotect_safe_witness :
  exists d ms s s' res,
    srtp_create example_kernel true [all_allocs] [example_policy ssrc_any_inbound] = Some (srtp_err_status_ok, Some d) /\
    pkt_octet_len s = 38 /\ srtp_unprotect_mki 0 (fun _ => true) true (call d (pkt s) (pkt_octet_len s)) = Some (s', res) /\
    ses_ok ms (ses s').
Proof.
  destruct example_run as (c & d & ms & ms' & m & s & r & [_ [Ed Hd] [Htags Htag] _ _ Hsl Hpin _ _ _ _ _ _ _]).
  destruct (srtp_unprotect_safe ms' 0 (fun _ => true) true (call d (pkt s) (pkt_octet_len s))) as (s' & res & E & Hok & _);
    [exact Hd|exact Hpin|exact Htags|].
  exists d, ms', s, s', res. split; [exact Ed|]. split; [|split; [exact E|exact Hok]].
  rewrite (sl_len _ _ _ _ _ _ _ _ _ _ Hsl). unfold tag_octets. simpl. rewrite Htag. reflexivity.
Defined.

Lemma srtp_unprotect_authentic_witness :
  exists d s r y x m est,
    srtp_unprotect_mki 0 (fun _ => true) false (call d (pkt s) (pkt_octet_len s)) = Some (r, inr tt) /\
    tag_verifies m (rtp_services x) (packet_iv (km_id m) y est) est (pkt s) (pkt_octet_len s) (pkt_octet_len r).
Proof.
  destruct example_run as (c & d & ms & ms' & m & s & r & [_ [Ed Hd] [Htags _] _ _ _ Hpin _ Eu _ _ _ _ _]).
  destruct (srtp_unprotect_authentic ms' 0 (fun _ => true) false (call d (pkt s) (pkt_octet_len s)) r)
    as (y & q & x & adv & est & delta & k & m1 & mki & start & xo & _ & _ & _ & _ & Ht & _);
    [exact Hd|exact Hpin|exact Htags|exact Eu|].
  exists d, s, r, y, x, m1, est. split; [exact Eu|exact Ht].
Defined.

(** The packet of the example with the first octet of its tag changed. *)
Lemma srtp_unprotect_forgery_witness :
  exists d s bad s' st,
    bad <> pkt s /\ srtp_unprotect_mki 0 (fun _ => true) false (call d bad (pkt_octet_len s)) = Some (s', inl st) /\
    pkt s' = bad /\ stream_list (ses s') = stream_list d.
Proof.
  destruct example_run as (c & d & ms & ms' & m & s & r & Hfr).
  destruct (tampered_tag _ _ _ _ _ _ _ _ _ _ _ _ _ _ Hfr) as (bad & Hne & Hpin & Hbad);
    [reflexivity|rewrite (proj2 (fr_tags _ _ _ _ _ _ _ _ _ _ _ _ _ _ Hfr)); reflexivity|].
  destruct (srtp_unprotect_forgery ms' 0 (fun _ => true) false (call d bad (pkt_octet_len s)))
    as (s' & st & E & Ep & _ & Esl & _);
    [apply (fr_receiver _ _ _ _ _ _ _ _ _ _ _ _ _ _ Hfr)|exact Hpin|apply (fr_tags _ _ _ _ _ _ _ _ _ _ _ _ _ _ Hfr)|exact Hbad|].
  exists d, s, bad, s', st. split; [exact Hne|]. split; [exact E|]. split; [exact Ep|exact Esl].
Defined.

Lemma srtp_unprotect_no_replay_witness :
  exists d s r, srtp_unprotect_mki 0 (fun _ => true) false (call d (pkt s) (pkt_octet_len s)) = Some (r, inr tt) /\
    let again := call (ses r) (pkt s) (pkt_octet_len s) in
    srtp_unprotect_mki 0 (fun _ => true) false again = Some (again, inl srtp_err_status_replay_fail).
Proof.
  destruct example_run as (c & d & ms & ms' & m & s & r & [_ [_ Hd] [Htags _] Hnp _ _ Hpin _ Eu _ _ _ (Hv & _) _]).
  exists d, s, r. split; [exact Eu|].
  apply (srtp_unprotect_no_replay ms' 0 (fun _ => true) false (call d (pkt s) (pkt_octet_len s)) r);
    [exact Hd|exact Hpin|exact Htags|exact Hnp|exact Eu|reflexivity|exact Hpin|exact Hv|reflexivity|reflexivity].
Defined.

(** The sending session of the example. *)
Lemma example_sender :
  exists c ms x, srtp_create example_kernel true [all_allocs] [example_policy ssrc_specific] =
      Some (srtp_err_status_ok, Some c) /\
    stream_added example_kernel (example_policy ssrc_specific) [] empty_ctx ms c x /\ tags_within SRTP_MAX_TAG_LEN ms.
Proof.
  destruct (create_one_run example_kernel example_kernel_ready all_allocs (example_policy ssrc_specific))
    as (st & c & E & Hc & Hs); [apply example_policy_ok|].
  destruct Hs as [c' ->]; [done|by apply example_usable|]. destruct Hc as (-> & ms & x & Hadd).
  exists c', ms, x. split; [done|]. split; [done|].
  eapply (created_can_send example_kernel example_kernel_ready (example_policy ssrc_specific));
    [apply example_policy_ok|exact Hadd|right; split; reflexivity|exact example_first_packet|].
  unfold SRTP_MAX_TAG_LEN. simpl. lia.
Qed.

Lemma srtp_protect_seals_witness :
  exists c ms s' res,
    srtp_create example_kernel true [all_allocs] [example_policy ssrc_specific] = Some (srtp_err_status_ok, Some c) /\
    srtp_protect_mki 0 (fun _ => true) false 0 (call c example_packet 28) = Some (s', res) /\ ses_ok ms (ses s').
Proof.
  destruct example_sender as (c & ms & x & E & Hadd & Htags).
  destruct (srtp_protect_seals ms 0 (fun _ => true) false 0 (call c example_packet 28)) as (s' & res & Ep & Hok & _);
    [exact (sa_ok _ _ _ _ _ _ _ Hadd)|exact example_room|exact Htags|].
  exists c, ms, s', res. split; [exact E|]. split; [exact Ep|exact Hok].
Defined.

Lemma srtp_protect_succeeds_witness :
  exists c s',
    srtp_create example_kernel true [all_allocs] [example_policy ssrc_specific] = Some (srtp_err_status_ok, Some c) /\
    srtp_protect_mki 0 (fun _ => true) false 0 (call c example_packet 28) = Some (s', inr tt).
Proof.
  destruct example_sender as (c & ms & x & E & Hadd & Htags).
  destruct (created_can_send example_kernel example_kernel_ready (example_policy ssrc_specific) ms c x 0xbebafeca 0
    example_packet 28) as (_ & Hex & k & m & o & _ & Hm & Ho & Hcan);
    [apply example_policy_ok|exact Hadd|right; split; reflexivity|exact example_first_packet|unfold SRTP_MAX_TAG_LEN; simpl; lia|].
  destruct (srtp_protect_succeeds ms 0 false 0 (call c example_packet 28) 0xbebafeca) as (s' & Ep & _);
    [exact (sa_ok _ _ _ _ _ _ _ Hadd)|exact example_room|exact Htags|reflexivity|reflexivity|exact Hex| |].
  - intros x' Hx'. destruct (Hcan x' Hx') as (Hk & _ & _ & Hcs). exists k, m, o. eexists _, _.
    split; [exact Hk|]. split; [exact Hm|]. split; [exact Ho|exact Hcs].
  - exists c, s'. split; [exact E|exact Ep].
Defined.

Lemma srtp_protect_unprotect_witness :
  exists c d s r', srtp_protect 0 (fun _ => true) (call c example_packet 28) = Some (s, inr tt) /\
    srtp_unprotect 0 (fun _ => true) (call d (pkt s) (pkt_octet_len s)) = Some (r', inr tt) /\
    take (Z.to_nat 28) (pkt r') = take (Z.to_nat 28) example_packet.
Proof.
  destruct example_run as (c & d & ms & ms' & m & s & r & [[_ Hc] [_ Hd] [Htags _] _ Es _ Hpin Hrecv _ _ _ _ _ Hob]).
  destruct Hob as (Htags' & k & Hm & Hout).
  destruct (srtp_protect_unprotect ms 0 (fun _ => true) (call c example_packet 28) s ms' 0 (call d (pkt s) (pkt_octet_len s)))
    as (r' & Er & _ & Ht);
    [exact Hc|exact example_room|exact Htags'|exact Es|exact Hd|exact Htags|exact Hpin|reflexivity|reflexivity| |].
  - intros y x k' m' est Hy Hx Hk' Hm' [x' Hrec]. injection Hy as <-.
    destruct (Hout x Hx) as (Hk & Hsv & Hids & Hroc & He). rewrite Hk in Hk'. injection Hk' as <-.
    rewrite Hm in Hm'. injection Hm' as <-. destruct (Hrec Hroc) as (delta & rx & He' & _).
    cbn [pkt call] in He'. rewrite He in He'. injection He' as <- <-. rewrite Hsv, Hids. split; [by left|exact Hrecv].
  - exists c, d, s, r'. split; [exact Es|]. split; [exact Er|exact Ht].
Defined.
