(* ===== verification/SrtcpTheorems.v ===== *)
(** The properties of SRTCP: what srtp_protect_rtcp makes, what
    srtp_unprotect_rtcp accepts, and both ends together, with a session of the
    library's default policy as the example. *)

From S2P Require Import Prelude Err Prog SrtpTypes Replay Rdb Rdbx Key SrtpPolicy ByteOrder.
From S2P Require Import Sha1 Hmac Aes AesKeys AesIcm Cipher Kernel KernelRun SrtpStream SrtpCreate SrtpPacket SrtpRun SrtpXtn SrtpProcess.
From S2P Require Import SrtpSession SrtpProtect SrtpUnprotect SrtpKeys SrtpCreated SrtpTheorems.
From S2P Require Import Srtcp SrtcpRun SrtcpProtect SrtcpUnprotect.

Section Lemmas.
Context `{BC : BlockCipher} `{LV : Locals}.

(** The keys of a packet depend on the session keys of the stream only. *)
Lemma inbound_keys_same ms use_mki x x' p len s s' res :
  ses_ok ms (ses s) -> ses_ok ms (ses s') -> strm_wf ms x -> session_keys x' = session_keys x ->
  inbound_keys use_mki x p len s = Some (s, res) -> inbound_keys use_mki x' p len s' = Some (s', res).
Proof.
  intros Hs Hs' Hwf Hk. destruct (first_key _ _ Hwf) as (k0 & E0 & Hk0 & _).
  destruct (ses_ok_objs ms (ses s) (objs k0) k0 Hs Hk0 eq_refl) as (m & o & Hm & Ho & Hok).
  destruct (ses_ok_objs ms (ses s') (objs k0) k0 Hs' Hk0 eq_refl) as (m' & o' & Hm' & Ho' & Hok').
  rewrite Hm in Hm'. injection Hm' as <-. unfold inbound_keys. rewrite Hk, E0. autorewrite with prog.
  destruct use_mki; [|by intros [= <-]].
  unfold get_objs. rewrite (bind_ok _ _ s s o) by (by rewrite Ho). rewrite (bind_ok _ _ s' s' o') by (by rewrite Ho').
  destruct (keyed_auth_lengths _ _ _ (oo_auth _ _ Hok)) as [-> _]. destruct (keyed_auth_lengths _ _ _ (oo_auth _ _ Hok')) as [-> _].
  unfold srtp_get_session_keys. rewrite Hk. destruct (if u32 len <? _ then _ else _) as [f|]; [|done].
  autorewrite with prog. destruct f; by intros [= <-].
Qed.

(** The session has the index of the packet in the database of the stream that
    serves its SSRC. *)
Definition rtcp_knows (ms : list keymat) (use_mki : bool) (c : srtp_ctx_t) (p : list Z) (len : Z) : Prop :=
  exists y r x k m mki, let rest := len - km_ctag m - mki - srtcp_trailer_t in
    octets_in_rtcp_header + srtcp_trailer_t <= len /\ rtcp_ssrc p = Some y /\ rtcp_inbound_at c y r x /\
    ms !! objs k = Some m /\ (forall s, ses s = c -> inbound_keys use_mki x p len s = Some (s, inr (k, mki))) /\
    octets_in_rtcp_header <= rest /\ trailer_flag p rest = has_conf (rtcp_services x) /\
    srtp_rdb_check (rtcp_rdb x) (trailer_index p rest) = Some srtp_err_status_replay_fail.

(** A packet that was accepted is known. *)
Lemma rtcp_processed_known ms ok use_mki s s' :
  ses_ok ms (ses s) -> ses_ok ms (ses s') -> rtcp_processed ms ok use_mki s s' (inr tt) ->
  rtcp_knows ms use_mki (ses s') (pkt s) (pkt_octet_len s).
Proof.
  intros Hses Hses' (y & r & x & k & m & o & mki & x1 & o1 & p1 & evs1 & res0 & H12 & Hy & Hin & Hk & Ek & Ho & Hop & Hres).
  destruct res0 as [st|v]; [by destruct Hres|]. destruct Hres as (c' & Hset & ->).
  destruct (ro_value _ _ _ _ _ _ _ _ _ _ _ _ _ _ Hop v eq_refl) as (_ & Hacc & _).
  destruct (ro_dir _ _ _ _ _ _ _ _ _ _ _ _ _ _ Hop) as [d ->]. destruct Hk as (_ & _ & Hm & _).
  pose proof (ses_ok_stream _ _ _ _ Hses (proj1 Hin)) as Hwf. pose proof (sw_rdb _ _ Hwf) as Hrdb.
  set (rest := pkt_octet_len s - km_ctag m - mki - srtcp_trailer_t) in *.
  assert (0 <= trailer_index (pkt s) rest < 2 ^ 31) as Hsq by (unfold trailer_index; lia).
  assert (window_start (rtcp_rdb x) <= trailer_index (pkt s) rest) as Hws.
  { destruct (rdb_check_spec (rtcp_rdb x) (trailer_index (pkt s) rest) Hrdb Hsq) as (st & Est & Hst).
    rewrite (ac_new _ _ _ _ _ _ Hacc) in Est. injection Est as <-. by apply Hst. }
  assert (forall x', session_keys x' = session_keys x -> forall s1, ses s1 = c' ->
    inbound_keys use_mki x' (pkt s) (pkt_octet_len s) s1 = Some (s1, inr (k, mki))) as Hik.
  { intros x' Hks s1 Es1. apply (inbound_keys_same ms use_mki x x' _ _ s s1); try done. by rewrite Es1. }
  destruct Hacc as [Hrest Hfl _ _]. destruct Hin as [Hx Hg]. exists y. destruct r as [j|]; unfold rtcp_settled in Hset.
  - destruct Hset as (_ & rdb & -> & Ea). exists (InList j), (with_rdb (with_direction x d) rdb), k, m, mki. cbv zeta. fold rest.
    split_and!; try done; [split; [|]|by apply Hik|by eapply rdb_added_replays].
    + eapply stream_at_set. by apply stream_at_focus.
    + apply (set_stream_get _ _ (with_direction x d)); [|by apply stream_at_focus|done]. unfold focus. cbn [ses].
      rewrite with_store_get. by apply (set_stream_get _ _ x).
  - destruct Hset as (_ & new & rdb & -> & Hwn & Hny & Hkn & Hsv & Hr0 & Ea).
    exists (InList 0), (with_rdb new rdb), k, m, mki. cbv zeta. fold rest. split_and!; try done.
    + split; [done|]. unfold srtp_get_stream. simpl. by rewrite decide_True by done.
    + by apply Hik.
    + simpl. by rewrite Hfl, Hsv.
    + eapply (rdb_added_replays (rtcp_rdb new)); try done; [apply Hwn|]. rewrite Hr0. simpl. lia.
Qed.

(** A known packet is refused. *)
Lemma rtcp_known_refused ms addr ok use_mki s :
  ses_ok ms (ses s) -> rtcp_in (pkt s) (pkt_octet_len s) -> tags_within octets_in_rtp_header ms ->
  ctags_within SRTP_MAX_TAG_LEN ms -> rtcp_knows ms use_mki (ses s) (pkt s) (pkt_octet_len s) ->
  srtp_unprotect_rtcp_mki addr ok use_mki s = Some (s, inl srtp_err_status_replay_fail).
Proof.
  intros Hses Hpkt Htags Hctags (y & r & x & k & m & mki & H12 & Hy & Hin & Hm & Ek & Hrest & Hfl & Hrep).
  specialize (Ek s eq_refl).
  destruct (srtp_unprotect_rtcp_run ms addr ok use_mki s) as (s' & res & -> & _ & _ & _ & Hout); [done..|].
  destruct Hout as [(_ & _ & Hno)|Hout]; [destruct (Hno H12 y r x Hy Hin) as (_ & st & Est); congruence|].
  destruct Hout as (y2 & r2 & x2 & k2 & m2 & o & mki2 & x' & o' & p' & evs' & res0 & _ & Hy2 & Hin2 & Hk2 & Ek2 & Ho & Hop & Hres).
  rewrite Hy in Hy2. injection Hy2 as <-. destruct (rtcp_inbound_unique _ _ _ _ _ _ Hin Hin2) as [-> ->].
  rewrite Ek in Ek2. injection Ek2 as <- <-. destruct Hk2 as (_ & _ & Hm2 & _). rewrite Hm in Hm2. injection Hm2 as <-.
  destruct (ro_replay _ _ _ _ _ _ _ _ _ _ _ _ _ _ Hop _ Hrest Hfl Hrep eq_refl) as (-> & -> & -> & -> & ->).
  destruct Hres as [-> ->]. f_equal. f_equal. symmetry. apply focus_self; try done. apply Hin.
Qed.

(** A receiver that has the key material [m] for the SSRC [y], the same
    confidentiality and an index it has not seen. *)
Definition rtcp_receives (ms : list keymat) (c : srtp_ctx_t) (y seq_num : Z) (m : keymat) (conf : bool) : Prop :=
  exists r x k, rtcp_inbound_at c y r x /\ aget (session_keys x) 0 = Some k /\ ms !! objs k = Some m /\
    has_conf (rtcp_services x) = conf /\ srtp_rdb_check (rtcp_rdb x) seq_num = Some srtp_err_status_ok.

(** The tag of a sealed packet verifies. *)
Lemma sealed_verifies m conf y seq_num p len q len' :
  rtcp_sealed m conf [] y seq_num p len q len' -> km_cauth m <> None \/ km_ctag m = 0 ->
  rtcp_verifies m q (len + srtcp_trailer_t) (len' - km_ctag m).
Proof.
  intros [Hl _ _ _ _ _ Ht] Hau. change (zlen []) with 0 in *. unfold rtcp_verifies, rtcp_tag, tag_of in *.
  replace (len' - km_ctag m) with (len + srtcp_trailer_t + 0) by lia. destruct (km_cauth m); [done|].
  destruct Hau as [|E]; [done|]. by rewrite E.
Qed.

(** A sealed packet is accepted and given back. *)
Lemma rtcp_sealed_unprotect ms addr m conf y seq_num p len s :
  ses_ok ms (ses s) -> rtcp_in (pkt s) (pkt_octet_len s) -> tags_within octets_in_rtp_header ms ->
  ctags_within SRTP_MAX_TAG_LEN ms -> rtcp_sealed m conf [] y seq_num p len (pkt s) (pkt_octet_len s) ->
  octets_in_rtcp_header <= len <= zlen p -> 0 <= seq_num < 2 ^ 31 -> rtcp_ssrc (pkt s) = Some y ->
  km_cauth m <> None \/ km_ctag m = 0 -> rtcp_receives ms (ses s) y seq_num m conf ->
  exists s', srtp_unprotect_rtcp addr (fun _ => true) s = Some (s', inr tt) /\ ses_ok ms (ses s') /\
    pkt_octet_len s' = len /\ take (Z.to_nat len) (pkt s') = take (Z.to_nat len) p.
Proof.
  intros Hses Hpkt Htags Hctags Hsl Hlen Hsq Hy Hau (r & x & k & Hin & Hk & Hm & Hconf & Hnew).
  pose proof Hsl as [Hl Hhd Hrm Hb Htw _ _]. change (zlen []) with 0 in Hl. pose proof Hpkt as [HF Hl28 Hz].
  assert (0 <= km_ctag m <= SRTP_MAX_TAG_LEN) as Hct by (by eapply Forall_lookup_1 in Hctags).
  destruct (srtp_unprotect_rtcp_run ms addr (fun _ => true) false s Hses Hpkt Htags Hctags) as (s' & res & E & Hok & Hz' & _ & Hout).
  exists s'. unfold srtp_unprotect_rtcp. rewrite E. unfold octets_in_rtcp_header, srtcp_trailer_t, SRTP_MAX_TAG_LEN in *.
  destruct Hout as [(_ & _ & Hno)|Hout]; [by destruct (Hno ltac:(unfold octets_in_rtcp_header, srtcp_trailer_t; lia) y r x Hy Hin)|].
  destruct Hout as (y1 & r1 & x1 & k1 & m1 & o & mki & x' & o' & p' & evs' & res0 & H12 & Hy1 & Hin1 & Hk1 & _ & Ho & Hop & Hres).
  rewrite Hy in Hy1. injection Hy1 as <-. destruct (rtcp_inbound_unique _ _ _ _ _ _ Hin Hin1) as [-> ->].
  destruct Hk1 as (_ & _ & Hm1 & _ & _ & -> & Hk1). rewrite Hk in Hk1. injection Hk1 as <-. rewrite Hm in Hm1. injection Hm1 as <-.
  assert (pkt_octet_len s - km_ctag m - 0 - srtcp_trailer_t = len) as Er by (unfold srtcp_trailer_t; lia). rewrite Er in *.
  destruct (trailer_word_flag (pkt s) len conf seq_num Htw Hsq) as [Hfl Hix].
  assert (rtcp_accepted m x (pkt s) (pkt_octet_len s) len 0) as Hacc.
  { split; [apply Hlen|by rewrite Hconf|by rewrite Hix|]. by eapply sealed_verifies. }
  assert (res0 = inr (seq_num, km_ctag m + srtcp_trailer_t)) as ->.
  { rewrite <- Hix. apply (ro_accepts _ _ _ _ _ _ _ _ _ _ _ _ _ _ Hop); [done|]. by rewrite Hix, Hconf. }
  destruct (ro_value _ _ _ _ _ _ _ _ _ _ _ _ _ _ Hop _ eq_refl) as (_ & _ & Hb'). rewrite Hix, Hconf in Hb'.
  destruct Hres as (c' & Hset & ->).
  assert (res = inr tt) as ->.
  { destruct r; [apply Hset|]. by apply (proj1 Hset). }
  split; [done|]. split; [done|]. split; [done|]. cbn [pkt with_len with_ses focus].
  pose proof (ro_outside _ _ _ _ _ _ _ _ _ _ _ _ _ _ Hop) as Hout. unfold rtcp_body, octets_in_rtcp_header in *.
  replace (Z.to_nat len) with (Z.to_nat 8 + Z.to_nat (len - 8))%nat by lia. rewrite <- !take_take_drop. f_equal.
  - pose proof (ro_zlen _ _ _ _ _ _ _ _ _ _ _ _ _ _ Hop). apply prefix_ext; try lia.
    intros j Hj. rewrite Hout by lia. by apply Hhd.
  - rewrite Hb', Hb. destruct conf; [apply crypt_invol|done].
Qed.

(** ** New sessions *)

Lemma rtcp_iv_low16 id y seq_num : is_icm id -> low16 (rtcp_iv id y seq_num) = 0.
Proof.
  intros Hid. unfold rtcp_iv.
  assert ((id =? SRTP_AES_ICM_128) || (id =? SRTP_AES_ICM_192) || (id =? SRTP_AES_ICM_256) = true) as ->
    by (by destruct Hid as [-> | ->]).
  change (be_octets 4 ?v) with (map (fun i => u8 (v >> (8 * Z.of_nat i))) [3; 2; 1; 0]%nat).
  cbn [map rev app replicate]. unfold low16, znth, aget. simpl.
  unfold wrap. rewrite Z.shiftl_mul_pow2, !Z.shiftr_div_pow2 by lia. lia.
Qed.

Section Kernel.
Context (kernel : srtp_crypto_kernel_t) (Hkernel : kernel_ready kernel).

(** A new stream has key stream for RTCP packets of up to 65534 octets. *)
Lemma created_rtcp_room p l j m o y seq_num pos n :
  policy_mats p l !! j = Some m -> Forall (objs_of kernel p) l -> objs_ok m o -> 0 <= pos <= 16 -> n <= 65534 ->
  room (km_rtcp m) (rtcp_iv (km_cid m) y seq_num) pos n = true.
Proof.
  intros (mk & o0 & _ & Ej & ->)%policy_mats_lookup Hl Hok Hpos Hn.
  pose proof (of_cicm _ _ _ (Forall_lookup_1 _ _ _ _ Hl Ej)) as Hid. pose proof (oo_rtcp _ _ Hok) as Hk. simpl in *.
  destruct (rtcp_cipher o0) as [|c0]; [done|]. destruct (rtcp_cipher o) as [|c]; [done|].
  cbn [stream_key_of keyed_cipher] in Hk |- *. destruct Hk as (_ & _ & Hb & _). cbn [room].
  set (k := {| sk_E := _; sk_offset := _ |}) in *.
  assert (low16 (start_block k (rtcp_iv (cipher_type_id (icm_cipher c0)) y seq_num)) = 0) as ->.
  { apply start_block_low16; [done|apply rtcp_iv_block| |by apply rtcp_iv_low16].
    apply (low16_icm_key (cipher_key_len' c0)), Hb. }
  apply Z.leb_le. rewrite Z.add_0_l. pose proof (Z.mod_le ((pos + 15) / 16) (2 ^ 16)). lia.
Qed.

(** The tag lengths of a new session. *)
Lemma created_tags p l ms :
  Forall (objs_of kernel p) l -> ms = policy_mats p l -> 0 <= auth_tag_len (pol_rtp p) <= octets_in_rtp_header ->
  0 <= auth_tag_len (pol_rtcp p) <= SRTP_MAX_TAG_LEN ->
  tags_within octets_in_rtp_header ms /\ ctags_within SRTP_MAX_TAG_LEN ms.
Proof.
  intros Hof -> Ht Hct. split; apply Forall_lookup; intros j m Hm.
  - by rewrite (policy_mats_tag kernel _ _ _ _ Hof Hm).
  - by rewrite (proj1 (policy_mats_ctag kernel _ _ _ _ Hof Hm)).
Qed.

(** The stream that a new session sends RTCP packets with. *)
Lemma added_rtcp_outbound p ms c x0 y :
  stream_added kernel p [] empty_ctx ms c x0 -> serves ssrc_any_outbound p y ->
  (exists x, rtcp_outbound_at c y x) /\
  forall x, rtcp_outbound_at c y x -> session_keys x = session_keys x0 /\ rtcp_services x = sec_serv (pol_rtcp p) /\
    rtcp_rdb x = fst srtp_rdb_init.
Proof.
  intros [_ Hok [Hwf Hss _ _ _ _ _ _ _ Hsv Hrdb] _ _ Hst] [Hty|[Hty Hy]]; rewrite Hty in Hst.
  - destruct Hst as (Hsl & Htm & _). simpl in Hsl.
    assert (srtp_get_stream c y = None) as Hg by (unfold srtp_get_stream; by rewrite Hsl). split.
    + destruct (clone_spec (fun _ => true) ms _ y (so_template _ _ Hok _ Htm)) as (st & new & Ec & Hall & Hn).
      destruct Hall as [x ->]; [done|]. destruct (clone_rtcp _ _ _ _ _ Ec) as [Hs Hr].
      destruct Hn as (_ & _ & Hxy & Hk & _). exists x. split; [done|]. right. split; [done|]. eexists. by split_and!.
    + intros x (_ & [(r & Hr & _)|(_ & t & Ht & Hk & Hs & Hr)]); [congruence|]. rewrite Htm in Ht. injection Ht as <-.
      simpl in Hk, Hs. split_and!; try done; congruence.
  - destruct Hst as (Hsl & _). simpl in Hsl.
    assert (srtp_get_stream c y = Some (InList 0)) as Hg.
    { unfold srtp_get_stream. rewrite Hsl. simpl. by rewrite decide_True by congruence. }
    assert (stream_at c (InList 0) = Some x0) as Hx0 by (simpl; by rewrite Hsl). split.
    + exists x0. split; [congruence|]. left. by exists (InList 0).
    + intros x (_ & [(r & Hr & Hx)|(Hr & _)]); [|congruence]. rewrite Hg in Hr. injection Hr as <-.
      rewrite Hx0 in Hx. injection Hx as <-. by split_and!.
Qed.

(** A new session takes every index. *)
Lemma added_rtcp_receives p ms c x0 y seq_num m k :
  stream_added kernel p [] empty_ctx ms c x0 -> serves ssrc_any_inbound p y -> 0 <= seq_num < 2 ^ 31 ->
  aget (session_keys x0) 0 = Some k -> ms !! objs k = Some m ->
  rtcp_receives ms c y seq_num m (has_conf (sec_serv (pol_rtcp p))).
Proof.
  intros [_ Hok [Hwf Hss _ _ _ _ _ _ _ Hsv Hrdb] _ _ Hst] Hserve Hs Hk Hm.
  assert (srtp_rdb_check (rtcp_rdb x0) seq_num = Some srtp_err_status_ok) as Hc.
  { rewrite Hrdb. destruct (rdb_check_spec _ seq_num rdb_init_ok Hs) as (st & -> & Hst'). f_equal. apply Hst'.
    split; [simpl; lia|apply rdb_init_empty]. }
  destruct Hserve as [Hty|[Hty Hy]]; rewrite Hty in Hst.
  - destruct Hst as (Hsl & Htm & _). simpl in Hsl. exists Template, (with_direction x0 dir_srtp_receiver), k.
    split_and!; try done; [|simpl; by rewrite Hsv]. split; [done|]. unfold srtp_get_stream. by rewrite Hsl.
  - destruct Hst as (Hsl & _). simpl in Hsl. exists (InList 0), x0, k. split_and!; try done; [|by rewrite Hsv].
    split; [simpl; by rewrite Hsl|]. unfold srtp_get_stream. rewrite Hsl. simpl. by rewrite decide_True by congruence.
Qed.

(** The first RTCP packet that a session sends. *)
Record first_report (y : Z) (packet : list Z) (len : Z) : Prop := {
  fq_room : rtcp_room packet len;
  fq_len : octets_in_rtcp_header <= len <= 65534;
  fq_ssrc : rtcp_ssrc packet = Some y
}.

(** A new session can send it, with the index 1. *)
Lemma created_can_protect_rtcp p ms c x0 y packet len :
  policy_ok p -> stream_added kernel p [] empty_ctx ms c x0 -> serves ssrc_any_outbound p y -> first_report y packet len ->
  0 <= auth_tag_len (pol_rtcp p) <= SRTP_MAX_TAG_LEN ->
  can_protect_rtcp ms false 0 (call c packet len).
Proof.
  intros Hp Hadd Hserve [Hroom Hlen Hy] Htag.
  destruct (added_first_key kernel Hkernel _ _ _ _ Hp Hadd) as (l & k & m & o & El & Ems & Hof & Hk & Hob & Hm & Ho & Hoo & _).
  destruct (added_rtcp_outbound _ _ _ _ _ Hadd Hserve) as [Hex Hall].
  exists y. cbn [pkt ses pkt_octet_len call]. split; [done|]. split; [done|]. intros x Hx. destruct (Hall x Hx) as (Hks & Hsv & Hrdb).
  exists k, m. cbv zeta. unfold srtp_get_session_keys_with_mki_index. rewrite Hks, Hob, Hrdb, Ems.
  change (window_start (fst srtp_rdb_init) + 1) with 1. split_and!; try done.
  unfold SRTP_MAX_TAG_LEN, octets_in_rtcp_header in *. rewrite <- (proj1 (policy_mats_ctag kernel _ _ _ _ Hof Hm)) in Htag.
  pose proof (rtcp_prefix_bounds m 16 Htag) as Hpre.
  split; [|intros _]; eapply created_rtcp_room; try done; unfold octets_in_rtcp_header; lia.
Qed.

End Kernel.
End Lemmas.

Section Linked.
Context `{BC : BlockCipher} `{LV : Locals}.

(** A sender and a receiver of RTCP packets that are set up for each other. *)
Record rtcp_linked (kernel : srtp_crypto_kernel_t) (p q : srtp_policy_t) (y : Z) : Prop := {
  cl_sender : policy_ok p /\ usable kernel p /\ serves ssrc_any_outbound p y;
  cl_receiver : policy_ok q /\ usable kernel q /\ serves ssrc_any_inbound q y;
  cl_crypto : same_crypto p q;
  cl_tag : 0 <= auth_tag_len (pol_rtp p) <= octets_in_rtp_header;
  cl_ctag : 0 <= auth_tag_len (pol_rtcp p) <= SRTP_MAX_TAG_LEN;
  cl_auth : srtp_crypto_kernel_get_auth_type kernel (auth_type (pol_rtcp p)) = Some srtp_hmac \/
    auth_tag_len (pol_rtcp p) = 0
}.

(** What the first RTCP packet of a linked pair goes through. *)
Record first_rtcp_run (kernel : srtp_crypto_kernel_t) (p q : srtp_policy_t) (y addr : Z) (packet : list Z) (len : Z)
    (c d : srtp_ctx_t) (ms ms' : list keymat) (m : keymat) (s r : pstate) : Prop := {
  fc_sender : srtp_create kernel true [all_allocs] [p] = Some (srtp_err_status_ok, Some c) /\ ses_ok ms c /\
    ctags_within SRTP_MAX_TAG_LEN ms /\ can_protect_rtcp ms false 0 (call c packet len);
  fc_receiver : srtp_create kernel true [all_allocs] [q] = Some (srtp_err_status_ok, Some d) /\ ses_ok ms' d;
  fc_tags : tags_within octets_in_rtp_header ms' /\ ctags_within SRTP_MAX_TAG_LEN ms' /\ km_ctag m = auth_tag_len (pol_rtcp p) /\
    (km_cauth m <> None \/ km_ctag m = 0);
  fc_protect : srtp_protect_rtcp addr (fun _ => true) (call c packet len) = Some (s, inr tt);
  fc_sealed : rtcp_sealed m (has_conf (sec_serv (pol_rtcp p))) [] y 1 packet len (pkt s) (pkt_octet_len s);
  fc_packet : rtcp_in (pkt s) (pkt_octet_len s);
  fc_receives : rtcp_receives ms' d y 1 m (has_conf (sec_serv (pol_rtcp p)));
  fc_ssrc : rtcp_ssrc (pkt s) = Some y;
  fc_unprotect : srtp_unprotect_rtcp addr (fun _ => true) (call d (pkt s) (pkt_octet_len s)) = Some (r, inr tt);
  fc_ok : ses_ok ms' (ses r);
  fc_restored : pkt_octet_len r = len /\ take (Z.to_nat len) (pkt r) = take (Z.to_nat len) packet;
  fc_outbound : exists k, ms !! objs k = Some m /\
    forall x, rtcp_outbound_at c y x -> aget (session_keys x) 0 = Some k /\ rtcp_services x = sec_serv (pol_rtcp p) /\
      rtcp_rdb x = fst srtp_rdb_init
}.

Lemma rtcp_ssrc_same p q : (forall j, 0 <= j < 8 -> znth q j = znth p j) -> 8 <= zlen p -> 8 <= zlen q -> rtcp_ssrc q = rtcp_ssrc p.
Proof.
  intros HE Hp Hq. unfold rtcp_ssrc, get32, get16. rewrite !(aget_znth p), !(aget_znth q) by lia. simpl. by rewrite !HE by lia.
Qed.

Lemma rtcp_linked_run kernel p q y addr packet len :
  kernel_ready kernel -> rtcp_linked kernel p q y -> first_report y packet len ->
  exists c d ms ms' m s r, first_rtcp_run kernel p q y addr packet len c d ms ms' m s r.
Proof.
  intros Hker [(Hp & Hup & Hsp) (Hq & Huq & Hsq) Hsame Htag Hct Hau] Hfr. pose proof Hfr as [Hroom Hlen Hy].
  destruct (create_one_run kernel Hker all_allocs p Hp) as (st1 & c & Ec & Hc & Hcs).
  destruct (Hcs eq_refl Hup) as [c' ->]. destruct Hc as (-> & ms & x & Hadd).
  destruct (create_one_run kernel Hker all_allocs q Hq) as (st2 & d & Ed & Hd & Hds).
  destruct (Hds eq_refl Huq) as [d' ->]. destruct Hd as (-> & ms' & x' & Hadd').
  destruct (added_first_key kernel Hker _ _ _ _ Hp Hadd) as (l & k & m & o & El & Ems & Hof & Hk & Hob & Hm & _).
  destruct (added_first_key kernel Hker _ _ _ _ Hq Hadd') as (l' & k' & m' & o' & El' & Ems' & Hof' & Hk' & Hob' & Hm' & _).
  rewrite (same_crypto_alloc _ _ _ _ Hsame), El in El'. injection El' as <-. rewrite (same_crypto_mats _ _ _ Hsame) in *.
  rewrite Hm in Hm'. injection Hm' as <-.
  destruct (created_tags kernel p l ms) as [_ Hcts]; [done..|]. destruct (created_tags kernel p l ms') as [Hts' Hcts']; [done..|].
  destruct (policy_mats_ctag kernel _ _ _ _ Hof Hm) as [Hmt Hma].
  pose proof (created_can_protect_rtcp kernel Hker p ms c' x y packet len Hp Hadd Hsp Hfr Hct) as Hcan.
  destruct (srtp_protect_rtcp_run ms addr (fun _ => true) false 0 (call c' packet len)) as (s & res & Es & _ & Hz & HF & _ & HS & HC);
    [apply Hadd|done|done|]. rewrite (HC (proj1 Hlen) (fun _ => eq_refl) Hcan) in *.
  destruct (HS eq_refl) as (_ & y1 & x1 & k1 & m1 & Hy1 & Hx1 & Hk1 & Hm1 & _ & Hsl & _).
  cbn [pkt ses pkt_octet_len call] in *. rewrite Hy in Hy1. injection Hy1 as <-.
  destruct (added_rtcp_outbound kernel _ _ _ _ _ Hadd Hsp) as [_ Hall]. destruct (Hall x1 Hx1) as (Hks & Hsv & Hrdb).
  unfold srtp_get_session_keys_with_mki_index in Hk1. rewrite Hks, Hk in Hk1. injection Hk1 as <-.
  rewrite Hob, Ems, Hm in Hm1. injection Hm1 as <-. rewrite Hsv, Hrdb in Hsl.
  change (window_start (fst srtp_rdb_init) + 1) with 1 in Hsl. pose proof Hroom as [HFp Hl28 Htr].
  pose proof (rs_len _ _ _ _ _ _ _ _ _ Hsl) as Hls. cbn [mki_octets] in Hls. change (zlen []) with 0 in Hls.
  change SRTCP_MAX_TRAILER_LEN with 148 in Htr. unfold SRTP_MAX_TAG_LEN, octets_in_rtcp_header, srtcp_trailer_t in *.
  assert (rtcp_in (pkt s) (pkt_octet_len s)) as Hpin by (split; [done|lia|lia]).
  assert (rtcp_ssrc (pkt s) = Some y) as Hys.
  { rewrite <- Hy. apply rtcp_ssrc_same; try lia. apply (rs_header _ _ _ _ _ _ _ _ _ Hsl). }
  destruct Hsame as (_ & Hrtcp & _).
  assert (rtcp_receives ms' d' y 1 m (has_conf (sec_serv (pol_rtcp p)))) as Hrecv.
  { rewrite <- Hrtcp. eapply added_rtcp_receives; try done. by rewrite Hob', Ems'. }
  assert (km_cauth m <> None \/ km_ctag m = 0) as Hau' by (rewrite Hmt; destruct Hau; auto).
  destruct (rtcp_sealed_unprotect ms' addr m (has_conf (sec_serv (pol_rtcp p))) y 1 packet len (call d' (pkt s) (pkt_octet_len s)))
    as (r & Er & Hok & Hlr & Htk); try done; [apply Hadd'|unfold octets_in_rtcp_header; lia|].
  exists c', d', ms, ms', m, s, r. split; try done; [split_and!; try done; apply Hadd|split; [done|apply Hadd']|].
  exists k. rewrite Hob, Ems. split; [done|]. intros x2 Hx2. destruct (Hall x2 Hx2) as (-> & -> & ->). done.
Qed.

End Linked.

Section Properties.
Context `{BC : BlockCipher} `{LV : Locals}.

(** C21: The SRTCP packet.  On a session whose keys are initialised, with the
    room behind the packet that the API asks for, [srtp_protect_rtcp_mki] is
    defined and writes nowhere else; when it succeeds, the result is the packet
    of RFC 3711 for the header, the octets behind it and an index below 2^31 that
    is one more than the last one of the stream, and the stream has recorded the
    index; it succeeds when the stream, its keys, an index and key stream are
    there. *)
Theorem srtp_protect_rtcp_seals ms addr ok use_mki mki_index s :
  ses_ok ms (ses s) -> rtcp_room (pkt s) (pkt_octet_len s) -> ctags_within SRTP_MAX_TAG_LEN ms ->
  exists s' res, srtp_protect_rtcp_mki addr ok use_mki mki_index s = Some (s', res) /\ ses_ok ms (ses s') /\
    (forall j, pkt_octet_len s + SRTCP_MAX_TRAILER_LEN <= j < zlen (pkt s) -> znth (pkt s') j = znth (pkt s) j) /\
    (res = inr tt -> exists y x k m, rtcp_ssrc (pkt s) = Some y /\ rtcp_outbound_at (ses s) y x /\
       srtp_get_session_keys_with_mki_index x use_mki mki_index = Some k /\ ms !! objs k = Some m /\
       let seq_num := window_start (rtcp_rdb x) + 1 in
       seq_num < 2 ^ 31 /\
       rtcp_sealed m (has_conf (rtcp_services x)) (mki_octets use_mki k) y seq_num (pkt s) (pkt_octet_len s)
         (pkt s') (pkt_octet_len s') /\
       exists r x', srtp_get_stream (ses s') y = Some r /\ stream_at (ses s') r = Some x' /\
         session_keys x' = session_keys x /\ window_start (rtcp_rdb x') = seq_num) /\
    (octets_in_rtcp_header <= pkt_octet_len s -> (forall i, ok i = true) -> can_protect_rtcp ms use_mki mki_index s -> res = inr tt).
Proof.
  intros Hses Hroom Htags.
  destruct (srtp_protect_rtcp_run ms addr ok use_mki mki_index s Hses Hroom Htags) as (s' & res & E & Hok & _ & _ & Hb & HS & HC).
  exists s', res. split_and!; try done. intros Hr.
  destruct (HS Hr) as (_ & y & x & k & m & Hy & Hx & Hk & Hm & Hsq & Hsl & r & x' & A1 & A2 & A3 & _ & A4).
  exists y, x, k, m. cbv zeta. split_and!; try done. by exists r, x'.
Qed.

(** C19: SRTCP authenticity.  [srtp_unprotect_rtcp_mki] is defined for every
    packet that an attacker can send and keeps the octets behind it and the
    invariant of the session.  When it accepts a packet, it has found a stream
    for its SSRC and keys, the encryption flag is the one of the policy, the
    index in the packet is new to the stream, the tag is the one computed over
    packet, flag and index, and the packet it returns is the decryption, without
    trailer, key identifier and tag. *)
Theorem srtp_unprotect_rtcp_authentic ms addr ok use_mki s :
  ses_ok ms (ses s) -> rtcp_in (pkt s) (pkt_octet_len s) -> tags_within octets_in_rtp_header ms ->
  ctags_within SRTP_MAX_TAG_LEN ms ->
  exists s' res, srtp_unprotect_rtcp_mki addr ok use_mki s = Some (s', res) /\ ses_ok ms (ses s') /\
    zlen (pkt s') = zlen (pkt s) /\ Forall is_u8 (pkt s') /\
    (forall j, 0 <= pkt_octet_len s <= j -> j < zlen (pkt s) -> znth (pkt s') j = znth (pkt s) j) /\
    (res = inr tt -> exists y r x k m mki, rtcp_ssrc (pkt s) = Some y /\ rtcp_inbound_at (ses s) y r x /\
       keys_at ms use_mki x (pkt s) (pkt_octet_len s) k m mki /\
       pkt_octet_len s' = pkt_octet_len s - km_ctag m - mki - srtcp_trailer_t /\
       rtcp_accepted m x (pkt s) (pkt_octet_len s) (pkt_octet_len s') mki /\
       rtcp_body m (has_conf (rtcp_services x)) (rtcp_iv (km_cid m) y (trailer_index (pkt s) (pkt_octet_len s'))) (pkt s)
         (pkt_octet_len s') (pkt s')).
Proof.
  intros Hses Hpkt Htags Hctags.
  destruct (srtp_unprotect_rtcp_run ms addr ok use_mki s Hses Hpkt Htags Hctags) as (s' & res & E & Hok & Hz & HF & Hout).
  exists s', res. split_and!; try done; destruct Hout as [(-> & [st Hst] & _)|Hout]; try done; [|by rewrite Hst|].
  - intros j Hj Hjz. destruct Hout as (y & r & x & k & m & o & mki & x' & o' & p' & evs' & res0 & _ & _ & _ & _ & _ & _ & Hop & Hres).
    pose proof (ro_outside _ _ _ _ _ _ _ _ _ _ _ _ _ _ Hop j ltac:(lia) ltac:(lia)) as Ho.
    destruct res0; [by destruct Hres as [-> _]|by destruct Hres as (c' & _ & ->)].
  - intros ->. destruct Hout as (y & r & x & k & m & o & mki & x' & o' & p' & evs' & res0 & _ & Hy & Hin & Hk & _ & _ & Hop & Hres).
    destruct res0 as [st|v]; [by destruct Hres|]. destruct Hres as (c' & _ & ->).
    destruct (ro_value _ _ _ _ _ _ _ _ _ _ _ _ _ _ Hop v eq_refl) as (_ & Hacc & Hb).
    exists y, r, x, k, m, mki. by split_and!.
Qed.

(** SRTCP forgeries leave no trace.  A packet that is not acceptable to the
    stream and the keys that it is taken for (its flag is wrong, its index is
    not new or its tag does not verify) is refused, and packet, length, streams
    with their replay databases, template and reported events are as before. *)
Theorem srtp_unprotect_rtcp_forgery ms addr ok use_mki s :
  ses_ok ms (ses s) -> rtcp_in (pkt s) (pkt_octet_len s) -> tags_within octets_in_rtp_header ms ->
  ctags_within SRTP_MAX_TAG_LEN ms ->
  (forall y r x k m mki, rtcp_ssrc (pkt s) = Some y -> rtcp_inbound_at (ses s) y r x ->
    keys_at ms use_mki x (pkt s) (pkt_octet_len s) k m mki ->
    ~ rtcp_accepted m x (pkt s) (pkt_octet_len s) (pkt_octet_len s - km_ctag m - mki - srtcp_trailer_t) mki) ->
  exists s' st, srtp_unprotect_rtcp_mki addr ok use_mki s = Some (s', inl st) /\ pkt s' = pkt s /\
    pkt_octet_len s' = pkt_octet_len s /\ stream_list (ses s') = stream_list (ses s) /\
    stream_template (ses s') = stream_template (ses s) /\ events s' = events s.
Proof.
  intros Hses Hpkt Htags Hctags Hbad.
  destruct (srtp_unprotect_rtcp_run ms addr ok use_mki s Hses Hpkt Htags Hctags) as (s' & res & E & _ & _ & _ & Hout).
  destruct Hout as [(-> & [st ->] & _)|Hout]; [by exists s, st|].
  destruct Hout as (y & r & x & k & m & o & mki & x' & o' & p' & evs' & res0 & _ & Hy & Hin & Hk & _ & Ho & Hop & Hres).
  destruct (ro_forged _ _ _ _ _ _ _ _ _ _ _ _ _ _ Hop) as (-> & -> & -> & st & ->); [by eapply Hbad|].
  destruct Hres as [-> ->]. exists (focus (ses s) r (objs k) (pkt_octet_len s) x o' (pkt s) (events s)), st.
  split; [done|]. unfold focus. cbn [ses pkt pkt_octet_len events]. by rewrite set_stream_id by apply (proj1 Hin).
Qed.

(** C20: SRTCP replays are refused.  A packet that was accepted is refused with
    [srtp_err_status_replay_fail] when it is presented to the resulting session
    again, and nothing changes. *)
Theorem srtp_unprotect_rtcp_no_replay ms addr ok use_mki s s' addr2 ok2 s2 :
  ses_ok ms (ses s) -> rtcp_in (pkt s) (pkt_octet_len s) -> tags_within octets_in_rtp_header ms ->
  ctags_within SRTP_MAX_TAG_LEN ms -> srtp_unprotect_rtcp_mki addr ok use_mki s = Some (s', inr tt) ->
  ses s2 = ses s' -> pkt s2 = pkt s -> pkt_octet_len s2 = pkt_octet_len s ->
  srtp_unprotect_rtcp_mki addr2 ok2 use_mki s2 = Some (s2, inl srtp_err_status_replay_fail).
Proof.
  intros Hses Hpkt Htags Hctags E Es2 Ep2 El2.
  destruct (srtp_unprotect_rtcp_run ms addr ok use_mki s Hses Hpkt Htags Hctags) as (s1 & res & E1 & Hok & _ & _ & Hout).
  rewrite E in E1. injection E1 as <- <-. destruct Hout as [(_ & [st Hst] & _)|Hout]; [done|].
  apply (rtcp_known_refused ms); rewrite ?Es2, ?Ep2, ?El2; try done. by eapply rtcp_processed_known.
Qed.

(** C18: SRTCP end to end.  From policies with the same keys, [srtp_create] makes
    a sending and a receiving session; the sender protects its first RTCP packet
    of up to 65534 octets under the index 1, the receiver gets that packet back,
    and a second copy of it is refused as a replay. *)
Theorem srtcp_end_to_end kernel p q y addr packet len :
  kernel_ready kernel -> rtcp_linked kernel p q y -> first_report y packet len ->
  exists c d s r,
    srtp_create kernel true [all_allocs] [p] = Some (srtp_err_status_ok, Some c) /\
    srtp_create kernel true [all_allocs] [q] = Some (srtp_err_status_ok, Some d) /\
    srtp_protect_rtcp addr (fun _ => true) (call c packet len) = Some (s, inr tt) /\
    wire32 (pkt s) len = trailer_word (has_conf (sec_serv (pol_rtcp p))) 1 /\
    srtp_unprotect_rtcp addr (fun _ => true) (call d (pkt s) (pkt_octet_len s)) = Some (r, inr tt) /\
    pkt_octet_len r = len /\ take (Z.to_nat len) (pkt r) = take (Z.to_nat len) packet /\
    let again := call (ses r) (pkt s) (pkt_octet_len s) in
    srtp_unprotect_rtcp addr (fun _ => true) again = Some (again, inl srtp_err_status_replay_fail).
Proof.
  intros Hker Hli Hfr. destruct (rtcp_linked_run kernel p q y addr packet len Hker Hli Hfr) as (c & d & ms & ms' & m & s & r & HE).
  destruct HE as [[Ec _] [Ed Hd] (Hts & Hcts & _) Es Hsl Hpin _ _ Eu Hok [Hl Ht] _].
  exists c, d, s, r. split_and!; try done; [apply Hsl|]. cbv zeta. apply (rtcp_known_refused ms'); try done.
  destruct (srtp_unprotect_rtcp_run ms' addr (fun _ => true) false (call d (pkt s) (pkt_octet_len s)))
    as (r1 & res & E1 & _ & _ & _ & Hout); [done..|].
  unfold srtp_unprotect_rtcp in Eu. rewrite Eu in E1. injection E1 as <- <-. destruct Hout as [(_ & [st Hst] & _)|Hout]; [done|].
  by apply (rtcp_processed_known ms' (fun _ => true) false (call d (pkt s) (pkt_octet_len s)) r).
Qed.

End Properties.

(** ** An example *)

#[local] Existing Instance example_locals.

(** The RTCP packet of the library's own test. *)
Definition example_report : list Z :=
  [0x81; 0xc8; 0x00; 0x0b; 0xca; 0xfe; 0xba; 0xbe] ++ replicate 16 0xab ++ replicate 148 0.

Lemma example_rtcp_room : rtcp_room example_report 24.
Proof. split; [by apply u8_list_dec|lia|done]. Qed.

Lemma example_first_report : first_report 0xbebafeca example_report 24.
Proof. split; [exact example_rtcp_room|unfold octets_in_rtcp_header; lia|reflexivity]. Qed.

Lemma example_rtcp_linked :
  rtcp_linked example_kernel (example_policy ssrc_specific) (example_policy ssrc_any_inbound) 0xbebafeca.
Proof.
  split.
  - split; [apply example_policy_ok|]. split; [by apply example_usable|]. right. split; reflexivity.
  - split; [apply example_policy_ok|]. split; [by apply example_usable|]. by left.
  - by split_and!.
  - simpl. done.
  - simpl. done.
  - left. reflexivity.
Qed.

Lemma example_rtcp_run :
  exists c d ms ms' m s r, first_rtcp_run example_kernel (example_policy ssrc_specific) (example_policy ssrc_any_inbound)
    0xbebafeca 0 example_report 24 c d ms ms' m s r.
Proof. apply rtcp_linked_run; [exact example_kernel_ready|exact example_rtcp_linked|exact example_first_report]. Qed.

Lemma srtcp_end_to_end_witness :
  exists c d s r,
    srtp_create example_kernel true [all_allocs] [example_policy ssrc_specific] = Some (srtp_err_status_ok, Some c) /\
    srtp_create example_kernel true [all_allocs] [example_policy ssrc_any_inbound] = Some (srtp_err_status_ok, Some d) /\
    srtp_protect_rtcp 0 (fun _ => true) (call c example_report 24) = Some (s, inr tt) /\
    wire32 (pkt s) 24 = 0x80000001 /\
    srtp_unprotect_rtcp 0 (fun _ => true) (call d (pkt s) (pkt_octet_len s)) = Some (r, inr tt) /\
    pkt_octet_len r = 24 /\ take (Z.to_nat 24) (pkt r) = take (Z.to_nat 24) example_report /\
    let again := call (ses r) (pkt s) (pkt_octet_len s) in
    srtp_unprotect_rtcp 0 (fun _ => true) again = Some (again, inl srtp_err_status_replay_fail).
Proof.
  change 0x80000001 with (trailer_word (has_conf (sec_serv (pol_rtcp (example_policy ssrc_specific)))) 1).
  apply (srtcp_end_to_end example_kernel _ _ 0xbebafeca 0 example_report 24).
  - exact example_kernel_ready.
  - exact example_rtcp_linked.
  - exact example_first_report.
Defined.

Lemma srtp_protect_rtcp_seals_witness :
  exists c ms s',
    srtp_create example_kernel true [all_allocs] [example_policy ssrc_specific] = Some (srtp_err_status_ok, Some c) /\
    srtp_protect_rtcp_mki 0 (fun _ => true) false 0 (call c example_report 24) = Some (s', inr tt) /\ ses_ok ms (ses s').
Proof.
  destruct example_rtcp_run as (c & d & ms & ms' & m & s & r & [(E & Hok & Htags & Hcan) _ _ _ _ _ _ _ _ _ _ _]).
  destruct (srtp_protect_rtcp_seals ms 0 (fun _ => true) false 0 (call c example_report 24)) as (s' & res & Ep & Hok' & _ & _ & HC);
    [exact Hok|exact example_rtcp_room|exact Htags|].
  exists c, ms, s'. split; [exact E|]. split; [|exact Hok'].
  rewrite HC in Ep; [exact Ep|apply (fq_len _ _ _ example_first_report)|reflexivity|exact Hcan].
Defined.

Lemma srtp_unprotect_rtcp_authentic_witness :
  exists d s r m x mki, srtp_unprotect_rtcp_mki 0 (fun _ => true) false (call d (pkt s) (pkt_octet_len s)) = Some (r, inr tt) /\
    rtcp_accepted m x (pkt s) (pkt_octet_len s) (pkt_octet_len r) mki.
Proof.
  destruct example_rtcp_run as (c & d & ms & ms' & m & s & r & [_ [_ Hd] (Hts & Hcts & _) _ _ Hpin _ _ Eu _ _ _]).
  destruct (srtp_unprotect_rtcp_authentic ms' 0 (fun _ => true) false (call d (pkt s) (pkt_octet_len s)))
    as (r1 & res & E1 & _ & _ & _ & _ & HA); [exact Hd|exact Hpin|exact Hts|exact Hcts|].
  unfold srtp_unprotect_rtcp in Eu. rewrite Eu in E1. injection E1 as <- <-.
  destruct (HA eq_refl) as (y & q & x & k & m1 & mki & _ & _ & _ & _ & Hacc & _).
  exists d, s, r, m1, x, mki. split; [exact Eu|exact Hacc].
Defined.

(** The unprotected packet with zeroes behind it: its flag says that it is not
    encrypted. *)
Lemma srtp_unprotect_rtcp_forgery_witness :
  exists d s' st,
    srtp_create example_kernel true [all_allocs] [example_policy ssrc_any_inbound] = Some (srtp_err_status_ok, Some d) /\
    srtp_unprotect_rtcp_mki 0 (fun _ => true) false (call d example_report 38) = Some (s', inl st) /\
    pkt s' = example_report /\ stream_list (ses s') = stream_list d.
Proof.
  destruct example_rtcp_run as (c & d & ms & ms' & m & s & r & [_ [Ed Hd] (Hts & Hcts & Hct & _) _ _ _ (r0 & x0 & k0 & Hin0 & Hk0 & Hm0 & Hsv0 & _) _ _ _ _ _]).
  destruct (srtp_unprotect_rtcp_forgery ms' 0 (fun _ => true) false (call d example_report 38)) as (s' & st & E & Ep & _ & Esl & _);
    [exact Hd|split; [apply example_rtcp_room|reflexivity|done]|exact Hts|exact Hcts| |].
  - intros y1 r1 x1 k1 m1 mki Hy1 Hin1 (_ & _ & Hm1 & _ & _ & -> & Hk1) [_ Hfl _ _]. injection Hy1 as <-.
    destruct (rtcp_inbound_unique _ _ _ _ _ _ Hin0 Hin1) as [-> ->]. rewrite Hk0 in Hk1. injection Hk1 as <-.
    rewrite Hm0 in Hm1. injection Hm1 as <-. rewrite Hsv0, Hct in Hfl. discriminate Hfl.
  - exists d, s', st. split; [exact Ed|]. split; [exact E|]. split; [exact Ep|exact Esl].
Defined.

Lemma srtp_unprotect_rtcp_no_replay_witness :
  exists d s r, srtp_unprotect_rtcp_mki 0 (fun _ => true) false (call d (pkt s) (pkt_octet_len s)) = Some (r, inr tt) /\
    let again := call (ses r) (pkt s) (pkt_octet_len s) in
    srtp_unprotect_rtcp_mki 0 (fun _ => true) false again = Some (again, inl srtp_err_status_replay_fail).
Proof.
  destruct example_rtcp_run as (c & d & ms & ms' & m & s & r & [_ [_ Hd] (Hts & Hcts & _) _ _ Hpin _ _ Eu _ _ _]).
  exists d, s, r. split; [exact Eu|].
  apply (srtp_unprotect_rtcp_no_replay ms' 0 (fun _ => true) false (call d (pkt s) (pkt_octet_len s)) r);
    [exact Hd|exact Hpin|exact Hts|exact Hcts|exact Eu|reflexivity..].
Defined.
