(* ===== verification/Sender.v ===== *)
(** The RTP sender of the daemon over libsrtp.

    The session layer implements the interface [SrtpLib] that rtpworker.c is
    verified against; with it, what the daemon puts on the wire is the
    counter-mode encryption of its RTP packets, under consecutive indices. *)

From S2P Require Import Prelude Err Prog SrtpTypes Replay Rdb Rdbx Key SrtpPolicy ByteOrder Util RtpWorker.
From S2P Require Import Sha1 Hmac Aes AesKeys AesIcm Cipher Kernel KernelRun SrtpStream SrtpCreate SrtpPacket SrtpRun SrtpXtn SrtpProcess.
From S2P Require Import SrtpSession SrtpProtect SrtpUnprotect SrtpSecure SrtpKeys SrtpCreated SrtpTheorems.

(** [srtp_backend_init()]: the library is initialised, its status ignored, and
    [srtpctx] is what [calloc] returns, NULL without memory. *)
Definition srtp_backend_init `{SrtpLib} (env : kernel_env) (calloc_ok : bool) (k : srtp_crypto_kernel_t)
    : option (srtp_crypto_kernel_t * option srtp_sender_context) :=
  '(k, _) ← srtp_init env k;
  Some (k, if calloc_ok then Some zeroed_sender else None).

Section Libsrtp.
Context `{BC : BlockCipher} `{LV : Locals}.
Context (kernel : srtp_crypto_kernel_t) (al : alloc_answers) (ok : Z -> bool) (addr : Z).
Context (Hkernel : kernel_ready kernel) (Haddr : 0 <= addr /\ addr + RTP_PKT_SIZE < 2 ^ 32).

(** ** The instance *)

(** No stream is authenticated. *)
Definition no_auth (ks : list srtp_session_keys_t) (sv : srtp_sec_serv_t) : Prop := has_auth sv = false.

(** A session of the sender: it satisfies the invariant and adds no tags. *)
Definition sender_session (ms : list keymat) (c : srtp_ctx_t) : Prop :=
  ses_ok ms c /\ tags_within SRTP_MAX_TAG_LEN ms /\ streams_with (of_keys no_auth) c.

Definition libsrtp_ready (c : srtp_ctx_t) : Prop := exists ms, sender_session ms c.

Definition libsrtp_create (p : srtp_policy_t) : option (srtp_err_status_t * option srtp_ctx_t) :=
  SrtpCreate.srtp_create kernel true [al] [p].

Definition libsrtp_protect (c : srtp_ctx_t) (p : list Z) (len : Z)
    : option (srtp_ctx_t * list Z * Z * srtp_err_status_t) :=
  '(s, r) ← SrtpPacket.srtp_protect addr ok (call c p len);
  Some (ses s, pkt s, pkt_octet_len s, status_of r).

Lemma no_auth_trailer ms ks sv : no_auth ks sv -> trailer_within 0 false ms ks sv.
Proof. intros Hna k m _ _. unfold tag_octets. rewrite Hna. done. Qed.

Lemma sender_policy_ok ssrc key : zlen key = MAX_KEY_LEN -> Forall is_u8 key -> policy_ok (sender_policy ssrc key).
Proof.
  intros Hz HF. split; simpl.
  - unfold MAX_SRTP_KEY_LEN. split; vm_compute; split; discriminate.
  - unfold MAX_SRTP_KEY_LEN. split; vm_compute; split; discriminate.
  - intros mk k Hin Hk. apply list_elem_of_singleton in Hin as ->. simpl in Hk. injection Hk as <-.
    split; [done|]. rewrite Hz. vm_compute. discriminate.
  - intros mk Hin. apply list_elem_of_singleton in Hin as ->. simpl. split; [|done]. change (zlen []) with 0. lia.
Qed.

(** What a new session of the sender looks like. *)
Lemma sender_created ssrc key ms c x :
  zlen key = MAX_KEY_LEN -> Forall is_u8 key ->
  stream_added kernel (sender_policy ssrc key) [] empty_ctx ms c x -> sender_session ms c.
Proof.
  intros Hz HF Hadd. pose proof (sender_policy_ok ssrc key Hz HF) as Hp.
  destruct (added_first_key kernel Hkernel _ _ _ _ Hp Hadd) as (l & k & m & o & El & Ems & Hof & _).
  destruct Hadd as [_ Hok Hnew _ _ [Hsl Htm]]. split; [done|]. split.
  - apply Forall_lookup. intros j m' Hm'. rewrite Ems in Hm'. rewrite (policy_mats_tag _ _ _ _ _ Hof Hm').
    vm_compute. split; discriminate.
  - split; rewrite ?Hsl, ?Htm; [|done]. repeat constructor. unfold of_keys, no_auth. by rewrite (sn_services _ _ _ Hnew).
Qed.

Lemma libsrtp_create_ok ssrc key :
  zlen key = MAX_KEY_LEN -> Forall is_u8 key ->
  exists st s, libsrtp_create (sender_policy ssrc key) = Some (st, s) /\
    (st = srtp_err_status_ok -> exists ctx, s = Some ctx /\ libsrtp_ready ctx).
Proof.
  intros Hz HF. pose proof (sender_policy_ok ssrc key Hz HF) as Hp. unfold libsrtp_create.
  destruct (create_one_run kernel Hkernel al _ Hp) as (st & c & E & Hc & _). exists st, c. split; [done|]. intros ->.
  destruct c as [c|].
  - destruct Hc as (_ & ms & x & Hadd). exists c. split; [done|]. exists ms. by eapply sender_created.
  - done.
Qed.

(** A call of the sender: no octet beyond the packet is touched. *)
Lemma sender_protect_run ms c p len :
  sender_session ms c -> zlen p = RTP_PKT_SIZE -> Forall is_u8 p -> 0 <= len <= RTP_PKT_SIZE ->
  exists s res, SrtpPacket.srtp_protect addr ok (call c p len) = Some (s, res) /\
    sender_session ms (ses s) /\ zlen (pkt s) = zlen p /\ Forall is_u8 (pkt s) /\ pkt_octet_len s = len /\
    (forall j, 0 <= j < 12 \/ len <= j < zlen p -> znth (pkt s) j = znth p j) /\
    (res = inr tt -> protected_as ms false 0 (call c p len) s) /\
    (srtp_validate_rtp_header p len = Some srtp_err_status_ok ->
     (forall y, hdr_ssrc p = Some y -> srtp_get_stream c y = None -> forall i, ok i = true) ->
     can_protect ms false 0 (call c p len) -> res = inr tt).
Proof.
  intros (Hok & Htags & Hna) Hz HF Hlen. unfold RTP_PKT_SIZE in *.
  destruct (srtp_protect_run_for 0 ms addr ok false 0 (call c p len)) as
    (s & res & E & Hok' & Hz' & HF' & Hbey & H12 & Hfail & HQ & HS & HC); try done.
  - split; simpl; [done|lia|lia|lia].
  - apply (streams_with_impl (of_keys no_auth)); [done|]. intros x Hx. by apply no_auth_trailer.
  - cbn [pkt ses pkt_octet_len call] in *. exists s, res. split; [exact E|]. split; [by split_and!; auto|].
    split; [done|]. split; [done|]. split; [|split; [|done]].
    + destruct res as [|[]]; [by apply Hfail|]. destruct (HS eq_refl) as (_ & y & x & k & m & est & _ & Hx & _ & Hk & Hm & Hsl & _).
      rewrite (sl_len _ _ _ _ _ _ _ _ _ _ Hsl). cbn [pkt_octet_len call].
      assert (has_auth (rtp_services x) = false) as Hx0.
      { destruct Hx as (_ & _ & [(r & _ & Hx)|(_ & t & Ht & _ & Hsv & _)]); [by apply (streams_with_at _ _ _ _ Hna) in Hx|].
        rewrite Hsv. by apply (proj2 Hna) in Ht. }
      unfold tag_octets. rewrite Hx0. change (zlen (mki_octets false k)) with 0. lia.
    + intros j [Hj|Hj]; [by apply H12|apply Hbey; lia].
Qed.

Lemma libsrtp_protect_ok c p len :
  libsrtp_ready c -> zlen p = RTP_PKT_SIZE -> Forall is_u8 p -> RTP_HEADER_LEN <= len <= RTP_PKT_SIZE ->
  exists c' p' len' st, libsrtp_protect c p len = Some (c', p', len', st) /\
    libsrtp_ready c' /\ zlen p' = zlen p /\ Forall is_u8 p' /\ 0 <= len' <= RTP_PKT_SIZE /\
    forall i, 0 <= i < RTP_HEADER_LEN -> znth p' i = znth p i.
Proof.
  intros [ms Hc] Hz HF Hlen. unfold RTP_HEADER_LEN in *.
  destruct (sender_protect_run ms c p len) as (s & res & E & Hc' & Hz' & HF' & Hl' & Hsame & _); [done..|lia|].
  unfold libsrtp_protect. rewrite E. eexists _, _, _, _. split; [done|]. split_and!; try done; try lia; [by exists ms|].
  intros i Hi. apply Hsame. by left.
Qed.

(** libsrtp is a library for the sender. *)
#[local] Instance libsrtp : SrtpLib :=
  {| srtp_ctx := srtp_ctx_t; srtp_ready := libsrtp_ready; RtpWorker.srtp_create := libsrtp_create;
     RtpWorker.srtp_protect := libsrtp_protect; srtp_create_ok := libsrtp_create_ok;
     srtp_protect_ok := libsrtp_protect_ok |}.

(** ** A running session *)

(** The session [c] sends with the key material [m] for the SSRC [y] (as it is
    in memory); [idx] is its newest index, and the key has [uses] uses left. *)
Record sending (ms : list keymat) (m : keymat) (y idx uses : Z) (c : srtp_ctx_t) : Prop := {
  sg_session : sender_session ms c;
  sg_room est n : n <= 65534 -> room (km_rtp m) (packet_iv (km_id m) y est) 0 n = true;
  sg_stream : exists r x k o, srtp_get_stream c y = Some r /\ stream_at c r = Some x /\
    aget (session_keys x) 0 = Some k /\ ms !! objs k = Some m /\ key_store c !! objs k = Some o /\
    num_left (limit o) = uses /\ rtp_services x = sec_serv_conf /\ enc_xtn_hdr x = [] /\ pending_roc x = 0 /\
    index (rtp_rdbx x) = idx
}.

(** A packet of the sender: version 2 without CSRCs or extension. *)
Record sender_packet (y seq : Z) (p : list Z) : Prop := {
  sp_len : zlen p = RTP_PKT_SIZE;
  sp_u8 : Forall is_u8 p;
  sp_first : znth p 0 = 0x80;
  sp_ssrc : hdr_ssrc p = Some y;
  sp_seq : wire16 p 2 = seq
}.

Lemma sender_packet_portion y seq p : sender_packet y seq p -> enc_portion p = Some (12, None).
Proof.
  intros [Hz HF H0 _ _]. unfold RTP_PKT_SIZE in Hz. unfold enc_portion, hdr_cc, hdr_x. rewrite !aget_znth by lia. by rewrite H0.
Qed.

(** The key counter goes down by one. *)
Lemma key_limit_used l :
  2 <= num_left l < 2 ^ 64 -> snd (srtp_key_limit_update l) <> srtp_key_event_hard_limit /\
  num_left (fst (srtp_key_limit_update l)) = num_left l - 1.
Proof.
  intros Hl. unfold srtp_key_limit_update. rewrite wrap_id by (unfold fits; lia).
  repeat case_if; simpl; split; done || lia.
Qed.

(** One packet. *)
Lemma sending_step ms m y idx uses c p len :
  sending ms m y idx uses c -> sender_packet y ((idx + 1) mod 2 ^ 16) p -> RTP_HEADER_LEN <= len <= RTP_PKT_SIZE ->
  0 <= idx -> idx + 1 < 2 ^ 48 -> 2 <= uses < 2 ^ 64 ->
  exists c' p', libsrtp_protect c p len = Some (c', p', len, srtp_err_status_ok) /\
    sending ms m y (idx + 1) (uses - 1) c' /\
    take (Z.to_nat (len - 12)) (drop 12 p') =
      crypt (km_rtp m) (packet_iv (km_id m) y (idx + 1)) 0 (take (Z.to_nat (len - 12)) (drop 12 p)).
Proof.
  intros [Hses Hroom (r & x & k & o & Hg & Hx & Hk & Hm & Ho & Huse & Hsv & Hids & Hroc & Hix)] Hp Hlen Hi Hi' Hu.
  pose proof Hp as [Hz HF H0 Hy Hseq]. unfold RTP_HEADER_LEN, RTP_PKT_SIZE in *.
  pose proof (sender_packet_portion _ _ _ Hp) as Ep.
  destruct (sender_protect_run ms c p len Hses) as (s & res & E & Hses' & Hz' & HF' & Hl' & Hsame & HS & HC);
    [unfold RTP_PKT_SIZE; lia|done|unfold RTP_PKT_SIZE; lia|].
  pose proof (ses_ok_stream _ _ _ _ (proj1 Hses) Hx) as Hwf.
  destruct (rdbx_next (rtp_rdbx x)) as (He & Hc & Hadd); [apply Hwf|unfold fits; lia|unfold fits; lia|].
  assert (u16 (index (rtp_rdbx x) + 1) = wire16 p 2) as Hsq by (rewrite Hseq, Hix; done). rewrite Hsq, Hix in He.
  destruct (key_limit_used (limit o)) as [Hhard Hleft]; [lia|].
  assert (forall x', outbound_at c y x' -> x' = x) as Huniq.
  { intros x' (_ & _ & [(r' & Hg' & Hx')|(Hg' & _)]); rewrite Hg in Hg'; [|done]. injection Hg' as <-. congruence. }
  assert (res = inr tt) as ->.
  { apply HC.
    - destruct (validate_portion p len HF ltac:(lia)) as (st & Ev & _ & Hiff). rewrite Ev. f_equal. apply Hiff.
      exists 12, None. split; [done|lia].
    - intros y' Hy' Hn. rewrite Hy in Hy'. injection Hy' as <-. congruence.
    - split; cbn [pkt ses pkt_octet_len call].
      + exists y, x. split; [done|]. destruct (get_stream_Some _ _ _ Hg) as (j & x' & -> & Hx' & Hxy).
        rewrite Hx' in Hx. injection Hx as ->. split; [done|]. split; [apply Hwf|left; by exists (InList j)].
      + intros y' x' Hy' Hx'. rewrite Hy in Hy'. injection Hy' as <-. rewrite (Huniq x' Hx').
        exists k, m, o, (idx + 1), 1. split_and!; try done. split; try done; [intros Ha; by rewrite Hsv in Ha|].
        intros start xo _ Ep'. rewrite Ep in Ep'. injection Ep' as <- <-. unfold payload_pos. rewrite Hsv. cbn [has_auth].
        split; [apply Hroom; lia|by left]. }
  destruct (HS eq_refl) as (_ & y' & x0 & k' & m' & est & Hy' & Hx0 & _ & Hk' & Hm' & Hsl & r' & x' & Hg' & Hx' & Hstep & Hrec & Hcnt).
  cbn [pkt ses pkt_octet_len call] in *. rewrite Hy in Hy'. injection Hy' as <-. rewrite (Huniq x0 Hx0) in *.
  unfold srtp_get_session_keys_with_mki_index in Hk'. rewrite Hk in Hk'. injection Hk' as <-. rewrite Hm in Hm'. injection Hm' as <-.
  destruct (Hrec Hroc) as (delta & rx & He' & _ & Ha & Hrx & Hroc'). rewrite He in He'. injection He' as <- <-.
  exists (ses s), (pkt s). split; [unfold libsrtp_protect; rewrite E; cbn [mbind option_bind status_of]; by rewrite Hl'|].
  destruct (Hcnt o Ho) as (o' & Ho' & Hlim). destruct Hstep as (_ & Hks & Hsv' & Hids' & _).
  split.
  - split; [done|done|]. exists r', x', k, o'. split_and!; try done; try congruence. by rewrite Hrx, (Hadd _ _ Ha), Hix.
  - pose proof (sl_body _ _ _ _ _ _ _ _ _ _ Hsl) as Hb. cbv zeta in Hb. rewrite Hsv in Hb. cbn [has_conf] in Hb.
    destruct Hb as (start & xo & Ep' & _ & _ & _ & Hb). rewrite Ep in Ep'. injection Ep' as <- <-. exact Hb.
Qed.

(** ** A running sender *)

(** The sender context [c] between frames: its next packet has the index after
    [idx]. *)
Record sender_running (ms : list keymat) (m : keymat) (y idx uses : Z) (c : @srtp_sender_context libsrtp) : Prop := {
  sr_session : exists s, srtp_ctx_p c = Some s /\ sending ms m y idx uses s;
  sr_packet : sender_packet y (idx mod 2 ^ 16) (message c)
}.

Lemma sender_running_ok ms m y idx uses c : sender_running ms m y idx uses c -> @sender_ok libsrtp c.
Proof.
  intros [(s & Hs & Hsd) [Hz HF _ _ _]]. split_and!; try done. exists s. split; [done|]. exists ms. apply Hsd.
Qed.

(** The packet on the wire for [plain], under the index [i]. *)
Definition encrypted_as (m : keymat) (y i : Z) (plain pkt : list Z) : Prop :=
  zlen pkt = zlen plain /\ take 12 pkt = take 12 plain /\
  drop 12 pkt = crypt (km_rtp m) (packet_iv (km_id m) y i) 0 (drop 12 plain).

(** The SSRC field depends on its octets. *)
Lemma ssrc_same p q :
  Forall is_u8 p -> Forall is_u8 q -> 12 <= zlen p -> 12 <= zlen q -> (forall j, 8 <= j < 12 -> znth q j = znth p j) ->
  hdr_ssrc q = hdr_ssrc p.
Proof. intros HF HF' Hz Hz' Hj. unfold hdr_ssrc, get32. rewrite !get16_Some by (done || lia). by rewrite !Hj by lia. Qed.

(** Header and body of the two packets. *)
Lemma encrypted_packet m y i p p' len plain pkt :
  zlen p = RTP_PKT_SIZE -> zlen p' = RTP_PKT_SIZE -> 0 <= len <= RTP_PKT_BODY_SIZE ->
  slice p 0 (len + RTP_HEADER_LEN) = Some plain -> slice p' 0 (len + RTP_HEADER_LEN) = Some pkt ->
  (forall j, 0 <= j < RTP_HEADER_LEN -> znth p' j = znth plain j) ->
  take (Z.to_nat (len + 12 - 12)) (drop 12 p') =
    crypt (km_rtp m) (packet_iv (km_id m) y i) 0 (take (Z.to_nat (len + 12 - 12)) (drop 12 p)) ->
  encrypted_as m y i plain pkt.
Proof.
  unfold RTP_PKT_SIZE. change RTP_HEADER_LEN with 12. change RTP_PKT_BODY_SIZE with 1366.
  intros Hz Hz' Hlen E E' Hh Hb.
  assert (forall q w, slice q 0 (len + 12) = Some w -> zlen q = 1378 ->
    zlen w = len + 12 /\ drop 12 w = take (Z.to_nat (len + 12 - 12)) (drop 12 q)) as Hs.
  { intros q w Eq Hq. rewrite slice_Some in Eq by lia. change (Z.to_nat 0) with 0%nat in Eq. rewrite drop_0 in Eq. injection Eq as <-.
    split; [rewrite zlen_take by lia; lia|]. rewrite skipn_firstn_comm. f_equal. lia. }
  destruct (Hs _ _ E Hz) as [Zp Dp], (Hs _ _ E' Hz') as [Zk Dk].
  split; [lia|]. split; [|by rewrite Dk, Dp].
  change 12%nat with (Z.to_nat 12). apply prefix_ext; try lia. intros j Hj.
  rewrite <- (Hh j Hj). apply (znth_slice _ 0 _ _ _ E'). lia.
Qed.

Lemma sender_running_step ms m y idx uses c data offset len :
  sender_running ms m y idx uses c -> Forall is_u8 data -> 0 <= len <= RTP_PKT_BODY_SIZE -> 0 <= offset ->
  offset + len <= zlen data -> 0 <= idx -> idx + 1 < 2 ^ 48 -> 2 <= uses < 2 ^ 64 ->
  exists c' plain pkt, send_segment c data offset len = Some (c', [EvProtect plain; EvSendto (sock c) pkt]) /\
    sender_running ms m y (idx + 1) (uses - 1) c' /\ plain_packet (message c) data offset len 0 plain /\
    (forall c0 k, sender_at c0 k c -> sender_at c0 (k + 1) c' /\ plain_packet (message c0) data offset len k plain) /\
    encrypted_as m y (idx + 1) plain pkt.
Proof.
  intros Hrun HFd Hlen Ho Hod Hi Hi' Hu.
  destruct (send_segment_run c data offset len) as
    (s & p & s' & p' & len' & st & plain & pkt' & Hs & Hrd & Hz & HF & Epl & Hpp & Epr & Hrd' & Hz' & HF' & Hl' & Hh & Epk & E);
    [by eapply sender_running_ok|done..|].
  destruct Hrun as [(s1 & Hs1 & Hsd) [Zm Fm H0 Hy Hseq]]. rewrite Hs in Hs1. injection Hs1 as <-.
  unfold RTP_PKT_SIZE in *. change RTP_HEADER_LEN with 12 in *. change RTP_PKT_BODY_SIZE with 1366 in *.
  assert (forall j, 0 <= j < 12 -> znth p j = znth plain j) as Hpj
    by (intros j Hj; symmetry; apply (znth_slice _ 0 _ _ _ Epl); lia).
  pose proof (pp_fixed _ _ _ _ _ _ Hpp) as Hfix. unfold OFF_SEQ, OFF_SSRC, RTP_HEADER_LEN in Hfix.
  assert (wire16 p 2 = (idx + 1) mod 2 ^ 16) as Hsq.
  { rewrite (wire16_same plain) by (intros; apply Hpj; lia). pose proof (pp_seq _ _ _ _ _ _ Hpp) as Eq. unfold OFF_SEQ in Eq.
    rewrite Eq, Hseq, <- Z.add_assoc, Zplus_mod_idemp_l. done. }
  assert (sender_packet y ((idx + 1) mod 2 ^ 16) p) as Hsp.
  { split; try done; [by rewrite Hpj, Hfix by lia|]. rewrite <- Hy.
    apply ssrc_same; try done; try lia. intros j Hj. rewrite Hpj, Hfix by lia. done. }
  destruct (sending_step ms m y idx uses s p (len + 12)) as (s2 & p2 & E2 & Hsd' & Hcr); try done;
    [unfold RTP_HEADER_LEN, RTP_PKT_SIZE; lia|].
  change (RtpWorker.srtp_protect s p (len + 12)) with (libsrtp_protect s p (len + 12)) in Epr. rewrite E2 in Epr.
  injection Epr as <- <- <- _.
  eexists _, plain, pkt'. split; [exact E|]. split; [|split; [exact Hpp|split]].
  - assert (forall j, 0 <= j < 12 -> znth p2 j = znth p j) as Hj2 by (intros j Hj; rewrite Hh, Hpj by lia; done).
    split; [by exists s2|]. destruct Hsp as [_ _ P0 Py Ps]. cbn [message with_session with_message]. split; try done.
    + by rewrite Hj2 by lia.
    + rewrite <- Py. apply ssrc_same; try done; try lia. intros j Hj. apply Hj2. lia.
    + rewrite <- Ps. apply wire16_same. intros j Hj. apply Hj2. lia.
  - intros c0 k Hat. eapply sender_at_next; try done.
  - eapply (encrypted_packet _ _ _ p p2 len); done.
Qed.

(** A frame of the camera over libsrtp: the callback returns, with the sender
    still running, and each packet on the wire has the header of the RTP packet
    of its segment in the clear and its body encrypted in counter mode, under
    the session key and the index of that packet; the index counts the packets
    sent since the session was created, without gaps or repetitions. *)
Lemma camera_frame_encrypted ms m y idx uses c data length :
  sender_running ms m y idx uses c -> Forall is_u8 data ->
  0 <= length < 2 ^ 31 - RTP_PKT_BODY_SIZE -> length + RTP_PKT_BODY_SIZE <= zlen data ->
  0 <= idx -> idx + packet_count length < 2 ^ 48 -> packet_count length < uses < 2 ^ 64 ->
  exists c' evs, srtp_sender_callback c data length = Some (c', evs) /\
    sender_running ms m y (idx + packet_count length) (uses - packet_count length) c' /\ sock c' = sock c /\
    zlen evs = 2 * packet_count length /\
    forall k, 0 <= k < packet_count length -> exists plain pkt,
      aget evs (2 * k) = Some (EvProtect plain) /\ aget evs (2 * k + 1) = Some (EvSendto (sock c) pkt) /\
      plain_packet (message c) data (segment_start length (k + 1)) (segment_len length k) k plain /\
      encrypted_as m y (idx + k + 1) plain pkt.
Proof.
  intros Hrun HF Hlen Hdata Hi Hi' Hu.
  destruct (sender_loop_spec (fun k c1 => sender_at c k c1 /\ sender_running ms m y (idx + k) (uses - k) c1)
    (fun k plain pkt => plain_packet (message c) data (segment_start length (k + 1)) (segment_len length k) k plain /\
      encrypted_as m y (idx + k + 1) plain pkt)
    data length (sock c) Hlen) with (fuel := S (Z.to_nat length)) (c := c) (k0 := 0)
    as (c' & evs & E & [Hat HI] & Hl & Hk).
  - intros k c1 Hk [Hat Hc1]. destruct (segment_bounds data length k) as (B1 & B2 & B3); [lia|done|done|].
    destruct (sender_running_step ms m y (idx + k) (uses - k) c1 data (segment_start length (k + 1)) (segment_len length k))
      as (c' & plain & pkt & E & Hc' & _ & Hnext & Henc); [done..|lia|lia|lia|].
    destruct (Hnext c k Hat) as [Hat' Hp']. exists c', plain, pkt. rewrite (st_sock _ _ _ Hat) in E.
    split; [exact E|]. split; [|done]. split; [done|]. by rewrite !Z.add_assoc, Z.sub_add_distr.
  - rewrite Z.add_0_r, Z.sub_0_r. split; [|done]. apply sender_at_start. by eapply sender_running_ok.
  - unfold packet_count. change RTP_PKT_BODY_SIZE with 1366 in *. lia.
  - unfold packet_count. change RTP_PKT_BODY_SIZE with 1366 in *. lia.
  - exists c', evs. unfold srtp_sender_callback. replace (segment_start length 0) with 0 in E by (unfold segment_start; lia).
    split; [exact E|]. split; [exact HI|]. split; [apply Hat|]. split; [rewrite Hl; f_equal; lia|]. intros k Hk0.
    destruct (Hk k Hk0) as (plain & pkt & E1 & E2 & Hp & He). exists plain, pkt. rewrite Z.sub_0_r in E1, E2. by split_and!.
Qed.

(** ** The session that the sender creates *)

Lemma sender_objects :
  let pol := with_sec_serv srtp_crypto_policy_set_aes_cm_128_hmac_sha1_80 sec_serv_conf in
  exists c a, srtp_crypto_kernel_alloc_cipher kernel true true (cipher_type pol) (cipher_key_len pol) =
      (srtp_err_status_ok, Some c) /\
    srtp_crypto_kernel_alloc_auth kernel true (auth_type pol) (SrtpPolicy.auth_key_len pol) (auth_tag_len pol) =
      (srtp_err_status_ok, Some a).
Proof.
  intros pol. unfold srtp_crypto_kernel_alloc_cipher, srtp_crypto_kernel_alloc_auth.
  rewrite !decide_False by (rewrite (kr_secure _ Hkernel); auto).
  change (cipher_type pol) with SRTP_AES_ICM_128. change (auth_type pol) with SRTP_HMAC_SHA1.
  rewrite (kr_icm_128 _ Hkernel), (kr_hmac _ Hkernel). by eexists _, _.
Qed.

(** Nothing but memory can be missing for the sender's policy. *)
Lemma sender_usable ssrc key : zlen key = MAX_KEY_LEN -> usable kernel (sender_policy ssrc key).
Proof.
  intros Hz. split; [done|]. split; [|split; [by left|split; [by left|done]]].
  destruct sender_objects as (c & a & Ec & Ea). unfold srtp_stream_alloc.
  cbn [pol_key sender_policy negb orb Z.eqb pol_enc_xtn_hdr]. change (Z.to_nat 1) with 1%nat. cbn [collect]. unfold alloc_objs.
  cbn [pol_rtp pol_rtcp sender_policy]. rewrite Ec, Ea. by eexists.
Qed.

(** The SSRC in memory is the one of the header in network order. *)
Lemma hdr_ssrc_wire p : Forall is_u8 p -> 12 <= zlen p -> hdr_ssrc p = Some (htonl (wire32 p 8)).
Proof.
  intros HF Hz. unfold hdr_ssrc, get32. rewrite !get16_Some by (done || lia). cbn [mbind option_bind].
  unfold htonl, wire32, wire16.
  pose proof (znth_Forall is_u8 p 8 HF ltac:(lia)) as H8. pose proof (znth_Forall is_u8 p 9 HF ltac:(lia)) as H9.
  pose proof (znth_Forall is_u8 p 10 HF ltac:(lia)) as H10. pose proof (znth_Forall is_u8 p 11 HF ltac:(lia)) as H11.
  change (8 + 2 + 1) with 11. change (8 + 2) with 10. change (8 + 1) with 9.
  rewrite lor_shiftl_add by (unfold fits in *; lia). f_equal.
  rewrite wrap_id by (unfold fits in *; lia). rewrite bswap32_value.
  replace ((znth p 8 * 2 ^ 8 + znth p 9) * 2 ^ 16 + (znth p 10 * 2 ^ 8 + znth p 11))
    with (znth p 11 + znth p 10 * 2 ^ 8 + znth p 9 * 2 ^ 16 + znth p 8 * 2 ^ 24) by lia.
  destruct (digits_low (znth p 11) (znth p 10) (znth p 9) (znth p 8)) as (-> & -> & -> & ->); [done..|]. lia.
Qed.

(** A new session is ready for packet 1, of 2^48 - 1 key uses. *)
Lemma created_sending ssrc key ms c x :
  zlen key = MAX_KEY_LEN -> Forall is_u8 key -> stream_added kernel (sender_policy ssrc key) [] empty_ctx ms c x ->
  exists l m, srtp_stream_alloc kernel (fun _ => true) (sender_policy ssrc key) = inr l /\
    policy_mats (sender_policy ssrc key) l !! 0%nat = Some m /\ sending ms m (htonl (u32 ssrc)) 0 0xffffffffffff c.
Proof.
  intros Hz HF Hadd. pose proof (sender_policy_ok ssrc key Hz HF) as Hp.
  destruct (added_first_key kernel Hkernel _ _ _ _ Hp Hadd) as (l & k & m & o & El & Ems & Hof & Hk & Hob & Hm & Ho & Hoo & _).
  exists l, m. split; [done|]. split; [done|]. split.
  - by eapply sender_created.
  - intros est n Hn. by eapply created_room.
  - pose proof Hadd as [_ _ Hnew _ Hlim [Hsl _]]. destruct Hnew as [_ Hss Hsv _ Hids Hroc _ [Hix _] _].
    exists (InList 0), x, k, o. rewrite Hob, Ems.
    rewrite (Hlim 0%nat o ltac:(simpl; lia) Ho). split_and!; try done.
    + unfold srtp_get_stream. rewrite Hsl. simpl. by rewrite decide_True by done.
    + simpl. by rewrite Hsl.
Qed.

(** Over libsrtp the set-up of the sender ends with a sender that is running:
    given 30 octets of key and salt in base64 and the memory it asks for, it
    returns a context whose next packet has the index 1, whose session keys
    are derived from exactly those octets, and whose key can be used 2^48 - 1
    times; when memory is missing, the process ends. *)
Lemma prepare_srtp_sender_running c key0 pad0 rcvr_addr new_sock port ssrc s rest :
  zlen (message c) = RTP_PKT_SIZE -> Forall is_u8 (message c) -> zlen key0 = MAX_KEY_LEN -> Forall is_u8 key0 ->
  Forall is_u8 s -> List.length s = 30%nat ->
  let r := prepare_srtp_sender c key0 pad0 rcvr_addr new_sock true port ssrc (base64_encode s ++ 0 :: rest) in
  (r = Exit (-1) /\ al <> all_allocs) \/
  exists c' ms key l m, r = Ret c' /\ take 30 key = s /\
    srtp_stream_alloc kernel (fun _ => true) (sender_policy ssrc key) = inr l /\
    policy_mats (sender_policy ssrc key) l !! 0%nat = Some m /\ sock c' = new_sock /\
    sender_running ms m (htonl (u32 ssrc)) 0 0xffffffffffff c'.
Proof.
  intros Hl HF Hk HFk Hs Hls r.
  destruct (prepare_run c key0 pad0 rcvr_addr new_sock port ssrc s rest) as (h & key & st & session & Hh & Hks & Hz & HFkey & Ec & _ & E);
    [done..|].
  change (libsrtp_create (sender_policy ssrc key) = Some (st, session)) in Ec. unfold libsrtp_create in Ec.
  destruct (create_one_run kernel Hkernel al _ (sender_policy_ok ssrc key Hz HFkey)) as (st' & c1 & E1 & Hc1 & Hall).
  rewrite Ec in E1. injection E1 as <- <-. destruct session as [ctx|].
  - right. destruct Hc1 as (-> & ms & x & Hadd). destruct (created_sending _ _ _ _ _ Hz HFkey Hadd) as (l & m & El & Em & Hsend).
    eexists _, ms, key, l, m. split; [exact E|]. split_and!; try done. split; [by exists ctx|].
    destruct Hh as [A B C _ D _ F]. split; try done. cbn [message]. unfold RTP_PKT_SIZE, OFF_SSRC in *. rewrite hdr_ssrc_wire by (done || lia). by rewrite F.
  - left. split; [|intros Hal; by destruct (Hall Hal (sender_usable ssrc key Hz))].
    unfold r. rewrite E. rewrite decide_False by (by intros ->). done.
Qed.

(** ** The stream *)

(** The encoder's callbacks, one per frame: its octets and its length. *)
Fixpoint send_frames (c : srtp_sender_context) (frames : list (list Z * Z)) : option (srtp_sender_context * list rtp_event) :=
  match frames with
  | [] => Some (c, [])
  | (data, length) :: frames =>
      '(c, evs) ← srtp_sender_callback c data length;
      '(c, evs') ← send_frames c frames; Some (c, evs ++ evs')
  end.

Definition frame_ok (f : list Z * Z) : Prop :=
  Forall is_u8 f.1 /\ 0 <= f.2 < 2 ^ 31 - RTP_PKT_BODY_SIZE /\ f.2 + RTP_PKT_BODY_SIZE <= zlen f.1.

Definition total_packets (frames : list (list Z * Z)) : Z := foldr (fun f n => packet_count f.2 + n) 0 frames.

Lemma packet_count_nonneg length : 0 <= length -> 0 <= packet_count length.
Proof. unfold packet_count. change RTP_PKT_BODY_SIZE with 1366. lia. Qed.

Lemma total_packets_nonneg frames : Forall frame_ok frames -> 0 <= total_packets frames.
Proof.
  induction 1 as [|f frames (_ & Hl & _) _ IH]; [done|]. simpl. pose proof (packet_count_nonneg f.2). lia.
Qed.

Lemma aget_lt {A} (l : list A) i v : aget l i = Some v -> i < zlen l.
Proof. unfold aget, zlen. case_decide; [|done]. intros ?%lookup_lt_Some. lia. Qed.

(** The [n]th packet behind the index [idx], as it is handed to the library and
    on the wire. *)
Definition packet_sent (m : keymat) (y idx fd : Z) (evs : list rtp_event) (n : Z) : Prop :=
  exists plain pkt, aget evs (2 * n) = Some (EvProtect plain) /\ aget evs (2 * n + 1) = Some (EvSendto fd pkt) /\
    wire16 plain OFF_SEQ = (idx + n + 1) mod 2 ^ 16 /\ encrypted_as m y (idx + n + 1) plain pkt.

Lemma packet_sent_app m y idx fd evs evs' n :
  0 <= n -> packet_sent m y idx fd evs n -> packet_sent m y idx fd (evs ++ evs') n.
Proof.
  intros Hn (plain & pkt & E1 & E2 & H). exists plain, pkt.
  split; [|split; [|done]]; rewrite aget_app by lia; rewrite decide_True by (eapply aget_lt; eassumption); done.
Qed.

Lemma packet_sent_shift m y idx fd evs evs' d n :
  zlen evs = 2 * d -> d <= n -> packet_sent m y (idx + d) fd evs' (n - d) -> packet_sent m y idx fd (evs ++ evs') n.
Proof.
  intros Hz Hd (plain & pkt & E1 & E2 & H1 & H2). exists plain, pkt. pose proof (zlen_nonneg evs).
  rewrite !aget_app by lia. rewrite !decide_False by lia. rewrite Hz.
  replace (2 * n - 2 * d) with (2 * (n - d)) by lia. replace (2 * n + 1 - 2 * d) with (2 * (n - d) + 1) by lia.
  replace (idx + d + (n - d) + 1) with (idx + n + 1) in H1, H2 by lia. by split_and!.
Qed.

Lemma send_frames_run ms m y frames : Forall frame_ok frames -> forall idx uses c,
  sender_running ms m y idx uses c -> 0 <= idx -> idx + total_packets frames < 2 ^ 48 -> total_packets frames < uses < 2 ^ 64 ->
  exists c' evs, send_frames c frames = Some (c', evs) /\
    sender_running ms m y (idx + total_packets frames) (uses - total_packets frames) c' /\
    zlen evs = 2 * total_packets frames /\
    forall n, 0 <= n < total_packets frames -> packet_sent m y idx (sock c) evs n.
Proof.
  induction 1 as [|[data length] frames (HF & Hl & Hd) Hfr IH]; intros idx uses c Hrun Hi Hi' Hu.
  { exists c, []. rewrite Z.add_0_r, Z.sub_0_r. split; [done|]. split; [done|]. split; [done|]. intros n Hn. change (0 <= n < 0) in Hn. lia. }
  cbn [fst snd] in HF, Hl, Hd. pose proof (packet_count_nonneg length ltac:(lia)). pose proof (total_packets_nonneg _ Hfr).
  change (total_packets ((data, length) :: frames)) with (packet_count length + total_packets frames) in *.
  destruct (camera_frame_encrypted ms m y idx uses c data length) as (c1 & evs1 & E1 & Hc1 & Hsock & Hz1 & Hk1); [done..|lia|lia|].
  destruct (IH _ _ _ Hc1) as (c2 & evs2 & E2 & Hc2 & Hz2 & Hk2); [lia..|].
  exists c2, (evs1 ++ evs2). cbn [send_frames]. rewrite E1. cbn [mbind option_bind]. rewrite E2. split; [done|].
  split; [by rewrite Z.add_assoc, Z.sub_add_distr|]. split; [rewrite zlen_app; lia|]. intros n Hn.
  destruct (decide (n < packet_count length)) as [Hlt|Hge].
  - apply packet_sent_app; [lia|]. destruct (Hk1 n ltac:(lia)) as (plain & pkt & G1 & G2 & Hp & He). exists plain, pkt.
    split_and!; try done. rewrite (pp_seq _ _ _ _ _ _ Hp). destruct Hrun as [_ [_ _ _ _ Hseq]]. unfold OFF_SEQ.
    rewrite Hseq, <- Z.add_assoc, Zplus_mod_idemp_l. f_equal. lia.
  - eapply packet_sent_shift; [done|lia|]. rewrite <- Hsock. apply Hk2. lia.
Qed.

(** C17: The daemon's stream over libsrtp.  Given 30 octets of key and salt in
    base64, the set-up of the sender either ends the process, for want of
    memory, or returns a context with which any frames can be sent, up to
    2^48 - 2 packets: the callbacks return, and the [n]th packet of the stream
    (from 0) goes to the socket with its sequence number [n + 1] and its header
    in the clear and its body encrypted in counter mode, with the session key
    derived from the master key and the initial value of index [n + 1].  The
    index never wraps or repeats, whatever the roll-overs of the sequence
    number. *)
Theorem camera_stream_encrypted c key0 pad0 rcvr_addr new_sock port ssrc s rest :
  zlen (message c) = RTP_PKT_SIZE -> Forall is_u8 (message c) -> zlen key0 = MAX_KEY_LEN -> Forall is_u8 key0 ->
  Forall is_u8 s -> List.length s = 30%nat ->
  let r := prepare_srtp_sender c key0 pad0 rcvr_addr new_sock true port ssrc (base64_encode s ++ 0 :: rest) in
  (r = Exit (-1) /\ al <> all_allocs) \/
  exists c' key l m, r = Ret c' /\ take 30 key = s /\
    srtp_stream_alloc kernel (fun _ => true) (sender_policy ssrc key) = inr l /\
    policy_mats (sender_policy ssrc key) l !! 0%nat = Some m /\
    forall frames, Forall frame_ok frames -> total_packets frames < 2 ^ 48 - 1 ->
      exists c'' evs, send_frames c' frames = Some (c'', evs) /\ zlen evs = 2 * total_packets frames /\
        forall n, 0 <= n < total_packets frames -> packet_sent m (htonl (u32 ssrc)) 0 new_sock evs n.
Proof.
  intros Hl HF Hk HFk Hs Hls r.
  destruct (prepare_srtp_sender_running c key0 pad0 rcvr_addr new_sock port ssrc s rest)
    as [Hx|(c' & ms & key & l & m & E & Hks & El & Em & Hsock & Hrun)]; [done..|by left|].
  right. exists c', key, l, m. split; [exact E|]. split_and!; try done. intros frames Hfr Htot.
  destruct (send_frames_run ms m _ frames Hfr _ _ _ Hrun) as (c'' & evs & Ef & _ & Hz & Hn); [lia..|].
  rewrite Hsock in Hn. by exists c'', evs.
Qed.

End Libsrtp.

(** What [main] starts from: the kernel is ready for [prepare_srtp_sender]
    when every self test passes and its lists can be allocated; otherwise it is
    insecure, which nothing checks at this point. *)
Lemma srtp_backend_init_starts `{SrtpLib} env calloc_ok :
  exists k, srtp_backend_init env calloc_ok crypto_kernel = Some (k, if calloc_ok then Some zeroed_sender else None) /\
    if env_passes env then kernel_ready k else kernel_state k = srtp_crypto_kernel_state_insecure.
Proof.
  destruct (srtp_init_once env) as (k & r & E & _ & Hk & _). exists k. unfold srtp_backend_init. by rewrite E.
Qed.

(** ** An example *)

#[local] Existing Instance example_locals.

(** The library on the packet at address 0, with all the memory it asks for. *)
Definition example_lib : SrtpLib :=
  libsrtp example_kernel all_allocs (fun _ => true) 0 example_kernel_ready (conj (Z.le_refl 0) eq_refl).

Definition example_frames : list (list Z * Z) := [(replicate 4000 7, 2000); (replicate 1400 9, 10)].

Lemma replicate_frame n v length :
  is_u8 v -> 0 <= length < 2 ^ 31 - RTP_PKT_BODY_SIZE -> length + RTP_PKT_BODY_SIZE <= Z.of_nat n ->
  frame_ok (replicate n v, length).
Proof.
  intros Hv Hl Hn. unfold frame_ok, zlen. cbn [fst snd]. rewrite length_replicate. split_and!; try lia. by apply Forall_replicate.
Qed.

Lemma example_frames_ok : Forall frame_ok example_frames.
Proof.
  unfold example_frames. change RTP_PKT_BODY_SIZE with 1366. constructor; [|constructor; [|constructor]];
    apply replicate_frame; unfold fits; change RTP_PKT_BODY_SIZE with 1366; lia.
Qed.

Lemma camera_stream_encrypted_witness :
  exists c' c'' evs m,
    @prepare_srtp_sender example_lib (@zeroed_sender example_lib) (replicate 96 0) 0 7 3 true 5004 42
      (base64_encode example_key ++ 0 :: []) = Ret c' /\
    send_frames example_kernel all_allocs (fun _ => true) 0 example_kernel_ready (conj (Z.le_refl 0) eq_refl) c'
      example_frames = Some (c'', evs) /\ zlen evs = 6 /\
    packet_sent m (htonl (u32 42)) 0 3 evs 2.
Proof.
  destruct (camera_stream_encrypted example_kernel all_allocs (fun _ => true) 0 example_kernel_ready (conj (Z.le_refl 0) eq_refl)
    (@zeroed_sender example_lib) (replicate 96 0) 0 7 3 5004 42 example_key [])
    as [[_ Hx]|(c' & key & l & m & E & _ & _ & _ & Hall)].
  - reflexivity.
  - apply Forall_replicate. unfold fits. lia.
  - reflexivity.
  - apply Forall_replicate. unfold fits. lia.
  - apply u8_list_dec. reflexivity.
  - reflexivity.
  - destruct (Hx eq_refl).
  - destruct (Hall example_frames example_frames_ok ltac:(reflexivity)) as (c'' & evs & Ef & Hz & Hn).
    exists c', c'', evs, m. split; [exact E|]. split; [exact Ef|]. split; [exact Hz|]. apply Hn. split; [lia|reflexivity].
Defined.
